(* ===== verification/_CoqProject ===== *)
-Q . S2P
Prelude.v
JsNum.v
JsValue.v
Errors.v
DomainTypes.v
ValueObjects.v
RetryStrategy.v
Delivery.v
Destination.v
CircuitBreaker.v
Bulkhead.v
Backpressure.v
RetryExec.v
Store.v
StateMachine.v
Connectors.v
Worker.v
RateLimit.v
Text.v
IsoDate.v
Redis.v
Leader.v
Coordinator.v
Hmac.v
Access.v
Recovery.v
TaskResult.v
Destinations.v
Services.v
Repositories.v
Ingest.v
UseCases.v
QueueManager.v
QueueSetup.v
Quotas.v
WorkerRecovery.v
Health.v
Monitoring.v
JsonText.v
Cache.v
Utils.v
Decorators.v
Wrappers.v
InputChecks.v
Secrets.v
Database.v
Config.v
AuditTrail.v
Logging.v
Telemetry.v
Api.v
Portal.v
Analytics.v
Pools.v
Bootstrap.v
