(* ===== verification/Prelude.v ===== *)
(** * QueueForge: a verification development

    QueueForge is a TypeScript service that accepts the results of AI tasks and
    delivers each of them to one or more destinations (web hooks, databases,
    queues, audit trails).  A delivery is a row of a database whose status is
    PENDING, PROCESSING, COMPLETED, SCHEDULED_RETRY or FAILED_DLQ (dead-lettered).
    A worker takes a job, reads the delivery, asks the circuit breaker of its
    destination whether to try, takes a slot of the bulkhead of the destination's
    type, hands the payload to a connector, and records the outcome: an attempt,
    a new status, a report to the breaker.  Failures are classified as retryable
    or permanent and retried with a backoff.  Backpressure monitors shed jobs
    when queues grow.

    This library translates the program's own logic into Gallina and proves what
    it does.  The sources are those of the directory [src/src/]; the comment in
    front of a definition names the file, the lines and the symbol it translates,
    relative to that directory.

    ** Conventions

    - A JavaScript number is [JsNum.num] (NaN, the infinities, a rational); its
      binary64 rounding is written out where the code's result depends on it.
      Integers the code only counts with are [Z].  A [Date] is a [date], [None]
      being the invalid one.  A value of type [any] is [JsValue.jsval].
    - A method of a mutable object is a [meth S E A], a function from the state to
      the new state and an outcome [Ok] or [Throw]: writes made before a throw are
      kept.  The clock, the random draws and generated identifiers are arguments.
      A synchronous part reads the clock once.
    - An asynchronous method that waits is split at its waits into synchronous
      parts; systems of calls in progress are step relations over those parts, so
      that theorems hold for every interleaving.
    - A JavaScript [Map] is an association list in insertion order ([jmap_get],
      [jmap_set], [jmap_delete]).
    - What lies outside the repository is a parameter, a class with the documented
      laws of the library and a concrete instance on which the examples and the
    witnesses are evaluated.  PostgreSQL behind Prisma: [Store.Prisma] (find,
    update and create of deliveries and attempts), [Recovery.Listing] and
    [Services.LogTable] (listing queries), [Repositories.Delegate] (any model),
    [TaskResult.Results], [Destinations.DestTable], [Ingest.IdemCache],
    [Database.TxClient] (transactions), [Bootstrap.SeedClient].  Redis:
    [Redis.KeySpace] (keys with expiry), [RateLimit.ZSets] (sorted sets).  BullMQ:
    [Recovery.QueueOf] with [Recovery.Locks] (jobs a worker holds) and
    [Recovery.OwnIds] (ids of the caller's own, listings that fail),
    [QueueManager.Counting].  Others: the HTTP client and hash of [Connectors.Net], [Hmac.Hmac], [Access.Tokens] (web
    tokens), [Cache.Sha256], [Utils.Aes], [Quotas.Codec], [Database.Breaker]
    (opossum), [InputChecks.Zod] and [Config.Zod] (schemas),
    [InputChecks.UrlParser], [Bootstrap.Probes] and [Bootstrap.RedisProbe] (the
    services a start looks at), [Telemetry.TraceContext.Otel] (OpenTelemetry's
    context) and [Telemetry.Exported.Prom] (the register of exported metrics).

    ** The files

    - [Prelude], [JsNum], [JsValue]: the outcome and method monads, maps, the
      shared tactics ([munfold], [str_cases], [exact_conv]) and hint databases
      ([qf], [qf_num]); numbers; strings, values and thrown errors.
    - [Errors]: the error classes of [domain/errors/], [application/errors/] and
      [resilience/errors/].
    - [DomainTypes], [ValueObjects], [RetryStrategy]: [domain/value-objects/]:
      statuses and destination types, HTTP status codes, delivery errors, attempts,
      payloads, confidence scores; the retry strategy with its delays, and the
      backoff of [resilience/retry/] and [shared/].
    - [Delivery], [Destination]: the entities of [domain/entities/] with their
      guarded and unguarded methods.
    - [CircuitBreaker] ([resilience/circuit-breaker/]): [Breaker], the breaker and
      its metrics; [Manager], one breaker per destination; [RateBreaker], the
      failure-rate breaker; [CbConfig].
    - [Bulkhead] ([resilience/bulkhead/]): [Pool], the slots and the wait queue;
      [Bulkhead], with the calls in progress; [BulkheadManager]; [PoolManager].
    - [Backpressure] ([resilience/backpressure/]): queue monitor, shedding, alarms,
      the adaptive concurrency limiter.
    - [RetryExec] ([resilience/retry/], [resilience/timeout/]): the retry executor,
      time-outs, the retry scheduler.
    - [Store] ([infrastructure/repositories/]): the deliveries and attempts tables
      and the repositories the worker writes through.
    - [StateMachine] ([worker/]): [Transitions] and [StateMachine], the worker's
      state machine; [Classifier]; [AttemptRecorder].
    - [Connectors] ([worker/connectors/]): the four connectors and their factory.
    - [Worker] ([worker/delivery-executor.ts], [worker/job-processor.ts]):
      [Executor], one execution from the look-up to the release of its slot;
      [JobProcessor], the jobs in progress and their statistics.
    - [RateLimit], [Quotas] ([security/rate-limiting/], [security/rate-limit/]):
      the sliding-window counter over memory or a Redis wrapper and the limiter;
      the quota tracker, the older limiters and budgets.
    - [Text], [IsoDate], [JsonText]: operations of the language on strings, dates
      as text, [JSON.parse].
    - [Redis] ([infrastructure/redis/]): the key space, the wrapper over a client
      that most components receive, the key builder.
    - [Leader], [Coordinator] ([daemon/coordinator/], [daemon/base-daemon.ts]): the
      election by a lease and the nodes that run it; the coordinator of daemons.
    - [Hmac], [Access] ([security/hmac/], [security/auth/],
      [security/authorization/]): signatures with replay protection; roles, tokens,
      keys and the guard.
    - [Recovery], [Health], [Monitoring] ([daemon/recovery/], [daemon/health/],
      [daemon/metrics/], [observability/health/]): the recovery daemons over a job
      queue and the deliveries; probes, scores, alerts and service levels; the
      dead-letter monitor and the collectors.
    - [TaskResult], [Destinations], [Services], [Ingest], [UseCases]
      ([application/] with the entities and stores it uses): the services as
      written over records of optional functions, and as the program wires them.
    - [Repositories] ([infrastructure/repositories/]), [QueueManager], [QueueSetup]
      ([infrastructure/queue/]), [Pools] (connections and their monitors), [Cache] ([infrastructure/cache/]), [Database]
      ([infrastructure/database/], the Redis and HTTP clients): the adapters.
    - [WorkerRecovery] ([worker/recovery/]): stale deliveries, heartbeats, the
      worker's shutdown and monitor.
    - [InputChecks], [Secrets] ([security/validation/], [api/validators/],
      [security/secrets/]): the checks of requests; the manager of secrets.
    - [Utils], [Decorators], [Wrappers] ([shared/]): helpers, guards, method
      decorators; [Wrappers.Watched] is the scheme of those that only watch.
    - [Config] ([config/]): the variables and the files of the environment, the
      schemas, the loaders of each part and their checks.
    - [Api] ([api/]): [ErrorSerializer], [Envelopes], [Handlers] (controllers, over
      records of the functions they look for and as the program wires them),
      [Routes] (routers as lists of guarded routes), [Filters] (middleware),
      [Dashboard].
    - [AuditTrail], [Logging], [Telemetry] ([observability/]): the audit trail over
      its storages; the contexts and lines of the log and the masking of secrets;
      trace contexts and their header, spans, instruments, exported metrics.
    - [Portal] ([api/admin/], [api/controllers/admin/], [admin/services/]): the
      administration portal's paging, services, controllers and router, the
      console's controllers and the analysers.
    - [Analytics] ([analytics/]): ad-hoc queries, exports, cached results, reports.
    - [Bootstrap] ([bootstrap/], [main.ts]): the container, the start of the
      process with its checks, and its stop.

    ** What the theorems show

    - One execution ([Worker.Executor]).  Every path, throwing ones included, moves
      statuses along the transition table only ([execution_follows_table]) and
      returns its slot ([slot_released]); success completes the delivery with one
      attempt; a retryable failure reschedules it.  Three theorems state the paths
      that do not do what they mean to: permanent failures are rescheduled instead
      of dead-lettered, an open circuit and a missing destination leave the
      delivery PROCESSING.
    - The worker's parts: the state machine over any sequence of transitions, the
      classifier against [HttpStatusCode.isRetryable], the recorder's numbering,
      the connectors' outcomes, the processor's counters under interleaving.
    - The breaker refines a three-state automaton, trips on consecutive failures,
      stays shut for its time-out, recovers; its counters account for every call.
    - The bulkhead never exceeds its slots and leaks none, in every interleaving;
      the wait queue is fair.
    - The retry executor terminates within its attempts and returns the first
      outcome that must not be followed; delays are bounded and monotone; a
      delivery whose attempts all fail is dead-lettered after its last retry.
    - The entity's guards are exact, its guarded life cycle keeps its data
      consistent, and it survives persistence.
    - Shedding counts and orders exactly; the adaptive limiter converges.
    - In memory no window lets more than its limit through; over the repository's
      Redis wrapper the window never slides, and the token bucket never refuses.
      The bucket kept in Redis stays under its rate over any calls of a key that
      do not overlap, while calls that overlap all pass, read and write being
      separate commands.
    - At most one node holds an unexpired lease, in every interleaving of nodes,
      as long as no answer is acted on after the lease it was read under, whoever
      held that ([lease_exclusive]); the coordinator's shutdown stops every daemon.
    - A result is accepted once, stored, and fanned out to the destinations whose
      filters match ([Ingest]); the services over the entity repository and over
      what the program wires are compared, and what the wiring loses is stated.
    - Round trips: requests through the entity and its row, where the table takes
      the version; job data through its text, dates, [JSON]; signatures through
      header and verifier, once where the verifications do not overlap.
    - The delayed-queue processor enqueues exactly the deliveries it reports; what
      the reconciler does to the queue is stated with every refusal of the queue
      library, and that it re-enqueues nothing over it as its ids are refused; a
      stale delivery goes back to the queue once.
    - Health alerts are announced at each change of severity and at no other time;
      waiting for a healthy start ends in time.
    - A transaction leaves all of its callback's work or none, is tried again only
      after a deadlock and at most three times.
    - An asynchronous singleton is started once; the process takes traffic exactly
      when every check answered well; from a signal on, over [main.ts], a timer is
      set until it has ended, and ends it when it fires; it ends with 0 only after
      an orderly shutdown.
    - A configuration that loads has its numbers in range; the checks of the
      loaders and those of the schemas are compared.
    - An error of the program's own classes is answered with its status and code;
      which routes ask for which permission is stated for the
      routers, and that the routers as they are wired ask for none; so is what the
      handlers answer over the services they are given.
    - Each call of the audit logger leaves one event that says who and with what
      outcome in memory, and one row in the table it is wired to, whose actor,
      address and agent are empty; only a login's row names its user, as its entity.
    - No text stays under a sensitive name along the objects of a log line; a trace
      header brings back what was injected; a span ends once; a gauge shows what
      was last set, and every counter's call counts under labels it declares.
    - The portal's pages are in range and cover a listing; a batch of retries
      answers for each of its deliveries once; any header enters the portal.
    - A CSV export without quotes in its texts is read back as it was; what the
      server prints of its commands is read back by the monitor; a cached result
      comes back until its time is over.
    - A watched method ends as it would alone and is accounted for once.
    - What the input checks accept is compared with what the entities accept, and
      what a rotated secret is in other processes with what they have.

    ** Fuel and bounds

    [RetryExec.RetryExecutor.execute] runs its loop with the fuel [fuel_for], one
    unit per allowed attempt and one more; [execute_first_settled] shows that it
    returns.  The transaction's loop has the fuel of its three attempts.  The waits
    ([Health.Startup], [WorkerRecovery.GracefulShutdown]) take one unit per look at
    the clock, and their theorems name enough.  The parser of [JsonText] takes one
    unit per character and one more; the chunks of [Utils.Arrays] one per element.
    [JsValue.frac_digits] looks for at most 17 fraction digits, those a binary64
    number prints.  All other recursion is structural.  Counters are unbounded [Z]:
    the program would need 2^53 increments to leave them.

    ** What is not modelled

    The lines a component logs, the spans it opens and the gauges it exports are
    left out of its own model (what a line, a span and a gauge are is in
    [Logging] and [Telemetry]).  Express, Prisma, ioredis, BullMQ, opossum,
    prom-client, OpenTelemetry and zod are outside: what the code relies on of
    them is in the classes above.  Not modelled: [presentation/], which the build
    leaves out and which imports a file that does not exist, with the older worker
    and middleware it uses; the classes of [domain/events/], whose only instances
    are those of [TaskResult], and interfaces and types that only declare; the
    modules that only pass objects to constructors, where no component depends on
    what they pass; documentation pages; the front end, which calls the HTTP
    interface and holds no logic of deliveries.  An exception of the deliveries
    table other than a missing record or parent (a lost connection, say) is not
    modelled in [Store]; the components of [Database], [Repositories] and
    [Bootstrap] let their clients throw anything. *)
From Stdlib Require Import QArith Qround Qpower Lqa.
From stdpp Require Import base tactics numbers list strings gmap pretty.

(** ** Scope, hint databases and shared tactics *)

Declare Scope qf_scope.
Delimit Scope qf_scope with qf.
#[global] Open Scope Z_scope.

Create HintDb qf.
Create HintDb qf_num.

(** Close a goal that is convertible with the statement of [H]. *)
Ltac exact_conv H := let P := type of H in change P; exact H.

(** ** Outcomes of a call: a value, or a thrown error *)

Inductive res (E A : Type) : Type :=
| Ok (a : A)
| Throw (e : E).
Arguments Ok {E A} a.
Arguments Throw {E A} e.

#[global] Instance res_ret {E} : MRet (res E) := fun A a => Ok a.
#[global] Instance res_bind {E} : MBind (res E) :=
  fun A B k m => match m with Ok a => k a | Throw e => Throw e end.
#[global] Instance res_fmap {E} : FMap (res E) :=
  fun A B f m => match m with Ok a => Ok (f a) | Throw e => Throw e end.

Definition is_ok {E A} (r : res E A) : bool :=
  match r with Ok _ => true | Throw _ => false end.

(** A method of an object with state [S]: it returns the new state together
    with its outcome, so the writes made before a [throw] are kept. *)
Definition meth (S E A : Type) : Type := S -> S * res E A.

#[global] Instance meth_ret {S E} : MRet (meth S E) := fun A a s => (s, Ok a).
#[global] Instance meth_bind {S E} : MBind (meth S E) :=
  fun A B k m s =>
    match m s with
    | (s', Ok a) => k a s'
    | (s', Throw e) => (s', Throw e)
    end.

Section meth_ops.
Context {S E : Type}.

Definition get_this : meth S E S := fun s => (s, Ok s).
Definition gets {A} (f : S -> A) : meth S E A := fun s => (s, Ok (f s)).
Definition put_this (s' : S) : meth S E unit := fun _ => (s', Ok tt).
Definition modify (f : S -> S) : meth S E unit := fun s => (f s, Ok tt).
Definition throw {A} (e : E) : meth S E A := fun s => (s, Throw e).
Definition lift_res {A} (r : res E A) : meth S E A := fun s => (s, r).
Definition try_catch {A} (m : meth S E A) (h : E -> meth S E A) : meth S E A :=
  fun s => match m s with
           | (s', Throw e) => h e s'
           | ok => ok
           end.

Lemma bind_ret_l {A B} (a : A) (k : A -> meth S E B) s : (mret a ≫= k) s = k a s.
Proof. reflexivity. Qed.

Lemma bind_assoc {A B C} (m : meth S E A) (k : A -> meth S E B) (h : B -> meth S E C) s :
  ((m ≫= k) ≫= h) s = (m ≫= (fun a => k a ≫= h)) s.
Proof. unfold mbind, meth_bind. by destruct (m s) as [s' [a|e]]. Qed.

Lemma bind_throw {A B} (e : E) (k : A -> meth S E B) s : (throw e ≫= k) s = (s, Throw e).
Proof. reflexivity. Qed.

(** A call that returns, and the rest of the program. *)
Lemma bind_ok {A B} (m : meth S E A) (k : A -> meth S E B) s s' a :
  m s = (s', Ok a) -> (m ≫= k) s = k a s'.
Proof. intros Hm. unfold mbind, meth_bind. by rewrite Hm. Qed.
End meth_ops.


(** ** JavaScript [Map]s

    An ordered association list: setting an existing key keeps its place, a new
    key goes last, and iteration follows the order. *)
Section jmap.
Context {K A : Type} `{EqDecision K}.
Implicit Types (m : list (K * A)) (k : K).

Fixpoint jmap_get k m : option A :=
  match m with
  | [] => None
  | (k', v) :: m => if decide (k = k') then Some v else jmap_get k m
  end.
Fixpoint jmap_set k (v : A) m : list (K * A) :=
  match m with
  | [] => [(k, v)]
  | (k', v') :: m => if decide (k = k') then (k, v) :: m else (k', v') :: jmap_set k v m
  end.
Fixpoint jmap_delete k m : list (K * A) :=
  match m with
  | [] => []
  | (k', v') :: m => if decide (k = k') then m else (k', v') :: jmap_delete k m
  end.

Lemma jmap_get_set_eq k v m : jmap_get k (jmap_set k v m) = Some v.
Proof.
  induction m as [|[k' v'] m IH]; simpl; [by rewrite decide_True|].
  destruct (decide (k = k')); simpl; [by rewrite decide_True|by rewrite decide_False].
Qed.

Lemma jmap_get_set_ne k k' v m : k <> k' -> jmap_get k (jmap_set k' v m) = jmap_get k m.
Proof.
  intros Hne. induction m as [|[k2 v2] m IH]; simpl; [by rewrite decide_False|].
  destruct (decide (k' = k2)) as [->|]; simpl; [by rewrite !decide_False|].
  by destruct (decide (k = k2)).
Qed.

Lemma jmap_get_In k v m : jmap_get k m = Some v -> (k, v) ∈ m.
Proof.
  induction m as [|[k' v'] m IH]; simpl; [done|].
  destruct (decide (k = k')) as [->|]; [intros [= ->]; by left|]. right. auto.
Qed.

Lemma jmap_set_keys k v m :
  map fst (jmap_set k v m) =
  match jmap_get k m with Some _ => map fst m | None => map fst m ++ [k] end.
Proof.
  induction m as [|[k' v'] m IH]; simpl; [done|].
  destruct (decide (k = k')) as [->|]; simpl; [done|]. rewrite IH. by destruct (jmap_get k m).
Qed.

Lemma jmap_set_Forall (P : A -> Prop) k v m :
  P v -> Forall (fun e => P (snd e)) m -> Forall (fun e => P (snd e)) (jmap_set k v m).
Proof.
  intros Hv. induction 1 as [|[k' v'] m Hx Hm IH]; simpl; [by repeat constructor|].
  destruct (decide (k = k')); by constructor.
Qed.

Lemma jmap_set_NoDup k v m : NoDup (map fst m) -> NoDup (map fst (jmap_set k v m)).
Proof.
  rewrite jmap_set_keys. destruct (jmap_get k m) eqn:E; [done|]. intros H.
  apply NoDup_app. split; [done|]. split; [|by apply NoDup_singleton].
  intros x Hx ->%list_elem_of_singleton. clear H.
  induction m as [|[k' v'] m IH]; simpl in *; [by apply not_elem_of_nil in Hx|].
  destruct (decide (k = k')); [done|]. apply elem_of_cons in Hx as [->|Hx]; auto.
Qed.
(** How many entries satisfy a predicate. *)
Fixpoint jmap_count (p : A -> bool) m : Z :=
  match m with
  | [] => 0
  | (_, v) :: m => (if p v then 1 else 0) + jmap_count p m
  end.

Lemma jmap_count_nonneg p m : 0 <= jmap_count p m.
Proof. induction m as [|[k v] m IH]; simpl; [lia|]. destruct (p v); lia. Qed.

Lemma jmap_count_set p k v m :
  jmap_count p (jmap_set k v m) =
  jmap_count p m + (if p v then 1 else 0)
  - match jmap_get k m with Some v0 => if p v0 then 1 else 0 | None => 0 end.
Proof.
  induction m as [|[k' v'] m IH]; simpl; [lia|].
  destruct (decide (k = k')) as [->|]; simpl; [lia|]. rewrite IH. lia.
Qed.

Lemma jmap_count_delete p k m :
  jmap_count p (jmap_delete k m) =
  jmap_count p m - match jmap_get k m with Some v0 => if p v0 then 1 else 0 | None => 0 end.
Proof.
  induction m as [|[k' v'] m IH]; simpl; [lia|].
  destruct (decide (k = k')) as [->|]; simpl; [lia|]. rewrite IH. lia.
Qed.

Lemma jmap_get_delete_ne k k' m : k <> k' -> jmap_get k (jmap_delete k' m) = jmap_get k m.
Proof.
  intros Hne. induction m as [|[k2 v2] m IH]; simpl; [done|].
  destruct (decide (k' = k2)) as [->|]; simpl; [by rewrite decide_False|].
  by destruct (decide (k = k2)).
Qed.

Lemma jmap_get_None_keys k m : jmap_get k m = None <-> k ∉ map fst m.
Proof.
  induction m as [|[k' v'] m IH]; simpl.
  - split; [intros _; apply not_elem_of_nil|done].
  - rewrite elem_of_cons. destruct (decide (k = k')); [naive_solver|]. rewrite IH. naive_solver.
Qed.

Lemma jmap_delete_keys_sub k x m : x ∈ map fst (jmap_delete k m) -> x ∈ map fst m.
Proof.
  induction m as [|[k' v'] m IH]; simpl; [done|].
  destruct (decide (k = k')); rewrite ?elem_of_cons; simpl; rewrite ?elem_of_cons; naive_solver.
Qed.

Lemma jmap_delete_NoDup k m :
  NoDup (map fst m) -> NoDup (map fst (jmap_delete k m)) /\ jmap_get k (jmap_delete k m) = None.
Proof.
  induction m as [|[k' v'] m IH]; simpl; [done|]. intros [Hnin Hnd]%NoDup_cons.
  destruct (decide (k = k')) as [->|Hne].
  - split; [done|]. by apply jmap_get_None_keys.
  - destruct (IH Hnd) as [IH1 IH2]. simpl. rewrite decide_False by done. split; [|done].
    constructor; [|done]. intros H%jmap_delete_keys_sub. done.
Qed.
Lemma jmap_count_pos p k v m : jmap_get k m = Some v -> p v = true -> 0 < jmap_count p m.
Proof.
  intros Hg Hp. induction m as [|[k' v'] m IH]; simpl in *; [done|].
  pose proof (jmap_count_nonneg p m).
  destruct (decide (k = k')); [injection Hg as ->; rewrite Hp; lia|].
  specialize (IH Hg). destruct (p v'); lia.
Qed.
End jmap.
