(* ===== verification/JsNum.v ===== *)
(** * JavaScript numbers and dates

    A JS [number] is [NaN], an infinity or a finite value.  Finite values are
    exact rationals: the rounding of binary64 arithmetic and the sign of zero
    are not modelled, while the comparisons and the operations on [NaN] and the
    infinities (which the guards of the code let through or reject) follow
    IEEE-754.  Counters and instants are integers ([Z]).  A [Date] is its time
    value, [None] being the invalid date. *)
From Stdlib Require Import QArith Qround Qpower Lqa.
From stdpp Require Import base tactics numbers list.
From S2P Require Import Prelude.
#[local] Open Scope Q_scope.
#[local] Open Scope Z_scope.

(** ** Rational helpers *)

Definition Qlt_bool (p q : Q) : bool := negb (Qle_bool q p).

Lemma Qlt_bool_iff p q : Qlt_bool p q = true <-> (p < q)%Q.
Proof.
  unfold Qlt_bool. rewrite negb_true_iff. split; intros H.
  - apply Qnot_le_lt. intros Hle%Qle_bool_iff. congruence.
  - destruct (Qle_bool q p) eqn:E; [|done]. apply Qle_bool_iff in E.
    exfalso. by apply (Qlt_not_le _ _ H).
Qed.

Lemma Qlt_bool_false p q : Qlt_bool p q = false <-> (q <= p)%Q.
Proof.
  unfold Qlt_bool. rewrite negb_false_iff. apply Qle_bool_iff.
Qed.

Lemma Qle_bool_false p q : Qle_bool p q = false <-> (q < p)%Q.
Proof. rewrite <- Qlt_bool_iff. unfold Qlt_bool. by rewrite negb_true_iff. Qed.

#[global] Instance Qlt_bool_proper : Proper (Qeq ==> Qeq ==> eq) Qlt_bool.
Proof. intros p p' Hp q q' Hq. unfold Qlt_bool. by rewrite Hp, Hq. Qed.

Definition Qmin' (p q : Q) : Q := if Qle_bool p q then p else q.
Definition Qmax' (p q : Q) : Q := if Qle_bool p q then q else p.

#[global] Instance Qmin'_proper : Proper (Qeq ==> Qeq ==> Qeq) Qmin'.
Proof.
  intros p p' Hp q q' Hq. unfold Qmin'. rewrite <- Hp, <- Hq.
  by destruct (Qle_bool p q).
Qed.

#[global] Instance Qmax'_proper : Proper (Qeq ==> Qeq ==> Qeq) Qmax'.
Proof.
  intros p p' Hp q q' Hq. unfold Qmax'. rewrite <- Hp, <- Hq.
  by destruct (Qle_bool p q).
Qed.

Lemma Qmin'_l p q : (Qmin' p q <= p)%Q.
Proof. unfold Qmin'. destruct (Qle_bool p q) eqn:E; [lra|]. apply Qle_bool_false in E. lra. Qed.

Lemma Qmin'_r p q : (Qmin' p q <= q)%Q.
Proof. unfold Qmin'. destruct (Qle_bool p q) eqn:E; [by apply Qle_bool_iff in E|lra]. Qed.

Lemma Qmax'_l p q : (p <= Qmax' p q)%Q.
Proof. unfold Qmax'. destruct (Qle_bool p q) eqn:E; [by apply Qle_bool_iff in E|lra]. Qed.

Lemma Qmax'_r p q : (q <= Qmax' p q)%Q.
Proof. unfold Qmax'. destruct (Qle_bool p q) eqn:E; [lra|]. apply Qle_bool_false in E. lra. Qed.

Lemma Qmin'_glb p q r : (r <= p)%Q -> (r <= q)%Q -> (r <= Qmin' p q)%Q.
Proof. unfold Qmin'. by destruct (Qle_bool p q). Qed.

Lemma Qmax'_lub p q r : (p <= r)%Q -> (q <= r)%Q -> (Qmax' p q <= r)%Q.
Proof. unfold Qmax'. by destruct (Qle_bool p q). Qed.

Lemma Qmin'_mono p p' q q' : (p <= p')%Q -> (q <= q')%Q -> (Qmin' p q <= Qmin' p' q')%Q.
Proof.
  intros. apply Qmin'_glb.
  - pose proof (Qmin'_l p q). lra.
  - pose proof (Qmin'_r p q). lra.
Qed.

(** [2 ^ n] for an integer exponent, as [Math.pow(2, n)]. *)
Definition Qpow2 (n : Z) : Q := Qpower 2 n.

Lemma Qpow2_pos n : (0 < Qpow2 n)%Q.
Proof. apply Qpower_0_lt. lra. Qed.

Lemma Qpow2_succ n : (Qpow2 (n + 1) == 2 * Qpow2 n)%Q.
Proof. unfold Qpow2. rewrite Qpower_plus by (intros H; discriminate H). simpl. lra. Qed.

Lemma Qpow2_mono m n : m <= n -> (Qpow2 m <= Qpow2 n)%Q.
Proof.
  intros H. replace n with (m + Z.of_nat (Z.to_nat (n - m))) by lia.
  generalize (Z.to_nat (n - m)) as k. induction k as [|k IH].
  - rewrite Z.add_0_r. lra.
  - replace (m + Z.of_nat (S k)) with (m + Z.of_nat k + 1) by lia.
    rewrite Qpow2_succ. pose proof (Qpow2_pos (m + Z.of_nat k)). lra.
Qed.

Lemma Qpow2_nonneg_1 n : 0 <= n -> (1 <= Qpow2 n)%Q.
Proof. intros H. apply (Qpow2_mono 0 n) in H. exact H. Qed.

Lemma Qpow2_Z n : 0 <= n -> (Qpow2 n == inject_Z (2 ^ n))%Q.
Proof. intros H. unfold Qpow2. rewrite Zpower_Qpower by done. reflexivity. Qed.

Lemma Qfloor_inject_le z q : (inject_Z z <= q)%Q -> z <= Qfloor q.
Proof. intros H. apply Qfloor_resp_le in H. by rewrite Qfloor_Z in H. Qed.

(** A product of nonnegative rationals is nonnegative, and monotone. *)
Lemma Qmul_nonneg p q : (0 <= p)%Q -> (0 <= q)%Q -> (0 <= p * q)%Q.
Proof. apply Qmult_le_0_compat. Qed.

Lemma Qmul_mono_l p q r : (0 <= p)%Q -> (q <= r)%Q -> (p * q <= p * r)%Q.
Proof. intros Hp H. rewrite !(Qmult_comm p). by apply Qmult_le_compat_r. Qed.

Lemma Qmul_ge1_r p k : (0 <= p)%Q -> (1 <= k)%Q -> (p <= p * k)%Q.
Proof.
  intros Hp Hk. pose proof (Qmul_mono_l p 1 k Hp Hk) as H.
  rewrite Qmult_1_r in H. exact H.
Qed.

(** Rounding down commutes with an integer cap. *)
Lemma Qfloor_min_Z q z :
  Qfloor (Qmin' q (inject_Z z)) = Z.min (Qfloor q) z.
Proof.
  unfold Qmin'. destruct (Qle_bool q (inject_Z z)) eqn:E.
  - apply Qle_bool_iff in E. apply Qfloor_resp_le in E. rewrite Qfloor_Z in E. lia.
  - apply Qle_bool_false in E. rewrite Qfloor_Z.
    assert (z <= Qfloor q) by (apply Qfloor_inject_le, Qlt_le_weak, E). lia.
Qed.

Lemma Qmin'_Z a b : Qmin' (inject_Z a) (inject_Z b) = inject_Z (Z.min a b).
Proof.
  unfold Qmin'. destruct (Qle_bool (inject_Z a) (inject_Z b)) eqn:E.
  - apply Qle_bool_iff in E. rewrite <- Zle_Qle in E. by rewrite Z.min_l.
  - apply Qle_bool_false in E. rewrite <- Zlt_Qlt in E. by rewrite Z.min_r by lia.
Qed.

#[export] Hint Resolve Qmul_ge1_r Qmul_nonneg Qmul_mono_l Qmin'_l Qmin'_r Qmax'_l Qmax'_r Qmin'_glb
  Qmax'_lub Qpow2_pos Qpow2_nonneg_1 : qf_num.

(** Reflect the boolean comparisons of a goal's hypotheses. *)
Ltac qbool :=
  repeat match goal with
  | H : Qle_bool _ _ = true |- _ => apply Qle_bool_iff in H
  | H : Qle_bool _ _ = false |- _ => apply Qle_bool_false in H
  | H : Qlt_bool _ _ = true |- _ => apply Qlt_bool_iff in H
  | H : Qlt_bool _ _ = false |- _ => apply Qlt_bool_false in H
  end.

(** ** The type of numbers *)

Inductive num : Type :=
| NaN
| Inf (neg : bool)
| Fin (q : Q).

Definition ofZ (z : Z) : num := Fin (inject_Z z).
Coercion ofZ : Z >-> num.

Definition is_nan (n : num) : bool := match n with NaN => true | _ => false end.
Definition is_finite (n : num) : bool := match n with Fin _ => true | _ => false end.

Definition num_ltb (a b : num) : bool :=
  match a, b with
  | Fin p, Fin q => Qlt_bool p q
  | NaN, _ | _, NaN => false
  | Inf true, Inf true => false
  | Inf true, _ => true
  | Inf false, _ => false
  | Fin _, Inf neg => negb neg
  end.
Definition num_eqb (a b : num) : bool :=
  match a, b with
  | Fin p, Fin q => Qeq_bool p q
  | Inf s, Inf t => Bool.eqb s t
  | _, _ => false
  end.
Definition num_leb (a b : num) : bool := num_ltb a b || num_eqb a b.
Definition num_gtb (a b : num) : bool := num_ltb b a.
Definition num_geb (a b : num) : bool := num_leb b a.

Declare Scope num_scope.
Delimit Scope num_scope with num.
Bind Scope num_scope with num.
Notation "a <? b" := (num_ltb a b) : num_scope.
Notation "a <=? b" := (num_leb a b) : num_scope.
Notation "a >? b" := (num_gtb a b) : num_scope.
Notation "a >=? b" := (num_geb a b) : num_scope.
Notation "a =? b" := (num_eqb a b) : num_scope.

Definition num_neg (a : num) : num :=
  match a with NaN => NaN | Inf s => Inf (negb s) | Fin q => Fin (- q) end.
Definition num_add (a b : num) : num :=
  match a, b with
  | Fin p, Fin q => Fin (p + q)
  | NaN, _ | _, NaN => NaN
  | Inf s, Inf t => if Bool.eqb s t then Inf s else NaN
  | Inf s, _ => Inf s
  | _, Inf s => Inf s
  end.
Definition num_sub (a b : num) : num := num_add a (num_neg b).

(** The sign of a number as the infinities see it: [None] for zero. *)
Definition num_sign (a : num) : option bool :=
  match a with
  | NaN => None
  | Inf s => Some s
  | Fin q => if Qeq_bool q 0 then None else Some (Qlt_bool q 0)
  end.
Definition num_mul (a b : num) : num :=
  match a, b with
  | Fin p, Fin q => Fin (p * q)
  | NaN, _ | _, NaN => NaN
  | _, _ => match num_sign a, num_sign b with
            | Some s, Some t => Inf (xorb s t)
            | _, _ => NaN
            end
  end.
Definition num_div (a b : num) : num :=
  match a, b with
  | NaN, _ | _, NaN => NaN
  | Fin p, Fin q =>
      if Qeq_bool q 0
      then (if Qeq_bool p 0 then NaN else Inf (Qlt_bool p 0))
      else Fin (p / q)
  | Fin _, Inf _ => Fin 0
  | Inf s, Fin q => Inf (xorb s (Qlt_bool q 0))
  | Inf _, Inf _ => NaN
  end.
Notation "a + b" := (num_add a b) : num_scope.
Notation "a - b" := (num_sub a b) : num_scope.
Notation "a * b" := (num_mul a b) : num_scope.
Notation "a / b" := (num_div a b) : num_scope.

(** [Math.min], [Math.max]: [NaN] as soon as an argument is. *)
Definition num_min (a b : num) : num :=
  match a, b with
  | NaN, _ | _, NaN => NaN
  | _, _ => if num_leb a b then a else b
  end.
Definition num_max (a b : num) : num :=
  match a, b with
  | NaN, _ | _, NaN => NaN
  | _, _ => if num_leb a b then b else a
  end.
Definition num_floor (a : num) : num :=
  match a with Fin q => ofZ (Qfloor q) | _ => a end.
Definition num_ceil (a : num) : num :=
  match a with Fin q => ofZ (Qceiling q) | _ => a end.

(** [Math.round]. *)
Definition num_round (n : num) : num := num_floor (num_add n (Fin (1 # 2))).
(** [Number.isInteger]. *)
Definition num_is_integer (a : num) : bool :=
  match a with Fin q => Qeq_bool q (inject_Z (Qfloor q)) | _ => false end.
(** [ToBoolean] on numbers: [0] and [NaN] are falsy. *)
Definition num_truthy (a : num) : bool :=
  match a with NaN => false | Inf _ => true | Fin q => negb (Qeq_bool q 0) end.

(** [a || b] on numbers. *)
Definition num_or (a b : num) : num := if num_truthy a then a else b.

(** ** Equivalence of numbers: equal as JS values ([NaN] included) *)

#[global] Instance num_equiv : Equiv num := fun a b =>
  match a, b with
  | NaN, NaN => True
  | Inf s, Inf t => s = t
  | Fin p, Fin q => (p == q)%Q
  | _, _ => False
  end.

#[global] Instance num_equivalence : Equivalence (≡@{num}).
Proof.
  split.
  - by intros [| |q].
  - intros [| |p] [| |q]; unfold equiv, num_equiv; done.
  - intros [| |p] [| |q] [| |r]; unfold equiv, num_equiv; try done; by intros -> ->.
Qed.

#[global] Instance Fin_proper : Proper (Qeq ==> (≡)) Fin.
Proof. by intros p q H. Qed.

Ltac num_proper :=
  unfold equiv, num_equiv in *; simpl in *;
  repeat match goal with
  | H : (_ == _)%Q |- _ => rewrite H; clear H
  | H : @eq bool _ _ |- _ => rewrite H; clear H
  end; try done.

#[global] Instance num_ltb_proper : Proper ((≡) ==> (≡) ==> eq) num_ltb.
Proof. intros [| |p] [| |p'] Hp [| |q] [| |q'] Hq; try done; num_proper. Qed.

#[global] Instance num_eqb_proper : Proper ((≡) ==> (≡) ==> eq) num_eqb.
Proof. intros [| |p] [| |p'] Hp [| |q] [| |q'] Hq; try done; num_proper. Qed.

#[global] Instance num_leb_proper : Proper ((≡) ==> (≡) ==> eq) num_leb.
Proof. intros a a' Ha b b' Hb. unfold num_leb. by rewrite Ha, Hb. Qed.

#[global] Instance num_floor_proper : Proper ((≡) ==> (≡)) num_floor.
Proof. intros [| |p] [| |p'] Hp; try done. num_proper. Qed.

#[global] Instance num_min_proper : Proper ((≡) ==> (≡) ==> (≡)) num_min.
Proof.
  intros a a' Ha b b' Hb. unfold num_min.
  assert (num_leb a b = num_leb a' b') as Hl by (by rewrite Ha, Hb).
  destruct a, a', b, b'; try done; simpl in Hl |- *; rewrite <- Hl; by case_match.
Qed.

(** ** Facts on finite numbers *)

Lemma num_leb_Fin p q : num_leb (Fin p) (Fin q) = Qle_bool p q.
Proof.
  unfold num_leb; simpl. destruct (Qle_bool p q) eqn:E.
  - apply Qle_bool_iff in E. apply Qle_lteq in E as [H|H].
    + apply Qlt_bool_iff in H. by rewrite H.
    + apply Qeq_bool_iff in H. rewrite H. apply orb_true_r.
  - apply Qle_bool_false in E. apply orb_false_iff. split.
    + apply Qlt_bool_false. lra.
    + apply not_true_is_false. intros H%Qeq_bool_iff. lra.
Qed.

Lemma num_min_Fin p q : num_min (Fin p) (Fin q) = Fin (Qmin' p q).
Proof. unfold num_min, Qmin'. rewrite num_leb_Fin. by destruct (Qle_bool p q). Qed.

Lemma num_max_Fin p q : num_max (Fin p) (Fin q) = Fin (Qmax' p q).
Proof. unfold num_max, Qmax'. rewrite num_leb_Fin. by destruct (Qle_bool p q). Qed.

Lemma Qle_bool_Z a b : Qle_bool (inject_Z a) (inject_Z b) = (a <=? b).
Proof. unfold Qle_bool; simpl. by rewrite !Z.mul_1_r. Qed.

Lemma num_ltb_Z (a b : Z) : num_ltb a b = (a <? b).
Proof. unfold num_ltb, ofZ, Qlt_bool. rewrite Qle_bool_Z. by rewrite Z.ltb_antisym. Qed.

Lemma num_leb_Z (a b : Z) : num_leb a b = (a <=? b).
Proof. unfold ofZ. rewrite num_leb_Fin. apply Qle_bool_Z. Qed.

Lemma num_is_integer_Z (z : Z) : num_is_integer z = true.
Proof. unfold num_is_integer, ofZ. rewrite Qfloor_Z. apply Qeq_bool_iff. reflexivity. Qed.

Lemma num_eqb_Z (a b : Z) : num_eqb a b = (a =? b).
Proof. unfold num_eqb, ofZ, Qeq_bool. simpl. by rewrite !Z.mul_1_r. Qed.

Lemma num_truthy_Z (z : Z) : num_truthy z = negb (z =? 0).
Proof. unfold num_truthy, ofZ. f_equal. exact (num_eqb_Z z 0). Qed.

Lemma num_max_Z (a b : Z) : num_max a b = ofZ (Z.max a b).
Proof.
  unfold num_max. rewrite num_leb_Z. simpl.
  destruct (Z.leb_spec a b); [by rewrite Z.max_r|by rewrite Z.max_l by lia].
Qed.

Lemma num_min_Z (a b : Z) : num_min a b = ofZ (Z.min a b).
Proof.
  unfold num_min. rewrite num_leb_Z. simpl.
  destruct (Z.leb_spec a b); [by rewrite Z.min_l|by rewrite Z.min_r by lia].
Qed.

#[export] Hint Rewrite num_ltb_Z num_leb_Z num_eqb_Z num_truthy_Z num_is_integer_Z
  num_max_Z num_min_Z Qfloor_Z : qf_num.

(** ** Dates *)

(** The time value of a [Date]: [None] is an invalid date. *)
Definition date : Type := option Z.

(** ECMAScript's [TimeClip]: beyond 8.64e15 ms a date is invalid. *)
Definition max_time : Z := 8640000000000000.
Definition time_clip (t : Z) : date := if Z.abs t <=? max_time then Some t else None.

Definition Qtrunc (q : Q) : Z := if Qle_bool 0 q then Qfloor q else Qceiling q.

(** [new Date(n)] for a number of milliseconds. *)
Definition date_of_num (n : num) : date :=
  match n with Fin q => time_clip (Qtrunc q) | _ => None end.

(** [d.getTime()]. *)
Definition get_time (d : date) : num := match d with Some t => ofZ t | None => NaN end.

Lemma Qtrunc_Z z : Qtrunc (inject_Z z) = z.
Proof. unfold Qtrunc. case_match; [apply Qfloor_Z | apply Qceiling_Z]. Qed.

Lemma date_of_time (d : date) :
  (forall t, d = Some t -> Z.abs t <= max_time) -> date_of_num (get_time d) = d.
Proof.
  destruct d as [t|]; [|done]. intros H. simpl. rewrite Qtrunc_Z. unfold time_clip.
  specialize (H t eq_refl). by rewrite (proj2 (Z.leb_le _ _) H).
Qed.

Lemma Qtrunc_ge z q : 0 <= z -> (inject_Z z <= q)%Q -> z <= Qtrunc q.
Proof.
  intros Hz Hq. unfold Qtrunc.
  rewrite (proj2 (Qle_bool_iff 0 q)).
  - by apply Qfloor_inject_le.
  - apply Qle_trans with (inject_Z z); [|done]. change 0%Q with (inject_Z 0). by rewrite <- Zle_Qle.
Qed.

Lemma time_clip_Some t x : time_clip t = Some x -> x = t.
Proof. unfold time_clip. by case_match; intros [= ->]. Qed.

(** An instant plus a non-negative delay is not before the instant. *)
Lemma date_after now n x :
  0 <= now -> date_of_num (num_add (ofZ now) (num_max (ofZ 0) n)) = Some x -> now <= x.
Proof.
  intros Hn. unfold ofZ. destruct n as [|[]|q]; [done| |done|].
  - cbn. intros H%time_clip_Some. subst. apply Qtrunc_ge; [done|].
    change (inject_Z 0) with 0%Q. lra.
  - rewrite num_max_Fin. cbn [num_add date_of_num]. intros H%time_clip_Some. subst.
    apply Qtrunc_ge; [done|]. pose proof (Qmax'_l (inject_Z 0) q).
    change (inject_Z 0) with 0%Q in *. lra.
Qed.

(** ** Rounding to binary64

    Round to nearest, ties to even, in the normal range: for the computations
    whose result depends on the rounding. *)
Definition Qlog2_floor (q : Q) : Z :=
  let e := Z.log2 (Qnum q) - Z.log2 (Zpos (Qden q)) in
  if Qle_bool (Qpow2 e) q then e else e - 1.
Definition round_half_even (q : Q) : Z :=
  let f := Qfloor q in
  let r := Qminus q (inject_Z f) in
  if Qlt_bool r (1 # 2) then f
  else if Qlt_bool (1 # 2) r then f + 1
  else if Z.even f then f else f + 1.
Definition round64_pos (q : Q) : Q :=
  let e := Qlog2_floor q in
  Qred (inject_Z (round_half_even (q * Qpow2 (52 - e))) * Qpow2 (e - 52)).
Definition round64 (q : Q) : Q :=
  if Qeq_bool q 0 then 0%Q
  else if Qlt_bool q 0 then Qopp (round64_pos (Qopp q)) else round64_pos q.

(** [50 * 1.1] is 55.00000000000001, and [0.1 + 0.2] is 0.30000000000000004. *)
Example round64_ex :
  Qceiling (round64 (50 * round64 (11 # 10))) = 56 /\
  Qeq_bool (round64 (round64 (1 # 10) + round64 (2 # 10))) (round64 (30000000000000004 # 100000000000000000)) = true.
Proof. vm_compute. done. Qed.
