(* ===== verification/JsValue.v ===== *)
(** * JavaScript values and strings

    The values the code receives through its [any] parameters, with the
    conversions the code applies to them ([String(v)], [||], [===], property
    access).  Strings are byte strings, and the case conversions are those of
    ASCII; an object or an array carries the identity [===] compares. *)
From Stdlib Require Import Ascii QArith Qround Qpower Qabs Lqa.
From stdpp Require Import base tactics numbers list strings pretty.
From S2P Require Import Prelude JsNum.

(** ** Strings *)

Definition ascii_upper (c : ascii) : ascii :=
  let n := Ascii.nat_of_ascii c in
  if ((97 <=? n) && (n <=? 122))%nat then Ascii.ascii_of_nat (n - 32) else c.
Definition ascii_lower (c : ascii) : ascii :=
  let n := Ascii.nat_of_ascii c in
  if ((65 <=? n) && (n <=? 90))%nat then Ascii.ascii_of_nat (n + 32) else c.

Fixpoint str_map (f : ascii -> ascii) (s : string) : string :=
  match s with
  | EmptyString => EmptyString
  | String c s => String (f c) (str_map f s)
  end.
Definition to_upper : string -> string := str_map ascii_upper.
Definition to_lower : string -> string := str_map ascii_lower.

Fixpoint starts_with (p s : string) : bool :=
  match p, s with
  | EmptyString, _ => true
  | String a p, String b s => bool_decide (a = b) && starts_with p s
  | _, _ => false
  end.

(** [s.includes(sub)]. *)
Fixpoint includes (sub s : string) : bool :=
  starts_with sub s ||
  match s with EmptyString => false | String _ s' => includes sub s' end.

Definition str_eqb (a b : string) : bool := bool_decide (a = b).
Definition str_truthy (s : string) : bool := negb (str_eqb s "").
(** [a || b] on strings. *)
Definition str_or (a b : string) : string := if str_truthy a then a else b.

(** A double-quoted interpolation. *)
Definition quoted (s : string) : string :=
  String (Ascii.ascii_of_nat 34) (s +:+ String (Ascii.ascii_of_nat 34) EmptyString).

Lemma str_eqb_refl s : str_eqb s s = true.
Proof. by apply bool_decide_eq_true. Qed.

Lemma str_eqb_eq a b : str_eqb a b = true <-> a = b.
Proof. apply bool_decide_eq_true. Qed.

Lemma str_eqb_neq a b : str_eqb a b = false <-> a <> b.
Proof. apply bool_decide_eq_false. Qed.

Lemma ascii_upper_idem c : ascii_upper (ascii_upper c) = ascii_upper c.
Proof. by destruct c as [[] [] [] [] [] [] [] []]. Qed.

Lemma ascii_upper_lower c : ascii_upper (ascii_lower c) = ascii_upper c.
Proof. by destruct c as [[] [] [] [] [] [] [] []]. Qed.

Lemma to_upper_idem s : to_upper (to_upper s) = to_upper s.
Proof. unfold to_upper. induction s as [|c s IH]; simpl; [done|]. by rewrite ascii_upper_idem, IH. Qed.

Lemma to_upper_lower s : to_upper (to_lower s) = to_upper s.
Proof.
  unfold to_upper, to_lower.
  induction s as [|c s IH]; simpl; [done|]. by rewrite ascii_upper_lower, IH.
Qed.

#[export] Hint Rewrite to_upper_idem to_upper_lower : qf.
#[export] Hint Resolve str_eqb_refl : qf.

(** ** Decimal notation of a number ([String(n)])

    Integers and finite decimals of at most 17 fraction digits; the exponent
    form used from 1e21 on and below 1e-6 is not modelled. *)
Definition pow10 (k : nat) : Z := 10 ^ Z.of_nat k.

Fixpoint frac_digits (fuel k : nat) (q : Q) : nat :=
  match fuel with
  | O => k
  | S fuel =>
      if num_is_integer (Fin (q * inject_Z (pow10 k))) then k
      else frac_digits fuel (S k) q
  end.
Fixpoint pad_zeros (k : nat) (s : string) : string :=
  if (k <=? String.length s)%nat then s
  else match k with O => s | S k' => String "0" (pad_zeros k' s) end.
Definition Q_to_string (q : Q) : string :=
  let k := frac_digits 17 0 (Qabs.Qabs q) in
  let n := Qfloor (Qabs.Qabs q * inject_Z (pow10 k)) in
  ((if Qlt_bool q 0 then "-" else "") +:+
   pretty (n / pow10 k) +:+
   (if (k =? 0)%nat then "" else "." +:+ pad_zeros k (pretty (n mod pow10 k))))%string.
Definition num_to_string (n : num) : string :=
  match n with
  | NaN => "NaN"
  | Inf s => if s then "-Infinity" else "Infinity"
  | Fin q => Q_to_string q
  end.

Example num_to_string_ex :
  (num_to_string 429, num_to_string (Fin (-3 # 4)), num_to_string (Fin (1 # 20))) =
  ("429", "-0.75", "0.05").
Proof. vm_compute. reflexivity. Qed.

(** ** Values *)

Inductive jsval : Type :=
| JUndefined
| JNull
| JBool (b : bool)
| JNum (n : num)
| JString (s : string)
| JObject (loc : N) (fields : list (string * jsval))
| JArray (loc : N) (items : list jsval)
| JError (loc : N) (fields : list (string * jsval))
    (** an [Error] object: its [name], [message] and own properties *)
| JStatusFn (kind : string)
    (** the callable status constants built by [createStatusObj] / [createTypeObj] *).

Coercion JString : string >-> jsval.
Coercion JNum : num >-> jsval.

Definition js_truthy (v : jsval) : bool :=
  match v with
  | JUndefined | JNull => false
  | JBool b => b
  | JNum n => num_truthy n
  | JString s => str_truthy s
  | _ => true
  end.
(** [a || b]. *)
Definition js_or (a b : jsval) : jsval := if js_truthy a then a else b.
Definition is_nullish (v : jsval) : bool :=
  match v with JUndefined | JNull => true | _ => false end.
(** [a ?? b]. *)
Definition js_nullish_or (a b : jsval) : jsval := if is_nullish a then b else a.

Definition js_typeof (v : jsval) : string :=
  match v with
  | JUndefined => "undefined"
  | JNull => "object"
  | JBool _ => "boolean"
  | JNum _ => "number"
  | JString _ => "string"
  | JObject _ _ | JArray _ _ | JError _ _ => "object"
  | JStatusFn _ => "function"
  end.

Fixpoint assoc {A} (k : string) (l : list (string * A)) : option A :=
  match l with
  | [] => None
  | (k', v) :: l => if str_eqb k k' then Some v else assoc k l
  end.

(** [v?.k]: property access, [undefined] on [null] and [undefined]. *)
Definition js_get (k : string) (v : jsval) : jsval :=
  match v with
  | JObject _ fields | JError _ fields => default JUndefined (assoc k fields)
  | JStatusFn kind =>
      if str_eqb k "kind" then JString kind
      else if str_eqb k "value" then JString (to_upper kind) else JUndefined
  | _ => JUndefined
  end.

(** [String(v)]. *)
Fixpoint js_String (v : jsval) : string :=
  match v with
  | JUndefined => "undefined"
  | JNull => "null"
  | JBool b => if b then "true" else "false"
  | JNum n => num_to_string n
  | JString s => s
  | JObject _ _ => "[object Object]"
  | JArray _ items =>
      String.concat ","
        (map (fun x => match x with JUndefined | JNull => "" | _ => js_String x end) items)
  | JError _ fields =>
      let str k d := match assoc k fields with Some (JString s) => s | _ => d end in
      let name := str "name" "Error" in
      let msg := str "message" "" in
      if str_eqb name "" then msg
      else if str_eqb msg "" then name else (name +:+ ": " +:+ msg)%string
  | JStatusFn kind => to_upper kind
  end.

(** [===]. *)
Definition js_strict_eq (a b : jsval) : bool :=
  match a, b with
  | JUndefined, JUndefined | JNull, JNull => true
  | JBool x, JBool y => Bool.eqb x y
  | JNum x, JNum y => num_eqb x y
  | JString x, JString y => str_eqb x y
  | JObject l _, JObject l' _ => bool_decide (l = l')
  | JArray l _, JArray l' _ => bool_decide (l = l')
  | JError l _, JError l' _ => bool_decide (l = l')
  | JStatusFn k, JStatusFn k' => str_eqb k k'
  | _, _ => false
  end.

(** [typeof v === 'object' && v !== null]. *)
Definition is_object (v : jsval) : bool :=
  match v with JObject _ _ | JArray _ _ | JError _ _ => true | _ => false end.

Definition js_num_of (v : jsval) : option num :=
  match v with JNum n => Some n | _ => None end.

(** The own enumerable properties of an error. *)
Definition enumerable (fs : list (string * jsval)) : list (string * jsval) :=
  filter (fun e => (str_eqb e.1 "message" || str_eqb e.1 "name" || str_eqb e.1 "stack") = false) fs.

Section jsval_rect'.
Context (P : jsval -> Prop).
Context (Hleaf : forall v, is_object v = false -> P v).
Context (Hobj : forall l fs, Forall (fun e => P e.2) fs -> P (JObject l fs)).
Context (Herr : forall l fs, Forall (fun e => P e.2) fs -> P (JError l fs)).
Context (Harr : forall l vs, Forall P vs -> P (JArray l vs)).
(** Induction over values and the values in them. *)
Fixpoint jsval_rect' (v : jsval) : P v :=
  let go := fix go (fs : list (string * jsval)) : Forall (fun e => P e.2) fs :=
    match fs with [] => Forall_nil_2 _ | (k, x) :: fs => @Forall_cons_2 _ (fun e => P e.2) (k, x) fs (jsval_rect' x) (go fs) end in
  match v with
  | JObject l fs => Hobj l fs (go fs)
  | JError l fs => Herr l fs (go fs)
  | JArray l vs => Harr l vs ((fix go (vs : list jsval) : Forall P vs :=
      match vs with [] => Forall_nil_2 _ | x :: vs => Forall_cons_2 _ x vs (jsval_rect' x) (go vs) end) vs)
  | v => Hleaf v eq_refl
  end.
End jsval_rect'.

(** ** Errors the code throws *)

Inductive exn : Type :=
| ValidationError (message : string)
| InvalidDeliveryStateError (current attempted : string)
| MaxRetriesExceededError (deliveryId : string) (count maxAllowed : Z)
| DeliveryNotFoundError (deliveryId : string)
| DestinationNotFoundError (destinationId : string)
| CircuitOpenError (destinationId : string)
| BulkheadFullError (name : string)
| TimeoutError (operationName : string) (timeoutMs : Z)
| PoolExhaustedError (poolName : string)
| InfrastructureError (message : string) (code : string)
| AuthenticationError (message reason : string)
| AuthorizationError (message resource : string)
| InvalidSignatureError (reason : string)
| OwnError (name code : string) (statusCode : Z) (message : string)   (** of any other class derived from [BaseError] *)
| PlainError (message : string)
| Foreign (v : jsval)   (** a value thrown by code outside the repository *).

(** [throw new ValidationError(..)] and its kin, in a method. *)
Definition fail {S A} (e : exn) : meth S exn A := throw e.

(** Case analysis on the boolean string tests of a goal. *)
Ltac str_cases :=
  repeat match goal with
  | H : str_eqb _ _ = true |- _ => apply str_eqb_eq in H
  | H : str_eqb _ _ = false |- _ => apply str_eqb_neq in H
  | |- context [str_eqb ?a ?b] => destruct (str_eqb a b) eqn:?
  | H : context [str_eqb ?a ?b] |- _ => destruct (str_eqb a b) eqn:?
  end.

(** Run a method: unfold the operations of the state monad. *)
Ltac munfold :=
  unfold mbind, meth_bind, mret, meth_ret, get_this, gets, put_this, modify,
    fail, throw, lift_res, try_catch in *; simpl in *.
