(* ===== verification/Errors.v ===== *)
(** * The error hierarchy

    What each error class carries: the [name], the application [code], the HTTP
    [statusCode] and the [message] that [domain/errors], [application/errors] and
    [resilience/errors] hand to [BaseError], and an error as the dynamically
    typed value that classifiers inspect. *)
From Stdlib Require Import Ascii QArith Qround Qpower Qabs Lqa.
From stdpp Require Import base tactics numbers list strings pretty.
From S2P Require Import Prelude JsNum JsValue.

Module Errors.

(** shared/errors/base-error.ts:7-27 BaseError *)
Record info : Type := Info { name : string; code : string; statusCode : Z; message : string }.

(** domain/errors/domain-error.ts:9-35 constructor
    The optional arguments are [None] when omitted; a first argument without
    lower-case letters is taken for the code. *)
Definition domain_error (name codeOrMessage : string) (messageOrCode : option string)
    (status : option Z) : info :=
  let st := default 400 status in
  if str_eqb codeOrMessage (to_upper codeOrMessage)
  then Info name codeOrMessage st (str_or (default "" messageOrCode) codeOrMessage)
  else Info name (str_or (default "" messageOrCode) "UNKNOWN_ERROR") st codeOrMessage.

(** domain/errors/validation-error.ts:8-21 constructor
    [field] is the second argument when it is a string. *)
Definition validation_error (message : string) (field_msg : option string) : info :=
  let msg := match field_msg with
             | Some m => "Validation error on " +:+ message +:+ ": " +:+ m
             | None => message
             end in
  domain_error "ValidationError" msg (Some "VALIDATION_FAILED") (Some 422).

(** domain/errors/invalid-delivery-state-error.ts:6-18 constructor *)
Definition invalid_delivery_state_error (cur att : string) : info :=
  domain_error "InvalidDeliveryStateError"
    ("Delivery in status " +:+ quoted (to_upper cur) +:+ " cannot transition to "
       +:+ quoted (to_upper att) +:+ ".") (Some "DELIVERY_FAILED") (Some 400).

(** domain/errors/max-retries-exceeded-error.ts:8-15 constructor *)
Definition max_retries_exceeded_error (deliveryId : string) (maxRetries attempted : Z) : info :=
  domain_error "MaxRetriesExceededError"
    ("Delivery " +:+ deliveryId +:+ " exceeded max retries (" +:+ pretty maxRetries
       +:+ "). Attempted retry: " +:+ pretty attempted +:+ ".") (Some "MAX_RETRIES_EXCEEDED") (Some 400).

(** domain/errors/state-error.ts:8-20 constructor
    [message] is the third argument when it is a string. *)
Definition state_error (current : string) (attempted : option string) (message : option string) : info :=
  let transition := str_or (default "" attempted) "" in
  let msg := match message with
             | Some m => m
             | None => if str_truthy transition
                       then "State error: cannot transition from " +:+ current +:+ " to " +:+ transition
                       else current
             end in
  domain_error "StateError" msg (Some "DELIVERY_FAILED") (Some 400).

(** domain/errors/not-found-error.ts:8-17 constructor *)
Definition not_found_error (entityType entityId : string) : info :=
  domain_error "NotFoundError"
    (entityType +:+ " with identifier " +:+ quoted entityId +:+ " was not found.")
    (Some "NOT_FOUND") (Some 404).

(** domain/errors/delivery-timeout-error.ts:5-12 constructor *)
Definition delivery_timeout_error (deliveryId : string) (timeoutMs : Z) : info :=
  domain_error "DeliveryTimeoutError"
    ("Delivery " +:+ deliveryId +:+ " timed out after " +:+ pretty timeoutMs +:+ "ms")
    (Some "DELIVERY_TIMEOUT") (Some 408).

(** domain/errors/destination-unavailable-error.ts:5-12 constructor *)
Definition destination_unavailable_error (destinationId reason : string) : info :=
  domain_error "DestinationUnavailableError"
    ("Destination " +:+ destinationId +:+ " is unavailable: " +:+ reason) (Some "CIRCUIT_OPEN") (Some 503).

(** domain/errors/idempotency-conflict-error.ts:5-12 constructor *)
Definition idempotency_conflict_error (taskResultId destinationId : string) (existing : option string) : info :=
  domain_error "IdempotencyConflictError"
    ("Idempotency conflict: duplicate request for result " +:+ taskResultId +:+ " to destination "
       +:+ destinationId
       +:+ (if str_truthy (default "" existing)
            then " (Existing delivery: " +:+ default "" existing +:+ ")" else ""))
    (Some "DELIVERY_FAILED") (Some 409).

(** application/errors/delivery-not-found-error.ts:9-16 constructor *)
Definition delivery_not_found_error (deliveryId : string) : info :=
  Info "DeliveryNotFoundError" "NOT_FOUND" 404
    ("Delivery with identifier " +:+ quoted deliveryId +:+ " was not found.").

(** application/errors/destination-not-found-error.ts:9-16 constructor *)
Definition destination_not_found_error (destinationId : string) : info :=
  Info "DestinationNotFoundError" "NOT_FOUND" 404
    ("Destination with identifier " +:+ quoted destinationId +:+ " was not found.").

(** application/errors/result-already-exists-error.ts:10-17 constructor *)
Definition result_already_exists_error (resultId : string) : info :=
  Info "ResultAlreadyExistsError" "RESULT_ALREADY_EXISTS" 409
    ("AI Task Result with ID " +:+ quoted resultId +:+ " already exists.").

(** resilience/errors/circuit-open-error.ts:8-17 constructor *)
Definition circuit_open_error (destinationId : string) : info :=
  Info "CircuitOpenError" "CIRCUIT_OPEN" 503 ("Circuit breaker open for destination " +:+ destinationId).

(** resilience/errors/bulkhead-full-error.ts:8-17 constructor *)
Definition bulkhead_full_error (name : string) : info :=
  Info "BulkheadFullError" "RATE_LIMITED" 503 ("Bulkhead " +:+ name +:+ " at capacity").

(** resilience/errors/backpressure-error.ts:8-17 constructor *)
Definition backpressure_error (reason pressureLevel : string) : info :=
  Info "BackpressureError" "RATE_LIMITED" 503
    ("System under backpressure: " +:+ reason +:+ " (" +:+ pressureLevel +:+ ")").

(** resilience/errors/timeout-error.ts:8-17 constructor *)
Definition timeout_error (operationName : string) (timeoutMs : Z) : info :=
  Info "TimeoutError" "DELIVERY_TIMEOUT" 408
    ("Operation " +:+ operationName +:+ " timed out after " +:+ pretty timeoutMs +:+ "ms").

(** shared/errors/infrastructure-error.ts:15-21 constructor *)
Definition infrastructure_error (message code : string) : info :=
  Info "InfrastructureError" code 500 message.

(** security/errors/authentication-error.ts:17-22 constructor
    The reason goes to the error's context. *)
Definition authentication_error (message : string) : info :=
  Info "AuthenticationError" "UNAUTHENTICATED" 401 message.

(** security/errors/security-error.ts:8-12 constructor *)
Definition security_error (name message : string) (statusCode : Z) : info :=
  Info name (if statusCode =? 403 then "UNAUTHORIZED" else "UNAUTHENTICATED") statusCode message.

(** security/errors/authorization-error.ts:9-14 constructor *)
Definition authorization_error (message : string) : info :=
  security_error "AuthorizationError" message 403.

(** security/errors/invalid-signature-error.ts:11-20 constructor
    With the reason the error object keeps. *)
Definition invalid_signature_error (reason : string) : info * string :=
  (security_error "InvalidSignatureError" ("HMAC Webhook Signature verification failed: " +:+ reason) 401,
   if bool_decide (reason ∈ ["missing_signature"; "invalid_signature"; "expired_request"; "malformed_header"])
   then reason else "invalid_signature").

(** shared/errors/base-error.ts:57-66 toResponse
    success, error code, error message *)
Definition toResponse (e : info) : bool * string * string := (false, code e, message e).

(** An error as a value: its own properties. *)
Definition info_js (e : info) : jsval :=
  JError 0 [("name", JString (name e)); ("message", JString (message e));
            ("code", JString (code e)); ("statusCode", JNum (ofZ (statusCode e)))].

(** An error thrown as it is. *)
Definition own (e : info) : exn := OwnError (name e) (code e) (statusCode e) (message e).

(** What a [catch] clause receives. *)
Definition exn_js (e : exn) : jsval :=
  match e with
  | ValidationError m => info_js (validation_error m None)
  | InvalidDeliveryStateError c a => info_js (invalid_delivery_state_error c a)
  | MaxRetriesExceededError d n mx => info_js (max_retries_exceeded_error d mx n)
  | DeliveryNotFoundError d => info_js (delivery_not_found_error d)
  | DestinationNotFoundError d => info_js (destination_not_found_error d)
  | CircuitOpenError d => info_js (circuit_open_error d)
  | BulkheadFullError n => info_js (bulkhead_full_error n)
  | TimeoutError op ms => info_js (timeout_error op ms)
  | PoolExhaustedError n =>
      JError 0 [("name", JString "PoolExhaustedError");
                ("message", JString ("Bulkhead worker pool " +:+ quoted n
                                       +:+ " has exhausted all available concurrency slots"))]
  | InfrastructureError m c => info_js (infrastructure_error m c)
  | AuthenticationError m _ => info_js (authentication_error m)
  | AuthorizationError m _ => info_js (authorization_error m)
  | InvalidSignatureError r => info_js (invalid_signature_error r).1
  | OwnError n c s m => info_js (Info n c s m)
  | PlainError m => JError 0 [("name", JString "Error"); ("message", JString m)]
  | Foreign v => v
  end.

(** *** The message and the code *)

Fixpoint has_lower (s : string) : bool :=
  match s with
  | EmptyString => false
  | String c s => negb (bool_decide (ascii_upper c = c)) || has_lower s
  end.

Lemma to_upper_fix s : str_eqb s (to_upper s) = negb (has_lower s).
Proof.
  induction s as [|c s IH]; [done|]. unfold to_upper in *. simpl.
  destruct (decide (ascii_upper c = c)) as [Hc|Hc].
  - rewrite Hc, bool_decide_true by done. simpl. rewrite <- IH.
    unfold str_eqb. apply bool_decide_ext. split; [by intros [=]|congruence].
  - rewrite (bool_decide_false (ascii_upper c = c)) by done. simpl.
    apply str_eqb_neq. intros [= H _]. congruence.
Qed.

(** A domain error keeps its message and its code exactly when the message
    has a lower-case letter; an all-capitals (or digits-only, or empty) message
    is taken for the code, and the intended code becomes the message. *)
Theorem domain_error_message nm msg code_ st :
  code_ <> "" ->
  let e := domain_error nm msg (Some code_) st in
  if has_lower msg then message e = msg /\ code e = code_
  else message e = code_ /\ code e = msg.
Proof.
  intros Hc. cbn zeta. unfold domain_error. rewrite to_upper_fix.
  assert (str_or code_ msg = code_ /\ str_or code_ "UNKNOWN_ERROR" = code_) as [H1 H2].
  { unfold str_or, str_truthy. by rewrite (proj2 (str_eqb_neq _ _) Hc). }
  destruct (has_lower msg); simpl; by rewrite ?H1, ?H2.
Qed.

Lemma domain_error_message_witness :
  message (validation_error "E42" None) = "VALIDATION_FAILED" /\
  message (validation_error "Bad id" None) = "Bad id".
Proof.
  split.
  - exact (proj1 (domain_error_message "ValidationError" "E42" "VALIDATION_FAILED" (Some 422) ltac:(done))).
  - exact (proj1 (domain_error_message "ValidationError" "Bad id" "VALIDATION_FAILED" (Some 422) ltac:(done))).
Defined.

End Errors.
