(* ===== verification/DomainTypes.v ===== *)
(** * Enumerated value objects of the domain

    [DeliveryStatusVO] and [DestinationTypeVO] with their permissive
    constructors (strings in any case, objects with a [kind] or a [value],
    callable constants) and the free-standing predicates [isPending] ...
    [isFailedDLQ], [isWebhook] ... [isAudit]. *)
From Stdlib Require Import Ascii QArith Qround Qpower Qabs Lqa.
From stdpp Require Import base tactics numbers list strings.
From S2P Require Import Prelude JsNum JsValue.

(** [typeof value === 'object' && value !== null
      ? (value.kind || value.value || String(value)) : String(value)],
    the expression both constructors and every predicate start with. *)
Definition raw_val (v : jsval) : jsval :=
  if is_object v
  then js_or (js_get "kind" v) (js_or (js_get "value" v) (JString (js_String v)))
  else JString (js_String v).
Definition upper_val (v : jsval) : string := to_upper (js_String (raw_val v)).

Module Status.

(** domain/value-objects/delivery-status.vo.ts:3-16 DeliveryStatus *)
Inductive t : Type := PENDING | PROCESSING | COMPLETED | SCHEDULED_RETRY | FAILED_DLQ.

#[global] Instance t_eq_dec : EqDecision t.
Proof. solve_decision. Defined.

(** domain/value-objects/delivery-status.vo.ts:71-73 getValue *)
Definition getValue (s : t) : string :=
  match s with
  | PENDING => "PENDING"
  | PROCESSING => "PROCESSING"
  | COMPLETED => "COMPLETED"
  | SCHEDULED_RETRY => "SCHEDULED_RETRY"
  | FAILED_DLQ => "FAILED_DLQ"
  end.

(** domain/value-objects/delivery-status.vo.ts:52-58 uppercaseStatus *)
Definition of_upper (s : string) : option t :=
  if str_eqb s "PENDING" then Some PENDING
  else if str_eqb s "PROCESSING" then Some PROCESSING
  else if str_eqb s "COMPLETED" then Some COMPLETED
  else if str_eqb s "SCHEDULED_RETRY" || str_eqb s "SCHEDULEDRETRY" then Some SCHEDULED_RETRY
  else if str_eqb s "FAILED_DLQ" || str_eqb s "FAILEDDLQ" then Some FAILED_DLQ
  else None.

(** domain/value-objects/delivery-status.vo.ts:49-66 constructor *)
Definition create (v : jsval) : res exn t :=
  match of_upper (upper_val v) with
  | Some s => Ok s
  | None => Throw (ValidationError ("Invalid DeliveryStatus: " +:+ quoted (js_String v) +:+ "."))
  end.

(** domain/value-objects/delivery-status.vo.ts:78-80 kind *)
Definition kind (s : t) : string := to_lower (getValue s).
(** domain/value-objects/delivery-status.vo.ts:85-90 equals *)
Definition equals (s s' : t) : bool := str_eqb (getValue s) (getValue s').
(** domain/value-objects/delivery-status.vo.ts:95-97 toString *)
Definition toString (s : t) : string := getValue s.
(** domain/value-objects/delivery-status.vo.ts:102-104 isPending *)
Definition isPendingVO (s : t) : bool := str_eqb (getValue s) "PENDING".
(** domain/value-objects/delivery-status.vo.ts:109-111 isProcessing *)
Definition isProcessingVO (s : t) : bool := str_eqb (getValue s) "PROCESSING".
(** domain/value-objects/delivery-status.vo.ts:116-118 isCompleted *)
Definition isCompletedVO (s : t) : bool := str_eqb (getValue s) "COMPLETED".
(** domain/value-objects/delivery-status.vo.ts:123-125 isScheduledForRetry *)
Definition isScheduledForRetry (s : t) : bool := str_eqb (getValue s) "SCHEDULED_RETRY".
(** domain/value-objects/delivery-status.vo.ts:130-132 isInDLQ *)
Definition isInDLQ (s : t) : bool := str_eqb (getValue s) "FAILED_DLQ".
(** domain/value-objects/delivery-status.vo.ts:137-139 isFinal *)
Definition isFinal (s : t) : bool :=
  str_eqb (getValue s) "COMPLETED" || str_eqb (getValue s) "FAILED_DLQ".
(** domain/value-objects/delivery-status.vo.ts:144-146 canRetry *)
Definition canRetry (s : t) : bool := negb (isFinal s).

(** A status object as the dynamically typed code sees it. *)
Definition to_js (loc : N) (s : t) : jsval :=
  JObject loc [("value", JString (getValue s)); ("kind", JString (kind s))].

(** ** The free predicates *)

(** domain/value-objects/delivery-status.vo.ts:18-25 createStatusObj
    The call [status()] of a callable constant yields a [{kind}] object. *)
Definition call_status (v : jsval) : jsval :=
  match v with JStatusFn k => JObject 0 [("kind", JString k)] | _ => v end.

Definition target_upper (v : jsval) : string := upper_val (call_status v).

(** domain/value-objects/delivery-status.vo.ts:156-161 isPending *)
Definition isPending (v : jsval) : bool :=
  if negb (js_truthy v) then false else str_eqb (target_upper v) "PENDING".
(** domain/value-objects/delivery-status.vo.ts:163-168 isProcessing *)
Definition isProcessing (v : jsval) : bool :=
  if negb (js_truthy v) then false else str_eqb (target_upper v) "PROCESSING".
(** domain/value-objects/delivery-status.vo.ts:170-175 isCompleted *)
Definition isCompleted (v : jsval) : bool :=
  if negb (js_truthy v) then false else str_eqb (target_upper v) "COMPLETED".
(** domain/value-objects/delivery-status.vo.ts:177-183 isScheduledRetry *)
Definition isScheduledRetry (v : jsval) : bool :=
  if negb (js_truthy v) then false
  else str_eqb (target_upper v) "SCHEDULED_RETRY" || str_eqb (target_upper v) "SCHEDULEDRETRY".
(** domain/value-objects/delivery-status.vo.ts:185-194 isFailedDLQ *)
Definition isFailedDLQ (v : jsval) : bool :=
  if negb (js_truthy v) then false
  else
    let s := target_upper v in
    if str_eqb s "FAILED_DLQ" || str_eqb s "FAILEDDLQ" || includes "DLQ" s || includes "FAILED" s
    then true
    else negb (isPending v) && negb (isProcessing v) && negb (isCompleted v)
         && negb (isScheduledRetry v).

(** How many of the five predicates hold. *)
Definition n_predicates (v : jsval) : nat :=
  length (filter (fun b : bool => b = true)
    [isPending v; isProcessing v; isCompleted v; isScheduledRetry v; isFailedDLQ v]).

(** ** Theorems *)

Lemma getValue_inj s s' : getValue s = getValue s' -> s = s'.
Proof. by destruct s, s'. Qed.

Lemma equals_spec s s' : equals s s' = bool_decide (s = s').
Proof. by destruct s, s'. Qed.

Lemma is_final_spec s : isFinal s = bool_decide (s = COMPLETED \/ s = FAILED_DLQ).
Proof. by destruct s. Qed.

Lemma status_create_ok_iff v s : create v = Ok s <-> of_upper (upper_val v) = Some s.
Proof. unfold create. destruct (of_upper (upper_val v)); naive_solver. Qed.

(** Every accepted value denotes a status by one of its two spellings. *)
Lemma of_upper_inv u s :
  of_upper u = Some s ->
  u = getValue s \/ (u = "SCHEDULEDRETRY" /\ s = SCHEDULED_RETRY)
                 \/ (u = "FAILEDDLQ" /\ s = FAILED_DLQ).
Proof.
  unfold of_upper. intros H. str_cases; simpl in *; simplify_eq; auto.
Qed.

Lemma status_create_roundtrip s loc :
  create (toString s) = Ok s /\ create (kind s) = Ok s /\ create (to_js loc s) = Ok s.
Proof. by destruct s. Qed.

Lemma create_case_insensitive u u' :
  to_upper u = to_upper u' -> is_ok (create u) = is_ok (create u').
Proof.
  intros H. unfold create, upper_val, raw_val. cbn [is_object js_String]. rewrite H.
  by destruct (of_upper (to_upper u')).
Qed.

Lemma create_truthy v s : create v = Ok s -> js_truthy v = true.
Proof.
  intros H%status_create_ok_iff.
  destruct v as [| |[]|n|u| | | |k]; try done.
  - destruct n as [|[]|q]; try done. simpl. destruct (Qeq_bool q 0) eqn:E; [|done].
    apply Qeq_bool_iff in E. exfalso.
    assert (upper_val (Fin q) = upper_val (Fin 0)) as Hu.
    { unfold upper_val, raw_val. simpl. f_equal. unfold Q_to_string.
      assert (Qnum q = 0) as Hn by (unfold Qeq in E; simpl in E; lia).
      destruct q as [n d]. simpl in Hn. subst n.
      unfold Qlt_bool, Qle_bool. simpl.
      unfold num_is_integer, Qeq_bool; simpl. rewrite !Zdiv.Zdiv_0_l. simpl. done. }
    rewrite Hu in H. vm_compute in H. done.
  - simpl. unfold str_truthy. destruct (str_eqb u "") eqn:E; [|done].
    apply str_eqb_eq in E. by subst.
Qed.

Lemma target_upper_accepted v s : create v = Ok s -> target_upper v = upper_val v.
Proof.
  intros H. destruct v; try done. apply status_create_ok_iff in H.
  unfold target_upper, upper_val, raw_val in *. simpl in *.
  destruct (str_truthy kind0) eqn:E.
  - unfold js_or. simpl. rewrite E. simpl. by rewrite to_upper_idem.
  - unfold str_truthy in E. apply negb_false_iff, str_eqb_eq in E. by subst.
Qed.

(** On a value the constructor accepts, each of the five free predicates
    answers what the corresponding method of the resulting object answers, so
    exactly one of them holds. *)
Theorem status_predicates_agree v s :
  create v = Ok s ->
  isPending v = isPendingVO s /\ isProcessing v = isProcessingVO s /\
  isCompleted v = isCompletedVO s /\ isScheduledRetry v = isScheduledForRetry s /\
  isFailedDLQ v = isInDLQ s.
Proof.
  intros H. pose proof (create_truthy _ _ H) as Ht. pose proof (target_upper_accepted _ _ H) as Hu.
  apply status_create_ok_iff, of_upper_inv in H.
  unfold isFailedDLQ, isPending, isProcessing, isCompleted, isScheduledRetry.
  rewrite Ht, Hu. destruct H as [->|[[-> ->]|[-> ->]]]; [by destruct s|done..].
Qed.

Lemma status_predicates_agree_witness :
  create "scheduledRetry" = Ok SCHEDULED_RETRY /\ isScheduledRetry "scheduledRetry" = true.
Proof.
  split; [reflexivity|].
  apply (status_predicates_agree "scheduledRetry" SCHEDULED_RETRY eq_refl).
Defined.

(** The five predicates partition the truthy values: exactly one holds,
    including for values the constructor rejects, which count as dead-lettered. *)
Theorem status_predicates_partition v : js_truthy v = true -> n_predicates v = 1%nat.
Proof.
  intros Ht. unfold n_predicates, isFailedDLQ, isPending, isProcessing, isCompleted,
    isScheduledRetry. rewrite Ht. generalize (target_upper v) as u. clear. intros u. simpl.
  destruct (str_eqb u "PENDING") eqn:E1; [apply str_eqb_eq in E1; by subst|].
  destruct (str_eqb u "PROCESSING") eqn:E2; [apply str_eqb_eq in E2; by subst|].
  destruct (str_eqb u "COMPLETED") eqn:E3; [apply str_eqb_eq in E3; by subst|].
  destruct (str_eqb u "SCHEDULED_RETRY") eqn:E4; [apply str_eqb_eq in E4; by subst|].
  destruct (str_eqb u "SCHEDULEDRETRY") eqn:E5; [apply str_eqb_eq in E5; by subst|].
  simpl. by destruct (_ || _ || _ || _).
Qed.

Lemma status_predicates_partition_witness : n_predicates "archived" = 1%nat.
Proof. apply (status_predicates_partition "archived"). reflexivity. Defined.

End Status.

Module DestType.

(** domain/value-objects/destination-type.vo.ts:3-12 DestinationType *)
Inductive t : Type := WEBHOOK | DATABASE | QUEUE | AUDIT.

#[global] Instance t_eq_dec : EqDecision t.
Proof. solve_decision. Defined.

(** domain/value-objects/destination-type.vo.ts:61-63 getValue *)
Definition getValue (d : t) : string :=
  match d with
  | WEBHOOK => "WEBHOOK" | DATABASE => "DATABASE" | QUEUE => "QUEUE" | AUDIT => "AUDIT"
  end.

Definition of_upper (s : string) : option t :=
  if str_eqb s "WEBHOOK" then Some WEBHOOK
  else if str_eqb s "DATABASE" then Some DATABASE
  else if str_eqb s "QUEUE" then Some QUEUE
  else if str_eqb s "AUDIT" then Some AUDIT
  else None.

(** domain/value-objects/destination-type.vo.ts:40-56 constructor *)
Definition create (v : jsval) : res exn t :=
  match of_upper (upper_val v) with
  | Some d => Ok d
  | None => Throw (ValidationError ("Invalid DestinationType: " +:+ quoted (js_String v) +:+ "."))
  end.

(** domain/value-objects/destination-type.vo.ts:65-67 kind *)
Definition kind (d : t) : string := to_lower (getValue d).
(** domain/value-objects/destination-type.vo.ts:72-77 equals *)
Definition equals (d d' : t) : bool := str_eqb (getValue d) (getValue d').
(** domain/value-objects/destination-type.vo.ts:89-91 isWebhook *)
Definition isWebhookVO (d : t) : bool := str_eqb (getValue d) "WEBHOOK".
(** domain/value-objects/destination-type.vo.ts:96-98 isDatabase *)
Definition isDatabaseVO (d : t) : bool := str_eqb (getValue d) "DATABASE".
(** domain/value-objects/destination-type.vo.ts:103-105 isQueue *)
Definition isQueueVO (d : t) : bool := str_eqb (getValue d) "QUEUE".
(** domain/value-objects/destination-type.vo.ts:110-112 isAudit *)
Definition isAuditVO (d : t) : bool := str_eqb (getValue d) "AUDIT".

(** [typeof type === 'string' ? type : (type.kind || type.value || String(type))] *)
Definition type_upper (v : jsval) : string :=
  match v with
  | JString s => to_upper s
  | _ => to_upper (js_String
           (js_or (js_get "kind" v) (js_or (js_get "value" v) (JString (js_String v)))))
  end.

(** domain/value-objects/destination-type.vo.ts:122-126 isWebhook *)
Definition isWebhook (v : jsval) : bool :=
  if negb (js_truthy v) then false else str_eqb (type_upper v) "WEBHOOK".
(** domain/value-objects/destination-type.vo.ts:128-132 isDatabase *)
Definition isDatabase (v : jsval) : bool :=
  if negb (js_truthy v) then false else str_eqb (type_upper v) "DATABASE".
(** domain/value-objects/destination-type.vo.ts:134-138 isQueue *)
Definition isQueue (v : jsval) : bool :=
  if negb (js_truthy v) then false else str_eqb (type_upper v) "QUEUE".
(** domain/value-objects/destination-type.vo.ts:140-144 isAudit *)
Definition isAudit (v : jsval) : bool :=
  if negb (js_truthy v) then false else str_eqb (type_upper v) "AUDIT".

Lemma type_create_roundtrip d : create (getValue d) = Ok d /\ create (kind d) = Ok d.
Proof. by destruct d. Qed.

Lemma isWebhookVO_spec d : isWebhookVO d = true <-> d = WEBHOOK.
Proof. by destruct d. Qed.

End DestType.
