(* ===== verification/ValueObjects.v ===== *)
(** * Value objects of the domain: errors, status codes, attempts, scores

    [DeliveryError] with its classification factories, [HttpStatusCode],
    [RetryAttempt] and [ConfidenceScore].  Constructors take the dynamically
    typed arguments the code checks and either build the object or throw. *)
From Stdlib Require Import Ascii QArith Qround Qpower Qabs Lqa.
From stdpp Require Import base tactics numbers list strings pretty.
From S2P Require Import Prelude JsNum JsValue.
#[local] Open Scope num_scope.
#[local] Open Scope Z_scope.

(** ** HttpStatusCode *)

Module HttpStatus.

Record t : Type := Mk { value : Z }.

(** domain/value-objects/http-status-code.vo.ts:9-20 constructor *)
Definition create (v : jsval) : res exn t :=
  match v with
  | JNum n =>
      if is_nan n || negb (num_is_integer n)
      then Throw (ValidationError "HTTP status code must be an integer.")
      else match n with
           | Fin q =>
               let z := Qfloor q in
               if (z <? 100) || (z >? 599)
               then Throw (ValidationError ("Invalid HTTP status code: " +:+ num_to_string n
                                            +:+ ". Must be between 100 and 599."))
               else Ok (Mk z)
           | _ => Throw (ValidationError "HTTP status code must be an integer.")
           end
  | _ => Throw (ValidationError "HTTP status code must be an integer.")
  end.

(** domain/value-objects/http-status-code.vo.ts:36-41 equals *)
Definition equals (a b : t) : bool := value a =? value b.
(** domain/value-objects/http-status-code.vo.ts:46-48 toString *)
Definition toString (a : t) : string := pretty (value a).
(** domain/value-objects/http-status-code.vo.ts:53-55 isSuccess *)
Definition isSuccess (a : t) : bool := (value a >=? 200) && (value a <? 300).
(** domain/value-objects/http-status-code.vo.ts:60-62 isClientError *)
Definition isClientError (a : t) : bool := (value a >=? 400) && (value a <? 500).
(** domain/value-objects/http-status-code.vo.ts:67-69 isServerError *)
Definition isServerError (a : t) : bool := (value a >=? 500) && (value a <? 600).
(** domain/value-objects/http-status-code.vo.ts:74-76 isRetryable *)
Definition isRetryable (a : t) : bool :=
  (value a =? 408) || (value a =? 429) || isServerError a.
(** domain/value-objects/http-status-code.vo.ts:81-83 isPermanentError *)
Definition isPermanentError (a : t) : bool :=
  existsb (Z.eqb (value a)) [400; 401; 403; 404; 422].
(** domain/value-objects/http-status-code.vo.ts:88-90 isPermanentFailure *)
Definition isPermanentFailure (a : t) : bool :=
  isClientError a && negb (value a =? 408) && negb (value a =? 429).

Definition valid (a : t) : Prop := 100 <= value a <= 599.

Lemma http_create_valid v a : create v = Ok a -> valid a.
Proof.
  destruct v as [| | |[| |q]| | | | |]; simpl; try done.
  destruct (negb _); [done|]. case_match eqn:E; [done|].
  intros [= <-]. unfold valid. simpl. lia.
Qed.

(** The integers from 100 to 599 are accepted, as themselves. *)
Lemma create_int z : 100 <= z <= 599 -> create z = Ok (Mk z).
Proof.
  intros H. unfold create. rewrite num_is_integer_Z. unfold ofZ.
  cbn [is_nan negb orb]. rewrite Qfloor_Z.
  by replace ((z <? 100) || (z >? 599)) with false by lia.
Qed.

End HttpStatus.

(** ** DeliveryError *)

Module DeliveryError.

(** domain/value-objects/delivery-error.vo.ts:5-12 DeliveryErrorCategory *)
Inductive category_t : Type := TRANSIENT | PERMANENT | NETWORK | TIMEOUT | SERVER | UNKNOWN.

#[global] Instance category_eq_dec : EqDecision category_t.
Proof. solve_decision. Defined.

Definition category_string (c : category_t) : string :=
  match c with
  | TRANSIENT => "TRANSIENT" | PERMANENT => "PERMANENT" | NETWORK => "NETWORK"
  | TIMEOUT => "TIMEOUT" | SERVER => "SERVER" | UNKNOWN => "UNKNOWN"
  end.

(** domain/value-objects/delivery-error.vo.ts:17-21 DeliveryError *)
Record t : Type := Mk {
  category : category_t;
  message : string;
  statusCode : option num;
  deliveryId : option string;
}.

(** domain/value-objects/delivery-error.vo.ts:42-49 stringCat *)
Definition category_of (s : string) : category_t :=
  let stringCat := to_upper s in
  if str_eqb stringCat "TRANSIENT" then TRANSIENT
  else if str_eqb stringCat "PERMANENT" then PERMANENT
  else if str_eqb stringCat "NETWORK" then NETWORK
  else if str_eqb stringCat "TIMEOUT" then TIMEOUT
  else if str_eqb stringCat "SERVER" then SERVER
  else UNKNOWN.

(** domain/value-objects/delivery-error.vo.ts:23-63 constructor
    [sc_or_retryable] is the overloaded third argument. *)
Definition create (cat_or_id : string) (msg : jsval) (sc_or_retryable : jsval)
    (sc : option num) : res exn t :=
  match msg with
  | JString m =>
      if negb (str_truthy m)
      then Throw (ValidationError "DeliveryError message must be a non-empty string.")
      else
        match sc_or_retryable with
        | JBool b => Ok (Mk (if b then TRANSIENT else PERMANENT) m sc (Some cat_or_id))
        | _ => Ok (Mk (category_of cat_or_id) m (js_num_of sc_or_retryable) None)
        end
  | _ => Throw (ValidationError "DeliveryError message must be a non-empty string.")
  end.

(** domain/value-objects/delivery-error.vo.ts:77-79 getDeliveryId *)
Definition getDeliveryId (e : t) : string := str_or (default "" (deliveryId e)) "".

(** domain/value-objects/delivery-error.vo.ts:84-91 isRetryable *)
Definition isRetryable (e : t) : bool :=
  match category e with
  | TRANSIENT | NETWORK | TIMEOUT | SERVER => true
  | PERMANENT | UNKNOWN => false
  end.

Definition opt_num_eqb (a b : option num) : bool :=
  match a, b with
  | Some x, Some y => num_eqb x y
  | None, None => true
  | _, _ => false
  end.

(** domain/value-objects/delivery-error.vo.ts:96-105 equals *)
Definition equals (a b : t) : bool :=
  bool_decide (category a = category b) && str_eqb (message a) (message b)
  && opt_num_eqb (statusCode a) (statusCode b).

(** domain/value-objects/delivery-error.vo.ts:110-112 toString *)
Definition toString (e : t) : string :=
  "[" +:+ category_string (category e) +:+ "] " +:+
  match statusCode e with
  | Some n => if num_truthy n then "(HTTP " +:+ num_to_string n +:+ ") " else ""
  | None => ""
  end +:+ message e.

(** domain/value-objects/delivery-error.vo.ts:117-131 fromStatusCode *)
Definition fromStatusCode (sc : Z) (msg : string) : res exn t :=
  let defaultMsg : jsval := str_or msg ("HTTP Status Code " +:+ num_to_string sc) in
  if (sc =? 408) || (sc =? 429) then create "TRANSIENT" defaultMsg (ofZ sc) None
  else if (sc >=? 400) && (sc <? 500) then create "PERMANENT" defaultMsg (ofZ sc) None
  else if (sc >=? 500) && (sc <? 600) then create "SERVER" defaultMsg (ofZ sc) None
  else create "UNKNOWN" defaultMsg (ofZ sc) None.

(** domain/value-objects/delivery-error.vo.ts:136-148 fromException *)
Definition fromException (error : jsval) : res exn t :=
  let msg := js_or (js_get "message" error) (js_String error) in
  let code := js_or (js_get "code" error) "" in
  let code_is s := js_strict_eq code (JString s) in
  if code_is "ECONNRESET" || code_is "ECONNREFUSED" || code_is "ENOTFOUND"
  then create "NETWORK" msg JUndefined None
  else match msg with
       | JString m =>
           if includes "ECONNREFUSED" m || includes "ECONNRESET" m || includes "network" m
           then create "NETWORK" msg JUndefined None
           else if code_is "ETIMEDOUT" || includes "ETIMEDOUT" m || includes "timeout" m
           then create "TIMEOUT" msg JUndefined None
           else create "UNKNOWN" msg JUndefined None
       | _ => Throw (PlainError "msg.includes is not a function")
       end.

Definition valid (e : t) : Prop := message e <> "".

Lemma error_create_valid c m s sc e : create c m s sc = Ok e -> valid e.
Proof.
  unfold create, valid. destruct m as [| | | |m| | | |]; try done.
  unfold str_truthy. destruct (str_eqb m "") eqn:E; [done|]. apply str_eqb_neq in E.
  destruct s; intros [= <-]; done.
Qed.

Lemma create_plain c m : m <> "" -> create c (JString m) JUndefined None = Ok (Mk (category_of c) m None None).
Proof. intros H. simpl. unfold str_truthy. by rewrite (proj2 (str_eqb_neq _ _) H). Qed.

(** The message of a status-code error is never empty. *)
Lemma default_message_truthy sc msg :
  str_truthy (str_or msg ("HTTP Status Code " +:+ num_to_string (ofZ sc))) = true.
Proof. unfold str_or. by destruct (str_truthy msg) eqn:E. Qed.

(** [DeliveryError.fromStatusCode] never throws, and the retryability of the
    error it builds is exactly [HttpStatusCode.isRetryable] on every valid code. *)
Theorem from_status_code_retryable sc msg :
  100 <= sc <= 599 ->
  exists e, fromStatusCode sc msg = Ok e /\ statusCode e = Some (ofZ sc) /\
    isRetryable e = HttpStatus.isRetryable (HttpStatus.Mk sc).
Proof.
  intros Hsc. unfold fromStatusCode, create.
  rewrite default_message_truthy. simpl.
  unfold HttpStatus.isRetryable, HttpStatus.isServerError; simpl.
  destruct (sc =? 408) eqn:E1; [by eexists|].
  destruct (sc =? 429) eqn:E2; [by eexists|]. simpl.
  destruct ((sc >=? 400) && (sc <? 500)) eqn:E3.
  { eexists; split; [done|]. split; [done|]. unfold isRetryable; simpl.
    symmetry. apply andb_false_iff. lia. }
  destruct ((sc >=? 500) && (sc <? 600)) eqn:E4; by eexists.
Qed.

Lemma from_status_code_retryable_witness :
  exists e, fromStatusCode 503 "" = Ok e /\ isRetryable e = true.
Proof.
  destruct (from_status_code_retryable 503 "") as (e & H & _ & Hr); [lia|].
  exists e. split; [exact H|exact Hr].
Defined.

(** An exception whose [code] or message names a refused or reset
    connection is a network error whatever else it says, so it is retried. *)
Theorem from_exception_network error m :
  js_get "message" error = JString m -> m <> "" ->
  js_get "code" error = JString "ECONNRESET" \/ js_get "code" error = JString "ECONNREFUSED" \/
  js_get "code" error = JString "ENOTFOUND" \/ includes "ECONNREFUSED" m = true \/
  includes "ECONNRESET" m = true \/ includes "network" m = true ->
  fromException error = Ok (Mk NETWORK m None None) /\ isRetryable (Mk NETWORK m None None) = true.
Proof.
  intros Hm Hne H. split; [|done]. unfold fromException. rewrite Hm.
  assert (js_or (JString m) (js_String error) = JString m) as ->.
  { unfold js_or. simpl. unfold str_truthy. by rewrite (proj2 (str_eqb_neq _ _) Hne). }
  rewrite !(create_plain _ _ Hne).
  destruct H as [H|[H|[H|[H|[H|H]]]]]; rewrite H, ?orb_true_r; try done; by case_match.
Qed.

Lemma from_exception_network_witness :
  fromException (JError 1 [("message", JString "read ECONNRESET"); ("code", JString "EX")]) =
    Ok (Mk NETWORK "read ECONNRESET" None None).
Proof. apply from_exception_network with (m := "read ECONNRESET"); [reflexivity|discriminate|].
  do 4 right; left. reflexivity. Defined.

End DeliveryError.

(** ** RetryAttempt *)

Module RetryAttempt.

(** domain/value-objects/retry-attempt.vo.ts:6-11 RetryAttempt *)
Record t : Type := Mk {
  number : num;
  statusCode : option num;
  error : option jsval;
  latencyMs : option num;
  timestamp : date;
}.

Definition opt_of (v : jsval) : option jsval := if is_nullish v then None else Some v.

(** The checks on an optional numeric argument: absent, or a number in range. *)
Definition status_code_bad (v : jsval) : bool :=
  match v with
  | JUndefined | JNull => false
  | JNum n => num_ltb n 100 || num_gtb n 599
  | _ => true
  end.
Definition latency_bad (v : jsval) : bool :=
  match v with
  | JUndefined | JNull => false
  | JNum n => num_ltb n 0
  | _ => true
  end.

(** domain/value-objects/retry-attempt.vo.ts:13-41 constructor
    [now] is the clock, [ts] the optional timestamp argument. *)
Definition create (now : Z) (n sc err lat : jsval) (ts : option date) : res exn t :=
  match n with
  | JNum n =>
      if num_ltb n 1
      then Throw (ValidationError "Retry attempt number must be a positive integer >= 1.")
      else if status_code_bad sc
      then Throw (ValidationError ("Invalid HTTP status code in RetryAttempt: "
                                   +:+ js_String sc +:+ "."))
      else if latency_bad lat
      then Throw (ValidationError "Latency in milliseconds cannot be negative.")
      else Ok (Mk n (js_num_of sc) (opt_of err) (js_num_of lat) (default (Some now) ts))
  | _ => Throw (ValidationError "Retry attempt number must be a positive integer >= 1.")
  end.

(** domain/value-objects/retry-attempt.vo.ts:81-83 wasSuccessful *)
Definition wasSuccessful (a : t) : bool :=
  match statusCode a with
  | Some n => num_geb n 200 && num_ltb n 300
  | None => false
  end.

Definition opt_eqb (a b : option jsval) : bool :=
  match a, b with
  | Some x, Some y => js_strict_eq x y
  | None, None => true
  | _, _ => false
  end.

(** domain/value-objects/retry-attempt.vo.ts:88-99 equals *)
Definition equals (a b : t) : bool :=
  num_eqb (number a) (number b)
  && DeliveryError.opt_num_eqb (statusCode a) (statusCode b)
  && opt_eqb (error a) (error b)
  && DeliveryError.opt_num_eqb (latencyMs a) (latencyMs b)
  && num_eqb (get_time (timestamp a)) (get_time (timestamp b)).

(** domain/value-objects/retry-attempt.vo.ts:104-106 toString *)
Definition toString (a : t) : string :=
  "Attempt #" +:+ num_to_string (number a) +:+ " [Status: "
  +:+ match statusCode a with Some n => num_to_string n | None => "N/A" end
  +:+ ", Latency: "
  +:+ num_to_string (default (ofZ 0) (latencyMs a)) +:+ "ms]".

(** Well-formed attempts: what the guards ensure.  A [NaN] passes every guard. *)
Definition valid (a : t) : Prop :=
  num_ltb (number a) 1 = false /\
  (forall n, statusCode a = Some n -> num_ltb n 100 = false /\ num_gtb n 599 = false) /\
  (forall n, latencyMs a = Some n -> num_ltb n 0 = false).

Lemma attempt_create_valid now n sc err lat ts a : create now n sc err lat ts = Ok a -> valid a.
Proof.
  unfold create. destruct n as [| | |n| | | | |]; try done.
  destruct (num_ltb n 1) eqn:E1; [done|].
  destruct (status_code_bad sc) eqn:E2; [done|].
  destruct (latency_bad lat) eqn:E3; [done|].
  intros [= <-]. split; [done|]. split; simpl.
  - destruct sc; simpl in *; try done. intros m [= <-]. by apply orb_false_iff in E2.
  - destruct lat; simpl in *; try done. by intros m [= <-].
Qed.

(** The guards of [RetryAttempt] in full: a call with a numeric attempt
    number builds an attempt exactly when the number is not below 1, the status
    code is absent or a number in 100..599, and the latency absent or not negative. *)
Theorem attempt_create_ok_iff now n sc err lat ts :
  is_ok (create now (JNum n) sc err lat ts) = true <->
  num_ltb n 1 = false /\ status_code_bad sc = false /\ latency_bad lat = false.
Proof.
  unfold create. destruct (num_ltb n 1), (status_code_bad sc), (latency_bad lat); naive_solver.
Qed.

(** The guards do not see [NaN]: it is accepted as an attempt number, a status
    code and a latency. *)
Lemma create_nan_accepted now :
  is_ok (create now NaN NaN JNull NaN None) = true.
Proof. reflexivity. Qed.

End RetryAttempt.

(** ** ConfidenceScore *)

Module Confidence.
#[local] Open Scope Q_scope.

Record t : Type := Mk { value : Q }.

(** domain/value-objects/confidence-score.vo.ts:9-20 constructor *)
Definition create (v : jsval) : res exn t :=
  match v with
  | JNum n =>
      if is_nan n
      then Throw (ValidationError ("Invalid confidence score: " +:+ js_String v
                                   +:+ ". Must be a valid number."))
      else
        let out_of_range := Throw (ValidationError ("Invalid confidence score: "
                              +:+ js_String v +:+ ". Must be between 0.0 and 1.0.")) in
        if num_ltb n (ofZ 0) || num_gtb n (ofZ 1) then out_of_range
        else match n with Fin q => Ok (Mk q) | _ => out_of_range end
  | _ => Throw (ValidationError ("Invalid confidence score: " +:+ js_String v
                                 +:+ ". Must be a valid number."))
  end.

(** domain/value-objects/confidence-score.vo.ts:32-37 equals *)
Definition equals (a b : t) : bool := Qlt_bool (Qabs (value a - value b)) (1 # 1000000000).
(** domain/value-objects/confidence-score.vo.ts:53-55 isHigh *)
Definition isHigh (threshold : Q) (a : t) : bool := Qle_bool threshold (value a).
(** domain/value-objects/confidence-score.vo.ts:60-62 isLow *)
Definition isLow (threshold : Q) (a : t) : bool := Qlt_bool (value a) threshold.
(** domain/value-objects/confidence-score.vo.ts:67-69 isMedium *)
Definition isMedium (low high : Q) (a : t) : bool :=
  Qle_bool low (value a) && Qlt_bool (value a) high.

Definition default_high : Q := 75 # 100.
Definition default_low : Q := 35 # 100.
Definition default_medium_low : Q := 25 # 100.

Definition valid (a : t) : Prop := 0 <= value a <= 1.

Lemma confidence_create_valid v a : create v = Ok a -> valid a.
Proof.
  destruct v as [| | |[|[]|q]| | | | |]; simpl; try done.
  destruct (_ || _) eqn:E; [done|]. apply orb_false_iff in E as [E1 E2].
  unfold num_gtb in E2; simpl in E1, E2. qbool.
  intros [= <-]. unfold valid; simpl. unfold inject_Z in *. lra.
Qed.

Lemma confidence_create_ok q : 0 <= q <= 1 -> create (JNum (Fin q)) = Ok (Mk q).
Proof.
  intros [H0 H1]. unfold create.
  replace (num_ltb (Fin q) (ofZ 0) || num_gtb (Fin q) (ofZ 1)) with false; [done|].
  symmetry. apply orb_false_iff. split; apply Qlt_bool_false; unfold inject_Z; lra.
Qed.

(** With the default thresholds every score is low, medium or high, and
    the bands overlap exactly on [0.25, 0.35), where a score is both low and
    medium. *)
Theorem confidence_bands a :
  (isLow default_low a || isMedium default_medium_low default_high a
    || isHigh default_high a = true) /\
  isMedium default_medium_low default_high a && isHigh default_high a = false /\
  isLow default_low a && isHigh default_high a = false /\
  (isLow default_low a && isMedium default_medium_low default_high a = true <->
     25 # 100 <= value a /\ value a < 35 # 100).
Proof.
  unfold isLow, isMedium, isHigh, default_low, default_medium_low, default_high.
  destruct (Qlt_bool (value a) (35 # 100)) eqn:E1, (Qle_bool (25 # 100) (value a)) eqn:E2,
    (Qlt_bool (value a) (75 # 100)) eqn:E3, (Qle_bool (75 # 100) (value a)) eqn:E4; qbool;
    simpl; try lra; repeat split; try done; try lra; intros [? ?]; lra.
Qed.

End Confidence.
