(* ===== verification/RetryStrategy.v ===== *)
(** * Backoff: [RetryStrategyVO] and the backoff calculators

    Delays are JS numbers ([num]), attempt counters integers, and
    [Math.random()] is an argument [rnd], a rational in [0, 1). *)
From Stdlib Require Import Ascii QArith Qround Qpower Qabs Lqa.
From stdpp Require Import base tactics numbers list strings.
From S2P Require Import Prelude JsNum JsValue.

(** What [Math.random()] returns. *)
Definition random_ok (rnd : Q) : Prop := (0 <= rnd < 1)%Q.

Module Strategy.

(** domain/value-objects/retry-strategy.vo.ts:41-46 RetryConfig *)
Record config : Type := Config {
  initialDelayMs : num;
  maxDelayMs : num;
  jitterFactor : num;
  maxRetries_opt : option num;
}.

(** domain/value-objects/retry-strategy.vo.ts:51-53 RetryStrategyVO *)
Record t : Type := Mk { type : string; cfg : config }.

(** domain/value-objects/retry-strategy.vo.ts:55-77 constructor *)
Definition create (ty : string) (c : config) : res exn t :=
  if num_ltb (initialDelayMs c) (ofZ 0) || num_ltb (maxDelayMs c) (ofZ 0)
  then Throw (ValidationError "Retry delays cannot be negative.")
  else if num_gtb (initialDelayMs c) (maxDelayMs c)
  then Throw (ValidationError ("initialDelayMs (" +:+ num_to_string (initialDelayMs c)
                +:+ ") cannot exceed maxDelayMs (" +:+ num_to_string (maxDelayMs c) +:+ ")."))
  else if num_ltb (jitterFactor c) (ofZ 0) || num_gtb (jitterFactor c) (ofZ 1)
  then Throw (ValidationError ("jitterFactor (" +:+ num_to_string (jitterFactor c)
                +:+ ") must be between 0.0 and 1.0."))
  else Ok (Mk (to_upper ty) c).

(** domain/value-objects/retry-strategy.vo.ts:161-163 maxRetries *)
Definition maxRetries (s : t) : num := default (ofZ 5) (maxRetries_opt (cfg s)).

Definition opt_num_eqb (a b : option num) : bool :=
  match a, b with
  | Some x, Some y => num_eqb x y
  | None, None => true
  | _, _ => false
  end.

(** domain/value-objects/retry-strategy.vo.ts:96-107 equals *)
Definition equals (a b : t) : bool :=
  str_eqb (type a) (type b)
  && num_eqb (initialDelayMs (cfg a)) (initialDelayMs (cfg b))
  && num_eqb (maxDelayMs (cfg a)) (maxDelayMs (cfg b))
  && num_eqb (jitterFactor (cfg a)) (jitterFactor (cfg b))
  && opt_num_eqb (maxRetries_opt (cfg a)) (maxRetries_opt (cfg b)).

(** [baseDelay + (jitterFactor > 0 ? baseDelay * jitterFactor * Math.random() : 0)] *)
Definition with_jitter (base jf : num) (rnd : Q) : num :=
  num_add base
    (if num_gtb jf (ofZ 0) then num_mul (num_mul base jf) (Fin rnd) else ofZ 0).

(** domain/value-objects/retry-strategy.vo.ts:112-130 calculateDelay *)
Definition calculateDelay (rnd : Q) (s : t) (attemptNumber : Z) : num :=
  let attempt := Z.max 1 attemptNumber in
  let c := cfg s in
  let delay :=
    if str_eqb (type s) "EXPONENTIAL" then
      with_jitter (num_mul (initialDelayMs c) (Fin (Qpow2 (attempt - 1)))) (jitterFactor c) rnd
    else if str_eqb (type s) "LINEAR" then
      with_jitter (num_mul (initialDelayMs c) (ofZ attempt)) (jitterFactor c) rnd
    else initialDelayMs c in
  num_min (num_floor delay) (maxDelayMs c).

(** domain/value-objects/retry-strategy.vo.ts:135-144 calculateBackoff *)
Definition calculateBackoff (rnd : Q) (s : t) (attemptNumber : Z) : num :=
  let c := cfg s in
  if attemptNumber <=? 1 then calculateDelay rnd s 1
  else
    let base := num_mul (initialDelayMs c) (Fin (Qpow2 attemptNumber)) in
    num_min (num_floor (with_jitter base (jitterFactor c) rnd)) (maxDelayMs c).

(** domain/value-objects/retry-strategy.vo.ts:175-178 isMaxRetriesExceeded *)
Definition isMaxRetriesExceeded (s : t) (attemptCount : Z) (dflt : num) : bool :=
  num_geb (ofZ attemptCount) (default dflt (maxRetries_opt (cfg s))).

(** domain/value-objects/retry-strategy.vo.ts:168-170 canRetry *)
Definition canRetry (s : t) (attemptCount : Z) : bool :=
  negb (isMaxRetriesExceeded s attemptCount (ofZ 5)).

(** domain/value-objects/retry-strategy.vo.ts:183-185 toString *)
Definition toString (s : t) : string :=
  type s +:+ ":" +:+ num_to_string (initialDelayMs (cfg s)) +:+ ":"
         +:+ num_to_string (maxDelayMs (cfg s)).

Definition tenth : num := Fin (1 # 10).

(** domain/value-objects/retry-strategy.vo.ts:190-192 exponential
    The optional arguments of the factories are [None] when omitted. *)
Definition exponential (init mx jf mr : option num) : res exn t :=
  create "EXPONENTIAL" (Config (default (ofZ 1000) init) (default (ofZ 3600000) mx)
                               (default tenth jf) (Some (default (ofZ 5) mr))).
(** domain/value-objects/retry-strategy.vo.ts:197-199 linear *)
Definition linear (delay mx jf mr : option num) : res exn t :=
  create "LINEAR" (Config (default (ofZ 1000) delay) (default (ofZ 3600000) mx)
                          (default (ofZ 0) jf) (Some (default (ofZ 5) mr))).
(** domain/value-objects/retry-strategy.vo.ts:204-206 fixed *)
Definition fixed (delay mr : option num) : res exn t :=
  let d := default (ofZ 1000) delay in
  create "FIXED" (Config d d (ofZ 0) (Some (default (ofZ 5) mr))).
(** domain/value-objects/retry-strategy.vo.ts:211-214 create *)
Definition create_static (ty : string) (c : option config) : res exn t :=
  create ty (default (Config (ofZ 1000) (ofZ 3600000) tenth None) c).

(** The numeric value of a field the code only compares and multiplies. *)
Definition to_num (v : jsval) : num :=
  match v with
  | JNum n => n
  | JNull => ofZ 0
  | JBool b => ofZ (if b then 1 else 0)
  | _ => NaN
  end.
Definition config_of_js (v : jsval) : config :=
  Config (to_num (js_get "initialDelayMs" v)) (to_num (js_get "maxDelayMs" v))
         (to_num (js_get "jitterFactor" v))
         (if is_nullish (js_get "maxRetries" v) then None
          else Some (to_num (js_get "maxRetries" v))).

(** domain/value-objects/retry-strategy.vo.ts:16-31 RetryStrategy.create
    The facade, on an initial delay or on a strategy name. *)
Definition facade_create (a : num + string) (b c d : jsval) : res exn t :=
  match a with
  | inl init =>
      let mx := default (ofZ 3600000) (js_num_of b) in
      let mr := default (ofZ 5) (js_num_of c) in
      let jf := default tenth (js_num_of d) in
      if num_leb mr (ofZ 0)
      then Throw (ValidationError "maxRetries must be greater than 0.")
      else exponential (Some init) (Some mx) (Some jf) (Some mr)
  | inr ty =>
      if is_object b then create_static ty (Some (config_of_js b))
      else exponential None None None None
  end.

(** domain/value-objects/retry-strategy.vo.ts:38-38 calculateBackoff *)
Definition facade_calculateBackoff (attempt : Z) : Q := (1000 * Qpow2 (attempt - 1))%Q.

(** ** Finite strategies *)

(** A strategy whose configuration holds finite numbers, as the guards of the
    constructor leave it. *)
Definition finite (s : t) (i m j : Q) : Prop :=
  initialDelayMs (cfg s) = Fin i /\ maxDelayMs (cfg s) = Fin m /\
  jitterFactor (cfg s) = Fin j /\ (0 <= i <= m)%Q /\ (0 <= j <= 1)%Q.

Lemma create_finite ty c s i m j :
  create ty c = Ok s ->
  initialDelayMs c = Fin i -> maxDelayMs c = Fin m -> jitterFactor c = Fin j ->
  finite s i m j.
Proof.
  unfold create. intros H Hi Hm Hj. rewrite Hi, Hm, Hj in H.
  destruct (_ || _) eqn:E1 in H; [done|]. destruct (num_gtb _ _) eqn:E2 in H; [done|].
  destruct (_ || _) eqn:E3 in H; [done|]. injection H as <-.
  apply orb_false_iff in E1 as [E1 E1'], E3 as [E3 E3'].
  unfold num_gtb in *. simpl in *. qbool. unfold inject_Z in *.
  unfold finite; simpl; repeat split; auto; lra.
Qed.

(** The delay before rounding and capping, in exact arithmetic. *)
Definition raw_delay (rnd : Q) (ty : string) (i j : Q) (attempt : Z) : Q :=
  (if str_eqb ty "EXPONENTIAL" then i * Qpow2 (attempt - 1) * (1 + j * rnd)
   else if str_eqb ty "LINEAR" then i * inject_Z attempt * (1 + j * rnd)
   else i)%Q.

Lemma with_jitter_Fin b j rnd :
  (0 <= j)%Q -> with_jitter (Fin b) (Fin j) rnd ≡ Fin (b * (1 + j * rnd)).
Proof.
  intros Hj. unfold with_jitter, num_gtb; simpl.
  destruct (Qlt_bool (inject_Z 0) j) eqn:E; qbool; simpl; unfold equiv, num_equiv.
  - ring.
  - unfold inject_Z in *. assert (j == 0)%Q as -> by lra. ring.
Qed.

Lemma calculateDelay_finite rnd s i m j n :
  finite s i m j ->
  calculateDelay rnd s n ≡
  Fin (Qmin' (inject_Z (Qfloor (raw_delay rnd (type s) i j (Z.max 1 n)))) m).
Proof.
  intros (Hi & Hm & Hj & _ & Hj0). unfold calculateDelay, raw_delay.
  rewrite Hi, Hm, Hj, <- num_min_Fin.
  destruct (str_eqb (type s) "EXPONENTIAL"); [|destruct (str_eqb (type s) "LINEAR")].
  - cbn [num_mul]. rewrite with_jitter_Fin by tauto. done.
  - unfold ofZ; cbn [num_mul]. rewrite with_jitter_Fin by tauto. done.
  - done.
Qed.

Lemma jitter_factor_bounds j rnd :
  (0 <= j <= 1)%Q -> random_ok rnd -> (1 <= 1 + j * rnd)%Q /\ (1 + j * rnd < 2)%Q.
Proof. unfold random_ok. intros. split; nra. Qed.

Lemma raw_delay_ge rnd ty i j n :
  (0 <= i)%Q -> (0 <= j <= 1)%Q -> random_ok rnd -> 1 <= n -> (i <= raw_delay rnd ty i j n)%Q.
Proof.
  intros Hi Hj Hr Hn. destruct (jitter_factor_bounds _ _ Hj Hr) as [Hf _].
  assert (forall k, (1 <= k)%Q -> (i <= i * k * (1 + j * rnd))%Q) as Hk.
  { intros k Hk. pose proof (Qmul_ge1_r i k Hi Hk).
    pose proof (Qmul_ge1_r (i * k) (1 + j * rnd) ltac:(lra) Hf). lra. }
  unfold raw_delay. destruct (str_eqb ty "EXPONENTIAL"); [|destruct (str_eqb ty "LINEAR")]; [| |lra].
  - apply Hk, Qpow2_nonneg_1. lia.
  - apply Hk. change 1%Q with (inject_Z 1). rewrite <- Zle_Qle. lia.
Qed.

Lemma raw_delay_mono rnd ty i j n n' :
  (0 <= i)%Q -> (0 <= j <= 1)%Q -> random_ok rnd -> n <= n' ->
  (raw_delay rnd ty i j n <= raw_delay rnd ty i j n')%Q.
Proof.
  intros Hi Hj Hr Hn. destruct (jitter_factor_bounds _ _ Hj Hr) as [Hf _].
  unfold raw_delay. destruct (str_eqb ty "EXPONENTIAL"); [|destruct (str_eqb ty "LINEAR")]; [| |lra].
  - apply Qmult_le_compat_r; [|lra]. apply Qmul_mono_l; [done|]. apply Qpow2_mono. lia.
  - apply Qmult_le_compat_r; [|lra]. apply Qmul_mono_l; [done|]. rewrite <- Zle_Qle. lia.
Qed.

Lemma floor_raw_nonneg rnd ty i j n :
  (0 <= i)%Q -> (0 <= j <= 1)%Q -> random_ok rnd -> 1 <= n ->
  Qfloor i <= Qfloor (raw_delay rnd ty i j n).
Proof. intros. apply Qfloor_resp_le. by apply raw_delay_ge. Qed.

(** The delay a strategy computes is a finite number between 0 and its
    [maxDelayMs], and at least its (rounded, capped) initial delay, for every
    attempt number and every jitter. *)
Theorem calculateDelay_bounds ty c s i m j rnd n :
  create ty c = Ok s ->
  initialDelayMs c = Fin i -> maxDelayMs c = Fin m -> jitterFactor c = Fin j ->
  random_ok rnd ->
  exists d, calculateDelay rnd s n ≡ Fin d /\ (0 <= d <= m)%Q /\
            (Qmin' (inject_Z (Qfloor i)) m <= d)%Q.
Proof.
  intros Hc Hi Hm Hj Hr. pose proof (create_finite _ _ _ _ _ _ Hc Hi Hm Hj) as Hf.
  eexists. split; [by apply calculateDelay_finite|].
  destruct Hf as (_ & _ & _ & [Hi0 Him] & Hj0).
  pose proof (floor_raw_nonneg rnd (type s) i j (Z.max 1 n) Hi0 Hj0 Hr ltac:(lia)) as Hfl.
  split; [split|].
  - apply Qmin'_glb; [|lra]. change 0%Q with (inject_Z 0). rewrite <- Zle_Qle.
    transitivity (Qfloor i); [by apply Qfloor_inject_le|done].
  - apply Qmin'_r.
  - apply Qmin'_mono; [|lra]. by rewrite <- Zle_Qle.
Qed.

Lemma calculateDelay_bounds_witness :
  exists d, calculateDelay (1 # 2) (Mk "EXPONENTIAL" (Config 1000 60000 tenth None)) 7 ≡ Fin d
            /\ (0 <= d <= 60000)%Q.
Proof.
  destruct (calculateDelay_bounds "exponential" (Config 1000 60000 tenth None)
    (Mk "EXPONENTIAL" (Config 1000 60000 tenth None)) 1000 60000 (1 # 10) (1 # 2) 7)
    as (d & H & Hd & _); try reflexivity.
  - split; [discriminate|reflexivity].
  - by exists d.
Defined.

(** For a given jitter the delay never decreases from one attempt to a later one. *)
Theorem calculateDelay_monotone ty c s i m j rnd n n' :
  create ty c = Ok s ->
  initialDelayMs c = Fin i -> maxDelayMs c = Fin m -> jitterFactor c = Fin j ->
  random_ok rnd -> n <= n' ->
  num_leb (calculateDelay rnd s n) (calculateDelay rnd s n') = true.
Proof.
  intros Hc Hi Hm Hj Hr Hn. pose proof (create_finite _ _ _ _ _ _ Hc Hi Hm Hj) as Hf.
  rewrite !(calculateDelay_finite _ _ _ _ _ _ Hf), num_leb_Fin. apply Qle_bool_iff.
  destruct Hf as (_ & _ & _ & [Hi0 Him] & Hj0).
  apply Qmin'_mono; [|lra]. rewrite <- Zle_Qle. apply Qfloor_resp_le.
  apply raw_delay_mono; try done; lia.
Qed.

Lemma calculateDelay_monotone_witness :
  num_leb (calculateDelay 0 (Mk "LINEAR" (Config 500 9000 0 None)) 2)
          (calculateDelay 0 (Mk "LINEAR" (Config 500 9000 0 None)) 5) = true.
Proof.
  apply (calculateDelay_monotone "linear" (Config 500 9000 0 None) _ 500 9000 0); try reflexivity;
    [split; [discriminate|reflexivity]|lia].
Defined.

(** [calculateBackoff] is not the alias its comment announces: from the
    second attempt on, an exponential strategy's backoff is the delay of the
    NEXT attempt, twice what [calculateDelay] schedules until the cap. *)
Theorem calculateBackoff_is_next_delay rnd s n :
  type s = "EXPONENTIAL" -> 2 <= n ->
  calculateBackoff rnd s n = calculateDelay rnd s (n + 1).
Proof.
  intros Ht Hn. unfold calculateBackoff, calculateDelay. rewrite Ht.
  replace (n <=? 1) with false by lia.
  by replace (Z.max 1 (n + 1) - 1) with n by lia.
Qed.

Lemma calculateBackoff_is_next_delay_witness :
  calculateBackoff 0 (Mk "EXPONENTIAL" (Config 1000 60000 0 None)) 2 ≡ ofZ 4000 /\
  calculateDelay 0 (Mk "EXPONENTIAL" (Config 1000 60000 0 None)) 2 ≡ ofZ 2000.
Proof.
  split; [|reflexivity].
  rewrite (calculateBackoff_is_next_delay 0 _ 2); [reflexivity|reflexivity|lia].
Defined.

(** A strategy with an integer limit [k] allows a retry exactly while fewer
    than [k] attempts were made. *)
Theorem canRetry_limit s k n :
  maxRetries s = ofZ k -> canRetry s n = (n <? k).
Proof.
  unfold maxRetries, canRetry, isMaxRetriesExceeded, num_geb. intros ->.
  rewrite num_leb_Z. lia.
Qed.

Lemma canRetry_limit_witness :
  canRetry (Mk "FIXED" (Config 10 10 0 (Some (ofZ 3)))) 2 = true.
Proof. rewrite (canRetry_limit _ 3 2); reflexivity. Defined.

End Strategy.

(** ** resilience/retry *)

Module Backoff.

(** resilience/retry/backoff-calculator.ts:8-18 exponentialBackoff *)
Definition exponentialBackoff (rnd : Q) (attempt : Z) (base mx jf : num) : num :=
  let attemptIndex := Z.max 0 (attempt - 1) in
  let rawDelay := num_mul base (Fin (Qpow2 attemptIndex)) in
  let jitter := num_mul rawDelay (num_mul (Fin rnd) jf) in
  num_floor (num_min (num_add rawDelay jitter) mx).

(** resilience/retry/backoff-calculator.ts:23-30 linearBackoff *)
Definition linearBackoff (attempt : Z) (delay mx : num) : num :=
  num_floor (num_min (num_mul delay (ofZ (Z.max 1 attempt))) mx).

(** resilience/retry/backoff-calculator.ts:35-37 fixedBackoff *)
Definition fixedBackoff (delay : num) : num := num_floor (num_max (ofZ 0) delay).

(** resilience/retry/backoff-calculator.ts:42-49 exponentialBackoffWithJitter *)
Definition exponentialBackoffWithJitter := exponentialBackoff.

(** resilience/retry/exponential-backoff.ts:13-44 calculateExponentialBackoff *)
Definition calculateExponentialBackoff (rnd : Q) (retryCount : Z) (baseMs maxMs jf : num)
    : res exn num :=
  if retryCount <? 0 then Throw (ValidationError "retryCount")
  else if num_leb baseMs (ofZ 0) then Throw (ValidationError "baseMs")
  else if num_ltb maxMs baseMs then Throw (ValidationError "maxMs")
  else if num_ltb jf (ofZ 0) || num_gtb jf (ofZ 1) then Throw (ValidationError "jitterFactor")
  else
    let backoff := num_mul (Fin (Qpow2 retryCount)) baseMs in
    let jitterRange := num_mul backoff jf in
    let jitter := num_mul (Fin rnd) jitterRange in
    let totalDelay := num_add backoff jitter in
    Ok (num_min maxMs (num_ceil totalDelay)).

(** shared/utils/time.ts:49-58 calculateBackoff *)
Definition time_calculateBackoff (rnd : Q) (retryCount : Z) (baseMs maxMs : num) : num :=
  num_min (num_add (num_mul baseMs (Fin (Qpow2 retryCount))) (num_mul (Fin rnd) (ofZ 1000))) maxMs.

(** The retry options of the resilience configuration; [None] is [undefined]. *)
Record options : Type := Options {
  o_maxRetries : option num; o_baseMs : option num;
  o_maxMs : option num; o_jitterFactor : option num;
}.

(** resilience/retry/config.ts:4-9 RetryConfig *)
Record retry_config : Type := RetryConfig {
  maxRetries : num; baseMs : num; maxMs : num; jitterFactor : num;
}.

(** resilience/retry/config.ts:19-47 getRetryConfig *)
Definition getRetryConfig (o : options) : res exn retry_config :=
  let maxRetries := default (ofZ 5) (o_maxRetries o) in
  let baseMs := default (ofZ 1000) (o_baseMs o) in
  let maxMs := default (ofZ 3600000) (o_maxMs o) in
  let jitterFactor := default (ofZ 1) (o_jitterFactor o) in
  if num_ltb maxRetries (ofZ 0) then Throw (ValidationError "maxRetries")
  else if num_leb baseMs (ofZ 0) then Throw (ValidationError "baseMs")
  else if num_ltb maxMs baseMs then Throw (ValidationError "maxMs")
  else if num_ltb jitterFactor (ofZ 0) || num_gtb jitterFactor (ofZ 1)
  then Throw (ValidationError "jitterFactor")
  else Ok (RetryConfig maxRetries baseMs maxMs jitterFactor).

(** resilience/retry/index.ts:53-63 RetryEngine.calculateBackoff
    The observation of the delay by a histogram is left out. *)
Definition engine_calculateBackoff (rnd : Q) (o : options) (retryCount : Z) : res exn num :=
  params ← getRetryConfig o;
  calculateExponentialBackoff rnd retryCount (baseMs params) (maxMs params) (jitterFactor params).

(** A retry configuration [getRetryConfig] accepts never makes
    [calculateExponentialBackoff] throw on a non-negative retry count, so the
    engine's [calculateBackoff] is total there. *)
Theorem engine_backoff_total rnd o retryCount :
  is_ok (getRetryConfig o) = true -> 0 <= retryCount ->
  is_ok (engine_calculateBackoff rnd o retryCount) = true.
Proof.
  unfold engine_calculateBackoff, getRetryConfig. intros H Hn.
  destruct (num_ltb _ (ofZ 0)) eqn:E1; [done|]. destruct (num_leb _ (ofZ 0)) eqn:E2; [done|].
  destruct (num_ltb _ _) eqn:E3 in H |- *; [done|]. destruct (_ || _) eqn:E4; [done|].
  cbn [mbind res_bind]. unfold calculateExponentialBackoff; cbn [baseMs maxMs jitterFactor].
  replace (retryCount <? 0) with false by lia. by rewrite E2, E3, E4.
Qed.

Lemma engine_backoff_total_witness :
  is_ok (engine_calculateBackoff (1 # 3) (Options None None None None) 4) = true.
Proof. apply engine_backoff_total; [reflexivity|lia]. Defined.

(** The two exponential backoffs of the code base agree: on finite
    parameters with an integer cap, [BackoffCalculator.exponentialBackoff] is
    the delay of an exponential [RetryStrategyVO] with the same parameters. *)
Theorem exponentialBackoff_equiv ty s i m j rnd n :
  Strategy.create ty (Strategy.Config (Fin i) (ofZ m) (Fin j) None) = Ok s ->
  Strategy.type s = "EXPONENTIAL" -> random_ok rnd ->
  exponentialBackoff rnd n (Fin i) (ofZ m) (Fin j) ≡ Strategy.calculateDelay rnd s n.
Proof.
  intros Hc Ht Hr.
  pose proof (Strategy.create_finite _ _ _ i (inject_Z m) j Hc eq_refl eq_refl eq_refl) as Hf.
  rewrite (Strategy.calculateDelay_finite _ _ _ _ _ _ Hf), Qmin'_Z.
  unfold Strategy.raw_delay. rewrite Ht. cbn [str_eqb].
  unfold exponentialBackoff, ofZ. cbn [num_mul num_add]. rewrite num_min_Fin. cbn [num_floor].
  rewrite Qfloor_min_Z. unfold equiv, num_equiv, ofZ.
  replace (Z.max 1 n - 1) with (Z.max 0 (n - 1)) by lia.
  replace (Qfloor (i * Qpow2 (Z.max 0 (n - 1)) + i * Qpow2 (Z.max 0 (n - 1)) * (rnd * j))%Q)
    with (Qfloor (i * Qpow2 (Z.max 0 (n - 1)) * (1 + j * rnd))%Q); [reflexivity|].
  apply Qfloor_comp. ring.
Qed.

Lemma exponentialBackoff_equiv_witness :
  exponentialBackoff (1 # 4) 3 1000 60000 (Fin (1 # 5)) ≡
  Strategy.calculateDelay (1 # 4)
    (Strategy.Mk "EXPONENTIAL" (Strategy.Config 1000 60000 (Fin (1 # 5)) None)) 3.
Proof.
  apply (exponentialBackoff_equiv "exponential" _ 1000 60000 (1 # 5)); try reflexivity.
  split; [discriminate|reflexivity].
Defined.

End Backoff.
