(* ===== verification/Delivery.v ===== *)
(** * The [Delivery] aggregate

    The life cycle of one delivery of a task result to one destination:
    constructor, factories, the state-changing methods and the predicates of
    [domain/entities/delivery.entity.ts].  A method is a [meth]: it returns the
    entity as it stands when it returns or throws.  [now] is the clock, read
    once per call; [rnd] is [Math.random()]; [uuid] the generated identifier. *)
From Stdlib Require Import Ascii QArith Qround Qpower Qabs Lqa.
From stdpp Require Import base tactics numbers list strings relations.
From S2P Require Import Prelude JsNum JsValue DomainTypes ValueObjects RetryStrategy.

Module Delivery.

(** An entry of [_attempts]: a value object, or the plain object that
    [ProcessDeliveryService] pushes when building the value object throws. *)
Inductive attempt_entry : Type :=
| AttemptVO (a : RetryAttempt.t)
| AttemptRaw (number : Z) (statusCode latencyMs : num) (error : option string).

(** domain/entities/delivery.entity.ts:13-23 Delivery *)
Record t : Type := Mk {
  id : string;
  createdAt : date;
  deletedAt : option date;
  domainEvents : list jsval;
  taskResultId : string;
  destinationId : string;
  status : Status.t;
  retryCount : Z;
  nextRetryAt : option date;
  lastAttemptAt : option date;
  lastError : option DeliveryError.t;
  completedAt : option date;
  updatedAt : date;
  attempts : list attempt_entry;
}.

Abbreviation M := (meth t exn).

(** ** Field assignments *)

Definition set_status (s : Status.t) (d : t) : t :=
  Mk (id d) (createdAt d) (deletedAt d) (domainEvents d) (taskResultId d) (destinationId d) s
     (retryCount d) (nextRetryAt d) (lastAttemptAt d) (lastError d) (completedAt d)
     (updatedAt d) (attempts d).
Definition set_retryCount (n : Z) (d : t) : t :=
  Mk (id d) (createdAt d) (deletedAt d) (domainEvents d) (taskResultId d) (destinationId d)
     (status d) n (nextRetryAt d) (lastAttemptAt d) (lastError d) (completedAt d)
     (updatedAt d) (attempts d).
Definition set_nextRetryAt (n : option date) (d : t) : t :=
  Mk (id d) (createdAt d) (deletedAt d) (domainEvents d) (taskResultId d) (destinationId d)
     (status d) (retryCount d) n (lastAttemptAt d) (lastError d) (completedAt d)
     (updatedAt d) (attempts d).
Definition set_lastAttemptAt (x : option date) (d : t) : t :=
  Mk (id d) (createdAt d) (deletedAt d) (domainEvents d) (taskResultId d) (destinationId d)
     (status d) (retryCount d) (nextRetryAt d) x (lastError d) (completedAt d)
     (updatedAt d) (attempts d).
Definition set_lastError (e : option DeliveryError.t) (d : t) : t :=
  Mk (id d) (createdAt d) (deletedAt d) (domainEvents d) (taskResultId d) (destinationId d)
     (status d) (retryCount d) (nextRetryAt d) (lastAttemptAt d) e (completedAt d)
     (updatedAt d) (attempts d).
Definition set_completedAt (x : option date) (d : t) : t :=
  Mk (id d) (createdAt d) (deletedAt d) (domainEvents d) (taskResultId d) (destinationId d)
     (status d) (retryCount d) (nextRetryAt d) (lastAttemptAt d) (lastError d) x
     (updatedAt d) (attempts d).
Definition set_updatedAt (x : date) (d : t) : t :=
  Mk (id d) (createdAt d) (deletedAt d) (domainEvents d) (taskResultId d) (destinationId d)
     (status d) (retryCount d) (nextRetryAt d) (lastAttemptAt d) (lastError d) (completedAt d)
     x (attempts d).
Definition set_attempts (l : list attempt_entry) (d : t) : t :=
  Mk (id d) (createdAt d) (deletedAt d) (domainEvents d) (taskResultId d) (destinationId d)
     (status d) (retryCount d) (nextRetryAt d) (lastAttemptAt d) (lastError d) (completedAt d)
     (updatedAt d) l.
Definition set_events (l : list jsval) (d : t) : t :=
  Mk (id d) (createdAt d) (deletedAt d) l (taskResultId d) (destinationId d)
     (status d) (retryCount d) (nextRetryAt d) (lastAttemptAt d) (lastError d) (completedAt d)
     (updatedAt d) (attempts d).
Definition set_deletedAt (x : option date) (d : t) : t :=
  Mk (id d) (createdAt d) x (domainEvents d) (taskResultId d) (destinationId d)
     (status d) (retryCount d) (nextRetryAt d) (lastAttemptAt d) (lastError d) (completedAt d)
     (updatedAt d) (attempts d).

(** ** Construction *)

(** domain/entities/delivery.entity.ts:25-64 constructor *)
Definition new (now : Z) (id taskResultId destinationId : string) (status : Status.t)
    (retryCount : Z) (nextRetryAt lastAttemptAt : option date)
    (lastError : option DeliveryError.t) (completedAt createdAt updatedAt : option date)
    (attempts : list attempt_entry) (deletedAt : option date) : res exn t :=
  if negb (str_truthy id)
  then Throw (ValidationError "Delivery ID must be a non-empty string.")
  else if negb (str_truthy taskResultId)
  then Throw (ValidationError "Delivery taskResultId must be a non-empty string.")
  else if negb (str_truthy destinationId)
  then Throw (ValidationError "Delivery destinationId must be a non-empty string.")
  else
    let created := default (Some now) createdAt in
    Ok (Mk id created deletedAt [] taskResultId destinationId status retryCount
           nextRetryAt lastAttemptAt lastError completedAt (default created updatedAt) attempts).

(** domain/entities/delivery.entity.ts:318-335 create *)
Definition create (now : Z) (uuid taskResultId destinationId : string) (id : option string)
    : res exn t :=
  let entityId := str_or (default "" id) uuid in
  new now entityId taskResultId destinationId Status.PENDING 0 None None None None
      (Some (Some now)) (Some (Some now)) [] None.

(** An attempt as the persistence layer returns it. *)
Record raw_attempt : Type := RawAttempt {
  ra_number : jsval; ra_attemptNumber : jsval; ra_statusCode : jsval;
  ra_error : jsval; ra_latencyMs : jsval; ra_timestamp : option date;
}.

Record restore_params : Type := RestoreParams {
  p_id : string; p_taskResultId : string; p_destinationId : string;
  p_status : Status.t + jsval;
  p_retryCount : option Z;
  p_nextRetryAt : option date; p_lastAttemptAt : option date;
  p_lastError : option (DeliveryError.t + jsval);
  p_completedAt : option date; p_createdAt : option date; p_updatedAt : option date;
  p_attempts : list (RetryAttempt.t + raw_attempt);
  p_deletedAt : option date;
}.

Definition restore_status (s : Status.t + jsval) : res exn Status.t :=
  match s with
  | inl st => Ok st
  | inr v =>
      let raw := if is_object v then js_or (js_get "kind" v) (js_or (js_get "value" v) v) else v in
      Status.create raw
  end.
Definition restore_error (e : option (DeliveryError.t + jsval))
    : res exn (option DeliveryError.t) :=
  match e with
  | None => Ok None
  | Some (inl e) => Ok (Some e)
  | Some (inr v) =>
      if negb (js_truthy v) then Ok None
      else
        e ← DeliveryError.create (js_String (js_or (js_get "category" v) "UNKNOWN"))
              (js_or (js_get "message" v) (js_String v)) (js_get "statusCode" v) None;
        mret (Some e)
  end.
Fixpoint restore_attempts (now : Z) (l : list (RetryAttempt.t + raw_attempt))
    : res exn (list attempt_entry) :=
  match l with
  | [] => Ok []
  | a :: l =>
      a' ← (match a with
            | inl a => Ok a
            | inr r => RetryAttempt.create now (js_or (ra_number r) (js_or (ra_attemptNumber r) (ofZ 1)))
                         (ra_statusCode r) (ra_error r) (ra_latencyMs r) (ra_timestamp r)
            end);
      rest ← restore_attempts now l;
      mret (AttemptVO a' :: rest)
  end.

(** domain/entities/delivery.entity.ts:267-313 restore *)
Definition restore (now : Z) (p : restore_params) : res exn t :=
  statusObj ← restore_status (p_status p);
  errObj ← restore_error (p_lastError p);
  attemptsObj ← restore_attempts now (p_attempts p);
  new now (p_id p) (p_taskResultId p) (p_destinationId p) statusObj (default 0 (p_retryCount p))
    (p_nextRetryAt p) (p_lastAttemptAt p) errObj (p_completedAt p) (p_createdAt p)
    (p_updatedAt p) attemptsObj (p_deletedAt p).

(** ** State changes *)

(** domain/entities/delivery.entity.ts:110-117 markAsProcessing *)
Definition markAsProcessing (now : Z) : M unit :=
  d ← get_this;
  if negb (Status.isPendingVO (status d)) && negb (Status.isScheduledForRetry (status d))
  then fail (InvalidDeliveryStateError (Status.getValue (status d)) "PROCESSING")
  else modify (fun d => set_updatedAt (Some now) (set_lastAttemptAt (Some (Some now))
                          (set_status Status.PROCESSING d))).

(** domain/entities/delivery.entity.ts:119-121 markProcessing *)
Definition markProcessing (now : Z) : M unit := markAsProcessing now.

Inductive when_arg : Type := WNone | WNum (n : num) | WDate (d : date).

(** domain/entities/delivery.entity.ts:127-136 markAsCompleted *)
Definition markAsCompleted (now : Z) (completedAt : when_arg) : M unit :=
  d ← get_this;
  if negb (Status.isProcessingVO (status d))
  then fail (InvalidDeliveryStateError (Status.getValue (status d)) "COMPLETED")
  else
    let at_ := match completedAt with
               | WNum n => date_of_num n
               | WDate d => d
               | WNone => Some now
               end in
    modify (fun d => set_updatedAt at_ (set_nextRetryAt None (set_completedAt (Some at_)
                       (set_status Status.COMPLETED d)))).

(** domain/entities/delivery.entity.ts:138-140 markCompleted *)
Definition markCompleted (now : Z) (completedAt : when_arg) : M unit :=
  markAsCompleted now completedAt.

(** domain/entities/delivery.entity.ts:212-219 moveToDeadLetterQueue *)
Definition moveToDeadLetterQueue (now : Z) (reason : string) : M unit :=
  modify (set_status Status.FAILED_DLQ);;
  d ← get_this;
  (match lastError d with
   | None =>
       e ← lift_res (DeliveryError.create "PERMANENT" reason JUndefined None);
       modify (set_lastError (Some e))
   | Some _ => mret tt
   end);;
  modify (fun d => set_updatedAt (Some now) (set_nextRetryAt None d)).

(** domain/entities/delivery.entity.ts:221-223 moveToDLQ *)
Definition moveToDLQ (now : Z) (reason : string) : M unit := moveToDeadLetterQueue now reason.

Inductive delay_arg : Type := DelayNum (n : num) | DelayDate (d : date).

Definition retry_date (now : Z) (delay : delay_arg) : date :=
  match delay with
  | DelayNum n => date_of_num (num_add (ofZ now) (num_max (ofZ 0) n))
  | DelayDate d => d
  end.

(** domain/entities/delivery.entity.ts:195-199 scheduleRetry *)
Definition scheduleRetry (now : Z) (delay : delay_arg) : M unit :=
  modify (fun d => set_updatedAt (Some now) (set_nextRetryAt (Some (retry_date now delay))
                     (set_status Status.SCHEDULED_RETRY d))).

(** domain/entities/delivery.entity.ts:204-207 moveToRetry *)
Definition moveToRetry (now : Z) (rnd : Q) (s : Strategy.t) : M unit :=
  d ← get_this;
  scheduleRetry now (DelayNum (Strategy.calculateDelay rnd s (retryCount d))).

(** The [error] argument of the failure methods: a [DeliveryError], or anything. *)
Inductive error_arg : Type := ErrVO (e : DeliveryError.t) | ErrAny (v : jsval).
Inductive strategy_arg : Type := StratNone | StratBool (b : bool) | StratObj (s : Strategy.t).

Definition as_delivery_error (e : error_arg) : res exn DeliveryError.t :=
  match e with
  | ErrVO e => Ok e
  | ErrAny v =>
      let msg := match v with
                 | JString s => v
                 | _ => js_or (js_get "message" v) "Delivery failed"
                 end in
      DeliveryError.create "UNKNOWN" msg JUndefined None
  end.

(** domain/entities/delivery.entity.ts:145-166 markAsFailed *)
Definition markAsFailed (now : Z) (rnd : Q) (error : error_arg) (strategy : strategy_arg)
    (maxRetries : Z) : M unit :=
  d ← get_this;
  if negb (Status.isProcessingVO (status d))
  then fail (InvalidDeliveryStateError (Status.getValue (status d)) "SCHEDULED_RETRY")
  else
    errObj ← lift_res (as_delivery_error error);
    modify (fun d => set_retryCount (retryCount d + 1) (set_lastError (Some errObj) d));;
    d ← get_this;
    if negb (DeliveryError.isRetryable errObj) || (retryCount d >=? maxRetries)
    then moveToDeadLetterQueue now (DeliveryError.message errObj)
    else match strategy with
         | StratObj s => moveToRetry now rnd s
         | _ => scheduleRetry now (DelayNum (Fin (1000 * Qpow2 (retryCount d))))
         end.

(** domain/entities/delivery.entity.ts:168-171 incrementRetryCount *)
Definition incrementRetryCount (now : Z) : M unit :=
  modify (fun d => set_updatedAt (Some now) (set_retryCount (retryCount d + 1) d)).

(** domain/entities/delivery.entity.ts:173-190 markFailed *)
Definition markFailed (now : Z) (error : error_arg) (strategy : strategy_arg) (maxRetries : Z)
    : M unit :=
  errObj ← lift_res (as_delivery_error error);
  modify (fun d => let d := set_lastError (Some errObj) d in
                   if retryCount d =? 0 then set_retryCount 1 d else d);;
  d ← get_this;
  let isRetry := match strategy with
                 | StratBool b => b
                 | StratObj s => Strategy.canRetry s (retryCount d)
                 | StratNone => true
                 end in
  if negb isRetry || (retryCount d >=? maxRetries)
  then moveToDeadLetterQueue now (DeliveryError.message errObj)
  else modify (fun d => set_updatedAt (Some now) (set_status Status.SCHEDULED_RETRY d)).

(** domain/entities/delivery.entity.ts:228-235 addAttempt *)
Definition addAttempt (now : Z) (a : RetryAttempt.t) : M unit :=
  modify (fun d => set_updatedAt (Some now) (set_lastAttemptAt (Some (RetryAttempt.timestamp a))
                     (set_attempts (attempts d ++ [AttemptVO a]) d))).

(** ** Queries *)

(** domain/entities/delivery.entity.ts:240-245 canRetry *)
Definition canRetry (maxRetries : Z) (d : t) : bool :=
  if Status.isFinal (status d) then false else retryCount d <? maxRetries.

(** domain/entities/delivery.entity.ts:250-252 shouldMoveToDeadLetterQueue *)
Definition shouldMoveToDeadLetterQueue (sc : Z) : bool :=
  (sc >=? 400) && (sc <? 500) && negb (sc =? 408) && negb (sc =? 429).

(** domain/entities/delivery.entity.ts:257-262 equals *)
Definition equals (a b : t) : bool := str_eqb (id a) (id b).

(** ** Aggregate root *)

(** domain/types/aggregates.types.ts:35-37 isDeleted *)
Definition isDeleted (d : t) : bool := match deletedAt d with Some _ => true | None => false end.
(** domain/types/aggregates.types.ts:39-41 delete *)
Definition delete (now : Z) : M unit := modify (set_deletedAt (Some (Some now))).
(** domain/types/aggregates.types.ts:49-51 addDomainEvent *)
Definition addDomainEvent (e : jsval) : M unit := modify (fun d => set_events (domainEvents d ++ [e]) d).
(** domain/types/aggregates.types.ts:53-55 clearDomainEvents *)
Definition clearDomainEvents : M unit := modify (set_events []).

(** ** The calls a client can make, and the states they reach *)

Inductive op : Type :=
| OpProcess (now : Z)
| OpComplete (now : Z) (at_ : when_arg)
| OpFail (now : Z) (rnd : Q) (e : error_arg) (s : strategy_arg) (maxRetries : Z)
| OpMarkFailed (now : Z) (e : error_arg) (s : strategy_arg) (maxRetries : Z)
| OpIncrement (now : Z)
| OpSchedule (now : Z) (delay : delay_arg)
| OpMoveToRetry (now : Z) (rnd : Q) (s : Strategy.t)
| OpMoveToDLQ (now : Z) (reason : string)
| OpAddAttempt (now : Z) (a : RetryAttempt.t)
| OpDelete (now : Z)
| OpAddEvent (e : jsval)
| OpClearEvents.

Definition run_op (o : op) : M unit :=
  match o with
  | OpProcess now => markAsProcessing now
  | OpComplete now at_ => markAsCompleted now at_
  | OpFail now rnd e s mx => markAsFailed now rnd e s mx
  | OpMarkFailed now e s mx => markFailed now e s mx
  | OpIncrement now => incrementRetryCount now
  | OpSchedule now delay => scheduleRetry now delay
  | OpMoveToRetry now rnd s => moveToRetry now rnd s
  | OpMoveToDLQ now reason => moveToDeadLetterQueue now reason
  | OpAddAttempt now a => addAttempt now a
  | OpDelete now => delete now
  | OpAddEvent e => addDomainEvent e
  | OpClearEvents => clearDomainEvents
  end.

(** One call, whether it returns or throws. *)
Inductive step : t -> t -> Prop :=
| step_op o d : step d (run_op o d).1.

(** Calls that go through the guarded methods only: the ones the life cycle is
    meant to be driven by. *)
Definition guarded (o : op) : bool :=
  match o with
  | OpMarkFailed _ _ _ _ | OpSchedule _ _ | OpMoveToRetry _ _ _ | OpMoveToDLQ _ _ => false
  | _ => true
  end.
Inductive gstep : t -> t -> Prop :=
| gstep_op o d : guarded o = true -> gstep d (run_op o d).1.

(** ** What each method does *)

Lemma markAsProcessing_cases now d :
  markAsProcessing now d =
  match status d with
  | Status.PENDING | Status.SCHEDULED_RETRY =>
      (set_updatedAt (Some now) (set_lastAttemptAt (Some (Some now))
         (set_status Status.PROCESSING d)), Ok tt)
  | s => (d, Throw (InvalidDeliveryStateError (Status.getValue s) "PROCESSING"))
  end.
Proof. unfold markAsProcessing; munfold. by destruct (status d). Qed.

Lemma moveToDLQ_cases now reason d :
  moveToDeadLetterQueue now reason d =
  match lastError d with
  | None =>
      if str_truthy reason
      then (set_updatedAt (Some now) (set_nextRetryAt None
              (set_lastError (Some (DeliveryError.Mk DeliveryError.PERMANENT reason None None))
                 (set_status Status.FAILED_DLQ d))), Ok tt)
      else (set_status Status.FAILED_DLQ d,
            Throw (ValidationError "DeliveryError message must be a non-empty string."))
  | Some _ => (set_updatedAt (Some now) (set_nextRetryAt None (set_status Status.FAILED_DLQ d)), Ok tt)
  end.
Proof.
  unfold moveToDeadLetterQueue; munfold.
  destruct (lastError d); [done|]. by destruct (str_truthy reason).
Qed.

(** The state a successful [moveToDeadLetterQueue] leaves when an error is recorded. *)
Definition dead_lettered (now : Z) (d : t) : t :=
  set_updatedAt (Some now) (set_nextRetryAt None (set_status Status.FAILED_DLQ d)).
(** The state [scheduleRetry] leaves. *)
Definition rescheduled (now : Z) (delay : num) (d : t) : t :=
  set_updatedAt (Some now) (set_nextRetryAt (Some (retry_date now (DelayNum delay)))
    (set_status Status.SCHEDULED_RETRY d)).
(** The delay [markAsFailed] schedules. *)
Definition failure_delay (rnd : Q) (s : strategy_arg) (count : Z) : num :=
  match s with
  | StratObj s => Strategy.calculateDelay rnd s count
  | _ => Fin (1000 * Qpow2 count)
  end.

Lemma markAsFailed_cases now rnd e s mx d errObj :
  status d = Status.PROCESSING -> as_delivery_error e = Ok errObj ->
  let d1 := set_retryCount (retryCount d + 1) (set_lastError (Some errObj) d) in
  markAsFailed now rnd e s mx d =
  (if negb (DeliveryError.isRetryable errObj) || (retryCount d + 1 >=? mx)
   then dead_lettered now d1
   else rescheduled now (failure_delay rnd s (retryCount d + 1)) d1, Ok tt).
Proof.
  intros Hs He. unfold markAsFailed; munfold.
  rewrite Hs; simpl. rewrite He; simpl.
  destruct (negb _ || _); [done|]. by destruct s.
Qed.

Lemma markAsFailed_guard now rnd e s mx d :
  status d <> Status.PROCESSING ->
  markAsFailed now rnd e s mx d =
  (d, Throw (InvalidDeliveryStateError (Status.getValue (status d)) "SCHEDULED_RETRY")).
Proof. intros H. unfold markAsFailed; munfold. by destruct (status d). Qed.

(** The only error values [as_delivery_error] rejects carry a message that is
    truthy and not a string, or are the empty string. *)
Lemma as_delivery_error_string m :
  m <> "" -> as_delivery_error (ErrAny (JString m)) = Ok (DeliveryError.Mk DeliveryError.UNKNOWN m None None).
Proof. intros H. apply (DeliveryError.create_plain "UNKNOWN" m H). Qed.

(** A sample delivery, for concrete runs. *)
Definition sample (s : Status.t) (count : Z) : t :=
  Mk "d1" (Some 0) None [] "r" "w" s count None None None None (Some 0) [].

(** ** Theorems: guards and outcomes *)

(** The state machine's guards are exact. [markAsProcessing] succeeds from
    PENDING and SCHEDULED_RETRY only, [markAsCompleted] and the guard of
    [markAsFailed] from PROCESSING only; a call refused by its guard leaves the
    delivery as it was. *)
Theorem guards_exact now rnd at_ e s mx d :
  (is_ok (markAsProcessing now d).2 = true <->
     status d = Status.PENDING \/ status d = Status.SCHEDULED_RETRY) /\
  (is_ok (markAsCompleted now at_ d).2 = true <-> status d = Status.PROCESSING) /\
  (is_ok (markAsFailed now rnd e s mx d).2 = true <->
     status d = Status.PROCESSING /\ is_ok (as_delivery_error e) = true) /\
  (is_ok (markAsProcessing now d).2 = false -> (markAsProcessing now d).1 = d) /\
  (is_ok (markAsCompleted now at_ d).2 = false -> (markAsCompleted now at_ d).1 = d) /\
  (is_ok (markAsFailed now rnd e s mx d).2 = false -> (markAsFailed now rnd e s mx d).1 = d).
Proof.
  rewrite markAsProcessing_cases.
  assert (status d = Status.PROCESSING \/ status d <> Status.PROCESSING) as [Hp|Hp]
    by (destruct (status d); naive_solver).
  - unfold markAsCompleted; munfold. rewrite Hp; simpl.
    destruct (as_delivery_error e) as [eo|x] eqn:He.
    + rewrite (markAsFailed_cases _ _ _ _ _ _ _ Hp He). naive_solver.
    + unfold markAsFailed; munfold. rewrite Hp; simpl. rewrite He. naive_solver.
  - rewrite (markAsFailed_guard _ _ _ _ _ _ Hp). unfold markAsCompleted; munfold.
    destruct (status d); naive_solver.
Qed.

Lemma guards_exact_witness :
  (markAsProcessing 5 (sample Status.COMPLETED 0)).1 = sample Status.COMPLETED 0.
Proof.
  apply (guards_exact 5 0 WNone (ErrAny JNull) StratNone 5 (sample Status.COMPLETED 0)). reflexivity.
Defined.

(** A failure of a delivery in PROCESSING records the error and counts the
    attempt; it dead-letters the delivery exactly when the error is not
    retryable or the count reaches the limit, and otherwise schedules the retry
    the strategy computes for that count, never before the current time. *)
Theorem markAsFailed_outcome now rnd e s mx d errObj :
  status d = Status.PROCESSING -> as_delivery_error e = Ok errObj -> 0 <= now ->
  let count := retryCount d + 1 in
  let d' := (markAsFailed now rnd e s mx d).1 in
  (markAsFailed now rnd e s mx d).2 = Ok tt /\ retryCount d' = count /\
  lastError d' = Some errObj /\ attempts d' = attempts d /\
  if DeliveryError.isRetryable errObj && (count <? mx)
  then status d' = Status.SCHEDULED_RETRY /\
       exists at_, nextRetryAt d' = Some at_ /\
         at_ = date_of_num (num_add (ofZ now) (num_max (ofZ 0) (failure_delay rnd s count))) /\
         (forall x, at_ = Some x -> now <= x)
  else status d' = Status.FAILED_DLQ /\ nextRetryAt d' = None.
Proof.
  intros Hs He Hn. cbn zeta. rewrite (markAsFailed_cases _ _ _ _ _ _ _ Hs He). simpl.
  replace (negb _ || _) with (negb (DeliveryError.isRetryable errObj && (retryCount d + 1 <? mx)))
    by (rewrite negb_andb; f_equal; lia).
  destruct (_ && _); simpl; repeat split; try done.
  eexists; repeat split. intros x. by apply date_after.
Qed.

Definition sample_error : DeliveryError.t :=
  DeliveryError.Mk DeliveryError.SERVER "boom" None None.

Lemma markAsFailed_outcome_witness :
  retryCount (markAsFailed 7 0 (ErrVO sample_error) StratNone 5 (sample Status.PROCESSING 4)).1 = 5 /\
  status (markAsFailed 7 0 (ErrVO sample_error) StratNone 5 (sample Status.PROCESSING 4)).1
    = Status.FAILED_DLQ.
Proof.
  destruct (markAsFailed_outcome 7 0 (ErrVO sample_error) StratNone 5 (sample Status.PROCESSING 4)
              sample_error) as (_ & Hc & _ & _ & Hd);
    [reflexivity|reflexivity|lia|].
  split; [exact Hc|]. apply Hd.
Defined.

(** ** Invariants *)

(** What every call preserves: identity, and a history that only grows. *)
Definition extends (d d' : t) : Prop :=
  id d' = id d /\ taskResultId d' = taskResultId d /\ destinationId d' = destinationId d /\
  createdAt d' = createdAt d /\ retryCount d <= retryCount d' /\ attempts d `prefix_of` attempts d'.

#[global] Instance extends_preorder : PreOrder extends.
Proof.
  split.
  - intros d. unfold extends. repeat split; done || lia.
  - intros d1 d2 d3 (?&?&?&?&?&?) (?&?&?&?&?&?). repeat split; try congruence; [lia|].
    by transitivity (attempts d2).
Qed.

Ltac extends_tac := unfold extends; simpl; repeat split; done || lia || by apply prefix_app_r.

Lemma moveToDLQ_extends now reason d : extends d (moveToDeadLetterQueue now reason d).1.
Proof. rewrite moveToDLQ_cases. destruct (lastError d); [|destruct (str_truthy reason)]; extends_tac. Qed.

Lemma markAsFailed_extends now rnd e s mx d :
  extends d (markAsFailed now rnd e s mx d).1.
Proof.
  destruct (decide (status d = Status.PROCESSING)) as [Hs|Hs];
    [|rewrite markAsFailed_guard by done; extends_tac].
  destruct (as_delivery_error e) as [eo|x] eqn:He.
  - rewrite (markAsFailed_cases _ _ _ _ _ _ _ Hs He). simpl. case_match; extends_tac.
  - unfold markAsFailed; munfold. rewrite Hs; simpl. rewrite He. extends_tac.
Qed.

Lemma markFailed_extends now e s mx d : extends d (markFailed now e s mx d).1.
Proof.
  unfold markFailed; munfold. destruct (as_delivery_error e) as [eo|x]; [|extends_tac]. simpl.
  set (d1 := if retryCount d =? 0 then _ else _).
  assert (extends d d1) as Hd1 by (unfold d1; destruct (retryCount d =? 0) eqn:?; extends_tac).
  destruct (_ || _); simpl; [|exact Hd1].
  transitivity d1; [done|]. apply moveToDLQ_extends.
Qed.

Lemma step_extends d d' : step d d' -> extends d d'.
Proof.
  intros [o d0]. destruct o; cbn [run_op];
    auto using markAsFailed_extends, markFailed_extends, moveToDLQ_extends; try extends_tac.
  - rewrite markAsProcessing_cases. destruct (status d0); extends_tac.
  - unfold markAsCompleted; munfold. destruct (negb _); extends_tac.
Qed.

(** Whatever sequence of method calls a delivery goes through, in any order
    and with calls that throw in between, its identity (id, task result,
    destination, creation date) never changes, its retry count never decreases
    and its recorded attempts are only ever appended to. *)
Theorem history_grows d d' : rtc step d d' -> extends d d'.
Proof. induction 1 as [|d1 d2 d3 H _ IH]; [done|]. etransitivity; [by apply step_extends|done]. Qed.

Lemma history_grows_witness :
  extends (sample Status.PENDING 0)
    (moveToDeadLetterQueue 9 "stale" (markAsProcessing 3 (sample Status.PENDING 0)).1).1.
Proof.
  apply history_grows. eapply rtc_l; [apply (step_op (OpProcess 3))|].
  eapply rtc_l; [apply (step_op (OpMoveToDLQ 9 "stale"))|]. apply rtc_refl.
Defined.

(** *** The state machine under its guarded methods *)

(** What a status says of the other fields. *)
Definition wf (d : t) : Prop :=
  0 <= retryCount d /\
  (forall e, lastError d = Some e -> DeliveryError.valid e) /\
  match status d with
  | Status.PENDING => lastError d = None /\ completedAt d = None /\ nextRetryAt d = None
  | Status.PROCESSING => lastAttemptAt d <> None /\ completedAt d = None
  | Status.COMPLETED => completedAt d <> None /\ nextRetryAt d = None
  | Status.SCHEDULED_RETRY =>
      nextRetryAt d <> None /\ lastError d <> None /\ 0 < retryCount d /\ completedAt d = None
  | Status.FAILED_DLQ =>
      lastError d <> None /\ nextRetryAt d = None /\ 0 < retryCount d /\ completedAt d = None
  end.

(** The edges of the life cycle. *)
Definition edge (s s' : Status.t) : bool :=
  match s, s' with
  | Status.PENDING, Status.PROCESSING
  | Status.SCHEDULED_RETRY, Status.PROCESSING
  | Status.PROCESSING, (Status.COMPLETED | Status.SCHEDULED_RETRY | Status.FAILED_DLQ) => true
  | _, _ => bool_decide (s = s')
  end.

(** Error objects are built by their constructor. *)
Definition op_valid (o : op) : Prop :=
  match o with OpFail _ _ (ErrVO e) _ _ => DeliveryError.valid e | _ => True end.
Definition gstep_valid (d d' : t) : Prop :=
  exists o, guarded o = true /\ op_valid o /\ d' = (run_op o d).1.

Lemma as_delivery_error_valid e eo :
  (forall x, e = ErrVO x -> DeliveryError.valid x) -> as_delivery_error e = Ok eo ->
  DeliveryError.valid eo.
Proof.
  intros H. destruct e as [x|v]; simpl; [intros [= <-]; by apply H|].
  apply DeliveryError.error_create_valid.
Qed.

Lemma markAsFailed_wf now rnd e s mx d :
  (forall x, e = ErrVO x -> DeliveryError.valid x) -> wf d -> wf (markAsFailed now rnd e s mx d).1.
Proof.
  intros Hv Hwf. destruct (decide (status d = Status.PROCESSING)) as [Hs|Hs];
    [|by rewrite markAsFailed_guard].
  destruct (as_delivery_error e) as [eo|x] eqn:He.
  - rewrite (markAsFailed_cases _ _ _ _ _ _ _ Hs He). simpl.
    apply as_delivery_error_valid in He; [|done]. destruct Hwf as (H0 & Hl & Hst). rewrite Hs in Hst.
    case_match; unfold wf; simpl; repeat split; try done; try lia; try tauto; by intros ? [= <-].
  - unfold markAsFailed; munfold. rewrite Hs; simpl. by rewrite He.
Qed.

Lemma gstep_wf d d' : gstep_valid d d' -> wf d -> wf d' /\ edge (status d) (status d') = true.
Proof.
  intros (o & Hg & Hv & ->) Hwf. destruct o; try done; cbn [run_op].
  - rewrite markAsProcessing_cases. destruct Hwf as (H0 & Hl & Hst). unfold wf.
    destruct (status d) eqn:Hs; simpl; rewrite ?Hs; simpl; naive_solver.
  - unfold markAsCompleted; munfold. destruct Hwf as (H0 & Hl & Hst). unfold wf.
    destruct (status d) eqn:Hs; simpl; rewrite ?Hs; simpl; naive_solver.
  - split; [apply markAsFailed_wf; [|done]; by intros x ->|].
    destruct (decide (status d = Status.PROCESSING)) as [Hs|Hs];
      [|rewrite markAsFailed_guard by done; simpl; by destruct (status d)].
    destruct (as_delivery_error e) as [eo|x] eqn:He.
    + rewrite (markAsFailed_cases _ _ _ _ _ _ _ Hs He), Hs. simpl. by destruct (_ || _).
    + unfold markAsFailed; munfold. rewrite Hs; simpl. rewrite He; simpl. by rewrite Hs.
  - destruct Hwf as (H0 & Hl & Hst). split; [|simpl; by destruct (status d)].
    unfold wf; simpl. split; [lia|]. split; [done|]. destruct (status d); intuition lia.
  - destruct Hwf as (H0 & Hl & Hst). split; [|simpl; by destruct (status d)].
    unfold wf; simpl. destruct (status d); intuition congruence.
  - split; [done|simpl; by destruct (status d)].
  - split; [done|simpl; by destruct (status d)].
  - split; [done|simpl; by destruct (status d)].
Qed.

Lemma delivery_create_ok now uuid tr ds oid d :
  create now uuid tr ds oid = Ok d ->
  d = Mk (str_or (default "" oid) uuid) (Some now) None [] tr ds Status.PENDING 0
         None None None None (Some now) [].
Proof.
  unfold create, new. repeat (case_match; [done|]). by intros [= <-].
Qed.

Lemma create_wf now uuid tr ds oid d : create now uuid tr ds oid = Ok d -> wf d.
Proof. intros ->%delivery_create_ok. by unfold wf. Qed.

(** C8: through the guarded methods a delivery created by [Delivery.create]
    always carries the data its status promises (a retry date, an error and a
    positive count while SCHEDULED_RETRY, an error and no retry date once in
    the dead letter queue, a completion date once COMPLETED), and COMPLETED and
    FAILED_DLQ are absorbing. *)
Theorem guarded_lifecycle now uuid tr ds oid d d1 d2 :
  create now uuid tr ds oid = Ok d -> rtc gstep_valid d d1 -> rtc gstep_valid d1 d2 ->
  wf d1 /\ (Status.isFinal (status d1) = true -> status d2 = status d1).
Proof.
  intros Hc%create_wf H1 H2.
  assert (wf d1) as Hwf. { clear H2. induction H1; [done|]. eapply IHrtc, gstep_wf; eauto. }
  split; [done|]. induction H2 as [|x y z Hxy _ IH]; [done|]. intros Hf.
  destruct (gstep_wf _ _ Hxy Hwf) as [Hy He].
  assert (status y = status x) as Hst by (destruct (status x); try done; by destruct (status y)).
  rewrite <- Hst. apply IH; [by eapply rtc_r| |by rewrite Hst]; done.
Qed.

Definition sample_completed : t :=
  (markAsCompleted 8 WNone (markAsProcessing 3 (sample Status.PENDING 0)).1).1.

Lemma guarded_lifecycle_witness :
  status (markAsProcessing 9 sample_completed).1 = Status.COMPLETED.
Proof.
  apply (guarded_lifecycle 0 "d1" "r" "w" None (sample Status.PENDING 0) sample_completed
           (markAsProcessing 9 sample_completed).1); [reflexivity| | |reflexivity].
  - eapply rtc_l; [by exists (OpProcess 3)|]. eapply rtc_l; [by exists (OpComplete 8 WNone)|].
    apply rtc_refl.
  - eapply rtc_l; [by exists (OpProcess 9)|]. apply rtc_refl.
Defined.

(** [scheduleRetry] and [moveToDeadLetterQueue] carry no guard: they move a
    COMPLETED delivery out of its final state, and a revived delivery is
    processed again with its completion date still set. *)
Theorem terminal_states_revivable now delay reason d :
  status d = Status.COMPLETED ->
  status (scheduleRetry now delay d).1 = Status.SCHEDULED_RETRY /\
  status (moveToDeadLetterQueue now reason d).1 = Status.FAILED_DLQ /\
  is_ok (markAsProcessing now (scheduleRetry now delay d).1).2 = true /\
  completedAt (markAsProcessing now (scheduleRetry now delay d).1).1 = completedAt d.
Proof.
  intros _. rewrite moveToDLQ_cases. repeat split.
  destruct (lastError d); [done|]. by destruct (str_truthy reason).
Qed.

Lemma terminal_states_revivable_witness :
  status (scheduleRetry 9 (DelayNum 1000) sample_completed).1 = Status.SCHEDULED_RETRY.
Proof. apply (terminal_states_revivable 9 (DelayNum 1000) "" sample_completed). reflexivity. Defined.

(** ** Rounds of attempts: a failing delivery is dead-lettered *)

(** One round of a worker: claim the delivery, then report the failure; the
    clock, the jitter, the error and the strategy may differ each time. *)
Record round : Type := Round {
  r_start : Z; r_end : Z; r_rnd : Q; r_error : DeliveryError.t; r_strategy : strategy_arg;
}.
Definition run_round (mx : Z) (r : round) : M unit :=
  markAsProcessing (r_start r);;
  markAsFailed (r_end r) (r_rnd r) (ErrVO (r_error r)) (r_strategy r) mx.
Fixpoint run_rounds (mx : Z) (l : list round) : M unit :=
  match l with [] => mret tt | r :: l => run_round mx r;; run_rounds mx l end.

Lemma run_round_retryable mx r d :
  status d = Status.PENDING \/ status d = Status.SCHEDULED_RETRY ->
  DeliveryError.isRetryable (r_error r) = true ->
  exists d', run_round mx r d = (d', Ok tt) /\ retryCount d' = retryCount d + 1 /\
    status d' = if retryCount d + 1 <? mx then Status.SCHEDULED_RETRY else Status.FAILED_DLQ.
Proof.
  intros Hs Hr. unfold run_round; munfold. rewrite markAsProcessing_cases.
  set (d1 := set_updatedAt _ _).
  assert (match status d with
          | Status.PENDING | Status.SCHEDULED_RETRY => (d1, Ok tt)
          | s => (d, Throw (InvalidDeliveryStateError (Status.getValue s) "PROCESSING"))
          end = (d1, @Ok exn unit tt)) as -> by (by destruct Hs as [-> | ->]).
  pose proof (markAsFailed_cases (r_end r) (r_rnd r) (ErrVO (r_error r)) (r_strategy r) mx d1
                (r_error r) eq_refl eq_refl) as ->.
  rewrite Hr. eexists; split; [done|]. simpl.
  destruct (retryCount d + 1 <? mx) eqn:E;
    [replace (retryCount d + 1 >=? mx) with false by lia
    |replace (retryCount d + 1 >=? mx) with true by lia]; done.
Qed.

(** C19: retries terminate. A delivery created PENDING whose attempts all fail
    with a retryable error stays SCHEDULED_RETRY, counting one retry per round,
    for [mx - 1] rounds, and the round number [mx] moves it to FAILED_DLQ; no
    round throws, whatever the clock, the jitter and the strategy. *)
Theorem failing_delivery_dead_lettered mx now uuid tr ds oid d l :
  create now uuid tr ds oid = Ok d ->
  Forall (fun r => DeliveryError.isRetryable (r_error r) = true) l ->
  1 <= Z.of_nat (length l) <= mx ->
  (run_rounds mx l d).2 = Ok tt /\
  retryCount (run_rounds mx l d).1 = Z.of_nat (length l) /\
  status (run_rounds mx l d).1 =
    if Z.of_nat (length l) <? mx then Status.SCHEDULED_RETRY else Status.FAILED_DLQ.
Proof.
  intros Hc Hl Hlen.
  enough (forall d, status d = Status.PENDING \/ status d = Status.SCHEDULED_RETRY ->
    retryCount d + Z.of_nat (length l) <= mx ->
    exists d', run_rounds mx l d = (d', Ok tt) /\
      retryCount d' = retryCount d + Z.of_nat (length l) /\
      (l <> [] -> status d' = if retryCount d + Z.of_nat (length l) <? mx
                              then Status.SCHEDULED_RETRY else Status.FAILED_DLQ)) as H.
  { apply delivery_create_ok in Hc. destruct (H d) as (d' & -> & Hr & Hs); [subst; auto|subst; simpl; lia|].
    subst d. simpl in *. split; [done|]. split; [done|]. apply Hs. intros ->; simpl in *; lia. }
  clear Hc d Hlen. induction Hl as [|r l Hr _ IH]; intros d Hs Hlen; cbn [length run_rounds] in *.
  - exists d. repeat split; [lia|done].
  - destruct (run_round_retryable mx r d Hs Hr) as (d1 & H1 & Hr1 & Hs1).
    destruct l as [|r' l].
    + exists d1. munfold. rewrite H1. repeat split; [lia|]. intros _. by rewrite Hs1.
    + cbn [length] in *. destruct (IH d1) as (d2 & H2 & Hr2 & Hs2); [|lia|].
      * right. rewrite Hs1. by replace (retryCount d + 1 <? mx) with true by lia.
      * exists d2. unfold mbind, meth_bind. rewrite H1, H2. split; [done|].
        split; [lia|]. intros _. rewrite (Hs2 ltac:(done)), <- Hr2.
        by replace (retryCount d2) with (retryCount d + Z.of_nat (S (S (length l)))) by lia.
Qed.

Definition sample_round : round := Round 10 20 (1 # 2) sample_error StratNone.

Lemma failing_delivery_dead_lettered_witness :
  status (run_rounds 3 [sample_round; sample_round] (sample Status.PENDING 0)).1
    = Status.SCHEDULED_RETRY /\
  status (run_rounds 3 [sample_round; sample_round; sample_round] (sample Status.PENDING 0)).1
    = Status.FAILED_DLQ.
Proof.
  split.
  - apply (failing_delivery_dead_lettered 3 0 "d1" "r" "w" None (sample Status.PENDING 0)
      [sample_round; sample_round]); [reflexivity|repeat constructor|simpl; lia].
  - apply (failing_delivery_dead_lettered 3 0 "d1" "r" "w" None (sample Status.PENDING 0)
      [sample_round; sample_round; sample_round]); [reflexivity|repeat constructor|simpl; lia].
Defined.

(** ** Persistence *)

(** The fields of an error as the persistence layer stores them. *)
Definition error_js (e : DeliveryError.t) : jsval :=
  JObject 0 [("category", JString (DeliveryError.category_string (DeliveryError.category e)));
             ("message", JString (DeliveryError.message e));
             ("statusCode", match DeliveryError.statusCode e with
                            | Some n => JNum n | None => JUndefined end)].
(** An attempt value object as a plain record. *)
Definition attempt_raw (a : RetryAttempt.t) : raw_attempt :=
  RawAttempt (JNum (RetryAttempt.number a)) JUndefined
    (match RetryAttempt.statusCode a with Some n => JNum n | None => JNull end)
    (default JNull (RetryAttempt.error a))
    (match RetryAttempt.latencyMs a with Some n => JNum n | None => JNull end)
    (Some (RetryAttempt.timestamp a)).
Definition persisted (d : t) (as_ : list RetryAttempt.t) : restore_params :=
  RestoreParams (id d) (taskResultId d) (destinationId d)
    (inr (JString (Status.toString (status d)))) (Some (retryCount d))
    (nextRetryAt d) (lastAttemptAt d)
    (match lastError d with Some e => Some (inr (error_js e)) | None => None end)
    (completedAt d) (Some (createdAt d)) (Some (updatedAt d))
    (map (fun a => inr (attempt_raw a)) as_) (deletedAt d).

Lemma restore_status_string s : restore_status (inr (JString (Status.toString s))) = Ok s.
Proof. by destruct s. Qed.

Lemma restore_error_js e :
  DeliveryError.valid e -> DeliveryError.deliveryId e = None ->
  restore_error (Some (inr (error_js e))) = Ok (Some e).
Proof.
  destruct e as [c m sc did]. unfold DeliveryError.valid; simpl. intros Hm ->.
  unfold restore_error, js_or; simpl. unfold str_truthy.
  rewrite (proj2 (str_eqb_neq m "") Hm). simpl. unfold str_truthy.
  rewrite (proj2 (str_eqb_neq m "") Hm). by destruct c, sc.
Qed.

(** An attempt whose number is truthy and whose error is not a nullish value. *)
Definition attempt_ok (a : RetryAttempt.t) : Prop :=
  RetryAttempt.valid a /\ num_truthy (RetryAttempt.number a) = true /\
  (forall v, RetryAttempt.error a = Some v -> is_nullish v = false).

Lemma restore_attempts_raw now as_ :
  Forall attempt_ok as_ ->
  restore_attempts now (map (fun a => inr (attempt_raw a)) as_) = Ok (map AttemptVO as_).
Proof.
  induction 1 as [|a as_ (Hv & Ht & He) _ IH]; [done|].
  destruct a as [n sc er lat ts]. destruct Hv as (Hn & Hsc & Hlat). simpl in *.
  rewrite IH. unfold js_or; simpl. rewrite Ht. simpl. rewrite Hn.
  assert (RetryAttempt.status_code_bad match sc with Some n => JNum n | None => JNull end = false) as ->.
  { destruct sc as [x|]; [|done]. simpl. by destruct (Hsc x eq_refl) as [-> ->]. }
  assert (RetryAttempt.latency_bad match lat with Some n => JNum n | None => JNull end = false) as ->.
  { destruct lat as [x|]; [|done]. simpl. by rewrite (Hlat x eq_refl). }
  simpl. do 3 f_equal. destruct sc, lat, er as [v|]; simpl; try done;
    unfold RetryAttempt.opt_of; by rewrite (He v eq_refl).
Qed.

(** What the persistence layer stores is what [Delivery.restore] gives
    back: from the status name, the plain fields of the last error and the plain
    attempts, every field of the entity but its pending domain events is recovered. *)
Theorem restore_roundtrip now d as_ :
  id d <> "" -> taskResultId d <> "" -> destinationId d <> "" ->
  attempts d = map AttemptVO as_ -> Forall attempt_ok as_ ->
  (forall e, lastError d = Some e -> DeliveryError.valid e /\ DeliveryError.deliveryId e = None) ->
  restore now (persisted d as_) = Ok (set_events [] d).
Proof.
  intros Hid Htr Hds Hat Hok He. unfold restore, persisted; cbn [p_status p_lastError p_attempts].
  rewrite restore_status_string. cbn [mbind res_bind].
  assert (restore_error (match lastError d with Some e => Some (inr (error_js e)) | None => None end)
          = Ok (lastError d)) as ->.
  { destruct (lastError d) as [e|]; [|done]. destruct (He e eq_refl). by apply restore_error_js. }
  cbn [mbind res_bind]. rewrite restore_attempts_raw by done. cbn [mbind res_bind].
  unfold new, str_truthy; simpl.
  rewrite (proj2 (str_eqb_neq _ _) Hid), (proj2 (str_eqb_neq _ _) Htr), (proj2 (str_eqb_neq _ _) Hds).
  simpl. by rewrite <- Hat.
Qed.

Definition sample_attempt : RetryAttempt.t :=
  RetryAttempt.Mk 1 (Some (ofZ 503)) (Some (JString "boom")) (Some (ofZ 12)) (Some 99).
Definition sample_failed : t :=
  set_attempts [AttemptVO sample_attempt]
    (markAsFailed 20 0 (ErrVO sample_error) StratNone 5 (sample Status.PROCESSING 0)).1.

Lemma restore_roundtrip_witness :
  restore 1000 (persisted sample_failed [sample_attempt]) = Ok sample_failed.
Proof.
  apply (restore_roundtrip 1000 sample_failed [sample_attempt]); try done.
  - apply Forall_singleton. unfold sample_attempt. repeat split; simpl in *; intros; by simplify_eq/=.
  - by intros e [= <-].
Defined.

End Delivery.
