(* ===== verification/Destination.v ===== *)
(** * The [Destination] aggregate

    The target of deliveries, [domain/entities/destination.entity.ts]: the
    validating constructor, the factories, the mutators and the event filter.
    Plain objects used as maps are lists of their own properties, in order. *)
From Stdlib Require Import Ascii QArith Qround Qpower Qabs Lqa.
From stdpp Require Import base tactics numbers list strings relations.
From S2P Require Import Prelude JsNum JsValue DomainTypes ValueObjects RetryStrategy.

Module Destination.

(** domain/entities/destination.entity.ts:10-19 Destination *)
Record t : Type := Mk {
  id : string;
  createdAt : date;
  deletedAt : option date;
  type : DestType.t;
  endpoint : string;
  eventFilters : option (list (string * jsval));
  retryStrategy : Strategy.t;
  circuitBreakerThreshold : num;
  timeout : num;
  enabled : bool;
  metadata : list (string * jsval);
  updatedAt : date;
}.

Abbreviation M := (meth t exn).

(** domain/entities/destination.entity.ts:69-75 validateEndpoint *)
Definition validateEndpoint (ty : DestType.t) (endpoint : string) : res exn unit :=
  if DestType.isWebhookVO ty then
    if negb (starts_with "http://" endpoint) && negb (starts_with "https://" endpoint)
    then Throw (ValidationError
                  ("Webhook endpoint must start with http:// or https://. Received: " +:+ endpoint))
    else Ok tt
  else Ok tt.

(** A number that passes [typeof v === 'number' && !(v < 1)]. *)
Definition check_ge1 (v : jsval) (msg : string) : res exn num :=
  match v with
  | JNum n => if num_ltb n (ofZ 1) then Throw (ValidationError msg) else Ok n
  | _ => Throw (ValidationError msg)
  end.

(** domain/entities/destination.entity.ts:21-67 constructor *)
Definition new (now : Z) (id : string) (ty : option DestType.t) (endpoint : string)
    (filters : option (list (string * jsval))) (rs : option Strategy.t) (threshold tmo : jsval)
    (enabled : option bool) (metadata : option (list (string * jsval)))
    (createdAt updatedAt deletedAt : option date) : res exn t :=
  if negb (str_truthy id)
  then Throw (ValidationError "Destination ID must be a non-empty string.")
  else match ty with
  | None => Throw (ValidationError "Destination type must be a valid DestinationTypeVO.")
  | Some ty =>
    if negb (str_truthy endpoint)
    then Throw (ValidationError "Destination endpoint must be a non-empty string.")
    else match rs with
    | None => Throw (ValidationError "Destination retryStrategy must be a valid RetryStrategyVO.")
    | Some rs =>
      th ← check_ge1 threshold "Circuit breaker threshold must be an integer >= 1.";
      to ← check_ge1 tmo "Destination timeout must be a positive integer.";
      _ ← validateEndpoint ty endpoint;
      let created := default (Some now) createdAt in
      Ok (Mk id created deletedAt ty endpoint filters rs th to (default true enabled)
             (default [] metadata) (default created updatedAt))
    end
  end.

(** ** Mutators *)

(** domain/entities/destination.entity.ts:117-120 setEnabled *)
Definition setEnabled (now : Z) (b : bool) : M unit :=
  modify (fun d => Mk (id d) (createdAt d) (deletedAt d) (type d) (endpoint d) (eventFilters d)
    (retryStrategy d) (circuitBreakerThreshold d) (timeout d) b (metadata d) (Some now)).
(** domain/entities/destination.entity.ts:122-124 disable *)
Definition disable (now : Z) : M unit := setEnabled now false.
(** domain/entities/destination.entity.ts:130-133 setMetadata *)
Definition setMetadata (now : Z) (m : list (string * jsval)) : M unit :=
  modify (fun d => Mk (id d) (createdAt d) (deletedAt d) (type d) (endpoint d) (eventFilters d)
    (retryStrategy d) (circuitBreakerThreshold d) (timeout d) (enabled d) m (Some now)).
(** domain/entities/destination.entity.ts:139-145 updateCircuitBreakerThreshold *)
Definition updateCircuitBreakerThreshold (now : Z) (threshold : jsval) : M unit :=
  th ← lift_res (check_ge1 threshold "Circuit breaker threshold must be an integer >= 1.");
  modify (fun d => Mk (id d) (createdAt d) (deletedAt d) (type d) (endpoint d) (eventFilters d)
    (retryStrategy d) th (timeout d) (enabled d) (metadata d) (Some now)).

(** ** Queries *)

(** domain/entities/destination.entity.ts:150-160 matchesEventFilter *)
Definition matchesEventFilter (d : t) (event : jsval) : bool :=
  match eventFilters d with
  | None | Some [] => true
  | Some filters => forallb (fun '(key, v) => js_strict_eq (js_get key event) v) filters
  end.
(** domain/entities/destination.entity.ts:162-164 matches *)
Definition matches (d : t) (event : jsval) : bool := matchesEventFilter d event.
(** domain/entities/destination.entity.ts:169-174 equals *)
Definition equals (a b : t) : bool := str_eqb (id a) (id b).

(** ** Factories *)

(** The fields of the object both factories accept; [None] is [undefined]. *)
Record params : Type := Params {
  p_id : string;
  p_type : DestType.t + jsval; p_destinationType : DestType.t + jsval;
  p_endpoint : string; p_endpointUrl : string;
  p_eventFilters : option (list (string * jsval));
  p_retryStrategy : Strategy.t + jsval;
  p_circuitBreakerThreshold : jsval; p_timeout : jsval;
  p_enabled : option bool;
  p_metadata : option (list (string * jsval));
  p_createdAt : option date; p_updatedAt : option date; p_deletedAt : option date;
}.

Definition truthy_or {A} (a b : A + jsval) : A + jsval :=
  match a with
  | inl _ => a
  | inr v => if js_truthy v then a else b
  end.
Definition type_of (v : DestType.t + jsval) : res exn DestType.t :=
  match v with inl ty => Ok ty | inr v => DestType.create v end.

(** [RetryStrategyVO.create(type, config)] on dynamically typed arguments. *)
Definition strategy_create (ty config : jsval) : res exn Strategy.t :=
  match ty with
  | JString s => Strategy.create_static s (Some (Strategy.config_of_js config))
  | _ => Throw (PlainError "type.toUpperCase is not a function")
  end.

(** domain/entities/destination.entity.ts:179-218 restore *)
Definition restore (now : Z) (p : params) : res exn t :=
  typeObj ← type_of (truthy_or (p_type p) (p_destinationType p));
  let endpointStr := str_or (p_endpoint p) (p_endpointUrl p) in
  retryObj ← (match p_retryStrategy p with
              | inl s => Ok s
              | inr v =>
                  if is_object v && js_truthy (js_get "type" v)
                  then strategy_create (js_get "type" v) (js_or (js_get "config" v) v)
                  else Strategy.exponential None None None None
              end);
  new now (p_id p) (Some typeObj) endpointStr (p_eventFilters p) (Some retryObj)
    (js_nullish_or (p_circuitBreakerThreshold p) (ofZ 5)) (js_nullish_or (p_timeout p) (ofZ 30000))
    (p_enabled p) (p_metadata p) (p_createdAt p) (p_updatedAt p) (p_deletedAt p).

(** domain/entities/destination.entity.ts:224-253 create
    The object form, taken when [typeOrParams.type] is truthy. *)
Definition create_from (now : Z) (uuid : string) (p : params) : res exn t :=
  typeObj ← type_of (p_type p);
  retryObj ← (match p_retryStrategy p with
              | inl s => Ok s
              | inr v =>
                  if js_truthy v
                  then strategy_create (js_or (js_get "type" v) "EXPONENTIAL")
                         (js_or (js_get "config" v) v)
                  else Strategy.exponential None None None None
              end);
  new now (str_or (p_id p) uuid) (Some typeObj) (str_or (p_endpoint p) (p_endpointUrl p))
    (p_eventFilters p) (Some retryObj)
    (js_or (p_circuitBreakerThreshold p) (ofZ 5)) (js_or (p_timeout p) (ofZ 30000))
    (p_enabled p) (p_metadata p) (Some (default (Some now) (p_createdAt p)))
    (Some (default (Some now) (p_updatedAt p))) None.

(** domain/entities/destination.entity.ts:255-271 create
    The positional form. *)
Definition create (now : Z) (uuid : string) (ty : option DestType.t) (endpoint : string)
    (rs : option Strategy.t) (threshold tmo : jsval) (filters : option (list (string * jsval)))
    (metadata : list (string * jsval)) (oid : option string) : res exn t :=
  new now (str_or (default "" oid) uuid) ty endpoint filters rs threshold tmo (Some true)
    (Some metadata) (Some (Some now)) (Some (Some now)) None.

(** ** Theorems *)

(** What the constructor guarantees of every destination. *)
Definition valid (d : t) : Prop :=
  id d <> "" /\ endpoint d <> "" /\
  num_ltb (circuitBreakerThreshold d) (ofZ 1) = false /\ num_ltb (timeout d) (ofZ 1) = false /\
  (type d = DestType.WEBHOOK ->
     starts_with "http://" (endpoint d) = true \/ starts_with "https://" (endpoint d) = true).

Lemma check_ge1_ok v msg n : check_ge1 v msg = Ok n -> v = JNum n /\ num_ltb n (ofZ 1) = false.
Proof. destruct v; simpl; try done. destruct (num_ltb _ _) eqn:E; [done|]. by intros [= ->]. Qed.

Lemma str_truthy_ne s : str_truthy s = true <-> s <> "".
Proof. unfold str_truthy. rewrite negb_true_iff. apply str_eqb_neq. Qed.

Lemma validateEndpoint_ok ty e :
  validateEndpoint ty e = Ok tt <->
  (ty = DestType.WEBHOOK -> starts_with "http://" e = true \/ starts_with "https://" e = true).
Proof.
  unfold validateEndpoint. destruct ty; cbn -[starts_with]; try (split; [by intros _ [=]|done]).
  destruct (starts_with "http://" e), (starts_with "https://" e); simpl;
    split; intros H; auto; try done. by destruct (H eq_refl).
Qed.

Lemma new_valid now i ty e f rs th tmo en md c u dl d :
  new now i ty e f rs th tmo en md c u dl = Ok d -> valid d.
Proof.
  unfold new. destruct (str_truthy i) eqn:Hi; [|done]. destruct ty as [ty|]; [|done].
  destruct (str_truthy e) eqn:He; [|done]. destruct rs as [rs|]; [|done]. simpl.
  destruct (check_ge1 th _) as [n|] eqn:Hth; [|done].
  destruct (check_ge1 tmo _) as [m|] eqn:Htm; [|done]. simpl.
  destruct (validateEndpoint ty e) as [[]|] eqn:Hv; [|done]. intros [= <-].
  apply check_ge1_ok in Hth as [_ ?], Htm as [_ ?]. pose proof (proj1 (validateEndpoint_ok _ _) Hv).
  unfold valid; simpl. rewrite <- !str_truthy_ne. tauto.
Qed.

Lemma restore_valid now p d : restore now p = Ok d -> valid d.
Proof.
  unfold restore. destruct (type_of _); [|done].
  destruct (match p_retryStrategy p with inl _ => _ | inr _ => _ end); [|done]. apply new_valid.
Qed.

Lemma create_from_valid now uuid p d : create_from now uuid p = Ok d -> valid d.
Proof.
  unfold create_from. destruct (type_of _); [|done].
  destruct (match p_retryStrategy p with inl _ => _ | inr _ => _ end); [|done]. apply new_valid.
Qed.

(** A destination as any of its constructors built it. *)
Inductive built : t -> Prop :=
| built_restore now p d : restore now p = Ok d -> built d
| built_create_from now uuid p d : create_from now uuid p = Ok d -> built d
| built_create now uuid ty e rs th tmo f md oid d :
    create now uuid ty e rs th tmo f md oid = Ok d -> built d.

Inductive op : Type :=
| OpSetEnabled (now : Z) (b : bool)
| OpSetMetadata (now : Z) (m : list (string * jsval))
| OpUpdateThreshold (now : Z) (th : jsval).
Definition run_op (o : op) : M unit :=
  match o with
  | OpSetEnabled now b => setEnabled now b
  | OpSetMetadata now m => setMetadata now m
  | OpUpdateThreshold now th => updateCircuitBreakerThreshold now th
  end.
Inductive step : t -> t -> Prop := step_op o d : step d (run_op o d).1.

(** Every destination a factory returns and every state its mutators take
    it to is valid: non-empty id and endpoint, an http(s) endpoint for a
    webhook, a circuit breaker threshold and a timeout that are not below 1. *)
Theorem destination_valid d d' : built d -> rtc step d d' -> valid d'.
Proof.
  intros Hb. assert (valid d) as Hv.
  { destruct Hb; [by eapply restore_valid|by eapply create_from_valid|by eapply new_valid]. }
  clear Hb. induction 1 as [|x y z [o w] _ IH]; [done|]. apply IH. destruct Hv as (?&?&?&?&?).
  destruct o; cbn [run_op]; [done|done|]. unfold updateCircuitBreakerThreshold; munfold.
  destruct (check_ge1 th _) as [n|] eqn:Hth; [|done]. by apply check_ge1_ok in Hth as [_ ?].
Qed.

Definition sample_params : params :=
  Params "dest-1" (inr (JString "webhook")) (inr JUndefined) "https://example.org/hook" ""
    (Some [("kind", JString "invoice")]) (inr JUndefined) JUndefined JUndefined None None
    (Some (Some 5)) None None.
Definition sample : t :=
  Mk "dest-1" (Some 5) None DestType.WEBHOOK "https://example.org/hook"
    (Some [("kind", JString "invoice")])
    (Strategy.Mk "EXPONENTIAL" (Strategy.Config 1000 3600000 Strategy.tenth (Some (ofZ 5))))
    5 30000 true [] (Some 5).

Lemma destination_valid_witness : valid (updateCircuitBreakerThreshold 9 (ofZ 0) sample).1.
Proof.
  apply (destination_valid sample).
  - apply (built_restore 7 sample_params). reflexivity.
  - eapply rtc_l; [apply (step_op (OpUpdateThreshold 9 (ofZ 0)))|]. apply rtc_refl.
Defined.

(** The event filter accepts an event exactly when each configured
    property strictly equals the event's; in particular no filter means
    everything matches, a property the event lacks matches only a filter value
    of [undefined], and an object-valued filter never matches another object. *)
Theorem matchesEventFilter_spec d event :
  (matchesEventFilter d event = true <->
     forall k v, (k, v) ∈ default [] (eventFilters d) -> js_strict_eq (js_get k event) v = true) /\
  (forall k l fs, (k, JObject l fs) ∈ default [] (eventFilters d) ->
     (forall fs', js_get k event <> JObject l fs') -> matchesEventFilter d event = false).
Proof.
  assert (matchesEventFilter d event =
    forallb (fun '(k, v) => js_strict_eq (js_get k event) v) (default [] (eventFilters d))) as ->.
  { unfold matchesEventFilter. by destruct (eventFilters d) as [[]|]. }
  split.
  - rewrite forallb_forall. split.
    + intros H k v Hin. apply list_elem_of_In in Hin. exact (H _ Hin).
    + intros H [k v] Hin. apply H. by apply list_elem_of_In.
  - intros k l fs Hin Hne. apply not_true_is_false. rewrite forallb_forall. intros H.
    apply list_elem_of_In in Hin. specialize (H _ Hin). simpl in H.
    destruct (js_get k event) as [| | | | |l' fs'| | |]; try done. simpl in H.
    apply bool_decide_eq_true in H. subst. by destruct (Hne fs').
Qed.

Lemma matchesEventFilter_spec_witness :
  matchesEventFilter (Mk "x" None None DestType.QUEUE "q" (Some [("tags", JObject 1 [])])
     (retryStrategy sample) 5 5 true [] None)
    (JObject 7 [("tags", JObject 2 [])]) = false.
Proof.
  apply (proj2 (matchesEventFilter_spec _ _) "tags" 1%N []); [by left|]. intros fs' [=].
Defined.

End Destination.
