(* ===== verification/CircuitBreaker.v ===== *)
(** * The circuit breaker

    [resilience/circuit-breaker/]: the immutable snapshot
    ([circuit-breaker-state.ts]), the configuration, the metrics, the breaker
    itself, the manager that keeps one breaker per destination, and the
    percentage-based [state-machine.ts].

    An asynchronous [execute] is two steps, [execute_begin] up to the [await]
    and [execute_end] with the outcome of the awaited operation, so that other
    calls may run in between.  The clock is read once per synchronous part. *)
From Stdlib Require Import Ascii QArith Qround Qpower Qabs Lqa.
From stdpp Require Import base tactics numbers list strings relations.
From S2P Require Import Prelude JsNum JsValue.

Module Breaker.

(** ** Snapshots *)

(** resilience/circuit-breaker/circuit-breaker-state.ts:4-8 CircuitState *)
Inductive state_t : Type := CLOSED | OPEN | HALF_OPEN.

#[global] Instance state_eq_dec : EqDecision state_t.
Proof. solve_decision. Defined.

Definition state_eqb (a b : state_t) : bool := bool_decide (a = b).

(** resilience/circuit-breaker/circuit-breaker-state.ts:13-17 CircuitBreakerState *)
Record snapshot : Type := Snapshot {
  st : state_t;
  openedAt : option date;
  failureCount : Z;
  successCount : Z;
}.

(** resilience/circuit-breaker/circuit-breaker-state.ts:19-30 constructor *)
Definition new_snapshot (s : state_t) (opened : option date) (failures successes : Z) : snapshot :=
  Snapshot s opened (Z.max 0 failures) (Z.max 0 successes).

(** resilience/circuit-breaker/circuit-breaker-state.ts:51-60 canAttemptReset *)
Definition canAttemptReset (now : Z) (timeoutMs : num) (s : snapshot) : bool :=
  if state_eqb (st s) HALF_OPEN then true
  else match st s, openedAt s with
       | OPEN, Some d => num_geb (num_sub (ofZ now) (get_time d)) timeoutMs
       | _, _ => false
       end.

(** ** Configuration and metrics *)

(** resilience/circuit-breaker/circuit-breaker-config.ts:4-22 CircuitBreakerConfig *)
Record config : Type := Config {
  threshold : num;
  timeout : num;
  monitoringPeriod : num;
  rollingCountTimeout : num;
  successThreshold : num;
  halfOpenTimeout : num;
}.

(** The overrides of a partial configuration; [None] is an absent property. *)
Record overrides : Type := Overrides {
  o_threshold : option num; o_timeout : option num; o_monitoringPeriod : option num;
  o_rollingCountTimeout : option num; o_successThreshold : option num;
  o_halfOpenTimeout : option num;
}.

(** resilience/circuit-breaker/circuit-breaker-config.ts:27-37 createDefaultConfig *)
Definition createDefaultConfig (o : overrides) : config :=
  Config (default (ofZ 5) (o_threshold o)) (default (ofZ 60000) (o_timeout o))
    (default (ofZ 120000) (o_monitoringPeriod o)) (default (ofZ 10000) (o_rollingCountTimeout o))
    (default (ofZ 2) (o_successThreshold o)) (default (ofZ 30000) (o_halfOpenTimeout o)).

(** [{...a, ...b}] on overrides. *)
Definition spread (a b : overrides) : overrides :=
  let pick {A} (x y : option A) := match y with Some _ => y | None => x end in
  Overrides (pick (o_threshold a) (o_threshold b)) (pick (o_timeout a) (o_timeout b))
    (pick (o_monitoringPeriod a) (o_monitoringPeriod b))
    (pick (o_rollingCountTimeout a) (o_rollingCountTimeout b))
    (pick (o_successThreshold a) (o_successThreshold b))
    (pick (o_halfOpenTimeout a) (o_halfOpenTimeout b)).
Definition no_overrides : overrides := Overrides None None None None None None.

(** resilience/circuit-breaker/circuit-breaker-metrics.ts:18-27 CircuitBreakerMetrics
    The timestamp is kept as an instant, not as its ISO string. *)
Record metrics : Type := Metrics {
  totalCalls : Z; successfulCalls : Z; failedCalls : Z; rejectedCalls : Z;
  stateTransitions : Z; closedTransitions : Z; openTransitions : Z; halfOpenTransitions : Z;
  lastTransitionTimestamp : option Z;
}.
(** resilience/circuit-breaker/circuit-breaker-metrics.ts:72-82 reset *)
Definition zero_metrics : metrics := Metrics 0 0 0 0 0 0 0 0 None.

(** resilience/circuit-breaker/circuit-breaker-metrics.ts:31-33 recordCall *)
Definition m_recordCall (m : metrics) : metrics :=
  Metrics (totalCalls m + 1) (successfulCalls m) (failedCalls m) (rejectedCalls m)
    (stateTransitions m) (closedTransitions m) (openTransitions m) (halfOpenTransitions m)
    (lastTransitionTimestamp m).
(** resilience/circuit-breaker/circuit-breaker-metrics.ts:35-37 recordSuccess *)
Definition m_recordSuccess (m : metrics) : metrics :=
  Metrics (totalCalls m) (successfulCalls m + 1) (failedCalls m) (rejectedCalls m)
    (stateTransitions m) (closedTransitions m) (openTransitions m) (halfOpenTransitions m)
    (lastTransitionTimestamp m).
(** resilience/circuit-breaker/circuit-breaker-metrics.ts:39-41 recordFailure *)
Definition m_recordFailure (m : metrics) : metrics :=
  Metrics (totalCalls m) (successfulCalls m) (failedCalls m + 1) (rejectedCalls m)
    (stateTransitions m) (closedTransitions m) (openTransitions m) (halfOpenTransitions m)
    (lastTransitionTimestamp m).
(** resilience/circuit-breaker/circuit-breaker-metrics.ts:43-45 recordRejection *)
Definition m_recordRejection (m : metrics) : metrics :=
  Metrics (totalCalls m) (successfulCalls m) (failedCalls m) (rejectedCalls m + 1)
    (stateTransitions m) (closedTransitions m) (openTransitions m) (halfOpenTransitions m)
    (lastTransitionTimestamp m).
(** resilience/circuit-breaker/circuit-breaker-metrics.ts:47-56 recordStateTransition *)
Definition m_recordStateTransition (now : Z) (to : state_t) (m : metrics) : metrics :=
  let one s := if state_eqb to s then 1 else 0 in
  Metrics (totalCalls m) (successfulCalls m) (failedCalls m) (rejectedCalls m)
    (stateTransitions m + 1) (closedTransitions m + one CLOSED) (openTransitions m + one OPEN)
    (halfOpenTransitions m + one HALF_OPEN) (Some now).

(** resilience/circuit-breaker/metrics.ts:61-63 recordCircuitBreakerTransition
    The value of the state gauge. *)
Definition gauge_value (toState : string) : Z :=
  if str_eqb toState "CLOSED" then 0 else if str_eqb toState "HALF_OPEN" then 1 else 2.

(** ** The breaker *)

(** resilience/circuit-breaker/circuit-breaker.ts:9-14 CircuitBreaker *)
Record t : Type := Mk {
  destinationId : string;
  cfg : config;
  met : metrics;
  stateInstance : snapshot;
}.
Abbreviation M := (meth t exn).

Definition set_state (s : snapshot) (b : t) : t := Mk (destinationId b) (cfg b) (met b) s.
Definition set_metrics (f : metrics -> metrics) (b : t) : t :=
  Mk (destinationId b) (cfg b) (f (met b)) (stateInstance b).

(** resilience/circuit-breaker/circuit-breaker.ts:16-27 constructor *)
Definition new (destinationId : string) (o : overrides) : t :=
  Mk destinationId (createDefaultConfig o) zero_metrics (new_snapshot CLOSED None 0 0).

(** resilience/circuit-breaker/circuit-breaker.ts:55-66 transitionTo *)
Definition transitionTo (now : Z) (newState : state_t) : M unit :=
  b ← get_this;
  if state_eqb (st (stateInstance b)) newState then mret tt
  else
    let opened := if state_eqb newState OPEN then Some (Some now) else None in
    modify (fun b => set_metrics (m_recordStateTransition now newState)
                       (set_state (new_snapshot newState opened 0 0) b)).

(** resilience/circuit-breaker/circuit-breaker.ts:47-53 checkStateTransition *)
Definition checkStateTransition (now : Z) : M unit :=
  b ← get_this;
  if state_eqb (st (stateInstance b)) OPEN
     && canAttemptReset now (timeout (cfg b)) (stateInstance b)
  then transitionTo now HALF_OPEN else mret tt.

(** resilience/circuit-breaker/circuit-breaker.ts:29-32 getState *)
Definition getState (now : Z) : M state_t :=
  checkStateTransition now;; gets (fun b => st (stateInstance b)).

(** resilience/circuit-breaker/circuit-breaker.ts:34-37 getBreakerState *)
Definition getBreakerState (now : Z) : M snapshot :=
  checkStateTransition now;; gets stateInstance.

(** resilience/circuit-breaker/circuit-breaker.ts:39-42 canExecute *)
Definition canExecute (now : Z) : M bool :=
  currentState ← getState now;
  mret (state_eqb currentState CLOSED || state_eqb currentState HALF_OPEN).

(** resilience/circuit-breaker/circuit-breaker.ts:98-119 recordSuccess *)
Definition recordSuccess (now : Z) : M unit :=
  modify (set_metrics m_recordSuccess);;
  currentState ← getState now;
  b ← get_this;
  let s := stateInstance b in
  match currentState with
  | HALF_OPEN =>
      let newSuccessCount := successCount s + 1 in
      if num_geb (ofZ newSuccessCount) (successThreshold (cfg b))
      then transitionTo now CLOSED
      else modify (set_state (new_snapshot HALF_OPEN (openedAt s) 0 newSuccessCount))
  | CLOSED =>
      if failureCount s >? 0
      then modify (set_state (new_snapshot CLOSED None 0 0)) else mret tt
  | OPEN => mret tt
  end.

(** resilience/circuit-breaker/circuit-breaker.ts:121-140 recordFailure *)
Definition recordFailure (now : Z) : M unit :=
  modify (set_metrics m_recordFailure);;
  currentState ← getState now;
  b ← get_this;
  match currentState with
  | CLOSED =>
      let newFailureCount := failureCount (stateInstance b) + 1 in
      if num_geb (ofZ newFailureCount) (threshold (cfg b))
      then transitionTo now OPEN
      else modify (set_state (new_snapshot CLOSED None newFailureCount 0))
  | HALF_OPEN => transitionTo now OPEN
  | OPEN => mret tt
  end.

(** resilience/circuit-breaker/circuit-breaker.ts:71-78 execute
    Up to the [await]: counted, and rejected when the circuit is open. *)
Definition execute_begin (now : Z) : M unit :=
  modify (set_metrics m_recordCall);;
  ok ← canExecute now;
  if negb ok
  then modify (set_metrics m_recordRejection);; b ← get_this; fail (CircuitOpenError (destinationId b))
  else mret tt.

(** resilience/circuit-breaker/circuit-breaker.ts:83-96 execute
    From the outcome of the awaited operation on. *)
Definition execute_end {A} (now : Z) (outcome : res exn A) : M A :=
  match outcome with
  | Ok a => recordSuccess now;; mret a
  | Throw e => recordFailure now;; fail e
  end.

(** resilience/circuit-breaker/circuit-breaker.ts:71-96 execute
    The whole call when nothing else runs during the [await]. *)
Definition execute {A} (t0 t1 : Z) (fn : res exn A) : M A :=
  execute_begin t0;; execute_end t1 fn.

(** resilience/circuit-breaker/circuit-breaker.ts:142-148 emit *)
Definition emit (now : Z) (event : string) : M unit :=
  if str_eqb event "success" then recordSuccess now
  else if str_eqb event "failure" then recordFailure now
  else mret tt.

(** resilience/circuit-breaker/circuit-breaker.ts:150-158 reset *)
Definition reset (now : Z) : M unit :=
  b ← get_this;
  let previousState := st (stateInstance b) in
  modify (fun b => set_metrics (fun _ => zero_metrics)
                     (set_state (new_snapshot CLOSED None 0 0) b));;
  if negb (state_eqb previousState CLOSED)
  then modify (set_metrics (m_recordStateTransition now CLOSED)) else mret tt.

(** ** Calls, in any interleaving *)

Inductive event : Type :=
| EvBegin (now : Z)                        (** a call enters [execute] *)
| EvEnd (now : Z) (ok : bool)              (** the operation of an admitted call settles *)
| EvQuery (now : Z)                        (** [getState], [canExecute], [getBreakerState] *)
| EvReport (now : Z) (ok : bool)           (** [recordSuccess] / [recordFailure] from outside *)
| EvReset (now : Z).

Definition run_event (e : event) (b : t) : t :=
  match e with
  | EvBegin now => (execute_begin now b).1
  | EvEnd now ok =>
      (execute_end now (if ok then Ok tt else Throw (PlainError "rejected")) b).1
  | EvQuery now => (getState now b).1
  | EvReport now ok => ((if ok then recordSuccess now else recordFailure now) b).1
  | EvReset now => (reset now b).1
  end.

Inductive step : t -> t -> Prop := step_event e b : step b (run_event e b).

(** ** The invariant *)

(** What each state says of the snapshot, given the configuration. *)
Definition wf_snapshot (c : config) (s : snapshot) : Prop :=
  match st s with
  | CLOSED =>
      openedAt s = None /\ successCount s = 0 /\ 0 <= failureCount s /\
      (failureCount s = 0 \/ num_geb (ofZ (failureCount s)) (threshold c) = false)
  | OPEN => (exists t0, openedAt s = Some (Some t0)) /\ failureCount s = 0 /\ successCount s = 0
  | HALF_OPEN =>
      openedAt s = None /\ failureCount s = 0 /\ 0 <= successCount s /\
      (successCount s = 0 \/ num_geb (ofZ (successCount s)) (successThreshold c) = false)
  end.
(** Transitions are counted once each, under the state they lead to. *)
Definition wf_metrics (m : metrics) : Prop :=
  stateTransitions m = closedTransitions m + openTransitions m + halfOpenTransitions m.
Definition wf (b : t) : Prop := wf_snapshot (cfg b) (stateInstance b) /\ wf_metrics (met b).

(** The breaker once the time-out of an OPEN circuit was looked at. *)
Definition settle (now : Z) (b : t) : t := (checkStateTransition now b).1.

Lemma transitionTo_wf now s b :
  wf_metrics (met b) -> st (stateInstance b) <> s -> wf (transitionTo now s b).1.
Proof.
  intros Hm Hne. unfold transitionTo; munfold. unfold state_eqb.
  rewrite bool_decide_false by done. unfold wf, wf_metrics, m_recordStateTransition in *; simpl.
  split; [destruct s; unfold wf_snapshot; simpl; [intuition lia|by eauto|intuition lia]|].
  rewrite Hm. destruct s; unfold state_eqb; simpl; lia.
Qed.

Lemma settle_cases now b :
  settle now b =
  match st (stateInstance b), openedAt (stateInstance b) with
  | OPEN, Some d =>
      if num_geb (num_sub (ofZ now) (get_time d)) (timeout (cfg b))
      then (transitionTo now HALF_OPEN b).1 else b
  | _, _ => b
  end.
Proof.
  unfold settle, checkStateTransition, canAttemptReset; munfold.
  destruct (st (stateInstance b)); try done. unfold state_eqb; simpl.
  destruct (openedAt (stateInstance b)); [|done]. by destruct (num_geb _ _).
Qed.

Lemma check_eq now b : checkStateTransition now b = (settle now b, Ok tt).
Proof.
  unfold settle, checkStateTransition, transitionTo; munfold. repeat (case_match; simplify_eq/=; try done).
Qed.

Lemma getState_eq now b : getState now b = (settle now b, Ok (st (stateInstance (settle now b)))).
Proof. unfold getState, mbind, meth_bind. by rewrite check_eq. Qed.

Lemma settle_cfg now b : cfg (settle now b) = cfg b.
Proof.
  rewrite settle_cases. repeat case_match; try done.
  unfold transitionTo; munfold. by destruct (state_eqb _ _).
Qed.

Lemma settle_dest now b : destinationId (settle now b) = destinationId b.
Proof.
  rewrite settle_cases. repeat case_match; try done.
  unfold transitionTo; munfold. by destruct (state_eqb _ _).
Qed.

Lemma settle_wf now b : wf b -> wf (settle now b).
Proof.
  intros H. rewrite settle_cases. destruct (st (stateInstance b)) eqn:E; try done.
  repeat case_match; try done. apply transitionTo_wf; [apply H|congruence].
Qed.

Lemma settle_set_metrics f now b :
  stateInstance (settle now (set_metrics f b)) = stateInstance (settle now b).
Proof.
  rewrite !settle_cases; simpl.
  destruct (st (stateInstance b)), (openedAt (stateInstance b)); try done.
  destruct (num_geb _ _); [|done]. unfold transitionTo; munfold.
  by destruct (state_eqb _ _).
Qed.

Lemma set_metrics_wf f b :
  (forall m, wf_metrics m -> wf_metrics (f m)) -> wf b -> wf (set_metrics f b).
Proof. intros Hf [Hs Hm]. split; [exact Hs|]. by apply Hf. Qed.

Lemma m_recordCall_wf m : wf_metrics m -> wf_metrics (m_recordCall m).
Proof. done. Qed.
Lemma m_recordSuccess_wf m : wf_metrics m -> wf_metrics (m_recordSuccess m).
Proof. done. Qed.
Lemma m_recordFailure_wf m : wf_metrics m -> wf_metrics (m_recordFailure m).
Proof. done. Qed.
Lemma m_recordRejection_wf m : wf_metrics m -> wf_metrics (m_recordRejection m).
Proof. done. Qed.
#[local] Hint Resolve set_metrics_wf settle_wf m_recordCall_wf m_recordSuccess_wf
  m_recordFailure_wf m_recordRejection_wf : qf.

(** [recordSuccess] and [recordFailure] after the time-out check. *)
Lemma recordSuccess_eq now b :
  let b1 := settle now (set_metrics m_recordSuccess b) in
  let s := stateInstance b1 in
  recordSuccess now b =
  match st s with
  | HALF_OPEN =>
      if num_geb (ofZ (successCount s + 1)) (successThreshold (cfg b1))
      then transitionTo now CLOSED b1
      else (set_state (new_snapshot HALF_OPEN (openedAt s) 0 (successCount s + 1)) b1, Ok tt)
  | CLOSED => if failureCount s >? 0 then (set_state (new_snapshot CLOSED None 0 0) b1, Ok tt)
              else (b1, Ok tt)
  | OPEN => (b1, Ok tt)
  end.
Proof.
  cbn zeta. unfold recordSuccess, mbind, meth_bind, modify. rewrite getState_eq. munfold.
  repeat (case_match; try done).
Qed.

Lemma recordFailure_eq now b :
  let b1 := settle now (set_metrics m_recordFailure b) in
  let s := stateInstance b1 in
  recordFailure now b =
  match st s with
  | CLOSED =>
      if num_geb (ofZ (failureCount s + 1)) (threshold (cfg b1))
      then transitionTo now OPEN b1
      else (set_state (new_snapshot CLOSED None (failureCount s + 1) 0) b1, Ok tt)
  | HALF_OPEN => transitionTo now OPEN b1
  | OPEN => (b1, Ok tt)
  end.
Proof.
  cbn zeta. unfold recordFailure, mbind, meth_bind, modify. rewrite getState_eq. munfold.
  repeat (case_match; try done).
Qed.

Lemma recordSuccess_wf now b : wf b -> wf (recordSuccess now b).1.
Proof.
  intros H. rewrite recordSuccess_eq. cbn zeta.
  assert (wf (settle now (set_metrics m_recordSuccess b))) as Hw by auto with qf.
  set (b1 := settle _ _) in *. clearbody b1. destruct Hw as [Hs Hm].
  unfold wf_snapshot in Hs. destruct (st (stateInstance b1)) eqn:E.
  - case_match; simpl; [|split; [unfold wf_snapshot; simpl; by rewrite E|done]].
    split; [|done]. unfold wf_snapshot; simpl. auto with lia.
  - split; [unfold wf_snapshot; simpl; by rewrite E|done].
  - case_match eqn:Hc; [apply transitionTo_wf; [done|congruence]|].
    split; [|done]. unfold wf_snapshot; simpl. destruct Hs as (?&?&?&?).
    rewrite !Z.max_r by lia. repeat split; auto; lia.
Qed.

Lemma recordFailure_wf now b : wf b -> wf (recordFailure now b).1.
Proof.
  intros H. rewrite recordFailure_eq. cbn zeta.
  assert (wf (settle now (set_metrics m_recordFailure b))) as Hw by auto with qf.
  set (b1 := settle _ _) in *. clearbody b1. destruct Hw as [Hs Hm].
  unfold wf_snapshot in Hs. destruct (st (stateInstance b1)) eqn:E.
  - case_match eqn:Hc; [apply transitionTo_wf; [done|congruence]|].
    split; [|done]. unfold wf_snapshot; simpl. destruct Hs as (?&?&?&?).
    rewrite !Z.max_r by lia. repeat split; auto; lia.
  - split; [unfold wf_snapshot; simpl; by rewrite E|done].
  - apply transitionTo_wf; [done|congruence].
Qed.

Definition admits (s : state_t) : bool := negb (state_eqb s OPEN).

Lemma execute_begin_eq now b :
  let b1 := settle now (set_metrics m_recordCall b) in
  execute_begin now b =
  if admits (st (stateInstance b1)) then (b1, Ok tt)
  else (set_metrics m_recordRejection b1, Throw (CircuitOpenError (destinationId b1))).
Proof.
  cbn zeta. unfold execute_begin, canExecute, mbind, meth_bind, modify. rewrite getState_eq. munfold.
  by destruct (st (stateInstance (settle now _))).
Qed.

Lemma execute_end_eq {A} now (o : res exn A) b :
  execute_end now o b =
  match o with
  | Ok a => ((recordSuccess now b).1, Ok a)
  | Throw e => ((recordFailure now b).1, Throw e)
  end.
Proof.
  destruct o as [a|e]; unfold execute_end, mbind, meth_bind.
  - rewrite recordSuccess_eq. unfold transitionTo; munfold. repeat (case_match; simplify_eq/=; try done).
  - rewrite recordFailure_eq. unfold transitionTo; munfold. repeat (case_match; simplify_eq/=; try done).
Qed.

Lemma reset_eq now b :
  reset now b =
  (set_metrics (fun _ => if state_eqb (st (stateInstance b)) CLOSED then zero_metrics
                         else m_recordStateTransition now CLOSED zero_metrics)
     (set_state (new_snapshot CLOSED None 0 0) b), Ok tt).
Proof. unfold reset; munfold. by destruct (state_eqb _ _). Qed.

Lemma transitionTo_cfg now s b : cfg (transitionTo now s b).1 = cfg b.
Proof. unfold transitionTo; munfold. by destruct (state_eqb _ _). Qed.

Lemma report_cfg now (ok : bool) b :
  cfg ((if ok then recordSuccess now else recordFailure now) b).1 = cfg b.
Proof.
  destruct ok; rewrite ?recordSuccess_eq, ?recordFailure_eq; cbn zeta;
    repeat case_match; rewrite ?transitionTo_cfg; simpl; by rewrite settle_cfg.
Qed.

Lemma run_event_cfg e b : cfg (run_event e b) = cfg b.
Proof.
  destruct e as [now|now ok|now|now ok|now]; cbn [run_event].
  - rewrite execute_begin_eq. cbn zeta. destruct (admits _); simpl; by rewrite settle_cfg.
  - rewrite execute_end_eq, <- (report_cfg now ok b). by destruct ok.
  - rewrite getState_eq. apply settle_cfg.
  - apply report_cfg.
  - by rewrite reset_eq.
Qed.

Lemma run_event_wf e b : wf b -> wf (run_event e b).
Proof.
  intros H. destruct e as [now|now ok|now|now ok|now]; cbn [run_event].
  - rewrite execute_begin_eq. cbn zeta. destruct (admits _); simpl; auto 6 with qf.
  - rewrite execute_end_eq. destruct ok; simpl; auto using recordSuccess_wf, recordFailure_wf.
  - rewrite getState_eq. simpl. auto with qf.
  - destruct ok; auto using recordSuccess_wf, recordFailure_wf.
  - rewrite reset_eq. split; [unfold wf_snapshot; simpl; intuition lia|].
    unfold wf_metrics, m_recordStateTransition; simpl. by case_match.
Qed.

Lemma breaker_new_wf d o : wf (new d o).
Proof. split; [unfold wf_snapshot; simpl; intuition lia|done]. Qed.

(** In every state a breaker reaches, whatever the interleaving of calls,
    settlements, outside reports, queries and resets: a CLOSED circuit has
    counted fewer failures than its threshold (or none), a HALF_OPEN one fewer
    successes than its success threshold (or none), an OPEN one carries the
    instant it opened at, and the transition counters add up. *)
Theorem breaker_invariant d o b : rtc step (new d o) b -> wf b.
Proof.
  intros H. assert (wf (new d o)) as Hw by apply breaker_new_wf. revert Hw.
  induction H as [|x y z [e w] _ IH]; [done|]. intros Hw. by apply IH, run_event_wf.
Qed.

Definition sample_overrides : overrides :=
  Overrides (Some (ofZ 2)) (Some (ofZ 100)) None None (Some (ofZ 2)) None.
Definition run_events (l : list event) (b : t) : t := fold_left (fun b e => run_event e b) l b.
Definition sample_run (l : list event) : t := run_events l (new "d" sample_overrides).

Lemma run_events_rtc l b : rtc step b (run_events l b).
Proof.
  revert b. induction l as [|e l IH]; intros b; [apply rtc_refl|].
  eapply rtc_l; [apply (step_event e)|apply IH].
Qed.

Lemma breaker_invariant_witness : wf (sample_run [EvBegin 0; EvEnd 5 false; EvReport 6 false]).
Proof.
  apply (breaker_invariant "d" sample_overrides). apply run_events_rtc.
Defined.

(** ** Specification: an automaton over the three states *)

Inductive abstract : Type :=
| AClosed (failures : Z)     (** consecutive failures so far *)
| AOpen (since : Z)
| AHalf (successes : Z).

Section spec.
Context (K T S : Z).   (** failure threshold, time-out, success threshold *)

Definition a_settle (now : Z) (a : abstract) : abstract :=
  match a with AOpen t0 => if T <=? now - t0 then AHalf 0 else a | _ => a end.
Definition a_report (now : Z) (ok : bool) (a : abstract) : abstract :=
  match a_settle now a, ok with
  | AClosed _, true => AClosed 0
  | AClosed n, false => if K <=? n + 1 then AOpen now else AClosed (n + 1)
  | AHalf m, true => if S <=? m + 1 then AClosed 0 else AHalf (m + 1)
  | AHalf _, false => AOpen now
  | AOpen t0, _ => AOpen t0
  end.
Definition a_event (e : event) (a : abstract) : abstract :=
  match e with
  | EvBegin now | EvQuery now => a_settle now a
  | EvEnd now ok | EvReport now ok => a_report now ok a
  | EvReset _ => AClosed 0
  end.
Definition a_admits (now : Z) (a : abstract) : bool :=
  match a_settle now a with AOpen _ => false | _ => true end.
End spec.

(** The abstract state of a breaker. *)
Definition abs (b : t) : abstract :=
  let s := stateInstance b in
  match st s, openedAt s with
  | CLOSED, _ => AClosed (failureCount s)
  | OPEN, Some (Some t0) => AOpen t0
  | OPEN, _ => AOpen 0
  | HALF_OPEN, _ => AHalf (successCount s)
  end.
(** A configuration of integers. *)
Definition int_config (K T S : Z) (c : config) : Prop :=
  threshold c = ofZ K /\ timeout c = ofZ T /\ successThreshold c = ofZ S.

Lemma num_geb_Z a b : num_geb (ofZ a) (ofZ b) = (b <=? a).
Proof. apply num_leb_Z. Qed.

Lemma num_sub_Z_leb (T now t0 : Z) : num_geb (num_sub (ofZ now) (ofZ t0)) (ofZ T) = (T <=? now - t0).
Proof.
  unfold num_geb, num_sub, ofZ; cbn [num_neg num_add]. rewrite num_leb_Fin, <- Qle_bool_Z.
  apply eq_iff_eq_true. rewrite !Qle_bool_iff.
  assert (inject_Z now + - inject_Z t0 == inject_Z (now - t0))%Q as ->.
  { unfold Z.sub. by rewrite inject_Z_plus, inject_Z_opp. }
  done.
Qed.

Lemma abs_set_metrics f b : abs (set_metrics f b) = abs b.
Proof. done. Qed.

Lemma transitionTo_st now s b :
  st (stateInstance b) <> s ->
  (transitionTo now s b).1 =
  set_metrics (m_recordStateTransition now s)
    (set_state (new_snapshot s (if state_eqb s OPEN then Some (Some now) else None) 0 0) b).
Proof. intros H. unfold transitionTo; munfold. unfold state_eqb at 1. by rewrite bool_decide_false. Qed.

Lemma abs_settle K T S now b :
  int_config K T S (cfg b) -> wf b -> abs (settle now b) = a_settle T now (abs b).
Proof.
  intros (_ & HT & _) [Hs _]. rewrite settle_cases. unfold abs, wf_snapshot in *.
  destruct (st (stateInstance b)) eqn:E; cbv beta iota; rewrite ?E; try done.
  destruct Hs as [[t0 Ho] _]. rewrite Ho, HT. cbn [get_time a_settle]. rewrite num_sub_Z_leb.
  destruct (T <=? now - t0); [|by rewrite E, Ho].
  rewrite transitionTo_st by congruence. done.
Qed.

Lemma abs_report K T S now (ok : bool) b :
  int_config K T S (cfg b) -> wf b ->
  abs ((if ok then recordSuccess now else recordFailure now) b).1 = a_report K T S now ok (abs b).
Proof.
  intros Hc Hw. unfold a_report.
  rewrite <- (abs_set_metrics (if ok then m_recordSuccess else m_recordFailure) b).
  rewrite <- (abs_settle K T S now) by (destruct ok; auto with qf).
  destruct ok; rewrite ?recordSuccess_eq, ?recordFailure_eq; cbn zeta;
    match goal with |- context [settle now ?x] => set (b0 := x) in * end;
    assert (wf (settle now b0)) as [Hs _] by (unfold b0; auto with qf);
    assert (int_config K T S (cfg (settle now b0))) as (HK & _ & HS) by (by rewrite settle_cfg);
    set (b1 := settle now b0) in *; clearbody b1; unfold wf_snapshot in Hs; unfold abs;
    destruct (st (stateInstance b1)) eqn:E; simpl; rewrite ?HK, ?HS, ?num_geb_Z.
  - destruct (failureCount _ >? 0) eqn:F; simpl; rewrite ?E; [done|]. f_equal. lia.
  - rewrite E. by destruct (openedAt _) as [[]|].
  - destruct (S <=? _); [by rewrite transitionTo_st by congruence|]. simpl. f_equal. lia.
  - destruct (K <=? _); [by rewrite transitionTo_st by congruence|]. simpl. f_equal. lia.
  - rewrite E. by destruct (openedAt _) as [[]|].
  - by rewrite transitionTo_st by congruence.
Qed.

Lemma abs_event K T S e b :
  int_config K T S (cfg b) -> wf b -> abs (run_event e b) = a_event K T S e (abs b).
Proof.
  intros Hc Hw. destruct e as [now|now ok|now|now ok|now]; cbn [run_event a_event].
  - rewrite execute_begin_eq. cbn zeta.
    rewrite <- (abs_set_metrics m_recordCall b), <- (abs_settle K T S now) by auto with qf.
    by destruct (admits _).
  - rewrite execute_end_eq, <- (abs_report K T S now ok b) by done. by destruct ok.
  - rewrite getState_eq. by apply abs_settle with K S.
  - by apply abs_report.
  - by rewrite reset_eq.
Qed.

Lemma breaker_admits K T S b now :
  int_config K T S (cfg b) -> wf b ->
  (execute_begin now b).2 =
    (if a_admits T now (abs b) then Ok tt else Throw (CircuitOpenError (destinationId b))) /\
  abs (execute_begin now b).1 = a_settle T now (abs b).
Proof.
  intros Hc Hw. split; [|apply (abs_event K T S (EvBegin now) b Hc Hw)].
  rewrite execute_begin_eq. cbn zeta. unfold a_admits.
  rewrite <- (abs_set_metrics m_recordCall b), <- (abs_settle K T S now) by auto with qf.
  rewrite settle_dest. unfold abs, admits.
  destruct (st _); [done| |done]. simpl. by destruct (openedAt _) as [[]|].
Qed.

(** C6: the breaker implements the three-state automaton: with an integer
    configuration, every event (a call entering, a settlement, a report, a
    query, a reset) moves a well-formed breaker as the automaton moves, and
    [execute] admits the operation exactly when the automaton is not open,
    throwing [CircuitOpenError] otherwise. *)
Theorem breaker_refines_spec K T S e b :
  int_config K T S (cfg b) -> wf b ->
  abs (run_event e b) = a_event K T S e (abs b) /\
  int_config K T S (cfg (run_event e b)) /\
  (forall now, (execute_begin now b).2 =
     if a_admits T now (abs b) then Ok tt else Throw (CircuitOpenError (destinationId b))).
Proof.
  intros Hc Hw. split; [by apply abs_event|]. split; [by rewrite run_event_cfg|].
  intros now. by apply (breaker_admits K T S).
Qed.

Lemma breaker_refines_spec_witness :
  (execute_begin 120 (sample_run [EvReport 1 false; EvReport 20 false])).2 = Ok tt.
Proof.
  destruct (breaker_refines_spec 2 100 2 (EvQuery 0) (sample_run [EvReport 1 false; EvReport 20 false]))
    as (_ & _ & H).
  - repeat split.
  - split; [|done]. split; [by exists 20|done].
  - exact (H 120).
Defined.

(** ** Consequences, proved on the automaton *)

Definition a_run (K T S : Z) (l : list event) (a : abstract) : abstract :=
  fold_left (fun a e => a_event K T S e a) l a.

Lemma run_events_wf l b : wf b -> wf (run_events l b).
Proof. revert b. induction l as [|e l IH]; intros b H; [done|]. by apply IH, run_event_wf. Qed.

Lemma run_events_cfg l b : cfg (run_events l b) = cfg b.
Proof. revert b. induction l as [|e l IH]; intros b; [done|]. unfold run_events in *; simpl. by rewrite IH, run_event_cfg. Qed.

Lemma abs_run K T S l b :
  int_config K T S (cfg b) -> wf b -> abs (run_events l b) = a_run K T S l (abs b).
Proof.
  revert b. induction l as [|e l IH]; intros b Hc Hw; [done|].
  unfold run_events, a_run in *; simpl.
  rewrite <- abs_event by done.
  apply IH; [by rewrite run_event_cfg|by apply run_event_wf].
Qed.

(** The time of an event, and what a report says. *)
Definition ev_time (e : event) : Z :=
  match e with EvBegin n | EvEnd n _ | EvQuery n | EvReport n _ | EvReset n => n end.
Definition is_reset (e : event) : bool := match e with EvReset _ => true | _ => false end.
Definition is_report (ok : bool) (e : event) : bool :=
  match e with EvEnd _ ok' | EvReport _ ok' => Bool.eqb ok ok' | _ => false end.

Lemma a_run_failures K T S l n :
  0 <= n -> Forall (fun e => is_report false e = true) l ->
  n + Z.of_nat (length l) < K -> a_run K T S l (AClosed n) = AClosed (n + Z.of_nat (length l)).
Proof.
  intros Hn Hl. revert n Hn. unfold a_run.
  induction Hl as [|e l He _ IH]; intros n Hn Hlen; cbn [fold_left length] in *; [f_equal; lia|].
  assert (a_event K T S e (AClosed n) = AClosed (n + 1)) as ->.
  { destruct e as [|? []| |? []|]; try done; cbn; by replace (K <=? n + 1) with false by lia. }
  rewrite IH by lia. f_equal. lia.
Qed.

(** A closed circuit trips on [K] consecutive failures and not before:
    after [n < K] reported failures it is still CLOSED having counted [n], the
    [K]-th opens it at that report's time, and a success in between restarts
    the count from zero. *)
Theorem trips_on_consecutive_failures K T S b l e :
  int_config K T S (cfg b) -> wf b -> abs b = AClosed 0 ->
  Forall (fun e => is_report false e = true) l -> is_report false e = true ->
  Z.of_nat (length l) < K ->
  abs (run_events l b) = AClosed (Z.of_nat (length l)) /\
  (Z.of_nat (length l) + 1 = K -> abs (run_events (l ++ [e]) b) = AOpen (ev_time e)) /\
  (forall e', is_report true e' = true -> abs (run_events (l ++ [e']) b) = AClosed 0).
Proof.
  intros Hc Hw Ha Hl He Hlen.
  pose proof (a_run_failures K T S l 0 ltac:(lia) Hl Hlen) as Hrun.
  split; [rewrite (abs_run K T S), Ha by done; exact Hrun|].
  assert (forall e', abs (run_events (l ++ [e']) b) = a_event K T S e' (AClosed (Z.of_nat (length l)))) as Happ.
  { intros e'. rewrite (abs_run K T S), Ha by done. unfold a_run in *.
    rewrite fold_left_app, Hrun. done. }
  split.
  - intros HK. rewrite Happ.
    destruct e as [|? []| |? []|]; try done; cbn; by replace (K <=? _) with true by lia.
  - intros e' He'. rewrite Happ. by destruct e' as [|? []| |? []|].
Qed.

Lemma trips_on_consecutive_failures_witness :
  abs (run_events ([EvEnd 3 false] ++ [EvReport 8 false]) (new "d" sample_overrides)) = AOpen 8.
Proof.
  apply (trips_on_consecutive_failures 2 100 2 (new "d" sample_overrides) [EvEnd 3 false] (EvReport 8 false));
    [repeat split|apply breaker_new_wf|reflexivity|by repeat constructor|reflexivity|simpl; lia|simpl; lia].
Defined.

(** C32: An open circuit stays shut for its time-out: with whole numbers for its
    configuration and unless it is reset by hand, no sequence of calls,
    settlements, reports and queries before [t0 + T] changes the state or lets
    a call through, and the first call at or after [t0 + T] is admitted and
    finds the circuit HALF_OPEN. *)
Theorem open_for_timeout K T S b t0 l :
  int_config K T S (cfg b) -> wf b -> abs b = AOpen t0 ->
  Forall (fun e => is_reset e = false /\ ev_time e < t0 + T) l ->
  abs (run_events l b) = AOpen t0 /\
  (forall now, now < t0 + T ->
     (execute_begin now (run_events l b)).2 = Throw (CircuitOpenError (destinationId (run_events l b)))) /\
  (forall now, t0 + T <= now ->
     (execute_begin now (run_events l b)).2 = Ok tt /\
     abs (execute_begin now (run_events l b)).1 = AHalf 0).
Proof.
  intros Hc Hw Ha Hl.
  assert (abs (run_events l b) = AOpen t0) as Hr.
  { rewrite (abs_run K T S), Ha by done. unfold a_run. clear -Hl.
    induction Hl as [|e l [He Ht] _ IH]; [done|]. cbn [fold_left].
    assert (a_event K T S e (AOpen t0) = AOpen t0) as ->; [|done].
    destruct e; simpl in *; unfold a_report, a_settle; try done;
      by replace (T <=? _) with false by lia. }
  pose proof (run_events_wf l b Hw) as Hw'.
  assert (int_config K T S (cfg (run_events l b))) as Hc' by (by rewrite run_events_cfg).
  split; [done|]. split; intros now Hnow.
  - destruct (breaker_admits K T S (run_events l b) now Hc' Hw') as [-> _].
    rewrite Hr. unfold a_admits, a_settle. by replace (T <=? _) with false by lia.
  - destruct (breaker_admits K T S (run_events l b) now Hc' Hw') as [-> Hs].
    unfold a_admits. rewrite Hs, Hr. unfold a_settle. by replace (T <=? _) with true by lia.
Qed.

Lemma open_for_timeout_witness :
  (execute_begin 99 (run_events [EvBegin 50; EvReport 60 true] (sample_run [EvReport 1 false; EvReport 20 false]))).2
    = Throw (CircuitOpenError "d").
Proof.
  apply (open_for_timeout 2 100 2 (sample_run [EvReport 1 false; EvReport 20 false]) 20
    [EvBegin 50; EvReport 60 true]); [repeat split| |reflexivity|repeat constructor; simpl; lia|lia].
  apply run_events_wf, breaker_new_wf.
Defined.

Lemma a_run_successes K T S l m :
  0 <= m -> Forall (fun e => is_report true e = true) l ->
  m + Z.of_nat (length l) < S -> a_run K T S l (AHalf m) = AHalf (m + Z.of_nat (length l)).
Proof.
  intros Hm Hl. revert m Hm. unfold a_run.
  induction Hl as [|e l He _ IH]; intros m Hm Hlen; cbn [fold_left length] in *; [f_equal; lia|].
  assert (a_event K T S e (AHalf m) = AHalf (m + 1)) as ->.
  { destruct e as [|? []| |? []|]; try done; cbn; by replace (S <=? m + 1) with false by lia. }
  rewrite IH by lia. f_equal. lia.
Qed.

(** C21: recovery. A half-open circuit closes on the [S]-th success in a row and
    not before, and a single failure at any point re-opens it at that
    failure's time; while half-open it admits every call, and no amount of
    time or of concurrent calls changes that: [halfOpenTimeout], documented as
    the maximum time before forcing OPEN, has no effect. *)
Theorem half_open_recovery K T S b l e :
  int_config K T S (cfg b) -> wf b -> abs b = AHalf 0 ->
  Forall (fun e => is_report true e = true) l -> Z.of_nat (length l) < S ->
  is_report true e = true ->
  abs (run_events l b) = AHalf (Z.of_nat (length l)) /\
  (Z.of_nat (length l) + 1 = S -> abs (run_events (l ++ [e]) b) = AClosed 0) /\
  (forall e', is_report false e' = true -> abs (run_events (l ++ [e']) b) = AOpen (ev_time e')) /\
  (forall nows now,
     abs (run_events (map EvBegin nows) b) = AHalf 0 /\
     (execute_begin now (run_events (map EvBegin nows) b)).2 = Ok tt).
Proof.
  intros Hc Hw Ha Hl Hlen He.
  pose proof (a_run_successes K T S l 0 ltac:(lia) Hl Hlen) as Hrun.
  split; [rewrite (abs_run K T S), Ha by done; exact Hrun|].
  assert (forall e', abs (run_events (l ++ [e']) b) = a_event K T S e' (AHalf (Z.of_nat (length l)))) as Happ.
  { intros e'. rewrite (abs_run K T S), Ha by done. unfold a_run in *.
    rewrite fold_left_app, Hrun. done. }
  split; [|split].
  - intros HS. rewrite Happ.
    destruct e as [|? []| |? []|]; try done; cbn; by replace (S <=? _) with true by lia.
  - intros e' He'. rewrite Happ. by destruct e' as [|? []| |? []|].
  - intros nows now. assert (abs (run_events (map EvBegin nows) b) = AHalf 0) as Hh.
    { rewrite (abs_run K T S), Ha by done. unfold a_run. clear.
      induction nows as [|n nows IH]; [done|exact IH]. }
    split; [done|]. destruct (breaker_admits K T S (run_events (map EvBegin nows) b) now) as [-> _].
    + by rewrite run_events_cfg.
    + by apply run_events_wf.
    + by rewrite Hh.
Qed.

Definition sample_half : t := sample_run [EvReport 1 false; EvReport 20 false; EvQuery 120].

Lemma half_open_recovery_witness :
  abs (run_events ([EvEnd 130 true] ++ [EvEnd 131 true]) sample_half) = AClosed 0.
Proof.
  apply (half_open_recovery 2 100 2 sample_half [EvEnd 130 true] (EvEnd 131 true));
    [repeat split|apply run_events_wf, breaker_new_wf|reflexivity|by repeat constructor|simpl; lia
    |reflexivity|simpl; lia].
Defined.

(** ** Call accounting *)

(** A breaker with the calls in flight that went through [execute_begin]. *)
Inductive astep : t * nat -> t * nat -> Prop :=
| astep_admit now b n : (execute_begin now b).2 = Ok tt -> astep (b, n) ((execute_begin now b).1, Datatypes.S n)
| astep_reject now b n e :
    (execute_begin now b).2 = Throw e -> astep (b, n) ((execute_begin now b).1, n)
| astep_settle now (o : res exn unit) b n : astep (b, Datatypes.S n) ((execute_end now o b).1, n)
| astep_query now b n : astep (b, n) ((getState now b).1, n).

Definition ledger (b : t) (n : nat) : Prop :=
  totalCalls (met b) =
  rejectedCalls (met b) + successfulCalls (met b) + failedCalls (met b) + Z.of_nat n.

(** The counters of calls, which transitions leave alone. *)
Definition call_counters (b : t) : Z * Z * Z * Z :=
  (totalCalls (met b), rejectedCalls (met b), successfulCalls (met b), failedCalls (met b)).

Lemma transitionTo_calls now s b : call_counters (transitionTo now s b).1 = call_counters b.
Proof. unfold transitionTo; munfold. by destruct (state_eqb _ _). Qed.

Lemma settle_calls now b : call_counters (settle now b) = call_counters b.
Proof. rewrite settle_cases. repeat (case_match; try done). apply transitionTo_calls. Qed.

Lemma report_calls now (ok : bool) b :
  call_counters ((if ok then recordSuccess now else recordFailure now) b).1 =
  call_counters (set_metrics (if ok then m_recordSuccess else m_recordFailure) b).
Proof.
  destruct ok; rewrite ?recordSuccess_eq, ?recordFailure_eq; cbn zeta;
    repeat case_match; rewrite ?transitionTo_calls; simpl; apply settle_calls.
Qed.

(** No call is lost: as long as the metrics are not reset, the calls counted
    are the ones rejected, those that succeeded, those that failed and those
    still in flight, under any interleaving. *)
Theorem calls_accounted d o b n : rtc astep (new d o, O) (b, n) -> ledger b n.
Proof.
  intros H. remember (new d o, O) as x eqn:Hx. remember (b, n) as y eqn:Hy.
  assert (ledger x.1 x.2) as H0 by (by subst). clear Hx. revert b n Hy.
  induction H as [x|x y z Hxy _ IH]; intros b n Hy; [by subst|].
  apply IH; [|done]. clear IH Hy.
  assert (forall now b, call_counters (execute_begin now b).1 =
    match (execute_begin now b).2 with
    | Ok _ => call_counters (set_metrics m_recordCall b)
    | Throw _ => call_counters (set_metrics m_recordRejection (set_metrics m_recordCall b))
    end) as Hb.
  { intros now b'. rewrite execute_begin_eq. cbn zeta.
    pose proof (settle_calls now (set_metrics m_recordCall b')) as Hs.
    destruct (admits _); simpl; [exact Hs|].
    unfold call_counters in *; simpl in *. injection Hs. congruence. }
  unfold ledger in *.
  destruct Hxy as [now b' m Hok|now b' m e Hok|now o' b' m|now b' m]; cbn [fst snd] in *.
  - specialize (Hb now b'). rewrite Hok in Hb. unfold call_counters in Hb; simpl in Hb.
    injection Hb. lia.
  - specialize (Hb now b'). rewrite Hok in Hb. unfold call_counters in Hb; simpl in Hb.
    injection Hb. lia.
  - pose proof (report_calls now (is_ok o') b') as Hr. rewrite execute_end_eq.
    destruct o'; unfold call_counters in Hr; simpl in Hr |- *; injection Hr; lia.
  - pose proof (settle_calls now b') as Hs. rewrite getState_eq.
    unfold call_counters in Hs; simpl in Hs |- *. injection Hs. lia.
Qed.

Lemma calls_accounted_witness :
  ledger (execute_begin 3 (new "d" sample_overrides)).1 1.
Proof.
  apply (calls_accounted "d" sample_overrides). eapply rtc_l; [|apply rtc_refl].
  apply astep_admit. reflexivity.
Defined.

End Breaker.

(** ** One breaker per destination *)

Module Manager.

(** resilience/circuit-breaker/circuit-breaker-manager.ts:8-31 CircuitBreakerManager *)
Record t : Type := Mk {
  breakers : list (string * Breaker.t);
  defaultConfig : Breaker.overrides;
}.
Abbreviation M := (meth t exn).

Definition new (c : Breaker.overrides) : t := Mk [] c.

Definition set_breaker (id : string) (b : Breaker.t) (m : t) : t :=
  Mk (jmap_set id b (breakers m)) (defaultConfig m).

(** resilience/circuit-breaker/circuit-breaker-manager.ts:73-85 createBreaker *)
Definition createBreaker (id : string) (c : Breaker.overrides) : M Breaker.t :=
  m ← get_this;
  let b := Breaker.new id (Breaker.spread (defaultConfig m) c) in
  modify (set_breaker id b);; mret b.

(** resilience/circuit-breaker/circuit-breaker-manager.ts:45-51 getOrCreateBreaker *)
Definition getOrCreateBreaker (id : string) (c : Breaker.overrides) : M Breaker.t :=
  m ← get_this;
  match jmap_get id (breakers m) with
  | Some b => mret b
  | None => createBreaker id c
  end.

(** resilience/circuit-breaker/circuit-breaker-manager.ts:33-39 getBreaker *)
Definition getBreaker (id : string) : M Breaker.t := getOrCreateBreaker id Breaker.no_overrides.

(** A method call on the breaker [getBreaker(id)] returns: the map holds a
    reference, so the breaker's state changes in place. *)
Definition on_breaker {A} (id : string) (f : Breaker.M A) : M A :=
  b ← getBreaker id;
  let '(b', r) := f b in
  modify (set_breaker id b');; lift_res r.

(** resilience/circuit-breaker/circuit-breaker-manager.ts:53-55 getState *)
Definition getState (now : Z) (id : string) : M Breaker.state_t := on_breaker id (Breaker.getState now).

(** resilience/circuit-breaker/circuit-breaker-manager.ts:68-71 isOpen *)
Definition isOpen (now : Z) (id : string) : M bool :=
  s ← getState now id; mret (Breaker.state_eqb s Breaker.OPEN).

(** resilience/circuit-breaker/circuit-breaker-manager.ts:106-109 isDestinationAvailable *)
Definition isDestinationAvailable (now : Z) (id : string) : M bool :=
  on_breaker id (Breaker.canExecute now).

(** resilience/circuit-breaker/circuit-breaker-manager.ts:87-92 resetBreaker *)
Definition resetBreaker (now : Z) (id : string) : M unit :=
  m ← get_this;
  match jmap_get id (breakers m) with
  | Some b => modify (set_breaker id (Breaker.reset now b).1)
  | None => mret tt
  end.

(** resilience/circuit-breaker/circuit-breaker-manager.ts:57-66 reset
    The deletion of the mirrored Redis key, whose failure is only logged, is
    outside the model. *)
Definition reset (now : Z) (id : string) : M unit := resetBreaker now id.

(** resilience/circuit-breaker/circuit-breaker-manager.ts:94-96 getAllBreakers *)
Definition getAllBreakers (m : t) : list Breaker.t := map snd (breakers m).

(** resilience/circuit-breaker/circuit-breaker-manager.ts:98-104 getHealthStatus
    Each breaker's time-out is looked at on the way. *)
Definition getHealthStatus (now : Z) : M (list (string * Breaker.state_t)) :=
  m ← get_this;
  put_this (Mk (map (fun '(id, b) => (id, Breaker.settle now b)) (breakers m)) (defaultConfig m));;
  mret (map (fun '(id, b) => (id, Breaker.st (Breaker.stateInstance (Breaker.settle now b))))
          (breakers m)).

(** *** Isolation *)

Inductive op : Type :=
| OpGet (id : string) (c : Breaker.overrides)
| OpEvent (id : string) (e : Breaker.event)
| OpReset (now : Z) (id : string)
| OpHealth (now : Z).

(** Traffic of one destination through its breaker. *)
Definition event_meth (e : Breaker.event) : Breaker.M unit := fun b => (Breaker.run_event e b, Ok tt).
Definition run_op (o : op) (m : t) : t :=
  match o with
  | OpGet id c => (getOrCreateBreaker id c m).1
  | OpEvent id e => (on_breaker id (event_meth e) m).1
  | OpReset now id => (reset now id m).1
  | OpHealth now => (getHealthStatus now m).1
  end.
Definition op_id (o : op) : option string :=
  match o with OpGet id _ | OpEvent id _ | OpReset _ id => Some id | OpHealth _ => None end.

Inductive step : t -> t -> Prop := step_op o m : step m (run_op o m).

(** The map's keys are distinct, and each breaker is its destination's, well formed. *)
Definition wf (m : t) : Prop :=
  NoDup (map fst (breakers m)) /\
  Forall (fun '(id, b) => Breaker.destinationId b = id /\ Breaker.wf b) (breakers m).

Lemma getOrCreate_eq id c m :
  getOrCreateBreaker id c m =
  match jmap_get id (breakers m) with
  | Some b => (m, Ok b)
  | None => let b := Breaker.new id (Breaker.spread (defaultConfig m) c) in (set_breaker id b m, Ok b)
  end.
Proof. unfold getOrCreateBreaker, createBreaker; munfold. by destruct (jmap_get _ _). Qed.

Lemma jmap_set_set {A} (id : string) (a b : A) l : jmap_set id b (jmap_set id a l) = jmap_set id b l.
Proof.
  induction l as [|[k v] l IH]; simpl; [by rewrite decide_True|].
  destruct (decide (id = k)); simpl; [by rewrite decide_True|].
  rewrite decide_False by done. by rewrite IH.
Qed.

(** The breaker a destination's calls run on. *)
Definition current (id : string) (m : t) : Breaker.t :=
  default (Breaker.new id (Breaker.spread (defaultConfig m) Breaker.no_overrides))
    (jmap_get id (breakers m)).

Lemma on_breaker_eq {A} id (f : Breaker.M A) m :
  on_breaker id f m = (set_breaker id (f (current id m)).1 m, (f (current id m)).2).
Proof.
  unfold on_breaker, getBreaker, mbind, meth_bind. rewrite getOrCreate_eq. unfold current.
  destruct (jmap_get id (breakers m)) as [b|]; simpl.
  - by destruct (f b).
  - destruct (f _) as [b' r]; simpl. unfold modify, lift_res, set_breaker; simpl.
    by rewrite jmap_set_set.
Qed.

Lemma set_breaker_wf id b m :
  Breaker.destinationId b = id -> Breaker.wf b -> wf m -> wf (set_breaker id b m).
Proof.
  intros Hid Hb [Hnd Hall]. split; [by apply jmap_set_NoDup|]. simpl. clear Hnd.
  induction Hall as [|[k v] l Hk Hl IH]; simpl; [by apply Forall_singleton|].
  destruct (decide (id = k)); constructor; auto.
Qed.

Lemma run_event_dest e b : Breaker.destinationId (Breaker.run_event e b) = Breaker.destinationId b.
Proof.
  assert (forall now s b, Breaker.destinationId (Breaker.transitionTo now s b).1 = Breaker.destinationId b) as Ht.
  { intros now s b'. unfold Breaker.transitionTo; munfold. by destruct (Breaker.state_eqb _ _). }
  assert (forall now (ok : bool) b, Breaker.destinationId
    ((if ok then Breaker.recordSuccess now else Breaker.recordFailure now) b).1 = Breaker.destinationId b) as Hr.
  { intros now ok b'. destruct ok; rewrite ?Breaker.recordSuccess_eq, ?Breaker.recordFailure_eq; cbn zeta;
      repeat case_match; rewrite ?Ht; simpl; by rewrite Breaker.settle_dest. }
  destruct e as [now|now ok|now|now ok|now]; cbn [Breaker.run_event].
  - rewrite Breaker.execute_begin_eq. cbn zeta. destruct (Breaker.admits _); simpl; by rewrite Breaker.settle_dest.
  - rewrite Breaker.execute_end_eq, <- (Hr now ok b). by destruct ok.
  - rewrite Breaker.getState_eq. apply Breaker.settle_dest.
  - apply Hr.
  - by rewrite Breaker.reset_eq.
Qed.

Lemma jmap_get_Forall {A} (P : string * A -> Prop) id (b : A) l :
  Forall P l -> jmap_get id l = Some b -> P (id, b).
Proof. intros H Hg. rewrite Forall_forall in H. by apply H, jmap_get_In. Qed.

Lemma current_wf id m : wf m -> Breaker.destinationId (current id m) = id /\ Breaker.wf (current id m).
Proof.
  intros [_ Hall]. unfold current. destruct (jmap_get id (breakers m)) as [b|] eqn:E; simpl.
  - by apply (jmap_get_Forall _ _ _ _ Hall) in E.
  - split; [done|]. apply Breaker.breaker_new_wf.
Qed.

Lemma run_op_wf o m : wf m -> wf (run_op o m).
Proof.
  intros Hw. destruct o as [id c|id e|now id|now]; cbn [run_op].
  - rewrite getOrCreate_eq. destruct (jmap_get _ _); [done|]. apply set_breaker_wf; [done| |done].
    apply Breaker.breaker_new_wf.
  - rewrite on_breaker_eq. destruct (current_wf id m Hw) as [Hd Hb].
    apply set_breaker_wf; [etransitivity; [apply run_event_dest|done]|by apply Breaker.run_event_wf|done].
  - unfold reset, resetBreaker; munfold. destruct (jmap_get id (breakers m)) as [b|] eqn:E; [|done].
    destruct Hw as [Hnd Hall]. pose proof (jmap_get_Forall _ _ _ _ Hall E) as [Hd Hb].
    apply set_breaker_wf; [etransitivity; [apply (run_event_dest (Breaker.EvReset now))|done]|by apply (Breaker.run_event_wf (Breaker.EvReset now))|done].
  - unfold getHealthStatus; munfold. destruct Hw as [Hnd Hall]. split; simpl.
    + rewrite map_map. erewrite map_ext; [exact Hnd|]. by intros [].
    + apply Forall_map. eapply Forall_impl; [exact Hall|]. intros [k b] [Hd Hb].
      split; [by rewrite Breaker.settle_dest|by apply Breaker.settle_wf].
Qed.

(** Isolation. Whatever happens to one destination (calls, failures,
    resets, look-ups) leaves every other destination's breaker untouched, and a
    destination has exactly one breaker, its own, in a well-formed state. *)
Theorem manager_isolation c m o :
  rtc step (new c) m ->
  wf m /\
  (forall id, op_id o <> Some id -> op_id o <> None ->
     jmap_get id (breakers (run_op o m)) = jmap_get id (breakers m)).
Proof.
  intros H. split.
  - assert (wf (new c)) as Hw by (split; constructor). revert Hw.
    induction H as [|x y z [o' m'] _ IH]; [done|]. intros Hw. by apply IH, run_op_wf.
  - intros id Hid Hn. destruct o as [id' c'|id' e|now id'|now]; simpl in Hid, Hn; cbn [run_op]; try done.
    + rewrite getOrCreate_eq. destruct (jmap_get id' _); [done|]. simpl. apply jmap_get_set_ne. congruence.
    + rewrite on_breaker_eq. simpl. apply jmap_get_set_ne. congruence.
    + unfold reset, resetBreaker; munfold. destruct (jmap_get id' _); [|done]. simpl.
      apply jmap_get_set_ne. congruence.
Qed.

Definition sample : t := run_op (OpEvent "b" (Breaker.EvReport 4 false)) (new Breaker.sample_overrides).

Lemma manager_isolation_witness :
  jmap_get "b" (breakers (run_op (OpReset 9 "a") sample)) = jmap_get "b" (breakers sample).
Proof.
  apply (manager_isolation Breaker.sample_overrides sample (OpReset 9 "a")); [|done|done].
  eapply rtc_l; [apply (step_op (OpEvent "b" (Breaker.EvReport 4 false)))|apply rtc_refl].
Defined.

End Manager.

(** ** The percentage-based state machine *)

Module RateBreaker.
Import Breaker.

(** resilience/circuit-breaker/state-machine.ts:8-18 CircuitBreakerStateMachine *)
Record t : Type := Mk {
  currentState : state_t;
  lastStateChange : Z;
  failureCount : Z;
  successCount : Z;
  threshold : num;
  timeoutMs : num;
  volumeThreshold : num;
}.
Abbreviation M := (meth t exn).

Definition new (now : Z) (threshold timeoutMs volumeThreshold : num) : t :=
  Mk CLOSED now 0 0 threshold timeoutMs volumeThreshold.

(** resilience/circuit-breaker/state-machine.ts:63-68 transitionTo *)
Definition transitionTo (now : Z) (next : state_t) : M unit :=
  modify (fun b => Mk next now 0 0 (threshold b) (timeoutMs b) (volumeThreshold b)).

Definition set_counts (f s : Z) (b : t) : t :=
  Mk (currentState b) (lastStateChange b) f s (threshold b) (timeoutMs b) (volumeThreshold b).

(** resilience/circuit-breaker/state-machine.ts:20-29 getState *)
Definition getState (now : Z) : M state_t :=
  b ← get_this;
  (if state_eqb (currentState b) OPEN
      && num_geb (num_sub (ofZ now) (ofZ (lastStateChange b))) (timeoutMs b)
   then transitionTo now HALF_OPEN else mret tt);;
  gets currentState.

(** resilience/circuit-breaker/state-machine.ts:31-39 recordSuccess *)
Definition recordSuccess (now : Z) : M unit :=
  state ← getState now;
  match state with
  | HALF_OPEN =>
      modify (fun b => set_counts (failureCount b) (successCount b + 1) b);; transitionTo now CLOSED
  | CLOSED => modify (fun b => set_counts (failureCount b) (successCount b + 1) b)
  | OPEN => mret tt
  end.

(** resilience/circuit-breaker/state-machine.ts:41-56 recordFailure *)
Definition recordFailure (now : Z) : M unit :=
  state ← getState now;
  modify (fun b => set_counts (failureCount b + 1) (successCount b) b);;
  b ← get_this;
  match state with
  | CLOSED =>
      let total := successCount b + failureCount b in
      if num_geb (ofZ total) (volumeThreshold b)
      then
        let failureRate := num_mul (num_div (ofZ (failureCount b)) (ofZ total)) (ofZ 100) in
        if num_geb failureRate (threshold b) then transitionTo now OPEN else mret tt
      else mret tt
  | HALF_OPEN => transitionTo now OPEN
  | OPEN => mret tt
  end.

(** resilience/circuit-breaker/state-machine.ts:58-61 canAttempt *)
Definition canAttempt (now : Z) : M bool :=
  state ← getState now; mret (state_eqb state CLOSED || state_eqb state HALF_OPEN).

(** The percentage breaker opens on a failure exactly when at least
    [volumeThreshold] results were counted since the last transition and the
    failures among them reach [threshold] percent; otherwise it stays closed
    with the failure counted. *)
Theorem rate_breaker_opens b now V P :
  currentState b = CLOSED -> volumeThreshold b = ofZ V -> threshold b = ofZ P ->
  0 <= failureCount b -> 0 <= successCount b ->
  let f := failureCount b + 1 in
  let total := successCount b + f in
  (recordFailure now b).1 =
  if (V <=? total) && (P * total <=? 100 * f)
  then Mk OPEN now 0 0 (threshold b) (timeoutMs b) (volumeThreshold b)
  else set_counts f (successCount b) b.
Proof.
  intros Hs HV HP Hf0 Hs0. cbn zeta. unfold recordFailure, getState; munfold. rewrite Hs; simpl.
  rewrite Hs; simpl. rewrite HV, HP, num_geb_Z.
  destruct (V <=? _); [simpl|done].
  assert (Qeq_bool (inject_Z (successCount b + (failureCount b + 1))) 0 = false) as Hz.
  { apply not_true_is_false. rewrite Qeq_bool_iff. intros H. change 0%Q with (inject_Z 0) in H.
    rewrite inject_Z_injective in H. lia. }
  rewrite Hz. unfold num_geb. cbn [num_mul ofZ]. unfold ofZ. rewrite num_leb_Fin.
  set (tot := successCount b + (failureCount b + 1)) in *. set (f := failureCount b + 1) in *.
  assert (Qle_bool (inject_Z P) (inject_Z f / inject_Z tot * inject_Z 100) = (P * tot <=? 100 * f)) as ->.
  { assert (0 < inject_Z tot)%Q as Ht by (change 0%Q with (inject_Z 0); rewrite <- Zlt_Qlt; lia).
    rewrite <- Qle_bool_Z. apply eq_iff_eq_true. rewrite !Qle_bool_iff, !inject_Z_mult.
    assert (inject_Z f / inject_Z tot * inject_Z 100 == inject_Z 100 * inject_Z f / inject_Z tot)%Q as ->
      by (field; lra).
    split; intros H.
    - apply (Qmult_le_compat_r _ _ (inject_Z tot)) in H; [|lra].
      assert (inject_Z 100 * inject_Z f / inject_Z tot * inject_Z tot == inject_Z 100 * inject_Z f)%Q
        as Hx by (field; lra). rewrite Hx in H. exact H.
    - apply Qle_shift_div_l; done. }
  destruct (P * tot <=? 100 * f); [|done]. unfold transitionTo; munfold. by rewrite HP, HV.
Qed.

Lemma rate_breaker_opens_witness :
  currentState (recordFailure 9 (Mk CLOSED 0 4 5 50 1000 10)).1 = OPEN.
Proof.
  rewrite (rate_breaker_opens (Mk CLOSED 0 4 5 50 1000 10) 9 10 50); simpl; reflexivity || lia || done.
Defined.

End RateBreaker.

Module CbConfig.

(** resilience/circuit-breaker/config.ts:7-14 CircuitBreakerConfig *)
Record t : Type := Mk { threshold : num; timeoutMs : num; volumeThreshold : num }.

(** resilience/circuit-breaker/config.ts:19-54 getCircuitBreakerConfig
    From the threshold, time-out (in seconds) and volume of the resilience configuration. *)
Definition getCircuitBreakerConfig (threshold timeoutS volume : num) : res exn (list (string * t)) :=
  let timeoutMs := num_mul timeoutS (ofZ 1000) in
  if num_leb threshold (ofZ 0) || num_gtb threshold (ofZ 100)
  then Throw (ValidationError "circuitBreakerThreshold")
  else if num_leb timeoutMs (ofZ 0) then Throw (ValidationError "circuitBreakerTimeout")
  else if num_leb volume (ofZ 0) then Throw (ValidationError "circuitBreakerVolumeThreshold")
  else Ok (jmap_set "default" (Mk threshold timeoutMs volume) []).

End CbConfig.
