(* ===== verification/Bulkhead.v ===== *)
(** * Bulkheads

    [resilience/bulkhead/]: the slot pool with its FIFO queue of waiters
    ([resource-pool.ts]), the bulkhead built on it, the manager, the worker
    slots of [pool-manager.ts] and the sizes of [queue-isolation.ts].

    A pending acquisition is a promise, identified here by a ticket; its three
    ways out are the grant by a [release], the time-out, and none.  Calls of
    [Bulkhead.execute] are followed through their awaits by a phase each. *)
From Stdlib Require Import Ascii QArith Qround Qpower Qabs Lqa.
From stdpp Require Import base tactics numbers list strings gmap relations.
From S2P Require Import Prelude JsNum JsValue.

Module Pool.

(** resilience/bulkhead/resource-pool.ts:3-7 WaitingAcquire *)
Record waiter : Type := Waiter { w_id : nat; w_timer : bool }.

(** resilience/bulkhead/resource-pool.ts:12-19 ResourcePool *)
Record t : Type := Mk { inUse : Z; maxSize : Z; queue : list waiter }.

(** resilience/bulkhead/resource-pool.ts:16-23 constructor *)
Definition new (maxSize : Z) : res exn t :=
  if maxSize <=? 0 then Throw (PlainError "ResourcePool maxSize must be greater than 0")
  else Ok (Mk 0 maxSize []).

(** resilience/bulkhead/resource-pool.ts:25-27 isFull *)
Definition isFull (p : t) : bool := inUse p >=? maxSize p.

(** resilience/bulkhead/resource-pool.ts:29-36 getStats
    available, inUse, total, queued *)
Definition getStats (p : t) : Z * Z * Z * Z :=
  (Z.max 0 (maxSize p - inUse p), inUse p, maxSize p, Z.of_nat (length (queue p))).

(** resilience/bulkhead/resource-pool.ts:45-79 tryAcquire
    [true]: the slot is taken; [false]: the promise waits under ticket [id]. *)
Definition tryAcquire (id : nat) (timeoutMs : Z) (p : t) : t * bool :=
  if inUse p <? maxSize p then (Mk (inUse p + 1) (maxSize p) (queue p), true)
  else (Mk (inUse p) (maxSize p) (queue p ++ [Waiter id (timeoutMs >? 0)]), false).

(** resilience/bulkhead/resource-pool.ts:54-63 tryAcquire
    The timer of a waiter fires: the first entry holding that timer leaves. *)
Fixpoint remove_timer (id : nat) (q : list waiter) : list waiter :=
  match q with
  | [] => []
  | w :: q => if w_timer w && (w_id w =? id)%nat then q else w :: remove_timer id q
  end.
Definition expire (id : nat) (p : t) : t := Mk (inUse p) (maxSize p) (remove_timer id (queue p)).

(** resilience/bulkhead/resource-pool.ts:81-94 release
    Also the ticket granted, whose promise resolves with [true]. *)
Definition release (p : t) : t * option nat :=
  if inUse p <=? 0 then (p, None)
  else
    let n := inUse p - 1 in
    match queue p with
    | [] => (Mk n (maxSize p) [], None)
    | w :: q => (Mk (n + 1) (maxSize p) q, Some (w_id w))
    end.

(** Slots never exceed the size, and nobody waits while a slot is free. *)
Definition wf (p : t) : Prop :=
  0 <= inUse p <= maxSize p /\ (queue p <> [] -> inUse p = maxSize p).

Lemma pool_new_wf n p : new n = Ok p -> wf p /\ 0 < maxSize p.
Proof. unfold new, wf. case_match; [done|]. intros [= <-]. simpl. split; [split; [lia|done]|lia]. Qed.

Lemma tryAcquire_wf id tm p : wf p -> wf (tryAcquire id tm p).1.
Proof.
  unfold tryAcquire, wf. intros [H Hq]. destruct (inUse p <? maxSize p) eqn:E; simpl.
  - split; [lia|]. intros Hne. specialize (Hq Hne). lia.
  - split; [done|]. intros _. lia.
Qed.

Lemma remove_timer_nil id q : q = [] -> remove_timer id q = [].
Proof. by intros ->. Qed.

Lemma expire_wf id p : wf p -> wf (expire id p).
Proof.
  unfold expire, wf. simpl. intros [H Hq]. split; [done|]. intros Hne. apply Hq.
  intros E. by apply Hne, remove_timer_nil.
Qed.

Lemma release_wf p : wf p -> wf (release p).1.
Proof.
  unfold release, wf. intros [H Hq]. destruct (inUse p <=? 0) eqn:E; [done|].
  destruct (queue p) as [|w q]; simpl; [split; [lia|done]|].
  specialize (Hq ltac:(done)). split; lia.
Qed.

(** The queue is first in, first out: an acquisition that waits goes last, and
    a release grants the head. *)
Lemma queue_fifo id tm p w q :
  inUse p = maxSize p -> 0 < maxSize p -> queue p = w :: q ->
  release (tryAcquire id tm p).1 =
    (Mk (inUse p) (maxSize p) (q ++ [Waiter id (tm >? 0)]), Some (w_id w)).
Proof.
  intros He Hp Hq. unfold tryAcquire, release. rewrite He, Z.ltb_irrefl. simpl. rewrite Hq. simpl.
  replace (maxSize p <=? 0) with false by lia. do 2 f_equal. lia.
Qed.

End Pool.

Module Bulkhead.

(** resilience/bulkhead/bulkhead-metrics.ts:13-20 BulkheadMetrics *)
Record metrics : Type := Metrics {
  active : Z; queued : Z; rejected : Z; totalAcquires : Z; totalReleases : Z;
}.
(** resilience/bulkhead/bulkhead-metrics.ts:55-61 reset *)
Definition zero_metrics : metrics := Metrics 0 0 0 0 0.
(** resilience/bulkhead/bulkhead-metrics.ts:22-25 recordAcquire *)
Definition m_recordAcquire (m : metrics) : metrics :=
  Metrics (active m + 1) (queued m) (rejected m) (totalAcquires m + 1) (totalReleases m).
(** resilience/bulkhead/bulkhead-metrics.ts:27-30 recordRelease *)
Definition m_recordRelease (m : metrics) : metrics :=
  Metrics (Z.max 0 (active m - 1)) (queued m) (rejected m) (totalAcquires m) (totalReleases m + 1).
(** resilience/bulkhead/bulkhead-metrics.ts:32-34 recordQueued *)
Definition m_recordQueued (m : metrics) : metrics :=
  Metrics (active m) (queued m + 1) (rejected m) (totalAcquires m) (totalReleases m).
(** resilience/bulkhead/bulkhead-metrics.ts:36-38 recordDequeued *)
Definition m_recordDequeued (m : metrics) : metrics :=
  Metrics (active m) (Z.max 0 (queued m - 1)) (rejected m) (totalAcquires m) (totalReleases m).
(** resilience/bulkhead/bulkhead-metrics.ts:40-42 recordRejection *)
Definition m_recordRejection (m : metrics) : metrics :=
  Metrics (active m) (queued m) (rejected m + 1) (totalAcquires m) (totalReleases m).

(** resilience/bulkhead/bulkhead.ts:5-9 BulkheadConfig *)
Record config : Type := Config { maxConcurrent : Z; maxQueueSize : Z; timeout : Z }.
Record partial_config : Type := Partial {
  o_maxConcurrent : option Z; o_maxQueueSize : option Z; o_timeout : option Z;
}.

(** resilience/bulkhead/bulkhead.ts:14-18 Bulkhead *)
Record t : Type := Mk { name : string; cfg : config; pool : Pool.t; met : metrics }.

(** [a || d] on an optional integer. *)
Definition or_default (a : option Z) (d : Z) : Z :=
  match a with Some z => if z =? 0 then d else z | None => d end.

(** resilience/bulkhead/bulkhead.ts:20-33 constructor *)
Definition new (name : string) (c : partial_config) : res exn t :=
  let cfg := Config (or_default (o_maxConcurrent c) 10) (or_default (o_maxQueueSize c) 50)
               (or_default (o_timeout c) 30000) in
  p ← Pool.new (maxConcurrent cfg);
  mret (Mk name cfg p zero_metrics).

(** resilience/bulkhead/bulkhead.ts:35-38 isFull *)
Definition isFull (b : t) : bool :=
  (Pool.inUse (pool b) >=? maxConcurrent (cfg b))
  && (Z.of_nat (length (Pool.queue (pool b))) >=? maxQueueSize (cfg b)).

(** resilience/bulkhead/bulkhead.ts:40-49 getStats
    active, queued, total, rejected, totalAcquires, totalReleases *)
Definition getStats (b : t) : Z * Z * Z * Z * Z * Z :=
  (Pool.inUse (pool b), Z.of_nat (length (Pool.queue (pool b))), maxConcurrent (cfg b),
   rejected (met b), totalAcquires (met b), totalReleases (met b)).

Definition set_pool (p : Pool.t) (b : t) : t := Mk (name b) (cfg b) p (met b).
Definition on_metrics (f : metrics -> metrics) (b : t) : t := Mk (name b) (cfg b) (pool b) (f (met b)).

(** resilience/bulkhead/bulkhead.ts:87-89 reset *)
Definition reset (b : t) : t := on_metrics (fun _ => zero_metrics) b.

(** ** [execute], call by call *)

(** Where a call stands: its acquisition waits, was granted or has timed out
    without the call having resumed yet, or its operation runs. *)
Inductive phase : Type := Waiting | Won | Lost | Running.
#[global] Instance phase_eq_dec : EqDecision phase.
Proof. solve_decision. Defined.

(** A bulkhead with the calls in progress, by ticket. *)
Record sys : Type := Sys { bh : t; calls : list (nat * phase) }.

(** resilience/bulkhead/bulkhead.ts:54-67 execute
    Up to the [await] of the acquisition; the error is the rejection. *)
Definition exec_begin (id : nat) (overrideTimeoutMs : option Z) (s : sys) : sys * res exn unit :=
  let b := bh s in
  if isFull b
  then (Sys (on_metrics m_recordRejection b) (calls s), Throw (BulkheadFullError (name b)))
  else
    let timeoutMs := default (timeout (cfg b)) overrideTimeoutMs in
    let b := on_metrics m_recordQueued b in
    let '(p, granted) := Pool.tryAcquire id timeoutMs (pool b) in
    (Sys (set_pool p b) (jmap_set id (if granted then Won else Waiting) (calls s)), Ok tt).

(** resilience/bulkhead/bulkhead.ts:68-80 execute
    The [await] returns: the operation starts, or the call is rejected. *)
Definition exec_resume (id : nat) (acquired : bool) (s : sys) : sys * res exn unit :=
  let b := on_metrics m_recordDequeued (bh s) in
  if acquired
  then (Sys (on_metrics m_recordAcquire b) (jmap_set id Running (calls s)), Ok tt)
  else (Sys (on_metrics m_recordRejection b) (jmap_delete id (calls s)),
        Throw (BulkheadFullError (name b))).

(** resilience/bulkhead/bulkhead.ts:79-84 execute
    The operation settled, whatever its outcome: the [finally] block. *)
Definition exec_finish (id : nat) (s : sys) : sys :=
  let '(p, granted) := Pool.release (pool (bh s)) in
  let b := on_metrics m_recordRelease (set_pool p (bh s)) in
  let calls := jmap_delete id (calls s) in
  Sys b (match granted with Some w => jmap_set w Won calls | None => calls end).

(** The timer of a waiting call fires. *)
Definition exec_expire (id : nat) (s : sys) : sys :=
  Sys (set_pool (Pool.expire id (pool (bh s))) (bh s)) (jmap_set id Lost (calls s)).

(** The steps of the event loop: a new call under a fresh ticket, the
    resumption of a call whose acquisition settled, the end of an operation, a
    time-out of a waiter that has a timer. *)
Inductive step : sys -> sys -> Prop :=
| step_begin id tm s : jmap_get id (calls s) = None -> step s (exec_begin id tm s).1
| step_won id s : jmap_get id (calls s) = Some Won -> step s (exec_resume id true s).1
| step_lost id s : jmap_get id (calls s) = Some Lost -> step s (exec_resume id false s).1
| step_finish id s : jmap_get id (calls s) = Some Running -> step s (exec_finish id s)
| step_expire id s :
    jmap_get id (calls s) = Some Waiting -> Pool.Waiter id true ∈ Pool.queue (pool (bh s)) ->
    step s (exec_expire id s).

Definition is_phase (p : phase) (q : phase) : bool :=
  match p, q with
  | Waiting, Waiting | Won, Won | Lost, Lost | Running, Running => true
  | _, _ => false
  end.
Definition n_phase (p : phase) (s : sys) : Z := jmap_count (is_phase p) (calls s).

(** The invariant of the system. *)
Record inv (s : sys) : Prop := Inv {
  inv_pool : Pool.wf (pool (bh s));
  inv_size : Pool.maxSize (pool (bh s)) = maxConcurrent (cfg (bh s));
  inv_slots : Pool.inUse (pool (bh s)) = n_phase Won s + n_phase Running s;
  inv_bound : Z.of_nat (length (Pool.queue (pool (bh s)))) <= Z.max 0 (maxQueueSize (cfg (bh s)));
  inv_queue : forall id, id ∈ map Pool.w_id (Pool.queue (pool (bh s))) <->
                         jmap_get id (calls s) = Some Waiting;
  inv_nodup : NoDup (map Pool.w_id (Pool.queue (pool (bh s))));
  inv_calls : NoDup (map fst (calls s));
  inv_active : active (met (bh s)) = n_phase Running s;
  inv_queued : queued (met (bh s)) = n_phase Waiting s + n_phase Won s + n_phase Lost s;
  inv_total : totalAcquires (met (bh s)) = totalReleases (met (bh s)) + n_phase Running s;
}.

Lemma n_phase_set p id q b l :
  n_phase p (Sys b (jmap_set id q l)) =
  jmap_count (is_phase p) l + (if is_phase p q then 1 else 0)
  - match jmap_get id l with Some q0 => if is_phase p q0 then 1 else 0 | None => 0 end.
Proof. apply jmap_count_set. Qed.

Lemma n_phase_delete p id b l :
  n_phase p (Sys b (jmap_delete id l)) =
  jmap_count (is_phase p) l
  - match jmap_get id l with Some q0 => if is_phase p q0 then 1 else 0 | None => 0 end.
Proof. apply jmap_count_delete. Qed.

(** Solve the counting equations of a step that changes one call's phase. *)
Ltac count_tac H :=
  rewrite ?n_phase_set, ?n_phase_delete; unfold n_phase in *; rewrite ?H; simpl in *; lia.

Lemma inv_nonneg s : 0 <= n_phase Waiting s /\ 0 <= n_phase Won s /\ 0 <= n_phase Lost s /\ 0 <= n_phase Running s.
Proof. unfold n_phase. auto using jmap_count_nonneg. Qed.

Lemma get_set_iff (id x : nat) (q : phase) l (P : Prop) :
  (x = id -> (q = Waiting <-> P)) -> (x <> id -> (jmap_get x l = Some Waiting <-> P)) ->
  (jmap_get x (jmap_set id q l) = Some Waiting <-> P).
Proof.
  intros H1 H2. destruct (decide (x = id)) as [->|Hne].
  - rewrite jmap_get_set_eq. rewrite <- (H1 eq_refl). naive_solver.
  - rewrite jmap_get_set_ne by done. by apply H2.
Qed.

Lemma begin_inv id tm s :
  jmap_get id (calls s) = None -> inv s -> inv (exec_begin id tm s).1.
Proof.
  intros Hid [Hp Hsz Hsl Hb Hq Hnd Hc Ha Hqd Ht]. unfold exec_begin.
  destruct (isFull (bh s)) eqn:Hf; [by constructor|].
  unfold isFull in Hf. rewrite <- Hsz in Hf.
  unfold on_metrics, set_pool. cbn [pool name cfg met].
  pose proof (Pool.tryAcquire_wf id (default (timeout (cfg (bh s))) tm) _ Hp) as Hp'.
  unfold Pool.tryAcquire in *.
  destruct (Pool.inUse (pool (bh s)) <? Pool.maxSize (pool (bh s))) eqn:E; simpl in *.
  - constructor; simpl; try done; try (by count_tac Hid).
    + intros x. rewrite Hq. symmetry. apply get_set_iff; [|done]. intros ->. rewrite Hid. naive_solver.
    + by apply jmap_set_NoDup.
  - assert (id ∉ map Pool.w_id (Pool.queue (pool (bh s)))) as Hnin by (rewrite Hq, Hid; done).
    constructor; simpl; try done; try (by count_tac Hid).
    + rewrite length_app; simpl. apply andb_false_iff in Hf. lia.
    + intros x. rewrite map_app, elem_of_app; simpl. rewrite list_elem_of_singleton, Hq. symmetry.
      apply get_set_iff; [naive_solver|]. naive_solver.
    + rewrite map_app. apply NoDup_app. split; [done|]. split; [|apply NoDup_singleton].
      intros x Hx ->%list_elem_of_singleton. done.
    + by apply jmap_set_NoDup.
Qed.

Lemma resume_inv id (acq : bool) s :
  jmap_get id (calls s) = Some (if acq then Won else Lost) -> inv s -> inv (exec_resume id acq s).1.
Proof.
  intros Hid Hinv. pose proof (inv_nonneg s) as Hnn. destruct Hinv as [Hp Hsz Hsl Hb Hq Hnd Hc Ha Hqd Ht].
  assert (0 < n_phase (if acq then Won else Lost) s) as Hpos.
  { unfold n_phase. apply jmap_count_pos with id (if acq then Won else Lost); [done|by destruct acq]. }
  unfold exec_resume. destruct acq; constructor; simpl; try done; try (by count_tac Hid).
  - intros x. rewrite Hq. symmetry. apply get_set_iff; [|done]. intros ->. rewrite Hid. naive_solver.
  - by apply jmap_set_NoDup.
  - intros x. rewrite Hq. destruct (decide (x = id)) as [->|Hne]; [|by rewrite jmap_get_delete_ne].
    destruct (jmap_delete_NoDup id (calls s) Hc) as [_ ->]. rewrite Hid. naive_solver.
  - by apply jmap_delete_NoDup.
Qed.

Lemma remove_timer_ids id q :
  NoDup (map Pool.w_id q) -> Pool.Waiter id true ∈ q ->
  NoDup (map Pool.w_id (Pool.remove_timer id q)) /\
  (forall x, x ∈ map Pool.w_id (Pool.remove_timer id q) <-> x ∈ map Pool.w_id q /\ x <> id) /\
  (length (Pool.remove_timer id q) <= length q)%nat.
Proof.
  induction q as [|[i tm] q IH]; [by intros _ H%not_elem_of_nil|].
  intros [Hnin Hnd]%NoDup_cons Hin. simpl in *.
  destruct (tm && (i =? id)%nat) eqn:E.
  - apply andb_true_iff in E as [-> ->%Nat.eqb_eq]. split; [done|]. split; [|lia].
    intros x. rewrite elem_of_cons. naive_solver.
  - apply elem_of_cons in Hin as [[= <- <-]|Hin]; [by rewrite Nat.eqb_refl in E|].
    destruct (IH Hnd Hin) as (H1 & H2 & H3). simpl. split; [|split; [|lia]].
    + constructor; [|done]. rewrite H2. naive_solver.
    + intros x. rewrite !elem_of_cons, H2. assert (i <> id); [|naive_solver].
      intros ->. apply Hnin. apply list_elem_of_fmap. by exists (Pool.Waiter id true).
Qed.

Lemma expire_inv id s :
  jmap_get id (calls s) = Some Waiting -> Pool.Waiter id true ∈ Pool.queue (pool (bh s)) ->
  inv s -> inv (exec_expire id s).
Proof.
  intros Hid Hin Hinv. destruct Hinv as [Hp Hsz Hsl Hb Hq Hnd Hc Ha Hqd Ht].
  destruct (remove_timer_ids id _ Hnd Hin) as (H1 & H2 & H3).
  pose proof (Pool.expire_wf id _ Hp) as Hp'.
  unfold exec_expire, set_pool. constructor; simpl; try done; try (by count_tac Hid); try lia.
  - intros x. rewrite H2, Hq. symmetry. apply get_set_iff; naive_solver.
  - by apply jmap_set_NoDup.
Qed.

Lemma finish_inv id s :
  jmap_get id (calls s) = Some Running -> inv s -> inv (exec_finish id s).
Proof.
  intros Hid Hinv. pose proof (inv_nonneg s) as Hnn. destruct Hinv as [Hp Hsz Hsl Hb Hq Hnd Hc Ha Hqd Ht].
  assert (0 < n_phase Running s) as Hpos.
  { unfold n_phase. by apply jmap_count_pos with id Running. }
  pose proof (Pool.release_wf _ Hp) as Hp'.
  destruct (jmap_delete_NoDup id (calls s) Hc) as [Hc' Hg'].
  unfold exec_finish, Pool.release in *. replace (_ <=? 0) with false in * by lia.
  destruct (Pool.queue (pool (bh s))) as [|w q] eqn:Eq; simpl in *.
  - constructor; simpl; try done; try (by count_tac Hid).
    intros x. rewrite Hq. destruct (decide (x = id)) as [->|Hne]; [|by rewrite jmap_get_delete_ne].
    rewrite Hg', Hid. naive_solver.
  - assert (jmap_get (Pool.w_id w) (calls s) = Some Waiting) as Hw by (apply Hq; left).
    assert (Pool.w_id w <> id) as Hwne by (intros E; rewrite E in Hw; congruence).
    apply NoDup_cons in Hnd as [Hwn Hnd].
    assert (jmap_get (Pool.w_id w) (jmap_delete id (calls s)) = Some Waiting) as Hw'
      by (by rewrite jmap_get_delete_ne).
    assert (forall p b, n_phase p (Sys b (jmap_set (Pool.w_id w) Won (jmap_delete id (calls s)))) =
      n_phase p s + (if is_phase p Won then 1 else 0) - (if is_phase p Running then 1 else 0)
        - (if is_phase p Waiting then 1 else 0)) as Hcount.
    { intros p b. rewrite n_phase_set, Hw', jmap_count_delete, Hid. unfold n_phase. lia. }
    constructor; simpl; rewrite ?Hcount; simpl; try done; try lia.
    + intros x. symmetry. apply get_set_iff; [intros ->; naive_solver|]. intros Hne.
      destruct (decide (x = id)) as [->|Hne'].
      * rewrite Hg'. specialize (Hq id). rewrite elem_of_cons, Hid in Hq. naive_solver.
      * rewrite jmap_get_delete_ne by done. rewrite <- Hq, elem_of_cons. naive_solver.
    + by apply jmap_set_NoDup.
Qed.

Lemma step_inv s s' : step s s' -> inv s -> inv s'.
Proof.
  intros []; eauto using begin_inv, finish_inv, expire_inv; by apply resume_inv.
Qed.

Lemma new_inv n c b : new n c = Ok b -> inv (Sys b []).
Proof.
  unfold new, mbind, res_bind. destruct (Pool.new _) as [p|] eqn:Hp; [|done]. intros [= <-].
  destruct (Pool.pool_new_wf _ _ Hp). unfold Pool.new in Hp. case_match; [done|]. injection Hp as <-.
  constructor; simpl; try done; try lia; try (by constructor).
  intros id. split; [by intros H'%not_elem_of_nil|done].
Qed.

(** C9: in every interleaving of calls, grants, time-outs and completions, at
    most [maxConcurrent] operations hold a slot (and the slots in use are
    exactly those of the running calls and of the granted ones about to run),
    the wait queue never exceeds [maxQueueSize], nobody waits while a slot is
    free, and the metrics agree with the calls in progress; once every call
    has ended no slot, queue entry or gauge is left behind. *)
Theorem bulkhead_invariant n c b s :
  new n c = Ok b -> rtc step (Sys b []) s ->
  n_phase Running s + n_phase Won s <= maxConcurrent (cfg (bh s)) /\
  Pool.inUse (pool (bh s)) = n_phase Won s + n_phase Running s /\
  Z.of_nat (length (Pool.queue (pool (bh s)))) <= Z.max 0 (maxQueueSize (cfg (bh s))) /\
  (Pool.queue (pool (bh s)) <> [] -> Pool.inUse (pool (bh s)) = maxConcurrent (cfg (bh s))) /\
  active (met (bh s)) = n_phase Running s /\
  (calls s = [] ->
     Pool.inUse (pool (bh s)) = 0 /\ Pool.queue (pool (bh s)) = [] /\
     active (met (bh s)) = 0 /\ queued (met (bh s)) = 0 /\
     totalAcquires (met (bh s)) = totalReleases (met (bh s))).
Proof.
  intros Hn H. assert (inv s) as [Hp Hsz Hsl Hb Hq Hnd Hc Ha Hqd Ht].
  { apply new_inv in Hn. induction H; [done|]. eauto using step_inv. }
  destruct Hp as [Hle Hfull]. rewrite Hsz in *.
  split; [lia|]. split; [done|]. split; [done|]. split; [done|]. split; [done|].
  intros Hnil. unfold n_phase in *. rewrite Hnil in *. simpl in *.
  split; [lia|]. split; [|lia].
  destruct (Pool.queue (pool (bh s))) as [|w q] eqn:E; [done|].
  destruct (Hq (Pool.w_id w)) as [Hx _]. specialize (Hx ltac:(by left)). done.
Qed.

Definition sample : t := Mk "b" (Config 1 1 30000) (Pool.Mk 0 1 []) zero_metrics.
Definition sample_busy : sys :=
  (exec_begin 2 None (exec_resume 1 true (exec_begin 1 None (Sys sample [])).1).1).1.

Lemma bulkhead_invariant_witness :
  Pool.inUse (pool (bh (exec_finish 1 sample_busy))) = 1 /\
  n_phase Running (exec_finish 1 sample_busy) + n_phase Won (exec_finish 1 sample_busy) <= 1.
Proof.
  destruct (bulkhead_invariant "b" (Partial (Some 1) (Some 1) None) sample (exec_finish 1 sample_busy))
    as (Hb & Hs & _).
  - reflexivity.
  - eapply rtc_l; [by apply (step_begin 1 None)|]. eapply rtc_l; [by apply (step_won 1)|].
    eapply rtc_l; [by apply (step_begin 2 None)|]. eapply rtc_l; [by apply (step_finish 1)|].
    apply rtc_refl.
  - split; [exact Hs|exact Hb].
Defined.

(** A call is rejected at once exactly when every slot is in use and the
    wait queue is full; the rejection is counted and changes nothing else.
    Otherwise it starts right away if a slot is free, and waits at the end of
    the queue if not. *)
Theorem exec_begin_outcome id tm s :
  inv s -> jmap_get id (calls s) = None ->
  (exec_begin id tm s).2 =
    (if isFull (bh s) then Throw (BulkheadFullError (name (bh s))) else Ok tt) /\
  (isFull (bh s) = true ->
     pool (bh (exec_begin id tm s).1) = pool (bh s) /\ calls (exec_begin id tm s).1 = calls s /\
     rejected (met (bh (exec_begin id tm s).1)) = rejected (met (bh s)) + 1) /\
  (isFull (bh s) = false ->
     jmap_get id (calls (exec_begin id tm s).1) =
       Some (if Pool.inUse (pool (bh s)) <? maxConcurrent (cfg (bh s)) then Won else Waiting) /\
     Pool.queue (pool (bh (exec_begin id tm s).1)) =
       Pool.queue (pool (bh s)) ++
       if Pool.inUse (pool (bh s)) <? maxConcurrent (cfg (bh s)) then []
       else [Pool.Waiter id (default (timeout (cfg (bh s))) tm >? 0)]).
Proof.
  intros Hinv Hid. destruct Hinv as [_ Hsz _ _ _ _ _ _ _ _]. rewrite <- Hsz. unfold exec_begin.
  destruct (isFull (bh s)); [by repeat split|].
  unfold Pool.tryAcquire; simpl.
  destruct (_ <? _); simpl; (split; [done|]; split; [done|]; intros _);
    by rewrite jmap_get_set_eq, ?app_nil_r.
Qed.

Lemma exec_begin_outcome_witness :
  (exec_begin 3 None sample_busy).2 = Throw (BulkheadFullError "b").
Proof.
  refine (proj1 (exec_begin_outcome 3 None sample_busy _ _)); [|reflexivity].
  unfold sample_busy. apply begin_inv; [reflexivity|]. apply resume_inv; [reflexivity|].
  apply begin_inv; [reflexivity|]. apply (new_inv "b" (Partial (Some 1) (Some 1) None)). reflexivity.
Defined.

(** *** Grants are first come, first served *)

Fixpoint releases (n : nat) (p : Pool.t) : Pool.t * list nat :=
  match n with
  | O => (p, [])
  | S n => let '(p, g) := Pool.release p in
           let '(p, l) := releases n p in
           (p, match g with Some id => id :: l | None => l end)
  end.
Definition arrivals (ids : list nat) (p : Pool.t) : Pool.t :=
  fold_left (fun p id => (Pool.tryAcquire id 30000 p).1) ids p.

Lemma arrivals_full ids p :
  Pool.inUse p = Pool.maxSize p ->
  arrivals ids p = Pool.Mk (Pool.inUse p) (Pool.maxSize p)
    (Pool.queue p ++ map (fun id => Pool.Waiter id true) ids).
Proof.
  revert p. induction ids as [|id ids IH]; intros p Hp; simpl.
  - rewrite app_nil_r. by destruct p.
  - change (arrivals (id :: ids) p) with (arrivals ids (Pool.tryAcquire id 30000 p).1).
    unfold Pool.tryAcquire. rewrite Hp, Z.ltb_irrefl. simpl.
    rewrite (IH (Pool.Mk _ _ _)) by done. simpl. by rewrite <- app_assoc.
Qed.

(** The pool is fair: with every slot taken, the requests that arrive are
    granted strictly in their order of arrival, after those already waiting,
    one per release, and the slots stay all in use while anyone waits. *)
Theorem pool_fifo p ids n :
  Pool.inUse p = Pool.maxSize p -> 0 < Pool.maxSize p ->
  (n <= length (Pool.queue p) + length ids)%nat ->
  (releases n (arrivals ids p)).2 = take n (map Pool.w_id (Pool.queue p) ++ ids) /\
  Pool.inUse (releases n (arrivals ids p)).1 = Pool.maxSize p.
Proof.
  intros Hf Hpos Hn. rewrite arrivals_full by done. rewrite Hf.
  set (q := Pool.queue p ++ map (fun id => Pool.Waiter id true) ids).
  assert (map Pool.w_id (Pool.queue p) ++ ids = map Pool.w_id q) as ->.
  { unfold q. rewrite map_app, map_map. simpl. by rewrite map_id. }
  assert (n <= length q)%nat as Hq by (unfold q; rewrite length_app, length_map; lia).
  clearbody q. clear Hn Hf ids. generalize dependent (Pool.maxSize p). intros m Hpos.
  revert q Hq. induction n as [|n IH]; intros q Hq; [by destruct q|].
  destruct q as [|w q]; simpl in Hq; [lia|].
  assert (Pool.release (Pool.Mk m m (w :: q)) = (Pool.Mk m m q, Some (Pool.w_id w))) as Hr.
  { unfold Pool.release; simpl. replace (m <=? 0) with false by lia. do 2 f_equal. lia. }
  cbn [releases]. rewrite Hr. destruct (IH q ltac:(lia)) as [H1 H2].
  destruct (releases n (Pool.Mk m m q)) as [p' l]; simpl in *. by rewrite H1.
Qed.

Lemma pool_fifo_witness :
  (releases 2 (arrivals [8%nat; 9%nat] (Pool.Mk 1 1 [Pool.Waiter 7 true]))).2 = [7%nat; 8%nat].
Proof. apply (pool_fifo (Pool.Mk 1 1 [Pool.Waiter 7 true]) [8%nat; 9%nat] 2); simpl; lia. Defined.

End Bulkhead.

(** ** The registry of bulkheads *)

Module BulkheadManager.

(** resilience/bulkhead/bulkhead-manager.ts:7-14 BulkheadManager
    The bulkhead section of the configuration, if any. *)
Record t : Type := Mk { bulkheads : list (string * Bulkhead.t); config : Bulkhead.partial_config }.
Abbreviation M := (meth t exn).

Definition or_else {A} (a b : option A) : option A := match a with Some _ => a | None => b end.

(** resilience/bulkhead/bulkhead-manager.ts:41-58 createBulkhead *)
Definition createBulkhead (name : string) (mc mq : option Z) (ov : Bulkhead.partial_config)
    : M Bulkhead.t :=
  m ← get_this;
  let base := Bulkhead.Partial
    (Some (default 20 (or_else mc (Bulkhead.o_maxConcurrent (config m)))))
    (Some (default 100 (or_else mq (Bulkhead.o_maxQueueSize (config m)))))
    (Some (default 30000 (Bulkhead.o_timeout (config m)))) in
  let c := Bulkhead.Partial
    (or_else (Bulkhead.o_maxConcurrent ov) (Bulkhead.o_maxConcurrent base))
    (or_else (Bulkhead.o_maxQueueSize ov) (Bulkhead.o_maxQueueSize base))
    (or_else (Bulkhead.o_timeout ov) (Bulkhead.o_timeout base)) in
  b ← lift_res (Bulkhead.new name c);
  modify (fun m => Mk (jmap_set name b (bulkheads m)) (config m));;
  mret b.

Definition no_override : Bulkhead.partial_config := Bulkhead.Partial None None None.

(** resilience/bulkhead/bulkhead-manager.ts:10-20 constructor *)
Definition new (c : Bulkhead.partial_config) : t * res exn unit :=
  (createBulkhead "WEBHOOK" (Some 20) (Some 100) no_override;;
   createBulkhead "DATABASE" (Some 50) (Some 200) no_override;;
   createBulkhead "QUEUE" (Some 30) (Some 150) no_override;;
   createBulkhead "AUDIT" (Some 10) (Some 50) no_override;; mret tt) (Mk [] c).

(** resilience/bulkhead/bulkhead-manager.ts:22-28 getBulkhead *)
Definition getBulkhead (name : string) : M Bulkhead.t :=
  m ← get_this;
  match jmap_get name (bulkheads m) with
  | Some b => mret b
  | None => createBulkhead name None None no_override
  end.

Definition set_bulkhead (name : string) (b : Bulkhead.t) : M unit :=
  modify (fun m => Mk (jmap_set name b (bulkheads m)) (config m)).

(** resilience/bulkhead/bulkhead-manager.ts:30-34 acquire
    Up to the [await] of the pool: whether the slot is granted at once. *)
Definition acquire (ticket : nat) (name : string) (timeoutMs : option Z) : M bool :=
  b ← getBulkhead name;
  let tm := Bulkhead.or_default timeoutMs (Bulkhead.timeout (Bulkhead.cfg b)) in
  let '(p, granted) := Pool.tryAcquire ticket tm (Bulkhead.pool b) in
  set_bulkhead name (Bulkhead.set_pool p b);; mret granted.

(** resilience/bulkhead/bulkhead-manager.ts:36-39 release *)
Definition release (name : string) : M unit :=
  b ← getBulkhead name;
  set_bulkhead name (Bulkhead.set_pool (Pool.release (Bulkhead.pool b)).1 b).

(** resilience/bulkhead/bulkhead-manager.ts:60-62 getAll *)
Definition getAll (m : t) : list Bulkhead.t := map snd (bulkheads m).

(** resilience/bulkhead/bulkhead-manager.ts:64-70 getStats *)
Definition getStats (m : t) : list (string * (Z * Z * Z * Z * Z * Z)) :=
  map (fun '(n, b) => (n, Bulkhead.getStats b)) (bulkheads m).

(** The construction succeeds, whatever the configuration, with the four
    standard pools at their sizes. *)
Lemma new_ok c :
  (new c).2 = Ok tt /\
  map (fun '(n, b) => (n, Bulkhead.maxConcurrent (Bulkhead.cfg b), Bulkhead.maxQueueSize (Bulkhead.cfg b)))
      (bulkheads (new c).1) =
  [("WEBHOOK", 20, 100); ("DATABASE", 50, 200); ("QUEUE", 30, 150); ("AUDIT", 10, 50)]
  /\ config (new c).1 = c.
Proof. done. Qed.

End BulkheadManager.

(** ** Worker slots *)

Module PoolManager.

(** resilience/bulkhead/pool-manager.ts:6-12 PoolManager *)
Record t : Type := Mk { poolName : string; maxSize : Z; activeWorkers : gset string }.
Abbreviation M := (meth t exn).

Definition n_active (p : t) : Z := Z.of_nat (size (activeWorkers p)).

(** resilience/bulkhead/pool-manager.ts:14-16 getAvailableSlots *)
Definition getAvailableSlots (p : t) : Z := Z.max 0 (maxSize p - n_active p).

(** resilience/bulkhead/pool-manager.ts:21-32 acquire *)
Definition acquire (workerId : string) : M unit :=
  p ← get_this;
  if decide (workerId ∈ activeWorkers p) then mret tt
  else if n_active p >=? maxSize p then fail (PoolExhaustedError (poolName p))
  else modify (fun p => Mk (poolName p) (maxSize p) ({[ workerId ]} ∪ activeWorkers p)).

(** resilience/bulkhead/pool-manager.ts:37-39 release *)
Definition release (workerId : string) : M unit :=
  modify (fun p => Mk (poolName p) (maxSize p) (activeWorkers p ∖ {[ workerId ]})).

(** resilience/bulkhead/pool-manager.ts:44-60 getStats
    maxSize, available, active, utilization *)
Definition getStats (p : t) : Z * Z * Z * num :=
  (maxSize p, getAvailableSlots p, n_active p,
   if maxSize p >? 0 then num_mul (num_div (ofZ (n_active p)) (ofZ (maxSize p))) (ofZ 100)
   else ofZ 0).

Inductive op : Type := OpAcquire (w : string) | OpRelease (w : string).
Definition run_op (o : op) (p : t) : t :=
  match o with OpAcquire w => (acquire w p).1 | OpRelease w => (release w p).1 end.
Inductive step : t -> t -> Prop := step_op o p : step p (run_op o p).

Lemma acquire_cases w p :
  acquire w p =
  if decide (w ∈ activeWorkers p) then (p, Ok tt)
  else if n_active p >=? maxSize p then (p, Throw (PoolExhaustedError (poolName p)))
  else (Mk (poolName p) (maxSize p) ({[ w ]} ∪ activeWorkers p), Ok tt).
Proof. unfold acquire; munfold. repeat case_match; done. Qed.

(** Worker slots. A pool never holds more workers than its size, a worker
    holds one slot however often it acquires it, an acquisition is refused
    exactly when the pool is full of other workers, and after a release the
    worker's slot is available to any other. *)
Theorem pool_manager_correct name n p w :
  0 <= n -> rtc step (Mk name n ∅) p ->
  n_active p <= n /\ maxSize p = n /\
  (acquire w (acquire w p).1).1 = (acquire w p).1 /\
  ((acquire w p).2 = Throw (PoolExhaustedError (poolName p)) <->
     w ∉ activeWorkers p /\ n_active p = n) /\
  (w ∈ activeWorkers p ->
     n_active (release w p).1 = n_active p - 1 /\
     forall w', (acquire w' (release w p).1).2 = Ok tt).
Proof.
  intros Hn H.
  assert (n_active p <= n /\ maxSize p = n) as [Hle Hsz].
  { remember (Mk name n ∅) as p0 eqn:E.
    assert (n_active p0 <= n /\ maxSize p0 = n) as Hp0.
    { subst. unfold n_active; cbn [activeWorkers maxSize]. rewrite size_empty. lia. }
    clear E. induction H as [|x y z [o s] _ IH]; [done|]. apply IH. clear IH.
    destruct Hp0 as [Hle Hsz]. destruct o as [v|v]; cbn [run_op].
    - rewrite acquire_cases. destruct (decide _); [done|].
      destruct (n_active s >=? maxSize s) eqn:Ec; [done|]. unfold n_active in *; simpl.
      split; [|done]. rewrite size_union_alt, size_singleton.
      pose proof (subseteq_size (activeWorkers s ∖ {[v]}) (activeWorkers s) ltac:(set_solver)). lia.
    - unfold release; munfold. unfold n_active in *; simpl. split; [|done].
      pose proof (subseteq_size (activeWorkers s ∖ {[v]}) (activeWorkers s) ltac:(set_solver)). lia. }
  split; [done|]. split; [done|].
  split; [|split].
  - rewrite (acquire_cases w p). destruct (decide (w ∈ activeWorkers p)).
    + simpl. rewrite acquire_cases. by rewrite decide_True.
    + destruct (_ >=? _) eqn:Ec; simpl; rewrite acquire_cases; simpl.
      * by rewrite decide_False, Ec.
      * rewrite decide_True by set_solver. done.
  - rewrite acquire_cases, Hsz. destruct (decide _); [naive_solver|].
    destruct (n_active p >=? n) eqn:Ec; simpl.
    + split; [|done]. intros _. split; [done|lia].
    + split; [done|]. intros [_ ?]. lia.
  - intros Hin. unfold release; munfold. unfold n_active in *; simpl.
    assert (size (activeWorkers p ∖ {[w]}) = size (activeWorkers p) - 1)%nat as Hs.
    { rewrite size_difference by set_solver. by rewrite size_singleton. }
    pose proof (subseteq_size {[w]} (activeWorkers p) ltac:(set_solver)) as Hw.
    rewrite size_singleton in Hw.
    split; [lia|]. intros w'. rewrite acquire_cases; simpl. destruct (decide _); [done|].
    unfold n_active; simpl. by replace (_ >=? maxSize p) with false by lia.
Qed.

Definition sample_pool : t := (acquire "w1" (Mk "p" 1 ∅)).1.

Lemma pool_manager_correct_witness :
  (acquire "w2" sample_pool).2 = Throw (PoolExhaustedError (poolName sample_pool)).
Proof.
  destruct (pool_manager_correct "p" 1 sample_pool "w2") as (_ & _ & _ & [_ Hr] & _); [lia| |].
  - eapply rtc_l; [apply (step_op (OpAcquire "w1"))|apply rtc_refl].
  - apply Hr. split; [|reflexivity]. refine (bool_decide_unpack _ _). vm_compute. exact I.
Defined.

End PoolManager.

Module QueueIsolation.

(** resilience/bulkhead/queue-isolation.ts:7-29 configureQueueIsolation
    From the three pool sizes of the configuration; poolSize and concurrency by type. *)
Definition configureQueueIsolation (webhookSize dbSize queueSize : num)
    : res exn (list (string * (num * num))) :=
  if num_leb webhookSize (ofZ 0) || num_leb dbSize (ofZ 0) || num_leb queueSize (ofZ 0)
  then Throw (ValidationError "bulkheadPoolSize")
  else Ok (jmap_set "AUDIT" (ofZ 3, ofZ 3) (jmap_set "QUEUE" (queueSize, queueSize)
             (jmap_set "DATABASE" (dbSize, dbSize) (jmap_set "WEBHOOK" (webhookSize, webhookSize) [])))).

End QueueIsolation.
