(* ===== verification/Backpressure.v ===== *)
(** * Backpressure

    [resilience/backpressure/]: queue depth and pressure levels
    ([queue-monitor.ts]), the choice of the jobs to shed
    ([shedding-strategy.ts]), the monitor, the alarm history, the adaptive
    concurrency limiter and the handler of [index.ts].

    The job counts come from the queue service: each call that reads them is
    given what that read returned. *)
From Stdlib Require Import Ascii QArith Qround Qpower Qabs Lqa Sorting.Sorted.
From stdpp Require Import base tactics numbers list strings relations.
From S2P Require Import Prelude JsNum JsValue RetryStrategy.

Module QueueMonitor.

(** The configuration fields the backpressure code reads; [None] is [undefined]. *)
Record config : Type := Config {
  backpressureQueueDepthThreshold : option num;
  queueDepthThreshold : option num;
  backpressureAlarmThreshold : option num;
  backpressureSheddingStrategy : string;
}.

(** Job counts as the queue reports them, absent counts being [None]. *)
Record counts : Type := Counts {
  c_waiting : option Z; c_active : option Z; c_delayed : option Z; c_failed : option Z;
}.
(** What a read of the queue gives: counts, no such method, or an error. *)
Inductive reading : Type := Counted (c : counts) | NoQueue | Failed (e : jsval).

(** resilience/backpressure/queue-monitor.ts:1-8 QueueStats *)
Record stats : Type := Stats {
  s_main : Z; s_delayed : Z; s_dlq : Z;
  s_active : option Z; s_waiting : option Z; s_failed : option Z;
}.

(** resilience/backpressure/queue-monitor.ts:13-20 QueueMonitor *)
Record t : Type := Mk { lastDepth : Z; cfg : config }.
Abbreviation M := (meth t exn).

(** resilience/backpressure/queue-monitor.ts:25-45 getQueueStats *)
Definition getQueueStats (r : reading) (m : t) : stats :=
  match r with
  | Counted c =>
      let w := default 0 (c_waiting c) in let a := default 0 (c_active c) in
      let d := default 0 (c_delayed c) in let f := default 0 (c_failed c) in
      Stats (w + a + d) d f (Some a) (Some w) (Some f)
  | NoQueue | Failed _ => Stats (lastDepth m) 0 0 None None None
  end.

(** resilience/backpressure/queue-monitor.ts:50-54 getQueueDepth *)
Definition getQueueDepth (r : reading) : M Z :=
  m ← get_this;
  let st := getQueueStats r m in
  modify (fun m => Mk (s_main st) (cfg m));;
  mret (s_main st).

(** resilience/backpressure/queue-monitor.ts:59-61 getDepth *)
Definition getDepth (r : reading) : M Z := getQueueDepth r.

Definition num_or_opt (a : option num) (b : num) : num :=
  match a with Some n => num_or n b | None => b end.
Definition depth_threshold (c : config) : num :=
  num_or_opt (backpressureQueueDepthThreshold c) (num_or_opt (queueDepthThreshold c) (ofZ 1000)).

(** resilience/backpressure/queue-monitor.ts:67-72 getPercentageOfMax *)
Definition getPercentageOfMax (r : reading) : M num :=
  depth ← getQueueDepth r;
  m ← get_this;
  let threshold := depth_threshold (cfg m) in
  if num_leb threshold (ofZ 0) then mret (ofZ 0)
  else mret (num_mul (num_div (ofZ depth) threshold) (ofZ 100)).

(** resilience/backpressure/queue-monitor.ts:77-81 isUnderPressure *)
Definition isUnderPressure (r : reading) : M bool :=
  pct ← getPercentageOfMax r;
  m ← get_this;
  mret (num_geb pct (num_or_opt (backpressureAlarmThreshold (cfg m)) (ofZ 75))).

(** resilience/backpressure/queue-monitor.ts:83-87 isUnderBackpressure *)
Definition isUnderBackpressure (r : reading) : M bool := isUnderPressure r.

Inductive level_t : Type := Low | Medium | High | Critical.
#[global] Instance level_eq_dec : EqDecision level_t.
Proof. solve_decision. Defined.
Definition level_eqb (a b : level_t) : bool := bool_decide (a = b).

(** resilience/backpressure/queue-monitor.ts:96-102 getPressureLevel *)
Definition getPressureLevel (r : reading) : M level_t :=
  pct ← getPercentageOfMax r;
  mret (if num_ltb pct (ofZ 25) then Low
        else if num_ltb pct (ofZ 50) then Medium
        else if num_ltb pct (ofZ 75) then High
        else Critical).

(** The order of the levels. *)
Definition rank (l : level_t) : Z :=
  match l with Low => 0 | Medium => 1 | High => 2 | Critical => 3 end.

Lemma percentage_eq r m T :
  depth_threshold (cfg m) = ofZ T -> 0 < T ->
  getPercentageOfMax r m =
    (Mk (s_main (getQueueStats r m)) (cfg m),
     Ok (num_mul (num_div (ofZ (s_main (getQueueStats r m))) (ofZ T)) (ofZ 100))).
Proof.
  intros HT Hpos. unfold getPercentageOfMax, getQueueDepth; munfold. rewrite HT.
  replace (num_leb (ofZ T) (ofZ 0)) with false; [done|].
  rewrite num_leb_Z. symmetry. lia.
Qed.

Lemma percentage_lt d T k :
  0 < T -> num_ltb (num_mul (num_div (ofZ d) (ofZ T)) (ofZ 100)) (ofZ k) = (100 * d <? k * T).
Proof.
  intros Hpos. unfold ofZ. cbn [num_div].
  assert (Qeq_bool (inject_Z T) 0 = false) as ->.
  { apply not_true_is_false. rewrite Qeq_bool_iff. change 0%Q with (inject_Z 0).
    rewrite inject_Z_injective. lia. }
  cbn [num_mul num_ltb]. rewrite <- (num_ltb_Z (100 * d) (k * T)). unfold ofZ; cbn [num_ltb].
  assert (0 < inject_Z T)%Q as Ht by (change 0%Q with (inject_Z 0); rewrite <- Zlt_Qlt; lia).
  apply eq_iff_eq_true. rewrite !Qlt_bool_iff, !inject_Z_mult.
  assert (inject_Z d / inject_Z T * inject_Z 100 == inject_Z 100 * inject_Z d / inject_Z T)%Q as ->
    by (field; lra).
  split; intros H.
  - apply (Qmult_lt_compat_r _ _ (inject_Z T)) in H; [|done].
    assert (inject_Z 100 * inject_Z d / inject_Z T * inject_Z T == inject_Z 100 * inject_Z d)%Q as Hx
      by (field; lra). by rewrite Hx in H.
  - by apply Qlt_shift_div_r.
Qed.

(** The pressure level is the quarter of the threshold the depth falls in
    (100 * depth against 25, 50 and 75 times the threshold), so a deeper queue
    never has a lower level; a failed read of the queue keeps the last depth,
    hence the last level. *)
Theorem pressure_level_exact m r T :
  depth_threshold (cfg m) = ofZ T -> 0 < T ->
  let d := s_main (getQueueStats r m) in
  (getPressureLevel r m).2 =
    Ok (if 100 * d <? 25 * T then Low else if 100 * d <? 50 * T then Medium
        else if 100 * d <? 75 * T then High else Critical) /\
  (forall r' l l', (getPressureLevel r m).2 = Ok l -> (getPressureLevel r' m).2 = Ok l' ->
     d <= s_main (getQueueStats r' m) -> rank l <= rank l') /\
  (forall e, (getPressureLevel (Failed e) (getPressureLevel r m).1).2 = (getPressureLevel r m).2).
Proof.
  intros HT Hpos. cbn zeta.
  assert (forall r m, depth_threshold (cfg m) = ofZ T ->
    getPressureLevel r m = (Mk (s_main (getQueueStats r m)) (cfg m),
      let d := s_main (getQueueStats r m) in
      Ok (if 100 * d <? 25 * T then Low else if 100 * d <? 50 * T then Medium
        else if 100 * d <? 75 * T then High else Critical))) as Heq.
  { intros r0 m0 HT0. unfold getPressureLevel, mbind, meth_bind.
    rewrite (percentage_eq _ _ _ HT0 Hpos), !percentage_lt by done. done. }
  split; [|split].
  - by rewrite Heq.
  - intros r' l l'. rewrite !Heq by done. intros [= <-] [= <-] Hd. simpl.
    repeat case_match; simpl; lia.
  - intros e. rewrite (Heq r m HT). simpl. rewrite Heq; done.
Qed.

Definition sample : t := Mk 0 (Config (Some (ofZ 200)) None None "BLOCK").

Lemma pressure_level_exact_witness :
  (getPressureLevel (Counted (Counts (Some 100) (Some 20) None None)) sample).2 = Ok High.
Proof.
  apply (pressure_level_exact sample (Counted (Counts (Some 100) (Some 20) None None)) 200);
    [reflexivity|lia].
Defined.

End QueueMonitor.

(** ** Shedding *)

Module Shedding.

(** resilience/backpressure/shedding-strategy.ts:7-12 SheddingStrategy *)
Inductive strategy : Type := FIFO | RANDOM | PRIORITY | NONE.

(** The part of a job the shedding reads. *)
Record job : Type := Job { payload : jsval; priority : option Z; data_priority : option Z }.

(** resilience/backpressure/shedding-strategy.ts:60-61 selectJobsToShed *)
Definition job_priority (j : job) : Z :=
  match priority j with Some p => p | None => default 0 (data_priority j) end.

(** [Array.prototype.sort] with the comparator [pA - pB]: a stable sort. *)
Fixpoint sort_insert (j : job) (l : list job) : list job :=
  match l with
  | [] => [j]
  | k :: l => if job_priority j <=? job_priority k then j :: k :: l else k :: sort_insert j l
  end.
Definition sort_jobs (l : list job) : list job := foldr sort_insert [] l.

(** One exchange of the shuffle. *)
Definition swap (i j : nat) (l : list job) : list job :=
  match l !! i, l !! j with
  | Some a, Some b => <[i := b]> (<[j := a]> l)
  | _, _ => l
  end.
(** resilience/backpressure/shedding-strategy.ts:49-55 selectJobsToShed
    The loop over [i], from [i] down to 1; [rnd i] is [Math.random()]. *)
Fixpoint shuffle (rnd : nat -> Q) (i : nat) (l : list job) : list job :=
  match i with
  | O => l
  | S i' =>
      let j := Z.to_nat (Qfloor (rnd i * inject_Z (Z.of_nat i + 1))) in
      shuffle rnd i' (swap i j l)
  end.

(** [Math.ceil(n * p / 100)]. *)
Definition ceil_percent (n p : Z) : Z := - ((- (n * p)) / 100).

(** resilience/backpressure/shedding-strategy.ts:30-69 selectJobsToShed *)
Definition selectJobsToShed (rnd : nat -> Q) (jobs : list job) (percentageToShed : Z)
    (s : strategy) : list job :=
  match jobs with
  | [] => []
  | _ =>
    if percentageToShed <=? 0 then []
    else
      let n := Z.of_nat (length jobs) in
      let countToShed := Z.min n (ceil_percent n percentageToShed) in
      if countToShed <=? 0 then []
      else
        let k := Z.to_nat countToShed in
        match s with
        | FIFO => take k jobs
        | RANDOM => take k (shuffle rnd (length jobs - 1) jobs)
        | PRIORITY => take k (sort_jobs jobs)
        | NONE => []
        end
  end.

Inductive policy_t : Type := REJECT | DELAY | SHED.

(** resilience/backpressure/shedding-strategy.ts:74-96 getSheddingPolicy
    strategy, rejectStatusCode, delayMs, shedPercentage *)
Definition getSheddingPolicy (c : QueueMonitor.config) : res exn (policy_t * Z * Z * Z) :=
  let s := QueueMonitor.backpressureSheddingStrategy c in
  let strategy := if str_eqb s "BLOCK" then REJECT
                  else if str_eqb s "DROP_OLDEST" then SHED
                  else if str_eqb s "DROP_LATEST" then DELAY else REJECT in
  let bad := match QueueMonitor.backpressureAlarmThreshold c with
             | Some n => num_leb n (ofZ 0) || num_gtb n (ofZ 100)
             | None => false
             end in
  if bad then Throw (ValidationError "backpressureAlarmThreshold")
  else Ok (strategy, 429, 5000, 10).

(** *** The sort and the shuffle permute *)

Lemma sort_insert_perm j l : sort_insert j l ≡ₚ j :: l.
Proof.
  induction l as [|k l IH]; simpl; [done|]. destruct (_ <=? _); [done|].
  rewrite IH. apply Permutation_swap.
Qed.

Lemma sort_jobs_perm l : sort_jobs l ≡ₚ l.
Proof. induction l as [|j l IH]; simpl; [done|]. by rewrite sort_insert_perm, IH. Qed.

Definition le_prio (a b : job) : Prop := job_priority a <= job_priority b.

Lemma sort_insert_sorted j l : StronglySorted le_prio l -> StronglySorted le_prio (sort_insert j l).
Proof.
  induction 1 as [|k l Hl IH Hk]; simpl; [by repeat constructor|].
  destruct (Z.leb_spec (job_priority j) (job_priority k)) as [Hle|Hlt].
  - constructor; [by constructor|]. constructor; [done|].
    eapply Forall_impl; [exact Hk|]. unfold le_prio. intros. lia.
  - constructor; [done|]. rewrite sort_insert_perm. constructor; [unfold le_prio; lia|done].
Qed.

Lemma sort_jobs_sorted l : StronglySorted le_prio (sort_jobs l).
Proof. induction l as [|j l IH]; simpl; [constructor|by apply sort_insert_sorted]. Qed.

(** Stability: jobs of one priority keep their order. *)
Lemma sort_insert_filter p j l :
  filter (fun x => job_priority x = p) (sort_insert j l) = filter (fun x => job_priority x = p) (j :: l).
Proof.
  induction l as [|k l IH]; simpl; [done|].
  destruct (Z.leb_spec (job_priority j) (job_priority k)) as [Hle|Hlt]; [done|].
  rewrite !filter_cons, IH, filter_cons.
  destruct (decide (job_priority k = p)), (decide (job_priority j = p)); try done. lia.
Qed.

Lemma sort_jobs_filter p l :
  filter (fun x => job_priority x = p) (sort_jobs l) = filter (fun x => job_priority x = p) l.
Proof.
  induction l as [|j l IH]; simpl; [done|]. rewrite sort_insert_filter, !filter_cons. by rewrite IH.
Qed.

Lemma swap_perm i j l : swap i j l ≡ₚ l.
Proof.
  unfold swap. destruct (l !! i) as [a|] eqn:Ha; [|done]. destruct (l !! j) as [b|] eqn:Hb; [|done].
  by apply Permutation_insert_swap.
Qed.

Lemma shuffle_perm rnd i l : shuffle rnd i l ≡ₚ l.
Proof.
  revert l. induction i as [|i IH]; intros l; [done|].
  cbn [shuffle]. by rewrite IH, swap_perm.
Qed.

(** *** What is shed *)

(** The number of jobs to shed. *)
Definition shed_count (n p : Z) : Z := Z.min n (ceil_percent n p).

Lemma ceil_percent_spec n p : 100 * (ceil_percent n p - 1) < n * p <= 100 * ceil_percent n p.
Proof.
  unfold ceil_percent. pose proof (Z.div_mod (- (n * p)) 100 ltac:(lia)).
  pose proof (Z.mod_pos_bound (- (n * p)) 100 ltac:(lia)). lia.
Qed.

Lemma select_cases rnd jobs p s :
  0 < p -> jobs <> [] ->
  selectJobsToShed rnd jobs p s =
  let k := Z.to_nat (shed_count (Z.of_nat (length jobs)) p) in
  match s with
  | FIFO => take k jobs
  | RANDOM => take k (shuffle rnd (length jobs - 1) jobs)
  | PRIORITY => take k (sort_jobs jobs)
  | NONE => []
  end.
Proof.
  intros Hp Hj. unfold selectJobsToShed. destruct jobs as [|j l]; [done|].
  replace (p <=? 0) with false by lia.
  pose proof (ceil_percent_spec (Z.of_nat (length (j :: l))) p) as Hc. unfold shed_count.
  set (n := Z.of_nat (length (j :: l))) in *.
  assert (0 < n) by (unfold n; simpl; lia).
  replace (Z.min n (ceil_percent n p) <=? 0) with false by nia. done.
Qed.

Lemma select_length rnd jobs p s :
  0 < p -> s <> NONE -> jobs <> [] ->
  Z.of_nat (length (selectJobsToShed rnd jobs p s)) = shed_count (Z.of_nat (length jobs)) p.
Proof.
  intros Hp Hs Hj. rewrite select_cases by done. cbn zeta.
  pose proof (ceil_percent_spec (Z.of_nat (length jobs)) p).
  assert (forall l, l ≡ₚ jobs -> Z.of_nat (length (take (Z.to_nat (shed_count (Z.of_nat (length jobs)) p)) l)) =
    shed_count (Z.of_nat (length jobs)) p) as Hl.
  { intros l Hl. rewrite length_take, (Permutation_length Hl). unfold shed_count. nia. }
  destruct s; try done; apply Hl; auto using shuffle_perm, sort_jobs_perm.
Qed.

(** For a percentage above zero, every strategy but NONE sheds exactly
    [min(n, ceil(n * p / 100))] of the [n] jobs, and they are jobs of the queue,
    none of them twice, whatever the shuffle draws; NONE, an empty queue or a
    percentage of at most zero shed nothing. *)
Theorem shed_count_exact rnd jobs p s :
  (0 < p -> s <> NONE ->
     Z.of_nat (length (selectJobsToShed rnd jobs p s)) =
       Z.min (Z.of_nat (length jobs)) (ceil_percent (Z.of_nat (length jobs)) p)) /\
  selectJobsToShed rnd jobs p s ⊆+ jobs /\
  (p <= 0 \/ jobs = [] \/ s = NONE -> selectJobsToShed rnd jobs p s = []).
Proof.
  assert (p <= 0 \/ jobs = [] \/ s = NONE -> selectJobsToShed rnd jobs p s = []) as Hnone.
  { intros [Hp|[->| ->]]; [|done|].
    - unfold selectJobsToShed. destruct jobs; [done|]. by replace (p <=? 0) with true by lia.
    - unfold selectJobsToShed. destruct jobs; [done|]. by repeat case_match. }
  destruct (decide (jobs = [])) as [->|Hj].
  { split; [|split; [done|done]]. intros Hp _. simpl. unfold ceil_percent. done. }
  destruct (Z.leb_spec p 0) as [Hp|Hp].
  { split; [lia|]. split; [|done]. rewrite Hnone by lia. apply submseteq_nil_l. }
  split; [|split; [|exact Hnone]].
  - intros _ Hs. by apply select_length.
  - rewrite select_cases by done. cbn zeta. set (k := Z.to_nat _).
    assert (forall l, l ≡ₚ jobs -> take k l ⊆+ jobs) as Hl.
    { intros l Hl. rewrite <- Hl. apply sublist_submseteq, sublist_take. }
    destruct s; auto using shuffle_perm, sort_jobs_perm, submseteq_nil_l.
Qed.

Definition sample_jobs : list job :=
  [Job "a" (Some 5) None; Job "b" None (Some 1); Job "c" None None; Job "d" (Some 1) (Some 9)].

Lemma shed_count_exact_witness :
  Z.of_nat (length (selectJobsToShed (fun _ => 1 # 2)%Q sample_jobs 25 RANDOM)) = 1.
Proof. exact (proj1 (shed_count_exact (fun _ => 1 # 2)%Q sample_jobs 25 RANDOM) ltac:(lia) ltac:(done)). Defined.

Lemma strongly_sorted_app {A} (R : A -> A -> Prop) l1 l2 :
  StronglySorted R (l1 ++ l2) -> forall x y, x ∈ l1 -> y ∈ l2 -> R x y.
Proof.
  induction l1 as [|a l1 IH]; simpl; [by intros _ x y H%not_elem_of_nil|].
  intros [Hs Ha]%StronglySorted_inv x y Hx Hy. apply elem_of_cons in Hx as [->|Hx]; [|by eapply IH].
  rewrite Forall_forall in Ha. apply Ha, elem_of_app. by right.
Qed.

(** FIFO sheds the oldest jobs, and PRIORITY the least important ones: no
    shed job outranks a kept one, and among equals the older are shed first. *)
Theorem shed_order rnd jobs p :
  0 < p ->
  (exists kept, jobs = selectJobsToShed rnd jobs p FIFO ++ kept) /\
  (exists kept, jobs ≡ₚ selectJobsToShed rnd jobs p PRIORITY ++ kept /\
     (forall x y, x ∈ selectJobsToShed rnd jobs p PRIORITY -> y ∈ kept ->
        job_priority x <= job_priority y) /\
     (forall q, filter (fun x => job_priority x = q) (selectJobsToShed rnd jobs p PRIORITY)
                `prefix_of` filter (fun x => job_priority x = q) jobs)).
Proof.
  intros Hp. destruct (decide (jobs = [])) as [->|Hj].
  { split; exists []; [done|]. split; [done|]. split; [by intros x y H%not_elem_of_nil|done]. }
  rewrite !select_cases by done. cbn zeta. set (k := Z.to_nat _). split.
  - exists (drop k jobs). by rewrite take_drop.
  - exists (drop k (sort_jobs jobs)). rewrite take_drop. split; [by rewrite sort_jobs_perm|]. split.
    + apply (strongly_sorted_app le_prio). rewrite take_drop. apply sort_jobs_sorted.
    + intros q. rewrite <- (sort_jobs_filter q jobs).
      exists (filter (fun x => job_priority x = q) (drop k (sort_jobs jobs))).
      by rewrite <- filter_app, take_drop.
Qed.

Lemma shed_order_witness :
  exists kept, sample_jobs = selectJobsToShed (fun _ => 0%Q) sample_jobs 50 FIFO ++ kept.
Proof. exact (proj1 (shed_order (fun _ => 0%Q) sample_jobs 50 ltac:(lia))). Defined.

End Shedding.

(** ** The monitor *)

Module BackpressureMonitor.
Import QueueMonitor.

(** resilience/backpressure/backpressure-monitor.ts:21-34 getStatus
    isUnderPressure, depth, threshold, level; three reads of the queue. *)
Definition getStatus (r1 r2 r3 : reading) : M (bool * Z * num * level_t) :=
  depth ← getQueueDepth r1;
  m ← get_this;
  under ← isUnderPressure r2;
  level ← getPressureLevel r3;
  mret (under, depth, depth_threshold (cfg m), level).

(** resilience/backpressure/backpressure-monitor.ts:45-74 checkAndShed
    shedCount, shedPercentage *)
Definition checkAndShed (rnd : nat -> Q) (r1 r2 r3 : reading) (strategy : Shedding.strategy)
    (jobs : option (list Shedding.job)) : M (Z * Z) :=
  st ← getStatus r1 r2 r3;
  let '(under, _, _, level) := st in
  if negb under && negb (level_eqb level Critical) && negb (level_eqb level High)
  then mret (0, 0)
  else
    let pct := match level with Critical => 25 | High => 10 | _ => 5 end in
    match jobs with
    | None | Some [] => mret (0, pct)
    | Some jobs =>
        mret (Z.of_nat (length (Shedding.selectJobsToShed rnd jobs pct strategy)), pct)
    end.

(** Shedding is graded: with one view of the queue, nothing is shed below
    both the alarm threshold and half of the depth threshold; otherwise 25
    percent at a critical level, 10 percent at a high one and 5 percent when
    only the alarm threshold is passed, and the count is that percentage of
    the jobs, rounded up. *)
Theorem checkAndShed_graded rnd m r strategy jobs T :
  depth_threshold (cfg m) = ofZ T -> 0 < T -> strategy <> Shedding.NONE -> jobs <> [] ->
  exists under level,
    (isUnderPressure r m).2 = Ok under /\ (getPressureLevel r m).2 = Ok level /\
    (checkAndShed rnd r r r strategy (Some jobs) m).2 =
      let n := Z.of_nat (length jobs) in
      let shed p := Z.min n (Shedding.ceil_percent n p) in
      Ok (match level with
          | Critical => (shed 25, 25)
          | High => (shed 10, 10)
          | _ => if under then (shed 5, 5) else (0, 0)
          end).
Proof.
  intros HT Hpos Hs Hj.
  set (m' := Mk (s_main (getQueueStats r m)) (cfg m)).
  assert (forall m, depth_threshold (cfg m) = ofZ T ->
     exists pct, getPercentageOfMax r m = (Mk (s_main (getQueueStats r m)) (cfg m), Ok pct)) as Hpct.
  { intros m0 H0. eexists. by apply (percentage_eq _ _ T). }
  assert (getQueueStats r m' = getQueueStats r m) as Hst by (by destruct r).
  destruct (Hpct m HT) as [pct Hp].
  assert (getPercentageOfMax r m' = (m', Ok pct)) as Hp'.
  { pose proof (percentage_eq r m' T HT Hpos) as H1. pose proof (percentage_eq r m T HT Hpos) as H2.
    rewrite Hst in H1. rewrite Hp in H2. injection H2 as ->. exact H1. }
  unfold isUnderPressure at 1, getPressureLevel at 1, mbind, meth_bind. rewrite Hp.
  do 2 eexists. split; [reflexivity|]. split; [reflexivity|].
  unfold checkAndShed, getStatus, isUnderPressure, getPressureLevel, getQueueDepth, mbind, meth_bind;
    munfold. fold m'. rewrite Hp'. simpl. rewrite Hp'. simpl.
  destruct (num_ltb pct (ofZ 25)), (num_ltb pct (ofZ 50)), (num_ltb pct (ofZ 75)),
    (num_geb pct _); simpl; try done; destruct jobs; try done; by rewrite Shedding.select_length.
Qed.

Lemma checkAndShed_graded_witness :
  (checkAndShed (fun _ => 0%Q) (Counted (Counts (Some 100) (Some 20) None None))
     (Counted (Counts (Some 100) (Some 20) None None)) (Counted (Counts (Some 100) (Some 20) None None))
     Shedding.FIFO (Some Shedding.sample_jobs) sample).2 = Ok (1, 10).
Proof.
  destruct (checkAndShed_graded (fun _ => 0%Q) sample (Counted (Counts (Some 100) (Some 20) None None))
    Shedding.FIFO Shedding.sample_jobs 200 eq_refl ltac:(lia) ltac:(done) ltac:(done))
    as (under & level & _ & Hl & ->).
  vm_compute in Hl. injection Hl as <-. reflexivity.
Defined.

End BackpressureMonitor.

(** ** Alarms *)

Module AlarmSystem.

Inductive level_t : Type := GREEN | YELLOW | RED | CRITICAL.

(** resilience/backpressure/alarm-system.ts:5-9 AlarmEvent *)
Record event : Type := Event { level : level_t; depth : Z; timestamp : Z }.

(** resilience/backpressure/alarm-system.ts:26-35 checkThreshold *)
Definition checkThreshold (queueDepth : Z) (maxCapacity : num) : level_t :=
  if num_leb maxCapacity (ofZ 0) then GREEN
  else
    let percentage := num_mul (num_div (ofZ queueDepth) maxCapacity) (ofZ 100) in
    if num_geb percentage (ofZ 99) then CRITICAL
    else if num_geb percentage (ofZ 90) then RED
    else if num_geb percentage (ofZ 70) then YELLOW
    else GREEN.

(** resilience/backpressure/alarm-system.ts:40-52 recordAlarm
    The history, newest first, after the event. *)
Definition recordAlarm (now : Z) (l : level_t) (depth : Z) (history : list event) : list event :=
  let h := Event l depth now :: history in
  if (100 <? length h)%nat then take (length h - 1) h else h.

(** resilience/backpressure/alarm-system.ts:66-68 getAlarmHistory *)
Definition getAlarmHistory (limit : nat) (history : list event) : list event := take limit history.

(** Recording a sequence of alarms, oldest first. *)
Definition record_all (evs : list event) (h : list event) : list event :=
  fold_left (fun h e => recordAlarm (timestamp e) (level e) (depth e) h) evs h.

Lemma recordAlarm_take now l d h :
  (length h <= 100)%nat -> recordAlarm now l d h = take 100 (Event l d now :: h).
Proof.
  intros Hh. unfold recordAlarm. cbn [length].
  destruct (Nat.ltb_spec 100 (S (length h))) as [H|H].
  - f_equal. lia.
  - rewrite take_ge; [done|]. simpl. lia.
Qed.

(** The alarm history is exactly the last hundred alarms, the newest first,
    however many were recorded. *)
Theorem alarm_history_last_100 evs :
  record_all evs [] = take 100 (reverse evs).
Proof.
  rewrite <- (app_nil_r (reverse evs)).
  assert (forall h, (length h <= 100)%nat -> record_all evs h = take 100 (reverse evs ++ h)) as H; [|apply H; simpl; lia].
  induction evs as [|e evs IH]; intros h Hh.
  - rewrite reverse_nil. simpl. by rewrite take_ge.
  - change (record_all (e :: evs) h)
      with (record_all evs (recordAlarm (timestamp e) (level e) (depth e) h)).
    rewrite recordAlarm_take by done. destruct e as [l d t]; cbn [level depth timestamp].
    rewrite IH by (rewrite length_take; lia).
    rewrite reverse_cons, <- app_assoc. simpl ([_] ++ h).
    set (r := reverse evs). set (x := Event l d t :: h).
    destruct (decide (length r <= 100)%nat).
    + rewrite !take_app_ge, take_take by done. do 2 f_equal. lia.
    + rewrite !take_app_le by lia. done.
Qed.

End AlarmSystem.

(** ** The adaptive limiter *)

Module AdaptiveLimiter.
Import QueueMonitor.

(** resilience/backpressure/adaptive-limiter.ts:6-9 AdaptiveLimiter *)
Record t : Type := Mk { minConcurrency : Z; maxConcurrency : Z; currentConcurrency : Z }.

(** resilience/backpressure/adaptive-limiter.ts:11-19 constructor
    Absent and zero values take the defaults. *)
Definition new (mn mx init : option Z) : t :=
  let or d v := match v with Some z => if z =? 0 then d else z | None => d end in
  Mk (or 1 mn) (or 100 mx) (or 20 init).

(** resilience/backpressure/adaptive-limiter.ts:25-28 isSheddingEnabled *)
Definition isSheddingEnabled (l : level_t) : bool := level_eqb l High || level_eqb l Critical.

(** resilience/backpressure/adaptive-limiter.ts:33-56 adjustConcurrency
    The factors 0.8 and 1.1 and their products are the binary64 numbers. *)
Definition target (a : t) (level : level_t) (current : Z) : Z :=
  let times (f : Q) := round64 (inject_Z current * round64 f) in
  match level with
  | Critical => Z.max (minConcurrency a) (Qfloor (times (1 # 2)%Q))
  | High => Z.max (minConcurrency a) (Qfloor (times (4 # 5)%Q))
  | Low => Z.min (maxConcurrency a) (Qceiling (times (11 # 10)%Q))
  | Medium => current
  end.
Definition adjustConcurrency (level : level_t) (current : Z) (a : t) : t * Z :=
  let tgt := target a level current in
  (if tgt =? current then a else Mk (minConcurrency a) (maxConcurrency a) tgt, tgt).

(** The values 1 to [n]. *)
Definition upto (n : nat) : list Z := map Z.of_nat (seq 1 n).

(** The control loop: each step feeds the current concurrency back. *)
Definition run_levels (ls : list level_t) (a : t) : t :=
  fold_left (fun a l => (adjustConcurrency l (currentConcurrency a) a).1) ls a.

(** The default limiter, at a given concurrency. *)
Definition at_ (c : Z) : t := Mk 1 100 c.

Definition check_one (c : Z) : bool :=
  (target (at_ c) Critical c =? Z.max 1 (c / 2)) && (target (at_ c) High c =? Z.max 1 (4 * c / 5)) &&
  (target (at_ c) Medium c =? c) &&
  (if c <? 100 then (c <? target (at_ c) Low c) && (target (at_ c) Low c <=? 100)
   else target (at_ c) Low c =? 100).

Lemma check_upto c : 1 <= c <= 100 -> check_one c = true.
Proof.
  intros Hc. assert (forallb check_one (upto 100) = true) as H by (vm_compute; reflexivity).
  rewrite forallb_forall in H. apply H. unfold upto. apply in_map_iff.
  exists (Z.to_nat c). split; [lia|]. apply in_seq. lia.
Qed.

Lemma adjust_at l c :
  1 <= c <= 100 -> exists c', (adjustConcurrency l c (at_ c)).1 = at_ c' /\ 1 <= c' <= 100 /\
    match l with
    | Critical => c' = Z.max 1 (c / 2)
    | High => c' = Z.max 1 (4 * c / 5)
    | Medium => c' = c
    | Low => Z.min 100 (c + 1) <= c'
    end.
Proof.
  intros Hc. exists (target (at_ c) l c). pose proof (check_upto c Hc) as H. unfold check_one in H.
  rewrite !andb_true_iff, !Z.eqb_eq in H. destruct H as [[[Hcr Hh] Hm] Hl].
  split.
  - unfold adjustConcurrency. destruct (_ =? c) eqn:E; [apply Z.eqb_eq in E; by rewrite E|done].
  - destruct l; rewrite ?Hcr, ?Hh, ?Hm.
    + destruct (c <? 100) eqn:E; lia.
    + lia.
    + pose proof (Z.div_lt_upper_bound (4 * c) 5 (c + 1) ltac:(lia) ltac:(lia)). lia.
    + pose proof (Z.div_lt_upper_bound c 2 (c + 1) ltac:(lia) ltac:(lia)). lia.
Qed.

Lemma run_at ls c : 1 <= c <= 100 -> exists c', run_levels ls (at_ c) = at_ c' /\ 1 <= c' <= 100.
Proof.
  revert c. induction ls as [|l ls IH]; intros c Hc; [by exists c|].
  destruct (adjust_at l c Hc) as (c' & H & Hc' & _). unfold run_levels; cbn [fold_left].
  change (currentConcurrency (at_ c)) with c. rewrite H. by apply IH.
Qed.

Definition critical_run (n : nat) : list level_t := repeat Critical n.
Definition low_run (n : nat) : list level_t := repeat Low n.

(** The adaptive limiter with its default bounds keeps the concurrency
    between 1 and 100 whatever the pressure levels are; seven critical
    readings in a row bring it to 1 from anywhere, and as many low readings as
    the distance to 100 bring it back to 100. *)
Theorem adaptive_limiter_converges ls c n :
  1 <= c <= 100 -> 100 - c <= Z.of_nat n ->
  1 <= currentConcurrency (run_levels ls (at_ c)) <= 100 /\
  run_levels (critical_run 7) (at_ c) = at_ 1 /\
  run_levels (low_run n) (at_ c) = at_ 100.
Proof.
  intros Hc Hn. split; [|split].
  - by destruct (run_at ls c Hc) as (c' & -> & ?).
  - assert (forall k c, 1 <= c <= 100 -> c < 2 ^ (Z.of_nat k + 1) ->
      run_levels (critical_run k) (at_ c) = at_ 1) as H; [|apply H; [done|simpl; lia]].
    clear. intros k. induction k as [|k IH]; intros c Hc Hlt.
    + simpl in *. by replace c with 1 by lia.
    + destruct (adjust_at Critical c Hc) as (c' & H & Hc' & He).
      unfold run_levels, critical_run; cbn [repeat fold_left].
      change (currentConcurrency (at_ c)) with c. rewrite H. apply IH; [done|].
      replace (Z.of_nat (S k) + 1) with (Z.of_nat k + 1 + 1) in Hlt by lia.
      rewrite Z.pow_add_r, Z.pow_1_r in Hlt by lia. subst c'.
      pose proof (Z.div_lt_upper_bound c 2 (2 ^ (Z.of_nat k + 1)) ltac:(lia) ltac:(lia)).
      pose proof (Z.pow_lt_mono_r 2 0 (Z.of_nat k + 1)). lia.
  - revert c Hc Hn. induction n as [|n IH]; intros c Hc Hn.
    + simpl in *. by replace c with 100 by lia.
    + destruct (adjust_at Low c Hc) as (c' & H & Hc' & He).
      unfold run_levels, low_run; cbn [repeat fold_left].
      change (currentConcurrency (at_ c)) with c. rewrite H. apply IH; [done|lia].
Qed.

Lemma adaptive_limiter_converges_witness :
  run_levels (critical_run 7) (at_ 100) = at_ 1 /\ run_levels (low_run 80) (at_ 20) = at_ 100.
Proof.
  split; [apply (adaptive_limiter_converges [] 100 0)|apply (adaptive_limiter_converges [] 20 80)]; lia.
Defined.

End AdaptiveLimiter.

(** ** The handler *)

Module BackpressureHandler.

(** resilience/backpressure/index.ts:35-50 BackpressureHandler
    The emitted events are kept in order, as the percentage and the depth. *)
Record t : Type := Mk {
  monitor : QueueMonitor.t;
  alarms : list AlarmSystem.event;
  monitoring : bool;
  emitted : list (num * Z);
}.
Abbreviation M := (meth t exn).

(** A call on the inner monitor. *)
Definition on_monitor {A} (f : QueueMonitor.M A) : M A := fun h =>
  let '(m, r) := f (monitor h) in (Mk m (alarms h) (monitoring h) (emitted h), r).

(** resilience/backpressure/index.ts:52-64 getStatus
    isUnderPressure, depth, threshold, strategy *)
Definition getStatus (r1 r2 : QueueMonitor.reading) : M (bool * Z * option num * Shedding.policy_t) :=
  depth ← on_monitor (QueueMonitor.getDepth r1);
  h ← get_this;
  under ← on_monitor (QueueMonitor.isUnderBackpressure r2);
  policy ← lift_res (Shedding.getSheddingPolicy (QueueMonitor.cfg (monitor h)));
  let '(strategy, _, _, _) := policy in
  mret (under, depth, QueueMonitor.backpressureQueueDepthThreshold (QueueMonitor.cfg (monitor h)), strategy).

(** resilience/backpressure/index.ts:66-85 checkBackpressure
    Three reads of the queue; the gauges and the log are left out. *)
Definition checkBackpressure (now : Z) (r1 r2 r3 : QueueMonitor.reading) : M bool :=
  pct ← on_monitor (QueueMonitor.getPercentageOfMax r1);
  depth ← on_monitor (QueueMonitor.getDepth r2);
  h ← get_this;
  let level := AlarmSystem.checkThreshold depth
    (default NaN (QueueMonitor.backpressureQueueDepthThreshold (QueueMonitor.cfg (monitor h)))) in
  modify (fun h => Mk (monitor h) (AlarmSystem.recordAlarm now level depth (alarms h))
                      (monitoring h) (emitted h));;
  under ← on_monitor (QueueMonitor.isUnderBackpressure r3);
  (if under : bool
   then modify (fun h => Mk (monitor h) (alarms h) (monitoring h) (emitted h ++ [(pct, depth)]))
   else mret tt);;
  mret under.

(** resilience/backpressure/index.ts:87-97 startMonitoring
    Whether a timer was started. *)
Definition startMonitoring : M bool :=
  h ← get_this;
  if monitoring h then mret false
  else modify (fun h => Mk (monitor h) (alarms h) true (emitted h));; mret true.

(** resilience/backpressure/index.ts:99-105 stopMonitoring *)
Definition stopMonitoring : M unit :=
  modify (fun h => Mk (monitor h) (alarms h) false (emitted h)).

End BackpressureHandler.
