(* ===== verification/RetryExec.v ===== *)
(** * Retries of one operation, and time-outs

    [resilience/retry/retry-policy.ts], [retry-executor.ts], [retry-metrics.ts],
    [retry-scheduler.ts] and the error test of [retry/index.ts], with
    [resilience/timeout/].

    The operation a retry loop runs is given by what each of its calls does:
    the clock at the deadline check, the clock when it settles, its outcome. *)
From Stdlib Require Import Ascii QArith Qround Qpower Qabs Lqa.
From stdpp Require Import base tactics numbers list strings pretty.
From S2P Require Import Prelude JsNum JsValue Errors DomainTypes ValueObjects RetryStrategy Delivery.

Module RetryPolicy.

(** Truthiness-driven choice among properties: [a || b || c]. *)
Definition first_truthy (l : list jsval) : jsval :=
  foldr js_or JUndefined l.

Definition num_between (lo hi : Z) (v : jsval) : bool :=
  match v with JNum n => num_geb n (ofZ lo) && num_leb n (ofZ hi) | _ => false end.

(** resilience/retry/retry-policy.ts:8-39 isTransientError *)
Definition isTransientError (error : jsval) : bool :=
  if negb (js_truthy error) then false
  else
    let msg := match error with
               | JString s => to_lower s
               | _ => to_lower (js_String (js_or (js_get "message" error)
                        (js_or (js_get "stack" error) (js_or error ""))))
               end in
    let status := js_or (js_get "statusCode" error)
      (js_or (js_get "status" error) (js_get "status" (js_get "response" error))) in
    let code := to_upper (js_String (js_or (js_get "code" error) "")) in
    num_between 500 599 status || js_strict_eq status (ofZ 429) || js_strict_eq status (ofZ 408)
    || existsb (str_eqb code)
         ["ETIMEDOUT"; "ECONNRESET"; "ECONNREFUSED"; "ENOTFOUND"; "EPIPE"; "EHOSTUNREACH"; "EAI_AGAIN"]
    || existsb (fun w => includes w msg)
         ["etimedout"; "timeout"; "econnreset"; "econnrefused"; "connection refused"; "reset";
          "socket hang up"; "network error"; "transient"].

(** resilience/retry/retry-policy.ts:44-48 RetryPolicy *)
Record t : Type := Mk {
  maxAttempts : Z; strategy : string; timeout : Z; predicates : list (jsval -> bool);
}.

(** resilience/retry/retry-policy.ts:50-61 constructor *)
Definition new (maxAttempts : option Z) (strategy : option string) (timeout : option Z)
    (predicates : option (list (jsval -> bool))) : t :=
  let ps := default [isTransientError] predicates in
  Mk (Z.max 1 (default 3 maxAttempts)) (to_upper (default "EXPONENTIAL" strategy))
     (Z.max 0 (default 30000 timeout))
     (match ps with [] => [isTransientError] | _ => ps end).

(** resilience/retry/retry-policy.ts:75-77 getRemainingAttempts *)
Definition getRemainingAttempts (p : t) (attempt : Z) : Z := Z.max 0 (maxAttempts p - attempt).

(** resilience/retry/retry-policy.ts:79-84 shouldRetry *)
Definition shouldRetry (p : t) (error : jsval) (attempt : Z) : bool :=
  if attempt >=? maxAttempts p then false else existsb (fun f => f error) (predicates p).

(** resilience/retry/retry-policy.ts:86-99 getNextDelay
    [test] is [NODE_ENV === 'test']. *)
Definition getNextDelay (test : bool) (rnd : Q) (p : t) (attempt : Z) : num :=
  if test then ofZ 1
  else if str_eqb (strategy p) "LINEAR" then Backoff.linearBackoff attempt (ofZ 1000) (ofZ (timeout p))
  else if str_eqb (strategy p) "FIXED" then Backoff.fixedBackoff (ofZ 1000)
  else Backoff.exponentialBackoff rnd attempt (ofZ 1000) (ofZ (timeout p)) (Fin (1 # 5)).

(** resilience/retry/retry-policy.ts:101-107 defaultPolicy *)
Definition defaultPolicy (maxAttempts : option Z) (strategy : option string) (timeout : option Z) : t :=
  new (Some (default 3 maxAttempts)) (Some (default "EXPONENTIAL" strategy))
      (Some (default 30000 timeout)) None.

(** resilience/retry/index.ts:68-79 RetryEngine.isRetryable
    [method] is what [error.isRetryable()] answers when it is a function. *)
Definition engine_isRetryable (method : option bool) (error : jsval) : res exn bool :=
  if negb (js_truthy error) then Ok false
  else match method with
  | Some b => Ok b
  | None =>
      let status := js_or (js_get "statusCode" error) (js_get "status" error) in
      if js_truthy status
      then Ok (js_strict_eq status (ofZ 429) || js_strict_eq status (ofZ 408) || num_between 500 599 status)
      else
        match js_or (js_get "message" error) (JString (js_String error)) with
        | JString msg =>
            Ok (existsb (fun e => includes e msg)
                  ["ECONNRESET"; "ETIMEDOUT"; "EADDRINUSE"; "ECONNREFUSED"; "Connection Timeout"])
        | _ => Throw (PlainError "msg.includes is not a function")
        end
  end.

Lemma shouldRetry_limit p e n : shouldRetry p e n = true -> n < maxAttempts p.
Proof. unfold shouldRetry. destruct (n >=? _) eqn:E; [done|]. lia. Qed.

Lemma new_maxAttempts a b c d : 1 <= maxAttempts (new a b c d).
Proof. simpl. lia. Qed.

End RetryPolicy.

Module RetryMetrics.

(** resilience/retry/retry-metrics.ts:14-21 RetryMetrics *)
Record t : Type := Mk {
  totalAttempts : Z; successfulAttempts : Z; failedAttempts : Z;
  firstAttemptSuccesses : Z; retriedSuccesses : Z; maxRetriesExceeded : Z; totalDelayMs : num;
}.
(** resilience/retry/retry-metrics.ts:60-68 reset *)
Definition zero : t := Mk 0 0 0 0 0 0 (ofZ 0).
(** resilience/retry/retry-metrics.ts:23-25 recordAttempt *)
Definition recordAttempt (m : t) : t :=
  Mk (totalAttempts m + 1) (successfulAttempts m) (failedAttempts m) (firstAttemptSuccesses m)
     (retriedSuccesses m) (maxRetriesExceeded m) (totalDelayMs m).
(** resilience/retry/retry-metrics.ts:27-34 recordSuccess *)
Definition recordSuccess (attempt : Z) (m : t) : t :=
  let first := if attempt =? 1 then 1 else 0 in
  Mk (totalAttempts m) (successfulAttempts m + 1) (failedAttempts m) (firstAttemptSuccesses m + first)
     (retriedSuccesses m + (1 - first)) (maxRetriesExceeded m) (totalDelayMs m).
(** resilience/retry/retry-metrics.ts:36-38 recordFailure *)
Definition recordFailure (m : t) : t :=
  Mk (totalAttempts m) (successfulAttempts m) (failedAttempts m + 1) (firstAttemptSuccesses m)
     (retriedSuccesses m) (maxRetriesExceeded m) (totalDelayMs m).
(** resilience/retry/retry-metrics.ts:40-42 recordMaxRetriesExceeded *)
Definition recordMaxRetriesExceeded (m : t) : t :=
  Mk (totalAttempts m) (successfulAttempts m) (failedAttempts m) (firstAttemptSuccesses m)
     (retriedSuccesses m) (maxRetriesExceeded m + 1) (totalDelayMs m).
(** resilience/retry/retry-metrics.ts:44-46 recordDelay *)
Definition recordDelay (d : num) (m : t) : t :=
  Mk (totalAttempts m) (successfulAttempts m) (failedAttempts m) (firstAttemptSuccesses m)
     (retriedSuccesses m) (maxRetriesExceeded m) (num_add (totalDelayMs m) d).

End RetryMetrics.

Module RetryExecutor.
Import RetryPolicy.

(** What the [n]-th attempt meets: the clock at the deadline check, the clock
    once the attempt settled, the jitter of the delay, the operation's outcome. *)
Record attempt_io (A : Type) : Type := IO {
  at_check : Z; at_settled : Z; jitter : Q; outcome : res exn A;
}.
Arguments IO {A}. Arguments at_check {A}. Arguments at_settled {A}.
Arguments jitter {A}. Arguments outcome {A}.

Section execute.
Context {A : Type} (test : bool) (p : t) (start : Z) (io : nat -> attempt_io A).

(** resilience/retry/retry-executor.ts:37-47 execute
    The body of the [try]: the deadline, then the call; also whether the
    operation was called. *)
Definition attempt (n : nat) : bool * res exn A :=
  if (timeout p >? 0) && (at_check (io n) - start >? timeout p)
  then (false, Throw (TimeoutError "RetryExecution" (timeout p)))
  else (true, outcome (io n)).

(** resilience/retry/retry-executor.ts:33-69 execute
    The loop from attempt [cur], the [n]-th of this call; the result carries
    the metrics, the number of calls made and the outcome, and is [None] when
    the fuel runs out. *)
Fixpoint loop (fuel : nat) (cur : Z) (n calls : nat) (m : RetryMetrics.t)
    : option (RetryMetrics.t * nat * res exn A) :=
  match fuel with
  | O => None
  | S fuel =>
      if cur <=? maxAttempts p then
        let m := RetryMetrics.recordAttempt m in
        let '(called, r) := attempt n in
        let calls := if called then S calls else calls in
        match r with
        | Ok a => Some (RetryMetrics.recordSuccess cur m, calls, Ok a)
        | Throw e =>
            let m := RetryMetrics.recordFailure m in
            let retry := shouldRetry p (Errors.exn_js e) cur in
            let timeRemaining := (timeout p =? 0) || (at_settled (io n) - start <? timeout p) in
            if retry && timeRemaining
            then loop fuel (cur + 1) (S n) calls
                   (RetryMetrics.recordDelay (getNextDelay test (jitter (io n)) p cur) m)
            else Some (RetryMetrics.recordMaxRetriesExceeded m, calls, Throw e)
        end
      else Some (m, calls, Throw (PlainError "Retry loop terminated unexpectedly"))
  end.

(** Enough fuel: one round per attempt left, and one to leave the loop. *)
Definition fuel_for (cur : Z) : nat := S (Z.to_nat (maxAttempts p - cur + 1)).

(** resilience/retry/retry-executor.ts:25-70 execute *)
Definition execute (context_attempt : option Z) (m : RetryMetrics.t)
    : option (RetryMetrics.t * nat * res exn A) :=
  let cur := match context_attempt with Some k => if k =? 0 then 1 else k | None => 1 end in
  loop (fuel_for cur) cur 0 0 m.

(** resilience/retry/retry-executor.ts:72-89 executeWithMetrics
    The result with the number of calls and the duration ([stop] - [start]). *)
Definition executeWithMetrics (stop : Z) (m : RetryMetrics.t)
    : option (RetryMetrics.t * res exn (A * Z * Z)) :=
  match execute None m with
  | Some (m, calls, Ok a) => Some (m, Ok (a, Z.of_nat calls, stop - start))
  | Some (m, calls, Throw e) => Some (m, Throw e)
  | None => None
  end.
End execute.

Section theorems.
Context {A : Type} (test : bool) (p : t) (start : Z) (io : nat -> attempt_io A).

(** The attempt [n], numbered [cur], failed and is to be followed by another. *)
Definition retried (n : nat) (cur : Z) : Prop :=
  exists e, (attempt p start io n).2 = Throw e /\
    shouldRetry p (Errors.exn_js e) cur = true /\
    (timeout p =? 0) || (at_settled (io n) - start <? timeout p) = true.

(** The calls really made among the attempts [n .. n + k]. *)
Fixpoint n_called (n k : nat) : nat :=
  (if (attempt p start io n).1 then 1 else 0) + match k with O => O | S k => n_called (S n) k end.

(** How the counters of a run of [k + 1] attempts relate to those before. *)
Definition counted (cur : Z) (k : nat) (ok : bool) (m m' : RetryMetrics.t) : Prop :=
  RetryMetrics.totalAttempts m' = RetryMetrics.totalAttempts m + Z.of_nat k + 1 /\
  RetryMetrics.failedAttempts m' = RetryMetrics.failedAttempts m + Z.of_nat k + (if ok then 0 else 1) /\
  RetryMetrics.successfulAttempts m' = RetryMetrics.successfulAttempts m + (if ok then 1 else 0) /\
  RetryMetrics.maxRetriesExceeded m' = RetryMetrics.maxRetriesExceeded m + (if ok then 0 else 1) /\
  RetryMetrics.firstAttemptSuccesses m' + RetryMetrics.retriedSuccesses m' =
    RetryMetrics.firstAttemptSuccesses m + RetryMetrics.retriedSuccesses m + (if ok then 1 else 0).

Lemma loop_spec fuel cur n calls m :
  (Z.to_nat (maxAttempts p - cur + 2) <= fuel)%nat -> cur <= maxAttempts p ->
  exists k m',
    loop test p start io fuel cur n calls m =
      Some (m', (calls + n_called n k)%nat, (attempt p start io (n + k)).2) /\
    cur + Z.of_nat k <= maxAttempts p /\
    (forall j, (j < k)%nat -> retried (n + j) (cur + Z.of_nat j)) /\
    ~ retried (n + k) (cur + Z.of_nat k) /\
    counted cur k (is_ok (attempt p start io (n + k)).2) m m'.
Proof.
  revert cur n calls m. induction fuel as [|fuel IH]; intros cur n calls m Hf Hc; [lia|].
  cbn [loop]. rewrite (proj2 (Z.leb_le _ _) Hc).
  destruct (attempt p start io n) as [called r] eqn:Ha.
  assert (forall c : nat, (if called then S c else c) = (c + if called then 1 else 0)%nat) as Hcall
    by (intros c; destruct called; lia).
  destruct r as [a|e].
  - exists O. eexists. rewrite Nat.add_0_r, Z.add_0_r. cbn [n_called]. rewrite Ha, Hcall.
    split; [by rewrite Nat.add_0_r|]. split; [done|]. split; [lia|]. split.
    + intros (e & He & _). rewrite Ha in He. done.
    + unfold counted; simpl. lia.
  - destruct (shouldRetry p (Errors.exn_js e) cur && _) eqn:Hr.
    + apply andb_true_iff in Hr as [Hr Ht]. pose proof (shouldRetry_limit _ _ _ Hr) as Hlt.
      match goal with |- context [loop _ _ _ _ fuel _ _ _ ?m0] => set (m1 := m0) end.
      destruct (IH (cur + 1) (S n) (if called then S calls else calls) m1 ltac:(lia) ltac:(lia))
        as (k & m' & -> & Hk & Hret & Hlast & Hcnt).
      exists (S k), m'. replace (n + S k)%nat with (S n + k)%nat by lia.
      replace (cur + Z.of_nat (S k)) with (cur + 1 + Z.of_nat k) by lia.
      split; [|split; [lia|split; [|split; [done|]]]].
      * cbn [n_called]. rewrite Ha, Hcall. cbn [fst]. do 3 f_equal. lia.
      * intros [|j] Hj.
        -- rewrite Nat.add_0_r, Z.add_0_r. exists e. by rewrite Ha.
        -- replace (n + S j)%nat with (S n + j)%nat by lia.
           replace (cur + Z.of_nat (S j)) with (cur + 1 + Z.of_nat j) by lia. apply Hret. lia.
      * unfold counted, m1 in *; simpl in *. lia.
    + exists O. eexists. rewrite Nat.add_0_r, Z.add_0_r. cbn [n_called]. rewrite Ha, Hcall.
      split; [by rewrite Nat.add_0_r|]. split; [done|]. split; [lia|]. split.
      * intros (e' & He & Hr1 & Hr2). rewrite Ha in He. injection He as <-.
        by rewrite Hr1, Hr2 in Hr.
      * unfold counted; simpl. lia.
Qed.
End theorems.

(** C20: [execute] always terminates, with at most [maxAttempts] attempts: it
    makes attempts [0 .. k], each of the first [k] having failed with an error
    the policy retries while time remained, and returns or throws what the
    attempt [k] did, which is the first one that succeeded or must not be
    followed; every attempt is counted once, as a success or as a failure. *)
Theorem execute_first_settled {A} test p start (io : nat -> attempt_io A) m :
  1 <= maxAttempts p ->
  exists k m',
    execute test p start io None m =
      Some (m', n_called p start io 0 k, (attempt p start io k).2) /\
    Z.of_nat k < maxAttempts p /\
    (forall j, (j < k)%nat -> retried p start io j (1 + Z.of_nat j)) /\
    ~ retried p start io k (1 + Z.of_nat k) /\
    counted 1 k (is_ok (attempt p start io k).2) m m'.
Proof.
  intros Hm. destruct (loop_spec test p start io (fuel_for p 1) 1 0 0 m) as (k & m' & H & Hk & Hrest).
  - unfold fuel_for. lia.
  - done.
  - exists k, m'. split; [exact H|]. split; [lia|exact Hrest].
Qed.

(** Two failures with a 503, then a success. *)
Definition sample_io (n : nat) : attempt_io Z :=
  IO (Z.of_nat n * 100) (Z.of_nat n * 100 + 50) 0
     (if (n <? 2)%nat then Throw (CircuitOpenError "d") else Ok 7).
Definition sample_policy : t := RetryPolicy.new None None None None.

Lemma execute_first_settled_witness :
  exists k m', Z.of_nat k < 3 /\
    execute true sample_policy 0 sample_io None RetryMetrics.zero =
      Some (m', n_called sample_policy 0 sample_io 0 k, Ok 7).
Proof.
  destruct (execute_first_settled true sample_policy 0 sample_io RetryMetrics.zero) as (k & m' & H & Hk & _).
  - simpl. lia.
  - exists k, m'. split; [exact Hk|]. rewrite H. f_equal. f_equal.
    assert (execute true sample_policy 0 sample_io None RetryMetrics.zero <> None /\
      forall x, execute true sample_policy 0 sample_io None RetryMetrics.zero = Some x -> snd x = Ok 7) as [_ Hx].
    { split; [by vm_compute|]. intros x Hx. vm_compute in Hx. by injection Hx as <-. }
    exact (Hx _ H).
Defined.

(** Retrying is decided by the policy alone: once the last allowed attempt
    fails, or an error no predicate accepts is thrown, or the time is over, the
    error is thrown to the caller unchanged; a start attempt beyond the limit
    makes no call at all and throws the internal error. *)
Theorem execute_stops {A} test p start (io : nat -> attempt_io A) m e :
  (attempt p start io 0).2 = Throw e -> 1 <= maxAttempts p ->
  (forall cur, 1 <= cur <= maxAttempts p ->
     cur = maxAttempts p \/ existsb (fun f => f (Errors.exn_js e)) (predicates p) = false \/
     (timeout p <> 0 /\ timeout p <= at_settled (io O) - start) ->
     exists m' c, execute test p start io (Some cur) m = Some (m', c, Throw e)) /\
  (forall cur, maxAttempts p < cur ->
     execute test p start io (Some cur) m =
       Some (m, O, Throw (PlainError "Retry loop terminated unexpectedly"))).
Proof.
  intros He Hm. split.
  - intros cur Hcur Hstop. unfold execute. replace (cur =? 0) with false by lia.
    destruct (loop_spec test p start io (fuel_for p cur) cur 0 0 m) as (k & m' & -> & _ & Hret & _).
    + unfold fuel_for. lia.
    + lia.
    + destruct k as [|k]; [by exists m', (0 + n_called p start io 0 0)%nat; rewrite <- He|].
      destruct (Hret O ltac:(lia)) as (e' & He' & Hs & Ht). rewrite Nat.add_0_l, Z.add_0_r in *.
      rewrite He in He'. injection He' as <-. unfold shouldRetry in Hs.
      destruct (cur >=? maxAttempts p) eqn:Hc; [done|].
      destruct Hstop as [->|[Hno|[Ht0 Ht1]]]; [lia|congruence|].
      apply orb_true_iff in Ht as [Ht|Ht]; lia.
  - intros cur Hcur. unfold execute, fuel_for. replace (cur =? 0) with false by lia.
    cbn [loop]. by replace (cur <=? maxAttempts p) with false by lia.
Qed.

Definition sample_failing (n : nat) : attempt_io Z :=
  IO 0 10 0 (Throw (ValidationError "Bad payload")).

Lemma execute_stops_witness :
  exists m' c, execute true sample_policy 0 sample_failing (Some 1) RetryMetrics.zero =
    Some (m', c, Throw (ValidationError "Bad payload")).
Proof.
  apply (proj1 (execute_stops true sample_policy 0 sample_failing RetryMetrics.zero
    (ValidationError "Bad payload") eq_refl ltac:(simpl; lia))); [simpl; lia|].
  right. left. vm_compute. reflexivity.
Defined.

End RetryExecutor.

(** ** Time-outs *)

Module TimeoutHandler.

(** An awaited operation: after how many milliseconds it settles and how, or
    [None] if it never does. *)
Definition pending (A : Type) : Type := option (Z * res exn A).

(** resilience/timeout/timeout-handler.ts:12-37 executeWithTimeout
    When and how the returned promise settles.  The operation wins the race
    only if it settles before the timer's instant. *)
Definition executeWithTimeout {A} (fn : pending A) (timeoutMs : Z) (operationName : string)
    : pending A :=
  if timeoutMs <=? 0 then fn
  else match fn with
       | Some (d, r) =>
           if d <? timeoutMs then Some (d, r)
           else Some (timeoutMs, Throw (TimeoutError operationName timeoutMs))
       | None => Some (timeoutMs, Throw (TimeoutError operationName timeoutMs))
       end.

(** resilience/timeout/timeout-handler.ts:42-56 executeWithTimeoutAndFallback *)
Definition executeWithTimeoutAndFallback {A} (fn : pending A) (timeoutMs : Z) (fallback : res exn A)
    (operationName : string) : pending A :=
  match executeWithTimeout fn timeoutMs operationName with
  | Some (d, Throw _) => Some (d, fallback)
  | other => other
  end.

(** With a positive limit the wrapped operation always settles, within the
    limit, with its own outcome if it was in time and with [TimeoutError]
    otherwise; with a fallback that returns, it never throws. *)
Theorem timeout_settles {A} (fn : pending A) timeoutMs name v :
  0 < timeoutMs -> (forall d r, fn = Some (d, r) -> 0 <= d) ->
  exists d r,
    executeWithTimeout fn timeoutMs name = Some (d, r) /\ 0 <= d <= timeoutMs /\
    (if match fn with Some (d0, _) => d0 <? timeoutMs | None => false end
     then fn = Some (d, r) else r = Throw (TimeoutError name timeoutMs)) /\
    (exists a, executeWithTimeoutAndFallback fn timeoutMs (Ok v) name = Some (d, Ok a)).
Proof.
  intros Ht Hd. unfold executeWithTimeoutAndFallback, executeWithTimeout.
  replace (timeoutMs <=? 0) with false by lia.
  destruct fn as [[d r]|].
  - specialize (Hd d r eq_refl). destruct (Z.ltb_spec d timeoutMs).
    + exists d, r. split; [done|]. split; [lia|]. split; [done|]. destruct r; by eexists.
    + do 2 eexists. split; [done|]. split; [lia|]. split; [done|]. by eexists.
  - do 2 eexists. split; [done|]. split; [lia|]. split; [done|]. by eexists.
Qed.

Lemma timeout_settles_witness :
  executeWithTimeoutAndFallback (None : pending Z) 50 (Ok 3) "op" = Some (50, Ok 3).
Proof.
  destruct (timeout_settles (None : pending Z) 50 "op" 3) as (d & r & H & _ & _ & a & Ha); [lia|done|].
  vm_compute in H. injection H as <- <-. exact (eq_trans Ha (eq_trans (eq_sym Ha) eq_refl)).
Defined.

End TimeoutHandler.

Module TimeoutManager.

(** resilience/timeout/timeout-manager.ts:4-5 TimeoutManager *)
Definition t : Type := list (string * num).
Abbreviation M := (meth t exn).

(** resilience/timeout/timeout-manager.ts:7-16 constructor *)
Definition new (http database redis queue : option num) : t :=
  [("http", default (ofZ 30000) http); ("database", default (ofZ 60000) database);
   ("redis", default (ofZ 10000) redis); ("queue", default (ofZ 30000) queue)].

(** resilience/timeout/timeout-manager.ts:18-24 getTimeout *)
Definition getTimeout (operation : string) (m : t) : num :=
  match jmap_get (to_lower operation) m with Some n => n | None => ofZ 30000 end.

(** resilience/timeout/timeout-manager.ts:26-33 setCustomTimeout *)
Definition setCustomTimeout (operation : string) (timeoutMs : num) : M unit :=
  if num_leb timeoutMs (ofZ 0) then fail (PlainError "Timeout value must be greater than 0")
  else modify (jmap_set (to_lower operation) timeoutMs).

(** A custom time-out is found again whatever the case of the operation
    name, changes no other operation, is refused without effect when it is not
    positive, and an unknown operation has 30 seconds. *)
Theorem timeout_manager_correct m op op' n :
  (num_leb n (ofZ 0) = false -> to_lower op' = to_lower op ->
     getTimeout op' (setCustomTimeout op n m).1 = n) /\
  (to_lower op' <> to_lower op -> getTimeout op' (setCustomTimeout op n m).1 = getTimeout op' m) /\
  (num_leb n (ofZ 0) = true -> setCustomTimeout op n m =
     (m, Throw (PlainError "Timeout value must be greater than 0"))) /\
  (to_lower op' ∉ map fst m -> getTimeout op' m = ofZ 30000).
Proof.
  unfold setCustomTimeout, getTimeout. split; [|split; [|split]].
  - intros -> ->. munfold. by rewrite jmap_get_set_eq.
  - intros Hne. destruct (num_leb n (ofZ 0)); [done|]. munfold. by rewrite jmap_get_set_ne.
  - by intros ->.
  - intros H%jmap_get_None_keys. by rewrite H.
Qed.

Lemma timeout_manager_correct_witness :
  getTimeout "HTTP" (setCustomTimeout "Http" 5 (new None None None None)).1 = ofZ 5.
Proof. apply (proj1 (timeout_manager_correct (new None None None None) "Http" "HTTP" 5)); reflexivity. Defined.

End TimeoutManager.

(** ** Rescheduling through the repository and the queue *)

Module RetryScheduler.

(** A job pushed on the delayed queue: task result, destination, retry count, delay. *)
Record job : Type := Job { j_taskResultId : string; j_destinationId : string; j_retryCount : Z; j_delayMs : Z }.

(** [deliveries.find(d => d.getId() === id) || deliveries[0]] *)
Definition pick (id : string) (found : list Delivery.t) : option Delivery.t :=
  match List.find (fun d => str_eqb (Delivery.id d) id) found with
  | Some d => Some d
  | None => head found
  end.

(** resilience/retry/retry-scheduler.ts:25-59 scheduleRetry
    [found] is what [findByTaskResultId(deliveryId)] returns; the result is the
    saved delivery and the job pushed. *)
Definition scheduleRetry (now : Z) (maxRetries : option Z) (found : list Delivery.t) (deliveryId : string)
    (retryCount delayMs : Z) : res exn (Delivery.t * job) :=
  let mx := match maxRetries with Some z => if z =? 0 then 5 else z | None => 5 end in
  if retryCount >=? mx
  then Throw (PlainError ("Maximum retry attempts reached (" +:+ pretty mx +:+ ")"))
  else match pick deliveryId found with
  | None => Throw (PlainError ("Delivery with ID " +:+ deliveryId +:+ " not found"))
  | Some d =>
      let nextRetryAt := date_of_num (ofZ (now + delayMs)) in
      let m := (if negb (str_eqb (Status.kind (Delivery.status d)) "processing")
                then Delivery.markProcessing now else mret tt);;
               Delivery.scheduleRetry now (Delivery.DelayDate nextRetryAt) in
      match m d with
      | (d', Ok _) => Ok (d', Job (Delivery.taskResultId d') (Delivery.destinationId d') (retryCount + 1) delayMs)
      | (_, Throw e) => Throw e
      end
  end.

(** resilience/retry/retry-scheduler.ts:64-78 cancelRetry
    The saved delivery, if one was found. *)
Definition cancelRetry (now : Z) (found : list Delivery.t) (deliveryId : string)
    : res exn (option Delivery.t) :=
  match pick deliveryId found with
  | None => Ok None
  | Some d =>
      let k := Status.kind (Delivery.status d) in
      let m := (if negb (str_eqb k "processing") && negb (str_eqb k "scheduled_retry")
                then Delivery.markProcessing now else mret tt);;
               Delivery.moveToDLQ now "Retry cancelled by supervisor action" in
      match m d with
      | (d', Ok _) => Ok (Some d')
      | (_, Throw e) => Throw e
      end
  end.

(** Rescheduling is refused for a delivery in a final state and when the
    limit is reached; otherwise the delivery picked is saved SCHEDULED_RETRY at
    [now + delay], its identity and retry count unchanged, and exactly one job
    for it is pushed with the next retry number. Cancelling dead-letters any
    delivery that is not final. *)
Theorem retry_scheduler_correct now mx found id n delay d :
  pick id found = Some d -> n < mx -> mx <> 0 -> 0 <= now -> 0 <= delay -> now + delay <= max_time ->
  if Status.isFinal (Delivery.status d)
  then is_ok (scheduleRetry now (Some mx) found id n delay) = false /\
       is_ok (cancelRetry now found id) = false
  else exists d' d'',
    scheduleRetry now (Some mx) found id n delay =
      Ok (d', Job (Delivery.taskResultId d) (Delivery.destinationId d) (n + 1) delay) /\
    Delivery.status d' = Status.SCHEDULED_RETRY /\
    Delivery.nextRetryAt d' = Some (Some (now + delay)) /\
    Delivery.retryCount d' = Delivery.retryCount d /\ Delivery.id d' = Delivery.id d /\
    cancelRetry now found id = Ok (Some d'') /\ Delivery.status d'' = Status.FAILED_DLQ.
Proof.
  intros Hp Hn Hmx Hnow Hdel Hmax.
  assert (date_of_num (ofZ (now + delay)) = Some (now + delay)) as Hdate.
  { apply (date_of_time (Some (now + delay))). intros t [= <-]. lia. }
  unfold scheduleRetry, cancelRetry. rewrite Hp, Hdate. replace (mx =? 0) with false by lia.
  replace (n >=? mx) with false by lia. unfold Delivery.moveToDLQ, Delivery.markProcessing.
  destruct (Delivery.status d) eqn:Hs; unfold Status.isFinal; simpl;
    unfold mbind, meth_bind; rewrite ?Delivery.markAsProcessing_cases, ?Hs; simpl;
    rewrite ?Delivery.moveToDLQ_cases; simpl; try done;
    destruct (Delivery.lastError d); simpl; do 2 eexists; repeat split.
Qed.

Lemma retry_scheduler_correct_witness :
  is_ok (scheduleRetry 10 (Some 5) [Delivery.sample Status.COMPLETED 0] "d1" 1 100) = false.
Proof.
  apply (retry_scheduler_correct 10 5 [Delivery.sample Status.COMPLETED 0] "d1" 1 100
           (Delivery.sample Status.COMPLETED 0)); try reflexivity || lia; done.
Defined.

End RetryScheduler.
