(* ===== verification/Store.v ===== *)
(** * The delivery store

    The tables Prisma keeps for deliveries and their attempts are a parameter,
    the class [Prisma], whose laws are the documented behaviour of its [find],
    [update] (error P2025 on a missing record) and [create] (error P2003 when
    the foreign key of the record names no parent); the repositories of
    [infrastructure/repositories/] are programs over it.  The database is taken
    to be reachable.  [gmap_prisma] is a concrete table used by the examples. *)
From Stdlib Require Import Ascii QArith Qround Qpower Qabs Lqa.
From stdpp Require Import base tactics numbers list strings gmap.
From S2P Require Import Prelude JsNum JsValue Errors DomainTypes.

Module Store.

(** A row of task_result_delivery. *)
Record row : Type := Row {
  r_taskResultId : string;
  r_destinationId : string;
  r_status : Status.t;
  r_retryCount : Z;
  r_nextRetryAt : option date;
  r_lastError : option string;
  r_errorCategory : option string;
  r_lastAttemptAt : option date;
}.
(** A row of task_result_delivery_attempt. *)
Record attempt : Type := Attempt {
  a_deliveryId : string; a_number : Z; a_status : option Z; a_time : Z; a_error : option string;
}.

Class Prisma (T : Type) := {
  find_delivery : string -> T -> option row;
  update_delivery : string -> (row -> row) -> T -> option T;   (* [None]: P2025 *)
  attempts_of : string -> T -> list attempt;
  create_attempt : attempt -> T -> option T;                  (* [None]: P2003 *)

  update_is_Some id f t : is_Some (update_delivery id f t) <-> is_Some (find_delivery id t);
  update_find_eq id f t t' :
    update_delivery id f t = Some t' -> find_delivery id t' = f <$> find_delivery id t;
  update_find_ne id id' f t t' :
    id <> id' -> update_delivery id f t = Some t' -> find_delivery id' t' = find_delivery id' t;
  update_attempts id f t t' :
    update_delivery id f t = Some t' -> attempts_of id t' = attempts_of id t;
  create_is_Some a t : is_Some (create_attempt a t) <-> is_Some (find_delivery (a_deliveryId a) t);
  create_find a id t t' : create_attempt a t = Some t' -> find_delivery id t' = find_delivery id t;
  create_attempts a t t' :
    create_attempt a t = Some t' ->
    attempts_of (a_deliveryId a) t' = attempts_of (a_deliveryId a) t ++ [a];
}.

(** ** A concrete store *)

Record tables : Type := Tables { t_rows : gmap string row; t_attempts : list attempt }.

#[global] Program Instance gmap_prisma : Prisma tables := {
  find_delivery id t := t_rows t !! id;
  update_delivery id f t :=
    match t_rows t !! id with
    | Some r => Some (Tables (<[id := f r]> (t_rows t)) (t_attempts t))
    | None => None
    end;
  attempts_of id t := filter (fun a => a_deliveryId a = id) (t_attempts t);
  create_attempt a t :=
    match t_rows t !! a_deliveryId a with
    | Some _ => Some (Tables (t_rows t) (t_attempts t ++ [a]))
    | None => None
    end;
}.
Next Obligation. intros id f t. simpl. destruct (t_rows t !! id); split; intros [? H]; eauto; done. Qed.
Next Obligation.
  intros id f t t'. simpl. destruct (t_rows t !! id) as [r|]; [|done]. intros [= <-]. simpl.
  by rewrite lookup_insert_eq.
Qed.
Next Obligation.
  intros id id' f t t' Hne. simpl. destruct (t_rows t !! id); [|done]. intros [= <-]. simpl.
  by rewrite lookup_insert_ne.
Qed.
Next Obligation. intros id f t t'. simpl. by destruct (t_rows t !! id); intros [= <-]. Qed.
Next Obligation. intros a t. simpl. destruct (t_rows t !! a_deliveryId a); split; intros [? H]; eauto; done. Qed.
Next Obligation. intros a id t t'. simpl. by destruct (t_rows t !! a_deliveryId a); intros [= <-]. Qed.
Next Obligation.
  intros a t t'. simpl. destruct (t_rows t !! a_deliveryId a); [|done]. intros [= <-]. simpl. rewrite filter_app, filter_cons_True by done. by rewrite filter_nil.
Qed.

(** ** Field updates *)

Definition with_status (s : Status.t) (r : row) : row :=
  Row (r_taskResultId r) (r_destinationId r) s (r_retryCount r) (r_nextRetryAt r) (r_lastError r)
      (r_errorCategory r) (r_lastAttemptAt r).
(** A field given as [undefined] ([None]) is left as it is. *)
Definition with_retry (at_ : option date) (r : row) : row :=
  Row (r_taskResultId r) (r_destinationId r) Status.SCHEDULED_RETRY (r_retryCount r)
      (match at_ with Some d => Some d | None => r_nextRetryAt r end) (r_lastError r)
      (r_errorCategory r) (r_lastAttemptAt r).
Definition with_dlq (msg cat : string) (r : row) : row :=
  Row (r_taskResultId r) (r_destinationId r) Status.FAILED_DLQ (r_retryCount r) None (Some msg)
      (Some cat) (r_lastAttemptAt r).
Definition with_attempt (now : Z) (n : Z) (err : option string) (r : row) : row :=
  Row (r_taskResultId r) (r_destinationId r) (r_status r) n (r_nextRetryAt r) err
      (r_errorCategory r) (Some (Some now)).

(** ** Errors *)

(** The errors the modelled queries meet: P2002 on named columns, P2025, P2003
    on a named field, and errors that are not Prisma's. *)
Inductive db_error : Type :=
| P2002 (target : list string) | P2025 (cause : string) | P2003 (field : string) | JsTypeError (message : string).
(** infrastructure/repositories/base-repository.ts:294-315 mapDatabaseError
    With the messages of a non-production environment. *)
Definition mapDatabaseError (e : db_error) : exn :=
  match e with
  | P2002 target =>
      OwnError "Error" "CONFLICT_DETECTED" 409
        ("Database constraint conflict: Duplicate key value violates unique constraint (" +:+ String.concat ", " target +:+ ")")
  | P2025 cause =>
      OwnError "Error" "NOT_FOUND" 404 ("Record not found: " +:+ cause)
  | P2003 field =>
      ValidationError ("Reference integrity check failed: Foreign key violates constraint field: " +:+ field)
  | JsTypeError m =>
      OwnError "Error" "UNKNOWN_ERROR" 500 ("Database operation failed: " +:+ m)
  end.

Definition missing_record : exn :=
  mapDatabaseError (P2025 "Record to update not found.").

Definition orphan_attempt : exn := mapDatabaseError (P2003 "deliveryId").

End Store.

Module DeliveryRepository.
Import Store.

Section repository.
Context {T : Type} `{Prisma T}.
Abbreviation M := (meth T exn).

(** [client.taskResultDelivery.update({where: {id}, data})], mapped errors. *)
Definition db_update (id : string) (f : row -> row) : M unit := fun t =>
  match update_delivery id f t with
  | Some t' => (t', Ok tt)
  | None => (t, Throw missing_record)
  end.

(** [client.taskResultDeliveryAttempt.create({data})], mapped errors. *)
Definition insert_attempt (a : attempt) : M unit := fun t =>
  match create_attempt a t with
  | Some t' => (t', Ok tt)
  | None => (t, Throw orphan_attempt)
  end.

(** infrastructure/repositories/base-repository.ts:127-130 findById *)
Definition findById (id : string) : M (option row) := gets (find_delivery id).

(** infrastructure/repositories/base-repository.ts:68-84 parseTxAndContext
    A transaction client is an object with [$executeRaw] or [$queryRaw]; the
    result is whether one was given. *)
Definition has_tx (txOrContext : jsval) : bool :=
  match txOrContext with
  | JObject _ fields =>
      match assoc "$executeRaw" fields, assoc "$queryRaw" fields with None, None => false | _, _ => true end
  | _ => false
  end.

(** infrastructure/repositories/delivery-repository.ts:205-217 updateStatus
    [tx] is the third argument when one is passed; an object that is not a
    client has no [taskResultDelivery] to update. *)
Definition updateStatus (id : string) (newStatus : Status.t) (tx : jsval) : M unit :=
  if js_truthy tx && negb (has_tx tx)
  then fail (mapDatabaseError (JsTypeError "Cannot read properties of undefined (reading 'update')"))
  else db_update id (with_status newStatus).

(** infrastructure/repositories/delivery-repository.ts:227-235 updateDeliveryStatus *)
Definition updateDeliveryStatus (id : string) (status : Status.t) (txOrContext : jsval) : M unit :=
  updateStatus id status (if has_tx txOrContext then txOrContext else JUndefined).

(** infrastructure/repositories/delivery-repository.ts:282-299 scheduleRetry *)
Definition scheduleRetry (id : string) (retryAt : option date) : M unit := db_update id (with_retry retryAt).

(** infrastructure/repositories/delivery-repository.ts:237-256 moveToFailed *)
Definition moveToFailed (id : string) (errorMessage : string) : M unit :=
  db_update id (with_dlq errorMessage "FAILED").

(** infrastructure/repositories/delivery-repository.ts:258-277 moveToDLQ *)
Definition moveToDLQ (id : string) (errorMessage : string) : M unit :=
  db_update id (with_dlq errorMessage "DLQ").

(** infrastructure/repositories/delivery-repository.ts:109-143 recordAttempt *)
Definition recordAttempt (id : string) (responseStatus : option Z) (responseTimeMs : option Z)
    (errorMessage : option string) : M unit :=
  t ← get_this;
  match find_delivery id t with
  | None => fail (mapDatabaseError (P2025 "No TaskResultDelivery found"))
  | Some r =>
      let next := r_retryCount r + 1 in
      if match responseStatus with Some s => (s <? 100) || (s >? 599) | None => false end
      then fail (ValidationError "Invalid HTTP response status range")
      else
        insert_attempt (Attempt id next responseStatus (default 0 responseTimeMs) errorMessage);;
        db_update id (fun r => Row (r_taskResultId r) (r_destinationId r) (r_status r) next
          (r_nextRetryAt r) (r_lastError r) (r_errorCategory r) (r_lastAttemptAt r))
  end.
End repository.

Section laws.
Context {T : Type} `{Prisma T}.

Lemma insert_attempt_hit a (t : T) r :
  find_delivery (a_deliveryId a) t = Some r ->
  exists t', insert_attempt a t = (t', Ok tt) /\
    (forall id, find_delivery id t' = find_delivery id t) /\
    attempts_of (a_deliveryId a) t' = attempts_of (a_deliveryId a) t ++ [a].
Proof.
  intros Hr. unfold insert_attempt.
  destruct (proj2 (create_is_Some a t) (ex_intro _ r Hr)) as [t' Ht]. rewrite Ht.
  exists t'. split; [done|]. split; [by intros id; eapply create_find|by eapply create_attempts].
Qed.

Lemma db_update_hit id f (t : T) r :
  find_delivery id t = Some r ->
  exists t', db_update id f t = (t', Ok tt) /\ find_delivery id t' = Some (f r) /\
    attempts_of id t' = attempts_of id t.
Proof.
  intros Hr. unfold db_update.
  destruct (proj2 (update_is_Some id f t) (ex_intro _ r Hr)) as [t' Ht]. rewrite Ht.
  exists t'. split; [done|]. rewrite (update_find_eq _ _ _ _ Ht), Hr.
  by rewrite (update_attempts _ _ _ _ Ht).
Qed.

Lemma db_update_miss id f (t : T) :
  find_delivery id t = None -> db_update id f t = (t, Throw missing_record).
Proof.
  intros Hr. unfold db_update. destruct (update_delivery id f t) eqn:E; [|done].
  assert (is_Some (find_delivery id t)) as [? Hx] by (apply update_is_Some with f; eauto). congruence.
Qed.
End laws.
End DeliveryRepository.

Module AttemptRepository.
Import Store.

Section repository.
Context {T : Type} `{Prisma T}.
Abbreviation M := (meth T exn).

(** infrastructure/repositories/attempt-repository.ts:142-144 findByDeliveryId *)
Definition findByDeliveryId (id : string) : M (list attempt) := gets (attempts_of id).

(** The parent's update; a missing delivery (P2025) is ignored. *)
Definition touch_parent (deliveryId : string) (f : row -> row) : M unit := fun t =>
  match update_delivery deliveryId f t with
  | Some t' => (t', Ok tt)
  | None => (t, Ok tt)
  end.

(** infrastructure/repositories/attempt-repository.ts:93-135 recordAttempt
    The parent's update ignores a missing delivery (P2025). *)
Definition recordAttempt (now : Z) (deliveryId : string) (attemptNumber : Z)
    (responseStatus responseTimeMs : option Z) (errorMessage : option string) : M attempt :=
  if match responseStatus with Some s => (s <? 100) || (s >? 599) | None => false end
  then fail (ValidationError "Invalid HTTP response status range")
  else
    let a := Attempt deliveryId attemptNumber responseStatus (default 0 responseTimeMs) errorMessage in
    DeliveryRepository.insert_attempt a;;
    touch_parent deliveryId (with_attempt now attemptNumber errorMessage);;
    mret a.
End repository.
End AttemptRepository.
