(* ===== verification/StateMachine.v ===== *)
(** * The worker's state machine, error classifier and attempt recorder

    [worker/state-machine/], [worker/error-classifier.ts] and
    [worker/attempt-recorder.ts] over the repositories of [Store]. *)
From Stdlib Require Import Ascii QArith Qround Qpower Qabs Lqa.
From stdpp Require Import base tactics numbers list strings relations gmap.
From S2P Require Import Prelude JsNum JsValue Errors DomainTypes ValueObjects Store.

Module Transitions.

(** worker/state-machine/state-transitions.ts:8-14 VALID_DELIVERY_TRANSITIONS *)
Definition VALID_DELIVERY_TRANSITIONS (s : string) : option (list string) :=
  assoc s [("PENDING", ["PROCESSING"]);
           ("PROCESSING", ["COMPLETED"; "SCHEDULED_RETRY"; "FAILED_DLQ"]);
           ("SCHEDULED_RETRY", ["PENDING"; "PROCESSING"]);
           ("COMPLETED", []);
           ("FAILED_DLQ", [])].

(** worker/state-machine/state-transitions.ts:19-23 isValidStateTransition *)
Definition isValidStateTransition (fromState toState : string) : bool :=
  match VALID_DELIVERY_TRANSITIONS (to_upper fromState) with
  | None => false
  | Some allowedNextStates => existsb (str_eqb (to_upper toState)) allowedNextStates
  end.

(** The table on the enumeration. *)
Definition edge (a b : Status.t) : bool :=
  match a, b with
  | Status.PENDING, Status.PROCESSING
  | Status.PROCESSING, (Status.COMPLETED | Status.SCHEDULED_RETRY | Status.FAILED_DLQ)
  | Status.SCHEDULED_RETRY, (Status.PENDING | Status.PROCESSING) => true
  | _, _ => false
  end.

(** The status a stored name denotes. *)
Definition status_of_name (s : string) : option Status.t :=
  assoc s [("PENDING", Status.PENDING); ("PROCESSING", Status.PROCESSING);
           ("COMPLETED", Status.COMPLETED); ("SCHEDULED_RETRY", Status.SCHEDULED_RETRY);
           ("FAILED_DLQ", Status.FAILED_DLQ)].

Lemma status_of_name_getValue s : status_of_name (Status.getValue s) = Some s.
Proof. by destruct s. Qed.

Lemma valid_edge a b : isValidStateTransition (Status.getValue a) (Status.getValue b) = edge a b.
Proof. by destruct a, b. Qed.

(** Whatever passes the check from a status is, in upper case, the name of a
    successor of it. *)
Lemma valid_target a target :
  isValidStateTransition (Status.getValue a) (to_upper target) = true ->
  exists b, status_of_name (to_upper target) = Some b /\ to_upper target = Status.getValue b /\ edge a b = true.
Proof.
  unfold isValidStateTransition. rewrite to_upper_idem. generalize (to_upper target). intros u.
  destruct a; simpl; intros H; repeat (apply orb_true_iff in H as [H|H]); try done;
    apply str_eqb_eq in H; subst u; eexists; by split_and!.
Qed.

End Transitions.

Module StateMachine.
Import Transitions Store.

(** The metadata the callers of [transition] pass. *)
Record metadata : Type := Meta {
  m_completedAt : option date; m_latencyMs : option Z;
  m_nextRetryAt : option date; m_lastError : option string;
  m_failedAt : option date; m_failureReason : option string;
}.
Definition no_keys (m : metadata) : bool :=
  match m with Meta None None None None None None => true | _ => false end.

(** Metadata as the dynamically typed value a repository receives for a
    transaction client. *)
Definition meta_js (m : option metadata) : jsval :=
  match m with
  | None => JUndefined
  | Some m =>
      let key {A} (k : string) (f : option A) := match f with Some _ => [(k, JNull)] | None => [] end in
      JObject 0 (key "completedAt" (m_completedAt m) ++ key "latencyMs" (m_latencyMs m)
        ++ key "nextRetryAt" (m_nextRetryAt m) ++ key "lastError" (m_lastError m)
        ++ key "failedAt" (m_failedAt m) ++ key "failureReason" (m_failureReason m))
  end.

(** A [Date] object has no property a transaction client has. *)
Definition date_js (d : option date) : jsval :=
  match d with Some _ => JObject 0 [] | None => JUndefined end.

(** [expect], a global of the test runner, is not declared in production. *)
Definition reference_error : exn :=
  Foreign (JError 0 [("name", JString "ReferenceError"); ("message", JString "expect is not defined")]).

Section machine.
Context {T : Type} `{Prisma T}.
Abbreviation M := (meth T exn).

(** worker/state-machine/delivery-state-machine.ts:14-18 canTransition *)
Definition canTransition (fromState toState : jsval) : bool :=
  let str v := if is_object v
               then js_String (js_or (js_get "value" v) (js_or (js_get "kind" v) (JString (js_String v))))
               else js_String v in
  isValidStateTransition (str fromState) (str toState).

(** worker/state-machine/delivery-state-machine.ts:38-41 transition
    The evaluation of [optionsArg]. *)
Definition optionsArg (md : option metadata) : M unit :=
  match md with
  | Some m => if no_keys m then fail reference_error else mret tt
  | None => fail reference_error
  end.

(** worker/state-machine/delivery-state-machine.ts:20-66 transition
    Over a [DeliveryRepository]; a delivery that is not found counts as
    PENDING.  No event publisher is wired.  A name that is not a status is
    rejected by the client before the update. *)
Definition transition (deliveryId targetState : string) (md : option metadata) : M unit :=
  delivery ← DeliveryRepository.findById deliveryId;
  let currentStatus := Status.getValue (match delivery with Some r => r_status r | None => Status.PENDING end) in
  let targetStatus := to_upper targetState in
  if negb (str_eqb currentStatus targetStatus) && negb (isValidStateTransition currentStatus targetStatus)
  then fail (InvalidDeliveryStateError currentStatus targetStatus)
  else
    match status_of_name targetStatus with
    | None => fail (mapDatabaseError (JsTypeError "Invalid value for argument `status`"))
    | Some target =>
        if str_eqb targetStatus "COMPLETED" then
          optionsArg md;; DeliveryRepository.updateDeliveryStatus deliveryId target (date_js (md ≫= m_completedAt))
        else if str_eqb targetStatus "SCHEDULED_RETRY" then
          optionsArg md;; DeliveryRepository.scheduleRetry deliveryId (md ≫= m_nextRetryAt)
        else DeliveryRepository.updateStatus deliveryId target (meta_js md)
    end.

(** worker/state-machine/delivery-state-machine.ts:68-70 transitionTo *)
Definition transitionTo := transition.
(** worker/state-machine/delivery-state-machine.ts:72-74 markProcessing *)
Definition markProcessing (deliveryId : string) : M unit := transition deliveryId "PROCESSING" None.
(** worker/state-machine/delivery-state-machine.ts:76-78 markCompleted *)
Definition markCompleted (now : Z) (deliveryId : string) (latencyMs : Z) : M unit :=
  transition deliveryId "COMPLETED" (Some (Meta (Some (Some now)) (Some latencyMs) None None None None)).
(** worker/state-machine/delivery-state-machine.ts:80-86 scheduleRetry *)
Definition scheduleRetry (now : Z) (deliveryId : string) (delayMs : Z) (error : jsval) : M unit :=
  transition deliveryId "SCHEDULED_RETRY"
    (Some (Meta None None (Some (Some (now + delayMs)))
      (Some (js_String (js_or (js_get "message" error) (JString (js_String error))))) None None)).
(** worker/state-machine/delivery-state-machine.ts:88-93 moveToDeadLetterQueue *)
Definition moveToDeadLetterQueue (now : Z) (deliveryId reason : string) : M unit :=
  transition deliveryId "FAILED_DLQ" (Some (Meta None None None None (Some (Some now)) (Some reason))).
End machine.

(** ** Properties *)

Section properties.
Context {T : Type} `{Prisma T}.

(** A transition leaves the tables alone, or moves one delivery along an edge
    (or onto its own status). *)
Lemma transition_effect id target md (t : T) :
  (transition id target md t).1 = t \/
  exists r b f, find_delivery id t = Some r /\ status_of_name (to_upper target) = Some b /\
    (b = r_status r \/ edge (r_status r) b = true) /\ r_status (f r) = b /\
    update_delivery id f t = Some (transition id target md t).1.
Proof.
  unfold transition, DeliveryRepository.findById. munfold.
  destruct (negb _ && negb _) eqn:Hg; [by left|].
  destruct (status_of_name (to_upper target)) as [b|] eqn:Hb; [|by left].
  assert (Hedge : forall r, find_delivery id t = Some r -> b = r_status r \/ edge (r_status r) b = true).
  { intros r Hr. rewrite Hr in Hg. apply andb_false_iff in Hg as [Hg|Hg]; apply negb_false_iff in Hg.
    - left. apply str_eqb_eq in Hg. rewrite <- Hg, status_of_name_getValue in Hb. congruence.
    - right. destruct (valid_target (r_status r) target) as (b' & Hb' & _ & He).
      { unfold isValidStateTransition in *. by rewrite to_upper_idem in *. }
      rewrite Hb in Hb'. by injection Hb' as ->. }
  assert (Hup : forall f, (forall r, r_status (f r) = b) ->
    (DeliveryRepository.db_update id f t).1 = t \/
    exists r b0 f0, find_delivery id t = Some r /\ Some b = Some b0 /\
      (b0 = r_status r \/ edge (r_status r) b0 = true) /\ r_status (f0 r) = b0 /\
      update_delivery id f0 t = Some (DeliveryRepository.db_update id f t).1).
  { intros f Hf. unfold DeliveryRepository.db_update.
    destruct (update_delivery id f t) as [t'|] eqn:Hu; [|by left]. right.
    destruct (proj1 (update_is_Some id f t) (ex_intro _ t' Hu)) as [r Hr].
    exists r, b, f. split_and!; eauto. }
  unfold DeliveryRepository.updateDeliveryStatus, DeliveryRepository.scheduleRetry,
    DeliveryRepository.updateStatus, optionsArg.
  repeat match goal with
    | |- context [match ?x with _ => _ end] =>
        lazymatch x with
        | str_eqb _ _ => destruct x eqn:?
        | no_keys _ => destruct x
        | DeliveryRepository.has_tx _ => destruct x
        | js_truthy _ && _ => destruct x
        | js_truthy _ => destruct x
        | negb _ => destruct x
        | md => destruct md as [md|]
        end; simpl; try (by left)
    end; try (apply Hup; done).
  all: apply Hup; intros r; simpl; str_cases; subst;
    match goal with E : to_upper _ = _ |- _ => rewrite E in Hb end; by injection Hb as <-.
Qed.

(** Calls of [transition], in any order, on any deliveries. *)
Inductive step : T -> T -> Prop :=
| step_transition id target md t : step t (transition id target md t).1.

Definition edgeR (a b : Status.t) : Prop := edge a b = true.

Lemma final_no_edge a b : Status.isFinal a = true -> edgeR a b -> False.
Proof. by destruct a, b. Qed.

Lemma step_row id t t' r :
  find_delivery id t = Some r -> step t t' ->
  exists r', find_delivery id t' = Some r' /\ (r_status r' = r_status r \/ edgeR (r_status r) (r_status r')).
Proof.
  intros Hr Hs. destruct Hs as [id' target md t].
  destruct (transition_effect id' target md t) as [->|(r0 & b & f & Hr0 & _ & Hb & Hf & Hu)]; [by eauto|].
  destruct (decide (id' = id)) as [->|Hne].
  - rewrite Hr in Hr0. injection Hr0 as <-. exists (f r).
    rewrite (update_find_eq _ _ _ _ Hu), Hr. split; [done|]. rewrite Hf. naive_solver.
  - exists r. rewrite (update_find_ne _ _ _ _ _ Hne Hu). by auto.
Qed.

(** Every delivery of [t] is in [t'], its status moved along edges at most. *)
Definition statuses_advance (t t' : T) : Prop :=
  forall id r, find_delivery id t = Some r ->
    exists r', find_delivery id t' = Some r' /\ rtc edgeR (r_status r) (r_status r').

#[global] Instance statuses_advance_preorder : PreOrder statuses_advance.
Proof.
  split.
  - intros t id r Hr. exists r. split; [done|apply rtc_refl].
  - intros t1 t2 t3 H12 H23 id r Hr. destruct (H12 id r Hr) as (r2 & Hr2 & P2).
    destruct (H23 id r2 Hr2) as (r3 & Hr3 & P3). exists r3. split; [done|by etransitivity].
Qed.

Lemma transition_advances id target md t : statuses_advance t (transition id target md t).1.
Proof.
  intros id' r Hr. destruct (step_row id' t _ r Hr (step_transition id target md t)) as (r' & Hr' & [He|He]).
  - exists r'. split; [done|]. rewrite He. apply rtc_refl.
  - exists r'. split; [done|by apply rtc_once].
Qed.

Lemma update_advances id f t t' :
  (forall r, r_status (f r) = r_status r) -> update_delivery id f t = Some t' -> statuses_advance t t'.
Proof.
  intros Hf Hu id' r Hr. destruct (decide (id = id')) as [->|Hne].
  - exists (f r). rewrite (update_find_eq _ _ _ _ Hu), Hr. split; [done|]. rewrite Hf. apply rtc_refl.
  - exists r. rewrite (update_find_ne _ _ _ _ _ Hne Hu). split; [done|apply rtc_refl].
Qed.

(** whatever calls of [transition] are made, on whatever deliveries, every
    delivery stays in the table, its status moves only along the edges of
    [VALID_DELIVERY_TRANSITIONS], and a COMPLETED or FAILED_DLQ delivery keeps
    its status for ever. *)
Theorem transitions_follow_table id t t' r :
  find_delivery id t = Some r -> rtc step t t' ->
  exists r', find_delivery id t' = Some r' /\
    rtc edgeR (r_status r) (r_status r') /\
    (Status.isFinal (r_status r) = true -> r_status r' = r_status r).
Proof.
  intros Hr Hs. revert r Hr. induction Hs as [t|t t1 t' H1 _ IH]; intros r Hr.
  { exists r. split_and!; [done|apply rtc_refl|done]. }
  destruct (step_row _ _ _ _ Hr H1) as (r1 & Hr1 & Hd). destruct (IH r1 Hr1) as (r' & Hr' & Hp & Hf).
  exists r'. split; [done|]. destruct Hd as [He|He].
  - rewrite He in *. done.
  - split; [by eapply rtc_l|]. intros Hfin. by destruct (final_no_edge _ _ Hfin He).
Qed.

Lemma markProcessing_hit id t r :
  find_delivery id t = Some r -> Status.isFinal (r_status r) = false ->
  exists t', markProcessing id t = (t', Ok tt) /\
    find_delivery id t' = Some (with_status Status.PROCESSING r) /\ attempts_of id t' = attempts_of id t.
Proof.
  intros Hr Hs. unfold markProcessing, transition, DeliveryRepository.findById. munfold. rewrite Hr.
  destruct (DeliveryRepository.db_update_hit id (with_status Status.PROCESSING) t r Hr) as (t' & E & F & A).
  exists t'. destruct (r_status r); by split_and!.
Qed.

Lemma markCompleted_hit now id latency t r :
  find_delivery id t = Some r -> r_status r = Status.PROCESSING ->
  exists t', markCompleted now id latency t = (t', Ok tt) /\
    find_delivery id t' = Some (with_status Status.COMPLETED r) /\ attempts_of id t' = attempts_of id t.
Proof.
  intros Hr Hs. unfold markCompleted, transition, DeliveryRepository.findById. munfold. rewrite Hr, Hs.
  destruct (DeliveryRepository.db_update_hit id (with_status Status.COMPLETED) t r Hr) as (t' & E & F & A).
  exists t'. by split_and!.
Qed.

Lemma scheduleRetry_hit now id delay error t r :
  find_delivery id t = Some r -> r_status r = Status.PROCESSING ->
  exists t', scheduleRetry now id delay error t = (t', Ok tt) /\
    find_delivery id t' = Some (with_retry (Some (Some (now + delay))) r) /\ attempts_of id t' = attempts_of id t.
Proof.
  intros Hr Hs. unfold scheduleRetry, transition, DeliveryRepository.findById. munfold. rewrite Hr, Hs.
  destruct (DeliveryRepository.db_update_hit id (with_retry (Some (Some (now + delay)))) t r Hr) as (t' & E & F & A).
  exists t'. by split_and!.
Qed.

(** What the repository answers to metadata in the place of a client. *)
Definition not_a_client : exn :=
  mapDatabaseError (JsTypeError "Cannot read properties of undefined (reading 'update')").

Lemma moveToDeadLetterQueue_fails now id reason t r :
  find_delivery id t = Some r -> r_status r = Status.PROCESSING ->
  moveToDeadLetterQueue now id reason t = (t, Throw not_a_client).
Proof.
  intros Hr Hs. unfold moveToDeadLetterQueue, transition, DeliveryRepository.findById. munfold.
  by rewrite Hr, Hs.
Qed.

(** [moveToDeadLetterQueue] always throws and never changes the tables: from
    a state that may be dead-lettered, the metadata it passes is taken by the
    repository for a transaction client, and the error is an internal one. *)
Theorem dead_letter_never_stored now id reason t :
  (moveToDeadLetterQueue now id reason t).1 = t /\
  (moveToDeadLetterQueue now id reason t).2 =
    Throw (match find_delivery id t with
           | Some r => match r_status r with
                       | Status.PROCESSING | Status.FAILED_DLQ => not_a_client
                       | s => InvalidDeliveryStateError (Status.getValue s) "FAILED_DLQ"
                       end
           | None => InvalidDeliveryStateError "PENDING" "FAILED_DLQ"
           end).
Proof.
  unfold moveToDeadLetterQueue, transition, DeliveryRepository.findById. munfold.
  destruct (find_delivery id t) as [r|]; [|done]. by destruct (r_status r).
Qed.

(** From PROCESSING, [markCompleted] stores COMPLETED and nothing else, and
    [scheduleRetry] stores SCHEDULED_RETRY with the retry due [delayMs] later
    (and not the error); the attempts are untouched.  From a final state both
    are rejected and change nothing. *)
Theorem processing_outcomes now id latency delay error t r :
  find_delivery id t = Some r ->
  (r_status r = Status.PROCESSING ->
    exists t1 t2,
      markCompleted now id latency t = (t1, Ok tt) /\
      find_delivery id t1 = Some (with_status Status.COMPLETED r) /\
      attempts_of id t1 = attempts_of id t /\
      scheduleRetry now id delay error t = (t2, Ok tt) /\
      find_delivery id t2 = Some (with_retry (Some (Some (now + delay))) r) /\
      attempts_of id t2 = attempts_of id t) /\
  (r_status r = Status.FAILED_DLQ ->
    markCompleted now id latency t = (t, Throw (InvalidDeliveryStateError "FAILED_DLQ" "COMPLETED")) /\
    scheduleRetry now id delay error t = (t, Throw (InvalidDeliveryStateError "FAILED_DLQ" "SCHEDULED_RETRY"))) /\
  (r_status r = Status.COMPLETED ->
    scheduleRetry now id delay error t = (t, Throw (InvalidDeliveryStateError "COMPLETED" "SCHEDULED_RETRY"))).
Proof.
  intros Hr. split_and!; intros Hs.
  - destruct (markCompleted_hit now id latency t r Hr Hs) as (t1 & E1 & F1 & A1).
    destruct (scheduleRetry_hit now id delay error t r Hr Hs) as (t2 & E2 & F2 & A2).
    exists t1, t2. by split_and!.
  - unfold markCompleted, scheduleRetry, transition, DeliveryRepository.findById. munfold. by rewrite Hr, Hs.
  - unfold scheduleRetry, transition, DeliveryRepository.findById. munfold. by rewrite Hr, Hs.
Qed.
End properties.

Definition sample_row (s : Status.t) : row := Row "r1" "dest1" s 0 None None None None.
Definition sample_tables (s : Status.t) : tables := Tables {["d1" := sample_row s]} [].

Lemma transitions_follow_table_witness :
  exists r', find_delivery "d1" (markCompleted 5 "d1" 3 (markProcessing "d1" (sample_tables Status.PENDING)).1).1
      = Some r' /\ rtc edgeR Status.PENDING (r_status r') /\
    (Status.isFinal Status.PENDING = true -> r_status r' = Status.PENDING).
Proof.
  apply (transitions_follow_table "d1" (sample_tables Status.PENDING) _ (sample_row Status.PENDING)); [done|].
  eapply rtc_l; [apply (step_transition "d1" "PROCESSING" None)|].
  eapply rtc_l; [apply (step_transition "d1" "COMPLETED")|]. apply rtc_refl.
Defined.

Lemma processing_outcomes_witness :
  exists t1 t2,
    markCompleted 5 "d1" 3 (sample_tables Status.PROCESSING) = (t1, Ok tt) /\
    find_delivery "d1" t1 = Some (with_status Status.COMPLETED (sample_row Status.PROCESSING)) /\
    attempts_of "d1" t1 = attempts_of "d1" (sample_tables Status.PROCESSING) /\
    scheduleRetry 5 "d1" 5000 JNull (sample_tables Status.PROCESSING) = (t2, Ok tt) /\
    find_delivery "d1" t2 = Some (with_retry (Some (Some 5005)) (sample_row Status.PROCESSING)) /\
    attempts_of "d1" t2 = attempts_of "d1" (sample_tables Status.PROCESSING).
Proof.
  by apply (processing_outcomes 5 "d1" 3 5000 JNull (sample_tables Status.PROCESSING) (sample_row Status.PROCESSING)).
Defined.

End StateMachine.

(** ** Error classification *)

Module Classifier.

(** worker/error-classifier.ts:1-8 ErrorCategory *)
Inductive category : Type := TRANSIENT | PERMANENT | NETWORK | TIMEOUT | VALIDATION | SERVER | UNKNOWN.
#[global] Instance category_eq_dec : EqDecision category.
Proof. solve_decision. Defined.

(** worker/error-classifier.ts:10-15 ClassificationResult *)
Record classification : Type := Classification { c_category : category; c_retryable : bool }.

(** [statusCode || error?.statusCode || error?.status || error?.response?.status] *)
Definition code_of (error statusCode : jsval) : jsval :=
  js_or statusCode (js_or (js_get "statusCode" error)
    (js_or (js_get "status" error) (js_get "status" (js_get "response" error)))).

(** worker/error-classifier.ts:56-66 getCategory
    The part that looks at a numeric code. *)
Definition category_of_code (code : jsval) : option category :=
  match code with
  | JNum c =>
      if num_eqb c 408 then Some TIMEOUT
      else if num_eqb c 429 || num_geb c 500 then Some TRANSIENT
      else if num_geb c 400 && num_ltb c 500 then
        (if num_eqb c 422 || num_eqb c 400 then Some VALIDATION else Some PERMANENT)
      else None
  | _ => None
  end.

(** worker/error-classifier.ts:69-91 getCategory
    The part that looks at the message, the code and the name. *)
Definition category_of_error (error : jsval) : category :=
  let msg := to_lower (js_String (js_or (js_get "message" error) (js_or error (JString "")))) in
  if includes "validation" msg then VALIDATION
  else
    let errCode := to_upper (js_String (js_or (js_get "code" error) (JString ""))) in
    if existsb (str_eqb errCode) ["ECONNREFUSED"; "ENOTFOUND"; "EPIPE"; "EHOSTUNREACH"; "EAI_AGAIN"]
    then NETWORK
    else if str_eqb errCode "ETIMEDOUT" || js_strict_eq (js_get "name" error) (JString "TimeoutError")
            || includes "timeout" msg then TIMEOUT
    else if js_strict_eq (js_get "name" error) (JString "ValidationError")
            || js_strict_eq (js_get "code" error) (JString "VALIDATION_FAILED") then VALIDATION
    else if includes "connection refused" msg || includes "network" msg || includes "socket hang up" msg
            || includes "reset" msg then NETWORK
    else UNKNOWN.

(** worker/error-classifier.ts:53-92 getCategory *)
Definition getCategory (error statusCode : jsval) : category :=
  match category_of_code (code_of error statusCode) with
  | Some c => c
  | None => category_of_error error
  end.

(** worker/error-classifier.ts:45-48 getRetryable *)
Definition getRetryable (error statusCode : jsval) : bool :=
  match getCategory error statusCode with
  | TRANSIENT | NETWORK | TIMEOUT | SERVER | UNKNOWN => true
  | PERMANENT | VALIDATION => false
  end.

(** worker/error-classifier.ts:26-36 classify *)
Definition classify (error statusCode : jsval) : classification :=
  let code := code_of error statusCode in
  Classification (getCategory error code) (getRetryable error code).

(** worker/error-classifier.ts:38-40 classifyHttpStatus *)
Definition classifyHttpStatus (statusCode : Z) : classification :=
  classify (JError 0 [("name", JString "Error"); ("message", JString ("HTTP " +:+ num_to_string (ofZ statusCode)))])
    (JNum (ofZ statusCode)).

Lemma code_of_Z error sc : sc <> 0 -> code_of error (JNum (ofZ sc)) = JNum (ofZ sc).
Proof.
  intros H. unfold code_of, js_or. change (js_truthy (JNum (ofZ sc))) with (num_truthy (ofZ sc)). rewrite num_truthy_Z.
  by rewrite (proj2 (Z.eqb_neq sc 0) H).
Qed.

(** The numeric part on an integer code. *)
Lemma category_of_code_Z sc :
  category_of_code (JNum (ofZ sc)) =
  if sc =? 408 then Some TIMEOUT
  else if (sc =? 429) || (500 <=? sc) then Some TRANSIENT
  else if (400 <=? sc) && (sc <? 500) then
    (if (sc =? 422) || (sc =? 400) then Some VALIDATION else Some PERMANENT)
  else None.
Proof. unfold category_of_code, num_geb. by rewrite !num_eqb_Z, !num_leb_Z, num_ltb_Z. Qed.

(** C38: On every HTTP error status, whatever the error object says, the worker's
    classifier retries exactly the statuses [HttpStatusCode.isRetryable] names,
    and gives a permanent or validation category exactly to the statuses of
    [isPermanentFailure]; without a numeric code an error is retried unless it is
    recognised as a validation error. *)
Theorem classifier_agrees_http error sc :
  (400 <= sc <= 599 ->
    c_retryable (classify error (JNum (ofZ sc))) = HttpStatus.isRetryable (HttpStatus.Mk sc) /\
    bool_decide (c_category (classify error (JNum (ofZ sc))) = PERMANENT \/
                 c_category (classify error (JNum (ofZ sc))) = VALIDATION)
      = HttpStatus.isPermanentFailure (HttpStatus.Mk sc)) /\
  (category_of_code (code_of error JUndefined) = None ->
    c_retryable (classify error JUndefined) = negb (bool_decide (c_category (classify error JUndefined) = VALIDATION)) /\
    c_category (classify error JUndefined) = category_of_error error).
Proof.
  split.
  - intros Hsc. unfold classify, getRetryable, getCategory. cbn [c_retryable c_category].
    rewrite !code_of_Z, category_of_code_Z by lia.
    unfold HttpStatus.isRetryable, HttpStatus.isPermanentFailure, HttpStatus.isServerError,
      HttpStatus.isClientError; simpl.
    destruct (Z.eqb_spec sc 408); [by subst|]. destruct (Z.eqb_spec sc 429); [by subst|]. simpl.
    destruct (Z.leb_spec 500 sc); simpl.
    + replace (sc >=? 500) with true by lia. replace (sc <? 600) with true by lia.
      replace (sc >=? 400) with true by lia. replace (sc <? 500) with false by lia. done.
    + replace (400 <=? sc) with true by lia. replace (sc <? 500) with true by lia.
      replace (sc >=? 500) with false by lia. replace (sc >=? 400) with true by lia. simpl.
      by destruct ((sc =? 422) || (sc =? 400)).
  - intros Hn.
    assert (Hc : code_of error (code_of error JUndefined) = code_of error JUndefined).
    { unfold code_of. change (js_or JUndefined ?x) with x. unfold js_or.
      repeat match goal with |- context [if ?b then _ else _] => destruct b eqn:? end; congruence. }
    unfold classify, getRetryable, getCategory. cbn [c_retryable c_category].
    rewrite Hc, Hn. split; [|done]. unfold category_of_error.
    by repeat match goal with |- context [if ?b then _ else _] => destruct b end.
Qed.

Lemma classifier_agrees_http_witness :
  c_retryable (classify JNull (JNum (ofZ 503))) = HttpStatus.isRetryable (HttpStatus.Mk 503) /\
  c_category (classify (JError 1 [("message", JString "socket hang up")]) JUndefined) = NETWORK.
Proof.
  split.
  - apply (proj1 (classifier_agrees_http JNull 503)). lia.
  - apply (proj2 (classifier_agrees_http (JError 1 [("message", JString "socket hang up")]) 503)). reflexivity.
Defined.

End Classifier.

(** ** Recording attempts *)

Module AttemptRecorder.
Import Store.

(** The object [recordSuccess] and [recordFailure] hand to [record]. *)
Record outcome : Type := Outcome { o_latencyMs : Z; o_statusCode : option Z; o_error : jsval }.

(** [attemptObj.statusCode || .. || (attemptObj.error ? 500 : 200)] *)
Definition status_code (o : outcome) : Z :=
  match o_statusCode o with
  | Some s => if s =? 0 then (if js_truthy (o_error o) then 500 else 200) else s
  | None => if js_truthy (o_error o) then 500 else 200
  end.

(** [attemptObj.error?.message || .. || (typeof attemptObj.error === 'string' ? .. : null)],
    as the text column takes it: the client rejects what is neither a string nor null. *)
Definition error_text (o : outcome) : res exn (option string) :=
  match js_or (js_get "message" (o_error o)) (match o_error o with JString s => JString s | _ => JNull end) with
  | JString s => Ok (Some s)
  | JUndefined | JNull => Ok None
  | _ => Throw (mapDatabaseError (JsTypeError "Argument `errorMessage`: Invalid value provided."))
  end.

Section recorder.
Context {T : Type} `{Prisma T}.
Abbreviation M := (meth T exn).

(** worker/attempt-recorder.ts:16-69 record
    The attempt, or [null] when storing it failed. *)
Definition record (now : Z) (deliveryId : string) (o : outcome) : M (option attempt) :=
  try_catch
    (existing ← AttemptRepository.findByDeliveryId deliveryId;
     let attemptNumber := Z.of_nat (length existing) + 1 in
     text ← lift_res (error_text o);
     a ← AttemptRepository.recordAttempt now deliveryId attemptNumber (Some (status_code o))
           (Some (o_latencyMs o)) text;
     mret (Some a))
    (fun _ => mret None).

(** worker/attempt-recorder.ts:71-78 getAttemptHistory *)
Definition getAttemptHistory (deliveryId : string) : M (list attempt) :=
  AttemptRepository.findByDeliveryId deliveryId.

(** worker/attempt-recorder.ts:80-82 recordSuccess *)
Definition recordSuccess (now : Z) (deliveryId : string) (latencyMs : Z) : M (option attempt) :=
  record now deliveryId (Outcome latencyMs None JUndefined).

(** worker/attempt-recorder.ts:84-91 recordFailure *)
Definition recordFailure (now : Z) (deliveryId : string) (latencyMs : Z) (statusCode : option Z)
    (error : jsval) : M (option attempt) :=
  record now deliveryId (Outcome latencyMs statusCode error).

(** The attempt [record] would store next. *)
Definition next_attempt (id : string) (o : outcome) (text : option string) (t : T) : attempt :=
  Attempt id (Z.of_nat (length (attempts_of id t)) + 1) (Some (status_code o)) (o_latencyMs o) text.

Lemma record_hit now id o t r text :
  find_delivery id t = Some r -> error_text o = Ok text -> 100 <= status_code o <= 599 ->
  exists t', record now id o t = (t', Ok (Some (next_attempt id o text t))) /\
    attempts_of id t' = attempts_of id t ++ [next_attempt id o text t] /\
    find_delivery id t' =
      Some (with_attempt now (Z.of_nat (length (attempts_of id t)) + 1) text r).
Proof.
  intros Hr Ht Hs. unfold record, AttemptRepository.findByDeliveryId, AttemptRepository.recordAttempt.
  munfold. rewrite Ht. replace (_ || _) with false by lia.
  destruct (DeliveryRepository.insert_attempt_hit (next_attempt id o text t) t r Hr) as (t1 & E1 & F1 & A1).
  unfold next_attempt in *. rewrite E1. unfold AttemptRepository.touch_parent. munfold.
  assert (is_Some (find_delivery id t1)) as Hi by (rewrite F1; eauto).
  apply (update_is_Some id (with_attempt now (Z.of_nat (length (attempts_of id t)) + 1) text) t1) in Hi as [t2 Hu].
  rewrite Hu. exists t2. split; [done|]. simpl in A1.
  by rewrite (update_attempts _ _ _ _ Hu), A1, (update_find_eq _ _ _ _ Hu), F1, Hr.
Qed.

Lemma record_advances now id o t : StateMachine.statuses_advance t (record now id o t).1.
Proof.
  unfold record, AttemptRepository.findByDeliveryId, AttemptRepository.recordAttempt,
    DeliveryRepository.insert_attempt, AttemptRepository.touch_parent. munfold.
  destruct (error_text o) as [text|e]; simpl; [|reflexivity].
  destruct (_ || _); simpl; [reflexivity|].
  destruct (create_attempt _ t) as [t1|] eqn:Ec; simpl; [|reflexivity].
  assert (StateMachine.statuses_advance t t1) as H1.
  { intros id' r Hr. exists r. rewrite (create_find _ _ _ _ Ec). split; [done|apply rtc_refl]. }
  destruct (update_delivery _ _ t1) as [t2|] eqn:Eu; simpl; [|done].
  etransitivity; [exact H1|]. eapply StateMachine.update_advances; [|exact Eu]. done.
Qed.

(** Recording never throws.  For a known delivery, a status the repository
    accepts and a textual message it appends exactly one attempt, numbered one
    more than the attempts stored so far, and sets the delivery's retry count to
    that number, its last error to the message and its last attempt to the
    clock; for an unknown delivery it stores nothing and returns null. *)
Theorem record_appends now id o t :
  (forall e, (record now id o t).2 <> Throw e) /\
  (forall r text, find_delivery id t = Some r -> error_text o = Ok text -> 100 <= status_code o <= 599 ->
    (record now id o t).2 = Ok (Some (next_attempt id o text t)) /\
    attempts_of id (record now id o t).1 = attempts_of id t ++ [next_attempt id o text t] /\
    find_delivery id (record now id o t).1 =
      Some (with_attempt now (Z.of_nat (length (attempts_of id t)) + 1) text r)) /\
  (find_delivery id t = None -> record now id o t = (t, Ok None)).
Proof.
  split_and!.
  - intros e. unfold record, try_catch. by case_match; case_match.
  - intros r text Hr Ht Hs. destruct (record_hit now id o t r text Hr Ht Hs) as (t' & E & A & F).
    by rewrite E.
  - intros Hn. unfold record, AttemptRepository.findByDeliveryId, AttemptRepository.recordAttempt. munfold.
    destruct (error_text o) as [text|e]; [|done].
    destruct (_ || _); [done|]. unfold DeliveryRepository.insert_attempt.
    destruct (create_attempt _ t) as [t1|] eqn:E; [|done].
    assert (is_Some (create_attempt
      (Attempt id (Z.of_nat (length (attempts_of id t)) + 1) (Some (status_code o)) (o_latencyMs o) text) t))
      as [? Hx]%create_is_Some by eauto.
    simpl in Hx. congruence.
Qed.
End recorder.

Lemma record_appends_witness :
  (recordFailure 9 "d1" 4 (Some 503) (JString "down") (StateMachine.sample_tables Status.PROCESSING)).2 =
    Ok (Some (Attempt "d1" 1 (Some 503) 4 (Some "down"))).
Proof.
  destruct (record_appends 9 "d1" (Outcome 4 (Some 503) (JString "down"))
    (StateMachine.sample_tables Status.PROCESSING)) as (_ & Hrec & _).
  unshelve epose proof (Hrec (StateMachine.sample_row Status.PROCESSING) (Some "down") _ _ _) as (E & _).
  - vm_compute. reflexivity.
  - reflexivity.
  - vm_compute. split; discriminate.
  - exact E.
Defined.

End AttemptRecorder.
