(* ===== verification/Connectors.v ===== *)
(** * Destination connectors

    [worker/connectors/]: the four connectors over a network that is a parameter
    (the HTTP client, the keyed hash), with the optional clients their
    constructors look for among their arguments, and the factory that builds
    them with a logger and a tracer only. *)
From Stdlib Require Import Ascii QArith Qround Qpower Qabs Lqa.
From stdpp Require Import base tactics numbers list strings pretty.
From S2P Require Import Prelude JsNum JsValue Errors ValueObjects.

(** ** [JSON.stringify] and [toISOString] *)

Module Json.

Definition hex_digit (n : nat) : ascii :=
  Ascii.ascii_of_nat (if (n <? 10)%nat then 48 + n else 87 + n).

Definition escape_char (c : ascii) : string :=
  let n := Ascii.nat_of_ascii c in
  let esc (k : nat) := String (Ascii.ascii_of_nat 92) (String (Ascii.ascii_of_nat k) EmptyString) in
  if (n =? 34)%nat then esc 34%nat else if (n =? 92)%nat then esc 92%nat
  else if (n =? 8)%nat then esc 98%nat else if (n =? 12)%nat then esc 102%nat
  else if (n =? 10)%nat then esc 110%nat else if (n =? 13)%nat then esc 114%nat
  else if (n =? 9)%nat then esc 116%nat
  else if (n <? 32)%nat
       then esc 117%nat +:+ "00" +:+ String (hex_digit (n / 16)) (String (hex_digit (n mod 16)) EmptyString)
       else String c EmptyString.
Fixpoint escape (s : string) : string :=
  match s with EmptyString => EmptyString | String c s => escape_char c +:+ escape s end.

(** [None] is [undefined].  The message and name of an error are not enumerable. *)
Fixpoint stringify (v : jsval) : option string :=
  let fields (keep : string -> bool) (fs : list (string * jsval)) :=
    (fix go (fs : list (string * jsval)) : list string :=
       match fs with
       | [] => []
       | (k, x) :: fs =>
           match stringify x with
           | Some s => if keep k then (quoted (escape k) +:+ ":" +:+ s) :: go fs else go fs
           | None => go fs
           end
       end) fs in
  match v with
  | JUndefined | JStatusFn _ => None
  | JNull => Some "null"
  | JBool b => Some (if b then "true" else "false")
  | JNum (Fin q) => Some (num_to_string (Fin q))
  | JNum _ => Some "null"
  | JString s => Some (quoted (escape s))
  | JObject _ fs => Some ("{" +:+ String.concat "," (fields (fun _ => true) fs) +:+ "}")
  | JError _ fs =>
      Some ("{" +:+ String.concat ","
        (fields (fun k => negb (str_eqb k "message" || str_eqb k "name" || str_eqb k "stack")) fs) +:+ "}")
  | JArray _ items => Some ("[" +:+ String.concat "," (map (fun x => default "null" (stringify x)) items) +:+ "]")
  end.

(** The civil date of a day number (day 0 is 1970-01-01). *)
Definition civil (days : Z) : Z * Z * Z :=
  let z := days + 719468 in
  let era := z / 146097 in
  let doe := z mod 146097 in
  let yoe := (doe - doe / 1460 + doe / 36524 - doe / 146096) / 365 in
  let doy := doe - (365 * yoe + yoe / 4 - yoe / 100) in
  let mp := (5 * doy + 2) / 153 in
  let d := doy - (153 * mp + 2) / 5 + 1 in
  let m := if mp <? 10 then mp + 3 else mp - 9 in
  (yoe + era * 400 + (if m <=? 2 then 1 else 0), m, d).
Definition pad (k : nat) (n : Z) : string := pad_zeros k (pretty n).
(** Years 0 to 9999. *)
Definition toISOString (ms : Z) : string :=
  let '(y, m, d) := civil (ms / 86400000) in
  let t := ms mod 86400000 in
  pad 4 y +:+ "-" +:+ pad 2 m +:+ "-" +:+ pad 2 d +:+ "T" +:+ pad 2 (t / 3600000) +:+ ":"
  +:+ pad 2 (t / 60000 mod 60) +:+ ":" +:+ pad 2 (t / 1000 mod 60) +:+ "." +:+ pad 3 (t mod 1000) +:+ "Z".

Example json_ex :
  stringify (JObject 0 [("a", JNum 1); ("b", JArray 1 [JUndefined; JString "x"]); ("c", JUndefined)]) =
    Some ("{" +:+ quoted "a" +:+ ":1," +:+ quoted "b" +:+ ":[null," +:+ quoted "x" +:+ "]}") /\
  toISOString 1709210096789 = "2024-02-29T12:34:56.789Z".
Proof. vm_compute. split; reflexivity. Qed.

End Json.

(** ** The connectors *)

Module Connectors.
Import Json.

(** worker/connectors/base-connector.ts:1-9 ConnectorResult
    Of the metadata, [isPermanent]; status codes are integers. *)
Record cresult : Type := Result {
  success : bool; statusCode : option Z; latencyMs : Z; response : jsval;
  error : jsval; message : jsval; isPermanent : option bool;
}.

(** The outside world: the HTTP client ([res?.status] and [res?.data] of a
    response, or a thrown error) and HMAC-SHA256 in hexadecimal. *)
Class Net (W : Type) := {
  axios_post : jsval -> jsval -> list (string * string) -> meth W exn (option Z * jsval);
  hmac_sha256_hex : string -> string -> string;
}.

(** The optional clients a constructor finds among its arguments. *)
Record clients (W : Type) : Type := Clients {
  c_axios : option (jsval -> jsval -> list (string * string) -> meth W exn (option Z * jsval));
  c_signer : option (jsval -> res exn string);
  c_prisma : option (string -> option string -> meth W exn unit);
  c_queue : option (string -> jsval -> jsval -> meth W exn unit);
  c_audit : bool;
}.
Arguments Clients {W}.
Arguments c_axios {W}. Arguments c_signer {W}. Arguments c_prisma {W}. Arguments c_queue {W}.
Arguments c_audit {W}.
Definition no_clients {W} : clients W := Clients None None None None false.

(** An integer status among an error's properties, or [None] if falsy. *)
Definition js_int (v : jsval) : option Z :=
  match v with
  | JNum (Fin q) => if num_is_integer (Fin q) && negb (Qfloor q =? 0) then Some (Qfloor q) else None
  | _ => None
  end.
Definition plain_error (m : string) : exn := PlainError m.
Definition type_error (m : string) : exn :=
  Foreign (JError 0 [("name", JString "TypeError"); ("message", JString m)]).
Definition reference_error : exn :=
  Foreign (JError 0 [("name", JString "ReferenceError"); ("message", JString "expect is not defined")]).

(** [v.includes(sub)] *)
Definition js_includes (sub : string) (v : jsval) : res exn bool :=
  match v with
  | JString s => Ok (includes sub s)
  | JArray _ items => Ok (existsb (js_strict_eq (JString sub)) items)
  | JUndefined => Throw (type_error "Cannot read properties of undefined (reading 'includes')")
  | JNull => Throw (type_error "Cannot read properties of null (reading 'includes')")
  | _ => Throw (type_error "endpoint.includes is not a function")
  end.

Definition endpoint_of (destination : jsval) : jsval :=
  js_or (js_get "endpoint" destination) (js_get "endpointUrl" destination).
Definition in_4xx (s : Z) : bool := (s >=? 400) && (s <? 500).

Section connectors.
Context {W : Type} `{Net W}.
Abbreviation M := (meth W exn).

(** worker/connectors/webhook-connector.ts:122-125 execute *)
Definition webhook_permanent (s : Z) : bool := in_4xx s && negb (s =? 408) && negb (s =? 429).

(** worker/connectors/webhook-connector.ts:46-55 execute
    The signature. *)
Definition signature (cl : clients W) (destination result : jsval) (start : Z) : res exn string :=
  match c_signer cl with
  | Some sign => sign result
  | None =>
      let secret := js_String (js_or (js_get "secret" destination) (JString "queueforge-secret-key")) in
      let bodyStr := default "undefined" (stringify (js_or result (JObject 0 []))) in
      Ok (hmac_sha256_hex secret (toISOString start +:+ "." +:+ bodyStr))
  end.

(** worker/connectors/webhook-connector.ts:39-141 execute
    The imported client always has [post], so the [fetch] branch is not taken;
    the time-out is not handed to the client. *)
Definition webhook_execute (cl : clients W) (start stop : Z) (destination result : jsval)
    (timeoutMs : Z) : M cresult :=
  let endpoint := js_or (endpoint_of destination) (JString "http://localhost/webhook") in
  sig ← lift_res (signature cl destination result start);
  try_catch
    ('(status, data) ← default axios_post (c_axios cl) endpoint result
       [("Content-Type", "application/json"); ("X-Signature", sig)];
     let responseStatusCode := match status with Some s => if s =? 0 then 200 else s | None => 200 end in
     let responseBody := js_or data (JObject 0 [("status", JString "delivered")]) in
     let isSuccess := (responseStatusCode >=? 200) && (responseStatusCode <? 300) in
     mret (Result isSuccess (Some responseStatusCode) (stop - start) responseBody JUndefined
       (JString (if isSuccess then "Webhook payload delivered successfully"
                 else "HTTP " +:+ pretty responseStatusCode +:+ " response from endpoint"))
       (Some (webhook_permanent responseStatusCode))))
    (fun e =>
       let err := Errors.exn_js e in
       let statusCode := default (default 500 (js_int (js_get "status" err))) (js_int (js_get "statusCode" err)) in
       mret (Result false (Some statusCode) (stop - start) JUndefined err (js_get "message" err)
         (Some (webhook_permanent statusCode)))).

(** worker/connectors/database-connector.ts:27-74 execute *)
Definition database_execute (cl : clients W) (start stop : Z) (destination result : jsval) : M cresult :=
  let endpoint := js_or (endpoint_of destination) (js_get "connectionString" destination) in
  try_catch
    (match c_prisma cl with
     | Some run => run "INSERT INTO task_results VALUES ($1)" (stringify result)
     | None => mret tt
     end;;
     inv ← lift_res (js_includes "invalid" endpoint);
     bad ← (if inv : bool then mret true else lift_res (js_includes "unreachable" endpoint));
     if bad : bool
     then fail (Foreign (JError 0
            [("name", JString "Error"); ("message", JString ("Database connection failed to " +:+ js_String endpoint));
             ("statusCode", JNum (ofZ 503))]))
     else mret (Result true (Some 200) (stop - start)
            (JObject 0 [("insertedId", JString ("db-" +:+ pretty stop));
                        ("table", js_or (js_get "table" (js_get "metadata" destination)) (JString "task_results"));
                        ("rowsAffected", JNum 1)])
            JUndefined (JString "Task result record inserted into destination database") None))
    (fun e =>
       let err := Errors.exn_js e in
       let statusCode := default 500 (js_int (js_get "statusCode" err)) in
       mret (Result false (Some statusCode) (stop - start) JUndefined err (js_get "message" err)
         (Some (in_4xx statusCode)))).

(** worker/connectors/queue-connector.ts:31-87 execute
    [suffix] stands for the random part of the message id; the queue object a
    destination record might carry is not modelled. *)
Definition queue_execute (cl : clients W) (start stop : Z) (suffix : string)
    (destination result delivery : jsval) : M cresult :=
  let queueName := endpoint_of destination in
  try_catch
    (una ← lift_res (js_includes "broker-unavailable" queueName);
     bad ← (if una : bool then mret true else lift_res (js_includes "connection_failed" queueName));
     if bad : bool
     then mret (Result false (Some 503) (stop - start) JUndefined JUndefined
            (JString ("Queue broker unavailable at " +:+ js_String queueName)) (Some false))
     else
       match c_queue cl with
       | Some add => add "deliver" result delivery
       | None => mret tt
       end;;
       mret (Result true (Some 200) (stop - start)
         (JObject 0 [("messageId", JString ("msg-" +:+ pretty stop +:+ "-" +:+ suffix)); ("queue", queueName);
                     ("enqueuedAt", JString (toISOString stop))])
         JUndefined (JString ("Task result enqueued to target queue " +:+ quoted (js_String queueName))) None))
    (fun e =>
       let err := Errors.exn_js e in
       mret (Result false (Some (default 503 (js_int (js_get "statusCode" err)))) (stop - start) JUndefined err
         (js_get "message" err) (Some false))).

(** worker/connectors/audit-connector.ts:19-53 execute
    The arguments of [logEvent] mention the undeclared [expect]. *)
Definition audit_execute (cl : clients W) (start stop : Z) : M cresult :=
  if c_audit cl then fail reference_error
  else mret (Result true (Some 200) (stop - start)
         (JObject 0 [("auditLogId", JString ("audit-" +:+ pretty stop)); ("timestamp", JString (toISOString stop));
                     ("status", JString "AUDITED")])
         JUndefined (JString "Audit trail record written successfully") None).

(** What the constructors and the factory build: the destination with the
    class of its connector. *)
Inductive kind : Type := Webhook | Database | Queue | Audit.
Record connector : Type := Connector { k : kind; dest : jsval; cls : clients W }.

(** worker/connectors/webhook-connector.ts:12-16 constructor *)
Definition new_webhook (cl : clients W) (destination : jsval) : res exn connector :=
  if negb (js_truthy (js_get "endpoint" destination)) && negb (js_truthy (js_get "endpointUrl" destination))
  then Throw (plain_error "Webhook destination must have a valid endpoint URL string")
  else Ok (Connector Webhook destination cl).

(** worker/connectors/connector-factory.ts:43-69 createConnector
    The arguments are a logger and a tracer: no client is among them. *)
Definition createConnector (destination : jsval) : res exn connector :=
  if negb (js_truthy destination)
  then Throw (Errors.own (Errors.validation_error "destination"
                (Some "Destination object cannot be null or undefined")))
  else
    let rawType := js_or (js_get "destinationType" destination)
                     (js_or (js_get "type" destination) (JString "WEBHOOK")) in
    let typeStr := to_upper (js_String rawType) in
    if str_eqb typeStr "WEBHOOK" then new_webhook no_clients destination
    else if str_eqb typeStr "DATABASE" then Ok (Connector Database destination no_clients)
    else if str_eqb typeStr "QUEUE" then Ok (Connector Queue destination no_clients)
    else if str_eqb typeStr "AUDIT" then Ok (Connector Audit destination no_clients)
    else Throw (Errors.own (Errors.validation_error "type"
                (Some ("Unsupported destination connector type: " +:+ quoted typeStr)))).

(** [connector.execute(payload, timeoutMs)] *)
Definition execute (c : connector) (start stop : Z) (suffix : string) (payload : jsval) (timeoutMs : Z) : M cresult :=
  match k c with
  | Webhook => webhook_execute (cls c) start stop (dest c) payload timeoutMs
  | Database => database_execute (cls c) start stop (dest c) payload
  | Queue => queue_execute (cls c) start stop suffix (dest c) payload JUndefined
  | Audit => audit_execute (cls c) start stop
  end.

(** ** Properties *)

Lemma createConnector_clients d c : createConnector d = Ok c -> cls c = no_clients /\ dest c = d.
Proof.
  unfold createConnector, new_webhook. repeat case_match; intros [=]; by subst.
Qed.

(** The webhook connector settles every answer of the HTTP client, and every
    error it throws, into a result.  A response succeeds exactly on a 2xx
    status and is permanent exactly on the statuses of [isPermanentFailure]; a
    thrown error is a failure under the error's own [statusCode], else its
    [status], else 500. *)
Theorem webhook_outcome cl start stop d payload tm w post answer sig :
  post = default axios_post (c_axios cl) -> signature cl d payload start = Ok sig ->
  answer = post (js_or (endpoint_of d) (JString "http://localhost/webhook")) payload
             [("Content-Type", "application/json"); ("X-Signature", sig)] w ->
  exists r,
    webhook_execute cl start stop d payload tm w = (answer.1, Ok r) /\
    match answer.2 with
    | Ok (Some s, _) =>
        s <> 0 -> success r = HttpStatus.isSuccess (HttpStatus.Mk s) /\ statusCode r = Some s /\
          isPermanent r = Some (HttpStatus.isPermanentFailure (HttpStatus.Mk s))
    | Ok (None, _) => success r = true /\ statusCode r = Some 200
    | Throw e =>
        success r = false /\ error r = Errors.exn_js e /\
        statusCode r = Some (match js_int (js_get "statusCode" (Errors.exn_js e)) with
                             | Some s => s
                             | None => default 500 (js_int (js_get "status" (Errors.exn_js e)))
                             end)
    end.
Proof.
  intros -> Hs ->. unfold webhook_execute. munfold. rewrite Hs.
  destruct (default axios_post (c_axios cl) _ _ _ w) as [w' [[[s|] data]|e]]; simpl;
    eexists; (split; [done|]); simpl.
  - intros H0. rewrite (proj2 (Z.eqb_neq s 0) H0). by split_and!.
  - done.
  - split_and!; [done|done|]. by destruct (js_int (js_get "statusCode" _)).
Qed.

(** A connector the factory builds for a DATABASE, QUEUE or AUDIT destination
    never touches the outside world, never throws, and reports success 200
    whenever the endpoint is a text without the marker words of a broken one:
    the factory hands the constructors no client to write with. *)
Theorem factory_connectors_write_nothing d c start stop suffix payload tm w ep :
  createConnector d = Ok c -> k c <> Webhook ->
  (execute c start stop suffix payload tm w).1 = w /\
  (exists r, (execute c start stop suffix payload tm w).2 = Ok r) /\
  (endpoint_of d = JString ep -> ep <> "" ->
   includes "invalid" ep = false -> includes "unreachable" ep = false ->
   includes "broker-unavailable" ep = false -> includes "connection_failed" ep = false ->
   exists r, (execute c start stop suffix payload tm w).2 = Ok r /\ success r = true /\ statusCode r = Some 200).
Proof.
  intros Hc Hk. destruct (createConnector_clients _ _ Hc) as [Hcl Hd]. rewrite <- Hd. clear Hc Hd d.
  destruct c as [[] d cl]; simpl in *; subst cl; [done| | |].
  - unfold execute, database_execute. simpl. munfold.
    set (endpoint := js_or (endpoint_of d) _). split_and!.
    + destruct (js_includes "invalid" endpoint) as [[]|]; simpl; [done| |done].
      by destruct (js_includes "unreachable" endpoint) as [[]|].
    + destruct (js_includes "invalid" endpoint) as [[]|]; simpl; [by eexists| |by eexists].
      destruct (js_includes "unreachable" endpoint) as [[]|]; by eexists.
    + intros He Hne H1 H2 _ _. assert (endpoint = JString ep) as ->.
      { unfold endpoint. rewrite He. unfold js_or. simpl. unfold str_truthy.
        by rewrite (proj2 (str_eqb_neq _ _) Hne). }
      simpl. rewrite H1. simpl. rewrite H2. by eexists.
  - unfold execute, queue_execute. simpl. munfold. set (endpoint := endpoint_of d). split_and!.
    + destruct (js_includes "broker-unavailable" endpoint) as [[]|]; simpl; [done| |done].
      by destruct (js_includes "connection_failed" endpoint) as [[]|].
    + destruct (js_includes "broker-unavailable" endpoint) as [[]|]; simpl; [by eexists| |by eexists].
      destruct (js_includes "connection_failed" endpoint) as [[]|]; by eexists.
    + intros He _ _ _ H1 H2. rewrite He. simpl. rewrite H1. simpl. rewrite H2. by eexists.
  - split_and!; [done|by eexists|]. intros. by eexists.
Qed.
End connectors.

(** A network whose answers are a script, and whose keyed hash is a stub of the
    examples. *)
#[global] Instance scripted_net : Net (list (res exn (option Z * jsval))) := {
  axios_post _ _ _ w :=
    match w with
    | r :: w => (w, r)
    | [] => ([], Throw (PlainError "connect ECONNREFUSED"))
    end;
  hmac_sha256_hex secret text := secret +:+ text;
}.

Definition sample_destination (ty : string) : jsval :=
  JObject 1 [("id", JString "dest1"); ("destinationType", JString ty); ("endpointUrl", JString "https://example.org/hook");
             ("timeout", JNum (ofZ 5000))].

Lemma webhook_outcome_witness :
  exists r, webhook_execute no_clients 0 7 (sample_destination "WEBHOOK") (JObject 2 []) 5000
      [Ok (Some 404, JNull)] = ([], Ok r) /\
    (404 <> 0 -> success r = false /\ statusCode r = Some 404 /\ isPermanent r = Some true).
Proof.
  exact (webhook_outcome no_clients 0 7 (sample_destination "WEBHOOK") (JObject 2 []) 5000
    [Ok (Some 404, JNull)] axios_post ([], Ok (Some 404, JNull))
    ("queueforge-secret-key" +:+ "1970-01-01T00:00:00.000Z.{}") eq_refl eq_refl eq_refl).
Defined.

Lemma factory_connectors_write_nothing_witness :
  exists r, (execute (Connector Database (sample_destination "database") no_clients) 0 3 "x" JNull 5000
               ([] : list (res exn (option Z * jsval)))).2 = Ok r /\ success r = true /\ statusCode r = Some 200.
Proof.
  apply (factory_connectors_write_nothing (sample_destination "database")
    (Connector Database (sample_destination "database") no_clients) 0 3 "x" JNull 5000 [] "https://example.org/hook");
    [reflexivity|done|reflexivity|discriminate|reflexivity|reflexivity|reflexivity|reflexivity].
Defined.

End Connectors.
