(* ===== verification/Worker.v ===== *)
(** * The delivery executor and the job processor

    [worker/delivery-executor.ts] as three synchronous parts separated by its
    long waits: [begin] up to the wait for a bulkhead slot, [transmit] around the
    connector, [settle] with the outcome, the [finally] block included;
    [executeWithResilience] composes them for a call that nothing interrupts.
    [worker/job-processor.ts] as a system of jobs in progress. *)
From Stdlib Require Import Ascii QArith Qround Qpower Qabs Lqa.
From stdpp Require Import base tactics numbers list strings relations gmap.
From S2P Require Import Prelude JsNum JsValue Errors DomainTypes Store StateMachine Connectors CircuitBreaker Bulkhead.

Module Executor.
Import Store Classifier.

(** What the worker shares: the database, the breakers, the bulkheads, the network. *)
Record world (T W : Type) : Type := World {
  w_db : T; w_cb : Manager.t; w_bh : BulkheadManager.t; w_net : W;
}.
Arguments World {T W}. Arguments w_db {T W}. Arguments w_cb {T W}. Arguments w_bh {T W}. Arguments w_net {T W}.

(** worker/types.ts:26-32 ExecutionResult *)
Record result : Type := Result {
  e_success : bool; e_statusCode : option Z; e_latencyMs : Z; e_error : jsval; e_category : option category;
}.

(** What the three parts of one execution share. *)
Record context : Type := Context_ {
  x_id : string; x_taskResultId : string; x_destId : string; x_destination : jsval; x_pool : string; x_start : Z;
}.

(** The other repositories the executor reads: [findById] of destinations and of results. *)
Record repos : Type := Repos { destinations : string -> option jsval; results : string -> option jsval }.

Section executor.
Context {T W : Type} `{Prisma T} `{Connectors.Net W} (rs : repos).
Abbreviation M := (meth (world T W) exn).

Definition on_db {A} (m : meth T exn A) : M A := fun w =>
  let '(t, r) := m (w_db w) in (World t (w_cb w) (w_bh w) (w_net w), r).
Definition on_cb {A} (m : Manager.M A) : M A := fun w =>
  let '(c, r) := m (w_cb w) in (World (w_db w) c (w_bh w) (w_net w), r).
Definition on_bh {A} (m : BulkheadManager.M A) : M A := fun w =>
  let '(b, r) := m (w_bh w) in (World (w_db w) (w_cb w) b (w_net w), r).
Definition on_net {A} (m : meth W exn A) : M A := fun w =>
  let '(n, r) := m (w_net w) in (World (w_db w) (w_cb w) (w_bh w) n, r).
(** [try { m } finally { try { rel } catch {} }] *)
Definition finally {A B} (m : M A) (rel : M B) : M A := fun w =>
  let '(w', r) := m w in ((rel w').1, r).

Definition error_js (m : string) : jsval := Errors.exn_js (PlainError m).

(** worker/delivery-executor.ts:69-71 executeWithResilience *)
Definition destType (destination : jsval) : string :=
  js_String (js_or (js_get "destinationType" destination)
              (js_or (js_get "type" destination) (JString "WEBHOOK"))).

(** worker/delivery-executor.ts:114-137 executeWithResilience *)
Definition transmit (start stop : Z) (suffix : string) (x : context) : meth W exn Connectors.cresult :=
  connector ← lift_res (Connectors.createConnector (x_destination x));
  let payload :=
    if str_truthy (x_taskResultId x) then
      match results rs (x_taskResultId x) with
      | Some r => js_or (js_get "resultPayload" r) r
      | None => JObject 0 []
      end
    else JObject 0 [] in
  let timeoutMs := default 30000 (Connectors.js_int (js_get "timeout" (x_destination x))) in
  Connectors.execute connector start stop suffix payload timeoutMs.

Definition breaker_success (now : Z) (x : context) : M unit :=
  on_cb (Manager.on_breaker (x_destId x) (Breaker.recordSuccess now)).
Definition breaker_failure (now : Z) (x : context) : M unit :=
  on_cb (Manager.on_breaker (x_destId x) (Breaker.recordFailure now)).

(** worker/delivery-executor.ts:177-185 executeWithResilience
    The end of both failure paths. *)
Definition dispose (now : Z) (x : context) (retryable : bool) (err : jsval) : M unit :=
  if retryable then on_db (StateMachine.scheduleRetry now (x_id x) 5000 err)
  else on_db (StateMachine.moveToDeadLetterQueue now (x_id x) (js_String (js_get "message" err))).

(** worker/delivery-executor.ts:162-171 executeWithResilience
    The error of a failed answer, and its classification. *)
Definition answer_error (res : Connectors.cresult) : jsval :=
  js_or (Connectors.error res)
    (error_js (js_String (js_or (Connectors.message res) (JString "Connector transmission failed")))).
Definition answer_class (res : Connectors.cresult) : classification :=
  classify (answer_error res) (match Connectors.statusCode res with Some s => JNum (ofZ s) | None => JUndefined end).

(** worker/delivery-executor.ts:139-194 executeWithResilience
    The connector has answered. *)
Definition on_answer (now : Z) (x : context) (res : Connectors.cresult) : M result :=
  let latencyMs := now - x_start x in
  if Connectors.success res then
    breaker_success now x;;
    on_db (AttemptRecorder.recordSuccess now (x_id x) latencyMs);;
    on_db (StateMachine.markCompleted now (x_id x) latencyMs);;
    mret (Result true (Some (default 200 (Connectors.statusCode res))) latencyMs JUndefined None)
  else
    let err := answer_error res in
    breaker_failure now x;;
    let c := answer_class res in
    on_db (AttemptRecorder.recordFailure now (x_id x) latencyMs (Connectors.statusCode res) err);;
    dispose now x (c_retryable c) err;;
    mret (Result false (Some (default 500 (Connectors.statusCode res))) latencyMs err (Some (c_category c))).

(** worker/delivery-executor.ts:195-223 executeWithResilience
    The [catch] clause. *)
Definition on_error (now : Z) (x : context) (e : exn) : M result :=
  let latencyMs := now - x_start x in
  let err := Errors.exn_js e in
  breaker_failure now x;;
  let c := classify err JUndefined in
  on_db (AttemptRecorder.recordFailure now (x_id x) latencyMs
           (Some (default 500 (Connectors.js_int (js_get "statusCode" err)))) err);;
  dispose now x (c_retryable c) err;;
  mret (Result false None latencyMs err (Some (c_category c))).

(** worker/delivery-executor.ts:39-112 executeWithResilience
    From the call with a delivery id to the wait for a slot: the result of an
    execution that stops before (or whose acquisition throws at once), or its
    context and whether the slot was free. *)
Definition begin (now : Z) (ticket : nat) (deliveryId : string) (destinationArg : jsval)
    : M (result + context * bool) :=
  delivery ← on_db (DeliveryRepository.findById deliveryId);
  match delivery with
  | None =>
      mret (inl (Result false None 0 (error_js ("Delivery record " +:+ quoted deliveryId +:+ " not found"))
                   (Some PERMANENT)))
  | Some d =>
      let destId := str_or (r_destinationId d)
        (if js_truthy destinationArg then js_String (js_get "id" destinationArg) else "unknown") in
      let destination := if js_truthy destinationArg then destinationArg
                         else default JNull (destinations rs destId) in
      try_catch (on_db (StateMachine.markProcessing deliveryId)) (fun _ => mret tt);;
      on_cb (Manager.getOrCreateBreaker destId Breaker.no_overrides);;
      isCbOpen ← on_cb (Manager.isOpen now destId);
      if isCbOpen : bool then
        mret (inl (Result false None 0 (error_js ("Circuit breaker is OPEN for destination " +:+ destId))
                     (Some TRANSIENT)))
      else
        let poolName := to_lower (destType destination) in
        let x := Context_ deliveryId (r_taskResultId d) destId destination poolName now in
        try_catch
          (granted ← on_bh (BulkheadManager.acquire ticket poolName None); mret (inr (x, granted)))
          (fun e => r ← on_error now x e; mret (inl r))
  end.

(** worker/delivery-executor.ts:224-232 executeWithResilience
    The [finally] clause, for a call that holds a ticket. *)
Definition release (x : context) : M unit := on_bh (BulkheadManager.release (x_pool x)).

(** worker/delivery-executor.ts:139-232 executeWithResilience
    After a granted slot, with what the connector answered or threw. *)
Definition settle (now : Z) (x : context) (outcome : res exn Connectors.cresult) : M result :=
  finally (try_catch (r ← lift_res outcome; on_answer now x r) (on_error now x)) (release x).

(** The connector's call and what follows it. *)
Definition attempt_delivery (t0 t1 : Z) (suffix : string) (x : context) : M result := fun w =>
  let '(w', outcome) := on_net (transmit t0 t1 suffix x) w in settle t1 x outcome w'.

(** The wait for a slot ended with an error: no ticket, no release. *)
Definition settle_refused (now : Z) (x : context) : M result :=
  on_error now x (BulkheadFullError (x_pool x)).

(** worker/delivery-executor.ts:35-233 executeWithResilience
    A call that runs alone, on a pool with a free slot: [None] when it has to
    wait for one. *)
Definition executeWithResilience (t0 t1 : Z) (ticket : nat) (suffix : string) (deliveryId : string)
    (destinationArg : jsval) : M (option result) :=
  b ← begin t0 ticket deliveryId destinationArg;
  match b with
  | inl r => mret (Some r)
  | inr (x, false) => mret None
  | inr (x, true) =>
      r ← attempt_delivery t0 t1 suffix x; mret (Some r)
  end.

(** ** Lemmas on the parts *)

#[local] Arguments StateMachine.markProcessing : simpl never.
#[local] Arguments StateMachine.markCompleted : simpl never.
#[local] Arguments StateMachine.scheduleRetry : simpl never.
#[local] Arguments StateMachine.moveToDeadLetterQueue : simpl never.
#[local] Arguments AttemptRecorder.recordSuccess : simpl never.
#[local] Arguments AttemptRecorder.recordFailure : simpl never.
#[local] Arguments BulkheadManager.acquire : simpl never.
#[local] Arguments BulkheadManager.release : simpl never.
#[local] Arguments Manager.getOrCreateBreaker : simpl never.
#[local] Arguments Manager.isOpen : simpl never.
#[local] Arguments Connectors.createConnector : simpl never.
#[local] Arguments Connectors.execute : simpl never.

Lemma transitionTo_ok now s b : (Breaker.transitionTo now s b).2 = Ok tt.
Proof. unfold Breaker.transitionTo. munfold. by repeat (case_match; try done). Qed.

Lemma breaker_report_ok now id f m :
  f = Breaker.recordSuccess now \/ f = Breaker.recordFailure now ->
  exists m', Manager.on_breaker id f m = (m', Ok tt).
Proof.
  intros Hf. rewrite Manager.on_breaker_eq. eexists. f_equal.
  destruct Hf as [-> | ->]; rewrite ?Breaker.recordSuccess_eq, ?Breaker.recordFailure_eq; cbn zeta;
    repeat (case_match; try done); apply transitionTo_ok.
Qed.

(** The part of the world that the breakers are not. *)
Definition same_but_cb (w w' : world T W) : Prop :=
  w_db w' = w_db w /\ w_bh w' = w_bh w /\ w_net w' = w_net w.

Lemma breaker_success_ok now x w : exists w', breaker_success now x w = (w', Ok tt) /\ same_but_cb w w'.
Proof.
  unfold breaker_success, on_cb.
  destruct (breaker_report_ok now (x_destId x) _ (w_cb w) (or_introl eq_refl)) as [m ->]. by eexists.
Qed.
Lemma breaker_failure_ok now x w : exists w', breaker_failure now x w = (w', Ok tt) /\ same_but_cb w w'.
Proof.
  unfold breaker_failure, on_cb.
  destruct (breaker_report_ok now (x_destId x) _ (w_cb w) (or_intror eq_refl)) as [m ->]. by eexists.
Qed.

Lemma getOrCreate_current id m :
  exists b, Manager.getOrCreateBreaker id Breaker.no_overrides m =
    ((Manager.getOrCreateBreaker id Breaker.no_overrides m).1, Ok b) /\
    Manager.current id (Manager.getOrCreateBreaker id Breaker.no_overrides m).1 = Manager.current id m.
Proof.
  rewrite Manager.getOrCreate_eq. unfold Manager.current.
  destruct (jmap_get id (Manager.breakers m)) as [b|] eqn:E; eexists; split; try done; simpl.
  - by rewrite E.
  - by rewrite jmap_get_set_eq.
Qed.

(** Whether the executor finds the breaker of a destination open at [now]. *)
Definition breaker_open (now : Z) (destId : string) (c : Manager.t) : bool :=
  Breaker.state_eqb (Breaker.st (Breaker.stateInstance (Breaker.settle now (Manager.current destId c)))) Breaker.OPEN.

Lemma isOpen_eq now id m :
  exists m', Manager.isOpen now id m = (m', Ok (breaker_open now id m)).
Proof.
  unfold Manager.isOpen, Manager.getState. unfold mbind, meth_bind. rewrite Manager.on_breaker_eq, Breaker.getState_eq.
  by eexists.
Qed.

(** The context of an execution of a delivery. *)
Definition context_of (now : Z) (id : string) (r : row) (destinationArg : jsval) : context :=
  let destId := str_or (r_destinationId r)
    (if js_truthy destinationArg then js_String (js_get "id" destinationArg) else "unknown") in
  let destination := if js_truthy destinationArg then destinationArg else default JNull (destinations rs destId) in
  Context_ id (r_taskResultId r) destId destination (to_lower (destType destination)) now.

(** [begin] on a known delivery that is not final: it is PROCESSING when the
    breaker stops the call or the slot is asked for. *)
Lemma begin_known now ticket id destArg w r :
  find_delivery id (w_db w) = Some r -> Status.isFinal (r_status r) = false ->
  let x := context_of now id r destArg in
  exists t c,
    find_delivery id t = Some (with_status Status.PROCESSING r) /\ attempts_of id t = attempts_of id (w_db w) /\
    begin now ticket id destArg w =
      if breaker_open now (x_destId x) (w_cb w)
      then (World t c (w_bh w) (w_net w),
            Ok (inl (Result false None 0
              (error_js ("Circuit breaker is OPEN for destination " +:+ x_destId x)) (Some TRANSIENT))))
      else match BulkheadManager.acquire ticket (x_pool x) None (w_bh w) with
           | (b, Ok granted) => (World t c b (w_net w), Ok (inr (x, granted)))
           | (b, Throw e) => (res ← on_error now x e; mret (inl res)) (World t c b (w_net w))
           end.
Proof.
  intros Hr Hs x. unfold begin, on_db, DeliveryRepository.findById. munfold. rewrite Hr.
  destruct (StateMachine.markProcessing_hit id (w_db w) r Hr Hs) as (t & Em & Ft & At). cbn [w_db w_cb w_bh w_net]. rewrite Em. simpl.
  unfold x, breaker_open, context_of, on_cb, on_bh. simpl. generalize (str_or (r_destinationId r)
    (if js_truthy destArg then js_String (js_get "id" destArg) else "unknown")). intros did.
  destruct (getOrCreate_current did (w_cb w)) as (b & Eb & Hcur). rewrite Eb. simpl.
  destruct (isOpen_eq now did (Manager.getOrCreateBreaker did Breaker.no_overrides (w_cb w)).1) as [c Ec].
  rewrite Ec. unfold breaker_open. rewrite Hcur. exists t, c. split; [done|]. split; [done|].
  destruct (Breaker.state_eqb _ _); [done|]. simpl.
  by destruct (BulkheadManager.acquire _ _ _ _) as [b' [g|e]].
Qed.

(** *** The disposal of an answer, on a PROCESSING delivery *)

Definition number (x : context) (w : world T W) : Z := Z.of_nat (length (attempts_of (x_id x) (w_db w))) + 1.

(** [w'] has, after [w], the attempts [l] more, the row [r], the same network
    and the same bulkheads. *)
Definition recorded (x : context) (l : list attempt) (r : row) (w w' : world T W) : Prop :=
  find_delivery (x_id x) (w_db w') = Some r /\
  attempts_of (x_id x) (w_db w') = attempts_of (x_id x) (w_db w) ++ l /\
  w_net w' = w_net w /\ w_bh w' = w_bh w.

Lemma record_step now x o w r text :
  find_delivery (x_id x) (w_db w) = Some r -> AttemptRecorder.error_text o = Ok text ->
  100 <= AttemptRecorder.status_code o <= 599 ->
  exists w', on_db (AttemptRecorder.record now (x_id x) o) w =
      (w', Ok (Some (AttemptRecorder.next_attempt (x_id x) o text (w_db w)))) /\
    recorded x [AttemptRecorder.next_attempt (x_id x) o text (w_db w)]
      (with_attempt now (number x w) text r) w w' /\ w_cb w' = w_cb w.
Proof.
  intros Hr Ht Hs.
  destruct (AttemptRecorder.record_hit now (x_id x) o (w_db w) r text Hr Ht Hs) as (t' & E & A & F).
  unfold on_db. rewrite E. eexists. split; [done|]. by split.
Qed.

Lemma on_answer_success now x res w r :
  find_delivery (x_id x) (w_db w) = Some r -> r_status r = Status.PROCESSING ->
  Connectors.success res = true ->
  exists w', on_answer now x res w =
      (w', Ok (Result true (Some (default 200 (Connectors.statusCode res))) (now - x_start x) JUndefined None)) /\
    recorded x [Attempt (x_id x) (number x w) (Some 200) (now - x_start x) None]
      (with_status Status.COMPLETED (with_attempt now (number x w) None r)) w w'.
Proof.
  intros Hr Hs Hok. unfold on_answer. rewrite Hok. unfold mbind, meth_bind.
  destruct (breaker_success_ok now x w) as (w1 & -> & Hdb & Hbh & Hnet).
  rewrite <- Hdb in Hr.
  destruct (record_step now x (AttemptRecorder.Outcome (now - x_start x) None JUndefined) w1 r None Hr eq_refl)
    as (w2 & E2 & (F2 & A2 & N2 & B2) & _); [done|].
  unfold AttemptRecorder.recordSuccess. rewrite E2.
  destruct (StateMachine.markCompleted_hit now (x_id x) (now - x_start x) _ _ F2 Hs) as (t3 & E3 & F3 & A3).
  unfold on_db. rewrite E3. eexists. split; [done|].
  unfold recorded, number in *. simpl. rewrite A3, A2, N2, B2, Hnet, Hbh, F3.
  unfold AttemptRecorder.next_attempt. by rewrite Hdb.
Qed.

(** The [catch] clause on a retryable error. *)
Lemma on_error_retry now x e w r text code :
  find_delivery (x_id x) (w_db w) = Some r -> r_status r = Status.PROCESSING ->
  let err := Errors.exn_js e in
  code = default 500 (Connectors.js_int (js_get "statusCode" err)) ->
  AttemptRecorder.error_text (AttemptRecorder.Outcome (now - x_start x) (Some code) err) = Ok text ->
  100 <= code <= 599 -> c_retryable (classify err JUndefined) = true ->
  exists w', on_error now x e w =
      (w', Ok (Result false None (now - x_start x) err (Some (c_category (classify err JUndefined))))) /\
    recorded x [Attempt (x_id x) (number x w) (Some code) (now - x_start x) text]
      (with_retry (Some (Some (now + 5000))) (with_attempt now (number x w) text r)) w w'.
Proof.
  intros Hr Hs err Hcode Ht Hc Hretry. unfold on_error. fold err. unfold mbind, meth_bind.
  destruct (breaker_failure_ok now x w) as (w1 & -> & Hdb & Hbh & Hnet).
  rewrite <- Hdb in Hr. rewrite <- Hcode.
  assert (Hsc : AttemptRecorder.status_code (AttemptRecorder.Outcome (now - x_start x) (Some code) err) = code).
  { unfold AttemptRecorder.status_code. simpl. by rewrite (proj2 (Z.eqb_neq code 0)) by lia. }
  destruct (record_step now x (AttemptRecorder.Outcome (now - x_start x) (Some code) err) w1 r text Hr Ht)
    as (w2 & E2 & (F2 & A2 & N2 & B2) & _); [by rewrite Hsc|].
  unfold AttemptRecorder.recordFailure. rewrite E2. unfold dispose. rewrite Hretry.
  destruct (StateMachine.scheduleRetry_hit now (x_id x) 5000 err _ _ F2 Hs) as (t3 & E3 & F3 & A3).
  unfold on_db. rewrite E3. eexists. split; [done|].
  unfold recorded, number in *. simpl. rewrite A3, A2, N2, B2, Hnet, Hbh, F3.
  unfold AttemptRecorder.next_attempt. by rewrite Hdb, Hsc.
Qed.

(** The record of a failed answer. *)
Definition failure_outcome (now : Z) (x : context) (res : Connectors.cresult) : AttemptRecorder.outcome :=
  AttemptRecorder.Outcome (now - x_start x) (Connectors.statusCode res) (answer_error res).

(** Up to the disposal, a failed answer adds one attempt. *)
Lemma on_answer_failure now x res w r text :
  find_delivery (x_id x) (w_db w) = Some r -> Connectors.success res = false ->
  AttemptRecorder.error_text (failure_outcome now x res) = Ok text ->
  100 <= AttemptRecorder.status_code (failure_outcome now x res) <= 599 ->
  exists w1,
    recorded x [AttemptRecorder.next_attempt (x_id x) (failure_outcome now x res) text (w_db w)]
      (with_attempt now (number x w) text r) w w1 /\
    on_answer now x res w =
      (dispose now x (c_retryable (answer_class res)) (answer_error res);;
       mret (Result false (Some (default 500 (Connectors.statusCode res))) (now - x_start x)
               (answer_error res) (Some (c_category (answer_class res))))) w1.
Proof.
  intros Hr Hno Ht Hc. unfold on_answer. rewrite Hno. unfold mbind, meth_bind.
  destruct (breaker_failure_ok now x w) as (w1 & -> & Hdb & Hbh & Hnet). rewrite <- Hdb in Hr.
  destruct (record_step now x (failure_outcome now x res) w1 r text Hr Ht Hc) as (w2 & E2 & R2 & _).
  unfold AttemptRecorder.recordFailure. unfold failure_outcome in E2. rewrite E2. exists w2. split; [|done].
  unfold recorded, number in *. by rewrite <- Hdb, <- Hbh, <- Hnet.
Qed.

Lemma on_answer_retry now x res w r text :
  find_delivery (x_id x) (w_db w) = Some r -> r_status r = Status.PROCESSING -> Connectors.success res = false ->
  AttemptRecorder.error_text (failure_outcome now x res) = Ok text ->
  100 <= AttemptRecorder.status_code (failure_outcome now x res) <= 599 ->
  c_retryable (answer_class res) = true ->
  exists w', on_answer now x res w =
      (w', Ok (Result false (Some (default 500 (Connectors.statusCode res))) (now - x_start x)
                 (answer_error res) (Some (c_category (answer_class res))))) /\
    recorded x [AttemptRecorder.next_attempt (x_id x) (failure_outcome now x res) text (w_db w)]
      (with_retry (Some (Some (now + 5000))) (with_attempt now (number x w) text r)) w w'.
Proof.
  intros Hr Hs Hno Ht Hc Hretry.
  destruct (on_answer_failure now x res w r text Hr Hno Ht Hc) as (w1 & (F & A & N & B) & ->).
  rewrite Hretry. unfold dispose, mbind, meth_bind, on_db.
  destruct (StateMachine.scheduleRetry_hit now (x_id x) 5000 (answer_error res) _ _ F Hs) as (t3 & -> & F3 & A3).
  eexists. split; [done|]. unfold recorded. simpl. by rewrite A3, A, N, B, F3.
Qed.

Lemma on_answer_permanent now x res w r text :
  find_delivery (x_id x) (w_db w) = Some r -> r_status r = Status.PROCESSING -> Connectors.success res = false ->
  AttemptRecorder.error_text (failure_outcome now x res) = Ok text ->
  100 <= AttemptRecorder.status_code (failure_outcome now x res) <= 599 ->
  c_retryable (answer_class res) = false ->
  exists w', on_answer now x res w = (w', Throw StateMachine.not_a_client) /\
    recorded x [AttemptRecorder.next_attempt (x_id x) (failure_outcome now x res) text (w_db w)]
      (with_attempt now (number x w) text r) w w'.
Proof.
  intros Hr Hs Hno Ht Hc Hretry.
  destruct (on_answer_failure now x res w r text Hr Hno Ht Hc) as (w1 & R & ->).
  pose proof R as (F & _). rewrite Hretry. unfold dispose, mbind, meth_bind, on_db.
  rewrite (StateMachine.moveToDeadLetterQueue_fails now (x_id x) _ _ _ F Hs).
  eexists. split; [done|]. unfold recorded in *. simpl. done.
Qed.

(** *** The whole execution, alone on a pool with a free slot *)

(** The delivery may run: it is known and not final, its breaker is not open
    and a slot is free; the bulkheads are then [b]. *)
Definition ready (t0 : Z) (ticket : nat) (id : string) (destArg : jsval) (r : row)
    (b : BulkheadManager.t) (w : world T W) : Prop :=
  let x := context_of t0 id r destArg in
  find_delivery id (w_db w) = Some r /\ Status.isFinal (r_status r) = false /\
  breaker_open t0 (x_destId x) (w_cb w) = false /\
  BulkheadManager.acquire ticket (x_pool x) None (w_bh w) = (b, Ok true).

Lemma execute_ready t0 t1 ticket suffix id destArg r b w :
  ready t0 ticket id destArg r b w ->
  let x := context_of t0 id r destArg in
  let '(n, outcome) := transmit t0 t1 suffix x (w_net w) in
  exists w1,
    find_delivery id (w_db w1) = Some (with_status Status.PROCESSING r) /\
    attempts_of id (w_db w1) = attempts_of id (w_db w) /\ w_bh w1 = b /\ w_net w1 = n /\
    executeWithResilience t0 t1 ticket suffix id destArg w =
      match settle t1 x outcome w1 with
      | (w', Ok res) => (w', Ok (Some res))
      | (w', Throw e) => (w', Throw e)
      end.
Proof.
  intros (Hr & Hs & Hb & Ha). cbn zeta in *. set (x := context_of t0 id r destArg) in *.
  destruct (transmit t0 t1 suffix x (w_net w)) as [n outcome] eqn:Htr.
  destruct (begin_known t0 ticket id destArg w r Hr Hs) as (t & c & Ft & At & E). fold x in E.
  rewrite Hb, Ha in E. exists (World t c b n). split_and!; [done|done|done|done|].
  unfold executeWithResilience, mbind, meth_bind. rewrite E. unfold attempt_delivery, on_net. simpl.
  rewrite Htr. by destruct (settle t1 x outcome _) as [w' [a|e]].
Qed.

Lemma settle_ok now x res w w' r :
  on_answer now x res w = (w', Ok r) -> settle now x (Ok res) w = ((release x w').1, Ok r).
Proof. intros E. unfold settle, finally, try_catch, lift_res, mbind, meth_bind. by rewrite E. Qed.

Lemma settle_throw now x res w w1 e :
  on_answer now x res w = (w1, Throw e) ->
  settle now x (Ok res) w = let '(w', o) := on_error now x e w1 in ((release x w').1, o).
Proof. intros E. unfold settle, finally, try_catch, lift_res, mbind, meth_bind. by rewrite E. Qed.

Lemma release_frame x w :
  w_db (release x w).1 = w_db w /\ w_net (release x w).1 = w_net w /\ w_cb (release x w).1 = w_cb w.
Proof. unfold release, on_bh. by destruct (BulkheadManager.release _ _). Qed.

(** *** What every path keeps *)

(** Whatever its outcome, [m] only advances the statuses. *)
Definition advances {A} (m : M A) : Prop :=
  forall w, StateMachine.statuses_advance (w_db w) (w_db (m w).1).

Lemma advances_ret {A} (r : res exn A) : advances (lift_res r).
Proof. intros w. unfold lift_res. simpl. reflexivity. Qed.
Lemma advances_bind {A B} (m : M A) (k : A -> M B) :
  advances m -> (forall a, advances (k a)) -> advances (m ≫= k).
Proof.
  intros Hm Hk w. specialize (Hm w). unfold mbind, meth_bind.
  destruct (m w) as [w1 [a|e]]; simpl in *; [|done]. etransitivity; [exact Hm|apply Hk].
Qed.
Lemma advances_catch {A} (m : M A) h : advances m -> (forall e, advances (h e)) -> advances (try_catch m h).
Proof.
  intros Hm Hh w. specialize (Hm w). unfold try_catch. destruct (m w) as [w1 [a|e]]; simpl in *; [done|].
  etransitivity; [exact Hm|apply Hh].
Qed.
Lemma advances_db {A} (m : meth T exn A) :
  (forall t, StateMachine.statuses_advance t (m t).1) -> advances (on_db m).
Proof. intros Hm w. unfold on_db. specialize (Hm (w_db w)). by destruct (m (w_db w)). Qed.
Lemma advances_cb {A} (m : Manager.M A) : advances (on_cb m).
Proof. intros w. unfold on_cb. destruct (m (w_cb w)). simpl. reflexivity. Qed.
Lemma advances_bh {A} (m : BulkheadManager.M A) : advances (on_bh m).
Proof. intros w. unfold on_bh. destruct (m (w_bh w)). simpl. reflexivity. Qed.

Create HintDb advances.
#[local] Hint Resolve advances_ret advances_bind advances_catch advances_db advances_cb advances_bh
  StateMachine.transition_advances AttemptRecorder.record_advances : advances.

Lemma dispose_advances now x retryable err : advances (dispose now x retryable err).
Proof. unfold dispose. destruct retryable; apply advances_db; intros t; apply StateMachine.transition_advances. Qed.

Lemma on_error_advances now x e : advances (on_error now x e).
Proof.
  unfold on_error, breaker_failure, AttemptRecorder.recordFailure.
  repeat (apply advances_bind; [|intros ?]); try apply (advances_ret (Ok _));
    auto using dispose_advances with advances.
Qed.

Lemma on_answer_advances now x res : advances (on_answer now x res).
Proof.
  unfold on_answer, breaker_success, breaker_failure, AttemptRecorder.recordSuccess,
    AttemptRecorder.recordFailure, StateMachine.markCompleted.
  destruct (Connectors.success res); repeat (apply advances_bind; [|intros ?]); try apply (advances_ret (Ok _));
    auto using dispose_advances with advances.
Qed.

Lemma settle_advances now x o : advances (settle now x o).
Proof.
  intros w. unfold settle, finally.
  assert (H1 : advances (try_catch (r ← lift_res o; on_answer now x r) (on_error now x))).
  { apply advances_catch; [|apply on_error_advances]. apply advances_bind; [apply advances_ret|].
    intros r. apply on_answer_advances. }
  specialize (H1 w). destruct (try_catch _ _ w) as [w1 r]; simpl in *.
  etransitivity; [exact H1|]. apply advances_bh.
Qed.

Lemma begin_advances now ticket id destArg : advances (begin now ticket id destArg).
Proof.
  unfold begin. apply advances_bind.
  { apply advances_db. intros t. unfold DeliveryRepository.findById, gets. simpl. reflexivity. }
  intros [d|]; [|apply (advances_ret (Ok _))].
  repeat (apply advances_bind; [|intros ?]);
    auto using (advances_ret (Ok tt)) with advances.
  - apply advances_catch; [|intros _; apply (advances_ret (Ok tt))].
    apply advances_db. intros t. apply StateMachine.transition_advances.
  - destruct (_ : bool); [apply (advances_ret (Ok _))|].
    apply advances_catch; [apply advances_bind; [apply advances_bh|]; intros g; apply (advances_ret (Ok _))|].
    intros e. apply advances_bind; [apply on_error_advances|]. intros r. apply (advances_ret (Ok _)).
Qed.

(** ** Properties *)

(** C1: whatever the delivery, its destination, the breakers, the bulkheads and
    the network do, and whether the execution returns or throws, it removes no
    delivery and moves each status along the edges of the transition table
    only; in particular a final delivery keeps its status. *)
Theorem execution_follows_table t0 t1 ticket suffix id destArg w id' r :
  find_delivery id' (w_db w) = Some r ->
  exists r', find_delivery id' (w_db (executeWithResilience t0 t1 ticket suffix id destArg w).1) = Some r' /\
    rtc StateMachine.edgeR (r_status r) (r_status r') /\
    (Status.isFinal (r_status r) = true -> r_status r' = r_status r).
Proof.
  intros Hr.
  assert (Ha : advances (executeWithResilience t0 t1 ticket suffix id destArg)).
  { unfold executeWithResilience. apply advances_bind; [apply begin_advances|].
    intros [res|[x []]]; [apply (advances_ret (Ok _))| |apply (advances_ret (Ok _))].
    apply advances_bind; [|intros ?; apply (advances_ret (Ok _))].
    intros w1. unfold attempt_delivery, on_net. destruct (transmit _ _ _ _ _) as [n o]. simpl.
    exact (settle_advances t1 x o (World (w_db w1) (w_cb w1) (w_bh w1) n)). }
  destruct (Ha w id' r Hr) as (r' & Hr' & Hp). exists r'. split_and!; [done|done|].
  intros Hfin. inversion Hp as [|? s1 ? H1 _]; [done|]. by destruct (StateMachine.final_no_edge _ _ Hfin H1).
Qed.

Definition next_number (id : string) (w : world T W) : Z := Z.of_nat (length (attempts_of id (w_db w))) + 1.

(** C2: when an execution is ready (its delivery is stored in a status that is not
    final, the breaker of its destination is not open and its pool grants a slot)
    and the connector reports success, it returns success with
    its status, the delivery is COMPLETED, and exactly one attempt is added,
    with the next number, status 200 and no error; the retry count becomes that
    number. *)
Theorem success_completes t0 t1 ticket suffix id destArg r b w n res :
  ready t0 ticket id destArg r b w ->
  transmit t0 t1 suffix (context_of t0 id r destArg) (w_net w) = (n, Ok res) ->
  Connectors.success res = true ->
  exists w',
    executeWithResilience t0 t1 ticket suffix id destArg w =
      (w', Ok (Some (Result true (Some (default 200 (Connectors.statusCode res))) (t1 - t0) JUndefined None))) /\
    find_delivery id (w_db w') =
      Some (with_status Status.COMPLETED (with_attempt t1 (next_number id w) None r)) /\
    attempts_of id (w_db w') =
      attempts_of id (w_db w) ++ [Attempt id (next_number id w) (Some 200) (t1 - t0) None] /\
    w_net w' = n.
Proof.
  intros Hready Htr Hok. pose proof (execute_ready t0 t1 ticket suffix id destArg r b w Hready) as H1.
  cbn zeta in H1. set (x := context_of t0 id r destArg) in *. rewrite Htr in H1.
  destruct H1 as (w1 & F1 & A1 & B1 & N1 & ->).
  destruct (on_answer_success t1 x res w1 _ F1 eq_refl Hok) as (w2 & E2 & F2 & A2 & N2 & B2).
  rewrite (settle_ok _ _ _ _ _ _ E2). eexists. split; [done|].
  destruct (release_frame x w2) as (-> & -> & _). unfold next_number, number in *.
  change (x_id x) with id in *. change (x_start x) with t0 in *. rewrite A1 in *.
  by rewrite F2, A2, N2, N1.
Qed.

(** C3: when the connector reports a failure that is classified retryable, the
    execution returns it with its category, exactly one attempt is added with
    the failure's status and message, and the delivery is SCHEDULED_RETRY, due
    5 seconds after the failure, whatever its retry count: this path never
    gives up. *)
Theorem retryable_failure_reschedules t0 t1 ticket suffix id destArg r b w n res text :
  ready t0 ticket id destArg r b w ->
  let x := context_of t0 id r destArg in
  let o := failure_outcome t1 x res in
  transmit t0 t1 suffix x (w_net w) = (n, Ok res) ->
  Connectors.success res = false -> c_retryable (answer_class res) = true ->
  AttemptRecorder.error_text o = Ok text -> 100 <= AttemptRecorder.status_code o <= 599 ->
  exists w',
    executeWithResilience t0 t1 ticket suffix id destArg w =
      (w', Ok (Some (Result false (Some (default 500 (Connectors.statusCode res))) (t1 - t0)
                       (answer_error res) (Some (c_category (answer_class res)))))) /\
    find_delivery id (w_db w') =
      Some (with_retry (Some (Some (t1 + 5000))) (with_attempt t1 (next_number id w) text r)) /\
    attempts_of id (w_db w') =
      attempts_of id (w_db w) ++
        [Attempt id (next_number id w) (Some (AttemptRecorder.status_code o)) (t1 - t0) text].
Proof.
  intros Hready x o Htr Hno Hretry Ht Hc.
  pose proof (execute_ready t0 t1 ticket suffix id destArg r b w Hready) as H1. cbn zeta in H1. fold x in H1.
  rewrite Htr in H1. destruct H1 as (w1 & F1 & A1 & B1 & N1 & ->).
  destruct (on_answer_retry t1 x res w1 _ text F1 eq_refl Hno Ht Hc Hretry) as (w2 & E2 & F2 & A2 & _).
  rewrite (settle_ok _ _ _ _ _ _ E2). eexists. split; [done|].
  destruct (release_frame x w2) as (-> & _). unfold AttemptRecorder.next_attempt, next_number, number in *.
  change (x_id x) with id in *. rewrite A1 in *. by rewrite F2, A2.
Qed.

(** C4: a failure classified permanent is never dead-lettered: the state
    machine's error sends it through the [catch] clause, which records a second
    attempt (status 500, with the repository's message) and schedules a retry in
    5 seconds; the execution reports a TRANSIENT failure without status. *)
Theorem permanent_failure_rescheduled t0 t1 ticket suffix id destArg r b w n res text :
  ready t0 ticket id destArg r b w ->
  let x := context_of t0 id r destArg in
  let o := failure_outcome t1 x res in
  let k := next_number id w in
  let msg := "Database operation failed: Cannot read properties of undefined (reading 'update')" in
  transmit t0 t1 suffix x (w_net w) = (n, Ok res) ->
  Connectors.success res = false -> c_retryable (answer_class res) = false ->
  AttemptRecorder.error_text o = Ok text -> 100 <= AttemptRecorder.status_code o <= 599 ->
  exists w',
    executeWithResilience t0 t1 ticket suffix id destArg w =
      (w', Ok (Some (Result false None (t1 - t0) (Errors.exn_js StateMachine.not_a_client) (Some TRANSIENT)))) /\
    find_delivery id (w_db w') =
      Some (with_retry (Some (Some (t1 + 5000))) (with_attempt t1 (k + 1) (Some msg) r)) /\
    attempts_of id (w_db w') =
      attempts_of id (w_db w) ++
        [Attempt id k (Some (AttemptRecorder.status_code o)) (t1 - t0) text;
         Attempt id (k + 1) (Some 500) (t1 - t0) (Some msg)].
Proof.
  intros Hready x o k msg Htr Hno Hretry Ht Hc.
  pose proof (execute_ready t0 t1 ticket suffix id destArg r b w Hready) as H1. cbn zeta in H1. fold x in H1.
  rewrite Htr in H1. destruct H1 as (w1 & F1 & A1 & B1 & N1 & ->).
  destruct (on_answer_permanent t1 x res w1 _ text F1 eq_refl Hno Ht Hc Hretry) as (w2 & E2 & F2 & A2 & _).
  rewrite (settle_throw _ _ _ _ _ _ E2).
  destruct (on_error_retry t1 x StateMachine.not_a_client w2 _ (Some msg) 500 F2 eq_refl
    ltac:(vm_compute; reflexivity) ltac:(vm_compute; reflexivity) ltac:(done) ltac:(vm_compute; reflexivity))
    as (w3 & E3 & F3 & A3 & _).
  rewrite E3. eexists. split; [done|]. destruct (release_frame x w3) as (-> & _).
  unfold AttemptRecorder.next_attempt, k, next_number, number in *.
  change (x_id x) with id in *. change (x_start x) with t0 in *. rewrite A2, A1 in *. rewrite F3, A3, length_app.
  simpl. rewrite Nat2Z.inj_add. change (Z.of_nat 1) with 1.
  rewrite <- app_assoc. done.
Qed.

(** While the breaker of its destination is open, an execution fails as
    TRANSIENT without asking for a slot, without calling the connector and
    without recording an attempt; it leaves the delivery PROCESSING, with no
    retry scheduled. *)
Theorem open_circuit_leaves_processing t0 t1 ticket suffix id destArg r w :
  find_delivery id (w_db w) = Some r -> Status.isFinal (r_status r) = false ->
  breaker_open t0 (x_destId (context_of t0 id r destArg)) (w_cb w) = true ->
  exists w' res,
    executeWithResilience t0 t1 ticket suffix id destArg w = (w', Ok (Some res)) /\
    e_success res = false /\ e_category res = Some TRANSIENT /\
    find_delivery id (w_db w') = Some (with_status Status.PROCESSING r) /\
    attempts_of id (w_db w') = attempts_of id (w_db w) /\
    w_bh w' = w_bh w /\ w_net w' = w_net w.
Proof.
  intros Hr Hs Hb. destruct (begin_known t0 ticket id destArg w r Hr Hs) as (t & c & Ft & At & E).
  rewrite Hb in E. unfold executeWithResilience, mbind, meth_bind. rewrite E. eexists _, _. by split_and!.
Qed.

Definition missing_destination : exn :=
  Errors.own (Errors.validation_error "destination"
    (Some "Destination object cannot be null or undefined")).

(** When the destination of a delivery is not found, the execution throws:
    one attempt is recorded (status 422), the network is not touched, and the
    delivery is left PROCESSING with no retry scheduled. *)
Theorem missing_destination_stuck t0 t1 ticket suffix id destArg r b w :
  ready t0 ticket id destArg r b w -> x_destination (context_of t0 id r destArg) = JNull ->
  let msg := "Validation error on destination: Destination object cannot be null or undefined" in
  exists w',
    executeWithResilience t0 t1 ticket suffix id destArg w = (w', Throw StateMachine.not_a_client) /\
    find_delivery id (w_db w') =
      Some (with_status Status.PROCESSING (with_attempt t1 (next_number id w) (Some msg) r)) /\
    attempts_of id (w_db w') =
      attempts_of id (w_db w) ++ [Attempt id (next_number id w) (Some 422) (t1 - t0) (Some msg)] /\
    w_net w' = w_net w.
Proof.
  intros Hready Hd msg. pose proof (execute_ready t0 t1 ticket suffix id destArg r b w Hready) as H1.
  cbn zeta in H1. set (x := context_of t0 id r destArg) in *.
  assert (Htr : transmit t0 t1 suffix x (w_net w) = (w_net w, Throw missing_destination)).
  { unfold transmit. rewrite Hd. done. }
  rewrite Htr in H1. destruct H1 as (w1 & F1 & A1 & B1 & N1 & ->).
  unfold settle, finally, try_catch, lift_res, mbind, meth_bind. cbn beta iota.
  unfold on_error, mbind, meth_bind.
  destruct (breaker_failure_ok t1 x w1) as (w2 & -> & Hdb & Hbh & Hnet). rewrite <- Hdb in F1.
  set (o := AttemptRecorder.Outcome (t1 - x_start x) (Some 422) (Errors.exn_js missing_destination)).
  destruct (record_step t1 x o w2 _ (Some msg) F1 ltac:(vm_compute; reflexivity) ltac:(done))
    as (w3 & E3 & (F3 & A3 & N3 & B3) & _).
  unfold AttemptRecorder.recordFailure.
  change (default 500 (Connectors.js_int (js_get "statusCode" (Errors.exn_js missing_destination)))) with 422.
  fold o. rewrite E3. unfold dispose.
  change (c_retryable (classify (Errors.exn_js missing_destination) JUndefined)) with false.
  unfold on_db. rewrite (StateMachine.moveToDeadLetterQueue_fails t1 (x_id x) _ _ _ F3 eq_refl).
  eexists. split; [done|].
  match goal with |- context [release x ?w4] => destruct (release_frame x w4) as (-> & -> & _) end. simpl.
  unfold next_number, number, AttemptRecorder.next_attempt in *. change (x_id x) with id in *.
  rewrite Hdb, A1 in *. by rewrite F3, A3, N3, Hnet.
Qed.

Lemma acquire_eq ticket name m m1 b0 :
  BulkheadManager.getBulkhead name m = (m1, Ok b0) ->
  jmap_get name (BulkheadManager.bulkheads m1) = Some b0 /\
  BulkheadManager.acquire ticket name None m =
    let '(p, granted) := Pool.tryAcquire ticket
      (Bulkhead.or_default None (Bulkhead.timeout (Bulkhead.cfg b0))) (Bulkhead.pool b0) in
    (BulkheadManager.Mk (jmap_set name (Bulkhead.set_pool p b0) (BulkheadManager.bulkheads m1))
       (BulkheadManager.config m1), Ok granted).
Proof.
  intros E. split.
  - revert E. unfold BulkheadManager.getBulkhead, BulkheadManager.createBulkhead. munfold.
    destruct (jmap_get name (BulkheadManager.bulkheads m)) as [b|] eqn:Hb; simpl; [congruence|].
    destruct (Bulkhead.new _ _) as [b|]; [|done]. intros [= <- <-]. simpl. by rewrite jmap_get_set_eq.
  - unfold BulkheadManager.acquire, BulkheadManager.set_bulkhead, mbind, meth_bind. rewrite E.
    by destruct (Pool.tryAcquire _ _ _).
Qed.

Lemma release_eq name m b :
  jmap_get name (BulkheadManager.bulkheads m) = Some b ->
  BulkheadManager.release name m =
    (BulkheadManager.Mk (jmap_set name (Bulkhead.set_pool (Pool.release (Bulkhead.pool b)).1 b)
       (BulkheadManager.bulkheads m)) (BulkheadManager.config m), Ok tt).
Proof.
  intros Hb. unfold BulkheadManager.release, BulkheadManager.getBulkhead, BulkheadManager.set_bulkhead. munfold.
  by rewrite Hb.
Qed.

Lemma on_db_bh {A} (m : meth T exn A) w : w_bh (on_db m w).1 = w_bh w.
Proof. unfold on_db. by destruct (m _). Qed.
Lemma on_cb_bh {A} (m : Manager.M A) w : w_bh (on_cb m w).1 = w_bh w.
Proof. unfold on_cb. by destruct (m _). Qed.

(** [m] leaves the bulkheads alone. *)
Definition keeps_bh {A} (m : M A) : Prop := forall w, w_bh (m w).1 = w_bh w.
Lemma keeps_bh_ret {A} (r : res exn A) : keeps_bh (lift_res r).
Proof. done. Qed.
Lemma keeps_bh_bind {A B} (m : M A) (k : A -> M B) :
  keeps_bh m -> (forall a, keeps_bh (k a)) -> keeps_bh (m ≫= k).
Proof.
  intros Hm Hk w. specialize (Hm w). unfold mbind, meth_bind.
  destruct (m w) as [w1 [a|e]]; simpl in *; [|done]. by rewrite Hk.
Qed.

Lemma on_error_bh now x e : keeps_bh (on_error now x e).
Proof.
  unfold on_error, breaker_failure, dispose.
  repeat (apply keeps_bh_bind; [|intros ?]); try apply (keeps_bh_ret (Ok _));
    try (intros w; apply on_cb_bh); try (intros w; apply on_db_bh).
  case_match; intros w; apply on_db_bh.
Qed.
Lemma on_answer_bh now x res : keeps_bh (on_answer now x res).
Proof.
  unfold on_answer, breaker_success, breaker_failure, dispose. destruct (Connectors.success res);
  repeat (apply keeps_bh_bind; [|intros ?]); try apply (keeps_bh_ret (Ok _));
    try (intros w; apply on_cb_bh); try (intros w; apply on_db_bh).
  case_match; intros w; apply on_db_bh.
Qed.

(** [settle] gives the slot back, whatever happened. *)
Lemma settle_bh now x o w : w_bh (settle now x o w).1 = (BulkheadManager.release (x_pool x) (w_bh w)).1.
Proof.
  unfold settle, finally.
  assert (H1 : forall w, w_bh (try_catch (r ← lift_res o; on_answer now x r) (on_error now x) w).1 = w_bh w).
  { intros w0. unfold try_catch. set (m := r ← lift_res o; on_answer now x r). assert (Hb : keeps_bh m).
    { apply keeps_bh_bind; [apply keeps_bh_ret|]. intros. apply on_answer_bh. }
    specialize (Hb w0). destruct (m w0) as [w1 [a|e]]; simpl in *; [done|]. by rewrite on_error_bh. }
  specialize (H1 w). destruct (try_catch _ _ w) as [w1 r]; simpl in *.
  unfold release, on_bh. rewrite H1. by destruct (BulkheadManager.release _ _).
Qed.

(** C5: an execution that is granted a slot at once gives it back on every path
    (success, failure, error, even when it throws): afterwards the pool of its
    destination type is what it was before. *)
Theorem slot_released t0 t1 ticket suffix id destArg r b w m1 b0 :
  ready t0 ticket id destArg r b w ->
  let pool := x_pool (context_of t0 id r destArg) in
  BulkheadManager.getBulkhead pool (w_bh w) = (m1, Ok b0) -> Pool.wf (Bulkhead.pool b0) ->
  jmap_get pool (BulkheadManager.bulkheads (w_bh (executeWithResilience t0 t1 ticket suffix id destArg w).1))
    = Some b0.
Proof.
  intros Hready pool Hg Hwf. pose proof (execute_ready t0 t1 ticket suffix id destArg r b w Hready) as H1.
  cbn zeta in H1. destruct Hready as (_ & _ & _ & Ha). cbn zeta in Ha. fold pool in Ha.
  destruct (transmit _ _ _ _ _) as [n o]. destruct H1 as (w1 & _ & _ & B1 & _ & ->).
  destruct (acquire_eq ticket _ _ _ _ Hg) as [Hb0 Ea]. rewrite Ea in Ha. clear Ea.
  unfold Pool.tryAcquire in Ha. destruct (Pool.inUse (Bulkhead.pool b0) <? Pool.maxSize (Bulkhead.pool b0)) eqn:Hlt;
    [|done]. injection Ha as Hb. rewrite <- B1 in Hb.
  pose proof (settle_bh t1 (context_of t0 id r destArg) o w1) as Hs. fold pool in Hs.
  rewrite <- Hb in Hs. erewrite release_eq in Hs; [|simpl; by rewrite jmap_get_set_eq].
  replace (w_bh (match settle t1 (context_of t0 id r destArg) o w1 with
    | (w', Ok res) => (w', Ok (Some res)) | (w', Throw e) => (w', Throw e) end).1)
    with (w_bh (settle t1 (context_of t0 id r destArg) o w1).1)
    by (by destruct (settle _ _ _ _) as [? []]).
  rewrite Hs. simpl. rewrite jmap_get_set_eq. f_equal.
  destruct Hwf as (Hge & Hq). destruct b0 as [nm cf [u mx q] mt]. simpl in *.
  assert (q = []) as ->. { destruct q; [done|]. exfalso. apply Z.ltb_lt in Hlt. assert (u = mx) by (apply Hq; done). lia. }
  unfold Pool.release. simpl. replace (u + 1 <=? 0) with false by lia. unfold Bulkhead.set_pool. simpl.
  do 2 f_equal. lia.
Qed.
End executor.

(** ** Examples *)

Abbreviation script := (list (res exn (option Z * jsval))).
Definition sample_repos : repos :=
  Repos (fun id => if str_eqb id "dest1" then Some (Connectors.sample_destination "WEBHOOK") else None) (fun _ => None).
Definition no_destinations : repos := Repos (fun _ => None) (fun _ => None).
Definition sample_bulkheads : BulkheadManager.t := (BulkheadManager.new BulkheadManager.no_override).1.
Definition sample_world (s : Status.t) (net : script) : world tables script :=
  World (StateMachine.sample_tables s) (Manager.new Breaker.no_overrides) sample_bulkheads net.
(** The bulkheads once the slot is taken. *)
Definition sample_taken : BulkheadManager.t := (BulkheadManager.acquire 0 "webhook" None sample_bulkheads).1.
Definition opened_world : world tables script :=
  World (StateMachine.sample_tables Status.PENDING)
    (fold_left (fun m now => (Manager.on_breaker "dest1" (Breaker.recordFailure now) m).1) [1; 2; 3; 4; 5]
       (Manager.new Breaker.no_overrides)) sample_bulkheads [].
Definition failed_answer (s : Z) : Connectors.cresult :=
  Connectors.Result false (Some s) 12 (JObject 0 [("status", JString "delivered")]) JUndefined
    (JString ("HTTP " +:+ num_to_string (ofZ s) +:+ " response from endpoint")) (Some (Connectors.webhook_permanent s)).

Lemma sample_ready s net :
  Status.isFinal s = false ->
  ready sample_repos 100 0 "d1" JUndefined (StateMachine.sample_row s) sample_taken (sample_world s net).
Proof. intros H. split_and!; [by destruct s|done|reflexivity|vm_compute; reflexivity]. Qed.

Lemma execution_follows_table_witness :
  exists r', find_delivery "d1" (w_db (executeWithResilience sample_repos 100 112 0 "x" "d1" JUndefined
      (sample_world Status.COMPLETED [Ok (Some 503, JNull)])).1) = Some r' /\
    rtc StateMachine.edgeR Status.COMPLETED (r_status r') /\
    (Status.isFinal Status.COMPLETED = true -> r_status r' = Status.COMPLETED).
Proof.
  apply (execution_follows_table sample_repos 100 112 0 "x" "d1" JUndefined
    (sample_world Status.COMPLETED [Ok (Some 503, JNull)]) "d1" (StateMachine.sample_row Status.COMPLETED)).
  vm_compute. reflexivity.
Defined.

Lemma success_completes_witness :
  exists w', executeWithResilience sample_repos 100 112 0 "x" "d1" JUndefined
      (sample_world Status.PENDING [Ok (Some 202, JNull)]) =
      (w', Ok (Some (Result true (Some 202) 12 JUndefined None))) /\
    find_delivery "d1" (w_db w') =
      Some (with_status Status.COMPLETED (with_attempt 112 1 None (StateMachine.sample_row Status.PENDING))) /\
    attempts_of "d1" (w_db w') = [Attempt "d1" 1 (Some 200) 12 None] /\ w_net w' = [].
Proof.
  unshelve epose proof (success_completes sample_repos 100 112 0 "x" "d1" JUndefined (StateMachine.sample_row Status.PENDING) sample_taken
    (sample_world Status.PENDING [Ok (Some 202, JNull)]) []
    (Connectors.Result true (Some 202) 12 (JObject 0 [("status", JString "delivered")]) JUndefined
       (JString "Webhook payload delivered successfully") (Some false)) _ _ _) as Hx;
    [..|exact_conv Hx].
  - by apply sample_ready.
  - vm_compute. reflexivity.
  - reflexivity.
Defined.

Lemma retryable_failure_reschedules_witness :
  exists w', executeWithResilience sample_repos 100 112 0 "x" "d1" JUndefined
      (sample_world Status.PENDING [Ok (Some 503, JNull)]) =
      (w', Ok (Some (Result false (Some 503) 12 (answer_error (failed_answer 503)) (Some TRANSIENT)))) /\
    find_delivery "d1" (w_db w') =
      Some (with_retry (Some (Some 5112)) (with_attempt 112 1 (Some "HTTP 503 response from endpoint")
              (StateMachine.sample_row Status.PENDING))) /\
    attempts_of "d1" (w_db w') = [Attempt "d1" 1 (Some 503) 12 (Some "HTTP 503 response from endpoint")].
Proof.
  unshelve epose proof (retryable_failure_reschedules sample_repos 100 112 0 "x" "d1" JUndefined (StateMachine.sample_row Status.PENDING) sample_taken
    (sample_world Status.PENDING [Ok (Some 503, JNull)]) [] (failed_answer 503) (Some "HTTP 503 response from endpoint") _ _ _ _ _ _) as Hx;
    [..|exact_conv Hx].
  - by apply sample_ready.
  - vm_compute. reflexivity.
  - reflexivity.
  - vm_compute. reflexivity.
  - vm_compute. reflexivity.
  - vm_compute. split; discriminate.
Defined.

Lemma permanent_failure_rescheduled_witness :
  exists w', executeWithResilience sample_repos 100 112 0 "x" "d1" JUndefined
      (sample_world Status.PENDING [Ok (Some 404, JNull)]) =
      (w', Ok (Some (Result false None 12 (Errors.exn_js StateMachine.not_a_client) (Some TRANSIENT)))) /\
    find_delivery "d1" (w_db w') =
      Some (with_retry (Some (Some 5112)) (with_attempt 112 2
        (Some "Database operation failed: Cannot read properties of undefined (reading 'update')")
        (StateMachine.sample_row Status.PENDING))) /\
    attempts_of "d1" (w_db w') =
      [Attempt "d1" 1 (Some 404) 12 (Some "HTTP 404 response from endpoint");
       Attempt "d1" 2 (Some 500) 12
         (Some "Database operation failed: Cannot read properties of undefined (reading 'update')")].
Proof.
  unshelve epose proof (permanent_failure_rescheduled sample_repos 100 112 0 "x" "d1" JUndefined (StateMachine.sample_row Status.PENDING) sample_taken
    (sample_world Status.PENDING [Ok (Some 404, JNull)]) [] (failed_answer 404) (Some "HTTP 404 response from endpoint") _ _ _ _ _ _) as Hx;
    [..|exact_conv Hx].
  - by apply sample_ready.
  - vm_compute. reflexivity.
  - reflexivity.
  - vm_compute. reflexivity.
  - vm_compute. reflexivity.
  - vm_compute. split; discriminate.
Defined.

Lemma open_circuit_leaves_processing_witness :
  exists w' res, executeWithResilience sample_repos 100 112 0 "x" "d1" JUndefined opened_world = (w', Ok (Some res)) /\
    e_success res = false /\ e_category res = Some TRANSIENT /\
    find_delivery "d1" (w_db w') =
      Some (with_status Status.PROCESSING (StateMachine.sample_row Status.PENDING)) /\
    attempts_of "d1" (w_db w') = [] /\ w_bh w' = sample_bulkheads /\ w_net w' = [].
Proof.
  unshelve epose proof (open_circuit_leaves_processing sample_repos 100 112 0 "x" "d1" JUndefined
    (StateMachine.sample_row Status.PENDING) opened_world _ _ _) as Hx;
    [..|exact_conv Hx]; vm_compute; reflexivity.
Defined.

Lemma missing_destination_stuck_witness :
  exists w', executeWithResilience no_destinations 100 112 0 "x" "d1" JUndefined (sample_world Status.PENDING []) =
      (w', Throw StateMachine.not_a_client) /\
    find_delivery "d1" (w_db w') =
      Some (with_status Status.PROCESSING (with_attempt 112 1
        (Some "Validation error on destination: Destination object cannot be null or undefined")
        (StateMachine.sample_row Status.PENDING))) /\
    attempts_of "d1" (w_db w') = [Attempt "d1" 1 (Some 422) 12
        (Some "Validation error on destination: Destination object cannot be null or undefined")] /\
    w_net w' = [].
Proof.
  unshelve epose proof (missing_destination_stuck no_destinations 100 112 0 "x" "d1" JUndefined
    (StateMachine.sample_row Status.PENDING) sample_taken (sample_world Status.PENDING []) _ _) as Hx;
    [..|exact_conv Hx].
  - split_and!; [vm_compute; reflexivity|reflexivity|reflexivity|vm_compute; reflexivity].
  - reflexivity.
Defined.

Definition sample_bulkhead : Bulkhead.t :=
  Bulkhead.Mk "webhook" (Bulkhead.Config 20 100 30000) (Pool.Mk 0 20 []) Bulkhead.zero_metrics.

Lemma slot_released_witness :
  jmap_get "webhook" (BulkheadManager.bulkheads (w_bh (executeWithResilience no_destinations 100 112 0 "x" "d1" JUndefined
    (sample_world Status.PENDING [])).1)) = Some sample_bulkhead.
Proof.
  apply (slot_released no_destinations 100 112 0 "x" "d1" JUndefined (StateMachine.sample_row Status.PENDING)
    sample_taken (sample_world Status.PENDING []) (BulkheadManager.getBulkhead "webhook" sample_bulkheads).1 sample_bulkhead).
  - split_and!; [vm_compute; reflexivity|reflexivity|reflexivity|vm_compute; reflexivity].
  - vm_compute. reflexivity.
  - split; [vm_compute; split; discriminate|by intros []].
Defined.

End Executor.

(** ** The job processor *)

Module JobProcessor.
Import Classifier.

(** worker/job-processor.ts:13-23 JobProcessor *)
Record t : Type := Mk {
  isStarted : bool; isStopped : bool;
  jobsProcessedCount : Z; jobsFailedCount : Z; totalLatencyMs : Z; activeJobsCount : Z;
}.
Abbreviation M := (meth t exn).
Definition new : t := Mk false false 0 0 0 0.

(** worker/types.ts:46-51 ProcessResult *)
Record process_result : Type := ProcessResult {
  p_deliveryId : jsval; p_status : Status.t; p_error : jsval;
}.

(** worker/job-processor.ts:39-41 isRunning *)
Definition isRunning (p : t) : bool := isStarted p && negb (isStopped p).

(** worker/job-processor.ts:43-50 start *)
Definition start : M unit :=
  modify (fun p => if isStarted p then p
                   else Mk true false (jobsProcessedCount p) (jobsFailedCount p) (totalLatencyMs p) (activeJobsCount p)).

(** worker/job-processor.ts:52-59 stop *)
Definition stop : M unit :=
  modify (fun p => if isStopped p then p
                   else Mk false true (jobsProcessedCount p) (jobsFailedCount p) (totalLatencyMs p) (activeJobsCount p)).

(** [typeof v === 'object' && Object.keys(v).length === 0], on a truthy value. *)
Definition empty_object (v : jsval) : bool :=
  match v with JObject _ [] | JArray _ [] => true | _ => false end.

(** worker/job-processor.ts:61-68 validate *)
Definition validate (job : jsval) : M unit :=
  let data := js_get "data" job in
  if negb (js_truthy job) ||
     (negb (js_truthy (js_get "id" job)) && negb (js_truthy (js_get "deliveryId" job))
      && negb (js_truthy (js_get "deliveryId" data)) && negb (js_truthy (js_get "id" data))
      && negb (js_truthy (js_get "taskResultId" data)))
  then fail (PlainError "Invalid job payload format")
  else if js_truthy data && empty_object data
       then fail (PlainError "Job payload data cannot be empty object")
       else mret tt.

(** worker/job-processor.ts:77-86 processJob
    The part before the execution: the delivery id it works on. *)
Definition begin (job : jsval) : M jsval :=
  validate job;;
  modify (fun p => Mk (isStarted p) (isStopped p) (jobsProcessedCount p) (jobsFailedCount p) (totalLatencyMs p)
                     (activeJobsCount p + 1));;
  let data := js_get "data" job in
  mret (js_or (js_get "deliveryId" data) (js_or (js_get "id" data)
         (js_or (js_get "id" job) (JString "unknown")))).

(** worker/job-processor.ts:105-138 processJob
    The part after the execution returned or threw, with the [finally] clause. *)
Definition finish (latencyMs : Z) (deliveryId : jsval) (outcome : res exn Executor.result) : M process_result :=
  let account (ok : bool) := modify (fun p =>
    Mk (isStarted p) (isStopped p) (jobsProcessedCount p + (if ok then 1 else 0))
       (jobsFailedCount p + (if ok then 0 else 1)) (totalLatencyMs p + latencyMs)
       (Z.max 0 (activeJobsCount p - 1))) in
  match outcome with
  | Ok r =>
      if Executor.e_success r then account true;; mret (ProcessResult deliveryId Status.COMPLETED JUndefined)
      else
        account false;;
        mret (ProcessResult deliveryId
          (if bool_decide (Executor.e_category r = Some PERMANENT) then Status.FAILED_DLQ else Status.SCHEDULED_RETRY)
          (Executor.e_error r))
  | Throw e => account false;; mret (ProcessResult deliveryId Status.FAILED_DLQ (Errors.exn_js e))
  end.

(** worker/job-processor.ts:141-150 getStats
    jobsProcessed, jobsFailed, averageLatency, activeJobs *)
Definition getStats (p : t) : Z * Z * Z * Z :=
  let total := jobsProcessedCount p + jobsFailedCount p in
  (jobsProcessedCount p, jobsFailedCount p, (if total >? 0 then totalLatencyMs p / total else 0), activeJobsCount p).

(** ** Properties *)

(** The processor with the number of jobs in progress and the latencies of those
    that ended. *)
Inductive step : t * nat * list Z -> t * nat * list Z -> Prop :=
| step_start p n l : step (p, n, l) ((start p).1, n, l)
| step_stop p n l : step (p, n, l) ((stop p).1, n, l)
| step_begin job d p p' n l : begin job p = (p', Ok d) -> step (p, n, l) (p', S n, l)
| step_reject job e p p' n l : begin job p = (p', Throw e) -> step (p, n, l) (p', n, l)
| step_finish lat d o p n l : 0 <= lat -> step (p, S n, l) ((finish lat d o p).1, n, lat :: l).

Definition sum (l : list Z) : Z := foldr Z.add 0 l.

Definition accounted (s : t * nat * list Z) : Prop :=
  let '(p, n, l) := s in
  activeJobsCount p = Z.of_nat n /\ 0 <= jobsProcessedCount p /\ 0 <= jobsFailedCount p /\
  jobsProcessedCount p + jobsFailedCount p = Z.of_nat (length l) /\ totalLatencyMs p = sum l /\ Forall (Z.le 0) l.

Lemma begin_cases job p :
  (exists e, begin job p = (p, Throw e)) \/
  (exists d, begin job p = (Mk (isStarted p) (isStopped p) (jobsProcessedCount p) (jobsFailedCount p)
                              (totalLatencyMs p) (activeJobsCount p + 1), Ok d)).
Proof.
  unfold begin, validate. munfold. destruct (_ || _); [left; by eexists|].
  destruct (_ && _); [left; by eexists|right; by eexists].
Qed.

Lemma step_accounted s s' : step s s' -> accounted s -> accounted s'.
Proof.
  intros Hs. destruct Hs as [p n l|p n l|job d p p' n l E|job e p p' n l E|lat d o p n l Hlat];
    unfold accounted; intros (Ha & H1 & H2 & H3 & H4 & H5).
  - unfold start. munfold. by destruct (isStarted p).
  - unfold stop. munfold. by destruct (isStopped p).
  - destruct (begin_cases job p) as [[e He]|[d' He]]; rewrite He in E; [done|].
    injection E as <- _. simpl. split_and!; [lia|done..].
  - destruct (begin_cases job p) as [[e' He]|[d' He]]; rewrite He in E; [|done]. injection E as <- _. by split_and!.
  - assert (exists ok : bool, (finish lat d o p).1 =
      Mk (isStarted p) (isStopped p) (jobsProcessedCount p + (if ok then 1 else 0))
         (jobsFailedCount p + (if ok then 0 else 1)) (totalLatencyMs p + lat) (Z.max 0 (activeJobsCount p - 1)))
      as [ok ->].
    { unfold finish. destruct o as [r|e]; [destruct (Executor.e_success r); [by exists true|by exists false]|by exists false]. }
    simpl. destruct ok; (split_and!; [lia|lia|lia|lia|lia|by constructor]).
Qed.

(** C33: Whatever jobs are begun, rejected, ended or failed, and however the
    processor is started and stopped, with any number in progress at once and a
    clock that does not run backwards, the statistics are exact: the active jobs
    are those in progress, the processed and the failed ones are together those
    that ended, and the average latency is the floor of their mean. *)
Theorem jobs_accounted p n l :
  rtc step (new, O, []) (p, n, l) ->
  let '(processed, failed, average, active) := getStats p in
  active = Z.of_nat n /\ 0 <= processed /\ 0 <= failed /\ processed + failed = Z.of_nat (length l) /\
  (l <> [] -> average * Z.of_nat (length l) <= sum l < (average + 1) * Z.of_nat (length l)).
Proof.
  intros H.
  assert (Hacc : accounted (p, n, l)).
  { assert (Hk : forall s s', rtc step s s' -> accounted s -> accounted s')
      by (induction 1; eauto using step_accounted).
    apply (Hk _ _ H). split_and!; try done; apply Forall_nil_2. }
  destruct Hacc as (Ha & H1 & H2 & H3 & H4 & H5). unfold getStats. split_and!; [done|done|done|done|].
  intros Hl. rewrite H3, H4. assert (0 < Z.of_nat (length l)) by (destruct l; [done|simpl; lia]).
  rewrite (proj2 (Z.gtb_lt _ _)) by done.
  pose proof (Z.div_mod (sum l) (Z.of_nat (length l))). pose proof (Z.mod_pos_bound (sum l) (Z.of_nat (length l))). lia.
Qed.

Definition sample_job : jsval := JObject 1 [("id", JString "j1"); ("data", JObject 2 [("deliveryId", JString "d1")])].
Definition sample_end : t :=
  (finish 40 (JString "d1") (Throw (PlainError "x")) (begin sample_job (start new).1).1).1.

Lemma jobs_accounted_witness :
  let '(processed, failed, average, active) := getStats sample_end in
  active = 0 /\ 0 <= processed /\ 0 <= failed /\ processed + failed = 1 /\
  ([40] <> [] -> average * 1 <= 40 < (average + 1) * 1).
Proof.
  apply (jobs_accounted sample_end O [40]).
  eapply rtc_l; [apply step_start|]. eapply rtc_l.
  { apply (step_begin sample_job (JString "d1") _ (begin sample_job (start new).1).1). vm_compute. reflexivity. }
  eapply rtc_l; [apply (step_finish 40 (JString "d1") (Throw (PlainError "x"))); lia|]. apply rtc_refl.
Defined.

End JobProcessor.
