(* ===== verification/RateLimit.v ===== *)
(** * Rate limiting

    [security/rate-limiting/]: the sliding-window counter with its two stores,
    the limiter over it and the token bucket.  The Redis wrapper is looked at by
    the code for the methods it has: here a record of optional commands over the
    state of the server. *)
From Stdlib Require Import Ascii QArith Qround Qpower Qabs Lqa Sorting.Sorted.
From stdpp Require Import base tactics numbers list strings sorting relations gmap pretty.
From S2P Require Import Prelude JsNum JsValue.

(** ** The sliding window *)

Module SlidingWindow.

(** The commands a Redis wrapper may offer; each may throw. *)
Record redis_ops (R : Type) : Type := Ops {
  zadd : option (string -> Z -> string -> meth R exn unit);
  zremrangebyscore : option (string -> Z -> Z -> meth R exn unit);
  pexpire : option (string -> Z -> meth R exn unit);
  zcard : option (string -> meth R exn Z);
  zcount : option (string -> Z -> meth R exn Z);
  del : option (string -> meth R exn unit);
}.
Arguments Ops {R}. Arguments zadd {R}. Arguments zremrangebyscore {R}. Arguments pexpire {R}.
Arguments zcard {R}. Arguments zcount {R}. Arguments del {R}.

(** security/rate-limiting/sliding-window-counter.ts:8-14 SlidingWindowCounter
    The time stamps kept in memory, by key, and the server. *)
Record t (R : Type) : Type := Mk { fallbackCounts : list (string * list Z); server : R }.
Arguments Mk {R}. Arguments fallbackCounts {R}. Arguments server {R}.

Section counter.
Context {R : Type} (redisOps : option (redis_ops R)).
Abbreviation M := (meth (t R) exn).

(** Run an optional command, if there is one. *)
Definition when {A} (f : option A) (k : A -> meth R exn unit) : meth R exn unit :=
  match f with Some f => k f | None => mret tt end.

Definition full_key (key : string) : string := "queueforge:ratelimit:sw:" +:+ key.

(** security/rate-limiting/sliding-window-counter.ts:23-42 increment
    The attempt on the server: the count, or [None] to go on in memory. *)
Definition increment_redis (now : Z) (reqId key : string) (windowMs : Z) : meth R exn (option Z) :=
  match redisOps with
  | Some ops =>
      match zadd ops with
      | Some zadd =>
          when (zremrangebyscore ops) (fun f => f (full_key key) 0 (now - windowMs));;
          zadd (full_key key) now reqId;;
          when (pexpire ops) (fun f => f (full_key key) windowMs);;
          match zcard ops with
          | Some zcard => n ← zcard (full_key key); mret (Some n)
          | None => mret None
          end
      | None => mret None
      end
  | None => mret None
  end.

(** security/rate-limiting/sliding-window-counter.ts:19-51 increment *)
Definition increment (now : Z) (reqId key : string) (windowMs : Z) : M Z := fun s =>
  let clearBefore := now - windowMs in
  let '(r, o) := increment_redis now reqId key windowMs (server s) in
  match o with
  | Ok (Some n) => (Mk (fallbackCounts s) r, Ok n)
  | _ =>
      let record := default [] (jmap_get key (fallbackCounts s)) in
      let validTimestamps := filter (fun ts => clearBefore < ts) record ++ [now] in
      (Mk (jmap_set key validTimestamps (fallbackCounts s)) r, Ok (Z.of_nat (length validTimestamps)))
  end.

(** security/rate-limiting/sliding-window-counter.ts:56-72 getCount *)
Definition getCount (now : Z) (key : string) (windowMs : Z) : M Z := fun s =>
  let clearBefore := now - windowMs in
  let '(r, o) := match redisOps ≫= zcount with
                 | Some f => let '(r, o) := f (full_key key) clearBefore (server s) in
                             (r, match o with Ok n => Some n | Throw _ => None end)
                 | None => (server s, None)
                 end in
  (Mk (fallbackCounts s) r,
   Ok (match o with
       | Some n => n
       | None => Z.of_nat (length (filter (fun ts => clearBefore < ts) (default [] (jmap_get key (fallbackCounts s)))))
       end)).

(** security/rate-limiting/sliding-window-counter.ts:77-86 reset *)
Definition reset (key : string) : M unit := fun s =>
  let r := match redisOps ≫= del with Some f => (f (full_key key) (server s)).1 | None => server s end in
  (Mk (jmap_delete key (fallbackCounts s)) r, Ok tt).

(** ** The limiter *)

(** security/rate-limiting/rate-limiter.ts:7-13 RateLimitCheckResult *)
Record check_result : Type := CheckResult {
  allowed : bool; limit : Z; remaining : Z; resetTime : Z; retryAfterSeconds : Z;
}.

(** security/rate-limiting/rate-limiter.ts:37-59 checkLimit *)
Definition checkLimit (now : Z) (reqId key : string) (limit windowMs : Z) : M check_result :=
  currentCount ← increment now reqId key windowMs;
  mret (CheckResult (currentCount <=? limit) limit (Z.max 0 (limit - currentCount)) (now + windowMs)
          (- (- windowMs / 1000))).

(** security/rate-limiting/rate-limiter.ts:64-76 consumeOrThrow
    The message of the thrown [RateLimitError]. *)
Definition consumeOrThrow (now : Z) (reqId key : string) (limit windowMs : Z) : M check_result :=
  result ← checkLimit now reqId key limit windowMs;
  if allowed result then mret result
  else fail (PlainError ("Rate limit exceeded for key " +:+ quoted key +:+ ". Try again in "
               +:+ pretty (retryAfterSeconds result) +:+ " seconds.")).

(** security/rate-limiting/rate-limiter.ts:78-81 isAllowed *)
Definition isAllowed (now : Z) (reqId key : string) (limit windowMs : Z) : M bool :=
  r ← checkLimit now reqId key limit windowMs; mret (allowed r).

(** security/rate-limiting/rate-limiter.ts:103-106 getRemaining *)
Definition getRemaining (now : Z) (key : string) (limit windowMs : Z) : M Z :=
  count ← getCount now key windowMs; mret (Z.max 0 (limit - count)).

(** security/rate-limiting/rate-limiter.ts:115-122 getHeaders *)
Definition getHeaders (r : check_result) : list (string * string) :=
  [("X-RateLimit-Limit", pretty (limit r)); ("X-RateLimit-Remaining", pretty (remaining r));
   ("X-RateLimit-Reset", pretty (- (- resetTime r / 1000)))]
  ++ if allowed r then [] else [("Retry-After", pretty (retryAfterSeconds r))].
End counter.

(** ** Properties of the memory path *)

Section memory.
Abbreviation St := (t unit).

(** A call: its instant and its key. *)
Definition call : Type := Z * string.

(** The counter after some calls, without a server. *)
Definition run_calls (w : Z) (l : list call) (s : St) : St :=
  fold_left (fun s c => (increment None c.1 EmptyString c.2 w s).1) l s.
Definition start : St := Mk [] tt.

(** The hits of [key] after [since]. *)
Definition hits_since (since : Z) (key : string) (l : list call) : list Z :=
  filter (fun ts => since < ts) (map fst (filter (fun c => c.2 = key) l)).

Definition nondecreasing (l : list call) : Prop := StronglySorted Z.le (map fst l).

Lemma nondecreasing_snoc l c : nondecreasing (l ++ [c]) -> nondecreasing l /\ Forall (fun d => d.1 <= c.1) l.
Proof.
  unfold nondecreasing. rewrite map_app, StronglySorted_app. intros (H & Hs & _). split; [done|].
  apply Forall_forall. intros d Hd. apply H; [by apply list_elem_of_fmap_2|by left].
Qed.

Lemma filter_later (a b : Z) (l : list Z) :
  a <= b -> filter (fun ts => b < ts) (filter (fun ts => a < ts) l) = filter (fun ts => b < ts) l.
Proof. intros Hab. apply list_filter_filter_l. intros x. lia. Qed.

(** What memory holds determines every later window. *)
Lemma run_calls_window w l key since :
  Forall (fun c => c.1 - w <= since) l ->
  filter (fun ts => since < ts) (default [] (jmap_get key (fallbackCounts (run_calls w l start)))) =
    hits_since since key l.
Proof.
  induction l as [|[now k] l IH] using rev_ind; intros Hw; [done|].
  apply Forall_app in Hw as [Hw [Hnow _]%Forall_cons].
  unfold run_calls, hits_since. rewrite fold_left_app, filter_app, map_app, filter_app.
  fold (run_calls w l start). simpl in *.
  destruct (decide (k = key)) as [->|Hne].
  - rewrite jmap_get_set_eq, (filter_cons_True (fun c : call => c.2 = key)) by done. simpl.
    rewrite filter_app, filter_later by done. rewrite IH by done. done.
  - rewrite jmap_get_set_ne by done. rewrite (filter_cons_False (fun c : call => c.2 = key)) by done. simpl.
    rewrite IH by done. unfold hits_since. rewrite !filter_nil. by rewrite app_nil_r.
Qed.

(** The count of an [increment] is exact. *)
Lemma increment_exact w l now key reqId :
  Forall (fun c => c.1 <= now) l ->
  increment None now reqId key w (run_calls w l start) =
    ((increment None now reqId key w (run_calls w l start)).1,
     Ok (Z.of_nat (length (hits_since (now - w) key l)) + 1)).
Proof.
  intros Hl. unfold increment at 1. simpl. f_equal. rewrite run_calls_window.
  - rewrite length_app. simpl. f_equal. lia.
  - eapply Forall_impl; [exact Hl|]. simpl. lia.
Qed.

(** The calls of [checkLimit], each with its verdict. *)
Fixpoint checks (lim w : Z) (l : list call) (s : St) : list (call * bool) :=
  match l with
  | [] => []
  | c :: l =>
      let '(s', r) := checkLimit None c.1 EmptyString c.2 lim w s in
      (c, match r with Ok r => allowed r | Throw _ => false end) :: checks lim w l s'
  end.

(** The calls of [key] let through after [since]. *)
Definition admitted (since : Z) (key : string) (log : list (call * bool)) : list (call * bool) :=
  filter (fun e => e.2 = true /\ e.1.2 = key /\ since < e.1.1) log.

Lemma checks_app lim w l l' s : checks lim w (l ++ l') s = checks lim w l s ++ checks lim w l' (run_calls w l s).
Proof.
  revert s. induction l as [|c l IH]; intros s; [done|]. simpl. unfold checkLimit, mbind, meth_bind. simpl.
  f_equal. apply IH.
Qed.

Lemma checks_calls lim w l s : map fst (checks lim w l s) = l.
Proof.
  revert s. induction l as [|c l IH]; intros s; [done|]. simpl.
  unfold checkLimit, mbind, meth_bind. simpl. by rewrite IH.
Qed.

(** A later window admits no more calls than there were hits in it. *)
Lemma admitted_le_hits a b key log :
  a <= b -> (length (admitted b key log) <= length (hits_since a key (map fst log)))%nat.
Proof.
  intros Hab. induction log as [|[[ts k] ok] log IH]; [done|]. unfold admitted, hits_since in *. simpl.
  rewrite filter_cons. destruct (decide _) as [(_ & Hk & Hts)|_]; simpl in *.
  - rewrite filter_cons_True by done. simpl. rewrite (filter_cons_True (fun ts => a < ts)) by lia. exact (le_n_S _ _ IH).
  - etransitivity; [exact IH|]. rewrite filter_cons. destruct (decide _); [|reflexivity].
    rewrite fmap_cons, filter_cons. destruct (decide _); [apply le_S|]; reflexivity.
Qed.

(** C22: the in-memory sliding window holds the limit: for calls at nondecreasing
    times, each call counts exactly the calls of its key in the last [w]
    milliseconds, itself and the refused ones included, and is let through iff
    that is at most the limit; so no window of length [w] lets more than the
    limit through. *)
Theorem window_limit lim w l t key :
  0 <= lim -> 0 <= w -> nondecreasing l -> Forall (fun c => c.1 <= t) l ->
  (forall reqId,
     (checkLimit None t reqId key lim w (run_calls w l start)).2 =
       let n := Z.of_nat (length (hits_since (t - w) key l)) + 1 in
       Ok (CheckResult (n <=? lim) lim (Z.max 0 (lim - n)) (t + w) (- (- w / 1000)))) /\
  Z.of_nat (length (admitted (t - w) key (checks lim w l start))) <= lim.
Proof.
  intros Hlim Hw Hs Ht. split.
  { intros reqId. unfold checkLimit, mbind, meth_bind. by rewrite increment_exact. }
  induction l as [|[now k] l IH] using rev_ind; [done|].
  apply nondecreasing_snoc in Hs as [Hs Hle]. apply Forall_app in Ht as [Ht [Hnow _]%Forall_cons]. simpl in *.
  specialize (IH Hs Ht). rewrite checks_app. unfold admitted in *. rewrite filter_app, length_app.
  simpl. rewrite filter_cons.
  destruct (decide _) as [(Ha & Hk & Hts)|_]; simpl in *; [|rewrite Nat.add_0_r; exact IH].
  subst k. rewrite run_calls_window in Ha by (eapply Forall_impl; [exact Hle|]; simpl; lia).
  rewrite length_app in Ha. simpl in Ha. apply Z.leb_le in Ha.
  pose proof (admitted_le_hits (now - w) (t - w) key (checks lim w l start) ltac:(lia)) as Hc.
  rewrite checks_calls in Hc. apply inj_le in Hc. rewrite Nat2Z.inj_add. simpl.
  etransitivity; [|exact Ha]. rewrite Nat2Z.inj_add. apply Z.add_le_mono_r. exact Hc.
Qed.
End memory.

Lemma window_limit_witness :
  Z.of_nat (length (admitted (1900 - 1000) "k" (checks 2 1000 [(0, "k"); (100, "k"); (950, "k"); (1800, "k")] start))) <= 2.
Proof.
  apply (window_limit 2 1000 [(0, "k"); (100, "k"); (950, "k"); (1800, "k")] 1900 "k"); [lia|lia| |].
  - repeat constructor; simpl; lia.
  - repeat constructor; simpl; lia.
Defined.

(** ** Over the wrapper of the repository *)

(** The sorted sets of a Redis server: their members. *)
Class ZSets (R : Type) := {
  zset : string -> R -> gset string;
  z_add : string -> Z -> string -> R -> R;
  z_del : string -> R -> R;
  zset_add_eq k score m r : zset k (z_add k score m r) = {[m]} ∪ zset k r;
  zset_add_ne k k' score m r : k <> k' -> zset k' (z_add k score m r) = zset k' r;
  zset_del k r : zset k (z_del k r) = ∅;
}.

#[global] Program Instance gmap_zsets : ZSets (gmap string (gmap string Z)) := {
  zset k r := dom (default ∅ (r !! k));
  z_add k score m r := <[k := <[m := score]> (default ∅ (r !! k))]> r;
  z_del k r := base.delete k r;
}.
Next Obligation. intros k score m r. simpl. rewrite lookup_insert_eq. simpl. by rewrite dom_insert_L. Qed.
Next Obligation. intros k k' score m r Hne. simpl. by rewrite lookup_insert_ne. Qed.
Next Obligation. intros k r. simpl. by rewrite lookup_delete_eq. Qed.

Section redis.
Context {R : Type} `{ZSets R}.

(** infrastructure/redis/redis-operations.ts:147-161 RedisOperations
    The sorted-set commands of the wrapper: [zadd] and [zcard], and [delete];
    it has no [zremrangebyscore], [pexpire] or [zcount]. *)
Definition redis_operations : redis_ops R := {|
  zadd := Some (fun k score m => modify (z_add k score m));
  zremrangebyscore := None;
  pexpire := None;
  zcard := Some (fun k => gets (fun r => Z.of_nat (size (zset k r))));
  zcount := None;
  del := Some (fun k => modify (z_del k));
|}.

(** Increments of one key, each with its instant and request id. *)
Definition run_increments (key : string) (w : Z) (l : list (Z * string)) (s : t R) : t R :=
  fold_left (fun s c => (increment (Some redis_operations) c.1 c.2 key w s).1) l s.

Lemma increment_redis_eq now reqId key w s :
  increment (Some redis_operations) now reqId key w s =
    (Mk (fallbackCounts s) (z_add (full_key key) now reqId (server s)),
     Ok (Z.of_nat (size ({[reqId]} ∪ zset (full_key key) (server s))))).
Proof. unfold increment, increment_redis. simpl. munfold. by rewrite zset_add_eq. Qed.

Lemma run_increments_zset key w l s :
  zset (full_key key) (server (run_increments key w l s)) =
    list_to_set (map snd l) ∪ zset (full_key key) (server s) /\
  fallbackCounts (run_increments key w l s) = fallbackCounts s.
Proof.
  revert s. induction l as [|[now id] l IH]; intros s; [simpl; split; [set_solver|done]|].
  unfold run_increments in *. cbn [fold_left]. rewrite increment_redis_eq. cbn [fst snd].
  destruct (IH (Mk (fallbackCounts s) (z_add (full_key key) now id (server s)))) as [-> ->].
  simpl. rewrite zset_add_eq. split; [set_solver|done].
Qed.

(** Over [RedisOperations] the window never slides: the wrapper has no
    command to trim or expire the sorted set, so the [n]-th request of a key is
    counted [n] whatever the times of the requests and the window; from the
    first one beyond the limit on every request is refused, while [getRemaining]
    goes on reporting the whole limit. *)
Theorem redis_window_never_slides key w lim l now reqId s :
  zset (full_key key) (server s) = ∅ -> NoDup (map snd l ++ [reqId]) -> 0 <= lim ->
  jmap_get key (fallbackCounts s) = None ->
  let s' := run_increments key w l s in
  (exists r, (checkLimit (Some redis_operations) now reqId key lim w s').2 = Ok r /\
     allowed r = (Z.of_nat (length l) <? lim)) /\
  (getRemaining (Some redis_operations) now key lim w s').2 = Ok lim.
Proof.
  intros Hz Hnd Hlim Hm s'. destruct (run_increments_zset key w l s) as [Hz' Hf']. fold s' in Hz', Hf'. split.
  - unfold checkLimit, mbind, meth_bind. rewrite increment_redis_eq, Hz', Hz. simpl. eexists. split; [done|]. simpl.
    apply NoDup_app in Hnd as (Hl & Hx & _).
    assert (size ({[reqId]} ∪ (list_to_set (map snd l) ∪ ∅) : gset string) = S (length l)) as ->.
    { rewrite (right_id_L ∅ (∪)), size_union, size_singleton, size_list_to_set, length_map; [done|done|].
      intros x Hx1%elem_of_singleton Hx2%elem_of_list_to_set. subst x. apply (Hx reqId Hx2). by left. }
    rewrite Nat2Z.inj_succ. destruct (Z.ltb_spec (Z.of_nat (length l)) lim); apply Z.leb_le || apply Z.leb_gt; lia.
  - unfold getRemaining, getCount. munfold. rewrite Hf', Hm. simpl. f_equal. lia.
Qed.
End redis.

Lemma redis_window_never_slides_witness :
  let s' := run_increments "k" 1000 [(0, "a"); (50000, "b")] (Mk [] (∅ : gmap string (gmap string Z))) in
  (exists r, (checkLimit (Some redis_operations) 900000 "c" "k" 2 1000 s').2 = Ok r /\
     allowed r = (Z.of_nat (length [(0, "a"); (50000, "b")]) <? 2)) /\
  (getRemaining (Some redis_operations) 900000 "k" 2 1000 s').2 = Ok 2.
Proof.
  apply (redis_window_never_slides "k" 1000 2 [(0, "a"); (50000, "b")] 900000 "c"
    (Mk [] (∅ : gmap string (gmap string Z)))).
  - vm_compute. reflexivity.
  - apply (bool_decide_unpack _). vm_compute. done.
  - lia.
  - reflexivity.
Defined.

End SlidingWindow.

(** ** The token bucket *)

Module TokenBucket.

(** security/rate-limiting/token-bucket.ts:4-7 BucketState *)
Record bucket : Type := Bucket { tokens : Z; lastRefill : Z }.

(** What the wrapper offers for whole values: [get], parsed, and [set] with a
    time to live in milliseconds. *)
Record store_ops (R : Type) : Type := StoreOps {
  get : string -> meth R exn (option bucket);
  set : string -> bucket -> Z -> meth R exn unit;
}.
Arguments StoreOps {R}. Arguments get {R}. Arguments set {R}.

(** security/rate-limiting/token-bucket.ts:12-33 TokenBucket *)
Record t (R : Type) : Type := Mk {
  memoryBuckets : list (string * bucket); capacity : Z; refillRate : Z; server : R;
}.
Arguments Mk {R}. Arguments memoryBuckets {R}. Arguments capacity {R}. Arguments refillRate {R}. Arguments server {R}.

(** security/rate-limiting/token-bucket.ts:18-33 constructor
    With a number for capacity, or with a logger in its place. *)
Definition new {R} (capacityOrLogger : option Z) (refillRateParam refillIntervalMs : option Z) (r : R) : t R :=
  let rate := default 10 refillRateParam in
  let interval := default 1000 refillIntervalMs in
  match capacityOrLogger with
  | Some c => Mk [] c rate r
  | None => Mk [] (if 0 <? rate then rate else 100) (if interval =? 0 then 10 else interval) r
  end.

Section bucket.
Context {R : Type} (redisOps : option (store_ops R)).
Abbreviation M := (meth (t R) exn).

Definition bucket_key (key : string) : string := "queueforge:ratelimit:tb:" +:+ key.

(** [Math.floor(elapsedSec * this.refillRate)], rounded as the code computes it. *)
Definition accrued (rate elapsed : Z) : Z :=
  Qfloor (round64 (round64 (inject_Z elapsed / inject_Z 1000) * inject_Z rate)).

(** security/rate-limiting/token-bucket.ts:51-54 tryConsume
    The bucket brought up to date; [None] is a bucket not seen yet. *)
Definition refilled_bucket (cap rate now : Z) (raw : option bucket) : bucket :=
  let state := default (Bucket cap now) raw in
  let refilled := match raw with
                  | Some _ => Z.max rate (accrued rate (Z.max 0 (now - lastRefill state)))
                  | None => 0
                  end in
  Bucket (Z.min cap (tokens state + refilled)) now.

(** security/rate-limiting/token-bucket.ts:56-64 tryConsume *)
Definition consume (cost : Z) (b : bucket) : bucket * bool :=
  if cost <=? tokens b then (Bucket (tokens b - cost) (lastRefill b), true) else (b, false).

(** security/rate-limiting/token-bucket.ts:45-75 tryConsume
    The attempt on the server; a thrown error means memory. *)
Definition tryConsume_redis (ops : store_ops R) (now cap rate : Z) (key : string) (cost : Z) : meth R exn bool :=
  raw ← get ops (bucket_key key);
  let '(b, ok) := consume cost (refilled_bucket cap rate now raw) in
  set ops (bucket_key key) b 3600;; mret ok.

(** security/rate-limiting/token-bucket.ts:42-92 tryConsume *)
Definition tryConsume (now : Z) (key : string) (cost : Z) : M bool := fun s =>
  let memory r :=
    let '(b, ok) := consume cost (refilled_bucket (capacity s) (refillRate s) now (jmap_get key (memoryBuckets s))) in
    (Mk (jmap_set key b (memoryBuckets s)) (capacity s) (refillRate s) r, Ok ok) in
  match redisOps with
  | Some ops =>
      match tryConsume_redis ops now (capacity s) (refillRate s) key cost (server s) with
      | (r, Ok ok) => (Mk (memoryBuckets s) (capacity s) (refillRate s) r, Ok ok)
      | (r, Throw _) => memory r
      end
  | None => memory (server s)
  end.

(** security/rate-limiting/token-bucket.ts:122-135 refill *)
Definition refill (now : Z) (key : string) : M Z := fun s =>
  let b := Bucket (capacity s) now in
  let r := match redisOps with Some ops => (set ops (bucket_key key) b 3600 (server s)).1 | None => server s end in
  (Mk (jmap_set key b (memoryBuckets s)) (capacity s) (refillRate s) r, Ok (capacity s)).

(** ** Properties *)

Lemma refilled_enough cap rate now raw cost :
  cost <= cap -> cost <= rate -> (forall b, raw = Some b -> 0 <= tokens b) ->
  (consume cost (refilled_bucket cap rate now raw)).2 = true /\
  (0 <= cost -> 0 <= tokens (consume cost (refilled_bucket cap rate now raw)).1).
Proof.
  intros H1 H2 Hb. unfold consume, refilled_bucket. destruct raw as [b|]; simpl.
  - specialize (Hb b eq_refl). replace (cost <=? _) with true; [split; [done|]; simpl; lia|].
    symmetry. apply Z.leb_le. lia.
  - replace (cost <=? _) with true; [split; [done|]; simpl; lia|]. symmetry. apply Z.leb_le. lia.
Qed.
End bucket.

(** Calls of [tryConsume] on a bucket without a server, with non-negative costs
    within the capacity and the refill rate. *)
Inductive step : t unit -> t unit -> Prop :=
| step_consume now key cost s :
    0 <= cost <= capacity s -> cost <= refillRate s -> step s (tryConsume None now key cost s).1
| step_refill now key s : step s (refill None now key s).1.

Definition wf (cap rate : Z) (s : t unit) : Prop :=
  capacity s = cap /\ refillRate s = rate /\ Forall (fun e => 0 <= tokens e.2) (memoryBuckets s).

Lemma wf_get cap rate s key b : wf cap rate s -> jmap_get key (memoryBuckets s) = Some b -> 0 <= tokens b.
Proof. intros (_ & _ & Hf) Hg. apply jmap_get_In in Hg. rewrite Forall_forall in Hf. exact (Hf _ Hg). Qed.

Lemma tryConsume_memory now key cost (s : t unit) :
  tryConsume None now key cost s =
    (let c := consume cost (refilled_bucket (capacity s) (refillRate s) now (jmap_get key (memoryBuckets s))) in
     (Mk (jmap_set key c.1 (memoryBuckets s)) (capacity s) (refillRate s) (server s), Ok c.2)).
Proof. unfold tryConsume. by destruct (consume _ _). Qed.

Lemma step_keeps_wf cap rate s s' : 0 <= cap -> step s s' -> wf cap rate s -> wf cap rate s'.
Proof.
  intros Hc Hs Hw. pose proof Hw as (Hcap & Hrate & Hf). destruct Hs as [now key cost s [H0 H1] H2|now key s].
  - rewrite tryConsume_memory. simpl. split_and!; [done|done|]. apply (jmap_set_Forall (fun b => 0 <= tokens b)); [|done].
    apply refilled_enough; [done|done| |done]. intros b Hb. by eapply wf_get.
  - simpl. split_and!; [done|done|]. apply (jmap_set_Forall (fun b => 0 <= tokens b)); [simpl; lia|done].
Qed.

(** The token bucket never refuses a request whose cost is within both the
    capacity and the refill rate, however many requests come and however fast:
    every call on a known bucket adds at least [refillRate] tokens, even when no
    time has passed.  As the security module builds it (capacity 10, rate 1000)
    no request of cost at most 10 is ever refused. *)
Theorem token_bucket_never_refuses cap rate s now key cost :
  0 <= cap -> rtc step (Mk [] cap rate tt) s -> 0 <= cost <= cap -> cost <= rate ->
  (tryConsume None now key cost s).2 = Ok true /\
  (capacity (new None None None tt) = 10 /\ refillRate (new None None None tt) = 1000).
Proof.
  intros Hcap Hs Hc Hr. split; [|done].
  assert (Hw : wf cap rate s).
  { assert (H0 : wf cap rate (Mk [] cap rate tt)) by (split_and!; [done|done|constructor]).
    revert H0. induction Hs as [|x y z Hxy _ IH]; [done|]. intros Hx. apply IH. by eapply step_keeps_wf. }
  rewrite tryConsume_memory. simpl. f_equal. pose proof Hw as (-> & -> & _).
  apply refilled_enough; [lia|lia|]. intros b Hb. by eapply wf_get.
Qed.

Lemma token_bucket_never_refuses_witness :
  (tryConsume None 5 "k" 10 (tryConsume None 5 "k" 10 (Mk [] 10 1000 tt)).1).2 = Ok true /\
  (capacity (new None None None tt) = 10 /\ refillRate (new None None None tt) = 1000).
Proof.
  apply (token_bucket_never_refuses 10 1000); [lia| |lia|lia].
  eapply rtc_l; [apply (step_consume 5 "k" 10); simpl; lia|apply rtc_refl].
Defined.

End TokenBucket.
