(* ===== verification/Text.v ===== *)
(** * Text

    The string operations of the language that the remaining components use
    ([split], [trim], [parseInt], hexadecimal [Buffer]s, the default order of
    [sort]), on byte strings, with the round trips they take part in. *)
From Stdlib Require Import Ascii QArith Qround Qpower Qabs Lqa.
From stdpp Require Import base tactics numbers list strings sorting pretty.
From S2P Require Import Prelude JsNum JsValue.

Fixpoint str_forall (p : ascii -> bool) (s : string) : bool :=
  match s with EmptyString => true | String c s => p c && str_forall p s end.

Lemma str_forall_app p a b : str_forall p (a +:+ b) = str_forall p a && str_forall p b.
Proof. induction a as [|c a IH]; simpl; [done|]. by rewrite IH, andb_assoc. Qed.

Lemma str_forall_impl (p q : ascii -> bool) s :
  (forall c, p c = true -> q c = true) -> str_forall p s = true -> str_forall q s = true.
Proof.
  intros Hpq. induction s as [|c s IH]; simpl; [done|]. intros [Hc Hs]%andb_true_iff.
  by rewrite (Hpq c Hc), IH.
Qed.

Lemma str_app_assoc (a b c : string) : a +:+ (b +:+ c) = (a +:+ b) +:+ c.
Proof. induction a as [|x a IH]; [done|]. change (String x (a +:+ (b +:+ c)) = String x ((a +:+ b) +:+ c)). by rewrite IH. Qed.

Lemma str_app_nil_r (a : string) : a +:+ "" = a.
Proof. induction a as [|x a IH]; [done|]. change (String x (a +:+ "") = String x a). by rewrite IH. Qed.

(** ** [length] of a string: the UTF-16 units of the UTF-8 text

    A continuation byte counts for none, the first byte of a character beyond
    the basic plane for two. *)

Definition js_units (c : ascii) : nat :=
  let n := nat_of_ascii c in
  if (128 <=? n)%nat && (n <? 192)%nat then 0 else if (240 <=? n)%nat then 2 else 1.
Fixpoint js_length (s : string) : nat := match s with EmptyString => 0 | String c s => js_units c + js_length s end.

(** ** [split] on a character *)

Fixpoint split_on (c : ascii) (s : string) : list string :=
  match s with
  | EmptyString => [EmptyString]
  | String d s =>
      if Ascii.eqb c d then EmptyString :: split_on c s
      else match split_on c s with
           | [] => [String d EmptyString]
           | w :: ws => String d w :: ws
           end
  end.
Definition avoids (c : ascii) (s : string) : bool := str_forall (fun d => negb (Ascii.eqb c d)) s.

(** Texts joined by a character the first ones avoid. *)
Lemma sep_inj c a a' b b' :
  avoids c a = true -> avoids c a' = true -> a +:+ String c b = a' +:+ String c b' -> a = a' /\ b = b'.
Proof.
  unfold avoids. revert a'. induction a as [|x a IH]; intros [|x' a'] Ha Ha' E; simpl in *.
  - injection E as E. done.
  - injection E as <- E. by rewrite Ascii.eqb_refl in Ha'.
  - injection E as -> E. by rewrite Ascii.eqb_refl in Ha.
  - apply andb_true_iff in Ha as [_ Ha], Ha' as [_ Ha']. injection E as -> E. destruct (IH a' Ha Ha' E) as [-> ->]. done.
Qed.

Lemma avoids_includes c p s : avoids c s = true -> includes (String c p) s = false.
Proof.
  unfold avoids. induction s as [|d s IH]; [done|]. cbn [str_forall includes starts_with].
  intros [Hd Hs]%andb_true_iff. rewrite IH by done. apply negb_true_iff, Ascii.eqb_neq in Hd.
  by rewrite bool_decide_false by done.
Qed.

Lemma starts_with_app a b : starts_with a (a +:+ b) = true.
Proof. induction a as [|c a IH]; [done|]. change (String c a +:+ b) with (String c (a +:+ b)). simpl. by rewrite bool_decide_eq_true_2. Qed.

Lemma split_on_avoids c s : avoids c s = true -> split_on c s = [s].
Proof.
  unfold avoids. induction s as [|d s IH]; simpl; [done|]. intros [Hd Hs]%andb_true_iff.
  apply negb_true_iff in Hd. by rewrite Hd, IH.
Qed.

Lemma split_on_app c a s : avoids c a = true -> split_on c (a +:+ String c s) = a :: split_on c s.
Proof.
  unfold avoids. induction a as [|d a IH]; simpl.
  - intros _. by rewrite Ascii.eqb_refl.
  - intros [Hd Ha]%andb_true_iff. apply negb_true_iff in Hd.
    change ((if Ascii.eqb c d then EmptyString :: split_on c (a +:+ String c s)
             else match split_on c (a +:+ String c s) with
                  | [] => [String d EmptyString] | w :: ws => String d w :: ws end) = String d a :: split_on c s).
    by rewrite Hd, IH.
Qed.

Lemma split_on_cons c s : split_on c s <> [].
Proof. destruct s as [|d s]; simpl; [done|]. destruct (Ascii.eqb c d); [done|]. by destruct (split_on c s). Qed.

(** What holds of the pieces and of the separator holds of the whole. *)
Lemma split_on_forall p c s :
  p c = true -> (forall w, w ∈ split_on c s -> str_forall p w = true) -> str_forall p s = true.
Proof.
  intros Hc. induction s as [|d s IH]; [done|]. cbn [split_on str_forall]. destruct (Ascii.eqb c d) eqn:E.
  - apply Ascii.eqb_eq in E as <-. intros Hl. rewrite Hc. apply IH. intros w Hw. apply Hl. by right.
  - destruct (split_on c s) as [|w ws] eqn:Es; [by destruct (split_on_cons c s)|]. intros Hl.
    pose proof (Hl _ (list_elem_of_here _ _)) as H1. cbn [str_forall] in H1. apply andb_true_iff in H1 as [-> H1].
    apply IH. intros w' [->|Hw]%elem_of_cons; [done|]. apply Hl. by right.
Qed.

(** ** [trim] (ASCII white space) *)

Definition is_space (c : ascii) : bool :=
  let n := Ascii.nat_of_ascii c in ((9 <=? n) && (n <=? 13) || (n =? 32))%nat.
Fixpoint trim_start (s : string) : string :=
  match s with
  | String c s' => if is_space c then trim_start s' else s
  | EmptyString => EmptyString
  end.
Fixpoint trim_end (s : string) : string :=
  match s with
  | EmptyString => EmptyString
  | String c s =>
      let t := trim_end s in
      if is_space c && str_eqb t "" then EmptyString else String c t
  end.
Definition trim (s : string) : string := trim_end (trim_start s).

Lemma trim_no_space s : str_forall (fun c => negb (is_space c)) s = true -> trim s = s.
Proof.
  intros Hs. unfold trim. assert (trim_start s = s) as ->.
  { destruct s as [|c s]; [done|]. simpl in *. apply andb_true_iff in Hs as [Hc _].
    apply negb_true_iff in Hc. by rewrite Hc. }
  induction s as [|c s IH]; simpl in *; [done|]. apply andb_true_iff in Hs as [Hc Hs].
  apply negb_true_iff in Hc. by rewrite Hc, IH.
Qed.

(** ** Hexadecimal *)

Definition hex_char (n : nat) : ascii := Ascii.ascii_of_nat (if (n <? 10)%nat then 48 + n else 87 + n).
Definition hex_value (c : ascii) : option nat :=
  let n := Ascii.nat_of_ascii c in
  if ((48 <=? n) && (n <=? 57))%nat then Some (n - 48)%nat
  else if ((97 <=? n) && (n <=? 102))%nat then Some (n - 87)%nat
  else if ((65 <=? n) && (n <=? 70))%nat then Some (n - 55)%nat
  else None.
(** [buf.toString('hex')]. *)
Fixpoint hex_encode (s : string) : string :=
  match s with
  | EmptyString => EmptyString
  | String c s =>
      let n := Ascii.nat_of_ascii c in
      String (hex_char (n / 16)) (String (hex_char (n mod 16)) (hex_encode s))
  end.
(** [Buffer.from(s, 'hex')]: up to the first pair that is not hexadecimal. *)
Fixpoint hex_decode (s : string) : string :=
  match s with
  | String a (String b s) =>
      match hex_value a, hex_value b with
      | Some x, Some y => String (Ascii.ascii_of_nat (16 * x + y)) (hex_decode s)
      | _, _ => EmptyString
      end
  | _ => EmptyString
  end.

Lemma hex_digits_ok c :
  let n := Ascii.nat_of_ascii c in
  hex_value (hex_char (n / 16)) = Some (n / 16)%nat /\ hex_value (hex_char (n mod 16)) = Some (n mod 16)%nat.
Proof. destruct c as [[] [] [] [] [] [] [] []]; by vm_compute. Qed.

Lemma hex_decode_encode s : hex_decode (hex_encode s) = s.
Proof.
  induction s as [|c s IH]; [done|]. cbn [hex_encode hex_decode]. destruct (hex_digits_ok c) as [-> ->]. rewrite IH.
  f_equal. rewrite <- (Ascii.ascii_nat_embedding c) at 3. f_equal.
  symmetry. apply Nat.div_mod_eq.
Qed.

Definition is_hex (c : ascii) : bool := match hex_value c with Some _ => true | None => false end.

Lemma hex_encode_hex s : str_forall is_hex (hex_encode s) = true.
Proof.
  unfold is_hex. induction s as [|c s IH]; [done|]. cbn [hex_encode str_forall]. destruct (hex_digits_ok c) as [-> ->]. exact IH.
Qed.

Lemma is_hex_plain c : is_hex c = true -> negb (is_space c) && negb (Ascii.eqb "," c) && negb (Ascii.eqb "=" c) = true.
Proof. by destruct c as [[] [] [] [] [] [] [] []]. Qed.

Lemma hex_encode_length s : String.length (hex_encode s) = (2 * String.length s)%nat.
Proof. induction s as [|c s IH]; simpl; [done|]. rewrite IH. lia. Qed.

(** ** Decimal integers ([String(n)], [parseInt(s, 10)]) *)

Definition digit_value (c : ascii) : option Z :=
  let n := Ascii.nat_of_ascii c in
  if ((48 <=? n) && (n <=? 57))%nat then Some (Z.of_nat (n - 48)) else None.
Definition is_digit (c : ascii) : bool := match digit_value c with Some _ => true | None => false end.
(** The digits at the front of a string, on top of those read before. *)
Fixpoint read_digits (s : string) (acc : Z) : Z :=
  match s with
  | String c s => match digit_value c with Some d => read_digits s (10 * acc + d) | None => acc end
  | EmptyString => acc
  end.
Definition starts_with_digit (s : string) : bool :=
  match s with String c _ => is_digit c | EmptyString => false end.
(** [None] is NaN. *)
Definition parse_int (s : string) : option Z :=
  let s := trim_start s in
  let '(neg, s) :=
    match s with
    | String "-" s => (true, s)
    | String "+" s => (false, s)
    | _ => (false, s)
    end in
  if starts_with_digit s
  then Some (if neg : bool then - read_digits s 0 else read_digits s 0)
  else None.

Lemma digit_char x : (x < 10)%N -> digit_value (pretty_N_char x) = Some (Z.of_N x).
Proof.
  intros Hx. assert (x = 0 \/ x = 1 \/ x = 2 \/ x = 3 \/ x = 4 \/ x = 5 \/ x = 6 \/ x = 7 \/ x = 8 \/ x = 9)%N as Hc by lia.
  by repeat destruct Hc as [->|Hc]; subst.
Qed.

Lemma read_pretty_go x s : read_digits (pretty_N_go x s) 0 = read_digits s (Z.of_N x).
Proof.
  revert s. induction (N.lt_wf_0 x) as [x _ IH]; intros s.
  destruct (decide (x = 0)%N) as [->|Hx]; [by rewrite pretty_N_go_0|].
  rewrite pretty_N_go_step by lia. rewrite IH by (apply N.div_lt; lia). simpl.
  rewrite digit_char by (apply N.mod_lt; lia). f_equal.
  pose proof (N.div_mod x 10 ltac:(lia)). lia.
Qed.

Lemma pretty_go_digits x s : str_forall is_digit s = true -> str_forall is_digit (pretty_N_go x s) = true.
Proof.
  revert s. induction (N.lt_wf_0 x) as [x _ IH]; intros s Hs.
  destruct (decide (x = 0)%N) as [->|Hx]; [by rewrite pretty_N_go_0|].
  rewrite pretty_N_go_step by lia. apply IH; [apply N.div_lt; lia|]. simpl. unfold is_digit at 1.
  rewrite digit_char by (apply N.mod_lt; lia). exact Hs.
Qed.

Lemma pretty_N_digits (x : N) : str_forall is_digit (pretty x) = true.
Proof. unfold pretty, pretty_N. destruct (decide _); [done|]. by apply pretty_go_digits. Qed.

Lemma read_pretty_N (x : N) : read_digits (pretty x) 0 = Z.of_N x.
Proof. unfold pretty, pretty_N. destruct (decide _) as [->|]; [done|]. by rewrite read_pretty_go. Qed.

Lemma pretty_N_nonempty (x : N) : starts_with_digit (pretty x) = true.
Proof.
  pose proof (pretty_N_digits x) as Hd. destruct (pretty x) as [|c s] eqn:E; simpl in *.
  - pose proof (read_pretty_N x) as Hr. rewrite E in Hr. simpl in Hr. assert (x = 0%N) as -> by lia. done.
  - by apply andb_true_iff in Hd as [-> _].
Qed.

(** Reading back a printed number. *)
Lemma parse_int_pretty (z : Z) : 0 <= z -> parse_int (pretty z) = Some z.
Proof.
  intros Hz. destruct z as [|p|p]; [done| |lia]. change (pretty (Z.pos p)) with (pretty (N.pos p)).
  pose proof (pretty_N_nonempty (N.pos p)) as Hn. pose proof (read_pretty_N (N.pos p)) as Hr.
  destruct (pretty (N.pos p)) as [|c s] eqn:E; [done|]. unfold parse_int.
  assert (trim_start (String c s) = String c s) as ->.
  { simpl. by destruct c as [[] [] [] [] [] [] [] []]. }
  assert ((match String c s with
           | String "-" s => (true, s) | String "+" s => (false, s) | _ => (false, String c s) end)
          = (false, String c s)) as ->.
  { by destruct c as [[] [] [] [] [] [] [] []]. }
  rewrite Hn. f_equal. exact Hr.
Qed.

(** ** The default order of [sort] *)

Fixpoint str_leb (a b : string) : bool :=
  match a, b with
  | EmptyString, _ => true
  | String _ _, EmptyString => false
  | String c a, String d b =>
      let n := Ascii.nat_of_ascii c in let m := Ascii.nat_of_ascii d in
      ((n <? m) || ((n =? m) && str_leb a b))%nat
  end.
Definition str_le (a b : string) : Prop := str_leb a b = true.
#[global] Instance str_le_dec : RelDecision str_le := fun a b => decide (str_leb a b = true).

Lemma str_leb_cons c d a b :
  str_leb (String c a) (String d b) = true <->
  (Ascii.nat_of_ascii c < Ascii.nat_of_ascii d)%nat \/ c = d /\ str_leb a b = true.
Proof.
  simpl. rewrite orb_true_iff, andb_true_iff, Nat.ltb_lt, Nat.eqb_eq. split; (intros [H1|[H1 H2]]; [by left|right]).
  - split; [|done]. by rewrite <- (Ascii.ascii_nat_embedding c), H1, Ascii.ascii_nat_embedding.
  - subst. done.
Qed.

#[global] Instance str_le_total : Total str_le.
Proof.
  unfold str_le. intros a. induction a as [|c a IH]; intros [|d b]; [by left|by left|by right|].
  rewrite !str_leb_cons. destruct (Nat.lt_total (Ascii.nat_of_ascii c) (Ascii.nat_of_ascii d)) as [H|[H|H]]; auto.
  assert (c = d) as -> by (by rewrite <- (Ascii.ascii_nat_embedding c), H, Ascii.ascii_nat_embedding).
  destruct (IH b); auto.
Qed.

#[global] Instance str_le_antisymm : AntiSymm (=) str_le.
Proof.
  unfold str_le. intros a. induction a as [|c a IH]; intros [|d b]; try done.
  rewrite !str_leb_cons. intros [H1|[-> H1]] [H2|[E H2]]; subst; try lia. by rewrite (IH b).
Qed.

#[global] Instance str_le_trans : Transitive str_le.
Proof.
  unfold str_le. intros a. induction a as [|c a IH]; intros [|d b] [|e x]; try done.
  rewrite !str_leb_cons. intros [H1|[-> H1]] [H2|[-> H2]]; try (left; lia). right. split; [done|]. by apply (IH b).
Qed.

(** [keys.sort()]. *)
Definition sort_keys (l : list string) : list string := merge_sort str_le l.

Lemma sort_keys_perm l l' : l ≡ₚ l' -> sort_keys l = sort_keys l'.
Proof.
  intros Hp. eapply (StronglySorted_unique str_le).
  - apply StronglySorted_merge_sort; apply _.
  - apply StronglySorted_merge_sort; apply _.
  - unfold sort_keys. etransitivity; [apply merge_sort_Permutation|]. etransitivity; [exact Hp|].
    symmetry. apply merge_sort_Permutation.
Qed.
