(* ===== verification/IsoDate.v ===== *)
(** * Dates as text

    The text [Date.prototype.toISOString] makes and what [new Date(text)] reads,
    with the proof that reading takes back printing for the years 0 to 9999, and
    that two times print the same day and hour exactly when they lie in the same
    hour. *)
From Stdlib Require Import Ascii QArith Qround Qpower Qabs Lqa.
From stdpp Require Import base tactics numbers list strings pretty.
From S2P Require Import Prelude JsNum JsValue Connectors Text.

(** ** Dates as text *)

Module IsoDate.
Import Json.

(** [toISOString], with the six-digit years before 0 and after 9999. *)
Definition iso_year (y : Z) : string :=
  if (0 <=? y) && (y <=? 9999) then pad 4 y else (if y <? 0 then "-" else "+") +:+ pad 6 (Z.abs y).
Definition iso_rest (m d t : Z) : string :=
  "-" +:+ pad 2 m +:+ "-" +:+ pad 2 d +:+ "T" +:+ pad 2 (t / 3600000) +:+ ":" +:+ pad 2 (t / 60000 mod 60) +:+ ":"
  +:+ pad 2 (t / 1000 mod 60) +:+ "." +:+ pad 3 (t mod 1000) +:+ "Z".
Definition iso_string (ms : Z) : string :=
  let '(y, m, d) := civil (ms / 86400000) in iso_year y +:+ iso_rest m d (ms mod 86400000).

(** The parts of a text of the form 0000-00-00T00:00:00.000Z. *)
Record fields : Type := Fields { f_year : Z; f_month : Z; f_day : Z; f_hour : Z; f_minute : Z; f_second : Z; f_milli : Z }.
Fixpoint take_digits (k : nat) (acc : Z) (s : string) : option (Z * string) :=
  match k with
  | O => Some (acc, s)
  | S k => match s with
           | String c s => match digit_value c with Some d => take_digits k (10 * acc + d) s | None => None end
           | EmptyString => None
           end
  end.
Definition take_char (c : ascii) (s : string) : option string :=
  match s with String d s => if Ascii.eqb c d then Some s else None | EmptyString => None end.
(** [isoDateRegex], with what its groups of digits say. *)
Definition parse_fields (s : string) : option fields :=
  '(y, s) ← take_digits 4 0 s; s ← take_char "-" s;
  '(m, s) ← take_digits 2 0 s; s ← take_char "-" s;
  '(d, s) ← take_digits 2 0 s; s ← take_char "T" s;
  '(h, s) ← take_digits 2 0 s; s ← take_char ":" s;
  '(mi, s) ← take_digits 2 0 s; s ← take_char ":" s;
  '(sec, s) ← take_digits 2 0 s; s ← take_char "." s;
  '(ms, s) ← take_digits 3 0 s; s ← take_char "Z" s;
  if str_eqb s "" then Some (Fields y m d h mi sec ms) else None.

(** The day number of a civil date. *)
Definition day_number (y m d : Z) : Z :=
  let y := if m <=? 2 then y - 1 else y in
  let era := y / 400 in
  let yoe := y mod 400 in
  let doy := (153 * (if m <=? 2 then m + 9 else m - 3) + 2) / 5 + d - 1 in
  let doe := yoe * 365 + yoe / 4 - yoe / 100 + doy in
  era * 146097 + doe - 719468.
(** [new Date(s)] of such a text: a month from 1 to 12 and a day from 1 to 31 make
    a day, a time of day up to 24 hours makes a time. *)
Definition date_of (f : fields) : date :=
  if (1 <=? f_month f) && (f_month f <=? 12) && (1 <=? f_day f) && (f_day f <=? 31) &&
     ((f_hour f <? 24) || ((f_hour f =? 24) && (f_minute f =? 0) && (f_second f =? 0) && (f_milli f =? 0))) &&
     (f_minute f <? 60) && (f_second f <? 60)
  then Some (day_number (f_year f) (f_month f) (f_day f) * 86400000 +
             f_hour f * 3600000 + f_minute f * 60000 + f_second f * 1000 + f_milli f)
  else None.

(** *** Printing and reading *)

(** The year within an era of 400 years, and the day within the year, which
    begins in March. *)
Lemma era_year doe :
  0 <= doe < 146097 ->
  let yoe := (doe - doe / 1460 + doe / 36524 - doe / 146096) / 365 in
  0 <= yoe < 400 /\ 0 <= doe - (365 * yoe + yoe / 4 - yoe / 100) <= 365.
Proof.
  intros Hd yoe. assert (yoe = (doe - doe / 1460 + doe / 36524 - doe / 146096) / 365) as Hy by reflexivity. clearbody yoe.
  Z.to_euclidean_division_equations. lia.
Qed.
Lemma march_day doy :
  0 <= doy <= 365 ->
  let mp := (5 * doy + 2) / 153 in
  let d := doy - (153 * mp + 2) / 5 + 1 in
  let m := if mp <? 10 then mp + 3 else mp - 9 in
  (153 * (if m <=? 2 then m + 9 else m - 3) + 2) / 5 + d - 1 = doy /\ 1 <= m <= 12 /\ 1 <= d <= 31.
Proof.
  intros Hd. cbn zeta. set (mp := (5 * doy + 2) / 153). assert (0 <= mp < 12) by (unfold mp; Z.to_euclidean_division_equations; lia).
  assert ((if (if mp <? 10 then mp + 3 else mp - 9) <=? 2 then (if mp <? 10 then mp + 3 else mp - 9) + 9
           else (if mp <? 10 then mp + 3 else mp - 9) - 3) = mp) as ->.
  { destruct (Z.ltb_spec mp 10); [rewrite (proj2 (Z.leb_gt _ 2)) by lia|rewrite (proj2 (Z.leb_le _ 2)) by lia]; lia. }
  split; [lia|]. split; [destruct (Z.ltb_spec mp 10); lia|]. unfold mp. Z.to_euclidean_division_equations. lia.
Qed.

Lemma day_number_civil n : let '(y, m, d) := civil n in day_number y m d = n /\ 1 <= m <= 12 /\ 1 <= d <= 31.
Proof.
  unfold civil. set (doe := (n + 719468) mod 146097). set (yoe := (doe - doe / 1460 + doe / 36524 - doe / 146096) / 365).
  assert (0 <= doe < 146097) as Hdoe by (apply Z.mod_pos_bound; lia). destruct (era_year doe Hdoe) as [Hy Hdoy]. fold yoe in Hy, Hdoy.
  set (doy := doe - (365 * yoe + yoe / 4 - yoe / 100)) in *. destruct (march_day doy Hdoy) as (Hd & Hm & Hdd).
  set (mp := (5 * doy + 2) / 153) in *. set (d := doy - (153 * mp + 2) / 5 + 1) in *.
  set (m := if mp <? 10 then mp + 3 else mp - 9) in *. split; [|done]. unfold day_number.
  assert ((if m <=? 2 then yoe + (n + 719468) / 146097 * 400 + (if m <=? 2 then 1 else 0) - 1
           else yoe + (n + 719468) / 146097 * 400 + (if m <=? 2 then 1 else 0)) = (n + 719468) / 146097 * 400 + yoe) as ->.
  { destruct (m <=? 2); lia. }
  cbn zeta. set (q := (n + 719468) / 146097). assert ((q * 400 + yoe) / 400 = q) as -> by (Z.to_euclidean_division_equations; lia).
  assert ((q * 400 + yoe) mod 400 = yoe) as -> by (Z.to_euclidean_division_equations; lia). rewrite Hd. subst q.
  pose proof (Z.div_mod (n + 719468) 146097 ltac:(lia)) as Hdm. fold doe in Hdm. unfold doy. lia.
Qed.

(** Reading back the digits a number is printed with. *)
Lemma take_digits_app k acc s a r t : take_digits k acc s = Some (a, r) -> take_digits k acc (s +:+ t) = Some (a, r +:+ t).
Proof.
  revert acc s. induction k as [|k IH]; intros acc s; simpl; [by intros [= -> ->]|].
  destruct s as [|c s]; [done|]. simpl. destruct (digit_value c); [apply IH|done].
Qed.
Definition reads_back (k : nat) (n : Z) : bool :=
  match take_digits k 0 (pad k n) with Some (m, EmptyString) => (m =? n) && (String.length (pad k n) =? k)%nat | _ => false end.
Lemma reads_back_2 : forallb (reads_back 2) (seqZ 0 100) = true.
Proof. vm_compute. reflexivity. Qed.
Lemma reads_back_3 : forallb (reads_back 3) (seqZ 0 1000) = true.
Proof. vm_compute. reflexivity. Qed.
Lemma reads_back_4 : forallb (reads_back 4) (seqZ 0 10000) = true.
Proof. vm_compute. reflexivity. Qed.

Lemma take_pad k b : forallb (reads_back k) (seqZ 0 b) = true ->
  forall n r, 0 <= n < b -> take_digits k 0 (pad k n +:+ r) = Some (n, r).
Proof.
  intros Hall n r Hn. pose proof (proj1 (forallb_forall _ _) Hall n) as Hb.
  rewrite <- list_elem_of_In, elem_of_seqZ in Hb. specialize (Hb ltac:(lia)). unfold reads_back in Hb.
  destruct (take_digits k 0 (pad k n)) as [[m [|c s]]|] eqn:E; try done. apply andb_true_iff in Hb as [->%Z.eqb_eq _].
  apply (take_digits_app _ _ _ _ _ r E).
Qed.

Lemma length_pad k b : forallb (reads_back k) (seqZ 0 b) = true -> forall n, 0 <= n < b -> String.length (pad k n) = k.
Proof.
  intros Hall n Hn. pose proof (proj1 (forallb_forall _ _) Hall n) as Hb.
  rewrite <- list_elem_of_In, elem_of_seqZ in Hb. specialize (Hb ltac:(lia)). unfold reads_back in Hb.
  destruct (take_digits k 0 (pad k n)) as [[m [|c s]]|]; try done. by apply andb_true_iff in Hb as [_ ?%Nat.eqb_eq].
Qed.
Lemma take_char_hit c s : take_char c (String c EmptyString +:+ s) = Some s.
Proof. unfold take_char. simpl. by rewrite Ascii.eqb_refl. Qed.
Lemma some_bind {A B} (a : A) (f : A -> option B) : (Some a ≫= f) = f a.
Proof. reflexivity. Qed.
Ltac read_char := rewrite some_bind, take_char_hit, some_bind.

(** The times of the years 0 to 9999. *)
Definition in_years (t : Z) : bool := let '(y, _, _) := civil (t / 86400000) in (0 <=? y) && (y <=? 9999).

(** A printed time reads back as itself. *)
Lemma read_iso t : in_years t = true -> exists f, parse_fields (iso_string t) = Some f /\ date_of f = Some t.
Proof.
  unfold in_years, iso_string. pose proof (day_number_civil (t / 86400000)) as Hc.
  destruct (civil (t / 86400000)) as [[y m] d]. destruct Hc as (Hn & Hm & Hd). intros Hy. unfold iso_year. rewrite Hy.
  apply andb_true_iff in Hy as [Hy1 Hy2]. apply Z.leb_le in Hy1, Hy2. unfold iso_rest, parse_fields.
  set (u := t mod 86400000). assert (0 <= u < 86400000) as Hu by (apply Z.mod_pos_bound; lia).
  assert (t = t / 86400000 * 86400000 + u) as Ht by (unfold u; pose proof (Z.div_mod t 86400000); lia).
  eexists. split.
  - rewrite (take_pad 4 10000 reads_back_4) by lia. read_char.
    rewrite (take_pad 2 100 reads_back_2) by lia. read_char.
    rewrite (take_pad 2 100 reads_back_2) by lia. read_char.
    rewrite (take_pad 2 100 reads_back_2) by (Z.to_euclidean_division_equations; lia). read_char.
    rewrite (take_pad 2 100 reads_back_2) by (Z.to_euclidean_division_equations; lia). read_char.
    rewrite (take_pad 2 100 reads_back_2) by (Z.to_euclidean_division_equations; lia). read_char.
    rewrite (take_pad 3 1000 reads_back_3) by (Z.to_euclidean_division_equations; lia). reflexivity.
  - unfold date_of. cbn [f_year f_month f_day f_hour f_minute f_second f_milli]. rewrite Hn. clearbody u.
    assert (u / 3600000 < 24) by (Z.to_euclidean_division_equations; lia).
    assert (u / 60000 mod 60 < 60) by (apply Z.mod_pos_bound; lia).
    assert (u / 1000 mod 60 < 60) by (apply Z.mod_pos_bound; lia).
    rewrite !(proj2 (Z.leb_le _ _)), !(proj2 (Z.ltb_lt _ _)) by lia. cbn [andb orb]. f_equal. rewrite Ht at 2.
    assert (u / 3600000 * 3600000 + u / 60000 mod 60 * 60000 + u / 1000 mod 60 * 1000 + u mod 1000 = u) by
      (Z.to_euclidean_division_equations; lia). lia.
Qed.

Example iso_examples :
  iso_string 1709210096789 = "2024-02-29T12:34:56.789Z" /\ iso_string (-62198755200000) = "-000001-01-01T00:00:00.000Z" /\
  (date_of <$> parse_fields "2024-02-30T24:00:00.000Z") = Some (Some 1709337600000) /\
  (date_of <$> parse_fields "2024-13-01T00:00:00.000Z") = Some None.
Proof. vm_compute. repeat split. Qed.

(** *** The hour *)

(** The date and the hour. *)
Definition hour_text (t : Z) : string :=
  let '(y, m, d) := civil (t / 86400000) in
  pad 4 y +:+ "-" +:+ pad 2 m +:+ "-" +:+ pad 2 d +:+ "T" +:+ pad 2 (t mod 86400000 / 3600000).

Lemma substring_app n a b : String.length a = n -> String.substring 0 n (a +:+ b) = a.
Proof. intros <-. induction a as [|c a IH]; simpl; [by destruct b|]. by rewrite IH. Qed.
Lemma length_app a b : String.length (a +:+ b) = (String.length a + String.length b)%nat.
Proof. induction a as [|c a IH]; simpl; [done|]. by rewrite IH. Qed.
Lemma app_assoc_str a b c : (a +:+ b) +:+ c = a +:+ (b +:+ c).
Proof.
  induction a as [|x a IH]; [done|]. change (String x ((a +:+ b) +:+ c) = String x (a +:+ (b +:+ c))). by rewrite IH.
Qed.

(** The fields of the hour, within their widths. *)
Lemma hour_fields t :
  in_years t = true ->
  exists y m d h, civil (t / 86400000) = (y, m, d) /\ h = t mod 86400000 / 3600000 /\
    0 <= y < 10000 /\ 1 <= m <= 12 /\ 1 <= d <= 31 /\ 0 <= h < 24 /\ day_number y m d = t / 86400000.
Proof.
  unfold in_years. pose proof (day_number_civil (t / 86400000)) as Hc. destruct (civil (t / 86400000)) as [[y m] d].
  destruct Hc as (Hn & Hm & Hd). intros [Hy1 Hy2]%andb_true_iff. apply Z.leb_le in Hy1, Hy2.
  exists y, m, d, (t mod 86400000 / 3600000). split_and!; try done; try lia; Z.to_euclidean_division_equations; lia.
Qed.

(** The first thirteen characters of a printed time. *)
Lemma iso_hour t : in_years t = true -> String.substring 0 13 (iso_string t) = hour_text t.
Proof.
  intros Ht. destruct (hour_fields t Ht) as (y & m & d & h & Hc & -> & Hy & Hm & Hd & Hh & _).
  unfold iso_string, hour_text. rewrite Hc. unfold iso_year, iso_rest.
  rewrite (proj2 (Z.leb_le 0 y)), (proj2 (Z.leb_le y 9999)) by lia. cbn [andb].
  rewrite <- (substring_app 13 (pad 4 y +:+ "-" +:+ pad 2 m +:+ "-" +:+ pad 2 d +:+ "T" +:+ pad 2 (t mod 86400000 / 3600000))
    (":" +:+ pad 2 (t mod 86400000 / 60000 mod 60) +:+ ":" +:+ pad 2 (t mod 86400000 / 1000 mod 60) +:+ "." +:+
     pad 3 ((t mod 86400000) mod 1000) +:+ "Z")).
  - by rewrite !app_assoc_str.
  - rewrite !length_app, (length_pad 4 10000 reads_back_4), !(length_pad 2 100 reads_back_2) by lia. reflexivity.
Qed.

Lemma pad_app_inj k b : forallb (reads_back k) (seqZ 0 b) = true ->
  forall n n' r r', 0 <= n < b -> 0 <= n' < b -> pad k n +:+ r = pad k n' +:+ r' -> n = n' /\ r = r'.
Proof.
  intros Hall n n' r r' Hn Hn' He. pose proof (take_pad k b Hall n r Hn) as H1. rewrite He in H1.
  rewrite (take_pad k b Hall n' r' Hn') in H1. by simplify_eq.
Qed.

Lemma char_app_inj c r r' : String c EmptyString +:+ r = String c EmptyString +:+ r' -> r = r'.
Proof. intros He. change (String c r = String c r') in He. by injection He. Qed.

(** Two times print the same hour exactly when they lie in the same hour. *)
Lemma hour_text_inj t t' :
  in_years t = true -> in_years t' = true -> (hour_text t = hour_text t' <-> t / 3600000 = t' / 3600000).
Proof.
  intros Ht Ht'. destruct (hour_fields t Ht) as (y & m & d & h & Hc & Hh & Hy & Hm & Hd & Hhr & Hn).
  destruct (hour_fields t' Ht') as (y' & m' & d' & h' & Hc' & Hh' & Hy' & Hm' & Hd' & Hhr' & Hn').
  unfold hour_text. rewrite Hc, Hc', <- Hh, <- Hh'.
  assert (t / 3600000 = t / 86400000 * 24 + h /\ t' / 3600000 = t' / 86400000 * 24 + h') as [-> ->].
  { subst h h'. clear. split; Z.to_euclidean_division_equations; lia. }
  rewrite <- Hn, <- Hn'. split.
  - intros He. apply (pad_app_inj 4 10000 reads_back_4) in He as [-> He]; [|lia|lia]. apply char_app_inj in He.
    apply (pad_app_inj 2 100 reads_back_2) in He as [-> He]; [|lia|lia]. apply char_app_inj in He.
    apply (pad_app_inj 2 100 reads_back_2) in He as [-> He]; [|lia|lia]. apply char_app_inj in He.
    apply (f_equal (fun s => s +:+ "")) in He. by apply (pad_app_inj 2 100 reads_back_2) in He as [-> _]; [|lia|lia].
  - intros He. assert (day_number y m d = day_number y' m' d' /\ h = h') as [Hdn ->] by lia.
    rewrite Hn, Hn' in Hdn. rewrite Hdn in Hc. rewrite Hc in Hc'. by simplify_eq.
Qed.

End IsoDate.
