(* ===== verification/Redis.v ===== *)
(** * The key-value server and its wrapper

    [infrastructure/redis/]: [RedisOperations], the wrapper most components
    receive, and the key builder.  The server is the class [KeySpace]: string
    keys with an optional instant of expiry, with the documented behaviour of
    SET (with PX and NX), GET, DEL and PEXPIRE as laws; [gmap_keyspace] is a
    concrete server.  The client library is a record of commands, each of which
    may throw; [server_client] builds the string commands from a [KeySpace]. *)
From Stdlib Require Import Ascii QArith Qround Qpower Qabs Lqa.
From stdpp Require Import base tactics numbers list strings gmap pretty.
From S2P Require Import Prelude JsNum JsValue Errors.

(** ** The server *)

Module KeySpace.

(** A live value with the instant it expires at, if any. *)
Definition entry_t : Type := string * option Z.

(** What is left of an entry at an instant. *)
Definition alive (t : Z) (e : option entry_t) : option entry_t :=
  match e with
  | Some (v, Some x) => if t <? x then Some (v, Some x) else None
  | _ => e
  end.

Class KeySpace (R : Type) := {
  entry : Z -> string -> R -> option entry_t;
  k_set : Z -> string -> string -> option Z -> R -> R;       (* SET key value [PX ms] *)
  k_setnx : Z -> string -> string -> Z -> R -> R * bool;     (* SET key value PX ms NX *)
  k_del : string -> R -> R;
  k_pexpire : Z -> string -> Z -> R -> R;

  entry_later t t' k r : t <= t' -> entry t' k r = alive t' (entry t k r);
  entry_set_eq now t k v px r :
    now <= t -> entry t k (k_set now k v px r) = alive t (Some (v, Z.add now <$> px));
  entry_set_ne now t k k' v px r : k <> k' -> entry t k' (k_set now k v px r) = entry t k' r;
  setnx_spec now k v ms r :
    k_setnx now k v ms r =
      match entry now k r with Some _ => (r, false) | None => (k_set now k v (Some ms) r, true) end;
  entry_del_eq t k r : entry t k (k_del k r) = None;
  entry_del_ne t k k' r : k <> k' -> entry t k' (k_del k r) = entry t k' r;
  entry_pexpire_eq now t k ms r :
    now <= t ->
    entry t k (k_pexpire now k ms r) =
      match entry now k r with Some (v, _) => alive t (Some (v, Some (now + ms))) | None => None end;
  entry_pexpire_ne now t k k' ms r : k <> k' -> entry t k' (k_pexpire now k ms r) = entry t k' r;
}.

Lemma alive_later t t' e : t <= t' -> alive t' (alive t e) = alive t' e.
Proof.
  intros Ht. destruct e as [[v [x|]]|]; simpl; [|done|done].
  destruct (Z.ltb_spec t x); simpl; [done|]. by rewrite (proj2 (Z.ltb_ge t' x)) by lia.
Qed.

Lemma alive_None t e : (forall v x, e = Some (v, x) -> exists y, x = Some y /\ y <= t) -> alive t e = None.
Proof.
  intros H. destruct e as [[v x]|]; [|done]. destruct (H v x eq_refl) as (y & -> & Hy). simpl.
  by rewrite (proj2 (Z.ltb_ge t y)) by lia.
Qed.

Definition gm_setnx (now : Z) (k v : string) (ms : Z) (r : gmap string entry_t) : gmap string entry_t * bool :=
  match alive now (r !! k) with Some _ => (r, false) | None => (<[k := (v, Some (now + ms))]> r, true) end.
Definition gm_pexpire (now : Z) (k : string) (ms : Z) (r : gmap string entry_t) : gmap string entry_t :=
  match alive now (r !! k) with Some (v, _) => <[k := (v, Some (now + ms))]> r | None => delete k r end.

#[global] Program Instance gmap_keyspace : KeySpace (gmap string entry_t) := {
  entry t k r := alive t (r !! k);
  k_set now k v px r := <[k := (v, Z.add now <$> px)]> r;
  k_setnx := gm_setnx;
  k_del k r := delete k r;
  k_pexpire := gm_pexpire;
}.
Next Obligation. intros t t' k r Ht. simpl. by rewrite alive_later. Qed.
Next Obligation. intros now t k v px r _. simpl. by rewrite lookup_insert_eq. Qed.
Next Obligation. intros now t k k' v px r Hne. simpl. by rewrite lookup_insert_ne. Qed.
Next Obligation. done. Qed.
Next Obligation. intros t k r. simpl. by rewrite lookup_delete_eq. Qed.
Next Obligation. intros t k k' r Hne. simpl. by rewrite lookup_delete_ne. Qed.
Next Obligation.
  intros now t k ms r _. simpl. unfold gm_pexpire. destruct (alive now (r !! k)) as [[v x]|]; simpl.
  - by rewrite lookup_insert_eq.
  - by rewrite lookup_delete_eq.
Qed.
Next Obligation.
  intros now t k k' ms r Hne. simpl. unfold gm_pexpire. destruct (alive now (r !! k)) as [[v x]|]; simpl.
  - by rewrite lookup_insert_ne.
  - by rewrite lookup_delete_ne.
Qed.

End KeySpace.

(** ** The wrapper *)

Module RedisOperations.
Import KeySpace.

(** The commands of the client library; [ttl] is in seconds. *)
Record client (R : Type) : Type := Client {
  c_get : string -> meth R exn (option string);
  c_set : string -> string -> option Z -> meth R exn unit;
  c_del : list string -> meth R exn Z;
  c_exists : string -> meth R exn Z;
  c_ttl : string -> meth R exn Z;
  c_pexpire : string -> Z -> meth R exn unit;
  c_incrby : string -> Z -> meth R exn Z;
  c_lpop : string -> option Z -> meth R exn (option (string + list string));
  c_rpop : string -> option Z -> meth R exn (option (string + list string));
  c_sadd : string -> list string -> meth R exn Z;
  c_srem : string -> list string -> meth R exn Z;
  c_hdel : string -> string -> meth R exn Z;
  c_ping : meth R exn string;
  c_keys : string -> meth R exn (list string);
}.
Arguments c_get {R}. Arguments c_set {R}. Arguments c_del {R}. Arguments c_exists {R}. Arguments c_ttl {R}.
Arguments c_pexpire {R}. Arguments c_incrby {R}. Arguments c_lpop {R}. Arguments c_rpop {R}.
Arguments c_sadd {R}. Arguments c_srem {R}. Arguments c_hdel {R}. Arguments c_ping {R}. Arguments c_keys {R}.

(** What callers pass as [ttlMs]: nothing, a number, or one of the option words
    of the SET command, whose numeric value is NaN. *)
Inductive set_option : Type := EX | PX | NX.
Inductive ttl_arg : Type := Omitted | Millis (ms : Z) | Word (w : set_option).

Section wrapper.
Context {R : Type} (c : client R).
Abbreviation M := (meth R exn).

(** infrastructure/redis/redis-operations.ts:18-29 execute *)
Definition execute {A} (operation : M A) : M A :=
  try_catch operation (fun err =>
    fail (InfrastructureError
            ("Redis operation failed: " +:+ js_String (js_get "message" (Errors.exn_js err)))
            "REDIS_CONNECTION_FAILED")).

(** infrastructure/redis/redis-operations.ts:31-33 get *)
Definition get (key : string) : M (option string) := execute (c_get c key).
(** infrastructure/redis/redis-operations.ts:35-43 set *)
Definition set (key value : string) (ttlMs : ttl_arg) : M unit :=
  execute
    (match ttlMs with
     | Millis ms => if 0 <? ms then c_set c key value (Some ms) else c_set c key value None
     | Omitted | Word _ => c_set c key value None
     end).
(** infrastructure/redis/redis-operations.ts:45-47 setWithExpiry *)
Definition setWithExpiry (key value : string) (ttlMs : Z) : M unit := set key value (Millis ttlMs).
(** infrastructure/redis/redis-operations.ts:49-52 delete *)
Definition delete (key : string) : M bool :=
  deletedCount ← execute (c_del c [key]); mret (0 <? deletedCount).
(** infrastructure/redis/redis-operations.ts:54-57 exists *)
Definition exists_ (key : string) : M bool := count ← execute (c_exists c key); mret (0 <? count).
(** infrastructure/redis/redis-operations.ts:59-63 ttl *)
Definition ttl (key : string) : M (option Z) :=
  seconds ← execute (c_ttl c key); mret (if seconds <? 0 then None else Some (seconds * 1000)).
(** infrastructure/redis/redis-operations.ts:65-67 expire *)
Definition expire (key : string) (ttlMs : Z) : M unit := execute (c_pexpire c key ttlMs).
(** infrastructure/redis/redis-operations.ts:69-71 increment *)
Definition increment (key : string) (delta : Z) : M Z := execute (c_incrby c key delta).

Definition pop_result (res : option (string + list string)) : list string :=
  match res with Some (inl s) => [s] | Some (inr l) => l | None => [] end.
(** infrastructure/redis/redis-operations.ts:97-107 lpop
    An empty string is falsy. *)
Definition lpop (key : string) (count : option Z) : M (list string) :=
  execute (res ← c_lpop c key count;
           mret (match res with Some (inl "") => [] | _ => pop_result res end)).
(** infrastructure/redis/redis-operations.ts:109-119 rpop *)
Definition rpop (key : string) (count : option Z) : M (list string) :=
  execute (res ← c_rpop c key count;
           mret (match res with Some (inl "") => [] | _ => pop_result res end)).
(** infrastructure/redis/redis-operations.ts:129-132 sadd *)
Definition sadd (key : string) (values : list string) : M Z :=
  match values with [] => mret 0 | _ => execute (c_sadd c key values) end.
(** infrastructure/redis/redis-operations.ts:134-137 srem *)
Definition srem (key : string) (values : list string) : M Z :=
  match values with [] => mret 0 | _ => execute (c_srem c key values) end.
(** infrastructure/redis/redis-operations.ts:175-178 hdel *)
Definition hdel (key field : string) : M bool :=
  deletedCount ← execute (c_hdel c key field); mret (0 <? deletedCount).
(** infrastructure/redis/redis-operations.ts:180-185 ping *)
Definition ping : M unit :=
  response ← execute (c_ping c);
  if str_eqb response "PONG" then mret tt else fail (PlainError ("Invalid PING response: " +:+ response)).
(** infrastructure/redis/redis-operations.ts:195-203 deleteByPattern *)
Definition deleteByPattern (pattern : string) : M Z :=
  execute (keys ← c_keys c pattern;
           match keys with [] => mret 0 | _ => c_del c keys end).

Lemma execute_ok {A} (m : M A) r r' a : m r = (r', Ok a) -> execute m r = (r', Ok a).
Proof. intros H. unfold execute, try_catch. by rewrite H. Qed.

Lemma execute_throw {A} (m : M A) r r' e :
  m r = (r', Throw e) ->
  execute m r = (r', Throw (InfrastructureError ("Redis operation failed: " +:+ js_String (js_get "message" (Errors.exn_js e)))
                              "REDIS_CONNECTION_FAILED")).
Proof. intros H. unfold execute, try_catch. by rewrite H. Qed.

(** The wrapper's [set] expires a key exactly when it is given a positive
    number: an option word in the place of the time to live is ignored. *)
Lemma set_keyword key value w : set key value (Word w) = set key value Omitted.
Proof. reflexivity. Qed.
End wrapper.

(** The commands of a reachable server, at an instant; those of lists, sets and
    hashes are not used through it. *)
Section server.
Context {R : Type} `{KeySpace R}.

Definition get_at (now : Z) (key : string) : meth R exn (option string) := gets (fun r => fst <$> entry now key r).
Definition set_at (now : Z) (key value : string) (px : option Z) : meth R exn unit := modify (k_set now key value px).
Definition del_at (now : Z) (keys : list string) : meth R exn Z := fun r =>
  (fold_left (fun r k => k_del k r) keys r,
   Ok (Z.of_nat (length (filter (fun k => is_Some (entry now k r)) keys)))).
(** TTL: -2 without the key, -1 without expiry, else the seconds rounded. *)
Definition ttl_at (now : Z) (key : string) : meth R exn Z := gets (fun r =>
  match entry now key r with
  | None => -2
  | Some (_, None) => -1
  | Some (_, Some x) => (x - now + 500) / 1000
  end).
Definition pexpire_at (now : Z) (key : string) (ms : Z) : meth R exn unit := modify (k_pexpire now key ms).

Definition server_client (now : Z) (others : client R) : client R := {|
  c_get := get_at now; c_set := set_at now; c_del := del_at now;
  c_exists := fun k => gets (fun r => if decide (is_Some (entry now k r)) then 1 else 0);
  c_ttl := ttl_at now; c_pexpire := pexpire_at now; c_incrby := c_incrby others;
  c_lpop := c_lpop others; c_rpop := c_rpop others; c_sadd := c_sadd others; c_srem := c_srem others;
  c_hdel := c_hdel others; c_ping := c_ping others; c_keys := c_keys others;
|}.
End server.

(** A client that is not connected: every command fails. *)
Definition unconnected {R : Type} : client R :=
  let die {A : Type} : meth R exn A := fail (PlainError "Connection is closed.") in
  {| c_get := fun _ => die; c_set := fun _ _ _ => die; c_del := fun _ => die; c_exists := fun _ => die;
     c_ttl := fun _ => die; c_pexpire := fun _ _ => die; c_incrby := fun _ _ => die; c_lpop := fun _ _ => die;
     c_rpop := fun _ _ => die; c_sadd := fun _ _ => die; c_srem := fun _ _ => die; c_hdel := fun _ _ => die;
     c_ping := die; c_keys := fun _ => die |}.

End RedisOperations.

(** ** Keys *)

Module KeyBuilder.

(** infrastructure/redis/key-builder.ts:8-10 heartbeat *)
Definition heartbeat (workerId : string) : string := "queueforge:heartbeat:" +:+ workerId.
(** infrastructure/redis/key-builder.ts:15-17 idempotencyCache *)
Definition idempotencyCache (taskResultId destinationId : string) : string :=
  "queueforge:idempotency:" +:+ taskResultId +:+ ":" +:+ destinationId.
(** infrastructure/redis/key-builder.ts:22-24 circuitBreaker *)
Definition circuitBreaker (destinationId : string) : string := "queueforge:cb:" +:+ destinationId.
(** infrastructure/redis/key-builder.ts:29-31 rateLimitCounter *)
Definition rateLimitCounter (apiKey endpoint : string) : string :=
  "queueforge:ratelimit:" +:+ apiKey +:+ ":" +:+ endpoint.
(** infrastructure/redis/key-builder.ts:43-45 lockKey *)
Definition lockKey (resourceId : string) : string := "queueforge:lock:" +:+ resourceId.
(** infrastructure/redis/key-builder.ts:57-59 cacheKey *)
Definition cacheKey (namespace id : string) : string := "queueforge:cache:" +:+ namespace +:+ ":" +:+ id.

End KeyBuilder.
