(* ===== verification/Leader.v ===== *)
(** * Leader election

    [daemon/coordinator/leader-election.ts]: the election of one node by a lease
    in Redis ([LeaderElection]).  [participate] waits for the server up to three
    times and [resign] twice; [Protocol] is the system of nodes whose calls are
    interleaved at those waits, each acting on what it was answered, with the
    expiry of the lease it last looked at as the only ghost; and [WrappedElection] the election over the
    wrapper the program passes. *)
From Stdlib Require Import Ascii QArith Qround Qpower Qabs Lqa.
From stdpp Require Import base tactics numbers list strings gmap pretty.
From S2P Require Import Prelude JsNum JsValue Errors Redis.

Module LeaderElection.
Import KeySpace.
Import RedisOperations (set_option(..)).

(** The methods the code looks for on the client it is given.  [set_] and
    [setWithTtl] say whether the answer was ['OK'] (or [true]). *)
Record leader_ops (R : Type) : Type := Ops {
  setWithTtl : option (string -> string -> Z -> meth R exn bool);
  set_ : option (string -> string -> set_option -> Z -> set_option -> meth R exn bool);
  get_ : option (string -> meth R exn (option string));
  pexpire_ : option (string -> Z -> meth R exn unit);
  delete_ : option (string -> meth R exn unit);
  del_ : option (string -> meth R exn unit);
  pttl_ : option (string -> meth R exn Z);
  ttl_ : option (string -> meth R exn (option Z));   (* [None]: null *)
}.
Arguments Ops {R}. Arguments setWithTtl {R}. Arguments set_ {R}. Arguments get_ {R}. Arguments pexpire_ {R}.
Arguments delete_ {R}. Arguments del_ {R}. Arguments pttl_ {R}. Arguments ttl_ {R}.

(** daemon/coordinator/leader-election.ts:4-11 LeaderElection
    The flag and whether the refresh timer runs; the id is an argument. *)
Record el : Type := El { isLeaderFlag : bool; refreshing : bool }.
Definition fresh : el := El false false.
Definition leaseTtlMs : Z := 30000.
(** daemon/coordinator/leader-election.ts:30-35 getLeaderKey
    No key builder of the program has the method [build]. *)
Definition leaderKey : string := "daemon:leader:recovery".

Section election.
Context {R : Type}.

Definition not_a_function (what : string) {A} : meth R exn A :=
  fail (PlainError ("this.redisOps." +:+ what +:+ " is not a function")).

(** daemon/coordinator/leader-election.ts:51-58 participate
    The first wait: [None] when the lease was refused and must be looked at. *)
Definition ask (ops : leader_ops R) (daemonId : string) : meth R exn (option bool) :=
  match setWithTtl ops, set_ ops with
  | Some f, _ => res ← f leaderKey daemonId (leaseTtlMs / 1000); mret (Some res)
  | None, Some f =>
      res ← f leaderKey daemonId RedisOperations.PX leaseTtlMs RedisOperations.NX;
      mret (if res : bool then Some true else None)
  | None, None => mret (Some false)
  end.
(** daemon/coordinator/leader-election.ts:61-62 participate
    The second wait: whether the lease is held by this node. *)
Definition look (ops : leader_ops R) (daemonId : string) : meth R exn bool :=
  match get_ ops with
  | Some f => currentLeader ← f leaderKey; mret (bool_decide (currentLeader = Some daemonId))
  | None => not_a_function "get"
  end.
(** daemon/coordinator/leader-election.ts:63-63 participate *)
Definition renew (ops : leader_ops R) : meth R exn unit :=
  match pexpire_ ops with Some f => f leaderKey leaseTtlMs | None => mret tt end.

(** daemon/coordinator/leader-election.ts:69-79 participate
    The flag follows the outcome, the timer the flag. *)
Definition settle (acquired : bool) : el := El acquired acquired.

(** What one call asks of the server. *)
Definition acquire (ops : leader_ops R) (daemonId : string) : meth R exn bool :=
  a ← ask ops daemonId;
  match a with
  | Some acquired => mret acquired
  | None => mine ← look ops daemonId; if mine : bool then renew ops;; mret true else mret false
  end.

(** daemon/coordinator/leader-election.ts:40-86 participate
    Without waiting in between: a thrown error counts as a refusal. *)
Definition participate (redisOps : option (leader_ops R)) (daemonId : string) : meth (el * R) exn bool :=
  fun '(e, r) =>
    match redisOps with
    | None => ((El true (refreshing e), r), Ok true)
    | Some ops =>
        match acquire ops daemonId r with
        | (r', Ok acquired) => ((settle acquired, r'), Ok acquired)
        | (r', Throw _) => ((settle false, r'), Ok false)
        end
    end.

(** daemon/coordinator/leader-election.ts:97-105 resign
    What a resignation asks of the server. *)
Definition release (ops : leader_ops R) (daemonId : string) : meth R exn unit :=
  match get_ ops with
  | Some f =>
      currentLeader ← f leaderKey;
      if decide (currentLeader = Some daemonId)
      then match delete_ ops, del_ ops with
           | Some f, _ | None, Some f => f leaderKey
           | None, None => mret tt
           end
      else mret tt
  | None => mret tt
  end.
(** daemon/coordinator/leader-election.ts:91-113 resign *)
Definition resign (redisOps : option (leader_ops R)) (daemonId : string) : meth (el * R) exn unit :=
  fun '(e, r) =>
    if isLeaderFlag e
    then ((El false false, match redisOps with Some ops => (release ops daemonId r).1 | None => r end), Ok tt)
    else ((El false false, r), Ok tt).


(** daemon/coordinator/leader-election.ts:133-147 getLeaseTTL *)
Definition getLeaseTTL (redisOps : option (leader_ops R)) : meth (el * R) exn Z :=
  fun '(e, r) =>
    let answer {A} (m : meth R exn A) (f : A -> Z) :=
      match m r with
      | (r', Ok v) => ((e, r'), Ok (Z.max 0 (f v)))
      | (r', Throw _) => ((e, r'), Ok 0)
      end in
    match redisOps with
    | Some ops =>
        match pttl_ ops, ttl_ ops with
        | Some f, _ => answer (f leaderKey) id
        | None, Some f => answer (f leaderKey) (fun v => match v with Some x => x * 1000 | None => 0 end)
        | None, None => ((e, r), Ok (if isLeaderFlag e then leaseTtlMs else 0))
        end
    | None => ((e, r), Ok (if isLeaderFlag e then leaseTtlMs else 0))
    end.
End election.

(** ** Clients *)

Section clients.
Context {R : Type} `{KeySpace R}.

(** The Redis client itself: SET honours PX and NX. *)
Definition raw_ops (now : Z) : leader_ops R := {|
  setWithTtl := None;
  set_ := Some (fun k v _ ms _ => fun r => let '(r', ok) := k_setnx now k v ms r in (r', Ok ok));
  get_ := Some (RedisOperations.get_at now);
  pexpire_ := Some (RedisOperations.pexpire_at now);
  delete_ := None;
  del_ := Some (fun k => RedisOperations.del_at now [k];; mret tt);
  pttl_ := Some (fun k => gets (fun r => match entry now k r with
                                         | None => -2 | Some (_, None) => -1 | Some (_, Some x) => x - now end));
  ttl_ := Some (fun k => n ← RedisOperations.ttl_at now k; mret (Some n));
|}.

(** The wrapper the program passes: its [set] has three parameters and no
    result, it has no [pexpire] and no [pttl]. *)
Definition wrapper_ops (c : RedisOperations.client R) : leader_ops R := {|
  setWithTtl := None;
  set_ := Some (fun k v w _ _ => RedisOperations.set c k v (RedisOperations.Word w);; mret false);
  get_ := Some (RedisOperations.get c);
  pexpire_ := None;
  delete_ := Some (fun k => RedisOperations.delete c k;; mret tt);
  del_ := None;
  pttl_ := None;
  ttl_ := Some (RedisOperations.ttl c);
|}.
End clients.

End LeaderElection.

(** ** Nodes electing a leader through the Redis client *)

Module Protocol.
Import KeySpace LeaderElection.

(** Where a node's call is: not calling; refused and about to look; told that
    the lease is its own and about to renew; the same and about to delete it. *)
Inductive phase : Type := Idle | Refused | Owner | Leaving.
#[global] Instance phase_eq_dec : EqDecision phase.
Proof. solve_decision. Defined.

(** A node: its flag and its timer, the point its call has come to, until when
    the last command that took or renewed the lease for it lets it count on it,
    and when the lease it last looked at, whosever it was, runs out. *)
Record node : Type := Node { state : el; at_ : phase; until : Z; deadline : Z }.
Definition new_node : node := Node fresh Idle 0 0.

(** Time passes, or a node's next command reaches the server: the three of
    [participate], the two of [resign]; or its command fails. *)
Inductive event : Type :=
| Tick (d : N) | Ask (n : string) | Look (n : string) | Renew (n : string)
| Leave (n : string) | Erase (n : string) | Lost (n : string).

Section system.
Context {R : Type} `{KeySpace R}.

Record sys : Type := Sys { clock : Z; server : R; nodes : gmap string node }.
Definition node_of (n : string) (s : sys) : node := default new_node (nodes s !! n).
Definition put (n : string) (nd : node) (r : R) (s : sys) : sys := Sys (clock s) r (<[n := nd]> (nodes s)).
Definition start (r : R) : sys := Sys 0 r ∅.

(** When the lease on the server runs out, whoever has it. *)
Definition expires (now : Z) (r : R) : Z :=
  match entry now leaderKey r with Some (_, Some x) => x | _ => now end.
(** The end of a call. *)
Definition finish (n : string) (e : el) (until' : Z) (r : R) (s : sys) : sys :=
  put n (Node e Idle until' (deadline (node_of n s))) r s.
(** A node goes on with its call. *)
Definition move (n : string) (ph : phase) (seen : Z) (r : R) (s : sys) : sys :=
  put n (Node (state (node_of n s)) ph (until (node_of n s)) seen) r s.

(** A node believes what its commands answer it: it takes itself for the owner
    when [look] says so, and for the leader, for the time to live of the lease,
    when its SET was done or its renewal went through. *)
Definition exec (ev : event) (s : sys) : sys :=
  let now := clock s in
  let ops := raw_ops now in
  match ev with
  | Tick d => Sys (now + Z.of_N d) (server s) (nodes s)
  | Ask n =>
      let nd := node_of n s in
      match at_ nd, ask ops n (server s) with
      | Idle, (r, Ok (Some a)) => finish n (settle a) (if a then now + leaseTtlMs else until nd) r s
      | Idle, (r, Ok None) => move n Refused (deadline nd) r s
      | Idle, (r, Throw _) => finish n (settle false) (until nd) r s
      | _, _ => s
      end
  | Look n =>
      let nd := node_of n s in
      match at_ nd, look ops n (server s) with
      | Refused, (r, Ok true) => move n Owner (expires now (server s)) r s
      | Refused, (r, _) => finish n (settle false) (until nd) r s
      | _, _ => s
      end
  | Renew n =>
      let nd := node_of n s in
      match at_ nd, renew ops (server s) with
      | Owner, (r, Ok _) => finish n (settle true) (now + leaseTtlMs) r s
      | Owner, (r, Throw _) => finish n (settle false) (until nd) r s
      | _, _ => s
      end
  | Leave n =>
      let nd := node_of n s in
      if isLeaderFlag (state nd)
      then match at_ nd, look ops n (server s) with
           | Idle, (r, Ok true) => put n (Node (El true false) Leaving (until nd) (expires now (server s))) r s
           | Idle, (r, _) => finish n fresh (until nd) r s
           | _, _ => s
           end
      else s
  | Erase n =>
      match at_ (node_of n s), del_ ops with
      | Leaving, Some del => finish n fresh now (del leaderKey (server s)).1 s
      | _, _ => s
      end
  | Lost n => finish n fresh (until (node_of n s)) (server s) s
  end.
Definition run (evs : list event) (s : sys) : sys := fold_left (fun s ev => exec ev s) evs s.

(** A renewal or a deletion reaches the server before the lease its node has just
    looked at runs out.  It is a condition on times alone: it does not say whose
    lease that was. *)
Definition timely (ev : event) (s : sys) : Prop :=
  match ev with
  | Renew n => at_ (node_of n s) = Owner -> clock s < deadline (node_of n s)
  | Erase n => at_ (node_of n s) = Leaving -> clock s < deadline (node_of n s)
  | _ => True
  end.
Fixpoint timely_run (evs : list event) (s : sys) : Prop :=
  match evs with
  | [] => True
  | ev :: evs => timely ev s /\ timely_run evs (exec ev s)
  end.

(** A node that took or renewed the lease less than its time to live ago. *)
Definition holds (s : sys) (n : string) : Prop := clock s < until (node_of n s).


(** The server has the lease of [n], at least as long as [n] counts on it. *)
Definition backed (s : sys) : Prop :=
  forall n, holds s n ->
    exists x, entry (clock s) leaderKey (server s) = Some (n, Some x) /\ until (node_of n s) <= x.
(** What a node about to renew or to delete has seen: until the lease it looked at
    runs out, that lease is its own. *)
Definition sighted (s : sys) : Prop :=
  forall n, at_ (node_of n s) = Owner \/ at_ (node_of n s) = Leaving -> clock s < deadline (node_of n s) ->
    exists x, entry (clock s) leaderKey (server s) = Some (n, Some x) /\ deadline (node_of n s) <= x.
(** The lease always expires, within its time to live. *)
Definition bounded (s : sys) : Prop :=
  forall v o, entry (clock s) leaderKey (server s) = Some (v, o) ->
    exists x, o = Some x /\ x <= clock s + leaseTtlMs.

Lemma node_of_put n m nd r s : node_of m (put n nd r s) = if decide (n = m) then nd else node_of m s.
Proof.
  unfold node_of, put. simpl. destruct (decide (n = m)) as [->|]; [by rewrite lookup_insert_eq|].
  by rewrite lookup_insert_ne.
Qed.

Lemma node_of_sys c r s n : node_of n (Sys c r (nodes s)) = node_of n s.
Proof. reflexivity. Qed.

(** What the three commands of [participate] do on the server. *)
Lemma ask_raw now n r :
  ask (raw_ops now) n r =
    match entry now leaderKey r with
    | Some _ => (r, Ok None)
    | None => (k_set now leaderKey n (Some leaseTtlMs) r, Ok (Some true))
    end.
Proof. unfold ask. simpl. munfold. rewrite setnx_spec. by destruct (entry now leaderKey r). Qed.

Lemma look_raw now n r :
  look (raw_ops now) n r = (r, Ok (bool_decide (fst <$> entry now leaderKey r = Some n))).
Proof. reflexivity. Qed.

Lemma renew_raw now r : renew (raw_ops now) r = (k_pexpire now leaderKey leaseTtlMs r, Ok tt).
Proof. reflexivity. Qed.

Lemma alive_now now v ms : 0 < ms -> alive now (Some (v, Some (now + ms))) = Some (v, Some (now + ms)).
Proof. intros H1. simpl. by rewrite (proj2 (Z.ltb_lt now (now + ms))) by lia. Qed.

(** *** The invariant *)

Definition inv (s : sys) : Prop := backed s /\ sighted s /\ bounded s.

Lemma backed_unique s n m : backed s -> holds s n -> holds s m -> n = m.
Proof.
  intros Hb Hn Hm. destruct (Hb n Hn) as (x & Ex & _), (Hb m Hm) as (y & Ey & _).
  rewrite Ex in Ey. by injection Ey.
Qed.

(** The command touches the server not at all, and the node claims no more than
    what is backed. *)
Lemma inv_put_same n nd s :
  inv s ->
  until nd <= until (node_of n s) ->
  (at_ nd = Owner \/ at_ nd = Leaving -> clock s < deadline nd ->
     exists x, entry (clock s) leaderKey (server s) = Some (n, Some x) /\ deadline nd <= x) ->
  inv (put n nd (server s) s).
Proof.
  intros (Hb & Hs & Hl) Hu Hd. split; [|split; [|exact Hl]]; intros m Hm; unfold holds in Hm;
    rewrite node_of_put in *; simpl in *; destruct (decide (n = m)) as [->|].
  - destruct (Hb m) as (x & Ex & Hx); [unfold holds; lia|]. exists x. split; [done|lia].
  - by apply Hb.
  - by apply Hd.
  - by apply Hs.
Qed.

Lemma inv_finish_same n e s : inv s -> inv (finish n e (until (node_of n s)) (server s) s).
Proof. intros Hi. apply inv_put_same; [done|simpl; lia|simpl; by intros [?|?]]. Qed.

Lemma inv_tick d s : inv s -> inv (exec (Tick d) s).
Proof.
  intros (Hb & Hs & Hl). assert (clock s <= clock s + Z.of_N d) as Hle by lia. split; [|split].
  - intros n Hn. unfold holds in Hn. simpl in *. rewrite node_of_sys in *.
    destruct (Hb n) as (x & Ex & Hx); [unfold holds; lia|]. exists x. split; [|done].
    rewrite (entry_later _ _ _ _ Hle), Ex. simpl. by rewrite (proj2 (Z.ltb_lt _ _)) by lia.
  - intros n Hn Hd. simpl in *. rewrite node_of_sys in *.
    destruct (Hs n Hn) as (x & Ex & Hx); [lia|]. exists x. split; [|done].
    rewrite (entry_later _ _ _ _ Hle), Ex. simpl. by rewrite (proj2 (Z.ltb_lt _ _)) by lia.
  - intros v o Ho. simpl in *. rewrite (entry_later _ _ _ _ Hle) in Ho.
    destruct (entry (clock s) leaderKey (server s)) as [[v' [x|]]|] eqn:E; simpl in Ho; [|by injection Ho as -> <-; destruct (Hl _ _ E) as (? & [=] & _)|done].
    destruct (_ <? x); [|done]. injection Ho as -> <-. exists x. split; [done|].
    destruct (Hl _ _ E) as (y & [= ->] & Hy). lia.
Qed.

(** No lease on the server but [n]'s. *)
Definition only (n : string) (s : sys) : Prop :=
  forall v o, entry (clock s) leaderKey (server s) = Some (v, o) -> v = n.
Lemma only_holds n m s : inv s -> only n s -> holds s m -> m = n.
Proof. intros (Hb & _) Ho Hm. destruct (Hb m Hm) as (x & Ex & _). by apply (Ho m (Some x)). Qed.
Lemma only_sighted n m s :
  inv s -> only n s -> at_ (node_of m s) = Owner \/ at_ (node_of m s) = Leaving ->
  clock s < deadline (node_of m s) -> m = n.
Proof. intros (_ & Hs & _) Ho Hm Hd. destruct (Hs m Hm Hd) as (x & Ex & _). by apply (Ho m (Some x)). Qed.

(** The lease is handed, or extended, to [n]. *)
Lemma inv_grant n e r s :
  inv s -> only n s -> entry (clock s) leaderKey r = Some (n, Some (clock s + leaseTtlMs)) ->
  inv (finish n e (clock s + leaseTtlMs) r s).
Proof.
  intros Hi Ho He. unfold finish. split; [|split].
  - intros m Hm. unfold holds in Hm. rewrite node_of_put in *. simpl in *. destruct (decide (n = m)) as [->|Hne].
    + exists (clock s + leaseTtlMs). split; [exact He|done].
    + destruct Hne. symmetry. by apply (only_holds n m s).
  - intros m Hm Hd. rewrite node_of_put in *. simpl in *. destruct (decide (n = m)) as [->|Hne]; [by destruct Hm|].
    destruct Hne. symmetry. by apply (only_sighted n m s).
  - intros v o Hv. simpl in Hv. rewrite He in Hv. injection Hv as <- <-. eexists. split; [done|]. simpl. lia.
Qed.

Lemma inv_ask n s : inv s -> inv (exec (Ask n) s).
Proof.
  intros Hi. unfold exec. rewrite ask_raw. destruct (at_ (node_of n s)); try done.
  destruct (entry (clock s) leaderKey (server s)) as [e|] eqn:E.
  - apply inv_put_same; [done|simpl; lia|simpl; by intros [?|?]].
  - apply inv_grant; [done|intros v o Hv; congruence|].
    rewrite entry_set_eq by lia. apply alive_now. done.
Qed.

Lemma ask_free n s :
  at_ (node_of n s) = Idle -> entry (clock s) leaderKey (server s) = None ->
  exec (Ask n) s =
    finish n (settle true) (clock s + leaseTtlMs) (k_set (clock s) leaderKey n (Some leaseTtlMs) (server s)) s.
Proof. intros Hi He. unfold exec. by rewrite ask_raw, Hi, He. Qed.

(** The lease [look] says is [n]'s runs out when it expires. *)
Lemma looked n s :
  inv s -> fst <$> entry (clock s) leaderKey (server s) = Some n ->
  exists x, entry (clock s) leaderKey (server s) = Some (n, Some x) /\ expires (clock s) (server s) <= x.
Proof.
  intros (_ & _ & Hl) He. unfold expires. destruct (entry _ _ _) as [[v o]|] eqn:E; [|done].
  injection He as ->. destruct (Hl _ _ E) as (x & -> & _). exists x. split; [done|lia].
Qed.

Lemma inv_look n s : inv s -> inv (exec (Look n) s).
Proof.
  intros Hi. unfold exec. rewrite look_raw. destruct (at_ (node_of n s)); try done.
  case_bool_decide as He; [|by apply inv_finish_same].
  apply inv_put_same; [done|simpl; lia|]. intros _ _. by apply looked.
Qed.

(** A timely renewal or deletion is about the node's own lease. *)
Lemma timely_only n s :
  inv s -> at_ (node_of n s) = Owner \/ at_ (node_of n s) = Leaving -> clock s < deadline (node_of n s) ->
  only n s /\ exists x, entry (clock s) leaderKey (server s) = Some (n, Some x).
Proof.
  intros (_ & Hs & _) Ha Hd. destruct (Hs n Ha Hd) as (x & Ex & _). split; [|by exists x].
  intros v o Hv. rewrite Ex in Hv. by injection Hv.
Qed.

Lemma inv_renew n s : timely (Renew n) s -> inv s -> inv (exec (Renew n) s).
Proof.
  intros Ht Hi. unfold exec. rewrite renew_raw. simpl in Ht.
  destruct (at_ (node_of n s)) eqn:Ha; try done.
  destruct (timely_only n s Hi (or_introl Ha) (Ht eq_refl)) as [Ho (x & Ex)]. apply inv_grant; [done|done|].
  rewrite entry_pexpire_eq, Ex by lia. apply alive_now. done.
Qed.

Lemma inv_erase n s : timely (Erase n) s -> inv s -> inv (exec (Erase n) s).
Proof.
  intros Ht Hi. unfold exec. simpl in *. destruct (at_ (node_of n s)) eqn:Ha; try done.
  destruct (timely_only n s Hi (or_intror Ha) (Ht eq_refl)) as [Ho _]. split; [|split].
  - intros m Hm. unfold holds, finish in Hm. rewrite node_of_put in *. simpl in *.
    destruct (decide (n = m)) as [->|Hne]; [simpl in *; lia|]. destruct Hne. symmetry. by apply (only_holds n m s).
  - intros m Hm Hd. unfold finish in *. rewrite node_of_put in *. simpl in *.
    destruct (decide (n = m)) as [->|Hne]; [by destruct Hm|]. destruct Hne. symmetry. by apply (only_sighted n m s).
  - intros v o Hv. simpl in Hv. by rewrite entry_del_eq in Hv.
Qed.

Lemma inv_leave n s : inv s -> inv (exec (Leave n) s).
Proof.
  intros Hi. unfold exec. rewrite look_raw. destruct (isLeaderFlag _); [|done].
  destruct (at_ (node_of n s)); try done. case_bool_decide as He; [|by apply inv_finish_same].
  apply inv_put_same; [done|simpl; lia|]. intros _ _. by apply looked.
Qed.

Lemma inv_exec ev s : timely ev s -> inv s -> inv (exec ev s).
Proof.
  destruct ev as [d|n|n|n|n|n|n]; intros Ht Hi.
  - by apply inv_tick.
  - by apply inv_ask.
  - by apply inv_look.
  - by apply inv_renew.
  - by apply inv_leave.
  - by apply inv_erase.
  - by apply inv_finish_same.
Qed.

Lemma inv_run evs s : timely_run evs s -> inv s -> inv (run evs s).
Proof.
  revert s. induction evs as [|ev evs IH]; intros s; [done|]. intros [Ht Hr] Hi. apply IH; [done|]. by apply inv_exec.
Qed.

Lemma inv_start r : entry 0 leaderKey r = None -> inv (start r).
Proof.
  intros Hr. split; [|split].
  - intros n. unfold holds, node_of. simpl. rewrite lookup_empty. simpl. lia.
  - intros n. unfold node_of. simpl. rewrite lookup_empty. by intros [?|?].
  - intros v o. simpl. congruence.
Qed.

Lemma run_app evs evs' s : run (evs ++ evs') s = run evs' (run evs s).
Proof. unfold run. by rewrite fold_left_app. Qed.


(** C27: the lease of a node that is gone is taken over: over the Redis client
    itself, after any run whose renewals and deletions reach the server before
    the lease they are about runs out, and then the lease's time to live
    without a command, the first idle node that asks becomes the leader and is
    the only one that may count on the lease. *)
Theorem failover r evs d n :
  entry 0 leaderKey r = None -> timely_run evs (start r) -> Z.of_N d = leaseTtlMs ->
  at_ (node_of n (run evs (start r))) = Idle ->
  let s := run (evs ++ [Tick d; Ask n]) (start r) in
  isLeaderFlag (state (node_of n s)) = true /\ holds s n /\ forall m, holds s m -> m = n.
Proof.
  intros Hr Ht Hd Hidle. cbn zeta. rewrite run_app.
  assert (inv (run evs (start r))) as Hi by (apply inv_run; [done|by apply inv_start]).
  set (s0 := run evs (start r)) in *. pose proof (inv_tick d s0 Hi) as Hi1.
  pose proof (inv_ask n _ Hi1) as Hi2. change (run [Tick d; Ask n] s0) with (exec (Ask n) (exec (Tick d) s0)) in *.
  set (s1 := exec (Tick d) s0) in *.
  assert (entry (clock s1) leaderKey (server s1) = None) as He.
  { simpl. rewrite (entry_later (clock s0)) by lia. apply alive_None. intros v x Hx.
    destruct (proj2 (proj2 Hi) _ _ Hx) as (y & -> & Hy). exists y. split; [done|lia]. }
  assert (at_ (node_of n s1) = Idle) as Hidle1 by exact Hidle.
  assert (holds (exec (Ask n) s1) n /\ isLeaderFlag (state (node_of n (exec (Ask n) s1))) = true) as [Hh Hf].
  { rewrite (ask_free n s1 Hidle1 He). unfold holds, finish. rewrite node_of_put, decide_True by done.
    simpl. unfold leaseTtlMs. split; [lia|done]. }
  split; [exact Hf|]. split; [exact Hh|]. intros m Hm. by apply (backed_unique _ _ _ (proj1 Hi2)).
Qed.
End system.


Lemma failover_witness :
  isLeaderFlag (state (node_of "b"
    (run ([Ask "a"; Ask "b"; Look "b"] ++ [Tick 30000; Ask "b"]) (start (R := gmap string entry_t) ∅)))) = true.
Proof.
  apply (failover (R := gmap string entry_t) ∅ [Ask "a"; Ask "b"; Look "b"] 30000 "b").
  - reflexivity.
  - repeat split; vm_compute; intros; try reflexivity; discriminate.
  - reflexivity.
  - vm_compute. reflexivity.
Defined.

(** A renewal, or a deletion, that arrives after the lease has run out and been
    taken leaves two nodes that have both just been told they lead. *)
Definition late_renewal : list event :=
  [Ask "a"; Tick 29000; Ask "a"; Look "a"; Tick 2000; Ask "b"; Renew "a"].
Definition late_deletion : list event :=
  [Ask "a"; Tick 29000; Leave "a"; Tick 2000; Ask "b"; Erase "a"; Ask "c"].
Definition leads (n : string) (s : sys (R := gmap string entry_t)) : bool := isLeaderFlag (state (node_of n s)).

(** The hypothesis of [lease_exclusive] is needed: with one late renewal, or one
    late deletion, the flag of two nodes is set at once. *)
Lemma late_commands_split :
  (leads "a" (run late_renewal (start ∅)) && leads "b" (run late_renewal (start ∅))) = true /\
  (leads "b" (run late_deletion (start ∅)) && leads "c" (run late_deletion (start ∅))) = true.
Proof. vm_compute. split; reflexivity. Qed.

End Protocol.

(** ** Through the wrapper *)

Module WrappedElection.
Import KeySpace LeaderElection.

Section wrapped.
Context {R : Type} `{KeySpace R} (others : RedisOperations.client R).

(** Nodes taking part one after the other, at an instant, over the wrapper. *)
Fixpoint campaign (now : Z) (ids : list string) (r : R) : list (string * (el * res exn bool)) * R :=
  match ids with
  | [] => ([], r)
  | id :: ids =>
      let '((e, r), answer) :=
        participate (Some (wrapper_ops (RedisOperations.server_client now others))) id (fresh, r) in
      let '(l, r) := campaign now ids r in ((id, (e, answer)) :: l, r)
  end.

Lemma participate_wrapped now id e r :
  participate (Some (wrapper_ops (RedisOperations.server_client now others))) id (e, r) =
    ((settle true, k_set now leaderKey id None r), Ok true).
Proof.
  unfold participate, acquire, ask, look, renew, wrapper_ops. cbn.
  unfold RedisOperations.set, RedisOperations.get, RedisOperations.execute. cbn.
  unfold RedisOperations.set_at, RedisOperations.get_at. munfold.
  rewrite entry_set_eq by lia. simpl. by rewrite bool_decide_true.
Qed.

(** Through the wrapper the program passes, the options of SET are lost:
    every node that takes part becomes the leader, whatever the others hold, and
    the key it writes never expires. *)
Theorem wrapper_split_brain now ids r :
  (campaign now ids r).1 = map (fun id => (id, (settle true, Ok true))) ids /\
  forall id t, last ids = Some id -> now <= t ->
    entry t leaderKey (campaign now ids r).2 = Some (id, None).
Proof.
  revert r. induction ids as [|id ids IH]; intros r; [done|]. cbn [campaign]. rewrite participate_wrapped.
  specialize (IH (k_set now leaderKey id None r)).
  destruct (campaign now ids (k_set now leaderKey id None r)) as [l r'] eqn:E. destruct IH as [Hl Hk]. simpl in *.
  split; [by rewrite Hl|]. intros id' t Hlast Ht. destruct ids as [|id2 ids].
  - injection Hlast as ->. injection E as <- <-. by rewrite entry_set_eq.
  - apply Hk; [done|done].
Qed.

(** The remaining time to live it reports is 0. *)
Lemma wrapped_lease_ttl now id e r :
  (getLeaseTTL (Some (wrapper_ops (RedisOperations.server_client now others)))
     (e, k_set now leaderKey id None r)).2 = Ok 0.
Proof.
  unfold getLeaseTTL, wrapper_ops. cbn. unfold RedisOperations.ttl, RedisOperations.execute. cbn.
  unfold RedisOperations.ttl_at. munfold. by rewrite entry_set_eq by lia.
Qed.
End wrapped.

Lemma wrapper_split_brain_witness :
  entry 86400000 leaderKey (campaign (RedisOperations.unconnected (R := gmap string entry_t)) 0 ["a"; "b"] ∅).2 = Some ("b", None).
Proof. apply (wrapper_split_brain (RedisOperations.unconnected (R := gmap string entry_t)) 0 ["a"; "b"] ∅); [reflexivity|lia]. Defined.

End WrappedElection.
