(* ===== verification/Coordinator.v ===== *)
(** * Daemons and their coordinator

    [daemon/base-daemon.ts] and [daemon/coordinator/daemon-coordinator.ts]: the
    background loop every daemon shares ([BaseDaemon]) and the coordinator that
    registers daemons, shared objects of a heap, and runs an election for each
    singleton ([Coordinator]). *)
From Stdlib Require Import Ascii QArith Qround Qpower Qabs Lqa.
From stdpp Require Import base tactics numbers list strings gmap pretty.
From S2P Require Import Prelude JsNum JsValue Errors Redis Leader.

(** ** The background loop of a daemon *)

Module BaseDaemon.

(** daemon/base-daemon.ts:12-18 BaseDaemon
    [timer] says whether the interval timer is armed. *)
Record t : Type := Mk {
  name : string; interval : Z; running : bool; lastRun : option Z; lastDurationMs : Z; timer : bool;
}.
(** daemon/base-daemon.ts:20-28 constructor *)
Definition create (name : string) (interval : Z) : t := Mk name (Z.max 100 interval) false None 0 false.

(** daemon/base-daemon.ts:98-100 runCycle
    The start of a cycle. *)
Definition begin_cycle (now : Z) (d : t) : t :=
  Mk (name d) (interval d) (running d) (Some now) (lastDurationMs d) (timer d).
(** daemon/base-daemon.ts:102-116 runCycle
    The end of the cycle begun at [start], whether the work threw or not. *)
Definition end_cycle (start now : Z) (d : t) : t :=
  Mk (name d) (interval d) (running d) (lastRun d) (now - start) (timer d).
(** daemon/base-daemon.ts:38-57 start *)
Definition start (now : Z) (d : t) : t :=
  if running d then d
  else let d := begin_cycle now (Mk (name d) (interval d) true (lastRun d) (lastDurationMs d) (timer d)) in
       Mk (name d) (interval d) (running d) (lastRun d) (lastDurationMs d) true.
(** daemon/base-daemon.ts:62-72 stop *)
Definition stop (d : t) : t :=
  if running d then Mk (name d) (interval d) false (lastRun d) (lastDurationMs d) false else d.

(** daemon/base-daemon.ts:1-7 DaemonStatus *)
Record status : Type := Status {
  s_name : string; s_running : bool; s_lastRun : option Z; s_nextRun : option Z; s_lastDurationMs : Z;
}.
(** daemon/base-daemon.ts:84-93 getStatus *)
Definition getStatus (d : t) : status :=
  Status (name d) (running d) (lastRun d)
    (if running d then (fun r => r + interval d) <$> lastRun d else None) (lastDurationMs d).

(** What happens to a daemon: it is started or stopped, a cycle begins because
    the timer fires, a cycle begun earlier ends. *)
Inductive event : Type := Start (now : Z) | Stop | Fire (now : Z) | EndCycle (start now : Z).
Definition exec (ev : event) (d : t) : t :=
  match ev with
  | Start now => start now d
  | Stop => stop d
  | Fire now => if timer d then begin_cycle now d else d
  | EndCycle s now => end_cycle s now d
  end.
Definition run (evs : list event) (d : t) : t := fold_left (fun d ev => exec ev d) evs d.

(** The timer is armed exactly while the daemon runs, and a running daemon has
    had its first cycle. *)
Definition wf (d : t) : Prop :=
  timer d = running d /\ 100 <= interval d /\ (running d = true -> is_Some (lastRun d)).

Lemma wf_exec ev d : wf d -> wf (exec ev d).
Proof.
  intros Hwf. pose proof Hwf as (H1 & H2 & H3).
  destruct ev as [now| |now|s now]; unfold exec, start, stop; simpl.
  - destruct (running d) eqn:E; [done|]. repeat split; simpl; eauto.
  - destruct (running d) eqn:E; [|done]. by repeat split.
  - destruct (timer d) eqn:E; [|done]. repeat split; simpl; eauto; congruence.
  - done.
Qed.

Lemma wf_run evs name interval : wf (run evs (create name interval)).
Proof.
  assert (wf (create name interval)) as H by (repeat split; simpl; [lia|done]).
  revert H. generalize (create name interval). unfold run.
  induction evs as [|ev evs IH]; intros d H; [done|]. apply IH. by apply wf_exec.
Qed.

Lemma stop_stopped d : running (stop d) = false.
Proof. unfold stop. by destruct (running d) eqn:E. Qed.

End BaseDaemon.

(** ** The coordinator *)

Module Coordinator.
Import KeySpace LeaderElection.

(** daemon/coordinator/coordination.ts:17-20 isDaemonSingleton *)
Definition isDaemonSingleton (type_ : string) : bool :=
  let typeStr := to_upper type_ in str_eqb typeStr "RECOVERY" || str_eqb typeStr "ADMIN_SYNC".

(** daemon/coordinator/coordination.ts:8-12 DaemonRole *)
Inductive role : Type := PRIMARY | SECONDARY | OBSERVER.
#[global] Instance role_eq_dec : EqDecision role.
Proof. solve_decision. Defined.

Section coordinator.
Context {R : Type}.

(** daemon/coordinator/daemon-coordinator.ts:16-44 DaemonCoordinator
    Built with the standard signature.  Daemons are shared objects: the
    coordinator keeps references to them. *)
Record co : Type := Co {
  running : bool; startedAt : option Z; daemons : list (string * N); elections : list (string * el);
}.
Definition new_co : co := Co false None [] [].
(** The coordinator of a node, the daemon objects, the server. *)
Record world : Type := World { coord : co; heap : gmap N BaseDaemon.t; redis : R }.

Context (redisOps : Z -> option (leader_ops R)) (daemonId : string).
Abbreviation M := (meth world exn).

Definition on_coord (f : co -> co) (w : world) : world := World (f (coord w)) (heap w) (redis w).
Definition on_daemon (d : N) (f : BaseDaemon.t -> BaseDaemon.t) (w : world) : world :=
  World (coord w) (alter f d (heap w)) (redis w).
Definition with_elections (l : list (string * el)) (c : co) : co := Co (running c) (startedAt c) (daemons c) l.
Definition with_daemons (l : list (string * N)) (c : co) : co := Co (running c) (startedAt c) l (elections c).

(** An election of the coordinator calls the server. *)
Definition vote (now : Z) (typeStr : string) (e : el) : M bool := fun w =>
  let '((e', r), o) := participate (redisOps now) daemonId (e, redis w) in
  (World (with_elections (jmap_set typeStr e' (elections (coord w))) (coord w)) (heap w) r, o).

(** daemon/coordinator/daemon-coordinator.ts:49-63 start *)
Definition start_all (now : Z) : M unit :=
  c ← gets coord;
  if running c then mret tt
  else modify (on_coord (fun c => Co true (Some now) (daemons c) (elections c)));;
       modify (fun w => fold_left (fun w kd => on_daemon (snd kd) (BaseDaemon.start now) w) (daemons c) w).
(** daemon/coordinator/daemon-coordinator.ts:103-114 registerDaemon *)
Definition registerDaemon (now : Z) (type_ : string) (daemon : N) : M unit :=
  let typeStr := to_upper type_ in
  modify (on_coord (fun c => with_daemons (jmap_set typeStr daemon (daemons c)) c));;
  if isDaemonSingleton typeStr
  then vote now typeStr fresh;; mret tt
  else mret tt.
(** daemon/coordinator/daemon-coordinator.ts:119-135 deregisterDaemon *)
Definition deregisterDaemon (now : Z) (type_ : string) : M unit :=
  let typeStr := to_upper type_ in
  c ← gets coord;
  (match jmap_get typeStr (daemons c) with
   | Some d => modify (on_daemon d BaseDaemon.stop);;
               modify (on_coord (fun c => with_daemons (jmap_delete typeStr (daemons c)) c))
   | None => mret tt
   end);;
  match jmap_get typeStr (elections c) with
  | Some e =>
      modify (fun w => World (coord w) (heap w) (resign (redisOps now) daemonId (e, redis w)).1.2);;
      modify (on_coord (fun c => with_elections (jmap_delete typeStr (elections c)) c))
  | None => mret tt
  end.
(** daemon/coordinator/daemon-coordinator.ts:140-153 getRole *)
Definition getRole (type_ : string) (c : co) : role :=
  let typeStr := to_upper type_ in
  if negb (isDaemonSingleton typeStr) then PRIMARY
  else match jmap_get typeStr (elections c) with
       | Some e => if isLeaderFlag e then PRIMARY else SECONDARY
       | None => SECONDARY
       end.
(** daemon/coordinator/daemon-coordinator.ts:158-174 getAllDaemons
    A daemon object that is gone has no entry. *)
Definition getAllDaemons (w : world) : list (string * role * BaseDaemon.status) :=
  omap (fun kd => (fun d => (fst kd, getRole (fst kd) (coord w), BaseDaemon.getStatus d)) <$> heap w !! snd kd)
    (daemons (coord w)).
(** daemon/coordinator/daemon-coordinator.ts:179-190 ensureLeadership *)
Definition ensureLeadership (now : Z) (type_ : string) : M bool :=
  let typeStr := to_upper type_ in
  if negb (isDaemonSingleton typeStr) then mret true
  else c ← gets coord;
       vote now typeStr (default fresh (jmap_get typeStr (elections c))).
(** daemon/coordinator/daemon-coordinator.ts:195-201 shutdown *)
Definition shutdown (now : Z) : M unit := fun w =>
  (fold_left (fun w type_ => (deregisterDaemon now type_ w).1) (map fst (daemons (coord w))) w, Ok tt).
(** daemon/coordinator/daemon-coordinator.ts:68-79 stop *)
Definition stop_all (now : Z) : M unit :=
  c ← gets coord;
  if running c
  then shutdown now;; modify (on_coord (fun c => Co false (startedAt c) (daemons c) (elections c)))
  else mret tt.
(** daemon/coordinator/daemon-coordinator.ts:81-83 isRunning *)
Definition isRunning (w : world) : bool := running (coord w).

(** daemon/daemon.module.ts:96-108 initializeDaemonModule
    The daemons of a node are registered and started: the recovery daemon only
    if the node leads. *)
Definition initialize (now : Z) (health metrics recovery : N) : M unit :=
  registerDaemon now "HEALTH" health;;
  registerDaemon now "METRICS" metrics;;
  registerDaemon now "RECOVERY" recovery;;
  modify (on_daemon health (BaseDaemon.start now));;
  modify (on_daemon metrics (BaseDaemon.start now));;
  c ← gets coord;
  match getRole "RECOVERY" c with
  | PRIMARY => modify (on_daemon recovery (BaseDaemon.start now))
  | _ => mret tt
  end.
End coordinator.
Arguments world : clear implicits.
Arguments World {R}. Arguments coord {R}. Arguments heap {R}. Arguments redis {R}.

(** ** Shutting down *)

Section shutdown.
Context {R : Type} `{KeySpace R} (daemonId : string).
Definition raw (now : Z) : option (leader_ops R) := Some (raw_ops now).

(** The calls a coordinator answers before it is shut down. *)
Inductive call : Type :=
| StartAll (now : Z) | Register (now : Z) (type_ : string) (d : N) | Deregister (now : Z) (type_ : string)
| Ensure (now : Z) (type_ : string) | StopAll (now : Z).
Definition serve (c : call) (w : world R) : world R :=
  match c with
  | StartAll now => (start_all now w).1
  | Register now ty d => (registerDaemon raw daemonId now ty d w).1
  | Deregister now ty => (deregisterDaemon raw daemonId now ty w).1
  | Ensure now ty => (ensureLeadership raw daemonId now ty w).1
  | StopAll now => (stop_all raw daemonId now w).1
  end.
Definition serve_all (cs : list call) (w : world R) : world R := fold_left (fun w c => serve c w) cs w.

(** What a deregistration does, as a function on the world. *)
Definition dereg (now : Z) (ty : string) (w : world R) : world R :=
  World
    (Co (running (coord w)) (startedAt (coord w)) (jmap_delete ty (daemons (coord w)))
       (jmap_delete ty (elections (coord w))))
    (match jmap_get ty (daemons (coord w)) with Some d => alter BaseDaemon.stop d (heap w) | None => heap w end)
    (match jmap_get ty (elections (coord w)) with
     | Some e => (resign (raw now) daemonId (e, redis w)).1.2
     | None => redis w
     end).

Lemma jmap_delete_absent {A} (k : string) (m : list (string * A)) : jmap_get k m = None -> jmap_delete k m = m.
Proof.
  induction m as [|[k' v] m IH]; simpl; [done|]. destruct (decide (k = k')); [done|]. intros Hk. by rewrite IH.
Qed.

Lemma deregister_dereg now ty w : to_upper ty = ty -> (deregisterDaemon raw daemonId now ty w).1 = dereg now ty w.
Proof.
  intros Hty. unfold deregisterDaemon, dereg. rewrite Hty. munfold.
  destruct (jmap_get ty (daemons (coord w))) eqn:Ed, (jmap_get ty (elections (coord w))) eqn:Ee; simpl;
    unfold on_coord, on_daemon; simpl; rewrite ?Ee; simpl;
    rewrite ?(jmap_delete_absent _ _ Ed), ?(jmap_delete_absent _ _ Ee); try done.
  by destruct w as [[] ? ?].
Qed.

(** Keys are upper case and appear once. *)
Definition wf (c : co) : Prop :=
  Forall (fun k => to_upper k = k) (map fst (daemons c)) /\ NoDup (map fst (daemons c)) /\
  NoDup (map fst (elections c)).

Lemma jmap_delete_upper (k : string) {A} (m : list (string * A)) :
  Forall (fun k => to_upper k = k) (map fst m) -> Forall (fun k => to_upper k = k) (map fst (jmap_delete k m)).
Proof. rewrite !Forall_forall. intros Hm x Hx. apply Hm. by eapply jmap_delete_keys_sub. Qed.

Lemma jmap_set_upper {A} (k : string) (v : A) (m : list (string * A)) :
  to_upper k = k -> Forall (fun k => to_upper k = k) (map fst m) ->
  Forall (fun k => to_upper k = k) (map fst (jmap_set k v m)).
Proof.
  intros Hk Hm. rewrite jmap_set_keys. destruct (jmap_get k m); [done|]. apply Forall_app. split; [done|].
  by constructor.
Qed.

Lemma wf_dereg now ty w : wf (coord w) -> wf (coord (dereg now ty w)).
Proof.
  intros (H1 & H2 & H3). repeat split; simpl.
  - by apply jmap_delete_upper.
  - by apply jmap_delete_NoDup.
  - by apply jmap_delete_NoDup.
Qed.

Lemma vote_coord now ty e w :
  exists e', coord (vote raw daemonId now ty e w).1 = with_elections (jmap_set ty e' (elections (coord w))) (coord w).
Proof. unfold vote. destruct (participate _ _ _) as [[e' r] o]. by exists e'. Qed.

Lemma wf_with_elections ty e c : wf c -> wf (with_elections (jmap_set ty e (elections c)) c).
Proof. intros (H1 & H2 & H3). repeat split; [done|done|]. by apply jmap_set_NoDup. Qed.

Lemma wf_vote now ty e w : wf (coord w) -> wf (coord (vote raw daemonId now ty e w).1).
Proof. intros Hw. destruct (vote_coord now ty e w) as [e' ->]. by apply wf_with_elections. Qed.

Lemma vote_run {A} now ty e w (k : bool -> meth (world R) exn A) :
  (forall b w, (k b w).1 = w) -> ((vote raw daemonId now ty e ≫= k) w).1 = (vote raw daemonId now ty e w).1.
Proof.
  intros Hk. unfold mbind, meth_bind. destruct (vote raw daemonId now ty e w) as [w' [b|x]]; simpl; [apply Hk|done].
Qed.

Lemma wf_register now ty d w : wf (coord w) -> wf (coord (registerDaemon raw daemonId now ty d w).1).
Proof.
  intros (H1 & H2 & H3). unfold registerDaemon. unfold mbind at 1, meth_bind at 1, modify at 1.
  set (w' := on_coord _ w).
  assert (wf (coord w')) as Hw'.
  { repeat split; simpl; [|by apply jmap_set_NoDup|done]. apply jmap_set_upper; [apply to_upper_idem|done]. }
  destruct (isDaemonSingleton _); [|done]. rewrite vote_run by done. by apply wf_vote.
Qed.

(** The deregistrations of a shutdown, in order. *)
Definition dereg_all (now : Z) (tys : list string) (w : world R) : world R :=
  fold_left (fun w ty => dereg now ty w) tys w.

Lemma shutdown_dereg now w :
  wf (coord w) -> (shutdown raw daemonId now w).1 = dereg_all now (map fst (daemons (coord w))) w.
Proof.
  intros (Hu & _). unfold shutdown, dereg_all. simpl. revert Hu. generalize (map fst (daemons (coord w))).
  intros l Hl. revert w. induction Hl as [|ty l Hty Hl IH]; intros w; [done|]. simpl.
  rewrite deregister_dereg by done. apply IH.
Qed.

Lemma wf_dereg_all now tys w : wf (coord w) -> wf (coord (dereg_all now tys w)).
Proof. revert w. induction tys as [|ty tys IH]; intros w Hw; [done|]. apply IH. by apply wf_dereg. Qed.

Lemma fold_on_daemon_coord now (l : list (string * N)) (w : world R) :
  coord (fold_left (fun w kd => on_daemon (snd kd) (BaseDaemon.start now) w) l w) = coord w.
Proof. revert w. induction l as [|kd l IH]; intros w; [done|]. simpl. by rewrite IH. Qed.

Lemma wf_serve c w : wf (coord w) -> wf (coord (serve c w)).
Proof.
  intros Hw. destruct c as [now|now ty d|now ty|now ty|now]; simpl.
  - unfold start_all. munfold. destruct (running (coord w)); [done|]. simpl. by rewrite fold_on_daemon_coord.
  - by apply wf_register.
  - unfold deregisterDaemon. rewrite <- (to_upper_idem ty).
    change (wf (coord (deregisterDaemon raw daemonId now (to_upper ty) w).1)).
    rewrite deregister_dereg by apply to_upper_idem. by apply wf_dereg.
  - unfold ensureLeadership. destruct (negb _); [done|]. unfold mbind, meth_bind, gets. by apply wf_vote.
  - unfold stop_all. munfold. destruct (running (coord w)); [|done].
    pose proof (shutdown_dereg now w Hw) as Hs. unfold shutdown in *. simpl in *. rewrite Hs.
    by apply wf_dereg_all.
Qed.

Lemma wf_serve_all cs w : wf (coord w) -> wf (coord (serve_all cs w)).
Proof. revert w. induction cs as [|c cs IH]; intros w Hw; [done|]. apply IH. by apply wf_serve. Qed.

(** A daemon that has been stopped stays stopped. *)
Lemma dereg_all_stopped now tys w d :
  (forall b, heap w !! d = Some b -> BaseDaemon.running b = false) ->
  forall b, heap (dereg_all now tys w) !! d = Some b -> BaseDaemon.running b = false.
Proof.
  revert w. induction tys as [|ty tys IH]; intros w Hw; [done|]. simpl. apply IH. intros b. simpl.
  destruct (jmap_get ty (daemons (coord w))) as [d'|]; [|apply Hw].
  destruct (decide (d = d')) as [->|Hne]; [|rewrite lookup_alter_ne by done; apply Hw].
  rewrite lookup_alter_eq. destruct (heap w !! d'); [|done]. intros [= <-]. apply BaseDaemon.stop_stopped.
Qed.

Lemma dereg_stopped now ty w d b :
  jmap_get ty (daemons (coord w)) = Some d -> heap (dereg now ty w) !! d = Some b -> BaseDaemon.running b = false.
Proof.
  intros Hd. simpl. rewrite Hd, lookup_alter_eq. destruct (heap w !! d); [|done]. intros [= <-].
  apply BaseDaemon.stop_stopped.
Qed.

(** Whether the node still has the lease. *)
Definition mine (now : Z) (r : R) : Prop := fst <$> entry now leaderKey r = Some daemonId.

Lemma resign_raw now e r :
  ((resign (raw now) daemonId (e, r)).1.2 = r \/
   (resign (raw now) daemonId (e, r)).1.2 = k_del leaderKey r) /\
  (isLeaderFlag e = true -> ~ mine now (resign (raw now) daemonId (e, r)).1.2).
Proof.
  unfold resign, release. destruct (isLeaderFlag e); simpl; [|by split; [left|]].
  unfold RedisOperations.get_at, RedisOperations.del_at, mine. munfold.
  destruct (decide _) as [E|E]; simpl.
  - split; [by right|]. intros _. by rewrite entry_del_eq.
  - split; [by left|]. intros _. exact E.
Qed.

Lemma dereg_not_mine now ty w : ~ mine now (redis w) -> ~ mine now (redis (dereg now ty w)).
Proof.
  intros Hm. unfold dereg; cbn [redis]. destruct (jmap_get ty (elections (coord w))) as [e|]; [|done].
  destruct (resign_raw now e (redis w)) as [[->| ->] _]; [done|]. unfold mine. by rewrite entry_del_eq.
Qed.

Lemma dereg_all_not_mine now tys w : ~ mine now (redis w) -> ~ mine now (redis (dereg_all now tys w)).
Proof. revert w. induction tys as [|ty tys IH]; intros w Hw; [done|]. apply IH. by apply dereg_not_mine. Qed.

Lemma dereg_all_elections now tys w ty :
  wf (coord w) -> ty ∈ tys -> jmap_get ty (elections (coord (dereg_all now tys w))) = None.
Proof.
  revert w. induction tys as [|ty' tys IH]; intros w Hw Hin; [by apply not_elem_of_nil in Hin|].
  apply elem_of_cons in Hin as [<-|Hin]; [|by apply IH; [apply wf_dereg|]]. simpl.
  assert (jmap_get ty (elections (coord (dereg now ty w))) = None) as H1 by (apply jmap_delete_NoDup, Hw).
  clear IH. revert H1. generalize (dereg now ty w). induction tys as [|ty' tys IH]; intros w1 H1; [done|].
  simpl. apply IH. simpl. destruct (decide (ty = ty')) as [->|Hne].
  - by rewrite jmap_delete_absent.
  - by rewrite jmap_get_delete_ne.
Qed.

Lemma dereg_all_daemons now w :
  daemons (coord (dereg_all now (map fst (daemons (coord w))) w)) = [].
Proof.
  remember (daemons (coord w)) as l eqn:El. revert w El.
  induction l as [|[ty d] l IH]; intros w El; simpl; [done|]. apply IH. simpl. rewrite <- El. simpl.
  by rewrite decide_True.
Qed.

Lemma dereg_all_registered now tys w ty d b :
  ty ∈ tys -> jmap_get ty (daemons (coord w)) = Some d ->
  heap (dereg_all now tys w) !! d = Some b -> BaseDaemon.running b = false.
Proof.
  revert w. induction tys as [|ty' tys IH]; intros w Hin Hd; [by apply not_elem_of_nil in Hin|].
  simpl. destruct (decide (ty = ty')) as [<-|Hne].
  - apply dereg_all_stopped. intros b'. by apply (dereg_stopped now ty w d b').
  - apply elem_of_cons in Hin as [->|Hin]; [done|]. apply IH; [done|]. simpl. by rewrite jmap_get_delete_ne.
Qed.

Lemma dereg_all_resigned now tys w ty e :
  ty ∈ tys -> jmap_get ty (elections (coord w)) = Some e -> isLeaderFlag e = true ->
  ~ mine now (redis (dereg_all now tys w)).
Proof.
  revert w. induction tys as [|ty' tys IH]; intros w Hin He Hf; [by apply not_elem_of_nil in Hin|].
  simpl. destruct (decide (ty = ty')) as [<-|Hne].
  - apply dereg_all_not_mine. unfold dereg; cbn [redis]. rewrite He. by apply resign_raw.
  - apply elem_of_cons in Hin as [->|Hin]; [done|]. apply IH; [done| |done]. simpl. by rewrite jmap_get_delete_ne.
Qed.

(** C28: a shutdown undoes every registration: after any calls of a coordinator,
    it leaves no daemon registered, every daemon that was registered stopped, no
    election of a registered daemon, and, if one of those elections led, the
    lease no longer the node's. *)
Theorem shutdown_complete now cs r h :
  let w := serve_all cs (World new_co h r) in
  let w' := (shutdown raw daemonId now w).1 in
  daemons (coord w') = [] /\
  (forall ty d b, jmap_get ty (daemons (coord w)) = Some d -> heap w' !! d = Some b ->
     BaseDaemon.running b = false) /\
  (forall ty d, jmap_get ty (daemons (coord w)) = Some d -> jmap_get ty (elections (coord w')) = None) /\
  (forall ty d e, jmap_get ty (daemons (coord w)) = Some d -> jmap_get ty (elections (coord w)) = Some e ->
     isLeaderFlag e = true -> fst <$> entry now leaderKey (redis w') <> Some daemonId).
Proof.
  intros w w'. assert (wf (coord w)) as Hw by (apply wf_serve_all; repeat split; constructor).
  assert (forall ty d, jmap_get ty (daemons (coord w)) = Some d -> ty ∈ map fst (daemons (coord w))) as Hin.
  { intros ty d Hd. apply jmap_get_In in Hd. by apply (list_elem_of_fmap_2 fst) in Hd. }
  unfold w'. rewrite shutdown_dereg by done. split; [apply dereg_all_daemons|]. split; [|split].
  - intros ty d b Hd. eapply dereg_all_registered; [by eapply Hin|done].
  - intros ty d Hd. apply dereg_all_elections; [done|by eapply Hin].
  - intros ty d e Hd He Hf. eapply dereg_all_resigned; [by eapply Hin|done|done].
Qed.

(** The elections of all singletons share one key and one node id: a node
    that gives up one singleton gives up the lease of the other while it goes
    on as PRIMARY for it, and the next node to take part is PRIMARY too. *)
Theorem shared_lease_lost now w id' :
  isLeaderFlag <$> jmap_get "RECOVERY" (elections (coord w)) = Some true ->
  isLeaderFlag <$> jmap_get "ADMIN_SYNC" (elections (coord w)) = Some true ->
  fst <$> entry now leaderKey (redis w) = Some daemonId ->
  let w' := (deregisterDaemon raw daemonId now "ADMIN_SYNC" w).1 in
  getRole "RECOVERY" (coord w') = PRIMARY /\
  (participate (raw now) id' (fresh, redis w')).2 = Ok true.
Proof.
  intros Hr Ha Hm w'. unfold w'. rewrite deregister_dereg by done. split.
  - unfold getRole. change (to_upper "RECOVERY") with "RECOVERY". simpl. rewrite jmap_get_delete_ne by done.
    destruct (jmap_get "RECOVERY" _) as [e|]; [|done]. simpl in Hr. by injection Hr as ->.
  - unfold dereg; cbn [redis]. destruct (jmap_get "ADMIN_SYNC" _) as [e|]; [|done]. simpl in Ha.
    injection Ha as Ha. unfold resign, release. rewrite Ha. simpl.
    unfold RedisOperations.get_at, RedisOperations.del_at. munfold. rewrite decide_True by done. simpl.
    unfold participate, acquire, ask. simpl. munfold. by rewrite setnx_spec, entry_del_eq.
Qed.

#[local] Opaque participate.
(** Over the wrapper every node that is initialized runs its recovery daemon. *)
Lemma every_node_recovers others now h m rc r hp b :
  rc <> h -> rc <> m -> hp !! rc = Some b ->
  let w' := (initialize (fun now => Some (wrapper_ops (RedisOperations.server_client now others))) daemonId
               now h m rc (World new_co hp r)).1 in
  getRole "RECOVERY" (coord w') = PRIMARY /\
  BaseDaemon.running <$> heap w' !! rc = Some true.
Proof.
  intros Hh Hm Hb w'. unfold w', initialize, registerDaemon, vote. munfold.
  rewrite WrappedElection.participate_wrapped. simpl. split; [done|].
  rewrite lookup_alter_eq, !lookup_alter_ne, Hb by done. simpl. unfold BaseDaemon.start.
  destruct (BaseDaemon.running b) eqn:E; simpl; congruence.
Qed.
#[local] Transparent participate.
End shutdown.

Definition demo_heap : gmap N BaseDaemon.t :=
  <[0%N := BaseDaemon.create "RecoveryDaemon" 60000]> (<[1%N := BaseDaemon.create "AdminSync" 60000]> ∅).
Definition demo_calls : list call := [Register 0 "recovery" 0%N; Register 0 "admin_sync" 1%N; StartAll 5].
Definition demo_world : world (gmap string entry_t) := serve_all "a" demo_calls (World new_co demo_heap ∅).

Lemma shutdown_complete_witness :
  daemons (coord (shutdown raw "a" 9 demo_world).1) = [] /\
  fst <$> entry 9 leaderKey (redis (shutdown raw "a" 9 demo_world).1) <> Some "a".
Proof.
  split.
  - apply (shutdown_complete (R := gmap string entry_t) "a" 9 demo_calls ∅ demo_heap).
  - pose proof (shutdown_complete (R := gmap string entry_t) "a" 9 demo_calls ∅ demo_heap) as (_ & _ & _ & Hl).
    apply (Hl "RECOVERY" 0%N (El true true)); reflexivity.
Defined.

Lemma shared_lease_lost_witness :
  getRole "RECOVERY" (coord (deregisterDaemon raw "a" 9 "ADMIN_SYNC" demo_world).1) = PRIMARY /\
  (participate (raw 9) "b" (fresh, redis (deregisterDaemon raw "a" 9 "ADMIN_SYNC" demo_world).1)).2 = Ok true.
Proof. apply (shared_lease_lost (R := gmap string entry_t) "a" 9 demo_world "b"); reflexivity. Defined.

End Coordinator.
