(* ===== verification/Hmac.v ===== *)
(** * Signatures

    [security/hmac/]: the signer and the verifier of requests with replay
    protection ([Signer], [Verifier]), and the verifier of web hook headers
    ([WebhookHmac]).  A verification has two commands, whether the signature was
    seen and the note that it was; [answers] runs any interleaving of them.  The
    keyed hash is the class [Hmac]; its output is a byte
    string, printed in hexadecimal by the code.  [Date.parse] is a parameter. *)
From Stdlib Require Import Ascii QArith Qround Qpower Qabs Lqa.
From stdpp Require Import base tactics numbers list strings sorting gmap pretty.
From S2P Require Import Prelude JsNum JsValue Errors Connectors Redis Text.

(** [createHmac(algorithm, secret).update(data).digest()]: never empty. *)
Class Hmac := {
  hmac : string -> string -> string -> string;
  hmac_nonempty algo secret data : hmac algo secret data <> "";
}.

Module Signer.

Section signer.
Context `{Hmac}.

(** security/hmac/signer.ts:8-19 deterministicStringify
    [None] is [undefined]: as a property it is printed, as an item it is blank. *)
Fixpoint deterministicStringify (obj : jsval) : option string :=
  let fields (fs : list (string * jsval)) : list (string * option string) :=
    map (fun p => match p with (k, x) => (k, deterministicStringify x) end) fs in
  let object (props : list (string * option string)) : string :=
    "{" +:+ String.concat ","
      (map (fun key => quoted (Json.escape key) +:+ ":"
                       +:+ default "undefined" (default None (assoc key props)))
         (sort_keys (map fst props))) +:+ "}" in
  match obj with
  | JNull => Some "null"
  | JArray _ items =>
      Some ("[" +:+ String.concat "," (map (fun x => default "" (deterministicStringify x)) items) +:+ "]")
  | JObject _ fs => Some (object (fields fs))
  | JError _ fs =>
      Some (object (filter (fun p => ~ (p.1 = "message" \/ p.1 = "name" \/ p.1 = "stack")) (fields fs)))
  | _ => Json.stringify obj
  end.

(** [typeof payload === 'string' ? payload : deterministicStringify(payload)]. *)
Definition serialize (payload : jsval) : option string :=
  match payload with JString s => Some s | _ => deterministicStringify payload end.

(** [Hash.update] refuses [undefined]. *)
Definition update_undefined : exn :=
  PlainError "The data argument must be of type string or an instance of Buffer, TypedArray, or DataView. Received undefined".

(** security/hmac/signer.ts:36-38 computeHmac *)
Definition computeHmac (algorithm secret : string) (data : option string) : res exn string :=
  match data with
  | Some data => Ok (hex_encode (hmac algorithm secret data))
  | None => Throw update_undefined
  end.

(** security/hmac/signer.ts:47-74 sign
    The second argument is a payload ([JUndefined] when omitted) or a [Date],
    which has no enumerable key. *)
Definition sign (hmacSecret : string) (payloadOrAlgo : jsval) (arg : jsval + date) : res exn string :=
  match payloadOrAlgo, arg with
  | JString "SHA256", _ | JString "SHA512", _ =>
      computeHmac (to_lower (js_String payloadOrAlgo)) hmacSecret
        (match arg with inl payload => serialize payload | inr _ => Some "{}" end)
  | payload, inr (Some ms) =>
      computeHmac "sha256" hmacSecret
        (Some (Json.toISOString ms +:+ "." +:+ default "undefined" (serialize payload)))
  | _, inr None => Throw (PlainError "Invalid time value")
  | payload, inl _ => computeHmac "sha256" hmacSecret (serialize payload)
  end.

(** security/hmac/signer.ts:79-81 signString *)
Definition signString (hmacSecret data : string) : res exn string := computeHmac "sha256" hmacSecret (Some data).

(** [timingSafeEqual] of two signatures in hexadecimal. *)
Definition same_signature (a b : string) : bool := str_eqb (hex_decode a) (hex_decode b).

(** security/hmac/signer.ts:87-100 verify *)
Definition verify (hmacSecret : string) (payload : jsval) (signature : string) (timestamp : date) : res exn bool :=
  expected ← sign hmacSecret payload (inr timestamp);
  mret (same_signature signature expected).

(** *** Objects that differ in the order of their fields *)

Lemma assoc_NoDup {A} (k : string) (v : A) l : NoDup (map fst l) -> (k, v) ∈ l -> assoc k l = Some v.
Proof.
  induction l as [|[k' v'] l IH]; simpl; [by intros _ ?%not_elem_of_nil|].
  intros [Hnin Hnd]%NoDup_cons [[= <- <-]|Hin]%elem_of_cons; [by rewrite str_eqb_refl|].
  destruct (str_eqb k k') eqn:E; [|by apply IH]. apply str_eqb_eq in E as ->.
  destruct Hnin. by apply (list_elem_of_fmap_2 fst) in Hin.
Qed.

Lemma assoc_perm {A} (k : string) (l l' : list (string * A)) :
  NoDup (map fst l) -> l ≡ₚ l' -> assoc k l = assoc k l'.
Proof.
  intros Hnd Hp. assert (NoDup (map fst l')) as Hnd' by (by rewrite <- Hp).
  destruct (assoc k l) as [v|] eqn:E.
  - symmetry. apply assoc_NoDup; [done|]. rewrite <- Hp. clear -E.
    induction l as [|[k' v'] l IH]; simpl in *; [done|].
    destruct (str_eqb k k') eqn:Ek; [|right; by apply IH]. apply str_eqb_eq in Ek as ->.
    injection E as ->. by left.
  - destruct (assoc k l') as [v|] eqn:E'; [|done]. rewrite <- E. apply assoc_NoDup; [done|].
    rewrite Hp. clear -E'. induction l' as [|[k' v'] l' IH]; simpl in *; [done|].
    destruct (str_eqb k k') eqn:Ek; [|right; by apply IH]. apply str_eqb_eq in Ek as ->.
    injection E' as ->. by left.
Qed.

(** Two values that are signed alike. *)
Definition signed_alike (v w : jsval) : Prop := deterministicStringify v = deterministicStringify w.
#[global] Instance signed_alike_equiv : Equivalence signed_alike.
Proof. split; unfold signed_alike; [by intros x|by intros x y|intros x y z; congruence]. Qed.

Lemma fields_alike (fs gs : list (string * jsval)) :
  Forall2 (fun p q => fst p = fst q /\ signed_alike (snd p) (snd q)) fs gs ->
  map (fun p : string * jsval => match p with (k, x) => (k, deterministicStringify x) end) fs =
  map (fun p : string * jsval => match p with (k, x) => (k, deterministicStringify x) end) gs.
Proof.
  induction 1 as [|[k x] [k' y] fs gs [Hk Hx] _ IH]; simpl in *; [done|]. subst. by rewrite IH, Hx.
Qed.

(** The text that is signed does not depend on the order of an object's
    fields, nor on the identity of the object, at any depth: fields permuted
    and replaced by values signed alike give the same text. *)
Theorem deterministic_stringify_order l l' fs gs hs :
  NoDup (map fst fs) -> fs ≡ₚ gs ->
  Forall2 (fun p q => fst p = fst q /\ signed_alike (snd p) (snd q)) gs hs ->
  signed_alike (JObject l fs) (JObject l' hs).
Proof.
  intros Hnd Hp Ha. unfold signed_alike. simpl. rewrite <- (fields_alike gs hs Ha).
  set (f := fun p : string * jsval => match p with (k, x) => (k, deterministicStringify x) end).
  assert (map f fs ≡ₚ map f gs) as Hpf by (by apply (fmap_Permutation f)).
  assert (map fst (map f fs) = map fst fs) as Hk.
  { rewrite map_map. apply map_ext. by intros []. }
  assert (sort_keys (map fst (map f fs)) = sort_keys (map fst (map f gs))) as ->.
  { apply sort_keys_perm. by apply (fmap_Permutation fst). }
  do 4 f_equal. apply map_ext. intros k. do 4 f_equal. apply assoc_perm; [by rewrite Hk|done].
Qed.

Lemma sign_timestamp secret payload ms :
  payload <> JString "SHA256" -> payload <> JString "SHA512" ->
  sign secret payload (inr (Some ms)) =
    Ok (hex_encode (hmac "sha256" secret (Json.toISOString ms +:+ "." +:+ default "undefined" (serialize payload)))).
Proof.
  intros H1 H2. unfold sign. destruct payload; try done.
  repeat match goal with |- context [match ?x with _ => _ end] => is_var x; destruct x; try done end.
Qed.
End signer.

Lemma deterministic_stringify_order_witness :
  signed_alike (JObject 1 [("b", JNum 1); ("a", JArray 2 [JNull])]) (JObject 5 [("a", JArray 7 [JNull]); ("b", JNum 1)]).
Proof.
  apply (deterministic_stringify_order 1 5 _ [("a", JArray 2 [JNull]); ("b", JNum 1)]).
  - apply (bool_decide_unpack _). vm_compute. exact I.
  - apply Permutation_swap.
  - repeat constructor.
Defined.

End Signer.

Module Verifier.
Import KeySpace Signer.

Section verifier.
Context `{Hmac} {R : Type} `{KeySpace R}.
(** The configuration, whether a Redis client was given, and [Date.parse]. *)
Context (hmacSecret : string) (withRedis : bool) (date_parse : string -> option Z).
Abbreviation M := (meth R exn).

(** security/hmac/verifier.ts:41-41 HmacVerifier *)
Definition defaultMaxAgeSeconds : Z := 300.

(** A part [t=...] of a header, without the two characters. *)
Definition part (p : string) (parts : list string) : option string :=
  (fun s => String.substring 2 (String.length s) s) <$>
    (list_find (fun s => starts_with p s = true) (map trim parts) ≫= fun x => Some x.2).

(** security/hmac/verifier.ts:57-66 extractTimestamp *)
Definition extractTimestamp (signature : string) : option Z :=
  if str_truthy signature then part "t=" (split_on "," signature) ≫= date_parse else None.
(** security/hmac/verifier.ts:71-75 isReplayAttack *)
Definition isReplayAttack (now timestamp : Z) : bool := defaultMaxAgeSeconds * 1000 <? Z.abs (now - timestamp).

(** security/hmac/verifier.ts:146-149 verifyPayloadWithAlgorithm *)
Definition secrets : list string := filter (fun s => str_truthy s = true) (map trim (split_on "," hmacSecret)).
(** security/hmac/verifier.ts:141-169 verifyPayloadWithAlgorithm *)
Definition verifyPayloadWithAlgorithm (algorithm : string) (payload : jsval) (signature : string) : res exn bool :=
  match secrets, serialize payload with
  | [], _ => Ok false
  | _, None => Throw update_undefined
  | ss, Some serialized =>
      Ok (existsb (fun secret => same_signature signature (hex_encode (hmac (to_lower algorithm) secret serialized))) ss)
  end.

Definition auth_error (m : string) : exn := AuthenticationError m "".
Definition replayKey (signatureHash : string) : string := "seen_sig:" +:+ signatureHash.

(** security/hmac/verifier.ts:200-207 verifyLegacy
    Whether the signature was seen; if not, it is still to be noted. *)
Definition check_replay (now : Z) (signatureHash : string) : M (option string) := fun r =>
  if withRedis
  then match entry now (replayKey signatureHash) r with
       | Some _ => (r, Throw (auth_error "Signature has already been processed (replay)"))
       | None => (r, Ok (Some signatureHash))
       end
  else (r, Ok None).
(** security/hmac/verifier.ts:208-208 verifyLegacy *)
Definition note (now : Z) (signatureHash : string) : M unit :=
  modify (k_set now (replayKey signatureHash) "processed" (Some (defaultMaxAgeSeconds * 1000))).

(** security/hmac/verifier.ts:174-207 verifyLegacy
    Up to the wait for SETEX. *)
Definition verifyLegacy (now : Z) (payload : jsval) (signature : string) : M (option string) :=
  match extractTimestamp signature with
  | None => fail (auth_error "Signature timestamp is missing or malformed")
  | Some timestamp =>
      if isReplayAttack now timestamp then fail (auth_error "Signature timestamp has expired")
      else match part "s=" (split_on "," signature) with
           | None => fail (auth_error "Signature hash parameter is missing")
           | Some signatureHash =>
               isValid ← lift_res (Signer.verify hmacSecret payload signatureHash (Some timestamp));
               if isValid : bool then check_replay now signatureHash
               else fail (auth_error "Signature does not match payload")
           end
  end.

Definition accept (r : res exn bool) : M (option string) :=
  isValid ← lift_res r;
  if isValid : bool then mret None else fail (ValidationError "hmacSignature").

(** security/hmac/verifier.ts:83-129 verify
    A signature is a string, or absent.  Up to the wait for SETEX, if there is
    one: the signature that is still to be noted. *)
Definition open (now : Z) (payloadOrAlgo signatureOrPayload : jsval) (signatureString : string) : M (option string) :=
  match payloadOrAlgo with
  | JString "SHA256" | JString "SHA512" =>
      accept (verifyPayloadWithAlgorithm (js_String payloadOrAlgo) signatureOrPayload signatureString)
  | payload =>
      let signature := match signatureOrPayload with JString s => s | _ => EmptyString end in
      if str_truthy signature && negb (includes "t=" signature)
      then accept (verifyPayloadWithAlgorithm "SHA256" payload signature)
      else verifyLegacy now payload signature
  end.
(** security/hmac/verifier.ts:83-129 verify
    With nothing in between. *)
Definition verify (now : Z) (payloadOrAlgo signatureOrPayload : jsval) (signatureString : string) : M bool :=
  o ← open now payloadOrAlgo signatureOrPayload signatureString;
  match o with Some h => note now h;; mret true | None => mret true end.

(** *** Calls that overlap *)

(** A call with a header waits for EXISTS and for SETEX: [Probe] is the first
    command of the call [i], with the [Date.now()] before it, [Note] the second. *)
Inductive step : Type := Probe (t : Z) (i : nat) | Note (t : Z) (i : nat).
(** The server, and the calls that have yet to note their signature. *)
Record sys : Type := Sys { server : R; opened : gmap nat string }.
(** The answers to calls with one payload and header, in their order. *)
Fixpoint answers (payload : jsval) (header : string) (l : list step) (s : sys) : list (nat * res exn bool) :=
  match l with
  | [] => []
  | Probe t i :: l =>
      match open t payload (JString header) "" (server s) with
      | (r, Ok (Some h)) => answers payload header l (Sys r (<[i := h]> (opened s)))
      | (r, Ok None) => (i, Ok true) :: answers payload header l (Sys r (opened s))
      | (r, Throw e) => (i, Throw e) :: answers payload header l (Sys r (opened s))
      end
  | Note t i :: l =>
      match opened s !! i with
      | Some h => (i, Ok true) :: answers payload header l (Sys (note t h (server s)).1 (delete i (opened s)))
      | None => answers payload header l s
      end
  end.

(** security/hmac/verifier.ts:134-136 verifyString *)
Definition verifyString (now : Z) (data signature : string) : M bool := verify now data signature "".

(** security/middleware/hmac-validation.middleware.ts:26-30 hmacValidationMiddleware
    The header handed to the verifier when the time stamp has its own. *)
Definition combined (rawSig : string) (rawTimestamp : option string) : string :=
  let signatureHeader := trim rawSig in
  match rawTimestamp with
  | Some ts => if str_truthy ts && negb (includes "t=" signatureHeader)
               then "t=" +:+ trim ts +:+ ",s=" +:+ signatureHeader else signatureHeader
  | None => signatureHeader
  end.
End verifier.

(** security/hmac/header-builder.ts:46-66 buildHmacHeader
    The header and the time stamp, built at an instant. *)
Definition buildHmacHeader `{Hmac} (now : Z) (payload : jsval) (secret : string) : res exn (string * string) :=
  if (js_length secret <? 32)%nat
  then Throw (ValidationError "HMAC signature secret must be at least 32 characters")
  else hash ← sign secret payload (inr (Some now));
       mret ("t=" +:+ Json.toISOString now +:+ ",s=" +:+ hash, Json.toISOString now).
(** security/hmac/header-builder.ts:20-28 buildAuthHeaders
    [X-Signature] and [X-Timestamp]. *)
Definition buildAuthHeaders `{Hmac} (now : Z) (payload : jsval) (secret : string) : res exn (string * string) :=
  signature ← sign secret "SHA256" (inl payload);
  mret ("sha256=" +:+ signature, Json.toISOString now).
(** security/hmac/header-builder.ts:72-77 buildBearerHeader *)
Definition buildBearerHeader (token : string) : res exn string :=
  if str_truthy token then Ok ("Bearer " +:+ trim token)
  else Throw (ValidationError "Bearer token must be a non-empty string").
(** security/hmac/header-builder.ts:83-90 buildApiKeyHeader *)
Definition buildApiKeyHeader (apiKey : string) : res exn string :=
  if (32 <=? js_length apiKey)%nat then Ok ("ApiKey " +:+ trim apiKey)
  else Throw (ValidationError "API Key must be a valid key of at least 32 characters").

(** *** The characters of a time stamp *)

(** Characters a header part may have without being cut or trimmed. *)
Definition plain (c : ascii) : bool := negb (is_space c) && negb (Ascii.eqb "," c).

Lemma plain_digit c : is_digit c = true -> plain c = true.
Proof. by destruct c as [[] [] [] [] [] [] [] []]. Qed.
Lemma plain_hex c : is_hex c = true -> plain c = true.
Proof. by destruct c as [[] [] [] [] [] [] [] []]. Qed.

Lemma plain_pretty (z : Z) : str_forall plain (pretty z) = true.
Proof.
  destruct z as [|p|p]; [done| |].
  - change (pretty (Z.pos p)) with (pretty (N.pos p)).
    eapply str_forall_impl; [exact plain_digit|apply pretty_N_digits].
  - change (pretty (Z.neg p)) with ("-" +:+ pretty (N.pos p)). rewrite str_forall_app. simpl.
    eapply str_forall_impl; [exact plain_digit|apply pretty_N_digits].
Qed.

Lemma plain_pad_zeros k s : str_forall plain s = true -> str_forall plain (pad_zeros k s) = true.
Proof.
  intros Hs. induction k as [|k IH]; cbn [pad_zeros]; case_match; try done.
Qed.

Lemma plain_pad k z : str_forall plain (Json.pad k z) = true.
Proof. apply plain_pad_zeros, plain_pretty. Qed.

Lemma plain_iso ms : str_forall plain (Json.toISOString ms) = true.
Proof.
  unfold Json.toISOString. destruct (Json.civil _) as [[y m] d].
  repeat (rewrite str_forall_app || rewrite plain_pad || rewrite andb_true_l). done.
Qed.

Lemma plain_trim s : str_forall plain s = true -> trim s = s.
Proof.
  intros Hs. apply trim_no_space. revert Hs. apply str_forall_impl. unfold plain.
  by intros c [Hc _]%andb_true_iff.
Qed.

Lemma plain_avoids s : str_forall plain s = true -> avoids "," s = true.
Proof. apply str_forall_impl. unfold plain. by intros c [_ Hc]%andb_true_iff. Qed.

(** The two parts of a header. *)
Lemma split_header iso hash :
  str_forall plain iso = true -> str_forall plain hash = true ->
  map trim (split_on "," ("t=" +:+ iso +:+ ",s=" +:+ hash)) = ["t=" +:+ iso; "s=" +:+ hash].
Proof.
  intros Hi Hh.
  assert (str_forall plain ("t=" +:+ iso) = true) as Hti by (rewrite str_forall_app, Hi; done).
  assert (str_forall plain ("s=" +:+ hash) = true) as Hsh by (rewrite str_forall_app, Hh; done).
  replace ("t=" +:+ iso +:+ ",s=" +:+ hash) with (("t=" +:+ iso) +:+ String "," ("s=" +:+ hash))
    by (rewrite <- str_app_assoc; done).
  rewrite split_on_app by (by apply plain_avoids). rewrite split_on_avoids by (by apply plain_avoids).
  simpl map. by rewrite !plain_trim.
Qed.

Lemma substring_all s n : (String.length s <= n)%nat -> String.substring 0 n s = s.
Proof.
  revert n. induction s as [|c s IH]; intros [|n] Hn; simpl in *; try done; [lia|]. by rewrite IH by lia.
Qed.

Lemma header_parts iso hash :
  str_forall plain iso = true -> str_forall plain hash = true ->
  let h := "t=" +:+ iso +:+ ",s=" +:+ hash in
  part "t=" (split_on "," h) = Some iso /\ part "s=" (split_on "," h) = Some hash.
Proof.
  intros Hi Hh. cbn zeta. unfold part. rewrite (split_header _ _ Hi Hh). simpl.
  rewrite !substring_all by lia. done.
Qed.

(** *** What is accepted *)

Section accepted.
Context `{Hmac} {R : Type} `{KeySpace R}.
Context (hmacSecret : string) (withRedis : bool) (date_parse : string -> option Z).
Abbreviation verify := (verify (R := R) hmacSecret withRedis date_parse).
Abbreviation open := (open (R := R) hmacSecret withRedis date_parse).
Abbreviation answers := (answers (R := R) hmacSecret withRedis date_parse).

Lemma existsb_signatures algo sig ser ss :
  existsb (fun s => same_signature sig (hex_encode (hmac algo s ser))) ss =
  existsb (fun s => str_eqb (hex_decode sig) (hmac algo s ser)) ss.
Proof. induction ss as [|s ss IH]; simpl; [done|]. unfold same_signature at 1. by rewrite hex_decode_encode, IH. Qed.

Lemma verify_algo now (sha512 : bool) payload sig r ser :
  serialize payload = Some ser ->
  verify now (JString (if sha512 then "SHA512" else "SHA256")) payload sig r =
    (r, if existsb (fun s => str_eqb (hex_decode sig) (hmac (if sha512 then "sha512" else "sha256") s ser))
             (secrets hmacSecret)
        then Ok true else Throw (ValidationError "hmacSignature")).
Proof.
  intros Hs.
  assert (verify now (JString (if sha512 then "SHA512" else "SHA256")) payload sig r =
          (accept (verifyPayloadWithAlgorithm hmacSecret (if sha512 then "SHA512" else "SHA256") payload sig);; mret true) r) as ->.
  { unfold Verifier.verify, Verifier.open. unfold accept. munfold.
    destruct sha512; by destruct (verifyPayloadWithAlgorithm _ _ _ _) as [[]|]. }
  unfold accept, verifyPayloadWithAlgorithm. rewrite Hs.
  assert (to_lower (if sha512 then "SHA512" else "SHA256") = if sha512 then "sha512" else "sha256") as ->
    by (by destruct sha512).
  rewrite <- existsb_signatures. destruct (secrets hmacSecret) as [|s0 ss]; [done|]. munfold. by destruct (same_signature _ _ || _).
Qed.

(** Verification of a signature with an algorithm accepts exactly the
    signatures that decode to the digest of the payload under one of the
    comma-separated secrets; so the signer's own signature, made with the whole
    configured text, is accepted iff that digest is one of them, which a single
    secret without comma and white space guarantees. *)
Theorem signatures_accepted now (sha512 : bool) payload r ser :
  let algo := if sha512 then "SHA512" else "SHA256" in
  let lower := if sha512 then "sha512" else "sha256" in
  serialize payload = Some ser ->
  (forall sig, verify now (JString algo) payload sig r = (r, Ok true) <->
     exists secret, secret ∈ secrets hmacSecret /\ hex_decode sig = hmac lower secret ser) /\
  (forall sig, (verify now (JString algo) payload sig r).2 = Ok true \/
     verify now (JString algo) payload sig r = (r, Throw (ValidationError "hmacSignature"))) /\
  exists own, sign hmacSecret (JString algo) (inl payload) = Ok own /\
    (verify now (JString algo) payload own r = (r, Ok true) <->
       exists secret, secret ∈ secrets hmacSecret /\ hmac lower hmacSecret ser = hmac lower secret ser) /\
    (hmacSecret <> "" -> str_forall plain hmacSecret = true ->
       verify now (JString algo) payload own r = (r, Ok true)).
Proof.
  intros algo lower Hs.
  assert (forall sig, verify now (JString algo) payload sig r = (r, Ok true) <->
     exists secret, secret ∈ secrets hmacSecret /\ hex_decode sig = hmac lower secret ser) as Hiff.
  { intros sig. unfold algo. rewrite (verify_algo now sha512 payload sig r ser Hs). fold lower.
    destruct (existsb _ _) eqn:E.
    - split; [intros _|done]. apply existsb_exists in E as (x & Hx & Ex). exists x.
      split; [by apply list_elem_of_In|by apply str_eqb_eq].
    - split; [done|]. intros (x & Hx & Ex). apply not_true_iff_false in E. destruct E. apply existsb_exists.
      exists x. split; [by apply list_elem_of_In|by apply str_eqb_eq]. }
  split; [exact Hiff|]. split.
  { intros sig. unfold algo. rewrite (verify_algo now sha512 payload sig r ser Hs). destruct (existsb _ _); auto. }
  exists (hex_encode (hmac lower hmacSecret ser)). split; [|split].
  - unfold algo, lower. destruct sha512; simpl; rewrite Hs; done.
  - rewrite Hiff, hex_decode_encode. done.
  - intros Hne Hpl. apply Hiff. exists hmacSecret. rewrite hex_decode_encode. split; [|done].
    unfold secrets. rewrite split_on_avoids by (by apply plain_avoids). simpl. rewrite plain_trim by done.
    rewrite filter_cons_True; [by left|]. unfold str_truthy. by rewrite (proj2 (str_eqb_neq _ _) Hne).
Qed.

(** A payload that is not mistaken for the name of an algorithm. *)
Definition not_algo (payload : jsval) : Prop := payload <> JString "SHA256" /\ payload <> JString "SHA512".

Lemma open_not_algo now payload signature s3 r :
  not_algo payload ->
  open now payload (JString signature) s3 r =
    (if str_truthy signature && negb (includes "t=" signature)
     then accept (verifyPayloadWithAlgorithm hmacSecret "SHA256" payload signature)
     else verifyLegacy hmacSecret withRedis date_parse now payload signature) r.
Proof.
  intros [H1 H2]. unfold Verifier.open. destruct payload; try done.
  repeat match goal with |- context [match ?x with _ => _ end] => is_var x; destruct x; try done end.
Qed.

(** The verification of a header with its two parts. *)
Lemma open_header now payload iso ts hash r :
  not_algo payload -> str_forall plain iso = true -> str_forall plain hash = true -> date_parse iso = Some ts ->
  open now payload (JString ("t=" +:+ iso +:+ ",s=" +:+ hash)) "" r =
    if isReplayAttack now ts then (r, Throw (auth_error "Signature timestamp has expired"))
    else if same_signature hash
              (hex_encode (hmac "sha256" hmacSecret (Json.toISOString ts +:+ "." +:+ default "undefined" (serialize payload))))
         then check_replay withRedis now hash r
         else (r, Throw (auth_error "Signature does not match payload")).
Proof.
  intros Hn Hi Hh Hd. rewrite open_not_algo by done.
  destruct (header_parts iso hash Hi Hh) as [Ht Hs].
  assert (str_truthy ("t=" +:+ iso +:+ ",s=" +:+ hash) = true) as H1 by done.
  assert (includes "t=" ("t=" +:+ iso +:+ ",s=" +:+ hash) = true) as H2 by done.
  rewrite H2, andb_false_r. unfold verifyLegacy, extractTimestamp. rewrite H1, Ht, Hs. simpl. rewrite Hd.
  destruct (isReplayAttack now ts); [done|]. unfold Signer.verify. destruct Hn as [Hn1 Hn2].
  rewrite sign_timestamp by done. unfold mbind at 1, meth_bind, lift_res. cbn.
  by destruct (same_signature _ _).
Qed.

Lemma plain_hex_encode x : str_forall plain (hex_encode x) = true.
Proof. eapply str_forall_impl; [exact plain_hex|apply hex_encode_hex]. Qed.

(** A header whose EXISTS is answered, and what comes of it. *)
Section one_header.
Context (payload : jsval) (header hash : string) (t0 : Z).
Context (Hopen : forall n r, open n payload (JString header) "" r =
    if isReplayAttack n t0 then (r, Throw (auth_error "Signature timestamp has expired"))
    else check_replay withRedis n hash r).
Context (Hr : withRedis = true).

Lemma open_expired n r :
  300000 < Z.abs (n - t0) -> open n payload (JString header) "" r = (r, Throw (auth_error "Signature timestamp has expired")).
Proof. intros Hn. rewrite Hopen. unfold isReplayAttack, defaultMaxAgeSeconds. by rewrite (proj2 (Z.ltb_lt _ _)) by lia. Qed.
Lemma open_in_time n r :
  Z.abs (n - t0) <= 300000 ->
  open n payload (JString header) "" r =
    (r, if entry n (replayKey hash) r then Throw (auth_error "Signature has already been processed (replay)") else Ok (Some hash)).
Proof.
  intros Hn. rewrite Hopen. unfold isReplayAttack, defaultMaxAgeSeconds. rewrite (proj2 (Z.ltb_ge _ _)) by lia.
  unfold check_replay. rewrite Hr. by destruct (entry n (replayKey hash) r).
Qed.
Lemma noted_entry t later r :
  t <= later -> entry later (replayKey hash) (note t hash r).1 =
    if later <? t + 300000 then Some ("processed", Some (t + 300000)) else None.
Proof. intros Ht. unfold note. munfold. by rewrite entry_set_eq by done. Qed.

(** Presented again while it is noted. *)
Lemma refused_again t ts k r m :
  Forall (fun x => t <= x < t + 300000 /\ Z.abs (x - t0) <= 300000) ts ->
  answers payload header (imap (fun j x => Probe x (k + j)) ts) (Sys (note t hash r).1 m) =
    imap (fun j _ => ((k + j)%nat, Throw (auth_error "Signature has already been processed (replay)"))) ts.
Proof.
  intros Hts. revert k. induction Hts as [|x ts [Hx Hw] _ IH]; intros k; [done|]. cbn [imap answers server opened].
  rewrite open_in_time, noted_entry by lia. rewrite (proj2 (Z.ltb_lt _ _)) by lia. f_equal.
  rewrite (imap_ext _ (fun j x => Probe x (S k + j))) by (intros; simpl; f_equal; lia). rewrite IH. apply imap_ext. intros. simpl. do 2 f_equal. lia.
Qed.

(** Checked by each of some calls before the first of them notes it. *)
Definition noting (l : list nat) (m : gmap nat string) : gmap nat string := fold_left (fun m i => <[i := hash]> m) l m.
Lemma noting_own l m i : i ∈ l \/ m !! i = Some hash -> noting l m !! i = Some hash.
Proof.
  revert m. induction l as [|j l IH]; intros m [Hi|Hi]; [by apply elem_of_nil in Hi|done| |]; apply IH; destruct (decide (j = i)) as [->|].
  - right. by rewrite lookup_insert_eq.
  - apply elem_of_cons in Hi as [->|Hi]; [done|by left].
  - right. by rewrite lookup_insert_eq.
  - right. by rewrite lookup_insert_ne.
Qed.
Lemma all_checked t l l2 r m :
  Z.abs (t - t0) <= 300000 -> entry t (replayKey hash) r = None ->
  answers payload header (map (Probe t) l ++ l2) (Sys r m) = answers payload header l2 (Sys r (noting l m)).
Proof.
  intros Ht He. revert m. induction l as [|i l IH]; intros m; [done|]. cbn [map app answers server opened].
  rewrite open_in_time, He by done. apply IH.
Qed.
Lemma all_noted t l r m :
  NoDup l -> (forall i, i ∈ l -> m !! i = Some hash) ->
  answers payload header (map (Note t) l) (Sys r m) = map (fun i => (i, Ok true)) l.
Proof.
  revert r m. induction l as [|i l IH]; intros r m Hn Hm; [done|]. apply NoDup_cons in Hn as [Hi Hn]. cbn [map answers opened server].
  rewrite (Hm i) by (by left). f_equal. apply IH; [done|]. intros j Hj. rewrite lookup_delete_ne by (intros ->; done). apply Hm. by right.
Qed.
End one_header.

(** C26: with a Redis client, calls with a header of the signer (a secret of at
    least 32 characters), which check the signature with one command and note it
    with another.  Outside of five minutes of its time stamp, either way, the
    header is refused as expired.  Within them a call that is not overlapped is
    accepted if the signature is not noted, and for the five minutes after its
    note every further call is refused as a replay; after those, while the time
    stamp, ahead of the verifier's clock, still allows it, the header is accepted
    again.  And any number of calls that check before the first of them notes are
    all accepted. *)
Theorem signed_header_accepted t0 payload r :
  not_algo payload -> withRedis = true -> (32 <= js_length hmacSecret)%nat ->
  date_parse (Json.toISOString t0) = Some t0 ->
  exists header hash,
    buildHmacHeader t0 payload hmacSecret = Ok (header, Json.toISOString t0) /\
    let run l := answers payload header l (Sys r ∅) in
    (forall now i, 300000 < Z.abs (now - t0) ->
       run [Probe now i] = [(i, Throw (auth_error "Signature timestamp has expired"))]) /\
    forall now, Z.abs (now - t0) <= 300000 -> entry now (replayKey hash) r = None ->
      (forall noted ts, now <= noted ->
         Forall (fun x => noted <= x < noted + 300000 /\ Z.abs (x - t0) <= 300000) ts ->
         run ([Probe now 0; Note noted 0] ++ imap (fun j x => Probe x (S j)) ts) =
           (0%nat, Ok true) :: imap (fun j _ => (S j, Throw (auth_error "Signature has already been processed (replay)"))) ts) /\
      (forall noted x x', now <= noted -> noted + 300000 <= x -> Z.abs (x - t0) <= 300000 ->
         run [Probe now 0; Note noted 0; Probe x 1; Note x' 1] = [(0%nat, Ok true); (1%nat, Ok true)]) /\
      (forall n noted, run (map (Probe now) (seq 0 n) ++ map (Note noted) (seq 0 n)) = map (fun i => (i, Ok true)) (seq 0 n)).
Proof.
  intros Hn Hr Hl Hd. unfold buildHmacHeader. rewrite (proj2 (Nat.ltb_ge _ _) Hl). pose proof Hn as [Hn1 Hn2].
  rewrite sign_timestamp by done.
  set (hash := hex_encode _). set (header := "t=" +:+ Json.toISOString t0 +:+ ",s=" +:+ hash). exists header, hash. split; [done|].
  assert (forall n r', open n payload (JString header) "" r' =
    if isReplayAttack n t0 then (r', Throw (auth_error "Signature timestamp has expired"))
    else check_replay withRedis n hash r') as Hv.
  { intros n r'. unfold header. rewrite (open_header n payload _ t0 hash r') by
      (done || apply plain_iso || apply plain_hex_encode).
    unfold hash, same_signature. by rewrite str_eqb_refl. }
  clearbody header. cbv zeta. split.
  - intros now i Ho. cbn [Verifier.answers server]. by rewrite (open_expired payload header hash t0 Hv).
  - intros now Hin He. pose proof (open_in_time payload header hash t0 Hv Hr) as Hit. split_and!.
    + intros noted ts Hno Hts. cbn [app Verifier.answers server opened]. rewrite Hit, He by done.
      cbn [Verifier.answers server opened]. rewrite lookup_insert_eq. f_equal.
      by apply (refused_again payload header hash t0 Hv Hr noted ts 1).
    + intros noted x x' Hno Hx Hw. cbn [Verifier.answers server opened]. rewrite Hit, He by done.
      cbn [Verifier.answers server opened]. rewrite lookup_insert_eq. rewrite Hit by done.
      rewrite noted_entry by lia. rewrite (proj2 (Z.ltb_ge _ _)) by lia. cbn [opened]. by rewrite lookup_insert_eq.
    + intros n noted. rewrite (all_checked payload header hash t0 Hv Hr) by done.
      apply (all_noted payload header hash); [apply NoDup_seq|]. intros i Hi. apply noting_own. by left.
Qed.

Lemma hex_decode_prefix s : hex_decode ("sha256=" +:+ s) = "".
Proof. reflexivity. Qed.

(** The headers of [buildAuthHeaders] never pass the request filter: the
    filter joins the two headers, the prefix [sha256=] is not hexadecimal, and
    the digest compared does not cover the payload alone. *)
Theorem auth_headers_refused t0 now payload r :
  not_algo payload -> is_Some (serialize payload) -> date_parse (Json.toISOString t0) = Some t0 ->
  exists signature stamp,
    buildAuthHeaders t0 payload hmacSecret = Ok (signature, stamp) /\
    verify now payload (JString (combined signature (Some stamp))) "" r =
      (r, Throw (auth_error (if isReplayAttack now t0 then "Signature timestamp has expired"
                             else "Signature does not match payload"))).
Proof.
  intros Hn [ser Hs] Hd. unfold buildAuthHeaders, sign. rewrite Hs.
  set (d := hex_encode (hmac "sha256" hmacSecret ser)).
  exists ("sha256=" +:+ d), (Json.toISOString t0). split; [done|].
  assert (str_forall plain ("sha256=" +:+ d) = true) as Hp by (rewrite str_forall_app; unfold d; by rewrite plain_hex_encode).
  assert (includes "t=" ("sha256=" +:+ d) = false) as Hi.
  { apply avoids_includes. unfold avoids. rewrite str_forall_app. unfold d. simpl.
    eapply str_forall_impl; [|apply hex_encode_hex]. by intros [[] [] [] [] [] [] [] []]. }
  unfold combined. rewrite (plain_trim _ Hp), Hi. rewrite (plain_trim _ (plain_iso t0)).
  assert (str_truthy (Json.toISOString t0) = true) as ->.
  { unfold str_truthy. apply negb_true_iff, str_eqb_neq. unfold Json.toISOString.
    destruct (Json.civil _) as [[y m] dd]. by destruct (Json.pad 4 y). }
  simpl andb. cbv iota. unfold Verifier.verify. munfold. rewrite (open_header now payload _ t0) by (done || apply plain_iso).
  destruct (isReplayAttack now t0); [done|]. unfold same_signature. rewrite hex_decode_prefix, hex_decode_encode.
  rewrite (proj2 (str_eqb_neq _ _)); [done|]. intros E. by apply (hmac_nonempty "sha256" hmacSecret _ (eq_sym E)).
Qed.
End accepted.

(** A hash for the examples. *)
#[global, program] Instance demo_hmac : Hmac := { hmac algo secret data := String "#" (algo +:+ secret +:+ data) }.
Next Obligation. done. Qed.

Definition demo_secret : string := "0123456789abcdef0123456789abcdef".
Definition demo_payload : jsval := JObject 0 [("id", JString "r1")].
Definition demo_parse (s : string) : option Z :=
  if str_eqb s "2024-02-29T12:34:56.789Z" then Some 1709210096789 else None.
Abbreviation DB := (gmap string entry_t).

Lemma signatures_accepted_witness :
  exists own, sign demo_secret "SHA256" (inl demo_payload) = Ok own /\
    verify demo_secret false demo_parse 0 "SHA256" demo_payload own (∅ : DB) = (∅, Ok true).
Proof.
  destruct (signatures_accepted (R := DB) demo_secret false demo_parse 0 false demo_payload ∅ _ eq_refl)
    as (_ & _ & own & Ho & _ & Hv).
  exists own. split; [exact Ho|]. apply Hv; [done|reflexivity].
Defined.

Lemma signed_header_accepted_witness :
  exists header,
    answers demo_secret true demo_parse demo_payload header [Probe 1709210096000 0; Note 1709210096005 0; Probe 1709210096006 1]
      (Sys (∅ : DB) ∅) = [(0%nat, Ok true); (1%nat, Throw (auth_error "Signature has already been processed (replay)"))] /\
    answers demo_secret true demo_parse demo_payload header
      [Probe 1709210096000 0; Probe 1709210096000 1; Note 1709210096005 0; Note 1709210096005 1]
      (Sys (∅ : DB) ∅) = [(0%nat, Ok true); (1%nat, Ok true)].
Proof.
  destruct (signed_header_accepted (R := DB) demo_secret true demo_parse 1709210096789 demo_payload ∅)
    as (header & hash & _ & _ & H).
  - split; discriminate.
  - reflexivity.
  - vm_compute. lia.
  - vm_compute. reflexivity.
  - exists header. destruct (H 1709210096000) as (H1 & _ & H2); [lia|reflexivity|]. split.
    + apply (H1 1709210096005 [1709210096006]); [lia|]. repeat constructor; lia.
    + exact (H2 2%nat 1709210096005).
Defined.

Lemma auth_headers_refused_witness :
  exists signature stamp,
    (verify demo_secret false demo_parse 1709210096789 demo_payload (JString (combined signature (Some stamp))) "" (∅ : DB)).2
    = Throw (auth_error "Signature does not match payload").
Proof.
  destruct (auth_headers_refused (R := DB) demo_secret false demo_parse 1709210096789 1709210096789 demo_payload ∅)
    as (signature & stamp & _ & H).
  - split; discriminate.
  - vm_compute. eauto.
  - vm_compute. reflexivity.
  - exists signature, stamp. rewrite H. reflexivity.
Defined.

End Verifier.

(** ** Web hook headers *)

Module WebhookHmac.

(** security/hmac/hmac-signer.ts:4-14 HMACSignature *)
Record signature : Type := Signature { sig : string; algorithm : string; timestamp : Z }.
(** security/hmac/hmac-signer.ts:9-14 constructor *)
Definition new_signature (sig algorithm : string) (timestamp : Z) : signature :=
  Signature sig (to_lower algorithm) timestamp.
(** security/hmac/hmac-signer.ts:28-30 toString *)
Definition toString (s : signature) : string := algorithm s +:+ "=" +:+ sig s.

(** [s.replace(/^sha256=/, '')]. *)
Definition strip_sha256 (s : string) : string :=
  if starts_with "sha256=" s then String.substring 7 (String.length s) s else s.

Section webhook.
Context `{Hmac} (algo : string).

(** security/hmac/hmac-verifier.ts:23-32 sign *)
Definition sign (data secret : string) (timestamp : Z) : res exn signature :=
  if str_truthy secret
  then Ok (new_signature (hex_encode (hmac algo secret (pretty timestamp +:+ "." +:+ data))) algo timestamp)
  else Throw (InvalidSignatureError "Signing secret is missing or empty.").
(** security/hmac/hmac-verifier.ts:34-36 computeHmac *)
Definition computeHmac (data secret : string) : string := hex_encode (hmac algo secret data).
(** security/hmac/hmac-verifier.ts:45-61 verify
    Of a signature object. *)
Definition verify (data : string) (s : signature) (secret : string) : res exn bool :=
  if str_truthy secret
  then expected ← sign data secret (timestamp s);
       mret (str_eqb (sig expected) (strip_sha256 (sig s)))
  else Ok false.
(** security/hmac/hmac-verifier.ts:66-73 generateHeader *)
Definition generateHeader (now : Z) (data secret : string) : res exn (string * string) :=
  s ← sign data secret now; mret (toString s, pretty now).
(** security/hmac/hmac-verifier.ts:78-110 verifyHeader *)
Definition verifyHeader (now : Z) (data headerSignature headerTimestamp secret : string) (maxAgeMs : Z) : res exn bool :=
  if negb (str_truthy headerSignature && str_truthy headerTimestamp && str_truthy secret)
  then Throw (InvalidSignatureError "missing_signature")
  else match parse_int headerTimestamp with
       | None => Throw (InvalidSignatureError "malformed_header")
       | Some ts =>
           if maxAgeMs <? Z.abs (now - ts) then Throw (InvalidSignatureError "expired_request")
           else isValid ← verify data (new_signature (strip_sha256 headerSignature) algo ts) secret;
                if isValid : bool then mret true else Throw (InvalidSignatureError "invalid_signature")
       end.

(** The headers of a request, and what its body may be. *)
Record request : Type := Request {
  x_signature : option string; x_hub_signature_256 : option string; x_timestamp : option string;
  rawBody : option string; body : jsval;
}.
Definition header (o : option string) : string := default "" o.
(** security/hmac/webhook-validator.ts:17-19 validateSignature *)
Definition validateSignature (now : Z) (body signature timestamp secret : string) : res exn bool :=
  verifyHeader now body signature timestamp secret 300000.
(** security/hmac/webhook-validator.ts:27-53 validateWebhookRequest
    Up to the parsing of the body; header names are lower case. *)
Definition validateWebhookRequest (now : Z) (r : request) (secret : string) : res exn bool :=
  let signature := str_or (header (x_signature r)) (header (x_hub_signature_256 r)) in
  let timestamp := header (x_timestamp r) in
  if negb (str_truthy signature) then Throw (InvalidSignatureError "missing_signature")
  else if negb (str_truthy timestamp) then Throw (InvalidSignatureError "missing_signature")
  else
    let raw := match rawBody r with
               | Some b => b
               | None => match body r with
                         | JString b => b
                         | b => default "undefined" (Json.stringify (js_or b (JObject 0 [])))
                         end
               end in
    validateSignature now raw signature timestamp secret.

(** *** The prefix *)

Lemma starts_with_eq p a x :
  avoids "=" p = true -> avoids "=" a = true ->
  starts_with (p +:+ "=") (a +:+ String "=" x) = str_eqb p a.
Proof.
  unfold avoids. revert a. induction p as [|c p IH]; intros [|d a]; cbn [str_forall].
  - intros _ _. by destruct x.
  - intros _ [Hd _]%andb_true_iff. apply negb_true_iff, Ascii.eqb_neq in Hd.
    change (bool_decide ("="%char = d) && starts_with "" (a +:+ String "=" x) = str_eqb "" (String d a)).
    by rewrite bool_decide_false by done.
  - intros [Hc _]%andb_true_iff _. apply negb_true_iff, Ascii.eqb_neq in Hc.
    change (bool_decide (c = "="%char) && starts_with (p +:+ "=") x = str_eqb (String c p) "").
    by rewrite bool_decide_false by congruence.
  - intros [Hc Hp]%andb_true_iff [Hd Ha]%andb_true_iff.
    change (starts_with (String c p +:+ "=") (String d a +:+ String "=" x))
      with (bool_decide (c = d) && starts_with (p +:+ "=") (a +:+ String "=" x)).
    rewrite IH by done. unfold str_eqb. destruct (decide (c = d)) as [->|Hne].
    + rewrite bool_decide_true by done. simpl. apply bool_decide_ext. split; [by intros ->|by intros [=]].
    + rewrite (bool_decide_false (c = d)) by done. simpl. symmetry. apply bool_decide_false. congruence.
Qed.

Lemma avoids_lower a : avoids "=" a = true -> avoids "=" (to_lower a) = true.
Proof.
  unfold avoids, to_lower. induction a as [|c a IH]; [done|]. cbn [str_forall str_map].
  intros [Hc Ha]%andb_true_iff. rewrite IH by done. by destruct c as [[] [] [] [] [] [] [] []].
Qed.

Lemma strip_hex x : strip_sha256 (hex_encode x) = hex_encode x.
Proof.
  unfold strip_sha256. assert (starts_with "sha256=" (hex_encode x) = false) as ->; [|done].
  pose proof (hex_encode_hex x) as Hx. destruct (hex_encode x) as [|c y]; [done|]. cbn [str_forall] in Hx.
  apply andb_true_iff in Hx as [Hc _]. by destruct c as [[] [] [] [] [] [] [] []].
Qed.

Lemma strip_header a x :
  avoids "=" a = true ->
  strip_sha256 (a +:+ String "=" (hex_encode x)) =
    if str_eqb "sha256" a then hex_encode x else a +:+ String "=" (hex_encode x).
Proof.
  intros Ha. unfold strip_sha256. change "sha256=" with ("sha256" +:+ "="). rewrite starts_with_eq by done.
  destruct (str_eqb "sha256" a) eqn:E; [|done]. apply str_eqb_eq in E as <-. simpl.
  apply Verifier.substring_all. lia.
Qed.

Lemma longer_ne a (x : string) : str_eqb x (a +:+ String "=" x) = false.
Proof.
  apply str_eqb_neq. intros E. apply (f_equal String.length) in E. revert E.
  assert (forall b, String.length (a +:+ b) = (String.length a + String.length b)%nat) as ->.
  { intros b. induction a as [|c a IH]; [done|]. simpl. by rewrite <- IH. }
  simpl. lia.
Qed.

(** The header generated for an outbound request is verified exactly: the
    time stamp survives printing and parsing; the header is refused as expired
    iff it is older than the maximum age (or further ahead), and otherwise
    accepted iff the algorithm is SHA-256: with any other algorithm the prefix
    is not removed and the verifier refuses its own signatures. *)
Theorem webhook_header_verified now t0 data secret maxAge :
  0 <= t0 -> secret <> "" -> avoids "=" algo = true ->
  exists header stamp,
    generateHeader t0 data secret = Ok (header, stamp) /\
    verifyHeader now data header stamp secret maxAge =
      if maxAge <? Z.abs (now - t0) then Throw (InvalidSignatureError "expired_request")
      else if str_eqb "sha256" (to_lower algo) then Ok true
      else Throw (InvalidSignatureError "invalid_signature").
Proof.
  intros Ht Hs Ha. assert (str_truthy secret = true) as Hst.
  { unfold str_truthy. by rewrite (proj2 (str_eqb_neq _ _) Hs). }
  unfold generateHeader, sign. rewrite Hst. cbn.
  set (hex := hex_encode _). set (low := to_lower algo).
  exists (low +:+ String "=" hex), (pretty t0). split; [done|].
  unfold verifyHeader. rewrite Hst, parse_int_pretty by done.
  assert (str_truthy (low +:+ String "=" hex) = true) as -> by (by destruct low).
  assert (str_truthy (pretty t0) = true) as ->.
  { pose proof (parse_int_pretty t0 Ht) as Hp. by destruct (pretty t0). }
  simpl negb. cbv iota. destruct (maxAge <? _); [done|].
  unfold hex at 1. rewrite strip_header by (by apply avoids_lower). fold low hex.
  unfold verify, sign. rewrite Hst. cbn. fold hex.
  destruct (str_eqb "sha256" low) eqn:E.
  - unfold hex at 2. by rewrite strip_hex, str_eqb_refl.
  - unfold hex at 2. rewrite strip_header by (by apply avoids_lower). fold hex. rewrite E, longer_ne. done.
Qed.
End webhook.

Lemma webhook_header_verified_witness :
  exists header stamp,
    generateHeader "sha256" 1700000000000 "body" "secret" = Ok (header, stamp) /\
    verifyHeader "sha256" 1700000100000 "body" header stamp "secret" 300000 = Ok true.
Proof. apply (webhook_header_verified "sha256" 1700000100000 1700000000000 "body" "secret" 300000); [lia|done|reflexivity]. Defined.

End WebhookHmac.
