(* ===== verification/Access.v ===== *)
(** * Access control

    [security/authorization/], [security/auth/] and the filters of
    [api/middleware/]: roles and permissions, the context of a request, the
    strategies for web tokens and API keys, the guard, the token manager with
    its revocation list.  The token library and SHA-256 are parameters; claims
    are the ordered fields of an object. *)
From Stdlib Require Import Ascii QArith Qround Qpower Qabs Lqa.
From stdpp Require Import base tactics numbers list strings gmap pretty.
From S2P Require Import Prelude JsNum JsValue Errors Connectors Text Redis.

(** ** Roles and permissions *)

Module AccessControl.

(** security/authorization/access-control.ts:26-48 ROLE_PERMISSIONS_MAP *)
Definition ROLE_PERMISSIONS_MAP : list (string * list string) :=
  [("ADMIN", ["READ"; "WRITE"; "DELETE"; "ADMIN"; "VIEW_LOGS"; "MANAGE_USERS"]);
   ("DEVELOPER", ["READ"; "WRITE"; "DELETE"; "VIEW_LOGS"]);
   ("SERVICE", ["READ"; "WRITE"]);
   ("VIEWER", ["READ"])].
(** security/authorization/access-control.ts:53-56 getRolePermissions
    A role that is not known may read. *)
Definition getRolePermissions (role : string) : list string :=
  default ["READ"] (assoc (to_upper role) ROLE_PERMISSIONS_MAP).
Definition str_mem (s : string) (l : list string) : bool := existsb (str_eqb s) l.
(** security/authorization/access-control.ts:66-70 hasPermission *)
Definition hasPermission (role permission : string) : bool :=
  str_mem (to_upper permission) (getRolePermissions role).

(** security/authorization/role-validator.ts:13-17 validateRole *)
Definition validateRole (role : string) : bool :=
  str_truthy role && str_mem (to_upper role) ["ADMIN"; "DEVELOPER"; "SERVICE"; "VIEWER"].
(** security/authorization/role-validator.ts:22-26 validatePermission *)
Definition validatePermission (permission : string) : bool :=
  str_truthy permission &&
  str_mem (to_upper permission) ["READ"; "WRITE"; "DELETE"; "ADMIN"; "VIEW_LOGS"; "MANAGE_USERS"].
(** security/authorization/role-validator.ts:31-38 validateRolePermissionMapping *)
Definition validateRolePermissionMapping (role permission : string) : bool :=
  if negb (validateRole role) || negb (validatePermission permission) then false
  else str_mem (to_upper permission) (getRolePermissions role).

Lemma str_mem_In s l : str_mem s l = true <-> s ∈ l.
Proof.
  unfold str_mem. rewrite existsb_exists. split.
  - by intros (x & Hx & ->%str_eqb_eq); apply list_elem_of_In.
  - intros Hs. exists s. split; [by apply list_elem_of_In|apply str_eqb_refl].
Qed.
End AccessControl.

(** ** The context of a request *)

Module AuthContext.
Import AccessControl.

(** security/auth/auth-context.ts:37-49 AuthContextImpl
    [principal] is its id; times are left out. *)
Record t : Type := Ctx {
  userId : option string; apiKeyId : option string; principal : string;
  roles : list string; permissions : list string; scopes : list string; kind : string; authenticated : bool;
}.

Definition or_else (o : option string) (d : string) : string := str_or (default "" o) d.
(** security/auth/auth-context.ts:51-64 constructor
    Given the fields [authenticate] and [unauthenticated] give. *)
Definition make (userId apiKeyId principal : option string) (roles permissions scopes : list string)
    (kind : string) (authenticated : bool) : t :=
  Ctx userId apiKeyId (or_else principal (or_else userId (or_else apiKeyId "anonymous")))
    (map to_upper roles) (map to_upper permissions) scopes kind authenticated.
(** security/auth/auth-context.ts:69-73 hasRole *)
Definition hasRole (role : string) (c : t) : bool :=
  if negb (authenticated c) || negb (str_truthy role) then false
  else str_mem (to_upper role) (roles c) || str_mem "ADMIN" (roles c).
(** security/auth/auth-context.ts:78-82 hasPermission *)
Definition hasPermission (permission : string) (c : t) : bool :=
  if negb (authenticated c) || negb (str_truthy permission) then false
  else str_mem (to_upper permission) (permissions c) || str_mem "*" (permissions c) || str_mem "ADMIN" (roles c).
(** security/auth/auth-context.ts:87-90 hasAnyRole *)
Definition hasAnyRole (rs : list string) (c : t) : bool :=
  if negb (authenticated c) || bool_decide (rs = []) then false else existsb (fun r => hasRole r c) rs.
(** security/auth/auth-context.ts:95-98 hasAllRoles *)
Definition hasAllRoles (rs : list string) (c : t) : bool :=
  if negb (authenticated c) then false else forallb (fun r => hasRole r c) rs.
(** security/auth/auth-context.ts:110-115 getPrincipalId *)
Definition getPrincipalId (c : t) : string :=
  str_or (principal c) (or_else (userId c) (or_else (apiKeyId c) "anonymous")).
(** security/auth/auth-context.ts:120-129 unauthenticated *)
Definition unauthenticated : t := make None None None [] [] [] "anonymous" false.

(** security/authorization/permission-checker.ts:18-35 hasPermission *)
Definition check (permission : string) (c : t) : bool :=
  if negb (authenticated c) then false
  else let permStr := to_upper permission in
       hasPermission permStr c ||
       existsb (fun r => existsb (fun p => str_eqb (to_upper p) permStr) (getRolePermissions r)) (roles c).
(** security/authorization/permission-checker.ts:40-45 requirePermission *)
Definition requirePermission (permission : string) (c : t) : res exn unit :=
  if check permission c then Ok tt
  else Throw (AuthorizationError ("Access denied: Missing required permission " +:+ quoted permission) permission).
(** security/authorization/permission-checker.ts:50-56 canViewDelivery *)
Definition canViewDelivery (c : t) : bool :=
  authenticated c && (hasRole "ADMIN" c || hasRole "DEVELOPER" c || hasPermission "READ" c).
(** security/authorization/permission-checker.ts:61-67 canModifyDestination *)
Definition canModifyDestination (c : t) : bool :=
  authenticated c && (hasRole "ADMIN" c || hasRole "DEVELOPER" c || hasPermission "WRITE" c).
(** security/authorization/permission-checker.ts:72-75 canViewAuditLog *)
Definition canViewAuditLog (c : t) : bool :=
  authenticated c && (hasRole "ADMIN" c || hasPermission "VIEW_LOGS" c || hasPermission "ADMIN" c).

Definition denied (what r : string) : exn :=
  AuthorizationError ("Access denied: Required " +:+ what +:+ " " +:+ quoted r +:+ " was not found.") r.
Definition unauthorized (what r : string) : exn :=
  AuthorizationError ("Authentication required before performing " +:+ what +:+ " authorization check.") r.
(** api/middleware/authorization.middleware.ts:8-23 requireRole
    [None]: the request carries no context. *)
Definition requireRole (role : string) (auth : option t) : res exn unit :=
  match auth with
  | None => Throw (unauthorized "role" role)
  | Some c =>
      if negb (authenticated c) && str_eqb (getPrincipalId c) "anonymous" then Throw (unauthorized "role" role)
      else if hasRole role c then Ok tt else Throw (denied "role" role)
  end.
(** api/middleware/authorization.middleware.ts:28-43 requirePermission *)
Definition requirePermission_filter (permission : string) (auth : option t) : res exn unit :=
  match auth with
  | None => Throw (unauthorized "permission" permission)
  | Some c =>
      if negb (authenticated c) && str_eqb (getPrincipalId c) "anonymous"
      then Throw (unauthorized "permission" permission)
      else if hasPermission permission c then Ok tt else Throw (denied "permission" permission)
  end.

(** *** What a context may do *)

(** The permissions of a context: its own, and those of its roles. *)
Definition granted (c : t) : list string := permissions c ++ (roles c ≫= getRolePermissions).
(** All the privileges of one context are among another's. *)
Definition covers (c d : t) : Prop :=
  authenticated d = true -> authenticated c = true /\ roles d ⊆ roles c /\ permissions d ⊆ permissions c.
#[global] Instance covers_preorder : PreOrder covers.
Proof.
  split; [by intros c|]. intros a b c Hab Hbc H. destruct (Hbc H) as (H1 & H2 & H3).
  destruct (Hab H1) as (H4 & H5 & H6). split; [done|]. split; by etransitivity.
Qed.

Lemma role_permissions_upper r p : p ∈ getRolePermissions r -> to_upper p = p.
Proof.
  unfold getRolePermissions, ROLE_PERMISSIONS_MAP. simpl. repeat case_match; simpl;
    rewrite ?elem_of_cons, ?elem_of_nil; intros Hp; repeat destruct Hp as [->|Hp]; done.
Qed.

Lemma check_granted permission c :
  permission <> "" ->
  check permission c = true <->
    authenticated c = true /\
    (to_upper permission ∈ granted c \/ "*" ∈ permissions c \/ "ADMIN" ∈ roles c).
Proof.
  intros Hne. assert (str_truthy (to_upper permission) = true) as Ht by (by destruct permission).
  unfold check, hasPermission. rewrite Ht, to_upper_idem. destruct (authenticated c); simpl; [|by split; [|intros []]].
  rewrite !orb_true_iff, !str_mem_In. unfold granted. rewrite elem_of_app, list_elem_of_bind.
  assert (existsb (fun r => existsb (fun p => str_eqb (to_upper p) (to_upper permission)) (getRolePermissions r)) (roles c) = true
          <-> exists r, to_upper permission ∈ getRolePermissions r /\ r ∈ roles c) as ->.
  { rewrite existsb_exists. split.
    - intros (r & Hr & (p & Hp & E)%existsb_exists). exists r. apply list_elem_of_In in Hr, Hp.
      apply str_eqb_eq in E. rewrite (role_permissions_upper r p Hp) in E. by subst.
    - intros (r & Hp & Hr). exists r. split; [by apply list_elem_of_In|]. apply existsb_exists.
      exists (to_upper permission). split; [by apply list_elem_of_In|]. rewrite to_upper_idem. apply str_eqb_refl. }
  naive_solver.
Qed.

Lemma known_roles_cover r p : p ∈ getRolePermissions r -> p ∈ getRolePermissions "ADMIN".
Proof.
  unfold getRolePermissions, ROLE_PERMISSIONS_MAP. simpl. repeat case_match; simpl;
    rewrite ?elem_of_cons, ?elem_of_nil; naive_solver.
Qed.

(** A permission is granted to a request iff it is authenticated and the
    permission is its own, that of one of its roles, or it has the wild card or
    the role ADMIN; hence privileges only add (a context that covers another may
    do all the other may), any role at all, known or not, may READ, and a role
    confers nothing the administrator's does not. *)
Theorem permission_decision permission c :
  permission <> "" ->
  (check permission c = true <->
     authenticated c = true /\
     (to_upper permission ∈ granted c \/ "*" ∈ permissions c \/ "ADMIN" ∈ roles c)) /\
  (forall d, covers d c -> check permission c = true -> check permission d = true) /\
  (authenticated c = true -> roles c <> [] -> check "read" c = true) /\
  (forall r p, p ∈ getRolePermissions r -> p ∈ getRolePermissions "ADMIN").
Proof.
  intros Hne. split; [by apply check_granted|]. split; [|split].
  - intros d Hcov. rewrite !check_granted by done. intros [Ha Hc]. destruct (Hcov Ha) as (Hd & Hr & Hp).
    split; [done|]. unfold granted in *. rewrite elem_of_app, list_elem_of_bind in *.
    destruct Hc as [[Hc|(r & H1 & H2)]|[Hc|Hc]]; [by left; left; apply Hp| |by right; left; apply Hp|by right; right; apply Hr].
    left. right. exists r. split; [done|]. by apply Hr.
  - intros Ha Hr. apply check_granted; [done|]. split; [done|]. left. unfold granted.
    apply elem_of_app. right. apply list_elem_of_bind. destruct (roles c) as [|r rs]; [done|]. exists r.
    split; [|by left]. unfold getRolePermissions, ROLE_PERMISSIONS_MAP. simpl.
    repeat case_match; simpl; by left.
  - apply known_roles_cover.
Qed.
End AuthContext.

Lemma permission_decision_witness :
  AuthContext.check "write" (AuthContext.make None (Some "k") None ["service"] [] [] "api-key" true) = true.
Proof.
  apply (proj1 (AuthContext.permission_decision "write"
    (AuthContext.make None (Some "k") None ["service"] [] [] "api-key" true) ltac:(done))).
  split; [reflexivity|]. left.
  apply elem_of_app. right. apply list_elem_of_bind. exists "SERVICE". split; [right; left|left].
Defined.

(** ** Web tokens *)

(** The claims of a token: the fields of an object, in order. *)
Definition claims : Type := list (string * jsval).

(** [jsonwebtoken] and SHA-256.  [jwt_verify] is given the instant in seconds,
    the secret, the issuer and the audience; it fails with the name and the
    message of an error. *)
Class Tokens := {
  jwt_sign : claims -> string -> string;
  jwt_decode : string -> option claims;
  jwt_verify : Z -> string -> string -> string -> string -> claims + (string * string);
  sha256_hex : string -> string;
}.

(** [throw new AuthenticationError(message, reason)]. *)
Definition auth_fail {A} (message reason : string) : res exn A := Throw (AuthenticationError message reason).

Module JwtStrategy.

(** security/auth/jwt-strategy.ts:19-32 JWTStrategy *)
Record t : Type := Mk { secret : string; issuer : string; audience : string; defaultExpiryMs : Z }.

Definition field (k : string) (p : claims) : jsval := default JUndefined (assoc k p).
(** An integer claim, when there is one. *)
Definition int_field (k : string) (p : claims) : option Z := Connectors.js_int (field k p).
Definition spread (base over : claims) : claims := fold_left (fun m kv => jmap_set (fst kv) (snd kv) m) over base.

Section strategy.
Context `{Tokens} (s : t).

(** security/auth/jwt-strategy.ts:38-55 generateToken
    [None] is a missing expiry; a zero is falsy. *)
Definition generateToken (nowMs : Z) (payload : claims) (expiryMs : option Z) : string :=
  let ttlMs := match expiryMs with Some e => if e =? 0 then defaultExpiryMs s else e | None => defaultExpiryMs s end in
  let nowSec := nowMs / 1000 in
  let expSec := nowSec + ttlMs / 1000 in
  jwt_sign
    (spread [("iss", JString (issuer s)); ("aud", JString (audience s)); ("iat", JNum (ofZ nowSec));
             ("exp", JNum (ofZ expSec));
             ("sub", js_or (js_or (field "sub" payload) (field "userId" payload)) "anonymous");
             ("roles", js_or (field "roles" payload) (JArray 0 []));
             ("permissions", js_or (field "permissions" payload) (JArray 0 []))] payload)
    (secret s).
(** security/auth/jwt-strategy.ts:64-88 verifyToken *)
Definition verifyToken (nowMs : Z) (token : string) : res exn claims :=
  if negb (str_truthy token) then auth_fail "JWT token is missing or empty" "missing_token"
  else match jwt_verify (nowMs / 1000) token (secret s) (issuer s) (audience s) with
       | inl decoded => Ok decoded
       | inr (name, message) =>
           if str_eqb name "TokenExpiredError" then auth_fail "JWT token has expired" "expired_token"
           else auth_fail ("Invalid JWT token: " +:+ message) "invalid_token"
       end.
Definition bad_header : string := "Authorization header format must be " +:+ quoted "Bearer {token}".
(** security/auth/jwt-strategy.ts:97-108 extractToken *)
Definition extractToken (authHeader : string) : res exn string :=
  if negb (str_truthy authHeader) then auth_fail "Authorization header is missing" "missing_token"
  else match split_on " " (trim authHeader) with
       | [b; token] =>
           if str_eqb (to_lower b) "bearer" then Ok token
           else auth_fail bad_header "invalid_token"
       | _ => auth_fail bad_header "invalid_token"
       end.
(** security/auth/jwt-strategy.ts:113-123 decodeToken *)
Definition decodeToken (token : string) : res exn claims :=
  match jwt_decode token with
  | Some decoded => Ok decoded
  | None => auth_fail "Failed to decode JWT: Malformed JWT payload" "invalid_token"
  end.
(** security/auth/jwt-strategy.ts:132-140 isTokenExpired *)
Definition isTokenExpired (nowMs : Z) (token : string) : bool :=
  match decodeToken token with
  | Ok p => match int_field "exp" p with Some e => e * 1000 <=? nowMs | None => false end
  | Throw _ => true
  end.
(** security/auth/jwt-strategy.ts:145-150 refreshToken *)
Definition refreshToken (nowMs : Z) (token : string) : res exn string :=
  payload ← decodeToken token;
  mret (generateToken nowMs (jmap_delete "exp" (jmap_delete "iat" payload)) None).
End strategy.
End JwtStrategy.

(** ** API keys *)

Module ApiKeys.

(** security/auth/api-key-strategy.ts:25-36 ApiKeyContext
    What a validation returns. *)
Record key_context : Type := KeyContext {
  id : string; name : string; roles : list string; permissions : list string; scopes : list string; enabled : bool;
}.
(** A record of the key repository. *)
Record key_record : Type := KeyRecord {
  r_id : string; r_name : string; r_roles : list string; r_permissions : list string; r_scopes : option (list string);
  r_enabled : bool; r_revoked : bool; r_secret : option string;
}.

Definition all_hex (n : nat) (s : string) : bool := (String.length s =? n)%nat && str_forall is_hex s.
(** security/auth/api-key-strategy.ts:106-108 validateApiKey
    The pattern [qf_], sixteen hexadecimal digits, [_] and sixteen more. *)
Definition well_formed (key : string) : bool :=
  match split_on "_" (trim key) with
  | [q; a; b] => str_eqb q "qf" && all_hex 16 a && all_hex 16 b
  | _ => false
  end.

Section keys.
Context `{Tokens} (hmac_hex : string -> string -> string).
(** The repository's look-up, if one is given; the configured keys; the
    environment's secret; the secrets manager, which has neither [get] nor
    [set], so that no cache is asked. *)
Context (findByKeyHash : option (string -> option key_record)) (apiKeys : list string) (HMAC_SECRET : option string).
Context (getSecret : string -> string).

(** security/auth/api-key-strategy.ts:75-78 hashApiKey *)
Definition hashApiKey (key : string) : string := sha256_hex key.
(** security/auth/api-key-strategy.ts:83-94 verifyApiKeySignature *)
Definition verifyApiKeySignature (key secret data : string) (provided : string) : bool :=
  str_truthy provided && str_eqb (hmac_hex secret (key +:+ ":" +:+ data)) provided.

(** security/auth/api-key-strategy.ts:154-163 validateApiKey
    The record made up for a key that is not found. *)
Definition default_record (key hashedKey : string) : key_record :=
  KeyRecord ("key-" +:+ String.substring 0 8 hashedKey) "Default Service Key" ["SERVICE"] ["READ"; "WRITE"]
    (Some ["ingest"; "read"; "write"]) true false
    (Some (str_or (default "" HMAC_SECRET) "default-api-key-secret-32-chars-long!")).

(** security/auth/api-key-strategy.ts:99-195 validateApiKey
    Without a cache. *)
Definition validateApiKey (revokedKeys : list string) (key signature timestamp : string) : res exn key_context :=
  if negb (str_truthy key) then auth_fail "API key is missing or empty" "invalid_key"
  else if negb (well_formed key)
       then auth_fail ("Invalid API Key format. Expected " +:+ quoted "qf_XXXXXXXX_YYYYYYYY" +:+ ".") "invalid_key"
  else
    let hashedKey := hashApiKey key in
    if AccessControl.str_mem hashedKey revokedKeys then auth_fail "API Key has been revoked" "invalid_key"
    else
      keyRecord ←
        (match findByKeyHash ≫= fun f => f hashedKey with
         | Some r => Ok r
         | None => if AccessControl.str_mem key apiKeys || starts_with "qf_" key
                   then Ok (default_record key hashedKey)
                   else auth_fail "API Key not found or revoked" "invalid_key"
         end);
      if negb (r_enabled keyRecord) || r_revoked keyRecord
      then auth_fail "API Key has been disabled or revoked" "invalid_key"
      else if str_truthy signature && str_truthy timestamp
                && negb (verifyApiKeySignature key (str_or (default "" (r_secret keyRecord)) (str_or (getSecret ("api-key:" +:+ r_id keyRecord)) "default-secret")) timestamp signature)
      then auth_fail "API Key signature validation failed" "invalid_credentials"
      else Ok (KeyContext (str_or (r_id keyRecord) key) (str_or (r_name keyRecord) "API Key User")
                 (r_roles keyRecord) (r_permissions keyRecord)
                 (match r_scopes keyRecord with Some l => l | None => r_permissions keyRecord end) true).
(** security/auth/api-key-strategy.ts:200-202 validate *)
Definition validate (revokedKeys : list string) (key : string) : res exn key_context :=
  validateApiKey revokedKeys key "" "".
(** security/auth/api-key-strategy.ts:207-216 revokeApiKey
    In this process. *)
Definition revokeApiKey (keyHash : string) (revokedKeys : list string) : list string := keyHash :: revokedKeys.
End keys.
End ApiKeys.

(** ** The token manager *)

Module TokenManager.
Import JwtStrategy.

(** The commands the code looks for on its Redis client. *)
Record token_ops (R : Type) : Type := TokenOps {
  setex : option (string -> Z -> string -> meth R exn unit);
  set_ : option (string -> string -> Z -> meth R exn unit);
  exists_ : option (string -> meth R exn bool);
  get_ : option (string -> meth R exn (option string));
}.
Arguments TokenOps {R}. Arguments setex {R}. Arguments set_ {R}. Arguments exists_ {R}. Arguments get_ {R}.

Section manager.
Context `{Tokens} {R : Type} (s : JwtStrategy.t).
(** The commands, at an instant. *)
Context (redisOps : option (Z -> token_ops R)).
(** security/auth/token-manager.ts:19-20 TokenManager
    The hashes revoked in this process, and the server. *)
Definition state : Type := list string * R.
Abbreviation M := (meth state exn).

Definition on_server {A} (m : meth R exn A) : M A := fun '(mem, r) => let '(r', o) := m r in ((mem, r'), o).

(** security/auth/token-manager.ts:29-34 getBlacklistKey
    No key builder of the program has the method [buildKey]. *)
Definition getBlacklistKey (tokenHash : string) : string := "queueforge:token-blacklist:" +:+ tokenHash.
(** security/auth/token-manager.ts:67-76 generateAccessToken *)
Definition generateAccessToken (now : Z) (userId : jsval) (roles : jsval) (expiryMs : option Z) : string :=
  generateToken s now [("sub", userId); ("roles", roles); ("type", JString "access")] expiryMs.
(** security/auth/token-manager.ts:81-89 generateRefreshToken *)
Definition generateRefreshToken (now : Z) (userId : jsval) : string :=
  generateToken s now [("sub", userId); ("type", JString "refresh")] (Some 604800000).

(** security/auth/token-manager.ts:8-14 IssuedTokens *)
Record issued : Type := Issued {
  accessToken : string; refreshToken_ : string; expiresIn : Z; expiresAt : option Z;
}.
(** security/auth/token-manager.ts:94-115 issueToken *)
Definition issue (now : Z) (userId roles : jsval) : issued :=
  let accessToken := generateAccessToken now userId roles None in
  let refreshToken := generateRefreshToken now userId in
  let expiresAt := match decodeToken accessToken with
                   | Ok p => match int_field "exp" p with Some e => e * 1000 | None => now + 3600 * 1000 end
                   | Throw _ => now + 3600 * 1000
                   end in
  Issued accessToken refreshToken 3600 (Some expiresAt).

(** security/auth/token-manager.ts:180-201 isTokenRevoked
    What is asked of the server. *)
Definition ask_revoked (ops : token_ops R) (token : string) : meth R exn bool :=
  found ← (match exists_ ops with Some f => f ("revoked_token:" +:+ token) | None => mret false end);
  if found : bool then mret true
  else match get_ ops with
       | Some f =>
           val ← f (getBlacklistKey (sha256_hex token));
           mret (match val with Some v => str_eqb v "revoked" || str_eqb v "1" | None => false end)
       | None => mret false
       end.
(** security/auth/token-manager.ts:180-201 isTokenRevoked *)
Definition isTokenRevoked (now : Z) (token : string) : M bool := fun '(mem, r) =>
  if AccessControl.str_mem (sha256_hex token) mem then ((mem, r), Ok true)
  else match redisOps with
       | Some ops => match ask_revoked (ops now) token r with
                     | (r', Ok b) => ((mem, r'), Ok b)
                     | (r', Throw _) => ((mem, r'), Ok false)
                     end
       | None => ((mem, r), Ok false)
       end.

(** security/auth/token-manager.ts:120-131 verifyAccessToken *)
Definition verifyAccessToken (now : Z) (token : string) : M claims :=
  revoked ← isTokenRevoked now token;
  if revoked : bool then lift_res (auth_fail "JWT token has been revoked" "revoked_token")
  else payload ← lift_res (verifyToken s now token);
       if js_truthy (field "type" payload) && negb (js_strict_eq (field "type" payload) "access")
       then lift_res (auth_fail "Token type must be an access token" "invalid_token")
       else mret payload.
(** security/auth/token-manager.ts:136-147 verifyRefreshToken *)
Definition verifyRefreshToken (now : Z) (token : string) : M claims :=
  revoked ← isTokenRevoked now token;
  if revoked : bool then lift_res (auth_fail "Refresh token has been revoked" "revoked_token")
  else payload ← lift_res (verifyToken s now token);
       if negb (js_strict_eq (field "type" payload) "refresh") && negb (js_strict_eq (field "type" payload) JUndefined)
       then lift_res (auth_fail "Token type must be a refresh token" "invalid_token")
       else mret payload.

(** security/auth/token-manager.ts:155-156 revokeToken *)
Definition revocation_ttl (nowMs : Z) (decoded : claims) : Z :=
  let nowSec := nowMs / 1000 in
  Z.max 1 (default (nowSec + 3600) (int_field "exp" decoded) - nowSec).
(** security/auth/token-manager.ts:152-175 revokeToken *)
Definition revokeToken (now : Z) (token : string) : M unit :=
  decoded ← lift_res (decodeToken token);
  let ttlSec := revocation_ttl now decoded in
  let tokenHash := sha256_hex token in
  modify (fun '(mem, r) => (tokenHash :: mem, r));;
  match redisOps with
  | Some ops =>
      match setex (ops now), set_ (ops now) with
      | Some f, _ => on_server (f ("revoked_token:" +:+ token) ttlSec "revoked")
      | None, Some f => on_server (f (getBlacklistKey tokenHash) "revoked" ttlSec)
      | None, None => mret tt
      end
  | None => mret tt
  end.

(** security/auth/token-manager.ts:206-243 refreshToken *)
Definition refresh (now : Z) (token : string) : M issued :=
  payload ← verifyRefreshToken now token;
  let nowSec := now / 1000 in
  let remainingSec := default (nowSec + 3600) (int_field "exp" payload) - nowSec in
  if 300 <? remainingSec then mret (Issued token token remainingSec None)
  else revokeToken now token;;
       let newAccessToken :=
         generateAccessToken now (field "sub" payload)
           (js_or (js_or (field "roles" payload) (field "scope" payload)) (JArray 0 [JString "USER"])) None in
       let newRefreshToken := generateRefreshToken now (field "sub" payload) in
       let expiresAt := match decodeToken newAccessToken with
                        | Ok p => match int_field "exp" p with Some e => e * 1000 | None => now + 3600 * 1000 end
                        | Throw _ => now + 3600 * 1000
                        end in
       mret (Issued newAccessToken newRefreshToken 3600 (Some expiresAt)).
End manager.

(** The wrapper the program gives: no [setex]; its [set] takes milliseconds. *)
Definition wrapper_token_ops {R} `{KeySpace.KeySpace R} (others : RedisOperations.client R) (now : Z) : token_ops R :=
  let c := RedisOperations.server_client now others in
  {| setex := None;
     set_ := Some (fun k v ttl => RedisOperations.set c k v (RedisOperations.Millis ttl));
     exists_ := Some (RedisOperations.exists_ c);
     get_ := Some (RedisOperations.get c) |}.

(** *** Revocation *)

Section revocation.
Import KeySpace.
Context `{Tokens} {R : Type} `{KeySpace R} (others : RedisOperations.client R) (s : JwtStrategy.t).
Definition ops : option (Z -> token_ops R) := Some (wrapper_token_ops others).
Definition blacklist_key (token : string) : string := getBlacklistKey (sha256_hex token).

Lemma revoked_here now token mem r :
  sha256_hex token ∈ mem -> isTokenRevoked ops now token (mem, r) = ((mem, r), Ok true).
Proof. intros Hm. unfold isTokenRevoked. by rewrite (proj2 (AccessControl.str_mem_In _ _) Hm). Qed.

Lemma revoked_elsewhere now token mem r :
  sha256_hex token ∉ mem -> entry now ("revoked_token:" +:+ token) r = None ->
  isTokenRevoked ops now token (mem, r) =
    ((mem, r), Ok (match fst <$> entry now (blacklist_key token) r with
                   | Some v => str_eqb v "revoked" || str_eqb v "1" | None => false end)).
Proof.
  intros Hm He. unfold isTokenRevoked.
  destruct (AccessControl.str_mem _ mem) eqn:E; [by apply AccessControl.str_mem_In in E|].
  unfold ask_revoked, ops, wrapper_token_ops, RedisOperations.exists_, RedisOperations.get, RedisOperations.execute.
  munfold. rewrite He. rewrite decide_False by (by intros [? ?]). simpl. unfold RedisOperations.get_at. munfold.
  by destruct (entry now (blacklist_key token) r) as [[v x]|] eqn:Eb; unfold blacklist_key in Eb; rewrite Eb.
Qed.

Lemma revoke_state now token mem r decoded :
  jwt_decode token = Some decoded ->
  revokeToken ops now token (mem, r) =
    ((sha256_hex token :: mem,
      k_set now (blacklist_key token) "revoked" (Some (revocation_ttl now decoded)) r), Ok tt).
Proof.
  intros Hd. unfold revokeToken, decodeToken. rewrite Hd. unfold ops, wrapper_token_ops, on_server. munfold.
  unfold RedisOperations.set, RedisOperations.execute. munfold.
  rewrite (proj2 (Z.ltb_lt 0 (revocation_ttl now decoded))) by (unfold revocation_ttl; lia). done.
Qed.

(** A revoked token is refused for good by the process that revoked it, and
    by the others for as many milliseconds as the token had seconds left: the
    wrapper's [set] counts in milliseconds.  After those, and before the token
    expires, the other processes accept it again. *)
Theorem revocation_reach t0 token mem mem' r decoded payload :
  jwt_decode token = Some decoded ->
  sha256_hex token ∉ mem' -> (forall t, entry t ("revoked_token:" +:+ token) r = None) ->
  "revoked_token:" +:+ token <> blacklist_key token ->
  let '((here, r'), _) := revokeToken ops t0 token (mem, r) in
  forall t, t0 <= t ->
    (verifyAccessToken s ops t token (here, r')).2 = auth_fail "JWT token has been revoked" "revoked_token" /\
    (t < t0 + revocation_ttl t0 decoded ->
       (verifyAccessToken s ops t token (mem', r')).2 = auth_fail "JWT token has been revoked" "revoked_token") /\
    (t0 + revocation_ttl t0 decoded <= t ->
       verifyToken s t token = Ok payload -> field "type" payload = JString "access" ->
       (verifyAccessToken s ops t token (mem', r')).2 = Ok payload).
Proof.
  intros Hd Hm Hno Hk. rewrite (revoke_state t0 token mem r decoded Hd). intros t Ht.
  set (r' := k_set _ _ _ _ _).
  assert (entry t ("revoked_token:" +:+ token) r' = None) as He.
  { unfold r'. rewrite entry_set_ne by congruence. apply Hno. }
  assert (entry t (blacklist_key token) r' =
          alive t (Some ("revoked", Some (t0 + revocation_ttl t0 decoded)))) as Hb.
  { unfold r'. by rewrite entry_set_eq. }
  unfold verifyAccessToken, mbind, meth_bind. repeat split.
  - rewrite revoked_here by left. done.
  - intros Hlt. rewrite revoked_elsewhere, Hb by done. simpl. by rewrite (proj2 (Z.ltb_lt _ _)) by lia.
  - intros Hle Hv Hty. rewrite revoked_elsewhere, Hb by done. simpl. rewrite (proj2 (Z.ltb_ge _ _)) by lia.
    simpl. unfold lift_res. rewrite Hv, Hty. done.
Qed.

(** While a refresh token has more than five minutes left, refreshing it
    hands it back as the access token, and the result is refused as one. *)
Theorem refresh_not_an_access_token now token st payload :
  (isTokenRevoked ops now token st).2 = Ok false -> verifyToken s now token = Ok payload ->
  field "type" payload = JString "refresh" ->
  300 < default (now / 1000 + 3600) (int_field "exp" payload) - now / 1000 ->
  exists r, (refresh s ops now token st).2 = Ok r /\ accessToken r = token /\
    (verifyAccessToken s ops now (accessToken r) st).2 = auth_fail "Token type must be an access token" "invalid_token".
Proof.
  intros Hr Hv Hty Hexp.
  unfold refresh, verifyRefreshToken, verifyAccessToken, mbind, meth_bind.
  destruct (isTokenRevoked ops now token st) as [st' o] eqn:E. simpl in Hr. subst o. simpl.
  unfold lift_res. rewrite Hv, Hty. simpl. rewrite (proj2 (Z.ltb_lt _ _) Hexp). simpl. eexists. split; [done|].
  simpl. split; [done|]. rewrite E, Hv, Hty. done.
Qed.
End revocation.
End TokenManager.

(** ** The guard and the request filter *)

Module AuthGuard.
Import JwtStrategy.

(** [(v || []).map(x => x.toUpperCase())] needs an array of strings. *)
Fixpoint strings_of (l : list jsval) : option (list string) :=
  match l with
  | [] => Some []
  | JString x :: l => cons x <$> strings_of l
  | _ => None
  end.
Definition js_strings (v : jsval) : res exn (list string) :=
  match v with
  | JArray _ l => match strings_of l with
                  | Some ss => Ok ss
                  | None => Throw (PlainError "r.toUpperCase is not a function")
                  end
  | v => if js_truthy v then Throw (PlainError "map is not a function") else Ok []
  end.

(** security/auth/auth-guard.ts:21-35 extractToken *)
Definition extractToken (header : string) : option (string * string) :=
  let trimmed := trim header in
  let rest := trim (String.substring 7 (String.length trimmed) trimmed) in
  if negb (str_truthy trimmed) then None
  else if starts_with "bearer " (to_lower trimmed) then Some ("Bearer", rest)
  else if starts_with "apikey " (to_lower trimmed) then Some ("ApiKey", rest)
  else None.

Section guard.
Context `{Tokens} (hmac_hex : string -> string -> string) (s : JwtStrategy.t).
Context (findByKeyHash : option (string -> option ApiKeys.key_record)) (apiKeys : list string)
  (HMAC_SECRET : option string) (getSecret : string -> string).
(** The keys revoked in this process. *)
Context (revokedKeys : list string).
Abbreviation validateKey := (ApiKeys.validate hmac_hex findByKeyHash apiKeys HMAC_SECRET getSecret revokedKeys).

(** security/auth/auth-guard.ts:43-61 authenticate
    The context of the claims of a web token. *)
Definition context_of_claims (payload : claims) : res exn AuthContext.t :=
  let sub := js_or (js_or (field "sub" payload) (field "userId" payload)) "user-1" in
  let scopes := js_or (js_or (js_or (field "scope" payload) (field "scopes" payload)) (field "permissions" payload))
                  (JArray 0 [JString "read"]) in
  let roles := js_or (field "roles" payload) (JArray 0 [JString "USER"]) in
  rs ← js_strings roles;
  ps ← js_strings scopes;
  mret (AuthContext.make (Some (js_String sub)) None (Some (js_String sub)) rs ps ps "jwt" true).
(** security/auth/auth-guard.ts:76-89 authenticate
    The context of an API key. *)
Definition context_of_key (k : ApiKeys.key_context) : AuthContext.t :=
  AuthContext.make None (Some (ApiKeys.id k)) (Some (ApiKeys.id k)) (ApiKeys.roles k) (ApiKeys.scopes k)
    (ApiKeys.scopes k) "api-key" true.

Definition no_credentials : res exn AuthContext.t :=
  auth_fail "Authentication failed: Missing or unsupported authorization credentials." "missing_token".
(** security/auth/auth-guard.ts:40-98 authenticate
    An absent header is empty; the strategies have [validate] and
    [extractToken], so the signature headers are not looked at. *)
Definition authenticate (now : Z) (authHeader apiKeyHeader signatureHeader timestampHeader : string) : res exn AuthContext.t :=
  if str_truthy authHeader && starts_with "bearer " (to_lower (trim authHeader))
  then rawToken ← JwtStrategy.extractToken authHeader;
       payload ← verifyToken s now rawToken;
       context_of_claims payload
  else
    let keyCandidate :=
      str_or apiKeyHeader
        (if str_truthy authHeader && starts_with "apikey " (to_lower authHeader)
         then trim (String.substring 7 (String.length authHeader) authHeader) else "") in
    if str_truthy keyCandidate && str_truthy (trim keyCandidate)
    then apiKeyCtx ← validateKey (trim keyCandidate); mret (context_of_key apiKeyCtx)
    else no_credentials.
(** security/auth/auth-guard.ts:103-107 requireAuth *)
Definition requireAuth (c : AuthContext.t) : res exn unit :=
  if AuthContext.authenticated c then Ok tt
  else auth_fail "Authentication required to access this resource" "missing_token".
(** security/auth/auth-guard.ts:112-117 requireRole *)
Definition requireRole (c : AuthContext.t) (role : string) : res exn unit :=
  requireAuth c;;
  if AuthContext.hasRole role c then Ok tt
  else Throw (AuthorizationError ("Access denied: Missing required role " +:+ quoted role) role).
(** security/auth/auth-guard.ts:122-127 requirePermission *)
Definition requirePermission (c : AuthContext.t) (permission : string) : res exn unit :=
  requireAuth c;;
  if AuthContext.hasPermission permission c then Ok tt
  else Throw (AuthorizationError ("Access denied: Missing required permission " +:+ quoted permission) permission).

(** api/middleware/auth.middleware.ts:10-42 authMiddleware
    As the routers build it, without a token manager; an error that is not an
    [AuthenticationError] becomes one. *)
Definition authMiddleware (now : Z) (authHeader apiKeyHeader signatureHeader timestampHeader : string) : res exn AuthContext.t :=
  if negb (str_truthy authHeader) && negb (str_truthy apiKeyHeader)
  then auth_fail "Authorization header or API key is missing" "missing_token"
  else match authenticate now authHeader apiKeyHeader signatureHeader timestampHeader with
       | Ok c => Ok c
       | Throw (AuthenticationError m r) => auth_fail m r
       | Throw e => auth_fail (js_String (js_get "message" (Errors.exn_js e))) "invalid_credentials"
       end.

(** *** Keys nobody issued *)

Lemma all_hex_facts n x : ApiKeys.all_hex n x = true -> str_forall (fun c => negb (is_space c)) x = true /\ avoids "_" x = true.
Proof.
  intros [_ Hh]%andb_true_iff. split; (eapply str_forall_impl; [|exact Hh]);
    by intros [[] [] [] [] [] [] [] []].
Qed.

Lemma key_shape a b :
  ApiKeys.all_hex 16 a = true -> ApiKeys.all_hex 16 b = true ->
  let key := "qf_" +:+ a +:+ String "_" b in
  trim key = key /\ ApiKeys.well_formed key = true.
Proof.
  intros Ha Hb. cbn zeta. destruct (all_hex_facts _ _ Ha) as [Ha1 Ha2], (all_hex_facts _ _ Hb) as [Hb1 Hb2].
  assert (trim ("qf_" +:+ a +:+ String "_" b) = "qf_" +:+ a +:+ String "_" b) as Ht.
  { apply trim_no_space. rewrite !str_forall_app, Ha1. simpl. exact Hb1. }
  split; [done|]. unfold ApiKeys.well_formed. rewrite Ht.
  change ("qf_" +:+ a +:+ String "_" b) with ("qf" +:+ String "_" (a +:+ String "_" b)).
  rewrite split_on_app by done. rewrite split_on_app by done. rewrite split_on_avoids by done.
  by rewrite Ha, Hb.
Qed.

(** A key of the right shape is as good as an issued one: with no repository
    record for it, any [qf_] key of two groups of sixteen hexadecimal digits
    that was not revoked in this process passes the request filter, whatever the
    signature headers say, as an authenticated SERVICE that may read and write;
    it is still refused where the role ADMIN is required. *)
Theorem unissued_key_accepted now a b signatureHeader timestampHeader :
  ApiKeys.all_hex 16 a = true -> ApiKeys.all_hex 16 b = true ->
  let key := "qf_" +:+ a +:+ String "_" b in
  (findByKeyHash ≫= fun f => f (sha256_hex key)) = None -> sha256_hex key ∉ revokedKeys ->
  exists c, authMiddleware now "" key signatureHeader timestampHeader = Ok c /\
    AuthContext.authenticated c = true /\ AuthContext.roles c = ["SERVICE"] /\
    AuthContext.check "READ" c = true /\ AuthContext.check "WRITE" c = true /\
    requirePermission c "write" = Ok tt /\
    AuthContext.requireRole "ADMIN" (Some c) = Throw (AuthContext.denied "role" "ADMIN").
Proof.
  intros Ha Hb key Hf Hr. destruct (key_shape a b Ha Hb) as [Ht Hw]. fold key in Ht, Hw.
  assert (AccessControl.str_mem (sha256_hex key) revokedKeys = false) as Hm.
  { apply not_true_iff_false. by rewrite AccessControl.str_mem_In. }
  assert (validateKey key =
    Ok (ApiKeys.KeyContext (str_or ("key-" +:+ String.substring 0 8 (sha256_hex key)) key) "Default Service Key"
          ["SERVICE"] ["READ"; "WRITE"] ["ingest"; "read"; "write"] true)) as Hv.
  { unfold ApiKeys.validate, ApiKeys.validateApiKey, ApiKeys.hashApiKey. rewrite Hw, Hm, Hf.
    assert (starts_with "qf_" key = true) as -> by (by destruct a). rewrite orb_true_r. done. }
  unfold authMiddleware, authenticate. assert (str_truthy key = true) as Hk by done.
  assert (str_or key "" = key) as Ho by (unfold str_or; by rewrite Hk).
  change (str_truthy "") with false. rewrite Hk. cbv [negb andb]. cbv iota. rewrite Ho, Ht, Hk, Hv.
  eexists. split; [reflexivity|]. repeat split.
Qed.

(** A token is authenticated by the guard whether or not it was revoked, and
    whatever its type. *)
Lemma guard_ignores_type now token payload c signatureHeader timestampHeader :
  JwtStrategy.extractToken ("Bearer " +:+ token) = Ok token -> verifyToken s now token = Ok payload ->
  context_of_claims payload = Ok c ->
  authMiddleware now ("Bearer " +:+ token) "" signatureHeader timestampHeader = Ok c.
Proof.
  intros He Hv Hc. unfold authMiddleware, authenticate.
  assert (str_truthy ("Bearer " +:+ token) = true) as Ht by done.
  assert (starts_with "bearer " (to_lower (trim ("Bearer " +:+ token))) = true) as Hs.
  { unfold JwtStrategy.extractToken in He. rewrite Ht in He.
    cbn [negb] in He.
    assert (trim ("Bearer " +:+ token) = "Bearer" \/ exists x, trim ("Bearer " +:+ token) = "Bearer " +:+ x) as [E|[x E]].
    { unfold trim. simpl. change ("" +:+ token) with token.
      destruct (str_eqb (trim_end token) ""); [by left|right; by exists (trim_end token)]. }
    - rewrite E in He. done.
    - by rewrite E. }
  rewrite Ht, Hs. simpl negb. simpl andb. cbv iota. rewrite He. unfold mbind, res_bind. rewrite Hv. by rewrite Hc.
Qed.
End guard.

End AuthGuard.

(** ** Examples *)

Section examples.
(** A token library that knows two tokens, both valid until second 4000. *)
Definition demo_claims (type_ : string) : claims :=
  [("sub", JString "u1"); ("exp", JNum (ofZ 4000)); ("roles", JArray 0 [JString "admin"]); ("type", JString type_)].
Definition demo_decode (token : string) : option claims :=
  if str_eqb token "tok" then Some (demo_claims "access")
  else if str_eqb token "ref" then Some (demo_claims "refresh") else None.
#[local] Instance demo_tokens : Tokens := {
  jwt_sign _ _ := "tok";
  jwt_decode := demo_decode;
  jwt_verify nowSec token _ _ _ :=
    match demo_decode token with
    | Some p => if nowSec <? 4000 then inl p else inr ("TokenExpiredError", "jwt expired")
    | None => inr ("JsonWebTokenError", "jwt malformed")
    end;
  sha256_hex token := "sha:" +:+ token;
}.
Definition demo_strategy : JwtStrategy.t := JwtStrategy.Mk "secret" "queueforge" "queueforge-api" 3600000.
Abbreviation no_commands := (RedisOperations.unconnected (R := gmap string KeySpace.entry_t)).

Lemma revocation_reach_witness :
  let '((_, r'), _) := TokenManager.revokeToken (TokenManager.ops no_commands) 1000 "tok" ([], ∅) in
  (TokenManager.verifyAccessToken demo_strategy (TokenManager.ops no_commands) 5000 "tok" ([], r')).2 =
    Ok (demo_claims "access").
Proof.
  pose proof (TokenManager.revocation_reach no_commands demo_strategy 1000 "tok" [] [] ∅
    (demo_claims "access") (demo_claims "access") eq_refl (not_elem_of_nil _) (fun _ => eq_refl) ltac:(discriminate)) as H.
  destruct (H 5000) as (_ & _ & H3); [lia|].
  apply H3; [vm_compute; discriminate|reflexivity|reflexivity].
Defined.

Lemma refresh_not_an_access_token_witness :
  exists r,
    (TokenManager.refresh demo_strategy (TokenManager.ops no_commands) 1000 "ref" ([], ∅)).2 = Ok r /\
    TokenManager.accessToken r = "ref".
Proof.
  assert ((TokenManager.isTokenRevoked (TokenManager.ops no_commands) 1000 "ref" ([], ∅)).2 = Ok false) as Hr
    by (vm_compute; reflexivity).
  destruct (TokenManager.refresh_not_an_access_token no_commands demo_strategy 1000 "ref" ([], ∅) (demo_claims "refresh")
    Hr eq_refl eq_refl eq_refl) as (r & H1 & H2 & _).
  exists r. split; [exact H1|exact H2].
Defined.

Lemma unissued_key_accepted_witness :
  exists c,
    AuthGuard.authMiddleware (fun _ _ => "") demo_strategy None [] None (fun _ => "") [] 0 ""
      "qf_0123456789abcdef_0123456789abcdef" "" "" = Ok c /\ AuthContext.authenticated c = true.
Proof.
  destruct (AuthGuard.unissued_key_accepted (fun _ _ => "") demo_strategy None [] None (fun _ => "") [] 0
    "0123456789abcdef" "0123456789abcdef" "" "" eq_refl eq_refl eq_refl (not_elem_of_nil _)) as (c & H1 & H2 & _).
  exists c. split; [exact H1|exact H2].
Defined.
End examples.
