(* ===== verification/Recovery.v ===== *)
(** * The recovery daemons

    [daemon/recovery/]: the processor of due retries ([DelayedQueueProcessor]),
    the reconciliation of database and queue ([StateSync]), and the cycle of the
    recovery daemon with its detector, reconstructor and dead-letter monitor
    ([RecoveryDaemon]).  The queue library is the class [JobQueue], with the jobs
    a worker holds ([Locks]) and, for the reconciler, ids of the caller's own and
    listings that fail ([OwnIds]); the listing of the deliveries table is the
    class [Listing]. *)
From Stdlib Require Import Ascii QArith Qround Qpower Qabs Lqa.
From stdpp Require Import base tactics numbers list strings gmap sorting pretty.
From S2P Require Import Prelude JsNum JsValue Errors DomainTypes Store StateMachine Connectors Text Worker.

(** ** The queue and the table *)

Module Jobs.
Import Store.

Record job_of (D : Type) : Type := Job { j_id : string; j_name : string; j_data : D; j_delay : Z }.
Arguments Job {D}. Arguments j_id {D}. Arguments j_name {D}. Arguments j_data {D}. Arguments j_delay {D}.
Abbreviation job := (job_of jsval).

(** A queue: its jobs that are waiting, active, delayed or paused; [add] without
    an id makes up a new one, [remove] takes out a job that may be removed. *)
Class QueueOf (D Q : Type) := {
  jobs : Q -> list (job_of D);
  q_add : string -> D -> option string -> Z -> Q -> Q * string;
  q_remove : string -> Q -> Q;
  jobs_NoDup q : NoDup (map j_id (jobs q));
  add_fresh name data delay q :
    jobs (q_add name data None delay q).1 = jobs q ++ [Job (q_add name data None delay q).2 name data delay];
  remove_jobs id q : jobs (q_remove id q) = filter (fun j => j_id j <> id) (jobs q);
}.

Abbreviation JobQueue := (QueueOf jsval).

(** A job a worker holds is locked: it cannot be removed. *)
Class Locks (Q : Type) := { locked : string -> Q -> bool }.

(** The rows of the deliveries table, each with its id. *)
Class Listing (T : Type) `{Prisma T} := {
  rows : T -> list (string * row);
  rows_find id r t : (id, r) ∈ rows t <-> find_delivery id t = Some r;
  rows_NoDup t : NoDup (map fst (rows t));
}.

Lemma filter_keys_NoDup {A} (P : string * A -> Prop) `{!forall x, Decision (P x)} (l : list (string * A)) :
  NoDup (map fst l) -> NoDup (map fst (filter P l)).
Proof.
  induction l as [|x l IH]; [done|]. simpl. intros [Hx Hnd]%NoDup_cons. rewrite filter_cons.
  destruct (decide _); [|by apply IH]. simpl. constructor; [|by apply IH].
  intros (y & Hy & Hin)%list_elem_of_fmap. apply list_elem_of_filter in Hin as [_ Hin]. apply Hx. rewrite Hy.
  by apply list_elem_of_fmap_2.
Qed.

Lemma filter_ext_in {A} (P P' : A -> Prop) `{!forall x, Decision (P x)} `{!forall x, Decision (P' x)} (l : list A) :
  (forall x, x ∈ l -> P x <-> P' x) -> filter P l = filter P' l.
Proof.
  induction l as [|x l IH]; intros Hl; [done|]. rewrite !filter_cons.
  rewrite IH by (intros y Hy; apply Hl; by right).
  destruct (decide (P x)) as [Hp|Hp], (decide (P' x)) as [Hp'|Hp']; try done; exfalso; apply Hp' || apply Hp;
    by apply (Hl x (list_elem_of_here x l)).
Qed.
Lemma filter_False {A} (l : list A) : filter (fun _ => False) l = [].
Proof. by induction l. Qed.
Lemma filter_True {A} (l : list A) : filter (fun _ => True) l = l.
Proof. induction l as [|x l IH]; [done|]. rewrite filter_cons, decide_True by done. by rewrite IH. Qed.

#[global] Program Instance gmap_listing : Listing tables := { rows t := map_to_list (t_rows t) }.
Next Obligation. intros id r t. simpl. apply elem_of_map_to_list. Qed.
Next Obligation. intros t. simpl. apply NoDup_fst_map_to_list. Qed.

Lemma elem_of_filter_id {D} (id i : string) (l : list (job_of D)) :
  i ∈ map j_id (filter (fun j => j_id j <> id) l) <-> i ∈ map j_id l /\ i <> id.
Proof.
  rewrite !list_elem_of_fmap. split.
  - intros (x & -> & [Hx Hin]%list_elem_of_filter). split; [by exists x|done].
  - intros ((x & -> & Hin) & Hne). exists x. split; [done|]. by apply list_elem_of_filter.
Qed.

(** A concrete queue. *)
Record queue_of (D : Type) : Type := ListQueue { lq : list (job_of D); lq_NoDup : bool_decide (NoDup (map j_id lq)) = true }.
Arguments ListQueue {D}. Arguments lq {D}. Arguments lq_NoDup {D}.
Abbreviation list_queue := (queue_of jsval).

Section lists.
Context {D : Type}.

Lemma lq_snoc (l : list (job_of D)) j : bool_decide (NoDup (map j_id l)) = true -> j_id j ∉ map j_id l ->
  bool_decide (NoDup (map j_id (l ++ [j]))) = true.
Proof.
  rewrite !bool_decide_eq_true. intros Hl Hj. rewrite map_app. apply NoDup_app. split; [done|].
  split; [|apply NoDup_singleton]. intros x Hx ->%list_elem_of_singleton. done.
Qed.

Definition lq_add (name : string) (data : D) (id : option string) (delay : Z) (q : queue_of D) : queue_of D * string :=
  let i := default (fresh (list_to_set (map j_id (lq q)) : gset string)) id in
  (match decide (i ∉ map j_id (lq q)) with
   | left H => ListQueue (lq q ++ [Job i name data delay]) (lq_snoc (lq q) (Job i name data delay) (lq_NoDup q) H)
   | right _ => q
   end, i).
Lemma lq_filter id (l : list (job_of D)) : bool_decide (NoDup (map j_id l)) = true ->
  bool_decide (NoDup (map j_id (filter (fun j => j_id j <> id) l))) = true.
Proof.
  rewrite !bool_decide_eq_true. intros Hl. induction l as [|j l IH]; [done|].
  simpl in Hl. apply NoDup_cons in Hl as [Hj Hl]. rewrite filter_cons. destruct (decide _); [|by apply IH].
  simpl. constructor; [|by apply IH]. intros (x & Hx & Hin)%list_elem_of_fmap. apply list_elem_of_filter in Hin as [_ Hin].
  apply Hj. rewrite Hx. by apply list_elem_of_fmap_2.
Qed.
Definition lq_remove (id : string) (q : queue_of D) : queue_of D :=
  ListQueue (filter (fun j => j_id j <> id) (lq q)) (lq_filter id (lq q) (lq_NoDup q)).

End lists.

#[global] Program Instance list_job_queue {D : Type} : QueueOf D (queue_of D) := {
  jobs := lq; q_add := lq_add; q_remove := lq_remove;
}.
Next Obligation. intros D q. exact (proj1 (bool_decide_eq_true _) (lq_NoDup q)). Qed.
Next Obligation.
  intros D name data delay q. unfold lq_add. simpl. destruct (decide _) as [Hn|Hn]; [done|]. destruct Hn. intros Hin.
  apply (is_fresh (list_to_set (map j_id (lq q)) : gset string)). by apply elem_of_list_to_set.
Qed.
Next Obligation. done. Qed.
#[global] Instance no_locks {D} : Locks (queue_of D) := {| locked _ _ := false |}.

Definition empty_queue {D : Type} : queue_of D := ListQueue [] eq_refl.
Definition no_jobs : list_queue := empty_queue.

End Jobs.

(** ** Due retries *)

Module DelayedQueueProcessor.
Import Store Jobs.

Section processor.
Context {T Q : Type} `{Listing T} `{JobQueue Q}.

(** The processor with the table and the queue it works on. *)
Record world : Type := World { processing : bool; db : T; queue : Q }.
Abbreviation M := (meth world exn).
Definition on_db {A} (m : meth T exn A) : M A := fun w =>
  let '(t, o) := m (db w) in (World (processing w) t (queue w), o).
Definition on_queue (f : Q -> Q) (w : world) : world := World (processing w) (db w) (f (queue w)).
Definition set_processing (b : bool) (w : world) : world := World b (db w) (queue w).

Definition due (now : Z) (r : row) : bool :=
  bool_decide (r_status r = Status.SCHEDULED_RETRY) &&
  match r_nextRetryAt r with Some (Some d) => d <=? now | _ => false end.
(** The query of [findMany]. *)
Definition overdue (now : Z) (t : T) : list (string * row) := filter (fun x => due now x.2 = true) (rows t).

(** The data of the job of a retry. *)
Definition retry_data (r : row) : jsval :=
  JObject 0 [("taskResultId", JString (r_taskResultId r)); ("destinationId", JString (r_destinationId r));
             ("attempt", JNum (ofZ (r_retryCount r)))].
Definition job_name (r : row) : string := r_taskResultId r +:+ ":" +:+ r_destinationId r.

(** daemon/recovery/delayed-queue-processor.ts:100-129 processScheduledRetries
    One overdue delivery. *)
Definition release (x : string * row) : M unit :=
  on_db (DeliveryRepository.updateDeliveryStatus x.1 Status.PENDING JUndefined);;
  modify (on_queue (fun q => (q_add (job_name x.2) (retry_data x.2) None 0 q).1)).
Fixpoint release_all (l : list (string * row)) : M unit :=
  match l with
  | [] => mret tt
  | x :: l => release x;; release_all l
  end.

(** daemon/recovery/delayed-queue-processor.ts:75-152 processScheduledRetries
    A failure ends the run; the count is that of the query. *)
Definition processScheduledRetries (now : Z) : M Z := fun w =>
  if processing w then (w, Ok 0)
  else
    let w := set_processing true w in
    let l := overdue now (db w) in
    let '(w', _) := release_all l w in
    (set_processing false w', Ok (Z.of_nat (length l))).

(** *** Its effect *)

Lemma release_hit x w :
  find_delivery x.1 (db w) = Some x.2 ->
  exists t' q',
    release x w = (World (processing w) t' q', Ok tt) /\
    find_delivery x.1 t' = Some (with_status Status.PENDING x.2) /\
    (forall id, id <> x.1 -> find_delivery id t' = find_delivery id (db w)) /\
    exists i, jobs q' = jobs (queue w) ++ [Job i (job_name x.2) (retry_data x.2) 0].
Proof.
  intros Hx. unfold release, on_db, DeliveryRepository.updateDeliveryStatus, DeliveryRepository.updateStatus.
  unfold DeliveryRepository.db_update.
  destruct (proj2 (update_is_Some x.1 (with_status Status.PENDING) (db w)) (ex_intro _ _ Hx)) as [t' Ht].
  munfold. rewrite Ht. exists t', (q_add (job_name x.2) (retry_data x.2) None 0 (queue w)).1.
  split; [reflexivity|]. split_and!.
  - by rewrite (update_find_eq _ _ _ _ Ht), Hx.
  - intros id Hid. by apply (update_find_ne x.1 id (with_status Status.PENDING)).
  - eexists. apply add_fresh.
Qed.

Lemma release_all_hit l w :
  NoDup (map fst l) -> (forall x, x ∈ l -> find_delivery x.1 (db w) = Some x.2) ->
  exists t' q' added,
    release_all l w = (World (processing w) t' q', Ok tt) /\
    (forall x, x ∈ l -> find_delivery x.1 t' = Some (with_status Status.PENDING x.2)) /\
    (forall id, id ∉ map fst l -> find_delivery id t' = find_delivery id (db w)) /\
    jobs q' = jobs (queue w) ++ added /\
    map (fun j => (j_name j, j_data j, j_delay j)) added = map (fun x => (job_name x.2, retry_data x.2, 0)) l.
Proof.
  revert w. induction l as [|x l IH]; intros w Hnd Hf.
  { exists (db w), (queue w), []. split_and!; try done; [by destruct w|by intros ? ?%not_elem_of_nil|by rewrite app_nil_r]. }
  simpl in Hnd. apply NoDup_cons in Hnd as [Hx Hnd].
  destruct (release_hit x w) as (t1 & q1 & Hr & Hx1 & Hne & i & Hj); [by apply Hf; left|].
  destruct (IH (World (processing w) t1 q1) Hnd) as (t' & q' & added & Ha & E1 & E2 & E3 & E4).
  { intros y Hy. simpl. rewrite Hne; [by apply Hf; right|]. intros E. apply Hx. rewrite <- E.
    by apply list_elem_of_fmap_2. }
  exists t', q', (Job i (job_name x.2) (retry_data x.2) 0 :: added). split_and!.
  - simpl. unfold mbind, meth_bind. by rewrite Hr, Ha.
  - intros y [->|Hy]%elem_of_cons; [|by apply E1]. rewrite E2 by done. exact Hx1.
  - intros id [Hid1 Hid2]%not_elem_of_cons. rewrite E2 by done. by apply Hne.
  - rewrite E3. simpl. rewrite Hj. by rewrite <- app_assoc.
  - simpl. by rewrite E4.
Qed.

(** A run of the processor releases exactly the retries that are due: each
    becomes PENDING, all else of it kept, every other delivery is untouched, the
    queue receives one job per released delivery in the order of the query, and
    the processor is ready to run again; a run while another is in progress does
    nothing. *)
Theorem due_retries_released now w :
  (processing w = true -> processScheduledRetries now w = (w, Ok 0)) /\
  (processing w = false ->
   exists t' q' added,
     processScheduledRetries now w = (World false t' q', Ok (Z.of_nat (length (overdue now (db w))))) /\
     (forall id, find_delivery id t' =
        (fun r => if due now r then with_status Status.PENDING r else r) <$> find_delivery id (db w)) /\
     jobs q' = jobs (queue w) ++ added /\
     map (fun j => (j_name j, j_data j)) added =
       map (fun x => (job_name x.2, retry_data x.2)) (overdue now (db w))).
Proof.
  split; intros Hp; unfold processScheduledRetries; rewrite Hp; [done|].
  set (l := overdue now (db w)).
  assert (forall x, x ∈ l <-> find_delivery x.1 (db w) = Some x.2 /\ due now x.2 = true) as Hl.
  { intros [id r]. unfold l, overdue. rewrite list_elem_of_filter, rows_find. naive_solver. }
  assert (NoDup (map fst l)) as Hnd.
  { apply filter_keys_NoDup, rows_NoDup. }
  destruct (release_all_hit l (set_processing true w)) as (t' & q' & added & Ha & E1 & E2 & E3 & E4);
    [done|intros x Hx; by apply Hl|].
  exists t', q', added. cbv zeta. change (overdue now (db (set_processing true w))) with l. rewrite Ha. split_and!; [done| |done|].
  - intros id. destruct (find_delivery id (db w)) as [r|] eqn:Ef; simpl.
    + destruct (due now r) eqn:Ed.
      * assert ((id, r) ∈ l) as Hin by (by apply Hl). exact (E1 _ Hin).
      * rewrite E2; [done|]. intros (y & -> & Hy)%list_elem_of_fmap. apply Hl in Hy as [Hy1 Hy2]. congruence.
    + rewrite E2; [done|]. intros (y & -> & Hy)%list_elem_of_fmap. apply Hl in Hy as [Hy1 _]. congruence.
  - apply (f_equal (map fst)) in E4. rewrite !map_map in E4. exact E4.
Qed.
End processor.

End DelayedQueueProcessor.

(** ** What becomes of the jobs of the daemons *)

Module LostJobs.
Import Store Jobs.

(** A job as the worker receives it. *)
Definition as_job (j : job) : jsval := JObject 0 [("id", JString (j_id j)); ("data", j_data j)].

Section lost.
Context {T W : Type} `{Prisma T} `{Connectors.Net W} (rs : Executor.repos).

(** The jobs the recovery daemons add carry the task result and the
    destination but no delivery id, so the worker takes the id of the job for
    it: with an id that names no delivery (those of the queue, and those made of
    the two ids and a colon), the execution finds nothing, changes nothing and
    reports a permanent failure, and the delivery stays PENDING. *)
Theorem recovery_job_lost (j : job) (r : row) p t0 t1 ticket suffix (w : Executor.world T W) :
  j_id j <> "" -> find_delivery (j_id j) (Executor.w_db w) = None ->
  j_data j = DelayedQueueProcessor.retry_data r ->
  (JobProcessor.begin (as_job j) p).2 = Ok (JString (j_id j)) /\
  exists err,
    Executor.executeWithResilience rs t0 t1 ticket suffix (j_id j) JUndefined w =
      (w, Ok (Some (Executor.Result false None 0 err (Some Classifier.PERMANENT)))) /\
    forall lat q,
      JobProcessor.p_status <$> (JobProcessor.finish lat (JString (j_id j))
        (Ok (Executor.Result false None 0 err (Some Classifier.PERMANENT))) q).2 = Ok Status.FAILED_DLQ.
Proof.
  intros Hne Hf Hd. assert (str_truthy (j_id j) = true) as Ht.
  { unfold str_truthy. by rewrite (proj2 (str_eqb_neq _ _) Hne). }
  split.
  - unfold JobProcessor.begin, JobProcessor.validate, as_job. rewrite Hd. munfold. rewrite Ht. simpl.
    unfold js_or. simpl. by rewrite Ht.
  - eexists. split; [|by intros; reflexivity].
    unfold Executor.executeWithResilience, Executor.begin, Executor.on_db, DeliveryRepository.findById. munfold.
    rewrite Hf. by destruct w.
Qed.
End lost.

End LostJobs.

(** ** Reconciliation *)

Module StateSync.
Import Store Jobs.

(** What the reconciler meets of the queue library besides: listing the jobs can
    fail, an id of the caller's own is taken or refused ([accepts]), and an id
    the queue still knows, be it of a job that completed or failed, adds
    nothing. *)
Class OwnIds (Q : Type) `{JobQueue Q} `{!Locks Q} := {
  getJobs : Q -> res exn (list job);
  accepts : string -> bool;
  known : string -> Q -> bool;
  getJobs_jobs q l : getJobs q = Ok l -> l = jobs q;
  jobs_known id q : id ∈ map j_id (jobs q) -> known id q = true;
  add_known name data id delay q : known id q = true -> jobs (q_add name data (Some id) delay q).1 = jobs q;
  add_unknown name data id delay q :
    known id q = false -> jobs (q_add name data (Some id) delay q).1 = jobs q ++ [Job id name data delay];
  known_add name data id delay i q :
    known i (q_add name data (Some id) delay q).1 = known i q || bool_decide (i = id);
  locked_add name data id delay i q : locked i (q_add name data (Some id) delay q).1 = locked i q;
  locked_remove id i q : i <> id -> locked i (q_remove id q) = locked i q;
}.

Section sync.
Context {T Q : Type} `{Listing T} `{OwnIds Q}.

(** The reconciler with the table and the queue. *)
Record world : Type := World { syncing : bool; db : T; queue : Q }.
(** The queue and the two counts of a run. *)
Record progress : Type := Progress { p_queue : Q; p_synced : Z; p_errors : Z }.

Definition pending (t : T) : list (string * row) := filter (fun x => r_status x.2 = Status.PENDING) (rows t).
Definition expectedJobId (r : row) : string := DelayedQueueProcessor.job_name r.

(** [queue.add(id, data, { jobId: id })]. *)
Definition add_own (id : string) (data : jsval) (q : Q) : Q * res exn unit :=
  if accepts id then ((q_add id data (Some id) 0 q).1, Ok tt) else (q, Throw (PlainError "Custom Id cannot contain :")).
(** [job.remove()]. *)
Definition remove_job (id : string) (q : Q) : Q * res exn unit :=
  if locked id q then (q, Throw (PlainError ("Job " +:+ id +:+ " could not be removed because it is locked by another worker")))
  else (q_remove id q, Ok tt).
(** The end of a [try]: the one count or the other. *)
Definition count (s : progress) (o : Q * res exn unit) : progress :=
  match o with
  | (q, Ok _) => Progress q (p_synced s + 1) (p_errors s)
  | (q, Throw _) => Progress q (p_synced s) (p_errors s + 1)
  end.

(** daemon/recovery/state-sync.ts:93-122 sync
    A PENDING delivery without a job; a refusal is only counted. *)
Definition enqueue_missing (ids : list string) (x : string * row) (s : progress) : progress :=
  let id := expectedJobId x.2 in
  if bool_decide (id ∈ ids) then s
  else count s (add_own id (DelayedQueueProcessor.retry_data x.2) (p_queue s)).
(** [repository.findOne({taskResultId, destinationId})]. *)
Definition findOne (tr dest : string) (t : T) : option (string * row) :=
  snd <$> list_find (fun x => r_taskResultId x.2 = tr /\ r_destinationId x.2 = dest) (rows t).
(** daemon/recovery/state-sync.ts:125-146 sync
    A job of the snapshot whose delivery is gone; a removal that fails is only
    counted.  No code soft-deletes a delivery, so [deletedAt] is null. *)
Definition prune (t : T) (j : job) (s : progress) : progress :=
  match split_on ":" (j_id j) with
  | tr :: dest :: _ =>
      if str_truthy tr && str_truthy dest
      then match findOne tr dest t with
           | None => count s (remove_job (j_id j) (p_queue s))
           | Some _ => s
           end
      else s
  | _ => s
  end.
(** daemon/recovery/state-sync.ts:76-166 sync
    The table answers and does not change meanwhile; the queue may not answer. *)
Definition sync (w : world) : world * (Z * Z) :=
  if syncing w then (w, (0, 0))
  else
    match getJobs (queue w) with
    | Ok snapshot =>
        let ids := map j_id snapshot in
        let s1 := fold_left (fun s x => enqueue_missing ids x s) (pending (db w)) (Progress (queue w) 0 0) in
        let s2 := fold_left (fun s j => prune (db w) j s) snapshot s1 in
        (World false (db w) (p_queue s2), (p_synced s2, p_errors s2))
    | Throw _ => (World false (db w) (queue w), (0, 1))
    end.

(** *** What a run does *)

(** Ids without a colon, as those the database makes up. *)
Definition plain_ids (t : T) : Prop :=
  forall id r, (id, r) ∈ rows t ->
    r_taskResultId r <> "" /\ r_destinationId r <> "" /\
    avoids ":" (r_taskResultId r) = true /\ avoids ":" (r_destinationId r) = true.
(** The rule of the library for ids of the caller's own: no colon (but for the
    two of its old repeatable jobs). *)
Definition refuses_colons : Prop :=
  forall a b, avoids ":" a = true -> avoids ":" b = true -> accepts (a +:+ ":" +:+ b) = false.
(** A job that names a delivery that is gone. *)
Definition orphan (t : T) (id : string) : bool :=
  match split_on ":" id with
  | tr :: dest :: _ => str_truthy tr && str_truthy dest && negb (bool_decide (is_Some (findOne tr dest t)))
  | _ => false
  end.
(** The PENDING deliveries whose job is not listed; those whose id is refused. *)
Definition missing (ids : list string) (l : list (string * row)) : list (string * row) :=
  filter (fun x => expectedJobId x.2 ∉ ids) l.
Definition taken (b : bool) (l : list (string * row)) : nat :=
  length (filter (fun x => accepts (expectedJobId x.2) = b) l).
(** The jobs that name a delivery that is gone, held by a worker or not. *)
Definition orphans (b : bool) (t : T) (q : Q) (l : list job) : nat :=
  length (filter (fun j => orphan t (j_id j) = true /\ locked (j_id j) q = b) l).

Lemma prune_eq t j s :
  prune t j s = if orphan t (j_id j) then count s (remove_job (j_id j) (p_queue s)) else s.
Proof.
  unfold prune, orphan. destruct (split_on ":" (j_id j)) as [|tr [|dest l]]; try done.
  destruct (str_truthy tr && str_truthy dest); [|done]. simpl.
  destruct (findOne tr dest t) as [x|].
  - by rewrite bool_decide_true by eauto.
  - by rewrite bool_decide_false by (by intros [? ?]).
Qed.

Lemma expected_not_orphan t id r : plain_ids t -> (id, r) ∈ rows t -> orphan t (expectedJobId r) = false.
Proof.
  intros Hp Hr. destruct (Hp id r Hr) as (_ & _ & Ht & Hd). unfold orphan.
  change (expectedJobId r) with (r_taskResultId r +:+ String ":" (r_destinationId r)).
  rewrite split_on_app, split_on_avoids by done.
  assert (is_Some (findOne (r_taskResultId r) (r_destinationId r) t)) as Hs.
  { unfold findOne. destruct (list_find _ (rows t)) as [x|] eqn:E; [by eexists|].
    apply list_find_None in E. rewrite Forall_forall in E. by destruct (E (id, r) Hr). }
  rewrite bool_decide_true by done. by rewrite andb_false_r.
Qed.

(** One delivery: what the queue then lists and knows, and the counts. *)
Lemma enqueue_step ids x s :
  expectedJobId x.2 ∉ ids ->
  let id := expectedJobId x.2 in
  let s' := enqueue_missing ids x s in
  (forall i, i ∈ map j_id (jobs (p_queue s')) <->
     i ∈ map j_id (jobs (p_queue s)) \/ i = id /\ accepts id = true /\ known id (p_queue s) = false) /\
  (forall i, known i (p_queue s') = known i (p_queue s) || bool_decide (i = id) && accepts id) /\
  (forall i, locked i (p_queue s') = locked i (p_queue s)) /\
  p_synced s' = p_synced s + (if accepts id then 1 else 0) /\ p_errors s' = p_errors s + (if accepts id then 0 else 1).
Proof.
  intros Hn. cbv zeta. unfold enqueue_missing, add_own. rewrite bool_decide_false by done.
  destruct (accepts (expectedJobId x.2)) eqn:Ea; simpl.
  - split; [|split; [|split; [|lia]]].
    + intros i. destruct (known (expectedJobId x.2) (p_queue s)) eqn:Ek.
      * rewrite add_known by done. naive_solver.
      * rewrite add_unknown, map_app by done. simpl. rewrite elem_of_app, list_elem_of_singleton. naive_solver.
    + intros i. by rewrite known_add, andb_true_r.
    + intros i. apply locked_add.
  - split; [|split; [|split; [|lia]]]; [naive_solver| |done]. intros i. by rewrite andb_false_r, orb_false_r.
Qed.

Lemma enqueue_fold ids l s :
  let s' := fold_left (fun s x => enqueue_missing ids x s) l s in
  (forall i, i ∈ map j_id (jobs (p_queue s')) <->
     i ∈ map j_id (jobs (p_queue s)) \/
     exists x, x ∈ missing ids l /\ i = expectedJobId x.2 /\ accepts i = true /\ known i (p_queue s) = false) /\
  (forall i, locked i (p_queue s') = locked i (p_queue s)) /\
  p_synced s' = p_synced s + Z.of_nat (taken true (missing ids l)) /\
  p_errors s' = p_errors s + Z.of_nat (taken false (missing ids l)).
Proof.
  revert s. induction l as [|x l IH]; intros s; cbn [fold_left].
  { cbv zeta. change (missing ids []) with (@nil (string * row)). split; [|split; [done|unfold taken; simpl; lia]].
    intros i. split; [by left|]. intros [Hi|(x & Hx & _)]; [done|by apply not_elem_of_nil in Hx]. }
  unfold missing. rewrite filter_cons. destruct (decide (expectedJobId x.2 ∉ ids)) as [Hin|Hin].
  - destruct (enqueue_step ids x s Hin) as (E1 & E2 & E3 & E4 & E5).
    destruct (IH (enqueue_missing ids x s)) as (F1 & F2 & F3 & F4). split; [|split; [|split]].
    + intros i. rewrite F1, E1. split.
      * intros [[?|(-> & ? & ?)]|(y & Hy & -> & Ha & Hk)]; [by left|right; exists x; split; [by left|done]|].
        rewrite E2 in Hk. apply orb_false_iff in Hk as [Hk _]. right. exists y. split; [by right|done].
      * intros [?|(y & [->|Hy]%elem_of_cons & -> & Ha & Hk)]; [by left; left|by left; right|].
        destruct (decide (expectedJobId y.2 = expectedJobId x.2)) as [E|Hne]; [rewrite E in *; by left; right|].
        right. exists y. split; [done|]. split; [done|]. split; [done|]. rewrite E2, Hk. by rewrite bool_decide_false.
    + intros i. by rewrite F2, E3.
    + rewrite F3, E4. unfold taken, missing. rewrite !filter_cons.
      destruct (accepts (expectedJobId x.2)) eqn:Ea; [rewrite decide_True by done|rewrite decide_False by done]; simpl; lia.
    + rewrite F4, E5. unfold taken, missing. rewrite !filter_cons.
      destruct (accepts (expectedJobId x.2)) eqn:Ea; [rewrite decide_False by done|rewrite decide_True by done]; simpl; lia.
  - assert (enqueue_missing ids x s = s) as ->; [|apply IH].
    unfold enqueue_missing. rewrite bool_decide_true; [done|]. by apply dec_stable.
Qed.

Lemma orphans_cons b t q j l :
  orphans b t q (j :: l) = ((if orphan t (j_id j) && eqb (locked (j_id j) q) b then 1 else 0) + orphans b t q l)%nat.
Proof.
  unfold orphans. rewrite filter_cons. destruct (decide _) as [[Ho Hl]|Hn].
  - by rewrite Ho, Hl, eqb_reflx.
  - destruct (orphan t (j_id j)) eqn:Eo; [|done]. destruct (eqb _ b) eqn:E; [|done]. destruct Hn.
    split; [done|]. by apply eqb_prop.
Qed.

(** The jobs of the snapshot, each once: the free orphans go. *)
Lemma prune_fold t l s :
  NoDup (map j_id l) ->
  let s' := fold_left (fun s j => prune t j s) l s in
  (forall i, i ∈ map j_id (jobs (p_queue s')) <->
     i ∈ map j_id (jobs (p_queue s)) /\
     ~ (i ∈ map j_id l /\ orphan t i = true /\ locked i (p_queue s) = false)) /\
  p_synced s' = p_synced s + Z.of_nat (orphans false t (p_queue s) l) /\
  p_errors s' = p_errors s + Z.of_nat (orphans true t (p_queue s) l).
Proof.
  revert s. induction l as [|j l IH]; intros s Hnd; cbn [fold_left].
  { split; [|unfold orphans; simpl; lia]. intros i. split; [intros Hi; split; [done|by intros [?%not_elem_of_nil _]]|by intros []]. }
  simpl in Hnd. apply NoDup_cons in Hnd as [Hj Hnd]. destruct (IH (prune t j s) Hnd) as (F1 & F2 & F3).
  assert (forall i, i ∈ map j_id l -> locked i (p_queue (prune t j s)) = locked i (p_queue s)) as Hl.
  { intros i Hi. rewrite prune_eq. destruct (orphan t (j_id j)); [|done]. unfold remove_job.
    destruct (locked (j_id j) (p_queue s)); [done|]. simpl. apply locked_remove. by intros ->. }
  assert (forall b, orphans b t (p_queue (prune t j s)) l = orphans b t (p_queue s) l) as Ho.
  { intros b. unfold orphans. f_equal. apply filter_ext_in. intros k Hk.
    by rewrite Hl by (by apply list_elem_of_fmap_2). }
  rewrite F2, F3, !Ho, !orphans_cons. split.
  - intros i. rewrite F1. simpl. rewrite elem_of_cons. rewrite prune_eq in *.
    destruct (orphan t (j_id j)) eqn:Eo; [unfold remove_job in *; destruct (locked (j_id j) (p_queue s)) eqn:El|]; simpl in *.
    + destruct (decide (i = j_id j)) as [->|]; naive_solver congruence.
    + rewrite remove_jobs, elem_of_filter_id. destruct (decide (i = j_id j)) as [->|Hne]; [naive_solver|].
      rewrite (locked_remove (j_id j) i) by done. naive_solver.
    + destruct (decide (i = j_id j)) as [->|]; naive_solver congruence.
  - rewrite prune_eq. destruct (orphan t (j_id j)) eqn:Eo.
    + unfold remove_job. destruct (locked (j_id j) (p_queue s)) eqn:El; simpl.
      * lia.
      * lia.
    + simpl. lia.
Qed.

Lemma orphans_locked b t q q' l :
  (forall i, locked i q' = locked i q) -> orphans b t q' l = orphans b t q l.
Proof. intros Hl. unfold orphans. f_equal. apply list_filter_iff. intros j. by rewrite Hl. Qed.

Lemma expected_refused t x : refuses_colons -> plain_ids t -> x ∈ pending t -> accepts (expectedJobId x.2) = false.
Proof.
  intros Hr Hp [_ Hx]%list_elem_of_filter. destruct x as [id r]. destruct (Hp id r Hx) as (_ & _ & Ht & Hd). by apply Hr.
Qed.

Lemma refused_all t : refuses_colons -> plain_ids t -> forall ids,
  taken true (missing ids (pending t)) = 0%nat /\ taken false (missing ids (pending t)) = length (missing ids (pending t)).
Proof.
  intros Hr Hp ids. assert (forall x, x ∈ missing ids (pending t) -> accepts (expectedJobId x.2) = false) as Ha.
  { intros x [_ Hx]%list_elem_of_filter. by apply (expected_refused t). }
  unfold taken. split.
  - rewrite (filter_ext_in _ (fun _ => False)); [by rewrite filter_False|]. intros x Hx. rewrite (Ha x Hx). done.
  - rewrite (filter_ext_in _ (fun _ => True)); [by rewrite filter_True|]. intros x Hx. by rewrite (Ha x Hx).
Qed.

(** C10: one run of the reconciler over a table and a queue nothing else touches
    meanwhile: the table is as it was; of the PENDING deliveries whose job is not
    listed, those get one whose job id the queue takes and does not know from a
    job that completed or failed; of the listed jobs, those go whose delivery is
    gone and which no worker holds; every refusal is one more error and ends
    nothing, and a queue that cannot be listed is one error and nothing else.  As
    the queue library refuses ids with a colon and every expected id has one, the
    run re-enqueues nothing: each PENDING delivery without a job is one error,
    run after run. *)
Theorem sync_effect w :
  syncing w = false ->
  let '(w', (synced, errors)) := sync w in
  let q := queue w in
  let ids := map j_id (jobs q) in
  let lost := missing ids (pending (db w)) in
  syncing w' = false /\ db w' = db w /\
  (forall e, getJobs q = Throw e -> queue w' = q /\ synced = 0 /\ errors = 1) /\
  (forall l, getJobs q = Ok l ->
     (forall i, i ∈ map j_id (jobs (queue w')) <->
        (i ∈ ids \/ exists x, x ∈ lost /\ i = expectedJobId x.2 /\ accepts i = true /\ known i q = false) /\
        ~ (i ∈ ids /\ orphan (db w) i = true /\ locked i q = false)) /\
     synced = Z.of_nat (taken true lost) + Z.of_nat (orphans false (db w) q (jobs q)) /\
     errors = Z.of_nat (taken false lost) + Z.of_nat (orphans true (db w) q (jobs q)) /\
     (refuses_colons -> plain_ids (db w) ->
        (forall i, i ∈ map j_id (jobs (queue w')) -> i ∈ ids) /\
        synced = Z.of_nat (orphans false (db w) q (jobs q)) /\
        errors = Z.of_nat (length lost) + Z.of_nat (orphans true (db w) q (jobs q)))).
Proof.
  intros Hs. destruct (sync w) as [w' [synced errors]] eqn:E. revert E. unfold sync. rewrite Hs.
  destruct (getJobs (queue w)) as [l|e] eqn:Eg; [|intros [= <- <- <-]; split_and!; try done; naive_solver].
  apply getJobs_jobs in Eg as El. subst l.
  set (s1 := fold_left _ (pending (db w)) _). set (s2 := fold_left _ (jobs (queue w)) s1). intros [= <- <- <-]. cbv zeta.
  destruct (enqueue_fold (map j_id (jobs (queue w))) (pending (db w)) (Progress (queue w) 0 0)) as (A1 & A2 & A3 & A4).
  fold s1 in A1, A2, A3, A4. cbn [p_queue p_synced p_errors] in A1, A2, A3, A4.
  destruct (prune_fold (db w) (jobs (queue w)) s1 (jobs_NoDup _)) as (B1 & B2 & B3). fold s2 in B1, B2, B3.
  rewrite (orphans_locked _ _ (queue w)) in B2 by done. rewrite (orphans_locked _ _ (queue w)) in B3 by done.
  assert (forall i, i ∈ map j_id (jobs (p_queue s2)) <->
    (i ∈ map j_id (jobs (queue w)) \/ exists x, x ∈ missing (map j_id (jobs (queue w))) (pending (db w)) /\
       i = expectedJobId x.2 /\ accepts i = true /\ known i (queue w) = false) /\
    ~ (i ∈ map j_id (jobs (queue w)) /\ orphan (db w) i = true /\ locked i (queue w) = false)) as C.
  { intros i. by rewrite B1, A1, A2. }
  split_and!; [done|done|done|]. intros l _. split_and!; [exact C|simpl; lia|simpl; lia|].
  intros Hr Hp. pose proof (refused_all _ Hr Hp) as Hn. split_and!.
  - intros i [[Hi|(x & Hx & -> & Ha & _)] _]%C; [done|]. apply list_elem_of_filter in Hx as [_ Hx].
    by rewrite (expected_refused _ _ Hr Hp Hx) in Ha.
  - destruct (Hn (map j_id (jobs (queue w)))) as [Ht _]. simpl. lia.
  - destruct (Hn (map j_id (jobs (queue w)))) as [_ Hf]. simpl. lia.
Qed.
End sync.

End StateSync.

(** ** The recovery cycle *)

Module RecoveryDaemon.
Import Store Jobs.

(** The methods the code looks for on the repository, with what they return
    once [raw.data] is taken; any of them may throw. *)
Record repository (T : Type) : Type := Repository {
  findStaleDeliveries : option (Z -> T -> res exn (list (string * row)));
  findPendingDeliveries : option (T -> res exn (list (string * row)));
  findScheduledRetryDeliveries : option (T -> res exn (list (string * row)));
  findByStatus : option (Status.t -> T -> res exn (list (string * row)));
  findMany_status : option (Status.t -> T -> res exn (list (string * row)));
  findMany_updatedBefore : option (Z -> T -> res exn (list (string * row)));
  findById : option (string -> T -> res exn (option row));
}.
Arguments Repository {T}. Arguments findStaleDeliveries {T}. Arguments findPendingDeliveries {T}.
Arguments findScheduledRetryDeliveries {T}. Arguments findByStatus {T}. Arguments findMany_status {T}.
Arguments findMany_updatedBefore {T}. Arguments findById {T}.

Section cycle.
Context {T Q : Type} `{JobQueue Q} `{!Locks Q}.
(** The repository, and the main and the delayed queue of the queue manager if
    it has the methods that give them. *)
Context (repo : option (repository T)) (mainQueue delayedQueue : option unit).

(** The table and the two queues. *)
Record world : Type := World { db : T; main : Q; delayed : Q }.

(** The first of the look-ups the repository has. *)
Definition lookup_status (first : repository T -> option (T -> res exn (list (string * row)))) (s : Status.t) (t : T)
    : res exn (list (string * row)) :=
  match repo with
  | None => Ok []
  | Some r =>
      match first r, findByStatus r, findMany_status r with
      | Some f, _, _ => f t
      | None, Some f, _ => f s t
      | None, None, Some f => f s t
      | None, None, None => Ok []
      end
  end.

(** daemon/recovery/stale-job-detector.ts:19-39 detectStale *)
Definition detectStale (cutoff : Z) (t : T) : list (string * row) :=
  match repo with
  | None => []
  | Some r =>
      match findStaleDeliveries r, findMany_updatedBefore r with
      | Some f, _ | None, Some f => match f cutoff t with Ok l => l | Throw _ => [] end
      | None, None => []
      end
  end.

Definition deliver_data (x : string * row) : jsval :=
  JObject 0 [("deliveryId", JString x.1); ("destinationId", JString (r_destinationId x.2))].
Definition retry_job_data (x : string * row) : jsval := JObject 0 [("deliveryId", JString x.1)].

(** daemon/recovery/queue-reconstructor.ts:46-74 enqueuePending
    The world and the count: a job for each PENDING delivery. *)
Definition enqueuePending (w : world) : world * Z :=
  match lookup_status findPendingDeliveries Status.PENDING (db w) with
  | Throw _ => (w, 0)
  | Ok pending =>
      match mainQueue with
      | Some _ => (World (db w) (fold_left (fun q x => (q_add "deliver" (deliver_data x) None 0 q).1) pending (main w)) (delayed w),
                   Z.of_nat (length pending))
      | None => (w, 0)
      end
  end.
(** daemon/recovery/queue-reconstructor.ts:97-97 enqueueScheduledRetries *)
Definition retry_delay (now : Z) (r : row) : Z :=
  match r_nextRetryAt r with
  | Some (Some d) => Z.max 0 (d - now)
  | _ => 5000
  end.
(** daemon/recovery/queue-reconstructor.ts:79-108 enqueueScheduledRetries *)
Definition enqueueScheduledRetries (now : Z) (w : world) : world * Z :=
  match lookup_status findScheduledRetryDeliveries Status.SCHEDULED_RETRY (db w) with
  | Throw _ => (w, 0)
  | Ok retries =>
      match delayedQueue with
      | Some _ =>
          (World (db w) (main w)
             (fold_left (fun q x => (q_add "deliver_retry" (retry_job_data x) None (retry_delay now x.2) q).1) retries (delayed w)),
           Z.of_nat (length retries))
      | None => (w, 0)
      end
  end.
Definition js_id (v : jsval) : option string :=
  match v with JString s => if str_truthy s then Some s else None | _ => None end.
(** daemon/recovery/queue-reconstructor.ts:121-135 removeOrphaned
    Whether a job is to go; without a repository no delivery exists. *)
Definition orphaned (t : T) (j : job) : res exn bool :=
  match js_id (js_get "deliveryId" (j_data j)), str_truthy (j_id j) with
  | None, false => Ok false
  | o, _ =>
      let deliveryId := default (j_id j) o in
      match repo ≫= findById with
      | Some f => rec ← f deliveryId t; mret (match rec with Some _ => false | None => true end)
      | None => Ok true
      end
  end.
Fixpoint remove_orphans (t : T) (l : list job) (s : Q * Z) : Q * option Z :=
  match l with
  | [] => (s.1, Some s.2)
  | j :: l =>
      match orphaned t j with
      | Ok true => if locked (j_id j) s.1 then (s.1, None) else remove_orphans t l (q_remove (j_id j) s.1, s.2 + 1)
      | Ok false => remove_orphans t l s
      | Throw _ => (s.1, None)
      end
  end.
(** daemon/recovery/queue-reconstructor.ts:113-139 removeOrphaned *)
Definition removeOrphaned (w : world) : world * Z :=
  match mainQueue with
  | Some _ =>
      let '(q, n) := remove_orphans (db w) (jobs (main w)) (main w, 0) in (World (db w) q (delayed w), default 0 n)
  | None => (w, 0)
  end.

(** daemon/recovery/queue-reconstructor.ts:1-6 ReconstructionResult *)
Record result : Type := Result { enqueued : Z; r_main : Z; r_delayed : Z; deleted : Z }.
(** daemon/recovery/queue-reconstructor.ts:25-41 reconstruct *)
Definition reconstruct (now : Z) (w : world) : world * result :=
  let '(w1, pendingCount) := enqueuePending w in
  let '(w2, retriesCount) := enqueueScheduledRetries now w1 in
  let '(w3, removedCount) := removeOrphaned w2 in
  (w3, Result (pendingCount + retriesCount) pendingCount retriesCount removedCount).

(** daemon/recovery/recovery-daemon.ts:122-131 execute
    The work on one stale delivery; rows have no [maxRetries]. *)
Definition handle_stale (w : world) (x : string * row) : world :=
  if r_retryCount x.2 <? 3 then (enqueuePending w).1 else w.
(** daemon/recovery/recovery-daemon.ts:110-150 execute
    With a detector and a reconstructor; the dead-letter monitor only reads. *)
Definition execute (now staleTimeoutMs : Z) (w : world) : world * result :=
  let w1 := fold_left handle_stale (detectStale (now - staleTimeoutMs) (db w)) w in
  reconstruct now w1.

(** *** Its effect *)

Lemma enqueue_jobs (name : string) (data : string * row -> jsval) (delay : string * row -> Z) l q :
  exists added,
    jobs (fold_left (fun q x => (q_add name (data x) None (delay x) q).1) l q) = jobs q ++ added /\
    map (fun j => (j_name j, j_data j, j_delay j)) added = map (fun x => (name, data x, delay x)) l.
Proof.
  revert q. induction l as [|x l IH]; intros q; simpl; [exists []; by rewrite app_nil_r|].
  destruct (IH (q_add name (data x) None (delay x) q).1) as (added & Ha & Hm).
  exists (Job (q_add name (data x) None (delay x) q).2 name (data x) (delay x) :: added).
  rewrite Ha, add_fresh, <- app_assoc. split; [done|]. simpl. by rewrite Hm.
Qed.

Lemma remove_orphans_none t l s :
  (forall j, j ∈ l -> orphaned t j = Ok false) -> remove_orphans t l s = (s.1, Some s.2).
Proof.
  intros Hl. induction l as [|j l IH]; simpl; [done|]. rewrite (Hl j) by (by left). apply IH.
  intros k Hk. apply Hl. by right.
Qed.

Definition eligible (l : list (string * row)) : nat := length (filter (fun x => (r_retryCount x.2 <? 3) = true) l).

Lemma pending_once (pending : list (string * row)) w :
  mainQueue = Some tt -> lookup_status findPendingDeliveries Status.PENDING (db w) = Ok pending ->
  exists q' added, enqueuePending w = (World (db w) q' (delayed w), Z.of_nat (length pending)) /\
    jobs q' = jobs (main w) ++ added /\ map j_data added = map deliver_data pending.
Proof.
  intros Hq Hl. unfold enqueuePending. rewrite Hl, Hq.
  destruct (enqueue_jobs "deliver" deliver_data (fun _ => 0) pending (main w)) as (added & Ha & Hm).
  eexists _, added. split; [reflexivity|]. split; [exact Ha|].
  apply (f_equal (map (fun y => y.1.2))) in Hm. by rewrite !map_map in Hm.
Qed.

Lemma stale_jobs pending l w :
  mainQueue = Some tt -> lookup_status findPendingDeliveries Status.PENDING (db w) = Ok pending ->
  let w' := fold_left handle_stale l w in
  db w' = db w /\ delayed w' = delayed w /\
  exists added, jobs (main w') = jobs (main w) ++ added /\
    map j_data added = concat (replicate (eligible l) (map deliver_data pending)).
Proof.
  intros Hq. revert w. induction l as [|x l IH]; intros w Hl; cbn [fold_left].
  { split_and!; try done. exists []. by rewrite app_nil_r. }
  unfold handle_stale at 2 4 6. unfold eligible. rewrite filter_cons.
  destruct (r_retryCount x.2 <? 3) eqn:E; [rewrite decide_True by done|rewrite decide_False by done; by apply IH].
  destruct (pending_once pending w Hq Hl) as (q' & added & He & Hj & Hm). rewrite He. cbn [fst].
  destruct (IH (World (db w) q' (delayed w)) Hl) as (H1 & H2 & added' & H3 & H4).
  split_and!; [done|done|]. exists (added ++ added'). rewrite H3. simpl. rewrite Hj, app_assoc. split; [done|].
  by rewrite map_app, Hm, H4.
Qed.

(** A recovery cycle repairs nothing and repeats itself: it writes no
    delivery, so that what is stuck in PROCESSING stays there; for every stale
    delivery with retries left, and once more, it adds a job for each PENDING
    delivery whether or not one is queued, and one for each scheduled retry.  So
    the jobs for the same deliveries pile up cycle after cycle, as long as
    every queued job names a delivery. *)
Theorem recovery_cycle_piles_up now timeoutMs w stale pending retries :
  mainQueue = Some tt -> delayedQueue = Some tt ->
  detectStale (now - timeoutMs) (db w) = stale ->
  lookup_status findPendingDeliveries Status.PENDING (db w) = Ok pending ->
  lookup_status findScheduledRetryDeliveries Status.SCHEDULED_RETRY (db w) = Ok retries ->
  (forall j, j ∈ jobs (main w) -> orphaned (db w) j = Ok false) ->
  (forall x j, x ∈ pending -> j_data j = deliver_data x -> orphaned (db w) j = Ok false) ->
  let '(w', res) := execute now timeoutMs w in
  db w' = db w /\
  res = Result (Z.of_nat (length pending) + Z.of_nat (length retries)) (Z.of_nat (length pending))
          (Z.of_nat (length retries)) 0 /\
  exists added again,
    jobs (main w') = jobs (main w) ++ added /\
    map j_data added = concat (replicate (S (eligible stale)) (map deliver_data pending)) /\
    jobs (delayed w') = jobs (delayed w) ++ again /\
    map (fun j => (j_data j, j_delay j)) again = map (fun x => (retry_job_data x, retry_delay now x.2)) retries.
Proof.
  intros Hq Hdq Hst Hpe Hre Hno Hnew. unfold execute. rewrite Hst.
  destruct (stale_jobs pending stale w Hq Hpe) as (Hd1 & Hd2 & added1 & Hj1 & Hm1).
  set (w1 := fold_left handle_stale stale w) in *. unfold reconstruct.
  destruct (pending_once pending w1 Hq) as (q2 & added2 & -> & Hj2 & Hm2); [by rewrite Hd1|].
  unfold enqueueScheduledRetries. cbn [db main delayed]. rewrite Hd1, Hre, Hdq.
  destruct (enqueue_jobs "deliver_retry" retry_job_data (fun x => retry_delay now x.2) retries (delayed w1))
    as (again & Ha & Hm3).
  assert (jobs q2 = jobs (main w) ++ added1 ++ added2) as Hq2 by (rewrite Hj2, Hj1; by rewrite <- app_assoc).
  assert (map j_data (added1 ++ added2) = concat (replicate (S (eligible stale)) (map deliver_data pending))) as Hm.
  { rewrite map_app, Hm1, Hm2, replicate_S_end, concat_app. simpl. by rewrite app_nil_r. }
  unfold removeOrphaned. rewrite Hq. cbn [db main delayed]. rewrite remove_orphans_none.
  - simpl. split_and!; [done|done|]. exists (added1 ++ added2), again. split_and!; [done|done| |].
    + rewrite Ha. by rewrite Hd2.
    + apply (f_equal (map (fun y => (y.1.2, y.2)))) in Hm3. by rewrite !map_map in Hm3.
  - intros j. rewrite Hq2. intros [Hj|Hj]%elem_of_app; [by apply Hno|].
    assert (j_data j ∈ concat (replicate (S (eligible stale)) (map deliver_data pending))) as Hin
      by (rewrite <- Hm; by apply list_elem_of_fmap_2).
    apply list_elem_of_In, in_concat in Hin as (l & Hl & Hin). apply list_elem_of_In in Hl, Hin.
    apply elem_of_replicate_inv in Hl as ->. apply list_elem_of_fmap in Hin as (x & Hx & Hxin).
    by apply (Hnew x).
Qed.
End cycle.
End RecoveryDaemon.

(** ** The repository of the program, and examples *)

Module Wiring.
Import Store Jobs RecoveryDaemon.

(** infrastructure/repositories/delivery-repository.ts:148-150 findByStatus *)
Definition findByStatus {T} `{Listing T} (s : Status.t) (t : T) : list (string * row) :=
  filter (fun x => r_status x.2 = s) (rows t).
(** What [DeliveryRepository] offers of the methods the daemons look for; the
    table has no column [updatedBefore], so the client refuses that query. *)
Definition delivery_repository {T} `{Listing T} : repository T := {|
  findStaleDeliveries := None; findPendingDeliveries := None; findScheduledRetryDeliveries := None;
  RecoveryDaemon.findByStatus := Some (fun s t => Ok (findByStatus s t));
  findMany_status := Some (fun s t => Ok (findByStatus s t));
  findMany_updatedBefore := Some (fun _ _ => Throw (mapDatabaseError (JsTypeError "Unknown argument `updatedBefore`.")));
  findById := Some (fun id t => Ok (find_delivery id t));
|}.

(** Over it no delivery is ever found stale. *)
Lemma stale_never_detected {T} `{Listing T} cutoff (t : T) : detectStale (Some delivery_repository) cutoff t = [].
Proof. reflexivity. Qed.

Definition demo_row (s : Status.t) (next : option date) : row := Row "tr1" "d1" s 1 next None None None.
Definition demo_tables : tables :=
  Tables (<["a" := demo_row Status.PENDING None]> (<["b" := demo_row Status.SCHEDULED_RETRY (Some (Some 50))]>
          (<["c" := demo_row Status.PROCESSING None]> ∅))) [].
(** The same repository with a look-up that finds the stuck deliveries. *)
Definition finding_repository : repository tables := {|
  findStaleDeliveries := Some (fun _ t => Ok (findByStatus Status.PROCESSING t));
  findPendingDeliveries := None; findScheduledRetryDeliveries := None;
  RecoveryDaemon.findByStatus := Some (fun s t => Ok (findByStatus s t));
  findMany_status := None; findMany_updatedBefore := None;
  findById := Some (fun id t => Ok (find_delivery id t));
|}.
Definition demo_world : RecoveryDaemon.world := World demo_tables no_jobs no_jobs.

Lemma recovery_cycle_piles_up_witness :
  db (execute (Some finding_repository) (Some tt) (Some tt) 100 30 demo_world).1 = demo_tables.
Proof.
  pose proof (recovery_cycle_piles_up (Some finding_repository) (Some tt) (Some tt) 100 30 demo_world
    (findByStatus Status.PROCESSING demo_tables) (findByStatus Status.PENDING demo_tables)
    (findByStatus Status.SCHEDULED_RETRY demo_tables) eq_refl eq_refl eq_refl eq_refl eq_refl) as H.
  destruct (execute (Some finding_repository) (Some tt) (Some tt) 100 30 demo_world) as [w' res].
  apply H.
  - intros j Hj. by apply not_elem_of_nil in Hj.
  - intros x j Hx Hd. assert (findByStatus Status.PENDING demo_tables = [("a", demo_row Status.PENDING None)]) as E
      by (vm_compute; reflexivity).
    rewrite E in Hx. apply list_elem_of_singleton in Hx as ->. unfold orphaned. rewrite Hd. reflexivity.
Defined.

Lemma due_retries_released_witness :
  exists t' q',
    DelayedQueueProcessor.processScheduledRetries 100 (DelayedQueueProcessor.World false demo_tables no_jobs) =
      (DelayedQueueProcessor.World false t' q', Ok 1) /\
    find_delivery "b" t' = Some (demo_row Status.PENDING (Some (Some 50))).
Proof.
  destruct (proj2 (DelayedQueueProcessor.due_retries_released 100
    (DelayedQueueProcessor.World false demo_tables no_jobs)) eq_refl) as (t' & q' & added & H1 & H2 & _).
  exists t', q'. split; [exact H1|]. rewrite H2. vm_compute. reflexivity.
Defined.

Definition demo_job : job := Job "1" "tr1:d1" (DelayedQueueProcessor.retry_data (demo_row Status.SCHEDULED_RETRY None)) 0.
Definition idle_world := Executor.sample_world Status.PENDING [].

Lemma recovery_job_lost_witness :
  exists err,
    Executor.executeWithResilience Executor.sample_repos 0 0 0 "" "1" JUndefined idle_world =
      (idle_world, Ok (Some (Executor.Result false None 0 err (Some Classifier.PERMANENT)))).
Proof.
  destruct (LostJobs.recovery_job_lost Executor.sample_repos demo_job
    (demo_row Status.SCHEDULED_RETRY None) JobProcessor.new 0 0 0 "" idle_world ltac:(done) eq_refl eq_refl)
    as (_ & err & H & _).
  exists err. exact H.
Defined.

(** A queue of lists takes the ids the library takes, and knows its own jobs. *)
Definition own_id (s : string) : bool :=
  match split_on ":" s with [_] | [_; _; _] => true | _ => false end.
#[global] Program Instance list_own_ids : StateSync.OwnIds list_queue := {
  StateSync.getJobs q := Ok (lq q); StateSync.accepts := own_id;
  StateSync.known i q := bool_decide (i ∈ map j_id (lq q));
}.
Next Obligation. intros q l H. by injection H. Qed.
Next Obligation. intros id q Hi. by apply bool_decide_eq_true. Qed.
Next Obligation. intros name data id delay q Hk%bool_decide_eq_true. simpl. unfold lq_add. simpl. by destruct (decide _). Qed.
Next Obligation. intros name data id delay q Hk%bool_decide_eq_false. simpl. unfold lq_add. simpl. by destruct (decide _). Qed.
Next Obligation.
  intros name data id delay i q. simpl. unfold lq_add. simpl. destruct (decide (id ∉ map j_id (lq q))) as [Hn|Hn]; simpl.
  - rewrite map_app. simpl. apply eq_true_iff_eq.
    rewrite orb_true_iff, !bool_decide_eq_true, elem_of_app, list_elem_of_singleton. done.
  - apply dec_stable in Hn. apply eq_true_iff_eq. rewrite orb_true_iff, !bool_decide_eq_true.
    split; [by left|]. by intros [?| ->].
Qed.
Next Obligation. done. Qed.
Next Obligation. done. Qed.

Lemma own_id_colon : StateSync.refuses_colons (Q := list_queue).
Proof.
  intros a b Ha Hb. change (own_id (a +:+ String ":" b) = false). unfold own_id.
  by rewrite split_on_app, split_on_avoids by done.
Qed.

(** A queue with the job of a delivery that is gone, next to a PENDING delivery
    without a job: the one is pruned, the other stays without. *)
Definition orphaned_queue : list_queue := (q_add "tr9:d9" JUndefined (Some "tr9:d9") 0 no_jobs).1.
Lemma sync_effect_witness :
  let o := StateSync.sync (StateSync.World false demo_tables orphaned_queue) in
  o.2 = (1, 1) /\ forall i, i ∈ map j_id (jobs (StateSync.queue o.1)) -> i ∈ ["tr9:d9"].
Proof.
  pose proof (StateSync.sync_effect (StateSync.World false demo_tables orphaned_queue) eq_refl) as H.
  destruct (StateSync.sync (StateSync.World false demo_tables orphaned_queue)) as [w' [n e]].
  destruct H as (_ & _ & _ & H). destruct (H _ eq_refl) as (_ & _ & _ & Hr).
  destruct (Hr own_id_colon) as (Hi & Hn & He); [|split; [simpl; rewrite Hn, He; vm_compute; reflexivity|exact Hi]].
  intros id r Hx. apply rows_find in Hx.
  assert (r_taskResultId r = "tr1" /\ r_destinationId r = "d1") as [-> ->]; [|by repeat split].
  simpl in Hx. apply lookup_insert_Some in Hx as [[_ <-]|[_ Hx]]; [done|].
  apply lookup_insert_Some in Hx as [[_ <-]|[_ Hx]]; [done|].
  apply lookup_insert_Some in Hx as [[_ <-]|[_ Hx]]; [done|]. by rewrite lookup_empty in Hx.
Defined.

End Wiring.
