(* ===== verification/TaskResult.v ===== *)
(** * Task results

    The aggregate an ingested result becomes: its two identifiers
    ([domain/value-objects/email-id.vo.ts], [agent-id.vo.ts]), the entity
    ([domain/entities/ai-task-result.entity.ts]), the validation of a request
    ([application/services/validate-result.service.ts]), the mapper between
    requests, entities and responses ([application/mappers/result-mapper.ts]) and
    the adapter that stores results
    ([infrastructure/database/PrismaTaskResultRepository.ts]), over a table that
    takes a row or refuses it ([Results]).  The regular
    expressions of the code are predicates on strings; a class of characters is
    a predicate on ASCII. *)
From Stdlib Require Import Ascii QArith Qround Qpower Qabs Lqa.
From stdpp Require Import base tactics numbers list strings gmap pretty.
From S2P Require Import Prelude JsNum JsValue Errors ValueObjects Connectors Text.

(** ** Characters *)

Definition in_range (lo hi : nat) (c : ascii) : bool :=
  let n := Ascii.nat_of_ascii c in ((lo <=? n) && (n <=? hi))%nat.
Definition is_alnum (c : ascii) : bool := in_range 48 57 c || in_range 65 90 c || in_range 97 122 c.
Definition char_of (set : string) (c : ascii) : bool := negb (avoids c set).

(** ** EmailId *)

Module EmailId.

Record t : Type := Mk { value : string }.

Definition local_char (c : ascii) : bool := is_alnum c || char_of ".!#$%&'*+/=?^_`{|}~-" c.
Definition label_char (c : ascii) : bool := is_alnum c || char_of "-" c.
(** The last character. *)
Fixpoint last_char (s : string) : option ascii :=
  match s with
  | EmptyString => None
  | String c EmptyString => Some c
  | String _ s => last_char s
  end.
Definition is_some_and (p : ascii -> bool) (o : option ascii) : bool := match o with Some c => p c | None => false end.
(** [[a-zA-Z0-9](?:[a-zA-Z0-9-]{0,61}[a-zA-Z0-9])?] *)
Definition label (s : string) : bool :=
  (String.length s <=? 63)%nat && str_forall label_char s
  && is_some_and is_alnum (String.get 0 s) && is_some_and is_alnum (last_char s).
(** domain/value-objects/email-id.vo.ts:16-16 emailRegex *)
Definition matches (s : string) : bool :=
  match split_on "@" s with
  | [user; domain] => str_truthy user && str_forall local_char user && forallb label (split_on "." domain)
  | _ => false
  end.

(** domain/value-objects/email-id.vo.ts:9-23 constructor *)
Definition create (v : jsval) : res exn t :=
  match v with
  | JString value =>
      if negb (str_truthy value) then Throw (ValidationError "Email address must be a non-empty string.")
      else if matches (trim value) then Ok (Mk (trim value))
      else Throw (ValidationError ("Invalid email address format: " +:+ quoted value +:+ ". Must conform to RFC 5321."))
  | _ => Throw (ValidationError "Email address must be a non-empty string.")
  end.
(** domain/value-objects/email-id.vo.ts:35-40 equals *)
Definition equals (a b : t) : bool := str_eqb (to_lower (value a)) (to_lower (value b)).

Definition valid (a : t) : Prop := matches (value a) = true.

Lemma last_char_app s c : last_char (s +:+ String c "") = Some c.
Proof. induction s as [|d s IH]; [done|]. simpl. rewrite IH. by destruct s. Qed.

Lemma char_not_space c : local_char c = true -> is_space c = false.
Proof. by destruct c as [[] [] [] [] [] [] [] []]. Qed.
Lemma label_char_not_space c : label_char c = true -> is_space c = false.
Proof. by destruct c as [[] [] [] [] [] [] [] []]. Qed.

Lemma no_space_impl (p : ascii -> bool) s :
  (forall c, p c = true -> is_space c = false) -> str_forall p s = true ->
  str_forall (fun c => negb (is_space c)) s = true.
Proof. intros Hp. apply str_forall_impl. intros c Hc. by rewrite (Hp c Hc). Qed.

(** An address has no white space. *)
Lemma matches_no_space s : matches s = true -> str_forall (fun c => negb (is_space c)) s = true.
Proof.
  unfold matches. intros Hm. apply (split_on_forall _ "@"%char); [done|].
  destruct (split_on "@" s) as [|user [|domain []]]; try done.
  apply andb_true_iff in Hm as [[_ Hu]%andb_true_iff Hd].
  intros w [->|[->|?%elem_of_nil]%elem_of_cons]%elem_of_cons; [|clear Hu|done].
  - by apply (no_space_impl local_char), Hu; apply char_not_space.
  - apply (split_on_forall _ "."%char); [done|]. intros w Hw. rewrite forallb_forall in Hd.
    specialize (Hd w (proj1 (list_elem_of_In _ _) Hw)). unfold label in Hd. rewrite !andb_true_iff in Hd.
    by apply (no_space_impl label_char); [apply label_char_not_space|apply Hd].
Qed.

Lemma email_create_valid v a : create v = Ok a -> valid a /\ create (JString (value a)) = Ok a.
Proof.
  destruct v as [| | | |s| | | |]; simpl; try done. destruct (str_truthy s) eqn:Et; [|done]. simpl.
  destruct (matches (trim s)) eqn:Em; [|done]. intros [= <-]. split; [done|]. simpl.
  rewrite (trim_no_space (trim s)) by (by apply matches_no_space). rewrite Em.
  destruct (str_truthy (trim s)) eqn:E2; [done|]. unfold str_truthy in E2. apply negb_false_iff, str_eqb_eq in E2.
  by rewrite E2 in Em.
Qed.
End EmailId.

(** ** AgentId *)

Module AgentId.

Record t : Type := Mk { value : string }.

(** domain/value-objects/agent-id.vo.ts:19-19 agentIdRegex *)
Definition agent_char (c : ascii) : bool := is_alnum c || char_of "-_." c.

(** domain/value-objects/agent-id.vo.ts:9-26 constructor *)
Definition create (v : jsval) : res exn t :=
  match v with
  | JString value =>
      if negb (str_truthy value) then Throw (ValidationError "Agent ID must be a non-empty string.")
      else
        let trimmed := trim value in
        let n := String.length trimmed in
        if (n <? 1)%nat || (255 <? n)%nat
        then Throw (ValidationError ("Agent ID length must be between 1 and 255 characters. Received "
                                     +:+ pretty n +:+ "."))
        else if str_forall agent_char trimmed then Ok (Mk trimmed)
        else Throw (ValidationError ("Invalid Agent ID format: " +:+ quoted value
                                     +:+ ". Must contain only alphanumeric characters and hyphens."))
  | _ => Throw (ValidationError "Agent ID must be a non-empty string.")
  end.
(** domain/value-objects/agent-id.vo.ts:38-43 equals *)
Definition equals (a b : t) : bool := str_eqb (value a) (value b).

Definition valid (a : t) : Prop :=
  (1 <= String.length (value a) <= 255)%nat /\ str_forall agent_char (value a) = true.

Lemma agent_create_valid v a : create v = Ok a -> valid a /\ create (JString (value a)) = Ok a.
Proof.
  destruct v as [| | | |s| | | |]; simpl; try done. destruct (str_truthy s); [|done]. simpl.
  destruct (_ || _) eqn:El; [done|]. destruct (str_forall agent_char (trim s)) eqn:Ec; [|done]. intros [= <-].
  simpl. apply orb_false_iff in El as [L1%Nat.ltb_ge L2%Nat.ltb_ge].
  assert (trim (trim s) = trim s) as Ht.
  { apply trim_no_space. revert Ec. apply str_forall_impl.
    by intros [[] [] [] [] [] [] [] []]. }
  split; [by split; [simpl; lia|]|]. rewrite Ht, Ec, (proj2 (Nat.ltb_ge _ _) L1), (proj2 (Nat.ltb_ge _ _) L2).
  destruct (str_truthy (trim s)) eqn:E; [done|]. unfold str_truthy in E. apply negb_false_iff, str_eqb_eq in E.
  rewrite E in L1. simpl in L1. lia.
Qed.
End AgentId.

(** ** AiTaskResult *)

Module AiTaskResult.

(** domain/entities/ai-task-result.entity.ts:35-44 AiTaskResult
    [deletedAt] is the class's own field; [base_deletedAt] that of the aggregate
    root, which [delete] writes.  The root's own creation time is never read. *)
Record t : Type := Mk {
  id : string; emailId : EmailId.t; agentId : AgentId.t; agentVersion : jsval;
  confidenceScore : Confidence.t; resultPayload : jsval; metadata : jsval;
  createdAt : date; updatedAt : date; deletedAt : option date;
  base_deletedAt : option date; events : list jsval;
}.

(** domain/entities/ai-task-result.entity.ts:19-30 AiTaskResultProps *)
Record props : Type := Props {
  p_id : option string;
  p_emailId : EmailId.t + jsval; p_agentId : AgentId.t + jsval; p_agentVersion : jsval;
  p_confidenceScore : Confidence.t + jsval; p_resultPayload : jsval; p_metadata : jsval;
  p_createdAt : option date; p_updatedAt : option date; p_deletedAt : option date;
}.

(** The empty object literal. *)
Definition empty : jsval := JObject 0 [].
Definition value_or {A} (create : jsval -> res exn A) (v : A + jsval) : res exn A :=
  match v with inl a => Ok a | inr v => create v end.

(** domain/entities/ai-task-result.entity.ts:46-58 constructor *)
Definition new (now : Z) (uuid : string) (p : props) : res exn t :=
  emailId ← value_or EmailId.create (p_emailId p);
  agentId ← value_or AgentId.create (p_agentId p);
  confidenceScore ← value_or Confidence.create (p_confidenceScore p);
  mret (Mk (str_or (default "" (p_id p)) uuid) emailId agentId (js_or (p_agentVersion p) "1.0.0")
    confidenceScore (js_or (p_resultPayload p) empty) (js_or (p_metadata p) empty)
    (default (Some now) (p_createdAt p)) (default (Some now) (p_updatedAt p)) (p_deletedAt p) None []).

(** domain/entities/ai-task-result.entity.ts:60-62 getId *)
Definition getId (e : t) : string := id e.
(** domain/entities/ai-task-result.entity.ts:64-66 isDeleted *)
Definition isDeleted (e : t) : bool := match deletedAt e with Some _ => true | None => false end.
(** domain/entities/ai-task-result.entity.ts:68-70 getEmailId *)
Definition getEmailId (e : t) : string := EmailId.value (emailId e).
(** domain/entities/ai-task-result.entity.ts:72-74 getAgentId *)
Definition getAgentId (e : t) : string := AgentId.value (agentId e).
(** domain/entities/ai-task-result.entity.ts:80-82 getConfidenceScore *)
Definition getConfidenceScore (e : t) : num := Fin (Confidence.value (confidenceScore e)).
(** domain/entities/ai-task-result.entity.ts:104-106 updateUpdatedAt *)
Definition updateUpdatedAt (now : Z) (e : t) : t :=
  Mk (id e) (emailId e) (agentId e) (agentVersion e) (confidenceScore e) (resultPayload e) (metadata e)
     (createdAt e) (Some now) (deletedAt e) (base_deletedAt e) (events e).
(** domain/types/aggregates.types.ts:39-41 delete
    Inherited. *)
Definition delete (now : Z) (e : t) : t :=
  Mk (id e) (emailId e) (agentId e) (agentVersion e) (confidenceScore e) (resultPayload e) (metadata e)
     (createdAt e) (updatedAt e) (deletedAt e) (Some (Some now)) (events e).

(** domain/events/result-ingested-event.ts:16-29 constructor
    With the name the factory gives it; id and time are left out. *)
Definition ingested_event (e : t) : jsval :=
  JObject 0 [("aggregateId", JString (id e)); ("aggregateType", JString "AiTaskResult");
             ("eventType", JString "RESULT_INGESTED"); ("version", JNum (ofZ 1));
             ("resultId", JString (id e)); ("emailId", JString (getEmailId e)); ("agentId", JString (getAgentId e));
             ("confidenceScore", JNum (getConfidenceScore e)); ("destinationCount", JNum (ofZ 1));
             ("name", JString "AiResultReceivedEvent")].
Definition announce (e : t) : t :=
  Mk (id e) (emailId e) (agentId e) (agentVersion e) (confidenceScore e) (resultPayload e) (metadata e)
     (createdAt e) (updatedAt e) (deletedAt e) (base_deletedAt e) (events e ++ [ingested_event e]).

(** domain/entities/ai-task-result.entity.ts:123-135 create
    Called with an object of properties. *)
Definition create_props (now : Z) (uuid : string) (p : props) : res exn t :=
  e ← new now uuid p; mret (announce e).

Definition has_value (v : jsval) : bool :=
  match v with JObject _ fs | JError _ fs => match assoc "value" fs, assoc "getValue" fs with None, None => false | _, _ => true end | _ => false end.
Definition is_string (v : jsval) : bool := match v with JString _ => true | _ => false end.
Definition is_num (v : jsval) : bool := match v with JNum _ => true | _ => false end.
(** A score, as a value object or any value. *)
Definition score_arg : Type := Confidence.t + jsval.
Definition arg_js (a : score_arg) : jsval := match a with inl c => JNum (Fin (Confidence.value c)) | inr v => v end.

(** domain/entities/ai-task-result.entity.ts:137-179 create
    Called with separate arguments: the version may be left out.  [fourth] is the
    payload, or the score after a version. *)
Definition create_positional (now : Z) (uuid : string) (emailId : EmailId.t + jsval) (agentId : AgentId.t + jsval)
    (third fourth : score_arg) (fifth sixth : jsval) : res exn t :=
  let versioned :=
    match third, fourth with
    | inr (JString _), inl _ => true
    | inr (JString _), inr v => is_object v || is_num v || match v with JNull => true | _ => false end
    | _, _ => false
    end in
  let '(version, score, payload, meta) :=
    if versioned
    then match fourth with
         | inl c => (arg_js third, inl c, js_or fifth empty, js_or sixth empty)
         | inr v => if has_value v then (arg_js third, inr v, js_or fifth empty, js_or sixth empty)
                    else (arg_js third, inr (js_or fifth (JNum (ofZ 1))), js_or v empty, js_or sixth empty)
         end
    else (JString "1.0.0", third, js_or (arg_js fourth) empty, js_or fifth empty) in
  e ← new now uuid (Props None emailId agentId version score payload meta None None None);
  mret (announce e).

(** domain/entities/ai-task-result.entity.ts:184-209 restore *)
Definition restore (now : Z) (uuid id : string) (emailId : EmailId.t + jsval) (agentId : AgentId.t + jsval)
    (agentVersion : jsval) (confidenceScore : Confidence.t + jsval) (resultPayload metadata : jsval)
    (createdAt updatedAt deletedAt : option date) : res exn t :=
  new now uuid (Props (Some id) emailId agentId agentVersion confidenceScore resultPayload metadata createdAt
                  (match updatedAt with Some d => Some d | None => createdAt end) deletedAt).

(** *** What every entity satisfies *)

(** An entity of value objects that validate; [restore] keeps an empty id only if the generated one is. *)
Record valid (e : t) : Prop := Valid {
  v_email : exists v, EmailId.create v = Ok (emailId e);
  v_agent : exists v, AgentId.create v = Ok (agentId e);
  v_score : Confidence.valid (confidenceScore e);
  v_version : js_truthy (agentVersion e) = true;
  v_payload : js_truthy (resultPayload e) = true;
}.

(** A value object given as an argument was made by its constructor. *)
Definition made {A} (create : jsval -> res exn A) (v : A + jsval) : Prop :=
  match v with inl a => exists w, create w = Ok a | inr _ => True end.
Definition made_props (p : props) : Prop :=
  made EmailId.create (p_emailId p) /\ made AgentId.create (p_agentId p) /\ made Confidence.create (p_confidenceScore p).

Lemma value_or_made {A} (create : jsval -> res exn A) v a :
  made create v -> value_or create v = Ok a -> exists w, create w = Ok a.
Proof. destruct v as [b|w]; simpl; [by intros ? [= <-]|by intros _ ?; exists w]. Qed.

Lemma js_or_truthy v w : js_truthy w = true -> js_truthy (js_or v w) = true.
Proof. unfold js_or. by destruct (js_truthy v) eqn:E. Qed.

Lemma result_new_valid now uuid p e : made_props p -> new now uuid p = Ok e -> valid e /\ events e = [] /\ base_deletedAt e = None.
Proof.
  intros (He & Ha & Hc). unfold new. munfold.
  destruct (value_or EmailId.create _) as [em|] eqn:E1; [|done]. simpl.
  destruct (value_or AgentId.create _) as [ag|] eqn:E2; [|done]. simpl.
  destruct (value_or Confidence.create _) as [cs|] eqn:E3; [|done]. simpl. intros [= <-]. split; [|done].
  apply value_or_made in E1, E2, E3; try done. destruct E3 as [w E3].
  constructor; simpl; [done|done|by eapply Confidence.confidence_create_valid|by apply js_or_truthy|by apply js_or_truthy].
Qed.

Lemma announce_valid e : valid e -> valid (announce e).
Proof. by intros []; constructor. Qed.

Lemma delete_valid now e : valid e -> valid (delete now e).
Proof. by intros []; constructor. Qed.

(** Deleting a result leaves it undeleted: the inherited method writes the
    field of the root, [isDeleted] reads the entity's own. *)
Lemma delete_ineffective now e : isDeleted (delete now e) = isDeleted e.
Proof. done. Qed.
End AiTaskResult.

(** ** Validation of a request *)

Module Validation.

(** [new ValidationError(field, text)]. *)
Definition field_error (field text : string) : exn :=
  ValidationError ("Validation error on " +:+ field +:+ ": " +:+ text).
(** The message of a thrown error. *)
Definition message (e : exn) : string := js_String (js_get "message" (Errors.exn_js e)).

(** Decimal digits, at least one, and what follows. *)
Fixpoint skip_digits (s : string) : string :=
  match s with
  | String c s' => if is_digit c then skip_digits s' else s
  | EmptyString => EmptyString
  end.
Definition after_number (s : string) : option string := if starts_with_digit s then Some (skip_digits s) else None.
Definition after_dot (s : string) : option string :=
  match s with String "."%char s => Some s | _ => None end.
(** [^\d+\.\d+\.\d+(-[a-zA-Z0-9.]+)?$] *)
Definition semver (s : string) : bool :=
  match (a ← after_number s; b ← after_dot a; c ← after_number b; d ← after_dot c; after_number d) with
  | Some EmptyString => true
  | Some (String "-"%char pre) => str_truthy pre && str_forall (fun c => is_alnum c || char_of "." c) pre
  | _ => false
  end.

(** [toFixed(2)] of a number that is not negative. *)
Definition toFixed2 (q : Q) : string :=
  let n := Qfloor (q * 100 + (1 # 2)) in
  pretty (n / 100) +:+ "." +:+ Json.pad 2 (n mod 100).
Definition maxByteSize : Z := 10 * 1024 * 1024.
Definition byte_size (payload : jsval) : Z :=
  Z.of_nat (String.length (default "" (Json.stringify payload))).

(** application/services/validate-result.service.ts:70-82 validatePayload *)
Definition validatePayload (payload : jsval) : res exn unit :=
  if negb (is_object payload) || match payload with JArray _ _ => true | _ => false end
  then Throw (field_error "resultPayload" "Result payload must be a valid JSON object.")
  else if maxByteSize <? byte_size payload
  then Throw (field_error "resultPayload" ("Result payload size (" +:+ toFixed2 (byte_size payload # 1048576)
                                           +:+ "MB) exceeds 10MB limit."))
  else Ok tt.

(** A field that is present is checked. *)
Definition check_field (k : string) (bad : jsval -> bool) (text : string) (metadata : jsval) : res exn unit :=
  match js_get k metadata with
  | JUndefined => Ok tt
  | v => if bad v then Throw (field_error ("llmMetadata." +:+ k) text) else Ok tt
  end.
Definition blank (v : jsval) : bool := match v with JString s => negb (str_truthy (trim s)) | _ => true end.
Definition not_sha256 (v : jsval) : bool :=
  negb (str_forall is_hex (js_String v) && (String.length (js_String v) =? 64)%nat).
Definition negative (v : jsval) : bool := match v with JNum n => num_ltb n (ofZ 0) | _ => true end.
(** application/services/validate-result.service.ts:87-111 validateLLMMetadata *)
Definition validateLLMMetadata (metadata : jsval) : res exn unit :=
  if negb (is_object metadata) then Throw (field_error "llmMetadata" "LLM metadata must be an object.")
  else
    check_field "model" blank "LLM model must be a non-empty string." metadata;;
    check_field "promptHash" not_sha256 "LLM prompt hash must be a valid SHA-256 string." metadata;;
    check_field "tokenInput" negative "LLM tokenInput must be a non-negative integer." metadata;;
    check_field "tokenOutput" negative "LLM tokenOutput must be a non-negative integer." metadata;;
    check_field "latency" negative "LLM latency must be a non-negative number." metadata.

Definition required (k : string) (missing : bool) : res exn unit :=
  if missing then Throw (field_error k ("Field " +:+ quoted k +:+ " is required.")) else Ok tt.
(** A value object that cannot be made. *)
Definition made_from {A} (create : res exn A) (k text : string) : res exn unit :=
  match create with Ok _ => Ok tt | Throw e => Throw (field_error k (text +:+ message e)) end.

(** application/services/validate-result.service.ts:17-65 validateRequest *)
Definition validateRequest (request : jsval) : res exn unit :=
  if negb (js_truthy request) then Throw (ValidationError "Request body is required.")
  else
    required "emailId" (negb (js_truthy (js_get "emailId" request)));;
    required "agentId" (negb (js_truthy (js_get "agentId" request)));;
    required "confidenceScore" (is_nullish (js_get "confidenceScore" request));;
    required "resultPayload" (negb (js_truthy (js_get "resultPayload" request)));;
    made_from (EmailId.create (js_get "emailId" request)) "emailId" "Invalid email format: ";;
    made_from (AgentId.create (js_get "agentId" request)) "agentId" "Invalid agent ID format: ";;
    (if negb (js_truthy (js_get "agentVersion" request)) || negb (semver (js_String (js_get "agentVersion" request)))
     then Throw (field_error "agentVersion" "Agent version must be a valid semantic version string.") else Ok tt);;
    made_from (Confidence.create (js_get "confidenceScore" request)) "confidenceScore" "Invalid confidence score: ";;
    validatePayload (js_get "resultPayload" request);;
    (if js_truthy (js_get "llmMetadata" request) then validateLLMMetadata (js_get "llmMetadata" request) else Ok tt).
(** application/services/validate-result.service.ts:116-119 validate *)
Definition validate (request : jsval) : res exn unit := validateRequest request.
End Validation.

(** ** The mapper *)

Module ResultMapper.
Import AiTaskResult.

Definition props_of (dto : jsval) : props :=
  Props None (inr (js_get "emailId" dto)) (inr (js_get "agentId" dto)) (js_get "agentVersion" dto)
    (inr (js_get "confidenceScore" dto)) (js_get "resultPayload" dto) (js_get "llmMetadata" dto) None None None.
(** application/mappers/result-mapper.ts:13-30 toDomain *)
Definition toDomain (now : Z) (uuid : string) (dto : jsval) : res exn t :=
  if negb (js_truthy dto) then Throw (ValidationError "Request payload parameters are missing.")
  else match create_props now uuid (props_of dto) with
       | Ok e => Ok e
       | Throw err => Throw (ValidationError (str_or (Validation.message err) "Failed mapping ingestion payload properties."))
       end.

(** application/mappers/result-mapper.ts:42-70 toResponse
    Of an entity; its getters return strings and a number. *)
Record response : Type := Response {
  rs_id : string; rs_resultId : string; rs_emailId : string; rs_agentId : string; rs_agentVersion : jsval;
  rs_confidenceScore : num; rs_resultPayload : jsval; rs_timestamp : date; rs_createdAt : date;
}.
(** application/mappers/result-mapper.ts:42-70 toResponse *)
Definition toResponse (e : t) : response :=
  Response (getId e) (getId e) (getEmailId e) (getAgentId e) (agentVersion e)
    (num_or (getConfidenceScore e) (ofZ 0)) (resultPayload e) (createdAt e) (createdAt e).
(** application/mappers/result-mapper.ts:89-105 toDTO
    With the two dates apart. *)
Definition toDTO (e : t) : jsval * date * date :=
  (JObject 0 [("id", JString (getId e)); ("emailId", JString (getEmailId e)); ("agentId", JString (getAgentId e));
              ("agentVersion", agentVersion e); ("confidenceScore", JNum (num_or (getConfidenceScore e) (ofZ 0)));
              ("resultPayload", resultPayload e); ("llmMetadata", js_or (metadata e) empty)],
   createdAt e, updatedAt e).
End ResultMapper.

(** ** The stored results *)

Module PrismaTaskResultRepository.
Import AiTaskResult.

(** A row of ai_task_result. *)
Record row : Type := Row {
  r_emailId : string; r_agentId : string; r_agentVersion : jsval; r_resultPayload : jsval;
  r_confidenceScore : num; r_createdAt : date; r_updatedAt : date; r_deletedAt : option date;
}.

(** The table: [upsert] updates the row of an id, or creates one.  What the
    client and the columns take as a row is theirs to say ([takes]); the column
    of the version is text. *)
Class Results (T : Type) := {
  takes : row -> bool;
  takes_text r : takes r = true -> is_string (r_agentVersion r) = true;
  find_result : string -> T -> option row;
  upsert_result : string -> (row -> row) -> row -> T -> T;
  upsert_find_eq id f n t :
    find_result id (upsert_result id f n t) = Some (match find_result id t with Some r => f r | None => n end);
  upsert_find_ne id id' f n t : id <> id' -> find_result id' (upsert_result id f n t) = find_result id' t;
}.

Definition gmap_upsert (id : string) (f : row -> row) (n : row) (t : gmap string row) : gmap string row :=
  <[id := match t !! id with Some r => f r | None => n end]> t.
#[global] Program Instance gmap_results : Results (gmap string row) := {
  takes r := is_string (r_agentVersion r); find_result id t := t !! id; upsert_result := gmap_upsert;
}.
Next Obligation. done. Qed.
Next Obligation. intros id f n t. unfold gmap_upsert. simpl. by rewrite lookup_insert_eq. Qed.
Next Obligation. intros id id' f n t Hne. unfold gmap_upsert. simpl. by rewrite lookup_insert_ne. Qed.

Section repository.
Context {T : Type} `{Results T}.
Abbreviation M := (meth T exn).

(** infrastructure/database/PrismaTaskResultRepository.ts:11-23 toDomain *)
Definition toDomain (now : Z) (uuid id : string) (r : row) : res exn t :=
  restore now uuid id (inr (JString (r_emailId r))) (inr (JString (r_agentId r))) (r_agentVersion r)
    (inr (JNum (r_confidenceScore r))) (r_resultPayload r) JUndefined
    (Some (r_createdAt r)) (Some (r_updatedAt r)) (r_deletedAt r).
Definition created_row (now : Z) (e : t) : row :=
  Row (getEmailId e) (getAgentId e) (agentVersion e) (resultPayload e) (getConfidenceScore e)
    (createdAt e) (Some now) (if isDeleted e then Some (Some now) else None).
Definition not_taken : exn := PlainError "Invalid `prisma.aiTaskResult.upsert()` invocation".
(** infrastructure/database/PrismaTaskResultRepository.ts:25-51 save *)
Definition save (now : Z) (uuid : string) (e : t) : M t := fun db =>
  if negb (takes (created_row now e)) then (db, Throw not_taken) else
  let update r := let n := created_row now e in
    Row (r_emailId n) (r_agentId n) (r_agentVersion n) (r_resultPayload n) (r_confidenceScore n)
        (r_createdAt r) (r_updatedAt n) (r_deletedAt n) in
  let db' := upsert_result (getId e) update (created_row now e) db in
  match find_result (getId e) db' with
  | Some r => (db', toDomain now uuid (getId e) r)
  | None => (db', Throw (PlainError "the upserted record is returned"))
  end.
(** infrastructure/database/PrismaTaskResultRepository.ts:52-57 findById *)
Definition findById (now : Z) (uuid id : string) : M (option t) := fun db =>
  match find_result id db with
  | Some r => (db, e ← toDomain now uuid id r; Ok (Some e))
  | None => (db, Ok None)
  end.
(** infrastructure/database/PrismaTaskResultRepository.ts:59-64 findByTaskId *)
Definition findByTaskId (now : Z) (uuid id : string) : M (option t) := findById now uuid id.
(** infrastructure/database/PrismaTaskResultRepository.ts:66-69 findByIdempotencyKey *)
Definition findByIdempotencyKey (key : string) : M (option t) := mret None.
(** infrastructure/database/PrismaTaskResultRepository.ts:71-73 update *)
Definition update (now : Z) (uuid : string) (e : t) : M t := save now uuid e.

(** What is left of an entity: no metadata, no events, and the creation time
    of its first save. *)
Definition persisted (now : Z) (created : date) (e : t) : t :=
  Mk (id e) (emailId e) (agentId e) (agentVersion e) (confidenceScore e) (resultPayload e) empty
     created (Some now) (if isDeleted e then Some (Some now) else None) None [].

Lemma toDomain_created now now' uuid created e :
  valid e -> id e <> "" ->
  toDomain now' uuid (id e) (Row (getEmailId e) (getAgentId e) (agentVersion e) (resultPayload e) (getConfidenceScore e)
     created (Some now) (if isDeleted e then Some (Some now) else None)) = Ok (persisted now created e).
Proof.
  intros [[v1 V1] [v2 V2] V3 V4 V5] Hid. unfold toDomain, restore, new.
  cbn -[EmailId.create AgentId.create Confidence.create].
  destruct (EmailId.email_create_valid _ _ V1) as [_ E1]. destruct (AgentId.agent_create_valid _ _ V2) as [_ E2].
  unfold getEmailId, getAgentId, getConfidenceScore. rewrite E1, E2.
  rewrite (Confidence.confidence_create_ok _ V3). simpl. unfold persisted, js_or, str_or, str_truthy. rewrite V4, V5. simpl.
  destruct (str_eqb (id e) "") eqn:E; [by apply str_eqb_eq in E|]. simpl. by destruct (confidenceScore e).
Qed.

Lemma save_find now uuid e db :
  valid e -> id e <> "" -> takes (created_row now e) = true ->
  let created := match find_result (id e) db with Some r => r_createdAt r | None => createdAt e end in
  let '(db', o) := save now uuid e db in
  o = Ok (persisted now created e) /\
  (forall now' uuid', (findById now' uuid' (id e) db').2 = Ok (Some (persisted now created e))) /\
  (forall id' now' uuid', id' <> id e -> (findById now' uuid' id' db').2 = (findById now' uuid' id' db).2).
Proof.
  intros Hv Hid Htk. cbn zeta. unfold save, getId. rewrite Htk. cbn [negb]. rewrite upsert_find_eq.
  set (created := match find_result (id e) db with Some r => r_createdAt r | None => createdAt e end).
  set (db' := upsert_result _ _ _ _).
  assert (find_result (id e) db' = Some (Row (getEmailId e) (getAgentId e) (agentVersion e) (resultPayload e)
            (getConfidenceScore e) created (Some now) (if isDeleted e then Some (Some now) else None))) as Hf.
  { unfold db'. rewrite upsert_find_eq. unfold created, created_row. by destruct (find_result (id e) db). }
  assert (forall r0, find_result (id e) db' = Some r0 -> forall now' uuid', toDomain now' uuid' (id e) r0 = Ok (persisted now created e)) as Ht.
  { intros r0 E now' uuid'. rewrite Hf in E. injection E as <-. by apply toDomain_created. }
  split; [|split].
  - apply Ht. unfold db'. by rewrite upsert_find_eq.
  - intros now' uuid'. unfold findById. rewrite Hf. simpl. by rewrite toDomain_created.
  - intros id' now' uuid' Hne. unfold findById, db'. rewrite upsert_find_ne by done. by destruct (find_result id' db).
Qed.
End repository.
End PrismaTaskResultRepository.

(** ** What the parts promise together *)

Section ingestion.
Import AiTaskResult Validation ResultMapper PrismaTaskResultRepository.
Context {T : Type} `{Results T}.

Lemma validated_fields req :
  validateRequest req = Ok tt ->
  js_truthy req = true /\
  (exists em, EmailId.create (js_get "emailId" req) = Ok em) /\
  (exists ag, AgentId.create (js_get "agentId" req) = Ok ag) /\
  js_truthy (js_get "agentVersion" req) = true /\
  (exists cs, Confidence.create (js_get "confidenceScore" req) = Ok cs) /\
  js_truthy (js_get "resultPayload" req) = true /\ byte_size (js_get "resultPayload" req) <= maxByteSize.
Proof.
  unfold validateRequest, required, made_from. destruct (js_truthy req); [|done]. simpl. intros Hv.
  destruct (js_truthy (js_get "emailId" req)); [|done]. destruct (js_truthy (js_get "agentId" req)); [|done].
  destruct (is_nullish (js_get "confidenceScore" req)); [done|].
  destruct (js_truthy (js_get "resultPayload" req)); [|done]. simpl in Hv.
  destruct (EmailId.create (js_get "emailId" req)); [|done]. destruct (AgentId.create (js_get "agentId" req)); [|done].
  simpl in Hv. destruct (js_truthy (js_get "agentVersion" req)); [|done].
  destruct (semver _); [|done]. simpl in Hv. destruct (Confidence.create _); [|done]. simpl in Hv.
  destruct (validatePayload _) eqn:Ep; [|done]. unfold validatePayload in Ep.
  destruct (_ || _); [done|]. destruct (maxByteSize <? _) eqn:Es; [done|]. apply Z.ltb_ge in Es. eauto 10.
Qed.

Lemma validated_entity now uuid req :
  validateRequest req = Ok tt ->
  exists e, ResultMapper.toDomain now uuid req = Ok e /\ valid e /\
    EmailId.create (js_get "emailId" req) = Ok (emailId e) /\
    AgentId.create (js_get "agentId" req) = Ok (agentId e) /\
    Confidence.create (js_get "confidenceScore" req) = Ok (confidenceScore e) /\
    agentVersion e = js_get "agentVersion" req /\ resultPayload e = js_get "resultPayload" req /\
    byte_size (resultPayload e) <= maxByteSize /\ getId e = uuid /\ length (events e) = 1%nat /\ createdAt e = Some now.
Proof.
  intros Hv. destruct (validated_fields req Hv) as (Ht & [em Eem] & [ag Eag] & Hver & [cs Ecs] & Hp & Hsz).
  set (e := announce (Mk uuid em ag (js_get "agentVersion" req) cs (js_get "resultPayload" req)
              (js_or (js_get "llmMetadata" req) empty) (Some now) (Some now) None None [])).
  exists e. split; [|split; [|done]].
  - unfold ResultMapper.toDomain, create_props, new. rewrite Ht.
    cbn -[EmailId.create AgentId.create Confidence.create js_get].
    rewrite Eem, Eag, Ecs. simpl. unfold js_or at 1 2. by rewrite Hver, Hp.
  - constructor; simpl; [by eexists|by eexists|by eapply Confidence.confidence_create_valid|done|done].
Qed.

Lemma untaken_version now e req :
  agentVersion e = js_get "agentVersion" req -> is_string (js_get "agentVersion" req) = false -> takes (created_row now e) = false.
Proof.
  intros Hve Hs. destruct (takes (created_row now e)) eqn:E; [|done]. apply takes_text in E. simpl in E. congruence.
Qed.

(** C14: what becomes of a request that validates.  The mapper always makes an
    entity of it, with the trimmed identifiers, the version, the score and the
    payload as they were given, which announces itself once.  The domain's
    adapter stores that entity if the client and the columns take the row: read
    back it is the same, without its metadata, under the time of its first save,
    and every other result is as it was.  A row they do not take is refused and
    changes nothing; so is that of a version which is no text, such as the list
    of one text, although its form was checked.  (The repository the program is
    wired with checks the address again: [Ingest.WiredIngest].) *)
Theorem validated_request_stored now now' uuid req (db : T) :
  validateRequest req = Ok tt -> uuid <> "" ->
  exists e, ResultMapper.toDomain now uuid req = Ok e /\
    EmailId.create (js_get "emailId" req) = Ok (emailId e) /\
    AgentId.create (js_get "agentId" req) = Ok (agentId e) /\
    Confidence.create (js_get "confidenceScore" req) = Ok (confidenceScore e) /\
    agentVersion e = js_get "agentVersion" req /\ resultPayload e = js_get "resultPayload" req /\
    byte_size (resultPayload e) <= maxByteSize /\ getId e = uuid /\ length (events e) = 1%nat /\
    (is_string (js_get "agentVersion" req) = false -> takes (created_row now' e) = false) /\
    let '(db', o) := save now' uuid e db in
    if takes (created_row now' e)
    then
      let kept := persisted now' (match find_result uuid db with Some r => r_createdAt r | None => Some now end) e in
      o = Ok kept /\
      (forall t u, (findById t u uuid db').2 = Ok (Some kept)) /\
      (forall id t u, id <> uuid -> (findById t u id db').2 = (findById t u id db).2)
    else db' = db /\ o = Throw not_taken.
Proof.
  intros Hv Hu. destruct (validated_entity now uuid req Hv) as (e & He & Hval & Hem & Hag & Hcs & Hve & Hpl & Hsz & Hid & Hev & Hcr).
  exists e. split_and!; try done. { exact (untaken_version now' e req Hve). } unfold getId in Hid.
  assert (id e <> "") as Hne by congruence. pose proof (save_find now' uuid e db Hval Hne) as Hs. cbn zeta in Hs.
  destruct (takes (created_row now' e)) eqn:Et; [|unfold save; by rewrite Et].
  specialize (Hs eq_refl). rewrite Hid, Hcr in Hs. destruct (save now' uuid e db) as [db' o]. destruct Hs as (Ho & Hf & Hne').
  split_and!; [exact Ho|intros t u; apply Hf|intros; by apply Hne'].
Qed.
End ingestion.

Definition sample_request : jsval :=
  JObject 0 [("emailId", JString " ann@example.com "); ("agentId", JString "classifier-1"); ("agentVersion", JString "1.2.0");
             ("confidenceScore", JNum (Fin (9 # 10))); ("resultPayload", JObject 1 [("label", JString "spam")])].

Example request_examples :
  (Validation.validateRequest sample_request, EmailId.matches "a@b", EmailId.matches "a b@c.d", EmailId.matches "a@-b.c",
   Validation.semver "1.0.0-rc.1", Validation.semver "1.0", Validation.toFixed2 (11534336 # 1048576)) =
  (Ok tt, true, false, false, true, false, "11.00").
Proof. vm_compute. reflexivity. Qed.

Definition listed_version : jsval :=
  JObject 0 [("emailId", JString "ann@example.com"); ("agentId", JString "classifier-1"); ("agentVersion", JArray 2 [JString "1.2.0"]);
             ("confidenceScore", JNum (Fin (9 # 10))); ("resultPayload", JObject 1 [("label", JString "spam")])].

Lemma validated_request_stored_witness :
  (exists e, ResultMapper.toDomain 5 "u1" sample_request = Ok e /\ EmailId.create " ann@example.com " = Ok (AiTaskResult.emailId e)) /\
  exists e, ResultMapper.toDomain 5 "u1" listed_version = Ok e /\
    PrismaTaskResultRepository.save 6 "u1" e (∅ : gmap string PrismaTaskResultRepository.row) =
      (∅, Throw PrismaTaskResultRepository.not_taken).
Proof.
  split.
  - destruct (validated_request_stored (T := gmap string PrismaTaskResultRepository.row) 5 6 "u1" sample_request ∅)
      as (e & He & Hm & _); [vm_compute; reflexivity|discriminate|]. by exists e.
  - destruct (validated_request_stored (T := gmap string PrismaTaskResultRepository.row) 5 6 "u1" listed_version ∅)
      as (e & He & _ & _ & _ & _ & _ & _ & _ & _ & Ht & Hs); [vm_compute; reflexivity|discriminate|]. exists e. split; [exact He|].
    rewrite (Ht eq_refl) in Hs. destruct (PrismaTaskResultRepository.save 6 "u1" e ∅) as [db o]. by destruct Hs as [-> ->].
Defined.
