(* ===== verification/Destinations.v ===== *)
(** * Destinations as the application registers and lists them

    The repository of [infrastructure/database/PrismaDestinationRepository.ts]
    ([DestinationStore]), the pages of [application/dto/pagination.dto.ts]
    ([Pagination]), the mapper ([DestinationMapper]) and the services that
    register destinations and look them up ([RegisterDestination],
    [FindDestinations]). *)
From Stdlib Require Import Ascii QArith Qround Qpower Qabs Lqa.
From stdpp Require Import base tactics numbers list strings gmap pretty.
From S2P Require Import Prelude JsNum JsValue Errors DomainTypes ValueObjects RetryStrategy Destination Connectors Text TaskResult.

(** A destination as a repository gives it: an entity, or a row with its type
    and whether it is enabled. *)
Inductive dest_obj : Type := DEntity (d : Destination.t) | DRow (id : string) (ty : DestType.t) (enabled : bool).
Definition dest_id (d : dest_obj) : string := match d with DEntity d => Destination.id d | DRow id _ _ => id end.

(** ** PrismaDestinationRepository *)

Module DestinationStore.

(** The columns the repository writes. *)
Record row : Type := Row {
  r_endpointUrl : string; r_type : DestType.t; r_eventFilters : option (list (string * jsval)); r_enabled : bool;
  r_createdAt : date; r_updatedAt : date; r_deletedAt : option date;
}.

(** The table: [upsert] updates the row of an id, or creates one. *)
Class DestTable (T : Type) := {
  find_row : string -> T -> option row;
  list_rows : T -> list (string * row);
  upsert_row : string -> (row -> row) -> row -> T -> T;
  list_find id r t : (id, r) ∈ list_rows t <-> find_row id t = Some r;
  list_NoDup t : NoDup (map fst (list_rows t));
  upsert_row_eq id f n t :
    find_row id (upsert_row id f n t) = Some (match find_row id t with Some r => f r | None => n end);
  upsert_row_ne id id' f n t : id <> id' -> find_row id' (upsert_row id f n t) = find_row id' t;
}.
Definition put (id : string) (f : row -> row) (n : row) (t : gmap string row) : gmap string row :=
  <[id := match t !! id with Some r => f r | None => n end]> t.
#[global] Program Instance gmap_destinations : DestTable (gmap string row) := {
  find_row id t := t !! id; list_rows := map_to_list; upsert_row := put;
}.
Next Obligation. intros id r t. apply elem_of_map_to_list. Qed.
Next Obligation. intros t. apply NoDup_fst_map_to_list. Qed.
Next Obligation. intros id f n t. unfold put. by rewrite lookup_insert_eq. Qed.
Next Obligation. intros id id' f n t Hne. unfold put. by rewrite lookup_insert_ne. Qed.

Section repository.
Context {T : Type} `{DestTable T}.
Abbreviation M := (meth T exn).

(** infrastructure/database/PrismaDestinationRepository.ts:12-32 toDomain
    Of the strategy, the threshold, the time-out and the metadata nothing is
    read. *)
Definition toDomain (now : Z) (id : string) (r : row) : res exn Destination.t :=
  Destination.restore now (Destination.Params id (inr JUndefined) (inr (JObject 0 [("kind", JString (DestType.kind (r_type r)))]))
    "" (r_endpointUrl r) (r_eventFilters r) (inr JUndefined) JUndefined JUndefined (Some (r_enabled r)) None
    (Some (r_createdAt r)) (Some (r_updatedAt r)) (r_deletedAt r)).
Definition isDeleted (d : Destination.t) : bool := match Destination.deletedAt d with Some _ => true | None => false end.
Definition created_row (now : Z) (d : Destination.t) : row :=
  Row (Destination.endpoint d) (Destination.type d) (Destination.eventFilters d) (Destination.enabled d)
    (Destination.createdAt d) (Some now) (if isDeleted d then Some (Some now) else None).
Definition updated_row (now : Z) (d : Destination.t) (r : row) : row :=
  Row (Destination.endpoint d) (Destination.type d) (Destination.eventFilters d) (Destination.enabled d)
    (r_createdAt r) (Some now) (if isDeleted d then Some (Some now) else None).
(** infrastructure/database/PrismaDestinationRepository.ts:34-59 save *)
Definition save (now : Z) (d : Destination.t) : M Destination.t := fun t =>
  let t' := upsert_row (Destination.id d) (updated_row now d) (created_row now d) t in
  (t', match find_row (Destination.id d) t' with
       | Some r => toDomain now (Destination.id d) r
       | None => Throw (PlainError "the upserted record is returned")
       end).
(** infrastructure/database/PrismaDestinationRepository.ts:61-66 findById *)
Definition findById (now : Z) (id : string) : M (option Destination.t) := fun t =>
  (t, match find_row id t with
      | Some r => d ← toDomain now id r; Ok (Some d)
      | None => Ok None
      end).
Fixpoint all_domain (now : Z) (l : list (string * row)) : res exn (list Destination.t) :=
  match l with
  | [] => Ok []
  | (id, r) :: l => d ← toDomain now id r; rest ← all_domain now l; mret (d :: rest)
  end.
Definition is_live (x : string * row) : bool := match r_deletedAt x.2 with None => true | Some _ => false end.
(** infrastructure/database/PrismaDestinationRepository.ts:68-73 findAllActive *)
Definition findAllActive (now : Z) : M (list Destination.t) := fun t =>
  (t, all_domain now (filter (fun x => r_enabled x.2 && is_live x = true) (list_rows t))).
(** infrastructure/database/PrismaDestinationRepository.ts:75-80 findAll *)
Definition findAll (now : Z) : M (list Destination.t) := fun t =>
  (t, all_domain now (filter (fun x => is_live x = true) (list_rows t))).
(** infrastructure/database/PrismaDestinationRepository.ts:82-84 update *)
Definition update (now : Z) (d : Destination.t) : M Destination.t := save now d.

(** What is left of a destination: of its strategy, threshold, time-out and
    metadata the defaults, and the creation time of its first save. *)
Definition default_strategy : Strategy.t :=
  Strategy.Mk "EXPONENTIAL" (Strategy.Config (ofZ 1000) (ofZ 3600000) Strategy.tenth (Some (ofZ 5))).
Definition persisted (now : Z) (created : date) (d : Destination.t) : Destination.t :=
  Destination.Mk (Destination.id d) created (if isDeleted d then Some (Some now) else None) (Destination.type d)
    (Destination.endpoint d) (Destination.eventFilters d) default_strategy (ofZ 5) (ofZ 30000) (Destination.enabled d) [] (Some now).

Lemma restored now id url ty fs en c u dl :
  id <> "" -> url <> "" -> (ty = DestType.WEBHOOK -> starts_with "http://" url = true \/ starts_with "https://" url = true) ->
  toDomain now id (Row url ty fs en c u dl) =
    Ok (Destination.Mk id c dl ty url fs default_strategy (ofZ 5) (ofZ 30000) en [] u).
Proof.
  intros Hid Hurl Hw. apply Destination.str_truthy_ne in Hid, Hurl. apply Destination.validateEndpoint_ok in Hw.
  unfold toDomain, Destination.restore.
  assert (Destination.type_of (Destination.truthy_or (inr JUndefined) (inr (JObject 0 [("kind", JString (DestType.kind ty))]))) = Ok ty)
    as Et by (by destruct ty).
  cbn [Destination.p_type Destination.p_destinationType r_type]. rewrite Et. simpl.
  unfold Destination.new, str_or. simpl. rewrite Hid, Hurl, Hw. done.
Qed.

Lemma saved_row now d (t : T) :
  find_row (Destination.id d) (save now d t).1 =
    Some (Row (Destination.endpoint d) (Destination.type d) (Destination.eventFilters d) (Destination.enabled d)
            (match find_row (Destination.id d) t with Some r => r_createdAt r | None => Destination.createdAt d end)
            (Some now) (if isDeleted d then Some (Some now) else None)).
Proof. unfold save. simpl. rewrite upsert_row_eq. by destruct (find_row (Destination.id d) t). Qed.

Lemma destination_save_find now d (t : T) :
  Destination.valid d ->
  let created := match find_row (Destination.id d) t with Some r => r_createdAt r | None => Destination.createdAt d end in
  let '(t', r) := save now d t in
  r = Ok (persisted now created d) /\
  (forall now', findById now' (Destination.id d) t' = (t', Ok (Some (persisted now created d)))) /\
  (forall id, id <> Destination.id d -> find_row id t' = find_row id t).
Proof.
  intros (V1 & V2 & _ & _ & V5). cbn zeta. pose proof (saved_row now d t) as Hr.
  set (created := match find_row _ t with Some _ => _ | None => _ end) in *.
  destruct (save now d t) as [t' r] eqn:Es. simpl in Hr. unfold save in Es. injection Es as Et Er. rewrite Et, Hr in Er.
  split; [|split].
  - rewrite <- Er. by apply restored.
  - intros now'. unfold findById. rewrite Hr. simpl. by rewrite (restored now').
  - intros id Hne. rewrite <- Et. by apply upsert_row_ne.
Qed.
End repository.
End DestinationStore.

(** ** Pages *)

Module Pagination.

(** application/dto/pagination.dto.ts:20-35 PaginatedResponse
    The values under [pagination]; those beside it are the same. *)
Record page (A : Type) : Type := Page { pg_data : list A; pg_page : num; pg_limit : num; pg_total : Z; pg_hasMore : bool }.
Arguments Page {A}. Arguments pg_data {A}. Arguments pg_page {A}. Arguments pg_limit {A}.
Arguments pg_total {A}. Arguments pg_hasMore {A}.

(** application/dto/pagination.dto.ts:40-44 calculateOffset *)
Definition calculateOffset (page limit : num) : num :=
  let validPage := num_max (ofZ 1) page in
  let validLimit := num_max (ofZ 1) limit in
  num_mul (num_sub validPage (ofZ 1)) validLimit.
(** application/dto/pagination.dto.ts:49-74 createPaginatedResponse *)
Definition createPaginatedResponse {A} (data : list A) (total : Z) (page limit : num) : Pagination.page A :=
  let validPage := num_max (ofZ 1) page in
  let validLimit := num_max (ofZ 1) limit in
  Page data validPage validLimit total (num_ltb (num_mul validPage validLimit) (ofZ total)).

Definition is_word (c : ascii) : bool :=
  let n := nat_of_ascii c in
  is_digit c || ((65 <=? n) && (n <=? 90))%nat || ((97 <=? n) && (n <=? 122))%nat || (n =? 95)%nat.
(** The checked parameters. *)
Record params : Type := Params { p_page : num; p_limit : num; p_sort : string; p_order : string }.
(** application/dto/pagination.dto.ts:77-105 validate
    The parameters have the types declared.  The message is the field's name:
    the text is passed as details. *)
Definition validate (page limit : option num) (sort order : option string) : res exn params :=
  let page := default (ofZ 1) page in
  let limit := default (ofZ 50) limit in
  let sort := default "createdAt" sort in
  let order := match order with Some o => to_lower o | None => "desc" end in
  if is_nan page || num_leb page (ofZ 0) then Throw (ValidationError "page")
  else if is_nan limit || num_leb limit (ofZ 0) || num_gtb limit (ofZ 1000) then Throw (ValidationError "limit")
  else if str_truthy sort && negb (str_forall is_word sort) then Throw (ValidationError "sort")
  else if negb (str_eqb order "asc") && negb (str_eqb order "desc") then Throw (ValidationError "order")
  else Ok (Params page limit sort order).

(** api/validators/request-validators.ts:54-57 paginationSchema
    A parameter of a query, or its absence; a falsy number gives the default. *)
Definition query_page (v : string) : Z := Z.max 1 (match parse_int v with Some 0 | None => 1 | Some n => n end).
Definition query_limit (v : string) : Z := Z.min 100 (Z.max 1 (match parse_int v with Some 0 | None => 20 | Some n => n end)).
(** api/validators/request-validators.ts:99-106 paginationParams
    Both parameters are required: with one missing, the other is dropped. *)
Definition paginationParams (page limit : option string) : Z * Z :=
  match page, limit with Some p, Some l => (query_page p, query_limit l) | _, _ => (1, 20) end.

(** The relative index of [slice]. *)
Definition to_index (len : Z) (n : num) : Z :=
  match n with
  | NaN => 0
  | Inf neg => if neg then 0 else len
  | Fin q => let k := Qtrunc q in if k <? 0 then Z.max 0 (len + k) else Z.min k len
  end.
(** [l.slice(start, end)]. *)
Definition slice {A} (start stop : num) (l : list A) : list A :=
  let len := Z.of_nat (length l) in
  let a := to_index len start in
  let b := to_index len stop in
  take (Z.to_nat (b - a)) (drop (Z.to_nat a) l).
(** A page of a list, as the services cut it. *)
Definition cut {A} (page limit : num) (l : list A) : list A :=
  let start := num_mul (num_sub page (ofZ 1)) limit in
  slice start (num_add start limit) l.

Lemma Qtrunc_eq q z : q == inject_Z z -> Qtrunc q = z.
Proof.
  intros Hq. unfold Qtrunc. destruct (Qle_bool 0 q); rewrite Hq; [apply Qfloor_Z|apply Qceiling_Z].
Qed.
Lemma cut_at {A} p n (l : list A) :
  1 <= p -> 1 <= n -> cut (ofZ p) (ofZ n) l = take (Z.to_nat n) (drop (Z.to_nat ((p - 1) * n)) l).
Proof.
  intros Hp Hn. unfold cut, slice, num_mul, num_sub, num_neg, num_add, ofZ. simpl.
  rewrite (Qtrunc_eq _ ((p - 1) * n + n)), (Qtrunc_eq _ ((p - 1) * n)).
  2,3: rewrite ?inject_Z_plus, inject_Z_mult; unfold Z.sub; rewrite inject_Z_plus, inject_Z_opp; ring.
  assert (0 <= (p - 1) * n) by nia. rewrite !(proj2 (Z.ltb_ge _ 0)) by lia.
  set (a := (p - 1) * n) in *. set (len := Z.of_nat (length l)).
  destruct (Z.le_gt_cases len a).
  - rewrite (drop_ge l (Z.to_nat a)) by lia. rewrite (drop_ge l (Z.to_nat (Z.min a len))) by lia. by rewrite !take_nil.
  - rewrite (Z.min_l a) by lia. destruct (Z.le_gt_cases (a + n) len).
    + f_equal. lia.
    + rewrite !take_ge; [done| |]; rewrite length_drop; lia.
Qed.

Lemma hasMore_at {A} (data : list A) total p n :
  1 <= p -> 1 <= n -> createPaginatedResponse data total (ofZ p) (ofZ n) = Page data (ofZ p) (ofZ n) total (p * n <? total).
Proof.
  intros Hp Hn. unfold createPaginatedResponse. rewrite !num_max_Z, !Z.max_r by done.
  change (num_mul (ofZ p) (ofZ n)) with (ofZ (p * n)). by rewrite num_ltb_Z.
Qed.

(** Consecutive chunks of a list. *)
Lemma chunks {A} (n k : nat) (l : list A) :
  concat (map (fun i => take n (drop (i * n) l)) (seq 0 k)) = take (k * n) l.
Proof.
  induction k as [|k IH]; [done|]. rewrite seq_S, map_app, concat_app, IH. simpl.
  rewrite app_nil_r, take_take_drop. f_equal. lia.
Qed.
End Pagination.

(** ** DestinationMapper *)

Module DestinationMapper.

(** application/dto/destination.dto.ts:4-26 CreateDestinationRequest
    [None] is [undefined]; the strategy's two properties may be missing. *)
Record request : Type := Request {
  rq_type : option string; rq_destinationType : option string;
  rq_endpoint : option string; rq_endpointUrl : option string;
  rq_eventFilters : option (list (string * jsval));
  rq_retryStrategy : option (jsval * jsval);
  rq_circuitBreakerThreshold : option num; rq_timeout : option num;
  rq_enabled : option bool;
}.
(** application/dto/destination.dto.ts:54-81 DestinationResponse *)
Record response : Type := Response {
  rs_id : string; rs_type : string; rs_endpoint : string; rs_eventFilters : option (list (string * jsval));
  rs_enabled : bool; rs_strategyType : string; rs_strategyConfig : Strategy.config;
  rs_circuitBreakerThreshold : num; rs_timeout : num; rs_createdAt : date; rs_updatedAt : date;
}.

(** [RetryStrategyVO.create(type, config)]; without a configuration it takes the
    defaults. *)
Definition make_strategy (ty config : jsval) : res exn Strategy.t :=
  match ty, config with
  | JString s, JUndefined => Strategy.create_static s None
  | _, _ => Destination.strategy_create ty config
  end.
Definition type_of (rq : request) : string := str_or (default "" (rq_type rq)) (default "" (rq_destinationType rq)).
Definition endpoint_of (rq : request) : string := str_or (default "" (rq_endpoint rq)) (default "" (rq_endpointUrl rq)).
(** application/mappers/destination-mapper.ts:15-54 toDomain *)
Definition toDomain (now : Z) (uuid : string) (dto : request) : res exn Destination.t :=
  if negb (str_truthy (type_of dto)) then Throw (ValidationError "Destination type is required.")
  else if negb (str_truthy (endpoint_of dto)) then Throw (ValidationError "Destination endpoint URL is required.")
  else
    ty ← DestType.create (JString (type_of dto));
    retryStrategy ← (match rq_retryStrategy dto with
                     | Some (t, c) => make_strategy t c
                     | None => Strategy.exponential None None None None
                     end);
    entity ← Destination.create now uuid (Some ty) (endpoint_of dto) (Some retryStrategy)
               (JNum (default (ofZ 5) (rq_circuitBreakerThreshold dto))) (JNum (default (ofZ 30000) (rq_timeout dto)))
               (rq_eventFilters dto) [] None;
    Ok (match rq_enabled dto with Some false => (Destination.disable now entity).1 | _ => entity end).
(** application/mappers/destination-mapper.ts:59-61 toDomainEntity *)
Definition toDomainEntity := toDomain.
Definition response_of (d : Destination.t) : response :=
  Response (Destination.id d) (DestType.getValue (Destination.type d)) (Destination.endpoint d) (Destination.eventFilters d)
    (Destination.enabled d) (Strategy.type (Destination.retryStrategy d)) (Strategy.cfg (Destination.retryStrategy d))
    (Destination.circuitBreakerThreshold d) (Destination.timeout d) (Destination.createdAt d) (Destination.updatedAt d).
(** application/mappers/destination-mapper.ts:66-99 toResponse
    A row has no getter. *)
Definition toResponse (d : dest_obj) : res exn response :=
  match d with
  | DEntity d => Ok (response_of d)
  | DRow _ _ _ => Throw (Connectors.type_error "entity.getId is not a function")
  end.
Fixpoint responses (l : list dest_obj) : res exn (list response) :=
  match l with
  | [] => Ok []
  | d :: l => r ← toResponse d; rest ← responses l; mret (r :: rest)
  end.
(** application/mappers/destination-mapper.ts:104-116 toListResponse
    The page's data and total are those of the list response. *)
Definition toListResponse (entities : list dest_obj) (total : option Z) (page limit : option num)
    : res exn (Pagination.page response) :=
  data ← responses entities;
  Ok (Pagination.createPaginatedResponse data (default (Z.of_nat (length entities)) total) (default (ofZ 1) page)
        (default (num_max (ofZ 1) (ofZ (Z.of_nat (length data)))) limit)).
(** application/mappers/destination-mapper.ts:121-137 toDTO
    With the two dates apart. *)
Definition toDTO (d : Destination.t) : jsval * date * date :=
  (JObject 0 [("id", JString (Destination.id d)); ("type", JString (DestType.getValue (Destination.type d)));
              ("endpoint", JString (Destination.endpoint d));
              ("eventFilters", match Destination.eventFilters d with Some fs => JObject 1 fs | None => JNull end);
              ("enabled", JBool (Destination.enabled d)); ("circuitBreakerThreshold", JNum (Destination.circuitBreakerThreshold d));
              ("timeout", JNum (Destination.timeout d))],
   Destination.createdAt d, Destination.updatedAt d).
End DestinationMapper.

(** What the services use of a repository of destinations. *)
Record dest_repo (W : Type) : Type := DestRepo {
  findAll : option (meth W exn (list dest_obj));
  findAllActive : option (meth W exn (list dest_obj));
  findById : option (string -> meth W exn (option dest_obj));
  save : option (Destination.t -> meth W exn dest_obj);
}.
Arguments DestRepo {W}. Arguments findAll {W}. Arguments findAllActive {W}. Arguments findById {W}. Arguments save {W}.

(** ** RegisterDestinationService *)

Module RegisterDestination.
Import DestinationMapper.

(** [.+] from the character of the given index on. *)
Definition some_char (n : nat) (s : string) : bool :=
  match String.get n s with
  | Some c => negb (Ascii.eqb c "010") && negb (Ascii.eqb c "013")
  | None => false
  end.
(** [/^https?:\/\/.+/i] *)
Definition http_url (s : string) : bool :=
  (starts_with "http://" (to_lower s) && some_char 7 s) || (starts_with "https://" (to_lower s) && some_char 8 s).

(** application/services/register-destination.service.ts:30-41 validateEndpoint *)
Definition validateEndpoint (type endpoint : string) : res exn unit :=
  if negb (str_truthy endpoint) || negb (str_truthy (trim endpoint))
  then Throw (Validation.field_error "endpoint" "Destination endpoint URL is required.")
  else if str_eqb (to_upper type) "WEBHOOK" && negb (http_url endpoint)
  then Throw (Validation.field_error "endpoint"
                ("Webhook destination endpoint must be a valid HTTP/HTTPS URL. Received: " +:+ quoted endpoint))
  else Ok tt.

Section service.
Context {W : Type} (repo : dest_repo W).
(** application/services/register-destination.service.ts:46-69 register *)
Definition register (now : Z) (uuid : string) (request : request) : meth W exn response :=
  let typeStr := str_or (type_of request) "WEBHOOK" in
  lift_res (validateEndpoint typeStr (endpoint_of request));;
  destination ← lift_res (toDomain now uuid request);
  match save repo with
  | None => fail (Connectors.type_error "this.destinationRepository.save is not a function")
  | Some f => saved ← f destination; lift_res (toResponse saved)
  end.
End service.
End RegisterDestination.

(** ** FindDestinationsService *)

Module FindDestinations.
Import DestinationMapper Pagination.

(** The properties of the payload of a result. *)
Definition payload_fields (v : jsval) : list (string * jsval) := match v with JObject _ fs => fs | _ => [] end.
(** What the filters of a destination see of a result: a property of the payload
    hides the result's own of the same name. *)
Definition criteria (e : AiTaskResult.t) : jsval :=
  JObject 0 (payload_fields (AiTaskResult.resultPayload e) ++
    [("emailId", JString (AiTaskResult.getEmailId e)); ("agentId", JString (AiTaskResult.getAgentId e));
     ("confidenceScore", JNum (AiTaskResult.getConfidenceScore e))]).

Definition page_or (dflt : Z) (n : option num) : num := match n with Some n => num_or n (ofZ dflt) | None => ofZ dflt end.

Section service.
Context {W : Type} (repo : dest_repo W).
Abbreviation M := (meth W exn).

Definition paged (all : list dest_obj) (page limit : option num) : res exn (Pagination.page response) :=
  let page := page_or 1 page in
  let limit := page_or 50 limit in
  data ← responses (cut page limit all);
  Ok (createPaginatedResponse data (Z.of_nat (length all)) page limit).
(** application/services/find-destinations.service.ts:21-38 findAll *)
Definition findAll (page limit : option num) : M (Pagination.page response) :=
  all ← (match Destinations.findAll repo, findAllActive repo with
         | Some f, _ => f
         | None, Some f => f
         | None, None => mret []
         end);
  lift_res (paged all page limit).
Definition type_upper (d : dest_obj) : string :=
  match d with
  | DEntity d => to_upper (DestType.getValue (Destination.type d))
  | DRow _ ty _ => to_upper (DestType.getValue ty)
  end.
(** application/services/find-destinations.service.ts:43-64 findByType *)
Definition findByType (type : string) (page limit : option num) : M (Pagination.page response) :=
  all ← (match Destinations.findAll repo, findAllActive repo with
         | Some f, _ => f
         | None, Some f => f
         | None, None => mret []
         end);
  lift_res (paged (filter (fun d => type_upper d = to_upper type) all) page limit).
Definition is_enabled (d : dest_obj) : bool := match d with DEntity d => Destination.enabled d | DRow _ _ b => b end.
(** application/services/find-destinations.service.ts:69-78 findEnabled *)
Definition findEnabled : M (list response) :=
  active ← (match findAllActive repo, Destinations.findAll repo with
            | Some f, _ => f
            | None, Some f => all ← f; mret (filter (fun d => is_enabled d = true) all)
            | None, None => mret []
            end);
  lift_res (responses active).
(** application/services/find-destinations.service.ts:83-89 findById *)
Definition findById (destinationId : string) : M response :=
  dest ← (match Destinations.findById repo with Some f => f destinationId | None => mret None end);
  match dest with
  | Some d => lift_res (toResponse d)
  | None => fail (DestinationNotFoundError destinationId)
  end.
(** application/services/find-destinations.service.ts:111-119 findMatching
    A row has neither method. *)
Definition wants (payload : jsval) (d : dest_obj) : bool :=
  match d with DEntity d => Destination.matches d payload | DRow _ _ _ => true end.
(** application/services/find-destinations.service.ts:94-125 findMatching
    Of a result, or of an object of properties. *)
Definition findMatching (resultOrFilters : AiTaskResult.t + jsval) : M (list response) :=
  active ← (match findAllActive repo, Destinations.findAll repo with
            | Some f, _ => f
            | None, Some f => f
            | None, None => mret []
            end);
  let payload := match resultOrFilters with inl e => criteria e | inr v => v end in
  lift_res (responses (filter (fun d => wants payload d = true) active)).
End service.
End FindDestinations.

(** ** What the services promise *)

Module Registry.
Import DestinationStore DestinationMapper RegisterDestination Pagination.

Section registry.
Context {T : Type} `{DestTable T}.

(** The repository of entities, as the services see it at an instant. *)
Definition entities {A} (m : meth T exn A) (f : A -> list dest_obj) : meth T exn (list dest_obj) := x ← m; mret (f x).
Definition save_entity (now : Z) (d : Destination.t) : meth T exn dest_obj := fun t =>
  let '(t', r) := DestinationStore.save now d t in (t', DEntity <$> r).
Definition store_repo (now : Z) : dest_repo T := {|
  Destinations.findAll := Some (entities (DestinationStore.findAll now) (map DEntity));
  Destinations.findAllActive := Some (entities (DestinationStore.findAllActive now) (map DEntity));
  Destinations.findById := Some (fun id => d ← DestinationStore.findById now id; mret (DEntity <$> d));
  Destinations.save := Some (save_entity now);
|}.

(** What a request asks of a destination without a strategy of its own. *)
Definition asked (now : Z) (uuid : string) (rq : request) (ty : DestType.t) : Destination.t :=
  Destination.Mk uuid (Some now) None ty (endpoint_of rq) (rq_eventFilters rq) default_strategy
    (default (ofZ 5) (rq_circuitBreakerThreshold rq)) (default (ofZ 30000) (rq_timeout rq))
    (default true (rq_enabled rq)) [] (Some now).
(** The requests the service takes. *)
Record acceptable (rq : request) (ty : DestType.t) : Prop := Acceptable {
  a_type : type_of rq <> ""; a_kind : DestType.create (JString (type_of rq)) = Ok ty;
  a_endpoint : trim (endpoint_of rq) <> "";
  a_webhook : ty = DestType.WEBHOOK -> http_url (endpoint_of rq) = true /\
    (starts_with "http://" (endpoint_of rq) = true \/ starts_with "https://" (endpoint_of rq) = true);
  a_strategy : rq_retryStrategy rq = None;
  a_threshold : num_ltb (default (ofZ 5) (rq_circuitBreakerThreshold rq)) (ofZ 1) = false;
  a_timeout : num_ltb (default (ofZ 30000) (rq_timeout rq)) (ofZ 1) = false;
}.

Lemma trim_nonempty s : trim s <> "" -> s <> "".
Proof. intros Ht ->. by apply Ht. Qed.
Lemma type_webhook s ty : DestType.create (JString s) = Ok ty -> to_upper s = "WEBHOOK" -> ty = DestType.WEBHOOK.
Proof. unfold DestType.create. intros Hc E. assert (upper_val (JString s) = "WEBHOOK") as Eu by exact E. rewrite Eu in Hc. by injection Hc as <-. Qed.

Lemma toDomain_asked now uuid rq ty :
  acceptable rq ty -> uuid <> "" -> toDomain now uuid rq = Ok (asked now uuid rq ty) /\ Destination.valid (asked now uuid rq ty).
Proof.
  intros [A1 A2 A3 A4 A5 A6 A7] Hu. apply trim_nonempty in A3. split.
  - unfold toDomain. apply Destination.str_truthy_ne in A1, A3. rewrite A1, A3, A2, A5. simpl.
    unfold Destination.create, Destination.new, str_or. simpl. apply Destination.str_truthy_ne in Hu. rewrite Hu, A3. simpl.
    unfold Destination.check_ge1. rewrite A6, A7. simpl.
    rewrite (proj2 (Destination.validateEndpoint_ok ty (endpoint_of rq))) by (intros E; by apply A4).
    simpl. unfold asked. by destruct (rq_enabled rq) as [[]|].
  - split_and!; try done. intros E. simpl in E. by apply A4.
Qed.

Lemma registered_eq now uuid rq ty (t : T) :
  acceptable rq ty -> uuid <> "" ->
  register (store_repo now) now uuid rq t =
    let '(t', r) := DestinationStore.save now (asked now uuid rq ty) t in (t', d ← r; Ok (response_of d)).
Proof.
  intros A Hu. destruct (toDomain_asked now uuid rq ty A Hu) as [Hd _]. destruct A as [A1 A2 A3 A4 A5 A6 A7].
  unfold register. rewrite (bind_ok _ _ _ t tt).
  - rewrite (bind_ok _ _ _ t (asked now uuid rq ty)) by (unfold lift_res; by rewrite Hd).
    change ((saved ← save_entity now (asked now uuid rq ty); lift_res (toResponse saved)) t = let '(t', r) := DestinationStore.save now (asked now uuid rq ty) t in (t', d ← r; Ok (response_of d))).
    unfold mbind at 1, meth_bind, save_entity. by destruct (DestinationStore.save now (asked now uuid rq ty) t) as [t' [d|e]].
  - unfold lift_res, validateEndpoint. pose proof (trim_nonempty _ A3) as A3'.
    apply Destination.str_truthy_ne in A1, A3, A3'. unfold str_or. rewrite A1, A3, A3'. simpl.
    destruct (str_eqb _ _) eqn:E; [|done]. apply str_eqb_eq in E. destruct (A4 (type_webhook _ _ A2 E)) as [-> _]. done.
Qed.

(** An acceptable request under a fresh identifier registers an enabled or
    disabled destination of the type, the endpoint and the filters it asks for,
    that [findById] then gives back as it was answered, and no other changes;
    but the threshold, the time-out and the strategy are the defaults, whatever
    was asked. *)
Theorem registered_destination now now' uuid rq ty (t : T) :
  acceptable rq ty -> uuid <> "" -> find_row uuid t = None ->
  let '(t', o) := register (store_repo now) now uuid rq t in
  exists r, o = Ok r /\ FindDestinations.findById (store_repo now') uuid t' = (t', Ok r) /\
    r = Response uuid (DestType.getValue ty) (endpoint_of rq) (rq_eventFilters rq) (default true (rq_enabled rq))
          "EXPONENTIAL" (Strategy.cfg default_strategy) (ofZ 5) (ofZ 30000) (Some now) (Some now) /\
    forall id, id <> uuid -> find_row id t' = find_row id t.
Proof.
  intros A Hu Hn. rewrite (registered_eq now uuid rq ty t A Hu).
  destruct (toDomain_asked now uuid rq ty A Hu) as [_ Hv]. pose proof (destination_save_find now _ t Hv) as Hs. cbn zeta in Hs.
  destruct (DestinationStore.save now (asked now uuid rq ty) t) as [t' r]. destruct Hs as (-> & Hf & Ho). simpl in *. rewrite Hn in *.
  eexists. split_and!; [done| |done|done].
  specialize (Hf now'). unfold FindDestinations.findById. rewrite (bind_ok _ _ t' t' (Some (DEntity (persisted now (Some now) (asked now uuid rq ty))))); [done|].
  change ((d ← DestinationStore.findById now' uuid; mret (DEntity <$> d)) t' = (t', Ok (Some (DEntity (persisted now (Some now) (asked now uuid rq ty)))))).
  by rewrite (bind_ok _ _ _ _ _ Hf).
Qed.
End registry.

Definition sample_request : request :=
  Request (Some "webhook") None (Some "https://x.example/in") None (Some [("label", JString "spam")]) None (Some (ofZ 9)) (Some (ofZ 700)) None.
Lemma sample_acceptable : acceptable sample_request DestType.WEBHOOK.
Proof.
  split; [discriminate|reflexivity|discriminate| |reflexivity|reflexivity|reflexivity].
  intros _. split; [reflexivity|]. by right.
Qed.
Lemma registered_destination_witness :
  exists r, (register (store_repo (T := gmap string row) 5) 5 "d1" sample_request ∅).2 = Ok r /\ rs_timeout r = ofZ 30000.
Proof.
  pose proof (registered_destination (T := gmap string row) 5 6 "d1" sample_request DestType.WEBHOOK ∅) as Hr.
  destruct (register _ _ _ _ _) as [t' o]. destruct Hr as (r & -> & _ & -> & _); [exact sample_acceptable|done|done|].
  eexists. split; [reflexivity|reflexivity].
Defined.

(** *** The pages of a listing *)

Lemma responses_entities l : responses (map DEntity l) = Ok (map response_of l).
Proof. induction l as [|d l IH]; [done|]. simpl. by rewrite IH. Qed.

Section pages.
Context {W : Type} (repo : dest_repo W) (w : W) (l : list Destination.t).
Hypothesis listing : exists f, Destinations.findAll repo = Some f /\ f w = (w, Ok (map DEntity l)).

Lemma page_at p n :
  1 <= p -> 1 <= n ->
  FindDestinations.findAll repo (Some (ofZ p)) (Some (ofZ n)) w =
    (w, Ok (Page (take (Z.to_nat n) (drop (Z.to_nat ((p - 1) * n)) (map response_of l))) (ofZ p) (ofZ n)
              (Z.of_nat (length l)) (p * n <? Z.of_nat (length l)))).
Proof.
  intros Hp Hn. destruct listing as (f & Ef & Hf). unfold FindDestinations.findAll. rewrite Ef, (bind_ok _ _ _ _ _ Hf).
  unfold FindDestinations.paged, FindDestinations.page_or, num_or, lift_res. rewrite !num_truthy_Z.
  rewrite (proj2 (Z.eqb_neq p 0)), (proj2 (Z.eqb_neq n 0)) by lia. cbn [negb].
  rewrite cut_at by done.
  change (drop (Z.to_nat ((p - 1) * n)) (map DEntity l)) with (drop (Z.to_nat ((p - 1) * n)) (DEntity <$> l)).
  rewrite <- fmap_drop, <- fmap_take. change (@fmap list _ Destination.t dest_obj DEntity) with (@map Destination.t dest_obj DEntity).
  rewrite responses_entities. cbn [mbind res_bind]. rewrite hasMore_at by done. do 3 f_equal.
  - rewrite <- fmap_drop, <- fmap_take. done.
  - by rewrite length_map.
  - by rewrite length_map.
Qed.

(** Following the pages of a listing from the first one while there is more
    gives every destination exactly once and in order, and ends: some page says
    there is no more, and all before it that there is. *)
Theorem pages_cover n :
  1 <= n ->
  exists pages : list (page response), pages <> [] /\
    (forall i, (i < length pages)%nat -> exists p, pages !! i = Some p /\
       FindDestinations.findAll repo (Some (ofZ (Z.of_nat i + 1))) (Some (ofZ n)) w = (w, Ok p) /\
       pg_hasMore p = bool_decide (S i < length pages)%nat /\ pg_total p = Z.of_nat (length l)) /\
    concat (map pg_data pages) = map response_of l.
Proof.
  intros Hn. set (len := Z.of_nat (length l)). set (k := Z.to_nat (Z.max 1 ((len + n - 1) / n))).
  assert (len <= Z.of_nat k * n /\ (k = 1%nat \/ (Z.of_nat k - 1) * n < len) /\ (1 <= k)%nat) as (Hk1 & Hk2 & Hk3).
  { unfold k. pose proof (Z.div_mod (len + n - 1) n ltac:(lia)). pose proof (Z.mod_pos_bound (len + n - 1) n ltac:(lia)).
    destruct (Z.max_spec 1 ((len + n - 1) / n)) as [[? ->]|[? ->]]; nia. }
  set (pg := fun i : nat => Page (take (Z.to_nat n) (drop (i * Z.to_nat n) (map response_of l)))
               (ofZ (Z.of_nat i + 1)) (ofZ n) len ((Z.of_nat i + 1) * n <? len)).
  exists (map pg (seq 0 k)). rewrite length_map, length_seq. split; [destruct k; [lia|done]|split].
  - intros i Hi. exists (pg i). split_and!; [| | |done].
    + rewrite list_lookup_fmap, lookup_seq_lt by done. done.
    + rewrite page_at by lia. unfold pg. do 5 f_equal. lia.
    + unfold pg. simpl. apply Bool.eq_true_iff_eq. rewrite Z.ltb_lt, bool_decide_eq_true. destruct Hk2; split; intros; nia.
  - rewrite map_map. change (map (fun x => pg_data (pg x)) (seq 0 k)) with
      (map (fun i => take (Z.to_nat n) (drop (i * Z.to_nat n) (map response_of l))) (seq 0 k)).
    rewrite chunks. apply take_ge. rewrite length_map. unfold len in *. nia.
Qed.
End pages.

Definition sample_listing : dest_repo unit :=
  DestRepo (Some (fun u => (u, Ok (map DEntity [Destination.sample; Destination.sample; Destination.sample])))) None None None.
Lemma pages_cover_witness :
  exists pages : list (page response), pages <> [] /\ concat (map pg_data pages) = repeat (response_of Destination.sample) 3.
Proof.
  destruct (pages_cover sample_listing tt [Destination.sample; Destination.sample; Destination.sample]) with (n := 2)
    as (pages & Hne & _ & Hc); [by eexists|lia|]. exists pages. split; [exact Hne|exact Hc].
Defined.
End Registry.
