(* ===== verification/Services.v ===== *)
(** * The application services

    [application/services/]: processing, failure handling, retry scheduling,
    recovery of stale deliveries, synchronisation and rebuilding of the queue.
    The services take their repository and queue as [any] and test which methods
    they have, so these are records of optional functions ([Ports]); a delivery
    they find is an entity, or a plain row of the database that has no methods.
    [PrismaDeliveryLog] is the repository of entities
    ([infrastructure/database/PrismaDeliveryLogRepository.ts]), [LogQueue] its queue
    ([infrastructure/queue/bullmq.service.ts]); [Wired] are the repository and the
    queue manager the program hands to the services. *)
From Stdlib Require Import Ascii QArith Qround Qpower Qabs Lqa.
From stdpp Require Import base tactics numbers list strings gmap pretty.
From S2P Require Import Prelude JsNum JsValue Errors DomainTypes ValueObjects RetryStrategy Delivery Destination Store Connectors Text Worker Recovery.

(** ** What a service is given *)

Module Ports.
Import Store.

(** A delivery as a service finds it. *)
Inductive dobj : Type := Entity (d : Delivery.t) | Plain (id : string) (r : row).

Record delivery_repo (W : Type) : Type := DeliveryRepo {
  findById : option (string -> meth W exn (option dobj));
  findByTaskResultId : option (string -> meth W exn (list dobj));
  findStale : option (Z -> meth W exn (list dobj));
  findAll : option (meth W exn (list dobj));
  findByStatus : option (string -> meth W exn (list dobj));
  save : option (dobj -> meth W exn dobj);       (* the object as the call leaves it *)
  create : option (Delivery.t -> meth W exn unit);
}.
Arguments DeliveryRepo {W}. Arguments findById {W}. Arguments findByTaskResultId {W}. Arguments findStale {W}.
Arguments findAll {W}. Arguments findByStatus {W}. Arguments save {W}. Arguments create {W}.

(** [add] takes the name, the data, and the options' delay and job id. *)
Record queue_port (W : Type) : Type := QueuePort {
  enqueueDelivery : option (string -> string -> Z -> option num -> meth W exn unit);
  add : option (string -> jsval -> option num -> option string -> meth W exn unit);
  instance : option (meth W exn (list Jobs.job));     (* [getQueueInstance().getJobs] *)
  remove : string -> meth W exn unit;                 (* [job.remove] *)
  clean : option (string -> meth W exn unit);         (* of the instance, or of the queue itself *)
}.
Arguments QueuePort {W}. Arguments enqueueDelivery {W}. Arguments add {W}. Arguments instance {W}.
Arguments remove {W}. Arguments clean {W}.

Definition no_method {A S} (what : string) : meth S exn A := fail (Connectors.type_error (what +:+ " is not a function")).

Section service.
Context {W : Type}.
(** A service at work on one delivery. *)
Abbreviation svc := (meth (dobj * W) exn).

(** A method of the delivery. *)
Definition ent {A} (name : string) (m : meth Delivery.t exn A) : svc A := fun '(o, w) =>
  match o with
  | Entity d => let '(d', r) := m d in ((Entity d', w), r)
  | Plain _ _ => no_method ("delivery." +:+ name) (o, w)
  end.
(** The same, called if the delivery has it. *)
Definition ent_if (m : meth Delivery.t exn unit) : svc unit := fun '(o, w) =>
  match o with
  | Entity d => let '(d', r) := m d in ((Entity d', w), r)
  | Plain _ _ => ((o, w), Ok tt)
  end.
Definition out {A} (m : meth W exn A) : svc A := fun '(o, w) => let '(w', r) := m w in ((o, w'), r).
Definition delivery : svc dobj := gets fst.
Definition persist (repo : delivery_repo W) : svc unit := fun '(o, w) =>
  match save repo with
  | Some f => let '(w', r) := f o w in
              match r with Ok o' => ((o', w'), Ok tt) | Throw e => ((o, w'), Throw e) end
  | None => no_method "this.deliveryRepository.save" (o, w)
  end.
(** The body of a service on the delivery that was loaded. *)
Definition on_loaded {A} (load : meth W exn dobj) (body : svc A) : meth W exn A := fun w =>
  match load w with
  | (w', Ok o) => let '((_, w''), r) := body (o, w') in (w'', r)
  | (w', Throw e) => (w', Throw e)
  end.

(** [getId?.() === id] *)
Definition has_id (id : string) (o : dobj) : bool :=
  match o with Entity d => str_eqb (Delivery.id d) id | Plain _ _ => false end.
(** The identifiers, by getter or property. *)
Definition taskResultId (o : dobj) : string :=
  match o with Entity d => Delivery.taskResultId d | Plain _ r => r_taskResultId r end.
Definition destinationId (o : dobj) : string :=
  match o with Entity d => Delivery.destinationId d | Plain _ r => r_destinationId r end.
Definition own_id (o : dobj) : string := match o with Entity d => Delivery.id d | Plain id _ => id end.
Definition retry_count (o : dobj) : Z := match o with Entity d => Delivery.retryCount d | Plain _ r => r_retryCount r end.
Definition next_retry (o : dobj) : option date :=
  match o with Entity d => Delivery.nextRetryAt d | Plain _ r => r_nextRetryAt r end.
(** The upper-case name of the status. *)
Definition status_upper (o : dobj) : string :=
  match o with
  | Entity d => to_upper (Status.kind (Delivery.status d))
  | Plain _ r => to_upper (Status.getValue (r_status r))
  end.
(** The count by getter only. *)
Definition get_retry_count : svc Z := fun '(o, w) =>
  match o with
  | Entity d => ((o, w), Ok (Delivery.retryCount d))
  | Plain _ _ => no_method "delivery.getRetryCount" (o, w)
  end.

(** application/services/process-delivery.service.ts:58-67 loadDelivery
    The two other services that load a delivery do the same. *)
Definition loadDelivery (repo : delivery_repo W) (deliveryId : string) : meth W exn dobj :=
  found ← (match findById repo with Some f => f deliveryId | None => mret None end);
  match found with
  | Some o => mret o
  | None =>
      all ← (match findByTaskResultId repo with Some f => f deliveryId | None => mret [] end);
      match list_find (fun o => has_id deliveryId o = true) all with
      | Some (_, o) => mret o
      | None => match all with o :: _ => mret o | [] => fail (DeliveryNotFoundError deliveryId) end
      end
  end.

(** A delivery that waits is set PROCESSING before it is rescheduled. *)
Definition leave_waiting (now : Z) : svc unit :=
  o ← delivery;
  let s := status_upper o in
  if str_eqb s "PENDING" || str_eqb s "SCHEDULED_RETRY" || str_eqb s "SCHEDULEDRETRY"
  then ent_if (Delivery.markAsProcessing now) else mret tt.

(** [1000 * Math.pow(2, n)] *)
Definition backoff (n : Z) : num := Fin (1000 * Qpow2 n).
Definition default_max : Z := 5.
End service.
End Ports.

(** ** ProcessDeliveryService *)

Module ProcessDelivery.
Import Ports.

(** Where the answer of a destination comes from, and where attempts go. *)
Record deps (W : Type) : Type := Deps {
  deliveries : delivery_repo W;
  destinations : option (option (string -> meth W exn (option (Destination.t + jsval))));  (* the repository, its findById *)
  recordAttempt3 : option (string -> Z -> num -> num -> option string -> meth W exn unit);
  recordAttempt2 : string -> num -> num -> option string -> meth W exn unit;
  results : option (string -> meth W exn (option jsval));   (* the payload of a result *)
  post : option (jsval -> jsval -> list (string * string) -> jsval -> meth W exn (num * num));  (* status, duration *)
}.
Arguments deliveries {W}. Arguments destinations {W}. Arguments recordAttempt3 {W}. Arguments recordAttempt2 {W}.
Arguments results {W}. Arguments post {W}. Arguments Deps {W}.

(** application/services/process-delivery.service.ts:19-27 ProcessResult *)
Record result : Type := Result {
  rs_status : string; rs_success : bool; rs_statusCode : num; rs_latencyMs : num;
  rs_nextRetryAt : option date; rs_error : option string;
}.

Section service.
Context {W : Type} (dp : deps W).
Abbreviation svc := (meth (dobj * W) exn).

(** application/services/process-delivery.service.ts:69-78 loadDestination *)
Definition loadDestination (id : string) : meth W exn (Destination.t + jsval) :=
  match destinations dp with
  | None => fail (DestinationNotFoundError id)
  | Some find =>
      dest ← (match find with Some f => f id | None => mret None end);
      match dest with Some d => mret d | None => fail (DestinationNotFoundError id) end
  end.

Definition url_of (d : Destination.t + jsval) : jsval :=
  match d with
  | inl d => JString (Destination.endpoint d)
  | inr v => js_or (js_get "endpointUrl" v) (js_get "endpoint" v)
  end.
Definition timeout_of (d : Destination.t + jsval) : jsval :=
  match d with
  | inl d => JNum (Destination.timeout d)
  | inr v => js_or (js_get "timeout" v) (JNum (ofZ 30000))
  end.

(** What one request gives: status, duration, error message, success. *)
Record answer : Type := Answer { an_status : num; an_duration : num; an_error : option string; an_success : bool }.
Definition is_2xx (s : num) : bool := num_geb s (ofZ 200) && num_ltb s (ofZ 300).
(** A number among the properties of an error; a status that is not a number is
    taken to be absent. *)
Definition num_prop (k : string) (v : jsval) : option num :=
  match js_get k v with JNum n => if num_truthy n then Some n else None | _ => None end.
(** application/services/process-delivery.service.ts:119-145 processDelivery
    The request; [t0] and [t1] are the clock before and after it. *)
Definition request (t0 t1 : Z) (url payload : jsval) (headers : list (string * string)) (timeoutMs : jsval)
    : svc answer := fun s =>
  match post dp with
  | None => (s, Ok (Answer (ofZ 200) (ofZ (t1 - t0)) None true))
  | Some f =>
      match out (f url payload headers timeoutMs) s with
      | (s', Ok (st, dur)) =>
          let status := num_or st (ofZ 200) in
          let ok := is_2xx status in
          (s', Ok (Answer status (num_or dur (ofZ (t1 - t0)))
             (if ok then None else Some ("Received non-2xx response status: " +:+ num_to_string status)) ok))
      | (s', Throw e) =>
          let err := Errors.exn_js e in
          (s', Ok (Answer (default (ofZ 0) (match num_prop "status" err with Some n => Some n | None => num_prop "statusCode" err end))
             (ofZ (t1 - t0)) (Some (js_String (js_or (js_get "message" err) "Network connection failed"))) false))
      end
  end.

(** application/services/process-delivery.service.ts:148-162 processDelivery *)
Definition record_attempt (deliveryId : string) (a : answer) : svc unit :=
  match recordAttempt3 dp with
  | None => mret tt
  | Some f =>
      n ← get_retry_count;
      try_catch (out (f deliveryId (n + 1) (an_status a) (an_duration a) (an_error a)))
        (fun _ => out (recordAttempt2 dp deliveryId (an_status a) (an_duration a) (an_error a)))
  end.
(** application/services/process-delivery.service.ts:164-171 processDelivery
    The attempt of the entity: the arguments of [RetryAttempt.create] are out of
    order, the duration goes for the error and the message for the latency. *)
Definition add_attempt (now : Z) (a : answer) : meth Delivery.t exn unit :=
  d ← get_this;
  let n := Delivery.retryCount d + 1 in
  match RetryAttempt.create now (JNum (ofZ n)) (JNum (an_status a)) (JNum (an_duration a))
          (match an_error a with Some m => if str_truthy m then JString m else JUndefined | None => JUndefined end) None with
  | Ok vo => Delivery.addAttempt now vo
  | Throw _ =>
      modify (Delivery.set_attempts (Delivery.attempts d ++
        [Delivery.AttemptRaw n (an_status a) (an_duration a) (an_error a)]))
  end.
Definition retryable (s : num) : bool :=
  num_geb s (ofZ 500) || num_eqb s (ofZ 0) || num_eqb s (ofZ 429) || num_eqb s (ofZ 408).
(** application/services/process-delivery.service.ts:174-191 processDelivery
    The change of state; every branch is followed by [save]. *)
Definition settle (now : Z) (a : answer) : meth Delivery.t exn unit :=
  if an_success a then Delivery.markAsCompleted now Delivery.WNone
  else
    d ← get_this;
    if retryable (an_status a) && Delivery.canRetry default_max d
    then Delivery.scheduleRetry now (Delivery.DelayNum (backoff (Delivery.retryCount d)))
    else Delivery.moveToDeadLetterQueue now (str_or (default "" (an_error a)) "Delivery failed permanently").

Definition headers (deliveryId : string) (d : Delivery.t) : list (string * string) :=
  [("Content-Type", "application/json"); ("X-QueueForge-Task-Id", Delivery.taskResultId d);
   ("X-QueueForge-Delivery-Id", deliveryId); ("X-QueueForge-Attempt", pretty (Delivery.retryCount d + 1))].
(** application/services/process-delivery.service.ts:83-213 processDelivery
    With the clock at its start, before the request and after it. *)
Definition processDelivery (now t0 t1 : Z) (deliveryId : string) (destinationParam : option (Destination.t + jsval))
    : meth W exn result :=
  on_loaded (loadDelivery (deliveries dp) deliveryId)
    (destId ← ent "getDestinationId" (gets Delivery.destinationId);
     destination ← (match destinationParam with Some d => mret d | None => out (loadDestination destId) end);
     d0 ← ent "getStatus" get_this;
     (if Status.isProcessingVO (Delivery.status d0) then mret tt else ent "markAsProcessing" (Delivery.markAsProcessing now));;
     persist (deliveries dp);;
     payload ← (match results dp with Some f => out (f (Delivery.taskResultId d0)) | None => mret None end);
     d ← ent "getTaskResultId" get_this;
     a ← request t0 t1 (url_of destination) (default (JObject 0 []) payload) (headers deliveryId d) (timeout_of destination);
     record_attempt deliveryId a;;
     ent "addAttempt" (add_attempt t1 a);;
     ent "markAsCompleted" (settle t1 a);;
     persist (deliveries dp);;
     d' ← ent "getStatus" get_this;
     mret (Result (Status.kind (Delivery.status d')) (an_success a) (an_status a) (an_duration a)
             (Delivery.nextRetryAt d') (an_error a))).
End service.
End ProcessDelivery.

(** ** HandleFailureService *)

Module HandleFailure.
Import Ports.

Record deps (W : Type) : Type := Deps {
  deliveries : delivery_repo W;
  publish : option (string -> jsval -> meth W exn unit);
  recordAttempt2 : option (string -> jsval -> string -> meth W exn unit);   (* id, responseStatus, errorMessage *)
}.
Arguments deliveries {W}. Arguments publish {W}. Arguments recordAttempt2 {W}. Arguments Deps {W}.

(** The third argument: absent, a status code, or whether to retry. *)
Inductive hint : Type := NoHint | Code (n : num) | Retry (b : bool).

(** application/services/handle-failure.service.ts:59-59 handleFailure *)
Definition error_message (e : Delivery.error_arg) : string :=
  match e with
  | Delivery.ErrVO e => str_or (DeliveryError.message e) "Unknown delivery failure"
  | Delivery.ErrAny (JString s) => s
  | Delivery.ErrAny v => js_String (js_or (js_get "message" v) "Unknown delivery failure")
  end.
(** application/services/handle-failure.service.ts:60-62 handleFailure *)
Definition status_code (e : Delivery.error_arg) (h : hint) : jsval :=
  match h with
  | Code n => JNum n
  | _ => match e with
         | Delivery.ErrVO e => js_or (match DeliveryError.statusCode e with Some n => JNum n | None => JUndefined end) (JNum (ofZ 500))
         | Delivery.ErrAny v => js_or (js_get "statusCode" v) (js_or (js_get "status" v) (JNum (ofZ 500)))
         end
  end.
(** A status that is not a number is taken to compare with none. *)
Definition code_retryable (v : jsval) : bool :=
  match v with JNum n => num_geb n (ofZ 500) || num_eqb n (ofZ 0) || num_eqb n (ofZ 429) | _ => false end.
(** application/services/handle-failure.service.ts:64-66 handleFailure
    An own property [isRetryable] is taken to be a boolean. *)
Definition is_retryable (e : Delivery.error_arg) (h : hint) : bool :=
  match h with
  | Retry b => b
  | _ => match e with
         | Delivery.ErrVO e => DeliveryError.isRetryable e
         | Delivery.ErrAny v =>
             let p := js_get "isRetryable" v in
             if is_nullish p then code_retryable (status_code e h) else js_truthy p
         end
  end.

Definition failed_event (deliveryId m : string) (n : Z) : jsval :=
  JObject 0 [("name", JString "DeliveryFailedEvent"); ("aggregateId", JString deliveryId); ("deliveryId", JString deliveryId);
             ("errorMessage", JString m); ("isRetryable", JBool true); ("retryCount", JNum (ofZ n))].
Definition dlq_event (deliveryId m : string) (n : Z) : jsval :=
  JObject 0 [("name", JString "DeliveryMovedToDLQEvent"); ("aggregateId", JString deliveryId); ("deliveryId", JString deliveryId);
             ("finalErrorMessage", JString m); ("totalAttempts", JNum (ofZ n))].

Section service.
Context {W : Type} (dp : deps W).
Abbreviation svc := (meth (dobj * W) exn).

Definition publish_if (name : string) (data : jsval) : svc unit :=
  match publish dp with Some f => out (f name data) | None => mret tt end.
(** [delivery.canRetry()], or the count by getter if there is no such method. *)
Definition can_retry : svc bool := fun '(o, w) =>
  match o with
  | Entity d => ((o, w), Ok (Delivery.canRetry default_max d))
  | Plain _ _ => no_method "delivery.getRetryCount" (o, w)
  end.

(** application/services/handle-failure.service.ts:99-121 handleFailure *)
Definition schedule (now : Z) (deliveryId m : string) : svc unit :=
  n ← get_retry_count;
  ent_if (Delivery.scheduleRetry now (Delivery.DelayNum (backoff n)));;
  ent_if (Delivery.addDomainEvent (failed_event deliveryId m n));;
  publish_if "DeliveryFailedEvent" (JObject 0 [("deliveryId", JString deliveryId); ("errorMessage", JString m); ("retryCount", JNum (ofZ n))]).
(** application/services/handle-failure.service.ts:124-148 handleFailure *)
Definition bury (now : Z) (deliveryId m : string) : svc unit :=
  ent_if (Delivery.moveToDeadLetterQueue now m);;
  n ← get_retry_count;
  ent_if (Delivery.addDomainEvent (dlq_event deliveryId m n));;
  publish_if "DeliveryMovedToDLQEvent" (JObject 0 [("deliveryId", JString deliveryId); ("errorMessage", JString m)]).

(** application/services/handle-failure.service.ts:34-47 loadDelivery *)
Definition loadDelivery (deliveryId : string) : meth W exn dobj := Ports.loadDelivery (deliveries dp) deliveryId.
(** application/services/handle-failure.service.ts:52-153 handleFailure *)
Definition handleFailure (now : Z) (deliveryId : string) (error : Delivery.error_arg) (h : hint) : meth W exn unit :=
  let m := error_message error in
  let isRetryable := is_retryable error h in
  on_loaded (loadDelivery deliveryId)
    ((match recordAttempt2 dp with Some f => out (f deliveryId (status_code error h) m) | None => mret tt end);;
     leave_waiting now;;
     ent_if (Delivery.markFailed now error (Delivery.StratBool isRetryable) default_max);;
     canRetry ← can_retry;
     (if isRetryable && canRetry then schedule now deliveryId m else bury now deliveryId m);;
     persist (deliveries dp)).
End service.
End HandleFailure.

(** ** ScheduleRetryService *)

Module ScheduleRetry.
Import Ports.

(** An argument that is a count, a delay or a strategy.  Numbers are integers; an
    object has a [maxRetries] or not, and no [calculateDelay]. *)
Inductive arg : Type := ArgNone | ArgNum (n : Z) | ArgStrategy (s : Strategy.t) | ArgObject (maxRetries : option Z).

(** application/services/schedule-retry.service.ts:39-41 scheduleRetry
    A strategy's own maximum is a number that [Number] gave. *)
Definition max_allowed (a : arg) : num :=
  match a with
  | ArgNum n => ofZ n
  | ArgStrategy s => Strategy.maxRetries s
  | ArgObject (Some n) => ofZ n
  | ArgObject None | ArgNone => ofZ default_max
  end.
(** application/services/schedule-retry.service.ts:49-49 scheduleRetry *)
Definition attempt_number (a : arg) (current : Z) : Z :=
  match a with ArgNum n => if n <? 100 then n else current | _ => current end.
(** application/services/schedule-retry.service.ts:51-57 scheduleRetry *)
Definition delay_of (rnd : Q) (first second : arg) (attemptNum : Z) : num :=
  let strategy := match second with
                  | ArgStrategy s => Some s
                  | ArgObject _ => None
                  | _ => match first with ArgStrategy s => Some s | _ => None end
                  end in
  match strategy with
  | Some s => Strategy.calculateDelay rnd s (attemptNum + 1)
  | None => match first with ArgNum n => if n <? 100 then backoff attemptNum else ofZ n | _ => backoff attemptNum end
  end.

Section service.
Context {W : Type} (repo : delivery_repo W) (queue : option (queue_port W)).
Abbreviation svc := (meth (dobj * W) exn).

(** application/services/schedule-retry.service.ts:13-25 loadDelivery *)
Definition loadDelivery (deliveryId : string) : meth W exn dobj := Ports.loadDelivery repo deliveryId.
(** application/services/schedule-retry.service.ts:77-96 scheduleRetry *)
Definition enqueue (deliveryId : string) (attempt : Z) (delay : num) : svc unit :=
  match queue with
  | None => mret tt
  | Some q =>
      match enqueueDelivery q, add q with
      | Some f, _ => o ← delivery; out (f (taskResultId o) (destinationId o) attempt (Some delay))
      | None, Some f =>
          out (f "deliver-task-result" (JObject 0 [("deliveryId", JString deliveryId)]) (Some delay)
                 (Some ("retry:" +:+ deliveryId +:+ ":" +:+ pretty attempt)))
      | None, None => mret tt
      end
  end.
(** application/services/schedule-retry.service.ts:31-99 scheduleRetry *)
Definition scheduleRetry (now : Z) (rnd : Q) (deliveryId : string) (first second : arg) : meth W exn unit :=
  on_loaded (loadDelivery deliveryId)
    (current ← get_retry_count;
     let maxAllowed := max_allowed second in
     if num_geb (ofZ current) maxAllowed
     then ent_if (Delivery.moveToDeadLetterQueue now
                    ("Max retries exceeded (" +:+ pretty current +:+ "/" +:+ num_to_string maxAllowed +:+ ")"));;
          persist repo;;
          fail (MaxRetriesExceededError deliveryId current (match maxAllowed with Fin q => Qfloor q | _ => 0 end))
     else
       let attemptNum := attempt_number first current in
       let delay := delay_of rnd first second attemptNum in
       leave_waiting now;;
       ent_if (Delivery.scheduleRetry now (Delivery.DelayNum delay));;
       persist repo;;
       enqueue deliveryId (attemptNum + 1) delay).
End service.
End ScheduleRetry.

(** ** RecoverStaleJobsService *)

Module RecoverStale.
Import Ports.

Section service.
Context {W : Type} (repo : delivery_repo W) (queue : option (queue_port W)).
Abbreviation svc := (meth (dobj * W) exn).

(** An entity that is processing and was last changed before the threshold; the
    status of a row is its name, its time of change is not modelled: rows are
    taken not to be stale. *)
Definition is_stale (threshold : Z) (o : dobj) : bool :=
  match o with
  | Entity d => str_eqb (Status.kind (Delivery.status d)) "processing"
                && match Delivery.updatedAt d with Some t => t <? threshold | None => false end
  | Plain _ _ => false
  end.
(** application/services/recover-stale-jobs.service.ts:44-55 recoverStale *)
Definition find_stale (threshold : Z) : meth W exn (list dobj) :=
  match findStale repo, findAll repo with
  | Some f, _ => f threshold
  | None, Some f => all ← f; mret (filter (fun o => is_stale threshold o = true) all)
  | None, None => mret []
  end.

Definition crash_error : string := "Worker crash / processing timeout detected".
Definition crashed_event (id : string) : jsval :=
  JObject 0 [("name", JString "WorkerCrashedEvent"); ("aggregateId", JString id); ("workerId", JString "unknown-crashed-worker");
             ("crashReason", JString "Stale processing state detected on heartbeat manager")].
Definition max_retries : Z := 5.

Definition enqueue (retryCount : Z) (delayMs : num) : svc unit :=
  match queue with
  | None => mret tt
  | Some q =>
      o ← delivery;
      match enqueueDelivery q, add q with
      | Some f, _ => out (f (taskResultId o) (destinationId o) retryCount (Some delayMs))
      | None, Some f =>
          match o with
          | Entity d => out (f "deliver-task-result" (JObject 0 [("deliveryId", JString (Delivery.id d))]) (Some delayMs) None)
          | Plain _ _ => no_method "delivery.getId"
          end
      | None, None => mret tt
      end
  end.
(** application/services/recover-stale-jobs.service.ts:76-104 recoverStale
    The change of one delivery, and whether it counts as recovered. *)
Definition revive (now : Z) : svc bool :=
  ent_if (Delivery.markFailed now (Delivery.ErrAny (JError 0 [("name", JString "Error"); ("message", JString crash_error)]))
            (Delivery.StratBool true) default_max);;
  o ← delivery;
  let retryCount := retry_count o in
  if retryCount <=? max_retries
  then let delayMs := backoff (Z.max 0 (retryCount - 1)) in
       ent_if (Delivery.scheduleRetry now (Delivery.DelayNum delayMs));;
       enqueue retryCount delayMs;;
       mret true
  else ent_if (Delivery.moveToDeadLetterQueue now crash_error);; mret false.

(** The counters: a delivery counted before its save fails counts twice. *)
Record tally : Type := Tally { recovered : Z; failed : Z }.
Definition count (b : bool) (t : tally) : tally := if b then Tally (recovered t + 1) (failed t) else Tally (recovered t) (failed t + 1).

(** application/services/recover-stale-jobs.service.ts:70-123 recoverStale *)
Definition recover_one (now : Z) (o : dobj) (s : W * tally) : W * tally :=
  let '(w, t) := s in
  match revive now (o, w) with
  | ((_, w'), Throw _) => (w', count false t)
  | ((o', w'), Ok b) =>
      match persist repo (o', w') with
      | ((_, w''), Ok _) => (w'', count b t)
      | ((_, w''), Throw _) => (w'', count false (count b t))
      end
  end.
(** application/services/recover-stale-jobs.service.ts:41-129 recoverStale *)
Definition recoverStale (now timeoutMs : Z) : meth W exn tally := fun w =>
  match find_stale (now - timeoutMs) w with
  | (w', Ok stale) => let '(w'', t) := fold_left (fun s o => recover_one now o s) stale (w', Tally 0 0) in (w'', Ok t)
  | (w', Throw e) => (w', Throw e)
  end.
(** application/services/recover-stale-jobs.service.ts:134-137 recoverStaleJobs *)
Definition recoverStaleJobs (now : Z) : meth W exn Z := t ← recoverStale now 30000; mret (recovered t).
End service.
End RecoverStale.

(** ** SyncStateService *)

Module SyncState.
Import Store Ports.

Section service.
Context {W : Type} (repo : delivery_repo W) (queue : queue_port W).

(** application/services/sync-state.service.ts:51-60 sync *)
Definition find_pending : meth W exn (list dobj) :=
  match findByStatus repo, findAll repo with
  | Some f, _ => f "PENDING"
  | None, Some f => all ← f; mret (filter (fun o => status_upper o = "PENDING") all)
  | None, None => mret []
  end.
(** application/services/sync-state.service.ts:73-75 sync *)
Definition job_key (j : Jobs.job) : string :=
  let data := Jobs.j_data j in
  js_String (js_or (js_get "taskResultId" data) (js_get "deliveryId" data)) +:+ ":" +:+
  js_String (js_or (js_get "destinationId" data) (JString "")).

Record tally : Type := Tally { synced : Z; errors : Z; discrepancies : Z }.
Definition enqueue_one (o : dobj) : meth W exn unit :=
  match enqueueDelivery queue, add queue with
  | Some f, _ => f (taskResultId o) (destinationId o) (match o with Entity d => Delivery.retryCount d | Plain _ _ => 0 end + 1) None
  | None, Some f => f "deliver-task-result" (JObject 0 [("deliveryId", JString (own_id o))]) None None
  | None, None => mret tt
  end.
(** application/services/sync-state.service.ts:78-99 sync *)
Definition add_missing (keys : list string) (o : dobj) (s : W * tally) : W * tally :=
  let '(w, t) := s in
  if bool_decide (taskResultId o +:+ ":" +:+ destinationId o ∈ keys) then s
  else match enqueue_one o w with
       | (w', Ok _) => (w', Tally (synced t + 1) (errors t) (discrepancies t + 1))
       | (w', Throw _) => (w', Tally (synced t) (errors t + 1) (discrepancies t + 1))
       end.

Definition js_text (v : jsval) : string := match v with JString s => s | _ => "" end.
Definition terminal (o : dobj) : bool :=
  match o with
  | Entity d => bool_decide (Delivery.status d = Status.COMPLETED \/ Delivery.status d = Status.FAILED_DLQ)
  | Plain _ r => bool_decide (r_status r = Status.COMPLETED \/ r_status r = Status.FAILED_DLQ)
  end.
(** application/services/sync-state.service.ts:102-127 sync
    Identifiers are strings. *)
Definition drop_dead (j : Jobs.job) (s : W * tally) : W * tally :=
  let '(w, t) := s in
  let trId := js_text (js_get "taskResultId" (Jobs.j_data j)) in
  let destId := js_text (js_get "destinationId" (Jobs.j_data j)) in
  match findByTaskResultId repo with
  | Some f =>
      if str_truthy trId && str_truthy destId
      then match f trId w with
           | (w', Ok l) =>
               match list_find (fun o => destinationId o = destId) l with
               | Some (_, o) =>
                   if terminal o
                   then match remove queue (Jobs.j_id j) w' with
                        | (w'', Ok _) => (w'', Tally (synced t + 1) (errors t) (discrepancies t + 1))
                        | (w'', Throw _) => (w'', Tally (synced t) (errors t) (discrepancies t + 1))
                        end
                   else (w', t)
               | None =>
                   match remove queue (Jobs.j_id j) w' with
                   | (w'', Ok _) => (w'', Tally (synced t + 1) (errors t) (discrepancies t + 1))
                   | (w'', Throw _) => (w'', Tally (synced t) (errors t) (discrepancies t + 1))
                   end
               end
           | (w', Throw _) => (w', t)
           end
      else (w, t)
  | None => (w, t)
  end.
(** application/services/sync-state.service.ts:42-134 sync *)
Definition sync : meth W exn tally :=
  dbPending ← find_pending;
  match instance queue with
  | None => mret (Tally 0 0 0)
  | Some getJobs =>
      activeJobs ← getJobs;
      (fun w =>
        let keys := map job_key activeJobs in
        let s1 := fold_left (fun s o => add_missing keys o s) dbPending (w, Tally 0 0 0) in
        let '(w2, t) := fold_left (fun s j => drop_dead j s) activeJobs s1 in
        (w2, Ok t)) : meth W exn tally
  end.
(** application/services/sync-state.service.ts:139-141 syncRedisWithDatabase *)
Definition syncRedisWithDatabase : meth W exn tally := sync.
End service.
End SyncState.

(** ** RebuildQueueService *)

Module RebuildQueue.
Import Ports.

Section service.
Context {W : Type} (repo : delivery_repo W) (queue : option (queue_port W)).

Record tally : Type := Tally { main : Z; delayed : Z; dlq : Z }.

(** application/services/rebuild-queue.service.ts:34-47 rebuild *)
Definition clear : meth W exn unit :=
  match queue ≫= clean with
  | Some f => try_catch (f "wait";; f "active";; f "delayed") (fun _ => mret tt)
  | None => mret tt
  end.
(** application/services/rebuild-queue.service.ts:50-62 rebuild *)
Definition find_by (status : string) : meth W exn (list dobj) :=
  match findByStatus repo, findAll repo with
  | Some f, _ => f status
  | None, Some f => all ← f; mret (filter (fun o => status_upper o = to_upper status) all)
  | None, None => mret []
  end.
(** application/services/rebuild-queue.service.ts:71-77 rebuild *)
Definition enqueue (o : dobj) (delayMs : option num) : meth W exn unit :=
  match queue with
  | None => mret tt
  | Some q =>
      match enqueueDelivery q, add q with
      | Some f, _ => f (taskResultId o) (destinationId o) (retry_count o + 1) delayMs
      | None, Some f => f "deliver-task-result" (JObject 0 [("deliveryId", JString (own_id o))]) delayMs None
      | None, None => mret tt
      end
  end.
(** application/services/rebuild-queue.service.ts:88-88 rebuild *)
Definition delay_until (now : Z) (o : dobj) : num :=
  match next_retry o with Some d => num_max (ofZ 0) (num_sub (get_time d) (ofZ now)) | None => ofZ 5000 end.
Fixpoint each (f : dobj -> meth W exn unit) (l : list dobj) : meth W exn unit :=
  match l with [] => mret tt | o :: l => f o;; each f l end.
(** application/services/rebuild-queue.service.ts:26-110 rebuild *)
Definition rebuild (now : Z) : meth W exn tally :=
  clear;;
  pending ← find_by "PENDING";
  each (fun o => enqueue o None) pending;;
  retrying ← find_by "SCHEDULED_RETRY";
  each (fun o => enqueue o (Some (delay_until now o))) retrying;;
  dead ← find_by "FAILED_DLQ";
  mret (Tally (Z.of_nat (length pending)) (Z.of_nat (length retrying)) (Z.of_nat (length dead))).
(** application/services/rebuild-queue.service.ts:115-117 rebuildQueues *)
Definition rebuildQueues (now : Z) : meth W exn tally := rebuild now.
End service.
End RebuildQueue.

(** ** The repository of entities and its queue *)

Module DeliveryLog.
Import Store Ports.

(** The deliveries table as this repository uses it: [upsert], which the unique
    pair of identifiers can refuse (P2002, [None]), and the time of the last
    change of a row. *)
Class LogTable (T : Type) `{Jobs.Listing T} := {
  upsert_delivery : Z -> string -> (row -> row) -> row -> T -> option T;
  updated_at : string -> T -> Z;
  upsert_present now id f n t r :
    find_delivery id t = Some r -> exists t', upsert_delivery now id f n t = Some t';
  upsert_absent now id f n t :
    find_delivery id t = None ->
    (is_Some (upsert_delivery now id f n t) <->
     forall x, x ∈ Jobs.rows t -> ~ (r_taskResultId x.2 = r_taskResultId n /\ r_destinationId x.2 = r_destinationId n));
  upsert_find_eq now id f n t t' :
    upsert_delivery now id f n t = Some t' ->
    find_delivery id t' = Some (match find_delivery id t with Some r => f r | None => n end);
  upsert_find_ne now id id' f n t t' :
    id <> id' -> upsert_delivery now id f n t = Some t' -> find_delivery id' t' = find_delivery id' t;
  upsert_updated_eq now id f n t t' : upsert_delivery now id f n t = Some t' -> updated_at id t' = now;
  upsert_updated_ne now id id' f n t t' :
    id <> id' -> upsert_delivery now id f n t = Some t' -> updated_at id' t' = updated_at id' t;
}.

Record world (T Q : Type) : Type := World { db : T; queue : Q }.
Arguments World {T Q}. Arguments db {T Q}. Arguments queue {T Q}.

Section log.
Context {T Q : Type} `{LogTable T} `{Jobs.JobQueue Q}.
Abbreviation W := (world T Q).
Abbreviation M := (meth W exn).

(** infrastructure/database/PrismaDeliveryLogRepository.ts:12-36 toDomain
    The attempts, the last error and its time are not restored. *)
Definition toDomain (now : Z) (id : string) (r : row) : res exn Delivery.t :=
  Delivery.restore now (Delivery.RestoreParams id (r_taskResultId r) (r_destinationId r) (inl (r_status r))
    (Some (r_retryCount r)) (r_nextRetryAt r) None None None None None [] None).
Fixpoint all_domain (now : Z) (l : list (string * row)) : res exn (list dobj) :=
  match l with
  | [] => Ok []
  | (id, r) :: l => d ← toDomain now id r; rest ← all_domain now l; mret (Entity d :: rest)
  end.
Definition conflict : exn := Foreign (JError 0 [("name", JString "PrismaClientKnownRequestError"); ("code", JString "P2002")]).
Definition row_of (d : Delivery.t) : row :=
  Row (Delivery.taskResultId d) (Delivery.destinationId d) (Delivery.status d) (Delivery.retryCount d)
    (Delivery.nextRetryAt d) None None None.
Definition update_of (d : Delivery.t) (r : row) : row :=
  Row (r_taskResultId r) (r_destinationId r) (Delivery.status d) (Delivery.retryCount d) (Delivery.nextRetryAt d)
    (r_lastError r) (r_errorCategory r) (r_lastAttemptAt r).

Definition js_count (v : jsval) : option Z := Connectors.js_int v.
(** infrastructure/database/PrismaDeliveryLogRepository.ts:64-85 save
    The attempts written for the events of the entity; a missing parent is
    impossible after the upsert. *)
Definition write_event (d : Delivery.t) (e : jsval) : meth T exn unit :=
  let name := js_String (js_get "name" e) in
  if str_eqb name "DeliveryCompletedEvent"
  then DeliveryRepository.insert_attempt (Attempt (Delivery.id d) (Delivery.retryCount d) (js_count (js_get "responseStatus" e))
         (default 0 (js_count (js_get "latencyMs" e))) None)
  else if str_eqb name "DeliveryFailedEvent"
  then DeliveryRepository.insert_attempt (Attempt (Delivery.id d) (Delivery.retryCount d) None 0 (Some (js_String (js_get "errorMessage" e))))
  else mret tt.
Fixpoint write_events (d : Delivery.t) (l : list jsval) : meth T exn unit :=
  match l with [] => mret tt | e :: l => write_event d e;; write_events d l end.
Definition on_db {A} (m : meth T exn A) : M A := fun w => let '(t, r) := m (db w) in (World t (queue w), r).
(** infrastructure/database/PrismaDeliveryLogRepository.ts:38-89 save
    The entity it leaves: without its events. *)
Definition save_entity (now : Z) (d : Delivery.t) : M dobj :=
  on_db (fun t => match upsert_delivery now (Delivery.id d) (update_of d) (row_of d) t with
                  | Some t' => (t', Ok tt) | None => (t, Throw conflict) end);;
  on_db (write_events d (Delivery.domainEvents d));;
  mret (Entity (Delivery.set_events [] d)).

Definition list_rows (now : Z) (p : string * row -> bool) : M (list dobj) := fun w =>
  (w, all_domain now (filter (fun x => p x = true) (Jobs.rows (db w)))).
(** infrastructure/database/PrismaDeliveryLogRepository.ts:88-93 findByTaskResultId *)
Definition findByTaskResultId (now : Z) (tr : string) : M (list dobj) :=
  list_rows now (fun x => str_eqb (r_taskResultId x.2) tr).
(** infrastructure/database/PrismaDeliveryLogRepository.ts:95-100 findByDestinationId *)
Definition findByDestinationId (now : Z) (dest : string) : M (list dobj) :=
  list_rows now (fun x => str_eqb (r_destinationId x.2) dest).
(** infrastructure/database/PrismaDeliveryLogRepository.ts:102-105 findAll *)
Definition findAll (now : Z) : M (list dobj) := list_rows now (fun _ => true).
(** infrastructure/database/PrismaDeliveryLogRepository.ts:107-117 findStale *)
Definition findStale (now threshold : Z) : M (list dobj) := fun w =>
  list_rows now (fun x => bool_decide (r_status x.2 = Status.PROCESSING) && (updated_at x.1 (db w) <=? threshold)) w.
(** infrastructure/database/PrismaDeliveryLogRepository.ts:119-126 findByStatus *)
Definition findByStatus (now : Z) (s : string) : M (list dobj) :=
  list_rows now (fun x => str_eqb (Status.getValue (r_status x.2)) (to_upper s)).

(** The repository as the services see it: it has no [findById]. *)
Definition log_repo (now : Z) : delivery_repo W := {|
  Ports.findById := None;
  Ports.findByTaskResultId := Some (findByTaskResultId now);
  Ports.findStale := Some (findStale now);
  Ports.findAll := Some (findAll now);
  Ports.findByStatus := Some (findByStatus now);
  Ports.save := Some (fun o => match o with Entity d => save_entity now d | Plain _ _ => no_method "log.getStatus" end);
  Ports.create := None;
|}.

Definition delay_ms (n : num) : Z := match n with Fin q => Qfloor q | _ => 0 end.
(** infrastructure/queue/bullmq.service.ts:26-55 enqueueDelivery
    No job id is given: every call adds a job. *)
Definition enqueueDelivery (tr dest : string) (attempt : Z) (delayMs : option num) : M unit := fun w =>
  (World (db w) (Jobs.q_add (tr +:+ ":" +:+ dest)
     (JObject 0 [("taskResultId", JString tr); ("destinationId", JString dest); ("attempt", JNum (ofZ attempt))])
     None (match delayMs with Some n => delay_ms n | None => 0 end) (queue w)).1, Ok tt).
(** The queue service as the other services see it; what the library's [clean]
    does to the queue is an argument. *)
Definition log_queue (bull_clean : string -> Q -> Q) : queue_port W := {|
  Ports.enqueueDelivery := Some enqueueDelivery;
  Ports.add := None;
  Ports.instance := Some (gets (fun w => Jobs.jobs (queue w)));
  Ports.remove := fun id w => (World (db w) (Jobs.q_remove id (queue w)), Ok tt);
  Ports.clean := Some (fun kind w => (World (db w) (bull_clean kind (queue w)), Ok tt));
|}.
End log.

(** A concrete table, with the times of change beside the rows. *)
Record log_tables : Type := LogTables { base : tables; times : gmap string Z }.
Definition base_update (id : string) (f : row -> row) (t : log_tables) : option log_tables :=
  match update_delivery id f (base t) with Some b => Some (LogTables b (times t)) | None => None end.
Definition base_attempt (a : attempt) (t : log_tables) : option log_tables :=
  match create_attempt a (base t) with Some b => Some (LogTables b (times t)) | None => None end.
#[global] Program Instance log_prisma : Prisma log_tables := {
  find_delivery id t := find_delivery id (base t); update_delivery := base_update;
  attempts_of id t := attempts_of id (base t); create_attempt := base_attempt;
}.
Next Obligation.
  intros id f t. unfold base_update. rewrite <- (update_is_Some id f (base t)).
  destruct (update_delivery id f (base t)); split; intros [? ?]; eauto; done.
Qed.
Next Obligation.
  intros id f t t'. unfold base_update. destruct (update_delivery id f (base t)) eqn:E; [|done]. intros [= <-]. by eapply update_find_eq.
Qed.
Next Obligation.
  intros id id' f t t' Hne. unfold base_update. destruct (update_delivery id f (base t)) eqn:E; [|done]. intros [= <-].
  by eapply update_find_ne.
Qed.
Next Obligation.
  intros id f t t'. unfold base_update. destruct (update_delivery id f (base t)) eqn:E; [|done]. intros [= <-]. by eapply update_attempts.
Qed.
Next Obligation.
  intros a t. unfold base_attempt. rewrite <- (create_is_Some a (base t)).
  destruct (create_attempt a (base t)); split; intros [? ?]; eauto; done.
Qed.
Next Obligation.
  intros a id t t'. unfold base_attempt. destruct (create_attempt a (base t)) eqn:E; [|done]. intros [= <-]. by eapply create_find.
Qed.
Next Obligation.
  intros a t t'. unfold base_attempt. destruct (create_attempt a (base t)) eqn:E; [|done]. intros [= <-]. by eapply create_attempts.
Qed.
#[global] Program Instance log_listing : Jobs.Listing log_tables := { rows t := Jobs.rows (base t) }.
Next Obligation. intros id r t. apply (Jobs.rows_find (T := tables)). Qed.
Next Obligation. intros t. apply (Jobs.rows_NoDup (T := tables)). Qed.

Definition same_pair (n : row) (x : string * row) : Prop :=
  r_taskResultId x.2 = r_taskResultId n /\ r_destinationId x.2 = r_destinationId n.
#[global] Instance same_pair_dec n x : Decision (same_pair n x).
Proof. unfold same_pair. apply _. Defined.
Definition put_row (now : Z) (id : string) (r : row) (t : log_tables) : log_tables :=
  LogTables (Tables (<[id := r]> (t_rows (base t))) (t_attempts (base t))) (<[id := now]> (times t)).
Definition log_upsert (now : Z) (id : string) (f : row -> row) (n : row) (t : log_tables) : option log_tables :=
  match t_rows (base t) !! id with
  | Some r => Some (put_row now id (f r) t)
  | None => if decide (Exists (same_pair n) (map_to_list (t_rows (base t)))) then None else Some (put_row now id n t)
  end.
Lemma log_upsert_put now id f n t t' :
  log_upsert now id f n t = Some t' -> t' = put_row now id (match t_rows (base t) !! id with Some r => f r | None => n end) t.
Proof. unfold log_upsert. destruct (t_rows (base t) !! id); [by intros [= <-]|]. case_decide; [done|by intros [= <-]]. Qed.
#[global] Program Instance log_table : LogTable log_tables := {
  upsert_delivery := log_upsert; updated_at id t := default 0 (times t !! id);
}.
Next Obligation. intros now id f n t r Hr. unfold log_upsert. simpl in Hr. rewrite Hr. by eexists. Qed.
Next Obligation.
  intros now id f n t Hn. unfold log_upsert. simpl in Hn. rewrite Hn. split.
  - intros [t' Ht] x Hx Hp. case_decide as Hd; [done|]. apply Hd, Exists_exists. by exists x.
  - intros Hx. rewrite decide_False; [by eexists|]. intros (x & Hin & Hp)%Exists_exists. by apply (Hx x).
Qed.
Next Obligation. intros now id f n t t' ->%log_upsert_put. simpl. by rewrite lookup_insert_eq. Qed.
Next Obligation. intros now id id' f n t t' Hne ->%log_upsert_put. simpl. by rewrite lookup_insert_ne. Qed.
Next Obligation. intros now id f n t t' ->%log_upsert_put. simpl. by rewrite lookup_insert_eq. Qed.
Next Obligation. intros now id id' f n t t' Hne ->%log_upsert_put. simpl. by rewrite lookup_insert_ne. Qed.
End DeliveryLog.

(** ** What the services do to an entity *)

(** The interface a service relies on: what it saved under an id it loads again,
    with its identifiers, status, count and next retry; nothing else changes. *)
Module EntityStore.
Import Ports.

Definition same_delivery (d d' : Delivery.t) : Prop :=
  Delivery.id d' = Delivery.id d /\ Delivery.taskResultId d' = Delivery.taskResultId d /\
  Delivery.destinationId d' = Delivery.destinationId d /\ Delivery.status d' = Delivery.status d /\
  Delivery.retryCount d' = Delivery.retryCount d /\ Delivery.nextRetryAt d' = Delivery.nextRetryAt d.
#[global] Instance same_delivery_preorder : PreOrder same_delivery.
Proof. split; [done|]. intros a b c. unfold same_delivery. intuition congruence. Qed.

Class EntityRepo (W : Type) := {
  repo : delivery_repo W;
  stored : string -> W -> option Delivery.t;
  stored_id id w d : stored id w = Some d -> Delivery.id d = id;
  load_stored id w d : stored id w = Some d -> loadDelivery repo id w = (w, Ok (Entity d));
  load_missing id w : stored id w = None -> loadDelivery repo id w = (w, Throw (DeliveryNotFoundError id));
  save_entity : Delivery.t -> W -> W * Delivery.t;
  save_is d w : exists f, save repo = Some f /\
    f (Entity d) w = (let '(w', d') := save_entity d w in (w', Ok (Entity d')));
  save_same d w : same_delivery d (save_entity d w).2;
  save_stored d w : exists d', stored (Delivery.id d) (save_entity d w).1 = Some d' /\ same_delivery d d';
  save_others d w id : id <> Delivery.id d -> stored id (save_entity d w).1 = stored id w;
}.

(** An instance: a map of entities. *)
Definition memory_save (d : Delivery.t) (w : gmap string Delivery.t) : gmap string Delivery.t * Delivery.t :=
  (<[Delivery.id d := d]> w, d).
Definition memory_find (id : string) (w : gmap string Delivery.t) : option Delivery.t :=
  match w !! id with Some d => if decide (Delivery.id d = id) then Some d else None | None => None end.
Definition memory_repo : delivery_repo (gmap string Delivery.t) := {|
  findById := Some (fun id w => (w, Ok (Entity <$> memory_find id w)));
  findByTaskResultId := None; findStale := None; findAll := None; findByStatus := None;
  save := Some (fun o w => match o with
                           | Entity d => let '(w', d') := memory_save d w in (w', Ok (Entity d'))
                           | Plain id r => (w, Ok (Plain id r)) end);
  create := None;
|}.
#[global] Program Instance memory : EntityRepo (gmap string Delivery.t) := {
  repo := memory_repo; stored := memory_find; save_entity := memory_save;
}.
Next Obligation. intros id w d. unfold memory_find. destruct (w !! id); [|done]. by case_decide; [intros [= <-]|]. Qed.
Next Obligation. intros id w d Hd. unfold loadDelivery. munfold. by rewrite Hd. Qed.
Next Obligation. intros id w Hd. unfold loadDelivery. munfold. by rewrite Hd. Qed.
Next Obligation. intros d w. eexists. split; [done|]. by simpl. Qed.
Next Obligation. intros d w. done. Qed.
Next Obligation.
  intros d w. exists d. unfold memory_find. simpl. rewrite lookup_insert_eq. by rewrite decide_True.
Qed.
Next Obligation. intros d w id Hne. unfold memory_find. simpl. by rewrite lookup_insert_ne. Qed.

Section lemmas.
Context {W : Type} `{EntityRepo W}.

Lemma persist_entity d w :
  persist repo (Entity d, w) = let '(w', d') := save_entity d w in ((Entity d', w'), Ok tt).
Proof.
  unfold persist. destruct (save_is d w) as (f & -> & Hf). rewrite Hf. by destruct (save_entity d w).
Qed.

Lemma on_loaded_stored {A} (body : meth (dobj * W) exn A) id w d :
  stored id w = Some d ->
  on_loaded (loadDelivery repo id) body w = let '((_, w'), r) := body (Entity d, w) in (w', r).
Proof. intros Hd. unfold on_loaded. by rewrite (load_stored id w d Hd). Qed.
End lemmas.
End EntityStore.

(** ** Outcomes *)

Module Outcomes.
Import Ports EntityStore.

Section process.
Import ProcessDelivery.
Context {W : Type} `{EntityRepo W}.

(** A destination that answers with a status, and no other collaborator. *)
Definition answering (st dur : num) : deps W :=
  Deps repo None None (fun _ _ _ _ => mret tt) None (Some (fun _ _ _ _ => mret (st, dur))).

(** The state an answer calls for, and when to try again. *)
Definition verdict (t : Z) (st : num) (count : Z) : Status.t * option date :=
  if is_2xx st then (Status.COMPLETED, None)
  else if retryable st && (count <? default_max)
  then (Status.SCHEDULED_RETRY, Some (Delivery.retry_date t (Delivery.DelayNum (backoff count))))
  else (Status.FAILED_DLQ, None).

Lemma num_or_truthy a b : num_truthy a = true -> num_or a b = a.
Proof. intros Ha. unfold num_or. by rewrite Ha. Qed.

Lemma add_attempt_same now a d :
  exists d', add_attempt now a d = (d', Ok tt) /\ same_delivery d d'.
Proof.
  unfold add_attempt. munfold. case_match; munfold; eexists; split; done.
Qed.

Lemma settle_verdict now st dur d :
  Delivery.status d = Status.PROCESSING ->
  let a := Answer st dur (if is_2xx st then None else Some ("Received non-2xx response status: " +:+ num_to_string st)) (is_2xx st) in
  exists d', settle now a d = (d', Ok tt) /\
    Delivery.id d' = Delivery.id d /\ Delivery.retryCount d' = Delivery.retryCount d /\
    (Delivery.status d', Delivery.nextRetryAt d') = verdict now st (Delivery.retryCount d).
Proof.
  intros Hs a. unfold settle, verdict. subst a. simpl. destruct (is_2xx st) eqn:E2.
  - unfold Delivery.markAsCompleted. munfold. rewrite Hs. simpl. eexists. split; done.
  - munfold. unfold Delivery.canRetry. rewrite Hs. simpl.
    destruct (retryable st && (Delivery.retryCount d <? default_max)) eqn:Er; munfold.
    + eexists. split; done.
    + rewrite Delivery.moveToDLQ_cases. simpl. destruct (Delivery.lastError d); eexists; split; done.
Qed.

Lemma process_outcome st dur now t0 t1 id dest w d :
  stored id w = Some d -> Status.isFinal (Delivery.status d) = false -> num_truthy st = true ->
  let '(w', r) := processDelivery (answering st dur) now t0 t1 id (Some dest) w in
  exists d', stored id w' = Some d' /\ Delivery.retryCount d' = Delivery.retryCount d /\
    (Delivery.status d', Delivery.nextRetryAt d') = verdict t1 st (Delivery.retryCount d) /\
    is_ok r = true /\ forall id', id' <> id -> stored id' w' = stored id' w.
Proof.
  intros Hd Hf Hst. pose proof (stored_id id w d Hd) as Hid. unfold processDelivery.
  change (deliveries (answering st dur)) with (repo (W := W)). rewrite (on_loaded_stored _ id w d Hd).
  set (d1 := if Status.isProcessingVO (Delivery.status d) then d
             else Delivery.set_updatedAt (Some now) (Delivery.set_lastAttemptAt (Some (Some now)) (Delivery.set_status Status.PROCESSING d))).
  assert (Delivery.status d1 = Status.PROCESSING /\ Delivery.id d1 = id /\ Delivery.retryCount d1 = Delivery.retryCount d) as (S1 & I1 & R1).
  { unfold d1. destruct (Status.isProcessingVO (Delivery.status d)) eqn:Ep; [|done]. by destruct (Delivery.status d). }
  erewrite bind_ok by reflexivity. erewrite bind_ok by reflexivity. erewrite bind_ok by reflexivity.
  rewrite (bind_ok _ _ _ (Entity d1, w) tt).
  2: { unfold d1. destruct (Status.isProcessingVO (Delivery.status d)) eqn:Ep; [done|]. simpl.
       rewrite Delivery.markAsProcessing_cases. by destruct (Delivery.status d). }
  pose proof (save_same d1 w) as Hsame1. pose proof (save_others d1 w) as Hoth1.
  destruct (save_entity d1 w) as [w1 d1'] eqn:Es1. simpl in Hsame1, Hoth1.
  rewrite (bind_ok _ _ _ (Entity d1', w1) tt) by (by rewrite persist_entity, Es1).
  erewrite bind_ok by reflexivity. erewrite bind_ok by reflexivity.
  set (a := Answer st (num_or dur (ofZ (t1 - t0)))
              (if is_2xx st then None else Some ("Received non-2xx response status: " +:+ num_to_string st)) (is_2xx st)).
  rewrite (bind_ok _ _ _ (Entity d1', w1) a).
  2: { unfold request, out. simpl. by rewrite (num_or_truthy st). }
  erewrite bind_ok by reflexivity.
  destruct (add_attempt_same t1 a d1') as (d2 & Ea & Hs2).
  rewrite (bind_ok _ _ _ (Entity d2, w1) tt) by (by simpl; rewrite Ea).
  assert (same_delivery d1 d2) as (I2 & _ & _ & S2 & R2 & _) by (by etransitivity).
  destruct (settle_verdict t1 st (num_or dur (ofZ (t1 - t0))) d2) as (d3 & E3 & I3 & R3 & V3); [congruence|].
  rewrite (bind_ok _ _ _ (Entity d3, w1) tt) by (unfold a; simpl; by rewrite E3).
  pose proof (save_stored d3 w1) as (d4 & H4 & I4 & _ & _ & S4 & R4 & N4).
  pose proof (save_others d3 w1) as Hoth3. destruct (save_entity d3 w1) as [w2 d3'] eqn:Es3. simpl in H4, Hoth3.
  rewrite (bind_ok _ _ _ (Entity d3', w2) tt) by (by rewrite persist_entity, Es3). simpl.
  exists d4. split_and!; [congruence|congruence|congruence|done|].
  intros id' Hne. rewrite Hoth3 by congruence. apply Hoth1. congruence.
Qed.
End process.

Section failure.
Import HandleFailure.
Context {W : Type} `{EntityRepo W}.

(** The service with the repository only. *)
Definition reporting : deps W := Deps repo None None.

(** The count [markFailed] leaves: a first failure sets it to 1, later ones
    leave it as it is. *)
Definition failed_count (n : Z) : Z := if n =? 0 then 1 else n.

Lemma markFailed_cases now e (b : bool) d eo :
  Delivery.as_delivery_error e = Ok eo ->
  let n := failed_count (Delivery.retryCount d) in
  exists d', Delivery.markFailed now e (Delivery.StratBool b) default_max d = (d', Ok tt) /\
    Delivery.id d' = Delivery.id d /\ Delivery.retryCount d' = n /\ Delivery.lastError d' = Some eo /\
    Delivery.status d' = (if b && (n <? default_max) then Status.SCHEDULED_RETRY else Status.FAILED_DLQ).
Proof.
  intros He n. unfold Delivery.markFailed. munfold. rewrite He. simpl.
  set (d1 := if Delivery.retryCount d =? 0 then _ else _).
  assert (Delivery.retryCount d1 = n /\ Delivery.lastError d1 = Some eo /\ Delivery.id d1 = Delivery.id d) as (R1 & L1 & I1).
  { unfold d1, n, failed_count. by destruct (Delivery.retryCount d =? 0). }
  rewrite R1, Z.geb_leb, Z.leb_antisym, <- negb_andb.
  destruct (b && (n <? default_max)); simpl; [|rewrite Delivery.moveToDLQ_cases, L1]; eexists; split_and!; done.
Qed.

Lemma leave_waiting_not_final now d (w : W) :
  Status.isFinal (Delivery.status d) = false ->
  exists d', leave_waiting now (Entity d, w) = ((Entity d', w), Ok tt) /\ Delivery.id d' = Delivery.id d /\
    Delivery.retryCount d' = Delivery.retryCount d /\ Delivery.status d' = Status.PROCESSING /\
    Delivery.taskResultId d' = Delivery.taskResultId d /\ Delivery.destinationId d' = Delivery.destinationId d.
Proof.
  intros Hf. unfold leave_waiting. erewrite bind_ok by reflexivity. simpl.
  destruct (Delivery.status d) eqn:Es; try done; simpl; rewrite ?Delivery.markAsProcessing_cases, ?Es;
    eexists; split_and!; done.
Qed.

(** What a failure calls for. *)
Definition failure_verdict (now : Z) (retry : bool) (count : Z) : Status.t * option date :=
  if retry && (failed_count count <? default_max)
  then (Status.SCHEDULED_RETRY, Some (Delivery.retry_date now (Delivery.DelayNum (backoff (failed_count count)))))
  else (Status.FAILED_DLQ, None).

Lemma handle_outcome now id e h w d eo :
  stored id w = Some d -> Status.isFinal (Delivery.status d) = false -> Delivery.as_delivery_error e = Ok eo ->
  let '(w', r) := handleFailure reporting now id e h w in
  exists d', stored id w' = Some d' /\ Delivery.retryCount d' = failed_count (Delivery.retryCount d) /\
    (Delivery.status d', Delivery.nextRetryAt d') = failure_verdict now (is_retryable e h) (Delivery.retryCount d) /\
    r = Ok tt /\ forall id', id' <> id -> stored id' w' = stored id' w.
Proof.
  intros Hd Hf He. pose proof (stored_id id w d Hd) as Hid. unfold handleFailure, loadDelivery.
  change (deliveries reporting) with (repo (W := W)). rewrite (on_loaded_stored _ id w d Hd).
  erewrite bind_ok by reflexivity.
  destruct (leave_waiting_not_final now d w Hf) as (d1 & E1 & I1 & R1 & S1 & _). rewrite (bind_ok _ _ _ _ _ E1).
  destruct (markFailed_cases now e (is_retryable e h) d1 eo He) as (d2 & E2 & I2 & R2 & L2 & S2).
  rewrite (bind_ok _ _ _ (Entity d2, w) tt) by (simpl; by rewrite E2).
  erewrite bind_ok by reflexivity. rewrite R1 in R2, S2.
  set (n := failed_count (Delivery.retryCount d)) in *. unfold failure_verdict. fold n.
  assert (is_retryable e h && Delivery.canRetry default_max d2 = is_retryable e h && (n <? default_max)) as ->.
  { unfold Delivery.canRetry. rewrite S2, R2. by destruct (is_retryable e h), (n <? default_max). }
  assert (exists d3, (if is_retryable e h && (n <? default_max) then schedule reporting now id (error_message e)
                      else bury reporting now id (error_message e)) (Entity d2, w) = ((Entity d3, w), Ok tt) /\
            Delivery.id d3 = id /\ Delivery.retryCount d3 = n /\
            (Delivery.status d3, Delivery.nextRetryAt d3) =
              if is_retryable e h && (n <? default_max)
              then (Status.SCHEDULED_RETRY, Some (Delivery.retry_date now (Delivery.DelayNum (backoff n))))
              else (Status.FAILED_DLQ, None)) as (d3 & E3 & I3 & R3 & V3).
  { destruct (is_retryable e h && (n <? default_max)).
    - unfold schedule. munfold. eexists. split; [done|]. rewrite R2. simpl. split_and!; congruence.
    - unfold bury. munfold. rewrite Delivery.moveToDLQ_cases. rewrite L2. simpl. eexists. split; [done|].
      simpl. split_and!; congruence. }
  rewrite (bind_ok _ _ _ _ _ E3). rewrite persist_entity.
  pose proof (save_stored d3 w) as (d4 & H4 & I4 & _ & _ & S4 & R4 & N4).
  pose proof (save_others d3 w) as Hoth. destruct (save_entity d3 w) as [w2 d3'] eqn:Es. simpl in *.
  exists d4. split_and!; [congruence|congruence|congruence|done|]. intros id' Hne. apply Hoth. congruence.
Qed.
End failure.

Section series.
Context {W : Type} `{EntityRepo W}.

(** A failed delivery as the services meet it: an answer that asks for a retry,
    or an error reported as retryable. *)
Inductive failure : Type :=
| Answered (now t0 t1 : Z) (dest : Destination.t + jsval) (st dur : num)
| Reported (now : Z) (e : Delivery.error_arg) (h : HandleFailure.hint).
Definition retryable_failure (f : failure) : Prop :=
  match f with
  | Answered _ _ _ _ st _ =>
      num_truthy st = true /\ ProcessDelivery.is_2xx st = false /\ ProcessDelivery.retryable st = true
  | Reported _ e h => HandleFailure.is_retryable e h = true /\ is_ok (Delivery.as_delivery_error e) = true
  end.
Definition meet (id : string) (f : failure) (w : W) : W :=
  match f with
  | Answered now t0 t1 dest st dur => (ProcessDelivery.processDelivery (answering st dur) now t0 t1 id (Some dest) w).1
  | Reported now e h => (HandleFailure.handleFailure reporting now id e h w).1
  end.
Definition meet_all (id : string) (fs : list failure) (w : W) : W := fold_left (fun w f => meet id f w) fs w.

Definition delay_after (f : failure) (count : Z) : date :=
  match f with
  | Answered _ _ t1 _ _ _ => Delivery.retry_date t1 (Delivery.DelayNum (backoff count))
  | Reported now _ _ => Delivery.retry_date now (Delivery.DelayNum (backoff count))
  end.

Lemma meet_failure id f w d :
  stored id w = Some d -> Status.isFinal (Delivery.status d) = false -> Delivery.retryCount d < default_max ->
  retryable_failure f ->
  exists d', stored id (meet id f w) = Some d' /\ Delivery.status d' = Status.SCHEDULED_RETRY /\
    Delivery.nextRetryAt d' = Some (delay_after f (Delivery.retryCount d')) /\
    (Delivery.retryCount d' = Delivery.retryCount d \/ Delivery.retryCount d' = failed_count (Delivery.retryCount d)) /\
    forall id', id' <> id -> stored id' (meet id f w) = stored id' w.
Proof.
  intros Hd Hf Hn Hr. destruct f as [now t0 t1 dest st dur|now e h]; simpl in *.
  - destruct Hr as (H1 & H2 & H3). pose proof (process_outcome st dur now t0 t1 id dest w d Hd Hf H1) as Ho.
    destruct (ProcessDelivery.processDelivery _ _ _ _ _ _ _) as [w' r]. destruct Ho as (d' & H4 & H5 & H6 & _ & H7).
    unfold verdict in H6. rewrite H2, H3, (proj2 (Z.ltb_lt _ _) Hn) in H6. injection H6 as H8 H9.
    exists d'. split_and!; try done; [by rewrite H9, H5|by left].
  - destruct Hr as [H1 H2]. destruct (Delivery.as_delivery_error e) as [eo|] eqn:Ee; [|done].
    pose proof (handle_outcome now id e h w d eo Hd Hf Ee) as Ho.
    destruct (HandleFailure.handleFailure _ _ _ _ _ _) as [w' r]. destruct Ho as (d' & H4 & H5 & H6 & _ & H7).
    assert (failed_count (Delivery.retryCount d) <? default_max = true) as Hlt.
    { unfold failed_count, default_max in *. destruct (Delivery.retryCount d =? 0); [done|by apply Z.ltb_lt]. }
    unfold failure_verdict in H6. rewrite H1, Hlt in H6. injection H6 as H8 H9.
    exists d'. split_and!; try done; [by rewrite H9, H5|by right].
Qed.

(** C13: the services never give a delivery up: whatever the number and the order
    of the retryable answers and retryable errors it meets, one that is not final
    and has a retry count below the strategy's maximum of five is scheduled
    again, its retry count never passes one failure, and so the next retry is
    never further than the delay of the count it had. *)
Theorem services_never_give_up id fs f w d :
  stored id w = Some d -> Status.isFinal (Delivery.status d) = false -> 0 <= Delivery.retryCount d < default_max ->
  Forall retryable_failure (fs ++ [f]) ->
  exists d', stored id (meet_all id (fs ++ [f]) w) = Some d' /\
    Delivery.status d' = Status.SCHEDULED_RETRY /\
    Delivery.retryCount d <= Delivery.retryCount d' <= Z.max 1 (Delivery.retryCount d) /\
    Delivery.nextRetryAt d' = Some (delay_after f (Delivery.retryCount d')) /\
    forall id', id' <> id -> stored id' (meet_all id (fs ++ [f]) w) = stored id' w.
Proof.
  intros Hd Hf Hn [Hfs [Hr _]%Forall_cons]%Forall_app. unfold meet_all. rewrite fold_left_app. simpl.
  assert (exists d1, stored id (meet_all id fs w) = Some d1 /\ Status.isFinal (Delivery.status d1) = false /\
            Delivery.retryCount d <= Delivery.retryCount d1 <= Z.max 1 (Delivery.retryCount d) /\
            forall id', id' <> id -> stored id' (meet_all id fs w) = stored id' w) as (d1 & D1 & F1 & R1 & O1).
  { clear f Hr. induction fs as [|f fs IH] using rev_ind; [exists d; split_and!; try done; lia|].
    apply Forall_app in Hfs as [Hfs [Hr _]%Forall_cons]. destruct (IH Hfs) as (d1 & D1 & F1 & R1 & O1).
    unfold meet_all. rewrite fold_left_app. simpl. fold (meet_all id fs w).
    destruct (meet_failure id f (meet_all id fs w) d1 D1 F1) as (d2 & D2 & S2 & _ & R2 & O2);
      [unfold default_max in *; lia|done|].
    exists d2. split_and!; try done; [by rewrite S2| | |intros id' Hne; rewrite O2 by done; by apply O1];
      unfold failed_count in R2; destruct (Z.eqb_spec (Delivery.retryCount d1) 0); lia. }
  fold (meet_all id fs w).
  destruct (meet_failure id f (meet_all id fs w) d1 D1 F1) as (d2 & D2 & S2 & N2 & R2 & O2);
    [unfold default_max in *; lia|done|].
  exists d2. split_and!; try done; [| |intros id' Hne; rewrite O2 by done; by apply O1];
    unfold failed_count in R2; destruct (Z.eqb_spec (Delivery.retryCount d1) 0); lia.
Qed.
End series.

Section schedule.
Import ScheduleRetry.
Context {W : Type} `{EntityRepo W}.

(** A retry that is asked for by hand is refused exactly from the allowed
    maximum on, and then dead-letters the delivery and says so; otherwise the
    delivery, in whatever state it is, COMPLETED included, is SCHEDULED_RETRY
    after the computed delay with its count unchanged, and then one job with the
    next attempt's number and that delay is enqueued. *)
Theorem schedule_retry_outcome now rnd id first second w d q f :
  stored id w = Some d -> enqueueDelivery q = Some f ->
  let mx := max_allowed second in
  let count := Delivery.retryCount d in
  let attempt := attempt_number first count in
  let delay := delay_of rnd first second attempt in
  let run := scheduleRetry repo (Some q) now rnd id first second w in
  if num_geb (ofZ count) mx
  then exists d', stored id run.1 = Some d' /\ Delivery.status d' = Status.FAILED_DLQ /\ Delivery.nextRetryAt d' = None /\
         run.2 = Throw (MaxRetriesExceededError id count (match mx with Fin x => Qfloor x | _ => 0 end))
  else exists w1 d', stored id w1 = Some d' /\ Delivery.status d' = Status.SCHEDULED_RETRY /\
         Delivery.nextRetryAt d' = Some (Delivery.retry_date now (Delivery.DelayNum delay)) /\
         Delivery.retryCount d' = count /\ (forall id', id' <> id -> stored id' w1 = stored id' w) /\
         run = f (Delivery.taskResultId d) (Delivery.destinationId d) (attempt + 1) (Some delay) w1.
Proof.
  intros Hd Hq mx count attempt delay run. pose proof (stored_id id w d Hd) as Hid. unfold run, scheduleRetry, loadDelivery.
  rewrite (on_loaded_stored _ id w d Hd). erewrite bind_ok by reflexivity. fold count mx.
  destruct (num_geb (ofZ count) mx).
  - set (reason := "Max retries exceeded (" +:+ _).
    assert (exists d1, ent_if (Delivery.moveToDeadLetterQueue now reason) (Entity d, w) = ((Entity d1, w), Ok tt) /\
              Delivery.id d1 = id /\ Delivery.status d1 = Status.FAILED_DLQ /\ Delivery.nextRetryAt d1 = None) as (d1 & E1 & I1 & S1 & N1).
    { simpl. rewrite Delivery.moveToDLQ_cases. destruct (Delivery.lastError d); eexists; split_and!; done. }
    rewrite (bind_ok _ _ _ _ _ E1). pose proof (save_stored d1 w) as (d2 & H2 & I2 & _ & _ & S2 & _ & N2).
    destruct (save_entity d1 w) as [w2 d1'] eqn:Es. simpl in H2.
    rewrite (bind_ok _ _ _ (Entity d1', w2) tt) by (by rewrite persist_entity, Es). simpl.
    exists d2. split_and!; congruence.
  - fold attempt delay.
    assert (exists d1, leave_waiting now (Entity d, w) = ((Entity d1, w), Ok tt) /\ Delivery.id d1 = id /\
              Delivery.retryCount d1 = count /\ Delivery.taskResultId d1 = Delivery.taskResultId d /\
              Delivery.destinationId d1 = Delivery.destinationId d) as (d1 & E1 & I1 & R1 & T1 & D1).
    { destruct (Status.isFinal (Delivery.status d)) eqn:Ef.
      - exists d. split_and!; try done. unfold leave_waiting. erewrite bind_ok by reflexivity. simpl.
        by destruct (Delivery.status d).
      - destruct (leave_waiting_not_final now d w Ef) as (d1 & ? & ? & ? & _ & ? & ?). exists d1. split_and!; try done; congruence. }
    rewrite (bind_ok _ _ _ _ _ E1).
    set (d2 := Delivery.rescheduled now delay d1).
    rewrite (bind_ok _ _ _ (Entity d2, w) tt) by done.
    pose proof (save_same d2 w) as (_ & T3 & D3 & _). pose proof (save_others d2 w) as Hoth.
    pose proof (save_stored d2 w) as (d4 & H4 & _ & _ & _ & S4 & R4 & N4).
    destruct (save_entity d2 w) as [w1 d3] eqn:Es. simpl in T3, D3, Hoth, H4.
    rewrite (bind_ok _ _ _ (Entity d3, w1) tt) by (by rewrite persist_entity, Es).
    exists w1, d4. split_and!; try done; [by rewrite <- I1|by rewrite R4|intros id' Hne; apply Hoth; change (Delivery.id d2) with (Delivery.id d1); congruence|].
    unfold enqueue. rewrite Hq. erewrite bind_ok by reflexivity. simpl. rewrite T3, D3. simpl. rewrite T1, D1.
    unfold out. by destruct (f _ _ _ _ w1).
Qed.
End schedule.

Section recovery.
Import RecoverStale.
Context {W : Type} `{EntityRepo W}.

(** A stale delivery is scheduled again unless its count is past 5; one at 5,
    which [markFailed] has just dead-lettered, is revived.  Its count grows from
    0 to 1 only. *)
Lemma revive_outcome now (w : W) d :
  let n := failed_count (Delivery.retryCount d) in
  exists d', revive None now (Entity d, w) = ((Entity d', w), Ok (n <=? max_retries)) /\
    Delivery.id d' = Delivery.id d /\ Delivery.retryCount d' = n /\
    (Delivery.status d', Delivery.nextRetryAt d') =
      if n <=? max_retries
      then (Status.SCHEDULED_RETRY, Some (Delivery.retry_date now (Delivery.DelayNum (backoff (Z.max 0 (n - 1))))))
      else (Status.FAILED_DLQ, None).
Proof.
  intros n. unfold revive.
  set (err := Delivery.ErrAny _). assert (exists eo, Delivery.as_delivery_error err = Ok eo) as [eo He] by (eexists; reflexivity).
  destruct (markFailed_cases now err true d eo He) as (d1 & E1 & I1 & R1 & L1 & _). fold n in R1.
  rewrite (bind_ok _ _ _ (Entity d1, w) tt) by (simpl; by rewrite E1).
  erewrite bind_ok by reflexivity. cbn [fst retry_count]. rewrite R1.
  destruct (n <=? max_retries).
  - munfold. eexists. by split_and!.
  - munfold. rewrite Delivery.moveToDLQ_cases, L1. eexists. by split_and!.
Qed.
End recovery.

Definition sample_store : gmap string Delivery.t := {["d1" := Delivery.sample Status.PENDING 0]}.
Definition sample_failures : list failure :=
  [Answered 0 1 2 (inr (JString "x")) (ofZ 503) (ofZ 7); Reported 9 (Delivery.ErrAny (JString "boom")) (HandleFailure.Retry true);
   Answered 10 11 12 (inr (JString "x")) (ofZ 500) (ofZ 7)].

Lemma services_never_give_up_witness :
  exists d', stored "d1" (meet_all "d1" (sample_failures ++ [Answered 20 21 22 (inr (JString "x")) (ofZ 429) (ofZ 7)]) sample_store) = Some d' /\
    Delivery.status d' = Status.SCHEDULED_RETRY.
Proof.
  destruct (services_never_give_up "d1" sample_failures (Answered 20 21 22 (inr (JString "x")) (ofZ 429) (ofZ 7))
              sample_store (Delivery.sample Status.PENDING 0)) as (d' & H1 & H2 & _).
  - vm_compute. reflexivity.
  - reflexivity.
  - vm_compute. split; [discriminate|reflexivity].
  - repeat constructor.
  - exists d'. split; [exact H1|exact H2].
Defined.

Definition sample_port : queue_port (gmap string Delivery.t) :=
  QueuePort (Some (fun _ _ _ _ => mret tt)) None None (fun _ => mret tt) None.
Lemma schedule_retry_outcome_witness :
  exists w1 d', stored "d1" w1 = Some d' /\ Delivery.status d' = Status.SCHEDULED_RETRY /\
    ScheduleRetry.scheduleRetry repo (Some sample_port) 100 0 "d1" ScheduleRetry.ArgNone ScheduleRetry.ArgNone
      ({["d1" := Delivery.sample Status.COMPLETED 2]} : gmap string Delivery.t) = (w1, Ok tt).
Proof.
  assert (stored "d1" ({["d1" := Delivery.sample Status.COMPLETED 2]} : gmap string Delivery.t) =
            Some (Delivery.sample Status.COMPLETED 2)) as Hs by (vm_compute; reflexivity).
  destruct (schedule_retry_outcome 100 0 "d1" ScheduleRetry.ArgNone ScheduleRetry.ArgNone
              ({["d1" := Delivery.sample Status.COMPLETED 2]} : gmap string Delivery.t) (Delivery.sample Status.COMPLETED 2)
              sample_port (fun _ _ _ _ => mret tt) Hs eq_refl) as (w1 & d' & H1 & H2 & _ & _ & _ & H3).
  by exists w1, d'.
Defined.
End Outcomes.

(** ** The program's repository and queue manager *)

Module Wired.
Import Store Ports.

Section wired.
Context {T : Type} `{Jobs.Listing T}.
Abbreviation M := (meth T exn).

Definition plain (x : string * row) : dobj := Plain x.1 x.2.
(** The repository of [infrastructure/repositories/] as the services see it: it
    answers with rows and has no [save]; the creation of deliveries is an
    argument. *)
Definition row_repo (create : Delivery.t -> M unit) : delivery_repo T := {|
  Ports.findById := Some (fun id t => (t, Ok (Plain id <$> find_delivery id t)));
  Ports.findByTaskResultId := None; Ports.findStale := None; Ports.findAll := None;
  Ports.findByStatus := Some (fun s t =>
    (t, Ok (map plain (filter (fun x => Status.getValue (r_status x.2) = s) (Jobs.rows t)))));
  Ports.save := None; Ports.create := Some create;
|}.
(** The queue manager has none of the methods the services look for. *)
Definition queue_manager : queue_port T := QueuePort None None None (fun _ => mret tt) None.
(** [recordAttempt] called with two arguments: [data] is undefined. *)
Definition two_arguments {A} : M A :=
  fail (Connectors.type_error "Cannot read properties of undefined (reading 'responseStatus')").

Definition process_deps (create : Delivery.t -> M unit)
    (record : string -> Z -> num -> num -> option string -> M unit)
    (find_result : string -> M (option jsval))
    (post : jsval -> jsval -> list (string * string) -> jsval -> M (num * num))
    (find_destination : string -> M (option (Destination.t + jsval))) : ProcessDelivery.deps T :=
  ProcessDelivery.Deps (row_repo create) (Some (Some find_destination)) (Some record) (fun _ _ _ _ => two_arguments)
    (Some find_result) (Some post).
Definition failure_deps (create : Delivery.t -> M unit) : HandleFailure.deps T :=
  HandleFailure.Deps (row_repo create) None (Some (fun _ _ _ => two_arguments)).

Lemma load_row create id t r :
  find_delivery id t = Some r -> loadDelivery (row_repo create) id t = (t, Ok (Plain id r)).
Proof. intros Hr. unfold loadDelivery. munfold. by rewrite Hr. Qed.

(** As they are wired, the services change nothing: the repository finds rows
    where they expect entities, so processing, reporting a failure and scheduling
    a retry stop with a TypeError; recovery and synchronisation find nothing to
    look at; and rebuilding counts the deliveries of each status and adds no
    job. *)
Theorem wired_services_inert create record results post dests id t r now t0 t1 dest e h rnd a b :
  find_delivery id t = Some r ->
  ProcessDelivery.processDelivery (process_deps create record results post dests) now t0 t1 id dest t =
    (t, Throw (Connectors.type_error "delivery.getDestinationId is not a function")) /\
  HandleFailure.handleFailure (failure_deps create) now id e h t =
    (t, Throw (Connectors.type_error "Cannot read properties of undefined (reading 'responseStatus')")) /\
  ScheduleRetry.scheduleRetry (row_repo create) (Some queue_manager) now rnd id a b t =
    (t, Throw (Connectors.type_error "delivery.getRetryCount is not a function")) /\
  RecoverStale.recoverStale (row_repo create) (Some queue_manager) now 30000 t = (t, Ok (RecoverStale.Tally 0 0)) /\
  SyncState.sync (row_repo create) queue_manager t = (t, Ok (SyncState.Tally 0 0 0)) /\
  RebuildQueue.rebuild (row_repo create) (Some queue_manager) now t =
    (t, let n s := Z.of_nat (length (filter (fun x => Status.getValue (r_status x.2) = s) (Jobs.rows t))) in
        Ok (RebuildQueue.Tally (n "PENDING") (n "SCHEDULED_RETRY") (n "FAILED_DLQ"))).
Proof.
  intros Hr. split_and!.
  - unfold ProcessDelivery.processDelivery, on_loaded.
    change (ProcessDelivery.deliveries _) with (row_repo create). by rewrite (load_row create id t r Hr).
  - unfold HandleFailure.handleFailure, on_loaded, HandleFailure.loadDelivery.
    change (HandleFailure.deliveries _) with (row_repo create).
    by rewrite (load_row create id t r Hr).
  - unfold ScheduleRetry.scheduleRetry, on_loaded, ScheduleRetry.loadDelivery. by rewrite (load_row create id t r Hr).
  - done.
  - done.
  - unfold RebuildQueue.rebuild, RebuildQueue.find_by, RebuildQueue.clear. simpl.
    assert (forall g (l : list dobj), RebuildQueue.each (fun o => RebuildQueue.enqueue (Some queue_manager) o (g o)) l t = (t, Ok (E := exn) tt)) as He.
    { intros g l. induction l as [|o l IH]; [done|]. simpl. by erewrite bind_ok by reflexivity. }
    erewrite bind_ok by reflexivity. erewrite bind_ok by reflexivity. erewrite bind_ok by apply (He (fun _ => None)).
    erewrite bind_ok by reflexivity. erewrite bind_ok by apply (He (fun o => Some (RebuildQueue.delay_until now o))).
    erewrite bind_ok by reflexivity. munfold. by rewrite !length_map.
Qed.
End wired.

Definition sample_tables : tables := Tables {["d1" := Row "r1" "w1" Status.PENDING 0 None None None None]} [].
Lemma wired_services_inert_witness :
  RebuildQueue.rebuild (row_repo (fun _ => mret tt)) (Some queue_manager) 5 sample_tables =
  (sample_tables, Ok (RebuildQueue.Tally 1 0 0)).
Proof.
  destruct (wired_services_inert (fun _ => mret tt) (fun _ _ _ _ _ => mret tt) (fun _ => mret None)
    (fun _ _ _ _ => mret (ofZ 200, ofZ 1)) (fun _ => mret None) "d1" sample_tables
    (Row "r1" "w1" Status.PENDING 0 None None None None) 5 6 7 None (Delivery.ErrAny JNull) HandleFailure.NoHint 0
    ScheduleRetry.ArgNone ScheduleRetry.ArgNone) as (_ & _ & _ & _ & _ & Hr); [vm_compute; reflexivity|].
  rewrite Hr. vm_compute. reflexivity.
Defined.
End Wired.

(** The repository of entities has no [findById]: a delivery is found by the id
    of its result, and an id that is not one is not found though its delivery is
    there. *)
Lemma log_needs_result_id {T Q} `{DeliveryLog.LogTable T} `{Jobs.JobQueue Q} now id (w : DeliveryLog.world T Q) :
  (forall x, x ∈ Jobs.rows (DeliveryLog.db w) -> Store.r_taskResultId x.2 <> id) ->
  Ports.loadDelivery (DeliveryLog.log_repo now) id w = (w, Throw (DeliveryNotFoundError id)).
Proof.
  intros Hn. unfold Ports.loadDelivery. munfold.
  assert (filter (fun x => str_eqb (Store.r_taskResultId x.2) id = true) (Jobs.rows (DeliveryLog.db w)) = []) as ->; [|done].
  induction (Jobs.rows (DeliveryLog.db w)) as [|x l IH]; [done|]. rewrite filter_cons_False.
  - apply IH. intros y Hy. apply Hn. by right.
  - rewrite str_eqb_eq. apply Hn. by left.
Qed.
