(* ===== verification/Repositories.v ===== *)
(** * The repositories

    [infrastructure/repositories/]: the queries and writes every repository
    inherits ([Base], base-repository.ts), over the class [Delegate] of a
    Prisma model with the documented laws of its operations, and the
    repositories of results ([ResultRepository]), destinations
    ([DestinationRepository]), deliveries and attempts ([DeliveryQueries],
    [AttemptQueries]; the writes of the worker are those of [Store]), the cache of
    idempotency keys ([IdempotencyCacheRepository]) and the audit log
    ([AuditLogRepository]).  A repository's model has one table; the deletions
    the database cascades into other tables are not modelled. *)
From Stdlib Require Import Ascii QArith Qround Qpower Qabs Lqa.
From stdpp Require Import base tactics numbers list strings gmap sorting pretty.
From S2P Require Import Prelude JsNum JsValue Errors DomainTypes Destination Store Connectors Text Destinations.
Import Store.

(** ** A Prisma model *)

Module Model.

(** The rows in the order a query without one gives them; what a row may be
    refused for besides its key ([d_accepts]). *)
Class Delegate (R T : Type) := {
  d_rows : T -> list (string * R);
  d_find : string -> T -> option R;
  d_create : string -> R -> T -> T + db_error;
  d_update : string -> (R -> R) -> T -> T + db_error;
  d_delete : string -> T -> T + db_error;
  d_updateMany : (string * R -> bool) -> (R -> R) -> T -> T;
  d_deleteMany : (string * R -> bool) -> T -> T;
  d_accepts : R -> T -> bool;
  rows_find id r t : (id, r) ∈ d_rows t <-> d_find id t = Some r;
  rows_NoDup t : NoDup (map fst (d_rows t));
  create_ok id r t : (exists t', d_create id r t = inl t') <-> d_find id t = None /\ d_accepts r t = true;
  create_find id r t t' : d_create id r t = inl t' -> forall id', d_find id' t' = if decide (id' = id) then Some r else d_find id' t;
  update_ok id f t : (exists t', d_update id f t = inl t') <-> is_Some (d_find id t);
  update_find id f t t' : d_update id f t = inl t' -> forall id', d_find id' t' = if decide (id' = id) then f <$> d_find id t else d_find id' t;
  delete_ok id t : (exists t', d_delete id t = inl t') <-> is_Some (d_find id t);
  delete_find id t t' : d_delete id t = inl t' -> forall id', d_find id' t' = if decide (id' = id) then None else d_find id' t;
  updateMany_find p f t id :
    d_find id (d_updateMany p f t) = match d_find id t with Some r => Some (if p (id, r) then f r else r) | None => None end;
  deleteMany_find p t id :
    d_find id (d_deleteMany p t) = match d_find id t with Some r => if p (id, r) then None else Some r | None => None end;
}.

(** A concrete table, which refuses nothing but a key it has. *)
Section gmap_delegate.
Context {R : Type}.
Abbreviation table := (gmap string R).
Definition g_create (id : string) (r : R) (t : table) : table + db_error :=
  match t !! id with Some _ => inr (P2002 ["id"]) | None => inl (<[id := r]> t) end.
Definition g_update (id : string) (f : R -> R) (t : table) : table + db_error :=
  match t !! id with Some r => inl (<[id := f r]> t) | None => inr (P2025 "Record to update not found.") end.
Definition g_delete (id : string) (t : table) : table + db_error :=
  match t !! id with Some _ => inl (delete id t) | None => inr (P2025 "Record to delete does not exist.") end.
Definition g_updateMany (p : string * R -> bool) (f : R -> R) (t : table) : table :=
  map_imap (fun id r => Some (if p (id, r) then f r else r)) t.
Definition g_deleteMany (p : string * R -> bool) (t : table) : table :=
  map_imap (fun id r => if p (id, r) then None else Some r) t.

#[global] Program Instance gmap_delegate : Delegate R table := {
  d_rows := map_to_list; d_find id t := t !! id;
  d_create := g_create; d_update := g_update; d_delete := g_delete;
  d_updateMany := g_updateMany; d_deleteMany := g_deleteMany;
  d_accepts _ _ := true;
}.
Next Obligation. intros id r t. apply elem_of_map_to_list. Qed.
Next Obligation. intros t. apply NoDup_fst_map_to_list. Qed.
Next Obligation.
  intros id r t. unfold g_create. simpl. destruct (t !! id); split; [by intros [? ?]|by intros [? _]|done|by eexists].
Qed.
Next Obligation.
  intros id r t t'. unfold g_create. simpl. destruct (t !! id); [done|]. intros [= <-] id'. simpl.
  case_decide as E; [by subst; rewrite lookup_insert_eq|by rewrite lookup_insert_ne].
Qed.
Next Obligation.
  intros id f t. unfold g_update. simpl. destruct (t !! id); split; [done|by eexists|by intros [? ?]|by intros [? ?]].
Qed.
Next Obligation.
  intros id f t t'. unfold g_update. simpl. destruct (t !! id) eqn:Et; [|done]. intros [= <-] id'. simpl.
  case_decide as E; [by subst; rewrite lookup_insert_eq|by rewrite lookup_insert_ne].
Qed.
Next Obligation.
  intros id t. unfold g_delete. simpl. destruct (t !! id); split; [done|by eexists|by intros [? ?]|by intros [? ?]].
Qed.
Next Obligation.
  intros id t t'. unfold g_delete. simpl. destruct (t !! id) eqn:Et; [|done]. intros [= <-] id'. simpl.
  case_decide as E; [by subst; rewrite lookup_delete_eq|by rewrite lookup_delete_ne].
Qed.
Next Obligation. intros p f t id. unfold g_updateMany. simpl. rewrite map_lookup_imap. by destruct (t !! id). Qed.
Next Obligation. intros p t id. unfold g_deleteMany. simpl. rewrite map_lookup_imap. by destruct (t !! id). Qed.
End gmap_delegate.
End Model.

(** ** BaseRepository *)

Module Base.
Import Model.

(** infrastructure/repositories/base-repository.ts:8-12 AuditContext *)
Record context : Type := Context { actorId : option string; ipAddress : option string; userAgent : option string }.
(** A row of audit_logs. *)
Record audit : Type := Audit {
  au_eventType : string; au_entityType : string; au_entityId : string; au_actorId : option string; au_action : string;
  au_changes : jsval; au_ip : option string; au_agent : option string; au_createdAt : Z;
}.
Definition no_rows : jsval := JObject 0 [].
(** [new NotFoundError(message)]. *)
Definition not_found (m : string) : exn := OwnError "Error" "NOT_FOUND" 404 m.

(** infrastructure/repositories/base-repository.ts:21-28 FindOptions
    The order a query asks for is what the database does to the rows. *)
Record find_options (R : Type) : Type := FindOptions {
  o_page : option Z; o_limit : option Z; o_order : list (string * R) -> list (string * R);
}.
Arguments FindOptions {R}. Arguments o_page {R}. Arguments o_limit {R}. Arguments o_order {R}.
(** What [findMany] returns: an array with properties. *)
Record found (R : Type) : Type := Found { f_data : list (string * R); f_total : Z; f_hasMore : bool }.
Arguments Found {R}. Arguments f_data {R}. Arguments f_total {R}. Arguments f_hasMore {R}.

(** A table, and that of the audit log. *)
Record world (T L : Type) : Type := World { tbl : T; audits : L }.
Arguments World {T L}. Arguments tbl {T L}. Arguments audits {T L}.

Section repository.
Context {R T L : Type} `{Delegate R T} `{Delegate audit L} (modelName : string).
Abbreviation W := (world T L).
Abbreviation M := (meth W exn).

(** A database operation, with its error mapped by [executeQuery]. *)
Definition write (op : T -> T + db_error) : M unit := fun w =>
  match op (tbl w) with
  | inl t => (World t (audits w), Ok tt)
  | inr e => (w, Throw (mapDatabaseError e))
  end.
Definition select (where_ : string * R -> bool) (t : T) : list (string * R) := filter (fun x => where_ x = true) (d_rows t).

(** infrastructure/repositories/base-repository.ts:86-111 logAudit
    The log row's id is generated; a failure is only logged. *)
Definition logAudit (now : Z) (aid eventType : string) (entityId : option string) (action : string) (changes : jsval)
    (ctx : option context) : M unit := fun w =>
  let a := Audit eventType modelName (default "" entityId) (Some (str_or (default "" (ctx ≫= actorId)) "system")) action
             (js_or changes no_rows) (ctx ≫= ipAddress) (ctx ≫= userAgent) now in
  match d_create aid a (audits w) with inl l => (World (tbl w) l, Ok tt) | inr _ => (w, Ok tt) end.

(** infrastructure/repositories/base-repository.ts:229-235 findUnique
    By the primary key. *)
Definition findUnique (id : string) : M (option R) := gets (fun w => d_find id (tbl w)).
(** infrastructure/repositories/base-repository.ts:127-130 findById *)
Definition findById (id : string) : M (option R) := findUnique id.
(** infrastructure/repositories/base-repository.ts:118-122 exists *)
Definition exists_ (id : string) : M bool := r ← findUnique id; mret (match r with Some _ => true | None => false end).
(** infrastructure/repositories/base-repository.ts:206-224 findFirst
    The order of the options is not passed on. *)
Definition findFirst (where_ : string * R -> bool) : M (option (string * R)) := gets (fun w => head (select where_ (tbl w))).
(** infrastructure/repositories/base-repository.ts:135-138 findOne *)
Definition findOne (where_ : string * R -> bool) : M (option (string * R)) := findFirst where_.
(** infrastructure/repositories/base-repository.ts:143-149 count *)
Definition count (where_ : string * R -> bool) : M Z := gets (fun w => Z.of_nat (length (select where_ (tbl w)))).
(** infrastructure/repositories/base-repository.ts:154-201 findMany *)
Definition findMany (where_ : string * R -> bool) (options : option (find_options R)) : M (found R) := gets (fun w =>
  let all := select where_ (tbl w) in
  let total := Z.of_nat (length all) in
  match options with
  | None => Found all total (Z.of_nat (length all) <? total)
  | Some o =>
      let sorted := o_order o all in
      match o_page o, o_limit o with
      | Some p, Some n =>
          if (p =? 0) || (n =? 0) then Found sorted total (Z.of_nat (length sorted) <? total)
          else
            let n := Z.max 1 n in
            let skip := Z.max 0 ((p - 1) * n) in
            let records := take (Z.to_nat n) (drop (Z.to_nat skip) sorted) in
            Found records total (skip + Z.of_nat (length records) <? total)
      | _, _ => Found sorted total (Z.of_nat (length sorted) <? total)
      end
  end).
(** infrastructure/repositories/base-repository.ts:240-254 createMany
    One insertion after the other: those before one that fails stay. *)
Fixpoint createMany (data : list (string * R)) : M (list R) :=
  match data with
  | [] => mret []
  | (id, r) :: data => write (d_create id r);; rest ← createMany data; mret (r :: rest)
  end.
(** infrastructure/repositories/base-repository.ts:259-266 updateMany *)
Definition updateMany (where_ : string * R -> bool) (f : R -> R) : M Z := fun w =>
  (World (d_updateMany where_ f (tbl w)) (audits w), Ok (Z.of_nat (length (select where_ (tbl w))))).
(** infrastructure/repositories/base-repository.ts:271-278 deleteMany *)
Definition deleteMany (where_ : string * R -> bool) : M Z := fun w =>
  (World (d_deleteMany where_ (tbl w)) (audits w), Ok (Z.of_nat (length (select where_ (tbl w))))).

(** What the repositories of results, destinations, deliveries and attempts do
    alike: each audits its writes under its event's name. *)
Section audited.
Context (label event : string).
Definition getAll : M (list (string * R)) := f ← findMany (fun _ => true) None; mret (f_data f).
Definition getById (id : string) : M R :=
  r ← findUnique id;
  match r with Some r => mret r | None => fail (not_found (label +:+ " not found with id: " +:+ id)) end.
Definition create (now : Z) (aid id : string) (r : R) (data : jsval) (ctx : option context) : M R :=
  write (d_create id r);;
  logAudit now aid (event +:+ "_CREATED") (Some id) "CREATE" data ctx;;
  mret r.
(** [f] is what the data of an update does to a row. *)
Definition update (now : Z) (aid id : string) (f : R -> R) (data : jsval) (ctx : option context) : M unit :=
  write (d_update id f);;
  logAudit now aid (event +:+ "_UPDATED") (Some id) "UPDATE" data ctx.
Definition delete (now : Z) (aid id : string) (ctx : option context) : M unit :=
  write (d_delete id);;
  logAudit now aid (event +:+ "_DELETED") (Some id) "DELETE" JNull ctx.
End audited.
End repository.
End Base.

(** ** ResultRepository *)

Module ResultRepository.
Import Model Base.

(** A row of ai_task_results. *)
Record row : Type := Row {
  r_emailId : string; r_agentId : string; r_agentVersion : jsval; r_resultPayload : jsval; r_confidenceScore : num;
  r_llmMetadata : jsval; r_createdAt : Z;
}.
Definition not_space_at (c : ascii) : bool := negb (is_space c) && negb (Ascii.eqb c "@").
(** [/^[^\s@]+@[^\s@]+\.[^\s@]+$/]: one @, and after it a dot that is neither
    first nor last; the dot may be any inner one. *)
Fixpoint dot_then (s : string) : bool :=
  match s with String d (String _ _ as rest) => Ascii.eqb d "." || dot_then rest | _ => false end.
Definition inner_dot (s : string) : bool := match s with String _ s => dot_then s | EmptyString => false end.
Definition emailRegex (s : string) : bool :=
  match split_on "@" s with
  | [user; host] => str_truthy user && str_forall not_space_at user && str_forall not_space_at host && inner_dot host
  | _ => false
  end.

Section repository.
Context {T L : Type} `{Delegate row T} `{Delegate audit L}.
Abbreviation M := (meth (world T L) exn).

(** infrastructure/repositories/result-repository.ts:22-24 getAll *)
Definition getAll : M (list (string * row)) := Base.getAll.
(** infrastructure/repositories/result-repository.ts:26-32 getById *)
Definition getById (id : string) : M row := Base.getById "AiTaskResult" id.
(** infrastructure/repositories/result-repository.ts:34-46 create *)
Definition create (now : Z) (aid id : string) (r : row) (data : jsval) (ctx : option context) : M row :=
  Base.create "aiTaskResult" "TASK_RESULT" now aid id r data ctx.
(** infrastructure/repositories/result-repository.ts:48-64 update *)
Definition update (now : Z) (aid id : string) (f : row -> row) (data : jsval) (ctx : option context) : M unit :=
  Base.update "aiTaskResult" "TASK_RESULT" now aid id f data ctx.
(** infrastructure/repositories/result-repository.ts:66-80 delete *)
Definition delete (now : Z) (aid id : string) (ctx : option context) : M unit :=
  Base.delete "aiTaskResult" "TASK_RESULT" now aid id ctx.
(** infrastructure/repositories/result-repository.ts:84-94 createResult *)
Definition createResult (now : Z) (aid id : string) (r : row) (data : jsval) (ctx : option context) : M row :=
  if negb (emailRegex (r_emailId r)) then fail (ValidationError "Invalid email format")
  else create now aid id r data ctx.
(** infrastructure/repositories/result-repository.ts:96-100 findPendingResults *)
Definition findPendingResults (limit : nat) : M (list (string * row)) := gets (fun w => take limit (d_rows (tbl w))).

(** [byAgent[r.agentId] = (byAgent[r.agentId] || 0) + 1] *)
Definition bump (k : string) (m : list (string * Z)) : list (string * Z) := jmap_set k (default 0 (jmap_get k m) + 1) m.
Record stats : Type := Stats { s_total : Z; s_average : num; s_byAgent : list (string * Z) }.
(** infrastructure/repositories/result-repository.ts:102-121 getResultStats
    The sum of the scores is exact here. *)
Definition getResultStats : M stats := gets (fun w =>
  let records := map snd (d_rows (tbl w)) in
  match records with
  | [] => Stats 0 (ofZ 0) []
  | _ => Stats (Z.of_nat (length records))
           (num_div (fold_left (fun a r => num_add a (r_confidenceScore r)) records (ofZ 0)) (ofZ (Z.of_nat (length records))))
           (fold_left (fun m r => bump (r_agentId r) m) records [])
  end).
(** infrastructure/repositories/result-repository.ts:126-128 findByEmailId *)
Definition findByEmailId (emailId : string) : M (found row) := findMany (fun x => str_eqb (r_emailId x.2) emailId) None.
(** infrastructure/repositories/result-repository.ts:133-135 findByAgentId *)
Definition findByAgentId (agentId : string) : M (found row) := findMany (fun x => str_eqb (r_agentId x.2) agentId) None.
(** infrastructure/repositories/result-repository.ts:140-147 findByDateRange *)
Definition findByDateRange (startDate endDate : Z) : M (found row) :=
  findMany (fun x => (startDate <=? r_createdAt x.2) && (r_createdAt x.2 <=? endDate)) None.
(** infrastructure/repositories/result-repository.ts:190-192 countByEmailId *)
Definition countByEmailId (emailId : string) : M Z := count (fun x => str_eqb (r_emailId x.2) emailId).
(** infrastructure/repositories/result-repository.ts:210-216 deleteOlderThan *)
Definition deleteOlderThan (date : Z) : M Z := deleteMany (fun x => r_createdAt x.2 <? date).
End repository.
End ResultRepository.

(** ** DestinationRepository *)

Module DestinationRepository.
Import Model Base.

(** A row of destinations. *)
Record row : Type := Row {
  r_type : DestType.t; r_endpointUrl : string; r_eventFilters : option (list (string * jsval)); r_enabled : bool;
  r_retryStrategy : string; r_circuitBreakerThreshold : Z; r_timeout : Z;
}.

(** [includes(' ')] *)
Definition has_blank (s : string) : bool := includes " " s.
Definition http_scheme (s : string) : bool := starts_with "http://" s || starts_with "https://" s.
(** infrastructure/repositories/destination-repository.ts:230-249 validateEndpoint *)
Definition validateEndpoint (ty : DestType.t) (endpoint : string) : res exn unit :=
  if negb (str_truthy endpoint) || str_eqb (trim endpoint) ""
  then Throw (ValidationError "Endpoint identifier must be a non-empty string")
  else match ty with
  | DestType.WEBHOOK | DestType.AUDIT =>
      if http_scheme endpoint then Ok tt
      else Throw (ValidationError ("Endpoint URL for " +:+ DestType.getValue ty +:+ " must use HTTP or HTTPS scheme"))
  | DestType.DATABASE =>
      if existsb (fun scheme => starts_with scheme endpoint)
           ["postgresql://"; "postgres://"; "mysql://"; "mongodb://"; "sqlite://"] then Ok tt
      else Throw (ValidationError "Database endpoint connection string must use a supported connection scheme")
  | DestType.QUEUE =>
      if has_blank endpoint || (String.length endpoint <? 3)%nat
      then Throw (ValidationError "Queue identifier name must not contain spaces and be at least 3 characters")
      else Ok tt
  end.

(** The data of an update; [None] leaves a column. *)
Record changes : Type := Changes {
  u_type : option DestType.t; u_endpointUrl : option string; u_enabled : option bool; u_circuitBreakerThreshold : option Z;
}.
Definition changed (u : changes) (r : row) : row :=
  Row (default (r_type r) (u_type u)) (default (r_endpointUrl r) (u_endpointUrl u)) (r_eventFilters r)
    (default (r_enabled r) (u_enabled u)) (r_retryStrategy r)
    (default (r_circuitBreakerThreshold r) (u_circuitBreakerThreshold u)) (r_timeout r).

Section repository.
Context {T L : Type} `{Delegate row T} `{Delegate audit L}.
Abbreviation M := (meth (world T L) exn).

(** infrastructure/repositories/destination-repository.ts:26-28 getAll *)
Definition getAll : M (list (string * row)) := Base.getAll.
(** infrastructure/repositories/destination-repository.ts:30-36 getById *)
Definition getById (id : string) : M row := Base.getById "Destination" id.
(** infrastructure/repositories/destination-repository.ts:38-51 create *)
Definition create (now : Z) (aid id : string) (r : row) (data : jsval) (ctx : option context) : M row :=
  lift_res (validateEndpoint (r_type r) (r_endpointUrl r));;
  Base.create "destination" "DESTINATION" now aid id r data ctx.
(** infrastructure/repositories/destination-repository.ts:53-72 update
    The endpoint is checked when the type is given with it. *)
Definition update (now : Z) (aid id : string) (u : changes) (data : jsval) (ctx : option context) : M unit :=
  (match u_type u, u_endpointUrl u with
   | Some ty, Some url => if str_truthy url then lift_res (validateEndpoint ty url) else mret tt
   | _, _ => mret tt
   end);;
  Base.update "destination" "DESTINATION" now aid id (changed u) data ctx.
(** infrastructure/repositories/destination-repository.ts:74-88 delete *)
Definition delete (now : Z) (aid id : string) (ctx : option context) : M unit :=
  Base.delete "destination" "DESTINATION" now aid id ctx.
(** infrastructure/repositories/destination-repository.ts:90-92 findDestinationById *)
Definition findDestinationById (id : string) : M (option row) := findById id.
(** infrastructure/repositories/destination-repository.ts:96-107 createDestination *)
Definition createDestination (now : Z) (aid id : string) (r : row) (data : jsval) (ctx : option context) : M row :=
  if match r_type r with DestType.WEBHOOK | DestType.AUDIT => str_truthy (r_endpointUrl r) && negb (http_scheme (r_endpointUrl r)) | _ => false end
  then fail (ValidationError "Endpoint URL must use HTTP or HTTPS scheme")
  else create now aid id r data ctx.
(** infrastructure/repositories/destination-repository.ts:116-118 findByType *)
Definition findByType (ty : DestType.t) : M (found row) := findMany (fun x => bool_decide (r_type x.2 = ty)) None.
(** infrastructure/repositories/destination-repository.ts:123-125 findEnabled *)
Definition findEnabled : M (found row) := findMany (fun x => r_enabled x.2) None.
(** infrastructure/repositories/destination-repository.ts:130-132 findByTypeAndEnabled *)
Definition findByTypeAndEnabled (ty : DestType.t) : M (found row) :=
  findMany (fun x => bool_decide (r_type x.2 = ty) && r_enabled x.2) None.
(** infrastructure/repositories/destination-repository.ts:137-146 findMatching
    Every property of the event must be among the filters. *)
Definition row_matches (filters : list (string * jsval)) (r : row) : bool :=
  match r_eventFilters r with
  | None => true
  | Some fs => forallb (fun '(k, v) => js_strict_eq (js_get k (JObject 0 fs)) v) filters
  end.
(** infrastructure/repositories/destination-repository.ts:137-146 findMatching *)
Definition findMatching (filters : list (string * jsval)) : M (list (string * row)) :=
  f ← findEnabled; mret (filter (fun x => row_matches filters x.2 = true) (f_data f)).
(** infrastructure/repositories/destination-repository.ts:109-111 findDestinationsByEventFilter *)
Definition findDestinationsByEventFilter := findMatching.
(** infrastructure/repositories/destination-repository.ts:151-153 toggleEnabled *)
Definition toggleEnabled (now : Z) (aid id : string) (enabled : bool) : M unit :=
  update now aid id (Changes None None (Some enabled) None) (JObject 0 [("enabled", JBool enabled)]) None.
(** infrastructure/repositories/destination-repository.ts:158-163 updateCircuitBreakerThreshold *)
Definition updateCircuitBreakerThreshold (now : Z) (aid id : string) (threshold : Z) : M unit :=
  if (threshold <? 1) || (threshold >? 100) then fail (ValidationError "Circuit breaker threshold must be between 1 and 100")
  else update now aid id (Changes None None None (Some threshold)) (JObject 0 [("circuitBreakerThreshold", JNum (ofZ threshold))]) None.
(** infrastructure/repositories/destination-repository.ts:203-225 countByType *)
Definition countByType : M (list (string * Z)) := gets (fun w =>
  map (fun ty => (DestType.getValue ty, Z.of_nat (length (select (fun x => bool_decide (r_type x.2 = ty)) (tbl w)))))
    [DestType.WEBHOOK; DestType.DATABASE; DestType.QUEUE; DestType.AUDIT]).
End repository.

(** The repository matches events the other way round: a destination whose
    filters an event satisfies is wanted by the entity, and refused by the
    repository as soon as the event has a property the filters do not name. *)
Theorem repository_matching_reversed fs ev k v (r : row) (d : Destination.t) :
  r_eventFilters r = Some fs -> Destination.eventFilters d = Some fs ->
  (forall key w, (key, w) ∈ fs -> js_strict_eq (js_get key (JObject 0 ev)) w = true) ->
  (k, v) ∈ ev -> assoc k fs = None -> v <> JUndefined ->
  Destination.matches d (JObject 0 ev) = true /\ row_matches ev r = false.
Proof.
  intros Hr Hd Hall Hin Hk Hv. split.
  - unfold Destination.matches, Destination.matchesEventFilter. rewrite Hd. destruct fs as [|x fs]; [done|].
    apply forallb_forall. intros [key w] Hx. apply Hall. by apply list_elem_of_In.
  - unfold row_matches. rewrite Hr. apply not_true_is_false. rewrite forallb_forall. intros Hf.
    apply list_elem_of_In in Hin. specialize (Hf _ Hin). simpl in Hf. rewrite Hk in Hf. by destruct v.
Qed.
Lemma repository_matching_reversed_witness :
  row_matches [("label", JString "spam"); ("emailId", JString "a@b.c")]
    (Row DestType.QUEUE "q-1" (Some [("label", JString "spam")]) true "exponential" 5 5000) = false.
Proof.
  apply (repository_matching_reversed [("label", JString "spam")] [("label", JString "spam"); ("emailId", JString "a@b.c")] "emailId" (JString "a@b.c") _
           (Destination.Mk "d" None None DestType.QUEUE "q-1" (Some [("label", JString "spam")]) DestinationStore.default_strategy (ofZ 5) (ofZ 5000) true [] None));
    [reflexivity|reflexivity| |by right; left|reflexivity|discriminate].
  intros key w Hw. apply list_elem_of_singleton in Hw. injection Hw as -> ->. reflexivity.
Defined.
End DestinationRepository.

(** ** A stable sort *)

Section stable_sort.
Context {A : Type} (key : A -> Z).
Fixpoint insert_by (x : A) (l : list A) : list A :=
  match l with [] => [x] | y :: l' => if key x <? key y then x :: l else y :: insert_by x l' end.
(** [sort((a, b) => key(a) - key(b))] *)
Definition sort_by (l : list A) : list A := fold_left (fun acc x => insert_by x acc) l [].

Definition by_key (x y : A) : Prop := key x <= key y.
Lemma insert_by_Permutation x l : insert_by x l ≡ₚ x :: l.
Proof. induction l as [|y l IH]; [done|]. simpl. case_match; [done|]. rewrite IH. apply Permutation_swap. Qed.
Lemma insert_by_sorted x l : StronglySorted by_key l -> StronglySorted by_key (insert_by x l).
Proof.
  induction 1 as [|y l Hl IH Hy]; simpl; [repeat constructor|]. destruct (Z.ltb_spec (key x) (key y)) as [Hlt|Hge].
  - constructor; [by constructor|]. constructor; [unfold by_key; lia|]. eapply Forall_impl; [exact Hy|]. unfold by_key. intros; lia.
  - constructor; [done|]. rewrite insert_by_Permutation. by constructor.
Qed.
Lemma filter_none (p : A -> bool) (l : list A) : (forall z, z ∈ l -> p z <> true) -> filter (fun y => p y = true) l = [].
Proof.
  induction l as [|y l IH]; intros Hl; [done|]. rewrite filter_cons, decide_False by (apply Hl; by left).
  apply IH. intros z Hz. apply Hl. by right.
Qed.
Lemma insert_by_filter (p : A -> bool) k x l :
  (forall y, p y = true -> key y = k) -> StronglySorted by_key l ->
  filter (fun y => p y = true) (insert_by x l) =
    filter (fun y => p y = true) l ++ filter (fun y => p y = true) [x].
Proof.
  intros Hp. induction 1 as [|y l Hl IH Hy]; [done|]. simpl. destruct (Z.ltb_spec (key x) (key y)) as [Hlt|Hge].
  - rewrite !filter_cons. destruct (decide (p x = true)) as [Hx|Hx]; [|by rewrite app_nil_r].
    assert (forall z, z ∈ y :: l -> p z <> true) as Hn.
    { intros z Hz Hpz. pose proof (Hp _ Hpz). pose proof (Hp _ Hx).
      apply elem_of_cons in Hz as [->|Hz]; [lia|]. rewrite Forall_forall in Hy. specialize (Hy z Hz). unfold by_key in Hy. lia. }
    rewrite decide_False by (apply Hn; by left).
    rewrite filter_none; [done|]. intros z Hz. apply Hn. by right.
  - rewrite !filter_cons, IH, filter_cons. by case_decide.
Qed.

Lemma sort_by_fold l acc :
  StronglySorted by_key acc ->
  StronglySorted by_key (fold_left (fun acc x => insert_by x acc) l acc) /\
  fold_left (fun acc x => insert_by x acc) l acc ≡ₚ acc ++ l /\
  forall p k, (forall y, p y = true -> key y = k) ->
    filter (fun y => p y = true) (fold_left (fun acc x => insert_by x acc) l acc) = filter (fun y => p y = true) (acc ++ l).
Proof.
  revert acc. induction l as [|x l IH]; intros acc Ha; simpl; [by rewrite app_nil_r|].
  destruct (IH (insert_by x acc)) as (S1 & S2 & S3); [by apply insert_by_sorted|]. split_and!; [done| |].
  - rewrite S2, insert_by_Permutation. simpl. by rewrite Permutation_middle.
  - intros p k Hp. rewrite (S3 p k Hp), !filter_app, (insert_by_filter p k) by done.
    change (x :: l) with ([x] ++ l). by rewrite filter_app, app_assoc.
Qed.

(** The result is sorted, a permutation, and keeps the order of equal keys. *)
Lemma sort_by_spec l :
  StronglySorted by_key (sort_by l) /\ sort_by l ≡ₚ l /\
  forall p k, (forall y, p y = true -> key y = k) -> filter (fun y => p y = true) (sort_by l) = filter (fun y => p y = true) l.
Proof. apply (sort_by_fold l []). constructor. Qed.
End stable_sort.

(** ** The remaining methods of the repositories of deliveries and attempts *)

Module DeliveryQueries.
Import Model Base.

(** The rows with the columns only the queries use. *)
Record row : Type := Row { d_row : Store.row; d_createdAt : Z }.
Record attempt_row : Type := AttemptRow { at_row : Store.attempt; at_timestamp : Z }.
Definition deliveryId (x : string * attempt_row) : string := a_deliveryId (at_row x.2).

Section writes.
Context {T L : Type} `{Delegate row T} `{Delegate audit L}.
Abbreviation M := (meth (world T L) exn).
(** infrastructure/repositories/delivery-repository.ts:39-41 getAll *)
Definition getAll : M (list (string * row)) := Base.getAll.
(** infrastructure/repositories/delivery-repository.ts:43-49 getById
    The attempts that come with the delivery are those of [attemptsOf]. *)
Definition getById (id : string) : M row := Base.getById "TaskResultDelivery" id.
(** infrastructure/repositories/delivery-repository.ts:51-63 create *)
Definition create (now : Z) (aid id : string) (r : row) (data : jsval) (ctx : option context) : M row :=
  Base.create "taskResultDelivery" "DELIVERY" now aid id r data ctx.
(** infrastructure/repositories/delivery-repository.ts:65-81 update *)
Definition update (now : Z) (aid id : string) (f : row -> row) (data : jsval) (ctx : option context) : M unit :=
  Base.update "taskResultDelivery" "DELIVERY" now aid id f data ctx.
(** infrastructure/repositories/delivery-repository.ts:83-97 delete *)
Definition delete (now : Z) (aid id : string) (ctx : option context) : M unit :=
  Base.delete "taskResultDelivery" "DELIVERY" now aid id ctx.
(** infrastructure/repositories/delivery-repository.ts:101-107 createDelivery *)
Definition createDelivery := create.

Definition by_status (s : Status.t) (x : string * row) : bool := bool_decide (r_status (d_row x.2) = s).
(** infrastructure/repositories/delivery-repository.ts:148-150 findByStatus *)
Definition findByStatus (s : Status.t) : M (found row) := findMany (by_status s) None.
(** infrastructure/repositories/delivery-repository.ts:155-157 findByStatusAndDestination *)
Definition findByStatusAndDestination (s : Status.t) (dest : string) : M (found row) :=
  findMany (fun x => by_status s x && str_eqb (r_destinationId (d_row x.2)) dest) None.
(** infrastructure/repositories/delivery-repository.ts:162-179 findScheduledRetries
    An absent or invalid date is not before any. *)
Definition findScheduledRetries (now : Z) : M (list (string * row)) := gets (fun w =>
  select (fun x => by_status Status.SCHEDULED_RETRY x &&
                   match r_nextRetryAt (d_row x.2) with Some (Some t) => t <=? now | _ => false end) (tbl w)).
(** infrastructure/repositories/delivery-repository.ts:184-186 findInDLQ *)
Definition findInDLQ : M (found row) := findMany (by_status Status.FAILED_DLQ) None.
(** infrastructure/repositories/delivery-repository.ts:191-193 findByResultId *)
Definition findByResultId (id : string) : M (found row) := findMany (fun x => str_eqb (r_taskResultId (d_row x.2)) id) None.
(** infrastructure/repositories/delivery-repository.ts:198-200 findByDestinationId *)
Definition findByDestinationId (id : string) : M (found row) := findMany (fun x => str_eqb (r_destinationId (d_row x.2)) id) None.
(** infrastructure/repositories/delivery-repository.ts:219-221 findDeliveryById *)
Definition findDeliveryById (id : string) : M (option (string * row)) := findFirst (fun x => str_eqb x.1 id).
(** infrastructure/repositories/delivery-repository.ts:223-225 findDeliveriesByResultId *)
Definition findDeliveriesByResultId (id : string) : M (found row) := findByResultId id.
(** infrastructure/repositories/delivery-repository.ts:343-366 countByStatus *)
Definition countByStatus : M (list (string * Z)) := gets (fun w =>
  map (fun s => (Status.getValue s, Z.of_nat (length (select (by_status s) (tbl w)))))
    [Status.PENDING; Status.PROCESSING; Status.COMPLETED; Status.SCHEDULED_RETRY; Status.FAILED_DLQ]).
End writes.

(** Queries over both tables: functions of them. *)
Section queries.
Context {T A : Type} `{Delegate row T} `{Delegate attempt_row A}.

(** The attempts of a delivery, by their number. *)
Definition attemptsOf (id : string) (a : A) : list (string * attempt_row) :=
  sort_by (fun x => a_number (at_row x.2)) (select (fun x => str_eqb (deliveryId x) id) a).

Inductive event_type : Type := CREATION | ATTEMPT.
(** infrastructure/repositories/delivery-repository.ts:7-12 TimelineEvent
    With the row the details are taken from. *)
Record event : Type := Event { ev_id : string; ev_type : event_type; ev_timestamp : Z; ev_details : row + attempt_row }.
Definition events_of (a : A) (x : string * row) : list event :=
  Event x.1 CREATION (d_createdAt x.2) (inl x.2) ::
  map (fun y => Event y.1 ATTEMPT (at_timestamp y.2) (inr y.2)) (attemptsOf x.1 a).
(** infrastructure/repositories/delivery-repository.ts:304-338 getDeliveryTimeline *)
Definition getDeliveryTimeline (resultId : string) (t : T) (a : A) : list event :=
  sort_by ev_timestamp (concat (map (events_of a) (select (fun x => str_eqb (r_taskResultId (d_row x.2)) resultId) t))).

(** infrastructure/repositories/delivery-repository.ts:14-18 StatsFilters *)
Record filters : Type := Filters { startDate : option Z; endDate : option Z; destinationId : option string }.
Definition in_filters (f : filters) (x : string * row) : bool :=
  (match destinationId f with Some d => negb (str_truthy d) || str_eqb (r_destinationId (d_row x.2)) d | None => true end) &&
  (match startDate f with Some s => s <=? d_createdAt x.2 | None => true end) &&
  (match endDate f with Some e => d_createdAt x.2 <=? e | None => true end).
(** infrastructure/repositories/delivery-repository.ts:20-26 DeliveryStats *)
Record stats : Type := Stats {
  s_total : Z; s_successRate : num; s_avgLatencyMs : num; s_failureRate : num; s_byStatus : list (string * Z);
}.
Definition percent (n total : Z) : num := if total >? 0 then num_mul (num_div (ofZ n) (ofZ total)) (ofZ 100) else ofZ 0.
Definition count_status (s : Status.t) (l : list (string * row)) : Z := Z.of_nat (length (filter (fun x => by_status s x = true) l)).
Definition all_attempts (l : list (string * row)) (a : A) : list (string * attempt_row) :=
  concat (map (fun x => select (fun y => str_eqb (deliveryId y) x.1) a) l).
Definition total_time (l : list (string * attempt_row)) : Z := fold_left (fun n x => n + a_time (at_row x.2)) l 0.
(** infrastructure/repositories/delivery-repository.ts:371-418 getDeliveryStats *)
Definition getDeliveryStats (f : option filters) (t : T) (a : A) : stats :=
  let records := select (fun x => match f with Some f => in_filters f x | None => true end) t in
  let total := Z.of_nat (length records) in
  let attempts := all_attempts records a in
  let n := Z.of_nat (length attempts) in
  Stats total (percent (count_status Status.COMPLETED records) total)
    (if n >? 0 then num_div (ofZ (total_time attempts)) (ofZ n) else ofZ 0)
    (percent (count_status Status.FAILED_DLQ records) total)
    (fold_left (fun m x => ResultRepository.bump (Status.getValue (r_status (d_row x.2))) m) records []).

(** infrastructure/repositories/destination-repository.ts:168-198 getDestinationStats
    Total, completed, failed, success rate, average latency. *)
Definition getDestinationStats (id : string) (t : T) (a : A) : Z * Z * Z * num * num :=
  let records := select (fun x => str_eqb (r_destinationId (d_row x.2)) id) t in
  let total := Z.of_nat (length records) in
  let attempts := all_attempts records a in
  let n := Z.of_nat (length attempts) in
  (total, count_status Status.COMPLETED records, count_status Status.FAILED_DLQ records,
   percent (count_status Status.COMPLETED records) total,
   if n >? 0 then num_div (ofZ (total_time attempts)) (ofZ n) else ofZ 0).

(** infrastructure/repositories/result-repository.ts:171-185 getLineage
    The results of an address, their deliveries, and of each the attempts. *)
Definition getLineage {S} `{Delegate ResultRepository.row S} (emailId : string) (results : S) (t : T) (a : A)
    : list (string * ResultRepository.row) * list (string * row * list (string * attempt_row)) :=
  let rs := select (fun x => str_eqb (ResultRepository.r_emailId x.2) emailId) results in
  (rs, map (fun x => (x, attemptsOf x.1 a))
         (select (fun x => bool_decide (r_taskResultId (d_row x.2) ∈ map fst rs)) t)).
(** infrastructure/repositories/result-repository.ts:152-166 findWithDeliveries *)
Definition findWithDeliveries {S} `{Delegate ResultRepository.row S} (id : string) (results : S) (t : T) (a : A)
    : option (ResultRepository.row * list (string * row * list (string * attempt_row))) :=
  r ← d_find id results;
  Some (r, map (fun x => (x, attemptsOf x.1 a)) (select (fun x => str_eqb (r_taskResultId (d_row x.2)) id) t)).
(** infrastructure/repositories/result-repository.ts:197-205 countByStatus *)
Definition countResultsByStatus {S} `{Delegate ResultRepository.row S} (s : Status.t) (results : S) (t : T) : Z :=
  Z.of_nat (length (select (fun x => existsb (fun y => str_eqb (r_taskResultId (d_row y.2)) x.1 && by_status s y) (d_rows t)) results)).

(** The timeline of a result holds exactly the creations of its deliveries
    and their attempts, in the order of their times; events of the same time
    stay in the order creation, attempts by number. *)
Theorem timeline_chronological resultId (t : T) (a : A) :
  let raw := concat (map (events_of a) (select (fun x => str_eqb (r_taskResultId (d_row x.2)) resultId) t)) in
  let line := getDeliveryTimeline resultId t a in
  StronglySorted (by_key ev_timestamp) line /\ line ≡ₚ raw /\
  (forall id r, d_find id t = Some r -> r_taskResultId (d_row r) = resultId ->
     Event id CREATION (d_createdAt r) (inl r) ∈ line /\
     forall k y, d_find k a = Some y -> a_deliveryId (at_row y) = id -> Event k ATTEMPT (at_timestamp y) (inr y) ∈ line) /\
  forall p k, (forall e, p e = true -> ev_timestamp e = k) -> filter (fun e => p e = true) line = filter (fun e => p e = true) raw.
Proof.
  cbn zeta. unfold getDeliveryTimeline. set (raw := concat _).
  destruct (sort_by_spec ev_timestamp raw) as (S1 & S2 & S3). split_and!; [done|done| |exact S3].
  intros id r Hr Hres. rewrite !S2.
  assert (forall e, e ∈ events_of a (id, r) -> e ∈ raw) as Hin.
  { intros e He. unfold raw. apply list_elem_of_In, in_concat. exists (events_of a (id, r)). split; [|by apply list_elem_of_In].
    apply list_elem_of_In, list_elem_of_fmap_2. unfold select. apply list_elem_of_filter. split; [by apply str_eqb_eq|by apply rows_find]. }
  split; [apply Hin; by left|]. intros k y Hy Hk. rewrite S2. apply Hin. right.
  apply list_elem_of_fmap. exists (k, y). split; [done|]. unfold attemptsOf.
  rewrite (proj1 (proj2 (sort_by_spec _ _))). unfold select. apply list_elem_of_filter. split; [by apply str_eqb_eq|by apply rows_find].
Qed.
End queries.

Section attempts.
Context {A L : Type} `{Delegate attempt_row A} `{Delegate audit L}.
Abbreviation M := (meth (world A L) exn).
(** infrastructure/repositories/attempt-repository.ts:30-32 getAll *)
Definition getAllAttempts : M (list (string * attempt_row)) := Base.getAll.
(** infrastructure/repositories/attempt-repository.ts:34-40 getById *)
Definition getAttemptById (id : string) : M attempt_row := Base.getById "TaskResultDeliveryAttempt" id.
(** infrastructure/repositories/attempt-repository.ts:42-54 create *)
Definition createAttempt (now : Z) (aid id : string) (r : attempt_row) (data : jsval) (ctx : option context) : M attempt_row :=
  Base.create "taskResultDeliveryAttempt" "DELIVERY_ATTEMPT" now aid id r data ctx.
(** infrastructure/repositories/attempt-repository.ts:56-72 update *)
Definition updateAttempt (now : Z) (aid id : string) (f : attempt_row -> attempt_row) (data : jsval) (ctx : option context) : M unit :=
  Base.update "taskResultDeliveryAttempt" "DELIVERY_ATTEMPT" now aid id f data ctx.
(** infrastructure/repositories/attempt-repository.ts:74-88 delete *)
Definition deleteAttempt (now : Z) (aid id : string) (ctx : option context) : M unit :=
  Base.delete "taskResultDeliveryAttempt" "DELIVERY_ATTEMPT" now aid id ctx.
Definition of_delivery (id : string) (x : string * attempt_row) : bool := str_eqb (deliveryId x) id.
(** infrastructure/repositories/attempt-repository.ts:149-151 getLatestAttempt *)
Definition getLatestAttempt (id : string) : M (option (string * attempt_row)) := findFirst (of_delivery id).
(** infrastructure/repositories/attempt-repository.ts:156-161 getAttemptHistory *)
Definition getAttemptHistory (id : string) (limit : option Z) : M (found attempt_row) :=
  findMany (of_delivery id)
    (Some (FindOptions (Some 1) (Some (match limit with Some 0 | None => 10 | Some n => n end)) (sort_by (fun x => - at_timestamp x.2)))).
(** infrastructure/repositories/attempt-repository.ts:7-12 FailureStats *)
Record failures : Type := Failures { fs_total : Z; fs_failed : Z; fs_lastCode : option Z; fs_lastMessage : option string }.
Definition failed_attempt (x : string * attempt_row) : bool :=
  (match a_status (at_row x.2) with Some s => s >=? 400 | None => false end) ||
  (match a_error (at_row x.2) with Some m => str_truthy m | None => false end).
(** infrastructure/repositories/attempt-repository.ts:166-185 getFailureStats *)
Definition getFailureStats (id : string) : M failures := gets (fun w =>
  let attempts := attemptsOf id (tbl w) in
  let latest := last attempts in
  Failures (Z.of_nat (length attempts)) (Z.of_nat (length (filter (fun x => failed_attempt x = true) attempts)))
    (latest ≫= fun x => match a_status (at_row x.2) with Some 0 => None | s => s end)
    (latest ≫= fun x => match a_error (at_row x.2) with Some m => if str_truthy m then Some m else None | None => None end)).
(** infrastructure/repositories/attempt-repository.ts:190-192 countByStatusCode *)
Definition countByStatusCode (code : Z) : M Z := count (fun x => bool_decide (a_status (at_row x.2) = Some code)).
(** infrastructure/repositories/attempt-repository.ts:197-219 getErrorDistribution *)
Definition getErrorDistribution (startDate endDate : Z) : M (list (string * Z)) := gets (fun w =>
  fold_left (fun m x => ResultRepository.bump (str_or (default "" (a_error (at_row x.2))) "Unknown Error") m)
    (select (fun x => (startDate <=? at_timestamp x.2) && (at_timestamp x.2 <=? endDate) &&
                      match a_error (at_row x.2) with Some _ => true | None => false end) (tbl w)) []).
End attempts.
End DeliveryQueries.

(** ** IdempotencyCacheRepository *)

Module IdempotencyCacheRepository.
Import Model Base.

(** A row of idempotency_cache, under its composite key. *)
Record row : Type := Row { c_deliveryId : string; c_expiresAt : Z; c_createdAt : Z }.

(** infrastructure/repositories/idempotency-cache-repository.ts:163-165 getCompositeKey *)
Definition getCompositeKey (taskResultId destinationId : string) : string := taskResultId +:+ ":" +:+ destinationId.

Section repository.
Context {T : Type} `{Delegate row T}.
Abbreviation M := (meth (world T unit) exn).

(** infrastructure/repositories/idempotency-cache-repository.ts:24-26 getAll *)
Definition getAll : M (list (string * row)) := Base.getAll.
(** infrastructure/repositories/idempotency-cache-repository.ts:28-34 getById *)
Definition getById (id : string) : M row :=
  r ← findUnique id;
  match r with
  | Some r => mret r
  | None => fail (not_found ("IdempotencyCache entry not found with compositeKey: " +:+ id))
  end.
(** infrastructure/repositories/idempotency-cache-repository.ts:36-46 create *)
Definition create (id : string) (r : row) : M row := write (d_create id r);; mret r.
(** infrastructure/repositories/idempotency-cache-repository.ts:48-62 update *)
Definition update (id : string) (f : row -> row) : M unit := write (d_update id f).
(** infrastructure/repositories/idempotency-cache-repository.ts:67-73 deleteById *)
Definition deleteById (id : string) : M unit := write (d_delete id).
(** infrastructure/repositories/idempotency-cache-repository.ts:75-85 delete *)
Definition delete (taskResultIdOrKey : string) (destinationId : option string) : M unit :=
  match destinationId with
  | Some d => deleteById (getCompositeKey taskResultIdOrKey d)
  | None => deleteById taskResultIdOrKey
  end.
(** infrastructure/repositories/idempotency-cache-repository.ts:92-105 findByCompositeKey *)
Definition findByCompositeKey (now : Z) (taskResultId destinationId : string) : M (option row) :=
  let key := getCompositeKey taskResultId destinationId in
  record ← findUnique key;
  match record with
  | None => mret None
  | Some r => if c_expiresAt r <=? now then deleteById key;; mret None else mret (Some r)
  end.
(** [prisma.idempotencyCache.upsert] *)
Definition upsert (key : string) (f : row -> row) (r : row) : M unit :=
  write (fun t => match d_find key t with Some _ => d_update key f t | None => d_create key r t end).
(** infrastructure/repositories/idempotency-cache-repository.ts:110-128 set *)
Definition set (now : Z) (taskResultId destinationId deliveryId : string) (ttlSeconds : Z) : M unit :=
  let expiresAt := now + ttlSeconds * 1000 in
  upsert (getCompositeKey taskResultId destinationId)
    (fun r => Row deliveryId expiresAt (c_createdAt r)) (Row deliveryId expiresAt now).
(** infrastructure/repositories/idempotency-cache-repository.ts:133-141 exists *)
Definition exists_ (now : Z) (taskResultId : string) (destinationId : option string) : M bool :=
  match destinationId with
  | Some d => entry ← findByCompositeKey now taskResultId d; mret (match entry with Some _ => true | None => false end)
  | None => record ← findUnique taskResultId; mret (match record with Some _ => true | None => false end)
  end.
(** infrastructure/repositories/idempotency-cache-repository.ts:146-158 deleteExpired *)
Definition deleteExpired (now : Z) : M Z := deleteMany (fun x => c_expiresAt x.2 <=? now).

(** *** Theorems *)

Lemma key_inj a b a' b' :
  avoids ":" a = true -> avoids ":" a' = true -> getCompositeKey a b = getCompositeKey a' b' -> a = a' /\ b = b'.
Proof.
  apply (sep_inj ":").
Qed.

(** The model's only unique column is the key. *)
Hypothesis no_other_constraint : forall (r : row) (t : T), d_accepts r t = true.

Lemma set_find now a b d ttl (w : world T unit) :
  exists w' r, set now a b d ttl w = (w', Ok tt) /\ c_deliveryId r = d /\ c_expiresAt r = now + ttl * 1000 /\
    forall k, d_find k (tbl w') = if decide (k = getCompositeKey a b) then Some r else d_find k (tbl w).
Proof.
  unfold set, upsert, write. destruct (d_find _ (tbl w)) as [r0|] eqn:E.
  - destruct (proj2 (update_ok (getCompositeKey a b) (fun r => Row d (now + ttl * 1000) (c_createdAt r)) (tbl w)) (ex_intro _ r0 E)) as [t' Ht].
    rewrite Ht. exists (World t' (audits w)), (Row d (now + ttl * 1000) (c_createdAt r0)). split_and!; try done.
    intros k. simpl. rewrite (update_find _ _ _ _ Ht), E. by case_decide.
  - destruct (proj2 (create_ok (getCompositeKey a b) (Row d (now + ttl * 1000) now) (tbl w)) (conj E (no_other_constraint _ _))) as [t' Ht].
    rewrite Ht. exists (World t' (audits w)), (Row d (now + ttl * 1000) now). split_and!; try done.
    intros k. simpl. rewrite (create_find _ _ _ _ Ht). by case_decide.
Qed.

Lemma find_entry now a b (w : world T unit) :
  let '(w', o) := findByCompositeKey now a b w in
  match d_find (getCompositeKey a b) (tbl w) with
  | Some r => if c_expiresAt r <=? now
              then o = Ok None /\ forall k, d_find k (tbl w') = if decide (k = getCompositeKey a b) then None else d_find k (tbl w)
              else w' = w /\ o = Ok (Some r)
  | None => w' = w /\ o = Ok None
  end.
Proof.
  unfold findByCompositeKey, findUnique. munfold. destruct (d_find _ (tbl w)) as [r|] eqn:E; [|done].
  destruct (_ <=? now); [|done]. unfold deleteById, write. destruct (proj2 (delete_ok (getCompositeKey a b) (tbl w)) (ex_intro _ r E)) as [t' Ht].
  rewrite Ht. simpl. split; [done|]. by apply delete_find.
Qed.

(** An entry of the cache is found for exactly its time to live: until then
    its delivery is found and nothing changes; from then on it is not found and
    is removed.  No entry of another pair is touched, as long as the first
    identifiers hold no colon. *)
Theorem cache_entry_lives now now' a b d ttl a' b' (w : world T unit) :
  avoids ":" a = true -> avoids ":" a' = true -> (a', b') <> (a, b) ->
  let '(w1, _) := set now a b d ttl w in
  let '(w2, o) := findByCompositeKey now' a b w1 in
  (if now' <? now + ttl * 1000
   then w2 = w1 /\ exists r, o = Ok (Some r) /\ c_deliveryId r = d
   else o = Ok None /\ d_find (getCompositeKey a b) (tbl w2) = None) /\
  d_find (getCompositeKey a' b') (tbl w2) = d_find (getCompositeKey a' b') (tbl w).
Proof.
  intros Ha Ha' Hne. destruct (set_find now a b d ttl w) as (w1 & r & -> & Hd & He & Hf).
  pose proof (find_entry now' a b w1) as Hg. destruct (findByCompositeKey now' a b w1) as [w2 o].
  rewrite Hf, decide_True, He in Hg by done. rewrite Z.ltb_antisym.
  assert (getCompositeKey a' b' <> getCompositeKey a b) as Hk by (intros E; apply key_inj in E as [-> ->]; done).
  destruct (_ <=? now'); simpl.
  - destruct Hg as [-> Hg]. rewrite !Hg, decide_True, decide_False, Hf, decide_False by done. done.
  - destruct Hg as [-> ->]. rewrite Hf, decide_False by done. split; [|done]. split; [done|]. by exists r.
Qed.
End repository.

Lemma cache_entry_lives_witness :
  let w1 := (set (T := gmap string row) 5 "r1" "w1" "d1" 2 (World ∅ tt)).1 in
  (findByCompositeKey 2005 "r1" "w1" w1).2 = Ok None.
Proof.
  cbn zeta. pose proof (cache_entry_lives (T := gmap string row) (fun _ _ => eq_refl) 5 2005 "r1" "w1" "d1" 2 "r2" "w1" (World ∅ tt)) as Hc.
  destruct (set _ _ _ _ _ _) as [w1 o1]. simpl.
  destruct (findByCompositeKey 2005 "r1" "w1" w1) as [w2 o]. destruct Hc as [[-> _] _]; done.
Defined.
End IdempotencyCacheRepository.

(** ** AuditLogRepository *)

Module AuditLogRepository.
Import Model Base.

(** infrastructure/repositories/audit-log-repository.ts:7-16 AuditLogEvent *)
Record log_event : Type := LogEvent {
  le_eventType : string; le_entityType : string; le_entityId : string; le_userId : option string; le_action : string;
  le_changes : jsval; le_ipAddress : option string; le_userAgent : option string;
}.
(** [x || null] *)
Definition or_null (s : option string) : option string :=
  match s with Some s => if str_truthy s then Some s else None | None => None end.

Section repository.
Context {T : Type} `{Delegate audit T}.
Abbreviation M := (meth (world T unit) exn).

(** infrastructure/repositories/audit-log-repository.ts:29-36 update *)
Definition update : M unit := fail (ValidationError "Audit logs are immutable and cannot be updated").
(** infrastructure/repositories/audit-log-repository.ts:38-44 delete *)
Definition delete : M unit := fail (ValidationError "Audit logs are immutable and cannot be deleted").
(** infrastructure/repositories/audit-log-repository.ts:46-48 updateMany *)
Definition updateMany : M Z := fail (ValidationError "Audit logs are immutable and cannot be updated").
(** infrastructure/repositories/audit-log-repository.ts:50-52 deleteMany *)
Definition deleteMany : M Z := fail (ValidationError "Audit logs are immutable and cannot be deleted").
(** infrastructure/repositories/audit-log-repository.ts:56-58 getAll *)
Definition getAll : M (list (string * audit)) := Base.getAll.
(** infrastructure/repositories/audit-log-repository.ts:60-66 getById *)
Definition getById (id : string) : M audit := Base.getById "AuditLog" id.
(** infrastructure/repositories/audit-log-repository.ts:68-78 create
    Under a generated id. *)
Definition create (id : string) (a : audit) : M audit := write (d_create id a);; mret a.
(** infrastructure/repositories/audit-log-repository.ts:82-102 createAuditLog *)
Definition createAuditLog (now : Z) (id eventType entityType entityId actorId action : string) (changes : jsval) : M audit :=
  create id (Audit eventType entityType entityId (Some actorId) action (js_or changes no_rows) None None now).
(** infrastructure/repositories/audit-log-repository.ts:107-118 log *)
Definition log (now : Z) (id : string) (e : log_event) : M audit :=
  create id (Audit (le_eventType e) (le_entityType e) (le_entityId e) (or_null (le_userId e)) (le_action e)
               (js_or (le_changes e) no_rows) (or_null (le_ipAddress e)) (or_null (le_userAgent e)) now).
(** infrastructure/repositories/audit-log-repository.ts:123-141 queryLogs
    Empty names filter nothing. *)
Definition queryLogs (eventType entityId : option string) (range : option (Z * Z)) (page limit : option Z) : M (found audit) :=
  findMany (fun x =>
    (match or_null eventType with Some e => str_eqb (au_eventType x.2) e | None => true end) &&
    (match or_null entityId with Some e => str_eqb (au_entityId x.2) e | None => true end) &&
    (match range with Some (a, b) => (a <=? au_createdAt x.2) && (au_createdAt x.2 <=? b) | None => true end))
    (Some (FindOptions page limit (fun l => l))).
(** infrastructure/repositories/audit-log-repository.ts:146-159 purgeOlderThan *)
Definition purgeOlderThan (now days : Z) : M Z := Base.deleteMany (fun x => au_createdAt x.2 <? now - days * 86400000).

(** *** Theorems *)

(** The calls of a repository, and what they do to the log. *)
Inductive call : Type :=
| CUpdate | CDelete | CUpdateMany | CDeleteMany
| CCreate (id : string) (a : audit) | CCreateMany (l : list (string * audit))
| CCreateAuditLog (now : Z) (id eventType entityType entityId actorId action : string) (changes : jsval)
| CLog (now : Z) (id : string) (e : log_event)
| CQuery (eventType entityId : option string) (range : option (Z * Z)) (page limit : option Z)
| CPurge (now days : Z).
Definition run (c : call) (w : world T unit) : world T unit :=
  match c with
  | CUpdate => (update w).1
  | CDelete => (delete w).1
  | CUpdateMany => (updateMany w).1
  | CDeleteMany => (deleteMany w).1
  | CCreate id a => (create id a w).1
  | CCreateMany l => (Base.createMany l w).1
  | CCreateAuditLog now id et ent eid actor act ch => (createAuditLog now id et ent eid actor act ch w).1
  | CLog now id e => (log now id e w).1
  | CQuery et eid range page limit => (queryLogs et eid range page limit w).1
  | CPurge now days => (purgeOlderThan now days w).1
  end.
Definition run_all (l : list call) (w : world T unit) : world T unit := fold_left (fun w c => run c w) l w.

(** A log that still has every record of another. *)
Definition keeps (w w' : world T unit) : Prop := forall id a, d_find id (tbl w) = Some a -> d_find id (tbl w') = Some a.

Lemma write_create_keeps id a w : keeps w (write (d_create id a) w).1.
Proof.
  intros k b Hk. unfold write. destruct (d_create id a (tbl w)) as [t'|e] eqn:E; [|done]. simpl.
  rewrite (create_find _ _ _ _ E). case_decide as Hid; [|done]. subst k.
  assert (d_find id (tbl w) = None) as Hn by (apply (create_ok id a); by eexists). congruence.
Qed.
Lemma create_keeps id a w : keeps w (create id a w).1.
Proof.
  pose proof (write_create_keeps id a w) as Hw. unfold create. munfold. destruct (write _ w) as [w' [[]|e]]; exact Hw.
Qed.
Lemma createMany_keeps l w : keeps w (Base.createMany l w).1.
Proof.
  revert w. induction l as [|[id a] l IH]; intros w; [by intros ? ?|]. pose proof (write_create_keeps id a w) as Hw.
  simpl. unfold mbind, meth_bind. destruct (write _ w) as [w' [[]|e]]; [|exact Hw]. simpl in Hw. specialize (IH w').
  destruct (Base.createMany l w') as [w2 [?|?]]; simpl in *; intros k b Hk; by apply IH, Hw.
Qed.

Lemma purge_find now days w id :
  d_find id (tbl (purgeOlderThan now days w).1) =
    match d_find id (tbl w) with
    | Some a => if au_createdAt a <? now - days * 86400000 then None else Some a
    | None => None
    end.
Proof. unfold purgeOlderThan, Base.deleteMany. simpl. rewrite deleteMany_find. by destruct (d_find id (tbl w)). Qed.

Lemma run_keeps c w id a :
  d_find id (tbl w) = Some a ->
  (forall now days, c = CPurge now days -> now - days * 86400000 <= au_createdAt a) -> d_find id (tbl (run c w)) = Some a.
Proof.
  intros Ha Hc. destruct c; cbn [run]; try done.
  - by apply create_keeps.
  - by apply createMany_keeps.
  - by apply create_keeps.
  - by apply create_keeps.
  - specialize (Hc now days eq_refl). rewrite purge_find, Ha. by rewrite (proj2 (Z.ltb_ge _ _)).
Qed.

(** The audit log is append-only: whatever calls are made, a record stays as
    it was written until a purge whose cut-off is after its time; that purge
    removes exactly the records older than its cut-off. *)
Theorem audit_append_only l now days w :
  (forall id a, d_find id (tbl w) = Some a ->
     (forall n k, CPurge n k ∈ l -> n - k * 86400000 <= au_createdAt a) -> d_find id (tbl (run_all l w)) = Some a) /\
  (forall id, d_find id (tbl (run (CPurge now days) (run_all l w))) =
     match d_find id (tbl (run_all l w)) with
     | Some a => if now - days * 86400000 <=? au_createdAt a then Some a else None
     | None => None
     end).
Proof.
  split.
  - unfold run_all. revert w. induction l as [|c l IH]; intros w id a Ha Hc; [done|]. simpl. apply IH.
    + apply run_keeps; [done|]. intros n k ->. apply Hc. by left.
    + intros n k Hin. apply Hc. by right.
  - intros id. cbn [run]. rewrite purge_find. destruct (d_find id _) as [a|]; [|done].
    rewrite Z.ltb_antisym. by destruct (_ <=? _).
Qed.
End repository.

Definition sample_audit (t : Z) : audit := Audit "DELIVERY_CREATED" "delivery" "d1" (Some "system") "CREATE" no_rows None None t.
Lemma audit_append_only_witness :
  d_find "a1" (tbl (run_all (T := gmap string audit) [CUpdate; CDelete; CPurge 86400005 1; CCreate "a1" (sample_audit 9)]
                      (World {["a1" := sample_audit 7]} tt))) = Some (sample_audit 7).
Proof.
  apply (proj1 (audit_append_only (T := gmap string audit) _ 0 0 (World {["a1" := sample_audit 7]} tt))); [reflexivity|].
  intros n k Hin. repeat (apply elem_of_cons in Hin as [Hin|Hin]; [try discriminate Hin|]).
  - injection Hin as -> ->. simpl. lia.
  - by apply elem_of_nil in Hin.
Defined.
End AuditLogRepository.
