(* ===== verification/Ingest.v ===== *)
(** * Ingestion

    [application/services/ingest-result.service.ts]: a result is validated, looked
    up in the idempotency cache, stored, matched against the destinations,
    fanned out into deliveries and enqueued ([Ingest]); over the repositories of
    entities and the queue of [Services] ([Pipeline]), and as the program wires
    it ([WiredIngest]). *)
From Stdlib Require Import Ascii QArith Qround Qpower Qabs Lqa.
From stdpp Require Import base tactics numbers list strings gmap pretty.
From S2P Require Import Prelude JsNum JsValue Errors DomainTypes ValueObjects RetryStrategy Delivery Destination Store Connectors Text Worker Recovery TaskResult Destinations Repositories Services.

(** ** IngestResultService *)

Module Ingest.
Import Ports.

(** application/dto/ingestion.dto.ts:54-67 IngestResultResponse *)
Record response : Type := Response {
  rs_resultId : string; rs_deliveryCount : Z; rs_timestamp : date;   (* each also under its alias *)
}.
(** A cached response; fields may be missing. *)
Record cached : Type := Cached {
  c_resultId : string; c_deliveryCount : option Z; c_destinationCount : option Z;
  c_timestamp : option date; c_queuedAt : option date;
}.
Definition cached_of (r : response) : cached :=
  Cached (rs_resultId r) (Some (rs_deliveryCount r)) (Some (rs_deliveryCount r)) (Some (rs_timestamp r)) (Some (rs_timestamp r)).

Record deps (W : Type) : Type := Deps {
  results_save : option (AiTaskResult.t -> meth W exn unit);
  results_createResult : option (AiTaskResult.t -> meth W exn unit);
  results_create : option (AiTaskResult.t -> meth W exn unit);
  deliveries : option (delivery_repo W);
  findAllActive : option (meth W exn (list dest_obj));
  findAllDestinations : option (meth W exn (list dest_obj));
  queue : option (queue_port W);
  cache_get : option (string -> meth W exn (option cached));
  cache_set : option (string -> response -> Z -> meth W exn unit);    (* key, value, hours *)
}.
Arguments Deps {W}. Arguments results_save {W}. Arguments results_createResult {W}. Arguments results_create {W}.
Arguments deliveries {W}. Arguments findAllActive {W}. Arguments findAllDestinations {W}. Arguments queue {W}.
Arguments cache_get {W}. Arguments cache_set {W}.

(** application/services/ingest-result.service.ts:40-40 ingest *)
Definition idempotencyKey (request : jsval) : string :=
  "idem:result:" +:+ js_String (js_get "emailId" request) +:+ ":" +:+ js_String (js_get "agentId" request) +:+ ":"
    +:+ js_String (js_get "agentVersion" request).
(** application/services/ingest-result.service.ts:48-58 ingest *)
Definition duplicate (now : Z) (c : cached) : response :=
  Response (c_resultId c)
    (match c_deliveryCount c with Some n => n | None => default 0 (c_destinationCount c) end)
    (match c_timestamp c with Some d => d | None => default (Some now) (c_queuedAt c) end).

(** application/services/ingest-result.service.ts:72-85 ingest
    A row has neither method. *)
Definition wants (e : AiTaskResult.t) (d : dest_obj) : bool :=
  match d with DEntity d => Destination.matches d (FindDestinations.criteria e) | DRow _ _ _ => true end.

Section service.
Context {W : Type} (dp : deps W).
Abbreviation M := (meth W exn).

(** application/services/ingest-result.service.ts:36-42 ingest
    Validation, and the look-up. *)
Definition lookup (request : jsval) : M (option cached) :=
  lift_res (Validation.validate request);;
  match cache_get dp with Some f => f (idempotencyKey request) | None => mret None end.
(** application/services/ingest-result.service.ts:68-70 ingest *)
Definition active : M (list dest_obj) :=
  match findAllActive dp, findAllDestinations dp with
  | Some f, _ => f
  | None, Some f => f
  | None, None => mret []
  end.
(** application/services/ingest-result.service.ts:88-90 ingest *)
Fixpoint make_deliveries (now : Z) (uuid : nat -> string) (n : nat) (resultId : string) (l : list dest_obj)
    : res exn (list Delivery.t) :=
  match l with
  | [] => Ok []
  | d :: l =>
      x ← Delivery.create now (uuid n) resultId (dest_id d) None;
      rest ← make_deliveries now uuid (S n) resultId l; mret (x :: rest)
  end.
Fixpoint each {A} (f : A -> M unit) (l : list A) : M unit :=
  match l with [] => mret tt | x :: l => f x;; each f l end.
(** application/services/ingest-result.service.ts:93-103 ingest *)
Definition store_result (e : AiTaskResult.t) : M unit :=
  match results_save dp, results_createResult dp, results_create dp with
  | Some f, _, _ => f e
  | None, Some f, _ => f e
  | None, None, Some f => f e
  | None, None, None => mret tt
  end.
(** application/services/ingest-result.service.ts:106-121 ingest *)
Definition store_delivery (d : Delivery.t) : M unit :=
  match deliveries dp with
  | None => mret tt
  | Some r =>
      match save r, create r with
      | Some f, _ => f (Entity d);; mret tt
      | None, Some f => f d
      | None, None => mret tt
      end
  end.
(** application/services/ingest-result.service.ts:127-131 ingest *)
Definition enqueue (resultId : string) (d : Delivery.t) : M unit :=
  match queue dp with
  | None => mret tt
  | Some q =>
      match enqueueDelivery q, add q with
      | Some f, _ => f resultId (Delivery.destinationId d) 1 None
      | None, Some f => f "deliver-task-result" (JObject 0 [("deliveryId", JString (Delivery.id d))]) None None
      | None, None => mret tt
      end
  end.
(** application/services/ingest-result.service.ts:63-155 ingest
    After a miss.  [uuid] gives the generated ids: the result's, then those of
    the deliveries. *)
Definition accept (now : Z) (uuid : nat -> string) (request : jsval) : M response :=
  e ← lift_res (ResultMapper.toDomain now (uuid 0%nat) request);
  let resultId := AiTaskResult.getId e in
  all ← active;
  let matched := filter (fun d => wants e d = true) all in
  ds ← lift_res (make_deliveries now uuid 1 resultId matched);
  store_result e;;
  each store_delivery ds;;
  each (enqueue resultId) ds;;
  let r := Response resultId (Z.of_nat (length matched)) (Some now) in
  (match cache_set dp with Some f => f (idempotencyKey request) r 24 | None => mret tt end);;
  mret r.
(** application/services/ingest-result.service.ts:32-162 ingest
    Without waiting between the look-up and the rest. *)
Definition ingest (now : Z) (uuid : nat -> string) (request : jsval) : M response :=
  hit ← lookup request;
  match hit with
  | Some c => mret (duplicate now c)
  | None => accept now uuid request
  end.
End service.
End Ingest.

(** ** Over the repositories of entities *)

Module Pipeline.
Import Store Ports DeliveryLog Ingest.

(** The cache of the older integration: what is set is found for the hours given. *)
Class IdemCache (C : Type) := {
  c_find : Z -> string -> C -> option cached;
  c_put : Z -> string -> response -> Z -> C -> C;
  c_find_eq now now' k r hours c :
    now <= now' -> c_find now' k (c_put now k r hours c) = if now' <? now + hours * 3600000 then Some (cached_of r) else None;
  c_find_ne now now' k k' r hours c : k <> k' -> c_find now' k' (c_put now k r hours c) = c_find now' k' c;
}.
Definition gmap_c_find (now : Z) (k : string) (c : gmap string (response * Z)) : option cached :=
  match c !! k with Some (r, x) => if now <? x then Some (cached_of r) else None | None => None end.
Definition gmap_c_put (now : Z) (k : string) (r : response) (hours : Z) (c : gmap string (response * Z)) : gmap string (response * Z) :=
  <[k := (r, now + hours * 3600000)]> c.
#[global] Program Instance gmap_cache : IdemCache (gmap string (response * Z)) := {
  c_find := gmap_c_find; c_put := gmap_c_put;
}.
Next Obligation. intros now now' k r hours c _. unfold gmap_c_find, gmap_c_put. by rewrite lookup_insert_eq. Qed.
Next Obligation. intros now now' k k' r hours c Hne. unfold gmap_c_find, gmap_c_put. by rewrite lookup_insert_ne. Qed.

(** The tables, the queue, the destinations and the cache. *)
Record world (T Q R C : Type) : Type := World {
  log : DeliveryLog.world T Q; results : R; destinations : list Destination.t; cache : C;
}.
Arguments World {T Q R C}. Arguments log {T Q R C}. Arguments results {T Q R C}.
Arguments destinations {T Q R C}. Arguments cache {T Q R C}.

Section pipeline.
Context {T Q R C : Type} `{LogTable T} `{Jobs.JobQueue Q} `{PrismaTaskResultRepository.Results R} `{IdemCache C}.
Abbreviation W := (world T Q R C).
Abbreviation M := (meth W exn).

Definition on_log {A} (m : meth (DeliveryLog.world T Q) exn A) : M A := fun w =>
  let '(l, r) := m (log w) in (World l (results w) (destinations w) (cache w), r).
Definition on_results {A} (m : meth R exn A) : M A := fun w =>
  let '(t, r) := m (results w) in (World (log w) t (destinations w) (cache w), r).

(** infrastructure/database/PrismaDestinationRepository.ts:68-73 findAllActive
    No destination is soft-deleted by the program's code. *)
Definition find_active : M (list dest_obj) :=
  gets (fun w => map DEntity (filter (fun d => Destination.enabled d = true) (destinations w))).

(** What the service is given at an instant. *)
Definition deps_at (now : Z) : deps W := {|
  results_save := Some (fun e => on_results (PrismaTaskResultRepository.save now "" e);; mret tt);
  results_createResult := None; results_create := None;
  deliveries := Some (DeliveryRepo None None None None None
    (Some (fun o => match o with Entity d => on_log (DeliveryLog.save_entity now d) | Plain _ _ => no_method "log.getStatus" end)) None);
  findAllActive := Some find_active; findAllDestinations := None;
  queue := Some (QueuePort (Some (fun tr dest n ms => on_log (DeliveryLog.enqueueDelivery tr dest n ms))) None None (fun _ => mret tt) None);
  cache_get := Some (fun k => gets (fun w => c_find now k (cache w)));
  cache_set := Some (fun k r hours w => (World (log w) (results w) (destinations w) (c_put now k r hours (cache w)), Ok tt));
|}.

(** *** The deliveries that are made *)

Lemma make_deliveries_ok now uuid n rid l :
  (forall i, uuid i <> "") -> rid <> "" -> (forall d, d ∈ l -> dest_id d <> "") ->
  exists ds, make_deliveries now uuid n rid l = Ok ds /\
    map Delivery.destinationId ds = map dest_id l /\
    map Delivery.id ds = map (fun i => uuid (n + i)%nat) (seq 0 (length l)) /\
    forall d, d ∈ ds -> Delivery.taskResultId d = rid /\ Delivery.domainEvents d = [] /\
      DeliveryLog.row_of d = Row rid (Delivery.destinationId d) Status.PENDING 0 None None None None.
Proof.
  intros Hu Hr. revert n. induction l as [|d l IH]; intros n Hl.
  - exists []. split_and!; try done. by intros ? ?%elem_of_nil.
  - simpl. unfold Delivery.create, Delivery.new. assert (str_truthy (uuid n) = true) as Hun.
    { unfold str_truthy. apply negb_true_iff, str_eqb_neq, Hu. }
    assert (str_truthy rid = true) as Hrt by (apply negb_true_iff, str_eqb_neq, Hr).
    assert (str_truthy (dest_id d) = true) as Hdt by (apply negb_true_iff, str_eqb_neq, Hl; by left).
    unfold str_or. simpl. rewrite Hun, Hrt, Hdt. simpl.
    destruct (IH (S n)) as (ds & Hds & Hdest & Hids & Hall); [intros ? ?; apply Hl; by right|]. rewrite Hds. simpl.
    eexists. split_and!; [done|by rewrite <- Hdest| |].
    + simpl. f_equal; [by rewrite Nat.add_0_r|]. rewrite Hids, <- fmap_S_seq, <- list_fmap_compose.
      apply list_fmap_ext. intros i x _. simpl. f_equal. lia.
    + intros x [->|Hx]%elem_of_cons; [done|by apply Hall].
Qed.

(** The rows of the new deliveries, and no other change. *)
Definition fanned (ds : list Delivery.t) (t t' : T) : Prop :=
  (forall d, d ∈ ds -> find_delivery (Delivery.id d) t' = Some (DeliveryLog.row_of d)) /\
  (forall id, id ∉ map Delivery.id ds -> find_delivery id t' = find_delivery id t).

Lemma save_new now d (w : W) :
  find_delivery (Delivery.id d) (db (log w)) = None -> Delivery.domainEvents d = [] ->
  (forall x, x ∈ Jobs.rows (db (log w)) ->
     ~ (r_taskResultId x.2 = Delivery.taskResultId d /\ r_destinationId x.2 = Delivery.destinationId d)) ->
  exists t', store_delivery (deps_at now) d w =
      (World (DeliveryLog.World t' (DeliveryLog.queue (log w))) (results w) (destinations w) (cache w), Ok tt) /\
    find_delivery (Delivery.id d) t' = Some (DeliveryLog.row_of d) /\
    forall id, id <> Delivery.id d -> find_delivery id t' = find_delivery id (db (log w)).
Proof.
  intros Hn He Hc. destruct (proj2 (upsert_absent now (Delivery.id d) (DeliveryLog.update_of d) (DeliveryLog.row_of d)
    (db (log w)) Hn) Hc) as [t' Ht]. exists t'.
  pose proof (upsert_find_eq _ _ _ _ _ _ Ht) as Hf. rewrite Hn in Hf. split_and!; [|done|].
  - unfold store_delivery. simpl. unfold on_log, DeliveryLog.save_entity. munfold. unfold DeliveryLog.on_db. rewrite Ht, He. done.
  - intros id Hne. by eapply upsert_find_ne; [|exact Ht].
Qed.

Lemma store_all now rid ds (w : W) :
  NoDup (map Delivery.id ds) -> NoDup (map Delivery.destinationId ds) ->
  (forall d, d ∈ ds -> Delivery.taskResultId d = rid /\ Delivery.domainEvents d = []) ->
  (forall d, d ∈ ds -> find_delivery (Delivery.id d) (db (log w)) = None) ->
  (forall x, x ∈ Jobs.rows (db (log w)) -> r_taskResultId x.2 = rid -> r_destinationId x.2 ∉ map Delivery.destinationId ds) ->
  exists t', each (store_delivery (deps_at now)) ds w =
      (World (DeliveryLog.World t' (DeliveryLog.queue (log w))) (results w) (destinations w) (cache w), Ok tt) /\
    fanned ds (db (log w)) t'.
Proof.
  revert w. induction ds as [|d ds IH]; intros w Hi Hd Hr Hn Hc.
  - exists (db (log w)). split; [by destruct w as [[]]|]. split; [by intros ? ?%elem_of_nil|done].
  - simpl in Hi, Hd. apply NoDup_cons in Hi as [Hi1 Hi], Hd as [Hd1 Hd].
    destruct (Hr d) as [Hr1 Hr2]; [by left|].
    destruct (save_new now d w) as (t1 & E1 & F1 & O1); [apply Hn; by left|done| |].
    { intros x Hx [Hx1 Hx2]. apply (Hc x Hx); [congruence|]. rewrite Hx2. by left. }
    set (w1 := World _ _ _ _) in E1.
    destruct (IH w1) as (t2 & E2 & F2 & O2); [done|done|intros; apply Hr; by right| | |].
    + intros d' Hd'. simpl. rewrite O1; [apply Hn; by right|]. intros E. apply Hi1. rewrite <- E. by apply list_elem_of_fmap_2.
    + intros x Hx Hx1. simpl in Hx. destruct x as [id r]. apply Jobs.rows_find in Hx. simpl in *.
      destruct (decide (id = Delivery.id d)) as [->|Hne].
      * rewrite F1 in Hx. injection Hx as <-. done.
      * rewrite O1 in Hx by done. apply Jobs.rows_find in Hx. intros Hin. apply (Hc _ Hx Hx1). by right.
    + exists t2. split; [simpl; by rewrite (bind_ok _ _ _ _ _ E1)|]. split.
      * intros d' [->|Hd']%elem_of_cons; [|by apply F2]. rewrite O2; [done|done].
      * intros id [Hid1 Hid2]%not_elem_of_cons. rewrite O2 by done. by apply O1.
Qed.

Definition delivery_job (rid dest id : string) : Jobs.job :=
  Jobs.Job id (rid +:+ ":" +:+ dest)
    (JObject 0 [("taskResultId", JString rid); ("destinationId", JString dest); ("attempt", JNum (ofZ 1))]) 0.

Lemma enqueue_all now rid ds (w : W) :
  exists q', each (enqueue (deps_at now) rid) ds w =
      (World (DeliveryLog.World (db (log w)) q') (results w) (destinations w) (cache w), Ok tt) /\
    exists ids, Jobs.jobs q' = Jobs.jobs (DeliveryLog.queue (log w)) ++
                  zip_with (fun d id => delivery_job rid (Delivery.destinationId d) id) ds ids /\
      length ids = length ds.
Proof.
  revert w. induction ds as [|d ds IH]; intros w.
  - exists (DeliveryLog.queue (log w)). split; [by destruct w as [[]]|]. exists []. split; [by rewrite app_nil_r|done].
  - simpl. erewrite bind_ok by reflexivity.
    set (w1 := World _ _ _ _). destruct (IH w1) as (q' & E & ids & Hj & Hl). exists q'. split; [exact E|].
    exists ((Jobs.q_add (rid +:+ ":" +:+ Delivery.destinationId d)
        (JObject 0 [("taskResultId", JString rid); ("destinationId", JString (Delivery.destinationId d)); ("attempt", JNum (ofZ 1))])
        None 0 (DeliveryLog.queue (log w))).2 :: ids).
    split; [|simpl; by rewrite Hl]. rewrite Hj. simpl. rewrite Jobs.add_fresh, <- app_assoc. done.
Qed.

(** The enabled destinations that want a result, in the order of the table. *)
Definition matched (e : AiTaskResult.t) (w : W) : list Destination.t :=
  filter (fun d => Destination.matches d (FindDestinations.criteria e) = true) (filter (fun d => Destination.enabled d = true) (destinations w)).

Lemma wants_matched e w :
  filter (fun d => wants e d = true) (map DEntity (filter (fun d => Destination.enabled d = true) (destinations w))) =
  map DEntity (matched e w).
Proof.
  unfold matched. induction (filter (fun d => Destination.enabled d = true) (destinations w)) as [|d l IH]; [done|].
  simpl. rewrite !filter_cons. simpl. destruct (decide _); simpl; by rewrite IH.
Qed.

(** Fresh identifiers, and destinations with distinct ones. *)
Record fresh_ids (uuid : nat -> string) (w : W) : Prop := FreshIds {
  f_inj : forall i j, uuid i = uuid j -> i = j;
  f_nonempty : forall i, uuid i <> "";
  f_delivery : forall i, find_delivery (uuid i) (db (log w)) = None;
  f_result : forall id r, find_delivery id (db (log w)) = Some r -> r_taskResultId r <> uuid 0%nat;
}.
Record good_destinations (w : W) : Prop := GoodDestinations {
  g_nonempty : forall d, d ∈ destinations w -> Destination.id d <> "";
  g_distinct : NoDup (map Destination.id (destinations w));
}.

Lemma matched_distinct e w : good_destinations w -> NoDup (map Destination.id (matched e w)).
Proof.
  intros [_ Hd]. unfold matched. revert Hd. induction (destinations w) as [|d l IH]; [constructor|].
  simpl. intros [Hn Hd]%NoDup_cons. rewrite filter_cons. case_decide; [|by apply IH].
  rewrite filter_cons. case_decide; [|by apply IH]. simpl. constructor; [|by apply IH].
  intros (x & Hx & Hin)%list_elem_of_fmap. apply Hn. rewrite Hx. apply list_elem_of_fmap_2.
  apply list_elem_of_filter in Hin as [_ Hin]. by apply list_elem_of_filter in Hin as [_ Hin].
Qed.

(** The table of results takes the row of the request's result. *)
Definition storable (now : Z) (uuid : nat -> string) (req : jsval) : Prop :=
  forall e, ResultMapper.toDomain now (uuid 0%nat) req = Ok e ->
    PrismaTaskResultRepository.takes (PrismaTaskResultRepository.created_row now e) = true.

(** The deliveries of a valid request can be made. *)
Lemma made_for now uuid e (w : W) :
  AiTaskResult.getId e = uuid 0%nat -> fresh_ids uuid w -> good_destinations w ->
  exists ds, make_deliveries now uuid 1 (uuid 0%nat) (map DEntity (matched e w)) = Ok ds /\
    map Delivery.destinationId ds = map Destination.id (matched e w) /\
    map Delivery.id ds = map (fun i => uuid (S i)) (seq 0 (length (matched e w))) /\
    forall d, d ∈ ds -> Delivery.taskResultId d = uuid 0%nat /\ Delivery.domainEvents d = [] /\
      DeliveryLog.row_of d = Row (uuid 0%nat) (Delivery.destinationId d) Status.PENDING 0 None None None None.
Proof.
  intros Hid [Finj Fne Fdel Fres] Hg.
  destruct (make_deliveries_ok now uuid 1 (uuid 0%nat) (map DEntity (matched e w))) as (ds & Hds & Hdest & Hids & Hall); try done.
  { intros d (x & -> & Hx)%list_elem_of_fmap. simpl. apply g_nonempty with w; [done|].
    unfold matched in Hx. by apply list_elem_of_filter in Hx as [_ [_ Hx]%list_elem_of_filter]. }
  rewrite <- list_fmap_compose in Hdest. rewrite length_map in Hids. by exists ds.
Qed.

(** A result the table does not take ends the request before anything else. *)
Lemma accept_refused now uuid req e (w : W) :
  ResultMapper.toDomain now (uuid 0%nat) req = Ok e -> AiTaskResult.getId e = uuid 0%nat ->
  PrismaTaskResultRepository.takes (PrismaTaskResultRepository.created_row now e) = false ->
  fresh_ids uuid w -> good_destinations w ->
  accept (deps_at now) now uuid req w = (w, Throw PrismaTaskResultRepository.not_taken).
Proof.
  intros He Hid Ht Hf Hg. destruct (made_for now uuid e w Hid Hf Hg) as (ds & Hds & _).
  unfold accept. rewrite (bind_ok _ _ _ w e) by (unfold lift_res; by rewrite He). cbn zeta. rewrite Hid.
  erewrite bind_ok by reflexivity. rewrite wants_matched.
  rewrite (bind_ok _ _ _ w ds) by (unfold lift_res; by rewrite Hds).
  unfold store_result. simpl. unfold on_results, PrismaTaskResultRepository.save. munfold. rewrite Ht. by destruct w.
Qed.

Lemma accept_eq now uuid req (w : W) :
  Validation.validateRequest req = Ok tt -> storable now uuid req -> fresh_ids uuid w -> good_destinations w ->
  exists e ds t' q' ids R',
    ResultMapper.toDomain now (uuid 0%nat) req = Ok e /\ AiTaskResult.getId e = uuid 0%nat /\
    map Delivery.destinationId ds = map Destination.id (matched e w) /\
    map Delivery.id ds = map (fun i => uuid (S i)) (seq 0 (length (matched e w))) /\
    (forall d, d ∈ ds -> DeliveryLog.row_of d = Row (uuid 0%nat) (Delivery.destinationId d) Status.PENDING 0 None None None None) /\
    fanned ds (db (log w)) t' /\
    Jobs.jobs q' = Jobs.jobs (DeliveryLog.queue (log w)) ++
      zip_with (fun d id => delivery_job (uuid 0%nat) (Delivery.destinationId d) id) ds ids /\ length ids = length ds /\
    (exists x, forall t u, (PrismaTaskResultRepository.findById t u (uuid 0%nat) R').2 =
       Ok (Some (PrismaTaskResultRepository.persisted now x e))) /\
    let r := Response (uuid 0%nat) (Z.of_nat (length (matched e w))) (Some now) in
    accept (deps_at now) now uuid req w =
      (World (DeliveryLog.World t' q') R' (destinations w) (c_put now (idempotencyKey req) r 24 (cache w)), Ok r).
Proof.
  intros Hv Hsto Hfr Hg. pose proof Hfr as [Finj Fne Fdel Fres].
  destruct (validated_entity now (uuid 0%nat) req Hv) as (e & He & Hval & _ & _ & _ & _ & _ & _ & Hid & _ & _).
  destruct (made_for now uuid e w Hid Hfr Hg) as (ds & Hds & Hdest & Hids & Hall). specialize (Hsto e He).
  pose proof (PrismaTaskResultRepository.save_find now "" e (results w) Hval) as Hsave. unfold AiTaskResult.getId in Hid.
  rewrite Hid in Hsave. specialize (Hsave (Fne 0%nat) Hsto). cbn zeta in Hsave.
  destruct (PrismaTaskResultRepository.save now "" e (results w)) as [R' o] eqn:Es. destruct Hsave as (-> & Hfind & _).
  set (w1 := World (log w) R' (destinations w) (cache w)).
  destruct (store_all now (uuid 0%nat) ds w1) as (t' & Et & Hf).
  - rewrite Hids. apply NoDup_fmap_2_strong; [|apply NoDup_seq]. intros i j _ _ E%Finj. lia.
  - rewrite Hdest. by apply matched_distinct.
  - intros d Hd. by destruct (Hall d Hd) as (? & ? & _).
  - intros d Hd. apply (list_elem_of_fmap_2 Delivery.id) in Hd.
    change (Delivery.id d ∈ map Delivery.id ds) in Hd. rewrite Hids in Hd.
    apply list_elem_of_fmap in Hd as (i & -> & _). apply Fdel.
  - intros [id r] Hx%Jobs.rows_find Hr. by destruct (Fres id r Hx).
  - set (w2 := World (DeliveryLog.World t' (DeliveryLog.queue (log w))) R' (destinations w) (cache w)).
    destruct (enqueue_all now (uuid 0%nat) ds w2) as (q' & Eq & ids & Hj & Hl).
    exists e, ds, t', q', ids, R'. split_and!; try done.
    + intros d Hd. by destruct (Hall d Hd) as (_ & _ & ?).
    + by eexists.
    + unfold accept. rewrite (bind_ok _ _ _ w e) by (unfold lift_res; by rewrite He). cbn zeta. unfold AiTaskResult.getId. rewrite Hid.
      erewrite bind_ok by reflexivity. rewrite wants_matched.
      rewrite (bind_ok _ _ _ w ds) by (unfold lift_res; by rewrite Hds).
      rewrite (bind_ok _ _ _ w1 tt) by (unfold store_result; simpl; unfold on_results; munfold; by rewrite Es).
      rewrite (bind_ok _ _ _ _ _ Et), (bind_ok _ _ _ _ _ Eq). erewrite bind_ok by reflexivity. rewrite length_map. done.
Qed.

Lemma ingest_miss now uuid req (w : W) :
  Validation.validateRequest req = Ok tt -> c_find now (idempotencyKey req) (cache w) = None ->
  ingest (deps_at now) now uuid req w = accept (deps_at now) now uuid req w.
Proof.
  intros Hv Hc. unfold ingest. rewrite (bind_ok _ _ _ w None); [done|].
  unfold lookup, Validation.validate. rewrite (bind_ok _ _ _ w tt) by (unfold lift_res; by rewrite Hv). simpl.
  unfold gets. by rewrite Hc.
Qed.

(** The new deliveries of a result: of each destination one, PENDING. *)
Definition new_delivery (rid : string) (d : Destination.t) : row :=
  Row rid (Destination.id d) Status.PENDING 0 None None None None.

(** C11: a valid request that is not in the cache stores the result, and makes for
    each enabled destination whose filters match, and for no other, exactly one
    PENDING delivery and one job, in the order of the destinations; all other
    deliveries and jobs stay, and the answer counts the destinations.  (Over the
    repositories of entities, with fresh identifiers and destinations that have
    distinct ones.)  A result the table refuses, such as one whose version is no
    text, fails the request, and nothing has changed. *)
Theorem ingest_fans_out now uuid req (w : W) :
  Validation.validateRequest req = Ok tt -> c_find now (idempotencyKey req) (cache w) = None ->
  fresh_ids uuid w -> good_destinations w ->
  exists e, ResultMapper.toDomain now (uuid 0%nat) req = Ok e /\
  if PrismaTaskResultRepository.takes (PrismaTaskResultRepository.created_row now e)
  then exists w',
    ingest (deps_at now) now uuid req w = (w', Ok (Response (uuid 0%nat) (Z.of_nat (length (matched e w))) (Some now))) /\
    (exists x, forall t u, (PrismaTaskResultRepository.findById t u (uuid 0%nat) (results w')).2 =
       Ok (Some (PrismaTaskResultRepository.persisted now x e))) /\
    (forall k d, matched e w !! k = Some d ->
       find_delivery (uuid (S k)) (db (log w')) = Some (new_delivery (uuid 0%nat) d)) /\
    (forall id, (forall k, (k < length (matched e w))%nat -> id <> uuid (S k)) ->
       find_delivery id (db (log w')) = find_delivery id (db (log w))) /\
    map Jobs.j_name (Jobs.jobs (DeliveryLog.queue (log w'))) =
      map Jobs.j_name (Jobs.jobs (DeliveryLog.queue (log w))) ++
      map (fun d => uuid 0%nat +:+ ":" +:+ Destination.id d) (matched e w) /\
    destinations w' = destinations w
  else ingest (deps_at now) now uuid req w = (w, Throw PrismaTaskResultRepository.not_taken).
Proof.
  intros Hv Hc Hf Hg. rewrite ingest_miss by done.
  destruct (validated_entity now (uuid 0%nat) req Hv) as (e & He & _ & _ & _ & _ & _ & _ & _ & Hrid & _ & _).
  exists e. split; [done|]. destruct (PrismaTaskResultRepository.takes _) eqn:Et; [|by eapply accept_refused].
  destruct (accept_eq now uuid req w Hv) as (e' & ds & t' & q' & ids & R' & He' & _ & Hdest & Hids & Hrow & [Hn Ho] & Hj & Hl & HR & Ea);
    [intros x Hx; congruence|done|done|].
  assert (e' = e) as -> by congruence. rewrite Ea. eexists. split_and!; [done|done| | | |done]; simpl.
  - intros k d Hk. assert (exists x, ds !! k = Some x /\ Delivery.destinationId x = Destination.id d) as (x & Hx & Hxd).
    { assert (map Destination.id (matched e w) !! k = Some (Destination.id d)) as Hm by (by rewrite list_lookup_fmap, Hk).
      rewrite <- Hdest, list_lookup_fmap in Hm. destruct (ds !! k) as [x|]; [|done]. exists x. split; [done|by injection Hm]. }
    assert (Delivery.id x = uuid (S k)) as Hi.
    { assert (map Delivery.id ds !! k = Some (Delivery.id x)) as Hm by (by rewrite list_lookup_fmap, Hx).
      rewrite Hids, list_lookup_fmap in Hm. destruct (seq 0 _ !! k) as [i|] eqn:Es; [|done].
      apply lookup_seq in Es as [-> _]. simpl in Hm. by injection Hm. }
    pose proof (list_elem_of_lookup_2 _ _ _ Hx) as Hin. rewrite <- Hi, (Hn x Hin), (Hrow x Hin), Hxd. done.
  - intros id Hid. apply Ho. rewrite Hids. intros (k & -> & Hk)%list_elem_of_fmap. apply elem_of_seq in Hk. by apply (Hid k); [lia|].
  - rewrite Hj, map_app. f_equal.
    assert (map Jobs.j_name (zip_with (fun d id => delivery_job (uuid 0%nat) (Delivery.destinationId d) id) ds ids) =
            map (fun x => uuid 0%nat +:+ ":" +:+ x) (map Delivery.destinationId ds)) as ->.
    { clear - Hl. revert ids Hl. induction ds as [|d ds IH]; intros [|i ids] Hl; try done. simpl. f_equal. apply IH. by injection Hl. }
    rewrite Hdest, <- list_fmap_compose. done.
Qed.

(** C17: within 24 hours a request with the same address, agent and version is
    answered from the cache and changes nothing, whatever its payload and score;
    but two requests that look the cache up before either has finished are both
    accepted, under two results.  (When the table of results takes their rows,
    which it does not when the version is no text.) *)
Theorem ingest_idempotent now now' uuid uuid' req req' (w : W) :
  Validation.validateRequest req = Ok tt -> Validation.validateRequest req' = Ok tt ->
  idempotencyKey req' = idempotencyKey req ->
  c_find now (idempotencyKey req) (cache w) = None -> fresh_ids uuid w -> good_destinations w ->
  storable now uuid req ->
  let '(w1, r1) := ingest (deps_at now) now uuid req w in
  (now <= now' -> now' < now + 86400000 -> ingest (deps_at now') now' uuid' req' w1 = (w1, r1)) /\
  (fresh_ids uuid' w1 -> storable now' uuid' req' ->
     (lookup (deps_at now) req' w).2 = Ok None /\
     exists r2, (accept (deps_at now') now' uuid' req' w1).2 = Ok r2 /\ rs_resultId r2 = uuid' 0%nat).
Proof.
  intros Hv Hv' Hk Hc Hf Hg Hs. rewrite (ingest_miss now uuid req w Hv Hc).
  destruct (accept_eq now uuid req w Hv Hs Hf Hg)
    as (e & ds & t' & q' & ids & R' & He & _ & Hdest & Hids & Hrow & [Hn Ho] & Hj & Hl & HR & Ea).
  rewrite Ea. clear Ea. set (w1 := World _ _ _ _). split.
  - intros Ht1 Ht2. unfold ingest.
    rewrite (bind_ok _ _ _ w1 (Some (cached_of (Response (uuid 0%nat) (Z.of_nat (length (matched e w))) (Some now))))); [done|].
    unfold lookup, Validation.validate. rewrite (bind_ok _ _ _ w1 tt) by (unfold lift_res; by rewrite Hv'). simpl. unfold gets. simpl.
    rewrite Hk, c_find_eq by done. by rewrite (proj2 (Z.ltb_lt _ _)) by lia.
  - intros Hf' Hs'. split.
    + unfold lookup, Validation.validate. rewrite (bind_ok _ _ _ w tt) by (unfold lift_res; by rewrite Hv'). simpl. unfold gets.
      by rewrite Hk, Hc.
    + assert (good_destinations w1) as Hg1 by (by destruct Hg; constructor).
      destruct (accept_eq now' uuid' req' w1 Hv' Hs' Hf' Hg1)
        as (e' & ds' & t2 & q2 & ids2 & R2 & _ & _ & _ & _ & _ & _ & _ & _ & _ & Ea).
      rewrite Ea. eexists. split; done.
Qed.
End pipeline.

(** *** A run *)

Definition sample_hook (id : string) (filters : list (string * jsval)) (enabled : bool) : Destination.t :=
  Destination.Mk id (Some 0) None DestType.WEBHOOK "https://x.example" (Some filters) Destination.sample.(Destination.retryStrategy)
    (ofZ 5) (ofZ 30000) enabled [] (Some 0).
Definition sample_world : world log_tables Jobs.list_queue (gmap string PrismaTaskResultRepository.row) (gmap string (response * Z)) :=
  World (DeliveryLog.World (LogTables (Tables ∅ []) ∅) Jobs.no_jobs) ∅
    [sample_hook "h1" [("label", JString "spam")] true; sample_hook "h2" [("label", JString "ham")] true;
     sample_hook "h3" [] true; sample_hook "h4" [] false] ∅.
Definition numbered (i : nat) : string := "id-" +:+ pretty i.

Lemma numbered_inj i j : numbered i = numbered j -> i = j.
Proof. unfold numbered. intros E. apply (inj (String.append "id-")) in E. by apply (inj pretty) in E. Qed.
Lemma numbered_fresh : fresh_ids numbered sample_world.
Proof. split; try done. exact numbered_inj. Qed.
Lemma sample_good : good_destinations sample_world.
Proof.
  split; [|vm_compute; repeat constructor; set_solver].
  intros d Hd. simpl in Hd. repeat (apply elem_of_cons in Hd as [->|Hd]; [done|]). by apply elem_of_nil in Hd.
Qed.

Example sample_ingested :
  (ingest (deps_at 5) 5 numbered TaskResult.sample_request sample_world).2 = Ok (Response "id-0" 2 (Some 5)).
Proof. vm_compute. reflexivity. Qed.

Lemma sample_storable now : storable (R := gmap string PrismaTaskResultRepository.row) now numbered TaskResult.sample_request.
Proof. intros e. vm_compute. by intros [= <-]. Qed.

Lemma ingest_fans_out_witness :
  exists e w', ResultMapper.toDomain 5 (numbered 0) TaskResult.sample_request = Ok e /\
    ingest (deps_at 5) 5 numbered TaskResult.sample_request sample_world =
      (w', Ok (Response (numbered 0) (Z.of_nat (length (matched e sample_world))) (Some 5))).
Proof.
  destruct (ingest_fans_out 5 numbered TaskResult.sample_request sample_world)
    as (e & He & Hi); [vm_compute; reflexivity|reflexivity|exact numbered_fresh|exact sample_good|].
  rewrite (sample_storable 5 e He) in Hi. destruct Hi as (w' & Hi & _). exists e, w'. split; [exact He|exact Hi].
Defined.

Lemma ingest_idempotent_witness :
  let w1 := (ingest (deps_at 5) 5 numbered TaskResult.sample_request sample_world).1 in
  (ingest (deps_at 6) 6 numbered TaskResult.sample_request w1).1 = w1.
Proof.
  cbn zeta.
  pose proof (ingest_idempotent 5 6 numbered numbered TaskResult.sample_request TaskResult.sample_request sample_world) as Hi.
  destruct (ingest (deps_at 5) 5 numbered TaskResult.sample_request sample_world) as [w1 r1].
  destruct Hi as [Hi _]; [vm_compute; reflexivity|vm_compute; reflexivity|reflexivity|reflexivity|exact numbered_fresh|exact sample_good|exact (sample_storable 5)|].
  simpl. rewrite Hi; [reflexivity|lia|lia].
Defined.
End Pipeline.

(** ** As the program wires it *)

Module WiredIngest.
Import Ports Ingest.

Section wired.
Context {R L : Type} `{Model.Delegate ResultRepository.row R} `{Model.Delegate Base.audit L}.
Abbreviation W := (Base.world R L).

(** The data transfer object of a result, as the row it becomes. *)
Definition row_of (now : Z) (e : AiTaskResult.t) : ResultRepository.row :=
  ResultRepository.Row (AiTaskResult.getEmailId e) (AiTaskResult.getAgentId e) (AiTaskResult.agentVersion e)
    (AiTaskResult.resultPayload e) (num_or (AiTaskResult.getConfidenceScore e) (ofZ 0))
    (js_or (AiTaskResult.metadata e) (JObject 0 [])) (match AiTaskResult.createdAt e with Some t => t | None => now end).


End wired.

End WiredIngest.
