(* ===== verification/UseCases.v ===== *)
(** * The older use cases

    [application/use-cases/]: receiving a result ([ReceiveTaskResult]),
    delivering it to a destination ([DeliverTaskResult], which
    [infrastructure/queue/bullmq.worker.ts] runs once per attempt of a job) and
    registering a destination ([RegisterDestination]).  They work on the Prisma
    repositories of [infrastructure/database/], the queue of
    [infrastructure/queue/bullmq.service.ts] and an HTTP client. *)
From Stdlib Require Import Ascii QArith Qround Qpower Qabs Lqa.
From stdpp Require Import base tactics numbers list strings gmap pretty.
From S2P Require Import Prelude JsNum JsValue Errors DomainTypes ValueObjects RetryStrategy Delivery Destination Store Connectors Text Recovery TaskResult Destinations Services.

(** ** Reading a number *)

(** [Number(s)] of a string in decimal notation; other literals (hexadecimal,
    octal, binary) are read as NaN. *)
Fixpoint span_digits (s : string) : string * string :=
  match s with
  | String c s' => if is_digit c then let '(d, r) := span_digits s' in (String c d, r) else ("", s)
  | EmptyString => ("", "")
  end.
Definition read_decimal (s : string) : num :=
  let '(int, s) := span_digits s in
  let '(frac, s) := match s with String "." s => span_digits s | _ => ("", s) end in
  let m := (inject_Z (read_digits (int +:+ frac) 0) / inject_Z (10 ^ Z.of_nat (String.length frac)))%Q in
  if str_eqb (int +:+ frac) "" then (if str_eqb s "Infinity" then Inf false else NaN)
  else match s with
  | "" => Fin m
  | String e s =>
      if Ascii.eqb e "e" || Ascii.eqb e "E" then
        let '(neg, s) := match s with String "-" s => (true, s) | String "+" s => (false, s) | _ => (false, s) end in
        let '(d, r) := span_digits s in
        if str_eqb d "" || str_truthy r then NaN
        else let k := 10 ^ read_digits d 0 in Fin (if neg : bool then m / inject_Z k else m * inject_Z k)%Q
      else NaN
  end.
Definition parse_number (s : string) : num :=
  match trim s with
  | "" => ofZ 0
  | String "-" s => num_neg (read_decimal s)
  | String "+" s => read_decimal s
  | s => read_decimal s
  end.
(** [Number(v)] of a value that is not an array. *)
Definition js_Number (v : jsval) : num :=
  match v with
  | JNum n => n
  | JNull => ofZ 0
  | JBool b => ofZ (if b then 1 else 0)
  | JString s => parse_number s
  | _ => NaN
  end.

Example read_numbers :
  map parse_number [" 0.75 "; "-2"; ".5"; "1e3"; "1.2.3"; "x"; ""] =
  [Fin (75 # 100); Fin (- (2 # 1)); Fin (5 # 10); Fin (1000 # 1); NaN; NaN; Fin 0].
Proof. reflexivity. Qed.

(** ** The state of the use cases *)

(** The deliveries and the queue, the results, the destinations, and the requests
    sent so far: the address, the payload and the headers of each. *)
Record world (T Q R D : Type) : Type := World {
  log : DeliveryLog.world T Q; results : R; dests : D; sent : list (string * jsval * list (string * jsval));
}.
Arguments World {T Q R D}. Arguments log {T Q R D}. Arguments results {T Q R D}. Arguments dests {T Q R D}. Arguments sent {T Q R D}.

Section lifts.
Context {T Q R D : Type}.
Abbreviation W := (world T Q R D).
Definition on_log {A} (m : meth (DeliveryLog.world T Q) exn A) : meth W exn A := fun w =>
  let '(l, r) := m (log w) in (World l (results w) (dests w) (sent w), r).
Definition on_results {A} (m : meth R exn A) : meth W exn A := fun w =>
  let '(t, r) := m (results w) in (World (log w) t (dests w) (sent w), r).
Definition on_dests {A} (m : meth D exn A) : meth W exn A := fun w =>
  let '(t, r) := m (dests w) in (World (log w) (results w) t (sent w), r).
End lifts.

(** ** ReceiveTaskResultUseCase *)

Module ReceiveTaskResult.
Import Ports.

Definition number_of (payload : jsval) : num :=
  js_Number (js_nullish_or (js_get "confidenceScore" payload) (js_nullish_or (js_get "confidence_score" payload) (JNum (ofZ 1)))).
Definition either (a b : string) (dflt : jsval) (payload : jsval) : jsval := js_or (js_get a payload) (js_or (js_get b payload) dflt).
(** application/use-cases/ReceiveTaskResultUseCase.ts:22-41 execute
    Steps 2: the result the payload describes. *)
Definition result_of (now : Z) (uuid taskId : string) (payload : jsval) : res exn AiTaskResult.t :=
  AiTaskResult.restore now uuid taskId
    (inr (either "emailId" "email_id" (JString "unknown@example.com") payload))
    (inr (either "agentId" "agent_id" (JString "unknown-agent") payload))
    (either "agentVersion" "agent_version" (JString "1.0.0") payload)
    (inr (JNum (number_of payload)))
    (either "resultPayload" "result_payload" payload payload) JUndefined
    (Some (Some now)) (Some (Some now)) None.

Section receive.
Context {T Q R D : Type} `{DeliveryLog.LogTable T} `{Jobs.JobQueue Q} `{PrismaTaskResultRepository.Results R}
  `{DestinationStore.DestTable D}.
Abbreviation W := (world T Q R D).
Abbreviation M := (meth W exn).

Definition wanted (e : AiTaskResult.t) (d : Destination.t) : bool := Destination.matches d (FindDestinations.criteria e).
(** application/use-cases/ReceiveTaskResultUseCase.ts:49-59 execute *)
Fixpoint enqueue_each (e : AiTaskResult.t) (l : list Destination.t) : M unit :=
  match l with
  | [] => mret tt
  | d :: l =>
      (if wanted e d
       then on_log (DeliveryLog.enqueueDelivery (AiTaskResult.getId e) (Destination.id d) 1 None) else mret tt);;
      enqueue_each e l
  end.
(** application/use-cases/ReceiveTaskResultUseCase.ts:14-61 execute *)
Definition execute (now : Z) (uuid taskId : string) (payload : jsval) : M AiTaskResult.t :=
  existing ← on_results (PrismaTaskResultRepository.findById now uuid taskId);
  match existing with
  | Some e => mret e
  | None =>
      taskResult ← lift_res (result_of now uuid taskId payload);
      saved ← on_results (PrismaTaskResultRepository.save now uuid taskResult);
      activeDestinations ← on_dests (DestinationStore.findAllActive now);
      enqueue_each saved activeDestinations;;
      mret saved
  end.

(** *** Theorems *)

Lemma new_fields now uuid p e :
  AiTaskResult.new now uuid p = Ok e ->
  AiTaskResult.id e = str_or (default "" (AiTaskResult.p_id p)) uuid /\ AiTaskResult.createdAt e = default (Some now) (AiTaskResult.p_createdAt p).
Proof.
  unfold AiTaskResult.new. munfold. destruct (AiTaskResult.value_or EmailId.create _); [|done].
  destruct (AiTaskResult.value_or AgentId.create _); [|done]. destruct (AiTaskResult.value_or Confidence.create _); [|done].
  by intros [= <-].
Qed.
Lemma result_of_valid now uuid taskId payload e :
  result_of now uuid taskId payload = Ok e -> taskId <> "" ->
  AiTaskResult.valid e /\ AiTaskResult.id e = taskId /\ AiTaskResult.createdAt e = Some now.
Proof.
  intros He Hid. split; [by eapply AiTaskResult.result_new_valid; [|exact He]|].
  eapply new_fields in He as [Hi Hc]. rewrite Hi, Hc. simpl. unfold str_or.
  apply Destination.str_truthy_ne in Hid. by rewrite Hid.
Qed.

Lemma enqueue_each_jobs e l (w : W) :
  exists q', enqueue_each e l w = (World (DeliveryLog.World (DeliveryLog.db (log w)) q') (results w) (dests w) (sent w), Ok tt) /\
    map Jobs.j_name (Jobs.jobs q') = map Jobs.j_name (Jobs.jobs (DeliveryLog.queue (log w))) ++
      map (fun d => AiTaskResult.getId e +:+ ":" +:+ Destination.id d) (filter (fun d => wanted e d = true) l).
Proof.
  revert w. induction l as [|d l IH]; intros w.
  - exists (DeliveryLog.queue (log w)). split; [by destruct w as [[]]|]. by rewrite app_nil_r.
  - simpl. destruct (wanted e d) eqn:Hw.
    + erewrite bind_ok by reflexivity. set (w1 := World _ _ _ _). destruct (IH w1) as (q' & E & Hj). exists q'.
      split; [exact E|]. rewrite Hj. simpl. rewrite Jobs.add_fresh, map_app, filter_cons, decide_True by done. simpl. by rewrite <- app_assoc.
    + erewrite bind_ok by reflexivity. destruct (IH w) as (q' & E & Hj). exists q'. split; [exact E|].
      rewrite Hj, filter_cons, decide_False by (by rewrite Hw). done.
Qed.

(** A task that was not seen is stored and one job is added for each active
    destination that wants it, in their order; no delivery is made.  Received
    again under the same identifier, with whatever payload, it is answered from
    the store, and nothing changes. *)
Theorem received_once now uuid taskId payload e ds (w : W) :
  taskId <> "" -> PrismaTaskResultRepository.find_result taskId (results w) = None ->
  result_of now uuid taskId payload = Ok e -> DestinationStore.findAllActive now (dests w) = (dests w, Ok ds) ->
  PrismaTaskResultRepository.takes (PrismaTaskResultRepository.created_row now e) = true ->
  let e1 := PrismaTaskResultRepository.persisted now (Some now) e in
  let '(w1, o) := execute now uuid taskId payload w in
  o = Ok e1 /\ DeliveryLog.db (log w1) = DeliveryLog.db (log w) /\
  map Jobs.j_name (Jobs.jobs (DeliveryLog.queue (log w1))) =
    map Jobs.j_name (Jobs.jobs (DeliveryLog.queue (log w))) ++
    map (fun d => taskId +:+ ":" +:+ Destination.id d) (filter (fun d => wanted e d = true) ds) /\
  forall now' uuid' payload', execute now' uuid' taskId payload' w1 = (w1, Ok e1).
Proof.
  intros Hid Hn He Hds Htk. cbn zeta. destruct (result_of_valid _ _ _ _ _ He Hid) as (Hv & Hi & Hcr).
  pose proof (PrismaTaskResultRepository.save_find now uuid e (results w) Hv) as Hs. cbn zeta in Hs. rewrite Hi, Hn, Hcr in Hs.
  specialize (Hs Hid Htk). unfold execute at 1.
  rewrite (bind_ok _ _ _ w None) by (unfold on_results, PrismaTaskResultRepository.findById; rewrite Hn; by destruct w).
  rewrite (bind_ok _ _ _ w e) by (unfold lift_res; by rewrite He).
  destruct (PrismaTaskResultRepository.save now uuid e (results w)) as [R' so] eqn:Es. destruct Hs as (-> & Hf & _).
  set (e1 := PrismaTaskResultRepository.persisted now (Some now) e) in *.
  set (w1 := World (log w) R' (dests w) (sent w)).
  rewrite (bind_ok _ _ _ w1 e1) by (unfold on_results; by rewrite Es).
  rewrite (bind_ok _ _ _ w1 ds) by (unfold on_dests; change (dests w1) with (dests w); by rewrite Hds).
  destruct (enqueue_each_jobs e1 ds w1) as (q' & Eq & Hj). rewrite (bind_ok _ _ _ _ _ Eq).
  split_and!; [done|done| |].
  - simpl. rewrite Hj. simpl. unfold AiTaskResult.getId. simpl. by rewrite Hi.
  - intros now' uuid' payload'. unfold execute. simpl.
    rewrite (bind_ok _ _ _ (World (DeliveryLog.World (DeliveryLog.db (log w)) q') R' (dests w) (sent w)) (Some e1)); [done|].
    unfold on_results. simpl. specialize (Hf now' uuid').
    destruct (PrismaTaskResultRepository.findById now' uuid' taskId R') as [R2 o2] eqn:E2. simpl in Hf. rewrite Hf.
    assert (R2 = R') as ->; [|done]. unfold PrismaTaskResultRepository.findById in E2.
    destruct (PrismaTaskResultRepository.find_result taskId R'); by injection E2.
Qed.
End receive.

(** The filters of a destination hold its signing secret, and every filter
    must be a property of the result: so what is sent to a destination that
    signs carries the secret in its body. *)
Theorem signed_payload_carries_secret e d s :
  assoc "hmacSecret" (default [] (Destination.eventFilters d)) = Some (JString s) -> wanted e d = true ->
  js_get "hmacSecret" (AiTaskResult.resultPayload e) = JString s.
Proof.
  intros Hs Hw. assert (js_strict_eq (js_get "hmacSecret" (FindDestinations.criteria e)) (JString s) = true) as Hc.
  { unfold wanted, Destination.matches, Destination.matchesEventFilter in Hw.
    destruct (Destination.eventFilters d) as [[|f fs]|]; [done| |done]. simpl default in Hs.
    rewrite forallb_forall in Hw. apply (Hw ("hmacSecret", JString s)).
    clear Hw. revert Hs. induction (f :: fs) as [|[k v] l IH]; [done|]. simpl.
    destruct (str_eqb "hmacSecret" k) eqn:E; [|by right; apply IH]. intros [= ->]. apply str_eqb_eq in E. subst. by left. }
  revert Hc. unfold FindDestinations.criteria. simpl.
  assert (forall l : list (string * jsval), assoc "hmacSecret" (l ++ [("emailId", JString (AiTaskResult.getEmailId e));
     ("agentId", JString (AiTaskResult.getAgentId e)); ("confidenceScore", JNum (AiTaskResult.getConfidenceScore e))]) = assoc "hmacSecret" l) as Ha.
  { induction l as [|[k v] l IH]; [done|]. simpl. by destruct (str_eqb "hmacSecret" k). }
  rewrite Ha. destruct (AiTaskResult.resultPayload e) as [| | | | |? fs| | |]; simpl; try done.
  destruct (assoc "hmacSecret" fs) as [v|]; [|done]. simpl. destruct v; simpl; try done. by intros ->%str_eqb_eq.
Qed.
End ReceiveTaskResult.

(** ** DeliverTaskResultUseCase *)

Module DeliverTaskResult.
Import Store Ports.

(** What the HTTP client answers: a status and a duration, or an error. *)
Abbreviation answer := (res exn (num * num)).

Definition filters_of (d : Destination.t) : jsval := JObject 0 (default [] (Destination.eventFilters d)).
(** application/use-cases/DeliverTaskResultUseCase.ts:46-62 execute
    The secret must be a string; [sign] is the digest of a text under a key. *)
Definition headers (sign : string -> string -> string) (tr : AiTaskResult.t) (d : Destination.t) (attempt : Z)
    : res exn (list (string * jsval)) :=
  let filters := filters_of d in
  let custom := match js_get "headers" filters with JObject _ fs => fs | _ => [] end in
  let base := [("Content-Type", JString "application/json"); ("X-QueueForge-Task-Id", JString (AiTaskResult.getId tr));
               ("X-QueueForge-Attempt", JString (pretty attempt))] ++ custom in
  match js_get "hmacSecret" filters with
  | JString s =>
      if str_truthy s
      then Ok (base ++ [("X-QueueForge-Signature",
                 JString (sign s (default "undefined" (Json.stringify (AiTaskResult.resultPayload tr)))))])
      else Ok base
  | v => if js_truthy v then Throw (Connectors.type_error "The key argument must be of type string") else Ok base
  end.

(** What came of a request: whether it succeeded, the status, the message. *)
Record outcome : Type := Outcome { o_success : bool; o_status : num; o_message : string }.
(** application/use-cases/DeliverTaskResultUseCase.ts:69-87 execute *)
Definition outcome_of (r : answer) : outcome :=
  match r with
  | Ok (s, _) =>
      if ProcessDelivery.is_2xx s then Outcome true s ""
      else Outcome false s ("Received non-2xx status code: " +:+ num_to_string s)
  | Throw e => Outcome false (ofZ 0) (js_String (js_or (js_get "message" (Errors.exn_js e)) (JString "Unknown network error")))
  end.
(** [new Error(message)] *)
Definition error_of (m : string) : jsval := JError 0 [("message", JString m)].
(** application/use-cases/DeliverTaskResultUseCase.ts:90-116 execute *)
Definition record (now : Z) (attempt maxRetries : Z) (o : outcome) : meth Delivery.t exn unit :=
  Delivery.markProcessing now;;
  Delivery.incrementRetryCount now;;
  if o_success o then Delivery.markCompleted now (Delivery.WNum (o_status o))
  else
    Delivery.markFailed now (Delivery.ErrAny (error_of (str_or (o_message o) "Delivery failed")))
      (Delivery.StratBool (attempt <? maxRetries)) default_max;;
    if attempt >=? maxRetries then Delivery.moveToDLQ now (str_or (o_message o) "Max retries reached")
    else Delivery.scheduleRetry now (Delivery.DelayDate (Some (now + 5000))).
Definition failure_message (destinationId : string) (attempt maxRetries : Z) (o : outcome) : string :=
  if attempt >=? maxRetries
  then "Delivery failed to destination " +:+ destinationId +:+ " after " +:+ pretty attempt +:+
       " attempts. Permanent failure (DLQ). Error: " +:+ o_message o
  else "Delivery attempt " +:+ pretty attempt +:+ " failed. Error: " +:+ o_message o.

Section deliver.
Context {T Q R D : Type} `{DeliveryLog.LogTable T} `{Jobs.JobQueue Q} `{PrismaTaskResultRepository.Results R}
  `{DestinationStore.DestTable D}.
Context (sign : string -> string -> string) (net : nat -> answer).
Abbreviation W := (world T Q R D).
Abbreviation M := (meth W exn).

(** The HTTP client: the [n]-th request gets the [n]-th answer. *)
Definition post (url : string) (payload : jsval) (hs : list (string * jsval)) : M answer := fun w =>
  (World (log w) (results w) (dests w) (sent w ++ [(url, payload, hs)]), Ok (net (length (sent w)))).
Definition new_delivery (now : Z) (uuid taskResultId destinationId : string) : res exn Delivery.t :=
  Delivery.restore now (Delivery.RestoreParams uuid taskResultId destinationId (inl Status.PENDING) None None None None None
    (Some (Some now)) (Some (Some now)) [] None).
(** application/use-cases/DeliverTaskResultUseCase.ts:17-128 execute
    [uuid] is the identifier generated for the delivery. *)
Definition execute (now : Z) (uuid taskResultId destinationId : string) (attempt maxRetries : Z) : M unit :=
  taskResult ← on_results (PrismaTaskResultRepository.findById now uuid taskResultId);
  match taskResult with
  | None => fail (PlainError ("TaskResult with ID " +:+ taskResultId +:+ " not found"))
  | Some tr =>
      destination ← on_dests (DestinationStore.findById now destinationId);
      match destination with
      | None => fail (PlainError ("Destination with ID " +:+ destinationId +:+ " not found"))
      | Some d =>
          if negb (Destination.enabled d) then mret tt
          else if negb (str_eqb (DestType.kind (Destination.type d)) "webhook")
          then fail (PlainError ("Unsupported destination type: " +:+ DestType.kind (Destination.type d)))
          else
            hs ← lift_res (headers sign tr d attempt);
            r ← post (Destination.endpoint d) (AiTaskResult.resultPayload tr) hs;
            let o := outcome_of r in
            d0 ← lift_res (new_delivery now uuid taskResultId destinationId);
            d1 ← (fun w => let '(d1, r) := record now attempt maxRetries o d0 in (w, match r with Ok _ => Ok d1 | Throw e => Throw e end));
            on_log (DeliveryLog.save_entity now d1);;
            if o_success o then mret tt else fail (PlainError (failure_message destinationId attempt maxRetries o))
      end
  end.

(** *** Theorems *)

(** What a delivery is recorded as after its outcome. *)
Definition verdict (now attempt maxRetries : Z) (o : outcome) : Status.t * option date :=
  if o_success o then (Status.COMPLETED, None)
  else if attempt >=? maxRetries then (Status.FAILED_DLQ, None) else (Status.SCHEDULED_RETRY, Some (Some (now + 5000))).
Definition verdict_row (tid did : string) (v : Status.t * option date) : row := Row tid did v.1 1 v.2 None None None.

Lemma record_verdict now n mx o uuid tid did :
  uuid <> "" -> tid <> "" -> did <> "" ->
  exists d0 d1, new_delivery now uuid tid did = Ok d0 /\ record now n mx o d0 = (d1, Ok tt) /\
    DeliveryLog.row_of d1 = verdict_row tid did (verdict now n mx o) /\ Delivery.id d1 = uuid /\ Delivery.domainEvents d1 = [].
Proof.
  intros Hu Ht Hd. apply Destination.str_truthy_ne in Hu, Ht, Hd.
  unfold new_delivery, Delivery.restore, Delivery.new. simpl. rewrite Hu, Ht, Hd. simpl.
  eexists. unfold record, verdict. destruct (o_success o).
  - unfold Delivery.markProcessing, Delivery.markAsProcessing, Delivery.incrementRetryCount, Delivery.markCompleted, Delivery.markAsCompleted.
    munfold. simpl. eexists. split_and!; reflexivity.
  - assert (exists m, str_or (o_message o) "Delivery failed" = m /\ str_truthy m = true) as (m & -> & Hm).
    { eexists. split; [reflexivity|]. unfold str_or. by destruct (str_truthy (o_message o)) eqn:E. }
    unfold Delivery.markFailed, Delivery.as_delivery_error, error_of. simpl.
    destruct m as [|c m]; [done|]. rewrite Z.geb_leb, Z.ltb_antisym. destruct (mx <=? n) eqn:E; unfold Delivery.markProcessing, Delivery.markAsProcessing, Delivery.incrementRetryCount; munfold; simpl.
    + eexists. split_and!; reflexivity.
    + eexists. split_and!; reflexivity.
Qed.

(** A result and an enabled web hook that a delivery job names. *)
Record ready (w : W) (tid did : string) (tr : AiTaskResult.t) (d : Destination.t) : Prop := Ready {
  rd_result : forall now u, PrismaTaskResultRepository.findById now u tid (results w) = (results w, Ok (Some tr));
  rd_dest : forall now, DestinationStore.findById now did (dests w) = (dests w, Ok (Some d));
  rd_enabled : Destination.enabled d = true;
  rd_webhook : Destination.type d = DestType.WEBHOOK;
  rd_headers : forall n, exists hs, headers sign tr d n = Ok hs;
  rd_ids : tid <> "" /\ did <> "";
}.
Definition sent_to (w : W) (l : DeliveryLog.world T Q) (d : Destination.t) (tr : AiTaskResult.t) (hs : list (string * jsval)) : W :=
  World l (results w) (dests w) (sent w ++ [(Destination.endpoint d, AiTaskResult.resultPayload tr, hs)]).

Lemma deliver_ready now uuid tid did n mx (w : W) tr d :
  ready w tid did tr d -> uuid <> "" ->
  let o := outcome_of (net (length (sent w))) in
  exists hs d1, DeliveryLog.row_of d1 = verdict_row tid did (verdict now n mx o) /\ Delivery.id d1 = uuid /\
    execute now uuid tid did n mx w =
      match DeliveryLog.upsert_delivery now uuid (DeliveryLog.update_of d1) (DeliveryLog.row_of d1) (DeliveryLog.db (log w)) with
      | Some t' => (sent_to w (DeliveryLog.World t' (DeliveryLog.queue (log w))) d tr hs,
                    if o_success o then Ok tt else Throw (PlainError (failure_message did n mx o)))
      | None => (sent_to w (log w) d tr hs, Throw DeliveryLog.conflict)
      end.
Proof.
  intros [R1 R2 R3 R4 R5 [I1 I2]] Hu. cbn zeta. set (o := outcome_of _). destruct (R5 n) as [hs Hhs].
  destruct (record_verdict now n mx o uuid tid did Hu I1 I2) as (d0 & d1 & Hd0 & Hr & Hrow & Hid & Hev).
  exists hs, d1. split; [done|]. split; [done|]. unfold execute.
  rewrite (bind_ok _ _ _ w (Some tr)) by (unfold on_results; rewrite R1; by destruct w).
  rewrite (bind_ok _ _ _ w (Some d)) by (unfold on_dests; rewrite R2; by destruct w).
  rewrite R3, R4. cbn [negb]. rewrite (proj2 (str_eqb_eq (DestType.kind DestType.WEBHOOK) "webhook")) by reflexivity. cbn [negb].
  rewrite (bind_ok _ _ _ w hs) by (unfold lift_res; by rewrite Hhs).
  rewrite (bind_ok _ _ _ (sent_to w (log w) d tr hs) (net (length (sent w)))) by done. fold o.
  rewrite (bind_ok _ _ _ (sent_to w (log w) d tr hs) d0) by (unfold lift_res; by rewrite Hd0).
  rewrite (bind_ok _ _ _ (sent_to w (log w) d tr hs) d1) by (by rewrite Hr).
  unfold mbind at 1, meth_bind, on_log, DeliveryLog.save_entity. munfold. unfold DeliveryLog.on_db. rewrite Hid, Hev. simpl.
  destruct (DeliveryLog.upsert_delivery _ _ _ _ _); [|by destruct (log w)]. by destruct (o_success o).
Qed.

(** The first attempt of a job, whose delivery has no row yet, sends one
    request, and stores the delivery with one retry counted: COMPLETED if the
    answer is a 2xx, FAILED_DLQ from the last attempt on, and else
    SCHEDULED_RETRY in five seconds; a failure is thrown to the queue. *)
Theorem first_attempt_recorded now uuid tid did n mx (w : W) tr d :
  ready w tid did tr d -> uuid <> "" -> find_delivery uuid (DeliveryLog.db (log w)) = None ->
  (forall x, x ∈ Jobs.rows (DeliveryLog.db (log w)) -> ~ (r_taskResultId x.2 = tid /\ r_destinationId x.2 = did)) ->
  let o := outcome_of (net (length (sent w))) in
  let '(w', r) := execute now uuid tid did n mx w in
  find_delivery uuid (DeliveryLog.db (log w')) = Some (verdict_row tid did (verdict now n mx o)) /\
  (forall id, id <> uuid -> find_delivery id (DeliveryLog.db (log w')) = find_delivery id (DeliveryLog.db (log w))) /\
  length (sent w') = S (length (sent w)) /\
  r = (if o_success o then Ok tt else Throw (PlainError (failure_message did n mx o))).
Proof.
  intros Hrd Hu Hn Hp. cbn zeta. destruct (deliver_ready now uuid tid did n mx w tr d Hrd Hu) as (hs & d1 & Hrow & Hid & ->).
  destruct (proj2 (DeliveryLog.upsert_absent now uuid (DeliveryLog.update_of d1) (DeliveryLog.row_of d1) _ Hn)) as [t' Ht].
  { intros x Hx. rewrite Hrow. by apply Hp. }
  rewrite Ht. split_and!; simpl.
  - rewrite (DeliveryLog.upsert_find_eq _ _ _ _ _ _ Ht), Hn. by rewrite Hrow.
  - intros id Hne. by eapply DeliveryLog.upsert_find_ne; [|exact Ht].
  - rewrite length_app. simpl. lia.
  - done.
Qed.

(** The later attempts of a job: each its time, its generated id, its number. *)
Definition attempts_after (tid did : string) (mx : Z) (l : list (Z * string * Z)) (w : W) : W :=
  fold_left (fun w '(now, uuid, n) => (execute now uuid tid did n mx w).1) l w.

(** Once the pair of a result and a destination has a delivery, no later
    attempt is recorded: each sends the request once more and then fails on the
    unique pair, whatever the destination answers; the delivery stays as the
    first attempt left it. *)
Theorem redelivery_unrecorded tid did mx l id r (w : W) tr d :
  ready w tid did tr d -> find_delivery id (DeliveryLog.db (log w)) = Some r ->
  r_taskResultId r = tid -> r_destinationId r = did ->
  (forall now uuid n, (now, uuid, n) ∈ l -> uuid <> "" /\ find_delivery uuid (DeliveryLog.db (log w)) = None) ->
  let w' := attempts_after tid did mx l w in
  log w' = log w /\ length (sent w') = (length (sent w) + length l)%nat /\
  forall now uuid n, uuid <> "" -> find_delivery uuid (DeliveryLog.db (log w)) = None ->
    (execute now uuid tid did n mx w').2 = Throw DeliveryLog.conflict.
Proof.
  intros Hrd Hr Htr Hde Hl. cbn zeta.
  assert (forall w1 : W, log w1 = log w -> results w1 = results w -> dests w1 = dests w -> forall now uuid n,
            uuid <> "" -> find_delivery uuid (DeliveryLog.db (log w)) = None ->
            exists hs, execute now uuid tid did n mx w1 = (sent_to w1 (log w) d tr hs, Throw DeliveryLog.conflict)) as Hone.
  { intros w1 E1 E2 E3 now uuid n Hu Hn. assert (ready w1 tid did tr d) as Hrd1.
    { destruct Hrd. constructor; [by rewrite E2|by rewrite E3|done..]. }
    destruct (deliver_ready now uuid tid did n mx w1 tr d Hrd1 Hu) as (hs & d1 & Hrow & _ & ->). exists hs. rewrite E1.
    destruct (DeliveryLog.upsert_delivery _ _ _ _ _) as [t'|] eqn:Eu; [|done]. exfalso.
    eapply (proj1 (DeliveryLog.upsert_absent now uuid _ _ _ Hn)); [by eexists|apply Jobs.rows_find; exact Hr|].
    rewrite Hrow. simpl. done. }
  assert (log (attempts_after tid did mx l w) = log w /\ results (attempts_after tid did mx l w) = results w /\
          dests (attempts_after tid did mx l w) = dests w /\ length (sent (attempts_after tid did mx l w)) = (length (sent w) + length l)%nat)
    as (G1 & G2 & G3 & G4).
  { revert Hl. unfold attempts_after. induction l as [|[[now uuid] n] l IH] using rev_ind; intros Hl; [simpl; split_and!; try done; lia|].
    rewrite fold_left_app. simpl. destruct IH as (I1 & I2 & I3 & I4); [intros * Hin; eapply Hl, elem_of_app; by left|].
    destruct (Hl now uuid n) as [Hu Hn]; [apply elem_of_app; right; by left|].
    destruct (Hone _ I1 I2 I3 now uuid n Hu Hn) as [hs ->]. simpl. rewrite !length_app, I4. simpl. split_and!; try done. lia. }
  split_and!; [done|done|]. intros now uuid n Hu Hn. by destruct (Hone _ G1 G2 G3 now uuid n Hu Hn) as [hs ->].
Qed.
End deliver.
End DeliverTaskResult.

(** ** RegisterDestinationUseCase *)

Module RegisterDestinationUseCase.

Section register.
Context {D : Type} `{DestinationStore.DestTable D}.
(** application/use-cases/RegisterDestinationUseCase.ts:9-19 execute
    [Destination.create] reads [type] of its argument, which the use case names
    destinationType: it takes the object for the positional type. *)
Definition execute (now : Z) (uuid : string) (config : jsval) : meth D exn Destination.t :=
  if is_nullish config then fail (Connectors.type_error "Cannot read properties of undefined (reading 'url')")
  else
    destination ← lift_res (Destination.create now uuid None "" None (JNum (ofZ 5)) (JNum (ofZ 30000)) None [] None);
    DestinationStore.save now destination.

(** Whatever is asked, no destination is ever registered. *)
Lemma register_always_refused now uuid config (t : D) :
  uuid <> "" -> exists e, execute now uuid config t = (t, Throw e).
Proof.
  intros Hu. unfold execute. destruct (is_nullish config); [by eexists|].
  unfold Destination.create, Destination.new, str_or. simpl. apply Destination.str_truthy_ne in Hu. rewrite Hu. by eexists.
Qed.
End register.
End RegisterDestinationUseCase.

(** ** A run *)

Module Sample.
Import ReceiveTaskResult DeliverTaskResult.

Abbreviation tables := DeliveryLog.log_tables.
Abbreviation W := (world tables Jobs.list_queue (gmap string PrismaTaskResultRepository.row) (gmap string DestinationStore.row)).
Definition hook : DestinationStore.row :=
  DestinationStore.Row "https://x.example" DestType.WEBHOOK (Some [("hmacSecret", JString "k")]) true (Some 0) (Some 0) None.
Definition payload : jsval := JObject 0 [("label", JString "spam"); ("hmacSecret", JString "k")].
Definition start : W :=
  World (DeliveryLog.World (DeliveryLog.LogTables (Store.Tables ∅ []) ∅) Jobs.no_jobs) ∅ {["h1" := hook]} [].
Definition received : W := (ReceiveTaskResult.execute 5 "u" "t1" payload start).1.
Definition sign (key text : string) : string := "sig".
(** The destination first fails, then accepts. *)
Definition net (n : nat) : answer := match n with O => Ok (ofZ 500, ofZ 3) | _ => Ok (ofZ 200, ofZ 3) end.
Definition stored_result : AiTaskResult.t :=
  match (PrismaTaskResultRepository.findById 0 "" "t1" (results received)).2 with Ok (Some e) => e | _ =>
    AiTaskResult.Mk "" (EmailId.Mk "") (AgentId.Mk "") JUndefined (Confidence.Mk 0) JUndefined JUndefined None None None None [] end.
Definition stored_hook : Destination.t :=
  match (DestinationStore.findById 0 "h1" (dests received)).2 with Ok (Some d) => d | _ => Destination.sample end.
Definition attempted : W := (DeliverTaskResult.execute sign net 10 "d1" "t1" "h1" 1 3 received).1.

Lemma received_ready : ready sign received "t1" "h1" stored_result stored_hook.
Proof.
  constructor; [intros; vm_compute; reflexivity|intros; vm_compute; reflexivity|vm_compute; reflexivity|vm_compute; reflexivity| |done].
  intros n. eexists. unfold headers. cbn -[pretty]. reflexivity.
Qed.

Lemma received_once_witness : (ReceiveTaskResult.execute 9 "v" "t1" (JObject 0 []) received).1 = received.
Proof.
  assert (exists e, result_of 5 "u" "t1" payload = Ok e) as [e He] by (eexists; vm_compute; reflexivity).
  assert (exists ds, DestinationStore.findAllActive 5 (dests start) = (dests start, Ok ds)) as [ds Hds]
    by (eexists; vm_compute; reflexivity).
  pose proof (received_once 5 "u" "t1" payload e ds start) as Hr. cbn zeta in Hr. unfold received.
  destruct (ReceiveTaskResult.execute 5 "u" "t1" payload start) as [w1 o]. destruct Hr as (_ & _ & _ & Hr); [discriminate|reflexivity|exact He|exact Hds| |].
  { revert He. vm_compute. by intros [= <-]. }
  simpl. by rewrite Hr.
Defined.

Lemma signed_payload_carries_secret_witness : js_get "hmacSecret" (AiTaskResult.resultPayload stored_result) = JString "k".
Proof. apply (signed_payload_carries_secret stored_result stored_hook "k"); vm_compute; reflexivity. Defined.

Lemma first_attempt_recorded_witness :
  Store.find_delivery "d1" (DeliveryLog.db (log attempted)) =
    Some (Store.Row "t1" "h1" Status.SCHEDULED_RETRY 1 (Some (Some 5010)) None None None).
Proof.
  pose proof (first_attempt_recorded sign net 10 "d1" "t1" "h1" 1 3 received stored_result stored_hook received_ready) as Hf.
  cbn zeta in Hf. unfold attempted. destruct (DeliverTaskResult.execute sign net 10 "d1" "t1" "h1" 1 3 received) as [w1 o].
  destruct Hf as (Hf & _); [discriminate|vm_compute; reflexivity| |].
  - intros x Hx. assert (Jobs.rows (DeliveryLog.db (log received)) = []) as E by (vm_compute; reflexivity). rewrite E in Hx. by apply elem_of_nil in Hx.
  - etransitivity; [exact Hf|vm_compute; reflexivity].
Defined.

Lemma redelivery_unrecorded_witness :
  let w' := attempts_after sign net "t1" "h1" 3 [(20, "d2", 2); (30, "d3", 3)] attempted in
  log w' = log attempted /\ length (sent w') = 3%nat.
Proof.
  cbn zeta.
  destruct (redelivery_unrecorded sign net "t1" "h1" 3 [(20, "d2", 2); (30, "d3", 3)] "d1"
    (Store.Row "t1" "h1" Status.SCHEDULED_RETRY 1 (Some (Some 5010)) None None None) attempted stored_result stored_hook) as (Hl & Hs & _).
  - destruct received_ready as [R1 R2 R3 R4 R5 R6].
    constructor; [intros; vm_compute; reflexivity|intros; vm_compute; reflexivity|exact R3|exact R4|exact R5|exact R6].
  - vm_compute. reflexivity.
  - reflexivity.
  - reflexivity.
  - intros now uuid n Hin. repeat (apply elem_of_cons in Hin as [Hin|Hin]; [injection Hin as -> -> ->; split; [discriminate|vm_compute; reflexivity]|]).
    by apply elem_of_nil in Hin.
  - split; [exact Hl|]. rewrite Hs. vm_compute. reflexivity.
Defined.
End Sample.
