(* ===== verification/QueueManager.v ===== *)
(** * The queue manager

    [infrastructure/queue/]: the serialisation of job data ([JobSerializer]), the
    manager of the main, the delayed and the dead-letter queue ([QueueManager])
    and the client that keeps the queues by name ([QueueClient]).  The queues are
    those of [Recovery.Jobs]. *)
From Stdlib Require Import Ascii QArith Qround Qpower Qabs Lqa.
From stdpp Require Import base tactics numbers list strings gmap pretty.
From S2P Require Import Prelude JsNum JsValue Errors DomainTypes Store Text IsoDate Recovery Repositories.

(** ** JobSerializer *)

Module JobSerializer.
Import IsoDate.

(** The values of job data: those of JSON, and dates (an invalid one is [None]).
    The keys of an object are in the order of [Object.keys]. *)
Inductive value : Type :=
| VUndefined
| VNull
| VBool (b : bool)
| VNum (n : num)
| VString (s : string)
| VDate (d : date)
| VArray (items : list value)
| VObject (fields : list (string * value)).

Definition truthy (v : value) : bool :=
  match v with
  | VUndefined | VNull => false
  | VBool b => b
  | VNum n => num_truthy n
  | VString s => str_truthy s
  | _ => true
  end.
(** [v.k]. *)
Definition get (k : string) (v : value) : value :=
  match v with VObject fields => default VUndefined (assoc k fields) | _ => VUndefined end.
(** [typeof v === 'object'] *)
Definition typeof_object (v : value) : bool :=
  match v with VNull | VDate _ | VArray _ | VObject _ => true | _ => false end.

(** [map] with a function that can throw. *)
Section map_res.
Context {A B : Type} (f : A -> res exn B).
Fixpoint map_res (l : list A) : res exn (list B) :=
  match l with
  | [] => Ok []
  | x :: l => y ← f x; ys ← map_res l; Ok (y :: ys)
  end.
End map_res.

Definition invalid_time : exn :=
  Foreign (JError 0 [("name", JString "RangeError"); ("message", JString "Invalid time value")]).

(** infrastructure/queue/job-serializer.ts:48-63 deepCloneAndConvertDates *)
Fixpoint deepCloneAndConvertDates (v : value) : res exn value :=
  match v with
  | VDate (Some t) => Ok (VString (iso_string t))
  | VDate None => Throw invalid_time
  | VArray l => VArray <$> map_res deepCloneAndConvertDates l
  | VObject fs => VObject <$> map_res (fun '(k, x) => y ← deepCloneAndConvertDates x; Ok (k, y)) fs
  | _ => Ok v
  end.
(** infrastructure/queue/job-serializer.ts:65-81 deepCloneAndParseDates *)
Fixpoint deepCloneAndParseDates (v : value) : value :=
  match v with
  | VString s => match parse_fields s with Some f => VDate (date_of f) | None => v end
  | VArray l => VArray (map deepCloneAndParseDates l)
  | VObject fs => VObject (map (fun '(k, x) => (k, deepCloneAndParseDates x)) fs)
  | _ => v
  end.

(** infrastructure/queue/job-serializer.ts:17-20 serialize *)
Definition serialize : value -> res exn value := deepCloneAndConvertDates.
(** infrastructure/queue/job-serializer.ts:25-31 deserialize *)
Definition deserialize (v : value) : res exn value :=
  if truthy v then Ok (deepCloneAndParseDates v) else Throw (ValidationError "Job data record is empty or invalid.").
(** infrastructure/queue/job-serializer.ts:36-46 validateJobData *)
Definition validateJobData (data : value) : res exn unit :=
  if negb (truthy data) || negb (typeof_object data) then Throw (ValidationError "Job data must be a valid object.")
  else if match get "deliveryId" data with VString s => str_eqb (trim s) "" | _ => true end
       then Throw (ValidationError "Job data requires a non-empty string deliveryId.")
  else match get "payload" data with
       | VUndefined => Throw (ValidationError "Job data requires a valid payload.")
       | _ => Ok tt
       end.

(** *** Induction on values *)

Section value_ind.
Context (P : value -> Prop).
Context (Pundef : P VUndefined) (Pnull : P VNull) (Pbool : forall b, P (VBool b)) (Pnum : forall n, P (VNum n))
  (Pstring : forall s, P (VString s)) (Pdate : forall d, P (VDate d))
  (Parray : forall l, Forall P l -> P (VArray l)) (Pobject : forall fs, Forall (fun x => P x.2) fs -> P (VObject fs)).
Fixpoint value_rect' (v : value) : P v :=
  match v with
  | VUndefined => Pundef | VNull => Pnull | VBool b => Pbool b | VNum n => Pnum n
  | VString s => Pstring s | VDate d => Pdate d
  | VArray l =>
      Parray l ((fix go l : Forall P l :=
        match l with [] => Forall_nil_2 _ | x :: l => Forall_cons_2 _ _ _ (value_rect' x) (go l) end) l)
  | VObject fs =>
      Pobject fs ((fix go fs : Forall (fun x => P x.2) fs :=
        match fs with [] => Forall_nil_2 _ | x :: fs => Forall_cons_2 _ _ _ (value_rect' x.2) (go fs) end) fs)
  end.
End value_ind.

(** *** What survives *)

(** A value with dates of the years 0 to 9999 only, and no text that reads as one. *)
Fixpoint plain (v : value) : bool :=
  match v with
  | VString s => match parse_fields s with Some _ => false | None => true end
  | VDate (Some t) => in_years t
  | VDate None => false
  | VArray l => forallb plain l
  | VObject fs => forallb (fun x => plain x.2) fs
  | _ => true
  end.
(** A value as the queue stores it: no dates, and every text that reads as a date
    is the one the date prints as. *)
Fixpoint canonical (v : value) : bool :=
  match v with
  | VString s =>
      match parse_fields s with
      | Some f => match date_of f with Some t => str_eqb s (iso_string t) | None => false end
      | None => true
      end
  | VDate _ => false
  | VArray l => forallb canonical l
  | VObject fs => forallb (fun x => canonical x.2) fs
  | _ => true
  end.
(** A text of the form of a date that is none. *)
Fixpoint misdated (v : value) : bool :=
  match v with
  | VString s => match parse_fields s with Some f => match date_of f with Some _ => false | None => true end | None => false end
  | VArray l => existsb misdated l
  | VObject fs => existsb (fun x => misdated x.2) fs
  | _ => false
  end.

Lemma map_res_ok {A B} (f : A -> res exn B) (g : A -> B) l :
  Forall (fun x => f x = Ok (g x)) l -> map_res f l = Ok (map g l).
Proof. induction 1 as [|x l Hx Hl IH]; simpl; [done|]. rewrite Hx. simpl. by rewrite IH. Qed.

(** Sending and reading back. *)
Lemma convert_plain v :
  plain v = true -> exists w, deepCloneAndConvertDates v = Ok w /\ deepCloneAndParseDates w = v /\ canonical w = true.
Proof.
  induction v as [| |b|n|s|[t|]|l IH|fs IH] using value_rect'; simpl; intros Hp;
    [by exists VUndefined|by exists VNull|by exists (VBool b)|by exists (VNum n)|..].
  - exists (VString s). simpl. by destruct (parse_fields s).
  - destruct (read_iso t Hp) as (f & Hf & Ht). exists (VString (iso_string t)). simpl. rewrite Hf, Ht. split_and!; auto with qf.
  - done.
  - assert (exists ws, map_res deepCloneAndConvertDates l = Ok ws /\ map deepCloneAndParseDates ws = l /\ forallb canonical ws = true)
      as (ws & -> & Hr & Hc).
    { induction IH as [|x l Hx _ IHl]; simpl in *; [by exists []|]. apply andb_true_iff in Hp as [Hp1 Hp2].
      destruct (Hx Hp1) as (w & -> & <- & Hw). destruct (IHl Hp2) as (ws & -> & <- & Hws). exists (w :: ws). simpl. by rewrite Hw. }
    exists (VArray ws). simpl. by rewrite Hr.
  - assert (exists ws, map_res (fun '(k, x) => y ← deepCloneAndConvertDates x; Ok (k, y)) fs = Ok ws /\
                       map (fun '(k, x) => (k, deepCloneAndParseDates x)) ws = fs /\ forallb (fun x => canonical x.2) ws = true)
      as (ws & -> & Hr & Hc).
    { induction IH as [|[k x] l Hx _ IHl]; simpl in *; [by exists []|]. apply andb_true_iff in Hp as [Hp1 Hp2].
      destruct (Hx Hp1) as (w & -> & <- & Hw). destruct (IHl Hp2) as (ws & -> & <- & Hws). exists ((k, w) :: ws). simpl. by rewrite Hw. }
    exists (VObject ws). simpl. by rewrite Hr.
Qed.

Lemma convert_canonical w : canonical w = true -> deepCloneAndConvertDates (deepCloneAndParseDates w) = Ok w.
Proof.
  induction w as [| |b|n|s|d|l IH|fs IH] using value_rect'; simpl; intros Hp; try done.
  - destruct (parse_fields s) as [f|]; [|done]. simpl. destruct (date_of f) as [t|]; [|done]. apply str_eqb_eq in Hp. by subst.
  - assert (map_res deepCloneAndConvertDates (map deepCloneAndParseDates l) = Ok l) as ->; [|done].
    induction IH as [|x l Hx _ IHl]; simpl in *; [done|]. apply andb_true_iff in Hp as [Hp1 Hp2]. rewrite (Hx Hp1). simpl. by rewrite (IHl Hp2).
  - assert (map_res (fun '(k, x) => y ← deepCloneAndConvertDates x; Ok (k, y))
             (map (fun '(k, x) => (k, deepCloneAndParseDates x)) fs) = Ok fs) as ->; [|done].
    induction IH as [|[k x] l Hx _ IHl]; simpl in *; [done|]. apply andb_true_iff in Hp as [Hp1 Hp2]. rewrite (Hx Hp1). simpl. by rewrite (IHl Hp2).
Qed.

Lemma throws_only e v : deepCloneAndConvertDates v = Throw e -> e = invalid_time.
Proof.
  induction v as [| |b|n|s|[t|]|l IH|fs IH] using value_rect'; simpl; intros Hv; try done; [by injection Hv| |].
  - destruct (map_res _ l) as [ws|e'] eqn:E; [done|]. injection Hv as ->. revert E.
    induction IH as [|x l Hx _ IHl]; simpl; [done|]. destruct (deepCloneAndConvertDates x); simpl; [|intros [= ->]; by apply Hx].
    destruct (map_res _ l); simpl; [done|]. by apply IHl.
  - destruct (map_res _ fs) as [ws|e'] eqn:E; [done|]. injection Hv as ->. revert E.
    induction IH as [|[k x] l Hx _ IHl]; simpl in *; [done|].
    destruct (deepCloneAndConvertDates x); simpl; [|intros [= ->]; by apply Hx]. destruct (map_res _ l); simpl; [done|]. by apply IHl.
Qed.

Lemma convert_misdated w : misdated w = true -> deepCloneAndConvertDates (deepCloneAndParseDates w) = Throw invalid_time.
Proof.
  intros Hm. cut (exists e, deepCloneAndConvertDates (deepCloneAndParseDates w) = Throw e).
  { intros [e He]. rewrite He. by rewrite (throws_only _ _ He). }
  revert Hm. induction w as [| |b|n|s|d|l IH|fs IH] using value_rect'; simpl; intros Hm; try done.
  - destruct (parse_fields s) as [f|]; [|done]. simpl. destruct (date_of f); [done|]. by eexists.
  - assert (exists e, map_res deepCloneAndConvertDates (map deepCloneAndParseDates l) = Throw e) as [e ->]; [|by eexists].
    induction IH as [|x l Hx _ IHl]; simpl in *; [done|]. apply orb_true_iff in Hm as [Hm|Hm].
    + destruct (Hx Hm) as [e ->]. by exists e.
    + destruct (deepCloneAndConvertDates _); [|by eexists]. simpl. destruct (IHl Hm) as [e ->]. by eexists.
  - assert (exists e, map_res (fun '(k, x) => y ← deepCloneAndConvertDates x; Ok (k, y))
             (map (fun '(k, x) => (k, deepCloneAndParseDates x)) fs) = Throw e) as [e ->]; [|by eexists].
    induction IH as [|[k x] l Hx _ IHl]; simpl in *; [done|]. apply orb_true_iff in Hm as [Hm|Hm].
    + destruct (Hx Hm) as [e ->]. by exists e.
    + destruct (deepCloneAndConvertDates _); [|by eexists]. simpl. destruct (IHl Hm) as [e ->]. by eexists.
Qed.

Lemma falsy_parse w : truthy w = false -> truthy (deepCloneAndParseDates w) = false.
Proof.
  destruct w; simpl; try done. intros Hs. unfold str_truthy in Hs. apply negb_false_iff, str_eqb_eq in Hs. by subst.
Qed.

(** C15: Job data whose dates lie in the years 0 to 9999, and none of whose texts
    has the form of a date, is serialised to data without dates, and
    deserialising that gives the job data back; in the other direction, data in
    which every text that looks like a date is the canonical text of one is
    deserialised and serialised to itself; and a text of that form that names
    no date makes the second serialisation throw a RangeError. *)
Theorem serializer_roundtrip :
  (forall v, truthy v = true -> plain v = true ->
     exists w, serialize v = Ok w /\ canonical w = true /\ deserialize w = Ok v) /\
  (forall w, truthy w = true -> canonical w = true -> (deserialize w ≫= serialize) = Ok w) /\
  (forall w, truthy w = true -> misdated w = true -> (deserialize w ≫= serialize) = Throw invalid_time).
Proof.
  split; [|split].
  - intros v Ht Hp. destruct (convert_plain v Hp) as (w & Hw & Hr & Hc). exists w. split_and!; [done|done|].
    unfold deserialize. rewrite Hr. destruct (truthy w) eqn:E; [done|]. apply falsy_parse in E. congruence.
  - intros w Ht Hc. unfold deserialize. rewrite Ht. by apply convert_canonical.
  - intros w Ht Hm. unfold deserialize. rewrite Ht. by apply convert_misdated.
Qed.

Definition sample_data : value :=
  VObject [("deliveryId", VString "d1"); ("payload", VArray [VDate (Some 1709210096789); VNum 1; VNull])].
Definition sample_stored : value :=
  VObject [("deliveryId", VString "d1"); ("payload", VArray [VString "2024-02-29T12:34:56.789Z"; VNum 1; VNull])].
Lemma serializer_roundtrip_witness :
  (exists w, serialize sample_data = Ok w /\ canonical w = true /\ deserialize w = Ok sample_data) /\
  (deserialize sample_stored ≫= serialize) = Ok sample_stored /\
  (deserialize (VArray [VString "2024-02-32T00:00:00.000Z"]) ≫= serialize) = Throw invalid_time.
Proof.
  destruct serializer_roundtrip as (H1 & H2 & H3). split; [apply H1; by vm_compute|]. split; [apply H2; by vm_compute|].
  apply H3; by vm_compute.
Defined.

End JobSerializer.

(** ** QueueManager *)

Module QueueManager.
Import Recovery.Jobs JobSerializer.

(** Counts by state; [None] is a count the queue does not report. *)
Record counts : Type := Counts { n_active : option Z; n_waiting : option Z; n_delayed : option Z; n_failed : option Z }.
Class Counting (Q : Type) := { getJobCounts : Q -> counts }.

(** infrastructure/queue/queue-manager.ts:27-31 QueueDepth *)
Record QueueDepth : Type := Depth { d_main : Z; d_delayed : Z; d_dlq : Z }.

Section manager.
Context {Q : Type} `{QueueOf value Q} `{!Locks Q}.
(** The name a job gets from a value that need not be text. *)
Context (as_name : value -> string).

(** infrastructure/queue/queue-manager.ts:43-45 QueueManager *)
Record world : Type := World { main : Q; delayed : Q; dlq : Q }.
Inductive which : Type := Main | Delayed | Dlq.
Definition queue_at (k : which) (w : world) : Q :=
  match k with Main => main w | Delayed => delayed w | Dlq => dlq w end.
Definition set_queue (k : which) (q : Q) (w : world) : world :=
  match k with
  | Main => World q (delayed w) (dlq w) | Delayed => World (main w) q (dlq w) | Dlq => World (main w) (delayed w) q
  end.
Abbreviation M := (meth world exn).

(** [Job.fromId]. *)
Definition from_id (id : string) (q : Q) : option (job_of value) := List.find (fun j => str_eqb (j_id j) id) (jobs q).
(** infrastructure/queue/queue-manager.ts:63-72 findJob *)
Definition findJob (id : string) (w : world) : option (job_of value * which) :=
  match from_id id (main w) with
  | Some j => Some (j, Main)
  | None => match from_id id (delayed w) with
            | Some j => Some (j, Delayed)
            | None => match from_id id (dlq w) with Some j => Some (j, Dlq) | None => None end
            end
  end.
(** [job.remove()]. *)
Definition remove (j : job_of value) (k : which) : M unit := fun w =>
  if locked (j_id j) (queue_at k w)
  then (w, Throw (PlainError ("Job " +:+ j_id j +:+ " could not be removed because it is locked by another worker")))
  else (set_queue k (q_remove (j_id j) (queue_at k w)) w, Ok tt).
Definition add (k : which) (name : string) (data : value) (id : option string) (delay : Z) : M string := fun w =>
  let '(q, i) := q_add name data id delay (queue_at k w) in (set_queue k q w, Ok i).
Definition job_not_found (id : string) : exn := Base.not_found ("Job not found with id: " +:+ id).
Definition message_of (e : exn) : string := js_String (js_get "message" (Errors.exn_js e)).
Definition is_validation (e : exn) : bool := match e with ValidationError _ => true | _ => false end.
(** The [catch] of the two enqueuing methods. *)
Definition rethrow {A} (what : string) (e : exn) : M A :=
  fail (if is_validation e then e else InfrastructureError (what +:+ message_of e) "UNKNOWN_ERROR").
(** [jobData.deliveryId], read for the span, of a value that may be nullish. *)
Definition span_of (data : value) : M unit :=
  match data with
  | VUndefined => fail (Foreign (JError 0 [("name", JString "TypeError");
                     ("message", JString "Cannot read properties of undefined (reading 'deliveryId')")]))
  | VNull => fail (Foreign (JError 0 [("name", JString "TypeError");
               ("message", JString "Cannot read properties of null (reading 'deliveryId')")]))
  | _ => mret tt
  end.
(** The common part of the enqueuing methods. *)
Definition enqueue (k : which) (data : value) (id : option string) (delay : Z) : M string :=
  lift_res (validateJobData data);; d ← lift_res (serialize data);
  add k (as_name (get "deliveryId" data)) d id delay.

(** infrastructure/queue/queue-manager.ts:77-95 enqueueJob
    With the job id and the delay of the options. *)
Definition enqueueJob (data : value) (id : option string) (delay : Z) : M string :=
  span_of data;; try_catch (enqueue Main data id delay) (rethrow "Failed to enqueue job: ").
(** infrastructure/queue/queue-manager.ts:100-122 enqueueDelayedJob *)
Definition enqueueDelayedJob (data : value) (delayMs : Z) (id : option string) : M string :=
  span_of data;; try_catch (enqueue Delayed data id delayMs) (rethrow "Failed to enqueue delayed job: ").
(** infrastructure/queue/queue-manager.ts:127-130 getJob *)
Definition getJob (id : string) (w : world) : option (job_of value) := fst <$> findJob id w.
(** The job of an id, or the error of the methods that need one. *)
Definition the_job (id : string) : M (job_of value * which) := fun w =>
  match findJob id w with Some m => (w, Ok m) | None => (w, Throw (job_not_found id)) end.
(** infrastructure/queue/queue-manager.ts:146-153 cancelJob *)
Definition cancelJob (id : string) : M unit :=
  '(j, k) ← the_job id; remove j k.
(** infrastructure/queue/queue-manager.ts:170-179 moveToDelayed *)
Definition moveToDelayed (id : string) (delayMs : Z) : M unit :=
  '(j, k) ← the_job id; data ← lift_res (deserialize (j_data j)); remove j k;;
  enqueueDelayedJob data delayMs None;; mret tt.

(** [{ ...v, k1: v1, .. }]: an own property keeps its place, a new one goes last. *)
Definition chars (s : string) : list (string * value) :=
  imap (fun i c => (pretty i, VString (String c EmptyString))) (String.list_ascii_of_string s).
Definition spread (v : value) : list (string * value) :=
  match v with
  | VObject fs => fs
  | VArray l => imap (fun i x => (pretty i, x)) l
  | VString s => chars s
  | _ => []
  end.
(** infrastructure/queue/queue-manager.ts:191-195 moveToDLQ
    The data of the dead letter. *)
Definition dead_letter (data : value) (reason : string) (now : Z) : value :=
  VObject (jmap_set "dlqAt" (VString (IsoDate.iso_string now)) (jmap_set "dlqReason" (VString reason) (spread data))).
(** infrastructure/queue/queue-manager.ts:184-197 moveToDLQ *)
Definition moveToDLQ (id reason : string) (now : Z) : M unit :=
  '(j, k) ← the_job id; data ← lift_res (deserialize (j_data j)); remove j k;;
  d ← lift_res (serialize data);
  add Dlq (as_name (get "deliveryId" data)) (dead_letter d reason now) None 0;; mret tt.

Definition or_zero (n : option Z) : Z := default 0 n.
(** infrastructure/queue/queue-manager.ts:202-212 getQueueDepth *)
Definition getQueueDepth `{Counting Q} (w : world) : QueueDepth :=
  let m := getJobCounts (main w) in
  let d := getJobCounts (delayed w) in
  let l := getJobCounts (dlq w) in
  Depth (or_zero (n_active m) + or_zero (n_waiting m)) (or_zero (n_delayed d)) (or_zero (n_failed l) + or_zero (n_waiting l)).

(** *** Finding and removing *)

Lemma from_id_spec id q j : from_id id q = Some j -> j ∈ jobs q /\ j_id j = id.
Proof. intros [Hin He]%List.find_some. split; [by apply list_elem_of_In|]. by apply str_eqb_eq. Qed.
Lemma from_id_removed id q : from_id id (q_remove id q) = None.
Proof.
  unfold from_id. rewrite remove_jobs. destruct (List.find _ _) eqn:E; [|done]. apply List.find_some in E as [Hin He].
  apply list_elem_of_In, list_elem_of_filter in Hin as [Hn _]. by apply str_eqb_eq in He.
Qed.
Lemma findJob_spec id w j k : findJob id w = Some (j, k) -> j ∈ jobs (queue_at k w) /\ j_id j = id.
Proof.
  unfold findJob. intros Hf. apply from_id_spec.
  destruct (from_id id (main w)) eqn:E1; [by simplify_eq|]. destruct (from_id id (delayed w)) eqn:E2; [by simplify_eq|].
  destruct (from_id id (dlq w)) eqn:E3; by simplify_eq.
Qed.

(** The queues without the job that was found. *)
Definition without (id : string) (k : which) (w : world) : world := set_queue k (q_remove id (queue_at k w)) w.

(** A method that begins by finding and removing a job. *)
Lemma take_job {A} id w j k data (m : value -> M A) :
  findJob id w = Some (j, k) -> locked id (queue_at k w) = false -> deserialize (j_data j) = Ok data ->
  ('(j, k) ← the_job id; data ← lift_res (deserialize (j_data j)); remove j k;; m data) w = m data (without id k w).
Proof.
  intros Hf Hl Hd. destruct (findJob_spec _ _ _ _ Hf) as [_ Hid].
  rewrite (bind_ok _ _ _ w (j, k)) by (unfold the_job; by rewrite Hf).
  rewrite (bind_ok _ _ _ w data) by (unfold lift_res; by rewrite Hd).
  rewrite (bind_ok _ _ _ (without id k w) tt); [done|]. unfold remove. by rewrite Hid, Hl.
Qed.

(** Cancelling removes the job found first; without one, and when it is locked,
    nothing changes. *)
Lemma cancel_outcome id w :
  cancelJob id w =
  match findJob id w with
  | None => (w, Throw (job_not_found id))
  | Some (j, k) =>
      if locked id (queue_at k w)
      then (w, Throw (PlainError ("Job " +:+ id +:+ " could not be removed because it is locked by another worker")))
      else (without id k w, Ok tt)
  end.
Proof.
  unfold cancelJob, the_job, mbind, meth_bind. destruct (findJob id w) as [[j k]|] eqn:Hf; [|done].
  destruct (findJob_spec _ _ _ _ Hf) as [_ Hid]. unfold remove. rewrite Hid. by destruct (locked id _).
Qed.

(** *** Moving *)

Lemma assoc_map {A B} (f : A -> B) k l : assoc k (map (fun '(k, x) => (k, f x)) l) = f <$> assoc k l.
Proof. induction l as [|[k' x] l IH]; simpl; [done|]. by destruct (str_eqb k k'). Qed.
Lemma get_parse k fs :
  get k (deepCloneAndParseDates (VObject fs)) = deepCloneAndParseDates (get k (VObject fs)).
Proof. simpl. rewrite assoc_map. by destruct (assoc k fs). Qed.

(** Job data with a delivery and a payload. *)
Definition delivery_data (s : string) (v : value) : Prop :=
  exists fs, v = VObject fs /\ get "deliveryId" v = VString s /\ str_eqb (trim s) "" = false /\
  IsoDate.parse_fields s = None /\ get "payload" v <> VUndefined.

Lemma delivery_parsed s v :
  delivery_data s v ->
  deserialize v = Ok (deepCloneAndParseDates v) /\ get "deliveryId" (deepCloneAndParseDates v) = VString s /\
  validateJobData (deepCloneAndParseDates v) = Ok tt /\ exists fs, deepCloneAndParseDates v = VObject fs.
Proof.
  intros (fs & -> & Hd & Ht & Hi & Hp).
  assert (get "deliveryId" (deepCloneAndParseDates (VObject fs)) = VString s) as Hd'.
  { rewrite get_parse, Hd. simpl. by rewrite Hi. }
  split_and!; [done|done| |by eexists]. unfold validateJobData. rewrite Hd', Ht. cbn [deepCloneAndParseDates truthy typeof_object negb orb].
  change (VObject _) with (deepCloneAndParseDates (VObject fs)). rewrite get_parse.
  destruct (get "payload" (VObject fs)) as [| | | |t| | |]; try done. simpl. by destruct (IsoDate.parse_fields t).
Qed.

Lemma queue_at_set k q w : queue_at k (set_queue k q w) = q.
Proof. by destruct k. Qed.

(** Adding a new job to a queue. *)
Lemma add_job k name data delay w :
  exists i q, add k name data None delay w = (set_queue k q w, Ok i) /\ jobs q = jobs (queue_at k w) ++ [Job i name data delay].
Proof.
  unfold add. destruct (q_add name data None delay (queue_at k w)) as [q i] eqn:E. exists i, q. split; [done|].
  pose proof (add_fresh name data delay (queue_at k w)) as Hf. by rewrite E in Hf.
Qed.

Lemma enqueue_delayed s v delay w :
  delivery_data s v -> canonical v = true ->
  exists i q, enqueueDelayedJob (deepCloneAndParseDates v) delay None w = (set_queue Delayed q w, Ok i) /\
              jobs q = jobs (delayed w) ++ [Job i (as_name (VString s)) v delay].
Proof.
  intros Hd Hc. destruct (delivery_parsed s v Hd) as (_ & Hs & Hv & fs & Hfs).
  destruct (add_job Delayed (as_name (VString s)) v delay w) as (i & q & Ha & Hq). exists i, q. split; [|done].
  unfold enqueueDelayedJob. rewrite Hfs at 1. rewrite (bind_ok _ _ _ w tt) by done. unfold try_catch, enqueue.
  rewrite (bind_ok _ _ _ w tt) by (unfold lift_res; by rewrite Hv).
  rewrite (bind_ok _ _ _ w v) by (unfold lift_res, serialize; by rewrite convert_canonical).
  by rewrite Hs, Ha.
Qed.

(** Moving a job that is not locked, and whose data holds a delivery and only
    canonical dates, takes exactly that job out of the queue it was found in and
    adds exactly one job, with the same data: to the delayed queue with the
    delay asked for, or to the dead-letter queue with the reason and the time
    appended; the other queues stay as they are. *)
Theorem moved_job_kept (id s reason : string) (delayMs now : Z) (w : world) j k :
  findJob id w = Some (j, k) -> locked id (queue_at k w) = false ->
  delivery_data s (j_data j) -> canonical (j_data j) = true ->
  (exists i q, moveToDelayed id delayMs w = (set_queue Delayed q (without id k w), Ok tt) /\
     jobs q = jobs (delayed (without id k w)) ++ [Job i (as_name (VString s)) (j_data j) delayMs]) /\
  (exists i q, moveToDLQ id reason now w = (set_queue Dlq q (without id k w), Ok tt) /\
     jobs q = jobs (dlq (without id k w)) ++ [Job i (as_name (VString s)) (dead_letter (j_data j) reason now) 0]).
Proof.
  intros Hf Hl Hd Hc. destruct (delivery_parsed s _ Hd) as (Hp & Hs & _). split.
  - destruct (enqueue_delayed s _ delayMs (without id k w) Hd Hc) as (i & q & He & Hq). exists i, q. split; [|done].
    unfold moveToDelayed. rewrite (take_job id w j k _ _ Hf Hl Hp). by rewrite (bind_ok _ _ _ _ _ He).
  - destruct (add_job Dlq (as_name (VString s)) (dead_letter (j_data j) reason now) 0 (without id k w)) as (i & q & Ha & Hq).
    exists i, q. split; [|done]. unfold moveToDLQ. rewrite (take_job id w j k _ _ Hf Hl Hp).
    rewrite (bind_ok _ _ _ (without id k w) (j_data j)) by (unfold lift_res, serialize; by rewrite convert_canonical).
    rewrite Hs. by rewrite (bind_ok _ _ _ _ _ Ha).
Qed.

(** C16: A job whose data holds, anywhere, a text of the form of a date that names
    no date is removed and then lost by either move: the second serialisation
    throws after the removal, and the job is in no queue.  The same holds for a
    move to the delayed queue of data without a payload or with a blank delivery
    id. *)
Theorem moved_job_lost (id reason : string) (delayMs now : Z) (w : world) j k data :
  findJob id w = Some (j, k) -> locked id (queue_at k w) = false -> deserialize (j_data j) = Ok data ->
  (misdated (j_data j) = true ->
     exists e, moveToDelayed id delayMs w = (without id k w, Throw e) /\
               moveToDLQ id reason now w = (without id k w, Throw invalid_time)) /\
  (forall e, validateJobData data = Throw e -> exists e', moveToDelayed id delayMs w = (without id k w, Throw e')) /\
  from_id id (queue_at k (without id k w)) = None.
Proof.
  intros Hf Hl Hp.
  assert (data = deepCloneAndParseDates (j_data j)) as Hdata by (unfold deserialize in Hp; by destruct (truthy (j_data j)); simplify_eq).
  assert (forall e, enqueue Delayed data None delayMs (without id k w) = (without id k w, Throw e) ->
            exists e', moveToDelayed id delayMs w = (without id k w, Throw e')) as Hfail.
  { intros e He. unfold moveToDelayed. rewrite (take_job id w j k _ _ Hf Hl Hp). unfold enqueueDelayedJob.
    destruct data; try (eexists; unfold span_of, try_catch, mbind, meth_bind, mret, meth_ret; rewrite ?He; done). }
  split_and!.
  - intros Hm. pose proof (convert_misdated _ Hm) as Hc. rewrite <- Hdata in Hc.
    assert (exists e, enqueue Delayed data None delayMs (without id k w) = (without id k w, Throw e)) as [e He].
    { unfold enqueue, lift_res, mbind, meth_bind. destruct (validateJobData data); [|by eexists]. unfold serialize. rewrite Hc. by eexists. }
    destruct (Hfail e He) as [e' He']. exists e'. split; [done|]. unfold moveToDLQ. rewrite (take_job id w j k _ _ Hf Hl Hp).
    unfold lift_res, serialize. unfold mbind at 1, meth_bind at 1. by rewrite Hc.
  - intros e He. apply (Hfail e). unfold enqueue, lift_res, mbind, meth_bind. by rewrite He.
  - unfold without. rewrite queue_at_set. apply from_id_removed.
Qed.

(** An id is looked for in the main queue first: a job of the delayed queue whose
    id the main queue has too cannot be named. *)
Lemma main_shadows id w j : from_id id (main w) = Some j -> findJob id w = Some (j, Main).
Proof. unfold findJob. by intros ->. Qed.

End manager.

(** *** On lists of jobs *)

Definition text_of (v : value) : string := match v with VString s => s | _ => "undefined" end.
Definition stored_job (v : value) : queue_of value := (q_add "d1" v (Some "7") 0 empty_queue).1.
Definition sample_world (v : value) : world := World (stored_job v) empty_queue empty_queue.

Lemma sample_found v : findJob "7" (sample_world v) = Some (Job "7" "d1" v 0, Main).
Proof. reflexivity. Qed.
Lemma sample_delivery : delivery_data "d1" sample_stored.
Proof. by eexists. Qed.

Lemma moved_job_kept_witness :
  (exists i q, moveToDelayed text_of "7" 500 (sample_world sample_stored) =
     (set_queue Delayed q (without "7" Main (sample_world sample_stored)), Ok tt) /\
     jobs q = [Job i "d1" sample_stored 500]).
Proof.
  exact (proj1 (moved_job_kept text_of "7" "d1" "r" 500 0 (sample_world sample_stored) _ Main
    (sample_found _) eq_refl sample_delivery ltac:(by vm_compute))).
Defined.

Definition misdated_data : value := VObject [("deliveryId", VString "d1"); ("payload", VString "2024-02-32T00:00:00.000Z")].
Lemma moved_job_lost_witness :
  exists e, moveToDelayed text_of "7" 500 (sample_world misdated_data) = (without "7" Main (sample_world misdated_data), Throw e) /\
    moveToDLQ text_of "7" "r" 0 (sample_world misdated_data) = (without "7" Main (sample_world misdated_data), Throw invalid_time).
Proof.
  exact (proj1 (moved_job_lost text_of "7" "r" 500 0 (sample_world misdated_data) _ Main _ (sample_found _) eq_refl eq_refl)
    ltac:(by vm_compute)).
Defined.

End QueueManager.

(** ** QueueClient *)

Module QueueClient.

Definition name_char (c : ascii) : bool :=
  let n := Ascii.nat_of_ascii c in
  ((97 <=? n) && (n <=? 122) || (65 <=? n) && (n <=? 90) || (48 <=? n) && (n <=? 57) || (n =? 45))%nat.
(** [nameRegex]. *)
Definition valid_name (s : string) : bool := str_truthy s && str_forall name_char s.
(** [name.replace(/:/g, '-')]. *)
Definition sanitize (s : string) : string := str_map (fun c => if Ascii.eqb c ":" then "-"%char else c) s.

(** The default options of jobs, as the configuration gives them. *)
Record job_options : Type := JobOptions { attempts : Z; removeOnComplete : jsval; removeOnFail : jsval; timeout : option Z }.
Record config : Type := Config { c_attempts : option Z; c_complete : jsval; c_fail : jsval; c_timeout : option Z }.
(** A queue object: [q_ref] is its identity. *)
Record queue : Type := Queue { q_ref : nat; q_name : string; q_options : job_options }.

(** infrastructure/queue/queue-client.ts:11-11 QueueClient
    With the identity of the next object. *)
Record client : Type := Client { queues : list (string * queue); next : nat }.
Definition new : client := Client [] 0.
Abbreviation M := (meth client exn).

Definition or_else (n : option Z) (d : Z) : Z := match n with Some n => if n =? 0 then d else n | None => d end.
(** infrastructure/queue/queue-client.ts:48-57 createQueue *)
Definition default_options (c : config) : job_options :=
  JobOptions (or_else (c_attempts c) 3) (js_nullish_or (c_complete c) (JBool true)) (js_nullish_or (c_fail c) (JBool false))
    (Some (or_else (c_timeout c) 10000)).
(** infrastructure/queue/queue-client.ts:34-62 createQueue
    Options of jobs that are given replace the default ones whole. *)
Definition createQueue (c : config) (name : string) (options : option job_options) : M queue := fun s =>
  let sanitized := sanitize name in
  if negb (valid_name sanitized)
  then (s, Throw (ValidationError ("Invalid queue name format: " +:+ quoted name +:+ ". Valid format is alphanumeric and hyphens.")))
  else match jmap_get sanitized (queues s) with
       | Some q => (s, Ok q)
       | None => let q := Queue (next s) sanitized (default (default_options c) options) in
                 (Client (jmap_set sanitized q (queues s)) (S (next s)), Ok q)
       end.
(** infrastructure/queue/queue-client.ts:22-29 getQueue *)
Definition getQueue (c : config) (name : string) : M queue := fun s =>
  match jmap_get (sanitize name) (queues s) with
  | Some q => (s, Ok q)
  | None => createQueue c (sanitize name) None s
  end.
(** infrastructure/queue/queue-client.ts:67-74 closeQueue *)
Definition closeQueue (name : string) (s : client) : client :=
  match jmap_get name (queues s) with
  | Some _ => Client (jmap_delete name (queues s)) (next s)
  | None => s
  end.
(** infrastructure/queue/queue-client.ts:79-84 closeAllQueues *)
Definition closeAllQueues (s : client) : client := Client [] (next s).

(** *** The registry *)

Inductive step (c : config) : client -> client -> Prop :=
| step_create name options s : step c s (createQueue c name options s).1
| step_get name s : step c s (getQueue c name s).1
| step_close name s : step c s (closeQueue name s)
| step_close_all s : step c s (closeAllQueues s).

(** Every queue is registered under its own name, a valid one, and made once. *)
Definition registered (s : client) : Prop :=
  NoDup (map fst (queues s)) /\ NoDup (map (fun x => q_ref x.2) (queues s)) /\
  Forall (fun x => q_name x.2 = x.1 /\ valid_name x.1 = true /\ (q_ref x.2 < next s)%nat) (queues s).

Lemma jmap_delete_sublist {A} (k : string) (m : list (string * A)) : jmap_delete k m `sublist_of` m.
Proof. induction m as [|[k' v] m IH]; simpl; [done|]. destruct (decide (k = k')); [by apply sublist_cons|by apply sublist_skip]. Qed.
Lemma jmap_set_new {A} (k : string) (v : A) m : jmap_get k m = None -> jmap_set k v m = m ++ [(k, v)].
Proof. induction m as [|[k' v'] m IH]; simpl; [done|]. destruct (decide (k = k')); [done|]. intros Hn. by rewrite IH. Qed.

Lemma create_registered c name options s : registered s -> registered (createQueue c name options s).1.
Proof.
  intros (Hk & Hr & Hf). unfold createQueue. destruct (valid_name (sanitize name)) eqn:Hv; [|done]. simpl.
  destruct (jmap_get (sanitize name) (queues s)) eqn:E; [done|]. unfold registered. simpl.
  split_and!; [by apply jmap_set_NoDup|..]; rewrite jmap_set_new by done.
  - rewrite map_app. apply NoDup_app. split; [done|]. split; [|apply NoDup_singleton]. intros n Hn ->%list_elem_of_singleton.
    apply list_elem_of_fmap in Hn as (x & Hx & Hin). rewrite Forall_forall in Hf. destruct (Hf x Hin) as (_ & _ & Hlt). simpl in Hx. lia.
  - apply Forall_app. split; [|by repeat constructor; simpl; auto with lia].
    eapply Forall_impl; [exact Hf|]. simpl. intros x (? & ? & ?). auto with lia.
Qed.

Lemma step_registered c s s' : step c s s' -> registered s -> registered s'.
Proof.
  intros [name options t|name t|name t|t] Hs.
  - by apply create_registered.
  - unfold getQueue. destruct (jmap_get _ _); [done|]. by apply create_registered.
  - unfold closeQueue. destruct (jmap_get name (queues t)); [|done]. destruct Hs as (Hk & Hr & Hf).
    pose proof (jmap_delete_sublist name (queues t)) as Hsub. unfold registered. simpl. split_and!.
    + by apply jmap_delete_NoDup.
    + apply (sublist_NoDup _ _ Hr). by apply (fmap_sublist (fun x : string * queue => q_ref x.2)).
    + rewrite Forall_forall in *. intros x Hx. apply Hf. by apply (sublist_subseteq _ _ Hsub).
  - unfold registered. simpl. split_and!; constructor.
Qed.

Lemma reachable_registered c s : rtc (step c) new s -> registered s.
Proof.
  assert (registered new) as Hn by (split_and!; constructor).
  intros Hr. revert Hn. induction Hr as [|x y z Hxy _ IH]; [done|]. intros Hx. apply IH. by eapply step_registered.
Qed.

Lemma sanitize_idem s : sanitize (sanitize s) = sanitize s.
Proof. unfold sanitize. induction s as [|c s IH]; simpl; [done|]. rewrite IH. destruct (Ascii.eqb c ":") eqn:E; [done|]. by rewrite E. Qed.
Lemma valid_no_colon s : valid_name s = true -> sanitize s = s.
Proof.
  unfold valid_name. intros [_ Hs]%andb_true_iff. unfold sanitize. induction s as [|c s IH]; simpl in *; [done|].
  apply andb_true_iff in Hs as [Hc Hs]. rewrite IH by done. destruct (Ascii.eqb c ":") eqn:E; [|done]. by apply Ascii.eqb_eq in E as ->.
Qed.
Lemma get_unfold c name s :
  getQueue c name s =
  match jmap_get (sanitize name) (queues s) with Some q => (s, Ok q) | None => createQueue c (sanitize name) None s end.
Proof. reflexivity. Qed.

(** C25: In every state the client reaches, the queues it keeps have valid and
    different names, each is registered under its own, and no two are the same
    object; asking again for a queue, under any spelling with colons or hyphens,
    gives the same object and changes nothing; and closing one under a name
    that holds a colon does nothing. *)
Theorem queue_registry (c : config) s :
  rtc (step c) new s ->
  registered s /\
  (forall name name' q s', getQueue c name s = (s', Ok q) -> sanitize name' = sanitize name -> getQueue c name' s' = (s', Ok q)) /\
  (forall name, sanitize name <> name -> closeQueue name s = s).
Proof.
  intros Hr%reachable_registered. split; [done|]. split.
  - intros name name' q s' Hg Hn. rewrite get_unfold, Hn. rewrite get_unfold in Hg.
    destruct (jmap_get (sanitize name) (queues s)) eqn:E; [simplify_eq; by rewrite E|].
    unfold createQueue in Hg. rewrite sanitize_idem in Hg. destruct (valid_name (sanitize name)); [|done]. simpl in Hg.
    rewrite E in Hg. simplify_eq. simpl. by rewrite jmap_get_set_eq.
  - intros name Hn. unfold closeQueue. destruct (jmap_get name (queues s)) as [q|] eqn:E; [|done]. destruct Hr as (_ & _ & Hf).
    apply jmap_get_In in E. rewrite Forall_forall in Hf. destruct (Hf _ E) as (_ & Hv & _). by destruct Hn; apply valid_no_colon.
Qed.

Definition sample_config : config := Config None (JNum (ofZ 100)) (JNum (ofZ 500)) (Some 30000).
Lemma queue_registry_witness :
  exists s, (getQueue sample_config "delivery-queue:dlq" new).1 = s /\ map fst (queues s) = ["delivery-queue-dlq"] /\
            closeQueue "delivery-queue:dlq" s = s.
Proof.
  eexists. split; [reflexivity|]. split; [by vm_compute|].
  apply (queue_registry sample_config _ (rtc_once _ _ (step_get _ "delivery-queue:dlq" new))). by vm_compute.
Defined.

End QueueClient.
