(* ===== verification/QueueSetup.v ===== *)
(** * Setting up and steering the queues

    [infrastructure/queue/]: the three queues of the factory and what the module
    that starts them shares with the manager ([QueueFactory]), the older bridge
    over the same client ([Bridge]), and the manager's operations that BullMQ
    carries out ([Control]). *)
From Stdlib Require Import Ascii QArith.
From stdpp Require Import base tactics numbers list strings gmap.
From S2P Require Import Prelude JsNum JsValue Text Errors QueueManager.

(** ** The factory and the module *)

Module QueueFactory.
Import QueueClient.

(** What the configuration says of queues: the names, the options of jobs, and
    the older fields the main queue reads. *)
Record config : Type := QConfig {
  mainQueueName : string; delayedQueueName : string; dlqQueueName : string;
  jobs : QueueClient.config; removeComplete : jsval; removeFail : jsval; defaultJobTimeout : option Z;
}.
Definition main_name (c : config) : string := str_or (mainQueueName c) "queueforge-main".
Definition delayed_name (c : config) : string := str_or (delayedQueueName c) "queueforge-delayed".
Definition dlq_name (c : config) : string := str_or (dlqQueueName c) "queueforge-dlq".

(** infrastructure/queue/queue-factory.ts:37-42 createMainQueue *)
Definition main_options (c : config) : job_options :=
  JobOptions (or_else (c_attempts (jobs c)) 3) (js_nullish_or (removeComplete c) (JBool true)) (js_nullish_or (removeFail c) (JBool false))
    (Some (or_else (defaultJobTimeout c) 30000)).
(** infrastructure/queue/queue-factory.ts:35-44 createMainQueue *)
Definition createMainQueue (c : config) : M queue := createQueue (jobs c) (main_name c) (Some (main_options c)).
(** infrastructure/queue/queue-factory.ts:49-57 createDelayedQueue *)
Definition createDelayedQueue (c : config) : M queue :=
  createQueue (jobs c) (delayed_name c) (Some (JobOptions 1 (JBool true) (JBool true) None)).
(** infrastructure/queue/queue-factory.ts:62-70 createDLQQueue *)
Definition createDLQQueue (c : config) : M queue :=
  createQueue (jobs c) (dlq_name c) (Some (JobOptions 1 (JBool false) (JBool false) None)).

(** The queues of a manager. *)
Record three : Type := Three { q_main : queue; q_delayed : queue; q_dlq : queue }.
(** infrastructure/queue/queue-manager.ts:47-58 constructor *)
Definition new_manager (c : config) : M three :=
  m ← getQueue (jobs c) (main_name c); d ← getQueue (jobs c) (delayed_name c); l ← getQueue (jobs c) (dlq_name c);
  mret (Three m d l).
(** infrastructure/queue/queue.module.ts:24-82 initializeQueueModule
    The queues and the manager's; the listeners only log. *)
Definition initializeQueueModule (c : config) : M (three * three) :=
  m ← createMainQueue c; d ← createDelayedQueue c; l ← createDLQQueue c;
  manager ← new_manager c;
  mret (Three m d l, manager).

(** infrastructure/queue/queue-factory.ts:10-26 createQueue
    The bridge of the tests: colons are kept, the object is not registered. *)
Definition name_char_colon (c : ascii) : bool := name_char c || Ascii.eqb c ":".
Definition bridge_createQueue (next : nat) (name : string) (settings : QueueClient.config) : res exn queue :=
  if str_truthy name && str_forall name_char_colon name then Ok (Queue next name (default_options settings))
  else Throw (ValidationError ("Invalid queue name format: " +:+ quoted name +:+ ". Valid format is alphanumeric, hyphens, and colons.")).

(** *** Theorems *)

Lemma create_new c name o s : valid_name (sanitize name) = true -> jmap_get (sanitize name) (queues s) = None ->
  createQueue c name o s =
    (Client (jmap_set (sanitize name) (Queue (next s) (sanitize name) (default (default_options c) o)) (queues s)) (S (next s)),
     Ok (Queue (next s) (sanitize name) (default (default_options c) o))).
Proof. intros Hv Hn. unfold createQueue. by rewrite Hv, Hn. Qed.
Lemma create_known c name o s q : valid_name (sanitize name) = true -> jmap_get (sanitize name) (queues s) = Some q ->
  createQueue c name o s = (s, Ok q).
Proof. intros Hv Hn. unfold createQueue. by rewrite Hv, Hn. Qed.
Lemma get_known c name s q : jmap_get (sanitize name) (queues s) = Some q -> getQueue c name s = (s, Ok q).
Proof. intros Hn. unfold getQueue. by rewrite Hn. Qed.

Section start.
Context (c : config).
Context (Hm : valid_name (sanitize (main_name c)) = true) (Hd : valid_name (sanitize (delayed_name c)) = true)
  (Hl : valid_name (sanitize (dlq_name c)) = true).

(** When the three names differ, the module starts three queues with the
    factory's options, and its manager works on these same objects. *)
Theorem module_queues :
  sanitize (main_name c) <> sanitize (delayed_name c) -> sanitize (main_name c) <> sanitize (dlq_name c) ->
  sanitize (delayed_name c) <> sanitize (dlq_name c) ->
  exists s t, initializeQueueModule c new = (s, Ok (t, t)) /\ registered s /\ length (queues s) = 3%nat /\
    q_options (q_main t) = main_options c /\
    q_options (q_delayed t) = JobOptions 1 (JBool true) (JBool true) None /\
    q_options (q_dlq t) = JobOptions 1 (JBool false) (JBool false) None.
Proof.
  intros H1 H2 H3.
  set (qm := Queue 0 (sanitize (main_name c)) (main_options c)).
  set (qd := Queue 1 (sanitize (delayed_name c)) (JobOptions 1 (JBool true) (JBool true) None)).
  set (ql := Queue 2 (sanitize (dlq_name c)) (JobOptions 1 (JBool false) (JBool false) None)).
  set (s := Client [(sanitize (main_name c), qm); (sanitize (delayed_name c), qd); (sanitize (dlq_name c), ql)] 3).
  assert (initializeQueueModule c new = (s, Ok (Three qm qd ql, Three qm qd ql))) as E.
  { unfold initializeQueueModule, createMainQueue, createDelayedQueue, createDLQQueue, new_manager, createQueue, getQueue, mbind, meth_bind, new.
    rewrite Hm, Hd, Hl. cbn [negb queues jmap_get jmap_set next].
    repeat (first [rewrite decide_True by done | rewrite decide_False by congruence]; cbn [queues jmap_get jmap_set next]). reflexivity. }
  exists s, (Three qm qd ql). split; [exact E|]. split; [|done]. unfold registered, s. simpl. split_and!.
  - repeat constructor; set_solver.
  - repeat constructor; set_solver.
  - repeat constructor; simpl; auto with lia.
Qed.

(** A queue that was asked for before, under any spelling of its name, keeps the
    options it was made with: those of the factory are dropped. *)
Theorem first_options_win name s q :
  sanitize name = sanitize (dlq_name c) -> jmap_get (sanitize name) (queues s) = None ->
  getQueue (jobs c) name s = ((getQueue (jobs c) name s).1, Ok q) ->
  q_options q = default_options (jobs c) /\
  createDLQQueue c (getQueue (jobs c) name s).1 = ((getQueue (jobs c) name s).1, Ok q).
Proof.
  intros Hn Hg. unfold getQueue. rewrite Hg. unfold createQueue. rewrite sanitize_idem, Hn, Hl. cbn [negb]. rewrite <- Hn, Hg. cbn [fst].
  intros [= <-]. split; [done|]. unfold createDLQQueue, createQueue. rewrite Hl. cbn [negb queues]. by rewrite <- Hn, jmap_get_set_eq.
Qed.
End start.

Definition sample : config := QConfig "" "" "queue:dlq" sample_config JUndefined JUndefined None.
Lemma module_queues_witness : exists s t, initializeQueueModule sample new = (s, Ok (t, t)) /\ length (queues s) = 3%nat.
Proof.
  destruct (module_queues sample eq_refl eq_refl eq_refl ltac:(discriminate) ltac:(discriminate) ltac:(discriminate)) as (s & t & H & _ & Hl & _).
  exists s, t. exact (conj H Hl).
Defined.
Lemma first_options_win_witness :
  exists q, createDLQQueue sample (getQueue (jobs sample) "queue-dlq" new).1 = ((getQueue (jobs sample) "queue-dlq" new).1, Ok q) /\ attempts (q_options q) = 3.
Proof.
  eexists. destruct (first_options_win sample eq_refl "queue-dlq" new _ eq_refl eq_refl eq_refl) as [H1 H2]. split; [exact H2|by rewrite H1].
Defined.
End QueueFactory.

(** ** The bridge *)

Module Bridge.
Import QueueClient.

(** The counts a queue reports. *)
Record all_counts : Type := AllCounts { a_active : option Z; a_waiting : option Z; a_delayed : option Z; a_failed : option Z; a_completed : option Z }.
Section bridge.
(** The names as given, and the options of jobs, when there are any. *)
Context (main delayed dlq : string) (settings : option QueueClient.config).
(** infrastructure/queue/bullmq-client.ts:12-26 constructor *)
Definition normConfig : QueueClient.config :=
  default (Config (Some 3) (JBool true) (JBool false) (Some 10000)) settings.
(** infrastructure/queue/bullmq-client.ts:31-39 initializeQueues *)
Definition initializeQueues : M unit :=
  createQueue normConfig (str_or main "queue:main") None;; createQueue normConfig (str_or delayed "queue:delayed") None;;
  createQueue normConfig (str_or dlq "queue:dlq") None;; mret tt.
(** infrastructure/queue/bullmq-client.ts:44-47 getMainQueue *)
Definition getMainQueue : M queue := getQueue normConfig (str_or main "queue:main").
(** infrastructure/queue/bullmq-client.ts:52-55 getDelayedQueue *)
Definition getDelayedQueue : M queue := getQueue normConfig (str_or delayed "queue:delayed").
(** infrastructure/queue/bullmq-client.ts:60-63 getDLQ *)
Definition getDLQ : M queue := getQueue normConfig (str_or dlq "queue:dlq").
(** infrastructure/queue/bullmq-client.ts:68-70 disconnect *)
Definition disconnect : client -> client := closeAllQueues.
(** infrastructure/queue/bullmq-client.ts:75-85 getQueueStats *)
Definition getQueueStats (counts : queue -> all_counts) (name : string) : M Z :=
  q ← getQueue normConfig name;
  let n := counts q in
  mret (default 0 (a_active n) + default 0 (a_waiting n) + default 0 (a_delayed n) + default 0 (a_failed n) + default 0 (a_completed n)).
End bridge.

(** Whatever was asked for before, the three queues stay the ones they were
    first, until the connection is closed. *)
Theorem queues_stable main settings s q s' :
  rtc (step (normConfig settings)) new s ->
  getMainQueue main settings s = (s', Ok q) ->
  getMainQueue main settings s' = (s', Ok q) /\ registered s' /\ queues (disconnect s') = [].
Proof.
  intros Hr Hg. split; [|split; [|done]].
  - unfold getMainQueue in *. rewrite get_unfold in Hg |- *. destruct (jmap_get _ (queues s)) eqn:E; [simplify_eq; by rewrite E|].
    unfold createQueue in Hg. rewrite sanitize_idem in Hg. destruct (valid_name _); [|done]. cbn [negb] in Hg. rewrite E in Hg. simplify_eq. simpl. by rewrite jmap_get_set_eq.
  - apply reachable_registered with (normConfig settings). eapply rtc_r; [exact Hr|].
    pose proof (step_get (normConfig settings) (str_or main "queue:main") s) as Hs. unfold getMainQueue in Hg. by rewrite Hg in Hs.
Qed.
Lemma queues_stable_witness :
  exists q s', getMainQueue "" None new = (s', Ok q) /\ getMainQueue "" None s' = (s', Ok q) /\ q_name q = "queue-main".
Proof.
  eexists _, _. destruct (queues_stable "" None new _ _ (rtc_refl _ _) eq_refl) as [H _]. split; [reflexivity|]. split; [exact H|reflexivity].
Defined.
End Bridge.

(** ** What BullMQ carries out *)

Module Control.
Import Recovery.Jobs JobSerializer QueueManager.

Section control.
Context {Q : Type} `{QueueOf value Q}.
(** BullMQ's own operations on a job and on a queue. *)
Context (job_retry : string -> meth Q exn unit) (job_progress : string -> Q -> num) (q_pause q_resume q_drain : meth Q exn unit).
Abbreviation M := (meth world exn).
Definition on_queue {A} (k : which) (m : meth Q exn A) : M A := fun w => let '(q, r) := m (queue_at k w) in (set_queue k q w, r).

(** infrastructure/queue/queue-manager.ts:135-141 getJobProgress *)
Definition getJobProgress (id : string) : M num :=
  '(j, k) ← the_job id; w ← get_this; mret (job_progress (j_id j) (queue_at k w)).
(** infrastructure/queue/queue-manager.ts:158-165 retryJob *)
Definition retryJob (id : string) : M unit := '(j, k) ← the_job id; on_queue k (job_retry (j_id j)).
(** infrastructure/queue/queue-manager.ts:217-223 getQueueStats *)
Definition getQueueStats `{Counting Q} (w : world) : counts * counts * counts :=
  (getJobCounts (main w), getJobCounts (delayed w), getJobCounts (dlq w)).
(** infrastructure/queue/queue-manager.ts:228-233 pauseQueue *)
Definition pauseQueue : M unit := on_queue Main q_pause;; on_queue Delayed q_pause;; on_queue Dlq q_pause.
(** infrastructure/queue/queue-manager.ts:238-243 resumeQueue *)
Definition resumeQueue : M unit := on_queue Main q_resume;; on_queue Delayed q_resume;; on_queue Dlq q_resume.
(** infrastructure/queue/queue-manager.ts:248-252 clearQueue
    Whichever of the client's queues has the name; here, one of the manager's. *)
Definition clearQueue (k : which) : M unit := on_queue k q_drain.

(** *** Theorems *)

(** A job is retried in the queue it is found in first, and no other queue is
    touched; one that is nowhere is an error and changes nothing. *)
Theorem retried_where_found id w :
  match findJob id w with
  | None => retryJob id w = (w, Throw (job_not_found id)) /\ getJobProgress id w = (w, Throw (job_not_found id))
  | Some (j, k) => (retryJob id w).2 = (job_retry id (queue_at k w)).2 /\
      queue_at k (retryJob id w).1 = (job_retry id (queue_at k w)).1 /\
      (forall k', k' <> k -> queue_at k' (retryJob id w).1 = queue_at k' w) /\
      getJobProgress id w = (w, Ok (job_progress id (queue_at k w)))
  end.
Proof.
  destruct (findJob id w) as [[j k]|] eqn:E; unfold retryJob, getJobProgress, the_job, mbind, meth_bind; rewrite E; [|done].
  destruct (findJob_spec _ _ _ _ E) as [_ ->]. unfold on_queue, get_this. destruct (job_retry id (queue_at k w)) as [q r]. cbn [fst snd].
  split; [done|]. split; [by destruct k|]. split; [|done]. intros k' Hk. by destruct k, k'.
Qed.

(** Pausing stops at the first queue that refuses: those before it are paused,
    those after it run on. *)
Theorem pause_in_order w m d l em ed el :
  q_pause (main w) = (m, em) -> q_pause (delayed w) = (d, ed) -> q_pause (dlq w) = (l, el) ->
  pauseQueue w = match em, ed with
                 | Throw e, _ => (World m (delayed w) (dlq w), Throw e)
                 | Ok _, Throw e => (World m d (dlq w), Throw e)
                 | Ok _, Ok _ => (World m d l, el)
                 end.
Proof.
  intros Hm Hd Hl. unfold pauseQueue, on_queue, mbind, meth_bind. cbn [queue_at]. rewrite Hm. destruct em as [[]|]; cbn [set_queue main delayed dlq]; [|done].
  rewrite Hd. destruct ed as [[]|]; cbn [set_queue main delayed dlq]; [|done]. rewrite Hl. done.
Qed.
End control.

Lemma pause_in_order_witness :
  let pause := fun b : bool => if b then (b, Throw (PlainError "closed")) else (true, Ok tt) in
  pauseQueue pause (World false true false) = (World true true false, Throw (PlainError "closed")).
Proof.
  exact (pause_in_order (fun b : bool => if b then (b, Throw (PlainError "closed")) else (true, Ok tt)) (World false true false) true true true
           (Ok tt) (Throw (PlainError "closed")) (Ok tt) eq_refl eq_refl eq_refl).
Defined.
End Control.
