(* ===== verification/Quotas.v ===== *)
(** * Quotas and the other rate limiters

    [security/rate-limiting/] and [security/rate-limit/]: the quota tracker with
    its alerts, the token bucket kept in the key-value server, read and written
    with separate commands between which other calls may run, the minute counter
    over a sorted set, and the small budgets kept under one key each. *)
From Stdlib Require Import Ascii QArith Qround Qpower Qabs Lqa.
From stdpp Require Import base tactics numbers list strings gmap pretty.
From S2P Require Import Prelude JsNum JsValue Errors Text IsoDate Redis.

(** ** Quotas *)

Module Quota.

Inductive period : Type := Hour | Day | Month.
Definition period_name (p : period) : string := match p with Hour => "hour" | Day => "day" | Month => "month" end.
Definition date_length (p : period) : nat := match p with Hour => 13 | Day => 10 | Month => 7 end.
(** security/rate-limiting/quota-tracker.ts:49-52 getQuotaKey *)
Definition getQuotaKey (now : Z) (apiKeyId : string) (p : period) : string :=
  "queueforge:quota:" +:+ (apiKeyId +:+ ":" +:+ (period_name p +:+ ":" +:+ String.substring 0 (date_length p) (IsoDate.iso_string now))).

(** The limits of a tier, by the hour and by the day. *)
Definition tier : Type := num * num.
Definition free : tier := (ofZ 100, ofZ 1000).
(** security/rate-limiting/quota-tracker.ts:20-24 QUOTA_TIERS *)
Definition QUOTA_TIERS (name : string) : option tier :=
  if str_eqb name "FREE" then Some free
  else if str_eqb name "PRO" then Some (ofZ 10000, ofZ 100000)
  else if str_eqb name "ENTERPRISE" then Some (Inf false, Inf false)
  else None.
Definition tier_of (name : string) : tier := default free (QUOTA_TIERS (to_upper name)).

(** The commands a wrapper may offer. *)
Record quota_ops (R : Type) : Type := Ops {
  q_incrby : option (string -> Z -> meth R exn unit);
  q_get : option (string -> meth R exn (option string));
  q_delete : option (string -> meth R exn unit);
}.
Arguments Ops {R}. Arguments q_incrby {R}. Arguments q_get {R}. Arguments q_delete {R}.

(** security/rate-limiting/quota-tracker.ts:29-47 QuotaTracker
    The usage in memory, and the server. *)
Record tracker (R : Type) : Type := Tracker { memoryUsage : list (string * Z); server : R }.
Arguments Tracker {R}. Arguments memoryUsage {R}. Arguments server {R}.

(** security/rate-limiting/quota-tracker.ts:11-18 QuotaUsage
    Without the reset time, which depends on the time zone. *)
Record QuotaUsage : Type := Usage { u_usage : Z; u_limit : num; u_remaining : num }.

Section quota.
Context {R : Type} (redisOps : quota_ops R) (definitionsMap : list (string * num)).
Abbreviation M := (meth (tracker R) exn).

(** A command whose failure is ignored. *)
Definition quiet (f : meth R exn unit) : M unit := fun s => (Tracker (memoryUsage s) (f (server s)).1, Ok tt).
Definition in_memory (key : string) (s : tracker R) : Z := default 0 (jmap_get key (memoryUsage s)).

(** security/rate-limiting/quota-tracker.ts:60-71 trackUsage
    One period. *)
Definition track_period (now : Z) (id : string) (count : Z) (p : period) : M unit :=
  let key := getQuotaKey now id p in
  modify (fun s => Tracker (jmap_set key (in_memory key s + count) (memoryUsage s)) (server s));;
  match q_incrby redisOps with Some f => quiet (f key count) | None => mret tt end.
(** security/rate-limiting/quota-tracker.ts:57-72 trackUsage *)
Definition trackUsage (now : Z) (id : string) (count : Z) : M unit :=
  if negb (str_truthy id) then mret tt
  else track_period now id count Hour;; track_period now id count Day;; track_period now id count Month.
(** security/rate-limiting/quota-tracker.ts:74-76 updateUsage *)
Definition updateUsage := trackUsage.
(** security/rate-limiting/quota-tracker.ts:112-125 getCurrentCount *)
Definition getCurrentCount (now : Z) (id : string) (p : period) : M Z := fun s =>
  let key := getQuotaKey now id p in
  match q_get redisOps with
  | Some f =>
      let '(r, o) := f key (server s) in
      (Tracker (memoryUsage s) r,
       Ok (match o with Ok (Some val) => default 0 (parse_int val) | _ => in_memory key s end))
  | None => (s, Ok (in_memory key s))
  end.
(** security/rate-limiting/quota-tracker.ts:87-95 checkQuota *)
Definition limit_for (tierOrOperation operation : string) : num :=
  match jmap_get tierOrOperation definitionsMap with
  | Some l => l
  | None => match jmap_get operation definitionsMap with
            | Some l => l
            | None => (tier_of tierOrOperation).1
            end
  end.
(** security/rate-limiting/quota-tracker.ts:81-110 checkQuota *)
Definition checkQuota (now : Z) (id tierOrOperation operation : string) : M (bool * num) :=
  let limit := limit_for tierOrOperation operation in
  match limit with
  | Inf false => mret (true, Inf false)
  | _ =>
      currentUsage ← getCurrentCount now id Hour;
      mret (num_ltb (ofZ currentUsage) limit, num_max (ofZ 0) (num_sub limit (ofZ currentUsage)))
  end.
(** security/rate-limiting/quota-tracker.ts:130-148 getUsage *)
Definition getUsage (now : Z) (id : string) (p : period) (tier : string) : M QuotaUsage :=
  let '(hourly, daily) := tier_of tier in
  let limit := match p with Hour => hourly | _ => daily end in
  usage ← getCurrentCount now id p;
  mret (Usage usage limit (num_max (ofZ 0) (num_sub limit (ofZ usage)))).
Definition reset_period (now : Z) (id : string) (p : period) : M unit :=
  let key := getQuotaKey now id p in
  modify (fun s => Tracker (jmap_delete key (memoryUsage s)) (server s));;
  match q_delete redisOps with Some f => quiet (f key) | None => mret tt end.
(** security/rate-limiting/quota-tracker.ts:153-165 resetQuota *)
Definition resetQuota (now : Z) (id : string) : M unit :=
  reset_period now id Hour;; reset_period now id Day;; reset_period now id Month.

(** security/rate-limiting/quota-manager.ts:16-19 updateUserQuotaTier *)
Definition updateUserQuotaTier (now : Z) (userId tier : string) : M unit := resetQuota now userId.

Inductive verdict : Type := Healthy | Warning | Breached.
(** security/rate-limiting/quota-alerts.ts:16-32 evaluateUserThresholds *)
Definition evaluateUserThresholds (now : Z) (apiKey action : string) : M verdict :=
  status ← checkQuota now apiKey "FREE" action;
  if negb status.1 then mret Breached
  else
    usageInfo ← getUsage now apiKey Hour "FREE";
    let usagePercent := num_mul (num_div (ofZ (u_usage usageInfo)) (num_or (u_limit usageInfo) (ofZ 1))) (ofZ 100) in
    mret (if num_gtb usagePercent (ofZ 80) then Warning else Healthy).
End quota.

(** security/rate-limiting/quota-tracker.ts:38-43 constructor
    The definitions with a name. *)
Definition definitions (l : list (string * num)) : list (string * num) :=
  fold_left (fun m d => if str_truthy d.1 then jmap_set d.1 d.2 m else m) l [].

(** What the program passes: the wrapper has [get] and [delete], no [incrby]. *)
Definition wrapper_ops {R} (c : RedisOperations.client R) : quota_ops R := {|
  q_incrby := None;
  q_get := Some (RedisOperations.get c);
  q_delete := Some (fun k => RedisOperations.delete c k;; mret tt);
|}.

(** *** What is counted *)

Section counting.
Context {R : Type}.
Implicit Types (s : tracker R).

(** A use: its instant, its key and its count. *)
Definition use : Type := Z * string * Z.
(** The uses of a key in the clock hour of an instant. *)
Fixpoint used (now : Z) (id : string) (l : list use) : Z :=
  match l with
  | [] => 0
  | (t, i, c) :: l => (if decide (i = id /\ t / 3600000 = now / 3600000) then c else 0) + used now id l
  end.
(** An identifier without colon and an instant of the years 0 to 9999. *)
Definition good_use (u : use) : bool := str_truthy u.1.2 && avoids ":" u.1.2 && IsoDate.in_years u.1.1.

Definition track_all (ops : quota_ops R) (l : list use) (s : tracker R) : tracker R :=
  fold_left (fun s '(t, i, c) => (trackUsage ops t i c s).1) l s.

Lemma quota_key_inj t i p t' i' p' :
  avoids ":" i = true -> avoids ":" i' = true -> getQuotaKey t i p = getQuotaKey t' i' p' ->
  i = i' /\ p = p' /\ String.substring 0 (date_length p) (IsoDate.iso_string t) = String.substring 0 (date_length p) (IsoDate.iso_string t').
Proof.
  intros Hi Hi' He. unfold getQuotaKey in He.
  apply (inj (String.append _)), (sep_inj ":") in He as [-> He]; [|done|done]. apply (sep_inj ":") in He as [Hp He]; [|by destruct p|by destruct p'].
  assert (p = p') as -> by (destruct p, p'; done). done.
Qed.
Lemma hour_key t i now id p :
  avoids ":" i = true -> avoids ":" id = true -> IsoDate.in_years t = true -> IsoDate.in_years now = true ->
  (getQuotaKey now id Hour = getQuotaKey t i p <-> p = Hour /\ i = id /\ t / 3600000 = now / 3600000).
Proof.
  intros Hi Hid Ht Hn. split.
  - intros (<- & <- & Hd)%quota_key_inj; [|done|done]. cbn [date_length] in Hd. rewrite !IsoDate.iso_hour in Hd by done.
    apply IsoDate.hour_text_inj in Hd; [|done|done]. done.
  - intros (-> & -> & He). unfold getQuotaKey. cbn [date_length]. rewrite !IsoDate.iso_hour by done.
    by rewrite (proj2 (IsoDate.hour_text_inj now t Hn Ht)).
Qed.

Lemma track_period_memory (ops : quota_ops R) now id c p s k :
  q_incrby ops = None ->
  exists s', track_period ops now id c p s = (s', Ok tt) /\ server s' = server s /\
    in_memory k s' = in_memory k s + (if decide (k = getQuotaKey now id p) then c else 0).
Proof.
  intros Hq. unfold track_period. rewrite Hq. set (key := getQuotaKey now id p). clearbody key.
  eexists. split; [reflexivity|]. split; [done|]. unfold in_memory. cbn [memoryUsage]. case_decide as Hk.
  - subst k. by rewrite jmap_get_set_eq.
  - rewrite jmap_get_set_ne by done. lia.
Qed.

Lemma track_memory (ops : quota_ops R) t i c s now id :
  q_incrby ops = None -> good_use (t, i, c) = true -> avoids ":" id = true -> IsoDate.in_years now = true ->
  server (trackUsage ops t i c s).1 = server s /\
  in_memory (getQuotaKey now id Hour) (trackUsage ops t i c s).1 =
    in_memory (getQuotaKey now id Hour) s + (if decide (i = id /\ t / 3600000 = now / 3600000) then c else 0).
Proof.
  intros Hq Hg Hid Hn. unfold good_use in Hg. cbn [fst snd] in Hg. apply andb_true_iff in Hg as [[Hi1 Hi2]%andb_true_iff Ht].
  unfold trackUsage. rewrite Hi1. cbn [negb].
  set (k := getQuotaKey now id Hour).
  destruct (track_period_memory ops t i c Hour s k Hq) as (s1 & E1 & V1 & M1). rewrite (bind_ok _ _ _ _ _ E1).
  destruct (track_period_memory ops t i c Day s1 k Hq) as (s2 & E2 & V2 & M2). rewrite (bind_ok _ _ _ _ _ E2).
  destruct (track_period_memory ops t i c Month s2 k Hq) as (s3 & -> & V3 & M3). cbn [fst]. split; [congruence|]. rewrite M3, M2, M1.
  assert (forall p, p <> Hour -> k <> getQuotaKey t i p) as Hne by (intros p Hp [Hp' _]%hour_key; done).
  rewrite (decide_False (P := k = getQuotaKey t i Month)), (decide_False (P := k = getQuotaKey t i Day)) by (by apply Hne).
  rewrite !Z.add_0_r. f_equal. unfold k. destruct (decide (_ /\ _)) as [Hd|Hd].
  - rewrite decide_True; [done|]. by apply hour_key.
  - rewrite decide_False; [done|]. rewrite hour_key by done. tauto.
Qed.

Lemma track_all_memory (ops : quota_ops R) l s now id :
  q_incrby ops = None -> forallb good_use l = true -> avoids ":" id = true -> IsoDate.in_years now = true ->
  server (track_all ops l s) = server s /\
  in_memory (getQuotaKey now id Hour) (track_all ops l s) = in_memory (getQuotaKey now id Hour) s + used now id l.
Proof.
  intros Hq Hl Hid Hn. revert s. induction l as [|[[t i] c] l IH]; intros s; [split; [done|cbn; lia]|].
  cbn [forallb] in Hl. cbn [track_all used fold_left]. fold (track_all ops l (trackUsage ops t i c s).1).
  apply andb_true_iff in Hl as [Hg Hl]. destruct (track_memory ops t i c s now id Hq Hg Hid Hn) as [V M].
  destruct (IH Hl (trackUsage ops t i c s).1) as [-> ->]. rewrite V, M. split; [done|lia].
Qed.
End counting.

Import KeySpace.

(** Over the wrapper the program passes, which cannot increment by a number,
    the uses are counted in the memory of one process.  There a key is allowed
    exactly while its uses of the running clock hour are below its tier's limit
    for an hour, and what remains is the difference; an unlimited tier is always
    allowed.  The limits for a day and a month decide nothing. *)
Theorem quota_hourly {R} `{KeySpace R} (others : RedisOperations.client R) (l : list use) (r : R) now id tier operation :
  (forall t p, entry t (getQuotaKey now id p) r = None) ->
  forallb good_use l = true -> avoids ":" id = true -> IsoDate.in_years now = true ->
  let ops := wrapper_ops (RedisOperations.server_client now others) in
  let n := used now id l in
  let s := track_all ops l (Tracker [] r) in
  checkQuota ops [] now id tier operation s =
  match (tier_of tier).1 with
  | Inf false => (s, Ok (true, Inf false))
  | lim => (s, Ok (num_ltb (ofZ n) lim, num_max (ofZ 0) (num_sub lim (ofZ n))))
  end.
Proof.
  intros Hr Hl Hid Hn ops n s. destruct (track_all_memory ops l (Tracker [] r) now id eq_refl Hl Hid Hn) as [V M].
  fold s in V, M. simpl in V. unfold in_memory at 2 in M. simpl in M. fold n in M.
  assert (getCurrentCount ops now id Hour s = (s, Ok n)) as Hc.
  { unfold getCurrentCount. cbn [ops wrapper_ops q_get]. unfold RedisOperations.get.
    rewrite (RedisOperations.execute_ok _ _ (server s) None).
    - rewrite M. by destruct s.
    - unfold RedisOperations.server_client. simpl. unfold RedisOperations.get_at, gets. by rewrite V, Hr. }
  unfold checkQuota. change (limit_for [] tier operation) with ((tier_of tier).1).
  by destruct ((tier_of tier).1) as [|[]|q]; rewrite ?(bind_ok _ _ _ _ _ Hc).
Qed.

Lemma quota_hourly_witness :
  let ops := wrapper_ops (RedisOperations.server_client 1709210096789 (RedisOperations.unconnected (R := gmap string entry_t))) in
  let s := track_all ops [(1709210096000, "k1", 99); (1709210096500, "k2", 7); (1709206000000, "k1", 5)] (Tracker [] ∅) in
  checkQuota ops [] 1709210096789 "k1" "free" "ingest" s = (s, Ok (true, ofZ 1)).
Proof.
  cbv zeta.
  rewrite (quota_hourly (RedisOperations.unconnected (R := gmap string entry_t))
    [(1709210096000, "k1", 99); (1709210096500, "k2", 7); (1709206000000, "k1", 5)] ∅ 1709210096789 "k1" "free" "ingest").
  - by vm_compute.
  - intros t p. simpl. by rewrite lookup_empty.
  - by vm_compute.
  - done.
  - by vm_compute.
Defined.
End Quota.

(** ** The token bucket kept on the server *)

Module LegacyLimiter.
Import KeySpace.

(** security/rate-limit/rate-limiter.ts:7-10 TokenBucketState *)
Record bucket : Type := Bucket { tokens : num; lastRefillAt : Z }.
Definition resp_error (m : string) : exn := Foreign (JError 0 [("name", JString "ReplyError"); ("message", JString m)]).

(** The text of a bucket: [JSON.stringify] and [JSON.parse], numbers being exact. *)
Class Codec := {
  encode : bucket -> string;
  decode : string -> bucket;
  decode_encode q t : decode (encode (Bucket (Fin q) t)) = Bucket (Fin q) t;
  encode_truthy b : str_truthy (encode b) = true;
}.

Section limiter.
Context {R : Type} `{KeySpace R} `{!Codec}.
Abbreviation M := (meth R exn).

Definition cacheKey (key : string) : string := "rate_limiter:" +:+ key.
(** [redis.setex]. *)
Definition setex (now : Z) (key : string) (seconds : Z) (value : string) : M unit :=
  if seconds <=? 0 then fail (resp_error "ERR invalid expire time in 'setex' command")
  else modify (k_set now key value (Some (seconds * 1000))).

(** security/rate-limit/rate-limiter.ts:51-79 getRefilledBucket *)
Definition getRefilledBucket (now : Z) (key : string) (limit windowSeconds : Z) : M (bucket * num) :=
  cached ← gets (fun r => fst <$> entry now (cacheKey key) r);
  let refillRate := num_div (ofZ limit) (ofZ windowSeconds) in
  match cached with
  | Some c =>
      if str_truthy c then
        let state := decode c in
        let elapsedSeconds := num_div (ofZ (now - lastRefillAt state)) (ofZ 1000) in
        let refilledTokens := num_mul elapsedSeconds refillRate in
        mret (Bucket (num_min (ofZ limit) (num_add (tokens state) refilledTokens)) now, refillRate)
      else mret (Bucket (ofZ limit) now, refillRate)
  | None => mret (Bucket (ofZ limit) now, refillRate)
  end.
(** security/rate-limit/rate-limiter.ts:85-90 isAllowed
    Up to the second wait: what is to be written back, if the call may pass. *)
Definition ask (now : Z) (key : string) (limit windowSeconds : Z) : M (option bucket) :=
  '(state, _) ← getRefilledBucket now key limit windowSeconds;
  mret (if num_geb (tokens state) (ofZ 1)
        then Some (Bucket (num_sub (tokens state) (ofZ 1)) (lastRefillAt state)) else None).
(** security/rate-limit/rate-limiter.ts:91-91 isAllowed *)
Definition take (now : Z) (key : string) (windowSeconds : Z) (state : bucket) : M unit :=
  setex now (cacheKey key) windowSeconds (encode state).
(** security/rate-limit/rate-limiter.ts:85-109 isAllowed
    Its two commands reach the server at [now] and at [now2], nothing in between. *)
Definition isAllowed (now now2 : Z) (key : string) (limit windowSeconds : Z) : M bool :=
  o ← ask now key limit windowSeconds;
  match o with
  | Some state => take now2 key windowSeconds state;; mret true
  | None => mret false
  end.
(** security/rate-limit/rate-limiter.ts:145-152 getRemainingRequests *)
Definition getRemainingRequests (now : Z) (key : string) (limit windowSeconds : Z) : M num :=
  '(state, _) ← getRefilledBucket now key limit windowSeconds;
  mret (num_max (ofZ 0) (num_floor (tokens state))).
(** security/rate-limit/rate-limiter.ts:157-161 reset *)
Definition reset (key : string) : M unit := modify (k_del (cacheKey key)).

Record stats : Type := Stats { s_requests : num; s_limit : Z; s_resetAt : num; s_remainingMs : num }.
(** security/rate-limit/rate-limiter.ts:167-182 getStats
    [now2] is the instant of the second [Date.now()]. *)
Definition getStats (now now2 : Z) (key : string) (limit windowSeconds : Z) : M stats :=
  '(state, refillRate) ← getRefilledBucket now key limit windowSeconds;
  let remainingMs := if num_gtb refillRate (ofZ 0)
                     then num_mul (num_div (num_sub (ofZ limit) (tokens state)) refillRate) (ofZ 1000) else ofZ 0 in
  mret (Stats (num_max (ofZ 0) (num_round (num_sub (ofZ limit) (tokens state)))) limit (num_add (ofZ now2) remainingMs)
          (num_round remainingMs)).
(** security/rate-limit/rate-limiter.ts:114-132 checkLimit
    All at one instant. *)
Definition checkLimit (now : Z) (key : string) (maxRequests windowSeconds : Z) : M (bool * num * num) :=
  allowed ← isAllowed now now key maxRequests windowSeconds;
  remaining ← getRemainingRequests now key maxRequests windowSeconds;
  stats ← getStats now now key maxRequests windowSeconds;
  mret (allowed, remaining, s_resetAt stats).

(** *** How many requests pass *)

Section rate.
Context (L W : Z) (key : string) (HW : 0 < W) (HL : 0 <= L).

Definition rate : Q := (inject_Z L / inject_Z W)%Q.
(** What a time of [d] milliseconds refills. *)
Definition refill (d : Z) : Q := (inject_Z d / 1000 * rate)%Q.
(** The tokens of the key at an instant. *)
Definition level (t : Z) (r : R) : Q :=
  match entry t (cacheKey key) r with
  | Some (v, _) => match decode v with
                   | Bucket (Fin q) last => Qmin' (inject_Z L) (q + refill (t - last))
                   | _ => inject_Z L
                   end
  | None => inject_Z L
  end.
(** A bucket of the key as the limiter leaves it. *)
Definition good (t : Z) (r : R) : Prop :=
  match entry t (cacheKey key) r with
  | Some (v, x) => exists q last y, v = encode (Bucket (Fin q) last) /\ x = Some y /\ last + W * 1000 <= y /\ (0 <= q)%Q /\ last <= t
  | None => True
  end.

Lemma Q_pos z : 0 < z -> (0 < inject_Z z)%Q.
Proof. intros Hz. change 0%Q with (inject_Z 0). by rewrite <- Zlt_Qlt. Qed.
Lemma Q_nonneg z : 0 <= z -> (0 <= inject_Z z)%Q.
Proof. intros Hz. change 0%Q with (inject_Z 0). by rewrite <- Zle_Qle. Qed.
Lemma rate_nonneg : (0 <= rate)%Q.
Proof. unfold rate. apply Qle_shift_div_l; [by apply Q_pos|]. rewrite Qmult_0_l. by apply Q_nonneg. Qed.
Lemma refill_add a b : (refill (a + b) == refill a + refill b)%Q.
Proof. unfold refill. rewrite inject_Z_plus. field. Qed.
Lemma refill_nonneg d : 0 <= d -> (0 <= refill d)%Q.
Proof.
  intros Hd. unfold refill. apply Qmul_nonneg; [|apply rate_nonneg]. apply Qle_shift_div_l; [done|].
  rewrite Qmult_0_l. by apply Q_nonneg.
Qed.
Lemma refill_window : (refill (W * 1000) == inject_Z L)%Q.
Proof. unfold refill, rate. rewrite inject_Z_mult. field. intros Hz. pose proof (Q_pos W HW). lra. Qed.
Lemma refill_mono a b : a <= b -> (refill a <= refill b)%Q.
Proof.
  intros Hab. replace b with (a + (b - a)) by lia. rewrite refill_add. pose proof (refill_nonneg (b - a) ltac:(lia)). lra.
Qed.

Lemma level_le t r : (level t r <= inject_Z L)%Q.
Proof.
  unfold level. destruct (entry t (cacheKey key) r) as [[v x]|]; [|lra]. destruct (decode v) as [[| |q] last]; try lra.
  apply Qmin'_l.
Qed.
Lemma level_nonneg t r : good t r -> (0 <= level t r)%Q.
Proof.
  assert (0 <= inject_Z L)%Q as HLq by (by apply Q_nonneg).
  unfold good, level. destruct (entry t (cacheKey key) r) as [[v x]|]; [|done]. intros (q & last & y & -> & -> & Hy & Hq & Hl).
  rewrite decode_encode. apply Qmin'_glb; [done|]. pose proof (refill_nonneg (t - last) ltac:(lia)). lra.
Qed.
Lemma good_later t t' r : t <= t' -> good t r -> good t' r.
Proof.
  intros Ht. unfold good. rewrite (entry_later t t' _ r Ht). destruct (entry t (cacheKey key) r) as [[v x]|]; [|done].
  intros (q & last & y & -> & -> & Hy & Hq & Hl). simpl. destruct (_ <? _); [|done]. exists q, last, y. split_and!; try done. lia.
Qed.
Lemma level_later t t' r : t <= t' -> good t r -> (level t' r <= level t r + refill (t' - t))%Q.
Proof.
  intros Ht. pose proof (refill_nonneg (t' - t) ltac:(lia)) as Hr. unfold good, level. rewrite (entry_later t t' _ r Ht).
  destruct (entry t (cacheKey key) r) as [[v x]|]; simpl; [|intros _; lra]. intros (q & last & y & -> & -> & Hy & Hq & Hl).
  rewrite decode_encode. destruct (Z.ltb_spec t' y) as [Hlt|Hge].
  - rewrite decode_encode. replace (t' - last) with ((t - last) + (t' - t)) by lia.
    pose proof (refill_add (t - last) (t' - t)) as Ha. unfold Qmin'. destruct (Qle_bool _ _) eqn:E1, (Qle_bool _ (q + refill (t - last))) eqn:E2;
      qbool; lra.
  - pose proof (refill_mono (W * 1000) ((t - last) + (t' - t)) ltac:(lia)) as Hm. rewrite refill_window, refill_add in Hm.
    unfold Qmin'. destruct (Qle_bool _ _) eqn:E; qbool; lra.
Qed.

Lemma rate_num : num_div (ofZ L) (ofZ W) = Fin rate.
Proof.
  unfold num_div, ofZ. destruct (Qeq_bool (inject_Z W) 0) eqn:E; [|done]. apply Qeq_bool_iff in E.
  assert (0 < inject_Z W)%Q as Hw by (by apply Q_pos). exfalso. lra.
Qed.
Lemma bucket_read t r : good t r -> getRefilledBucket t key L W r = (r, Ok (Bucket (Fin (level t r)) t, Fin rate)).
Proof.
  unfold good, level, getRefilledBucket, gets, mbind, meth_bind, mret, meth_ret. rewrite rate_num.
  destruct (entry t (cacheKey key) r) as [[v x]|]; [|done]. intros (q & last & y & -> & -> & Hy & Hq & Hl).
  change (fst <$> Some (encode (Bucket (Fin q) last), Some y)) with (Some (encode (Bucket (Fin q) last))).
  cbv beta iota zeta. rewrite encode_truthy, decode_encode. cbn [lastRefillAt tokens].
  change (num_mul (num_div (ofZ (t - last)) (ofZ 1000)) (Fin rate)) with (Fin (refill (t - last))).
  cbn [num_add]. unfold ofZ at 1. by rewrite num_min_Fin.
Qed.

Lemma cacheKey_inj k k' : cacheKey k = cacheKey k' -> k = k'.
Proof. unfold cacheKey. apply (inj (String.append _)). Qed.

(** *** Calls that overlap *)

(** A call of [isAllowed] waits twice: for the bucket, and for the bucket it
    writes back.  [Fetch] is its first command, with the [Date.now()] before it;
    [Store] the second. *)
Inductive step : Type := Fetch (t : Z) (i : nat) (k : string) | Store (t : Z) (i : nat).
Definition at_ (ev : step) : Z := match ev with Fetch t _ _ | Store t _ => t end.
(** The server, and the calls that have yet to write. *)
Record sys : Type := Sys { server : R; waiting : gmap nat (string * bucket) }.
(** One command; the key of the call that has passed, if one has. *)
Definition exec (ev : step) (s : sys) : sys * option string :=
  match ev with
  | Fetch t i k =>
      match waiting s !! i, ask t k L W (server s) with
      | None, (r, Ok (Some b)) => (Sys r (<[i := (k, b)]> (waiting s)), None)
      | None, (r, _) => (Sys r (waiting s), None)
      | Some _, _ => (s, None)
      end
  | Store t i =>
      match waiting s !! i with
      | Some (k, b) =>
          match take t k W b (server s) with
          | (r, Ok _) => (Sys r (delete i (waiting s)), Some k)
          | (r, Throw _) => (Sys r (delete i (waiting s)), None)
          end
      | None => (s, None)
      end
  end.
(** How many of the key's calls pass. *)
Fixpoint passes (l : list step) (s : sys) : Z :=
  match l with
  | [] => 0
  | ev :: l => let '(s', o) := exec ev s in (if decide (o = Some key) then 1 else 0) + passes l s'
  end.
Fixpoint in_order (t0 : Z) (l : list step) (T : Z) : Prop :=
  match l with [] => t0 <= T | ev :: l => t0 <= at_ ev /\ in_order (at_ ev) l T end.
Lemma in_order_le t0 l T : in_order t0 l T -> t0 <= T.
Proof. revert t0. induction l as [|ev l IH]; intros t0; simpl; [done|]. intros [Ht Hl%IH]. lia. Qed.
(** No call of the key has yet to write. *)
Definition clear (s : sys) : Prop := forall i b, waiting s !! i <> Some (key, b).
(** The calls of the key do not overlap; those of other keys may. *)
Fixpoint apart (l : list step) (s : sys) : Prop :=
  match l with
  | [] => True
  | ev :: l => (match ev with Fetch _ _ k => k = key -> clear s | Store _ _ => True end) /\ apart l (exec ev s).1
  end.

(** What the key may still spend: its tokens, or, while a call has yet to
    write, the request that call stands for and what it will leave. *)
Inductive owes (t : Z) (s : sys) : Q -> Prop :=
| Settled : clear s -> good t (server s) -> owes t s (level t (server s))
| Owing i q last :
    waiting s !! i = Some (key, Bucket (Fin q) last) -> (forall j b, waiting s !! j = Some (key, b) -> j = i) ->
    (0 <= q)%Q -> last <= t -> owes t s (1 + Qmin' (inject_Z L) (q + refill (t - last)))%Q.

Lemma owes_nonneg t s x : owes t s x -> (0 <= x)%Q.
Proof.
  intros [_ Hg|i q last _ _ Hq Hl]; [by apply level_nonneg|].
  assert (0 <= Qmin' (inject_Z L) (q + refill (t - last)))%Q; [|lra].
  apply Qmin'_glb; [by apply Q_nonneg|]. pose proof (refill_nonneg (t - last) ltac:(lia)). lra.
Qed.
Lemma owes_later t t' s x : t <= t' -> owes t s x -> exists y, owes t' s y /\ (y <= x + refill (t' - t))%Q.
Proof.
  intros Ht [Hc Hg|i q last Hi Ho Hq Hl].
  - eexists. split; [apply Settled; [done|by eapply good_later]|]. by apply level_later.
  - eexists. split; [eapply Owing; eauto; lia|]. pose proof (refill_add (t - last) (t' - t)) as Ha.
    replace (t - last + (t' - t)) with (t' - last) in Ha by lia. pose proof (refill_nonneg (t' - t) ltac:(lia)).
    unfold Qmin'. destruct (Qle_bool _ _) eqn:E1, (Qle_bool _ (q + refill (t - last))) eqn:E2; qbool; lra.
Qed.

(** The first command of a call of the key. *)
Lemma ask_own t r :
  good t r ->
  ask t key L W r = (r, Ok (if Qle_bool 1 (level t r) then Some (Bucket (Fin (level t r - 1)) t) else None)).
Proof.
  intros Hg. unfold ask. rewrite (bind_ok _ _ _ _ _ (bucket_read t r Hg)). cbn [tokens lastRefillAt].
  unfold num_geb, ofZ. rewrite num_leb_Fin. change (inject_Z 1) with 1%Q. by destruct (Qle_bool 1 (level t r)).
Qed.
Lemma ask_server t k r : (ask t k L W r).1 = r.
Proof.
  unfold ask, getRefilledBucket, gets, mbind, meth_bind. destruct (fst <$> _) as [c|]; [|done].
  by destruct (str_truthy c).
Qed.
Lemma take_ok t k b r :
  take t k W b r = (k_set t (cacheKey k) (encode b) (Some (W * 1000)) r, Ok tt).
Proof. unfold take, setex. by rewrite (proj2 (Z.leb_gt W 0)) by lia. Qed.

(** The bound in whole numbers. *)
Lemma rate_integers n t0 T x :
  (inject_Z n <= x + refill (T - t0))%Q -> (x <= inject_Z L)%Q -> n * (1000 * W) <= L * (1000 * W + (T - t0)).
Proof.
  intros Hp Hle.
  assert (refill (T - t0) == inject_Z L * inject_Z (T - t0) / inject_Z (1000 * W))%Q as Hr.
  { unfold refill, rate. rewrite inject_Z_mult. change (inject_Z 1000) with 1000%Q. field. pose proof (Q_pos W HW). lra. }
  assert (0 < inject_Z (1000 * W))%Q as Hw by (apply Q_pos; lia).
  rewrite Zle_Qle, !inject_Z_mult, inject_Z_plus, <- inject_Z_mult.
  assert (inject_Z n <= inject_Z L + inject_Z L * inject_Z (T - t0) / inject_Z (1000 * W))%Q as Hb by lra.
  apply (Qmult_le_compat_r _ _ (inject_Z (1000 * W))) in Hb; [|lra]. rewrite Qmult_plus_distr_l in Hb.
  assert (inject_Z L * inject_Z (T - t0) / inject_Z (1000 * W) * inject_Z (1000 * W) == inject_Z L * inject_Z (T - t0))%Q as Hd
    by (field; lra). rewrite Hd in Hb. rewrite Qmult_plus_distr_r. exact Hb.
Qed.

(** What a written bucket is worth. *)
Lemma level_written t q last r :
  last <= t -> level t (k_set t (cacheKey key) (encode (Bucket (Fin q) last)) (Some (W * 1000)) r) =
    Qmin' (inject_Z L) (q + refill (t - last)).
Proof.
  intros Hl. unfold level. rewrite entry_set_eq by lia. simpl. rewrite (proj2 (Z.ltb_lt t (t + W * 1000))) by lia.
  by rewrite decode_encode.
Qed.
Lemma good_written t q last r :
  last <= t -> (0 <= q)%Q -> good t (k_set t (cacheKey key) (encode (Bucket (Fin q) last)) (Some (W * 1000)) r).
Proof.
  intros Hl Hq. unfold good. rewrite entry_set_eq by lia. simpl. rewrite (proj2 (Z.ltb_lt t (t + W * 1000))) by lia.
  exists q, last, (t + W * 1000). split_and!; try done. lia.
Qed.

(** One command: what passes is spent. *)
Lemma exec_read t i k s x :
  owes t s x -> (k = key -> clear s) ->
  (exec (Fetch t i k) s).2 = None /\ exists y, owes t (exec (Fetch t i k) s).1 y /\ (y <= x)%Q.
Proof.
  intros Hx Hk. simpl. destruct (waiting s !! i) as [p|] eqn:Ei; [by split; [|exists x; split; [|lra]]|].
  pose proof (ask_server t k (server s)) as Hs. destruct (decide (k = key)) as [->|Hne].
  - specialize (Hk eq_refl). destruct Hx as [Hc Hg|j q last Hj]; [|by destruct (Hk j _ Hj)].
    rewrite (ask_own t _ Hg). destruct (Qle_bool 1 (level t (server s))) eqn:E; (split; [done|]).
    + qbool. eexists. split.
      * apply (Owing _ _ i (level t (server s) - 1) t); simpl; [by rewrite lookup_insert_eq| |lra|lia].
        intros j b Hj. destruct (decide (i = j)) as [->|Hij]; [done|]. rewrite lookup_insert_ne in Hj by done. by destruct (Hc j b Hj).
      * rewrite Z.sub_diag. assert (refill 0 == 0)%Q as H0' by (unfold refill; change (inject_Z 0) with 0%Q; field).
        pose proof (Qmin'_r (inject_Z L) (level t (server s) - 1 + refill 0)). lra.
    + exists (level t (server s)). split; [by apply (Settled t (Sys (server s) (waiting s)))|lra].
  - destruct (ask t k L W (server s)) as [r o]. simpl in Hs. subst r.
    assert (exists y, owes t (Sys (server s) (waiting s)) y /\ (y <= x)%Q) as Hsame.
    { exists x. split; [by destruct s|lra]. }
    destruct o as [[b|]|e]; (split; [done|]); try exact Hsame. exists x. split; [|lra].
    destruct Hx as [Hc Hg|j q last Hj Ho Hq Hl].
    + apply (Settled _ (Sys (server s) (<[i:=(k, b)]> (waiting s)))); [|done]. intros j b' Hj. simpl in Hj.
      destruct (decide (i = j)) as [->|Hij]; [rewrite lookup_insert_eq in Hj; congruence|].
      rewrite lookup_insert_ne in Hj by done. by destruct (Hc j b' Hj).
    + apply (Owing _ _ j q last); simpl; try done; [rewrite lookup_insert_ne by congruence; done|].
      intros j' b' Hj'. destruct (decide (i = j')) as [->|Hij]; [rewrite lookup_insert_eq in Hj'; congruence|].
      rewrite lookup_insert_ne in Hj' by done. by eapply Ho.
Qed.
Lemma exec_write t i s x :
  owes t s x ->
  exists y, owes t (exec (Store t i) s).1 y /\ (y + (if decide ((exec (Store t i) s).2 = Some key) then 1 else 0) <= x)%Q.
Proof.
  intros Hx. simpl. destruct (waiting s !! i) as [[k b]|] eqn:Ei; [|exists x; split; [done|rewrite decide_False by done; lra]].
  rewrite take_ok. destruct (decide (k = key)) as [->|Hne].
  - destruct Hx as [Hc Hg|j q last Hj Ho Hq Hl]; [by destruct (Hc i b Ei)|].
    assert (i = j) as -> by (by eapply Ho). rewrite Hj in Ei. injection Ei as <-. simpl. rewrite decide_True by done.
    eexists. split.
    + apply (Settled _ (Sys _ (delete j (waiting s)))); simpl; [|by apply good_written].
      intros i b Hi. simpl in Hi. apply lookup_delete_Some in Hi as [Hne Hi]. apply Hne. symmetry. by eapply Ho.
    + simpl. rewrite level_written by done. lra.
  - simpl. rewrite decide_False by congruence. exists x. split; [|lra].
    assert (forall t', entry t' (cacheKey key) (k_set t (cacheKey k) (encode b) (Some (W * 1000)) (server s)) = entry t' (cacheKey key) (server s)) as He.
    { intros t'. apply entry_set_ne. intros E. by apply Hne, cacheKey_inj. }
    destruct Hx as [Hc Hg|j q last Hj Ho Hq Hl].
    + assert (level t (server s) = level t (k_set t (cacheKey k) (encode b) (Some (W * 1000)) (server s))) as ->
        by (unfold level; by rewrite He).
      apply (Settled _ (Sys _ (delete i (waiting s)))); simpl; [|unfold good; by rewrite He].
      intros j b' Hj. simpl in Hj. apply lookup_delete_Some in Hj as [_ Hj]. by destruct (Hc j b' Hj).
    + apply (Owing _ _ j q last); simpl; try done; [rewrite lookup_delete_ne by congruence; done|].
      intros j' b' Hj'. apply lookup_delete_Some in Hj' as [_ Hj']. by eapply Ho.
Qed.

Lemma passes_bound l t0 T s x :
  owes t0 s x -> in_order t0 l T -> apart l s -> (inject_Z (passes l s) <= x + refill (T - t0))%Q.
Proof.
  revert t0 s x. induction l as [|ev l IH]; intros t0 s x Hx Ho Ha; simpl in *.
  { pose proof (owes_nonneg _ _ _ Hx). pose proof (refill_nonneg (T - t0) ltac:(lia)). change (inject_Z 0) with 0%Q. lra. }
  destruct Ho as [Ht Ho], Ha as [Hk Ha]. pose proof (in_order_le _ _ _ Ho) as HT.
  destruct (owes_later t0 (at_ ev) s x Ht Hx) as (x1 & Hx1 & Hle1).
  pose proof (refill_add (at_ ev - t0) (T - at_ ev)) as Hadd. replace (at_ ev - t0 + (T - at_ ev)) with (T - t0) in Hadd by lia.
  assert (exists y, owes (at_ ev) (exec ev s).1 y /\ (y + (if decide ((exec ev s).2 = Some key) then 1 else 0) <= x1)%Q) as (y & Hy & Hle2).
  { destruct ev as [t i k|t i]; [|by apply exec_write]. destruct (exec_read t i k s x1 Hx1 Hk) as (-> & y & Hy & Hle2).
    exists y. split; [done|]. rewrite decide_False by done. lra. }
  specialize (IH _ _ _ Hy Ho Ha). destruct (exec ev s) as [s' o]. simpl in *. rewrite inject_Z_plus.
  destruct (decide (o = Some key)); [change (inject_Z 1) with 1%Q|change (inject_Z 0) with 0%Q]; lra.
Qed.

(** Calls that have all read before one writes. *)
Definition race (t : Z) (n : nat) : list step := map (fun i => Fetch t i key) (seq 0 n) ++ map (Store t) (seq 0 n).

Definition pend (b : bucket) (l : list nat) (m : gmap nat (string * bucket)) : gmap nat (string * bucket) :=
  fold_left (fun m i => <[i := (key, b)]> m) l m.
Lemma pend_other b l m i : i ∉ l -> pend b l m !! i = m !! i.
Proof.
  revert m. induction l as [|j l IH]; intros m; [done|]. intros [Hne Hi]%not_elem_of_cons. simpl. unfold pend in *. simpl.
  rewrite IH by done. by rewrite lookup_insert_ne.
Qed.
Lemma pend_own b l m i : i ∈ l -> pend b l m !! i = Some (key, b).
Proof.
  revert m. induction l as [|j l IH]; intros m; [by intros ?%elem_of_nil|]. intros Hi. simpl.
  destruct (decide (i ∈ l)) as [Hl|Hl]; [by apply IH|]. apply elem_of_cons in Hi as [->|Hi]; [|done].
  change (pend b l (<[j := (key, b)]> m) !! j = Some (key, b)). rewrite pend_other by done. by rewrite lookup_insert_eq.
Qed.
Lemma race_reads t b l l2 r m :
  ask t key L W r = (r, Ok (Some b)) -> NoDup l -> (forall i, i ∈ l -> m !! i = None) ->
  passes (map (fun i => Fetch t i key) l ++ l2) (Sys r m) = passes l2 (Sys r (pend b l m)).
Proof.
  intros Hb. revert m. induction l as [|i l IH]; intros m Hn Hm; [done|]. apply NoDup_cons in Hn as [Hi Hn]. simpl.
  rewrite (Hm i) by (by left). rewrite Hb. rewrite decide_False by done. rewrite IH; [done|done|].
  intros j Hj. rewrite lookup_insert_ne by (intros ->; done). apply Hm. by right.
Qed.
Lemma race_writes t b l r m :
  NoDup l -> (forall i, i ∈ l -> m !! i = Some (key, b)) -> passes (map (Store t) l) (Sys r m) = Z.of_nat (length l).
Proof.
  revert r m. induction l as [|i l IH]; intros r m Hn Hm; [done|]. apply NoDup_cons in Hn as [Hi Hn]. simpl.
  rewrite (Hm i) by (by left). rewrite take_ok. rewrite decide_True by done. rewrite IH; [lia|done|].
  intros j Hj. rewrite lookup_delete_ne by (intros ->; done). apply Hm. by right.
Qed.

(** C23: A call reads the bucket and writes it back as two commands.  From a state
    without a bucket of the key: when the calls of that key do not overlap,
    whatever the calls of other keys do in between, at most
    limit + limit * elapsed / window of them pass; when they do overlap nothing is
    bounded: of a full bucket any number of calls that have read before one of
    them writes all pass, whatever the limit. *)
Theorem bucket_rate_bound t0 T r :
  entry t0 (cacheKey key) r = None ->
  (forall l, in_order t0 l T -> apart l (Sys r ∅) ->
     passes l (Sys r ∅) * (1000 * W) <= L * (1000 * W + (T - t0))) /\
  (1 <= L -> forall n, passes (race t0 n) (Sys r ∅) = Z.of_nat n).
Proof.
  intros He. assert (good t0 r) as Hg by (unfold good; by rewrite He). split.
  - intros l Ho Ha. assert (owes t0 (Sys r ∅) (level t0 r)) as Hx.
    { apply (Settled t0 (Sys r ∅)); [|done]. intros i b Hi. simpl in Hi. by rewrite lookup_empty in Hi. }
    pose proof (passes_bound l t0 T _ _ Hx Ho Ha) as Hp. pose proof (level_le t0 r) as Hle. by eapply rate_integers.
  - intros HL1 n. assert (ask t0 key L W r = (r, Ok (Some (Bucket (Fin (level t0 r - 1)) t0)))) as Hask.
    { rewrite ask_own by done. assert (Qle_bool 1 (level t0 r) = true) as ->; [|done]. unfold level. rewrite He.
      apply Qle_bool_iff. change 1%Q with (inject_Z 1). by rewrite <- Zle_Qle. }
    unfold race. rewrite (race_reads _ _ _ _ _ _ Hask); [|apply NoDup_seq|intros; apply lookup_empty].
    rewrite (race_writes _ (Bucket (Fin (level t0 r - 1)) t0)); [by rewrite length_seq|apply NoDup_seq|].
    intros i Hi. by apply pend_own.
Qed.
End rate.
End limiter.

(** A codec: the number of the fields. *)
Definition code_fields (b : bucket) : Z * positive * Z :=
  match b with Bucket (Fin q) t => (Qnum q, Qden q, t) | Bucket _ t => (0, 1%positive, t) end.
Definition of_fields (x : Z * positive * Z) : bucket := let '(n, d, t) := x in Bucket (Fin (Qmake n d)) t.
Lemma pretty_nonempty p : str_truthy (pretty (Z.pos p)) = true.
Proof.
  pose proof (parse_int_pretty (Z.pos p) ltac:(lia)) as Hp. destruct (pretty (Z.pos p)); [done|reflexivity].
Qed.
Definition read_fields (s : string) : bucket :=
  match parse_int s with
  | Some (Z.pos p) => default (Bucket NaN 0) (of_fields <$> countable.decode p)
  | _ => Bucket NaN 0
  end.
#[global] Program Instance counted_codec : Codec := {
  encode b := pretty (Z.pos (countable.encode (code_fields b)));
  decode := read_fields;
}.
Next Obligation.
  intros [n d] t. unfold code_fields, read_fields. rewrite parse_int_pretty by lia. rewrite countable.decode_encode. done.
Qed.
Next Obligation. intros b. apply pretty_nonempty. Qed.

Lemma bucket_rate_bound_witness :
  let l := [Fetch 0 0 "k"; Fetch 50 1 "x"; Store 60 0; Store 100 1; Fetch 200 2 "k"; Store 210 2; Fetch 1200 3 "k"; Store 1210 3] in
  passes 2 1 "k" l (Sys (∅ : gmap string entry_t) ∅) * 1000 <= 2 * (1000 + 1210) /\
  passes 2 1 "k" (race "k" 0 5) (Sys (∅ : gmap string entry_t) ∅) = 5.
Proof.
  cbv zeta. destruct (bucket_rate_bound 2 1 "k" ltac:(lia) ltac:(lia) 0 1210 (∅ : gmap string entry_t)) as [Hb Hr]; [reflexivity|].
  split; [|apply (Hr ltac:(lia) 5%nat)].
  apply (Hb [Fetch 0 0 "k"; Fetch 50 1 "x"; Store 60 0; Store 100 1; Fetch 200 2 "k"; Store 210 2; Fetch 1200 3 "k"; Store 1210 3]).
  - simpl. lia.
  - cbn [apart]. split_and!; try done; intros Hk i b.
Defined.

(** *** Thresholds *)

Record thresholds : Type := Thresholds { requestsPerMinute : num; requestsPerHour : Z; requestsPerDay : Z }.
(** security/rate-limit/thresholds.ts:26-55 getThresholds
    With the configured number of requests per minute. *)
Definition getThresholds (perMinute : num) (tier : string) : thresholds :=
  let env := num_or perMinute (ofZ 60) in
  if str_eqb tier "enterprise" then Thresholds (ofZ 1000000) 10000000 100000000
  else if str_eqb tier "premium" then Thresholds (num_max (ofZ 300) env) 10000 100000
  else Thresholds (num_min (ofZ 60) env) 1000 10000.

(** security/rate-limit/thresholds.ts:3-9 RateLimitConfig *)
Record config : Type := Config {
  defaultLimit : Z; defaultWindowSeconds : Z;
  perEndpointLimits : option (list (string * Z)); perApiKeyLimits : option (list (string * Z)); perUserLimits : option (list (string * Z));
}.
(** An override: of a non-empty name, in a table. *)
Definition override (name : option string) (table : option (list (string * Z))) : option Z :=
  match name, table with
  | Some n, Some l => if str_truthy n then assoc n l else None
  | _, _ => None
  end.
(** security/rate-limit/thresholds.ts:61-96 getRateLimitThreshold *)
Definition getRateLimitThreshold (c : config) (endpoint apiKey userId : option string) : Z * Z :=
  match override endpoint (perEndpointLimits c) with
  | Some l => (l, defaultWindowSeconds c)
  | None =>
      match override userId (perUserLimits c) with
      | Some l => (l, defaultWindowSeconds c)
      | None =>
          match override apiKey (perApiKeyLimits c) with
          | Some l => (l, defaultWindowSeconds c)
          | None => (defaultLimit c, defaultWindowSeconds c)
          end
      end
  end.

(** *** Keys *)

Definition methods : list string := ["GET"; "POST"; "PUT"; "DELETE"; "PATCH"; "OPTIONS"].
(** [endpoint.trim().replace(/\//g, '_').toLowerCase()] *)
Definition clean (endpoint : option string) : string :=
  match endpoint with
  | Some e => if str_truthy e then to_lower (str_map (fun c => if Ascii.eqb c "/" then "_"%char else c) (trim e)) else "global"
  | None => "global"
  end.
Definition text_or_undefined (s : option string) : string := default "undefined" s.
Definition given (s : option string) : option string := match s with Some s => if str_truthy s then Some s else None | None => None end.
(** security/rate-limit/key-builder.ts:9-46 buildRateLimitKey
    With SHA-256 in hexadecimal. *)
Definition buildRateLimitKey (hashSHA256 : string -> string) (apiKeyOrKey endpoint methodOrUserId : option string) : string :=
  match given methodOrUserId with
  | Some m =>
      if existsb (str_eqb (to_upper m)) methods
      then "rate_limit:" +:+ text_or_undefined apiKeyOrKey +:+ ":" +:+ clean endpoint +:+ ":" +:+ to_lower m
      else
        let identifier := if (32 <? String.length m)%nat then String.substring 0 16 (hashSHA256 m) else m in
        "rate_limit:user:" +:+ identifier +:+ ":" +:+ clean endpoint
  | None =>
      match given apiKeyOrKey with
      | Some k =>
          let identifier := if (32 <? String.length k)%nat then String.substring 0 16 (hashSHA256 k) else k in
          "rate_limit:apikey:" +:+ identifier +:+ ":" +:+ clean endpoint
      | None => "rate_limit:global:system:" +:+ clean endpoint
      end
  end.

Example rate_limit_keys :
  buildRateLimitKey id (Some "k1") (Some " /v1/Results ") (Some "get") = "rate_limit:k1:_v1_results:get" /\
  buildRateLimitKey id (Some "k1") None (Some "u1") = "rate_limit:user:u1:global" /\
  buildRateLimitKey id (Some "k1") (Some "") None = "rate_limit:apikey:k1:global".
Proof. vm_compute. repeat split. Qed.

End LegacyLimiter.

(** ** Requests by the minute *)

Module Advanced.
Import KeySpace.

(** The commands of a client, each of which it may lack. *)
Record commands (R : Type) : Type := Commands {
  x_get : string -> meth R exn (option string);
  x_setex : option (string -> Z -> string -> meth R exn unit);
  x_zadd : option (string -> Z -> string -> meth R exn unit);
  x_zremrangebyscore : option (string -> Z -> Z -> meth R exn unit);
  x_zcard : option (string -> meth R exn Z);
  x_pexpire : option (string -> Z -> meth R exn unit);
}.
Arguments Commands {R}. Arguments x_get {R}. Arguments x_setex {R}. Arguments x_zadd {R}.
Arguments x_zremrangebyscore {R}. Arguments x_zcard {R}. Arguments x_pexpire {R}.

Definition no_function (name : string) : exn :=
  Foreign (JError 0 [("name", JString "TypeError"); ("message", JString ("this.redis." +:+ name +:+ " is not a function"))]).
(** Calling a method that may be missing. *)
Definition call {R F A} (name : string) (f : option F) (k : F -> meth R exn A) : meth R exn A :=
  match f with Some f => k f | None => fail (no_function name) end.
(** [Math.ceil(ms / 1000)] *)
Definition seconds (ms : Z) : Z := - (- ms / 1000).
(** [raw ? parseInt(raw, 10) : dflt], when the text is a number. *)
Definition read_count (raw : option string) (dflt : Z) : Z :=
  match raw with Some s => if str_truthy s then default 0 (parse_int s) else dflt | None => dflt end.

(** security/rate-limiting/advanced-rate-limiter.ts:4-9 RateLimitResult *)
Record result : Type := Result { allowed : bool; limit : Z; remaining : Z; resetSeconds : Z }.

Section limiter.
Context {R : Type} (redis : commands R).
Abbreviation M := (meth R exn).

(** security/rate-limiting/sliding-window.ts:16-34 increment *)
Definition increment (now windowMs : Z) (key : string) : M Z :=
  let minTimestamp := now - windowMs in
  match x_zadd redis with
  | None =>
      current ← x_get redis key;
      let val := read_count current 0 in
      call "setex" (x_setex redis) (fun f => f key (seconds windowMs) (pretty (val + 1)));;
      mret (val + 1)
  | Some zadd =>
      zadd key now (pretty now);;
      call "zremrangebyscore" (x_zremrangebyscore redis) (fun f => f key 0 minTimestamp);;
      count ← call "zcard" (x_zcard redis) (fun f => f key);
      call "pexpire" (x_pexpire redis) (fun f => f key windowMs);;
      mret count
  end.
(** security/rate-limiting/advanced-rate-limiter.ts:26-40 checkRateLimit *)
Definition checkRateLimit (now : Z) (identifier endpoint : string) : M result :=
  let key := "ratelimit:" +:+ identifier +:+ ":" +:+ endpoint in
  currentUsage ← increment now 60000 key;
  let limit := 1000 in
  if currentUsage >? limit then mret (Result false limit 0 60)
  else mret (Result true limit (Z.max 0 (limit - currentUsage)) 60).
End limiter.

(** security/rate-limiting/rate-limit-headers.ts:10-17 buildHeaders *)
Definition buildHeaders (now : Z) (r : result) : list (string * string) :=
  [("X-RateLimit-Limit", pretty (limit r)); ("X-RateLimit-Remaining", pretty (remaining r));
   ("X-RateLimit-Reset", pretty (seconds now + resetSeconds r));
   ("Retry-After", if allowed r then "0" else pretty (resetSeconds r))].

(** A response, or the request passed on. *)
Inductive answer : Type := TooMany (headers : list (string * string)) | Next (headers : list (string * string)).
(** api/middleware/advanced-rate-limit.middleware.ts:9-29 advancedRateLimitMiddleware *)
Definition advancedRateLimitMiddleware {R} (redis : commands R) (now : Z) (actorId endpoint : string) : meth R exn answer :=
  check ← checkRateLimit redis now actorId endpoint;
  let headers := buildHeaders now check in
  mret (if allowed check then Next headers else TooMany headers).

(** What the program's wrapper offers: sorted sets can be added to and counted,
    not trimmed; there is no [setex]. *)
Definition wrapper_commands {R} (get : string -> meth R exn (option string)) (zadd : string -> Z -> string -> meth R exn unit)
    (zcard : string -> meth R exn Z) : commands R :=
  Commands get None (Some zadd) None (Some zcard) None.

(** Over it every check adds a member and then throws. *)
Lemma wrapper_throws {R} get zadd zcard now (identifier endpoint : string) (r r' : R) :
  zadd ("ratelimit:" +:+ identifier +:+ ":" +:+ endpoint) now (pretty now) r = (r', Ok tt) ->
  checkRateLimit (wrapper_commands get zadd zcard) now identifier endpoint r = (r', Throw (no_function "zremrangebyscore")).
Proof.
  intros Hz. unfold checkRateLimit, increment. cbn [wrapper_commands x_zadd]. unfold mbind, meth_bind. by rewrite Hz.
Qed.

(** *** Over sorted sets *)

(** Sorted sets of members whose text is their score; an expiry only ever comes
    after the members it would drop are out of the window. *)
Abbreviation zsets := (gmap string (gset Z)).
Definition members (k : string) (z : zsets) : gset Z := default ∅ (z !! k).
Definition zset_commands : commands zsets := {|
  x_get := fun _ => mret None;
  x_setex := None;
  x_zadd := Some (fun k score _ => modify (fun z => <[k := {[score]} ∪ members k z]> z));
  x_zremrangebyscore := Some (fun k lo hi => modify (fun z => <[k := filter (fun s => ~ (lo <= s <= hi)) (members k z)]> z));
  x_zcard := Some (fun k => gets (fun z => Z.of_nat (size (members k z))));
  x_pexpire := Some (fun _ _ => mret tt);
|}.

(** The checks of one actor and endpoint, at some instants. *)
Definition checks (id ep : string) (l : list Z) (z : zsets) : zsets :=
  fold_left (fun z t => (checkRateLimit zset_commands t id ep z).1) l z.
Definition in_window (now : Z) (l : list Z) : gset Z := list_to_set (filter (fun t => now - 60000 < t) l).

Lemma members_insert k s z : members k (<[k := s]> z) = s.
Proof. unfold members. by rewrite lookup_insert_eq. Qed.
Lemma increment_zset now k z :
  0 <= now -> set_Forall (fun s => 0 <= s) (members k z) ->
  exists z', increment zset_commands now 60000 k z = (z', Ok (Z.of_nat (size (members k z')))) /\
             members k z' = filter (fun s => now - 60000 < s) ({[now]} ∪ members k z).
Proof.
  intros Hn Hz. eexists. split; [reflexivity|]. rewrite !members_insert. apply set_eq. intros x. rewrite !elem_of_filter.
  split; intros [H1 H2]; (split; [|done]); [|lia].
  assert (0 <= x) by (apply elem_of_union in H2 as [->%elem_of_singleton|H2]; [done|by apply Hz]). lia.
Qed.

Lemma in_window_cons t now l :
  in_window now (t :: l) = (if decide (now - 60000 < t) then {[t]} else ∅) ∪ in_window now l.
Proof. unfold in_window. rewrite filter_cons. destruct (decide _); simpl; set_solver. Qed.

Fixpoint ordered (t0 : Z) (l : list Z) : Prop := match l with [] => True | t :: l => t0 <= t /\ ordered t l end.

(** The set after some checks: what it held, and their instants, in the window
    of the last one. *)
Lemma checks_members id ep l t0 z :
  0 <= t0 -> ordered t0 l -> set_Forall (fun s => 0 <= s) (members ("ratelimit:" +:+ id +:+ ":" +:+ ep) z) ->
  forall now, Forall (fun t => t <= now) l ->
  filter (fun s => now - 60000 < s) (members ("ratelimit:" +:+ id +:+ ":" +:+ ep) (checks id ep l z)) =
  filter (fun s => now - 60000 < s) (members ("ratelimit:" +:+ id +:+ ":" +:+ ep) z) ∪ in_window now l /\
  set_Forall (fun s => 0 <= s) (members ("ratelimit:" +:+ id +:+ ":" +:+ ep) (checks id ep l z)).
Proof.
  set (k := "ratelimit:" +:+ id +:+ ":" +:+ ep). revert t0 z.
  induction l as [|t l IH]; intros t0 z H0 Ho Hz now Hl; [simpl; split; [unfold in_window; set_solver|done]|].
  destruct Ho as [Ht Ho]. apply Forall_cons in Hl as [Htn Hl]. destruct (increment_zset t k z ltac:(lia) Hz) as (z' & Hi & Hm).
  assert ((checkRateLimit zset_commands t id ep z).1 = z') as Hc.
  { unfold checkRateLimit. fold k. rewrite (bind_ok _ _ _ _ _ Hi). by destruct (_ >? _). }
  assert (set_Forall (fun s => 0 <= s) (members k z')) as Hz'.
  { rewrite Hm. intros x [_ [->%elem_of_singleton|Hx]%elem_of_union]%elem_of_filter; [lia|by apply Hz]. }
  cbn [checks fold_left]. rewrite Hc. fold (checks id ep l z'). destruct (IH t z' ltac:(lia) Ho Hz' now Hl) as [-> Hf]. split; [|done].
  rewrite in_window_cons, Hm. apply set_eq. intros x. rewrite !elem_of_union, !elem_of_filter, !elem_of_union, elem_of_singleton.
  assert (now - 60000 < x -> t - 60000 < x) as Hx by lia.
  destruct (decide (now - 60000 < t)) as [Hd|Hd]; rewrite ?elem_of_singleton, ?elem_of_empty.
  - split; [intros [(? & ? & [->|?])|?]; tauto|intros [[? ?]|[->|?]]; tauto].
  - split; [intros [(? & ? & [->|?])|?]; tauto|intros [[? ?]|[[]|?]]; tauto].
Qed.

(** Over sorted sets, where every check adds its own instant as a member, a
    request is allowed exactly when the different instants of the checks of the
    last minute, its own included, are at most a thousand: any number of
    requests of one millisecond counts as one, and refused requests count as
    allowed ones do. *)
Theorem advanced_window id ep l now :
  ordered 0 l -> Forall (fun t => t <= now) l -> 0 <= now ->
  let n := Z.of_nat (size (in_window now (now :: l))) in
  (checkRateLimit zset_commands now id ep (checks id ep l ∅)).2 =
    Ok (if n >? 1000 then Result false 1000 0 60 else Result true 1000 (1000 - n) 60).
Proof.
  intros Ho Hl Hn n. set (k := "ratelimit:" +:+ id +:+ ":" +:+ ep).
  assert (set_Forall (fun s => 0 <= s) (members k ∅)) as He by (unfold members; rewrite lookup_empty; apply set_Forall_empty).
  destruct (checks_members id ep l 0 ∅ ltac:(lia) Ho He now Hl) as [Hm Hf]. fold k in Hm, Hf.
  destruct (increment_zset now k (checks id ep l ∅) Hn Hf) as (z' & Hi & Hm'). unfold checkRateLimit. fold k.
  rewrite (bind_ok _ _ _ _ _ Hi).
  assert (members k z' = in_window now (now :: l)) as ->.
  { rewrite Hm', in_window_cons, decide_True by lia. apply set_eq. intros x.
    assert (x ∈ filter (fun s => now - 60000 < s) (members k (checks id ep l ∅)) <-> x ∈ in_window now l) as Hx.
    { rewrite Hm. unfold members. rewrite lookup_empty. simpl. set_solver. }
    rewrite elem_of_filter, !elem_of_union, elem_of_singleton, <- Hx, elem_of_filter. naive_solver lia. }
  fold n. destruct (Z.gtb_spec n 1000); [done|]. simpl. do 2 f_equal. lia.
Qed.

Lemma advanced_window_witness :
  let l := [5; 5; 5; 70000] in
  (checkRateLimit zset_commands 70000 "u" "/v1" (checks "u" "/v1" l ∅)).2 = Ok (Result true 1000 999 60).
Proof.
  cbv zeta. rewrite (advanced_window "u" "/v1" [5; 5; 5; 70000] 70000); [by vm_compute|simpl; lia| |lia].
  repeat constructor; lia.
Defined.

End Advanced.

(** ** Budgets and marks under one key *)

Module Budgets.
Import KeySpace Advanced.

Section budgets.
Context {R : Type} `{KeySpace R}.
Abbreviation M := (meth R exn).

Definition get (now : Z) (key : string) : M (option string) := gets (fun r => fst <$> entry now key r).
Definition setex (now : Z) (key : string) (seconds : Z) (value : string) : M unit := LegacyLimiter.setex now key seconds value.
(** The mark of a key. *)
Definition marked (now : Z) (key mark : string) : M bool :=
  status ← get now key; mret (match status with Some s => str_eqb s mark | None => false end).

(** security/rate-limiting/cost-calculator.ts:8-14 calculateCost *)
Definition calculateCost (action : string) (payloadSize : num) : Z :=
  if str_eqb action "results_ingestion" then (if num_gtb payloadSize (ofZ 10240) then 5 else 1) else 1.
(** security/rate-limiting/cost-based-limiting.ts:18-31 canAffordRequest *)
Definition canAffordRequest (now : Z) (userId action : string) (payloadSize : num) (hourlyBudget : Z) : M bool :=
  let key := "cost:" +:+ userId in
  let cost := calculateCost action payloadSize in
  rawVal ← get now key;
  let balance := read_count rawVal 0 in
  if balance + cost >? hourlyBudget then mret false
  else setex now key 3600 (pretty (balance + cost));; mret true.
(** security/rate-limiting/burst-allowance.ts:18-30 consumeBurstTokens *)
Definition consumeBurstTokens (now : Z) (userId : string) (tokensCount : Z) : M bool :=
  let key := "burst:" +:+ userId in
  rawVal ← get now key;
  let balance := read_count rawVal 50 in
  if tokensCount <=? balance then setex now key 60 (pretty (balance - tokensCount));; mret true
  else mret false.
(** security/rate-limiting/override-manager.ts:18-22 grantOverride *)
Definition grantOverride (now : Z) (userId : string) (durationSeconds : Z) : M unit :=
  setex now ("override:" +:+ userId) durationSeconds "granted".
(** security/rate-limiting/override-manager.ts:27-31 hasOverride *)
Definition hasOverride (now : Z) (userId : string) : M bool := marked now ("override:" +:+ userId) "granted".
(** security/rate-limiting/grace-period.ts:18-22 grantGracePeriod *)
Definition grantGracePeriod (now : Z) (userId : string) (durationSeconds : Z) : M unit :=
  setex now ("grace:" +:+ userId) durationSeconds "active".
(** security/rate-limiting/grace-period.ts:27-31 isInGracePeriod *)
Definition isInGracePeriod (now : Z) (userId : string) : M bool := marked now ("grace:" +:+ userId) "active".
(** security/rate-limiting/whitelist-blacklist.ts:14-17 blacklist *)
Definition blacklist (now : Z) (identifier : string) : M unit := modify (k_set now ("blacklist:" +:+ identifier) "blocked" None).
(** security/rate-limiting/whitelist-blacklist.ts:22-26 isBlacklisted *)
Definition isBlacklisted (now : Z) (identifier : string) : M bool := marked now ("blacklist:" +:+ identifier) "blocked".
(** security/rate-limiting/whitelist-blacklist.ts:31-34 whitelist *)
Definition whitelist (now : Z) (identifier : string) : M unit := modify (k_set now ("whitelist:" +:+ identifier) "allowed" None).
(** security/rate-limiting/whitelist-blacklist.ts:39-43 isWhitelisted *)
Definition isWhitelisted (now : Z) (identifier : string) : M bool := marked now ("whitelist:" +:+ identifier) "allowed".

(** A grant lasts its duration, and a listing for ever. *)
Lemma override_lasts now t user d r :
  0 < d -> now <= t ->
  hasOverride t user (grantOverride now user d r).1 = ((grantOverride now user d r).1, Ok (t <? now + d * 1000)).
Proof.
  intros Hd Ht. unfold hasOverride, marked, grantOverride, setex, LegacyLimiter.setex, get, gets. rewrite (proj2 (Z.leb_gt d 0)) by lia.
  unfold mbind, meth_bind, modify. cbn [fst]. rewrite entry_set_eq by done. simpl. by destruct (t <? now + d * 1000).
Qed.
Lemma blacklisted_for_ever now t id r :
  now <= t -> isBlacklisted t id (blacklist now id r).1 = ((blacklist now id r).1, Ok true).
Proof.
  intros Ht. unfold isBlacklisted, marked, blacklist, get, gets, mbind, meth_bind, modify. cbn [fst]. by rewrite entry_set_eq.
Qed.

(** *** The budget of an hour *)

Section hour.
Context (user : string) (budget T : Z).

(** A request: its instant, its action and its size. *)
Definition request : Type := Z * string * num.
(** What a user's accepted requests cost. *)
Fixpoint spent (l : list request) (r : R) : Z :=
  match l with
  | [] => 0
  | (t, a, n) :: l =>
      let '(r', o) := canAffordRequest t user a n budget r in
      (match o with Ok true => calculateCost a n | _ => 0 end) + spent l r'
  end.
Fixpoint within (t0 : Z) (l : list request) : Prop :=
  match l with [] => True | (t, _, _) :: l => t0 <= t /\ T < t <= T + 3600000 /\ within t l end.
(** The user's key holds a number, or nothing. *)
Definition numeric (t : Z) (r : R) : Prop :=
  match entry t ("cost:" +:+ user) r with Some (v, _) => exists b, v = pretty b /\ 0 <= b | None => True end.
(** It holds what was accepted so far, until the hour is over. *)
Definition holds (t acc : Z) (r : R) : Prop :=
  match entry t ("cost:" +:+ user) r with
  | Some (v, x) => exists b, v = pretty b /\ acc <= b /\ 0 <= b /\ (acc = 0 \/ exists y, x = Some y /\ T + 3600000 < y)
  | None => acc = 0
  end.

Lemma read_pretty b d : 0 <= b -> read_count (Some (pretty b)) d = b.
Proof.
  intros Hb. unfold read_count. pose proof (parse_int_pretty b Hb) as Hp. rewrite Hp. by destruct (pretty b).
Qed.
Lemma cost_pos a n : 0 < calculateCost a n.
Proof. unfold calculateCost. repeat case_match; lia. Qed.

Lemma holds_later t t' acc r : t <= t' -> t' <= T + 3600000 -> holds t acc r -> holds t' acc r.
Proof.
  intros Ht HT. unfold holds. rewrite (entry_later t t' _ r Ht). destruct (entry t _ r) as [[v x]|]; [|done].
  intros (b & -> & Ha & Hb & Hx). destruct x as [x|]; simpl; [|by exists b].
  destruct (Z.ltb_spec t' x); [by exists b|]. destruct Hx as [?|(y & ? & ?)]; [done|]. simplify_eq. lia.
Qed.

Lemma afford_step t a n acc r :
  T < t -> holds t acc r ->
  exists r' ok, canAffordRequest t user a n budget r = (r', Ok ok) /\
    holds t (acc + if ok then calculateCost a n else 0) r' /\ (ok = true -> acc + calculateCost a n <= budget).
Proof.
  intros HT Hh. pose proof (cost_pos a n) as Hc. set (k := "cost:" +:+ user).
  assert (exists b, read_count (fst <$> entry t k r) 0 = b /\ acc <= b /\ 0 <= b) as (b & Hr & Ha & Hb).
  { unfold holds in Hh. fold k in Hh. destruct (entry t k r) as [[v x]|]; [|exists 0; split; [done|lia]].
    destruct Hh as (b & -> & ? & ? & _). exists b. split; [by apply read_pretty|done]. }
  assert (canAffordRequest t user a n budget r =
    if b + calculateCost a n >? budget then (r, Ok false)
    else (k_set t k (pretty (b + calculateCost a n)) (Some 3600000) r, Ok true)) as ->.
  { unfold canAffordRequest, get, gets. fold k. unfold mbind at 1, meth_bind at 1. rewrite Hr. by destruct (_ >? _). }
  destruct (Z.gtb_spec (b + calculateCost a n) budget) as [Hg|Hg].
  - exists r, false. rewrite Z.add_0_r. done.
  - eexists _, true. split; [done|]. split; [|lia]. unfold holds. fold k. rewrite entry_set_eq by lia. simpl.
    rewrite (proj2 (Z.ltb_lt t (t + 3600000))) by lia. exists (b + calculateCost a n). split_and!; [done|lia|lia|]. right. eexists. split; [done|]. lia.
Qed.

Lemma spent_bound l t0 acc r : holds t0 acc r -> within t0 l -> 0 <= acc <= budget -> acc + spent l r <= budget.
Proof.
  revert t0 acc r. induction l as [|[[t a] n] l IH]; intros t0 acc r Hh Hw Hb; simpl in *; [lia|].
  destruct Hw as (Ht & HT & Hw). apply (holds_later t0 t) in Hh; [|lia|lia]. pose proof (cost_pos a n).
  destruct (afford_step t a n acc r ltac:(lia) Hh) as (r' & ok & -> & Hh' & Hok).
  assert (0 <= acc + (if ok then calculateCost a n else 0) <= budget) as Hb' by (destruct ok; [specialize (Hok eq_refl)|]; lia).
  specialize (IH t _ r' Hh' Hw Hb'). destruct ok; lia.
Qed.
End hour.
End budgets.

(** Whatever a user has spent before, the requests accepted within any hour
    cost at most the budget. *)
Theorem cost_window {R} `{KeySpace R} user budget T (l : list request) (r : R) :
  0 <= budget -> numeric user T r -> within T T l -> spent user budget l r <= budget.
Proof.
  intros Hb Hn Hw. pose proof (spent_bound user budget T l T 0 r) as Hs. rewrite Z.add_0_l in Hs. apply Hs; [|done|lia].
  unfold numeric in Hn. unfold holds. destruct (entry T _ r) as [[v x]|]; [|done]. destruct Hn as (b & -> & Hb'). exists b. auto.
Qed.

Lemma cost_window_witness :
  let l := [(1, "results_ingestion", ofZ 20000); (5, "other", ofZ 0); (3000000, "results_ingestion", ofZ 20000)] in
  spent "u" 8 l (∅ : gmap string entry_t) <= 8.
Proof.
  cbv zeta. apply (cost_window "u" 8 0).
  - lia.
  - unfold numeric. simpl. by rewrite lookup_empty.
  - simpl. lia.
Defined.

(** An accepted request makes the whole balance last another hour: a user who
    asks once an hour never gets the budget back. *)
Example balance_never_expires :
  let r1 := (canAffordRequest 0 "u" "a" (ofZ 0) 2 (∅ : gmap string entry_t)).1 in
  let r2 := (canAffordRequest 3500000 "u" "a" (ofZ 0) 2 r1).1 in
  (canAffordRequest 7000000 "u" "a" (ofZ 0) 2 r2).2 = Ok false.
Proof. vm_compute. reflexivity. Qed.

(** security/rate-limiting/adaptive-limiting.ts:8-16 getAdaptiveLimit *)
Definition getAdaptiveLimit (baseLimit currentCpuLoadPercent : num) : num :=
  if num_gtb currentCpuLoadPercent (ofZ 85) then num_floor (num_mul baseLimit (Fin (1 # 2)))
  else if num_gtb currentCpuLoadPercent (ofZ 70) then num_floor (num_mul baseLimit (Fin (4 # 5)))
  else baseLimit.
(** security/rate-limiting/fair-queuing.ts:10-14 getJobPriority *)
Definition getJobPriority (tier : string) : Z :=
  if str_eqb tier "enterprise" then 1 else if str_eqb tier "pro" then 5 else 10.

(** security/rate-limiting/quota-definitions.ts:4-9 QuotaDefinition *)
Record QuotaDefinition : Type := Definition_ { qd_name : string; qd_limit : Z; qd_window : string; qd_scope : string }.
(** security/rate-limiting/quota-definitions.ts:11-24 QuotaTiers
    The limits of ingestion by the hour, and of registration by the day. *)
Definition tier_definitions (ingestion registration : Z) : list QuotaDefinition :=
  [Definition_ "results_ingestion" ingestion "1h" "per_api_key"; Definition_ "destinations_registration" registration "1d" "per_api_key"].
(** security/rate-limiting/quota-definitions.ts:29-31 getQuotaForTier *)
Definition getQuotaForTier (tier : string) : list QuotaDefinition :=
  if str_eqb tier "pro" then tier_definitions 10000 100
  else if str_eqb tier "enterprise" then tier_definitions 1000000 1000
  else tier_definitions 100 10.

End Budgets.
