(* ===== verification/WorkerRecovery.v ===== *)
(** * Recovery and shutdown of a worker

    [worker/recovery/]: the detector of deliveries left PROCESSING
    ([StaleJobs]), the heartbeat a worker writes to the key-value server
    ([Heartbeat]), the shutdown of the worker ([GracefulShutdown]) and the
    monitor that reports on it ([WorkerMonitor]). *)
From Stdlib Require Import Ascii QArith Qround Qpower Qabs Lqa.
From stdpp Require Import base tactics numbers list strings gmap pretty.
From S2P Require Import Prelude JsNum JsValue Errors DomainTypes Store Worker Redis Recovery.

(** ** Deliveries left in processing *)

Module StaleJobs.
Import Store Jobs.

Section detector.
Context {T Q : Type} `{Listing T} `{JobQueue Q}.
(** The column [updatedAt], which the database keeps. *)
Context (updatedAt : string -> T -> Z).

(** worker/recovery/stale-job-detector.ts:11-16 StaleJobDetector
    The table and the queue it works on. *)
Record world : Type := World { db : T; queue : Q }.
Abbreviation M := (meth world exn).

Definition staleTimeoutMs : Z := 30000.
Definition on_db {A} (m : meth T exn A) : M A := fun w => let '(t, o) := m (db w) in (World t (queue w), o).

(** The query of [findMany]. *)
Definition is_stale (now : Z) (t : T) (x : string * row) : bool :=
  bool_decide (r_status x.2 = Status.PROCESSING) && (updatedAt x.1 t <=? now - staleTimeoutMs).
Definition stale (now : Z) (t : T) : list (string * row) := filter (fun x => is_stale now t x = true) (rows t).

(** worker/recovery/stale-job-detector.ts:68-74 markAsStale *)
Definition markAsStale (deliveryId : string) : M unit :=
  on_db (DeliveryRepository.updateDeliveryStatus deliveryId Status.PENDING JUndefined).
(** worker/recovery/stale-job-detector.ts:79-120 recover
    A failure is logged. *)
Definition recover (deliveryId : string) : M unit :=
  try_catch
    (delivery ← on_db (DeliveryRepository.findById deliveryId);
     match delivery with
     | None => fail (PlainError ("Stale delivery " +:+ deliveryId +:+ " not found in database"))
     | Some d =>
         modify (fun w => World (db w) (q_add (DelayedQueueProcessor.job_name d) (DelayedQueueProcessor.retry_data d) None 0 (queue w)).1);;
         markAsStale deliveryId
     end)
    (fun _ => mret tt).
Fixpoint recover_all (l : list string) : M unit :=
  match l with [] => mret tt | id :: l => recover id;; recover_all l end.
(** worker/recovery/stale-job-detector.ts:35-63 detectStale *)
Definition detectStale (now : Z) : M Z := fun w =>
  let l := stale now (db w) in
  let '(w', _) := recover_all (map fst l) w in
  (w', Ok (Z.of_nat (length l))).

(** *** Its effect *)

Lemma recover_hit id r w :
  find_delivery id (db w) = Some r ->
  exists t' q' i,
    recover id w = (World t' q', Ok tt) /\
    find_delivery id t' = Some (with_status Status.PENDING r) /\
    (forall id', id' <> id -> find_delivery id' t' = find_delivery id' (db w)) /\
    jobs q' = jobs (queue w) ++ [Job i (DelayedQueueProcessor.job_name r) (DelayedQueueProcessor.retry_data r) 0].
Proof.
  intros Hr. destruct (proj2 (update_is_Some id (with_status Status.PENDING) (db w)) (ex_intro _ _ Hr)) as [t' Ht].
  set (q := q_add (DelayedQueueProcessor.job_name r) (DelayedQueueProcessor.retry_data r) None 0 (queue w)).
  exists t', q.1, q.2. split.
  - unfold recover, try_catch, on_db, DeliveryRepository.findById, gets. unfold mbind, meth_bind. rewrite Hr.
    unfold modify, markAsStale, on_db, DeliveryRepository.updateDeliveryStatus, DeliveryRepository.updateStatus, DeliveryRepository.db_update.
    cbn [DeliveryRepository.has_tx js_truthy andb db queue]. by rewrite Ht.
  - split_and!; [by rewrite (update_find_eq _ _ _ _ Ht), Hr| |apply add_fresh].
    intros id' Hid. by apply (update_find_ne id id' (with_status Status.PENDING)).
Qed.

Lemma recover_all_hit l w :
  NoDup (map fst l) -> (forall x, x ∈ l -> find_delivery x.1 (db w) = Some x.2) ->
  exists t' q' added,
    recover_all (map fst l) w = (World t' q', Ok tt) /\
    (forall x, x ∈ l -> find_delivery x.1 t' = Some (with_status Status.PENDING x.2)) /\
    (forall id, id ∉ map fst l -> find_delivery id t' = find_delivery id (db w)) /\
    jobs q' = jobs (queue w) ++ added /\
    map (fun j => (j_name j, j_data j)) added = map (fun x => (DelayedQueueProcessor.job_name x.2, DelayedQueueProcessor.retry_data x.2)) l.
Proof.
  revert w. induction l as [|x l IH]; intros w Hnd Hf.
  { exists (db w), (queue w), []. split_and!; try done; [by destruct w|by intros ? ?%not_elem_of_nil|by rewrite app_nil_r]. }
  apply NoDup_cons in Hnd as [Hx Hnd].
  destruct (recover_hit x.1 x.2 w) as (t1 & q1 & i & Hr & Hx1 & Hne & Hj); [by apply Hf; left|].
  destruct (IH (World t1 q1) Hnd) as (t' & q' & added & Ha & E1 & E2 & E3 & E4).
  { intros y Hy. simpl. rewrite Hne; [by apply Hf; right|]. intros E. apply Hx. rewrite <- E. by apply list_elem_of_fmap_2. }
  exists t', q', (Job i (DelayedQueueProcessor.job_name x.2) (DelayedQueueProcessor.retry_data x.2) 0 :: added). split_and!.
  - simpl. by rewrite (bind_ok _ _ _ _ _ Hr).
  - intros y [->|Hy]%elem_of_cons; [|by apply E1]. rewrite E2 by done. exact Hx1.
  - intros id [Hid1 Hid2]%not_elem_of_cons. rewrite E2 by done. by apply Hne.
  - rewrite E3. simpl. rewrite Hj. by rewrite <- app_assoc.
  - simpl. by rewrite E4.
Qed.

(** C24: a scan makes exactly the deliveries PENDING that are PROCESSING and were
    not updated for thirty seconds, leaves every other row as it was, adds one
    job for each of them in the order of the query, and returns their number. *)
Theorem stale_recovered now w :
  exists t' q' added,
    detectStale now w = (World t' q', Ok (Z.of_nat (length (stale now (db w))))) /\
    (forall id, find_delivery id t' =
       (fun r => if is_stale now (db w) (id, r) then with_status Status.PENDING r else r) <$> find_delivery id (db w)) /\
    jobs q' = jobs (queue w) ++ added /\
    map (fun j => (j_name j, j_data j)) added =
      map (fun x => (DelayedQueueProcessor.job_name x.2, DelayedQueueProcessor.retry_data x.2)) (stale now (db w)).
Proof.
  set (l := stale now (db w)).
  assert (forall x, x ∈ l <-> find_delivery x.1 (db w) = Some x.2 /\ is_stale now (db w) x = true) as Hl.
  { intros [id r]. unfold l, stale. rewrite list_elem_of_filter, rows_find. naive_solver. }
  assert (NoDup (map fst l)) as Hnd by (apply filter_keys_NoDup, rows_NoDup).
  destruct (recover_all_hit l w Hnd) as (t' & q' & added & Ha & E1 & E2 & E3 & E4); [intros x Hx; by apply Hl|].
  exists t', q', added. unfold detectStale. fold l. rewrite Ha. split_and!; [done| |done|done].
  intros id. destruct (find_delivery id (db w)) as [r|] eqn:Ef; simpl.
  - destruct (is_stale now (db w) (id, r)) eqn:Ed.
    + assert ((id, r) ∈ l) as Hin by (by apply Hl). exact (E1 _ Hin).
    + rewrite E2; [done|]. intros ([y s] & -> & Hy)%list_elem_of_fmap. apply Hl in Hy as [Hy1 Hy2]. simpl in *. congruence.
  - rewrite E2; [done|]. intros (y & -> & Hy)%list_elem_of_fmap. apply Hl in Hy as [Hy1 _]. congruence.
Qed.
End detector.
End StaleJobs.

(** ** The heartbeat *)

Module Heartbeat.
Import KeySpace.

(** The commands looked for in the client; [set(key, value, 'EX', n)] is the
    four-argument form of the client library. *)
Record hb_ops (R : Type) : Type := Ops {
  h_set : option (string -> string -> Z -> meth R exn unit);
  h_setWithTtl : option (string -> string -> Z -> meth R exn unit);
  h_delete : option (string -> meth R exn unit);
  h_del : option (string -> meth R exn unit);
  h_get : option (string -> meth R exn (option string));
  h_keys : option (string -> meth R exn (list string));
}.
Arguments Ops {R}. Arguments h_set {R}. Arguments h_setWithTtl {R}. Arguments h_delete {R}. Arguments h_del {R}.
Arguments h_get {R}. Arguments h_keys {R}.

(** What the constructor's arguments may be. *)
Inductive arg (O : Type) : Type :=
| AUndefined
| AText (s : string)
| AClient (ops : O)
| AConfig (heartbeatTtlSeconds workerHeartbeatTtlSeconds : option Z).
Arguments AUndefined {O}. Arguments AText {O}. Arguments AClient {O}. Arguments AConfig {O}.

(** worker/recovery/heartbeat.ts:4-9 Heartbeat
    Without the logger; the timer is part of [world]. *)
Record heartbeat (O : Type) : Type := Beat { workerId : string; ttlSeconds : Z; redisOps : option O }.
Arguments Beat {O}. Arguments workerId {O}. Arguments ttlSeconds {O}. Arguments redisOps {O}.

Definition or_else (n : option Z) (d : Z) : Z := match n with Some n => if n =? 0 then d else n | None => d end.
Definition as_client {O} (a : arg O) : option O := match a with AClient o => Some o | _ => None end.
(** worker/recovery/heartbeat.ts:11-23 constructor *)
Definition new {O} (now : Z) (a0 a1 a2 a3 : arg O) : heartbeat O :=
  match a0 with
  | AText id =>
      Beat id (match a3 with AConfig h w => or_else h (or_else w 30) | _ => 30 end) (as_client a1)
  | _ => Beat (match a1 with AText id => id | _ => "worker-" +:+ pretty now end) 30 (as_client a0)
  end.

(** The server, and whether the timer runs. *)
Record world (R : Type) : Type := World { server : R; timer : bool }.
Arguments World {R}. Arguments server {R}. Arguments timer {R}.

Section heartbeat.
Context {R : Type} (h : heartbeat (Z -> hb_ops R)).
Abbreviation M := (meth (world R) exn).

Definition on_server {A} (m : meth R exn A) : M A := fun w => let '(r, o) := m (server w) in (World r (timer w), o).
(** A call whose failure is only logged. *)
Definition logged (m : M unit) : M unit := try_catch m (fun _ => mret tt).
Definition ping_key : string :=
  if starts_with "heartbeat:" (workerId h) then workerId h else "heartbeat:" +:+ workerId h.

(** worker/recovery/heartbeat.ts:25-38 ping *)
Definition ping (now : Z) : M unit :=
  logged (match redisOps h with
          | Some ops =>
              match h_set (ops now), h_setWithTtl (ops now) with
              | Some f, _ => on_server (f ping_key "active" 30)
              | None, Some f => on_server (f ping_key "active" 30)
              | None, None => mret tt
              end
          | None => mret tt
          end).
(** worker/recovery/heartbeat.ts:40-42 refresh *)
Definition refresh := ping.
(** worker/recovery/heartbeat.ts:51-51 start *)
Definition intervalMs : Z := Z.max 1000 (ttlSeconds h * 1000 / 3).
(** worker/recovery/heartbeat.ts:48-56 start *)
Definition start (now : Z) : M unit :=
  w ← get_this;
  if timer w then mret tt else ping now;; modify (fun w => World (server w) true).
(** worker/recovery/heartbeat.ts:58-74 stop *)
Definition stop (now : Z) : M unit :=
  modify (fun w => World (server w) false);;
  logged (match redisOps h with
          | Some ops =>
              match h_delete (ops now), h_del (ops now) with
              | Some f, _ => on_server (f ("heartbeat:" +:+ workerId h))
              | None, Some f => on_server (f ("heartbeat:" +:+ workerId h))
              | None, None => mret tt
              end
          | None => mret tt
          end).
(** worker/recovery/heartbeat.ts:76-87 isAlive *)
Definition isAlive (now : Z) (id : string) : M bool :=
  try_catch
    (match redisOps h with
     | Some ops =>
         match h_get (ops now) with
         | Some f => val ← on_server (f ("heartbeat:" +:+ id)); mret (match val with Some _ => true | None => false end)
         | None => mret false
         end
     | None => mret false
     end)
    (fun _ => mret false).
(** [k.replace('heartbeat:', '')]: the first occurrence. *)
Fixpoint without_prefix (s : string) : string :=
  if starts_with "heartbeat:" s then String.substring 10 (String.length s - 10) s
  else match s with EmptyString => EmptyString | String c s => String c (without_prefix s) end.
(** worker/recovery/heartbeat.ts:89-99 getAllWorkerIds *)
Definition getAllWorkerIds (now : Z) : M (list string) :=
  try_catch
    (match redisOps h with
     | Some ops =>
         match h_keys (ops now) with
         | Some f => keys ← on_server (f "heartbeat:*"); mret (map without_prefix keys)
         | None => mret [workerId h]
         end
     | None => mret [workerId h]
     end)
    (fun _ => mret [workerId h]).
End heartbeat.

(** *** The two clients *)

Section clients.
Context {R : Type} `{KeySpace R} (others : RedisOperations.client R).

(** The client library itself. *)
Definition raw_ops (now : Z) : hb_ops R := {|
  h_set := Some (fun k v seconds => modify (k_set now k v (Some (seconds * 1000))));
  h_setWithTtl := None; h_delete := None;
  h_del := Some (fun k => modify (k_del k));
  h_get := Some (RedisOperations.get_at now);
  h_keys := Some (RedisOperations.c_keys others);
|}.
(** The wrapper: its [set] takes the option word for the time to live. *)
Definition wrapped_ops (now : Z) : hb_ops R :=
  let c := RedisOperations.server_client now others in {|
  h_set := Some (fun k v _ => RedisOperations.set c k v (RedisOperations.Word RedisOperations.EX));
  h_setWithTtl := None;
  h_delete := Some (fun k => RedisOperations.delete c k;; mret tt);
  h_del := None;
  h_get := Some (RedisOperations.get c);
  h_keys := None;
|}.

(** The firings of the timer: the instants after the first, then [n] more, one
    interval apart. *)
Fixpoint beats (h : heartbeat (Z -> hb_ops R)) (t0 : Z) (n : nat) (w : world R) : world R :=
  match n with
  | O => w
  | S n => let w' := beats h t0 n w in (ping h (t0 + Z.of_nat (S n) * intervalMs h) w').1
  end.

Context (id : string) (ttl : Z).
Hypothesis plain_id : starts_with "heartbeat:" id = false.

Lemma ping_raw now w :
  let h := Beat id ttl (Some raw_ops) in
  ping h now w = (World (k_set now ("heartbeat:" +:+ id) "active" (Some 30000) (server w)) (timer w), Ok tt).
Proof. cbv zeta. unfold ping, ping_key. cbn [workerId]. by rewrite plain_id. Qed.
Lemma ping_wrapped now w :
  let h := Beat id ttl (Some wrapped_ops) in
  ping h now w = (World (k_set now ("heartbeat:" +:+ id) "active" None (server w)) (timer w), Ok tt).
Proof. cbv zeta. unfold ping, ping_key. cbn [workerId]. by rewrite plain_id. Qed.

Lemma start_ok {S} `{!KeySpace S} (h : heartbeat (Z -> hb_ops S)) now w w1 :
  timer w = false -> ping h now w = (w1, Ok tt) -> start h now w = (World (server w1) true, Ok tt).
Proof. intros Hw Hp. unfold start, get_this, mbind, meth_bind. by rewrite Hw, Hp. Qed.

(** A worker that beats over the client library is alive from its start, at
    every instant until its next beat, as long as its beats are at most thirty
    seconds apart, that is for a time to live of at most 90 seconds; for a longer
    one it is dead from thirty seconds after each beat until the next one, since
    the key's life does not follow the configured time.  Over the wrapper the
    key never expires: a worker that started once and died is alive for ever. *)
Theorem heartbeat_lease t0 (n : nat) t w :
  0 < ttl -> timer w = false ->
  let i := intervalMs (Beat id ttl (Some raw_ops)) in
  t0 + Z.of_nat n * i <= t < t0 + Z.of_nat (S n) * i ->
  (let h := Beat id ttl (Some raw_ops) in
   let w' := beats h t0 n (start h t0 w).1 in
   (isAlive h t id w').2 = Ok (t <? t0 + Z.of_nat n * i + 30000) /\
   (ttl <= 90 -> (isAlive h t id w').2 = Ok true)) /\
  (let h := Beat id ttl (Some wrapped_ops) in
   (isAlive h t id (start h t0 w).1).2 = Ok true).
Proof.
  intros Httl Hw i Ht. split.
  - set (h := Beat id ttl (Some raw_ops)). cbv zeta.
    assert (exists r b, beats h t0 n (start h t0 w).1 = World (k_set (t0 + Z.of_nat n * i) ("heartbeat:" +:+ id) "active" (Some 30000) r) b) as (r & b & ->).
    { destruct n as [|n].
      - exists (server w), true. cbn [beats]. unfold h. rewrite (start_ok _ _ _ _ Hw (ping_raw t0 w)). by rewrite Z.add_0_r.
      - eexists _, _. cbn [beats]. unfold h at 1. rewrite ping_raw. reflexivity. }
    assert (isAlive h t id (World (k_set (t0 + Z.of_nat n * i) ("heartbeat:" +:+ id) "active" (Some 30000) r) b) =
            (World (k_set (t0 + Z.of_nat n * i) ("heartbeat:" +:+ id) "active" (Some 30000) r) b,
             Ok (t <? t0 + Z.of_nat n * i + 30000))) as ->.
    { unfold isAlive, try_catch. cbn [h redisOps raw_ops h_get]. unfold on_server, RedisOperations.get_at, gets, mbind, meth_bind. cbn [server].
      rewrite entry_set_eq by lia. simpl. by destruct (t <? _). }
    split; [done|]. intros H90. cbn [snd]. f_equal. apply Z.ltb_lt.
    assert (i <= 30000) as Hi by (unfold i, intervalMs; cbn [ttlSeconds]; Z.to_euclidean_division_equations; lia). lia.
  - cbv zeta. rewrite (start_ok _ _ _ _ Hw (ping_wrapped t0 w)). cbn [fst server timer]. unfold isAlive, try_catch. cbn [redisOps wrapped_ops h_get]. unfold on_server, RedisOperations.get, mbind, meth_bind.
    cbn [server timer]. rewrite (RedisOperations.execute_ok _ _ (k_set t0 ("heartbeat:" +:+ id) "active" None (server w)) (Some "active")); [done|].
    cbn [RedisOperations.server_client RedisOperations.c_get]. unfold RedisOperations.get_at, gets.
    rewrite entry_set_eq; [done|]. assert (0 < i) by (unfold i, intervalMs; lia). nia.
Qed.
End clients.
End Heartbeat.

(** ** Shutdown *)

Module GracefulShutdown.
Import Heartbeat.

(** worker/recovery/graceful-shutdown.ts:4-12 GracefulShutdown
    The flag, the job processor and the heartbeat's world. *)
Record world (R : Type) : Type := World { shuttingDown : bool; jobProcessor : JobProcessor.t; beat : Heartbeat.world R }.
Arguments World {R}. Arguments shuttingDown {R}. Arguments jobProcessor {R}. Arguments beat {R}.

Section shutdown.
Context {R : Type} (h : heartbeat (Z -> hb_ops R)).
Abbreviation M := (meth (world R) exn).

(** worker/recovery/graceful-shutdown.ts:14-16 isShuttingDown *)
Definition isShuttingDown (w : world R) : bool := shuttingDown w.
Definition on_processor (m : JobProcessor.M unit) : M unit := fun w =>
  let '(p, o) := m (jobProcessor w) in (World (shuttingDown w) p (beat w), o).
Definition on_beat (m : meth (Heartbeat.world R) exn unit) : M unit := fun w =>
  let '(b, o) := m (beat w) in (World (shuttingDown w) (jobProcessor w) b, o).
(** worker/recovery/graceful-shutdown.ts:21-39 initiate *)
Definition initiate (now : Z) : M unit :=
  w ← get_this;
  if shuttingDown w then mret tt
  else
    modify (fun w => World true (jobProcessor w) (beat w));;
    try_catch (on_processor JobProcessor.stop;; on_beat (stop h now)) (fun _ => mret tt).
(** worker/recovery/graceful-shutdown.ts:41-43 shutdown *)
Definition shutdown := initiate.
(** worker/recovery/graceful-shutdown.ts:53-56 abort *)
Definition abort : M unit := modify (fun w => World false (jobProcessor w) (beat w)).
End shutdown.

(** The loop of [waitForCompletion]: at its [k]-th look there are [active k] jobs
    in progress and the clock says [clock k]; the result is the look it ends at. *)
Section wait.
Context (active clock : nat -> Z) (start timeoutMs : Z).

(** worker/recovery/graceful-shutdown.ts:48-50 waitForCompletion *)
Fixpoint wait (fuel k : nat) : option nat :=
  match fuel with
  | O => None
  | S fuel => if (active k >? 0) && (clock k - start <? timeoutMs) then wait fuel (S k) else Some k
  end.
Definition fuel_for : nat := S (S (Z.to_nat (timeoutMs / 200))).
(** worker/recovery/graceful-shutdown.ts:45-51 waitForCompletion
    After [initiate]. *)
Definition waitForCompletion : option nat := wait fuel_for 0.

Lemma wait_spec fuel k n :
  wait fuel k = Some n ->
  (k <= n)%nat /\ (active n <= 0 \/ timeoutMs <= clock n - start) /\
  forall j, (k <= j < n)%nat -> 0 < active j /\ clock j - start < timeoutMs.
Proof.
  revert k. induction fuel as [|fuel IH]; intros k; simpl; [done|].
  destruct (active k >? 0) eqn:E1, (clock k - start <? timeoutMs) eqn:E2; simpl.
  - intros Hw. destruct (IH _ Hw) as (H1 & H2 & H3). split; [lia|]. split; [done|]. intros j Hj.
    destruct (decide (j = k)) as [->|]; [rewrite Z.gtb_gt in E1; lia|apply H3; lia].
  - intros [= ->]. split; [lia|]. split; [lia|]. lia.
  - intros [= ->]. split; [lia|]. split; [rewrite Z.gtb_ltb, Z.ltb_ge in E1; lia|]. lia.
  - intros [= ->]. split; [lia|]. split; [lia|]. lia.
Qed.

Lemma wait_returns fuel k :
  (forall j, clock j + 200 <= clock (S j)) -> start <= clock 0%nat -> timeoutMs <= 200 * Z.of_nat (k + fuel - 1) -> (0 < fuel)%nat ->
  exists n, wait fuel k = Some n.
Proof.
  intros Hc H0. assert (forall j, start + 200 * Z.of_nat j <= clock j) as Hall.
  { induction j as [|j IH]; [lia|]. pose proof (Hc j). lia. }
  revert k. induction fuel as [|fuel IH]; intros k Ht Hf; [lia|]. simpl.
  destruct ((active k >? 0) && (clock k - start <? timeoutMs)) eqn:E; [|by eexists].
  apply andb_true_iff in E as [_ E]. apply Z.ltb_lt in E. pose proof (Hall k).
  destruct fuel as [|fuel]; [lia|]. apply IH; lia.
Qed.

(** When the clock advances at least by the two hundred milliseconds of each
    sleep, waiting comes to an end: at the first look that finds no job in
    progress or the time over, and at no later one than the time-out allows. *)
Theorem shutdown_waits :
  (forall j, clock j + 200 <= clock (S j)) -> start <= clock 0%nat -> 0 <= timeoutMs ->
  exists n, waitForCompletion = Some n /\ (active n <= 0 \/ timeoutMs <= clock n - start) /\
    (forall j, (j < n)%nat -> 0 < active j /\ clock j - start < timeoutMs) /\ (n = 0%nat \/ 200 * (Z.of_nat n - 1) < timeoutMs).
Proof.
  intros Hc H0 Ht. destruct (wait_returns fuel_for 0 Hc H0) as [n Hn]; [unfold fuel_for; Z.to_euclidean_division_equations; lia|unfold fuel_for; lia|].
  exists n. destruct (wait_spec _ _ _ Hn) as (_ & H1 & H2).
  split_and!; [done|done|intros j Hj; apply H2; lia|].
  destruct (decide (n = 0%nat)) as [->|Hn0]; [by left|right].
  assert (forall j, start + 200 * Z.of_nat j <= clock j) as Hall.
  { induction j as [|j IH]; [lia|]. pose proof (Hc j). lia. }
  destruct (H2 (n - 1)%nat ltac:(lia)) as [_ Hl]. pose proof (Hall (n - 1)%nat). lia.
Qed.
End wait.

(** *** A shutdown *)

Section once.
Context {R : Type} (h : heartbeat (Z -> hb_ops R)).

Lemma stop_timer now b : exists r, stop h now b = (Heartbeat.World r false, Ok tt).
Proof.
  unfold stop, logged, try_catch, on_server, modify, mbind, meth_bind.
  destruct (redisOps h) as [ops|]; [|by eexists].
  destruct (h_delete (ops now)) as [f|]; [destruct (f _ _) as [r [[]|e]]; by eexists|].
  destruct (h_del (ops now)) as [f|]; [destruct (f _ _) as [r [[]|e]]; by eexists|by eexists].
Qed.

(** A shutdown stops the processor and the timer, whatever the key-value server
    says; a second one does nothing. *)
Lemma initiate_stops now (w : world R) :
  shuttingDown w = false -> JobProcessor.isStopped (jobProcessor w) = false ->
  let '(w', o) := initiate h now w in
  o = Ok tt /\ shuttingDown w' = true /\ JobProcessor.isRunning (jobProcessor w') = false /\
  JobProcessor.activeJobsCount (jobProcessor w') = JobProcessor.activeJobsCount (jobProcessor w) /\
  timer (beat w') = false /\ forall now', initiate h now' w' = (w', Ok tt).
Proof.
  intros Hs Hp. unfold initiate at 1. unfold get_this, mbind, meth_bind. rewrite Hs. unfold modify, try_catch, on_processor, JobProcessor.stop, modify.
  cbn [jobProcessor]. rewrite Hp. unfold on_beat. cbn [beat]. destruct (stop_timer now (beat w)) as [r ->].
  split_and!; done.
Qed.
End once.
End GracefulShutdown.

(** ** The monitor *)

Module WorkerMonitor.
Import Heartbeat.

(** worker/recovery/worker-monitor.ts:1-7 WorkerStatus *)
Record WorkerStatus : Type := Status { s_workerId : string; alive : bool; jobsProcessed : Z; jobsFailed : Z; uptime : Z }.

Section monitor.
Context {R : Type} (h : option (heartbeat (Z -> hb_ops R))) (p : JobProcessor.t) (startTime : Z).
Abbreviation M := (meth (Heartbeat.world R) exn).

Definition worker_id : string := match h with Some h => if str_truthy (workerId h) then workerId h else "worker-local" | None => "worker-local" end.
(** worker/recovery/worker-monitor.ts:26-38 getStatus *)
Definition getStatus (now : Z) : M WorkerStatus :=
  alive ← (match h with Some hb => isAlive hb now worker_id | None => mret true end);
  mret (Status worker_id alive (JobProcessor.jobsProcessedCount p) (JobProcessor.jobsFailedCount p) ((now - startTime) / 1000)).
(** worker/recovery/worker-monitor.ts:44-56 getHealth
    Healthy, the heartbeat is active, the processor runs. *)
Definition getHealth (now : Z) : M (bool * bool * bool) :=
  status ← getStatus now;
  let heartbeatActive := alive status in
  let processorRunning := negb (JobProcessor.isStopped p) in
  mret (heartbeatActive && processorRunning, heartbeatActive, processorRunning).
End monitor.

(** worker/worker.module.ts:67-67 initializeWorkerModule
    The heartbeat of the program. *)
Definition wired_heartbeat {R} (now : Z) (redis cfg : arg (Z -> hb_ops R)) : heartbeat (Z -> hb_ops R) := new now AUndefined redis AUndefined cfg.

(** Whatever client there is, the program's heartbeat writes nothing and its
    worker is never healthy. *)
Lemma wired_never_healthy {R} (ops : Z -> hb_ops R) cfg t0 now p startTime (w : Heartbeat.world R) :
  let h := wired_heartbeat t0 (AClient ops) cfg in
  ping h now w = (w, Ok tt) /\ exists running, (getHealth (Some h) p startTime now w).2 = Ok (false, false, running).
Proof. cbv zeta. split; [reflexivity|]. eexists. reflexivity. Qed.
End WorkerMonitor.

(** ** Witnesses *)

Module Samples.
Import KeySpace Heartbeat.

Abbreviation R := (gmap string entry_t).
Lemma heartbeat_lease_witness :
  let h := Beat "w1" 30 (Some (raw_ops RedisOperations.unconnected)) in
  (isAlive h 15000 "w1" (beats h 0 1 (start h 0 (World (∅ : R) false)).1)).2 = Ok true.
Proof.
  destruct (heartbeat_lease RedisOperations.unconnected "w1" 30 eq_refl 0 1 15000 (World (∅ : R) false)) as [[_ Hl] _].
  - lia.
  - done.
  - change (intervalMs _) with 10000. lia.
  - cbv zeta. exact (Hl ltac:(lia)).
Defined.

Lemma shutdown_waits_witness :
  exists n, GracefulShutdown.waitForCompletion (fun n => if (n <? 3)%nat then 2 else 0) (fun n => 200 * Z.of_nat n) 0 60000 = Some n /\
    (n <= 301)%nat.
Proof.
  destruct (GracefulShutdown.shutdown_waits (fun n => if (n <? 3)%nat then 2 else 0) (fun n => 200 * Z.of_nat n) 0 60000)
    as (n & Hn & _ & _ & Hl); [lia|lia|lia|]. exists n. split; [done|lia].
Defined.

(** A detector whose rows were all last updated at the epoch. *)
Lemma stuck_delivery_released :
  let w := StaleJobs.World Wiring.demo_tables Jobs.no_jobs in
  Store.find_delivery "c" (StaleJobs.db (StaleJobs.detectStale (fun _ _ => 0) 40000 w).1) =
    Some (Wiring.demo_row Status.PENDING None).
Proof. vm_compute. reflexivity. Qed.
End Samples.
