(* ===== verification/Health.v ===== *)
(** * Health

    [daemon/health/] and [observability/health/]: the probes of the dependencies
    ([DependencyChecker]), the score and severity of their answers
    ([HealthAnalyzer]), the daemon that publishes an alert at each change
    ([HealthDaemon]), the weighted score ([HealthScore]), the service levels
    ([SLOTracker]), the count of workers ([WorkerMonitor]), and the wait for a
    healthy start. *)
From Stdlib Require Import Ascii QArith Qround Qpower Qabs Lqa.
From stdpp Require Import base tactics numbers list strings gmap pretty sorting.
From S2P Require Import Prelude JsNum JsValue Errors Text Redis Repositories Coordinator.

(** ** The probes *)

Module DependencyChecker.

(** daemon/health/dependency-checker.ts:7-7 HealthStatus
    A text, a detail, or nothing. *)
Inductive HealthStatus : Type :=
| Text (s : string)
| Detail (healthy : bool) (latencyMs : Z) (error : option string)
| Absent.

(** daemon/health/dependency-checker.ts:9-16 DependencyStatus
    Without the time stamp. *)
Record DependencyStatus : Type := Checks {
  database : HealthStatus; redis : HealthStatus; queue : HealthStatus; all_healthy : bool; overall : option string;
}.

(** What a probe met: its start, its end, and how the call of the dependency
    ended; [None] when the dependency has no method to call. *)
Record probe : Type := Probe { start : Z; finish : Z; answer : option (res exn unit) }.

(** [err.message || String(err)] *)
Definition message_of (e : exn) : string :=
  let err := Errors.exn_js e in js_String (js_or (js_get "message" err) (JString (js_String err))).
(** daemon/health/dependency-checker.ts:68-84 checkDatabase *)
Definition checkDatabase (p : probe) : HealthStatus :=
  match answer p with
  | Some (Throw e) => Detail false (finish p - start p) (Some (message_of e))
  | _ => Detail true (finish p - start p) None
  end.
(** daemon/health/dependency-checker.ts:89-99 checkRedis *)
Definition checkRedis (p : probe) : HealthStatus :=
  match answer p with
  | Some (Throw e) => Detail false (finish p - start p) (Some (message_of e))
  | _ => Detail true (finish p - start p) None
  end.
(** daemon/health/dependency-checker.ts:104-121 checkQueue *)
Definition checkQueue (p : probe) : HealthStatus :=
  match answer p with
  | Some (Throw e) => Detail false (finish p - start p) (Some (message_of e))
  | _ => Detail true (finish p - start p) None
  end.
(** daemon/health/dependency-checker.ts:44-44 checkAll *)
Definition is_healthy (c : HealthStatus) : bool :=
  match c with
  | Detail h _ _ => h
  | Text s => str_eqb s "HEALTHY" || str_eqb s "healthy"
  | Absent => false
  end.
Definition as_text (healthy : bool) : string := if healthy then "HEALTHY" else "UNHEALTHY".
(** daemon/health/dependency-checker.ts:37-63 checkAll *)
Definition checkAll (dbProbe redisProbe queueProbe : probe) : DependencyStatus :=
  let isDbHealthy := is_healthy (checkDatabase dbProbe) in
  let isRedisHealthy := is_healthy (checkRedis redisProbe) in
  let isQueueHealthy := is_healthy (checkQueue queueProbe) in
  let all_healthy := isDbHealthy && isRedisHealthy && isQueueHealthy in
  Checks (Text (as_text isDbHealthy)) (Text (as_text isRedisHealthy)) (Text (as_text isQueueHealthy)) all_healthy
    (Some (as_text all_healthy)).

Definition failed (p : probe) : bool := match answer p with Some (Throw _) => true | _ => false end.
Lemma probes_healthy p :
  is_healthy (checkDatabase p) = negb (failed p) /\ is_healthy (checkRedis p) = negb (failed p) /\
  is_healthy (checkQueue p) = negb (failed p).
Proof. unfold checkDatabase, checkRedis, checkQueue, failed. by destruct (answer p) as [[[]|e]|]. Qed.
End DependencyChecker.

(** ** The analysis *)

Module HealthAnalyzer.
Import DependencyChecker.

Inductive severity : Type := Healthy | Degraded | Unhealthy.
#[global] Instance severity_eq_dec : EqDecision severity.
Proof. solve_decision. Defined.
Definition severity_name (s : severity) : string :=
  match s with Healthy => "healthy" | Degraded => "degraded" | Unhealthy => "unhealthy" end.

(** daemon/health/health-analyzer.ts:3-8 HealthAnalysis *)
Record HealthAnalysis : Type := Analysis {
  score : Z; a_severity : severity; summary : string; details : HealthStatus * HealthStatus * HealthStatus;
}.

(** daemon/health/health-analyzer.ts:10-14 isHealthy *)
Definition isHealthy (c : HealthStatus) : bool :=
  match c with
  | Absent => false
  | Text s => str_truthy s && str_eqb (to_upper s) "HEALTHY"
  | Detail h _ _ => h
  end.
(** daemon/health/health-analyzer.ts:16-19 getLatency *)
Definition getLatency (c : HealthStatus) : Z := match c with Detail _ l _ => l | _ => 0 end.
(** One component's part of the score. *)
Definition points (c : HealthStatus) (worth slow : Z) : Z :=
  if isHealthy c then worth - (if getLatency c >? slow then 10 else 0) else 0.
(** daemon/health/health-analyzer.ts:52-74 calculateScore *)
Definition calculateScore (checks : DependencyStatus) : Z :=
  let score := points (database checks) 35 500 + points (redis checks) 35 200 + points (queue checks) 30 300 in
  Z.max 0 (Z.min 100 score).
Definition failedCount (checks : DependencyStatus) : nat :=
  length (filter (fun c => isHealthy c = false) [database checks; redis checks; queue checks]).
Definition by_score (score : Z) : severity := if score >=? 90 then Healthy else if score >=? 50 then Degraded else Unhealthy.
(** daemon/health/health-analyzer.ts:79-91 determineSeverity *)
Definition determineSeverity (score : Z) (checks : option DependencyStatus) : severity :=
  match checks with
  | Some checks =>
      if (2 <=? failedCount checks)%nat then Unhealthy
      else if (failedCount checks =? 1)%nat then Degraded
      else by_score score
  | None => by_score score
  end.
(** daemon/health/health-analyzer.ts:30-47 analyze *)
Definition analyze (checks : DependencyStatus) : HealthAnalysis :=
  let score := calculateScore checks in
  let severity := determineSeverity score (Some checks) in
  Analysis score severity ("System health score: " +:+ pretty score +:+ "/100 (" +:+ to_upper (severity_name severity) +:+ ")")
    (database checks, redis checks, queue checks).

Lemma points_range c w l : 10 <= w -> 0 <= points c w l <= w.
Proof. intros Hw. unfold points. destruct (isHealthy c); [|lia]. destruct (_ >? _); lia. Qed.
Lemma score_range checks : 0 <= calculateScore checks <= 100.
Proof. unfold calculateScore. lia. Qed.

Definition slowCount (checks : DependencyStatus) : nat :=
  length (filter (fun x : HealthStatus * Z => x.2 < getLatency x.1)
            [(database checks, 500); (redis checks, 200); (queue checks, 300)]).
(** The severity never contradicts the number of failed components: it is
    unhealthy from two on, degraded for one, and for none healthy or, when at
    least two components answer slowly, degraded. *)
Lemma severity_of checks :
  a_severity (analyze checks) =
  match failedCount checks with
  | O => if (2 <=? slowCount checks)%nat then Degraded else Healthy
  | 1%nat => Degraded
  | _ => Unhealthy
  end.
Proof.
  unfold analyze, determineSeverity, calculateScore, failedCount, slowCount, points, by_score. cbn [a_severity].
  destruct checks as [d r q all o]. cbn [database redis queue].
  rewrite !filter_cons, !filter_nil. cbn [fst snd].
  destruct (isHealthy d), (isHealthy r), (isHealthy q);
    repeat first [rewrite (decide_True (P := false = false)) by done | rewrite (decide_False (P := true = false)) by done];
    cbn [length Nat.leb Nat.eqb]; try reflexivity.
  destruct (Z.gtb_spec (getLatency d) 500), (Z.gtb_spec (getLatency r) 200), (Z.gtb_spec (getLatency q) 300);
    repeat (first [rewrite decide_True by lia | rewrite decide_False by lia]); reflexivity.
Qed.
End HealthAnalyzer.

(** ** The daemon *)

Module HealthDaemon.
Import DependencyChecker HealthAnalyzer.

(** daemon/health/alert-publisher.ts:18-24 publishAlert
    The two kinds of event, without their time stamps. *)
Inductive alert : Type :=
| SystemHealth (type_ severity message : string) (details : HealthStatus * HealthStatus * HealthStatus)
| ServiceRecovered (serviceName message : string).

Section daemon.
Context {P : Type}.

(** The event publisher, when there is one; a failure of it is logged. *)
Definition quietly (eventPublisher : option (alert -> meth P exn unit)) (e : alert) : meth P exn unit :=
  match eventPublisher with Some publish => try_catch (publish e) (fun _ => mret tt) | None => mret tt end.
(** daemon/health/alert-publisher.ts:13-39 publishAlert *)
Definition publishAlert eventPublisher (severity message : string) details : meth P exn unit :=
  quietly eventPublisher (SystemHealth ("alert.system_health_" +:+ severity) severity message details).
(** daemon/health/alert-publisher.ts:44-60 publishRecovery *)
Definition publishRecovery eventPublisher (serviceName : string) : meth P exn unit :=
  quietly eventPublisher (ServiceRecovered serviceName ("Service " +:+ quoted serviceName +:+ " has recovered and returned to HEALTHY status.")).

(** daemon/health/health-daemon.ts:46-51 HealthDaemon
    The severity it last saw, the gauges it last set (database, Redis, queue,
    score), and what the publisher keeps. *)
Record state : Type := Daemon { previousSeverity : severity; gauges : option (Z * Z * Z * Z); published : P }.
Definition fresh (p : P) : state := Daemon Healthy None p.
Abbreviation M := (meth state exn).

(** A call of the alerter. *)
Definition on_publisher (m : meth P exn unit) : M unit := fun s =>
  let '(p, o) := m (published s) in (Daemon (previousSeverity s) (gauges s) p, o).

(** daemon/health/health-daemon.ts:116-121 execute
    What is assumed without a checker. *)
Definition default_checks : DependencyStatus := Checks (Detail true 5 None) (Detail true 2 None) (Detail true 3 None) true None.
(** daemon/health/health-daemon.ts:123-131 execute
    With the checker's answer, [None] when there is no checker. *)
Definition checks_of (checker : option (res exn DependencyStatus)) : DependencyStatus :=
  match checker with
  | None => default_checks
  | Some (Ok checks) => checks
  | Some (Throw _) => Checks (Detail false 5 None) (Detail true 2 None) (Detail true 3 None) false None
  end.
Definition gauge (c : HealthStatus) : Z := if is_healthy c then 1 else 0.

Context (alerter : option (option (alert -> meth P exn unit))).

(** daemon/health/health-daemon.ts:155-163 execute *)
Definition announce (analysis : HealthAnalysis) : M unit :=
  match alerter with
  | None => mret tt
  | Some publisher =>
      on_publisher (match a_severity analysis with
                    | Unhealthy => publishAlert publisher "critical" "System health status transitioned to UNHEALTHY" (details analysis)
                    | Degraded => publishAlert publisher "warning" "System health status transitioned to DEGRADED" (details analysis)
                    | Healthy => publishRecovery publisher "Infrastructure Dependencies"
                    end)
  end.
(** daemon/health/health-daemon.ts:113-169 execute *)
Definition execute (checker : option (res exn DependencyStatus)) : M unit :=
  let checks := checks_of checker in
  let analysis := analyze checks in
  modify (fun s => Daemon (previousSeverity s)
                     (Some (gauge (database checks), gauge (redis checks), gauge (queue checks), score analysis)) (published s));;
  s ← get_this;
  if decide (a_severity analysis = previousSeverity s) then mret tt
  else announce analysis;; modify (fun s => Daemon (a_severity analysis) (gauges s) (published s)).
(** daemon/health/health-daemon.ts:97-108 check
    The checker is asked twice; [monitor] is the worker monitor's check. *)
Definition check (first second : option (res exn DependencyStatus)) (monitor : M unit) : M string :=
  statusVal ← match first with
              | None => mret "HEALTHY"
              | Some (Throw e) => fail e
              | Some (Ok c) => mret (match overall c with Some o => str_or o "HEALTHY" | None => "HEALTHY" end)
              end;
  monitor;; execute second;; mret statusVal.
End daemon.

(** *** What is announced *)

(** The severities that differ from the one before. *)
Fixpoint changes (prev : severity) (l : list severity) : list severity :=
  match l with
  | [] => []
  | s :: l => if decide (s = prev) then changes prev l else s :: changes s l
  end.
Lemma changes_last prev l : last (prev :: changes prev l) = last (prev :: l).
Proof.
  revert prev. induction l as [|s l IH]; intros prev; [done|]. cbn [changes]. case_decide as Hs.
  - subst. rewrite IH. by destruct l.
  - change (last (prev :: s :: changes s l)) with (last (s :: changes s l)). by rewrite IH.
Qed.
Lemma changes_alternate prev l i a b :
  (prev :: changes prev l) !! i = Some a -> (prev :: changes prev l) !! S i = Some b -> a <> b.
Proof.
  revert prev i. induction l as [|s l IH]; intros prev i; [by destruct i|]. cbn [changes]. case_decide as Hs; [apply IH|].
  destruct i as [|i]; simpl; [intros [= ->] [= ->]; congruence|]. apply (IH s i).
Qed.

(** The severity an event tells of. *)
Definition told (e : alert) : severity :=
  match e with
  | ServiceRecovered _ _ => Healthy
  | SystemHealth _ severity _ _ => if str_eqb severity "critical" then Unhealthy else Degraded
  end.

Section cycles.
Context (answer : alert -> res exn unit).
(** A publisher that keeps every event, whatever it answers. *)
Definition recorder (e : alert) : meth (list alert) exn unit := fun p => (p ++ [e], answer e).
Definition cycles (l : list (probe * probe * probe)) (s : state) : state :=
  fold_left (fun s '(d, r, q) => (execute (Some (Some recorder)) (Some (Ok (checkAll d r q))) s).1) l s.
(** The severity by the number of failed probes. *)
Definition failures (x : probe * probe * probe) : nat := let '(d, r, q) := x in length (filter (fun p => failed p = true) [d; r; q]).
Definition severity_for (x : probe * probe * probe) : severity :=
  match failures x with O => Healthy | 1%nat => Degraded | _ => Unhealthy end.
Definition bit (p : probe) : Z := if failed p then 0 else 1.

Lemma cycle_analysis d r q :
  a_severity (analyze (checkAll d r q)) = severity_for (d, r, q) /\
  score (analyze (checkAll d r q)) = 35 * bit d + 35 * bit r + 30 * bit q.
Proof.
  unfold analyze, determineSeverity, calculateScore, failedCount, points, checkAll, severity_for, failures, bit. cbn [a_severity score database redis queue].
  rewrite !(proj1 (probes_healthy d)), (proj1 (proj2 (probes_healthy r))), (proj2 (proj2 (probes_healthy q))).
  rewrite !filter_cons, !filter_nil. by destruct (failed d), (failed r), (failed q).
Qed.

Lemma execute_cycle d r q s :
  exists g p, execute (Some (Some recorder)) (Some (Ok (checkAll d r q))) s = (Daemon (severity_for (d, r, q)) (Some g) p, Ok tt) /\
    g = (bit d, bit r, bit q, 35 * bit d + 35 * bit r + 30 * bit q) /\
    map told p = map told (published s) ++ (if decide (severity_for (d, r, q) = previousSeverity s) then [] else [severity_for (d, r, q)]).
Proof.
  destruct (cycle_analysis d r q) as [Hs Hp]. unfold execute. cbn [checks_of]. rewrite Hs, Hp.
  assert (gauge (database (checkAll d r q)) = bit d /\ gauge (redis (checkAll d r q)) = bit r /\ gauge (queue (checkAll d r q)) = bit q) as (-> & -> & ->).
  { unfold gauge, checkAll, bit. cbn [database redis queue].
    rewrite !(proj1 (probes_healthy d)), (proj1 (proj2 (probes_healthy r))), (proj2 (proj2 (probes_healthy q))).
    by destruct (failed d), (failed r), (failed q). }
  unfold modify, get_this, mbind, meth_bind. cbn [previousSeverity gauges published]. destruct (decide _) as [He|Hne].
  - eexists _, _. split; [|split; [reflexivity|by rewrite app_nil_r]]. by rewrite He.
  - unfold announce. rewrite Hs. unfold on_publisher, publishAlert, publishRecovery, quietly, try_catch, recorder.
    cbn [published previousSeverity gauges].
    destruct (severity_for (d, r, q)); destruct (answer _) as [[]|]; (eexists _, _; split; [reflexivity|]; split; [reflexivity|];
      cbn [published]; rewrite map_app; reflexivity).
Qed.

(** The daemon announces exactly the changes of severity, where a cycle is
    healthy without a failed probe, degraded with one and unhealthy with more,
    however slow the probes were: no two announcements in a row tell the same
    severity, the last one tells the present severity, and a publisher that
    fails loses no later announcement.  The gauges show the last cycle. *)
Theorem changes_announced l p0 :
  let s := cycles l (fresh p0) in
  map told (published s) = map told p0 ++ changes Healthy (map severity_for l) /\
  last (Healthy :: changes Healthy (map severity_for l)) = Some (previousSeverity s) /\
  (forall i a b, (Healthy :: changes Healthy (map severity_for l)) !! i = Some a ->
     (Healthy :: changes Healthy (map severity_for l)) !! S i = Some b -> a <> b) /\
  gauges s = (fun '(d, r, q) => (bit d, bit r, bit q, 35 * bit d + 35 * bit r + 30 * bit q)) <$> last l.
Proof.
  cbv zeta. rewrite changes_last. split; [|split; [|split; [apply changes_alternate|]]].
  - assert (forall s, map told (published (cycles l s)) = map told (published s) ++ changes (previousSeverity s) (map severity_for l)) as Hl.
    { induction l as [|[[d r] q] l IH]; intros s; [by rewrite app_nil_r|]. cbn [cycles fold_left map changes]. fold (cycles l).
      destruct (execute_cycle d r q s) as (g & p & -> & _ & Hp). cbn [fst]. fold (cycles l (Daemon (severity_for (d, r, q)) (Some g) p)).
      rewrite IH. cbn [published previousSeverity]. rewrite Hp. case_decide as He; [by rewrite app_nil_r, He|by rewrite <- app_assoc]. }
    apply Hl.
  - assert (forall s, last (previousSeverity s :: map severity_for l) = Some (previousSeverity (cycles l s))) as Hl.
    { induction l as [|[[d r] q] l IH]; intros s; [done|]. cbn [cycles fold_left map].
      destruct (execute_cycle d r q s) as (g & p & -> & _ & _). cbn [fst]. fold (cycles l (Daemon (severity_for (d, r, q)) (Some g) p)).
      rewrite <- IH. done. }
    apply (Hl (fresh p0)).
  - destruct l as [|x l _] using rev_ind; [done|]. destruct x as [[d r] q]. unfold cycles. rewrite fold_left_app. cbn [fold_left].
    destruct (execute_cycle d r q (fold_left (fun s '(d, r, q) => (execute (Some (Some recorder)) (Some (Ok (checkAll d r q))) s).1) l (fresh p0)))
      as (g & p & -> & -> & _). cbn [fst gauges]. by rewrite last_snoc.
Qed.
End cycles.
End HealthDaemon.

(** ** The weighted score *)

Module HealthScore.

Section score.
Context {W : Type}.

(** observability/health/health-score.ts:1-6 HealthCheckItem *)
Record item : Type := Item { name : string; weight : num; checker : meth W exn bool; passed : bool }.

(** observability/health/health-score.ts:24-31 addCheck *)
Definition addCheck (n : string) (w : num) (c : meth W exn bool) (l : list item) : list item := l ++ [Item n w c true].
(** observability/health/health-score.ts:37-43 run
    The checkers act on [W]. *)
Fixpoint run (l : list item) (w : W) : W * list item :=
  match l with
  | [] => (w, [])
  | i :: l =>
      let '(w, o) := checker i w in
      let '(w, l) := run l w in
      (w, Item (name i) (weight i) (checker i) (match o with Ok b => b | Throw _ => false end) :: l)
  end.
Definition total (l : list item) : num := fold_left (fun acc c => num_add acc (weight c)) l (ofZ 0).
Definition passed_weight (l : list item) : num :=
  fold_left (fun acc c => num_add acc (if passed c then weight c else ofZ 0)) l (ofZ 0).
(** observability/health/health-score.ts:49-57 calculate *)
Definition calculate (l : list item) : num :=
  match l with
  | [] => ofZ 100
  | _ => if num_leb (total l) (ofZ 0) then ofZ 100
         else num_round (num_mul (num_div (passed_weight l) (total l)) (ofZ 100))
  end.
(** observability/health/health-score.ts:62-72 getReport *)
Definition getReport (l : list item) : num * list (string * bool * num) :=
  (calculate l, map (fun c => (name c, passed c, weight c)) l).

(** *** Its bounds *)

Definition weighs (c : item) (q : Q) : Prop := weight c = Fin q /\ (0 <= q)%Q.
Fixpoint sum (l : list Q) : Q := match l with [] => 0%Q | q :: l => (q + sum l)%Q end.
Definition counted (c : item) (q : Q) : Q := if passed c then q else 0%Q.

Lemma fold_weights (f : item -> num) (g : item -> Q -> Q) l ws a :
  (forall c q, weighs c q -> f c = Fin (g c q)) -> Forall2 weighs l ws ->
  exists r, fold_left (fun acc c => num_add acc (f c)) l (Fin a) = Fin r /\
    (r == a + sum (zip_with g l ws))%Q.
Proof.
  intros Hf Hl. revert a. induction Hl as [|c q l ws Hc Hl IH]; intros a.
  - exists a. split; [done|]. simpl. lra.
  - cbn [fold_left]. rewrite (Hf c q Hc). cbn [num_add]. destruct (IH (a + g c q)%Q) as (r & -> & Hr). exists r. split; [done|].
    cbn [zip_with sum]. lra.
Qed.
Lemma sum_counted l ws :
  Forall2 weighs l ws -> (0 <= sum (zip_with counted l ws) <= sum (zip_with (fun _ q => q) l ws))%Q /\
  (forallb passed l = true -> (sum (zip_with counted l ws) == sum (zip_with (fun _ q => q) l ws))%Q) /\
  (forallb (fun c => negb (passed c)) l = true -> (sum (zip_with counted l ws) == 0)%Q).
Proof.
  unfold counted. induction 1 as [|c q l ws [_ Hq] Hl (IH1 & IH2 & IH3)]; simpl; [repeat split; intros; lra|].
  destruct (passed c); simpl; (split; [lra|]); split; intros Ha; try done; rewrite ?IH2, ?IH3 by done; lra.
Qed.
End score.
Arguments item : clear implicits.

(** With weights that are not negative and do not all vanish, the score is the
    percentage of the weight that passed, rounded half up: a whole number
    between 0 and 100, 100 when all checks pass and 0 when none does. *)
Theorem score_percentage {W} (l : list (item W)) ws :
  Forall2 weighs l ws -> (0 < sum ws)%Q ->
  let share := (sum (zip_with counted l ws) / sum ws * 100)%Q in
  exists z, calculate l = ofZ z /\ (inject_Z z - (1 # 2) <= share)%Q /\ (share < inject_Z z + (1 # 2))%Q /\ 0 <= z <= 100 /\
    (forallb passed l = true -> z = 100) /\ (forallb (fun c => negb (passed c)) l = true -> z = 0).
Proof.
  intros Hl Hpos. cbv zeta.
  assert (zip_with (fun (_ : item W) q => q) l ws = ws) as Hz by (clear Hpos; induction Hl as [|c q l ws _ _ IH]; [done|]; simpl; by rewrite IH).
  destruct (sum_counted l ws Hl) as (Hr & Hall & Hnone). rewrite Hz in Hr, Hall.
  destruct (fold_weights weight (fun _ q => q) l ws 0 (fun c q H => proj1 H) Hl) as (t & Ht & Ht'). rewrite Hz in Ht'.
  destruct (fold_weights (fun c => if passed c then weight c else ofZ 0) counted l ws 0) as (p & Hp & Hp'); [|done|].
  { intros c q [Hc _]. unfold counted. by destruct (passed c). }
  set (s := sum ws) in *. set (y := sum (zip_with counted l ws)) in *. set (x := (y / s * 100)%Q).
  assert (calculate l = ofZ (Qfloor (p / t * 100 + (1 # 2)))) as Hc.
  { unfold calculate, total, passed_weight. change (Fin 0) with (ofZ 0) in Ht, Hp. rewrite Ht, Hp.
    destruct l as [|c l]; [inversion Hl; subst; cbn in s; unfold s in Hpos; lra|]. change (num_leb (Fin t) (ofZ 0)) with (num_leb (Fin t) (Fin (inject_Z 0))). rewrite num_leb_Fin.
    destruct (Qle_bool t (inject_Z 0)) eqn:E; [apply Qle_bool_iff in E; change (inject_Z 0) with 0%Q in E; lra|].
    unfold num_div. destruct (Qeq_bool t 0) eqn:E2; [apply Qeq_bool_iff in E2; lra|]. reflexivity. }
  assert (p / t * 100 == x)%Q as Hx.
  { unfold x. assert (t == s)%Q as -> by lra. assert (p == y)%Q as -> by lra. reflexivity. }
  exists (Qfloor (p / t * 100 + (1 # 2))). split; [done|].
  pose proof (Qfloor_le (p / t * 100 + (1 # 2))) as Hf1. pose proof (Qlt_floor (p / t * 100 + (1 # 2))) as Hf2. rewrite inject_Z_plus in Hf2.
  assert (Qfloor (p / t * 100 + (1 # 2)) = Qfloor (x + (1 # 2))) as Hfl by (apply Qfloor_comp; lra). rewrite Hfl in *. clear Hfl.
  change (inject_Z 1) with 1%Q in Hf2. rewrite Hx in Hf1, Hf2.
  assert (forall v, (y == v * s)%Q -> (x == v * 100)%Q) as Hv by (intros v Hy; unfold x; rewrite Hy; field; lra).
  assert (0 <= x)%Q as Hx0 by (unfold x; apply Qmul_nonneg; [apply Qle_shift_div_l; lra|lra]).
  assert (x <= 100)%Q as Hx1.
  { unfold x. assert (y / s <= 1)%Q by (apply Qle_shift_div_r; lra). lra. }
  split_and!; [lra|lra| | |intros Ha; specialize (Hall Ha)|intros Ha; specialize (Hnone Ha)].
  - apply (Qfloor_inject_le 0). change (inject_Z 0) with 0%Q. lra.
  - apply Zlt_succ_le. rewrite Zlt_Qlt, <- Z.add_1_r, inject_Z_plus. change (inject_Z 100) with 100%Q. change (inject_Z 1) with 1%Q. lra.
  - rewrite (Qfloor_comp _ (100 + (1 # 2))); [reflexivity|]. specialize (Hv 1%Q ltac:(lra)). lra.
  - rewrite (Qfloor_comp _ (1 # 2)); [reflexivity|]. specialize (Hv 0%Q ltac:(lra)). lra.
Qed.
Lemma score_percentage_witness :
  let l := [Item "db" (ofZ 2) (mret true : meth unit exn bool) true; Item "redis" (ofZ 1) (mret true) false] in
  exists z, calculate l = ofZ z /\ 0 <= z <= 100.
Proof.
  cbv zeta.
  destruct (score_percentage [Item "db" (ofZ 2) (mret true : meth unit exn bool) true; Item "redis" (ofZ 1) (mret true) false] [2%Q; 1%Q])
    as (z & Hz & _ & _ & Hb & _).
  - repeat constructor; unfold weighs; simpl; done.
  - reflexivity.
  - by exists z.
Defined.

End HealthScore.

(** ** Service levels *)

Module SLOTracker.

(** observability/health/slo-tracker.ts:23-30 SLOTracker
    Latencies in whole milliseconds. *)
Record tracker : Type := Tracker {
  totalRequests : Z; successfulRequests : Z; failedRequests : Z; latencies : list Z;
  availabilityTarget : num; latencyP95TargetMs : num; errorRateTarget : num;
}.
(** observability/health/slo-tracker.ts:32-39 constructor
    [??]: the defaults replace only what is missing. *)
Definition new (availability latencyP95 errorRate : option num) : tracker :=
  Tracker 0 0 0 [] (default (Fin (999 # 10)) availability) (default (ofZ 5000) latencyP95) (default (Fin (1 # 20)) errorRate).
(** observability/health/slo-tracker.ts:41-48 trackAvailability *)
Definition trackAvailability (success : bool) (s : tracker) : tracker :=
  Tracker (totalRequests s + 1) (successfulRequests s + if success then 1 else 0) (failedRequests s + if success then 0 else 1)
    (latencies s) (availabilityTarget s) (latencyP95TargetMs s) (errorRateTarget s).
(** observability/health/slo-tracker.ts:50-55 trackLatency *)
Definition trackLatency (latencyMs : Z) (s : tracker) : tracker :=
  let l := latencies s ++ [latencyMs] in
  Tracker (totalRequests s) (successfulRequests s) (failedRequests s) (if (1000 <? length l)%nat then tail l else l)
    (availabilityTarget s) (latencyP95TargetMs s) (errorRateTarget s).
(** observability/health/slo-tracker.ts:57-59 trackErrorRate *)
Definition trackErrorRate := trackAvailability.

(** observability/health/slo-tracker.ts:7-11 SLOStatus *)
Record SLOStatus : Type := Status { met : bool; budget : num; burndown : num }.
Definition percent (n total : Z) : num := num_mul (num_div (ofZ n) (ofZ total)) (ofZ 100).
Definition total_or_1 (s : tracker) : Z := if totalRequests s =? 0 then 1 else totalRequests s.
(** observability/health/slo-tracker.ts:61-76 getStatus *)
Definition getStatus (s : tracker) : SLOStatus :=
  let total := total_or_1 s in
  let availabilityPct := percent (successfulRequests s) total in
  let allowedFailureRate := num_sub (ofZ 100) (availabilityTarget s) in
  let actualFailureRate := percent (failedRequests s) total in
  Status (num_geb availabilityPct (availabilityTarget s))
    (num_max (ofZ 0) (num_sub allowedFailureRate actualFailureRate))
    (if num_gtb allowedFailureRate (ofZ 0) then num_mul (num_div actualFailureRate allowedFailureRate) (ofZ 100) else ofZ 0).
(** observability/health/slo-tracker.ts:84-89 getSLOReport *)
Definition latencyP95 (s : tracker) : Z :=
  match latencies s with
  | [] => 0
  | l => let sorted := sort_by (fun x => x) l in
         let index := (19 * length sorted / 20)%nat in
         default 0 (sorted !! Nat.min index (length sorted - 1))
  end.
(** The binary64 product of a count with 0.95 has the same whole part. *)
Example index_exact :
  forallb (fun n => Qfloor (round64 (inject_Z (Z.of_nat n) * round64 (19 # 20))) =? 19 * Z.of_nat n / 20) (seq 1 1000) = true.
Proof. vm_compute. reflexivity. Qed.
(** observability/health/slo-tracker.ts:13-18 SLOReport *)
Record SLOReport : Type := Report { availability : num; p95 : Z; errorRate : num; status : SLOStatus }.
(** observability/health/slo-tracker.ts:78-96 getSLOReport *)
Definition getSLOReport (s : tracker) : SLOReport :=
  let total := total_or_1 s in
  Report (percent (successfulRequests s) total) (latencyP95 s) (percent (failedRequests s) total) (getStatus s).

Lemma latencyP95_eq s :
  latencies s <> [] ->
  latencyP95 s = let sorted := sort_by (fun x => x) (latencies s) in
    default 0 (sorted !! Nat.min (19 * length sorted / 20) (length sorted - 1)).
Proof. unfold latencyP95. by destruct (latencies s). Qed.

Inductive call : Type := Availability (success : bool) | Latency (ms : Z).
Definition exec (c : call) (s : tracker) : tracker :=
  match c with Availability b => trackAvailability b s | Latency ms => trackLatency ms s end.
Definition run (l : list call) (s : tracker) : tracker := fold_left (fun s c => exec c s) l s.
Definition latency_of (c : call) : option Z := match c with Latency ms => Some ms | _ => None end.
Definition outcome_of (c : call) : option bool := match c with Availability b => Some b | _ => None end.

(** The last thousand elements. *)
Definition last_thousand (l : list Z) : list Z := drop (length l - 1000) l.
Lemma last_thousand_snoc l x :
  last_thousand (l ++ [x]) =
  (if (1000 <? length (last_thousand l ++ [x]))%nat then tail (last_thousand l ++ [x]) else last_thousand l ++ [x]).
Proof.
  unfold last_thousand. rewrite !length_app, length_drop. cbn [length]. destruct (Nat.ltb_spec 1000 (length l - (length l - 1000) + 1)).
  - replace (tail (drop (length l - 1000) l ++ [x])) with (drop 1 (drop (length l - 1000) l ++ [x])) by by destruct (_ ++ _).
    rewrite <- (drop_app_le l [x] (length l - 1000)) by lia. rewrite drop_drop. f_equal. lia.
  - replace (length l + 1 - 1000)%nat with 0%nat by lia. replace (length l - 1000)%nat with 0%nat by lia. by rewrite !drop_0.
Qed.

Definition b2z (b : bool) : Z := if b then 1 else 0.
Fixpoint count (f : bool -> bool) (l : list call) : Z :=
  match l with [] => 0 | c :: l => match outcome_of c with Some b => b2z (f b) | None => 0 end + count f l end.

Lemma run_spec l a p e :
  let s := run l (new a p e) in
  latencies s = last_thousand (omap latency_of l) /\ successfulRequests s = count (fun b => b) l /\
  failedRequests s = count negb l /\ totalRequests s = successfulRequests s + failedRequests s /\ availabilityTarget s = availabilityTarget (new a p e).
Proof.
  assert (forall x l1, omap latency_of (l1 ++ [x]) = omap latency_of l1 ++ (match latency_of x with Some v => [v] | None => [] end)) as Ho.
  { intros x l1. rewrite omap_app. simpl. by destruct (latency_of x). }
  assert (forall f x l1, count f (l1 ++ [x]) = count f l1 + count f [x]) as Hc by (intros f x l1; induction l1 as [|y l1 IH]; simpl in *; lia).
  cbv zeta. induction l as [|c l IH] using rev_ind; [done|]. unfold run in *. rewrite fold_left_app. cbn [fold_left].
  set (s := fold_left _ l _) in *. destruct IH as (IH1 & IH2 & IH3 & IH4 & IH5). rewrite Ho, !Hc.
  destruct c as [b|ms]; cbn [exec trackAvailability trackLatency latencies successfulRequests failedRequests totalRequests availabilityTarget latency_of].
  - rewrite app_nil_r. simpl count. split_and!; [done| | | |done]; destruct b; simpl; lia.
  - rewrite IH1. simpl count. split_and!; [by rewrite last_thousand_snoc|lia|lia|lia|done].
Qed.

Lemma sorted_rank (l : list Z) (i : nat) (x : Z) :
  StronglySorted (by_key (fun x => x)) l -> l !! i = Some x ->
  (i < length (filter (fun y => (y <= x)%Z) l))%nat /\ (length (filter (fun y => (y < x)%Z) l) <= i)%nat.
Proof.
  intros Hs. revert i. induction Hs as [|y l Hl IH Hy]; intros i; [done|]. unfold by_key in Hy. rewrite Forall_forall in Hy.
  destruct i as [|i]; simpl.
  - intros [= ->]. rewrite !filter_cons, decide_True, decide_False by lia. split; [simpl; lia|].
    assert (filter (fun y => y < x) l = []) as ->; [|simpl; lia].
    apply elem_of_nil_inv. intros z [Hz1 Hz2]%list_elem_of_filter. specialize (Hy z Hz2). lia.
  - intros Hx. destruct (IH i Hx) as [H1 H2]. assert (y <= x) by (apply Hy; by eapply list_elem_of_lookup_2).
    rewrite !filter_cons, decide_True by lia. split; [simpl; lia|]. case_decide; simpl; lia.
Qed.

(** Of the latencies tracked, the last thousand are kept; the reported
    percentile is one of them, more than 95 of a hundred are at most as large and
    at most 95 of a hundred are smaller.  Once a request was tracked, the level
    is met exactly when no more than the allowed share of the requests has
    failed, and the budget is what is left of the allowed share. *)
Theorem slo_report l a p e :
  let s := run l (new (Some (Fin a)) p e) in
  let window := last_thousand (omap latency_of l) in
  let ok := count (fun b => b) l in let bad := count negb l in
  (omap latency_of l <> [] ->
     latencyP95 s ∈ window /\
     (19 * length window < 20 * length (filter (fun y => (y <= latencyP95 s)%Z) window))%nat /\
     (20 * length (filter (fun y => (y < latencyP95 s)%Z) window) <= 19 * length window)%nat) /\
  (0 < ok + bad ->
     met (getStatus s) = Qle_bool (inject_Z bad * 100) ((100 - a) * inject_Z (ok + bad)) /\
     exists b, budget (getStatus s) = Fin b /\ (b == Qmax' 0 (100 - a - inject_Z bad / inject_Z (ok + bad) * 100))%Q).
Proof.
  cbv zeta. destruct (run_spec l (Some (Fin a)) p e) as (Hl & Hok & Hbad & Htot & Ht). set (s := run l _) in *. split.
  - intros Hin. set (w := last_thousand _) in *.
    assert (w <> []) as Hne.
    { unfold w, last_thousand. intros E%(f_equal length). rewrite length_drop in E. cbn [length] in E.
      destruct (omap latency_of l); [done|]. cbn [length] in E. lia. }
    destruct (sort_by_spec (fun x : Z => x) w) as (Hs & Hp & _). set (so := sort_by (fun x : Z => x) w) in *.
    assert (length so = length w) as Hlen by (by rewrite Hp).
    assert (0 < length w)%nat as Hpos by (destruct w; [done|simpl; lia]).
    pose proof (Nat.Div0.mul_div_le (19 * length w) 20) as Hd1. pose proof (Nat.mul_succ_div_gt (19 * length w) 20 ltac:(lia)) as Hd2.
    assert (19 * length w / 20 < length w)%nat as Hlt by lia.
    destruct (lookup_lt_is_Some_2 so (19 * length w / 20)) as [v Hv]; [lia|].
    assert (latencyP95 s = v) as ->.
    { rewrite latencyP95_eq; rewrite Hl; [|done]. cbv zeta. fold so. rewrite Hlen, Nat.min_l by lia. by rewrite Hv. }
    destruct (sorted_rank so _ v Hs Hv) as [R1 R2]. rewrite (Permutation_length (filter_Permutation _ _ _ Hp)) in R1.
    rewrite (Permutation_length (filter_Permutation _ _ _ Hp)) in R2.
    split; [rewrite <- Hp; by eapply list_elem_of_lookup_2|]. split; lia.
  - intros Hn. unfold getStatus, percent, total_or_1. rewrite Hok, Hbad in Htot. rewrite Hok, Hbad, Htot, Ht. set (n := count _ l + _) in *.
    change (availabilityTarget (new (Some (Fin a)) p e)) with (Fin a). rewrite (proj2 (Z.eqb_neq n 0)) by lia. cbn [met budget].
    assert (0 < inject_Z n)%Q as HnQ by (change 0%Q with (inject_Z 0); by rewrite <- Zlt_Qlt).
    assert (forall k, num_mul (num_div (ofZ k) (ofZ n)) (ofZ 100) = Fin (inject_Z k / inject_Z n * 100)) as Hdiv.
    { intros k. unfold num_div, ofZ. destruct (Qeq_bool (inject_Z n) 0) eqn:E; [apply Qeq_bool_iff in E; lra|done]. }
    rewrite !Hdiv. cbn [num_sub num_neg num_add]. unfold num_geb. rewrite num_leb_Fin. split.
    + assert (inject_Z n == inject_Z (count (fun b => b) l) + inject_Z (count negb l))%Q as Hsum by (unfold n; by rewrite inject_Z_plus).
      set (x := inject_Z (count (fun b => b) l)) in *. set (y := inject_Z (count negb l)) in *. set (m := inject_Z n) in *.
      apply eq_true_iff_eq. rewrite !Qle_bool_iff. assert (x / m * 100 == 100 - y * 100 / m)%Q as Hx.
      { assert (x == m - y)%Q as -> by lra. field. lra. } rewrite Hx. split; intros H.
      * assert (y * 100 / m <= 100 - a)%Q as H1 by lra.
        assert (y * 100 == y * 100 / m * m)%Q as -> by (field; lra). apply Qmult_le_compat_r; lra.
      * assert (y * 100 / m <= 100 - a)%Q; [apply Qle_shift_div_r; [done|exact H]|lra].
    + change (ofZ 100) with (Fin 100). change (ofZ 0) with (Fin 0). unfold num_sub. cbn [num_neg num_add]. rewrite num_max_Fin.
      eexists. split; reflexivity.
Qed.

Lemma slo_report_witness :
  let s := run [Availability true; Latency 40; Availability false; Latency 7; Latency 90] (new (Some (ofZ 99)) None None) in
  latencyP95 s ∈ last_thousand [40; 7; 90] /\ met (getStatus s) = false.
Proof.
  cbv zeta. change (ofZ 99) with (Fin 99).
  destruct (slo_report [Availability true; Latency 40; Availability false; Latency 7; Latency 90] 99 None None) as [H1 H2].
  split; [exact (proj1 (H1 ltac:(discriminate)))|]. rewrite (proj1 (H2 ltac:(reflexivity))). reflexivity.
Defined.

(** Without a request the level is never met, although the whole budget is left. *)
Example idle_not_met : met (getStatus (new None None None)) = false.
Proof. vm_compute. reflexivity. Qed.

End SLOTracker.

(** ** The count of workers *)

Module WorkerMonitor.
Import KeySpace.

Section monitor.
Context {R : Type}.
(** The commands: the members of a set, a pipeline of [exists] (each answer an
    error or a number; [None] for a transaction that was aborted), the time to
    live in seconds, the fields of a hash. *)
Context (smembers : string -> meth R exn (list string)) (pipeline_exists : list string -> meth R exn (option (list (option exn * Z))))
  (ttl : string -> meth R exn Z) (hgetall : string -> meth R exn (list (string * string))).
Abbreviation M := (meth R exn).

Definition active (results : list (option exn * Z)) : Z := Z.of_nat (length (filter (fun x => x.2 = 1) results)).
Definition stale (results : list (option exn * Z)) : Z := Z.of_nat (length (filter (fun x => x.2 <> 1) results)).
(** daemon/health/worker-monitor.ts:23-76 checkWorkerHealth
    Active, stale and all workers; the meters are exported only. *)
Definition checkWorkerHealth : M (Z * Z * Z) :=
  try_catch
    (registered ← smembers "workers:all";
     results ← (match registered with
                | [] => mret None
                | _ => pipeline_exists (map (fun id => "heartbeat:" +:+ id) registered)
                end);
     let counts := match results with Some results => (active results, stale results) | None => (0, 0) end in
     mret (counts, Z.of_nat (length registered)))
    (fun _ => mret (0, 0, 0)).
(** daemon/types.ts:8-13 WorkerStats *)
Record WorkerStats : Type := Stats {
  w_workerId : string; activeJobs : option Z; processedJobs : option Z; failedJobs : option Z; lastHeartbeat : option Z; w_uptime : option Z;
}.
(** [parseInt(raw || '0', 10)], [None] being [NaN]. *)
Definition read_field (name : string) (raw : list (string * string)) : option Z :=
  parse_int (match assoc name raw with Some v => str_or v "0" | None => "0" end).
(** daemon/health/worker-monitor.ts:86-101 getWorkerStats
    One worker. *)
Definition statsOf (now : Z) (id : string) : M WorkerStats :=
  t ← ttl ("heartbeat:" +:+ id);
  let lastHeartbeat := if t >? 0 then Some (now - (30 - t) * 1000) else None in
  rawStats ← hgetall ("worker:stats:" +:+ id);
  mret (Stats id (read_field "active" rawStats) (read_field "processed" rawStats) (read_field "failed" rawStats) lastHeartbeat
          (read_field "uptime" rawStats)).
Fixpoint stats_loop (now : Z) (l : list string) (acc : list (string * WorkerStats)) : R -> R * list (string * WorkerStats) := fun r =>
  match l with
  | [] => (r, acc)
  | id :: l => match statsOf now id r with
               | (r, Ok s) => stats_loop now l (jmap_set id s acc) r
               | (r, Throw _) => (r, acc)
               end
  end.
(** daemon/health/worker-monitor.ts:81-107 getWorkerStats
    Entries by worker id; a failure keeps those read before it. *)
Definition getWorkerStats (now : Z) : M (list (string * WorkerStats)) := fun r =>
  match smembers "workers:all" r with
  | (r, Throw _) => (r, Ok [])
  | (r, Ok registered) => let '(r, acc) := stats_loop now registered [] r in (r, Ok acc)
  end.
(** daemon/health/worker-monitor.ts:112-122 isHealthy *)
Definition isHealthy (minActiveWorkers : option Z) : M bool :=
  '(activeWorkers, _, _) ← checkWorkerHealth;
  mret (activeWorkers >=? default 1 minActiveWorkers).

(** Every registered worker is active or stale. *)
Lemma workers_partition r r' a s n :
  (forall keys r r' l, pipeline_exists keys r = (r', Ok (Some l)) -> length l = length keys) ->
  (forall keys r r', pipeline_exists keys r <> (r', Ok None)) ->
  checkWorkerHealth r = (r', Ok (a, s, n)) -> a + s = n.
Proof.
  intros Hlen Hsome. unfold checkWorkerHealth, try_catch, mbind, meth_bind. destruct (smembers "workers:all" r) as [r1 [registered|e]]; [|intros [= <- <- <- <-]; lia].
  destruct registered as [|id l]; [intros [= <- <- <- <-]; done|].
  destruct (pipeline_exists _ r1) as [r2 [[results|]|e]] eqn:E; [|by apply Hsome in E|intros [= <- <- <- <-]; lia].
  intros [= <- <- <- <-]. apply Hlen in E. rewrite length_map in E. unfold active, stale. rewrite <- Nat2Z.inj_add.
  transitivity (Z.of_nat (length results)); [|by rewrite E]. f_equal. clear. induction results as [|x l IH]; [done|]. rewrite !filter_cons. repeat case_decide; simpl; lia || done.
Qed.
End monitor.
End WorkerMonitor.

(** ** The wait for a healthy start *)

Module Startup.
Import DependencyChecker.

(** The [k]-th look: what the checker says, and the clock before it. *)
Section wait.
Context (look : nat -> res exn DependencyStatus) (clock : nat -> Z) (startTime timeoutMs pollIntervalMs : Z).

Definition ready (k : nat) : bool := match look k with Ok s => bool_decide (overall s = Some "HEALTHY") | Throw _ => false end.
Definition timed_out : exn := PlainError ("Readiness check timed out after " +:+ pretty timeoutMs +:+ "ms without attaining HEALTHY status.").
(** bootstrap/health-check-startup.ts:28-40 waitForHealthy
    The number of the look that succeeded. *)
Fixpoint loop (fuel k : nat) : option (res exn nat) :=
  match fuel with
  | O => None
  | S fuel => if clock k - startTime <? timeoutMs then (if ready k then Some (Ok k) else loop fuel (S k)) else Some (Throw timed_out)
  end.
Definition fuel_for : nat := S (S (Z.to_nat (timeoutMs / pollIntervalMs))).
(** bootstrap/health-check-startup.ts:11-44 waitForHealthy *)
Definition waitForHealthy : option (res exn nat) := loop fuel_for 0.

Hypothesis polls : 0 < pollIntervalMs.
Hypothesis sleeps : forall k, clock k + pollIntervalMs <= clock (S k).
Hypothesis begins : startTime <= clock 0%nat.

Lemma clock_at k : startTime + Z.of_nat k * pollIntervalMs <= clock k.
Proof. induction k as [|k IH]; [lia|]. pose proof (sleeps k). lia. Qed.
Lemma loop_ends fuel k :
  timeoutMs <= Z.of_nat (k + fuel - 1) * pollIntervalMs -> (0 < fuel)%nat ->
  (exists n, loop fuel k = Some (Ok n) /\ ready n = true /\ clock n - startTime < timeoutMs /\ (k <= n)%nat /\ forall j, (k <= j < n)%nat -> ready j = false) \/
  (loop fuel k = Some (Throw timed_out) /\ forall j, (k <= j)%nat -> clock j - startTime < timeoutMs -> ready j = false).
Proof.
  assert (forall j k, (k <= j)%nat -> clock k <= clock j) as Hmono.
  { intros j i Hij. induction Hij as [|j Hij IH]; [done|]. pose proof (sleeps j). lia. }
  revert k. induction fuel as [|fuel IH]; intros k Ht Hf; [lia|]. cbn [loop]. destruct (Z.ltb_spec (clock k - startTime) timeoutMs) as [Hk|Hk].
  - destruct (ready k) eqn:Er; [left; exists k; split_and!; [done|done|done|lia|lia]|].
    destruct fuel as [|fuel].
    { pose proof (clock_at k) as Hc. replace (k + 1 - 1)%nat with k in Ht by lia. lia. }
    destruct (IH (S k)) as [(n & Hn & H1 & H2 & H3 & H4)|[Hn H1]]; [by replace (S k + S fuel - 1)%nat with (k + S (S fuel) - 1)%nat by lia|lia| |].
    + left. exists n. split_and!; [done|done|done|lia|]. intros j Hj. destruct (decide (j = k)) as [->|]; [done|]. apply H4. lia.
    + right. split; [done|]. intros j Hj Hc. destruct (decide (j = k)) as [->|]; [done|]. apply H1; [lia|done].
  - right. split; [done|]. intros j Hj Hc. specialize (Hmono j k Hj). lia.
Qed.

(** Waiting for the dependencies comes to an end: it returns at the first
    look within the time limit that finds everything healthy, and throws when
    there is none. *)
Theorem startup_waits :
  (exists n, waitForHealthy = Some (Ok n) /\ ready n = true /\ clock n - startTime < timeoutMs /\ forall j, (j < n)%nat -> ready j = false) \/
  (waitForHealthy = Some (Throw timed_out) /\ forall j, clock j - startTime < timeoutMs -> ready j = false).
Proof.
  destruct (loop_ends fuel_for 0) as [(n & H1 & H2 & H3 & _ & H4)|[H1 H2]].
  - unfold fuel_for. replace (0 + S (S (Z.to_nat (timeoutMs / pollIntervalMs))) - 1)%nat with (S (Z.to_nat (timeoutMs / pollIntervalMs))) by lia.
    rewrite Nat2Z.inj_succ. destruct (Z.le_gt_cases 0 (timeoutMs / pollIntervalMs)) as [Hd|Hd].
    + rewrite Z2Nat.id by done. pose proof (Z.mul_succ_div_gt timeoutMs pollIntervalMs polls). nia.
    + assert (timeoutMs < 0) by (destruct (Z.lt_ge_cases timeoutMs 0); [done|]; pose proof (Z.div_pos timeoutMs pollIntervalMs); lia). nia.
  - unfold fuel_for. lia.
  - left. exists n. split_and!; [done|done|done|]. intros j Hj. apply H4. lia.
  - right. split; [done|]. intros j Hj. apply H2; [lia|done].
Qed.
End wait.

Lemma startup_waits_witness :
  waitForHealthy (fun k => if (k <? 3)%nat then Throw (PlainError "down") else Ok (Checks Absent Absent Absent true (Some "HEALTHY")))
    (fun k => Z.of_nat k * 500) 0 15000 500 = Some (Ok 3%nat).
Proof.
  destruct (startup_waits (fun k => if (k <? 3)%nat then Throw (PlainError "down") else Ok (Checks Absent Absent Absent true (Some "HEALTHY")))
    (fun k => Z.of_nat k * 500) 0 15000 500) as [_|[_ H]]; [lia|lia|lia|reflexivity|].
  specialize (H 3%nat ltac:(lia)). discriminate H.
Defined.
End Startup.
