(* ===== verification/Monitoring.v ===== *)
(** * Monitoring

    [daemon/recovery/dlq-monitor.ts] ([DLQMonitor]): the size of the dead-letter
    list, its alerts and the analysis of its failures; [daemon/metrics/]
    ([Collectors]): the collectors and their aggregation. *)
From Stdlib Require Import Ascii QArith Qround Qpower Qabs Lqa.
From stdpp Require Import base tactics numbers list strings gmap pretty sorting.
From S2P Require Import Prelude JsNum JsValue Errors Text Repositories.

(** ** Objects used as maps

    [Object.entries] lists the names that are array indices first, in their
    order, and then the others in the order they were set.  Names every object
    inherits are not modelled. *)
Module Entries.

Definition as_index (s : string) : option Z :=
  match parse_int s with
  | Some n => if (0 <=? n) && (n <? 4294967295) && str_eqb (pretty n) s then Some n else None
  | None => None
  end.
Definition is_index {A} (e : string * A) : bool := match as_index e.1 with Some _ => true | None => false end.
Definition index_of {A} (e : string * A) : Z := default 0 (as_index e.1).
Definition entries {A} (m : list (string * A)) : list (string * A) :=
  sort_by index_of (filter (fun e => is_index e = true) m) ++ filter (fun e => is_index e = false) m.

Lemma filter_split {A} (p : A -> bool) (l : list A) : filter (fun x => p x = true) l ++ filter (fun x => p x = false) l ≡ₚ l.
Proof.
  induction l as [|x l IH]; [done|]. rewrite !filter_cons. destruct (p x) eqn:E; simpl.
  - by rewrite IH.
  - by rewrite <- Permutation_middle, IH.
Qed.
Lemma entries_permutation {A} (m : list (string * A)) : entries m ≡ₚ m.
Proof. unfold entries. rewrite (proj1 (proj2 (sort_by_spec _ _))). apply filter_split. Qed.

(** The object counts the occurrences of names. *)
Definition tally (m : list (string * Z)) (k : string) : list (string * Z) :=
  jmap_set k (default 0 (jmap_get k m) + 1) m.
Definition tallies (l : list string) : list (string * Z) := fold_left tally l [].
Definition occurrences (k : string) (l : list string) : Z := Z.of_nat (length (filter (fun x => x = k) l)).

Lemma tallies_get l k : default 0 (jmap_get k (tallies l)) = occurrences k l.
Proof.
  unfold tallies, occurrences. induction l as [|x l IH] using rev_ind; [done|]. rewrite fold_left_app, filter_app. cbn [fold_left].
  unfold tally at 1. rewrite length_app, Nat2Z.inj_add, <- IH. destruct (decide (x = k)) as [->|Hne].
  - rewrite jmap_get_set_eq, filter_cons, decide_True by done. simpl. done.
  - rewrite jmap_get_set_ne, filter_cons, decide_False by done. simpl. lia.
Qed.
Lemma tallies_keys l : NoDup (map fst (tallies l)) /\ forall k, k ∈ map fst (tallies l) <-> k ∈ l.
Proof.
  unfold tallies. induction l as [|x l [IH1 IH2]] using rev_ind; [split; [constructor|done]|]. rewrite fold_left_app. cbn [fold_left].
  set (m := fold_left tally l []) in *. split; [by apply jmap_set_NoDup|]. intros k. unfold tally. rewrite jmap_set_keys.
  destruct (jmap_get x m) as [v|] eqn:E.
  - apply jmap_get_In in E. rewrite IH2. rewrite elem_of_app, list_elem_of_singleton. split; [auto|]. intros [?| ->]; [done|].
    apply IH2. by apply (list_elem_of_fmap_2 fst _ (x, v)).
  - rewrite !elem_of_app, IH2. done.
Qed.
Lemma tallies_In l k n : (k, n) ∈ tallies l <-> k ∈ l /\ n = occurrences k l.
Proof.
  destruct (tallies_keys l) as [Hnd Hk]. split.
  - intros Hin. split; [apply Hk; by apply (list_elem_of_fmap_2 fst _ (k, n))|]. rewrite <- tallies_get.
    assert (jmap_get k (tallies l) = Some n) as ->; [|done]. clear Hk. revert Hnd Hin. generalize (tallies l) as m.
    induction m as [|[k' v] m IH]; intros Hnd Hin; [by apply not_elem_of_nil in Hin|]. simpl in Hnd. apply NoDup_cons in Hnd as [Hn Hnd].
    simpl. case_decide as Hd.
    + subst. apply elem_of_cons in Hin as [[= ->]|Hin]; [done|]. destruct Hn. by apply (list_elem_of_fmap_2 fst _ (k', n)).
    + apply elem_of_cons in Hin as [[= ? ?]|Hin]; [done|]. by apply IH.
  - intros [Hin ->]. apply Hk in Hin. rewrite <- tallies_get. destruct (jmap_get k (tallies l)) as [v|] eqn:E; [by apply jmap_get_In|].
    by apply jmap_get_None_keys in E.
Qed.
End Entries.

(** ** The dead-letter monitor *)

Module DLQMonitor.
Import Entries.

(** A row of the list: the members the monitor reads. *)
Record dead : Type := Dead {
  failureReason : option string; lastError : option string; destinationId : option string; agentId : option string;
  updatedAt : option Z; createdAt : option Z;
}.
(** What a repository answers with: an array, a page, or nothing. *)
Inductive raw : Type := RArray (l : list dead) | RPage (data : option (list dead)) (total : option Z) | RNothing.
(** [Array.isArray(raw) ? raw : (raw?.data || [])] *)
Definition rows_of (r : raw) : list dead :=
  match r with RArray l => l | RPage d _ => default [] d | RNothing => [] end.
(** daemon/recovery/dlq-monitor.ts:68-69 monitorDLQ *)
Definition total_of (r : raw) : Z :=
  match r with RPage _ (Some n) => n | _ => Z.of_nat (length (rows_of r)) end.

(** The repository's methods, those it has. *)
Record repository (T : Type) : Type := Repo {
  findDLQDeliveries : option (meth T exn raw);
  findByStatus : option (string -> meth T exn raw);
  findMany : option (string -> meth T exn raw);
}.
Arguments Repo {T}. Arguments findDLQDeliveries {T}. Arguments findByStatus {T}. Arguments findMany {T}.

(** The alert, without its time stamp. *)
Record growth : Type := Growth { g_count : Z; g_threshold : Z }.
(** daemon/recovery/dlq-monitor.ts:3-8 DLQStats *)
Record DLQStats : Type := Stats { count : Z; size : Z; oldest : option Z; newest : option Z }.

Section monitor.
Context {T P : Type} (repo : option (repository T)) (publish : option (growth -> meth P exn unit)).

(** daemon/recovery/dlq-monitor.ts:19-24 DLQMonitor
    The repository's state, the events emitted, what the publisher keeps. *)
Record world : Type := World { db : T; emitted : list growth; outbox : P }.
Abbreviation M := (meth world exn).
Definition on_db {A} (m : meth T exn A) : M A := fun w => let '(t, o) := m (db w) in (World t (emitted w) (outbox w), o).
Definition on_outbox {A} (m : meth P exn A) : M A := fun w => let '(p, o) := m (outbox w) in (World (db w) (emitted w) p, o).

(** daemon/recovery/dlq-monitor.ts:48-48 constructor *)
Definition threshold_of (dlqThreshold maxDlqThreshold : option Z) : Z :=
  let or_else (n : option Z) d := match n with Some n => if n =? 0 then d else n | None => d end in
  or_else dlqThreshold (or_else maxDlqThreshold 50).
Context (threshold : Z).

Definition nothing : M raw := mret RNothing.
(** daemon/recovery/dlq-monitor.ts:63-78 monitorDLQ
    The rows, and the number of them. *)
Definition scan : M (list dead * Z) :=
  match repo with
  | None => mret ([], 0)
  | Some r =>
      match findDLQDeliveries r, findByStatus r, findMany r with
      | Some f, _, _ => r ← on_db f; mret (rows_of r, total_of r)
      | None, Some f, _ => r ← on_db (f "FAILED_DLQ"); mret (rows_of r, total_of r)
      | None, None, Some f => r ← on_db (f "FAILED_DLQ"); mret (rows_of r, total_of r)
      | None, None, None => mret ([], 0)
      end
  end.
(** [d.updatedAt || d.createdAt || Date.now()] *)
Definition date_of (now : Z) (d : dead) : Z :=
  let or_else (n : option Z) v := match n with Some n => n | None => v end in
  or_else (updatedAt d) (or_else (createdAt d) now).
Definition least (l : list Z) : option Z := match l with [] => None | x :: l => Some (fold_left Z.min l x) end.
Definition greatest (l : list Z) : option Z := match l with [] => None | x :: l => Some (fold_left Z.max l x) end.

(** daemon/recovery/dlq-monitor.ts:152-175 publishAlerts
    With a count. *)
Definition publishAlerts (count : Z) : M unit :=
  if count <? threshold then mret tt
  else
    modify (fun w => World (db w) (emitted w ++ [Growth count threshold]) (outbox w));;
    match publish with Some f => try_catch (on_outbox (f (Growth count threshold))) (fun _ => mret tt) | None => mret tt end.
(** daemon/recovery/dlq-monitor.ts:61-102 monitorDLQ *)
Definition monitorDLQ (now : Z) : M DLQStats :=
  try_catch
    ('(dlqList, totalCount) ← scan;
     let count := if totalCount =? 0 then Z.of_nat (length dlqList) else totalCount in
     let dates := map (date_of now) dlqList in
     (if count >=? threshold then publishAlerts count else mret tt);;
     mret (Stats count count (least dates) (greatest dates)))
    (fun _ => mret (Stats 0 0 None None)).
(** daemon/recovery/dlq-monitor.ts:54-56 monitor *)
Definition monitor := monitorDLQ.
(** daemon/recovery/dlq-monitor.ts:152-157 publishAlerts
    Without a count, which is then measured first. *)
Definition publishAlertsNow (now : Z) : M unit := stats ← monitorDLQ now; publishAlerts (count stats).

(** [a || b || text] *)
Definition text_or (a : option string) (b : string) : string := match a with Some s => str_or s b | None => b end.
(** daemon/recovery/dlq-monitor.ts:123-123 analyzeFailures *)
Definition error_of (d : dead) : string := text_or (failureReason d) (text_or (lastError d) "Unknown Error").
Definition destination_of (d : dead) : string := text_or (destinationId d) "unknown".
Definition agent_of (d : dead) : string := text_or (agentId d) "unknown".
(** daemon/recovery/dlq-monitor.ts:133-139 sortTop *)
Definition sortTop (m : list (string * Z)) : list (string * Z) := take 5 (sort_by (fun e => - e.2) (entries m)).
(** daemon/recovery/dlq-monitor.ts:10-14 FailureAnalysis *)
Record FailureAnalysis : Type := Analysis {
  topErrors : list (string * Z); topDestinations : list (string * Z); topAgents : list (string * Z);
}.
(** daemon/recovery/dlq-monitor.ts:109-116 analyzeFailures *)
Definition dead_rows : M (list dead) :=
  match repo with
  | None => mret []
  | Some r =>
      match findByStatus r, findMany r with
      | Some f, _ => r ← on_db (f "FAILED_DLQ"); mret (rows_of r)
      | None, Some f => r ← on_db (f "FAILED_DLQ"); mret (rows_of r)
      | None, None => mret []
      end
  end.
(** daemon/recovery/dlq-monitor.ts:107-147 analyzeFailures *)
Definition analyzeFailures : M FailureAnalysis :=
  try_catch
    (dlqList ← dead_rows;
     mret (Analysis (sortTop (tallies (map error_of dlqList))) (sortTop (tallies (map destination_of dlqList)))
             (sortTop (tallies (map agent_of dlqList)))))
    (fun _ => mret (Analysis [] [] [])).

(** *** What is reported *)

Lemma fold_min l x : fold_left Z.min l x <= x /\ (forall y, y ∈ l -> fold_left Z.min l x <= y) /\ (fold_left Z.min l x = x \/ fold_left Z.min l x ∈ l).
Proof.
  revert x. induction l as [|y l IH]; intros x; [split_and!; [simpl; lia|by intros ? ?%not_elem_of_nil|by left]|]. simpl.
  destruct (IH (Z.min x y)) as (H1 & H2 & H3). split_and!; [lia|intros z [->|Hz]%elem_of_cons; [lia|by apply H2]|].
  destruct H3 as [->|H3]; [|by right; right]. destruct (Z.min_spec x y) as [[_ ->]|[_ ->]]; [by left|by right; left].
Qed.
Lemma fold_max l x : x <= fold_left Z.max l x /\ (forall y, y ∈ l -> y <= fold_left Z.max l x) /\ (fold_left Z.max l x = x \/ fold_left Z.max l x ∈ l).
Proof.
  revert x. induction l as [|y l IH]; intros x; [split_and!; [simpl; lia|by intros ? ?%not_elem_of_nil|by left]|]. simpl.
  destruct (IH (Z.max x y)) as (H1 & H2 & H3). split_and!; [lia|intros z [->|Hz]%elem_of_cons; [lia|by apply H2]|].
  destruct H3 as [->|H3]; [|by right; right]. destruct (Z.max_spec x y) as [[_ ->]|[_ ->]]; [by right; left|by left].
Qed.
Lemma least_spec l m : least l = Some m -> m ∈ l /\ forall y, y ∈ l -> m <= y.
Proof.
  destruct l as [|x l]; [done|]. intros [= <-]. destruct (fold_min l x) as (H1 & H2 & H3). split.
  - destruct H3 as [->|H3]; [by left|by right].
  - intros y [->|Hy]%elem_of_cons; [done|by apply H2].
Qed.
Lemma greatest_spec l m : greatest l = Some m -> m ∈ l /\ forall y, y ∈ l -> y <= m.
Proof.
  destruct l as [|x l]; [done|]. intros [= <-]. destruct (fold_max l x) as (H1 & H2 & H3). split.
  - destruct H3 as [->|H3]; [by left|by right].
  - intros y [->|Hy]%elem_of_cons; [done|by apply H2].
Qed.

(** The five most frequent names: each with its number of occurrences, in
    falling order, and none left out that occurs more often. *)
Lemma top_spec l :
  let top := sortTop (tallies l) in
  (length top <= 5)%nat /\
  NoDup (map fst top) /\
  (forall k n, (k, n) ∈ top -> k ∈ l /\ n = occurrences k l) /\
  StronglySorted (by_key (fun e => - e.2)) top /\
  (forall k, k ∈ l -> k ∉ map fst top -> length top = 5%nat /\ forall e, e ∈ top -> occurrences k l <= e.2).
Proof.
  cbv zeta. unfold sortTop. destruct (sort_by_spec (fun e : string * Z => - e.2) (entries (tallies l))) as (Hs & Hp & _).
  set (so := sort_by _ _) in *. rewrite entries_permutation in Hp. destruct (tallies_keys l) as [Hnd Hk].
  assert (NoDup (map fst so)) as Hnd' by (by rewrite Hp).
  rewrite <- (take_drop 5 so) in Hnd', Hs. rewrite map_app in Hnd'. apply NoDup_app in Hnd' as (Hn1 & Hn2 & _).
  apply StronglySorted_app in Hs as (Hc & Hs1 & _). rewrite length_take. split_and!; [lia|done| | |].
  - intros k n Hin. apply tallies_In. rewrite <- Hp. rewrite <- (take_drop 5 so). apply elem_of_app. by left.
  - done.
  - intros k Hin Hout. assert ((k, occurrences k l) ∈ so) as Hso by (rewrite Hp; by apply tallies_In).
    rewrite <- (take_drop 5 so) in Hso. apply elem_of_app in Hso as [Hso|Hso].
    { destruct Hout. by apply (list_elem_of_fmap_2 fst _ (k, occurrences k l)). }
    split.
    + assert (0 < length (drop 5 so))%nat as Hd by (destruct (drop 5 so); [by apply not_elem_of_nil in Hso|simpl; lia]). rewrite length_drop in Hd. lia.
    + intros e He. specialize (Hc e _ He Hso). unfold by_key in Hc. simpl in Hc. lia.
Qed.
End monitor.

(** A report of the most frequent names of a list. *)
Definition ranked (l : list string) (top : list (string * Z)) : Prop :=
  (length top <= 5)%nat /\ NoDup (map fst top) /\ (forall k n, (k, n) ∈ top -> k ∈ l /\ n = occurrences k l) /\
  StronglySorted (by_key (fun e => - e.2)) top /\
  (forall k, k ∈ l -> k ∉ map fst top -> length top = 5%nat /\ forall e, e ∈ top -> occurrences k l <= e.2).

(** The analysis ranks the errors and the destinations of all dead-lettered
    deliveries: at most five of each, with the exact number of deliveries, in
    falling order, and none left out that is more frequent.  The rows of the
    deliveries table name no agent: with them the agents are always one unknown
    agent that has all the failures. *)
Theorem failures_analysed {T P} (r : repository T) f (w : world (T := T) (P := P)) t l :
  findByStatus r = Some f -> f "FAILED_DLQ" (db w) = (t, Ok (RArray l)) ->
  exists a, analyzeFailures (Some r) w = (World t (emitted w) (outbox w), Ok a) /\
    ranked (map error_of l) (topErrors a) /\ ranked (map destination_of l) (topDestinations a) /\ ranked (map agent_of l) (topAgents a) /\
    (l <> [] -> (forall d, d ∈ l -> agentId d = None) -> topAgents a = [("unknown", Z.of_nat (length l))]).
Proof.
  intros Hf Hl. eexists. split.
  - unfold analyzeFailures, dead_rows. rewrite Hf. unfold try_catch, on_db, mbind, meth_bind. rewrite Hl. reflexivity.
  - cbn [topErrors topDestinations topAgents rows_of]. split_and!; [apply top_spec|apply top_spec|apply top_spec|].
    intros Hne Hag. assert (map agent_of l = replicate (length l) "unknown") as ->.
    { clear Hl Hne. induction l as [|d l IH]; [done|]. simpl. rewrite IH by (intros x Hx; apply Hag; by right).
      unfold agent_of. by rewrite (Hag d) by left. }
    assert (forall n, tallies (replicate (S n) "unknown") = [("unknown", Z.of_nat (S n))]) as Ht.
    { induction n as [|n IH]; [done|]. rewrite replicate_S_end. unfold tallies in *. rewrite fold_left_app, IH. cbn [fold_left]. unfold tally.
      simpl. repeat f_equal. lia. }
    destruct l as [|d l]; [done|]. cbn [length]. rewrite Ht. reflexivity.
Qed.
Lemma failures_analysed_witness :
  let d := fun e dest => Dead None (Some e) (Some dest) None None None in
  let l := [d "timeout" "a"; d "refused" "b"; d "timeout" "b"] in
  let r := Repo None (Some (fun _ => mret (RArray l))) None : repository unit in
  exists a, (analyzeFailures (P := unit) (Some r) (World tt [] tt)).2 = Ok a /\ topAgents a = [("unknown", 3)] /\ ranked ["timeout"; "refused"; "timeout"] (topErrors a).
Proof.
  cbv zeta.
  destruct (failures_analysed (T := unit) (P := unit)
    (Repo None (Some (fun _ => mret (RArray [Dead None (Some "timeout") (Some "a") None None None; Dead None (Some "refused") (Some "b") None None None;
                                             Dead None (Some "timeout") (Some "b") None None None]))) None) _ (World tt [] tt) tt _ eq_refl eq_refl)
    as (a & Ha & Herr & _ & _ & Hag).
  exists a. split; [by rewrite Ha|]. split; [|exact Herr]. apply Hag; [discriminate|].
  intros d Hd. repeat (apply elem_of_cons in Hd as [->|Hd]; [reflexivity|]). by apply not_elem_of_nil in Hd.
Defined.

(** The scan of the list: its size, its extreme dates, and an alert exactly when
    the size reaches the threshold, whatever the publisher does. *)
Lemma list_monitored {T P} (r : repository T) (publish : option (growth -> meth P exn unit)) threshold f (w : world (T := T) (P := P)) t l now :
  findDLQDeliveries r = Some f -> f (db w) = (t, Ok (RArray l)) ->
  let n := Z.of_nat (length l) in
  exists p lo hi,
    monitorDLQ (Some r) publish threshold now w =
      (World t (emitted w ++ (if n <? threshold then [] else [Growth n threshold])) p, Ok (Stats n n lo hi)) /\
    (l <> [] -> exists a b, lo = Some a /\ hi = Some b /\ a ∈ map (date_of now) l /\ b ∈ map (date_of now) l /\
       forall d, d ∈ l -> a <= date_of now d <= b).
Proof.
  intros Hf Hl n. set (dates := map (date_of now) l).
  assert (exists p, monitorDLQ (Some r) publish threshold now w =
    (World t (emitted w ++ (if n <? threshold then [] else [Growth n threshold])) p, Ok (Stats n n (least dates) (greatest dates)))) as [p Hp].
  { assert (scan (Some r) w = (World t (emitted w) (outbox w), Ok (l, n))) as Hs.
    { unfold scan. rewrite Hf. unfold on_db, mbind, meth_bind. by rewrite Hl. }
    unfold monitorDLQ, try_catch. rewrite (bind_ok _ _ _ _ _ Hs). cbv beta iota zeta.
    assert ((if n =? 0 then Z.of_nat (length l) else n) = n) as -> by (by destruct (_ =? _)).
    rewrite Z.geb_leb. destruct (Z.leb_spec threshold n) as [Hn|Hn].
    - unfold publishAlerts. rewrite (proj2 (Z.ltb_ge n threshold)) by lia. unfold modify, mbind, meth_bind, on_outbox, try_catch. cbn [db emitted outbox].
      destruct publish as [g|]; [destruct (g _ _) as [q [[]|e]]|]; by eexists.
    - rewrite (proj2 (Z.ltb_lt n threshold)) by lia. rewrite app_nil_r. by eexists. }
  exists p, (least dates), (greatest dates). split; [done|]. intros Hne. destruct l as [|d l]; [done|].
  destruct (least dates) as [a|] eqn:Ea; [|done]. destruct (greatest dates) as [b|] eqn:Eb; [|done]. exists a, b.
  apply least_spec in Ea as [Ea1 Ea2]. apply greatest_spec in Eb as [Eb1 Eb2]. split_and!; [done..|].
  intros x Hx. apply (list_elem_of_fmap_2 (date_of now)) in Hx. split; [by apply Ea2|by apply Eb2].
Qed.
End DLQMonitor.

(** ** The collectors of metrics *)

Module Collectors.

Section aggregator.
Context {W : Type}.

(** A collector: its name, and its [collect] when it has one. *)
Record collector : Type := Collector { c_name : option string; collect : option (meth W exn unit) }.
(** daemon/metrics/metrics-aggregator.ts:26-30 registerCollector *)
Definition registerCollector (c : collector) (l : list (string * collector)) : list (string * collector) :=
  let fallback := "Collector-" +:+ pretty (Z.of_nat (length l) + 1) in
  jmap_set (match c_name c with Some n => str_or n fallback | None => fallback end) c l.
(** daemon/metrics/metrics-aggregator.ts:35-38 unregisterCollector *)
Definition unregisterCollector (name : string) (l : list (string * collector)) : list (string * collector) := jmap_delete name l.
(** daemon/metrics/metrics-aggregator.ts:13-21 constructor *)
Definition new (initial : list collector) : list (string * collector) := fold_left (fun l c => registerCollector c l) initial [].
(** daemon/metrics/metrics-aggregator.ts:1-5 AggregationResult
    Without the duration. *)
Record AggregationResult : Type := Result { collected : Z; a_failed : Z }.
(** daemon/metrics/metrics-aggregator.ts:43-71 aggregate
    The collectors in the order they are started in. *)
Fixpoint aggregate (l : list (string * collector)) (w : W) : W * AggregationResult :=
  match l with
  | [] => (w, Result 0 0)
  | (_, c) :: l =>
      match collect c with
      | None => aggregate l w
      | Some f =>
          let '(w, o) := f w in
          let '(w, r) := aggregate l w in
          (w, match o with Ok _ => Result (collected r + 1) (a_failed r) | Throw _ => Result (collected r) (a_failed r + 1) end)
      end
  end.

(** Every collector that collects is counted once, as collected or as failed. *)
Lemma aggregate_counts l w :
  let r := (aggregate l w).2 in
  0 <= collected r /\ 0 <= a_failed r /\
  collected r + a_failed r = Z.of_nat (length (filter (fun e => is_Some (collect e.2)) l)).
Proof.
  cbv zeta. revert w. induction l as [|[k c] l IH]; intros w; [done|]. cbn [aggregate]. rewrite filter_cons. cbn [snd].
  destruct (collect c) as [f|].
  - rewrite decide_True by done. destruct (f w) as [w1 o]. specialize (IH w1). destruct (aggregate l w1) as [w2 r]. cbn [snd] in *.
    cbn [length]. rewrite Nat2Z.inj_succ. destruct o; simpl; lia.
  - rewrite decide_False by (by intros [? ?]). apply IH.
Qed.
End aggregator.

Section queues.
Context {Q : Type}.

(** The members of an answer that are counts; a missing one is [undefined]. *)
Definition counts : Type := string -> option Z.
Definition count_or (c : counts) (k : string) (d : Z) : Z := match c k with Some n => if n =? 0 then d else n | None => d end.

(** The methods a queue manager may have: five counters, [getStats], the three
    queues with their counts (a queue may lack them), [getJobCounts]. *)
Record manager : Type := Manager {
  counters : option (meth Q exn Z * meth Q exn Z * meth Q exn Z * meth Q exn Z * meth Q exn Z);
  getStats : option (meth Q exn counts);
  queues : option (meth Q exn counts * option (meth Q exn counts) * option (meth Q exn counts));
  getJobCounts : option (meth Q exn counts);
}.
Definition sum_or (c : counts) (a b : string) : Z := count_or c a 0 + count_or c b 0.
Definition of_queue (q : option (meth Q exn counts)) : meth Q exn counts := match q with Some f => f | None => mret (fun _ => None) end.

(** The main, the delayed and the dead-letter queue's depth. *)
Record depths : Type := Depths { mainDepth : Z; delayedDepth : Z; dlqDepth : Z; successRate : num }.
Definition rate (completed total : Z) : num :=
  if total >? 0 then num_mul (num_div (ofZ completed) (ofZ total)) (ofZ 100) else ofZ 100.
(** daemon/metrics/queue-metrics-collector.ts:45-104 collect *)
Definition sample (q : option manager) : meth Q exn depths :=
  match q with
  | None => mret (Depths 0 0 0 (ofZ 100))
  | Some m =>
      match counters m, getStats m, queues m, getJobCounts m with
      | Some (waiting, active, delayed, completed, failed), _, _, _ =>
          w ← waiting; a ← active; d ← delayed; c ← completed; f ← failed;
          mret (Depths (w + a) d f (rate c (c + f)))
      | None, Some stats, _, _ =>
          s ← stats;
          mret (Depths (count_or s "mainDepth" (count_or s "waiting" 0)) (count_or s "delayedDepth" (count_or s "delayed" 0))
                  (count_or s "dlqDepth" (count_or s "failed" 0)) (ofZ 100))
      | None, None, Some (main, delayed, dlq), _ =>
          mc ← main; dc ← of_queue delayed; qc ← of_queue dlq;
          mret (Depths (sum_or mc "waiting" "active") (count_or dc "delayed" 0 + count_or mc "delayed" 0)
                  (count_or qc "failed" 0 + count_or mc "failed" 0) (ofZ 100))
      | None, None, None, Some jobs =>
          c ← jobs; mret (Depths (sum_or c "waiting" "active") (count_or c "delayed" 0) (count_or c "failed" 0) (ofZ 100))
      | None, None, None, None => mret (Depths 0 0 0 (ofZ 100))
      end
  end.
(** daemon/metrics/queue-metrics-collector.ts:43-116 collect *)
Definition collect_queues (q : option manager) : meth Q exn depths :=
  try_catch (sample q) (fun _ => mret (Depths 0 0 0 (ofZ 100))).

(** The rate is a percentage of the jobs that ended. *)
Lemma rate_range c f : 0 <= c -> 0 <= f -> exists p, rate c (c + f) = Fin p /\ (0 <= p <= 100)%Q.
Proof.
  intros Hc Hf. unfold rate. destruct (Z.gtb_spec (c + f) 0) as [Ht|Ht]; [|exists 100%Q; split; [done|lra]].
  assert (0 < inject_Z (c + f))%Q as Hq by (change 0%Q with (inject_Z 0); by rewrite <- Zlt_Qlt).
  unfold num_div, ofZ. destruct (Qeq_bool (inject_Z (c + f)) 0) eqn:E; [apply Qeq_bool_iff in E; lra|].
  exists (inject_Z c / inject_Z (c + f) * 100)%Q. split; [done|].
  assert (0 <= inject_Z c / inject_Z (c + f))%Q.
  { apply Qle_shift_div_l; [done|]. rewrite Qmult_0_l. change 0%Q with (inject_Z 0). by rewrite <- Zle_Qle. }
  assert (inject_Z c / inject_Z (c + f) <= 1)%Q.
  { apply Qle_shift_div_r; [done|]. rewrite Qmult_1_l, <- Zle_Qle. lia. }
  lra.
Qed.
End queues.

(** daemon/metrics/delivery-metrics-collector.ts:32-32 collect *)
Definition statuses : list string := ["PENDING"; "PROCESSING"; "COMPLETED"; "SCHEDULED_RETRY"; "FAILED_DLQ"].
Section deliveries.
Context {T : Type}.

(** The repository's methods, those it has. *)
Record repository : Type := Repo {
  countByStatus : option (string -> meth T exn Z); count : option (string -> meth T exn Z); findByStatus : option (string -> meth T exn Z);
}.
(** daemon/metrics/delivery-metrics-collector.ts:36-44 collect
    [findByStatus] by the length of its answer. *)
Definition count_of (r : option repository) (st : string) : meth T exn Z :=
  match r with
  | None => mret 0
  | Some r =>
      match countByStatus r, count r, findByStatus r with
      | Some f, _, _ => f st
      | None, Some f, _ => f st
      | None, None, Some f => f st
      | None, None, None => mret 0
      end
  end.
Fixpoint counts_of (r : option repository) (l : list string) : meth T exn (list (string * Z)) :=
  match l with
  | [] => mret []
  | st :: l => cnt ← count_of r st; rest ← counts_of r l; mret ((st, cnt) :: rest)
  end.
(** What the database answers, when the client can be loaded: completed and dead
    deliveries, the mean number of retries, the mean latency. *)
Record sampled : Type := Sampled { cComp : Z; cFail : Z; avgRetries : option num; avgLatency : option num }.
(** daemon/metrics/delivery-metrics-collector.ts:106-114 collect *)
Record summary : Type := Summary { by_status : list (string * Z); s_success : num; s_failure : num; s_retries : num; s_latency : num }.
(** daemon/metrics/delivery-metrics-collector.ts:50-114 collect
    Without the table by destination type. *)
Definition summarize (cs : list (string * Z)) (prisma : option sampled) : summary :=
  let completed := default 0 (jmap_get "COMPLETED" cs) in
  let dead := default 0 (jmap_get "FAILED_DLQ" cs) in
  let '(completed, dead) := match prisma with
                            | Some s => if negb (cComp s =? 0) || negb (cFail s =? 0) then (cComp s, cFail s) else (completed, dead)
                            | None => (completed, dead)
                            end in
  let total := completed + dead in
  let share n d := if total >? 0 then num_mul (num_div (ofZ n) (ofZ total)) (ofZ 100) else d in
  Summary cs (share completed (ofZ 100)) (share dead (ofZ 0))
    (default (ofZ 0) (prisma ≫= avgRetries)) (default (ofZ 0) (prisma ≫= avgLatency)).
(** daemon/metrics/delivery-metrics-collector.ts:30-126 collect *)
Definition collect_deliveries (r : option repository) (prisma : option sampled) : meth T exn summary :=
  try_catch (cs ← counts_of r statuses; mret (summarize cs prisma))
    (fun _ => mret (Summary [] (ofZ 100) (ofZ 0) (ofZ 0) (ofZ 0))).
End deliveries.
End Collectors.
