(* ===== verification/JsonText.v ===== *)
(** * [JSON.parse]

    The parser of the language's standard library, on byte strings, and the round
    trip with [Connectors.Json.stringify].  A parsed object or array is fresh: its
    identity is 0.  A surrogate pair in an escape is not joined, and numbers keep
    their decimal value. *)
From Stdlib Require Import Ascii QArith Qround Qpower Qabs Lqa.
From stdpp Require Import base tactics numbers list strings gmap pretty.
From S2P Require Import Prelude JsNum JsValue Errors Text Connectors IsoDate.

Module JsonText.
Import Json.

Definition chr (n : nat) : ascii := Ascii.ascii_of_nat n.
Definition is_char (n : nat) (c : ascii) : bool := (Ascii.nat_of_ascii c =? n)%nat.

(** ** Tokens *)

(** Space, tab, line feed, carriage return. *)
Definition is_ws (c : ascii) : bool := is_char 32 c || is_char 9 c || is_char 10 c || is_char 13 c.
Fixpoint skip (s : string) : string :=
  match s with String c r => if is_ws c then skip r else s | EmptyString => s end.
Fixpoint span (s : string) : string * string :=
  match s with
  | String c r => if is_digit c then let '(d, r) := span r in (String c d, r) else (EmptyString, s)
  | EmptyString => (EmptyString, s)
  end.

(** The bytes of a code unit. *)
Definition utf8 (n : nat) : string :=
  let byte k := chr (128 + k mod 64) in
  if (n <? 128)%nat then String (chr n) EmptyString
  else if (n <? 2048)%nat then String (chr (192 + n / 64)) (String (byte n) EmptyString)
  else String (chr (224 + n / 4096)) (String (byte (n / 64)%nat) (String (byte n) EmptyString)).
Definition unescape (c : ascii) : option ascii :=
  let n := Ascii.nat_of_ascii c in
  if (n =? 34)%nat || (n =? 92)%nat || (n =? 47)%nat then Some c
  else if (n =? 98)%nat then Some (chr 8) else if (n =? 102)%nat then Some (chr 12)
  else if (n =? 110)%nat then Some (chr 10) else if (n =? 114)%nat then Some (chr 13)
  else if (n =? 116)%nat then Some (chr 9) else None.
Definition hex4 (a b c d : ascii) : option nat :=
  match hex_value (ascii_lower a), hex_value (ascii_lower b), hex_value (ascii_lower c), hex_value (ascii_lower d) with
  | Some a, Some b, Some c, Some d => Some (((a * 16 + b) * 16 + c) * 16 + d)%nat
  | _, _, _, _ => None
  end.
(** What follows the opening quote: the text, and what comes after it. *)
Fixpoint body (s : string) : option (string * string) :=
  match s with
  | EmptyString => None
  | String c r =>
      if is_char 34 c then Some (EmptyString, r)
      else if is_char 92 c then
        match r with
        | String e r1 =>
            match unescape e with
            | Some d => match body r1 with Some (t, rest) => Some (String d t, rest) | None => None end
            | None =>
                if is_char 117 e then
                  match r1 with
                  | String h1 (String h2 (String h3 (String h4 r2))) =>
                      match hex4 h1 h2 h3 h4, body r2 with
                      | Some n, Some (t, rest) => Some (utf8 n +:+ t, rest)
                      | _, _ => None
                      end
                  | _ => None
                  end
                else None
            end
        | EmptyString => None
        end
      else if (Ascii.nat_of_ascii c <? 32)%nat then None
      else match body r with Some (t, rest) => Some (String c t, rest) | None => None end
  end.

(** Digits before the point: one zero, or no leading zero. *)
Definition good_int (d : string) : bool :=
  match d with EmptyString => false | String c r => negb (is_char 48 c) || str_eqb r "" end.
Definition signed (s : string) : bool * string :=
  match s with String c r => if is_char 45 c then (true, r) else (false, s) | EmptyString => (false, s) end.
Definition fraction (s : string) : option (string * string) :=
  match s with
  | String c r => if is_char 46 c then let '(d, r) := span r in if str_eqb d "" then None else Some (d, r) else Some (EmptyString, s)
  | EmptyString => Some (EmptyString, s)
  end.
Definition exponent (s : string) : option (Z * string) :=
  match s with
  | String c r =>
      if is_char 101 c || is_char 69 c then
        let '(neg, r) := match r with String p r' => if is_char 43 p then (false, r') else signed r | EmptyString => (false, r) end in
        let '(d, r) := span r in
        if str_eqb d "" then None else Some (if neg : bool then - read_digits d 0 else read_digits d 0, r)
      else Some (0, s)
  | EmptyString => Some (0, s)
  end.
Definition number (s : string) : option (num * string) :=
  let '(neg, s) := signed s in
  let '(int, s) := span s in
  if good_int int then
    match fraction s with
    | Some (frac, s) =>
        match exponent s with
        | Some (e, s) =>
            let n := read_digits (int +:+ frac) 0 in
            let m := if neg : bool then - n else n in
            let e := e - Z.of_nat (String.length frac) in
            Some ((if e =? 0 then ofZ m else Fin (inject_Z m * Qpower 10 e)), s)
        | None => None
        end
    | None => None
    end
  else None.

Fixpoint after (k : nat) (s : string) : string :=
  match k, s with S k, String _ s => after k s | _, _ => s end.
Definition keyword (s : string) : option (jsval * string) :=
  if starts_with "null" s then Some (JNull, after 4 s)
  else if starts_with "true" s then Some (JBool true, after 4 s)
  else if starts_with "false" s then Some (JBool false, after 5 s)
  else match number s with Some (n, r) => Some (JNum n, r) | None => None end.

(** ** Values *)

Section parser.
Context (value : string -> option (jsval * string)).

(** The items up to the closing bracket, the members up to the closing brace. *)
Fixpoint items (fuel : nat) (s : string) : option (list jsval * string) :=
  match fuel with
  | O => None
  | S fuel =>
      match value s with
      | Some (v, r) =>
          match skip r with
          | String c r =>
              if is_char 44 c then match items fuel r with Some (l, r) => Some (v :: l, r) | None => None end
              else if is_char 93 c then Some ([v], r) else None
          | EmptyString => None
          end
      | None => None
      end
  end.
Fixpoint members (fuel : nat) (s : string) (acc : list (string * jsval)) : option (list (string * jsval) * string) :=
  match fuel with
  | O => None
  | S fuel =>
      match skip s with
      | String q r =>
          if is_char 34 q then
            match body r with
            | Some (k, r) =>
                match skip r with
                | String colon r =>
                    if is_char 58 colon then
                      match value r with
                      | Some (v, r) =>
                          match skip r with
                          | String c r =>
                              if is_char 44 c then members fuel r (jmap_set k v acc)
                              else if is_char 125 c then Some (jmap_set k v acc, r) else None
                          | EmptyString => None
                          end
                      | None => None
                      end
                    else None
                | EmptyString => None
                end
            | None => None
            end
          else None
      | EmptyString => None
      end
  end.
End parser.

Fixpoint value (fuel : nat) (s : string) : option (jsval * string) :=
  match fuel with
  | O => None
  | S fuel =>
      match skip s with
      | EmptyString => None
      | String c r =>
          if is_char 34 c then match body r with Some (t, r) => Some (JString t, r) | None => None end
          else if is_char 91 c then
            match skip r with
            | String c' r' => if is_char 93 c' then Some (JArray 0 [], r')
                              else match items (value fuel) fuel r with Some (l, r) => Some (JArray 0 l, r) | None => None end
            | EmptyString => None
            end
          else if is_char 123 c then
            match skip r with
            | String c' r' => if is_char 125 c' then Some (JObject 0 [], r')
                              else match members (value fuel) fuel r [] with Some (fs, r) => Some (JObject 0 fs, r) | None => None end
            | EmptyString => None
            end
          else keyword (String c r)
      end
  end.
(** [JSON.parse(s)]; [None] for a [SyntaxError]. *)
Definition parse (s : string) : option jsval :=
  match value (S (String.length s)) s with
  | Some (v, r) => if str_eqb (skip r) "" then Some v else None
  | None => None
  end.

Definition q (s : string) : string := quoted s.
Example parse_ex :
  parse (" {" +:+ q "a" +:+ " : [1, -2.50, 1e2, true,null ] ," +:+ q "b" +:+ ":{}} ") =
    Some (JObject 0 [("a", JArray 0 [JNum 1; JNum (Fin (-250 * (1 # 100))); JNum (Fin (1 * 100)); JBool true; JNull]); ("b", JObject 0 [])]) /\
  parse "01" = None /\ parse "plain text" = None /\ parse "[1,]" = None /\ parse "12" = Some (JNum 12).
Proof. vm_compute. repeat split. Qed.

(** ** The round trip *)

(** The values that come back as they were: no [undefined], whole numbers, fresh
    objects, and no key twice. *)
Fixpoint plain (v : jsval) : bool :=
  match v with
  | JNull | JBool _ | JString _ => true
  | JNum (Fin (Qmake _ 1)) => true
  | JArray 0%N l => forallb plain l
  | JObject 0%N fs => bool_decide (NoDup (map fst fs)) && forallb (fun x => plain x.2) fs
  | _ => false
  end.

(** What may follow a value: nothing that continues a number. *)
Definition stops (rest : string) : Prop :=
  match rest with EmptyString => True | String c _ => is_digit c = false /\ is_char 46 c = false /\ is_char 101 c = false /\ is_char 69 c = false end.

Lemma body_escape_char c u :
  body (escape_char c +:+ u) = match body u with Some (t, rest) => Some (String c t, rest) | None => None end.
Proof. destruct c as [[] [] [] [] [] [] [] []]; reflexivity. Qed.
Lemma body_escape s rest : body (escape s +:+ String (chr 34) rest) = Some (s, rest).
Proof. induction s as [|c s IH]; [reflexivity|]. cbn [escape]. by rewrite <- str_app_assoc, body_escape_char, IH. Qed.

(** Printed whole numbers. *)
Lemma span_app d rest :
  str_forall is_digit d = true -> match rest with String c _ => is_digit c = false | EmptyString => True end ->
  span (d +:+ rest) = (d, rest).
Proof.
  intros Hd Hr. induction d as [|c d IH]; simpl in *.
  - change ("" +:+ rest) with rest. destruct rest as [|c r]; [done|]. simpl. by rewrite Hr.
  - apply andb_true_iff in Hd as [Hc Hd]. change (String c d +:+ rest) with (String c (d +:+ rest)). simpl. by rewrite Hc, IH.
Qed.
Lemma pretty_go_first x s : x <> 0%N -> exists c t, pretty_N_go x s = String c t /\ is_char 48 c = false.
Proof.
  revert s. induction (N.lt_wf_0 x) as [x _ IH]; intros s Hx. rewrite pretty_N_go_step by lia.
  destruct (decide (x / 10 = 0)%N) as [Hd|Hd]; [|apply IH; [apply N.div_lt; lia|done]].
  rewrite Hd, pretty_N_go_0. eexists _, _. split; [done|].
  assert (x < 10)%N as Hlt by (apply N.div_small_iff in Hd; lia). rewrite N.mod_small by done.
  assert (x = 1 \/ x = 2 \/ x = 3 \/ x = 4 \/ x = 5 \/ x = 6 \/ x = 7 \/ x = 8 \/ x = 9)%N as Hc by lia.
  by repeat destruct Hc as [->|Hc]; subst.
Qed.
Lemma pretty_good_int (x : N) : good_int (pretty x) = true.
Proof.
  unfold pretty, pretty_N. destruct (decide _) as [->|Hx]; [done|]. destruct (pretty_go_first x "" Hx) as (c & t & -> & Hc). simpl. by rewrite Hc.
Qed.
Lemma integer_text z : num_to_string (ofZ z) = (if z <? 0 then "-" else "") +:+ pretty (Z.to_N (Z.abs z)).
Proof.
  change (Q_to_string (inject_Z z) = (if z <? 0 then "-" else "") +:+ pretty (Z.to_N (Z.abs z))). unfold Q_to_string.
  change (Qabs.Qabs (inject_Z z)) with (inject_Z (Z.abs z)).
  assert (frac_digits 17 0 (inject_Z (Z.abs z)) = 0%nat) as ->.
  { cbn [frac_digits]. change (inject_Z (pow10 0)) with 1%Q. assert (num_is_integer (Fin (inject_Z (Z.abs z) * 1)) = true) as ->; [|done].
    unfold num_is_integer. apply Qeq_bool_iff. rewrite Qmult_1_r. by rewrite Qfloor_Z. }
  assert (Qfloor (inject_Z (Z.abs z) * inject_Z (pow10 0)) = Z.abs z) as ->.
  { change (inject_Z (pow10 0)) with 1%Q. rewrite Qmult_1_r. apply Qfloor_Z. }
  change (pow10 0) with 1. rewrite Z.div_1_r. cbn [Nat.eqb]. rewrite str_app_nil_r.
  assert (Qlt_bool (inject_Z z) 0 = (z <? 0)) as ->.
  { unfold Qlt_bool. change 0%Q with (inject_Z 0). rewrite Qle_bool_Z. by rewrite Z.ltb_antisym. }
  f_equal. destruct (Z.abs z) as [|p|p] eqn:E; [done|done|lia].
Qed.
Lemma number_integer z rest : stops rest -> number (num_to_string (ofZ z) +:+ rest) = Some (ofZ z, rest).
Proof.
  intros Hr. rewrite integer_text. set (d := pretty (Z.to_N (Z.abs z))). pose proof (pretty_N_digits (Z.to_N (Z.abs z))) as Hd. fold d in Hd.
  assert (span (d +:+ rest) = (d, rest)) as Hs by (apply span_app; [done|destruct rest; [done|apply Hr]]).
  assert (signed ((if z <? 0 then "-" else "") +:+ d +:+ rest) = (z <? 0, d +:+ rest)) as Hsg.
  { destruct (z <? 0); [done|]. change ("" +:+ d +:+ rest) with (d +:+ rest). pose proof (pretty_N_nonempty (Z.to_N (Z.abs z))) as Hne. fold d in Hne.
    destruct d as [|c t]; [done|]. change (String c t +:+ rest) with (String c (t +:+ rest)). simpl in Hne |- *.
    assert (is_char 45 c = false) as ->; [|done]. by destruct c as [[] [] [] [] [] [] [] []]. }
  unfold number. rewrite <- str_app_assoc, Hsg, Hs. unfold d at 1. rewrite pretty_good_int.
  assert (fraction rest = Some ("", rest)) as ->.
  { destruct rest as [|c r]; [done|]. unfold fraction. destruct Hr as (_ & -> & _). done. }
  assert (exponent rest = Some (0, rest)) as ->.
  { destruct rest as [|c r]; [done|]. unfold exponent. destruct Hr as (_ & _ & -> & ->). done. }
  rewrite str_app_nil_r. unfold d. rewrite read_pretty_N. rewrite Z2N.id by lia. cbn [String.length Z.of_nat Z.sub Z.opp Z.add Z.eqb].
  do 3 f_equal. destruct (Z.ltb_spec z 0); lia.
Qed.

(** The text of a value. *)
Definition text (v : jsval) : string := default "" (stringify v).
Lemma plain_text v : plain v = true -> stringify v = Some (text v).
Proof. unfold text. by destruct v as [| |b|[| |[n []]]|s|[|l] fs|[|l] l'|l fs|k]. Qed.

(** The first character of a number, and of any value. *)
Definition starts (c : ascii) : bool :=
  negb (is_ws c || is_char 93 c || is_char 125 c || is_char 44 c).
Definition number_start (c : ascii) : bool := is_digit c || is_char 45 c.
Lemma number_start_facts c :
  number_start c = true ->
  starts c = true /\ is_ws c = false /\ is_char 34 c = false /\ is_char 91 c = false /\ is_char 123 c = false /\
  forall s, keyword (String c s) = match number (String c s) with Some (n, r) => Some (JNum n, r) | None => None end.
Proof. destruct c as [[] [] [] [] [] [] [] []]; try discriminate; intros _; repeat split. Qed.
Lemma integer_first z : exists c t, num_to_string (ofZ z) = String c t /\ number_start c = true.
Proof.
  rewrite integer_text. destruct (z <? 0); [by eexists _, _|]. change ("" +:+ pretty (Z.to_N (Z.abs z))) with (pretty (Z.to_N (Z.abs z))).
  pose proof (pretty_N_nonempty (Z.to_N (Z.abs z))) as Hn. destruct (pretty _) as [|c t]; [done|]. exists c, t. split; [done|].
  unfold number_start. simpl in Hn. by rewrite Hn.
Qed.
Lemma text_first v : plain v = true -> exists c t, text v = String c t /\ starts c = true.
Proof.
  intros Hv. destruct v as [| |b|[| |[n []]]|s|[|l] fs|[|l] l'|l fs|k]; try discriminate Hv; try (by eexists _, _).
  - destruct b; by eexists _, _.
  - change (text (JNum (Fin (n # 1)))) with (num_to_string (ofZ n)). destruct (integer_first n) as (c & t & -> & Hc). exists c, t.
    split; [done|]. by apply number_start_facts.
Qed.
Lemma skip_start c s : starts c = true -> skip (String c s) = String c s.
Proof. unfold starts. simpl. destruct (is_ws c); [done|done]. Qed.

(** Lists joined by commas. *)
Lemma concat_cons x y l : String.concat "," (x :: y :: l) = x +:+ "," +:+ String.concat "," (y :: l).
Proof. reflexivity. Qed.
Lemma concat_length l :
  (length l <= S (String.length (String.concat "," l)))%nat /\
  forall x, x ∈ l -> (String.length x <= String.length (String.concat "," l))%nat.
Proof.
  induction l as [|x [|y l] IH]; [split; [simpl; lia|by intros x ?%not_elem_of_nil]| |].
  - split; [simpl; lia|]. by intros z ->%list_elem_of_singleton.
  - destruct IH as [IH1 IH2]. rewrite concat_cons, !IsoDate.length_app. cbn [length] in *. change (String.length ",") with 1%nat.
    split; [lia|]. intros z [->|Hz]%elem_of_cons; [lia|]. specialize (IH2 z Hz). lia.
Qed.

Section lists.
Context (val : string -> option (jsval * string)).
(** The parser reads this value back. *)
Definition reads (v : jsval) : Prop := forall rest, stops rest -> val (text v +:+ rest) = Some (v, rest).

Lemma items_ok fuel l rest :
  Forall reads l -> l <> [] -> (length l <= fuel)%nat -> items val fuel (String.concat "," (map text l) +:+ String (chr 93) rest) = Some (l, rest).
Proof.
  intros Hl. revert fuel. induction Hl as [|v l Hv Hl IH]; intros fuel Hne Hf; [done|].
  destruct fuel as [|fuel]; [simpl in Hf; lia|]. cbn [items]. destruct l as [|w l].
  - change (String.concat "," (map text [v])) with (text v). by rewrite Hv.
  - change (map text (v :: w :: l)) with (text v :: text w :: map text l). rewrite concat_cons, <- str_app_assoc.
    rewrite Hv by done. rewrite <- str_app_assoc. change (skip ("," +:+ ?s)) with (String "," s). cbn iota beta.
    change (is_char 44 ",") with true. cbn iota. change (text w :: map text l) with (map text (w :: l)).
    rewrite IH; [done|done|simpl in *; lia].
Qed.

Definition member (x : string * jsval) : string := quoted (escape x.1) +:+ ":" +:+ text x.2.
Lemma jmap_set_last {A} (k : string) (v : A) m : k ∉ map fst m -> jmap_set k v m = m ++ [(k, v)].
Proof.
  induction m as [|[k' v'] m IH]; [done|]. simpl. intros [Hne Hk]%not_elem_of_cons. rewrite decide_False by done. by rewrite IH.
Qed.
Lemma members_ok fuel fs rest acc :
  Forall (fun x => reads x.2) fs -> fs <> [] -> (length fs <= fuel)%nat -> NoDup (map fst (acc ++ fs)) ->
  members val fuel (String.concat "," (map member fs) +:+ String (chr 125) rest) acc = Some (acc ++ fs, rest).
Proof.
  intros Hl. revert fuel acc. induction Hl as [|[k v] fs Hv Hl IH]; intros fuel acc Hne Hf Hnd; [done|].
  destruct fuel as [|fuel]; [simpl in Hf; lia|]. cbn [members].
  assert (exists tail, String.concat "," (map member ((k, v) :: fs)) +:+ String (chr 125) rest =
      String (chr 34) (escape k +:+ String (chr 34) (String (chr 58) (text v +:+ tail))) /\
    tail = match fs with [] => String (chr 125) rest | _ => String (chr 44) (String.concat "," (map member fs) +:+ String (chr 125) rest) end)
    as (tail & -> & Htail).
  { eexists. split; [|reflexivity]. assert (forall u, member (k, v) +:+ u = String (chr 34) (escape k +:+ String (chr 34) (String (chr 58) (text v +:+ u)))) as Hm.
    { intros u. unfold member, quoted. cbn [fst snd]. rewrite <- !str_app_assoc.
      change (String (chr 34) ((escape k +:+ String (chr 34) "") +:+ ":" +:+ text v +:+ u) = String (chr 34) (escape k +:+ String (chr 34) (String (chr 58) (text v +:+ u)))).
      by rewrite <- str_app_assoc. }
    destruct fs as [|y fs]; [apply Hm|]. change (map member ((k, v) :: y :: fs)) with (member (k, v) :: member y :: map member fs).
    rewrite concat_cons, <- str_app_assoc. apply Hm. }
  change (skip (String (chr 34) ?s)) with (String (chr 34) s). cbn iota beta. change (is_char 34 (chr 34)) with true. cbn iota.
  rewrite body_escape. change (skip (String (chr 58) ?s)) with (String (chr 58) s). cbn iota beta. change (is_char 58 (chr 58)) with true. cbn iota.
  simpl in Hv. rewrite map_app in Hnd. cbn [map fst] in Hnd.
  assert (k ∉ map fst acc) as Hk.
  { intros Hin. apply NoDup_app in Hnd as (_ & Hnd & _). apply (Hnd k Hin). by left. }
  rewrite Hv by (rewrite Htail; by destruct fs). rewrite (jmap_set_last k v acc Hk), Htail. destruct fs as [|y fs]; [done|].
  change (skip (String (chr 44) ?s)) with (String (chr 44) s). cbn iota beta. change (is_char 44 (chr 44)) with true. cbn iota.
  rewrite IH; [by rewrite <- app_assoc|done|simpl in *; lia|]. rewrite <- app_assoc, map_app. exact Hnd.
Qed.
End lists.

Lemma stringify_object fs :
  forallb (fun x => plain x.2) fs = true -> text (JObject 0 fs) = "{" +:+ String.concat "," (map member fs) +:+ "}".
Proof.
  intros Hf. unfold text. cbn [stringify default]. apply (f_equal (fun l => "{" +:+ String.concat "," l +:+ "}")).
  induction fs as [|[k v] fs IH]; [done|]. simpl in Hf. apply andb_true_iff in Hf as [Hv Hf]. cbn [map]. rewrite (plain_text v Hv), <- IH by done. reflexivity.
Qed.
Lemma stringify_array l : forallb plain l = true -> text (JArray 0 l) = "[" +:+ String.concat "," (map text l) +:+ "]".
Proof.
  intros Hl. unfold text at 1. cbn [stringify default]. apply (f_equal (fun l => "[" +:+ String.concat "," l +:+ "]")). induction l as [|v l IH]; [done|]. simpl in Hl. apply andb_true_iff in Hl as [Hv Hl].
  cbn [map]. rewrite (plain_text v Hv), IH by done. done.
Qed.

Lemma value_reads fuel v : plain v = true -> (String.length (text v) < fuel)%nat -> reads (value fuel) v.
Proof.
  revert v. induction fuel as [|fuel IH]; intros v Hv Hf; [lia|]. intros rest Hr.
  destruct v as [| |b|[| |[n []]]|s|[|l] fs|[|l] l'|l fs|k]; try discriminate Hv; cbn [value].
  - done.
  - by destruct b.
  - change (text (JNum (Fin (n # 1)))) with (num_to_string (ofZ n)). pose proof (number_integer n rest Hr) as Hn.
    destruct (integer_first n) as (c & t & E & Hc). rewrite E in *. change (String c t +:+ rest) with (String c (t +:+ rest)) in *.
    destruct (number_start_facts c Hc) as (H1 & _ & H3 & H4 & H5 & H6). rewrite (skip_start _ _ H1). cbn iota. rewrite H3, H4, H5, H6, Hn. done.
  - change (text (JString s) +:+ rest) with (String (chr 34) ((escape s +:+ String (chr 34) EmptyString) +:+ rest)). rewrite <- str_app_assoc.
    change (skip (String (chr 34) ?s)) with (String (chr 34) s). cbn iota beta. change (is_char 34 (chr 34)) with true. cbn iota.
    change (String (chr 34) "" +:+ rest) with (String (chr 34) rest). by rewrite body_escape.
  - simpl in Hv. apply andb_true_iff in Hv as [Hnd Hv]. apply bool_decide_eq_true in Hnd. rewrite stringify_object in * by done.
    rewrite <- !str_app_assoc. change ("}" +:+ rest) with (String (chr 125) rest). set (r := String.concat "," (map member fs) +:+ String (chr 125) rest).
    change (skip ("{" +:+ r)) with (String (chr 123) r). cbn iota. change (is_char 34 (chr 123)) with false. change (is_char 91 (chr 123)) with false. change (is_char 123 (chr 123)) with true. cbn iota.
    destruct fs as [|x fs]; [done|]. assert (exists s', r = String (chr 34) s') as [s' Es] by (destruct fs; by eexists). rewrite Es. change (skip (String (chr 34) s')) with (String (chr 34) s'). cbn iota. change (is_char 125 (chr 34)) with false. cbn iota.
    rewrite <- Es. unfold r. rewrite !IsoDate.length_app in Hf. destruct (concat_length (map member (x :: fs))) as [C1 C2]. rewrite length_map in C1. change (String.length "{") with 1%nat in Hf. change (String.length "}") with 1%nat in Hf.
    rewrite members_ok; [done| |done|lia|done]. apply Forall_forall. intros y Hy. rewrite forallb_forall in Hv. apply IH; [apply Hv; by apply list_elem_of_In|].
    specialize (C2 (member y) ltac:(by apply list_elem_of_fmap_2)). 
    assert (String.length (text y.2) <= String.length (member y))%nat by (unfold member; rewrite !IsoDate.length_app; lia). lia.
  - simpl in Hv. rewrite stringify_array in * by done. rewrite <- !str_app_assoc. change ("]" +:+ rest) with (String (chr 93) rest).
    set (r := String.concat "," (map text l') +:+ String (chr 93) rest).
    change (skip ("[" +:+ r)) with (String (chr 91) r). cbn iota. change (is_char 34 (chr 91)) with false. change (is_char 91 (chr 91)) with true. cbn iota.
    destruct l' as [|x l']; [done|]. assert (plain x = true) as Hx by (by apply andb_true_iff in Hv as [? _]).
    assert (exists c s', r = String c s' /\ starts c = true) as (c & s' & Es & Hc).
    { destruct (text_first x Hx) as (c & t & Et & Hc). destruct l' as [|y l'].
      - eexists c, _. split; [|done]. unfold r. change (String.concat "," (map text [x])) with (text x). rewrite Et. reflexivity.
      - eexists c, _. split; [|done]. unfold r. cbn [map]. rewrite concat_cons, Et. reflexivity. }
    rewrite Es, (skip_start _ _ Hc). cbn iota. assert (is_char 93 c = false) as -> by (unfold starts in Hc; destruct (is_char 93 c); [by rewrite orb_true_r in Hc|done]).
    rewrite <- Es. unfold r. rewrite !IsoDate.length_app in Hf. destruct (concat_length (map text (x :: l'))) as [C1 C2]. rewrite length_map in C1. change (String.length "[") with 1%nat in Hf. change (String.length "]") with 1%nat in Hf.
    rewrite items_ok; [done| |done|lia]. apply Forall_forall. intros y Hy. rewrite forallb_forall in Hv. apply IH; [apply Hv; by apply list_elem_of_In|].
    specialize (C2 (text y) ltac:(by apply list_elem_of_fmap_2)). lia.
Qed.

(** What [JSON.stringify] prints of a plain value, [JSON.parse] reads back. *)
Lemma parse_stringify v : plain v = true -> exists s, stringify v = Some s /\ parse s = Some v.
Proof.
  intros Hv. exists (text v). split; [by apply plain_text|]. unfold parse.
  pose proof (value_reads (S (String.length (text v))) v Hv ltac:(lia) "" I) as Hr. rewrite str_app_nil_r in Hr. by rewrite Hr.
Qed.
End JsonText.
