(* ===== verification/Cache.v ===== *)
(** * Caches

    [infrastructure/cache/]: the store of values as JSON under namespaced keys
    ([CacheStore]), the tracker of expiries in a sorted set ([TTLManager]), the
    cache of idempotency answers ([IdempotencyCache]) and the composite keys
    ([CompositeKey]). *)
From Stdlib Require Import Ascii QArith Qround Qpower Qabs Lqa.
From stdpp Require Import base tactics numbers list strings gmap pretty sorting.
From S2P Require Import Prelude JsNum JsValue Errors Text IsoDate Connectors JsonText Redis Recovery Quotas.

(** ** The store *)

Module CacheStore.
Import KeySpace.

Section store.
Context {R : Type} (c : RedisOperations.client R).
Abbreviation M := (meth R exn).

(** infrastructure/cache/cache-store.ts:18-20 buildKey *)
Definition buildKey (namespace id : string) : string := KeyBuilder.cacheKey namespace id.
(** infrastructure/cache/cache-store.ts:31-35 get
    What a stored text stands for. *)
Definition decode (value : string) : jsval := default (JString value) (JsonText.parse value).
(** infrastructure/cache/cache-store.ts:25-36 get *)
Definition get (namespace id : string) : M jsval :=
  value ← RedisOperations.get c (buildKey namespace id);
  mret (match value with None => JNull | Some value => decode value end).
(** infrastructure/cache/cache-store.ts:43-43 set
    The client writes [undefined] as an empty text. *)
Definition encode (value : jsval) : string :=
  match value with JString s => s | _ => default "" (Json.stringify value) end.
(** infrastructure/cache/cache-store.ts:41-45 set *)
Definition set (namespace id : string) (value : jsval) (ttlMs : Z) : M unit :=
  RedisOperations.set c (buildKey namespace id) (encode value) (RedisOperations.Millis ttlMs).
(** infrastructure/cache/cache-store.ts:50-53 delete *)
Definition delete (namespace id : string) : M unit := RedisOperations.delete c (buildKey namespace id);; mret tt.
(** infrastructure/cache/cache-store.ts:58-61 exists *)
Definition exists_ (namespace id : string) : M bool := RedisOperations.exists_ c (buildKey namespace id).
(** infrastructure/cache/cache-store.ts:66-69 getTTL *)
Definition getTTL (namespace id : string) : M (option Z) := RedisOperations.ttl c (buildKey namespace id).
(** infrastructure/cache/cache-store.ts:74-77 setTTL *)
Definition setTTL (namespace id : string) (ttlMs : Z) : M unit := RedisOperations.expire c (buildKey namespace id) ttlMs.
(** infrastructure/cache/cache-store.ts:82-85 increment *)
Definition increment (namespace id : string) (delta : Z) : M Z := RedisOperations.increment c (buildKey namespace id) delta.
(** infrastructure/cache/cache-store.ts:90-93 decrement
    With the wrapper's decrement by [delta]. *)
Definition decrement (decr : string -> Z -> M Z) (namespace id : string) (delta : Z) : M Z := decr (buildKey namespace id) delta.
(** infrastructure/cache/cache-store.ts:116-119 invalidatePattern *)
Definition invalidatePattern (pattern : string) : M Z := RedisOperations.deleteByPattern c pattern.
End store.

Section fetch.
Context {R F : Type}.

(** The server, and the state the fetcher works on. *)
Record world : Type := World { server : R; source : F }.
Definition on_server {A} (m : meth R exn A) : meth world exn A := fun w =>
  let '(r, o) := m (server w) in (World r (source w), o).
Definition on_source {A} (m : meth F exn A) : meth world exn A := fun w =>
  let '(f, o) := m (source w) in (World (server w) f, o).

(** infrastructure/cache/cache-store.ts:98-111 getOrFetch *)
Definition getOrFetch (c : RedisOperations.client R) (namespace id : string) (fetcher : meth F exn jsval) (ttlMs : Z) : meth world exn jsval :=
  cached ← on_server (get c namespace id);
  match cached with
  | JNull =>
      fresh ← on_source fetcher;
      on_server (set c namespace id fresh ttlMs);;
      mret fresh
  | _ => mret cached
  end.
End fetch.
Arguments world : clear implicits.

(** *** What comes back *)

(** A text that is JSON comes back as the value it stands for. *)
Definition as_cached (v : jsval) : jsval := match v with JString s => decode s | _ => v end.
Lemma decode_encode v : JsonText.plain v = true -> decode (encode v) = as_cached v.
Proof.
  intros Hv. destruct (JsonText.parse_stringify v Hv) as (s & Hs & Hp).
  destruct v; try reflexivity; unfold decode, encode; rewrite Hs; cbv [default from_option id]; by rewrite Hp.
Qed.
Definition is_null (v : jsval) : bool := match v with JNull => true | _ => false end.
Lemma as_cached_null v : is_null (as_cached v) = true <-> v = JNull \/ exists s, v = JString s /\ JsonText.parse s = Some JNull.
Proof.
  split.
  - destruct v; try discriminate; [by left|]. simpl. unfold decode. intros Hd. right. exists s. split; [done|].
    destruct (JsonText.parse s) as [[]|]; done.
  - intros [->|(s & -> & Hs)]; [done|]. simpl. unfold decode. by rewrite Hs.
Qed.

Section server.
Context {R : Type} `{KeySpace R} (others : RedisOperations.client R).
Definition at_ (now : Z) : RedisOperations.client R := RedisOperations.server_client now others.

Lemma get_server now ns id r :
  get (at_ now) ns id r = (r, Ok (match entry now (buildKey ns id) r with None => JNull | Some (value, _) => decode value end)).
Proof.
  unfold get, RedisOperations.get. assert (RedisOperations.execute (RedisOperations.c_get (at_ now) (buildKey ns id)) r =
    (r, Ok (fst <$> entry now (buildKey ns id) r))) as Hg by (apply RedisOperations.execute_ok; done).
  rewrite (bind_ok _ _ _ _ _ Hg). by destruct (entry now (buildKey ns id) r) as [[v x]|].
Qed.
Lemma set_server now ns id v ttl r :
  set (at_ now) ns id v ttl r = (k_set now (buildKey ns id) (encode v) (if 0 <? ttl then Some ttl else None) r, Ok tt).
Proof. unfold set, RedisOperations.set. apply RedisOperations.execute_ok. by destruct (0 <? ttl). Qed.

(** A value that was set comes back until its time is over, and for ever when it
    was given none; other keys are not touched.  A string that happens to be JSON
    does not come back as a string. *)
Lemma cached_value now t ns id v ttl r :
  JsonText.plain v = true -> now <= t ->
  let r' := (set (at_ now) ns id v ttl r).1 in
  get (at_ t) ns id r' = (r', Ok (if (0 <? ttl) && (now + ttl <=? t) then JNull else as_cached v)) /\
  forall ns' id', buildKey ns' id' <> buildKey ns id -> (get (at_ t) ns' id' r').2 = (get (at_ t) ns' id' r).2.
Proof.
  intros Hv Ht. cbv zeta. rewrite set_server. cbn [fst]. split.
  - rewrite get_server, entry_set_eq by done. destruct (Z.ltb_spec 0 ttl) as [Hp|Hp]; simpl; [|by rewrite decode_encode].
    rewrite Z.ltb_antisym. destruct (now + ttl <=? t); simpl; [done|by rewrite decode_encode].
  - intros ns' id' Hne. rewrite !get_server. cbn [snd]. by rewrite entry_set_ne by done.
Qed.
End server.

(** A value that is not cached is fetched and stored; until its time is over
    it is then answered from the cache, with whatever state the source is in,
    and the source is not asked.  A null result (and the text of one) is not
    cached: it is fetched again each time.  When fetching fails, nothing is
    stored; when the server is unreachable, the call fails without fetching. *)
Theorem fetched_once {R F} `{KeySpace R} others ns id (fetcher : meth F exn jsval) ttl t0 t (w : world R F) f1 v f2 :
  entry t0 (buildKey ns id) (server w) = None -> 0 < ttl -> t0 <= t < t0 + ttl ->
  fetcher (source w) = (f1, Ok v) -> JsonText.plain v = true ->
  let first := getOrFetch (at_ others t0) ns id fetcher ttl w in
  first.2 = Ok v /\ source first.1 = f1 /\
  (let again := getOrFetch (at_ others t) ns id fetcher ttl (World (server first.1) f2) in
   if is_null (as_cached v) then source again.1 = (fetcher f2).1
   else again = (World (server first.1) f2, Ok (as_cached v))) /\
  (is_null (as_cached v) = true <-> v = JNull \/ exists s, v = JString s /\ JsonText.parse s = Some JNull).
Proof.
  intros He Httl Ht Hf Hv. set (k := buildKey ns id).
  assert (getOrFetch (at_ others t0) ns id fetcher ttl w = (World (k_set t0 k (encode v) (Some ttl) (server w)) f1, Ok v)) as ->.
  { assert (on_server (F := F) (get (at_ others t0) ns id) w = (w, Ok JNull)) as Hg.
    { unfold on_server. rewrite get_server, He. by destruct w. }
    unfold getOrFetch. rewrite (bind_ok _ _ _ _ _ Hg). unfold on_source, mbind, meth_bind. rewrite Hf.
    unfold on_server. cbn [server source]. rewrite set_server. by rewrite (proj2 (Z.ltb_lt 0 ttl)) by lia. }
  cbn [fst snd source server]. split; [done|]. split; [done|]. split; [|apply as_cached_null].
  set (r1 := k_set t0 k (encode v) (Some ttl) (server w)).
  assert (on_server (F := F) (get (at_ others t) ns id) (World r1 f2) = (World r1 f2, Ok (as_cached v))) as Hg.
  { unfold on_server. cbn [server source]. rewrite get_server. fold k. unfold r1. rewrite entry_set_eq by lia. simpl.
    rewrite (proj2 (Z.ltb_lt t (t0 + ttl))) by lia. by rewrite decode_encode. }
  unfold getOrFetch. rewrite !(bind_ok _ _ _ _ _ Hg).
  destruct (as_cached v); try reflexivity. simpl is_null. cbn iota. unfold on_source, mbind, meth_bind. cbn [source server].
  destruct (fetcher f2) as [f3 [x|e]]; [|done]. unfold on_server. cbn [server source]. by rewrite set_server.
Qed.
Lemma fetched_once_witness :
  let get_it := getOrFetch (at_ RedisOperations.unconnected 10 : RedisOperations.client (gmap string entry_t)) "users" "7"
    (fun n => (S n, Ok (JObject 0 [("name", JString "Ann")]))) 1000 in
  (get_it (World ∅ 0%nat)).2 = Ok (JObject 0 [("name", JString "Ann")]).
Proof.
  cbv zeta.
  destruct (fetched_once (R := gmap string entry_t) RedisOperations.unconnected "users" "7" (fun n => (S n, Ok (JObject 0 [("name", JString "Ann")]))) 1000 10 500
    (World ∅ 0%nat) 1%nat (JObject 0 [("name", JString "Ann")]) 5%nat) as [H _]; [|lia|lia|reflexivity|reflexivity|exact H].
  by vm_compute.
Defined.

(** The text of a number does not come back as a text, and namespaces that hold a
    colon share keys. *)
Example text_becomes_number : as_cached (JString "12") = JNum 12.
Proof. vm_compute. reflexivity. Qed.
Example keys_collide : buildKey "a:b" "c" = buildKey "a" "b:c".
Proof. reflexivity. Qed.
End CacheStore.

(** ** The tracker of expiries *)

Module TTLManager.
Import KeySpace.

Section manager.
Context {R : Type} `{KeySpace R} (others : RedisOperations.client R).

(** infrastructure/cache/ttl-manager.ts:7-9 TTLManager
    The keys, the scores of the sorted set, and whether the timer runs. *)
Record world : Type := World { keys : R; tracker : gmap string Z; timer : bool }.
Abbreviation M := (meth world exn).
Definition on_keys {A} (m : meth R exn A) : M A := fun w => let '(r, o) := m (keys w) in (World r (tracker w) (timer w), o).
Definition ops (now : Z) : RedisOperations.client R := RedisOperations.server_client now others.

(** Commands on the tracker: [zadd], [zscore], [zrem], [zrangebyscore]; [srem] is
    refused by a key that holds a sorted set, and finds nothing without one. *)
Definition zadd (score : Z) (key : string) : M unit := modify (fun w => World (keys w) (<[key := score]> (tracker w)) (timer w)).
Definition zrem (key : string) : M unit := modify (fun w => World (keys w) (delete key (tracker w)) (timer w)).
Definition wrong_type : exn :=
  InfrastructureError "Redis operation failed: WRONGTYPE Operation against a key holding the wrong kind of value" "REDIS_CONNECTION_FAILED".
Definition srem (key : string) : M unit := fun w =>
  if decide (tracker w = ∅) then (w, Ok tt) else (w, Throw wrong_type).
Definition zrangebyscore (lo hi : Z) : M (list string) :=
  gets (fun w => map fst (filter (fun x => lo <= x.2 <= hi) (map_to_list (tracker w)))).

(** infrastructure/cache/ttl-manager.ts:21-26 schedule *)
Definition schedule (now : Z) (key : string) (ttlMs : Z) : M unit :=
  zadd (now + ttlMs) key;; on_keys (RedisOperations.expire (ops now) key ttlMs).
(** infrastructure/cache/ttl-manager.ts:31-35 unschedule *)
Definition unschedule (now : Z) (key : string) : M unit :=
  srem key;; on_keys (RedisOperations.delete (ops now) key);; mret tt.
(** infrastructure/cache/ttl-manager.ts:40-47 extend *)
Definition extend (now : Z) (key : string) (additionalTtlMs : Z) : M unit :=
  currentTtl ← on_keys (RedisOperations.ttl (ops now) key);
  let newTtl := default 0 currentTtl + additionalTtlMs in
  zadd (now + newTtl) key;; on_keys (RedisOperations.expire (ops now) key newTtl).
(** infrastructure/cache/ttl-manager.ts:52-57 getExpiry *)
Definition getExpiry (key : string) : M (option Z) := gets (fun w => tracker w !! key).
(** infrastructure/cache/ttl-manager.ts:62-66 isExpired *)
Definition isExpired (now : Z) (key : string) : M bool :=
  expiry ← getExpiry key; mret (match expiry with Some t => t <? now | None => true end).
(** infrastructure/cache/ttl-manager.ts:81-86 cleanupExpired *)
Fixpoint evict (now : Z) (l : list string) (evictedCount : Z) : M Z :=
  match l with
  | [] => mret evictedCount
  | key :: l =>
      deleted ← on_keys (RedisOperations.delete (ops now) key);
      zrem key;;
      evict now l (evictedCount + if deleted : bool then 1 else 0)
  end.
(** infrastructure/cache/ttl-manager.ts:71-89 cleanupExpired *)
Definition cleanupExpired (now : Z) : M Z := expiredKeys ← zrangebyscore 0 now; evict now expiredKeys 0.
(** infrastructure/cache/ttl-manager.ts:94-103 startBackgroundCleanup *)
Definition startBackgroundCleanup : M unit := modify (fun w => World (keys w) (tracker w) true).
(** infrastructure/cache/ttl-manager.ts:108-113 stopBackgroundCleanup *)
Definition stopBackgroundCleanup : M unit := modify (fun w => World (keys w) (tracker w) false).

(** *** A cleaning *)

Definition due (now : Z) (w : world) (key : string) : bool :=
  match tracker w !! key with Some s => (0 <=? s) && (s <=? now) | None => false end.
Definition present (now : Z) (r : R) (key : string) : bool := match entry now key r with Some _ => true | None => false end.

Lemma delete_server now key w :
  on_keys (RedisOperations.delete (ops now) key) w = (World (k_del key (keys w)) (tracker w) (timer w), Ok (present now (keys w) key)).
Proof.
  unfold on_keys, RedisOperations.delete.
  assert (RedisOperations.execute (RedisOperations.c_del (ops now) [key]) (keys w) =
    (k_del key (keys w), Ok (if present now (keys w) key then 1 else 0))) as Hd.
  { apply RedisOperations.execute_ok. unfold ops, RedisOperations.server_client, RedisOperations.del_at, present. cbn [RedisOperations.c_del fold_left].
    rewrite filter_cons, filter_nil. destruct (entry now key (keys w)); [rewrite decide_True by done|rewrite decide_False by (by intros [? ?])]; done. }
  rewrite (bind_ok _ _ _ _ _ Hd). by destruct (present now (keys w) key).
Qed.
Lemma filter_agree {A} (p q : A -> bool) (l : list A) :
  (forall x, x ∈ l -> p x = q x) -> filter (fun x => p x = true) l = filter (fun x => q x = true) l.
Proof.
  induction l as [|x l IH]; intros Hl; [done|]. rewrite !filter_cons, (Hl x) by left. rewrite IH by (intros y Hy; apply Hl; by right). done.
Qed.
Definition absent (now : Z) (l : list string) (r r' : R) : Prop :=
  forall t k, now <= t -> entry t k r' = if bool_decide (k ∈ l) then None else entry t k r.

Lemma evict_spec now l n w :
  NoDup l ->
  exists r', evict now l n w = (World r' (filter (fun x => x.1 ∉ l) (tracker w)) (timer w),
                                Ok (n + Z.of_nat (length (filter (fun k => present now (keys w) k = true) l)))) /\
    absent now l (keys w) r'.
Proof.
  revert n w. induction l as [|key l IH]; intros n w Hnd.
  { exists (keys w). split; [|by intros t k Ht]. destruct w as [r tr b]. cbn [evict keys tracker timer]. rewrite filter_nil, Z.add_0_r.
    assert (filter (fun x : string * Z => x.1 ∉ []) tr = tr) as ->; [|done]. apply map_filter_id. intros i x _. apply not_elem_of_nil. }
  apply NoDup_cons in Hnd as [Hk Hnd]. cbn [evict]. rewrite (bind_ok _ _ _ _ _ (delete_server now key w)).
  unfold zrem, modify at 1, mbind at 1, meth_bind at 1. cbn [keys tracker timer].
  destruct (IH (n + if present now (keys w) key then 1 else 0) (World (k_del key (keys w)) (delete key (tracker w)) (timer w)) Hnd) as (r' & -> & Ha).
  exists r'. cbn [keys tracker timer] in *. split.
  - f_equal.
    + f_equal. apply map_eq. intros k. apply option_eq. intros x. rewrite !map_lookup_filter_Some, lookup_delete_Some. cbn [fst].
      rewrite not_elem_of_cons. naive_solver.
    + assert (filter (fun k => present now (k_del key (keys w)) k = true) l = filter (fun k => present now (keys w) k = true) l) as ->.
      { apply filter_agree. intros k Hin. unfold present. rewrite entry_del_ne; [done|]. intros ->. done. }
      rewrite filter_cons. destruct (present now (keys w) key) eqn:E; [rewrite decide_True by done|rewrite decide_False by done]; simpl; f_equal; lia.
  - intros t k Ht. rewrite (Ha t k Ht). destruct (decide (k = key)) as [->|Hne].
    + rewrite (bool_decide_eq_true_2 (key ∈ key :: l)) by by left. rewrite entry_del_eq. by case_bool_decide.
    + rewrite entry_del_ne by done. rewrite (bool_decide_ext (k ∈ key :: l) (k ∈ l)); [done|]. rewrite elem_of_cons. naive_solver.
Qed.

(** A cleaning removes from the tracker exactly the keys whose time is over,
    deletes exactly them, and counts those of them that still existed.  Since a
    scheduled key has expired by then on its own, the count is of the keys that
    were written again after they were scheduled: they are deleted however long
    they should have lived. *)
Theorem expired_evicted now w :
  exists r' n,
    cleanupExpired now w = (World r' (filter (fun x => due now w x.1 = false) (tracker w)) (timer w), Ok n) /\
    (forall t k, now <= t -> entry t k r' = if due now w k then None else entry t k (keys w)) /\
    n = Z.of_nat (length (filter (fun x => present now (keys w) x.1 = true) (filter (fun x => 0 <= x.2 <= now) (map_to_list (tracker w))))).
Proof.
  set (l := filter (fun x : string * Z => 0 <= x.2 <= now) (map_to_list (tracker w))).
  assert (NoDup (map fst l)) as Hnd by (apply Recovery.Jobs.filter_keys_NoDup, NoDup_fst_map_to_list).
  assert (forall k, k ∈ map fst l <-> due now w k = true) as Hk.
  { intros k. unfold due. rewrite list_elem_of_fmap. split.
    - intros ([k' s] & -> & [Hs Hin]%list_elem_of_filter). apply elem_of_map_to_list in Hin. simpl in *. rewrite Hin. lia.
    - destruct (tracker w !! k) as [s|] eqn:E; [|done]. intros Hs. exists (k, s). split; [done|]. apply list_elem_of_filter. simpl.
      split; [lia|]. by apply elem_of_map_to_list. }
  destruct (evict_spec now (map fst l) 0 w Hnd) as (r' & He & Ha). exists r'. eexists. split; [|split; [|reflexivity]].
  - unfold cleanupExpired, zrangebyscore, gets, mbind, meth_bind. fold l. rewrite He. f_equal.
    + f_equal. apply map_filter_ext. intros k s _. simpl. rewrite Hk. by destruct (due now w k).
    + rewrite Z.add_0_l. do 2 f_equal. fold l. clear. induction l as [|x l IH]; [done|]. cbn [map]. rewrite !filter_cons.
      destruct (decide _); cbn [length]; by rewrite IH.
  - intros t k Ht. rewrite (Ha t k Ht). destruct (due now w k) eqn:E.
    + by rewrite bool_decide_eq_true_2 by by apply Hk.
    + rewrite bool_decide_eq_false_2; [done|]. rewrite Hk, E. done.
Qed.
End manager.

(** A key that is set again without end while it is tracked is deleted. *)
Example rewritten_key_evicted :
  let w0 := World (∅ : gmap string entry_t) ∅ true in
  let w1 := (schedule RedisOperations.unconnected 0 "k" 1000 w0).1 in
  let w2 := World (k_set 10 "k" "new" None (keys w1)) (tracker w1) (timer w1) in
  let '(w3, o) := cleanupExpired RedisOperations.unconnected 1000 w2 in
  o = Ok 1 /\ entry 1000 "k" (keys w3) = None.
Proof. vm_compute. split; reflexivity. Qed.
(** A tracked key cannot be taken off the tracker. *)
Lemma unschedule_fails {R} `{KeySpace R} others now key (w : world (R := R)) :
  tracker w <> ∅ -> unschedule others now key w = (w, Throw wrong_type).
Proof. intros Hw. unfold unschedule, srem, mbind, meth_bind. by rewrite decide_False by done. Qed.
End TTLManager.

(** ** The cache of idempotency answers *)

Module IdempotencyCache.
Import KeySpace.

(** An error of the parser. *)
Definition syntax_error : exn := Foreign (JError 0 [("name", JString "SyntaxError"); ("message", JString "Unexpected token in JSON")]).

Section cache.
Context {R : Type} `{KeySpace R} (keysOf : string -> meth R exn (list string)).
Abbreviation M := (meth R exn).

(** infrastructure/cache/idempotency-cache.ts:16-21 set
    The wrapper around a value; clocks are not moved within [ttlHours]. *)
Definition wrap (now : Z) (value : jsval) (ttlHours : Z) : jsval :=
  JObject 0 [("value", value); ("expiresAt", JString (IsoDate.iso_string (now + ttlHours * 3600000)))].
(** infrastructure/cache/idempotency-cache.ts:15-24 set *)
Definition set (now : Z) (key : string) (value : jsval) (ttlHours : Z) : M unit :=
  LegacyLimiter.setex now key (ttlHours * 3600) (default "" (Json.stringify (wrap now value ttlHours))).
(** infrastructure/cache/idempotency-cache.ts:37-37 get
    [new Date(parsed.expiresAt)] on a text. *)
Definition date_in (v : jsval) : date :=
  match js_get "expiresAt" v with JString s => match IsoDate.parse_fields s with Some f => IsoDate.date_of f | None => None end | _ => None end.
(** infrastructure/cache/idempotency-cache.ts:29-39 get *)
Definition get (now : Z) (key : string) : M (option (jsval * date)) :=
  val ← gets (fun r => fst <$> entry now key r);
  match val with
  | None => mret None
  | Some val =>
      if negb (str_truthy val) then mret None
      else match JsonText.parse val with
           | None => fail syntax_error
           | Some JNull => fail (Foreign (JError 0 [("name", JString "TypeError")]))
           | Some parsed => mret (Some (js_get "value" parsed, date_in parsed))
           end
  end.
(** infrastructure/cache/idempotency-cache.ts:44-47 exists *)
Definition exists_ (now : Z) (key : string) : M bool := gets (fun r => match entry now key r with Some _ => true | None => false end).
(** infrastructure/cache/idempotency-cache.ts:52-54 delete *)
Definition delete (key : string) : M unit := modify (k_del key).
(** infrastructure/cache/idempotency-cache.ts:59-64 clear *)
Definition clear : M unit :=
  keys ← keysOf "*idempotent*"; modify (fun r => fold_left (fun r k => k_del k r) keys r).
End cache.

(** An answer kept under a key is read back, with the instant it expires at,
    until that instant, and not after; an expired or deleted key reads as none. *)
Theorem answer_kept {R} `{KeySpace R} now t key v ttlHours (r : R) :
  JsonText.plain v = true -> 0 < ttlHours -> now <= t -> IsoDate.in_years (now + ttlHours * 3600000) = true ->
  let '(r', o) := set now key v ttlHours r in
  o = Ok tt /\
  get t key r' = (r', Ok (if t <? now + ttlHours * 3600000 then Some (v, Some (now + ttlHours * 3600000)) else None)) /\
  get t key (delete key r').1 = ((delete key r').1, Ok None).
Proof.
  intros Hv Httl Ht Hy. set (e := now + ttlHours * 3600000) in *. unfold set, LegacyLimiter.setex.
  rewrite (proj2 (Z.leb_gt (ttlHours * 3600) 0)) by lia. unfold modify. cbn [fst].
  assert (JsonText.plain (wrap now v ttlHours) = true) as Hp.
  { unfold wrap. cbn -[IsoDate.iso_string]. by rewrite Hv. }
  destruct (JsonText.parse_stringify _ Hp) as (s & Hs & Hr). rewrite Hs. cbv [default from_option id].
  destruct (IsoDate.read_iso e Hy) as (f & Hf & Hd).
  assert (str_truthy s = true) as Htr by (destruct s as [|c s]; [change (JsonText.parse "") with (@None jsval) in Hr; discriminate Hr|reflexivity]).
  split; [done|]. split.
  - unfold get, gets, mbind, meth_bind. rewrite entry_set_eq by done.
    change (alive t (Some (s, Z.add now <$> Some (ttlHours * 3600 * 1000)))) with (if t <? now + ttlHours * 3600 * 1000 then Some (s, Some (now + ttlHours * 3600 * 1000)) else None).
    replace (now + ttlHours * 3600 * 1000) with e by (unfold e; lia).
    destruct (t <? e); [|done]. cbn [fmap option_fmap option_map fst]. rewrite Htr, Hr. cbn [negb]. unfold wrap at 1. cbn iota. fold (wrap now v ttlHours).
    change (date_in (wrap now v ttlHours)) with
      (match IsoDate.parse_fields (IsoDate.iso_string e) with Some f => IsoDate.date_of f | None => None end). by rewrite Hf, Hd.
  - unfold get, gets, delete, modify, mbind, meth_bind. cbn [fst]. by rewrite entry_del_eq.
Qed.
Lemma answer_kept_witness :
  let v := JObject 0 [("status", JString "accepted")] in
  (get 1709213696788 "idempotent:1" (set 1709210096789 "idempotent:1" v 1 (∅ : gmap string entry_t)).1).2 =
    Ok (Some (v, Some 1709213696789)).
Proof.
  cbv zeta.
  pose proof (answer_kept 1709210096789 1709213696788 "idempotent:1" (JObject 0 [("status", JString "accepted")]) 1 (∅ : gmap string entry_t)
    eq_refl ltac:(lia) ltac:(lia) ltac:(by vm_compute)) as H.
  destruct (set _ _ _ _ _) as [r o]. destruct H as (_ & H & _). cbn [fst]. by rewrite H.
Defined.
End IdempotencyCache.

(** ** Composite keys *)

Module CompositeKey.

(** SHA-256 in hexadecimal. *)
Class Sha256 := {
  hashSHA256 : string -> string;
  hash_length s : String.length (hashSHA256 s) = 64%nat;
  hash_hex s : str_forall is_hex (hashSHA256 s) = true;
}.

Section keys.
Context `{Sha256}.

Definition no_ids : exn := PlainError "TaskResultId and DestinationId must be provided to construct composite key".
(** infrastructure/cache/composite-key.ts:7-15 buildIdempotencyKey *)
Definition buildIdempotencyKey (taskResultId destinationId : string) : res exn string :=
  if negb (str_truthy taskResultId) || negb (str_truthy destinationId) then Throw no_ids
  else
    let fullHash := hashSHA256 (trim taskResultId +:+ ":" +:+ trim destinationId) in
    Ok (String.substring 0 16 fullHash +:+ ":" +:+ fullHash).
(** infrastructure/cache/composite-key.ts:20-33 isValidIdempotencyKey *)
Definition isValidIdempotencyKey (key : string) : bool :=
  match split_on ":" key with
  | [prefix; fullHash] =>
      if negb (String.length prefix =? 16)%nat || negb (String.length fullHash =? 64)%nat then false else starts_with prefix fullHash
  | _ => false
  end.

Lemma substring_split n s : (n <= String.length s)%nat ->
  exists rest, s = String.substring 0 n s +:+ rest /\ String.length (String.substring 0 n s) = n.
Proof.
  revert s. induction n as [|n IH]; intros s Hn; [exists s; by destruct s|]. destruct s as [|c s]; [simpl in Hn; lia|].
  simpl in Hn. destruct (IH s ltac:(lia)) as (rest & E & L). exists rest. simpl. rewrite L. split; [|done].
  change (String c (String.substring 0 n s) +:+ rest) with (String c (String.substring 0 n s +:+ rest)). by rewrite <- E.
Qed.
Lemma hex_avoids s : str_forall is_hex s = true -> avoids ":" s = true.
Proof. apply str_forall_impl. intros c. by destruct c as [[] [] [] [] [] [] [] []]. Qed.

(** Two identifiers that are given have a key, and it is a valid one; keys
    of identifiers without colons are the same exactly when the identifiers are
    the same up to the spaces around them, unless their hashes collide. *)
Theorem composite_key_valid a b :
  str_truthy a = true -> str_truthy b = true ->
  exists k, buildIdempotencyKey a b = Ok k /\ isValidIdempotencyKey k = true /\
    forall a' b' k', avoids ":" (trim a) = true -> avoids ":" (trim a') = true -> buildIdempotencyKey a' b' = Ok k' ->
      (hashSHA256 (trim a +:+ ":" +:+ trim b) = hashSHA256 (trim a' +:+ ":" +:+ trim b') ->
         trim a +:+ ":" +:+ trim b = trim a' +:+ ":" +:+ trim b') ->
      (k = k' <-> trim a = trim a' /\ trim b = trim b').
Proof.
  intros Ha Hb. unfold buildIdempotencyKey. rewrite Ha, Hb. cbn [negb orb]. set (h := hashSHA256 _). eexists. split; [done|].
  assert (forall s, exists rest, hashSHA256 s = String.substring 0 16 (hashSHA256 s) +:+ rest /\
    String.length (String.substring 0 16 (hashSHA256 s)) = 16%nat /\ avoids ":" (String.substring 0 16 (hashSHA256 s)) = true) as Hpre.
  { intros s. destruct (substring_split 16 (hashSHA256 s)) as (rest & E & L); [rewrite hash_length; lia|]. exists rest. split_and!; [done|done|].
    pose proof (hex_avoids _ (hash_hex s)) as Hx. unfold avoids in Hx |- *. rewrite E, str_forall_app in Hx. by apply andb_true_iff in Hx as [-> _]. }
  split.
  - destruct (Hpre (trim a +:+ ":" +:+ trim b)) as (rest & E & L & Hav). fold h in E, L, Hav. unfold isValidIdempotencyKey.
    change (":" +:+ h) with (String ":" h). rewrite split_on_app by done. rewrite split_on_avoids by (apply hex_avoids, hash_hex).
    rewrite L. unfold h at 1. rewrite hash_length. cbn [Nat.eqb negb orb]. rewrite E at 2. apply starts_with_app.
  - intros a' b' k' Hca Hca'. destruct (negb (str_truthy a') || negb (str_truthy b')); [done|]. intros [= <-] Hinj.
    destruct (Hpre (trim a +:+ ":" +:+ trim b)) as (_ & _ & _ & H1). destruct (Hpre (trim a' +:+ ":" +:+ trim b')) as (_ & _ & _ & H2). fold h in H1. split.
    + intros [_ E]%(sep_inj ":"); [|done|done]. apply Hinj in E. by apply (sep_inj ":") in E.
    + intros [E1 E2]. unfold h. by rewrite E1, E2.
Qed.
End keys.

(** A concrete function: the first 64 digits of the text in hexadecimal. *)
Fixpoint digits (n : nat) (s : string) : string :=
  match n with
  | O => EmptyString
  | S n => match s with String c s => String c (digits n s) | EmptyString => String "0" (digits n EmptyString) end
  end.
Lemma digits_ok n s : str_forall is_hex s = true -> String.length (digits n s) = n /\ str_forall is_hex (digits n s) = true.
Proof.
  revert s. induction n as [|n IH]; intros s Hs; [done|]. destruct s as [|c s]; simpl in *.
  - destruct (IH "" eq_refl) as [-> ->]. done.
  - apply andb_true_iff in Hs as [Hc Hs]. destruct (IH s Hs) as [-> ->]. by rewrite Hc.
Qed.
#[global] Program Instance toy_hash : Sha256 := { hashSHA256 s := digits 64 (hex_encode s) }.
Next Obligation. intros s. exact (proj1 (digits_ok 64 (hex_encode s) (hex_encode_hex s))). Qed.
Next Obligation. intros s. exact (proj2 (digits_ok 64 (hex_encode s) (hex_encode_hex s))). Qed.

Lemma composite_key_valid_witness : exists k, buildIdempotencyKey " t1 " "d1" = Ok k /\ isValidIdempotencyKey k = true.
Proof. destruct (composite_key_valid " t1 " "d1" eq_refl eq_refl) as (k & H1 & H2 & _). by exists k. Defined.
(** Identifiers of spaces only are accepted. *)
Example blank_ids_accepted : is_ok (buildIdempotencyKey " " "  ") = true.
Proof. reflexivity. Qed.
End CompositeKey.
