(* ===== verification/Utils.v ===== *)
(** * Shared helpers

    [shared/utils/] and [shared/guards/]: sortable identifiers and encryption
    ([Crypto]), lists ([Arrays]), names ([Names]), objects ([Objects]),
    environment variables and headers ([Env]), and the tests of values
    ([Guards]). *)
From Stdlib Require Import Ascii QArith Qround Qpower Qabs Lqa.
From stdpp Require Import base tactics numbers list strings gmap pretty.
From S2P Require Import Prelude JsNum JsValue Errors Text IsoDate QueueManager.

(** ** Identifiers and encryption *)

Module Crypto.

(** shared/utils/crypto.ts:27-27 BASE32_ENCODING *)
Definition BASE32_ENCODING : string := "0123456789ABCDEFGHJKMNPQRSTVWXYZ".
(** [BASE32_ENCODING.charAt(n)], of an index within the table. *)
Definition symbol (n : Z) : ascii := default "0"%char (String.get (Z.to_nat n) BASE32_ENCODING).
(** shared/utils/crypto.ts:32-41 encodeBase32 *)
Fixpoint encodeBase32 (time : Z) (length : nat) : string :=
  match length with
  | O => EmptyString
  | S length => encodeBase32 (time / 32) length +:+ String (symbol (time mod 32)) EmptyString
  end.
(** shared/utils/crypto.ts:46-53 encodeRandom
    The draws are whole numbers below 32. *)
Fixpoint encodeRandom (draws : list Z) : string :=
  match draws with [] => EmptyString | d :: draws => String (symbol d) (encodeRandom draws) end.
(** shared/utils/crypto.ts:59-63 generateULID *)
Definition generateULID (now : Z) (draws : list Z) : string := encodeBase32 now 10 +:+ encodeRandom draws.

(** shared/guards/type-guards.ts:51-51 isValidULID
    The class of characters, in either case. *)
Definition ulid_char (c : ascii) : bool :=
  let n := Ascii.nat_of_ascii (ascii_upper c) in
  is_digit c || (((65 <=? n) && (n <=? 72)) || (n =? 74) || (n =? 75) || (n =? 77) || (n =? 78) || ((80 <=? n) && (n <=? 84)) || ((86 <=? n) && (n <=? 90)))%nat.
(** shared/guards/type-guards.ts:48-53 isValidULID *)
Definition isValidULID (val : jsval) : bool :=
  match val with JString s => (String.length s =? 26)%nat && str_forall ulid_char s | _ => false end.

(** *** Their order *)

Definition code (c : ascii) : nat := Ascii.nat_of_ascii c.
Lemma symbols_increase :
  forallb (fun n => forallb (fun m => (n <? m) && (code (symbol n) <? code (symbol m))%nat || (m <=? n)) (seqZ 0 32)) (seqZ 0 32) = true.
Proof. vm_compute. reflexivity. Qed.
Lemma symbols_valid : forallb (fun n => ulid_char (symbol n)) (seqZ 0 32) = true.
Proof. vm_compute. reflexivity. Qed.
Lemma symbol_lt n m : 0 <= n < 32 -> 0 <= m < 32 -> n < m -> (code (symbol n) < code (symbol m))%nat.
Proof.
  intros Hn Hm Hlt. pose proof symbols_increase as Hs. rewrite forallb_forall in Hs.
  specialize (Hs n ltac:(apply list_elem_of_In, elem_of_seqZ; lia)). rewrite forallb_forall in Hs.
  specialize (Hs m ltac:(apply list_elem_of_In, elem_of_seqZ; lia)). apply orb_true_iff in Hs as [Hs|Hs]; [|lia].
  apply andb_true_iff in Hs as [_ Hs]. by apply Nat.ltb_lt.
Qed.
Lemma symbol_valid n : 0 <= n < 32 -> ulid_char (symbol n) = true.
Proof.
  intros Hn. pose proof symbols_valid as Hs. rewrite forallb_forall in Hs. apply Hs. apply list_elem_of_In, elem_of_seqZ. lia.
Qed.

(** Strictly before in the order of characters, at the same length. *)
Fixpoint before (a b : string) : bool :=
  match a, b with
  | String c a, String d b => (code c <? code d)%nat || ((code c =? code d)%nat && before a b)
  | _, _ => false
  end.
Lemma before_app_l a b x y : String.length a = String.length b -> before a b = true -> before (a +:+ x) (b +:+ y) = true.
Proof.
  revert b. induction a as [|c a IH]; intros [|d b] Hl Hb; try discriminate. change (String ?c ?a +:+ ?x) with (String c (a +:+ x)).
  change (String d b +:+ y) with (String d (b +:+ y)). change (String c a +:+ x) with (String c (a +:+ x)). simpl in *. injection Hl as Hl.
  apply orb_true_iff in Hb as [Hb|Hb]; [by rewrite Hb|]. apply andb_true_iff in Hb as [-> Hb]. rewrite (IH b Hl Hb). by rewrite orb_true_r.
Qed.
Lemma before_app_r a x y : before (a +:+ x) (a +:+ y) = before x y.
Proof.
  induction a as [|c a IH]; [done|]. change (String c a +:+ x) with (String c (a +:+ x)). change (String c a +:+ y) with (String c (a +:+ y)).
  simpl. by rewrite Nat.ltb_irrefl, Nat.eqb_refl, IH.
Qed.
Lemma before_lt a b : before a b = true -> str_le a b /\ a <> b.
Proof.
  revert b. induction a as [|c a IH]; intros [|d b] Hb; try discriminate. simpl in Hb. unfold str_le. rewrite str_leb_cons.
  apply orb_true_iff in Hb as [Hb|Hb].
  - apply Nat.ltb_lt in Hb. split; [by left|]. intros [= -> ->]. unfold code in Hb. lia.
  - apply andb_true_iff in Hb as [Hc Hb]. apply Nat.eqb_eq in Hc. apply (f_equal Ascii.ascii_of_nat) in Hc. unfold code in Hc.
    rewrite !Ascii.ascii_nat_embedding in Hc. destruct (IH b Hb) as [H1 H2]. split; [by right|]. intros [= _ ->]. done.
Qed.

Lemma encode_length t n : String.length (encodeBase32 t n) = n.
Proof. revert t. induction n as [|n IH]; intros t; [done|]. simpl. rewrite IsoDate.length_app, IH. simpl. lia. Qed.
Lemma encode_before n t t' : 0 <= t -> t < t' -> t' < 32 ^ Z.of_nat n -> before (encodeBase32 t n) (encodeBase32 t' n) = true.
Proof.
  revert t t'. induction n as [|n IH]; intros t t' H0 Hlt Hb; [simpl in Hb; lia|]. cbn [encodeBase32].
  assert (t' / 32 < 32 ^ Z.of_nat n) as Hq.
  { apply Z.div_lt_upper_bound; [lia|]. rewrite Nat2Z.inj_succ, Z.pow_succ_r in Hb by lia. lia. }
  pose proof (Z.div_mod t 32 ltac:(lia)). pose proof (Z.div_mod t' 32 ltac:(lia)).
  pose proof (Z.mod_pos_bound t 32 ltac:(lia)). pose proof (Z.mod_pos_bound t' 32 ltac:(lia)).
  destruct (Z.lt_trichotomy (t / 32) (t' / 32)) as [Hd|[Hd|Hd]].
  - apply before_app_l; [by rewrite !encode_length|]. apply IH; [apply Z.div_pos; lia|done|done].
  - rewrite Hd, before_app_r. simpl. apply orb_true_iff. left. apply Nat.ltb_lt. apply symbol_lt; lia.
  - lia.
Qed.
Lemma encode_valid n t : str_forall ulid_char (encodeBase32 t n) = true.
Proof.
  revert t. induction n as [|n IH]; intros t; [done|]. cbn [encodeBase32]. rewrite str_forall_app, IH. simpl.
  rewrite symbol_valid by (apply Z.mod_pos_bound; lia). done.
Qed.

(** Identifiers made at different instants, up to the year 37648, sort in the
    order of their instants whatever the random part is, and are valid. *)
Theorem ulid_sortable t t' draws draws' :
  0 <= t -> t < t' -> t' < 2 ^ 50 -> Forall (fun d => 0 <= d < 32) draws -> length draws = 16%nat ->
  let a := generateULID t draws in let b := generateULID t' draws' in
  str_le a b /\ a <> b /\ isValidULID (JString a) = true.
Proof.
  intros H0 Hlt Hb Hd Hl. cbv zeta. unfold generateULID.
  assert (before (encodeBase32 t 10 +:+ encodeRandom draws) (encodeBase32 t' 10 +:+ encodeRandom draws') = true) as Hbf.
  { apply before_app_l; [by rewrite !encode_length|]. by apply encode_before. }
  apply before_lt in Hbf as [H1 H2]. split; [done|]. split; [done|].
  assert (forall l, Forall (fun d => 0 <= d < 32) l -> str_forall ulid_char (encodeRandom l) = true /\ String.length (encodeRandom l) = length l) as Hr.
  { induction 1 as [|d l Hd' Hl' [IH1 IH2]]; [done|]. simpl. by rewrite symbol_valid, IH1, IH2. }
  destruct (Hr draws Hd) as [R1 R2]. unfold isValidULID. rewrite str_forall_app, encode_valid, R1, IsoDate.length_app, encode_length, R2, Hl. done.
Qed.
Lemma ulid_sortable_witness :
  str_le (generateULID 1709210096789 (replicate 16 31)) (generateULID 1709210096790 (replicate 16 0)).
Proof.
  destruct (ulid_sortable 1709210096789 1709210096790 (replicate 16 31) (replicate 16 0)) as [H _];
    [lia|lia|lia|repeat constructor; lia|reflexivity|exact H].
Defined.

(** *** Encryption *)

(** AES-256-CBC under a hashed key: the ciphertext in hexadecimal. *)
Class Aes := {
  aes_encrypt : string -> string -> string -> string;           (* key, initial vector, text *)
  aes_decrypt : string -> string -> string -> res exn string;
  aes_hex k iv s : str_forall is_hex (aes_encrypt k iv s) = true;
  aes_inverse k iv s : aes_decrypt k iv (aes_encrypt k iv s) = Ok s;
}.
Section aes.
Context `{Aes}.
(** shared/utils/crypto.ts:71-80 encryptAES256
    With the random initial vector. *)
Definition encryptAES256 (iv data key : string) : string := hex_encode iv +:+ ":" +:+ aes_encrypt key iv data.
(** shared/utils/crypto.ts:88-104 decryptAES256 *)
Definition decryptAES256 (encrypted key : string) : res exn string :=
  match split_on ":" encrypted with
  | [iv; ciphertext] => aes_decrypt key (hex_decode iv) ciphertext
  | _ => Throw (PlainError "Invalid encrypted input format")
  end.

(** What was encrypted is decrypted with the same key; a text without a colon, or
    with several, is refused. *)
Lemma decrypt_encrypt iv data key : decryptAES256 (encryptAES256 iv data key) key = Ok data.
Proof.
  assert (forall s, str_forall is_hex s = true -> avoids ":" s = true) as Hav.
  { intros s. apply str_forall_impl. intros c. by destruct c as [[] [] [] [] [] [] [] []]. }
  unfold decryptAES256, encryptAES256. change (":" +:+ aes_encrypt key iv data) with (String ":" (aes_encrypt key iv data)).
  rewrite split_on_app by (apply Hav, hex_encode_hex). rewrite split_on_avoids by (apply Hav, aes_hex).
  by rewrite hex_decode_encode, aes_inverse.
Qed.
End aes.
End Crypto.

(** ** Lists *)

Module Arrays.

(** [array.slice(i, i + size)] of what is left. *)
Section chunk.
Context {A : Type}.
Fixpoint chunks (fuel size : nat) (l : list A) : list (list A) :=
  match fuel, l with
  | _, [] | O, _ => []
  | S fuel, _ => take size l :: chunks fuel size (drop size l)
  end.
(** shared/utils/array.ts:7-14 chunk *)
Definition chunk (l : list A) (size : Z) : list (list A) :=
  if size <=? 0 then [l] else chunks (length l) (Z.to_nat size) l.
(** shared/utils/array-utils.ts:4-10 chunk
    The loop from [i] on: [None] when the fuel runs out. *)
Fixpoint chunk_loop (fuel : nat) (l : list A) (size i : Z) : option (list (list A)) :=
  match fuel with
  | O => None
  | S fuel =>
      if i <? Z.of_nat (length l)
      then match chunk_loop fuel l size (i + size) with
           | Some r => Some (take (Z.to_nat size) (drop (Z.to_nat i) l) :: r)
           | None => None
           end
      else Some []
  end.

Lemma chunks_spec fuel size l :
  (0 < size)%nat -> (length l <= fuel)%nat ->
  concat (chunks fuel size l) = l /\ Forall (fun c => c <> [] /\ (length c <= size)%nat) (chunks fuel size l) /\
  forall i c, chunks fuel size l !! i = Some c -> (S i < length (chunks fuel size l))%nat -> length c = size.
Proof.
  intros Hs. revert l. induction fuel as [|fuel IH]; intros l Hl; [by destruct l; [|simpl in Hl; lia]|].
  destruct l as [|x l]; [done|]. cbn [chunks].
  destruct (IH (drop size (x :: l))) as (C1 & C2 & C3); [rewrite length_drop; simpl in *; lia|]. split_and!.
  - cbn [concat]. rewrite C1. apply take_drop.
  - constructor; [|done]. split; [destruct size; [lia|done]|]. rewrite length_take. lia.
  - intros [|i] c; simpl; [|intros Hi Hn; apply (C3 i c Hi); lia]. intros [= <-] Hn. rewrite length_take.
    destruct (drop size (x :: l)) as [|y l'] eqn:E; [destruct fuel; simpl in Hn; lia|]. apply (f_equal length) in E. rewrite length_drop in E. simpl in *. lia.
Qed.

(** Chunks put together give the list back, none is empty, and all but the
    last have the size asked for; a size that is not positive gives one chunk.
    The other function of that name agrees for positive sizes; for others its
    loop does not end, unless there is nothing to chunk. *)
Theorem chunks_partition (l : list A) size :
  (0 < size ->
     concat (chunk l size) = l /\ Forall (fun c => c <> [] /\ Z.of_nat (length c) <= size) (chunk l size) /\
     (forall i c, chunk l size !! i = Some c -> (S i < length (chunk l size))%nat -> Z.of_nat (length c) = size) /\
     chunk_loop (S (length l)) l size 0 = Some (chunk l size)) /\
  (size <= 0 -> chunk l size = [l] /\ (l <> [] -> forall fuel, chunk_loop fuel l size 0 = None)).
Proof.
  split; intros Hs.
  - unfold chunk. rewrite (proj2 (Z.leb_gt size 0)) by lia. destruct (chunks_spec (length l) (Z.to_nat size) l) as (C1 & C2 & C3); [lia|done|].
    split_and!; [done| | |].
    + eapply Forall_impl; [exact C2|]. intros c [H1 H2]. split; [done|lia].
    + intros i c Hi Hn. specialize (C3 i c Hi Hn). lia.
    + assert (forall fuel k, (length (drop k l) < fuel)%nat -> chunk_loop fuel l size (Z.of_nat k) = Some (chunks (pred fuel) (Z.to_nat size) (drop k l))) as Hloop.
      { induction fuel as [|fuel IH]; intros k Hk; [lia|]. cbn [chunk_loop pred]. rewrite length_drop in Hk.
        destruct (Z.ltb_spec (Z.of_nat k) (Z.of_nat (length l))) as [Hlt|Hge].
        - replace (Z.of_nat k + size) with (Z.of_nat (k + Z.to_nat size)) by lia. rewrite Nat2Z.id. rewrite IH by (rewrite length_drop; lia).
          destruct fuel as [|fuel]; [lia|]. cbn [pred]. destruct (drop k l) as [|x l'] eqn:E; [apply (f_equal length) in E; rewrite length_drop in E; simpl in E; lia|].
          cbn [chunks]. rewrite <- E, drop_drop. done.
        - rewrite (drop_ge l k) by lia. by destruct fuel. }
      specialize (Hloop (S (length l)) 0%nat). rewrite drop_0 in Hloop. apply Hloop. lia.
  - unfold chunk. rewrite (proj2 (Z.leb_le size 0)) by lia. split; [done|]. intros Hne fuel.
    assert (forall i, i <= 0 -> chunk_loop fuel l size i = None) as Hi; [|by apply Hi].
    assert (0 < Z.of_nat (length l)) by (destruct l; [done|simpl; lia]).
    induction fuel as [|fuel IH]; intros i Hi; [done|]. cbn [chunk_loop]. rewrite (proj2 (Z.ltb_lt i _)) by lia. by rewrite IH by lia.
Qed.
End chunk.
Lemma chunks_partition_witness : concat (chunk [1; 2; 3; 4; 5] 2) = [1; 2; 3; 4; 5].
Proof. destruct (chunks_partition [1; 2; 3; 4; 5] 2) as [H _]. exact (proj1 (H ltac:(lia))). Defined.

Section lists.
Context {A : Type} `{EqDecision A}.

(** shared/utils/array.ts:22-34 unique
    By the value itself, or by a member. *)
Fixpoint unique_by {K} `{EqDecision K} (key : A -> K) (seen : list K) (l : list A) : list A :=
  match l with
  | [] => []
  | x :: l => if decide (key x ∈ seen) then unique_by key seen l else x :: unique_by key (key x :: seen) l
  end.
(** shared/utils/array-utils.ts:22-24 unique *)
Definition unique (l : list A) : list A := unique_by (fun x => x) [] l.
(** shared/utils/array.ts:43-55 groupBy
    The groups in the order their keys come up. *)
Definition groupBy (key : A -> string) (l : list A) : list (string * list A) :=
  fold_left (fun acc x => jmap_set (key x) (default [] (jmap_get (key x) acc) ++ [x]) acc) l [].

Lemma unique_by_spec {K} `{EqDecision K} (key : A -> K) seen l :
  NoDup (map key (unique_by key seen l)) /\
  forall k, k ∈ map key (unique_by key seen l) <-> k ∈ map key l /\ k ∉ seen.
Proof.
  revert seen. induction l as [|x l IH]; intros seen; simpl.
  - split; [constructor|]. intros k. split; [by intros ?%not_elem_of_nil|by intros [?%not_elem_of_nil _]].
  - case_decide as Hx.
    + destruct (IH seen) as [H1 H2]. split; [done|]. intros k. rewrite H2, elem_of_cons. naive_solver.
    + destruct (IH (key x :: seen)) as [H1 H2]. simpl. split.
      * constructor; [|done]. rewrite H2, elem_of_cons. naive_solver.
      * intros k. rewrite !elem_of_cons, H2, elem_of_cons. destruct (decide (k = key x)) as [->|]; naive_solver.
Qed.
(** Each group holds the elements of its key, in their order. *)
Lemma groupBy_get (key : A -> string) l k :
  jmap_get k (groupBy key l) = match filter (fun x => key x = k) l with [] => None | g => Some g end.
Proof.
  unfold groupBy. induction l as [|x l IH] using rev_ind; [done|]. rewrite fold_left_app, filter_app. cbn [fold_left].
  destruct (decide (key x = k)) as [<-|Hne].
  - rewrite jmap_get_set_eq, IH, filter_cons, decide_True, filter_nil by done. by destruct (filter _ l).
  - rewrite jmap_get_set_ne, IH by done. rewrite filter_cons, decide_False, filter_nil by done. by rewrite app_nil_r.
Qed.
End lists.

(** Nested lists. *)
Inductive nested (A : Type) : Type := Leaf (x : A) | Node (l : list (nested A)).
Arguments Leaf {A}. Arguments Node {A}.
(** shared/utils/array.ts:62-66 flatten *)
Fixpoint flatten_one {A} (v : nested A) : list A :=
  match v with Leaf x => [x] | Node l => concat (map flatten_one l) end.
(** shared/utils/array-utils.ts:15-17 flatten *)
Definition flatten {A} (l : list (nested A)) : list A := concat (map flatten_one l).
End Arrays.

(** ** Names *)

Module Names.

Definition is_upper (c : ascii) : bool := let n := Ascii.nat_of_ascii c in ((65 <=? n) && (n <=? 90))%nat.
Definition is_lower (c : ascii) : bool := let n := Ascii.nat_of_ascii c in ((97 <=? n) && (n <=? 122))%nat.

(** shared/utils/string-utils.ts:6-9 truncate *)
Definition truncate (str : string) (maxLength : nat) : string :=
  if (String.length str <=? maxLength)%nat then str else String.substring 0 maxLength str +:+ "...".
(** shared/utils/string-utils.ts:14-16 camelToSnake *)
Fixpoint camelToSnake (str : string) : string :=
  match str with
  | EmptyString => EmptyString
  | String c r => if is_upper c then String "_" (String (ascii_lower c) (camelToSnake r)) else String c (camelToSnake r)
  end.
(** shared/utils/string-utils.ts:21-23 snakeToCamel *)
Fixpoint snakeToCamel (str : string) : string :=
  match str with
  | EmptyString => EmptyString
  | String c r =>
      match r with
      | String d r' => if Ascii.eqb c "_" && is_lower d then String (ascii_upper d) (snakeToCamel r') else String c (snakeToCamel r)
      | EmptyString => String c EmptyString
      end
  end.
(** shared/utils/formatting.ts:57-59 camelToSnake
    An underscore goes between a lower-case letter or digit and a capital. *)
Fixpoint split_capitals (before : bool) (str : string) : string :=
  match str with
  | EmptyString => EmptyString
  | String c r =>
      let next := split_capitals (is_lower c || is_digit c) r in
      if before && is_upper c then String "_" (String c next) else String c next
  end.
(** shared/utils/formatting.ts:57-59 camelToSnake *)
Definition camelToSnake_words (str : string) : string := to_lower (split_capitals false str).
(** shared/utils/formatting.ts:66-70 snakeToCamel *)
Fixpoint snakeToCamel_words (str : string) : string :=
  match str with
  | EmptyString => EmptyString
  | String c r =>
      match r with
      | String d r' => if (Ascii.eqb c "_" || Ascii.eqb c "-") && (is_lower d || is_digit d)
                       then String (ascii_upper d) (snakeToCamel_words r') else String c (snakeToCamel_words r)
      | EmptyString => String c EmptyString
      end
  end.

(** No underscore stands before a lower-case letter. *)
Fixpoint camel (str : string) : bool :=
  match str with
  | EmptyString => true
  | String c r => match r with String d _ => negb (Ascii.eqb c "_" && is_lower d) && camel r | EmptyString => true end
  end.
Lemma upper_lower c : is_upper c = true -> is_lower (ascii_lower c) = true /\ ascii_upper (ascii_lower c) = c /\ Ascii.eqb c "_" = false.
Proof. by destruct c as [[] [] [] [] [] [] [] []]. Qed.
Lemma upper_not_lower c : is_upper c = true -> is_lower c = false.
Proof. by destruct c as [[] [] [] [] [] [] [] []]. Qed.
Lemma snake_cons c d r : snakeToCamel (String c (String d r)) =
  if Ascii.eqb c "_" && is_lower d then String (ascii_upper d) (snakeToCamel r) else String c (snakeToCamel (String d r)).
Proof. reflexivity. Qed.

(** A name in camel case survives the way to snake case and back. *)
Theorem camel_roundtrip str : camel str = true -> snakeToCamel (camelToSnake str) = str.
Proof.
  induction str as [|c r IH]; intros Hc; [done|]. cbn [camelToSnake].
  assert (camel r = true) as Hr by (cbn [camel] in Hc; destruct r; [done|by apply andb_true_iff in Hc as [_ Hc]]).
  destruct (is_upper c) eqn:Eu.
  - rewrite snake_cons. destruct (upper_lower c Eu) as (-> & -> & _). cbn. by rewrite IH.
  - destruct r as [|d r']; [done|]. cbn [camelToSnake] in *. destruct (is_upper d) eqn:Ed.
    + rewrite snake_cons. change (is_lower "_") with false. rewrite andb_false_r. by rewrite IH.
    + rewrite snake_cons. cbn [camel] in Hc. apply andb_true_iff in Hc as [Hc _]. destruct (Ascii.eqb c "_" && is_lower d); [done|]. by rewrite IH.
Qed.
Lemma camel_roundtrip_witness : snakeToCamel (camelToSnake "taskResultId_") = "taskResultId_".
Proof. apply (camel_roundtrip "taskResultId_"). reflexivity. Defined.

(** The other pair loses capitals that stand together. *)
Example words_lossy : snakeToCamel_words (camelToSnake_words "maxDLQSize") = "maxDlqsize".
Proof. vm_compute. reflexivity. Qed.
End Names.

(** ** Objects *)

Module Objects.
Import JobSerializer.

Definition fields_of (v : value) : list (string * value) := match v with VObject fs => fs | _ => [] end.
(** shared/utils/object.ts:7-18 pick *)
Definition pick (fs : list (string * value)) (keys : list string) : list (string * value) :=
  fold_left (fun result key => match jmap_get key fs with Some v => jmap_set key v result | None => result end) keys [].
(** shared/utils/object.ts:26-35 omit *)
Definition omit (fs : list (string * value)) (keys : list string) : list (string * value) :=
  fold_left (fun result key => jmap_delete key result) keys fs.
(** shared/utils/object.ts:42-44 isDefined *)
Definition isDefined (v : value) : bool := match v with VNull | VUndefined => false | _ => true end.
(** shared/utils/object-utils.ts:56-61 isEmpty *)
Definition isEmpty (v : value) : bool :=
  match v with
  | VNull | VUndefined | VArray [] | VObject [] | VDate _ => true
  | _ => false
  end.
(** shared/utils/object.ts:51-71 deepCopy *)
Fixpoint deepCopy (v : value) : value :=
  match v with
  | VArray l => VArray (map deepCopy l)
  | VObject fs => VObject (map (fun '(k, x) => (k, deepCopy x)) fs)
  | _ => v
  end.
(** shared/utils/object.ts:79-104 merge *)
Fixpoint merge (obj1 obj2 : value) : value :=
  match obj2 with
  | VObject fs =>
      VObject
        ((fix go (fs result : list (string * value)) : list (string * value) :=
            match fs with
            | [] => result
            | (key, val2) :: fs =>
                go fs
                  (jmap_set key
                     (match val2 with
                      | VObject _ => match jmap_get key result with
                                     | Some (VObject x) => merge (VObject x) val2
                                     | _ => deepCopy val2
                                     end
                      | _ => deepCopy val2
                      end) result)
            end) fs (fields_of (deepCopy obj1)))
  | _ => deepCopy obj1
  end.

Lemma deepCopy_eq v : deepCopy v = v.
Proof.
  induction v as [| | | | | |l IH|fs IH] using value_rect'; try done; cbn [deepCopy]; f_equal.
  - induction IH as [|x l Hx _ IHl]; [done|]. simpl. by rewrite Hx, IHl.
  - induction IH as [|[k x] fs Hx _ IHl]; [done|]. simpl in *. by rewrite Hx, IHl.
Qed.
Lemma pick_get fs keys k : jmap_get k (pick fs keys) = if decide (k ∈ keys) then jmap_get k fs else None.
Proof.
  unfold pick. induction keys as [|x keys IH] using rev_ind; [done|]. rewrite fold_left_app. cbn [fold_left].
  set (r := fold_left _ keys []) in *. destruct (decide (k ∈ keys ++ [x])) as [Hin|Hin].
  - destruct (decide (k = x)) as [->|Hne].
    + destruct (jmap_get x fs) as [v|] eqn:E; [by rewrite jmap_get_set_eq|]. rewrite IH. by case_decide.
    + apply elem_of_app in Hin as [Hin| ->%list_elem_of_singleton]; [|done]. rewrite decide_True in IH by done.
      destruct (jmap_get x fs); [by rewrite jmap_get_set_ne|done].
  - rewrite elem_of_app, list_elem_of_singleton in Hin. rewrite decide_False in IH by tauto.
    destruct (jmap_get x fs); [rewrite jmap_get_set_ne by tauto|]; done.
Qed.

(** What a key of the second object does to the result. *)
Definition merged (val1 : option value) (val2 : value) : value :=
  match val2, val1 with VObject _, Some (VObject x) => merge (VObject x) val2 | _, _ => val2 end.
Definition go := fix go (fs result : list (string * value)) : list (string * value) :=
  match fs with
  | [] => result
  | (key, val2) :: fs =>
      go fs
        (jmap_set key
           (match val2 with
            | VObject _ => match jmap_get key result with
                           | Some (VObject x) => merge (VObject x) val2
                           | _ => deepCopy val2
                           end
            | _ => deepCopy val2
            end) result)
  end.
Lemma go_get fs r k :
  NoDup (map fst fs) ->
  jmap_get k (go fs r) = match jmap_get k fs with Some v2 => Some (merged (jmap_get k r) v2) | None => jmap_get k r end.
Proof.
  revert r. induction fs as [|[key v2] fs IH]; intros r Hnd; [done|]. simpl in Hnd. apply NoDup_cons in Hnd as [Hk Hnd].
  cbn [go]. rewrite (IH _ Hnd). cbn [jmap_get]. destruct (decide (k = key)) as [->|Hne].
  - rewrite (proj2 (jmap_get_None_keys key fs) Hk), jmap_get_set_eq. f_equal. rewrite !deepCopy_eq. unfold merged.
    by destruct v2.
  - by rewrite jmap_get_set_ne by done.
Qed.

(** Of two objects, the merged one has the keys of both: a key of the second
    one wins, except that two objects under the same key are merged in turn;
    arrays and dates are replaced.  Merging an empty object changes nothing. *)
Theorem merge_get fs1 fs2 k :
  NoDup (map fst fs2) ->
  get k (merge (VObject fs1) (VObject fs2)) =
    match jmap_get k fs2 with
    | Some (VObject y) => match jmap_get k fs1 with
                          | Some (VObject x) => merge (VObject x) (VObject y)
                          | _ => VObject y
                          end
    | Some v => v
    | None => get k (VObject fs1)
    end /\
  merge (VObject fs1) (VObject []) = VObject fs1.
Proof.
  intros Hnd. assert (forall fs key, assoc key fs = jmap_get (A := value) key fs) as Ha.
  { intros fs key. induction fs as [|[k' v] fs IH]; [done|]. simpl. rewrite IH. unfold str_eqb. by destruct (decide (key = k')); case_bool_decide. }
  split; [|cbn [merge]; by rewrite deepCopy_eq].
  change (merge (VObject fs1) (VObject fs2)) with (VObject (go fs2 (fields_of (deepCopy (VObject fs1))))). rewrite deepCopy_eq. cbn [fields_of get].
  rewrite !Ha, (go_get fs2 fs1 k Hnd). destruct (jmap_get k fs2) as [v|]; [|done]. unfold merged.
  by destruct v.
Qed.
Lemma merge_get_witness :
  get "a" (merge (VObject [("a", VObject [("x", VNum 1); ("y", VNum 2)]); ("b", VNull)]) (VObject [("a", VObject [("y", VNum 3)])])) =
    VObject [("x", VNum 1); ("y", VNum 3)].
Proof.
  rewrite (proj1 (merge_get [("a", VObject [("x", VNum 1); ("y", VNum 2)]); ("b", VNull)] [("a", VObject [("y", VNum 3)])] "a" ltac:(repeat constructor; apply not_elem_of_nil))).
  vm_compute. reflexivity.
Defined.

(** What [{ ...v }] copies, and what [Object.keys] lists. *)
Fixpoint indexed (i : Z) (l : list value) : list (string * value) :=
  match l with [] => [] | x :: l => (pretty i, x) :: indexed (i + 1) l end.
Definition own (v : value) : list (string * value) :=
  match v with VObject fs => fs | VArray l => indexed 0 l | _ => [] end.
(** shared/utils/object-utils.ts:11-27 deepMerge
    Of a target that is not a string. *)
Fixpoint deepMerge (target source : value) : value :=
  let assign (fs : list (string * value)) : list (string * value) :=
    (fix go (fs output : list (string * value)) : list (string * value) :=
       match fs with
       | [] => output
       | (key, v) :: fs =>
           go fs (jmap_set key
                    (if truthy v && typeof_object v
                     then match jmap_get key (own target) with Some t => deepMerge t v | None => v end
                     else v) output)
       end) fs (own target) in
  let items (l : list value) : list (string * value) :=
    (fix go (i : Z) (l : list value) (output : list (string * value)) : list (string * value) :=
       match l with
       | [] => output
       | v :: l =>
           go (i + 1) l (jmap_set (pretty i)
                    (if truthy v && typeof_object v
                     then match jmap_get (pretty i) (own target) with Some t => deepMerge t v | None => v end
                     else v) output)
       end) 0 l (own target) in
  VObject
    (if truthy target && typeof_object target
     then match source with VObject fs => assign fs | VArray l => items l | _ => own target end
     else own target).

(** Merging arrays makes an object of them, and merging an object into a null
    loses it. *)
Example deepMerge_array :
  deepMerge (VObject [("tags", VArray [VNum 1; VNum 2])]) (VObject [("tags", VArray [VNum 3])]) =
    VObject [("tags", VObject [("0", VNum 3); ("1", VNum 2)])].
Proof. vm_compute. reflexivity. Qed.
Example deepMerge_null : deepMerge (VObject [("a", VNull)]) (VObject [("a", VObject [("b", VNum 1)])]) = VObject [("a", VObject [])].
Proof. vm_compute. reflexivity. Qed.
End Objects.

(** ** Environment variables and headers *)

Module Env.

Section env.
Context (env : list (string * string)).
(** shared/utils/env-utils.ts:4-6 getEnv *)
Definition getEnv (key fallback : string) : string := default fallback (assoc key env).
(** shared/utils/env-utils.ts:11-17 getEnvOrThrow *)
Definition getEnvOrThrow (key : string) : res exn string :=
  match assoc key env with Some v => Ok v | None => Throw (PlainError ("Required environmental variable: " +:+ key +:+ " is missing")) end.
(** shared/utils/env-utils.ts:22-27 parseEnvAsNumber *)
Definition parseEnvAsNumber (key : string) (fallback : Z) : Z :=
  match assoc key env with None => fallback | Some v => default fallback (parse_int v) end.
(** shared/utils/env-utils.ts:32-36 parseEnvAsBoolean *)
Definition parseEnvAsBoolean (key : string) (fallback : bool) : bool :=
  match assoc key env with None => fallback | Some v => str_eqb (to_lower v) "true" || str_eqb v "1" end.
End env.

(** shared/utils/http.ts:37-56 parseRetryAfter
    [dateParse] is [Date.parse], [None] being [NaN]. *)
Definition parseRetryAfter (dateParse : string -> option Z) (now : Z) (header : option string) : option Z :=
  match header with
  | None => None
  | Some h =>
      if negb (str_truthy h) then None
      else if str_forall is_digit h then (fun s => s * 1000) <$> parse_int h
      else match dateParse h with Some t => Some (Z.max 0 (t - now)) | None => None end
  end.
(** shared/utils/http.ts:8-13 buildAuthHeader *)
Definition buildAuthHeader (apiKey : string) : list (string * string) := [("X-API-Key", apiKey); ("Authorization", "ApiKey " +:+ apiKey)].

(** A header, when it is understood, never asks for a negative delay. *)
Lemma retry_after_nonneg dateParse now h d : parseRetryAfter dateParse now h = Some d -> 0 <= d.
Proof.
  unfold parseRetryAfter. destruct h as [h|]; [|done]. destruct (negb (str_truthy h)) eqn:Et; [done|]. destruct (str_forall is_digit h) eqn:Ed.
  - destruct (parse_int h) as [s|] eqn:Ep; [|done]. intros [= <-].
    assert (forall s acc, 0 <= acc -> 0 <= read_digits s acc) as Hr.
    { induction s0 as [|c s0 IH]; intros acc Ha; [done|]. simpl. unfold digit_value. destruct ((48 <=? _)%nat && _); [|done]. apply IH. lia. }
    assert (0 <= s); [|lia]. destruct h as [|c h]; [done|]. simpl in Ed. apply andb_true_iff in Ed as [Hc Ed]. unfold parse_int in Ep.
    assert (trim_start (String c h) = String c h) as Hts by (simpl; by destruct c as [[] [] [] [] [] [] [] []]). rewrite Hts in Ep.
    assert ((match String c h with String "-" s => (true, s) | String "+" s => (false, s) | _ => (false, String c h) end) = (false, String c h)) as Hs
      by (by destruct c as [[] [] [] [] [] [] [] []]).
    rewrite Hs in Ep. simpl starts_with_digit in Ep. rewrite Hc in Ep. injection Ep as <-. apply (Hr (String c h)). lia.
  - destruct (dateParse h); [|done]. intros [= <-]. lia.
Qed.
End Env.

(** ** Tests of values *)

Module Guards.

(** shared/guards/is-email.guard.ts:8-8 isEmail
    [^[^\s@]+@[^\s@]+\.[^\s@]+$] *)
Definition no_space (s : string) : bool := str_truthy s && str_forall (fun c => negb (is_space c)) s.
Definition email_shape (s : string) : bool :=
  match split_on "@" s with
  | [user; domain] =>
      no_space user && no_space domain &&
      (3 <=? String.length domain)%nat && includes "." (String.substring 1 (String.length domain - 2) domain)
  | _ => false
  end.
(** shared/guards/is-email.guard.ts:6-10 isEmail *)
Definition isEmail (val : jsval) : bool := match val with JString s => email_shape s && (String.length s <=? 254)%nat | _ => false end.
(** shared/utils/validation-utils.ts:6-9 isValidEmail *)
Definition isValidEmail (val : string) : bool := isEmail (JString val).
(** shared/utils/validation-utils.ts:34-38 validateEmail *)
Definition validateEmail (val : string) : res exn unit :=
  if isValidEmail val then Ok tt else Throw (ValidationError "Email address has invalid formatting").

Definition hex_ci (c : ascii) : bool := is_hex (ascii_lower c).
Definition one_of (l : string) (c : ascii) : bool := includes (String (ascii_lower c) EmptyString) l.
Fixpoint shaped (ps : list (ascii -> bool)) (s : string) : bool :=
  match ps, s with
  | [], EmptyString => true
  | p :: ps, String c s => p c && shaped ps s
  | _, _ => false
  end.
Definition dash : list (ascii -> bool) := [Ascii.eqb "-"].
Definition uuid_shape (version : ascii -> bool) : list (ascii -> bool) :=
  replicate 8 hex_ci ++ dash ++ replicate 4 hex_ci ++ dash ++ [version] ++ replicate 3 hex_ci ++ dash ++
  [one_of "89ab"] ++ replicate 3 hex_ci ++ dash ++ replicate 12 hex_ci.
(** shared/guards/is-uuid.guard.ts:6-10 isUUID *)
Definition isUUID (val : jsval) : bool := match val with JString s => shaped (uuid_shape (Ascii.eqb "4")) s | _ => false end.
(** shared/utils/validation-utils.ts:26-29 isValidUUID *)
Definition isValidUUID_v4 (val : string) : bool := isUUID (JString val).
(** shared/guards/type-guards.ts:39-43 isValidUUID *)
Definition isValidUUID (val : jsval) : bool := match val with JString s => shaped (uuid_shape (one_of "12345")) s | _ => false end.

(** shared/guards/type-guards.ts:4-6 isString *)
Definition isString (val : jsval) : bool := match val with JString _ => true | _ => false end.
(** shared/guards/type-guards.ts:11-13 isNumber *)
Definition isNumber (val : jsval) : bool := match val with JNum n => negb (is_nan n) | _ => false end.
(** shared/guards/is-positive-number.guard.ts:4-6 isPositiveNumber *)
Definition isPositiveNumber (val : jsval) : bool := match val with JNum n => negb (is_nan n) && num_gtb n (ofZ 0) | _ => false end.
(** shared/guards/type-guards.ts:18-20 isObject *)
Definition isObject (val : jsval) : bool := match val with JObject _ _ | JError _ _ => true | _ => false end.
(** shared/guards/type-guards.ts:25-27 isArray *)
Definition isArray (val : jsval) : bool := match val with JArray _ _ => true | _ => false end.
(** shared/guards/type-guards.ts:58-60 isBoolean *)
Definition isBoolean (val : jsval) : bool := match val with JBool _ => true | _ => false end.
(** shared/guards/type-guards.ts:65-67 isRecord *)
Definition isRecord (val : jsval) : bool := is_object val.

(** A version 4 identifier is an identifier, of 36 characters. *)
Lemma shaped_length ps s : shaped ps s = true -> String.length s = length ps.
Proof. revert s. induction ps as [|p ps IH]; intros [|c s] H; try done. simpl in *. apply andb_true_iff in H as [_ H]. by rewrite (IH s H). Qed.
Lemma uuid_v4_valid v : isUUID v = true -> isValidUUID v = true /\ exists s, v = JString s /\ String.length s = 36%nat.
Proof.
  destruct v as [| | | |s| | | |]; try done. intros H. split; [|exists s; split; [done|by apply shaped_length in H]].
  assert (forall ps qs s, Forall2 (fun p q => forall c, p c = true -> q c = true) ps qs -> shaped ps s = true -> shaped qs s = true) as Hm.
  { intros ps qs s' HF. revert s'. induction HF as [|p q ps qs Hp _ IH]; intros [|c t]; try done. simpl.
    intros [H1 H2]%andb_true_iff. rewrite Hp by done. by apply IH. }
  revert H. apply Hm. unfold uuid_shape.
  cbn [replicate app dash]. repeat (constructor; [intros c Hc; first [exact Hc|apply Ascii.eqb_eq in Hc; by subst]|]). constructor.
Qed.
End Guards.
