(* ===== verification/Decorators.v ===== *)
(** * Decorators and error guards

    [shared/decorators/]: methods with a rate limit ([RateLimited]), a cache
    ([Memoized]) or retries ([Retried]); [shared/guards/error-guards.ts] and
    [shared/errors/error-mapper.ts] ([ErrorGuards]). *)
From Stdlib Require Import Ascii QArith Qround Qpower Qabs Lqa.
From stdpp Require Import base tactics numbers list strings gmap pretty sorting.
From S2P Require Import Prelude JsNum JsValue Errors Text RetryStrategy.

(** ** A rate limit *)

Module RateLimited.

Section limit.
Context {S A : Type} (requestsPerMinute : Z) (name : string) (originalMethod : meth S exn A).

(** The time stamps of the closure, which all instances share, and the state the
    method works on. *)
Record world : Type := World { timestamps : list Z; object : S }.
Abbreviation M := (meth world exn).

(** [new RateLimitError(..)], without the debugging context. *)
Definition rate_limit_error : exn :=
  OwnError "Error" "RATE_LIMITED" 429
    ("Rate limit exceeded on " +:+ name +:+ ". Max threshold: " +:+ pretty requestsPerMinute +:+ "/min.").
(** shared/decorators/rate-limit.decorator.ts:24-26 RateLimit *)
Fixpoint evict (cutoff : Z) (l : list Z) : list Z :=
  match l with t :: l' => if t <? cutoff then evict cutoff l' else l | [] => [] end.
(** shared/decorators/rate-limit.decorator.ts:19-43 RateLimit *)
Definition limited (now : Z) : M A := fun w =>
  let l := evict (now - 60000) (timestamps w) in
  if Z.of_nat (length l) >=? requestsPerMinute
  then (World l (object w), Throw rate_limit_error)
  else let '(s, o) := originalMethod (object w) in (World (l ++ [now]) s, o).

(** The instants of the calls that reached the method. *)
Definition reaches (now : Z) (w : world) : bool := Z.of_nat (length (evict (now - 60000) (timestamps w))) <? requestsPerMinute.
Fixpoint reached (l : list Z) (w : world) : list Z :=
  match l with [] => [] | t :: l => (if reaches t w then [t] else []) ++ reached l (limited t w).1 end.
Fixpoint ordered (t0 : Z) (l : list Z) : Prop := match l with [] => True | t :: l => t0 <= t /\ ordered t l end.

(** How many of the instants lie in a closed window of a minute. *)
Definition in_minute (a : Z) (l : list Z) : list Z := filter (fun t => a <= t <= a + 60000) l.

Lemma evict_filter c l : StronglySorted Z.le l -> evict c l = filter (fun t => c <= t) l.
Proof.
  induction 1 as [|t l Hl IH Ht]; [done|]. simpl. rewrite filter_cons. destruct (Z.ltb_spec t c) as [Hc|Hc].
  - by rewrite decide_False by lia.
  - rewrite decide_True by lia. f_equal. symmetry. clear IH Hl. induction Ht as [|y l Hy _ IH]; [done|]. rewrite filter_cons, decide_True by lia. by rewrite IH.
Qed.
Lemma filter_length_mono (P Q : Z -> Prop) `{!forall x, Decision (P x), !forall x, Decision (Q x)} (l : list Z) :
  (forall x, x ∈ l -> P x -> Q x) -> (length (filter P l) <= length (filter Q l))%nat.
Proof.
  induction l as [|x l IH]; intros HPQ; [done|]. rewrite !filter_cons.
  assert (length (filter P l) <= length (filter Q l))%nat by (apply IH; intros y Hy; apply HPQ; by right).
  destruct (decide (P x)) as [HP|HP]; [rewrite decide_True by (apply HPQ; [by left|done]); simpl; lia|]. case_decide; simpl; lia.
Qed.

(** The calls that reached the method so far, and the time stamps kept of them. *)
Definition inv (now : Z) (acc : list Z) (w : world) : Prop :=
  StronglySorted Z.le acc /\ Forall (fun t => t <= now) acc /\ StronglySorted Z.le (timestamps w) /\
  (forall c, now - 60000 <= c -> filter (fun t => c <= t) (timestamps w) = filter (fun t => c <= t) acc) /\
  forall a, Z.of_nat (length (in_minute a acc)) <= Z.max 0 requestsPerMinute.

Lemma sorted_filter (P : Z -> Prop) `{!forall x, Decision (P x)} (l : list Z) : StronglySorted Z.le l -> StronglySorted Z.le (filter P l).
Proof.
  induction 1 as [|x l Hl IH Hx]; [constructor|]. rewrite filter_cons. case_decide; [|done]. constructor; [done|].
  apply Forall_forall. intros y [_ Hy]%list_elem_of_filter. rewrite Forall_forall in Hx. by apply Hx.
Qed.
Lemma sorted_snoc l t : StronglySorted Z.le l -> Forall (fun x => x <= t) l -> StronglySorted Z.le (l ++ [t]).
Proof.
  induction 1 as [|x l Hl IH Hx]; intros Hf; [repeat constructor|]. apply Forall_cons in Hf as [H1 H2]. simpl. constructor; [by apply IH|].
  apply Forall_app. split; [done|by constructor].
Qed.

Lemma inv_step now t acc w :
  inv now acc w -> now <= t -> inv t (acc ++ if reaches t w then [t] else []) (limited t w).1.
Proof.
  intros (I1 & I2 & I3 & I4 & I5) Ht. unfold reaches, limited. cbv zeta. rewrite (evict_filter _ _ I3), (I4 (t - 60000)) by lia.
  set (l := filter (fun x => t - 60000 <= x) acc).
  assert (Forall (fun x => x <= t) acc) as Ha by (eapply Forall_impl; [exact I2|]; intros; simpl in *; lia).
  assert (StronglySorted Z.le l) as Hl by (by apply sorted_filter).
  assert (forall c, t - 60000 <= c -> filter (fun x => c <= x) l = filter (fun x => c <= x) acc) as Hf.
  { intros c Hc. unfold l. rewrite list_filter_filter. apply list_filter_iff. intros x. lia. }
  rewrite Z.geb_leb, Z.ltb_antisym. destruct (Z.leb_spec requestsPerMinute (Z.of_nat (length l))) as [Hr|Hr].
  - simpl. rewrite app_nil_r. by split_and!.
  - destruct (originalMethod (object w)) as [s o]. cbn [negb fst timestamps]. split_and!.
    + by apply sorted_snoc.
    + apply Forall_app. split; [done|]. constructor; [lia|constructor].
    + apply sorted_snoc; [done|]. apply Forall_forall. intros x [_ Hx]%list_elem_of_filter. by rewrite Forall_forall in Ha; apply Ha.
    + intros c Hc. cbn [timestamps]. by rewrite !filter_app, Hf.
    + intros a. unfold in_minute. rewrite filter_app, length_app. specialize (I5 a). unfold in_minute in I5.
      destruct (decide (a <= t <= a + 60000)) as [Hin|Hin].
      * rewrite filter_cons, decide_True, filter_nil by done. simpl.
        assert (length (filter (fun x => (a <= x <= a + 60000)%Z) acc) <= length l)%nat by (apply filter_length_mono; intros x _ ?; lia). lia.
      * rewrite filter_cons, decide_False, filter_nil by done. simpl. lia.
Qed.

(** However the calls come, within any minute at most the number given reach
    the method; and a call that finds fewer in the minute before it does. *)
Theorem calls_limited (l : list Z) (s : S) t0 t a :
  ordered t0 (l ++ [t]) ->
  let past := reached l (World [] s) in
  let w := fold_left (fun w t => (limited t w).1) l (World [] s) in
  Z.of_nat (length (in_minute a past)) <= Z.max 0 requestsPerMinute /\
  (reaches t w = true <-> Z.of_nat (length (filter (fun x => t - 60000 <= x) past)) < requestsPerMinute).
Proof.
  intros Ho. cbv zeta.
  assert (forall l now acc w, inv now acc w -> ordered now (l ++ [t]) ->
    exists now', inv now' (acc ++ reached l w) (fold_left (fun w t => (limited t w).1) l w) /\ now' <= t) as Hall.
  { clear. induction l as [|x l IH]; intros now acc w Hi Ho; [exists now; rewrite app_nil_r; split; [done|by destruct Ho]|]. destruct Ho as [Ht Ho]. cbn [reached fold_left].
    destruct (IH x _ _ (inv_step now x acc w Hi Ht) Ho) as (now' & H & Hle). exists now'. by rewrite app_assoc. }
  assert (inv t0 [] (World [] s)) as Hi by (split_and!; [constructor|constructor|constructor|done|intros; simpl; lia]).
  destruct (Hall l t0 [] (World [] s) Hi Ho) as (now' & (_ & _ & Hs & Hf & Hw) & Hle). split; [apply Hw|].
  unfold reaches. rewrite (evict_filter _ _ Hs), (Hf (t - 60000)) by lia. apply Z.ltb_lt.
Qed.
End limit.

Lemma calls_limited_witness :
  Z.of_nat (length (in_minute 0 (reached 2 "C.m" (fun n : nat => (S n, Ok tt)) [0; 5; 10; 60001] (World [] 0%nat)))) <= 2.
Proof. exact (proj1 (calls_limited 2 "C.m" (fun n : nat => (S n, Ok tt)) [0; 5; 10; 60001] 0%nat 0 60002 0 ltac:(simpl; lia))). Defined.
End RateLimited.

(** ** A cache of results *)

Module Memoized.

Section memo.
Context {S A : Type} (ttlMs : Z) (originalMethod : meth S exn A).

(** The cache of an instance, by the text of the method's name and arguments, and
    the state the method works on. *)
Record world : Type := World { cache : list (string * (A * Z)); object : S }.
Abbreviation M := (meth world exn).
(** shared/decorators/memoize.decorator.ts:15-36 Memoize
    [later] is the clock when the method has returned. *)
Definition memoized (now later : Z) (cacheKey : string) : M A := fun w =>
  let run := let '(s, o) := originalMethod (object w) in
             match o with
             | Ok result => (World (jmap_set cacheKey (result, later + ttlMs) (cache w)) s, Ok result)
             | Throw e => (World (cache w) s, Throw e)
             end in
  match jmap_get cacheKey (cache w) with
  | Some (v, expiresAt) => if now <? expiresAt then (w, Ok v) else run
  | None => run
  end.

(** A result is answered again until its time is over, and the method is not
    called; a failure is not kept. *)
Lemma memoized_again now later key w s v t t' :
  jmap_get key (cache w) = None -> originalMethod (object w) = (s, Ok v) ->
  let w1 := (memoized now later key w).1 in
  (memoized now later key w).2 = Ok v /\
  (t < later + ttlMs -> memoized t t' key w1 = (w1, Ok v)) /\
  (later + ttlMs <= t -> object (memoized t t' key w1).1 = (originalMethod s).1).
Proof.
  intros Hn Hm. unfold memoized at 1 2. rewrite Hn, Hm. cbn [fst snd]. split; [done|]. unfold memoized. cbn [cache object]. rewrite jmap_get_set_eq. split; intros Ht.
  - by rewrite (proj2 (Z.ltb_lt t (later + ttlMs))) by lia.
  - rewrite (proj2 (Z.ltb_ge t (later + ttlMs))) by lia. by destruct (originalMethod s) as [s2 [a|e]].
Qed.
Lemma failure_not_kept now later key w s e :
  jmap_get key (cache w) = None -> originalMethod (object w) = (s, Throw e) ->
  memoized now later key w = (World (cache w) s, Throw e).
Proof. intros Hn Hm. unfold memoized. by rewrite Hn, Hm. Qed.
End memo.
End Memoized.

(** ** Retries *)

Module Retried.

Section retry.
Context {S A : Type} (originalMethod : meth S exn A) (maxAttempts : Z) (backoffMs : num) (rnd : Z -> Q).

(** The delay after a failed attempt, with the attempt's draw. *)
Definition delay (attempt : Z) : num := Backoff.time_calculateBackoff (rnd attempt) (attempt - 1) backoffMs (ofZ 30000).
(** shared/decorators/retry.decorator.ts:23-44 Retry
    The loop from an attempt on, with the number of attempts that remain; the delays it waited. *)
Fixpoint attempts (more : nat) (attempt : Z) (lastError : exn) : meth S exn A * (S -> list num) :=
  match more with
  | O => (throw lastError, fun _ => [])
  | Datatypes.S more =>
      (fun s => match originalMethod s with
                | (s, Ok a) => (s, Ok a)
                | (s, Throw e) => (attempts more (attempt + 1) e).1 s
                end,
       fun s => match originalMethod s with
                | (_, Ok _) => []
                | (s, Throw e) => (if attempt <? maxAttempts then [delay attempt] else []) ++ (attempts more (attempt + 1) e).2 s
                end)
  end.
(** shared/decorators/retry.decorator.ts:20-45 Retry
    Without an attempt, [undefined] is thrown. *)
Definition retried : meth S exn A := (attempts (Z.to_nat maxAttempts) 1 (Foreign JUndefined)).1.
Definition waited : S -> list num := (attempts (Z.to_nat maxAttempts) 1 (Foreign JUndefined)).2.

(** The method runs until it succeeds, at most the number of times given: the
    states it is more in, one for each failed attempt. *)
Inductive fails : nat -> S -> S -> exn -> Prop :=
| fails_once s s' e : originalMethod s = (s', Throw e) -> fails 1 s s' e
| fails_more n s s1 s' e1 e : originalMethod s = (s1, Throw e1) -> fails n s1 s' e -> fails (Datatypes.S n) s s' e.

Lemma filter_all {B} (p : B -> bool) (l : list B) : (forall x, x ∈ l -> p x = true) -> filter (fun x => p x = true) l = l.
Proof.
  induction l as [|x l IH]; intros Hp; [done|]. rewrite filter_cons, decide_True by (apply Hp; by left). f_equal. apply IH. intros y Hy. apply Hp. by right.
Qed.
(** An attempt that is followed by another one. *)
Definition early (k : Z) (i : nat) : bool := k + Z.of_nat i <? maxAttempts.
Lemma attempts_fail n more k s s' e e0 :
  fails n s s' e ->
  (attempts (n + more) k e0).1 s = (attempts more (k + Z.of_nat n) e).1 s' /\
  length ((attempts (n + more) k e0).2 s) =
    (length (filter (fun i => early k i = true) (seq 0 n)) + length ((attempts more (k + Z.of_nat n) e).2 s'))%nat.
Proof.
  intros Hf. revert k e0. induction Hf as [s s' e Hm|n s s1 s' e1 e Hm Hf IH]; intros k e0.
  - cbn [Nat.add attempts fst snd seq]. rewrite Hm. split; [done|]. rewrite length_app, filter_cons, filter_nil. unfold early. rewrite Z.add_0_r.
    destruct (k <? maxAttempts); [rewrite decide_True by done|rewrite decide_False by done]; reflexivity.
  - cbn [Nat.add attempts fst snd seq]. rewrite Hm. destruct (IH (k + 1) e1) as [H1 H2]. rewrite H1. split; [do 2 f_equal; lia|].
    rewrite length_app, H2, filter_cons. assert (early k 0 = (k <? maxAttempts)) as -> by (unfold early; by rewrite Z.add_0_r). replace (k + Z.of_nat (Datatypes.S n)) with (k + 1 + Z.of_nat n) by lia.
    assert (length (filter (fun i => early k i = true) (seq 1 n)) =
      length (filter (fun i => early (k + 1) i = true) (seq 0 n))) as Hl.
    { rewrite <- fmap_S_seq. clear. induction (seq 0 n) as [|i l IHl]; [done|]. rewrite fmap_cons, !filter_cons.
      assert (early k (Datatypes.S i) = early (k + 1) i) as -> by (unfold early; f_equal; lia). destruct (decide _); simpl; by rewrite IHl. }
    destruct (k <? maxAttempts); [rewrite decide_True by done|rewrite decide_False by done]; simpl; rewrite Hl; lia.
Qed.

(** A retried method returns the first result it gets, after as many delays as
    it failed; when it fails every time it is called as often as it may be, the
    last error is thrown, and one delay fewer was waited. *)
Theorem retried_until_success n s s' e :
  fails n s s' e ->
  (forall s'' a, (Z.of_nat n < maxAttempts) -> originalMethod s' = (s'', Ok a) ->
     retried s = (s'', Ok a) /\ length (waited s) = n) /\
  (Z.of_nat n = maxAttempts -> retried s = (s', Throw e) /\ length (waited s) = pred n).
Proof.
  intros Hf. split.
  - intros s'' a Hn Ha. unfold retried, waited. replace (Z.to_nat maxAttempts) with (n + Datatypes.S (Z.to_nat maxAttempts - n - 1))%nat by lia.
    destruct (attempts_fail n (Datatypes.S (Z.to_nat maxAttempts - n - 1)) 1 s s' e (Foreign JUndefined) Hf) as [-> ->].
    cbn [attempts fst snd]. rewrite Ha. split; [done|]. cbn [length]. rewrite Nat.add_0_r.
    assert (filter (fun i => early 1 i = true) (seq 0 n) = seq 0 n) as ->; [|by rewrite length_seq].
    apply filter_all. intros i [_ Hi]%elem_of_seq. unfold early. apply Z.ltb_lt. lia.
  - intros Hn. unfold retried, waited. replace (Z.to_nat maxAttempts) with (n + 0)%nat by lia.
    destruct (attempts_fail n 0 1 s s' e (Foreign JUndefined) Hf) as [-> ->]. split; [done|]. cbn [attempts snd length]. rewrite Nat.add_0_r.
    destruct n as [|n]; [inversion Hf|]. rewrite seq_S, filter_app, length_app, filter_cons, filter_nil. cbn [pred].
    rewrite decide_False by (unfold early; rewrite Z.ltb_lt; lia). assert (filter (fun i => early 1 i = true) (seq 0 n) = seq 0 n) as ->; [|rewrite length_seq; simpl; lia].
    apply filter_all. intros i [_ Hi]%elem_of_seq. unfold early. apply Z.ltb_lt. lia.
Qed.
End retry.
Lemma retried_until_success_witness :
  let m := fun n => (Datatypes.S n, if (n <? 2)%nat then Throw (PlainError "no") else Ok "yes") in
  retried m 3 (ofZ 1000) (fun _ => 0%Q) 0%nat = (3%nat, Ok "yes").
Proof.
  cbv zeta. set (m := fun n => (Datatypes.S n, if (n <? 2)%nat then Throw (PlainError "no") else Ok "yes")).
  destruct (retried_until_success m 3 (ofZ 1000) (fun _ => 0%Q) 2 0%nat 2%nat (PlainError "no")) as [H _].
  - apply (fails_more m 1 0%nat 1%nat 2%nat (PlainError "no")); [reflexivity|]. by apply fails_once.
  - exact (proj1 (H 3%nat "yes" ltac:(lia) eq_refl)).
Defined.
End Retried.

(** ** Errors *)

Module ErrorGuards.

(** shared/constants/retry-config.ts:4-4 TRANSIENT_STATUS_CODES *)
Definition TRANSIENT_STATUS_CODES : list Z := [408; 429; 500; 502; 503; 504].
(** shared/guards/error-guards.ts:56-66 isRetryableError *)
Definition transientPatterns : list string :=
  ["timeout"; "network"; "connrefused"; "econnrefused"; "etimedout"; "socket"; "503"; "504"; "429"].
(** [Number(status)] of a status that is a number or a text. *)
Definition Number (status : jsval) : num :=
  match status with JNum n => n | JString s => match parse_int s with Some n => if str_eqb (pretty n) s then ofZ n else NaN | None => NaN end | _ => NaN end.
Definition transient (status : jsval) : bool := existsb (fun c => num_eqb (Number status) (ofZ c)) TRANSIENT_STATUS_CODES.
(** shared/guards/error-guards.ts:40-69 isRetryableError *)
Definition isRetryableError (error : jsval) : bool :=
  if negb (js_truthy error) then false
  else
    let context := js_get "context" error in
    let status := js_nullish_or (js_nullish_or (js_get "statusCode" context) (js_get "status" context)) (js_get "statusCode" error) in
    if js_truthy status && transient status then true
    else if js_truthy status && negb (transient status) then false
    else
      let message := to_lower (js_String (js_or (js_get "message" error) (JString ""))) in
      existsb (fun pattern => includes pattern message) transientPatterns.

(** A status decides alone; without one, the message does. *)
Lemma retryable_by_status error :
  js_truthy error = true ->
  let context := js_get "context" error in
  let status := js_nullish_or (js_nullish_or (js_get "statusCode" context) (js_get "status" context)) (js_get "statusCode" error) in
  isRetryableError error =
    if js_truthy status then transient status
    else existsb (fun p => includes p (to_lower (js_String (js_or (js_get "message" error) (JString ""))))) transientPatterns.
Proof.
  intros He. cbv zeta. unfold isRetryableError. rewrite He. cbv zeta. cbn [negb].
  generalize (js_nullish_or (js_nullish_or (js_get "statusCode" (js_get "context" error)) (js_get "status" (js_get "context" error))) (js_get "statusCode" error)).
  intros st. destruct (js_truthy st); cbn [andb]; [|reflexivity]. by destruct (transient st).
Qed.

(** What is caught: an error of the application's own classes, or another value. *)
Inductive caught : Type := Base (e : Errors.info) | Other (v : jsval).
Definition type_error : exn := Foreign (JError 0 [("name", JString "TypeError")]).
Definition named (v : jsval) (n : string) : bool := js_strict_eq (js_get "name" v) (JString n).
(** The message, or another one; a production server hides that of an internal
    error. *)
Definition message_or (v : jsval) (d : string) : string := js_String (js_or (js_get "message" v) (JString d)).
(** shared/errors/error-mapper.ts:17-40 map *)
Definition map (production : bool) (err : caught) : res exn Errors.info :=
  match err with
  | Base e => Ok e
  | Other v =>
      if is_nullish v then Throw type_error
      else
        let mk code status d := Ok (Errors.Info "Error" code status (message_or v d)) in
        if named v "ValidationError" || named v "ZodError" then Ok (Errors.validation_error (message_or v "Validation failed") None)
        else if named v "NotFoundError" then mk "NOT_FOUND" 404 "Resource not found"
        else if named v "AuthenticationError" || named v "JsonWebTokenError" then mk "UNAUTHENTICATED" 401 "Unauthenticated request"
        else if named v "AuthorizationError" then mk "UNAUTHORIZED" 403 "Forbidden request"
        else if named v "RateLimitError" then mk "RATE_LIMITED" 429 "Too many requests"
        else if named v "ConflictError" then mk "CONFLICT_DETECTED" 409 "State conflict detected"
        else Ok (Errors.Info "Error" "UNKNOWN_ERROR" 500
                   (if production then "An unexpected internal server error occurred" else message_or v "An unexpected error occurred"))
  end.

(** Everything that is thrown but null gets a status a client understands, and an
    error without a known name is never shown to one in production. *)
Lemma mapped_status production v e :
  map production (Other v) = Ok e -> Errors.statusCode e ∈ [422; 404; 401; 403; 429; 409; 500].
Proof.
  unfold map. destruct (is_nullish v); [done|]. cbv zeta.
  repeat match goal with |- context [if named ?x ?n || named ?x ?m then _ else _] => destruct (named x n || named x m) | |- context [if named ?x ?n then _ else _] => destruct (named x n) end;
    intros [= <-]; [unfold Errors.validation_error, Errors.domain_error; destruct (str_eqb _ _)|..]; cbn [Errors.statusCode]; rewrite ?elem_of_cons; auto 10.
Qed.
End ErrorGuards.
