(* ===== verification/Wrappers.v ===== *)
(** * Methods wrapped by decorators

    [shared/decorators/]: the decorators that watch a method, each around the
    same scheme ([Watched]): [Measure], [Log], [Logged] and [Traced]; and the one
    that checks its first argument ([Validated]).  The lines of
    [shared/utils/formatting.ts] are in [Formatting].  The clock's readings are
    arguments, and so is what the library of spans is given. *)
From Stdlib Require Import Ascii QArith.
From stdpp Require Import base tactics numbers list strings gmap pretty.
From S2P Require Import Prelude JsNum JsValue Errors Text Connectors IsoDate.

(** ** Formatting *)

Module Formatting.

(** shared/utils/formatting.ts:6-12 formatJSON
    Values are trees: nothing in them is circular. *)
Definition formatJSON (obj : jsval) : string := default "undefined" (Json.stringify obj).
(** shared/utils/formatting.ts:19-37 formatError *)
Definition formatError (error : jsval) : jsval :=
  match error with
  | JError _ fs =>
      let own k := match assoc k fs with Some v => v | None => if str_eqb k "name" then JString "Error" else if str_eqb k "message" then JString "" else JUndefined end in
      JObject 0 (fold_left (fun r x => jmap_set x.1 x.2 r) (enumerable fs) [("name", own "name"); ("message", own "message"); ("stack", own "stack")])
  | _ => JObject 0 [("message", JString (js_String error))]
  end.
(** shared/utils/formatting.ts:46-50 formatLogEntry *)
Definition formatLogEntry (now : Z) (level message : string) (context : jsval) : string :=
  "[" +:+ IsoDate.iso_string now +:+ "] [" +:+ to_upper level +:+ "]: " +:+ message +:+
  (if js_truthy context then " | Context: " +:+ formatJSON context else "").
End Formatting.

(** ** The scheme *)

Module Watched.

(** A method gives a value at once, or a promise: what remains to be done until
    it settles. *)
Definition call (S A : Type) : Type := meth S exn (A + meth S exn A).
(** [await] of what a method gives. *)
Definition await {S A} (m : call S A) : meth S exn A := r ← m; match r with inl a => mret a | inr p => p end.

Section watched.
Context {S A L : Type}.
(** The object the method works on, and what was written so far. *)
Record world : Type := World { object : S; written : list L }.
Abbreviation M := (meth world exn).
Definition on_object {B} (m : meth S exn B) : M B := fun w => let '(s, r) := m (object w) in (World s (written w), r).
Definition emit (l : list L) : M unit := modify (fun w => World (object w) (written w ++ l)).

(** What is written before, after a return and after a failure; the first
    argument tells whether the method gave a promise.  Writing of a failure can
    itself fail. *)
Context (enter : list L) (exit : bool -> A -> list L) (failed : bool -> exn -> list L * res exn unit).
Definition failing {B} (async : bool) (e : exn) : M B := emit (failed async e).1;; lift_res (failed async e).2;; throw e.
Definition watched (originalMethod : call S A) : M (A + M A) :=
  emit enter;;
  try_catch
    (result ← on_object originalMethod;
     match result with
     | inl a => emit (exit false a);; mret (inl a)
     | inr p => mret (inr (try_catch (a ← on_object p; emit (exit true a);; mret a) (failing true)))
     end)
    (failing false).

(** The watched method ends as the method does, with the same effect on the
    object, and one account of it is written: when the writing of failures does
    not fail. *)
Lemma watched_transparent m w :
  (forall b e, (await m (object w)).2 = Throw e -> (failed b e).2 = Ok tt) ->
  exists b, await (S := world) (watched m) w =
    let '(s, r) := await m (object w) in
    (World s (written w ++ enter ++ match r with Ok a => exit b a | Throw e => (failed b e).1 end), r).
Proof.
  intros Hf. unfold await, watched, failing, try_catch, on_object, emit, modify, lift_res, throw, mbind, meth_bind, mret, meth_ret in *. cbn [object written].
  destruct (m (object w)) as [s [[a|p]|e]]; cbn [object written].
  - exists false. by rewrite <- app_assoc.
  - exists true. destruct (p s) as [s' [a|e]]; cbn [object written]; [by rewrite <- app_assoc|]. by rewrite (Hf true e eq_refl), <- app_assoc.
  - exists false. by rewrite (Hf false e eq_refl), <- app_assoc.
Qed.
(** A failure of the writing takes the place of the method's own. *)
Lemma failure_replaced m w s e e' :
  m (object w) = (s, Throw e) -> (failed false e).2 = Throw e' ->
  watched m w = (World s (written w ++ enter ++ (failed false e).1), Throw e').
Proof.
  intros Hm He. unfold watched, failing, try_catch, on_object, emit, modify, lift_res, mbind, meth_bind. cbn [object written]. rewrite Hm. cbn [object written].
  by rewrite He, <- app_assoc.
Qed.
End watched.
Arguments World {S L}. Arguments object {S L}. Arguments written {S L}. Arguments world : clear implicits.
End Watched.

(** ** The decorators *)

Module Decorated.
Import Watched Formatting.

(** [err.message], which throws when nothing was thrown. *)
Definition message_of (e : exn) : res exn string :=
  match e with
  | Foreign JUndefined => Throw (Connectors.type_error "Cannot read properties of undefined (reading 'message')")
  | Foreign JNull => Throw (Connectors.type_error "Cannot read properties of null (reading 'message')")
  | _ => Ok (js_String (js_get "message" (Errors.exn_js e)))
  end.
Definition has_message (e : exn) : bool := is_ok (message_of e).
(** A line of the message of an error, or the failure to read it. *)
Definition told {L} (line : string -> L) (e : exn) : list L * res exn unit :=
  match message_of e with Ok m => ([line m], Ok tt) | Throw e => ([], Throw e) end.

Section decorated.
Context {S A : Type} (className methodName : string) (originalMethod : call S A).

(** What the histogram is told. *)
Record observation : Type := Observation { o_class : string; o_method : string; o_status : string; o_seconds : Q }.
Definition observe (status : string) (start stop : Z) : list observation := [Observation className methodName status ((stop - start) # 1000)].
(** shared/decorators/measure.decorator.ts:25-68 value
    The method ends at [stop], a promise settles at [settled]. *)
Definition Measure (start stop settled : Z) : meth (world S observation) exn (A + meth (world S observation) exn A) :=
  let finish (async : bool) := if async then settled else stop in
  watched [] (fun async _ => observe "success" start (finish async)) (fun async _ => (observe "fail" start (finish async), Ok tt)) originalMethod.

Definition label : string := className +:+ "." +:+ methodName.
Definition secretNames : list string := ["secret"; "password"; "token"; "apiKey"; "authorization"].
Definition redacted (x : string * jsval) : string * jsval := if bool_decide (x.1 ∈ secretNames) then (x.1, JString "[REDACTED]") else x.
(** shared/decorators/log.decorator.ts:18-28 sanitizedArgs
    Only properties of an argument itself are looked at. *)
Definition sanitized (a : jsval) : jsval :=
  match a with
  | JObject _ fs => JObject 0 (map redacted fs)
  | JError _ fs => JObject 0 (map redacted (enumerable fs))
  | JArray _ l => JObject 0 (imap (fun i x => (pretty (N.of_nat i), x)) l)
  | _ => a
  end.
Definition entering (now : Z) (level : string) (args : list jsval) : string :=
  formatLogEntry now level ("[Log] Entering " +:+ label +:+ " with arguments: " +:+ default "undefined" (Json.stringify (JArray 0 (map sanitized args)))) JUndefined.
(** shared/decorators/log.decorator.ts:16-62 value *)
Definition Log (level : string) (start stop settled : Z) (args : list jsval) : meth (world S string) exn (A + meth (world S string) exn A) :=
  let finish (async : bool) := if async then settled else stop in
  let elapsed async := pretty (finish async - start) in
  watched [entering start level args]
    (fun async _ => [formatLogEntry (finish async) level ("[Log] Exiting " +:+ label +:+ " - Duration: " +:+ elapsed async +:+ "ms") JUndefined])
    (fun async => told (fun m => formatLogEntry (finish async) "error" ("[Log] Error in " +:+ label +:+ " after " +:+ elapsed async +:+ "ms: " +:+ m) JUndefined))
    originalMethod.

(** shared/decorators/logging.decorator.ts:17-54 value
    The arguments and the result are written as they are. *)
Definition Logged (show : A -> jsval) (stack : exn -> jsval) (start stop settled : Z) (args : list jsval) : meth (world S string) exn (A + meth (world S string) exn A) :=
  let finish (async : bool) := if async then settled else stop in
  let kind (async : bool) := if async then " async " else " " in
  watched [formatLogEntry start "info" ("Entering " +:+ label) (JObject 0 [("arguments", JArray 0 args)])]
    (fun async a => [formatLogEntry (finish async) "info" ("Exiting" +:+ kind async +:+ label) (JObject 0 [("result", show a)])])
    (fun async e => told (fun m => formatLogEntry (finish async) "error" ("Failed" +:+ kind async +:+ label +:+ ": " +:+ m) (JObject 0 [("error", stack e)])) e)
    originalMethod.

(** What a span is told. *)
Inductive span_call : Type := Started (name : string) | Recorded (e : exn) | Status (code : Z) (message : string) | Ended.
(** shared/decorators/tracing.decorator.ts:19-49 value
    The exception is recorded before its message is read. *)
Definition Traced (spanName : string) : meth (world S span_call) exn (A + meth (world S span_call) exn A) :=
  watched [Started (str_or spanName label)] (fun _ _ => [Ended])
    (fun _ e => match message_of e with
                | Ok m => ([Recorded e; Status 2 m; Ended], Ok tt)
                | Throw e' => ([Recorded e], Throw e')
                end)
    originalMethod.

(** *** Theorems *)

(** Measuring changes neither the result nor the object, and observes each call
    once, as a success exactly when it returns. *)
Theorem measured_once start stop settled (w : world S observation) :
  exists t, await (S := world S observation) (Measure start stop settled) w =
    let '(s, r) := await originalMethod (object w) in
    (World s (written w ++ [Observation className methodName (if is_ok r then "success" else "fail") ((t - start) # 1000)]), r).
Proof.
  destruct (watched_transparent [] (fun async _ => observe "success" start (if async then settled else stop))
    (fun async _ => (observe "fail" start (if async then settled else stop), Ok tt)) originalMethod w (fun _ _ _ => eq_refl)) as (b & Hb).
  exists (if b then settled else stop). unfold Measure. rewrite Hb. destruct (await originalMethod (object w)) as [s [a|e]]; done.
Qed.

(** A span is started and ended once, whatever the method does, as long as what
    it throws has a message; thrown nothing, the error is replaced and the span
    never ends. *)
Theorem traced_once spanName (w : world S span_call) :
  (forall e, (await originalMethod (object w)).2 = Throw e -> has_message e = true) ->
  exists l, await (S := world S span_call) (Traced spanName) w =
    (let '(s, r) := await originalMethod (object w) in (World s (written w ++ [Started (str_or spanName label)] ++ l ++ [Ended]), r)) /\
    (forall x, x ∈ l -> x <> Ended) /\ (is_ok (await originalMethod (object w)).2 = true -> l = []).
Proof.
  intros Hm. unfold Traced, await, watched, failing, try_catch, on_object, emit, modify, lift_res, throw, mbind, meth_bind, mret, meth_ret in *. cbn [object written].
  assert (forall e, has_message e = true -> exists m, message_of e = Ok m) as Hh by (intros e; unfold has_message; destruct (message_of e); [by eexists|done]).
  destruct (originalMethod (object w)) as [s [[a|p]|e]]; cbn [object written] in *.
  - exists []. rewrite <- !app_assoc. split; [done|]. split; [by intros x ?%not_elem_of_nil|done].
  - destruct (p s) as [s' [a|e]]; cbn [object written] in *.
    + exists []. rewrite <- !app_assoc. split; [done|]. split; [by intros x ?%not_elem_of_nil|done].
    + destruct (Hh e (Hm e eq_refl)) as [m Em]. exists [Recorded e; Status 2 m]. rewrite Em. cbn [fst snd]. rewrite <- !app_assoc.
      split; [done|]. split; [|done]. intros x Hx. by repeat (apply elem_of_cons in Hx as [->|Hx]); [done|done|apply not_elem_of_nil in Hx].
  - destruct (Hh e (Hm e eq_refl)) as [m Em]. exists [Recorded e; Status 2 m]. rewrite Em. cbn [fst snd]. rewrite <- !app_assoc.
    split; [done|]. split; [|done]. intros x Hx. by repeat (apply elem_of_cons in Hx as [->|Hx]); [done|done|apply not_elem_of_nil in Hx].
Qed.
Lemma nothing_thrown_left_open spanName (w : world S span_call) s :
  originalMethod (object w) = (s, Throw (Foreign JUndefined)) ->
  Traced spanName w = (World s (written w ++ [Started (str_or spanName label); Recorded (Foreign JUndefined)]),
                       Throw (Connectors.type_error "Cannot read properties of undefined (reading 'message')")).
Proof. intros Hm. unfold Traced. by erewrite failure_replaced by (exact Hm || reflexivity). Qed.

(** Arguments that differ only under the names of secrets, at their own level. *)
Inductive alike : jsval -> jsval -> Prop :=
| alike_same a : alike a a
| alike_object l l' fs gs : Forall2 (fun x y => x.1 = y.1 /\ (x.2 = y.2 \/ x.1 ∈ secretNames)) fs gs -> alike (JObject l fs) (JObject l' gs).
Lemma alike_sanitized a b : alike a b -> sanitized a = sanitized b.
Proof.
  destruct 1 as [|l l' fs gs H]; [done|]. cbn [sanitized]. f_equal. induction H as [|[k v] [k' v'] fs gs [Hk Hv] H IH]; [done|]. cbn in Hk, Hv. subst k'.
  cbn [map]. rewrite IH. f_equal. unfold redacted. cbn [fst]. destruct Hv as [->|Hv]; [done|]. by rewrite bool_decide_true.
Qed.
(** Logging changes neither the result nor the object, writes one line before
    and one after, and the lines are the same whatever is passed as a secret
    property of an argument. *)
Theorem logged_without_secrets level start stop settled args args' (w : world S string) :
  (forall e, (await originalMethod (object w)).2 = Throw e -> has_message e = true) -> Forall2 alike args args' ->
  Log level start stop settled args = Log level start stop settled args' /\
  exists line, await (S := world S string) (Log level start stop settled args) w =
    (let '(s, r) := await originalMethod (object w) in (World s (written w ++ [entering start level args; line]), r)).
Proof.
  intros Hm Ha. assert (entering start level args = entering start level args') as He.
  { unfold entering. assert (map sanitized args = map sanitized args') as ->; [|done].
    induction Ha as [|a b l l' H _ IH]; [done|]. cbn [map]. by rewrite IH, (alike_sanitized a b H). }
  split; [unfold Log; by rewrite He|]. unfold Log.
  match goal with |- context [watched ?en ?ex ?fa originalMethod] => destruct (watched_transparent en ex fa originalMethod w) as (b & Hb) end.
  { intros b e Hr. unfold told. specialize (Hm e Hr). unfold has_message in Hm. by destruct (message_of e). }
  rewrite Hb. destruct (await originalMethod (object w)) as [s [a|e]]; [by eexists|]. unfold told. specialize (Hm e eq_refl). unfold has_message in Hm.
  destruct (message_of e); [by eexists|done].
Qed.
End decorated.

Lemma traced_once_witness :
  let m : call nat nat := fun n => (S n, Ok (inr (fun n => (S n, Throw (PlainError "late"))))) in
  exists l, await (S := world nat span_call) (Traced "C" "m" m "") (World 0%nat []) = (World 2%nat ([Started "C.m"] ++ l ++ [Ended]), Throw (PlainError "late")) /\
    (forall x, x ∈ l -> x <> Ended).
Proof.
  destruct (traced_once "C" "m" (fun n : nat => (S n, Ok (inr (fun n => (S n, Throw (PlainError "late")) : nat * res exn nat)))) "" (World 0%nat [])) as (l & H & Hl & _).
  - by intros e [= <-].
  - exists l. exact (conj H Hl).
Defined.
Lemma logged_without_secrets_witness :
  let m : call nat nat := fun n => (S n, Ok (inl n)) in
  let login p := [JObject 1 [("user", JString "bob"); ("password", JString p)]] in
  exists line, await (S := world nat string) (Log "A" "login" m "info" 0 1 1 (login "hunter2")) (World 0%nat []) =
    (World 1%nat [entering "A" "login" 0 "info" (login "other"); line], Ok 0%nat).
Proof.
  cbv zeta.
  destruct (logged_without_secrets "A" "login" (fun n : nat => (S n, Ok (inl n)) : nat * res exn (nat + meth nat exn nat)) "info" 0 1 1
    [JObject 1 [("user", JString "bob"); ("password", JString "hunter2")]] [JObject 1 [("user", JString "bob"); ("password", JString "other")]] (World 0%nat []))
    as (He & line & Hl).
  - by intros e.
  - constructor; [|constructor]. apply alike_object. constructor; [split; [done|by left]|]. constructor; [|constructor].
    split; [done|]. right. apply (bool_decide_eq_true_1 _). reflexivity.
  - exists line. rewrite Hl. reflexivity.
Defined.
(** A secret one level down is written. *)
Example nested_secret :
  includes "hunter2" (entering "A" "login" 0 "info" [JObject 1 [("body", JObject 2 [("password", JString "hunter2")])]]) = true.
Proof. vm_compute. reflexivity. Qed.
End Decorated.

(** ** The checked argument *)

Module Validated.

Section validated.
(** The schema: the data it makes of a value, or its issues. *)
Context {S A : Type} (safeParse : jsval -> jsval + list jsval) (className methodName : string).
(** shared/decorators/validate.decorator.ts:20-34 value
    The issues are the error's context. *)
Definition Validate (originalMethod : list jsval -> meth S exn A) (args : list jsval) : meth S exn A :=
  match safeParse (default JUndefined (head args)) with
  | inr _ => fail (ValidationError ("Validation failed for method " +:+ className +:+ "." +:+ methodName))
  | inl data => originalMethod (data :: tail args)
  end.

(** The method runs on what the schema accepts only, with the schema's data in
    the place of its first argument; refused, the method is not entered. *)
Theorem validated originalMethod args s :
  match safeParse (default JUndefined (head args)) with
  | inl data => Validate originalMethod args s = originalMethod (data :: tail args) s /\ length (data :: tail args) = Nat.max 1 (length args)
  | inr _ => Validate originalMethod args s = (s, Throw (ValidationError ("Validation failed for method " +:+ className +:+ "." +:+ methodName)))
  end.
Proof. unfold Validate. destruct (safeParse _); [|done]. split; [done|]. by destruct args as [|a [|b args]]. Qed.
End validated.
End Validated.
