(* ===== verification/InputChecks.v ===== *)
(** * The security layer's input validation

    [security/validation/] and [api/validators/]: formats and sanitisation
    ([InputValidator]), requests to ingest a result ([ResultValidator]), to
    register a destination ([DestinationValidator]) and to retry a delivery
    ([DeliveryValidator]), the texts of messages ([ErrorMessages]), and the
    validator over schemas with its users ([SchemaValidator]). *)
From Stdlib Require Import Ascii QArith Qround Qpower Qabs Lqa.
From stdpp Require Import base tactics numbers list strings gmap pretty.
From S2P Require Import Prelude JsNum JsValue Errors DomainTypes ValueObjects RetryStrategy Destination Connectors Text TaskResult Destinations Utils.

(** ** Formats and sanitisation *)

Module InputValidator.

Abbreviation field_error := Validation.field_error.
(** [!v || typeof v !== 'string'] leaves a text that is not empty. *)
Definition given (v : jsval) : option string := match v with JString s => if str_truthy s then Some s else None | _ => None end.

(** security/validation/validators.ts:10-19 validateEmail *)
Definition validateEmail (email : jsval) : res exn unit :=
  match given email with
  | None => Throw (field_error "email" "Email address is required.")
  | Some s => if Guards.email_shape (trim s) then Ok tt else Throw (field_error "email" ("Invalid email address format: " +:+ quoted s))
  end.
(** [/^[0-9a-fA-F]{8}-[0-9a-fA-F]{4}-[1-5][0-9a-fA-F]{3}-[89abAB][0-9a-fA-F]{3}-[0-9a-fA-F]{12}$/] *)
Definition uuid_text (s : string) : bool := Guards.isValidUUID (JString s).
(** security/validation/validators.ts:24-32 validateUUID *)
Definition validateUUID (id : jsval) (fieldName : string) : res exn unit :=
  match given id with
  | None => Throw (field_error fieldName (fieldName +:+ " is required."))
  | Some s => if uuid_text (trim s) then Ok tt else Throw (field_error fieldName ("Invalid UUID format for " +:+ fieldName +:+ ": " +:+ quoted s))
  end.

(** The platform's URL parser: the protocol of a text, when it is a URL. *)
Class UrlParser := { protocol_of : string -> option string }.
Definition protocols : list string := ["http:"; "https:"; "postgresql:"; "redis:"; "amqp:"].
(** security/validation/validators.ts:37-50 validateURL *)
Definition validateURL `{UrlParser} (url : jsval) (fieldName : string) : res exn unit :=
  match given url with
  | None => Throw (field_error fieldName (fieldName +:+ " is required."))
  | Some s =>
      match protocol_of (trim s) with
      | None => Throw (field_error fieldName ("Invalid URL format: " +:+ quoted s))
      | Some protocol =>
          if existsb (str_eqb protocol) protocols then Ok tt
          else Throw (field_error fieldName ("URL protocol must be valid. Received: " +:+ quoted protocol))
      end
  end.

(** [s.replace(/[set]/g, '')] *)
Fixpoint without (p : ascii -> bool) (s : string) : string :=
  match s with EmptyString => EmptyString | String c s => if p c then without p s else String c (without p s) end.
(** [/^\+?[1-9]\d{1,14}$/] *)
Definition phone_text (s : string) : bool :=
  let digits := match s with String "+" s => s | _ => s end in
  match digits with
  | String c rest => is_digit c && negb (Ascii.eqb c "0") && str_forall is_digit rest && (1 <=? String.length rest)%nat && (String.length rest <=? 14)%nat
  | EmptyString => false
  end.
(** security/validation/validators.ts:55-63 validatePhoneNumber *)
Definition validatePhoneNumber (phone : jsval) : res exn unit :=
  match given phone with
  | None => Throw (field_error "phone" "Phone number is required.")
  | Some s => if phone_text (without (fun c => is_space c || char_of "()-" c) s) then Ok tt
              else Throw (field_error "phone" ("Invalid phone number format: " +:+ quoted s))
  end.

Fixpoint str_exists (p : ascii -> bool) (s : string) : bool :=
  match s with EmptyString => false | String c s => p c || str_exists p s end.
Definition special (c : ascii) : bool := char_of "!@#$%^&*()_+-=[]{};':\|,.<>/?" c || Ascii.eqb c (Ascii.ascii_of_nat 34).
Definition password_rules : list ((string -> bool) * string) :=
  [((fun s => (8 <=? String.length s)%nat), "Password must be at least 8 characters long.");
   (str_exists (in_range 65 90), "Password must contain at least one uppercase letter.");
   (str_exists (in_range 97 122), "Password must contain at least one lowercase letter.");
   (str_exists (in_range 48 57), "Password must contain at least one number.");
   (str_exists special, "Password must contain at least one special character.")].
(** security/validation/validators.ts:68-91 validatePassword *)
Definition validatePassword (password : jsval) : bool * list string :=
  match given password with
  | None => (false, ["Password is required."])
  | Some s =>
      let errors := map snd (filter (fun r => r.1 s = false) password_rules) in
      (match errors with [] => true | _ => false end, errors)
  end.

(** [s.replace(/c/g, by)] for a plain character and a replacement. *)
Fixpoint str_flat (f : ascii -> string) (s : string) : string :=
  match s with EmptyString => EmptyString | String c s => f c +:+ str_flat f s end.
Definition replace_char (c : ascii) (by_ : string) : string -> string :=
  str_flat (fun d => if Ascii.eqb d c then by_ else String d EmptyString).
Definition quote : ascii := Ascii.ascii_of_nat 34.
Definition replace_all (s : string) : string :=
  replace_char "/" "&#x2F;" (replace_char "'" "&#x27;" (replace_char quote "&quot;"
    (replace_char ">" "&gt;" (replace_char "<" "&lt;" (replace_char "&" "&amp;" s))))).
(** security/validation/validators.ts:96-111 sanitizeString *)
Definition sanitizeString (input : jsval) (maxLength : option Z) : string :=
  match given input with
  | None => ""
  | Some s =>
      let sanitized := replace_all s in
      match maxLength with
      | Some n => if (0 <? n) && (n <? Z.of_nat (String.length sanitized)) then String.substring 0 (Z.to_nat n) sanitized else sanitized
      | None => sanitized
      end
  end.
(** security/validation/validators.ts:121-129 sanitizeJSON
    What becomes of a property's value. *)
Fixpoint clean (val : jsval) : jsval :=
  match val with
  | JString s => JString (sanitizeString val None)
  | JObject _ fs => JObject 0 (map (fun '(k, x) => (k, clean x)) fs)
  | JError _ fs => JObject 0 (enumerable (map (fun '(k, x) => (k, clean x)) fs))
  | JArray _ l => JArray 0 (map clean l)
  | _ => val
  end.
(** security/validation/validators.ts:116-132 sanitizeJSON
    A key [__proto__], which would set the copy's prototype, is taken as any
    other. *)
Definition sanitizeJSON (input : jsval) : jsval := if is_object input then clean input else JObject 0 [].

(** *** What sanitising does *)

Lemma str_flat_app f a b : str_flat f (a +:+ b) = str_flat f a +:+ str_flat f b.
Proof. induction a as [|c a IH]; [done|]. change (String c a +:+ b) with (String c (a +:+ b)). cbn [str_flat]. by rewrite IH, str_app_assoc. Qed.
Lemma str_flat_compose f g s : str_flat f (str_flat g s) = str_flat (fun c => str_flat f (g c)) s.
Proof. induction s as [|c s IH]; [done|]. cbn [str_flat]. by rewrite str_flat_app, IH. Qed.
Lemma str_flat_ext f g s : (forall c, f c = g c) -> str_flat f s = str_flat g s.
Proof. intros Hfg. induction s as [|c s IH]; [done|]. cbn [str_flat]. by rewrite Hfg, IH. Qed.

(** The entity a character becomes. *)
Definition entity (c : ascii) : string :=
  match c with
  | "&"%char => "&amp;" | "<"%char => "&lt;" | ">"%char => "&gt;" | "'"%char => "&#x27;" | "/"%char => "&#x2F;"
  | _ => if Ascii.eqb c quote then "&quot;" else String c EmptyString
  end.
(** The six replacements one after the other are one pass: no entity is
    replaced again. *)
Lemma replace_all_flat s : replace_all s = str_flat entity s.
Proof.
  unfold replace_all, replace_char. rewrite !str_flat_compose. apply str_flat_ext.
  intros c. by destruct c as [[] [] [] [] [] [] [] []].
Qed.

Definition chars : list ascii := map Ascii.ascii_of_nat (seq 0 256).
Lemma all_chars c : c ∈ chars.
Proof. apply list_elem_of_fmap. exists (Ascii.nat_of_ascii c). rewrite Ascii.ascii_nat_embedding, elem_of_seq. pose proof (Ascii.nat_ascii_bounded c). split; [done|lia]. Qed.
Lemma entities_prefix_free : forallb (fun c => forallb (fun d => Ascii.eqb c d || negb (starts_with (entity c) (entity d))) chars) chars = true.
Proof. vm_compute. reflexivity. Qed.

Lemma app_eq_prefix (a b x y : string) : a +:+ x = b +:+ y -> starts_with a b = true \/ starts_with b a = true.
Proof.
  revert b. induction a as [|c a IH]; intros [|d b] H; [by left|by left|by right|].
  change (String c a +:+ x) with (String c (a +:+ x)) in H. change (String d b +:+ y) with (String d (b +:+ y)) in H.
  injection H as -> H. simpl. rewrite !bool_decide_eq_true_2 by done. apply (IH b H).
Qed.
Lemma str_app_inv_l (a x y : string) : a +:+ x = a +:+ y -> x = y.
Proof.
  induction a as [|c a IH]; [done|]. change (String c a +:+ x) with (String c (a +:+ x)). change (String c a +:+ y) with (String c (a +:+ y)).
  intros [= H]. by apply IH.
Qed.
Lemma entity_inj c d x y : entity c +:+ x = entity d +:+ y -> c = d /\ x = y.
Proof.
  assert (forall c d, starts_with (entity c) (entity d) = true -> c = d) as Hp.
  { intros c' d' Hs. pose proof entities_prefix_free as Hf. rewrite forallb_forall in Hf.
    specialize (Hf c' (proj1 (list_elem_of_In _ _) (all_chars c'))). rewrite forallb_forall in Hf.
    specialize (Hf d' (proj1 (list_elem_of_In _ _) (all_chars d'))). rewrite Hs, orb_false_r in Hf. by apply Ascii.eqb_eq. }
  intros H. assert (c = d) as -> by (destruct (app_eq_prefix _ _ _ _ H) as [E|E]; apply Hp in E; congruence).
  split; [done|]. by eapply str_app_inv_l.
Qed.
Lemma entity_nonempty c x : entity c +:+ x <> "".
Proof. by destruct c as [[] [] [] [] [] [] [] []]. Qed.
Lemma flat_entity_inj s t : str_flat entity s = str_flat entity t -> s = t.
Proof.
  revert t. induction s as [|c s IH]; intros [|d t] H; [done| | |].
  - symmetry in H. by apply entity_nonempty in H.
  - by apply entity_nonempty in H.
  - cbn [str_flat] in H. apply entity_inj in H as [-> H]. by rewrite (IH t H).
Qed.

(** A character that could start or end markup, or an attribute's value. *)
Definition markup (c : ascii) : bool := char_of "<>'/" c || Ascii.eqb c quote.
Definition harmless (s : string) : bool := str_forall (fun c => negb (markup c)) s.
Lemma flat_entity_harmless s : harmless (str_flat entity s) = true.
Proof.
  unfold harmless. induction s as [|c s IH]; [done|]. cbn [str_flat]. rewrite str_forall_app, IH, andb_true_r.
  by destruct c as [[] [] [] [] [] [] [] []].
Qed.
Lemma harmless_substring n m s : harmless s = true -> harmless (String.substring n m s) = true.
Proof.
  unfold harmless. revert n m. induction s as [|c s IH]; intros [|n] [|m]; try done; simpl; intros [Hc Hs]%andb_true_iff; try by apply IH.
  by rewrite Hc, IH.
Qed.
Lemma substring_length n s : (n <= String.length s)%nat -> String.length (String.substring 0 n s) = n.
Proof. revert s. induction n as [|n IH]; intros [|c s]; simpl; try lia. intros Hn. rewrite IH; lia. Qed.

Lemma sanitize_harmless a n : harmless (sanitizeString a n) = true.
Proof.
  unfold sanitizeString. destruct (given a) as [s|]; [|done]. rewrite replace_all_flat.
  destruct n as [n|]; [|apply flat_entity_harmless]. case_match; [apply harmless_substring|]; apply flat_entity_harmless.
Qed.

(** Sanitised texts hold none of the characters [<], [>], the quotes and [/],
    whatever they were and however they are cut; no two texts become the same
    one when there is no limit; with a limit they are no longer than it. *)
Theorem sanitized_text a b n :
  harmless (sanitizeString a n) = true /\
  (forall s t, a = JString s -> b = JString t -> sanitizeString a None = sanitizeString b None -> s = t) /\
  (forall m, n = Some m -> 0 < m -> Z.of_nat (String.length (sanitizeString a n)) <= m).
Proof.
  split; [|split].
  - apply sanitize_harmless.
  - intros s t -> ->. unfold sanitizeString, given.
    destruct (str_truthy s) eqn:Es, (str_truthy t) eqn:Et; rewrite ?replace_all_flat; intros H.
    + by apply flat_entity_inj.
    + destruct s; [done|]. by apply entity_nonempty in H.
    + destruct t; [done|]. symmetry in H. by apply entity_nonempty in H.
    + unfold str_truthy in *. apply negb_false_iff, str_eqb_eq in Es, Et. congruence.
  - intros m -> Hm. unfold sanitizeString. destruct (given a) as [s|]; [|simpl; lia]. rewrite (proj2 (Z.ltb_lt 0 m)) by done.
    cbn [andb]. destruct (Z.ltb_spec m (Z.of_nat (String.length (replace_all s)))) as [H|H]; [|lia]. rewrite substring_length; lia.
Qed.

(** All texts among the values, keys apart, are harmless. *)
Fixpoint values_harmless (v : jsval) : bool :=
  match v with
  | JString s => harmless s
  | JObject _ fs | JError _ fs => forallb (fun '(k, x) => values_harmless x) fs
  | JArray _ l => forallb values_harmless l
  | _ => true
  end.
(** Every text in a sanitised body is harmless at any depth, but its keys are
    left as they are. *)
Lemma sanitized_body v : values_harmless (sanitizeJSON v) = true.
Proof.
  unfold sanitizeJSON. destruct (is_object v) eqn:Ho; [clear Ho|done].
  induction v as [v Hv|l fs IH|l fs IH|l vs IH] using jsval_rect'.
  - destruct v; try done. apply sanitize_harmless.
  - simpl. induction IH as [|[k x] fs Hx Hl IHl]; [done|]. simpl in *. by rewrite Hx.
  - simpl. induction IH as [|[k x] fs Hx Hl IHl]; [done|]. simpl map. unfold enumerable. rewrite filter_cons.
    case_decide; [|apply IHl]. simpl in *. rewrite Hx. apply IHl.
  - simpl. induction IH as [|x vs Hx Hl IHl]; [done|]. simpl. by rewrite Hx.
Qed.
Example key_kept : sanitizeJSON (JObject 0 [("<b>", JString "<b>")]) = JObject 0 [("<b>", JString "&lt;b&gt;")].
Proof. reflexivity. Qed.
End InputValidator.

(** ** Requests to ingest a result *)

Module ResultValidator.
Import InputValidator.
Import Validation.

(** security/validation/result-validator.ts:15-17 validateEmailId *)
Definition validateEmailId (email : jsval) : res exn unit := validateEmail email.
(** [/^[a-zA-Z0-9_\-.:]{2,64}$/] *)
Definition agent_text (s : string) : bool :=
  str_forall (fun c => is_alnum c || char_of "_-.:" c) s && (2 <=? String.length s)%nat && (String.length s <=? 64)%nat.
(** security/validation/result-validator.ts:22-30 validateAgentId *)
Definition validateAgentId (agentId : jsval) : res exn unit :=
  match given agentId with
  | None => required "agentId" true
  | Some s => if agent_text (trim s) then Ok tt
              else Throw (field_error "agentId" ("Invalid agentId format: " +:+ quoted s +:+ ". Must be 2-64 alphanumeric characters."))
  end.
(** security/validation/result-validator.ts:35-42 validateConfidenceScore *)
Definition validateConfidenceScore (score : jsval) : res exn unit :=
  match score with
  | JNum n =>
      if is_nan n then Throw (field_error "confidenceScore" "Confidence score is required and must be a number.")
      else if num_ltb n (ofZ 0) || num_gtb n (ofZ 1)
      then Throw (field_error "confidenceScore" ("Confidence score must be between 0.0 and 1.0. Received: " +:+ num_to_string n))
      else Ok tt
  | _ => Throw (field_error "confidenceScore" "Confidence score is required and must be a number.")
  end.
Definition is_array (v : jsval) : bool := match v with JArray _ _ => true | _ => false end.
(** security/validation/result-validator.ts:47-58 validatePayload *)
Definition validatePayload (payload : jsval) (maxSizeBytes : positive) : res exn unit :=
  if negb (is_object payload) || is_array payload
  then Throw (field_error "resultPayload" "Result payload must be a non-null JSON object.")
  else if Z.pos maxSizeBytes <? byte_size payload
  then Throw (field_error "resultPayload" ("Result payload size (" +:+ toFixed2 (byte_size payload # 1048576) +:+ "MB) exceeds maximum "
                                           +:+ num_to_string (Fin (Z.pos maxSizeBytes # 1048576)) +:+ "MB limit."))
  else Ok tt.
Definition not_hash (v : jsval) : bool := match v with JString _ => not_sha256 v | _ => true end.
(** security/validation/result-validator.ts:63-86 validateLLMMetadata *)
Definition validateLLMMetadata (metadata : jsval) : res exn unit :=
  if negb (is_object metadata) then Throw (field_error "llmMetadata" "LLM metadata must be an object.")
  else
    check_field "model" blank "LLM model must be a non-empty string." metadata;;
    check_field "promptHash" not_hash "LLM prompt hash must be a 64-character hex SHA-256 string." metadata;;
    check_field "tokenInput" negative "tokenInput must be a non-negative integer." metadata;;
    check_field "tokenOutput" negative "tokenOutput must be a non-negative integer." metadata.
Definition max_size : positive := 10485760.
(** security/validation/result-validator.ts:91-114 validateIngestRequest *)
Definition validateIngestRequest (request : jsval) : res exn jsval :=
  if negb (is_object request) then Throw (field_error "request" "Ingest request body is required.")
  else
    validateEmailId (js_get "emailId" request);;
    validateAgentId (js_get "agentId" request);;
    (let version := js_get "agentVersion" request in
     if js_truthy version && negb (semver (js_String version))
     then Throw (field_error "agentVersion" "agentVersion must be a valid semantic version string.") else Ok tt);;
    validateConfidenceScore (js_get "confidenceScore" request);;
    validatePayload (js_get "resultPayload" request) max_size;;
    (if js_truthy (js_get "llmMetadata" request) then validateLLMMetadata (js_get "llmMetadata" request) else Ok tt);;
    Ok request.

(** *** What an accepted request becomes *)

(** What the validator asks of the fields an entity is made of. *)
Record acceptable (email agent : string) (score : Q) (request : jsval) : Prop := Acceptable {
  ac_email : js_get "emailId" request = JString email; ac_email_shape : Guards.email_shape (trim email) = true;
  ac_agent : js_get "agentId" request = JString agent; ac_agent_text : agent_text (trim agent) = true;
  ac_score : js_get "confidenceScore" request = JNum (Fin score); ac_range : (0 <= score <= 1)%Q;
  ac_object : is_object request = true;
}.

Lemma given_some v s : given v = Some s -> v = JString s /\ str_truthy s = true.
Proof. unfold given. destruct v as [| | | |t| | | |]; try done. destruct (str_truthy t) eqn:E; [|done]. by intros [= <-]. Qed.
Lemma in_unit n : is_nan n = false -> num_ltb n (ofZ 0) || num_gtb n (ofZ 1) = false -> exists q, n = Fin q /\ (0 <= q <= 1)%Q.
Proof.
  intros Hn [H1 H2]%orb_false_iff. destruct n as [|[]|q]; try done. exists q. split; [done|].
  unfold num_gtb, num_ltb, ofZ, Qlt_bool in H1, H2. apply negb_false_iff, Qle_bool_iff in H1, H2.
  split; [exact H1|exact H2].
Qed.
Lemma check_then {A} (b : bool) e (k : res exn A) r : (if b then Throw e else k) = Ok r -> b = false /\ k = Ok r.
Proof. by destruct b. Qed.
Lemma seq_ok {A} (m : res exn unit) (k : res exn A) r : (m;; k) = Ok r -> m = Ok tt /\ k = Ok r.
Proof. by destruct m as [[]|]. Qed.

Lemma accepted_fields request r :
  validateIngestRequest request = Ok r -> r = request /\ exists email agent score, acceptable email agent score request.
Proof.
  unfold validateIngestRequest. intros [Ho H]%check_then. apply negb_false_iff in Ho.
  apply seq_ok in H as [He H]. apply seq_ok in H as [Ha H]. apply seq_ok in H as [_ H]. apply seq_ok in H as [Hs H].
  apply seq_ok in H as [_ H]. apply seq_ok in H as [_ H]. injection H as ->. split; [done|].
  unfold validateEmailId, validateEmail in He. destruct (given (js_get "emailId" r)) as [email|] eqn:Ge; [|done].
  unfold validateAgentId in Ha. destruct (given (js_get "agentId" r)) as [agent|] eqn:Ga; [|done].
  apply given_some in Ge as [Ge _], Ga as [Ga _]. unfold validateConfidenceScore in Hs.
  destruct (js_get "confidenceScore" r) as [| | |n| | | | |] eqn:Gs; try done.
  apply check_then in Hs as [Hn Hs]. apply check_then in Hs as [Hs _]. destruct (in_unit n Hn Hs) as (q & -> & Hq).
  exists email, agent, q. constructor; try done; [by destruct (Guards.email_shape _)|by destruct (agent_text _)].
Qed.

Lemma str_forall_split (p q r : ascii -> bool) s :
  (forall c, p c = true -> q c = r c) -> str_forall p s = true -> str_forall q s = str_forall r s.
Proof.
  intros Hpqr. induction s as [|c s IH]; [done|]. simpl. intros [Hc Hs]%andb_true_iff. by rewrite (Hpqr c Hc), (IH Hs).
Qed.
Lemma agent_made s :
  agent_text (trim s) = true ->
  AgentId.create (JString s) = if avoids ":" (trim s) then Ok (AgentId.Mk (trim s))
    else Throw (ValidationError ("Invalid Agent ID format: " +:+ quoted s +:+ ". Must contain only alphanumeric characters and hyphens.")).
Proof.
  unfold agent_text. intros [[Hc H2%Nat.leb_le]%andb_true_iff H3%Nat.leb_le]%andb_true_iff. unfold AgentId.create.
  assert (str_truthy s = true) as ->.
  { apply Destination.str_truthy_ne. intros ->. simpl in H2. lia. }
  cbn [negb]. cbv zeta. rewrite (proj2 (Nat.ltb_ge _ _)) by lia. rewrite (proj2 (Nat.ltb_ge _ _)) by lia. cbn [orb].
  assert (forall c, is_alnum c || char_of "_-.:" c = true -> AgentId.agent_char c = negb (Ascii.eqb ":" c)) as Hch by by intros [[] [] [] [] [] [] [] []].
  unfold avoids. by rewrite (str_forall_split _ _ _ _ Hch Hc).
Qed.
Lemma email_made s :
  Guards.email_shape (trim s) = true ->
  EmailId.create (JString s) = if EmailId.matches (trim s) then Ok (EmailId.Mk (trim s))
    else Throw (ValidationError ("Invalid email address format: " +:+ quoted s +:+ ". Must conform to RFC 5321.")).
Proof.
  intros Hs. unfold EmailId.create. assert (str_truthy s = true) as ->; [|done].
  apply Destination.str_truthy_ne. by intros ->.
Qed.

(** C40: The validator and the entity do not agree.  A request it accepts becomes an
    entity exactly when its agent id holds no colon and its address is one of
    RFC 5321; the entity then holds the trimmed texts and is valid.  All others
    are refused when the entity is made. *)
Theorem accepted_builds_entity now uuid request r :
  validateIngestRequest request = Ok r ->
  exists email agent, js_get "emailId" request = JString email /\ js_get "agentId" request = JString agent /\
  match AiTaskResult.create_props now uuid (ResultMapper.props_of request) with
  | Ok e => AiTaskResult.valid e /\ AiTaskResult.getEmailId e = trim email /\ AiTaskResult.getAgentId e = trim agent /\
            EmailId.matches (trim email) = true /\ avoids ":" (trim agent) = true
  | Throw _ => EmailId.matches (trim email) = false \/ avoids ":" (trim agent) = false
  end.
Proof.
  intros H. apply accepted_fields in H as (_ & email & agent & q & [He Hes Ha Hat Hs Hq _]). exists email, agent.
  split; [done|]. split; [done|]. unfold AiTaskResult.create_props.
  destruct (AiTaskResult.new now uuid (ResultMapper.props_of request)) as [e|err] eqn:En.
  - assert (AiTaskResult.valid e) as Hv by (by apply AiTaskResult.result_new_valid in En as [Hv _]).
    cbv [mbind res_bind mret res_ret]. split; [by apply AiTaskResult.announce_valid|].
    unfold AiTaskResult.new, ResultMapper.props_of in En. cbn [AiTaskResult.value_or AiTaskResult.p_emailId AiTaskResult.p_agentId] in En.
    rewrite He, Ha, (email_made _ Hes), (agent_made _ Hat) in En.
    destruct (EmailId.matches (trim email)); [|done]. destruct (avoids ":" (trim agent)); [|done]. simpl in En.
    destruct (Confidence.create _); [|done]. by injection En as <-.
  - cbv [mbind res_bind]. unfold AiTaskResult.new, ResultMapper.props_of in En. cbn [AiTaskResult.value_or AiTaskResult.p_emailId AiTaskResult.p_agentId AiTaskResult.p_confidenceScore] in En.
    rewrite He, Ha, Hs, (email_made _ Hes), (agent_made _ Hat) in En.
    destruct (EmailId.matches (trim email)); [|by left]. destruct (avoids ":" (trim agent)); [|by right]. exfalso.
    cbv [mbind res_bind mret res_ret] in En. unfold Confidence.create in En. cbn [is_nan] in En.
    assert (num_ltb (Fin q) (ofZ 0) || num_gtb (Fin q) (ofZ 1) = false) as Hr.
    { apply orb_false_iff. unfold num_gtb, num_ltb, ofZ, Qlt_bool. split; apply negb_false_iff, Qle_bool_iff; apply Hq. }
    rewrite Hr in En. discriminate En.
Qed.
Lemma accepted_builds_entity_witness :
  let request := JObject 0 [("emailId", JString " ann@example.org"); ("agentId", JString "team:7"); ("confidenceScore", JNum (Fin (1 # 2)));
                            ("resultPayload", JObject 0 [("answer", JNum 42)])] in
  validateIngestRequest request = Ok request /\
  exists e, AiTaskResult.create_props 0 "r1" (ResultMapper.props_of request) = Throw e.
Proof.
  cbv zeta. set (request := JObject 0 _). assert (validateIngestRequest request = Ok request) as Hok by (by vm_compute). split; [exact Hok|].
  destruct (accepted_builds_entity 0 "r1" request request Hok) as (email & agent & [= <-] & [= <-] & H).
  destruct (AiTaskResult.create_props _ _ _) as [e|e]; [|by exists e]. destruct H as (_ & _ & _ & _ & H). discriminate H.
Defined.
End ResultValidator.

(** ** Requests to register a destination *)

Module DestinationValidator.
Import InputValidator.
Import ResultValidator.

Section urls.
Context `{Urls : UrlParser}.

(** [/^[set]{2,64}$/] for a class of characters. *)
Definition name_of (lo : nat) (p : ascii -> bool) (s : string) : bool :=
  str_forall p s && (lo <=? String.length s)%nat && (String.length s <=? 64)%nat.
Definition schemes : list string := ["postgresql"; "postgres"; "mysql"; "mongodb"; "redis"].
(** [/^(postgresql|postgres|mysql|mongodb|redis):\/\/.+/i] *)
Definition connection_text (s : string) : bool :=
  existsb (fun p => starts_with (p +:+ "://") (to_lower s) && RegisterDestination.some_char (String.length p + 3) s) schemes.
(** security/validation/destination-validator.ts:15-41 validateEndpoint *)
Definition validateEndpoint (endpoint type : jsval) : res exn unit :=
  match given endpoint with
  | None => Throw (field_error "endpoint" "Destination endpoint URL is required.")
  | Some s =>
      if negb (str_truthy (trim s)) then Throw (field_error "endpoint" "Destination endpoint URL is required.")
      else
        let t := to_upper (js_String type) in
        let ep := trim s in
        let refuse what := Throw (field_error "endpoint" (what +:+ " Received: " +:+ quoted s)) in
        if str_eqb t "WEBHOOK" then
          if negb (RegisterDestination.http_url ep) then refuse "Webhook destination endpoint must be a valid HTTP/HTTPS URL."
          else validateURL (JString ep) "endpoint"
        else if str_eqb t "DATABASE" then
          (if connection_text ep then Ok tt else refuse "Database endpoint must be a valid connection string URL.")
        else if str_eqb t "QUEUE" then
          (if name_of 2 (fun c => is_alnum c || char_of "_-" c) ep then Ok tt else refuse "Queue endpoint must be a valid alphanumeric queue name.")
        else if str_eqb t "AUDIT" then
          (if name_of 2 (fun c => is_alnum c || char_of "_.-" c) ep then Ok tt else refuse "Audit destination must be a valid event namespace.")
        else Ok tt
  end.
(** security/validation/destination-validator.ts:46-50 validateEventFilters *)
Definition validateEventFilters (filters : jsval) : res exn unit :=
  if js_truthy filters && negb (is_object filters)
  then Throw (field_error "eventFilters" "Event filters must be a valid JSON key-value object.") else Ok tt.
Definition validTypes : list string := ["EXPONENTIAL"; "FIXED"; "LINEAR"; "NONE"].
(** security/validation/destination-validator.ts:55-63 validateRetryStrategy *)
Definition validateRetryStrategy (strategy : jsval) : res exn unit :=
  if negb (is_object strategy) then Throw (field_error "retryStrategy" "Retry strategy configuration must be an object.")
  else
    let type := js_get "type" strategy in
    if js_truthy type && negb (existsb (str_eqb (to_upper (js_String type))) validTypes)
    then Throw (field_error "retryStrategy.type" ("Invalid retry strategy type: " +:+ quoted (js_String type))) else Ok tt.
(** A number that is outside of the bounds, or not a number at all. *)
Definition outside (lo hi : Z) (v : jsval) : bool :=
  match v with JNum n => num_ltb n (ofZ lo) || num_gtb n (ofZ hi) | _ => true end.
(** security/validation/destination-validator.ts:68-74 validateCircuitBreakerThreshold *)
Definition validateCircuitBreakerThreshold (threshold : jsval) : res exn unit :=
  if negb (is_nullish threshold) && outside 1 100 threshold
  then Throw (field_error "circuitBreakerThreshold" "Circuit breaker threshold must be a number between 1 and 100.") else Ok tt.
(** security/validation/destination-validator.ts:79-85 validateTimeout *)
Definition validateTimeout (timeout : jsval) : res exn unit :=
  if negb (is_nullish timeout) && outside 100 300000 timeout
  then Throw (field_error "timeout" "Execution timeout must be a duration in milliseconds between 100ms and 300000ms.") else Ok tt.
(** security/validation/destination-validator.ts:90-112 validateCreateRequest *)
Definition validateCreateRequest (request : jsval) : res exn jsval :=
  if negb (is_object request) then Throw (field_error "request" "Create destination request body is required.")
  else
    let typeStr := js_or (js_or (js_get "type" request) (js_get "destinationType" request)) (JString "WEBHOOK") in
    let endpointStr := js_or (js_or (js_get "endpoint" request) (js_get "endpointUrl" request)) (JString "") in
    validateEndpoint endpointStr typeStr;;
    (if js_truthy (js_get "eventFilters" request) then validateEventFilters (js_get "eventFilters" request) else Ok tt);;
    (if js_truthy (js_get "retryStrategy" request) then validateRetryStrategy (js_get "retryStrategy" request) else Ok tt);;
    validateCircuitBreakerThreshold (js_get "circuitBreakerThreshold" request);;
    validateTimeout (js_get "timeout" request);;
    Ok request.

(** *** What the domain makes of an accepted request *)

(** A number the validator lets through: within the bounds, or no number. *)
Lemma inside lo hi v : outside lo hi v = false -> v = JNum NaN \/ exists q, v = JNum (Fin q) /\ (inject_Z lo <= q <= inject_Z hi)%Q.
Proof.
  destruct v as [| | |n| | | | |]; try done. simpl. intros [H1 H2]%orb_false_iff. destruct n as [|[]|q]; [by left|done|done|].
  right. exists q. split; [done|]. unfold num_gtb, num_ltb, ofZ, Qlt_bool in H1, H2. apply negb_false_iff, Qle_bool_iff in H1, H2. done.
Qed.
Lemma accepted_numbers request r :
  validateCreateRequest request = Ok r ->
  r = request /\
  forall k lo hi, (k = "circuitBreakerThreshold" /\ lo = 1 /\ hi = 100) \/ (k = "timeout" /\ lo = 100 /\ hi = 300000) ->
    is_nullish (js_get k request) = true \/ outside lo hi (js_get k request) = false.
Proof.
  unfold validateCreateRequest. intros [_ H]%check_then. cbv zeta in H. apply seq_ok in H as [_ H]. apply seq_ok in H as [_ H]. apply seq_ok in H as [_ H].
  apply seq_ok in H as [Ht H]. apply seq_ok in H as [Hm H]. injection H as ->. split; [done|].
  unfold validateCircuitBreakerThreshold in Ht. unfold validateTimeout in Hm. apply check_then in Ht as [Ht _]. apply check_then in Hm as [Hm _].
  intros k lo hi [(-> & -> & ->)|(-> & -> & ->)]; [clear Hm; revert Ht|clear Ht; revert Hm];
    (destruct (is_nullish _); [by left|by right]).
Qed.

Lemma ge_one n lo hi : 1 <= lo -> outside lo hi (JNum n) = false -> num_ltb n (ofZ 1) = false.
Proof.
  intros Hlo Ho. apply inside in Ho as [[= ->]|(q & [= ->] & Hq & _)]; [done|]. unfold num_ltb, ofZ, Qlt_bool.
  apply negb_false_iff, Qle_bool_iff. eapply Qle_trans; [|exact Hq]. by rewrite <- Zle_Qle.
Qed.

(** The numbers an accepted request holds never stop the entity from being made. *)
Lemma number_passes lo hi request k d msg :
  1 <= lo -> is_nullish (js_get k request) = true \/ outside lo hi (js_get k request) = false -> 1 <= d ->
  exists n, Destination.check_ge1 (js_nullish_or (js_get k request) (JNum (ofZ d))) msg = Ok n.
Proof.
  intros Hlo Hk Hd. unfold js_nullish_or. destruct (is_nullish (js_get k request)) eqn:En.
  - unfold Destination.check_ge1. assert (num_ltb (ofZ d) (ofZ 1) = false) as ->; [|by eexists].
    unfold num_ltb, ofZ, Qlt_bool. apply negb_false_iff, Qle_bool_iff. by rewrite <- Zle_Qle.
  - destruct Hk as [Hk|Hk]; [congruence|]. destruct (js_get k request) as [| | |n| | | | |]; try done.
    unfold Destination.check_ge1. rewrite (ge_one n lo hi Hlo Hk). by eexists.
Qed.
Lemma webhook_text t ty : DestType.create (JString t) = Ok ty -> ty = DestType.WEBHOOK -> to_upper t = "WEBHOOK".
Proof.
  intros H ->. unfold DestType.create in H. change (upper_val (JString t)) with (to_upper t) in H. revert H. unfold DestType.of_upper.
  destruct (str_eqb (to_upper t) "WEBHOOK") eqn:E; [by apply str_eqb_eq in E|].
  destruct (str_eqb (to_upper t) "DATABASE"), (str_eqb (to_upper t) "QUEUE"), (str_eqb (to_upper t) "AUDIT"); discriminate.
Qed.

(** A request the validator accepts has an endpoint, and becomes an entity
    unless it is a web hook's whose endpoint, as it was sent, does not start with
    [http://] or [https://] in small letters; that happens only when it has
    spaces in front or capitals, for the validator looks at the trimmed endpoint
    without regard to case. *)
Theorem accepted_destination_builds now id t ty filters rs en md c u dl request r :
  validateCreateRequest request = Ok r -> id <> "" ->
  js_or (js_or (js_get "type" request) (js_get "destinationType" request)) (JString "WEBHOOK") = JString t ->
  DestType.create (JString t) = Ok ty ->
  exists s, js_or (js_or (js_get "endpoint" request) (js_get "endpointUrl" request)) (JString "") = JString s /\
  (ty = DestType.WEBHOOK -> RegisterDestination.http_url (trim s) = true) /\
  ((exists d, Destination.new now id (Some ty) s filters (Some rs) (js_nullish_or (js_get "circuitBreakerThreshold" request) (JNum (ofZ 5)))
      (js_nullish_or (js_get "timeout" request) (JNum (ofZ 30000))) en md c u dl = Ok d) <->
   (ty = DestType.WEBHOOK -> starts_with "http://" s = true \/ starts_with "https://" s = true)).
Proof.
  intros H Hid Ht Hty. pose proof (proj2 (accepted_numbers request r H)) as Hn.
  unfold validateCreateRequest in H. apply check_then in H as [_ H]. cbv zeta in H. rewrite Ht in H. apply seq_ok in H as [He _].
  unfold validateEndpoint in He. destruct (given _) as [s|] eqn:Gs; [|done]. apply given_some in Gs as [-> Hs]. exists s. split; [done|].
  apply check_then in He as [_ He]. cbv zeta in He. split.
  - intros Hw. rewrite (webhook_text t ty Hty Hw : to_upper (js_String (JString t)) = "WEBHOOK") in He.
    change (str_eqb "WEBHOOK" "WEBHOOK") with true in He. cbn iota in He. by apply check_then in He as [He%negb_false_iff _].
  - destruct (number_passes 1 100 request "circuitBreakerThreshold" 5 "Circuit breaker threshold must be an integer >= 1." ltac:(lia) (Hn _ 1 100 ltac:(tauto)) ltac:(lia)) as [n1 E1].
    destruct (number_passes 100 300000 request "timeout" 30000 "Destination timeout must be a positive integer." ltac:(lia) (Hn _ 100 300000 ltac:(tauto)) ltac:(lia)) as [n2 E2].
    rewrite <- Destination.validateEndpoint_ok. unfold Destination.new.
    rewrite (proj2 (Destination.str_truthy_ne id) Hid), Hs. cbn [negb]. rewrite E1. cbn [mbind res_bind]. rewrite E2. cbn [mbind res_bind].
    destruct (Destination.validateEndpoint ty s) as [[]|e]; cbn [mbind res_bind]; split.
    + done.
    + intros _. by eexists.
    + intros [d Hd]. discriminate Hd.
    + discriminate.
Qed.
End urls.
#[export] Instance sample_urls : UrlParser := {| protocol_of := fun s => match split_on ":" s with p :: _ :: _ => Some (to_lower p +:+ ":") | _ => None end |}.
Lemma accepted_destination_builds_witness :
  let request := JObject 0 [("endpoint", JString "HTTP://hooks.example.org"); ("timeout", JNum 5000)] in
  validateCreateRequest request = Ok request /\
  ~ exists d, Destination.new 0 "d1" (Some DestType.WEBHOOK) "HTTP://hooks.example.org" None (Some (Strategy.Mk "FIXED" (Strategy.Config 0 0 0 None)))
      (JNum (ofZ 5)) (JNum 5000) None None None None None = Ok d.
Proof.
  cbv zeta. set (request := JObject 0 _). assert (validateCreateRequest request = Ok request) as Hok by (by vm_compute). split; [exact Hok|].
  destruct (accepted_destination_builds 0 "d1" "WEBHOOK" DestType.WEBHOOK None (Strategy.Mk "FIXED" (Strategy.Config 0 0 0 None)) None None None None None
    request request Hok) as (s & [= <-] & _ & H); [discriminate|reflexivity|reflexivity|].
  intros Hd. destruct (proj1 H Hd eq_refl) as [E|E]; discriminate E.
Defined.
End DestinationValidator.

(** ** Requests to retry a delivery, and route parameters *)

Module DeliveryValidator.
Import InputValidator.
Import DestinationValidator.

Definition id_char (c : ascii) : bool := is_alnum c || char_of "_-" c.
(** security/validation/delivery-validator.ts:14-25 validateDeliveryId *)
Definition validateDeliveryId (id : jsval) : res exn unit :=
  match given id with
  | None => Throw (field_error "deliveryId" "Delivery ID is required.")
  | Some s =>
      match validateUUID id "deliveryId" with
      | Ok _ => Ok tt
      | Throw _ => if name_of 8 id_char (trim s) then Ok tt else Throw (field_error "deliveryId" ("Invalid delivery ID parameter: " +:+ quoted s))
      end
  end.
(** security/validation/delivery-validator.ts:30-38 validateRetryRequest *)
Definition validateRetryRequest (request : jsval) : res exn unit :=
  if is_object request && negb (is_nullish (js_get "delayMs" request)) && outside 0 86400000 (js_get "delayMs" request)
  then Throw (field_error "delayMs" "Retry delayMs parameter must be a non-negative number under 86,400,000ms.") else Ok tt.

(** api/validators/param-validators.ts:10-24 validateUUID *)
Definition param_validateUUID (value : jsval) (fieldName : string) : res exn string :=
  match given value with
  | None => Throw (field_error fieldName ("Parameter " +:+ quoted fieldName +:+ " is required."))
  | Some s =>
      if negb (uuid_text (trim s)) && negb (name_of 4 id_char (trim s))
      then Throw (field_error fieldName ("Invalid parameter format for " +:+ fieldName +:+ ": " +:+ quoted s)) else Ok (trim s)
  end.
(** api/validators/param-validators.ts:29-39 validateEmail *)
Definition param_validateEmail (value : jsval) : res exn string :=
  match given value with
  | None => Throw (field_error "email" "Email parameter is required.")
  | Some s => if Guards.email_shape (trim s) then Ok (trim s) else Throw (field_error "email" ("Invalid email parameter format: " +:+ quoted s))
  end.

(** A text of one class of characters after another is of their union. *)
Lemma shaped_chars (p : ascii -> bool) ps s :
  (forall q, q ∈ ps -> forall c, q c = true -> p c = true) -> Guards.shaped ps s = true -> str_forall p s = true.
Proof.
  revert s. induction ps as [|q ps IH]; intros [|c s] Hp; try done. simpl. intros [Hc Hs]%andb_true_iff.
  rewrite (Hp q (list_elem_of_here _ _) c Hc). apply (IH s); [|done]. intros q' Hq. apply Hp. by right.
Qed.
Lemma uuid_is_name lo s : (lo <= 36)%nat -> uuid_text s = true -> name_of lo id_char s = true.
Proof.
  intros Hlo H. unfold uuid_text, Guards.isValidUUID in H. unfold name_of.
  rewrite (Guards.shaped_length _ _ H). change (length (Guards.uuid_shape _)) with 36%nat.
  rewrite (proj2 (Nat.leb_le lo 36)) by done. rewrite !andb_true_r. eapply shaped_chars; [|exact H].
  intros q Hq. unfold Guards.uuid_shape, Guards.dash in Hq. rewrite !elem_of_app, !list_elem_of_singleton in Hq.
  destruct_or!; try (apply elem_of_replicate in Hq as [-> _]); try subst q; intros [[] [] [] [] [] [] [] []]; vm_compute; done.
Qed.

(** The test for identifiers of the standard shape decides nothing: both
    validators accept exactly the words of letters, digits, [_] and [-] of 8
    (or 4) to 64 characters, trimmed. *)
Theorem identifiers_are_words v f :
  (validateDeliveryId v = Ok tt <-> exists s, v = JString s /\ name_of 8 id_char (trim s) = true) /\
  (forall w, param_validateUUID v f = Ok w <-> exists s, v = JString s /\ w = trim s /\ name_of 4 id_char (trim s) = true).
Proof.
  assert (forall s n, name_of (S n) id_char (trim s) = true -> given (JString s) = Some s) as Hg.
  { intros s n Hn. unfold given. assert (str_truthy s = true) as ->; [|done]. apply Destination.str_truthy_ne. by intros ->. }
  split; [|intros w]; split.
  - unfold validateDeliveryId. destruct (given v) as [s|] eqn:Hs; [|done]. apply ResultValidator.given_some in Hs as [-> Ht].
    unfold validateUUID, given. rewrite Ht. intros H. exists s. split; [done|]. destruct (uuid_text (trim s)) eqn:Hu.
    + apply uuid_is_name; [lia|done].
    + by destruct (name_of 8 id_char (trim s)).
  - intros (s & -> & Hn). unfold validateDeliveryId. rewrite (Hg s _ Hn). destruct (validateUUID _ _); [done|]. by rewrite Hn.
  - unfold param_validateUUID. destruct (given v) as [s|] eqn:Hs; [|done]. apply ResultValidator.given_some in Hs as [-> Ht].
    destruct (uuid_text (trim s)) eqn:Hu; cbn [negb andb].
    + intros [= <-]. exists s. split_and!; [done|done|]. apply uuid_is_name; [lia|done].
    + destruct (name_of 4 id_char (trim s)) eqn:Hn; [|done]. intros [= <-]. by exists s.
  - intros (s & -> & -> & Hn). unfold param_validateUUID. rewrite (Hg s _ Hn), Hn. by rewrite andb_false_r.
Qed.
End DeliveryValidator.

(** ** The texts of messages *)

Module ErrorMessages.

(** security/validation/error-messages.ts:1-11 templates *)
Definition templates : list (string * string) :=
  [("FIELD_REQUIRED", "{field} is required"); ("INVALID_EMAIL", "{field} must be a valid email address");
   ("INVALID_URL", "{field} must be a valid URL"); ("INVALID_ENUM", "{field} must be one of {values}");
   ("INVALID_NUMBER", "{field} must be a number"); ("INVALID_DATE", "{field} must be a valid date");
   ("MIN_LENGTH", "{field} must be at least {min} characters"); ("MAX_LENGTH", "{field} must be at most {max} characters");
   ("INVALID_FORMAT", "{field} has invalid format")].
(** security/validation/error-messages.ts:13-26 validationErrorMessages *)
Definition validationErrorMessages : list (string * list (string * string)) :=
  [("emailId", [("invalid", "Invalid email format"); ("required", "Email ID is required")]);
   ("confidenceScore", [("min", "Confidence score must be at least 0"); ("max", "Confidence score cannot exceed 1")]);
   ("endpointUrl", [("invalid", "Invalid URL format"); ("required", "Endpoint URL is required")])].

(** What a replacement text stands for: [$$], [$&], [$`] and [$'] are special. *)
Fixpoint expand (pre found post by_ : string) : string :=
  match by_ with
  | String "$" (String c rest as rest1) =>
      if Ascii.eqb c "$" then String "$" (expand pre found post rest)
      else if Ascii.eqb c "&" then found +:+ expand pre found post rest
      else if Ascii.eqb c "`" then pre +:+ expand pre found post rest
      else if Ascii.eqb c "'" then post +:+ expand pre found post rest
      else String "$" (expand pre found post rest1)
  | String c rest => String c (expand pre found post rest)
  | EmptyString => EmptyString
  end.
Fixpoint after (n : nat) (s : string) : string := match n, s with S n, String _ s => after n s | _, _ => s end.
(** [s.replace(found, by)] of texts: the first occurrence only. *)
Fixpoint replace_first (pre found by_ s : string) : string :=
  if starts_with found s then expand pre found (after (String.length found) s) by_ +:+ after (String.length found) s
  else match s with EmptyString => EmptyString | String c s => String c (replace_first (pre +:+ String c EmptyString) found by_ s) end.
(** [ctx.values.join(', ')] *)
Definition joined (v : jsval) : res exn string :=
  match v with
  | JArray _ l => Ok (String.concat ", " (map (fun x => match x with JUndefined | JNull => "" | _ => js_String x end) l))
  | _ => Throw (Connectors.type_error "ctx.values.join is not a function")
  end.
Definition filled (k : string) (ctx : jsval) (message : string) : string :=
  match js_get k ctx with JUndefined => message | v => replace_first "" ("{" +:+ k +:+ "}") (js_String v) message end.
(** security/validation/error-messages.ts:31-67 getErrorMessage
    The names of members every object has, such as [toString], apart. *)
Definition getErrorMessage (fieldOrCode : string) (errorTypeOrContext : jsval) : res exn string :=
  match errorTypeOrContext with
  | JString ty =>
      Ok (match jmap_get fieldOrCode validationErrorMessages ≫= jmap_get ty with
          | Some message => message
          | None => fieldOrCode +:+ " has invalid " +:+ ty +:+ " validation status"
          end)
  | _ =>
      match jmap_get fieldOrCode templates with
      | None => Ok "Invalid parameter field value"
      | Some template =>
          let ctx := errorTypeOrContext in
          let message := filled "max" ctx (filled "min" ctx (filled "field" ctx template)) in
          match js_get "values" ctx with
          | JUndefined => Ok message
          | values => text ← joined values; Ok (replace_first "" "{values}" ("[" +:+ text +:+ "]") message)
          end
      end
  end.

Example of_enum :
  getErrorMessage "INVALID_ENUM" (JObject 0 [("field", JString "type"); ("values", JArray 0 [JString "A"; JString "B"])]) = Ok "type must be one of [A, B]".
Proof. vm_compute. reflexivity. Qed.
(** A field's name is taken for a replacement pattern. *)
Example of_pattern : getErrorMessage "FIELD_REQUIRED" (JObject 0 [("field", JString "$&")]) = Ok "{field} is required".
Proof. vm_compute. reflexivity. Qed.
End ErrorMessages.

(** ** The validator over schemas *)

Module SchemaValidator.

(** The schema library: what a schema makes of a value, or the issues it finds,
    each with its path and message. *)
Class Zod := {
  schema : Type;
  safeParse : schema -> jsval -> jsval + list (list string * string);
  partial_of : schema -> option schema;   (** of an object schema *)
  as_value : schema -> jsval;   (** the schema, as a value *)
}.
Section zod.
Context `{Zod}.

(** security/validation/validator.ts:6-9 FieldValidationError *)
Record field_failure : Type := Failure { field : string; message : string }.
(** The thenable result: awaited, it gives the data or throws. *)
Inductive verdict : Type := Valid (data : jsval) | Invalid (errors : list field_failure).
Definition failures (l : list (list string * string)) : list field_failure := map (fun e => Failure (String.concat "." e.1) e.2) l.
Definition no_schema : exn := Connectors.type_error "schema.safeParse is not a function".
(** security/validation/validator.ts:49-93 validate
    Each argument is a schema or data. *)
Definition validate (schemaOrData dataOrSchema : schema + jsval) : res exn verdict :=
  let check s v := match safeParse s v with inl data => Ok (Valid data) | inr issues => Ok (Invalid (failures issues)) end in
  match schemaOrData, dataOrSchema with
  | inl s, inr v => check s v
  | inr v, inl s => check s v
  | inr _, inr _ => Throw no_schema
  | inl s, inl s' => check s (as_value s')
  end.
(** security/validation/validator.ts:66-73 validate
    What waiting for the result gives. *)
Definition awaited (r : verdict) : res exn jsval :=
  match r with Valid data => Ok data | Invalid _ => Throw (ValidationError "Validation failed") end.
(** security/validation/validator.ts:98-104 validatePartial *)
Definition validatePartial (s : schema) (data : jsval) : res exn jsval :=
  r ← validate (inl (default s (partial_of s))) (inr data); awaited r.
(** A verdict that must be positive. *)
Definition asserted (text : string) (r : verdict) : res exn jsval :=
  match r with Valid data => Ok data | Invalid _ => Throw (ValidationError text) end.
(** security/validation/validator.ts:109-115 validateRequest *)
Definition validateRequest (body : jsval) (s : schema) : res exn jsval := r ← validate (inr body) (inl s); asserted "Validation failed" r.
(** security/validation/validator.ts:120-126 validateQuery *)
Definition validateQuery (query : jsval) (s : schema) : res exn jsval := r ← validate (inr query) (inl s); asserted "Validation failed" r.
(** security/validation/validator.ts:131-137 validateParams *)
Definition validateParams (params : jsval) (s : schema) : res exn jsval := r ← validate (inr params) (inl s); asserted "Validation failed" r.

(** api/middleware/validation.middleware.ts:9-21 validationMiddleware
    The request's body afterwards, and what [next] is called with. *)
Definition validationMiddleware (s : schema) (body : jsval) : jsval * option exn :=
  match safeParse s body with
  | inl data => (data, None)
  | inr _ => (body, Some (ValidationError "Validation failed"))
  end.

(** The schemas of the application. *)
Context (IngestResultRequestSchema CreateDestinationRequestSchema paginationCoerceSchema : schema).
(** api/validators/result-validator.ts:22-31 validateIngestRequest *)
Definition validateIngestRequest (req : jsval) : res exn jsval :=
  r ← validate (inl IngestResultRequestSchema) (inr req); asserted "Validation failed for task result ingestion request" r.
(** api/validators/destination-validator.ts:22-34 validateCreateRequest *)
Definition validateCreateRequest (req : jsval) : res exn jsval :=
  r ← validate (inl CreateDestinationRequestSchema) (inr req); asserted "Validation failed for create destination request" r.
(** api/validators/destination-validator.ts:39-52 validateUpdateRequest *)
Definition validateUpdateRequest (req : jsval) : res exn jsval :=
  r ← validate (inl (default CreateDestinationRequestSchema (partial_of CreateDestinationRequestSchema))) (inr req);
  asserted "Validation failed for update destination request" r.
(** api/validators/pagination-validator.ts:35-44 validatePaginationParams *)
Definition validatePaginationParams (req : jsval) : res exn jsval :=
  r ← validate (inl paginationCoerceSchema) (inr req); asserted "Validation failed for pagination parameters" r.

(** What [parse] throws: the first issue's message. *)
Definition first_issue (issues : list (list string * string)) : exn :=
  match issues with e :: _ => ValidationError e.2 | [] => Connectors.type_error "Cannot read properties of undefined (reading 'message')" end.
Definition parsed (s : schema) (body : jsval) : res exn jsval :=
  match safeParse s body with inl v => Ok v | inr issues => Throw (first_issue issues) end.
Context (ingestResultSchema createDestinationSchema updateDestinationSchema : schema).
(** api/validators/request-validators.ts:63-73 ingestResult *)
Definition ingestResult (body : jsval) : res exn jsval := parsed ingestResultSchema body.
(** api/validators/request-validators.ts:75-85 createDestination *)
Definition createDestination (body : jsval) : res exn jsval := parsed createDestinationSchema body.
(** api/validators/request-validators.ts:87-97 updateDestination *)
Definition updateDestination (body : jsval) : res exn jsval := parsed updateDestinationSchema body.

(** The schema of pages reads two texts or numbers and transforms them. *)
Definition readable (v : jsval) : option string :=
  match v with JString s => Some s | JNum n => if is_nan n then None else Some (num_to_string n) | _ => None end.
(** [parseInt(String(val), 10) || d] *)
Definition int_or (d : Z) (s : string) : Z := match parse_int s with Some n => if n =? 0 then d else n | None => d end.
(** api/validators/request-validators.ts:55-55 paginationSchema *)
Definition page_of (s : string) : Z := Z.max 1 (int_or 1 s).
(** api/validators/request-validators.ts:56-56 paginationSchema *)
Definition limit_of (s : string) : Z := Z.min 100 (Z.max 1 (int_or 20 s)).
(** api/validators/request-validators.ts:99-106 paginationParams *)
Definition paginationParams (query : jsval) : Z * Z :=
  let query := js_or query (JObject 0 []) in
  match readable (js_get "page" query), readable (js_get "limit" query) with
  | Some p, Some l => if is_object query then (page_of p, limit_of l) else (1, 20)
  | _, _ => (1, 20)
  end.

(** Whatever the schema library does: a positive verdict is the data the schema
    made, a refusal names each issue's field, and the three assertions and the
    middleware agree with it. *)
Lemma verdict_spec s v :
  validate (inl s) (inr v) = validate (inr v) (inl s) /\
  match safeParse s v with
  | inl data => validateRequest v s = Ok data /\ validationMiddleware s v = (data, None)
  | inr issues => validateRequest v s = Throw (ValidationError "Validation failed") /\
                  (validationMiddleware s v).1 = v /\ map message (failures issues) = map snd issues
  end.
Proof.
  split; [done|]. unfold validateRequest, validate, validationMiddleware. cbn [mbind res_bind].
  destruct (safeParse s v) as [data|issues]; [done|]. split; [done|]. split; [done|]. unfold failures. by rewrite map_map.
Qed.
(** A limit without a page counts for nothing. *)
Lemma limit_needs_page l : paginationParams (JObject 0 [("limit", JString l)]) = (1, 20).
Proof. done. Qed.
(** Whatever is asked for, a page is at least the first and holds 1 to 100
    entries. *)
Lemma page_bounds query : let '(page, limit) := paginationParams query in 1 <= page /\ 1 <= limit <= 100.
Proof.
  unfold paginationParams. destruct (readable _) as [p|]; [|lia]. destruct (readable _) as [l|]; [|lia].
  destruct (is_object _); [|lia]. unfold page_of, limit_of. lia.
Qed.
End zod.
End SchemaValidator.
