(* ===== verification/Secrets.v ===== *)
(** * Secrets

    [security/secrets/]: the manager of secrets over a process's memory and
    environment and the shared Redis ([SecretsManager]), the loader that falls
    back to the vault's made-up values ([VaultSecretsLoader]), and the secrets
    required at start ([SecretsLoader]). *)
From Stdlib Require Import Ascii QArith Qround Qpower Qabs Lqa.
From stdpp Require Import base tactics numbers list strings gmap pretty.
From S2P Require Import Prelude JsNum JsValue Errors Text Redis.

(** [new InternalError(message)]: production hides the message. *)
Definition internal_error (production : bool) (message : string) : exn :=
  OwnError "Error" "UNKNOWN_ERROR" 500 (if production then "An unexpected internal server error occurred" else message).

(** ** The manager *)

Module SecretsManager.
Import KeySpace.

Section manager.
Context {R : Type} (production : bool).

(** A cached secret with the instant it is good until. *)
Record cached : Type := Cached { value : string; expiresAt : Z }.
(** security/secrets/secrets-manager.ts:9-11 SecretsManager
    With the environment of its process. *)
Record process : Type := Process { memoryStore : list (string * cached); env : gmap string string }.
(** security/secrets/secrets-manager.ts:11-11 defaultTtlMs *)
Definition defaultTtlMs : Z := 60000.
Record world : Type := World { proc : process; server : R }.
Abbreviation M := (meth world exn).
Definition on_server {A} (m : meth R exn A) : M A := fun w => let '(r, o) := m (server w) in (World (proc w) r, o).
Definition on_process (f : process -> process) : M unit := modify (fun w => World (f (proc w)) (server w)).

(** security/secrets/secrets-manager.ts:19-24 cacheSecret *)
Definition cacheSecret (now : Z) (key value : string) : M unit :=
  on_process (fun p => Process (jmap_set key (Cached value (now + defaultTtlMs)) (memoryStore p)) (env p)).
Definition secret_key (key : string) : string := "queueforge:secret:" +:+ key.
Definition underscored (key : string) : string := str_map (fun c => if Ascii.eqb c "-" || Ascii.eqb c "." then "_"%char else c) key.
(** [a || b] of variables that may be missing. *)
Definition var_or (a b : option string) : option string := match a with Some s => if str_truthy s then a else b | None => b end.
(** security/secrets/secrets-manager.ts:54-54 getSecret *)
Definition env_value (key : string) (e : gmap string string) : option string :=
  var_or (e !! key) (var_or (e !! to_upper key) (e !! to_upper (underscored key))).
(** The Redis client at the instant of the call, when one is wired. *)
Definition redis : Type := option (RedisOperations.client R).

(** security/secrets/secrets-manager.ts:41-51 getSecret
    The value Redis holds, if it answers with one. *)
Definition from_redis (c : redis) (key : string) : M (option string) :=
  match c with
  | None => mret None
  | Some c =>
      try_catch (val ← on_server (RedisOperations.get c (secret_key key));
                 mret (match val with Some v => if str_truthy v then Some v else None | None => None end))
        (fun _ => mret None)
  end.
(** security/secrets/secrets-manager.ts:35-38 getSecret *)
Definition in_memory (now : Z) (key : string) (p : process) : option string :=
  match jmap_get key (memoryStore p) with Some c => if now <? expiresAt c then Some (value c) else None | None => None end.
(** security/secrets/secrets-manager.ts:29-61 getSecret *)
Definition getSecret (c : redis) (now : Z) (key : string) : M string :=
  if negb (str_truthy key) then mret ""
  else
    w ← get_this;
    match in_memory now key (proc w) with
    | Some v => mret v
    | None =>
        found ← from_redis c key;
        match found with
        | Some val => cacheSecret now key val;; mret val
        | None =>
            w ← get_this;
            match env_value key (env (proc w)) with
            | Some envVal => cacheSecret now key envVal;; mret envVal
            | None => mret ""
            end
        end
    end.
(** security/secrets/secrets-manager.ts:66-73 requireSecret
    Over the class's own look-up. *)
Definition requireSecret (lookup : string -> M string) (key : string) : M string :=
  val ← lookup key;
  if str_truthy val then mret val else fail (internal_error production ("Required secret " +:+ quoted key +:+ " was not found in storage.")).
(** security/secrets/secrets-manager.ts:78-95 setSecret *)
Definition setSecret (c : redis) (now : Z) (key value : string) : M unit :=
  if negb (str_truthy key) then fail (internal_error production "Secret key is required.")
  else
    cacheSecret now key value;;
    on_process (fun p => Process (memoryStore p) (<[key := value]> (env p)));;
    match c with
    | None => mret tt
    | Some c => try_catch (on_server (RedisOperations.set c (secret_key key) value (RedisOperations.Millis 60))) (fun _ => mret tt)
    end.
(** security/secrets/secrets-manager.ts:100-113 deleteSecret *)
Definition deleteSecret (c : redis) (key : string) : M unit :=
  on_process (fun p => Process (jmap_delete key (memoryStore p)) (delete key (env p)));;
  match c with
  | None => mret tt
  | Some c => try_catch (on_server (RedisOperations.delete c (secret_key key));; mret tt) (fun _ => mret tt)
  end.
(** security/secrets/secrets-manager.ts:118-121 hasSecret *)
Definition hasSecret (c : redis) (now : Z) (key : string) : M bool := val ← getSecret c now key; mret (str_truthy val).
Definition standardSecretKeys : list string := ["JWT_SECRET"; "HMAC_SECRET"; "DATABASE_PASSWORD"; "REDIS_PASSWORD"; "API_KEY_SALT"].
(** security/secrets/secrets-manager.ts:126-142 getAllSecretNames *)
Definition getAllSecretNames (p : process) : list string :=
  let known := map fst (memoryStore p) in
  known ++ filter (fun k => k ∉ known /\ str_truthy (default "" (env p !! k)) = true) standardSecretKeys.
(** security/secrets/secrets-manager.ts:147-150 rotateSecret *)
Definition rotateSecret (c : redis) (now : Z) (key newValue : string) : M unit := setSecret c now key newValue.

(** security/secrets/vault-client.ts:16-25 getSecret *)
Definition vault_getSecret (vaultUrl vaultToken : option string) (c : redis) (now : Z) (key : string) : M string :=
  let refused := fail (InfrastructureError ("Vault token is missing or expired for URL " +:+ quoted (default "undefined" vaultUrl)) "UNKNOWN_ERROR") in
  match vaultToken with
  | None => refused
  | Some t =>
      if negb (str_truthy t) || includes "expired" t then refused
      else val ← getSecret c now key; mret (if str_truthy val then val else "vault_value_for_" +:+ key)
  end.
(** security/secrets/env-loader.ts:11-13 getSecretRaw *)
Definition getSecretRaw (c : redis) (now : Z) (key : string) : M string := getSecret c now key.
End manager.
Arguments world : clear implicits.
Arguments redis : clear implicits.

(** *** Who sees a rotated secret *)

Section rotation.
Context {R : Type} `{KeySpace R} (others : RedisOperations.client R).
Definition wired (t : Z) : redis R := Some (RedisOperations.server_client t others).

Lemma from_server t key (w : world R) :
  from_redis (wired t) key w =
    (w, Ok (match entry t (secret_key key) (server w) with Some (v, _) => if str_truthy v then Some v else None | None => None end)).
Proof.
  unfold from_redis, wired, try_catch, on_server, RedisOperations.get, RedisOperations.execute, try_catch. cbn [RedisOperations.c_get RedisOperations.server_client].
  unfold RedisOperations.get_at, gets. cbv [mbind meth_bind]. destruct w as [p r]. cbn [proc server].
  by destruct (entry t (secret_key key) r) as [[v x]|].
Qed.
Lemma set_secret t key v (w : world R) :
  key <> "" ->
  setSecret false (wired t) t key v w =
    (World (Process (jmap_set key (Cached v (t + defaultTtlMs)) (memoryStore (proc w))) (<[key := v]> (env (proc w))))
       (k_set t (secret_key key) v (Some 60) (server w)), Ok tt).
Proof.
  intros Hk. unfold setSecret. assert (str_truthy key = true) as -> by (unfold str_truthy; by rewrite negb_true_iff, str_eqb_neq).
  reflexivity.
Qed.
Lemma get_secret t key (w : world R) :
  key <> "" ->
  (getSecret (wired t) t key w).2 =
    Ok (match in_memory t key (proc w) with
        | Some v => v
        | None => match entry t (secret_key key) (server w) with
                  | Some (v, _) => if str_truthy v then v else default "" (env_value key (env (proc w)))
                  | None => default "" (env_value key (env (proc w)))
                  end
        end).
Proof.
  intros Hk. unfold getSecret. assert (str_truthy key = true) as -> by (unfold str_truthy; by rewrite negb_true_iff, str_eqb_neq).
  cbn [negb]. unfold get_this. cbv [mbind meth_bind]. destruct (in_memory t key (proc w)) as [v|]; [done|]. rewrite from_server.
  destruct (entry t (secret_key key) (server w)) as [[v x]|]; [destruct (str_truthy v); [done|]|]; by destruct (env_value key (env (proc w))).
Qed.

(** C39: The process that rotates a secret uses the new one from then on.  Another
    process sees it only when it asks Redis within the 60 ms the entry lives;
    before that its memory, and later its own environment, still give the old
    one. *)
Theorem rotation_seen t t' key v p q r :
  key <> "" -> v <> "" -> t <= t' ->
  let w := (rotateSecret false (wired t) t key v (World p r)).1 in
  (getSecret (wired t') t' key w).2 = Ok v /\
  (getSecret (wired t') t' key (World q (server w))).2 =
    Ok (match in_memory t' key q with
        | Some old => old
        | None => if t' <? t + 60 then v else default "" (env_value key (env q))
        end).
Proof.
  intros Hk Hv Ht. cbv zeta. unfold rotateSecret. rewrite set_secret by done. cbn [fst server proc].
  assert (str_truthy v = true) as Ev by (unfold str_truthy; by rewrite negb_true_iff, str_eqb_neq).
  rewrite !get_secret by done. cbn [proc server env memoryStore].
  rewrite entry_set_eq by done. change (Z.add t <$> Some 60) with (Some (t + 60)). cbn [alive]. split; f_equal.
  - unfold in_memory. cbn [memoryStore]. rewrite jmap_get_set_eq. cbn [expiresAt value].
    destruct (t' <? t + defaultTtlMs); [done|]. unfold env_value, var_or. rewrite lookup_insert_eq, Ev.
    destruct (t' <? t + 60); [by rewrite Ev|done].
  - destruct (in_memory t' key q); [done|]. destruct (t' <? t + 60); [|done]. by rewrite Ev.
Qed.
End rotation.
Lemma rotation_seen_witness :
  let others := RedisOperations.unconnected (R := gmap string entry_t) in
  let w := (rotateSecret false (wired others 0) 0 "HMAC_SECRET" "new" (World (Process [] ∅) ∅)).1 in
  (getSecret (wired others 1000) 1000 "HMAC_SECRET" (World (Process [] {["HMAC_SECRET" := "old"]}) (server w))).2 = Ok "old".
Proof.
  cbv zeta. set (others := RedisOperations.unconnected).
  exact (proj2 (rotation_seen others 0 1000 "HMAC_SECRET" "new" (Process [] ∅) (Process [] {["HMAC_SECRET" := "old"]}) ∅ ltac:(done) ltac:(done) ltac:(lia))).
Defined.
End SecretsManager.

(** ** Secrets required at start *)

Module SecretsLoader.

Definition requiredKeys : list string := ["JWT_SECRET"; "HMAC_SECRET"; "DATABASE_PASSWORD"; "REDIS_PASSWORD"].
(** security/secrets/secrets-loader.ts:17-29 validate *)
Fixpoint validate_keys (production : bool) (secrets : gmap string string) (keys : list string) : res exn unit :=
  match keys with
  | [] => Ok tt
  | key :: keys =>
      let val := default "" (secrets !! key) in
      if negb (str_truthy val) || negb (str_truthy (trim val))
      then Throw (internal_error production ("Startup validation failed: Required secret " +:+ quoted key +:+ " is missing or empty."))
      else if (String.length val <? 8)%nat
      then Throw (internal_error production ("Startup validation failed: Secret " +:+ quoted key +:+ " length (" +:+ pretty (String.length val)
                                             +:+ ") must be at least 8 characters."))
      else validate_keys production secrets keys
  end.
Definition validate (production : bool) (secrets : gmap string string) : res exn unit := validate_keys production secrets requiredKeys.
Definition defaults : list (string * string) :=
  [("JWT_SECRET", "queueforge-default-jwt-secret-min-32-chars!"); ("HMAC_SECRET", "queueforge-default-hmac-secret-min-32-chars!");
   ("DATABASE_PASSWORD", "queueforge-db-pass-12345!"); ("REDIS_PASSWORD", "queueforge-redis-pass-12345!")].
(** security/secrets/secrets-loader.ts:34-44 loadFromEnvironment *)
Definition loadFromEnvironment (production : bool) (env : gmap string string) : res exn (gmap string string) :=
  let secrets := list_to_map (map (fun e => (e.1, str_or (default "" (env !! e.1)) e.2)) defaults) in
  validate production secrets;; Ok secrets.
(** security/secrets/secrets-loader.ts:49-51 loadFromVault *)
Definition loadFromVault := loadFromEnvironment.

(** A variable that is not set is no failure: an empty environment loads the
    secrets written in the source, in production too. *)
Lemma defaults_load production : exists s, loadFromEnvironment production ∅ = Ok s /\ s !! "JWT_SECRET" = Some "queueforge-default-jwt-secret-min-32-chars!".
Proof. eexists. split; [by vm_compute|]. by vm_compute. Qed.
End SecretsLoader.
