(* ===== verification/Database.v ===== *)
(** * Connections, transactions and migrations

    [infrastructure/database/] and [infrastructure/redis/redis-client.ts]: the
    transactions with their retries ([Transactions]) and by hand
    ([ManualTransaction]), the first connection ([Connect]), migrations
    ([Migrations]), the query builder ([QueryBuilder]), the Redis client of the
    process ([RedisClient]), and the HTTP client behind a breaker
    ([HttpClient]). *)
From Stdlib Require Import Ascii QArith Qround Qpower Qabs Lqa.
From stdpp Require Import base tactics numbers list strings gmap pretty sorting relations.
From S2P Require Import Prelude JsNum JsValue Errors RetryStrategy Connectors Text Secrets.

Definition type_error := Connectors.type_error.
Definition base_error (code : string) (status : Z) (m : string) : exn := OwnError "Error" code status m.
Definition prop (k : string) (e : exn) : jsval := js_get k (Errors.exn_js e).

(** ** Transactions that are run *)

Module Transactions.

(** infrastructure/database/transaction.ts:8-13 IsolationLevel *)
Inductive IsolationLevel : Type := READ_UNCOMMITTED | READ_COMMITTED | REPEATABLE_READ | SERIALIZABLE.
Record options : Type := Options { timeout : Z; isolationLevel : option IsolationLevel }.

(** The database client's [$transaction], at the [n]-th attempt: either the
    callback ran and all it did is kept, or nothing is. *)
Class TxClient (D : Type) := {
  transaction : forall {A}, nat -> options -> meth D exn A -> meth D exn A;
  transaction_ok {A} n o (cb : meth D exn A) d d' a : transaction n o cb d = (d', Ok a) -> cb d = (d', Ok a);
  transaction_rolled_back {A} n o (cb : meth D exn A) d d' e : transaction n o cb d = (d', Throw e) -> d' = d;
}.

(** infrastructure/database/transaction.ts:163-179 handleError
    Of an error that is not null.  A target that is no array has no [join]:
    the mapping throws itself. *)
Definition handleError (err : exn) : exn :=
  let code := prop "code" err in
  if js_strict_eq code (JString "P2002") then
    let conflict fields := base_error "CONFLICT_DETECTED" 409 ("Database record already exists due to unique constraint violation." +:+ fields) in
    match js_get "target" (prop "meta" err) with
    | JArray _ l => conflict (" fields: (" +:+ String.concat ", " (map (fun v => if is_nullish v then "" else js_String v) l) +:+ ")")
    | target => if js_truthy target then type_error "err.meta.target.join is not a function" else conflict ""
    end
  else if js_strict_eq code (JString "P2003") then
    let name := js_get "field_name" (prop "meta" err) in
    ValidationError ("Database reference integrity constraint violation." +:+ (if js_truthy name then " field: " +:+ js_String name else ""))
  else
    match err with
    | ValidationError _ | InfrastructureError _ _ => err
    | _ => if js_strict_eq code (JString "CONFLICT_DETECTED") || js_strict_eq code (JString "UNKNOWN_ERROR") then err
           else InfrastructureError ("Transaction query execution failed: " +:+ js_String (prop "message" err)) "UNKNOWN_ERROR"
    end.
(** infrastructure/database/transaction.ts:141-144 runWithRetry *)
Definition isDeadlock (err : exn) : bool :=
  let says word := match prop "message" err with JString m => includes word (to_lower m) | _ => false end in
  js_strict_eq (prop "code" err) (JString "P2034") || says "deadlock" || says "serialization".

Section manager.
Context {D : Type} `{TxClient D} {A : Type} (callback : meth D exn A).
(** What others do to the database while the manager waits. *)
Context (meanwhile : nat -> D -> D).

Definition maxRetries : nat := 3.
(** infrastructure/database/transaction.ts:131-155 runWithRetry
    From an attempt on, with the delay it would wait: the database, the waits and
    the outcome. *)
Fixpoint loop (fuel attempt : nat) (delay : Z) (o : options) (d : D) : D * list Z * res exn A :=
  match fuel with
  | O => (d, [], Throw (internal_error false "Transaction failed after maximum retries"))
  | S fuel =>
      match transaction attempt o callback d with
      | (d', Ok a) => (d', [], Ok a)
      | (d', Throw err) =>
          if isDeadlock err && (S attempt <? maxRetries)%nat
          then let '(d'', waits, r) := loop fuel (S attempt) (delay * 2) o (meanwhile attempt d') in (d'', delay :: waits, r)
          else (d', [], Throw (handleError err))
      end
  end.
(** infrastructure/database/transaction.ts:122-158 runWithRetry *)
Definition runWithRetry (isolationLevel : option IsolationLevel) (timeout : Z) (d : D) : D * list Z * res exn A :=
  loop maxRetries 0 100 (Options timeout isolationLevel) d.
(** infrastructure/database/transaction.ts:35-40 run *)
Definition run (timeout : Z) : D -> D * list Z * res exn A := runWithRetry None timeout.
(** infrastructure/database/transaction.ts:45-51 runWithIsolation *)
Definition runWithIsolation (level : IsolationLevel) (timeout : Z) : D -> D * list Z * res exn A := runWithRetry (Some level) timeout.
(** infrastructure/database/transaction.ts:182-191 runInTransaction
    The option [maxRetries] is not read. *)
Definition runInTransaction (timeout maxRetries : option Z) : D -> D * list Z * res exn A := run (default 30000 timeout).

(** The database at the [n]-th attempt, when all before it failed. *)
Fixpoint reached (n : nat) (d : D) : D := match n with O => d | S n => meanwhile n (reached n d) end.
Definition failed_with (o : options) (n : nat) (e : exn) (d : D) : Prop := (transaction n o callback (reached n d)).2 = Throw e.

Lemma tx_loop_spec fuel attempt delay o d0 d :
  (fuel + attempt = maxRetries)%nat -> (0 < fuel)%nat -> d = reached attempt d0 ->
  exists k, (k < fuel)%nat /\
    (forall j, (j < k)%nat -> exists e, failed_with o (attempt + j) e d0 /\ isDeadlock e = true) /\
    let '(d', waits, r) := loop fuel attempt delay o d in
    waits = map (fun j => delay * 2 ^ Z.of_nat j) (seq 0 k) /\
    match r with
    | Ok a => transaction (attempt + k) o callback (reached (attempt + k) d0) = (d', Ok a)
    | Throw e' => d' = reached (attempt + k) d0 /\
        exists e, failed_with o (attempt + k) e d0 /\ e' = handleError e /\ (isDeadlock e = false \/ (attempt + k)%nat = 2%nat)
    end.
Proof.
  revert attempt delay d. induction fuel as [|fuel IH]; intros attempt delay d Hf Hpos ->; [lia|]. cbn [loop].
  destruct (transaction attempt o callback (reached attempt d0)) as [d' [a|err]] eqn:Et.
  - exists 0%nat. split; [lia|]. split; [intros j Hj; lia|]. split; [done|]. by rewrite Nat.add_0_r.
  - pose proof (transaction_rolled_back _ _ _ _ _ _ Et) as ->.
    destruct (isDeadlock err && (S attempt <? maxRetries)%nat) eqn:Eb.
    + apply andb_true_iff in Eb as [Hd Hlt%Nat.ltb_lt].
      destruct (IH (S attempt) (delay * 2) (meanwhile attempt (reached attempt d0)) ltac:(lia) ltac:(unfold maxRetries in *; lia) eq_refl) as (k & Hk & Hbefore & Hr).
      exists (S k). split; [lia|]. split.
      * intros [|j] Hj; [exists err; rewrite Nat.add_0_r; split; [unfold failed_with; by rewrite Et|done]|].
        replace (attempt + S j)%nat with (S attempt + j)%nat by lia. apply Hbefore. lia.
      * replace (attempt + S k)%nat with (S attempt + k)%nat by lia.
        destruct (loop fuel (S attempt) (delay * 2) o _) as [[d'' waits] r]. destruct Hr as [-> Hr]. split; [|done].
        cbn [seq map]. f_equal; [simpl; lia|]. rewrite <- seq_shift, map_map. apply map_ext. intros j. rewrite Nat2Z.inj_succ, Z.pow_succ_r by lia. lia.
    + exists 0%nat. split; [lia|]. split; [intros j Hj; lia|]. split; [done|]. rewrite Nat.add_0_r. split; [done|].
      exists err. split; [unfold failed_with; by rewrite Et|]. split; [done|]. apply andb_false_iff in Eb as [->|Eb%Nat.ltb_ge]; [by left|right].
      unfold maxRetries in *. lia.
Qed.

(** C34: A transaction is tried at most three times, after 100 and 200 ms, and again
    only after a deadlock.  When it succeeds, the database is what one run of
    the callback made of it at the last attempt; when it fails, nothing the
    callback did is left, and the error is that of the last attempt, mapped. *)
Theorem transaction_all_or_nothing level timeout d0 :
  exists n, (n < 3)%nat /\
    (forall j, (j < n)%nat -> exists e, failed_with (Options timeout level) j e d0 /\ isDeadlock e = true) /\
    let '(d, waits, r) := runWithRetry level timeout d0 in
    waits = take n [100; 200] /\
    match r with
    | Ok a => callback (reached n d0) = (d, Ok a)
    | Throw e' => d = reached n d0 /\
        exists e, failed_with (Options timeout level) n e d0 /\ e' = handleError e /\ (isDeadlock e = false \/ n = 2%nat)
    end.
Proof.
  unfold runWithRetry. destruct (tx_loop_spec maxRetries 0 100 (Options timeout level) d0 d0 eq_refl ltac:(unfold maxRetries; lia) eq_refl) as (n & Hn & Hb & Hr).
  exists n. split; [exact Hn|]. split; [exact Hb|]. destruct (loop maxRetries 0 100 _ d0) as [[d waits] r]. destruct Hr as [-> Hr].
  split; [unfold maxRetries in Hn; by destruct n as [|[|[|n]]]; [..|lia]|]. destruct r as [a|e]; [|done].
  by apply transaction_ok in Hr.
Qed.
End manager.

(** A client that runs the callback, or meets a deadlock at its first attempts. *)
Definition toy_transaction {D A} (deadlocks n : nat) (cb : meth D exn A) : meth D exn A := fun d =>
  if (n <? deadlocks)%nat then (d, Throw (PlainError "Deadlock detected"))
  else match cb d with (d', Ok a) => (d', Ok a) | (_, Throw e) => (d, Throw e) end.
#[export] Program Instance toy_client {D} : TxClient D := {| transaction := fun A n o cb => toy_transaction 2 n cb |}.
Next Obligation.
  intros D A n o cb d d' a. unfold toy_transaction. destruct (n <? 2)%nat; [done|]. destruct (cb d) as [x [y|y]]; [done|by intros [=]].
Qed.
Next Obligation.
  intros D A n o cb d d' e. unfold toy_transaction. destruct (n <? 2)%nat; [by intros [= <- _]|]. destruct (cb d) as [x [y|y]]; [by intros [=]|by intros [= <- _]].
Qed.
Example third_attempt : run (fun n : Z => (n + 1, Ok "done")) (fun _ n => n) 30000 7 = (8, [100; 200], Ok "done").
Proof. reflexivity. Qed.
Lemma transaction_all_or_nothing_witness : exists n, (n < 3)%nat /\ [100; 200] = take n [100; 200].
Proof.
  destruct (transaction_all_or_nothing (fun n : Z => (n + 1, Ok "done")) (fun _ n => n) None 30000 7) as (n & Hn & _ & Hr).
  exists n. split; [exact Hn|]. exact (proj1 Hr).
Defined.
End Transactions.

(** ** Transactions by hand *)

Module ManualTransaction.

(** What became of the transaction in the database. *)
Inductive outcome : Type := Open | Committed | RolledBack.
(** infrastructure/database/transaction.ts:15-20 Transaction
    The promise [done], once it is settled: resolved, or rejected with an error. *)
Record tx : Type := Tx { done_ : option (option exn); database : outcome }.
(** infrastructure/database/transaction.ts:56-94 beginTransaction
    Or the error, when no client is given. *)
Definition beginTransaction (client : res exn unit) : res exn tx :=
  match client with Ok _ => Ok (Tx None Open) | Throw err => Throw (Transactions.handleError err) end.
(** A promise is settled once. *)
Definition settle (v : option exn) (t : tx) : tx := match done_ t with None => Tx (Some v) (database t) | Some _ => t end.
(** infrastructure/database/transaction.ts:99-104 commitTransaction
    Rejections of [done] are ignored: it always returns. *)
Definition commitTransaction (t : tx) : tx * res exn unit := (settle None t, Ok tt).
(** infrastructure/database/transaction.ts:109-117 rollbackTransaction *)
Definition rollbackTransaction (t : tx) : tx * res exn unit := (settle (Some (PlainError "Manual transaction rollback")) t, Ok tt).

(** The calls, and what the database does with the suspended block: it ends it
    as [done] says, a commit may still fail, and an idle one may time out. *)
Inductive step : tx -> tx -> Prop :=
| commit_called t : step t (commitTransaction t).1
| rollback_called t : step t (rollbackTransaction t).1
| committed : step (Tx (Some None) Open) (Tx (Some None) Committed)
| rolled_back d : step (Tx d Open) (Tx d RolledBack).

(** The first of the two calls decides: the database commits only what was
    committed before it was rolled back, and later calls change nothing. *)
Lemma first_call_decides t t' v :
  rtc step t t' -> done_ t = Some v ->
  done_ t' = Some v /\ (database t <> Committed -> v <> None -> database t' <> Committed).
Proof.
  induction 1 as [t|t t1 t' Hs _ IH]; [done|]. intros Hv.
  assert (done_ t1 = Some v /\ (database t <> Committed -> v <> None -> database t1 <> Committed)) as [H1 H2].
  { destruct Hs; cbn [commitTransaction rollbackTransaction fst]; unfold settle; rewrite ?Hv; cbn [database done_] in *; split; try done; congruence. }
  destruct (IH H1) as [H3 H4]. split; [done|]. intros Hd Hn. apply H4; [by apply H2|done].
Qed.
(** That committing returned does not mean that the database has committed, or
    will. *)
Lemma commit_returns_early : exists t, commitTransaction (Tx None Open) = (t, Ok tt) /\ database t = Open /\ exists t', step t t' /\ database t' = RolledBack.
Proof. eexists. split; [reflexivity|]. split; [done|]. eexists. split; [apply rolled_back|done]. Qed.
End ManualTransaction.

(** ** The first connection *)

Module Connect.

Section connect.
(** What the [n]-th query answers, and the draw of its delay. *)
Context (query : nat -> res exn unit) (rnd : nat -> Q) (maxAttempts : Z) (baseDelay : num).

Definition message_of (e : exn) : string := js_String (prop "message" e).
Definition connection_failed (m : string) : exn := InfrastructureError m "DB_CONNECTION_FAILED".
(** infrastructure/database/client.ts:57-81 initializeDatabase
    From an attempt on: the delays waited and the outcome, with the number of the
    query that was answered. *)
Fixpoint attempts (more attempt : nat) : list num * res exn nat :=
  match more with
  | O => ([], Throw (connection_failed "Database initialization failed"))
  | S more =>
      match query attempt with
      | Ok _ => ([], Ok attempt)
      | Throw err =>
          if Z.of_nat (S attempt) >=? maxAttempts
          then ([], Throw (connection_failed ("Database initialization failed after " +:+ pretty maxAttempts +:+ " attempts: " +:+ message_of err)))
          else let '(waits, r) := attempts more (S attempt) in
               (Backoff.time_calculateBackoff (rnd attempt) (Z.of_nat attempt) baseDelay (ofZ 15000) :: waits, r)
      end
  end.
(** infrastructure/database/client.ts:47-84 initializeDatabase *)
Definition initializeDatabase : list num * res exn nat := attempts (Z.to_nat maxAttempts) 0.

Lemma attempts_spec more attempt :
  Z.of_nat (attempt + more) = maxAttempts -> (0 < more)%nat ->
  match (attempts more attempt).2 with
  | Ok n => (attempt <= n < attempt + more)%nat /\ query n = Ok tt /\ (forall j, (attempt <= j < n)%nat -> exists e, query j = Throw e) /\
            length (attempts more attempt).1 = (n - attempt)%nat
  | Throw _ => (forall j, (attempt <= j < attempt + more)%nat -> exists e, query j = Throw e) /\ length (attempts more attempt).1 = (more - 1)%nat
  end.
Proof.
  revert attempt. induction more as [|more IH]; intros attempt Hm Hpos; [lia|]. cbn [attempts].
  destruct (query attempt) as [[]|err] eqn:Eq; [cbn [snd fst]; split_and!; [lia|lia|done|intros j Hj; lia|simpl; lia]|].
  destruct (Z.geb_spec (Z.of_nat (S attempt)) maxAttempts) as [Hge|Hlt].
  - cbn [snd fst]. split; [|simpl; lia]. intros j Hj. replace j with attempt by lia. by exists err.
  - specialize (IH (S attempt) ltac:(lia) ltac:(lia)). destruct (attempts more (S attempt)) as [waits r]. cbn [fst snd] in *.
    destruct r as [n|e].
    + destruct IH as (H1 & H2 & H3 & H4). split_and!; [lia|lia|done| |simpl; lia].
      intros j Hj. destruct (decide (j = attempt)) as [->|]; [by exists err|]. apply H3. lia.
    + destruct IH as [H1 H2]. split; [|simpl; lia]. intros j Hj. destruct (decide (j = attempt)) as [->|]; [by exists err|]. apply H1. lia.
Qed.
(** Connecting ends: at the first query that is answered, or after as many as
    allowed, with a wait between two of them. *)
Lemma connection_attempts :
  0 < maxAttempts ->
  match initializeDatabase with
  | (waits, Ok n) => Z.of_nat n < maxAttempts /\ query n = Ok tt /\ (forall j, (j < n)%nat -> exists e, query j = Throw e) /\ length waits = n
  | (waits, Throw _) => (forall j, Z.of_nat j < maxAttempts -> exists e, query j = Throw e) /\ Z.of_nat (length waits) = maxAttempts - 1
  end.
Proof.
  intros Hm. pose proof (attempts_spec (Z.to_nat maxAttempts) 0 ltac:(lia) ltac:(lia)) as Hs. unfold initializeDatabase.
  destruct (attempts (Z.to_nat maxAttempts) 0) as [waits [n|e]]; cbn [fst snd] in Hs.
  - destruct Hs as (H1 & H2 & H3 & H4). split_and!; [lia|done| |lia]. intros j Hj. apply H3. lia.
  - destruct Hs as [H1 H2]. split; [|lia]. intros j Hj. apply H1. lia.
Qed.
End connect.

(** infrastructure/database/client.ts:33-42 getConnectionStatus
    With the instants before and after the query. *)
Definition getConnectionStatus (query : res exn unit) (start now : Z) : bool * Z :=
  match query with Ok _ => (true, now - start) | Throw _ => (false, -1) end.
(** infrastructure/database/client.ts:100-116 withTransaction
    Over the client's [$transaction]. *)
Definition withTransaction {D A} `{Transactions.TxClient D} (o : Transactions.options) (callback : meth D exn A) : meth D exn A :=
  try_catch (Transactions.transaction 0 o callback) (fun err =>
    match err with
    | InfrastructureError _ _ => fail err
    | _ => fail (connection_failed ("Transaction execution failed: " +:+ message_of err))
    end).
(** A callback that fails leaves nothing behind, whatever it threw. *)
Lemma with_transaction_rolls_back {D A} `{Transactions.TxClient D} o (callback : meth D exn A) d e :
  (withTransaction o callback d).2 = Throw e -> (withTransaction o callback d).1 = d /\ exists m c, e = InfrastructureError m c.
Proof.
  unfold withTransaction, try_catch. destruct (Transactions.transaction 0 o callback d) as [d' [a|err]] eqn:E; [done|].
  pose proof (Transactions.transaction_rolled_back _ _ _ _ _ _ E) as ->. intros H0.
  destruct err; injection H0 as <-; (split; [done|eexists _, _; reflexivity]).
Qed.
End Connect.

(** ** Migrations *)

Module Migrations.

(** infrastructure/database/migration-runner.ts:8-13 MigrationStatus *)
Record MigrationStatus : Type := Status { appliedCount : Z; pendingCount : Z; applied : list string; pending : list string }.
(** infrastructure/database/migration-runner.ts:76-111 getMigrationStatus
    The directory's entries with whether each is a migration, when there is a
    directory, and the names the database answers, when its table exists. *)
Definition getMigrationStatus (directory : option (list (string * bool))) (records : option (list string)) : MigrationStatus :=
  let localMigrations := match directory with Some l => sort_keys (map fst (filter (fun f => f.2 = true) l)) | None => [] end in
  let appliedMigrations := match records with Some l => sort_keys l | None => [] end in
  let pending := filter (fun m => m ∉ appliedMigrations) localMigrations in
  Status (Z.of_nat (length appliedMigrations)) (Z.of_nat (length pending)) appliedMigrations pending.
(** infrastructure/database/migration-runner.ts:68-71 getPendingMigrations *)
Definition getPendingMigrations directory records : list string := pending (getMigrationStatus directory records).
(** infrastructure/database/migration-runner.ts:25-63 runMigrations
    [deploy] is the outcome of the command; the result says whether it was run. *)
Definition runMigrations (nodeEnv : string) (directory : option (list (string * bool))) (records : option (list string)) (deploy : option string) : res exn bool :=
  if str_eqb (to_lower (str_or nodeEnv "development")) "production" then Ok false
  else
    match getPendingMigrations directory records with
    | [] => Ok false
    | _ =>
        match deploy with
        | None => Ok true
        | Some out =>
            Throw (internal_error false ("Migration dispatch cycle failed: Prisma schema migration execution failed: " +:+ out +:+
              ". Guidance: Review migrations/ directory contents or execute rollback migrations manually."))
        end
    end.

(** Pending is what the directory holds and the database does not know, in the
    order of the names; the command is run for it only, and never in production. *)
Lemma migrations_spec nodeEnv directory records deploy :
  (forall m, m ∈ getPendingMigrations directory records <->
     (exists l, directory = Some l /\ (m, true) ∈ l) /\ (forall l, records = Some l -> m ∉ l)) /\
  (runMigrations nodeEnv directory records deploy = Ok true ->
     to_lower (str_or nodeEnv "development") <> "production" /\ getPendingMigrations directory records <> [] /\ deploy = None).
Proof.
  split.
  - intros m. unfold getPendingMigrations, getMigrationStatus. cbn [pending]. rewrite list_elem_of_filter.
    assert (forall l : list string, m ∈ sort_keys l <-> m ∈ l) as Hs by (intros l; unfold sort_keys; by rewrite merge_sort_Permutation).
    split.
    + intros [Hr Hd]. split.
      * destruct directory as [l|]; [|by apply not_elem_of_nil in Hd]. exists l. split; [done|]. rewrite Hs in Hd.
        apply list_elem_of_fmap in Hd as ([m' b] & -> & [Hb Hm]%list_elem_of_filter). simpl in *. by subst.
      * intros l ->. by rewrite Hs in Hr.
    + intros [(l & -> & Hm) Hr]. split.
      * destruct records as [l'|]; [rewrite Hs; by apply Hr|apply not_elem_of_nil].
      * rewrite Hs. apply list_elem_of_fmap. exists (m, true). split; [done|]. by apply list_elem_of_filter.
  - unfold runMigrations. destruct (str_eqb _ "production") eqn:E; [done|]. apply str_eqb_neq in E.
    destruct (getPendingMigrations directory records); [done|]. by destruct deploy.
Qed.
End Migrations.

(** ** The query builder *)

Module QueryBuilder.

(** infrastructure/database/query-builder.ts:6-13 query *)
Record query : Type := Query {
  q_where : option (list (string * jsval)); q_orderBy : option (string * string);
  q_include : option (list string); q_select : option (list string); q_take : option Z; q_skip : option Z;
}.
Definition empty : query := Query None None None None None None.
Abbreviation M := (meth query exn).
(** infrastructure/database/query-builder.ts:18-24 where *)
Definition where_ (condition : list (string * jsval)) : M unit :=
  modify (fun q => Query (Some (fold_left (fun acc e => jmap_set e.1 e.2 acc) condition (default [] (q_where q)))) (q_orderBy q) (q_include q) (q_select q) (q_take q) (q_skip q)).
(** infrastructure/database/query-builder.ts:29-34 orderBy *)
Definition orderBy (field direction : string) : M unit :=
  modify (fun q => Query (q_where q) (Some (field, direction)) (q_include q) (q_select q) (q_take q) (q_skip q)).
(** infrastructure/database/query-builder.ts:39-45 paginate *)
Definition paginate (page limit : Z) : M unit :=
  let take := Z.max 1 limit in
  let skip := Z.max 0 ((page - 1) * take) in
  modify (fun q => Query (q_where q) (q_orderBy q) (q_include q) (q_select q) (Some take) (Some skip)).
Definition both : exn := PlainError "Cannot use both include and select properties in a single Prisma query".
(** infrastructure/database/query-builder.ts:50-60 include *)
Definition include (relations : list string) : M unit :=
  q ← get_this;
  match q_select q with Some _ => fail both | None => put_this (Query (q_where q) (q_orderBy q) (Some relations) (q_select q) (q_take q) (q_skip q)) end.
Definition both' : exn := PlainError "Cannot use both select and include properties in a single Prisma query".
(** infrastructure/database/query-builder.ts:65-75 select *)
Definition select (fields : list string) : M unit :=
  q ← get_this;
  match q_include q with Some _ => fail both' | None => put_this (Query (q_where q) (q_orderBy q) (q_include q) (Some fields) (q_take q) (q_skip q)) end.
(** infrastructure/database/query-builder.ts:80-82 build *)
Definition build : M query := get_this.

(** The calls of a builder, failed ones included. *)
Inductive step : query -> query -> Prop :=
| where_step c q : step q (where_ c q).1
| order_step f d q : step q (orderBy f d q).1
| page_step p l q : step q (paginate p l q).1
| include_step l q : step q (include l q).1
| select_step l q : step q (select l q).1.
Definition well_formed (q : query) : Prop :=
  (q_include q = None \/ q_select q = None) /\ (forall n, q_take q = Some n -> 1 <= n) /\ (forall n, q_skip q = Some n -> 0 <= n).
Lemma step_well_formed q q' : step q q' -> well_formed q -> well_formed q'.
Proof.
  intros Hs (H1 & H2 & H3). destruct Hs as [c q|f d q|p l q|l q|l q]; unfold well_formed; cbn.
  - done.
  - done.
  - split_and!; [done|intros n [= <-]; lia|intros n [= <-]; lia].
  - unfold include. munfold. destruct (q_select q) eqn:E; cbn; [rewrite E|]; split_and!; auto.
  - unfold select. munfold. destruct (q_include q) eqn:E; cbn; [rewrite E|]; split_and!; auto.
Qed.
(** No sequence of calls builds a query the database client refuses: never both
    a selection and relations, and pages that exist. *)
Lemma built_well_formed q : rtc step empty q -> well_formed q.
Proof.
  assert (forall a, rtc step a q -> well_formed a -> well_formed q) as Hr.
  { induction 1 as [|a b c Hs _ IH]; [done|]. intros Ha. apply IH. by eapply step_well_formed. }
  intros H. apply (Hr empty H). split_and!; [by left|done|done].
Qed.
End QueryBuilder.

(** ** The Redis client of the process *)

Module RedisClient.

(** A client: its number, and whether it is ready. *)
Record handle : Type := Handle { number : nat; ready : bool }.
(** infrastructure/redis/redis-client.ts:6-8 clientInstance
    The module's variables, with the number of clients made so far. *)
Record state : Type := State { clientInstance : option handle; isConnecting : bool; isClientConnected : bool; made : nat }.
Abbreviation M := (meth state exn).
(** infrastructure/redis/redis-client.ts:20-29 getRedisClient *)
Definition getRedisClient (s : state) : state * handle :=
  match clientInstance s with
  | Some c => (s, c)
  | None => let c := Handle (made s) false in (State (Some c) (isConnecting s) (isClientConnected s) (S (made s)), c)
  end.
(** infrastructure/redis/redis-client.ts:37-98 connectRedis
    Up to the first wait: the client that is being connected, or nothing when
    the call returns at once. *)
Definition begin_connect (s : state) : state * option handle :=
  match clientInstance s with
  | Some (Handle _ true) => (s, None)
  | _ =>
      if isConnecting s then (s, None)
      else let c := Handle (made s) false in (State (Some c) true (isClientConnected s) (S (made s)), Some c)
  end.
Definition connection_failed (m : string) : exn := InfrastructureError m "REDIS_CONNECTION_FAILED".
(** infrastructure/redis/redis-client.ts:118-140 connectRedis *)
Definition explained (host : string) (port timeoutMs : Z) (err : exn) : exn :=
  let errMsg := match prop "message" err with JString m => m | _ => "" end in
  if includes "ECONNREFUSED" errMsg
  then connection_failed ("Redis connection refused at " +:+ host +:+ ":" +:+ pretty port +:+ ". Verify server status and retry guidance.")
  else if includes "AUTH" errMsg || includes "WRONGPASS" errMsg then connection_failed "Redis authentication failed. Verify password."
  else if includes "timeout" errMsg then connection_failed ("Redis connection timeout of " +:+ pretty timeoutMs +:+ "ms exceeded.")
  else connection_failed ("Failed to initialize Redis client: " +:+ js_String (prop "message" err)).
(** infrastructure/redis/redis-client.ts:101-144 connectRedis
    From the answer to the ping on, or the error of connecting. *)
Definition end_connect (mock : bool) (host : string) (port timeoutMs : Z) (pong : res exn string) : M unit := fun s =>
  let failed err :=
    let s' := State None (isConnecting s) false (made s) in
    if mock then (let '(s'', _) := getRedisClient s' in (State (clientInstance s'') false true (made s''), Ok tt))
    else (State None false false (made s), Throw (explained host port timeoutMs err)) in
  match pong with
  | Ok pingResult =>
      if str_eqb pingResult "PONG" then (State (clientInstance s) false true (made s), Ok tt)
      else failed (PlainError ("PING response invalid: " +:+ pingResult))
  | Throw err => failed err
  end.
(** infrastructure/redis/redis-client.ts:153-164 disconnectRedis *)
Definition disconnectRedis (s : state) : state := State None (isConnecting s) false (made s).
(** infrastructure/redis/redis-client.ts:10-12 isRedisClientConnected *)
Definition isRedisClientConnected (s : state) : bool := isClientConnected s.

(** The process with the calls that are connecting; a client in use may become
    ready, or lose its connection. *)
Record system : Type := System { st : state; calls : list nat }.
Inductive step (mock : bool) (host : string) (port timeoutMs : Z) : system -> system -> Prop :=
| connect_begins s : step mock host port timeoutMs s
    (System (begin_connect (st s)).1 (match (begin_connect (st s)).2 with Some c => number c :: calls s | None => calls s end))
| connect_ends s c rest pong : calls s ≡ₚ c :: rest ->
    step mock host port timeoutMs s (System (end_connect mock host port timeoutMs pong (st s)).1 rest)
| asked s : step mock host port timeoutMs s (System (getRedisClient (st s)).1 (calls s))
| disconnects s : step mock host port timeoutMs s (System (disconnectRedis (st s)) (calls s))
| turns s c b : clientInstance (st s) = Some c ->
    step mock host port timeoutMs s (System (State (Some (Handle (number c) b)) (isConnecting (st s)) (isClientConnected (st s)) (made (st s))) (calls s)).

(** The flag tells exactly whether a call is connecting, and there is never
    more than one. *)
Definition one_at_a_time (s : system) : Prop := calls s = [] /\ isConnecting (st s) = false \/ (exists c, calls s = [c]) /\ isConnecting (st s) = true.
Lemma step_one mock host port timeoutMs s s' : step mock host port timeoutMs s s' -> one_at_a_time s -> one_at_a_time s'.
Proof.
  intros Hs Hi. destruct Hs as [s|s c rest pong Hp|s|s|s c b Hc]; unfold one_at_a_time in *.
  - unfold begin_connect. destruct (clientInstance (st s)) as [[n []]|]; cbn; [done| |];
      (destruct (isConnecting (st s)) eqn:E; cbn; [by rewrite E|]; destruct Hi as [[-> _]|[_ Hi]]; [right; split; [by eexists|done]|done]).
  - left. cbn [st calls]. destruct Hi as [[E _]|[[c' E] _]]; rewrite E in Hp.
    + by apply Permutation_nil_cons in Hp.
    + apply Permutation_length in Hp as Hl. destruct rest; [|done]. split; [done|]. unfold end_connect.
      destruct pong as [p|e]; [destruct (str_eqb p "PONG"); [done|]|]; destruct mock; done.
  - unfold getRedisClient. by destruct (clientInstance (st s)).
  - done.
  - done.
Qed.
Theorem one_connection_at_a_time mock host port timeoutMs s :
  rtc (step mock host port timeoutMs) (System (State None false false 0) []) s -> one_at_a_time s /\ (length (calls s) <= 1)%nat.
Proof.
  assert (forall a, rtc (step mock host port timeoutMs) a s -> one_at_a_time a -> one_at_a_time s) as Hr.
  { induction 1 as [|a b c Hs _ IH]; [done|]. intros Ha. apply IH. by eapply step_one. }
  intros H. assert (one_at_a_time s) as Hi by (by apply (Hr _ H); left). split; [done|].
  destruct Hi as [[-> _]|[[c ->] _]]; simpl; lia.
Qed.
(** A call made while another one is connecting returns at once as if it had
    connected. *)
Example second_call_returns : begin_connect (State (Some (Handle 0 false)) true false 1) = (State (Some (Handle 0 false)) true false 1, None).
Proof. reflexivity. Qed.
(** A disconnection in between is forgotten: the process counts as connected
    without a client. *)
Example connected_without_client :
  let s := (end_connect false "localhost" 6379 5000 (Ok "PONG") (disconnectRedis (begin_connect (State None false false 0)).1)).1 in
  isRedisClientConnected s = true /\ clientInstance s = None.
Proof. done. Qed.
End RedisClient.

(** ** The HTTP client behind a breaker *)

Module HttpClient.

(** A response, and the network: what posting does. *)
Record response : Type := Response { status : Z; body : jsval; durationMs : Z }.
(** The breaker library's [fire]: an action it lets through is run, its answer is
    given back, and the breaker counts a success or a failure by it. *)
Class Breaker (B : Type) := {
  allows : B -> bool;
  succeeded : B -> B;
  failed_ : B -> B;
  fire {N} : meth N exn response -> meth (B * N) exn response;
  fire_ok {N} (action : meth N exn response) b n n' r : allows b = true -> action n = (n', Ok r) -> fire action (b, n) = ((succeeded b, n'), Ok r);
  fire_failed {N} (action : meth N exn response) b n n' e : allows b = true -> action n = (n', Throw e) -> fire action (b, n) = ((failed_ b, n'), Throw e);
}.
Section client.
Context {B N : Type} `{Breaker B} (fresh : B) (host_of : string -> option string).
(** infrastructure/http/circuit-breaker.http-client.ts:6-8 CircuitBreakerHttpClient
    The breakers by key, and the network. *)
Record world : Type := World { breakers : list (string * B); net : N }.
Abbreviation M := (meth world exn).
(** infrastructure/http/circuit-breaker.http-client.ts:82-88 post *)
Definition key_of (url : string) : string := match host_of url with Some host => host | None => url end.
(** infrastructure/http/circuit-breaker.http-client.ts:25-74 getBreaker *)
Definition getBreaker (key : string) (w : world) : B := default fresh (jmap_get key (breakers w)).
(** infrastructure/http/circuit-breaker.http-client.ts:76-109 post *)
Definition post (url : string) (request : meth N exn response) : M response := fun w =>
  let '((b, n), o) := fire request (getBreaker (key_of url) w, net w) in
  (World (jmap_set (key_of url) b (breakers w)) n,
   match o with
   | Ok result => if 500 <=? status result then Throw (PlainError ("Server error response: " +:+ pretty (status result))) else Ok result
   | Throw err => Throw err
   end).

(** The answer of a server in trouble is thrown only after the breaker has
    counted it: for the breaker it was a success, as for any other status. *)
Theorem server_errors_succeed url (request : meth N exn response) w n r :
  allows (getBreaker (key_of url) w) = true -> request (net w) = (n, Ok r) ->
  post url request w =
    (World (jmap_set (key_of url) (succeeded (getBreaker (key_of url) w)) (breakers w)) n,
     if 500 <=? status r then Throw (PlainError ("Server error response: " +:+ pretty (status r))) else Ok r).
Proof. intros Ha Hr. unfold post. by rewrite (fire_ok _ _ _ _ _ Ha Hr). Qed.
End client.
End HttpClient.
