(* ===== verification/Config.v ===== *)
(** * The configuration

    [config/]: the variables of the environment with their files ([EnvLoader]),
    the environments ([Environment]), the schemas of the configuration over the
    class [Zod] of the schema library ([Schemas]), one loader per part
    ([Loaders]), and the configuration put together, checked and kept ([Loading]).
    Schemas are lists of paths with the rule of each; data are objects as the
    code writes them. *)
From Stdlib Require Import Ascii QArith Qround Qpower Qabs Lqa.
From stdpp Require Import base tactics numbers list strings gmap pretty.
From S2P Require Import Prelude JsNum JsValue Errors Text UseCases.

(** The variables of the process. *)
Abbreviation variables := (gmap string string).

(** ** Variables *)

Module EnvLoader.

(** config/env.ts:20-30 load *)
Definition env_file (e : variables) : string :=
  let nodeEnv := match e !! "NODE_ENV" with Some v => str_or v "development" | None => "development" end in
  if bool_decide (nodeEnv ∈ ["development"; "dev"]) then ".env.dev"
  else if str_eqb nodeEnv "test" then ".env.test"
  else if bool_decide (nodeEnv ∈ ["production"; "prod"]) then ".env.prod"
  else ".env".
(** config/env.ts:17-45 load
    [files] gives the variables of each file there is, [isLoaded] the flag; a
    file's variables do not replace those there are. *)
Definition load (files : string -> option variables) (e : variables) (isLoaded : bool) : variables * bool :=
  if isLoaded then (e, true)
  else
    (match files (env_file e) with
     | Some l => e ∪ l
     | None => match files ".env" with Some l => e ∪ l | None => e end
     end, true).
Definition present (v : option string) : bool := match v with Some s => negb (str_eqb (trim s) "") | None => false end.
Section loader.
Variable e : variables.
(** config/env.ts:51-58 get *)
Definition get (key : string) : res exn string :=
  match e !! key with
  | Some v => if present (Some v) then Ok v else Throw (ValidationError ("Required environment variable " +:+ quoted key +:+ " is missing"))
  | None => Throw (ValidationError ("Required environment variable " +:+ quoted key +:+ " is missing"))
  end.
(** config/env.ts:65-72 getOrDefault *)
Definition getOrDefault (key defaultValue : string) : string :=
  match e !! key with Some v => if present (Some v) then v else defaultValue | None => defaultValue end.
(** config/env.ts:78-85 getNumber *)
Definition getNumber (key : string) : res exn num :=
  val ← get key;
  let num := parse_number val in
  if is_nan num then Throw (ValidationError ("Environment variable " +:+ quoted key +:+ " must be a valid number, got " +:+ quoted val)) else Ok num.
(** config/env.ts:91-96 getBoolean *)
Definition getBoolean (key : string) : bool :=
  match e !! key with Some v => bool_decide (to_lower v ∈ ["true"; "1"; "yes"]) | None => false end.
(** config/env.ts:102-106 getAsArray *)
Definition getAsArray (key : string) : list string :=
  let val := getOrDefault key "" in
  if str_eqb val "" then [] else filter (fun s => str_truthy s = true) (map trim (split_on "," val)).
End loader.

(** A file is read once, and no variable of the process changes by it. *)
Lemma load_keeps files e b : let '(e', b') := load files e b in b' = true /\ (forall k v, e !! k = Some v -> e' !! k = Some v) /\ load files e' b' = (e', true).
Proof.
  unfold load. destruct b; [done|]. split; [done|]. split; [|done]. intros k v Hk.
  destruct (files _); [by apply lookup_union_Some_l|]. destruct (files ".env"); [by apply lookup_union_Some_l|done].
Qed.
Lemma get_iff e key v : get e key = Ok v <-> e !! key = Some v /\ present (Some v) = true.
Proof.
  unfold get. destruct (e !! key) as [w|]; [|split; [done|by intros [? _]]].
  destruct (present (Some w)) eqn:Ep; split; [by intros [= ->]|by intros [[= ->] _]|done|]. intros [[= ->] ?]. congruence.
Qed.
Lemma array_entries e key s : s ∈ getAsArray e key -> s <> "".
Proof.
  unfold getAsArray. cbv zeta. destruct (str_eqb _ ""); [by intros ?%not_elem_of_nil|].
  intros [Hs _]%list_elem_of_filter. intros ->. done.
Qed.
End EnvLoader.

Module Environment.
(** config/environment.ts:4-9 Environment *)
Inductive t : Type := DEVELOPMENT | TEST | STAGING | PRODUCTION.
#[export] Instance t_eq : EqDecision t.
Proof. solve_decision. Defined.
Definition text (x : t) : string :=
  match x with DEVELOPMENT => "development" | TEST => "test" | STAGING => "staging" | PRODUCTION => "production" end.
Definition all : list t := [DEVELOPMENT; TEST; STAGING; PRODUCTION].
Definition node_env (e : variables) : string := match e !! "NODE_ENV" with Some v => str_or v "development" | None => "development" end.
(** config/environment.ts:14-21 getCurrentEnvironment *)
Definition getCurrentEnvironment (e : variables) : res exn t :=
  match find (fun x => str_eqb (text x) (node_env e)) all with
  | Some x => Ok x
  | None => Throw (PlainError ("Invalid NODE_ENV environment value detected: " +:+ quoted (node_env e)))
  end.
Definition current_is (x : t) (e : variables) : res exn bool := y ← getCurrentEnvironment e; Ok (bool_decide (y = x)).
(** config/environment.ts:26-28 isProduction *)
Definition isProduction : variables -> res exn bool := current_is PRODUCTION.
(** config/environment.ts:33-35 isDevelopment *)
Definition isDevelopment : variables -> res exn bool := current_is DEVELOPMENT.
(** config/environment.ts:40-42 isTest *)
Definition isTest : variables -> res exn bool := current_is TEST.
(** config/environment.ts:47-49 isStaging *)
Definition isStaging : variables -> res exn bool := current_is STAGING.
Lemma current_text x e : getCurrentEnvironment e = Ok x <-> node_env e = text x.
Proof.
  unfold getCurrentEnvironment, all. cbn [find]. split.
  - repeat (destruct (str_eqb (text _) _) eqn:E; [apply str_eqb_eq in E; by intros [= <-]|clear E]). done.
  - intros ->. by destruct x.
Qed.
End Environment.

(** ** Schemas *)

(** The rules the schemas are made of: a text of a least length, an address, an
    integer or a number between bounds, a boolean, one of some texts, a list of
    texts, of positive integers, a text that starts in some way, a rule for a value that may be missing, and a
    value that is not looked at. *)
Inductive rule : Type :=
| ZString (min : nat) | ZUrl (prefixes : list string) | ZInt (lo hi : option Z) | ZNumber (lo hi : Z) | ZBoolean
| ZEnum (l : list string) | ZStarts (p : string) | ZStrings | ZPositives | ZOptional (r : rule) | ZAny.
(** An address, parsed. *)
Record url_parts : Type := Url { hostname : string; port_text : string; password_text : string; pathname : string; username : string }.
Class Zod := {
  new_URL : string -> option url_parts;
  decodeURIComponent : string -> option string;
  accepts : rule -> jsval -> bool;
  report : list (list string * rule) -> jsval -> string;   (** the text of the issues found *)
}.
Definition at_least (lo : option Z) (n : num) : bool := match lo with Some z => num_leb (ofZ z) n | None => true end.
Definition at_most (hi : option Z) (n : num) : bool := match hi with Some z => num_leb n (ofZ z) | None => true end.
(** What the library documents of the rules. *)
Class ZodLaws `{!Zod} := {
  accepts_string k v : accepts (ZString k) v = match v with JString s => (k <=? String.length s)%nat | _ => false end;
  accepts_url l v : accepts (ZUrl l) v = match v with
    | JString s => bool_decide (new_URL s <> None) && (bool_decide (l = []) || existsb (fun p => starts_with p s) l)
    | _ => false end;
  accepts_int lo hi v : accepts (ZInt lo hi) v = match v with JNum n => num_is_integer n && at_least lo n && at_most hi n | _ => false end;
  accepts_number lo hi v : accepts (ZNumber lo hi) v = match v with JNum n => at_least (Some lo) n && at_most (Some hi) n | _ => false end;
  accepts_boolean v : accepts ZBoolean v = match v with JBool _ => true | _ => false end;
  accepts_enum l v : accepts (ZEnum l) v = match v with JString s => bool_decide (s ∈ l) | _ => false end;
}.

Module Schemas.
Section schemas.
Context `{!Zod}.
Abbreviation schema := (list (list string * rule)).
Definition at_path (path : list string) (data : jsval) : jsval := foldl (fun v k => js_get k v) data path.
Definition check (s : schema) (data : jsval) : bool := forallb (fun pr => accepts pr.2 (at_path pr.1 data)) s.
(** The data, when every rule accepts what it is about; an object the code makes
    has no key its schema does not name. *)
Definition parsed (s : schema) (err : string) (data : jsval) : res exn jsval :=
  if check s data then Ok data else Throw (ValidationError err).
Definition key (k : string) (r : rule) : list string * rule := ([k], r).
Definition under (k : string) (l : list (string * rule)) : schema := map (fun kr => ([k; kr.1], kr.2)) l.
Definition positive : rule := ZInt (Some 1) None.
Definition port : rule := ZInt (Some 1) (Some 65535).

(** config/env.ts:120-160 envSchema
    The names of the variables with their defaults, the numbers with their
    bounds; [coerced] are read with [Number]. *)
Definition env_texts : list (string * rule * option string) :=
  [("NODE_ENV", ZEnum ["development"; "production"; "test"], Some "development");
   ("LOG_LEVEL", ZEnum ["debug"; "info"; "warn"; "error"], Some "info");
   ("DATABASE_URL", ZUrl [], None); ("REDIS_URL", ZUrl [], Some "redis://localhost:6379");
   ("API_KEY_SECRET", ZString 32, None); ("JWT_SECRET", ZString 32, None); ("HMAC_SECRET", ZString 32, None);
   ("OTEL_EXPORTER_OTLP_ENDPOINT", ZUrl [], Some "http://localhost:4317");
   ("JAEGER_ENDPOINT", ZUrl [], Some "http://localhost:14268/api/traces");
   ("APP_NAME", ZString 0, Some "QueueForge"); ("APP_VERSION", ZString 0, Some "1.0.0"); ("ENVIRONMENT", ZString 0, Some "development")].
(** config/env.ts:123-159 envSchema *)
Definition env_numbers : list (string * rule * Z) :=
  [("PORT", port, 3000); ("PROMETHEUS_PORT", port, 9090); ("MAX_RETRIES", ZInt (Some 1) (Some 10), 5);
   ("BACKOFF_BASE_MS", ZInt (Some 100) (Some 10000), 1000); ("CIRCUIT_BREAKER_THRESHOLD", ZNumber 1 100, 50);
   ("CIRCUIT_BREAKER_TIMEOUT_MS", ZInt (Some 1000) (Some 300000), 60000);
   ("RATE_LIMIT_REQUESTS_PER_MINUTE", ZInt (Some 1) (Some 10000), 1000);
   ("DB_POOL_MIN", ZInt (Some 1) (Some 50), 2); ("DB_POOL_MAX", ZInt (Some 1) (Some 100), 10);
   ("REDIS_POOL_MIN", ZInt (Some 1) (Some 50), 2); ("REDIS_POOL_MAX", ZInt (Some 1) (Some 100), 10);
   ("WORKER_CONCURRENCY", ZInt (Some 1) (Some 100), 5); ("WORKER_POLL_INTERVAL_MS", ZInt (Some 10) (Some 10000), 100);
   ("STALE_JOB_TIMEOUT_MS", ZInt (Some 5000) (Some 300000), 30000); ("HEARTBEAT_INTERVAL_MS", ZInt (Some 1000) (Some 60000), 10000);
   ("GRACEFUL_SHUTDOWN_TIMEOUT_MS", ZInt (Some 10000) (Some 600000), 60000);
   ("AUDIT_LOG_RETENTION_DAYS", ZInt (Some 1) (Some 3650), 730); ("OTEL_TRACE_SAMPLE_RATE", ZNumber 0 1, 1)].
Definition env_text (e : variables) (x : string * rule * option string) : string * jsval :=
  let '(k, _, d) := x in (k, match e !! k, d with Some v, _ => JString v | None, Some d => JString d | None, None => JUndefined end).
Definition env_number (e : variables) (x : string * rule * Z) : string * jsval :=
  let '(k, _, d) := x in (k, JNum match e !! k with Some v => parse_number v | None => ofZ d end).
(** config/env.ts:110-115 envBoolean *)
Definition envBoolean (v : option string) (default : bool) : bool :=
  match v with Some s => bool_decide (to_lower s ∈ ["true"; "1"; "yes"]) | None => default end.
(** config/env.ts:120-160 envSchema
    What the schema makes of the variables. *)
Definition env_data (e : variables) : jsval :=
  JObject 0 (map (env_text e) env_texts ++ map (env_number e) env_numbers ++
             [("ENABLE_AUDIT_LOGGING", JBool (envBoolean (e !! "ENABLE_AUDIT_LOGGING") true))]).
Definition env_rules : schema :=
  map (fun x : string * rule * option string => key x.1.1 x.1.2) env_texts ++ map (fun x : string * rule * Z => key x.1.1 x.1.2) env_numbers.
Definition texts_at (ks : list string) (v : jsval) : list string := map (fun k => js_String (js_get k v)) ks.
(** config/env.ts:164-171 envSchema *)
Definition looks_dummy (s : string) : bool := includes "test" s || includes "dummy" s || includes "your-" s || includes "super-secret" s.
(** config/env.ts:161-180 envSchema *)
Definition no_dummy_secret (v : jsval) : bool :=
  if js_strict_eq (js_get "NODE_ENV" v) "production" then negb (existsb looks_dummy (texts_at ["JWT_SECRET"; "API_KEY_SECRET"; "HMAC_SECRET"] v)) else true.
Definition num_at (k : string) (v : jsval) : num := match js_get k v with JNum n => n | _ => NaN end.
(** config/env.ts:181-198 envSchema *)
Definition pools_ordered (v : jsval) : bool :=
  num_geb (num_at "DB_POOL_MAX" v) (num_at "DB_POOL_MIN" v) && num_geb (num_at "REDIS_POOL_MAX" v) (num_at "REDIS_POOL_MIN" v).
(** config/env.ts:205-218 parseEnv *)
Definition parseEnv (e : variables) : res exn jsval :=
  let v := env_data e in
  if check env_rules v && no_dummy_secret v && pools_ordered v then Ok v
  else Throw (ValidationError ("Environment validation failed:" +:+ String "010" "- " +:+ report env_rules v)).
End schemas.
End Schemas.
Import Schemas.

(** ** The parts *)

Module Loaders.
Section loaders.
Context `{!Zod}.
Abbreviation M := (meth variables exn).
Abbreviation schema := (list (list string * rule)).
(** config/resilience.config.ts:131-135 loadResilienceConfig *)
Definition override (o : option (list (string * jsval))) (e : variables) : variables :=
  match o with Some l => foldl (fun e kv => <[kv.1 := js_String kv.2]> e) e l | None => e end.
Definition with_override (o : option (list (string * jsval))) (f : variables -> res exn jsval) : M jsval :=
  fun e => let e := override o e in (e, f e).
Definition obj (l : list (string * jsval)) : jsval := JObject 0 l.
Definition texts (l : list string) : jsval := JArray 0 (map JString l).
Definition lower_env (e : variables) : string := to_lower (Environment.node_env e).
(** [Number(process.env[k] || d)]. *)
Definition number_or (e : variables) (k : string) (d : Z) : num :=
  match e !! k with Some v => if str_truthy v then parse_number v else ofZ d | None => ofZ d end.
(** [Number(EnvLoader.getOrDefault(k, d))]. *)
Definition number_default (e : variables) (k d : string) : num := parse_number (EnvLoader.getOrDefault e k d).
Definition outside (lo hi : Z) (n : num) : bool := num_ltb n (ofZ lo) || num_gtb n (ofZ hi).
Definition invalid {A} (m : string) : res exn A := Throw (ValidationError m).
Definition level_of (e : variables) : string :=
  let s := to_lower (EnvLoader.getOrDefault e "LOG_LEVEL" "info") in if bool_decide (s ∈ ["debug"; "warn"; "error"]) then s else "info".

(** config/app.config.ts:27-42 appConfigSchema *)
Definition appConfigSchema : schema :=
  [key "environment" (ZString 1); key "name" (ZString 1); key "version" (ZString 1); key "logLevel" (ZEnum ["debug"; "info"; "warn"; "error"]);
   key "requestIdHeader" (ZString 1); key "correlationIdHeader" (ZString 1); key "nodeEnv" (ZString 1); key "port" port; key "hostname" (ZString 1);
   key "isDevelopment" ZBoolean; key "isProduction" ZBoolean; key "isTest" ZBoolean; key "appUrl" (ZUrl []); key "debugMode" ZBoolean].
(** config/app.config.ts:54-98 loadAppConfig *)
Definition app_of (e : variables) : res exn jsval :=
  env ← (match e !! "ENVIRONMENT" with
         | Some v => if str_truthy v then Ok v else x ← Environment.getCurrentEnvironment e; Ok (Environment.text x)
         | None => x ← Environment.getCurrentEnvironment e; Ok (Environment.text x)
         end);
  let rawPort := number_default e "PORT" "3000" in
  let hostname := EnvLoader.getOrDefault e "HOSTNAME" "localhost" in
  let nodeEnv := lower_env e in
  let protocol := if str_eqb nodeEnv "production" then "https" else "http" in
  let appUrl := if is_nan rawPort then "invalid-url" else protocol +:+ "://" +:+ hostname +:+ ":" +:+ num_to_string rawPort in
  let data := obj [("environment", JString env); ("name", JString (EnvLoader.getOrDefault e "APP_NAME" "QueueForge"));
    ("version", JString (EnvLoader.getOrDefault e "APP_VERSION" "1.0.0")); ("logLevel", JString (level_of e));
    ("requestIdHeader", JString (EnvLoader.getOrDefault e "REQUEST_ID_HEADER" "X-Request-ID"));
    ("correlationIdHeader", JString (EnvLoader.getOrDefault e "CORRELATION_ID_HEADER" "X-Correlation-ID"));
    ("nodeEnv", JString nodeEnv); ("port", JNum rawPort); ("hostname", JString hostname);
    ("isDevelopment", JBool (str_eqb nodeEnv "development")); ("isProduction", JBool (str_eqb nodeEnv "production"));
    ("isTest", JBool (str_eqb nodeEnv "test")); ("appUrl", JString appUrl); ("debugMode", JBool (str_eqb (level_of e) "debug"))] in
  parsed appConfigSchema ("Invalid AppConfig settings structure: " +:+ report appConfigSchema data) data.
(** config/app.config.ts:47-98 loadAppConfig *)
Definition loadAppConfig (o : option (list (string * jsval))) : M jsval := with_override o app_of.

(** config/database.config.ts:37-66 databaseConfigSchema *)
Definition databaseConfigSchema : schema :=
  [key "url" (ZUrl ["postgresql://"; "postgres://"]); key "maxConnections" (ZInt (Some 1) (Some 100)); key "minConnections" positive;
   key "connectionTimeoutMs" positive; key "idleTimeoutMs" positive; key "statementTimeoutMs" positive; key "enableLogging" ZBoolean;
   key "enableSSL" ZBoolean; key "rejectUnauthorized" ZBoolean; key "poolMin" positive; key "poolMax" positive; key "enableMetrics" ZBoolean;
   key "connectionTimeout" positive; key "idleTimeout" positive; key "maxLifetime" positive; key "retryAttempts" (ZInt (Some 0) None);
   key "retryDelay" positive; key "host" (ZString 0); key "port" positive; key "database" (ZString 0); key "user" (ZString 0)].
Definition without_slash (s : string) : string := match s with String "/" s' => s' | _ => s end.
(** config/database.config.ts:96-110 loadDatabaseConfig
    An address's parts, each with its default. *)
Definition database_parts (url : string) : res exn (string * num * string * string) :=
  match new_URL url with
  | None => invalid "DATABASE_URL is not a valid URL"
  | Some u => Ok (str_or (hostname u) "localhost", if str_truthy (port_text u) then parse_number (port_text u) else ofZ 5432,
                  if str_truthy (pathname u) then without_slash (pathname u) else "queueforge", str_or (username u) "postgres")
  end.
(** config/database.config.ts:78-141 loadDatabaseConfig *)
Definition database_of (e : variables) : res exn jsval :=
  url ← EnvLoader.get e "DATABASE_URL";
  if negb (starts_with "postgresql://" url) && negb (starts_with "postgres://" url)
  then invalid "Invalid DATABASE_URL: must use postgresql:// or postgres:// scheme"
  else
    let minConns := number_default e "DB_POOL_MIN" (EnvLoader.getOrDefault e "DATABASE_MIN_CONNECTIONS" "5") in
    let rawMaxConns := number_default e "DB_POOL_MAX" (EnvLoader.getOrDefault e "DATABASE_MAX_CONNECTIONS" "20") in
    let workerConcurrency := number_or e "WORKER_CONCURRENCY" 10 in
    let maxConns := num_max rawMaxConns (num_add workerConcurrency (ofZ 2)) in
    let isProd := str_eqb (lower_env e) "production" in
    p ← database_parts url;
    let '(host, port, database, user) := p in
    let data := obj [("url", JString url); ("maxConnections", JNum maxConns); ("minConnections", JNum minConns);
      ("connectionTimeoutMs", JNum 30000); ("idleTimeoutMs", JNum 900000); ("statementTimeoutMs", JNum 60000);
      ("enableLogging", JBool (negb isProd)); ("enableSSL", JBool isProd); ("rejectUnauthorized", JBool true);
      ("poolMin", JNum minConns); ("poolMax", JNum maxConns); ("enableMetrics", JBool true); ("connectionTimeout", JNum 30000);
      ("idleTimeout", JNum 900000); ("maxLifetime", JNum 1800000); ("retryAttempts", JNum 5); ("retryDelay", JNum 2000);
      ("host", JString host); ("port", JNum port); ("database", JString database); ("user", JString user)] in
    if num_geb maxConns minConns then parsed databaseConfigSchema "Invalid DatabaseConfig settings structure" data
    else invalid "Invalid DatabaseConfig settings structure".
(** config/database.config.ts:71-142 loadDatabaseConfig *)
Definition loadDatabaseConfig (o : option (list (string * jsval))) : M jsval := with_override o database_of.

(** config/redis.config.ts:38-65 redisConfigSchema *)
Definition redisConfigSchema : schema :=
  [key "url" (ZUrl ["redis://"; "rediss://"]); key "host" (ZString 1); key "port" port; key "password" (ZOptional (ZString 0)); key "db" (ZInt (Some 0) None);
   key "maxRetries" positive; key "retryStrategyMs" positive; key "connectionTimeoutMs" positive; key "enableOfflineQueue" ZBoolean;
   key "enableReadyCheck" ZBoolean; key "family" ZAny; key "keyPrefix" (ZString 0); key "enableTls" ZBoolean; key "tlsRejectUnauthorized" ZBoolean;
   key "poolMin" positive; key "poolMax" positive; key "enableTLS" ZBoolean; key "connectionTimeout" positive; key "idleTimeout" positive;
   key "maxRetriesOnConnectionFailure" positive; key "retryDelayMs" positive; key "enablePersistence" ZBoolean;
   key "persistenceMode" (ZEnum ["AOF"; "RDB"]); key "flushDbOnStart" ZBoolean].
(** config/redis.config.ts:89-102 loadRedisConfig *)
Definition redis_parts (url : string) : res exn (string * num * jsval) :=
  match new_URL url with
  | None => invalid "REDIS_URL is not a valid URL"
  | Some u =>
      password ← (if str_truthy (password_text u)
                  then match decodeURIComponent (password_text u) with Some p => Ok (JString p) | None => invalid "REDIS_URL is not a valid URL" end
                  else Ok JUndefined);
      Ok (str_or (hostname u) "localhost", if str_truthy (port_text u) then parse_number (port_text u) else ofZ 6379, password)
  end.
(** config/redis.config.ts:77-144 loadRedisConfig *)
Definition redis_of (e : variables) : res exn jsval :=
  url ← EnvLoader.get e "REDIS_URL";
  if negb (starts_with "redis://" url) && negb (starts_with "rediss://" url)
  then invalid "Invalid REDIS_URL format: must use redis:// or rediss:// scheme"
  else
    let nodeEnv := lower_env e in
    let enableTls := str_eqb nodeEnv "production" || starts_with "rediss://" url in
    p ← redis_parts url;
    let '(host, port, password) := p in
    let poolMin := number_default e "REDIS_POOL_MIN" "2" in
    let poolMax := number_default e "REDIS_POOL_MAX" "10" in
    if num_gtb poolMin poolMax then invalid "Invalid Redis pool configuration: REDIS_POOL_MIN must be <= REDIS_POOL_MAX"
    else
      let data := obj [("url", JString url); ("host", JString host); ("port", JNum port); ("password", password); ("db", JNum 0);
        ("maxRetries", JNum 10); ("retryStrategyMs", JNum 1000); ("connectionTimeoutMs", JNum 30000); ("enableOfflineQueue", JBool false);
        ("enableReadyCheck", JBool true); ("family", JNum 4); ("keyPrefix", JString "queueforge:"); ("enableTls", JBool enableTls);
        ("tlsRejectUnauthorized", JBool true); ("poolMin", JNum poolMin); ("poolMax", JNum poolMax); ("enableTLS", JBool enableTls);
        ("connectionTimeout", JNum 30000); ("idleTimeout", JNum 30000); ("maxRetriesOnConnectionFailure", JNum 10); ("retryDelayMs", JNum 1000);
        ("enablePersistence", JBool true); ("persistenceMode", JString "AOF"); ("flushDbOnStart", JBool (str_eqb nodeEnv "test"))] in
      parsed redisConfigSchema "Invalid RedisConfig settings structure" data.
(** config/redis.config.ts:70-144 loadRedisConfig *)
Definition loadRedisConfig (o : option (list (string * jsval))) : M jsval := with_override o redis_of.

(** config/queue.config.ts:41-70 queueConfigSchema *)
Definition queueConfigSchema : schema :=
  [key "mainQueueName" (ZString 1); key "delayedQueueName" (ZString 1); key "dlqQueueName" (ZString 1); key "concurrency" (ZInt (Some 1) (Some 100));
   key "defaultJobTimeout" positive; key "staleInterval" positive; key "lockDuration" positive; key "lockRenewTime" positive] ++
  under "retryBackoff" [("type", ZEnum ["exponential"; "fixed"]); ("delay", positive)] ++
  [key "maxBackoff" positive; key "removeOnComplete" ZAny; key "removeOnFail" ZAny; key "defaultRepeatableKey" (ZString 1); key "name" (ZString 1);
   key "prefix" (ZString 1)] ++
  under "defaultJobOptions" [("timeout", positive); ("removeOnComplete", ZAny); ("removeOnFail", ZAny)] ++
  under "limiter" [("max", positive); ("duration", positive)] ++ [key "settings" ZAny].
(** config/queue.config.ts:82-153 loadQueueConfig *)
Definition queue_of (e : variables) : res exn jsval :=
  let mainQueueName := JString (EnvLoader.getOrDefault e "MAIN_QUEUE_NAME" "delivery-queue") in
  let attempts := number_default e "MAX_RETRIES" "5" in
  let baseMs := number_default e "BACKOFF_BASE_MS" "1000" in
  let staleTimeout := number_default e "STALE_JOB_TIMEOUT_MS" "30000" in
  if outside 1 10 attempts then invalid "MAX_RETRIES configuration must be between 1 and 10"
  else if outside 100 100000 baseMs then invalid "BACKOFF_BASE_MS configuration must be between 100 and 100000"
  else if num_leb staleTimeout (ofZ 0) then invalid "STALE_JOB_TIMEOUT_MS must be positive"
  else
    let backoff := obj [("type", JString "exponential"); ("delay", JNum baseMs)] in
    let data := obj [("mainQueueName", mainQueueName);
      ("delayedQueueName", JString (EnvLoader.getOrDefault e "DELAYED_QUEUE_NAME" "delivery-queue:delayed"));
      ("dlqQueueName", JString (EnvLoader.getOrDefault e "DLQ_QUEUE_NAME" "delivery-queue:dlq"));
      ("concurrency", JNum (number_default e "QUEUE_CONCURRENCY" "10")); ("defaultJobTimeout", JNum staleTimeout); ("staleInterval", JNum 5000);
      ("lockDuration", JNum 30000); ("lockRenewTime", JNum 15000); ("retryBackoff", backoff); ("maxBackoff", JNum 3600000);
      ("removeOnComplete", obj [("age", JNum 86400)]); ("removeOnFail", JBool false); ("defaultRepeatableKey", JString "repeatable-key");
      ("name", mainQueueName); ("prefix", JString "bull");
      ("defaultJobOptions", obj [("timeout", JNum 30000); ("removeOnComplete", JNum 100); ("removeOnFail", JNum 500)]);
      ("limiter", obj [("max", JNum 1000); ("duration", JNum 1000)]);
      ("settings", obj [("maxRetriesPerJob", JNum attempts); ("stalledInterval", JNum staleTimeout); ("maxStalledCount", JNum 2);
         ("defaultJobOptions", obj [("attempts", JNum attempts); ("backoff", backoff); ("removeOnComplete", JNum 100); ("removeOnFail", JNum 500);
            ("timeout", JNum 30000)])])] in
    parsed queueConfigSchema "Invalid QueueConfig settings structure" data.
(** config/queue.config.ts:75-153 loadQueueConfig *)
Definition loadQueueConfig (o : option (list (string * jsval))) : M jsval := with_override o queue_of.

(** config/observability.config.ts:59-104 observabilityConfigSchema *)
Definition observabilityConfigSchema : schema :=
  under "tracing" [("enabled", ZBoolean); ("sampleRate", ZNumber 0 1); ("exportInterval", positive); ("otlpEndpoint", ZUrl []); ("serviceName", ZString 1);
    ("serviceVersion", ZString 1); ("environment", ZString 1)] ++
  under "metrics" [("enabled", ZBoolean); ("exportInterval", positive); ("prometheusPort", port); ("enableDefaultMetrics", ZBoolean)] ++
  under "logging" [("level", ZString 0); ("format", ZEnum ["json"; "text"]); ("enableFileOutput", ZBoolean); ("logDirectory", ZString 1);
    ("maxFileSize", positive); ("maxFiles", positive)] ++
  under "audit" [("enabled", ZBoolean); ("storageType", ZEnum ["database"; "elasticsearch"]); ("retentionDays", positive)] ++
  [key "serviceName" (ZString 1); key "serviceVersion" (ZString 1); key "jaegerEndpoint" (ZUrl []); key "traceSampleRate" (ZNumber 0 1);
   key "prometheusPort" port; key "enableAuditLogging" ZBoolean; key "auditLogRetentionDays" positive; key "logLevel" (ZString 0);
   key "loggingEnabled" ZBoolean; key "jaegerServiceName" (ZString 1); key "metricsEnabled" ZBoolean; key "tracingEnabled" ZBoolean;
   key "enabled" (ZOptional ZBoolean); key "logFormat" (ZOptional (ZString 0)); key "logDestination" (ZOptional (ZString 0)); key "metricBuckets" ZAny].
(** config/observability.config.ts:116-120 loadObservabilityConfig *)
Definition sample_rate (e : variables) : num :=
  match e !! "OTEL_TRACE_SAMPLE_RATE" with
  | Some v => if str_truthy v then parse_number v else if str_eqb (lower_env e) "production" then Fin (1 # 10) else ofZ 1
  | None => if str_eqb (lower_env e) "production" then Fin (1 # 10) else ofZ 1
  end.
(** config/observability.config.ts:116-192 loadObservabilityConfig *)
Definition observability_of (e : variables) : res exn jsval :=
  let isProd := str_eqb (lower_env e) "production" in
  let sampleRate := sample_rate e in
  let tracePort := number_default e "PROMETHEUS_PORT" "9090" in
  if outside 0 1 sampleRate then invalid "OTEL_TRACE_SAMPLE_RATE must be between 0.0 and 1.0"
  else if outside 1 65535 tracePort then invalid "PROMETHEUS_PORT must be between 1 and 65535"
  else
    let level := JString (level_of e) in
    let data := obj [
      ("tracing", obj [("enabled", JBool true); ("sampleRate", JNum sampleRate); ("exportInterval", JNum 30000);
         ("otlpEndpoint", JString (EnvLoader.getOrDefault e "OTEL_EXPORTER_OTLP_ENDPOINT" "http://localhost:4317"));
         ("serviceName", JString "queueforge"); ("serviceVersion", JString "1.0.0"); ("environment", JString (lower_env e))]);
      ("metrics", obj [("enabled", JBool true); ("exportInterval", JNum 60000); ("prometheusPort", JNum tracePort); ("enableDefaultMetrics", JBool true)]);
      ("logging", obj [("level", level); ("format", JString (if isProd then "json" else "text")); ("enableFileOutput", JBool isProd);
         ("logDirectory", JString "./logs"); ("maxFileSize", JNum 10485760); ("maxFiles", JNum 10)]);
      ("audit", obj [("enabled", JBool true); ("storageType", JString "database"); ("retentionDays", JNum 90)]);
      ("serviceName", JString (EnvLoader.getOrDefault e "APP_NAME" "queueforge")); ("serviceVersion", JString "1.0.0");
      ("jaegerEndpoint", JString (EnvLoader.getOrDefault e "JAEGER_ENDPOINT" "http://localhost:14268/api/traces"));
      ("traceSampleRate", JNum sampleRate); ("prometheusPort", JNum tracePort); ("enableAuditLogging", JBool true); ("auditLogRetentionDays", JNum 90);
      ("logLevel", level); ("loggingEnabled", JBool true); ("jaegerServiceName", JString (EnvLoader.getOrDefault e "APP_NAME" "queueforge"));
      ("metricsEnabled", JBool true); ("tracingEnabled", JBool true); ("enabled", JBool true); ("logFormat", JString (if isProd then "json" else "pretty"));
      ("logDestination", JString "console"); ("metricBuckets", JArray 0 [])] in
    parsed observabilityConfigSchema ("Invalid ObservabilityConfig settings structure: " +:+ report observabilityConfigSchema data) data.
(** config/observability.config.ts:109-192 loadObservabilityConfig *)
Definition loadObservabilityConfig (o : option (list (string * jsval))) : M jsval := with_override o observability_of.

(** config/security.config.ts:41-69 securityConfigSchema *)
Definition securityConfigSchema : schema :=
  [key "jwtSecret" (ZString 32); key "jwtExpiryMs" positive; key "jwtAlgorithm" (ZString 1); key "apiKeyHeader" (ZString 1); key "hmacSecret" (ZString 32);
   key "hmacAlgorithm" (ZString 1); key "enableCors" ZBoolean; key "corsOrigins" ZStrings; key "enableCsrfProtection" ZBoolean;
   key "passwordMinLength" (ZInt (Some 8) None); key "enableHelmet" ZBoolean; key "trustProxy" ZBoolean; key "enableRateLimiting" ZBoolean;
   key "rateLimitWindowMs" positive; key "rateLimitMaxRequests" positive; key "apiKeySecret" (ZString 32); key "tokenExpirySeconds" positive;
   key "corsOrigin" (ZString 0); key "rateLimitWindow" positive; key "rateLimitMax" positive; key "jwtExpiryHours" positive;
   key "rateLimitRequestsPerMinute" positive; key "enableHMACValidation" (ZOptional ZBoolean); key "enableRequestSigning" (ZOptional ZBoolean);
   key "enableTLS" (ZOptional ZBoolean); key "enableCORS" (ZOptional ZBoolean); key "corsCredentials" (ZOptional ZBoolean)].
(** config/security.config.ts:101-107 loadSecurityConfig *)
Definition placeholder (secret : string) : bool :=
  existsb (fun p => includes p (to_lower secret)) ["dummy"; "test_placeholder"; "changeme"; "your_secret_here"].
(** config/security.config.ts:115-120 loadSecurityConfig *)
Definition bad_origin (origin : string) : bool :=
  negb (str_eqb origin "*") && negb (starts_with "http://" origin) && negb (starts_with "https://" origin).
Definition short (s : string) : bool := (String.length s <? 32)%nat.
(** config/security.config.ts:81-158 loadSecurityConfig *)
Definition security_of (e : variables) : res exn jsval :=
  jwtSecret ← EnvLoader.get e "JWT_SECRET";
  hmacSecret ← EnvLoader.get e "HMAC_SECRET";
  let apiKeySecret := EnvLoader.getOrDefault e "API_KEY_SECRET" (EnvLoader.getOrDefault e "API_KEY" jwtSecret) in
  let isProd := str_eqb (lower_env e) "production" in
  let corsOrigins := match EnvLoader.getAsArray e "CORS_ORIGINS" with [] => ["http://localhost:3000"] | l => l end in
  if short jwtSecret then invalid "JWT_SECRET must be at least 32 characters"
  else if short hmacSecret then invalid "HMAC_SECRET must be at least 32 characters"
  else if short apiKeySecret then invalid "API_KEY_SECRET must be at least 32 characters"
  else if isProd && existsb placeholder [jwtSecret; hmacSecret; apiKeySecret] then invalid "Production configuration must not contain dummy or test secrets"
  else
    match find bad_origin corsOrigins with
    | Some origin => invalid ("CORS origin URL must be a valid http/https format: " +:+ origin)
    | None =>
        let data := obj [("jwtSecret", JString jwtSecret); ("jwtExpiryMs", JNum 86400000); ("jwtAlgorithm", JString "HS256"); ("apiKeyHeader", JString "X-API-Key");
          ("hmacSecret", JString hmacSecret); ("hmacAlgorithm", JString "sha256"); ("enableCors", JBool true); ("corsOrigins", texts corsOrigins);
          ("enableCsrfProtection", JBool isProd); ("passwordMinLength", JNum 12); ("enableHelmet", JBool true); ("trustProxy", JBool false);
          ("enableRateLimiting", JBool true); ("rateLimitWindowMs", JNum 60000); ("rateLimitMaxRequests", JNum 100); ("apiKeySecret", JString apiKeySecret);
          ("tokenExpirySeconds", JNum 86400); ("corsOrigin", JString (default "" (head corsOrigins))); ("rateLimitWindow", JNum 60);
          ("rateLimitMax", JNum 100); ("jwtExpiryHours", JNum 24); ("rateLimitRequestsPerMinute", JNum 100); ("enableHMACValidation", JBool false);
          ("enableRequestSigning", JBool false); ("enableTLS", JBool false); ("enableCORS", JBool false); ("corsCredentials", JBool false)] in
        parsed securityConfigSchema ("Invalid SecurityConfig settings structure: " +:+ report securityConfigSchema data) data
    end.
(** config/security.config.ts:74-159 loadSecurityConfig *)
Definition loadSecurityConfig (o : option (list (string * jsval))) : M jsval := with_override o security_of.

(** config/resilience.config.ts:68-125 resilienceConfigSchema *)
Definition resilienceConfigSchema : schema :=
  under "circuitBreaker" [("enabled", ZBoolean); ("threshold", positive); ("timeout", positive); ("monitoringPeriod", positive); ("rollingCountTimeout", positive)] ++
  under "bulkhead" [("enabled", ZBoolean); ("maxConcurrent", positive); ("maxQueueSize", positive); ("timeout", positive)] ++
  under "backpressure" [("enabled", ZBoolean); ("threshold", positive); ("shedPercentage", ZNumber 0 100)] ++
  under "retry" [("enabled", ZBoolean); ("maxAttempts", positive); ("initialDelayMs", positive); ("maxDelayMs", positive); ("jitterFactor", ZNumber 0 1)] ++
  under "timeout" [("defaultMs", positive); ("httpMs", positive); ("databaseMs", positive); ("redisMs", positive)] ++
  map (fun k => key k positive) ["circuitBreakerFailureThreshold"; "circuitBreakerResetTimeoutMs"; "retryMaxAttempts"; "retryBackoffBaseMs";
    "bulkheadPoolSizeDatabase"; "bulkheadPoolSizeRedis"; "backpressureQueueDepthThreshold"; "bulkheadPoolSizeWebhook"; "bulkheadPoolSizeQueue";
    "circuitBreakerThreshold"; "circuitBreakerTimeout"; "circuitBreakerVolumeThreshold"; "maxRetries"; "backoffBaseMs"; "backoffMaxMs";
    "backpressureAlarmThreshold"] ++
  [key "backoffJitterFactor" (ZNumber 0 1); key "permanentStatusCodes" ZPositives; key "retryableStatusCodes" ZPositives;
   key "backpressureSheddingStrategy" (ZString 1)] ++
  map (fun k => key k ZBoolean) ["circuitBreakerEnabled"; "bulkheadEnabled"; "backpressureEnabled"; "retryEnabled"; "timeoutEnabled"].
Definition numbers (l : list Z) : jsval := JArray 0 (map (fun z => JNum (ofZ z)) l).
(** config/resilience.config.ts:137-227 loadResilienceConfig *)
Definition resilience_of (e : variables) : res exn jsval :=
  let cbThreshold := number_or e "CIRCUIT_BREAKER_THRESHOLD" 5 in
  if outside 1 100 cbThreshold then invalid "CIRCUIT_BREAKER_THRESHOLD must be between 1 and 100"
  else
    let cbTimeoutMs := number_or e "CIRCUIT_BREAKER_TIMEOUT_MS" 60000 in
    let cbTimeoutSec := num_round (num_div cbTimeoutMs (ofZ 1000)) in
    let isTestEnv := str_eqb (lower_env e) "test" in
    let webhookPool := if isTestEnv then ofZ 2 else number_or e "WORKER_CONCURRENCY" 10 in
    let dbPool := if isTestEnv then ofZ 2 else number_or e "DB_POOL_MAX" 10 in
    let queuePool := if isTestEnv then ofZ 2 else number_or e "REDIS_POOL_MAX" 15 in
    let retries := number_or e "MAX_RETRIES" 5 in
    let base := number_or e "BACKOFF_BASE_MS" 1000 in
    let depth := number_or e "BACKPRESSURE_QUEUE_DEPTH_THRESHOLD" 1000 in
    let data := obj [
      ("circuitBreaker", obj [("enabled", JBool true); ("threshold", JNum cbThreshold); ("timeout", JNum cbTimeoutMs); ("monitoringPeriod", JNum 120000);
         ("rollingCountTimeout", JNum 10000)]);
      ("bulkhead", obj [("enabled", JBool true); ("maxConcurrent", JNum 100); ("maxQueueSize", JNum 1000); ("timeout", JNum 30000)]);
      ("backpressure", obj [("enabled", JBool true); ("threshold", JNum 1000); ("shedPercentage", JNum 10)]);
      ("retry", obj [("enabled", JBool true); ("maxAttempts", JNum retries); ("initialDelayMs", JNum base); ("maxDelayMs", JNum 3600000);
         ("jitterFactor", JNum (Fin (1 # 10)))]);
      ("timeout", obj [("defaultMs", JNum 30000); ("httpMs", JNum 30000); ("databaseMs", JNum 60000); ("redisMs", JNum 10000)]);
      ("circuitBreakerFailureThreshold", JNum cbThreshold); ("circuitBreakerResetTimeoutMs", JNum cbTimeoutMs); ("retryMaxAttempts", JNum retries);
      ("retryBackoffBaseMs", JNum base); ("bulkheadPoolSizeDatabase", JNum dbPool); ("bulkheadPoolSizeRedis", JNum queuePool);
      ("backpressureQueueDepthThreshold", JNum depth); ("bulkheadPoolSizeWebhook", JNum webhookPool); ("bulkheadPoolSizeQueue", JNum queuePool);
      ("circuitBreakerThreshold", JNum cbThreshold); ("circuitBreakerTimeout", JNum cbTimeoutSec); ("circuitBreakerVolumeThreshold", JNum 3);
      ("maxRetries", JNum retries); ("backoffBaseMs", JNum base); ("backoffMaxMs", JNum 3600000); ("backoffJitterFactor", JNum (Fin (1 # 10)));
      ("permanentStatusCodes", numbers [400; 401; 403; 404; 409; 422]); ("retryableStatusCodes", numbers [408; 429; 500; 502; 503; 504]);
      ("backpressureAlarmThreshold", JNum depth); ("backpressureSheddingStrategy", JString "percentage"); ("circuitBreakerEnabled", JBool true);
      ("bulkheadEnabled", JBool true); ("backpressureEnabled", JBool true); ("retryEnabled", JBool true); ("timeoutEnabled", JBool true)] in
    parsed resilienceConfigSchema "Invalid ResilienceConfig settings structure" data.
(** config/resilience.config.ts:130-228 loadResilienceConfig *)
Definition loadResilienceConfig (o : option (list (string * jsval))) : M jsval := with_override o resilience_of.

(** config/server.config.ts:30-48 serverConfigSchema *)
Definition serverConfigSchema : schema :=
  [key "host" (ZString 1); key "port" port] ++ under "https" [("enabled", ZBoolean); ("certPath", ZString 0); ("keyPath", ZString 0)] ++
  under "gracefulShutdown" [("enabled", ZBoolean); ("timeoutMs", positive)] ++ [key "keepAliveTimeout" positive; key "headersTimeout" positive] ++
  under "bodyParser" [("limit", ZString 1); ("strict", ZBoolean)].
(** config/server.config.ts:53-100 loadServerConfig
    [there] tells which files exist. *)
Definition loadServerConfig (there : string -> bool) (e : variables) : res exn jsval :=
  isDev ← Environment.isDevelopment e;
  let certPath := EnvLoader.getOrDefault e "HTTPS_CERT_PATH" "./secrets/cert.pem" in
  let keyPath := EnvLoader.getOrDefault e "HTTPS_KEY_PATH" "./secrets/key.pem" in
  let httpsEnabled := EnvLoader.getBoolean e "HTTPS_ENABLED" || (there certPath && there keyPath) in
  if httpsEnabled && negb (there certPath) then invalid ("SSL Certificate file is missing at certPath: " +:+ quoted certPath)
  else if httpsEnabled && negb (there keyPath) then invalid ("SSL Private Key file is missing at keyPath: " +:+ quoted keyPath)
  else
    parsed serverConfigSchema "Invalid ServerConfig settings structure"
      (obj [("host", JString (if isDev : bool then "127.0.0.1" else "0.0.0.0")); ("port", JNum (number_default e "PORT" "3000"));
            ("https", obj [("enabled", JBool httpsEnabled); ("certPath", JString certPath); ("keyPath", JString keyPath)]);
            ("gracefulShutdown", obj [("enabled", JBool true); ("timeoutMs", JNum 60000)]); ("keepAliveTimeout", JNum 65000);
            ("headersTimeout", JNum 66000); ("bodyParser", obj [("limit", JString "10mb"); ("strict", JBool true)])]).

(** config/api.config.ts:26-42 apiConfigSchema *)
Definition apiConfigSchema : schema :=
  [key "basePath" (ZStarts "/"); key "version" (ZString 1); key "timeout" positive; key "maxPayloadSize" (ZString 1); key "enableCompression" ZBoolean;
   key "enableSwagger" ZBoolean; key "enableGraphQL" ZBoolean] ++ under "rateLimit" [("enabled", ZBoolean); ("windowMs", positive); ("maxRequests", positive)] ++
  [key "responseHeaders" ZAny; key "enableResponseCaching" ZBoolean; key "cacheTTL" positive].
(** config/api.config.ts:47-76 loadApiConfig *)
Definition loadApiConfig (e : variables) : res exn jsval :=
  isDev ← Environment.isDevelopment e;
  parsed apiConfigSchema "Invalid ApiConfig settings structure"
    (obj [("basePath", JString "/api"); ("version", JString "v1"); ("timeout", JNum 30000); ("maxPayloadSize", JString "10mb");
          ("enableCompression", JBool true); ("enableSwagger", JBool isDev); ("enableGraphQL", JBool false);
          ("rateLimit", obj [("enabled", JBool true); ("windowMs", JNum 60000); ("maxRequests", JNum 100)]);
          ("responseHeaders", obj [("X-Powered-By", JString "QueueForge")]); ("enableResponseCaching", JBool true); ("cacheTTL", JNum 300000)]).

(** config/worker.config.ts:22-35 workerConfigSchema *)
Definition workerConfigSchema : schema :=
  [key "enabled" ZBoolean] ++
  map (fun k => key k positive) ["concurrency"; "pollIntervalMs"; "maxInFlightJobs"; "heartbeatIntervalMs"; "heartbeatTTLMs"; "gracefulShutdownTimeoutMs"; "timeout"; "maxRetries"] ++
  map (fun k => key k ZBoolean) ["enableDeadletterQueue"; "enableMetrics"; "enableTracing"].
(** config/worker.config.ts:40-62 loadWorkerConfig *)
Definition loadWorkerConfig : res exn jsval :=
  parsed workerConfigSchema "Invalid WorkerConfig settings structure"
    (obj [("enabled", JBool true); ("concurrency", JNum 10); ("pollIntervalMs", JNum 1000); ("maxInFlightJobs", JNum 1000);
          ("heartbeatIntervalMs", JNum 10000); ("heartbeatTTLMs", JNum 30000); ("gracefulShutdownTimeoutMs", JNum 60000); ("timeout", JNum 30000);
          ("maxRetries", JNum 5); ("enableDeadletterQueue", JBool true); ("enableMetrics", JBool true); ("enableTracing", JBool true)]).
(** config/daemon.config.ts:25-41 daemonConfigSchema *)
Definition daemonConfigSchema : schema :=
  [key "enabled" ZBoolean] ++ under "recovery" [("enabled", ZBoolean); ("intervalMs", positive); ("dlqCheckIntervalMs", positive)] ++
  under "health" [("enabled", ZBoolean); ("intervalMs", positive)] ++ under "metrics" [("enabled", ZBoolean); ("collectionIntervalMs", positive)] ++
  [key "gracefulShutdownTimeoutMs" positive].
(** config/daemon.config.ts:46-71 loadDaemonConfig *)
Definition loadDaemonConfig : res exn jsval :=
  parsed daemonConfigSchema "Invalid DaemonConfig settings structure"
    (obj [("enabled", JBool true); ("recovery", obj [("enabled", JBool true); ("intervalMs", JNum 60000); ("dlqCheckIntervalMs", JNum 30000)]);
          ("health", obj [("enabled", JBool true); ("intervalMs", JNum 30000)]);
          ("metrics", obj [("enabled", JBool true); ("collectionIntervalMs", JNum 10000)]); ("gracefulShutdownTimeoutMs", JNum 30000)]).
(** config/admin.config.ts:25-41 adminConfigSchema *)
Definition adminConfigSchema : schema :=
  [key "enabled" ZBoolean; key "basePath" (ZStarts "/")] ++ under "authentication" [("required", ZBoolean); ("roleRequired", ZString 1)] ++
  under "auditLogging" [("enabled", ZBoolean); ("logSensitiveOperations", ZBoolean)] ++
  under "rateLimit" [("enabled", ZBoolean); ("windowMs", positive); ("maxRequests", positive)].
(** config/admin.config.ts:46-71 loadAdminConfig *)
Definition loadAdminConfig : res exn jsval :=
  parsed adminConfigSchema "Invalid AdminConfig settings structure"
    (obj [("enabled", JBool true); ("basePath", JString "/admin"); ("authentication", obj [("required", JBool true); ("roleRequired", JString "admin")]);
          ("auditLogging", obj [("enabled", JBool true); ("logSensitiveOperations", JBool true)]);
          ("rateLimit", obj [("enabled", JBool true); ("windowMs", JNum 60000); ("maxRequests", JNum 100)])]).
(** config/rate-limiting.config.ts:31-50 rateLimitingConfigSchema *)
Definition rateLimitingConfigSchema : schema :=
  [key "enabled" ZBoolean; key "quotaTiers" ZAny] ++ under "global" [("requestsPerMinute", positive); ("connectionsLimit", positive)] ++
  under "perApiKey" [("requestsPerHour", positive)] ++ [key "perEndpoint" ZAny; key "whitelist" ZStrings; key "blacklist" ZStrings;
  key "gracePeriodMs" (ZInt (Some 0) None)].
Definition tier (name : string) (limit : Z) : jsval := obj [("tier", JString name); ("limits", obj [("resultsPerHour", JNum limit)])].
(** config/rate-limiting.config.ts:55-99 loadRateLimitingConfig *)
Definition loadRateLimitingConfig : res exn jsval :=
  parsed rateLimitingConfigSchema "Invalid RateLimitingConfig settings structure"
    (obj [("enabled", JBool true); ("quotaTiers", JArray 0 [tier "Free" 100; tier "Pro" 10000; tier "Enterprise" 999999999]);
          ("global", obj [("requestsPerMinute", JNum 10000); ("connectionsLimit", JNum 1000)]); ("perApiKey", obj [("requestsPerHour", JNum 3600)]);
          ("perEndpoint", obj [("/api/v1/ingest", JNum 5000)]); ("whitelist", texts ["127.0.0.1"]); ("blacklist", texts []); ("gracePeriodMs", JNum 0)]).
End loaders.
End Loaders.

(** ** The whole *)

Module Loading.
Section loading.
Context `{!Zod} (files : string -> option variables) (there : string -> bool).
(** config/index.ts:38-52 Config *)
Record Config : Type := Mk {
  app : jsval; database : jsval; queue : jsval; redis : jsval; observability : jsval; security : jsval; resilience : jsval;
  api : jsval; server : jsval; admin : jsval; rateLimiting : jsval; worker : jsval; daemon : jsval;
}.
(** config/index.ts:54-54 config
    With the process's variables and whether their file was read. *)
Record state : Type := State { vars : variables; isLoaded : bool; config : option Config }.
Abbreviation M := (meth state exn).
Definition flag (path : list string) (v : jsval) : bool := js_truthy (at_path path v).
Definition refuse (m : string) : res exn unit := Throw (ValidationError m).
Definition guard_ (b : bool) (m : string) : res exn unit := if b then refuse m else Ok tt.
(** config/index.ts:102-112 validateConfigConsistency *)
Definition dummy_secrets (c : Config) : bool := existsb looks_dummy (texts_at ["jwtSecret"; "apiKeySecret"; "hmacSecret"] (security c)).
(** config/index.ts:78-114 validateConfigConsistency *)
Definition validateConfigConsistency (c : Config) (e : variables) : res exn unit :=
  let max := num_at "maxConnections" (database c) in
  let bulk := num_at "bulkheadPoolSizeDatabase" (resilience c) in
  guard_ (num_gtb (num_at "minConnections" (database c)) max) "Database pool minConnections cannot exceed maxConnections";;
  guard_ (num_gtb (num_at "poolMin" (redis c)) (num_at "poolMax" (redis c))) "Redis poolMin cannot exceed poolMax";;
  guard_ (num_ltb max bulk) ("Inconsistent configuration: database pool max (" +:+ num_to_string max
            +:+ ") must be greater than or equal to database bulkhead pool size (" +:+ num_to_string bulk +:+ ")");;
  prod ← Environment.isProduction e;
  if prod : bool then
    guard_ (negb (flag ["enableSSL"] (database c))) "Production configuration must have database SSL enabled";;
    guard_ (negb (flag ["enableTls"] (redis c))) "Production configuration must have Redis TLS enabled";;
    guard_ (negb (flag ["https"; "enabled"] (server c))) "Production configuration must have HTTPS server enabled";;
    guard_ (dummy_secrets c) "Production configuration cannot use test or dummy secrets keys"
  else Ok tt.
(** config/index.ts:127-155 loadConfigSync *)
Definition load_parts (e : variables) : res exn Config :=
  app ← Loaders.app_of e; database ← Loaders.database_of e; redis ← Loaders.redis_of e; queue ← Loaders.queue_of e;
  observability ← Loaders.observability_of e; security ← Loaders.security_of e; resilience ← Loaders.resilience_of e;
  api ← Loaders.loadApiConfig e; server ← Loaders.loadServerConfig there e; admin ← Loaders.loadAdminConfig;
  rateLimiting ← Loaders.loadRateLimitingConfig; worker ← Loaders.loadWorkerConfig; daemon ← Loaders.loadDaemonConfig;
  Ok (Mk app database queue redis observability security resilience api server admin rateLimiting worker daemon).
(** config/index.ts:119-161 loadConfigSync *)
Definition loadConfigSync : M Config := fun s =>
  match config s with
  | Some c => (s, Ok c)
  | None =>
      let '(e, l) := EnvLoader.load files (vars s) (isLoaded s) in
      let s := State e l None in
      match (parseEnv e;; loaded ← load_parts e; validateConfigConsistency loaded e;; Ok loaded) with
      | Ok c => (State e l (Some c), Ok c)
      | Throw err => (s, Throw err)
      end
  end.
(** config/index.ts:168-183 loadConfig *)
Definition loadConfig : M Config := fun s => match config s with Some c => (s, Ok c) | None => loadConfigSync s end.
(** config/index.ts:190-197 initializeConfig *)
Definition initializeConfig : M Config := loadConfig.
(** config/index.ts:204-209 getConfig *)
Definition getConfig : M Config := fun s => match config s with None => loadConfigSync s | Some c => (s, Ok c) end.
(** config/index.ts:214-217 resetConfig *)
Definition resetConfig (s : state) : state := State (vars s) (isLoaded s) None.
(** config/index.ts:59-73 redactSensitiveData *)
Definition redactSensitiveData (envObj : list (string * jsval)) : list (string * jsval) :=
  map (fun kv : string * jsval =>
         (kv.1, if existsb (fun p => includes p (to_lower kv.1)) ["secret"; "key"; "password"; "url"; "token"] && js_truthy kv.2
                then JString "[REDACTED]" else kv.2)) envObj.

(** *** What a loaded configuration satisfies *)

Definition integer (v : jsval) (z : Z) : Prop := exists q, v = JNum (Fin q) /\ (q == inject_Z z)%Q.
Lemma parsed_ok (s : list (list string * rule)) err data c : parsed s err data = Ok c -> c = data /\ check s data = true.
Proof. unfold parsed. destruct (check s data); [by intros [= ->]|done]. Qed.
Lemma checked_at s data p r : check s data = true -> (p, r) ∈ s -> accepts r (at_path p data) = true.
Proof. unfold check. rewrite forallb_forall. intros Hc Hin. by apply (Hc (p, r)), list_elem_of_In. Qed.
Context `{!ZodLaws}.
Lemma accepted_integer lo hi v :
  accepts (ZInt lo hi) v = true ->
  exists z, integer v z /\ (forall l, lo = Some l -> l <= z) /\ (forall h, hi = Some h -> z <= h).
Proof.
  rewrite accepts_int. destruct v as [| | |n| | | | |]; try done. rewrite !andb_true_iff. intros [[Hi Hl] Hh].
  destruct n as [| |q]; [done..|]. cbn in Hi. apply Qeq_bool_iff in Hi. exists (Qfloor q). split; [by exists q|].
  split; intros b ->; cbn in Hl, Hh.
  - unfold num_leb in Hl. cbn in Hl. rewrite Zle_Qle, <- Hi. apply orb_true_iff in Hl as [Hl|Hl]; [apply Qlt_bool_iff in Hl; lra|].
    apply Qeq_bool_iff in Hl. lra.
  - unfold num_leb in Hh. cbn in Hh. rewrite Zle_Qle, <- Hi. apply orb_true_iff in Hh as [Hh|Hh]; [apply Qlt_bool_iff in Hh; lra|].
    apply Qeq_bool_iff in Hh. lra.
Qed.
(** The rule in place [i] of a schema, for the value it is about. *)
Lemma checked_nth s data i p r : check s data = true -> s !! i = Some (p, r) -> accepts r (at_path p data) = true.
Proof. intros Hc Hi. apply (checked_at _ _ _ _ Hc). by apply (list_elem_of_lookup_2 _ i). Qed.
Lemma integer_num z n : integer (JNum n) z -> exists q, n = Fin q /\ (q == inject_Z z)%Q.
Proof. intros (q & [= ->] & Hq). by exists q. Qed.
Lemma integer_leb a b x y : integer (JNum a) x -> integer (JNum b) y -> num_leb a b = (x <=? y).
Proof.
  intros (p & -> & Hp)%integer_num (q & -> & Hq)%integer_num. rewrite num_leb_Fin, <- Qle_bool_Z. apply eq_true_iff_eq.
  rewrite !Qle_bool_iff. by rewrite Hp, Hq.
Qed.
Lemma max_covers a b q : num_max a b = Fin q -> num_leb b (Fin q) = true.
Proof.
  destruct a as [|[]|p], b as [|[]|r]; try done; unfold num_max.
  - cbn. intros [= ->]. rewrite num_leb_Fin. apply Qle_bool_iff. lra.
  - rewrite num_leb_Fin. destruct (Qle_bool p r) eqn:E; intros [= <-]; rewrite num_leb_Fin; apply Qle_bool_iff; [lra|].
    assert (~ (p <= r)%Q); [by rewrite <- Qle_bool_iff, E|lra].
Qed.

(** The pool of the database, when it is accepted. *)
Lemma database_sane e c :
  Loaders.database_of e = Ok c ->
  exists lo hi, integer (js_get "minConnections" c) lo /\ integer (js_get "maxConnections" c) hi /\ 1 <= lo <= hi /\ hi <= 100 /\
    num_leb (num_add (Loaders.number_or e "WORKER_CONCURRENCY" 10) (ofZ 2)) (ofZ hi) = true /\
    flag ["enableSSL"] c = str_eqb (Loaders.lower_env e) "production".
Proof.
  unfold Loaders.database_of. destruct (EnvLoader.get e "DATABASE_URL") as [url|]; [|done]. unfold mbind, res_bind.
  destruct (negb _ && _); [done|]. destruct (Loaders.database_parts url) as [[[[host port] database] user]|]; [|done].
  set (lo_n := Loaders.number_default e "DB_POOL_MIN" _). set (raw := Loaders.number_default e "DB_POOL_MAX" _).
  set (wc := num_add (Loaders.number_or e "WORKER_CONCURRENCY" 10) _). set (hi_n := num_max raw wc).
  destruct (num_geb _ _) eqn:Hg; [|done]. intros [-> Hc]%parsed_ok.
  pose proof (accepted_integer _ _ _ (checked_nth _ _ 1 _ _ Hc eq_refl)) as (hi & Hhi & _ & Hh).
  pose proof (accepted_integer _ _ _ (checked_nth _ _ 2 _ _ Hc eq_refl)) as (lo & Hlo & Hl & _).
  change (integer (JNum hi_n) hi) in Hhi. change (integer (JNum lo_n) lo) in Hlo.
  exists lo, hi. specialize (Hh 100 eq_refl). specialize (Hl 1 eq_refl). split_and!; [exact Hlo|exact Hhi|lia| |lia| |reflexivity].
  - unfold num_geb in Hg. rewrite (integer_leb _ _ lo hi Hlo Hhi) in Hg. lia.
  - pose proof Hhi as (q & Hm & Hq)%integer_num. apply max_covers in Hm. rewrite <- Hm. apply num_leb_proper; [reflexivity|].
    symmetry. exact Hq.
Qed.
Lemma app_sane e c : Loaders.app_of e = Ok c -> exists p, integer (js_get "port" c) p /\ 1 <= p <= 65535.
Proof.
  unfold Loaders.app_of. set (env := match e !! "ENVIRONMENT" with Some _ => _ | None => _ end). destruct env as [name|]; [|done].
  unfold mbind, res_bind. set (n := Loaders.number_default e "PORT" "3000"). intros [-> Hc]%parsed_ok.
  pose proof (accepted_integer _ _ _ (checked_nth _ _ 7 _ _ Hc eq_refl)) as (p & Hp & Hl & Hh). exists p. split; [exact Hp|].
  specialize (Hl 1 eq_refl). specialize (Hh 65535 eq_refl). lia.
Qed.
Lemma redis_sane e c :
  Loaders.redis_of e = Ok c ->
  (exists lo hi, integer (js_get "poolMin" c) lo /\ integer (js_get "poolMax" c) hi /\ 1 <= lo <= hi) /\
  (Loaders.lower_env e = "production" -> flag ["enableTls"] c = true).
Proof.
  unfold Loaders.redis_of. destruct (EnvLoader.get e "REDIS_URL") as [url|]; [|done]. unfold mbind at 1, res_bind at 1.
  destruct (negb _ && _); [done|]. destruct (Loaders.redis_parts url) as [[[host port] password]|]; [|done]. unfold mbind, res_bind.
  set (lo_n := Loaders.number_default e "REDIS_POOL_MIN" "2"). set (hi_n := Loaders.number_default e "REDIS_POOL_MAX" "10").
  destruct (num_gtb lo_n hi_n) eqn:Hg; [done|]. intros [-> Hc]%parsed_ok.
  pose proof (accepted_integer _ _ _ (checked_nth _ _ 14 _ _ Hc eq_refl)) as (lo & Hlo & Hl & _).
  pose proof (accepted_integer _ _ _ (checked_nth _ _ 15 _ _ Hc eq_refl)) as (hi & Hhi & _ & _).
  change (integer (JNum hi_n) hi) in Hhi. change (integer (JNum lo_n) lo) in Hlo. specialize (Hl 1 eq_refl). split.
  - exists lo, hi. split_and!; [exact Hlo|exact Hhi|lia|]. destruct Hlo as (x & [= ->] & Hx), Hhi as (y & [= ->] & Hy).
    cbn in Hg. apply Qlt_bool_false in Hg. rewrite Hx, Hy in Hg. by rewrite <- Zle_Qle in Hg.
  - intros Hp. change (js_truthy (JBool (str_eqb (Loaders.lower_env e) "production" || starts_with "rediss://" url)) = true). by rewrite Hp.
Qed.
Lemma text_sane k s data i : check s data = true -> s !! i = Some ([k], ZString 32) -> exists t, js_get k data = JString t /\ (32 <= String.length t)%nat.
Proof.
  intros Hc Hi. pose proof (checked_nth _ _ _ _ _ Hc Hi) as Ha. rewrite accepts_string in Ha. change (at_path [k] data) with (js_get k data) in Ha.
  destruct (js_get k data) as [| | | |t| | | |]; try done. exists t. split; [done|]. by apply Nat.leb_le in Ha.
Qed.
Lemma security_sane e c :
  Loaders.security_of e = Ok c ->
  forall k, k ∈ ["jwtSecret"; "hmacSecret"; "apiKeySecret"] -> exists t, js_get k c = JString t /\ (32 <= String.length t)%nat.
Proof.
  unfold Loaders.security_of. destruct (EnvLoader.get e "JWT_SECRET") as [jwt|]; [|done]. unfold mbind, res_bind.
  destruct (EnvLoader.get e "HMAC_SECRET") as [hmac|]; [|done].
  cbv zeta. do 3 (destruct (Loaders.short _); [done|]). destruct (_ && existsb _ _); [done|].
  destruct (find Loaders.bad_origin _); [done|]. intros [-> Hc]%parsed_ok k Hk.
  apply elem_of_cons in Hk as [->|Hk]; [exact (text_sane _ _ _ 0 Hc eq_refl)|].
  apply elem_of_cons in Hk as [->| ->%list_elem_of_singleton]; [exact (text_sane _ _ _ 4 Hc eq_refl)|exact (text_sane _ _ _ 15 Hc eq_refl)].
Qed.
Lemma parse_env_ok e v : parseEnv e = Ok v -> v = env_data e /\ check env_rules v = true /\ no_dummy_secret v = true /\ pools_ordered v = true.
Proof.
  unfold parseEnv. cbv zeta. destruct (check env_rules (env_data e) && no_dummy_secret (env_data e) && pools_ordered (env_data e)) eqn:E; [|done].
  intros [= <-]. by apply andb_true_iff in E as [[? ?]%andb_true_iff ?].
Qed.
Lemma blank_zero v : trim v = "" -> parse_number v = ofZ 0.
Proof. unfold parse_number. by intros ->. Qed.
Lemma integer_inj v x y : integer v x -> integer v y -> x = y.
Proof. intros (p & -> & Hp) (q & [= <-] & Hq). rewrite Hp in Hq. unfold Qeq in Hq. cbn in Hq. lia. Qed.
(** A variable the schema takes for a positive integer is the same number for
    all loaders, however each treats texts that are blank. *)
Lemma positive_everywhere (e : variables) k d z :
  integer (JNum match e !! k with Some v => parse_number v | None => ofZ d end) z -> 1 <= z ->
  integer (JNum (Loaders.number_or e k d)) z /\
  forall s, integer (JNum (parse_number s)) d -> integer (JNum (Loaders.number_default e k s)) z.
Proof.
  unfold Loaders.number_or, Loaders.number_default, EnvLoader.getOrDefault. destruct (e !! k) as [v|]; intros Hz Hpos.
  - assert (trim v <> "") as Hv.
    { intros Ht. rewrite (blank_zero _ Ht) in Hz. assert (integer (JNum (ofZ 0)) 0) as Hzero by (by exists (inject_Z 0)).
      pose proof (integer_inj _ _ _ Hz Hzero). lia. }
    assert (str_truthy v = true) as -> by (unfold str_truthy; apply negb_true_iff, str_eqb_neq; by intros ->).
    split; [done|]. intros s _. unfold EnvLoader.present. by rewrite (proj2 (str_eqb_neq _ _) Hv).
  - assert (integer (JNum (ofZ d)) d) as Hd by (by exists (inject_Z d)). pose proof (integer_inj _ _ _ Hz Hd) as ->. done.
Qed.
Lemma five : integer (JNum (parse_number "5")) 5.
Proof. eexists. split; [reflexivity|]. by vm_compute. Qed.
Lemma retries_sane e v qc rc :
  parseEnv e = Ok v -> Loaders.queue_of e = Ok qc -> Loaders.resilience_of e = Ok rc ->
  exists n, 1 <= n <= 10 /\ integer (js_get "maxRetries" rc) n /\ integer (at_path ["settings"; "maxRetriesPerJob"] qc) n.
Proof.
  intros (-> & Hc & _)%parse_env_ok Hq Hr. pose proof (accepted_integer _ _ _ (checked_nth _ _ 14 _ _ Hc eq_refl)) as (n & Hn & Hl & Hh).
  change (integer (JNum match e !! "MAX_RETRIES" with Some v => parse_number v | None => ofZ 5 end) n) in Hn.
  specialize (Hl 1 eq_refl). specialize (Hh 10 eq_refl). destruct (positive_everywhere _ _ _ _ Hn Hl) as [Ho Hd].
  specialize (Hd "5" five). exists n. split; [lia|]. split.
  - unfold Loaders.resilience_of in Hr. cbv zeta in Hr. destruct (Loaders.outside 1 100 _); [done|]. apply parsed_ok in Hr as [-> _]. exact Ho.
  - unfold Loaders.queue_of in Hq. cbv zeta in Hq. do 2 (destruct (Loaders.outside _ _ _); [done|]). destruct (num_leb _ (ofZ 0)); [done|].
    apply parsed_ok in Hq as [-> _]. exact Hd.
Qed.
Lemma guards_ok b m : guard_ b m = Ok tt -> b = false.
Proof. by destruct b. Qed.
Lemma consistent_in_production c e :
  validateConfigConsistency c e = Ok tt -> Environment.node_env e = "production" ->
  flag ["enableSSL"] (database c) = true /\ flag ["enableTls"] (redis c) = true /\ flag ["https"; "enabled"] (server c) = true /\ dummy_secrets c = false.
Proof.
  unfold validateConfigConsistency. cbv zeta. unfold guard_. intros Hv He. unfold mbind, res_bind in Hv.
  destruct (num_gtb (num_at "minConnections" _) _); [done|]. destruct (num_gtb (num_at "poolMin" _) _); [done|]. destruct (num_ltb _ _); [done|].
  assert (Environment.isProduction e = Ok true) as Hp.
  { unfold Environment.isProduction, Environment.current_is. by rewrite (proj2 (Environment.current_text Environment.PRODUCTION e) He). }
  rewrite Hp in Hv. destruct (flag ["enableSSL"] _); [|done]. destruct (flag ["enableTls"] _); [|done]. destruct (flag ["https"; "enabled"] _); [|done].
  by destruct (dummy_secrets c).
Qed.

(** What the rest of the program may rely on. *)
Record sane (e : variables) (c : Config) : Prop := Sane {
  s_port : exists p, integer (js_get "port" (app c)) p /\ 1 <= p <= 65535;
  s_database : exists lo hi, integer (js_get "minConnections" (database c)) lo /\ integer (js_get "maxConnections" (database c)) hi /\
    1 <= lo <= hi /\ hi <= 100 /\ num_leb (num_add (Loaders.number_or e "WORKER_CONCURRENCY" 10) (ofZ 2)) (ofZ hi) = true;
  s_redis : exists lo hi, integer (js_get "poolMin" (redis c)) lo /\ integer (js_get "poolMax" (redis c)) hi /\ 1 <= lo <= hi;
  s_retries : exists n, 1 <= n <= 10 /\ integer (js_get "maxRetries" (resilience c)) n /\
    integer (at_path ["settings"; "maxRetriesPerJob"] (queue c)) n;
  s_secrets : forall k, k ∈ ["jwtSecret"; "hmacSecret"; "apiKeySecret"] -> exists t, js_get k (security c) = JString t /\ (32 <= String.length t)%nat;
  s_production : Environment.node_env e = "production" ->
    flag ["enableSSL"] (database c) = true /\ flag ["enableTls"] (redis c) = true /\ flag ["https"; "enabled"] (server c) = true /\ dummy_secrets c = false;
}.
(** C30: Whatever the variables are, a configuration that is loaded has a port, pools
    with room for the workers, between one and ten retries on which the queue and
    the resilience part agree, secrets of 32 characters, and in production
    encrypted connections; it is kept, and answered without being loaded again. *)
Theorem loaded_sane s s' c :
  config s = None -> loadConfigSync s = (s', Ok c) ->
  sane (vars s') c /\ (forall k v, vars s !! k = Some v -> vars s' !! k = Some v) /\ getConfig s' = (s', Ok c).
Proof.
  unfold loadConfigSync. intros ->. pose proof (EnvLoader.load_keeps files (vars s) (isLoaded s)) as Hk.
  destruct (EnvLoader.load files (vars s) (isLoaded s)) as [e l]. destruct Hk as (_ & Hk & _).
  unfold mbind, res_bind. destruct (parseEnv e) as [v|] eqn:Ep; [|done]. destruct (load_parts e) as [c0|] eqn:El; [|done].
  destruct (validateConfigConsistency c0 e) as [[]|] eqn:Ev; [|done]. intros [= <- <-]. cbn [vars config]. split; [|done].
  unfold load_parts, mbind, res_bind in El.
  destruct (Loaders.app_of e) as [ap|] eqn:E1; [|done]. destruct (Loaders.database_of e) as [db|] eqn:E2; [|done].
  destruct (Loaders.redis_of e) as [rd|] eqn:E3; [|done]. destruct (Loaders.queue_of e) as [qu|] eqn:E4; [|done].
  destruct (Loaders.observability_of e); [|done]. destruct (Loaders.security_of e) as [se|] eqn:E6; [|done].
  destruct (Loaders.resilience_of e) as [rs|] eqn:E7; [|done]. destruct (Loaders.loadApiConfig e); [|done].
  destruct (Loaders.loadServerConfig there e); [|done]. destruct Loaders.loadAdminConfig; [|done]. destruct Loaders.loadRateLimitingConfig; [|done].
  destruct Loaders.loadWorkerConfig; [|done]. destruct Loaders.loadDaemonConfig; [|done]. injection El as <-.
  apply database_sane in E2 as (lo & hi & ? & ? & ? & ? & ? & _).
  constructor; cbn; [by apply app_sane in E1|by exists lo, hi|by apply redis_sane in E3 as [? _]| |exact (security_sane _ _ E6)|].
  - exact (retries_sane _ _ _ _ Ep E4 E7).
  - exact (consistent_in_production _ _ Ev).
Qed.
End loading.

(** A library of schemas that follows its documentation, over a reader of
    addresses that only looks for a scheme. *)
Fixpoint sample_accepts (url : string -> option url_parts) (r : rule) (v : jsval) : bool :=
  match r, v with
  | ZString k, JString s => (k <=? String.length s)%nat
  | ZUrl l, JString s => bool_decide (url s <> None) && (bool_decide (l = []) || existsb (fun p => starts_with p s) l)
  | ZInt lo hi, JNum n => num_is_integer n && at_least lo n && at_most hi n
  | ZNumber lo hi, JNum n => at_least (Some lo) n && at_most (Some hi) n
  | ZBoolean, JBool _ => true
  | ZEnum l, JString s => bool_decide (s ∈ l)
  | ZStarts p, JString s => starts_with p s
  | ZStrings, JArray _ l => forallb (fun x => match x with JString _ => true | _ => false end) l
  | ZPositives, JArray _ l => forallb (fun x => match x with JNum n => num_is_integer n && num_gtb n (ofZ 0) | _ => false end) l
  | ZOptional _, JUndefined => true
  | ZOptional r, v => sample_accepts url r v
  | ZAny, _ => true
  | _, _ => false
  end.
Definition sample_url (s : string) : option url_parts := if includes "://" s then Some (Url "db.local" "" "" "/app" "") else None.
Instance sample_zod : Zod := {
  new_URL := sample_url; decodeURIComponent := Some; accepts := sample_accepts sample_url; report := fun _ _ => "";
}.
Instance sample_laws : ZodLaws.
Proof. by split; intros; destruct v. Qed.
Definition sample_vars : variables :=
  {["DATABASE_URL" := "postgresql://db.local/app"; "REDIS_URL" := "redis://cache.local"; "NODE_ENV" := "test"; "MAX_RETRIES" := " 3 ";
    "JWT_SECRET" := "0123456789abcdef0123456789abcdef"; "HMAC_SECRET" := "0123456789abcdef0123456789abcdef";
    "API_KEY_SECRET" := "0123456789abcdef0123456789abcdef"]}.
Definition started_with (e : variables) : option string :=
  match (loadConfigSync (fun _ => None) (fun _ => false) (State e false None)).2 with
  | Ok _ => None
  | Throw (ValidationError m) => Some m
  | Throw _ => Some ""
  end.
(** The variables are checked twice, and not alike: without its address of Redis
    the first check puts a default in its place and the second refuses; of the
    numbers of workers the first accepts, 99 and 100 need more connections than
    the second does. *)
Example checks_disagree :
  started_with sample_vars = None /\
  (is_ok (parseEnv (delete "REDIS_URL" sample_vars)), started_with (delete "REDIS_URL" sample_vars)) =
    (true, Some ("Required environment variable " +:+ quoted "REDIS_URL" +:+ " is missing")) /\
  (is_ok (parseEnv (<["WORKER_CONCURRENCY" := "99"]> sample_vars)), started_with (<["WORKER_CONCURRENCY" := "99"]> sample_vars)) =
    (true, Some "Invalid DatabaseConfig settings structure") /\
  started_with (<["WORKER_CONCURRENCY" := "98"]> sample_vars) = None.
Proof. vm_compute. done. Qed.
Lemma loaded_sane_witness :
  let s := State sample_vars false None in
  exists c, (loadConfigSync (fun _ => None) (fun _ => false) s).2 = Ok c /\
    exists n, 1 <= n <= 10 /\ integer (js_get "maxRetries" (resilience c)) n.
Proof.
  cbv zeta. destruct (loadConfigSync (fun _ => None) (fun _ => false) (State sample_vars false None)) as [s' [c|err]] eqn:E.
  - exists c. split; [done|].
    destruct (loaded_sane (fun _ => None) (fun _ => false) (State sample_vars false None) s' c eq_refl E) as [[_ _ _ (n & Hn & Hr & _) _ _] _].
    by exists n.
  - exfalso. vm_compute in E. discriminate E.
Defined.
End Loading.
