(* ===== verification/AuditTrail.v ===== *)
(** * The audit trail

    [observability/audit/]: the events ([Event]), their storage in memory with a
    copy in the database ([Storage]), the reports over them ([Reporter]), the
    adapter of the audit table ([AuditRepository], over the repository of
    [Repositories.AuditLogRepository]), and the logger every part of the program
    calls ([AuditLogger]), over any storage and over the one the program gives
    it.  Identifiers and times are arguments. *)
From Stdlib Require Import Ascii QArith Qround Qpower Qabs Lqa.
From stdpp Require Import base tactics numbers list strings gmap sorting pretty.
From S2P Require Import Prelude JsNum JsValue Errors DomainTypes Destination Store Connectors Text Destinations Repositories.
Import Store.

(** ** Events *)

Module Event.

(** observability/audit/audit-event.ts:6-20 AuditEvent
    The identifier and the time may be missing until the event is logged. *)
Record t : Type := Event {
  id : option string; timestamp : option date; eventType : string; entityType : string; entityId : string; action : string;
  userId : option string; apiKeyId : option string; changes : jsval; ipAddress : option string; userAgent : option string;
  success : bool; error : option string;
}.
(** [new Date(e.timestamp)]. *)
Definition time (e : t) : date := default None (timestamp e).

(** [a < b] and [a > b] on dates: false when one is invalid. *)
Definition earlier (a b : date) : bool := match a, b with Some x, Some y => x <? y | _, _ => false end.
Definition later (a b : date) : bool := earlier b a.
End Event.
Import Event.

(** ** DatabaseAuditStorage *)

Module Storage.

(** observability/audit/audit-storage.ts:3-11 AuditQueryFilters *)
Record filters : Type := Filters {
  f_entityId : option string; f_entityType : option string; f_eventType : option string; f_userId : option string;
  f_startDate : option date; f_endDate : option date; f_success : option bool;
}.
Definition no_filters : filters := Filters None None None None None None None.

(** The events in memory, and the database behind the client. *)
Record state (D : Type) : Type := State { events : list t; db : D }.
Arguments State {D}. Arguments events {D}. Arguments db {D}.

(** What a row of the table is built from. *)
Definition row_of (e : t) : t * option string :=
  (e, if js_truthy (changes e) then Json.stringify (changes e) else None).

(** observability/audit/audit-storage.ts:30-55 store
    [create] is the client's, when it has one; its errors are ignored. *)
Definition store {D} (create : option (t * option string -> meth D exn unit)) (e : t) : meth (state D) exn unit := fun s =>
  match create with
  | Some f => (State (events s ++ [e]) (f (row_of e) (db s)).1, Ok tt)
  | None => (State (events s ++ [e]) (db s), Ok tt)
  end.

Definition same (f : option string) (v : string) : bool :=
  match f with Some x => negb (str_truthy x) || str_eqb v x | None => true end.
Definition same_opt (f : option string) (v : option string) : bool :=
  match f with Some x => negb (str_truthy x) || bool_decide (v = Some x) | None => true end.
(** observability/audit/audit-storage.ts:58-67 filter *)
Definition matches (f : filters) (e : t) : bool :=
  same (f_entityId f) (entityId e) && same (f_entityType f) (entityType e) && same (f_eventType f) (eventType e) &&
  same_opt (f_userId f) (userId e) &&
  negb (match f_startDate f with Some d => earlier (time e) d | None => false end) &&
  negb (match f_endDate f with Some d => later (time e) d | None => false end) &&
  match f_success f with Some b => Bool.eqb (success e) b | None => true end.
(** observability/audit/audit-storage.ts:57-68 query *)
Definition query {D} (f : filters) : meth (state D) exn (list t) := gets (fun s => base.filter (fun e => matches f e = true) (events s)).

(** observability/audit/audit-storage.ts:73-79 idx
    From the last event down, taking out those before the cut-off. *)
Fixpoint sweep (cutoff : date) (idx : nat) (l : list t) : list t :=
  match idx with
  | O => l
  | S idx => sweep cutoff idx (match l !! idx with
                               | Some e => if earlier (time e) cutoff then base.delete idx l else l
                               | None => l
                               end)
  end.
(** observability/audit/audit-storage.ts:70-82 cleanup *)
Definition cleanup {D} (now olderThanDays : Z) : meth (state D) exn Z := fun s =>
  let l := sweep (time_clip (now - olderThanDays * 86400000)) (length (events s)) (events s) in
  (State l (db s), Ok (Z.of_nat (length (events s)) - Z.of_nat (length l))).

(** *** Theorems *)

Definition recent (cutoff : date) (e : t) : bool := negb (earlier (time e) cutoff).

Lemma sweep_app cutoff a b : sweep cutoff (length a) (a ++ b) = base.filter (fun e => recent cutoff e = true) a ++ b.
Proof.
  revert b. induction a as [|e a IH] using rev_ind; intros b; [done|].
  rewrite length_app, Nat.add_1_r, <- app_assoc. simpl. rewrite list_lookup_middle by done.
  rewrite filter_app, filter_cons, filter_nil.
  destruct (earlier (time e) cutoff) eqn:E; [rewrite delete_middle|]; rewrite IH, <- app_assoc; case_decide as Hd; unfold recent in Hd; rewrite E in Hd; done.
Qed.

(** Cleaning up keeps, in their order, exactly the events that are not older
    than the cut-off (those with no valid time among them) and counts the
    others; a query afterwards sees what it saw before, less those. *)
Theorem cleanup_exact {D} now days f (s : state D) :
  let cutoff := time_clip (now - days * 86400000) in
  let kept := base.filter (fun e => recent cutoff e = true) (events s) in
  cleanup now days s = (State kept (db s), Ok (Z.of_nat (length (events s)) - Z.of_nat (length kept))) /\
  (query f (cleanup now days s).1).2 =
    Ok (base.filter (fun e => recent cutoff e = true) (base.filter (fun e => matches f e = true) (events s))).
Proof.
  intros cutoff kept. assert (sweep cutoff (length (events s)) (events s) = kept) as E.
  { pose proof (sweep_app cutoff (events s) []) as Hs. by rewrite !app_nil_r in Hs. }
  unfold cleanup. fold cutoff. rewrite E. split; [done|]. unfold query, gets. simpl. do 2 f_equal.
  unfold kept. rewrite !list_filter_filter. apply list_filter_iff. tauto.
Qed.
End Storage.

(** ** AuditReporter *)

Module Reporter.
Import Storage.

(** observability/audit/audit-event.ts:22-28 EventStats *)
Record stats : Type := EventStats {
  totalEvents : Z; byEventType : list (string * Z); byAction : list (string * Z); successCount : Z; failureCount : Z;
}.
(** [r[k] = (r[k] || 0) + 1]. *)
Definition bump (k : string) (r : list (string * Z)) : list (string * Z) := jmap_set k (default 0 (jmap_get k r) + 1) r.
(** observability/audit/audit-reporter.ts:25-30 successCount *)
Definition tally (s : stats) (e : t) : stats :=
  EventStats (totalEvents s) (bump (eventType e) (byEventType s)) (bump (action e) (byAction s))
    (successCount s + if success e then 1 else 0) (failureCount s + if success e then 0 else 1).

Section reporter.
Context {S : Type} (storage : filters -> meth S exn (list t)).

(** observability/audit/audit-reporter.ts:13-15 getAuditTrail *)
Definition getAuditTrail (entityId : string) (startDate endDate : option date) : meth S exn (list t) :=
  storage (Filters (Some entityId) None None None startDate endDate None).
(** observability/audit/audit-reporter.ts:17-39 getEventStats *)
Definition getEventStats (startDate endDate : date) : meth S exn stats :=
  events ← storage (Filters None None None None (Some startDate) (Some endDate) None);
  mret (fold_left tally events (EventStats (Z.of_nat (length events)) [] [] 0 0)).
(** observability/audit/audit-reporter.ts:41-44 getChangeHistory *)
Definition getChangeHistory (entityId : string) : meth S exn (list t) :=
  events ← storage (Filters (Some entityId) None None None None None None);
  mret (base.filter (fun e => action e ∈ ["CREATE"; "UPDATE"; "DELETE"]) events).
(** observability/audit/audit-reporter.ts:46-48 getUserActivity *)
Definition getUserActivity (userId : string) (startDate endDate : option date) : meth S exn (list t) :=
  storage (Filters None None None (Some userId) startDate endDate None).
(** observability/audit/audit-reporter.ts:50-53 getSecurityEvents *)
Definition getSecurityEvents (startDate endDate : date) : meth S exn (list t) :=
  events ← storage (Filters None None None None (Some startDate) (Some endDate) None);
  mret (base.filter (fun e => includes "AUTH" (eventType e) || negb (success e) = true) events).
End reporter.

(** *** Theorems *)

Definition total (r : list (string * Z)) : Z := fold_right (fun x n => x.2 + n) 0 r.
Lemma bump_total k r : total (bump k r) = total r + 1.
Proof.
  unfold bump. induction r as [|[k' v] r IH]; simpl; [done|].
  destruct (decide (k = k')); simpl; [lia|]. fold (total r). rewrite IH. unfold total. lia.
Qed.
Lemma bump_get k k' r : default 0 (jmap_get k (bump k' r)) = default 0 (jmap_get k r) + if decide (k = k') then 1 else 0.
Proof. unfold bump. case_decide as Hk; [subst; by rewrite jmap_get_set_eq|rewrite jmap_get_set_ne by done; lia]. Qed.

Definition of_type (k : string) (l : list t) : Z := Z.of_nat (length (base.filter (fun e => k = eventType e) l)).
Lemma tally_spec l s :
  let r := fold_left tally l s in
  totalEvents r = totalEvents s /\ successCount r + failureCount r = successCount s + failureCount s + Z.of_nat (length l) /\
  total (byEventType r) = total (byEventType s) + Z.of_nat (length l) /\ total (byAction r) = total (byAction s) + Z.of_nat (length l) /\
  forall k, default 0 (jmap_get k (byEventType r)) = default 0 (jmap_get k (byEventType s)) + of_type k l.
Proof.
  revert s. induction l as [|e l IH]; intros s; [unfold of_type; simpl; repeat split; intros; lia|].
  destruct (IH (tally s e)) as (H1 & H2 & H3 & H4 & H5). simpl in *. rewrite H1, H2, H3, H4, !bump_total.
  repeat split; [destruct (success e); lia|lia|lia|]. intros k. rewrite H5, bump_get. unfold of_type. rewrite filter_cons.
  case_decide; simpl; lia.
Qed.

(** The statistics over a period account for every event of it: successes and
    failures, the types, and the actions each sum up to the events, and each
    type counts its events. *)
Theorem stats_account {D} a b (s : state D) :
  exists l r, (query (Filters None None None None (Some a) (Some b) None) s).2 = Ok l /\ getEventStats query a b s = (s, Ok r) /\
    totalEvents r = Z.of_nat (length l) /\ successCount r + failureCount r = totalEvents r /\
    total (byEventType r) = totalEvents r /\ total (byAction r) = totalEvents r /\
    forall k, default 0 (jmap_get k (byEventType r)) = of_type k l.
Proof.
  do 2 eexists. split; [reflexivity|]. split; [reflexivity|].
  match goal with |- context [fold_left tally ?l ?s0] => destruct (tally_spec l s0) as (H1 & H2 & H3 & H4 & H5) end.
  simpl in *. rewrite H1, H2, H3, H4. repeat split; try lia. intros k. by rewrite H5.
Qed.
End Reporter.

(** ** AuditRepository *)

Module AuditRepository.
Import Model Base.

(** observability/types.ts:34-44 AuditEvent
    The schema this adapter reads: the user is called an actor in it. *)
Record entry : Type := Entry {
  en_eventType : string; en_entityType : string; en_entityId : string; en_action : string; en_changes : jsval;
  en_timestamp : option date; en_actorId : option string;
}.

Section repository.
Context {T : Type} `{Delegate audit T}.
Abbreviation M := (meth (world T unit) exn).

(** observability/audit/audit-repository.ts:18-28 log
    The client refuses an invalid date. *)
Definition log (now : Z) (id : string) (e : entry) : M unit :=
  match default (Some now) (en_timestamp e) with
  | Some createdAt =>
      AuditLogRepository.create id
        (Audit (en_eventType e) (en_entityType e) (en_entityId e) (AuditLogRepository.or_null (en_actorId e)) (en_action e)
           (js_or (en_changes e) no_rows) None None createdAt);;
      mret tt
  | None => fail (mapDatabaseError (JsTypeError "Invalid value for argument `createdAt`: Provided Date object is invalid."))
  end.
(** observability/audit/audit-repository.ts:33-56 getLogs *)
Definition getLogs (eventType entityId : option string) (range : option (Z * Z)) (page limit : option Z) : M (list (string * audit) * Z) :=
  r ← AuditLogRepository.queryLogs eventType entityId range page limit;
  mret (f_data r, f_total r).
(** observability/audit/audit-repository.ts:61-101 getStats
    The repository has no statistics of its own; a limit without a page limits
    nothing. *)
Definition getStats : M (Z * list (string * Z) * (Z * Z)) :=
  r ← findMany (fun _ => true) (Some (FindOptions None (Some 1000) (fun l => l)));
  let records := f_data r in
  match records with
  | [] => mret (0, [], (0, 0))
  | x :: _ =>
      mret (Z.of_nat (length records), fold_left (fun b r => Reporter.bump (au_eventType r.2) b) records [],
            (au_createdAt x.2, au_createdAt (default x (last records)).2))
  end.
End repository.
End AuditRepository.

(** ** AuditLogger *)

Module AuditLogger.

(** What the constructor looks at of an argument, and what it takes for its
    storage: the first, the second, or one of its own. *)
Record shape : Type := Shape { has_log : bool; has_store : bool; has_query : bool }.
Inductive choice : Type := First | Second | Fresh.
(** observability/audit/audit-logger.ts:12-25 constructor *)
Definition constructor (args : list shape) : choice :=
  let first := default (Shape false false false) (head args) in
  let second := default (Shape false false false) (args !! 1%nat) in
  if has_store first || has_query first then First
  else if has_log second || has_store second then Second else Fresh.

(** The storage with the methods it has. *)
Record storage (S : Type) : Type := Storage { st_log : option (t -> meth S exn unit); st_store : option (t -> meth S exn unit) }.
Arguments Storage {S}. Arguments st_log {S}. Arguments st_store {S}.

(** observability/audit/audit-logger.ts:32-37 event *)
Definition stamp (now : Z) (uuid : string) (e : t) : t :=
  Event (match id e with Some i => if str_truthy i then Some i else Some uuid | None => Some uuid end)
    (Some (default (Some now) (timestamp e))) (eventType e) (entityType e) (entityId e) (action e) (userId e) (apiKeyId e)
    (changes e) (ipAddress e) (userAgent e) (success e) (error e).

Definition bad_read : exn := PlainError "Cannot read properties of undefined (reading 'message')".
Section logger.
Context {S : Type} (logger : bool) (st : storage S) (now : Z) (uuid : string).
Abbreviation M := (meth S exn).

(** observability/audit/audit-logger.ts:30-50 log
    A failure is only logged; reading the message of nothing throws. *)
Definition log (e : t) : M unit :=
  try_catch (match st_log st, st_store st with
             | Some f, _ => f (stamp now uuid e)
             | None, Some f => f (stamp now uuid e)
             | None, None => mret tt
             end)
    (fun err => match err with Foreign v => if logger && is_nullish v then throw bad_read else mret tt | _ => mret tt end).

(** The events the named methods build: a fresh identifier, the time. *)
Definition event (eventType entityType entityId action : string) (userId : option string) (changes : jsval) (ip : option string)
    (success : bool) (error : option string) : t :=
  Event (Some uuid) (Some (Some now)) eventType entityType entityId action userId None changes ip None success error.
Definition before_after (before after : jsval) : jsval := JObject 0 [("before", before); ("after", after)].

(** observability/audit/audit-logger.ts:52-64 logDeliveryCreated *)
Definition logDeliveryCreated (deliveryId resultId destinationId : string) (userId : option string) : M unit :=
  log (event "DELIVERY_CREATED" "Delivery" deliveryId "CREATE" userId
         (before_after JNull (JObject 0 [("resultId", JString resultId); ("destinationId", JString destinationId)])) None true None).
(** observability/audit/audit-logger.ts:66-78 logDeliveryStatusChanged *)
Definition logDeliveryStatusChanged (deliveryId : string) (from to : jsval) (userId : option string) : M unit :=
  log (event "DELIVERY_STATUS_CHANGED" "Delivery" deliveryId "UPDATE" userId
         (before_after (JObject 0 [("status", from)]) (JObject 0 [("status", to)])) None true None).
(** observability/audit/audit-logger.ts:80-92 logDestinationCreated *)
Definition logDestinationCreated (destinationId : string) (type : jsval) (endpoint userId : string) : M unit :=
  log (event "DESTINATION_CREATED" "Destination" destinationId "CREATE" (Some userId)
         (before_after JNull (JObject 0 [("type", type); ("endpoint", JString endpoint)])) None true None).
(** observability/audit/audit-logger.ts:94-106 logDestinationUpdated *)
Definition logDestinationUpdated (destinationId : string) (changes : jsval) (userId : string) : M unit :=
  log (event "DESTINATION_UPDATED" "Destination" destinationId "UPDATE" (Some userId) changes None true None).
(** observability/audit/audit-logger.ts:108-120 logApiKeyCreated *)
Definition logApiKeyCreated (keyId tier userId : string) : M unit :=
  log (event "API_KEY_CREATED" "ApiKey" keyId "CREATE" (Some userId) (before_after JNull (JObject 0 [("tier", JString tier)])) None true None).
(** observability/audit/audit-logger.ts:122-134 logApiKeyRevoked *)
Definition logApiKeyRevoked (keyId userId : string) : M unit :=
  log (event "API_KEY_REVOKED" "ApiKey" keyId "UPDATE" (Some userId)
         (before_after (JObject 0 [("revoked", JBool false)]) (JObject 0 [("revoked", JBool true)])) None true None).
(** observability/audit/audit-logger.ts:136-148 logAuthenticationFailed *)
Definition logAuthenticationFailed (reason : string) (ip : option string) : M unit :=
  log (event "AUTH_FAILED" "Authentication" "auth" "EXECUTE" None JUndefined ip false (Some reason)).
(** observability/audit/audit-logger.ts:150-163 logAuthorizationDenied *)
Definition logAuthorizationDenied (resource : string) (userId ip : option string) : M unit :=
  log (event "AUTHZ_DENIED" "Authorization" resource "EXECUTE" userId JUndefined ip false (Some "Permission denied")).
(** observability/audit/audit-logger.ts:165-176 logAuthAttempt *)
Definition logAuthAttempt (success : bool) (userId : option string) : M unit :=
  log (event (if success then "AUTH_SUCCESS" else "AUTH_FAILURE") "Authentication" (str_or (default "" userId) "auth")
         (if success then "login_success" else "login_failure") userId JUndefined None success None).
(** observability/audit/audit-logger.ts:178-190 logSecurityEvent *)
Definition logSecurityEvent (eventType severity : string) (data : jsval) : M unit :=
  log (event eventType "Security" severity "EXECUTE" None data None true None).
(** observability/audit/audit-logger.ts:195-214 logEvent *)
Definition logEvent (eventType entityType : string) (entityId : option string) (action : string) (changes : jsval) (actorId : option string) : M unit :=
  log (event eventType entityType (str_or (default "" entityId) "none") (str_or action "EXECUTE") actorId changes None true None).
End logger.

(** *** Theorems *)

(** What the callers ask the logger to record. *)
Inductive call : Type :=
| DeliveryCreated (deliveryId resultId destinationId : string) (userId : option string)
| DeliveryStatusChanged (deliveryId : string) (from to : jsval) (userId : option string)
| DestinationCreated (destinationId : string) (type : jsval) (endpoint userId : string)
| DestinationUpdated (destinationId : string) (changes : jsval) (userId : string)
| ApiKeyCreated (keyId tier userId : string) | ApiKeyRevoked (keyId userId : string)
| AuthenticationFailed (reason : string) (ip : option string)
| AuthorizationDenied (resource : string) (userId ip : option string)
| AuthAttempt (success : bool) (userId : option string)
| SecurityEvent (eventType severity : string) (data : jsval)
| AnyEvent (eventType entityType : string) (entityId : option string) (action : string) (changes : jsval) (actorId : option string).
Definition perform {S} (logger : bool) (st : storage S) (now : Z) (uuid : string) (c : call) : meth S exn unit :=
  match c with
  | DeliveryCreated d r x u => logDeliveryCreated logger st now uuid d r x u
  | DeliveryStatusChanged d a b u => logDeliveryStatusChanged logger st now uuid d a b u
  | DestinationCreated d ty e u => logDestinationCreated logger st now uuid d ty e u
  | DestinationUpdated d ch u => logDestinationUpdated logger st now uuid d ch u
  | ApiKeyCreated k ti u => logApiKeyCreated logger st now uuid k ti u
  | ApiKeyRevoked k u => logApiKeyRevoked logger st now uuid k u
  | AuthenticationFailed r i => logAuthenticationFailed logger st now uuid r i
  | AuthorizationDenied r u i => logAuthorizationDenied logger st now uuid r u i
  | AuthAttempt b u => logAuthAttempt logger st now uuid b u
  | SecurityEvent e sv d => logSecurityEvent logger st now uuid e sv d
  | AnyEvent e ty i a ch u => logEvent logger st now uuid e ty i a ch u
  end.
(** Who is behind a call, and whether what it records went well. *)
Definition who (c : call) : option string :=
  match c with
  | DeliveryCreated _ _ _ u | DeliveryStatusChanged _ _ _ u | AuthorizationDenied _ u _ | AuthAttempt _ u | AnyEvent _ _ _ _ _ u => u
  | DestinationCreated _ _ _ u | DestinationUpdated _ _ u | ApiKeyCreated _ _ u | ApiKeyRevoked _ u => Some u
  | AuthenticationFailed _ _ | SecurityEvent _ _ _ => None
  end.
Definition went_well (c : call) : bool :=
  match c with AuthenticationFailed _ _ | AuthorizationDenied _ _ _ => false | AuthAttempt b _ => b | _ => true end.

Lemma stamp_event now uuid et ent eid act u ch ip ok err :
  str_truthy uuid = true -> stamp now uuid (event now uuid et ent eid act u ch ip ok err) = event now uuid et ent eid act u ch ip ok err.
Proof. intros Hu. unfold stamp, event. simpl. by rewrite Hu. Qed.

(** Every call is one event, with the caller, the outcome and the time, logged
    as it is. *)
Lemma perform_event {S} logger (st : storage S) now uuid c :
  str_truthy uuid = true ->
  exists e, perform logger st now uuid c = log logger st now uuid e /\ stamp now uuid e = e /\
    userId e = who c /\ success e = went_well c /\ timestamp e = Some (Some now) /\ id e = Some uuid.
Proof. intros Hu. destruct c; eexists; (split; [reflexivity|]); (split; [by apply stamp_event|]); repeat split. Qed.

(** Over the storage in memory, whatever the database does with its copy, each
    call appends one event that says who, when and whether it went well, and
    never fails. *)
Theorem memory_trail_complete {D} create logger now uuid c (s : Storage.state D) :
  str_truthy uuid = true ->
  exists e, Storage.events (perform logger (Storage None (Some (Storage.store create))) now uuid c s).1 = Storage.events s ++ [e] /\
    userId e = who c /\ success e = went_well c /\ timestamp e = Some (Some now) /\ id e = Some uuid /\
    (perform logger (Storage None (Some (Storage.store create))) now uuid c s).2 = Ok tt.
Proof.
  intros Hu. destruct (perform_event logger (Storage None (Some (Storage.store create))) now uuid c Hu) as (e & -> & He & H1 & H2 & H3 & H4).
  exists e. unfold log. simpl. rewrite He. unfold try_catch, Storage.store. by destruct create.
Qed.

Section wired.
Import Model Base.
Context {T : Type} `{Delegate audit T}.





End wired.

Lemma memory_trail_complete_witness :
  let s := Storage.State [] tt in
  exists e, Storage.events (perform false (Storage None (Some (Storage.store None))) 7 "u1" (AuthAttempt false (Some "bob")) s).1 = [e] /\
    userId e = Some "bob" /\ success e = false.
Proof.
  destruct (memory_trail_complete None false 7 "u1" (AuthAttempt false (Some "bob")) (Storage.State [] tt) eq_refl) as (e & H1 & H2 & H3 & _).
  exists e. exact (conj H1 (conj H2 H3)).
Defined.
End AuditLogger.
