(* ===== verification/Logging.v ===== *)
(** * Logs

    [observability/logging/] and [observability/context/]: the context of a line
    ([LogContext]), the one that follows asynchronous calls
    ([CorrelationContext]), the masking of secrets ([LogFormatter]), and what the
    logger adds to a line ([Logger], [Levels]).  The writing of lines is pino's. *)
From Stdlib Require Import Ascii QArith Qround Qpower Qabs Lqa.
From stdpp Require Import base tactics numbers list strings gmap sorting pretty.
From S2P Require Import Prelude JsNum JsValue Text IsoDate.

(** ** Objects *)

Module Obj.

Abbreviation obj := (list (string * jsval)).
(** [{ ...a, ...b }]. *)
Definition spread (a b : obj) : obj := fold_left (fun m x => jmap_set x.1 x.2 m) b a.
(** [...(s ? { [k]: s } : {})]. *)
Definition when (k : string) (s : option string) : obj :=
  match s with Some x => if str_truthy x then [(k, JString x)] else [] | None => [] end.

Lemma spread_get a b k :
  NoDup (map fst b) -> jmap_get k (spread a b) = match jmap_get k b with Some v => Some v | None => jmap_get k a end.
Proof.
  unfold spread. revert a. induction b as [|[k' v] b IH]; intros a Hb; [done|]. simpl in *. apply NoDup_cons in Hb as [Hn Hb].
  rewrite IH by done. case_decide as Hk.
  - subst k'. by rewrite (proj2 (jmap_get_None_keys k b) Hn), jmap_get_set_eq.
  - by rewrite jmap_get_set_ne.
Qed.
Lemma spread_NoDup a b : NoDup (map fst a) -> NoDup (map fst (spread a b)).
Proof.
  unfold spread. revert a. induction b as [|[k v] b IH]; intros a Ha; [done|]. simpl. apply IH. by apply jmap_set_NoDup.
Qed.
Lemma jmap_get_app (a b : obj) k : jmap_get k (a ++ b) = match jmap_get k a with Some v => Some v | None => jmap_get k b end.
Proof. induction a as [|[k' v] a IH]; simpl; [done|]. by destruct (decide (k = k')). Qed.

(** [Object.entries] of a value. *)
Definition numbered (l : list jsval) : obj := imap (fun i x => (pretty (N.of_nat i), x)) l.
Definition entries (v : jsval) : obj :=
  match v with
  | JObject _ fs => fs
  | JError _ fs => enumerable fs
  | JArray _ l => numbered l
  | JString s => numbered (map (fun c => JString (String c EmptyString)) (String.list_ascii_of_string s))
  | _ => []
  end.
End Obj.
Import Obj.

(** ** LogContext *)

Module LogContext.

(** observability/logging/log-context.ts:22-34 LogContext *)
Record t : Type := LogContext {
  traceId : option string; spanId : option string; userId : option string; apiKeyId : option string; deliveryId : option string;
  destinationId : option string; component : option string; tenantId : option string; requestId : option string;
  correlationId : option string; custom : option obj; contextData : obj;
}.
(** observability/logging/log-context.ts:4-17 LogContextOptions *)
Record options : Type := Options {
  o_requestId : option string; o_correlationId : option string; o_traceId : option string; o_spanId : option string;
  o_userId : option string; o_apiKeyId : option string; o_deliveryId : option string; o_destinationId : option string;
  o_component : option string; o_tenantId : option string; o_custom : option obj; o_contextData : option obj;
}.
(** [o || ''] *)
Definition or_empty (o : option string) : option string := Some (default "" o).
(** observability/logging/log-context.ts:44-57 constructor *)
Definition of_options (o : options) : t :=
  LogContext (or_empty (o_traceId o)) (or_empty (o_spanId o)) (or_empty (o_userId o)) (or_empty (o_apiKeyId o))
    (or_empty (o_deliveryId o)) (or_empty (o_destinationId o)) (or_empty (o_component o)) (or_empty (o_tenantId o))
    (or_empty (o_requestId o)) (Some (str_or (default "" (o_correlationId o)) (default "" (o_requestId o))))
    (Some (default [] (o_custom o))) (default (default [] (o_custom o)) (o_contextData o)).
(** observability/logging/log-context.ts:58-66 constructor *)
Definition of_ids (traceId spanId userId tenantId requestId : string) (contextData : obj) : t :=
  LogContext (Some traceId) (Some spanId) (Some userId) None None None None (Some tenantId) (Some requestId) (Some requestId)
    None contextData.
(** [new LogContext()]. *)
Definition empty : t := of_ids "" "" "" "" "" [].

(** observability/logging/log-context.ts:69-83 with
    The correlation is not passed on. *)
Definition with_ (additionalContext : obj) (c : t) : t :=
  of_options (Options (requestId c) None (traceId c) (spanId c) (userId c) (apiKeyId c) (deliveryId c) (destinationId c)
    (component c) (tenantId c) (Some (spread (default [] (custom c)) additionalContext)) (Some (spread (contextData c) additionalContext))).

(** observability/logging/log-context.ts:87-96 toJSON *)
Definition ids (c : t) : obj :=
  when "traceId" (traceId c) ++ when "spanId" (spanId c) ++ when "userId" (userId c) ++ when "apiKeyId" (apiKeyId c) ++
  when "deliveryId" (deliveryId c) ++ when "destinationId" (destinationId c) ++ when "component" (component c) ++
  when "tenantId" (tenantId c) ++ when "requestId" (requestId c) ++ when "correlationId" (correlationId c).
(** observability/logging/log-context.ts:85-100 toJSON *)
Definition toJSON (c : t) : obj := spread (spread (ids c) (contextData c)) (default [] (custom c)).

(** What is read of a request: the active span and the headers. *)
Record request : Type := Request {
  span : option (string * string); h_trace : string; h_span : string; h_request : string; h_tenant : string;
  correlation : string; subject : string; user : string;
}.
(** observability/logging/log-context.ts:102-123 fromRequest *)
Definition fromRequest (r : request) : t :=
  let traceId := str_or (default "" (fst <$> span r)) (h_trace r) in
  let spanId := str_or (default "" (snd <$> span r)) (h_span r) in
  let requestId := str_or (h_request r) (correlation r) in
  of_options (Options (Some requestId) (Some requestId) (Some traceId) (Some spanId) (Some (str_or (subject r) (user r)))
    None None None None (Some (h_tenant r)) None None).

(** *** Theorems *)

(** The objects of a context have each key once. *)
Definition wf (c : t) : Prop := NoDup (map fst (contextData c)) /\ NoDup (map fst (default [] (custom c))).

Lemma toJSON_get c k : wf c ->
  jmap_get k (toJSON c) =
    match jmap_get k (default [] (custom c)) with
    | Some v => Some v
    | None => match jmap_get k (contextData c) with Some v => Some v | None => jmap_get k (ids c) end
    end.
Proof. intros [H1 H2]. unfold toJSON. by rewrite !spread_get by done. Qed.

Lemma when_get k k' s : jmap_get k (when k' s) = if decide (k = k') then head (map snd (when k' s)) else None.
Proof. unfold when. destruct s as [s|]; [destruct (str_truthy s)|]; simpl; by destruct (decide (k = k')). Qed.
Lemma when_or_empty k s : when k (or_empty s) = when k s.
Proof. by destruct s as [s|]. Qed.

Lemma with_ids_get k a c : k <> "correlationId" -> jmap_get k (ids (with_ a c)) = jmap_get k (ids c).
Proof.
  intros Hk. unfold ids, with_, of_options.
  cbn [traceId spanId userId apiKeyId deliveryId destinationId component tenantId requestId correlationId
       o_traceId o_spanId o_userId o_apiKeyId o_deliveryId o_destinationId o_component o_tenantId o_requestId o_correlationId].
  rewrite !when_or_empty, !jmap_get_app, !(when_get k "correlationId"), !decide_False by done.
  done.
Qed.

(** A context with more data writes that data, and everything it wrote before
    under other keys, except the correlation: unless the data has one, it
    becomes the request. *)
Theorem with_writes a c k : wf c -> NoDup (map fst a) ->
  wf (with_ a c) /\
  (forall v, jmap_get k a = Some v -> jmap_get k (toJSON (with_ a c)) = Some v) /\
  (jmap_get k a = None -> k <> "correlationId" -> jmap_get k (toJSON (with_ a c)) = jmap_get k (toJSON c)) /\
  correlationId (with_ a c) = Some (default "" (requestId c)).
Proof.
  intros [Hd Hc] Ha. assert (wf (with_ a c)) as Hw by (split; by apply spread_NoDup).
  split; [done|]. split; [|split].
  - intros v Hv. rewrite toJSON_get by done. unfold with_, of_options. simpl. by rewrite spread_get, Hv.
  - intros Hn Hk. rewrite !toJSON_get, with_ids_get by done. unfold with_, of_options. simpl. by rewrite !spread_get, Hn.
  - unfold with_, of_options. simpl. by destruct (requestId c).
Qed.

Definition sample : t :=
  of_options (Options (Some "r1") (Some "c9") None None (Some "u1") None None None None None None (Some [("step", JString "a")])).
Lemma with_writes_witness :
  jmap_get "step" (toJSON (with_ [("n", JNum (ofZ 1))] sample)) = Some (JString "a") /\
  correlationId sample = Some "c9" /\ correlationId (with_ [("n", JNum (ofZ 1))] sample) = Some "r1".
Proof.
  destruct (with_writes [("n", JNum (ofZ 1))] sample "step") as (_ & _ & H & Hc).
  - split; repeat constructor; set_solver.
  - repeat constructor; set_solver.
  - split; [exact (H eq_refl ltac:(discriminate))|]. split; [reflexivity|exact Hc].
Defined.
End LogContext.

(** ** CorrelationContext *)

Module CorrelationContext.
Import LogContext.

(** The storage of one flow of asynchronous calls. *)
Definition store : Type := option t.
(** What the methods take: a context, or plain data. *)
Inductive given : Type := Context (c : t) | Data (o : obj).
Definition current (s : store) : t := default empty s.

(** observability/context/correlation-context.ts:13-17 set *)
Definition set (g : given) (s : store) : store :=
  Some (with_ (match g with Context c => toJSON c | Data o => o end) (current s)).
(** observability/context/correlation-context.ts:22-24 get *)
Definition get (s : store) : t := current s.
(** observability/context/correlation-context.ts:29-33 merge *)
Definition merge (partial : obj) (s : store) : store := Some (with_ partial (current s)).
(** observability/context/correlation-context.ts:38-40 clear *)
Definition clear (s : store) : store := Some empty.
(** observability/context/correlation-context.ts:45-48 run
    The callback has a store of its own; the caller's is as it was. *)
Definition run {A} (g : t + options) (fn : store -> store * A) (s : store) : store * A :=
  (s, (fn (Some (match g with inl c => c | inr o => of_options o end))).2).

(** *** Theorems *)

(** What is set or merged is written with every line, but is never among the
    identifiers the context answers with: a trace, a user or a request set this
    way leaves [traceId], [userId] and [requestId] as they were, and the
    correlation becomes the request's. *)
Theorem set_is_data g s :
  let c := get (set g s) in
  default "" (traceId c) = default "" (traceId (get s)) /\ default "" (userId c) = default "" (userId (get s)) /\
  default "" (requestId c) = default "" (requestId (get s)) /\ default "" (correlationId c) = default "" (requestId (get s)).
Proof.
  unfold get, set, with_, of_options. simpl. repeat split; try done.
Qed.
(** What runs under a context of its own leaves the caller's alone. *)
Lemma run_isolated {A} g (fn : store -> store * A) s : (run g fn s).1 = s.
Proof. done. Qed.

Example set_user_lost :
  let s := set (Data [("userId", JString "u1")]) None in
  (userId (get s), jmap_get "userId" (toJSON (get s))) = (Some "", Some (JString "u1")).
Proof. vm_compute. reflexivity. Qed.
End CorrelationContext.

(** ** LogFormatter *)

Module LogFormatter.

(** observability/logging/log-formatter.ts:13-13 sensitiveKeys *)
Definition sensitiveKeys : list string := ["password"; "secret"; "token"; "authorization"; "apiKey"; "api_key"; "privateKey"].
(** observability/logging/log-formatter.ts:17-18 isSecret *)
Definition isSecret (key : string) : bool := existsb (fun s => includes (to_lower s) (to_lower key)) sensitiveKeys.
Definition is_text (v : jsval) : bool := match v with JString _ => true | _ => false end.
Definition redacted : jsval := JString "[REDACTED]".

(** observability/logging/log-formatter.ts:10-30 sanitizeData
    An array inside is kept as it is; one given as the data becomes an object
    of its items. *)
Fixpoint sanitizeData (data : jsval) : jsval :=
  let item k v :=
    if isSecret k && is_text v then redacted
    else match v with JObject _ _ | JError _ _ => sanitizeData v | _ => v end in
  match data with
  | JObject _ fs => JObject 0 (map (fun x => (x.1, item x.1 x.2)) fs)
  | JError _ fs => JObject 0 (enumerable (map (fun x => (x.1, item x.1 x.2)) fs))
  | JArray _ l => JObject 0 (numbered (map (item "") l))
  | _ => data
  end.

Definition iso_now (now : Z) : jsval := JString (IsoDate.iso_string now).
Definition context_of (c : LogContext.t + jsval) : jsval := match c with inl c => JObject 0 (LogContext.toJSON c) | inr v => v end.
(** observability/logging/log-formatter.ts:35-51 formatLog *)
Definition formatLog (now : Z) (level message : string) (context : LogContext.t + jsval) (data : jsval) : jsval :=
  JObject 0 [("timestamp", iso_now now); ("level", JString (to_lower level)); ("message", JString message);
             ("context", context_of context); ("data", sanitizeData (js_or data (JObject 0 [])))].
(** observability/logging/log-formatter.ts:56-70 formatError *)
Definition formatError (now : Z) (name message stack : jsval) (context : LogContext.t + jsval) : jsval :=
  JObject 0 [("timestamp", iso_now now); ("level", JString "error"); ("message", message);
             ("error", JObject 0 [("name", name); ("message", message); ("stack", stack)]); ("context", context_of context)].

(** *** Theorems *)

(** Along objects, no text is left under a name that is sensitive. *)
Definition hidden (k : string) (v : jsval) : bool :=
  match v with JString s => negb (isSecret k) || str_eqb s "[REDACTED]" | _ => true end.
Fixpoint masked (v : jsval) : bool :=
  match v with
  | JObject _ fs | JError _ fs => forallb (fun x => hidden x.1 x.2 && masked x.2) fs
  | _ => true
  end.
(** What becomes of a property. *)
Definition item (k : string) (v : jsval) : jsval :=
  if isSecret k && is_text v then redacted
  else match v with JObject _ _ | JError _ _ => sanitizeData v | _ => v end.

Lemma item_masked k v : masked (sanitizeData v) = true -> hidden k (item k v) && masked (item k v) = true.
Proof.
  intros Hv. unfold item. destruct v; simpl in *; rewrite ?andb_true_r, ?andb_false_r; try done.
  unfold hidden. by destruct (isSecret k).
Qed.
Lemma items_masked fs :
  Forall (fun x => masked (sanitizeData x.2) = true) fs ->
  forallb (fun x => hidden x.1 x.2 && masked x.2) (map (fun x => (x.1, item x.1 x.2)) fs) = true.
Proof. induction 1 as [|[k v] fs Hv Hfs IH]; [done|]. cbn [map forallb fst snd] in *. by rewrite item_masked, IH. Qed.
Lemma lower_digits s : str_forall is_digit s = true -> to_lower s = s.
Proof.
  unfold to_lower. induction s as [|c s IH]; [done|]. simpl. intros [Hc Hs]%andb_true_iff. rewrite IH by done. f_equal.
  clear -Hc. by destruct c as [[] [] [] [] [] [] [] []].
Qed.
Lemma isSecret_digits (n : N) : isSecret (pretty n) = false.
Proof.
  pose proof (pretty_N_digits n) as Hd. unfold isSecret. rewrite (lower_digits _ Hd).
  assert (forall c, is_digit c = false -> avoids c (pretty n) = true) as Ha.
  { intros c Hc. unfold avoids. eapply str_forall_impl; [|exact Hd]. intros d Hd'. destruct (Ascii.eqb_spec c d); [congruence|done]. }
  unfold sensitiveKeys, to_lower. cbn [existsb str_map]. by rewrite !(fun c p H => avoids_includes c p _ (Ha c H)) by done.
Qed.
Lemma numbered_masked l : Forall (fun x => masked (sanitizeData x) = true) l ->
  forallb (fun x => hidden x.1 x.2 && masked x.2) (numbered (map (item "") l)) = true.
Proof.
  intros Hl. apply forallb_forall. intros [k v] Hin%list_elem_of_In.
  apply elem_of_lookup_imap in Hin as (i & x & [= -> ->] & Hx%list_elem_of_lookup_2).
  apply list_elem_of_fmap in Hx as (y & -> & Hy). rewrite Forall_forall in Hl. cbn [fst snd].
  apply andb_true_iff. split.
  - unfold hidden. rewrite isSecret_digits. by destruct (item "" y).
  - by apply (proj1 (andb_true_iff _ _) (item_masked "" y (Hl y Hy))).
Qed.

(** C18: Along the objects of the data no text is left under a sensitive name, and
    every property that is neither sensitive nor an object is as it was. *)
Theorem secrets_masked v :
  masked (sanitizeData v) = true /\
  forall l fs k x, v = JObject l fs -> jmap_get k fs = Some x -> is_object x = false -> isSecret k && is_text x = false ->
    js_get k (sanitizeData v) = x.
Proof.
  split.
  - induction v as [v Hv|l fs IH|l fs IH|l vs IH] using jsval_rect'.
    + by destruct v.
    + by apply items_masked.
    + apply forallb_forall. intros x Hx%list_elem_of_In. apply list_elem_of_filter in Hx as [_ Hx].
      pose proof (items_masked fs IH) as Hm. rewrite forallb_forall in Hm. by apply Hm, list_elem_of_In.
    + by apply numbered_masked.
  - intros l fs k x -> Hg Ho Hs. simpl. fold item.
    induction fs as [|[k' y] fs IH]; [done|]. simpl in *. unfold str_eqb. case_decide as Hk.
    + subst k'. injection Hg as ->. rewrite bool_decide_true by done. simpl. fold (item k x). unfold item. rewrite Hs. by destruct x.
    + rewrite bool_decide_false by done. by apply IH.
Qed.

(** A list is not looked into, and what is not a text is kept. *)
Lemma lists_kept l n k vs : sanitizeData (JObject l [(k, JArray n vs)]) = JObject 0 [(k, JArray n vs)].
Proof. simpl. by rewrite andb_false_r. Qed.
Example list_of_secrets :
  sanitizeData (JObject 1 [("users", JArray 2 [JObject 3 [("password", JString "hunter2")]])]) =
  JObject 0 [("users", JArray 2 [JObject 3 [("password", JString "hunter2")]])].
Proof. reflexivity. Qed.
Lemma secrets_masked_witness :
  js_get "size" (sanitizeData (JObject 1 [("apiKey", JString "k"); ("size", JNum (ofZ 3))])) = JNum (ofZ 3).
Proof.
  exact (proj2 (secrets_masked (JObject 1 [("apiKey", JString "k"); ("size", JNum (ofZ 3))])) _ _ "size" _ eq_refl eq_refl eq_refl eq_refl).
Defined.
End LogFormatter.

(** ** Logger *)

Module Logger.
Import LogContext.

(** What a call passes with its message. *)
Inductive ctx : Type := NoCtx | OfContext (c : t) | Value (v : jsval).

(** The active span, and the metadata of the logger. *)
Record state : Type := Logger { active : option (string * string); contextMetadata : obj }.

(** observability/logging/logger.ts:57-67 getCorrelationContext *)
Definition getCorrelationContext (s : state) : obj :=
  match active s with Some (traceId, spanId) => [("traceId", JString traceId); ("spanId", JString spanId)] | None => [] end.
(** observability/logging/logger.ts:49-50 errorPayload *)
Definition errorPayload (ctx : jsval) : obj :=
  let targetError := js_or (js_get "err" ctx) (js_get "error" ctx) in
  if js_truthy targetError then
    [("err", JObject 0 (spread [("message", js_get "message" targetError); ("stack", js_get "stack" targetError)] (entries targetError)))]
  else [].
Definition rest (ctx : jsval) : obj := filter (fun x => x.1 ∉ ["err"; "error"]) (entries ctx).
(** observability/logging/logger.ts:37-55 processContext *)
Definition processContext (c : ctx) (s : state) : obj :=
  let merged := spread (getCorrelationContext s) (contextMetadata s) in
  match c with
  | NoCtx => merged
  | OfContext c => spread merged (toJSON c)
  | Value v =>
      if negb (js_truthy v) then merged
      else if is_object v then spread (spread merged (rest v)) (errorPayload v)
      else spread merged [("customContext", v)]
  end.
(** observability/logging/logger.ts:69-71 debug *)
Definition debug (message : string) (data : ctx) (s : state) : string * obj * string := ("debug", processContext data s, message).
(** observability/logging/logger.ts:73-75 info *)
Definition info (message : string) (data : ctx) (s : state) : string * obj * string := ("info", processContext data s, message).
(** observability/logging/logger.ts:77-79 warn *)
Definition warn (message : string) (data : ctx) (s : state) : string * obj * string := ("warn", processContext data s, message).
(** observability/logging/logger.ts:81-85 error
    A value that is not an error is made one of its text, with the stack of
    this place. *)
Definition error (stack : jsval) (message : string) (error : jsval) (data : obj) (s : state) : string * obj * string :=
  let errObj := match error with
                | JError _ _ => Some error
                | _ => if js_truthy error then Some (JError 0 [("message", JString (js_String error)); ("stack", stack)]) else None
                end in
  let combinedData := spread (match errObj with Some e => [("err", e)] | None => [] end) data in
  ("error", processContext (Value (JObject 0 combinedData)) s, message).
(** observability/logging/logger.ts:87-89 trace *)
Definition trace (message : string) (data : ctx) (s : state) : string * obj * string := ("trace", processContext data s, message).
(** observability/logging/logger.ts:91-94 withContext *)
Definition withContext (context : obj) (s : state) : state := Logger (active s) (spread (contextMetadata s) context).

(** *** Theorems *)

Lemma rest_get v k : k ∉ ["err"; "error"] -> jmap_get k (rest v) = jmap_get k (entries v).
Proof.
  intros Hk. unfold rest. induction (entries v) as [|[k' x] l IH]; [done|]. rewrite filter_cons. simpl.
  case_decide as Hd; simpl; repeat case_decide; subst; try done; naive_solver.
Qed.
Lemma rest_NoDup v : NoDup (map fst (entries v)) -> NoDup (map fst (rest v)).
Proof.
  unfold rest. induction (entries v) as [|[k x] l IH]; [done|]. simpl. intros [Hn Hl]%NoDup_cons. rewrite filter_cons.
  case_decide; [|by apply IH]. simpl. constructor; [|by apply IH]. intros Hin. apply Hn.
  apply list_elem_of_fmap in Hin as ([k' y] & -> & Hin%list_elem_of_filter). apply list_elem_of_fmap. eexists. by split; [|apply Hin].
Qed.

(** A line carries the data of its call, then what its logger was given, then
    the active span; of two loggers' contexts the later one wins. *)
Theorem line_fields s fs context k l :
  NoDup (map fst (contextMetadata s)) -> NoDup (map fst context) -> NoDup (map fst fs) -> k ∉ ["err"; "error"] ->
  jmap_get k (processContext (Value (JObject l fs)) (withContext context s)) =
    match jmap_get k fs with
    | Some v => Some v
    | None => match jmap_get k context with
              | Some v => Some v
              | None => match jmap_get k (contextMetadata s) with Some v => Some v | None => jmap_get k (getCorrelationContext s) end
              end
    end.
Proof.
  intros Hs Hc Hf Hk. unfold processContext. cbn [js_truthy negb is_object].
  assert (jmap_get k (errorPayload (JObject l fs)) = None /\ NoDup (map fst (errorPayload (JObject l fs)))) as [He1 He2].
  { unfold errorPayload. destruct (js_truthy _); simpl; [|by split; [|constructor]]. rewrite decide_False by set_solver.
    split; [done|]. repeat constructor. set_solver. }
  rewrite spread_get, He1, spread_get, (rest_get _ _ Hk) by (done || by apply rest_NoDup). cbn [entries].
  destruct (jmap_get k fs); [done|]. rewrite spread_get by by apply spread_NoDup. simpl. rewrite spread_get by done.
  by destruct (jmap_get k context).
Qed.
Lemma line_fields_witness :
  jmap_get "queue" (processContext (Value (JObject 0 [("job", JString "j1")]))
    (withContext [("queue", JString "main")] (Logger None [("queue", JString "old")]))) = Some (JString "main").
Proof. refine (line_fields _ _ _ "queue" 0 _ _ _ _); try (repeat constructor; set_solver); set_solver. Defined.

(** An error given with the data is written with its message, stack and own
    properties; the message of one made of a value is that value's text. *)
Lemma error_written stack message v s :
  js_truthy v = true -> (forall l fs, v <> JError l fs) ->
  jmap_get "err" (error stack message v [] s).1.2 =
    Some (JObject 0 [("message", JString (js_String v)); ("stack", stack)]).
Proof.
  intros Hv He. assert (forall c, jmap_get "err" (processContext (Value (JObject 0 [("err", JError 0 [("message", JString c); ("stack", stack)])])) s) =
    Some (JObject 0 [("message", JString c); ("stack", stack)])) as Hc.
  { intros c. unfold processContext. cbn [js_truthy negb is_object]. by rewrite spread_get by (repeat constructor; set_solver). }
  assert (match v with JError _ _ => True | _ => error stack message v [] s =
    ("error", processContext (Value (JObject 0 [("err", JError 0 [("message", JString (js_String v)); ("stack", stack)])])) s, message) end) as E
    by (destruct v; [..|done|]; unfold error; by rewrite ?Hv).
  destruct v; [..|by destruct (He loc fields)|]; rewrite E; exact (Hc _).
Qed.
End Logger.

(** ** Levels *)

Module Levels.

(** observability/logging/log-levels.ts:4-9 LogLevel *)
Inductive LogLevel : Type := DEBUG | INFO | WARN | ERROR.
(** observability/logging/log-levels.ts:15-24 getLogLevel *)
Definition getLogLevel (env : string) : LogLevel :=
  let cleanEnv := to_lower (trim env) in
  if str_eqb cleanEnv "development" || str_eqb cleanEnv "dev" || str_eqb cleanEnv "local" then DEBUG
  else if str_eqb cleanEnv "test" then WARN else INFO.
(** observability/logging/logger-factory.ts:12-12 level *)
Definition level (logging config env : option string) : string :=
  to_lower (str_or (default "" logging) (str_or (default "" config) (str_or (default "" env) "info"))).

(** observability/logging/formatters.ts:8-21 redactPaths *)
Definition redactPaths : list string :=
  ["req.headers.authorization"; "headers.authorization"; "token"; "apiKey"; "jwtSecret"; "apiKeySecret"; "hmacSecret"; "password";
   "email"; "emailId"; "resultPayload.email"; "*.email"].
(** What pino is given: the level, what it masks and how it formats a line. *)
Record pino_options : Type := Pino { p_level : string; p_redact : list string; p_pretty : bool }.
(** observability/logging/formatters.ts:26-42 getDevFormatter *)
Definition getDevFormatter (level : string) : pino_options := Pino level redactPaths true.
(** observability/logging/formatters.ts:47-59 getProdFormatter *)
Definition getProdFormatter (level : string) : pino_options := Pino level redactPaths false.
(** observability/logging/formatters.ts:64-75 getTransport *)
Definition getTransport (env : string) : string := if str_eqb env "production" then "pino/file" else "pino-pretty".
(** observability/logging/logger.ts:24-27 pinoOpts *)
Definition pinoOpts (logLevel config env : option string) (nodeEnv : string) : pino_options :=
  let level := str_or (default "" logLevel) (str_or (default "" config) (str_or (default "" env) "info")) in
  if str_eqb nodeEnv "production" then getProdFormatter level else getDevFormatter level.
(** observability/logging/logger-factory.ts:11-26 createLogger
    The logger the program's observability is started with. *)
Definition createLogger (logging config env : option string) : pino_options := Pino (level logging config env) [] false.

(** Loggers of the class mask the secrets of a line whatever their
    environment; the one the program starts with masks none. *)
Lemma started_logger_masks_nothing ll c e n lg : p_redact (pinoOpts ll c e n) = redactPaths /\ p_redact (createLogger lg c e) = [].
Proof. unfold pinoOpts. by destruct (str_eqb n "production"). Qed.
End Levels.
