(* ===== verification/Telemetry.v ===== *)
(** * Traces and metrics

    [observability/tracing/] and [observability/metrics/]: the credentials of a
    trace and their header ([TraceContext], [TracePropagator]), the spans the
    factory starts and ends ([SpanFactory]), the wrappers of the instruments of a
    meter and their registry ([Instruments]), and the metrics the program exports
    ([Exported]).  OpenTelemetry's contexts are the class [Otel]; prom-client's
    register is the class [Prom], with what the library documents of its metrics. *)
From Stdlib Require Import Ascii QArith Qround Qpower Qabs Lqa.
From stdpp Require Import base tactics numbers list strings gmap sorting pretty.
From S2P Require Import Prelude JsNum JsValue Text Logging.

(** ** Hexadecimal integers *)

Module Hex.

(** [n.toString(16)] of an integer. *)
Fixpoint go (fuel : nat) (n : Z) (acc : string) : string :=
  match fuel with
  | O => acc
  | S fuel => let acc := String (hex_char (Z.to_nat (n mod 16))) acc in if n <? 16 then acc else go fuel (n / 16) acc
  end.
Definition digits (n : Z) : string := go (S (Z.to_nat (Z.log2 n))) n "".
Definition to_hex (n : Z) : string := if n <? 0 then String "-" (digits (- n)) else digits n.
(** [s.padStart(2, '0')]. *)
Definition pad2 (s : string) : string := match s with "" => "00" | String _ "" => String "0" s | _ => s end.

Fixpoint read (s : string) (acc : Z) : Z :=
  match s with
  | String c s => match hex_value c with Some d => read s (16 * acc + Z.of_nat d) | None => acc end
  | EmptyString => acc
  end.
Definition first (p : ascii -> bool) (s : string) : bool := match s with String c _ => p c | EmptyString => false end.
Definition rest (s : string) : string := match s with String _ s => s | EmptyString => s end.
(** [parseInt(s, 16)]; [None] is NaN. *)
Definition parse (s : string) : option Z :=
  let s := trim_start s in
  let neg := first (Ascii.eqb "-") s in
  let s := if neg || first (Ascii.eqb "+") s then rest s else s in
  let s := if starts_with "0x" s || starts_with "0X" s then rest (rest s) else s in
  if first is_hex s then Some (if neg then - read s 0 else read s 0) else None.

Example hex_parse_ex : map parse ["01"; "ff"; " 0x1Fz"; "-a"; "g"; ""] = [Some 1; Some 255; Some 31; Some (-10); None; None].
Proof. vm_compute. reflexivity. Qed.

Lemma hex_char_value d : (d < 16)%nat -> hex_value (hex_char d) = Some d.
Proof. intros Hd. do 16 (destruct d as [|d]; [reflexivity|]). lia. Qed.
Lemma digit_value n : 0 <= n -> hex_value (hex_char (Z.to_nat (n mod 16))) = Some (Z.to_nat (n mod 16)).
Proof. intros Hn. apply hex_char_value. pose proof (Z.mod_pos_bound n 16). lia. Qed.

Lemma go_spec fuel n acc : 0 <= n -> n < 2 ^ Z.of_nat fuel -> fuel <> O ->
  read (go fuel n acc) 0 = read acc n /\ (str_forall is_hex acc = true -> str_forall is_hex (go fuel n acc) = true) /\ go fuel n acc <> "".
Proof.
  revert n acc. induction fuel as [|fuel IH]; intros n acc Hn Hf Hz; [done|]. cbn [go]. pose proof (digit_value n Hn) as Hd.
  assert (read (String (hex_char (Z.to_nat (n mod 16))) acc) (n / 16) = read acc n) as Hr.
  { cbn [read]. rewrite Hd. f_equal. pose proof (Z.mod_pos_bound n 16). pose proof (Z.div_mod n 16). lia. }
  assert (str_forall is_hex acc = true -> str_forall is_hex (String (hex_char (Z.to_nat (n mod 16))) acc) = true) as Hx.
  { intros Ha. cbn [str_forall]. unfold is_hex at 1. by rewrite Hd. }
  destruct (n <? 16) eqn:E.
  - apply Z.ltb_lt in E. rewrite Z.div_small in Hr by lia. by rewrite Hr.
  - apply Z.ltb_ge in E. rewrite Nat2Z.inj_succ, Z.pow_succ_r in Hf by lia.
    assert (n / 16 < 2 ^ Z.of_nat fuel) as Hlt by (apply Z.div_lt_upper_bound; lia).
    assert (0 <= n / 16) by (apply Z.div_pos; lia).
    assert (fuel <> O) as Hnz by (intros ->; cbn in Hlt; assert (1 <= n / 16) by (apply Z.div_le_lower_bound; lia); lia).
    destruct (IH (n / 16) (String (hex_char (Z.to_nat (n mod 16))) acc)) as (H1 & H2 & H3); [done..|].
    rewrite H1, Hr. split; [done|]. split; [auto|done].
Qed.
Lemma digits_spec n : 0 <= n -> read (digits n) 0 = n /\ str_forall is_hex (digits n) = true /\ digits n <> "".
Proof.
  intros Hn. unfold digits. destruct (go_spec (S (Z.to_nat (Z.log2 n))) n "") as (H1 & H2 & H3); [done| |done|].
  - rewrite Nat2Z.inj_succ, Z2Nat.id by apply Z.log2_nonneg. destruct (decide (n = 0)) as [->|]; [done|].
    apply Z.log2_spec. lia.
  - rewrite H1. split; [done|]. by split; [apply H2|].
Qed.

Lemma parse_digits s : str_forall is_hex s = true -> s <> "" -> parse s = Some (read s 0).
Proof.
  intros Hs Hne. destruct s as [|c s]; [done|]. cbn [str_forall] in Hs. apply andb_true_iff in Hs as [Hc Hs].
  pose proof (is_hex_plain c Hc) as Hp. apply andb_true_iff in Hp as [Hp _]. apply andb_true_iff in Hp as [Hp _].
  apply negb_true_iff in Hp. unfold parse. cbn [trim_start]. rewrite Hp. cbn [first rest].
  assert (Ascii.eqb "-" c = false /\ Ascii.eqb "+" c = false) as [-> ->] by (clear -Hc; by destruct c as [[] [] [] [] [] [] [] []]).
  cbn [orb]. assert (forall x, is_hex x = false -> starts_with (String "0" (String x "")) (String c s) = false) as Hx.
  { intros x Hx. cbn [starts_with]. destruct s as [|d s]; [by rewrite andb_false_r|]. cbn [str_forall] in Hs.
    apply andb_true_iff in Hs as [Hd _]. rewrite (bool_decide_false (x = d)) by congruence. by rewrite andb_false_r. }
  rewrite !Hx by done. cbn [orb first]. by rewrite Hc.
Qed.
Lemma pad2_spec s : str_forall is_hex s = true -> s <> "" -> str_forall is_hex (pad2 s) = true /\ pad2 s <> "" /\ read (pad2 s) 0 = read s 0.
Proof. intros Hs Hne. destruct s as [|c [|d s]]; [done| |done]. unfold pad2. by cbn [str_forall] in *. Qed.

(** Reading back what was written. *)
Lemma parse_to_hex n : 0 <= n -> parse (pad2 (to_hex n)) = Some n.
Proof.
  intros Hn. unfold to_hex. rewrite (proj2 (Z.ltb_ge _ _)) by done. destruct (digits_spec n Hn) as (H1 & H2 & H3).
  destruct (pad2_spec _ H2 H3) as (H4 & H5 & H6). by rewrite parse_digits, H6, H1.
Qed.
Lemma to_hex_avoids n : 0 <= n -> avoids "-" (pad2 (to_hex n)) = true.
Proof.
  intros Hn. unfold to_hex. rewrite (proj2 (Z.ltb_ge _ _)) by done. destruct (digits_spec n Hn) as (H1 & H2 & H3).
  destruct (pad2_spec _ H2 H3) as (H4 & _ & _). unfold avoids. eapply str_forall_impl; [|exact H4].
  intros c. by destruct c as [[] [] [] [] [] [] [] []].
Qed.
End Hex.

(** ** TraceContext *)

Module TraceContext.

(** observability/tracing/trace-context.ts:6-12 TraceContext
    [traceFlags] is a number, [None] being NaN. *)
Record t : Type := TraceContext {
  traceId : string; spanId : string; parentSpanId : option string; traceFlags : option Z; baggage : list (string * string); remote : bool;
}.
(** observability/tracing/trace-context.ts:14-32 constructor
    The fourth argument is the flags or the baggage. *)
Definition new (traceId spanId : string) (parentSpanId : option string) (flagsOrBaggage : option Z + list (string * string))
    (baggage : list (string * string)) : t :=
  match flagsOrBaggage with
  | inl f => TraceContext traceId spanId parentSpanId f baggage false
  | inr b => TraceContext traceId spanId parentSpanId (Some 1) b false
  end.
(** observability/tracing/trace-context.ts:34-36 getTraceId *)
Definition getTraceId (c : t) : string := traceId c.
(** observability/tracing/trace-context.ts:38-40 getSpanId *)
Definition getSpanId (c : t) : string := spanId c.
(** observability/tracing/trace-context.ts:42-44 getParentSpanId *)
Definition getParentSpanId (c : t) : option string := parentSpanId c.
(** observability/tracing/trace-context.ts:46-48 isRemote *)
Definition isRemote (c : t) : bool := remote c.
Definition flags_text (f : option Z) : string := match f with Some n => pretty n | None => "NaN" end.
(** observability/tracing/trace-context.ts:50-57 toJSON *)
Definition toJSON (c : t) : list (string * string) :=
  [("traceId", traceId c); ("spanId", spanId c); ("parentSpanId", default "" (parentSpanId c)); ("traceFlags", flags_text (traceFlags c))].

(** A span's credentials, and OpenTelemetry's contexts: one carries a span and
    baggage, and setting the span's credentials changes nothing else. *)
Record span_context : Type := SpanContext { s_traceId : string; s_spanId : string; s_traceFlags : Z; s_remote : bool }.
Class Otel (C : Type) := {
  getSpan : C -> option span_context;
  getBaggage : C -> option (list (string * string));
  setSpanContext : span_context -> C -> C;
  get_set s c : getSpan (setSpanContext s c) = Some s;
  baggage_set s c : getBaggage (setSpanContext s c) = getBaggage c;
}.
(** Contexts as pairs. *)
#[global] Program Instance pair_otel : Otel (option span_context * option (list (string * string))) := {
  getSpan := fst; getBaggage := snd; setSpanContext s c := (Some s, c.2);
}.
Solve Obligations with done.

Section otel.
Context {C : Type} `{Otel C}.

(** [e[key] = value], one after the other. *)
Definition entries (l : list (string * string)) : list (string * string) := fold_left (fun m x => jmap_set x.1 x.2 m) l [].
(** observability/tracing/trace-context.ts:62-79 fromContext
    A flag that is zero counts as none. *)
Definition fromContext (ctx : C) : t :=
  let flags := default 0 (s_traceFlags <$> getSpan ctx) in
  new (default "" (s_traceId <$> getSpan ctx)) (default "" (s_spanId <$> getSpan ctx)) None
    (inl (Some (if flags =? 0 then 1 else flags))) (entries (default [] (getBaggage ctx))).
(** observability/tracing/trace-context.ts:94-108 propagate
    [NaN] as flags is sent on as it is; OpenTelemetry reads bits of it, and
    finds none. *)
Definition propagate (active : C) (c : t) : C :=
  if str_truthy (traceId c) && str_truthy (spanId c)
  then setSpanContext (SpanContext (traceId c) (spanId c) (default 0 (traceFlags c)) true) active
  else active.

(** A trace with both identifiers, propagated and read again, is the same
    trace, with the baggage of the context it was put in and no parent; but a
    trace that was not sampled comes back as sampled. *)
Theorem propagate_from (active : C) c :
  traceId c <> "" -> spanId c <> "" ->
  let c' := fromContext (propagate active c) in
  traceId c' = traceId c /\ spanId c' = spanId c /\ parentSpanId c' = None /\ baggage c' = entries (default [] (getBaggage active)) /\
  (forall f, traceFlags c = Some f -> f <> 0 -> traceFlags c' = Some f) /\
  (traceFlags c = Some 0 -> traceFlags c' = Some 1).
Proof.
  intros Ht Hs. unfold propagate, str_truthy. rewrite !(proj2 (str_eqb_neq _ _)) by done. simpl. unfold fromContext.
  rewrite get_set, baggage_set. simpl. repeat split.
  - intros f -> Hf. simpl. by rewrite (proj2 (Z.eqb_neq _ _)).
  - intros ->. done.
Qed.
End otel.

Lemma propagate_from_witness :
  traceFlags (fromContext (propagate (None, Some [("k", "v")]) (TraceContext "t1" "s1" None (Some 0) [] false))) = Some 1.
Proof.
  refine (proj2 (proj2 (proj2 (proj2 (proj2 (propagate_from (None, Some [("k", "v")]) (TraceContext "t1" "s1" None (Some 0) [] false) _ _))))) _);
  [discriminate|discriminate|reflexivity].
Defined.
End TraceContext.

(** ** TracePropagator *)

Module TracePropagator.
Import TraceContext.

Abbreviation headers := (list (string * string)).
(** observability/tracing/trace-propagator.ts:18-27 inject *)
Definition inject (traceContext : t) (h : headers) : headers :=
  let flags := Hex.pad2 (match traceFlags traceContext with Some n => Hex.to_hex n | None => "NaN" end) in
  if str_truthy (traceId traceContext) && str_truthy (spanId traceContext)
  then jmap_set "traceparent" ("00-" +:+ traceId traceContext +:+ "-" +:+ spanId traceContext +:+ "-" +:+ flags) h
  else h.
(** observability/tracing/trace-propagator.ts:32-44 extract *)
Definition extract (h : headers) : option t :=
  let traceparent := str_or (default "" (jmap_get "traceparent" h)) (default "" (jmap_get "Traceparent" h)) in
  if negb (str_truthy traceparent) then None
  else match split_on "-" traceparent with
       | _ :: traceId :: spanId :: flagsStr :: _ => Some (new traceId spanId None (inl (Hex.parse (str_or flagsStr "01"))) [])
       | _ => None
       end.

Section otel.
Context {C : Type} (active : C).
(** The library's propagation, which may throw. *)
Context (lib_extract : headers -> res exn C) (lib_inject : C -> res exn headers).
(** observability/tracing/trace-propagator.ts:49-57 extract *)
Definition extract_context (h : headers) : C := match lib_extract h with Ok c => c | Throw _ => active end.
(** observability/tracing/trace-propagator.ts:62-72 inject *)
Definition inject_context (ctx : C) : headers := match lib_inject ctx with Ok h => h | Throw _ => [] end.
End otel.

(** *** Theorems *)

Lemma split_parent a b c : avoids "-" a = true -> avoids "-" b = true -> avoids "-" c = true ->
  split_on "-" ("00-" +:+ a +:+ "-" +:+ b +:+ "-" +:+ c) = ["00"; a; b; c].
Proof.
  intros Ha Hb Hc. change ("00-" +:+ a +:+ "-" +:+ b +:+ "-" +:+ c) with ("00" +:+ String "-" (a +:+ String "-" (b +:+ String "-" c))).
  by rewrite !split_on_app, split_on_avoids.
Qed.

(** What one service injects another extracts: of a context with both identifiers,
    free of dashes as hexadecimal ones are, and flags that are not negative, the
    identifiers and the flags come back, whatever the headers held; the parent and
    the baggage do not travel. *)
Theorem header_roundtrip c f h :
  traceId c <> "" -> spanId c <> "" -> avoids "-" (traceId c) = true -> avoids "-" (spanId c) = true ->
  traceFlags c = Some f -> 0 <= f ->
  extract (inject c h) = Some (TraceContext (traceId c) (spanId c) None (Some f) [] false).
Proof.
  intros Ht Hs At As Hf Hpos.
  assert (forall x, x <> "" -> str_truthy x = true) as Htr by (intros x Hx; unfold str_truthy; by rewrite (proj2 (str_eqb_neq _ _))).
  assert (forall x, str_truthy ("00-" +:+ x) = true) as H00 by (intros x; by apply Htr).
  assert (str_truthy (Hex.pad2 (Hex.to_hex f)) = true) as Hh.
  { apply Htr. intros E. pose proof (Hex.parse_to_hex f Hpos) as Hp. by rewrite E in Hp. }
  unfold inject, extract. rewrite Hf, (Htr _ Ht), (Htr _ Hs). cbn [andb]. rewrite jmap_get_set_eq. unfold default, id, str_or. rewrite !H00. cbn [negb].
  by rewrite split_parent, Hh, Hex.parse_to_hex by (done || by apply Hex.to_hex_avoids).
Qed.
Lemma header_roundtrip_witness :
  let c := TraceContext "4bf92f3577b34da6a3ce929d0e0e4736" "00f067aa0ba902b7" (Some "p") (Some 1) [("k", "v")] false in
  extract (inject c []) = Some (TraceContext "4bf92f3577b34da6a3ce929d0e0e4736" "00f067aa0ba902b7" None (Some 1) [] false).
Proof.
  refine (header_roundtrip (TraceContext "4bf92f3577b34da6a3ce929d0e0e4736" "00f067aa0ba902b7" (Some "p") (Some 1) [("k", "v")] false) 1 [] _ _ _ _ _ _);
  [discriminate|discriminate|reflexivity|reflexivity|reflexivity|lia].
Defined.
(** A header is not checked: any three dashes make a trace. *)
Example three_dashes : extract [("traceparent", "---")] = Some (TraceContext "" "" None (Some 1) [] false).
Proof. vm_compute. reflexivity. Qed.
End TracePropagator.

(** ** SpanFactory *)

Module SpanFactory.
Import Obj.

(** What a tracer is asked to start: which tracer, the name, the attributes
    and the parent. *)
Record started (P : Type) : Type := Started { own_tracer : bool; name : string; attributes : obj; parent : option P }.
Arguments Started {P}. Arguments own_tracer {P}. Arguments name {P}. Arguments attributes {P}. Arguments parent {P}.
(** What is done to a span. *)
Inductive call : Type :=
| SetAttribute (key : string) (v : jsval) | SetAttributes (a : obj) | AddEvent (name : string) (a : obj) | RecordException (e : jsval)
| SetStatus (s : jsval) | UpdateName (n : string) | AddLink (l : jsval) | AddLinks (l : list jsval) | End.
Abbreviation span := (list call).
Definition SpanWrapper_call (c : call) (s : span) : span := s ++ [c].

(** observability/tracing/span-factory.ts:18-21 setAttribute *)
Definition setAttribute (key : string) (value : jsval) : span -> span := SpanWrapper_call (SetAttribute key value).
(** observability/tracing/span-factory.ts:23-26 setAttributes *)
Definition setAttributes (a : obj) : span -> span := SpanWrapper_call (SetAttributes a).
(** observability/tracing/span-factory.ts:28-31 addEvent *)
Definition addEvent (name : string) (a : obj) : span -> span := SpanWrapper_call (AddEvent name a).
(** observability/tracing/span-factory.ts:33-38 recordException
    When the library's span has it. *)
Definition recordException (has : bool) (e : jsval) (s : span) : span := if has then SpanWrapper_call (RecordException e) s else s.
(** observability/tracing/span-factory.ts:40-43 setStatus *)
Definition setStatus (status : jsval) : span -> span := SpanWrapper_call (SetStatus status).
(** observability/tracing/span-factory.ts:45-48 updateName *)
Definition updateName (name : string) : span -> span := SpanWrapper_call (UpdateName name).
(** observability/tracing/span-factory.ts:50-52 end *)
Definition end_ : span -> span := SpanWrapper_call End.
(** observability/tracing/span-factory.ts:58-63 addLink *)
Definition addLink (has : bool) (link : jsval) (s : span) : span := if has then SpanWrapper_call (AddLink link) s else s.
(** observability/tracing/span-factory.ts:65-70 addLinks *)
Definition addLinks (has : bool) (links : list jsval) (s : span) : span := if has then SpanWrapper_call (AddLinks links) s else s.
(** observability/tracing/span-factory.ts:72-75 addAttribute *)
Definition addAttribute (key : string) (value : jsval) : span -> span := SpanWrapper_call (SetAttribute key value).

Section factory.
Context {P : Type} (tracer : bool) (nodeEnv : string).
(** observability/tracing/span-factory.ts:93-99 getStandardAttributes *)
Definition getStandardAttributes : obj :=
  [("service.name", JString "queueforge"); ("service.version", JString "1.0.0"); ("environment", JString (str_or nodeEnv "development"))].
Definition start (parent : option P) (name : string) (attributes : obj) : started P :=
  if tracer then Started true name (spread getStandardAttributes attributes) parent else Started false name attributes parent.
(** observability/tracing/span-factory.ts:104-114 createSpan *)
Definition createSpan (name : string) (attributes : obj) : started P := start None name attributes.
(** observability/tracing/span-factory.ts:119-134 createChildSpan *)
Definition createChildSpan (parentSpan : P) (name : string) (attributes : obj) : started P := start (Some parentSpan) name attributes.
(** observability/tracing/span-factory.ts:169-183 createSpanFromContext *)
Definition createSpanFromContext (parentContext : P) (name : string) (attributes : obj) : started P := start (Some parentContext) name attributes.
(** observability/tracing/span-factory.ts:139-142 createSpan *)
Definition static_createSpan (name : string) (attributes : obj) : started P := Started false name attributes None.
(** observability/tracing/span-factory.ts:147-151 createChildSpan *)
Definition static_createChildSpan (parentSpan : P) (name : string) (attributes : obj) : started P := Started false name attributes (Some parentSpan).
End factory.

(** Which of its methods a span has. *)
Record methods : Type := Methods { has_recordException : bool; has_setStatus : bool; has_end : bool }.
(** observability/tracing/span-factory.ts:156-167 endSpan
    Recording an error sets the status without looking for the method; a span
    without it throws, and is not ended. *)
Definition endSpan (m : methods) (status : jsval) (error : jsval) (s : span) : span * res exn unit :=
  let ended s := (if has_end m then s ++ [End] else s, Ok tt) in
  if js_truthy error && has_recordException m then
    let s := s ++ [RecordException error] in
    if has_setStatus m then ended (s ++ [SetStatus (JObject 0 [("code", JNum (ofZ 2)); ("message", js_get "message" error)])])
    else (s, Throw (PlainError "span.setStatus is not a function"))
  else if js_truthy status && has_setStatus m then ended (s ++ [SetStatus status])
  else ended s.

(** observability/tracing/span-attributes.ts:47-60 getIngestionSpanAttributes *)
Definition getIngestionSpanAttributes (emailId agentId agentVersion : string) (confidenceScore : num) (destinationCount : jsval)
    (llmModel llmTokensInput llmTokensOutput llmLatencyMs : jsval) : obj :=
  [("operation", JString "ingest_result"); ("email_id", JString emailId); ("agent_id", JString agentId);
   ("agent_version", JString agentVersion); ("confidence_score", JNum confidenceScore);
   ("destination_count", js_nullish_or destinationCount (JNum (ofZ 0))); ("llm_model", js_nullish_or llmModel (JString "N/A"));
   ("llm_tokens_input", js_nullish_or llmTokensInput (JNum (ofZ 0))); ("llm_tokens_output", js_nullish_or llmTokensOutput (JNum (ofZ 0)));
   ("llm_latency_ms", js_nullish_or llmLatencyMs (JNum (ofZ 0)))].
(** observability/tracing/span-attributes.ts:65-75 getProcessingSpanAttributes *)
Definition getProcessingSpanAttributes (deliveryId destinationId destinationType : string) (attemptNumber : Z) (responseStatus responseTimeMs : jsval) : obj :=
  [("operation", JString "process_delivery"); ("delivery_id", JString deliveryId); ("destination_id", JString destinationId);
   ("destination_type", JString destinationType); ("attempt_number", JNum (ofZ attemptNumber));
   ("response_status", js_nullish_or responseStatus (JNum (ofZ 0))); ("response_time_ms", js_nullish_or responseTimeMs (JNum (ofZ 0)))].
(** observability/tracing/span-attributes.ts:80-88 getRetrySpanAttributes
    An invalid date throws. *)
Definition getRetrySpanAttributes (deliveryId : string) (retryCount backoffMs : Z) (nextRetryAt : date) : res exn obj :=
  match nextRetryAt with
  | Some t => Ok [("operation", JString "schedule_retry"); ("delivery_id", JString deliveryId); ("retry_count", JNum (ofZ retryCount));
                  ("backoff_ms", JNum (ofZ backoffMs)); ("next_retry_at", JString (IsoDate.IsoDate.iso_string t))]
  | None => Throw (PlainError "Invalid time value")
  end.
(** observability/tracing/span-attributes.ts:93-99 getRecoverySpanAttributes *)
Definition getRecoverySpanAttributes (jobsRecovered durationMs : Z) : obj :=
  [("operation", JString "recover_stale_jobs"); ("jobs_recovered", JNum (ofZ jobsRecovered)); ("duration_ms", JNum (ofZ durationMs))].
(** observability/tracing/span-attributes.ts:104-111 getCircuitBreakerSpanAttributes *)
Definition getCircuitBreakerSpanAttributes (destinationId state : string) (failureRate : jsval) : obj :=
  [("operation", JString "circuit_breaker_check"); ("destination_id", JString destinationId); ("state", JString state);
   ("failure_rate", js_nullish_or failureRate (JNum (ofZ 0)))].

(** *** Theorems *)

(** The attributes of a call win over the standard ones, which every other
    span of the factory's own tracer carries; the global tracer's carry none. *)
Lemma standard_attributes {P} env (parent : option P) name attributes k :
  NoDup (map fst attributes) ->
  jmap_get k (SpanFactory.attributes (start true env parent name attributes)) =
    match jmap_get k attributes with Some v => Some v | None => jmap_get k (getStandardAttributes env) end /\
  SpanFactory.attributes (start false env parent name attributes) = attributes.
Proof. intros Ha. split; [|done]. unfold start. simpl. by apply spread_get. Qed.

#[global] Instance call_end_dec c : Decision (c = End).
Proof. destruct c; first [by left|by right]. Defined.
Definition ends (s : span) : nat := length (filter (fun c => c = End) s).

Lemma ends_snoc s c : ends (s ++ [c]) = (ends s + if decide (c = End) then 1 else 0)%nat.
Proof. unfold ends. rewrite filter_app, length_app, filter_cons. by destruct (decide (c = End)). Qed.

(** Ending a span of the library ends it once, after its error and the status
    that goes with it. *)
Theorem ended_once status error s :
  let '(s', r) := endSpan (Methods true true true) status error s in
  r = Ok tt /\ ends s' = S (ends s) /\ last s' = Some End /\
  (js_truthy error = true -> RecordException error ∈ s' /\
     SetStatus (JObject 0 [("code", JNum (ofZ 2)); ("message", js_get "message" error)]) ∈ s').
Proof.
  unfold endSpan. cbn [has_recordException has_setStatus has_end]. rewrite !andb_true_r.
  destruct (js_truthy error), (js_truthy status); rewrite !ends_snoc, last_snoc; repeat split; simpl; try lia; try done; set_solver.
Qed.
End SpanFactory.

(** ** Tracer *)

Module Tracer.

(** The wrapper of the SDK: what it is started with, and whether it is. *)
Record state : Type := Tracer { sdk : option (string * num * string); started : bool }.
(** observability/tracing/tracer.ts:18-22 constructor *)
Definition serviceName (jaegerServiceName : option string) : string := str_or (default "" jaegerServiceName) "queueforge".
(** observability/tracing/tracer.ts:27-63 initialize
    [start] is what the library's start does; it is kept even when it throws. *)
Definition initialize (enabled : bool) (endpoint : option string) (sampleRate : option num) (name : string) (start : res exn unit)
    (s : state) : state * res exn unit :=
  if negb enabled then (s, Ok tt)
  else
    let sdk := Some (str_or (default "" endpoint) "http://localhost:4318/v1/traces", default (ofZ 1) sampleRate, name) in
    match start with Ok _ => (Tracer sdk true, Ok tt) | Throw e => (Tracer sdk (started s), Throw e) end.
(** observability/tracing/tracer.ts:68-78 shutdown
    An error is only logged. *)
Definition shutdown (stop : res exn unit) (s : state) : state * res exn unit :=
  match sdk s with
  | None => (s, Ok tt)
  | Some _ => (Tracer (sdk s) (match stop with Ok _ => false | Throw _ => started s end), Ok tt)
  end.
(** observability/tracing/tracer-factory.ts:15-25 resource *)
Definition resource (serviceName appName version appVersion environment env nodeEnv instanceId : option string) (pid : Z) : list (string * string) :=
  let or a b := str_or (default "" a) b in
  [("service.name", or serviceName (or appName "queueforge")); ("service.version", or version (or appVersion "1.0.0"));
   ("deployment.environment", or environment (or env (or nodeEnv "development"))); ("service.instance.id", or instanceId ("instance-" +:+ pretty pid))].
(** observability/tracing/tracer-factory.ts:30-37 collectorUrl
    The exporter: the collector's address, or the console. *)
Definition exporter (collectorUrl env : option string) : option string :=
  let url := str_or (default "" collectorUrl) (default "" env) in if str_truthy url then Some url else None.
End Tracer.

(** ** Instruments and their registry *)

Module Instruments.

Abbreviation attrs := (list (string * string)).
(** What an instrument of the meter was given, in order; [None] when the meter
    could not make one. *)
Abbreviation instrument := (option (list (Z * attrs))).
Definition given (v : Z) (a : attrs) (i : instrument) : instrument := match i with Some l => Some (l ++ [(v, a)]) | None => None end.

(** observability/metrics/counter.ts:23-27 add *)
Definition Counter_add (value : Z) (a : attrs) (i : instrument) : instrument := given value a i.
(** observability/metrics/counter.ts:32-34 increment *)
Definition Counter_increment (a : attrs) : instrument -> instrument := Counter_add 1 a.
(** observability/metrics/histogram.ts:23-27 record *)
Definition Histogram_record (value : Z) (a : attrs) (i : instrument) : instrument := given value a i.
(** observability/metrics/histogram.ts:32-35 recordDuration *)
Definition Histogram_recordDuration (now startTime : Z) (a : attrs) : instrument -> instrument := Histogram_record (now - startTime) a.

(** observability/metrics/gauge.ts:6-19 Gauge
    An instrument that goes up and down, and the value it should have. *)
Record gauge : Type := Gauge { up_down : instrument; currentValue : Z }.
Definition new_gauge (has_instrument : bool) : gauge := Gauge (if has_instrument then Some [] else None) 0.
(** observability/metrics/gauge.ts:24-30 set *)
Definition Gauge_set (value : Z) (a : attrs) (g : gauge) : gauge := Gauge (given (value - currentValue g) a (up_down g)) value.
(** observability/metrics/gauge.ts:35-40 up *)
Definition Gauge_up (a : attrs) (g : gauge) : gauge := Gauge (given 1 a (up_down g)) (currentValue g + 1).
(** observability/metrics/gauge.ts:45-50 down *)
Definition Gauge_down (a : attrs) (g : gauge) : gauge := Gauge (given (-1) a (up_down g)) (currentValue g - 1).
(** observability/metrics/gauge.ts:52-54 getValue *)
Definition Gauge_getValue (g : gauge) : Z := currentValue g.

(** *** The value of a gauge *)

(** What the instrument shows for some attributes, and over all of them. *)
Definition shown (p : attrs -> bool) (i : instrument) : Z := fold_right (fun x n => (if p x.2 then x.1 else 0) + n) 0 (default [] i).
Definition series (a : attrs) : instrument -> Z := shown (fun b => bool_decide (b = a)).
Inductive gauge_call : Type := GSet (v : Z) (a : attrs) | GUp (a : attrs) | GDown (a : attrs).
Definition on_gauge (c : gauge_call) : gauge -> gauge :=
  match c with GSet v a => Gauge_set v a | GUp a => Gauge_up a | GDown a => Gauge_down a end.
Definition attrs_of (c : gauge_call) : attrs := match c with GSet _ a | GUp a | GDown a => a end.
Definition on_gauges (l : list gauge_call) (g : gauge) : gauge := fold_left (fun g c => on_gauge c g) l g.

Lemma shown_given p v a l : shown p (given v a (Some l)) = shown p (Some l) + if p a then v else 0.
Proof. unfold shown. simpl. rewrite foldr_app. simpl. induction l as [|x l IH]; simpl; [lia|]. rewrite IH. lia. Qed.

Lemma on_gauge_shown c v0 l : exists l', up_down (on_gauge c (Gauge (Some l) v0)) = Some l' /\
  forall p, p (attrs_of c) = true -> shown p (Some l) = v0 -> shown p (Some l') = currentValue (on_gauge c (Gauge (Some l) v0)).
Proof.
  destruct c; eexists; (split; [reflexivity|]); intros p Hp Hs; simpl in *;
    match goal with |- shown p (Some (l ++ [(?v, ?a)])) = _ => change (Some (l ++ [(v, a)])) with (given v a (Some l)) end;
    rewrite shown_given, Hp; lia.
Qed.
Lemma on_gauges_shown cs v0 l p :
  Forall (fun c => p (attrs_of c) = true) cs -> shown p (Some l) = v0 ->
  shown p (up_down (on_gauges cs (Gauge (Some l) v0))) = currentValue (on_gauges cs (Gauge (Some l) v0)).
Proof.
  intros Hcs. revert v0 l. induction Hcs as [|c cs Hc Hcs IH]; intros v0 l Hs; [done|]. simpl.
  destruct (on_gauge_shown c v0 l) as (l' & E & Hl). specialize (Hl p Hc Hs).
  destruct (on_gauge c (Gauge (Some l) v0)) as [u v]. simpl in *. subst u. by apply IH.
Qed.

(** Over any calls the series of a gauge add up to its value; used with one set
    of attributes only, that series shows it. *)
Theorem gauge_shown cs a :
  let g := on_gauges cs (new_gauge true) in
  shown (fun _ => true) (up_down g) = Gauge_getValue g /\
  (Forall (fun c => attrs_of c = a) cs -> series a (up_down g) = Gauge_getValue g).
Proof.
  split; [apply on_gauges_shown; [by apply Forall_true|done]|]. intros Hcs. apply on_gauges_shown; [|done].
  eapply Forall_impl; [exact Hcs|]. intros c Hc. by apply bool_decide_eq_true.
Qed.
Lemma gauge_shown_witness :
  let g := on_gauges [GSet 5 []; GDown []; GSet 9 []] (new_gauge true) in series [] (up_down g) = Gauge_getValue g.
Proof. refine (proj2 (gauge_shown [GSet 5 []; GDown []; GSet 9 []] []) _). repeat constructor. Defined.
(** With two, a series shows what the other left. *)
Example two_queues :
  let g := on_gauges [GSet 5 [("queue", "a")]; GSet 3 [("queue", "b")]] (new_gauge true) in
  (series [("queue", "b")] (up_down g), Gauge_getValue g) = (-2, 3).
Proof. vm_compute. reflexivity. Qed.

(** *** MetricsRegistry *)

Inductive kind : Type := KCounter | KGauge | KHistogram.
(** An instrument, with what it was made with and the identity of its object. *)
Record metric : Type := Metric { m_id : N; m_kind : kind; m_name : string; m_unit : string; m_description : string }.
(** observability/metrics/metrics-registry.ts:10-15 MetricsRegistry *)
Record registry : Type := Registry {
  counters : list (string * metric); gauges : list (string * metric); histograms : list (string * metric);
  allMetricsMap : list (string * metric); fresh : N;
}.
Definition empty : registry := Registry [] [] [] [] 0.
Definition map_of (k : kind) (r : registry) : list (string * metric) :=
  match k with KCounter => counters r | KGauge => gauges r | KHistogram => histograms r end.
Definition put (m : metric) (r : registry) : registry :=
  let set := jmap_set (m_name m) m in
  match m_kind m with
  | KCounter => Registry (set (counters r)) (gauges r) (histograms r) (set (allMetricsMap r)) (fresh r)
  | KGauge => Registry (counters r) (set (gauges r)) (histograms r) (set (allMetricsMap r)) (fresh r)
  | KHistogram => Registry (counters r) (gauges r) (set (histograms r)) (set (allMetricsMap r)) (fresh r)
  end.
Definition get_or_make (k : kind) (name unit description : string) (r : registry) : registry * metric :=
  match jmap_get name (map_of k r) with
  | Some m => (r, m)
  | None =>
      let m := Metric (fresh r) k name unit description in
      (put m (Registry (counters r) (gauges r) (histograms r) (allMetricsMap r) (N.succ (fresh r))), m)
  end.
(** observability/metrics/metrics-registry.ts:70-77 getCounter *)
Definition getCounter (name : string) (unit description : option string) : registry -> registry * metric :=
  get_or_make KCounter name (default "1" unit) (default "" description).
(** observability/metrics/metrics-registry.ts:79-86 getGauge *)
Definition getGauge (name : string) (unit description : option string) : registry -> registry * metric :=
  get_or_make KGauge name (default "1" unit) (default "" description).
(** observability/metrics/metrics-registry.ts:88-95 getHistogram *)
Definition getHistogram (name : string) (unit description : option string) : registry -> registry * metric :=
  get_or_make KHistogram name (default "ms" unit) (default "" description).
(** observability/metrics/metrics-registry.ts:97-100 registerCounter *)
Definition registerCounter (m : metric) : registry -> registry := put m.
(** observability/metrics/metrics-registry.ts:102-105 registerGauge *)
Definition registerGauge (m : metric) : registry -> registry := put m.
(** observability/metrics/metrics-registry.ts:107-110 registerHistogram *)
Definition registerHistogram (m : metric) : registry -> registry := put m.
(** observability/metrics/metrics-registry.ts:112-114 getAll *)
Definition getAll (r : registry) : list (string * metric) := allMetricsMap r.
(** observability/metrics/metrics-registry.ts:116-118 getMetrics *)
Definition getMetrics (r : registry) : list (string * metric) := getAll r.
(** observability/metrics/metrics-registry.ts:44-54 shutdown
    When the library's register cannot be cleared nothing is. *)
Definition shutdown (cleared : bool) (r : registry) : registry := if cleared then Registry [] [] [] [] (fresh r) else r.

(** Asking again for an instrument gives the same object, whatever unit it is
    asked with, and changes nothing; asking for one leaves those of the other
    kinds as they are, except in the list of all, where the last of a name wins. *)
Theorem asked_twice k name u d u' d' r :
  let '(r1, m) := get_or_make k name u d r in
  get_or_make k name u' d' r1 = (r1, m) /\ jmap_get name (map_of k r1) = Some m /\
  (forall k', k' <> k -> map_of k' r1 = map_of k' r) /\
  (jmap_get name (map_of k r) = None -> jmap_get name (getAll r1) = Some m).
Proof.
  unfold get_or_make. destruct (jmap_get name (map_of k r)) as [m|] eqn:E.
  - rewrite E. by repeat split.
  - assert (forall m r0, m_name m = name -> m_kind m = k ->
      jmap_get name (map_of k (put m r0)) = Some m /\ jmap_get name (getAll (put m r0)) = Some m /\
      forall k', k' <> k -> map_of k' (put m r0) = map_of k' r0) as Hp.
    { intros m r0 <- <-. unfold put. destruct m as [i [] n un de]; simpl; rewrite !jmap_get_set_eq; (split; [done|]); (split; [done|]); by intros []. }
    match goal with |- context [put ?m ?r0] => destruct (Hp m r0 eq_refl eq_refl) as (H1 & H2 & H3) end.
    rewrite H1. repeat split; [|done]. intros k' Hk. rewrite H3 by done. by destruct k'.
Qed.
Lemma asked_twice_witness : jmap_get "jobs" (getAll (getCounter "jobs" None None empty).1) = Some (Metric 0 KCounter "jobs" "1" "").
Proof. exact (proj2 (proj2 (proj2 (asked_twice KCounter "jobs" "1" "" "ms" "" empty))) eq_refl). Defined.
End Instruments.

(** ** The metrics the program exports *)

Module Exported.

Abbreviation labels := (list (string * string)).
(** prom-client's register: a metric has a name and the labels it may have;
    counting, setting and observing with others fails, and so does counting
    down.  A series is a metric with its labels. *)
Class Prom (R : Type) := {
  declared : string -> R -> option (list string);
  count_of : string -> labels -> R -> Z;
  gauge_of : string -> labels -> R -> option num;
  observed : string -> labels -> R -> list num;
  p_register : string -> list string -> R -> R;
  p_inc : string -> labels -> Z -> R -> option R;
  p_set : string -> labels -> num -> R -> option R;
  p_observe : string -> labels -> num -> R -> option R;
  register_declared n ls r k : declared n r = None -> declared k (p_register n ls r) = if decide (k = n) then Some ls else declared k r;
  inc_ok n l v r ls : declared n r = Some ls -> Forall (fun x => x.1 ∈ ls) l -> 0 <= v -> is_Some (p_inc n l v r);
  inc_count n l v r r' k a : p_inc n l v r = Some r' -> count_of k a r' = count_of k a r + if decide (k = n /\ a = l) then v else 0;
  inc_declared n l v r r' k : p_inc n l v r = Some r' -> declared k r' = declared k r;
  set_ok n l v r ls : declared n r = Some ls -> Forall (fun x => x.1 ∈ ls) l -> is_Some (p_set n l v r);
  set_gauge n l v r r' k a : p_set n l v r = Some r' -> gauge_of k a r' = if decide (k = n /\ a = l) then Some v else gauge_of k a r;
  set_declared n l v r r' k : p_set n l v r = Some r' -> declared k r' = declared k r;
  observe_ok n l v r ls : declared n r = Some ls -> Forall (fun x => x.1 ∈ ls) l -> is_Some (p_observe n l v r);
  observe_declared n l v r r' k : p_observe n l v r = Some r' -> declared k r' = declared k r;
}.

(** A register in memory. *)
Record memory : Type := Memory {
  decls : gmap string (list string); counts : gmap (string * labels) Z; gauges : gmap (string * labels) num; obs : gmap (string * labels) (list num);
}.
Definition fits (n : string) (l : labels) (m : memory) : bool :=
  match decls m !! n with Some ls => forallb (fun x => bool_decide (x.1 ∈ ls)) l | None => false end.
#[global] Program Instance memory_prom : Prom memory := {
  declared n m := decls m !! n; count_of n l m := default 0 (counts m !! (n, l)); gauge_of n l m := gauges m !! (n, l);
  observed n l m := default [] (obs m !! (n, l));
  p_register n ls m := Memory (<[n := ls]> (decls m)) (counts m) (gauges m) (obs m);
  p_inc n l v m := if fits n l m && (0 <=? v) then Some (Memory (decls m) (<[(n, l) := default 0 (counts m !! (n, l)) + v]> (counts m)) (gauges m) (obs m)) else None;
  p_set n l v m := if fits n l m then Some (Memory (decls m) (counts m) (<[(n, l) := v]> (gauges m)) (obs m)) else None;
  p_observe n l v m := if fits n l m then Some (Memory (decls m) (counts m) (gauges m) (<[(n, l) := default [] (obs m !! (n, l)) ++ [v]]> (obs m))) else None;
}.
Lemma fits_declared n l m ls : decls m !! n = Some ls -> Forall (fun x => x.1 ∈ ls) l -> fits n l m = true.
Proof.
  intros E Hl. unfold fits. rewrite E. apply forallb_forall. intros x Hx%list_elem_of_In. rewrite Forall_forall in Hl.
  by apply bool_decide_eq_true, Hl.
Qed.
Next Obligation. intros n ls m k _. simpl. case_decide; [subst; by rewrite lookup_insert_eq|by rewrite lookup_insert_ne]. Qed.
Next Obligation. intros n l v m ls E Hl Hv. simpl. rewrite (fits_declared _ _ _ _ E Hl), (proj2 (Z.leb_le _ _)) by done. by eexists. Qed.
Next Obligation.
  intros n l v m m' k a. simpl. destruct (fits n l m && _); [|done]. intros [= <-]. simpl. case_decide as Hd.
  - destruct Hd as [-> ->]. by rewrite lookup_insert_eq.
  - rewrite lookup_insert_ne by naive_solver. lia.
Qed.
Next Obligation. intros n l v m m' k. simpl. destruct (fits n l m && _); [|done]. by intros [= <-]. Qed.
Next Obligation. intros n l v m ls E Hl. simpl. rewrite (fits_declared _ _ _ _ E Hl). by eexists. Qed.
Next Obligation.
  intros n l v m m' k a. simpl. destruct (fits n l m); [|done]. intros [= <-]. simpl. case_decide as Hd.
  - destruct Hd as [-> ->]. by rewrite lookup_insert_eq.
  - by rewrite lookup_insert_ne by naive_solver.
Qed.
Next Obligation. intros n l v m m' k. simpl. destruct (fits n l m); [|done]. by intros [= <-]. Qed.
Next Obligation. intros n l v m ls E Hl. simpl. rewrite (fits_declared _ _ _ _ E Hl). by eexists. Qed.
Next Obligation. intros n l v m m' k. simpl. destruct (fits n l m); [|done]. by intros [= <-]. Qed.

Section metrics.
Context {R : Type} `{Prom R}.
Abbreviation M := (meth R exn).

(** observability/metrics/counters.ts:138-143 getOrRegisterCounter *)
Definition getOrRegister (m : string * list string) (r : R) : R :=
  match declared m.1 r with Some _ => r | None => p_register m.1 m.2 r end.
Definition register_all (l : list (string * list string)) (r : R) : R := fold_left (fun r m => getOrRegister m r) l r.

(** observability/metrics/counters.ts:28-133 constructor *)
Definition counters : list (string * list string) :=
  [("results_ingested_total", ["agent_id"]); ("results_completed_total", ["agent_id"]); ("results_failed_dlq_total", ["agent_id"]);
   ("delivery_attempts_total", ["destination_type"]); ("delivery_completed_total", ["destination_type"]);
   ("delivery_failed_total", ["destination_type"; "error_code"]); ("delivery_moved_to_dlq_total", ["destination_type"]);
   ("retry_scheduled_total", ["retry_count"]); ("retry_exhausted_total", ["destination_type"]); ("worker_crashes_total", ["queue_name"]);
   ("circuit_breaker_opened_total", ["destination_id"]); ("circuit_breaker_closed_total", ["destination_id"]);
   ("auth_success_total", ["auth_type"]); ("auth_failure_total", ["auth_type"; "reason"]); ("validation_success_total", []);
   ("validation_failure_total", []); ("rate_limit_hits_total", []); ("rate_limit_violations_total", [])].

Definition bad_metric : exn := PlainError "label or value not accepted".
Definition lift (o : R -> option R) : M unit := fun r => match o r with Some r' => (r', Ok tt) | None => (r, Throw bad_metric) end.
Definition inc (name : string) (l : labels) (count : Z) : M unit := lift (p_inc name l count).
(** A label that was given. *)
Definition lab (k : string) (v : option string) : labels := match v with Some v => [(k, v)] | None => [] end.

(** observability/metrics/counters.ts:145-147 incrementResultsIngested *)
Definition incrementResultsIngested (count : Z) (agent_id : option string) : M unit := inc "results_ingested_total" (lab "agent_id" agent_id) count.
(** observability/metrics/counters.ts:149-151 incrementResultsCompleted *)
Definition incrementResultsCompleted (count : Z) (agent_id : option string) : M unit := inc "results_completed_total" (lab "agent_id" agent_id) count.
(** observability/metrics/counters.ts:153-155 incrementResultsFailedDlq *)
Definition incrementResultsFailedDlq (count : Z) (agent_id : option string) : M unit := inc "results_failed_dlq_total" (lab "agent_id" agent_id) count.
(** observability/metrics/counters.ts:157-159 incrementDeliveryAttempts *)
Definition incrementDeliveryAttempts (count : Z) (type : option string) : M unit := inc "delivery_attempts_total" (lab "destination_type" type) count.
(** observability/metrics/counters.ts:161-163 incrementDeliveryCompleted *)
Definition incrementDeliveryCompleted (count : Z) (type : option string) : M unit := inc "delivery_completed_total" (lab "destination_type" type) count.
(** observability/metrics/counters.ts:165-167 incrementDeliveryFailed *)
Definition incrementDeliveryFailed (count : Z) (type error_code : option string) : M unit :=
  inc "delivery_failed_total" (lab "destination_type" type ++ lab "error_code" error_code) count.
(** observability/metrics/counters.ts:169-171 incrementDeliveryMovedToDlq *)
Definition incrementDeliveryMovedToDlq (count : Z) (type : option string) : M unit := inc "delivery_moved_to_dlq_total" (lab "destination_type" type) count.
(** observability/metrics/counters.ts:173-176 incrementRetryScheduled
    Labels without a count give the text undefined. *)
Definition incrementRetryScheduled (count : Z) (l : option (option Z)) : M unit :=
  inc "retry_scheduled_total" (lab "retry_count" ((fun n => match n with Some n => pretty n | None => "undefined" end) <$> l)) count.
(** observability/metrics/counters.ts:178-180 incrementRetryExhausted *)
Definition incrementRetryExhausted (count : Z) (type : option string) : M unit := inc "retry_exhausted_total" (lab "destination_type" type) count.
(** observability/metrics/counters.ts:182-184 incrementWorkerCrashes *)
Definition incrementWorkerCrashes (count : Z) (queue_name : option string) : M unit := inc "worker_crashes_total" (lab "queue_name" queue_name) count.
(** observability/metrics/counters.ts:186-188 incrementCircuitBreakerOpened *)
Definition incrementCircuitBreakerOpened (count : Z) (id : option string) : M unit := inc "circuit_breaker_opened_total" (lab "destination_id" id) count.
(** observability/metrics/counters.ts:190-192 incrementCircuitBreakerClosed *)
Definition incrementCircuitBreakerClosed (count : Z) (id : option string) : M unit := inc "circuit_breaker_closed_total" (lab "destination_id" id) count.
(** observability/metrics/counters.ts:194-196 incrementAuthSuccess *)
Definition incrementAuthSuccess (count : Z) (auth_type : option string) : M unit := inc "auth_success_total" (lab "auth_type" auth_type) count.
(** observability/metrics/counters.ts:198-200 incrementAuthFailure *)
Definition incrementAuthFailure (count : Z) (auth_type reason : option string) : M unit :=
  inc "auth_failure_total" (lab "auth_type" auth_type ++ lab "reason" reason) count.
(** observability/metrics/counters.ts:202-204 incrementValidationSuccess *)
Definition incrementValidationSuccess (count : Z) : M unit := inc "validation_success_total" [] count.
(** observability/metrics/counters.ts:206-208 incrementValidationFailure *)
Definition incrementValidationFailure (count : Z) : M unit := inc "validation_failure_total" [] count.
(** observability/metrics/counters.ts:210-212 incrementRateLimitHits *)
Definition incrementRateLimitHits (count : Z) : M unit := inc "rate_limit_hits_total" [] count.
(** observability/metrics/counters.ts:214-216 incrementRateLimitViolations *)
Definition incrementRateLimitViolations (count : Z) : M unit := inc "rate_limit_violations_total" [] count.

(** observability/metrics/gauges.ts:22-85 constructor *)
Definition gauge_metrics : list (string * list string) :=
  [("queue_depth_main", []); ("queue_depth_delayed", []); ("queue_depth_dlq", []); ("dlq_size", []); ("worker_count", []);
   ("active_workers", []); ("circuit_breaker_state", ["destination_id"; "state"]); ("bulkhead_pool_utilization", ["pool_name"]);
   ("database_connections_active", []); ("database_connections_idle", []); ("redis_connections_active", []); ("redis_connections_idle", [])].
Definition set (name : string) (l : labels) (v : num) : M unit := lift (p_set name l v).
(** observability/metrics/gauges.ts:97-106 setQueueDepth *)
Definition setQueueDepth (queueName : string) (depth : num) : M unit :=
  if str_eqb queueName "main" then set "queue_depth_main" [] depth
  else if str_eqb queueName "delayed" then set "queue_depth_delayed" [] depth
  else if str_eqb queueName "dlq" then set "queue_depth_dlq" [] depth;; set "dlq_size" [] depth
  else mret tt.
(** observability/metrics/gauges.ts:108-111 setWorkerCount *)
Definition setWorkerCount (count active : num) : M unit := set "worker_count" [] count;; set "active_workers" [] active.
Fixpoint set_states (destinationId state : string) (states : list string) : M unit :=
  match states with
  | [] => mret tt
  | s :: states =>
      set "circuit_breaker_state" [("destination_id", destinationId); ("state", s)] (ofZ (if str_eqb s state then 1 else 0));;
      set_states destinationId state states
  end.
(** observability/metrics/gauges.ts:113-118 setCircuitBreakerState *)
Definition setCircuitBreakerState (destinationId state : string) : M unit := set_states destinationId state ["closed"; "open"; "half-open"].
(** observability/metrics/gauges.ts:120-122 setPoolUtilization *)
Definition setPoolUtilization (poolName : string) (utilization : num) : M unit :=
  set "bulkhead_pool_utilization" [("pool_name", poolName)] utilization.
(** observability/metrics/gauges.ts:124-127 setDatabaseConnections *)
Definition setDatabaseConnections (active idle : num) : M unit :=
  set "database_connections_active" [] active;; set "database_connections_idle" [] idle.
(** observability/metrics/gauges.ts:129-132 setRedisConnections *)
Definition setRedisConnections (active idle : num) : M unit :=
  set "redis_connections_active" [] active;; set "redis_connections_idle" [] idle.

(** observability/metrics/histograms.ts:16-56 constructor *)
Definition histogram_metrics : list (string * list string) :=
  [("delivery_latency_seconds", ["destination_type"]); ("ingestion_latency_seconds", ["agent_id"]); ("retry_delay_seconds", []);
   ("recovery_duration_seconds", []); ("auth_latency_ms", ["auth_type"]); ("validation_latency_ms", [])].
Definition observe (name : string) (l : labels) (v : num) : M unit := lift (p_observe name l v).
Definition seconds (ms : num) : num := num_div ms (ofZ 1000).
(** observability/metrics/histograms.ts:68-71 recordDeliveryLatency *)
Definition recordDeliveryLatency (latencyMs : num) (type : option string) : M unit :=
  observe "delivery_latency_seconds" (lab "destination_type" type) (seconds latencyMs).
(** observability/metrics/histograms.ts:73-76 recordIngestionLatency *)
Definition recordIngestionLatency (latencyMs : num) (agent_id : option string) : M unit :=
  observe "ingestion_latency_seconds" (lab "agent_id" agent_id) (seconds latencyMs).
(** observability/metrics/histograms.ts:78-81 recordRetryDelay *)
Definition recordRetryDelay (delayMs : num) : M unit := observe "retry_delay_seconds" [] (seconds delayMs).
(** observability/metrics/histograms.ts:83-86 recordRecoveryDuration *)
Definition recordRecoveryDuration (durationMs : num) : M unit := observe "recovery_duration_seconds" [] (seconds durationMs).
(** observability/metrics/histograms.ts:88-90 recordAuthLatency *)
Definition recordAuthLatency (latencyMs : num) (auth_type : option string) : M unit := observe "auth_latency_ms" (lab "auth_type" auth_type) latencyMs.
(** observability/metrics/histograms.ts:92-94 recordValidationLatency *)
Definition recordValidationLatency (latencyMs : num) : M unit := observe "validation_latency_ms" [] latencyMs.

(** *** Theorems *)

Lemma register_all_get l r k : NoDup (map fst l) ->
  declared k (register_all l r) = match declared k r with Some ls => Some ls | None => jmap_get k l end.
Proof.
  unfold register_all. revert r. induction l as [|[n ls] l IH]; intros r Hl; simpl; [by destruct (declared k r)|].
  simpl in Hl. apply NoDup_cons in Hl as [Hn Hl]. rewrite IH by done. unfold getOrRegister. simpl.
  destruct (declared n r) as [ls'|] eqn:E.
  - case_decide as Hk; [subst; by rewrite E|done].
  - rewrite register_declared by done. case_decide as Hk; [subst; by rewrite E|done].
Qed.

(** What is counted, by the call that counts it: the metric and its labels. *)
Inductive event : Type :=
| ResultsIngested (a : option string) | ResultsCompleted (a : option string) | ResultsFailedDlq (a : option string)
| DeliveryAttempts (t : option string) | DeliveryCompleted (t : option string) | DeliveryFailed (t e : option string)
| DeliveryMovedToDlq (t : option string) | RetryScheduled (n : option (option Z)) | RetryExhausted (t : option string)
| WorkerCrashes (q : option string) | BreakerOpened (d : option string) | BreakerClosed (d : option string)
| AuthSuccess (t : option string) | AuthFailure (t r : option string)
| ValidationSuccess | ValidationFailure | RateLimitHits | RateLimitViolations.
Definition increment (e : event) (count : Z) : M unit :=
  match e with
  | ResultsIngested a => incrementResultsIngested count a | ResultsCompleted a => incrementResultsCompleted count a
  | ResultsFailedDlq a => incrementResultsFailedDlq count a | DeliveryAttempts t => incrementDeliveryAttempts count t
  | DeliveryCompleted t => incrementDeliveryCompleted count t | DeliveryFailed t e => incrementDeliveryFailed count t e
  | DeliveryMovedToDlq t => incrementDeliveryMovedToDlq count t | RetryScheduled n => incrementRetryScheduled count n
  | RetryExhausted t => incrementRetryExhausted count t | WorkerCrashes q => incrementWorkerCrashes count q
  | BreakerOpened d => incrementCircuitBreakerOpened count d | BreakerClosed d => incrementCircuitBreakerClosed count d
  | AuthSuccess t => incrementAuthSuccess count t | AuthFailure t r => incrementAuthFailure count t r
  | ValidationSuccess => incrementValidationSuccess count | ValidationFailure => incrementValidationFailure count
  | RateLimitHits => incrementRateLimitHits count | RateLimitViolations => incrementRateLimitViolations count
  end.
Lemma increment_inc e : exists n l ls, (forall c, increment e c = inc n l c) /\ jmap_get n counters = Some ls /\ Forall (fun x => x.1 ∈ ls) l.
Proof.
  destruct e; do 3 eexists; (split; [intros c; reflexivity|]); (split; [reflexivity|]);
    repeat match goal with |- context [lab _ ?o] => is_var o; destruct o end;
    repeat match goal with |- context [_ <$> ?o] => is_var o; destruct o end; simpl; repeat constructor; set_solver.
Qed.

(** Once the counters are registered, each call counts: it does not throw, the
    series of its metric grows by what was counted, no other series changes,
    and the metrics stay as they were declared. *)
Theorem every_count_counts e count r0 r :
  (forall n ls, jmap_get n counters = Some ls -> declared n r0 = None) ->
  (forall k, declared k r = declared k (register_all counters r0)) -> 0 <= count ->
  exists n l r', jmap_get n counters <> None /\ increment e count r = (r', Ok tt) /\
    (forall k a, count_of k a r' = count_of k a r + if decide (k = n /\ a = l) then count else 0) /\
    forall k, declared k r' = declared k r.
Proof.
  intros Hfresh Hr Hc. destruct (increment_inc e) as (n & l & ls & -> & Hn & Hl). exists n, l.
  assert (declared n r = Some ls) as Hd.
  { rewrite Hr, register_all_get by (apply (bool_decide_unpack _); vm_compute; done). by rewrite (Hfresh n ls Hn). }
  destruct (inc_ok n l count r ls Hd Hl Hc) as [r' E]. exists r'. split; [by rewrite Hn|]. unfold inc, lift. rewrite E.
  split; [done|]. split; [intros k a; by apply inc_count|intros k; by eapply inc_declared].
Qed.

Definition states : list string := ["closed"; "open"; "half-open"].
Lemma set_states_ok d s ss r : declared "circuit_breaker_state" r = Some ["destination_id"; "state"] -> NoDup ss ->
  exists r', set_states d s ss r = (r', Ok tt) /\ forall x,
    gauge_of "circuit_breaker_state" [("destination_id", d); ("state", x)] r' =
    if decide (x ∈ ss) then Some (ofZ (if str_eqb x s then 1 else 0)) else gauge_of "circuit_breaker_state" [("destination_id", d); ("state", x)] r.
Proof.
  revert r. induction ss as [|y ss IH]; intros r Hd Hn.
  - exists r. split; [done|]. intros x. by rewrite decide_False by set_solver.
  - apply NoDup_cons in Hn as [Hy Hn]. simpl. unfold set at 1, lift, mbind, meth_bind.
    destruct (set_ok "circuit_breaker_state" [("destination_id", d); ("state", y)] (ofZ (if str_eqb y s then 1 else 0)) r _ Hd) as [r1 E];
      [repeat constructor; set_solver|]. rewrite E.
    destruct (IH r1) as (r' & -> & Hg); [by rewrite (set_declared _ _ _ _ _ _ E)|done|]. exists r'. split; [done|]. intros x.
    rewrite Hg, (set_gauge _ _ _ _ _ _ _ E). destruct (decide (x ∈ ss)) as [Hx|Hx]; [by rewrite decide_True by set_solver|].
    destruct (decide (x = y)) as [->|Hxy]; [by rewrite !decide_True by set_solver|].
    rewrite !decide_False by set_solver. done.
Qed.
(** Of the series of a breaker exactly the one of its state shows 1, as long as
    the state is spelt as the metrics spell it; with the breaker's own names
    (CLOSED, OPEN, HALF_OPEN) none does. *)
Theorem breaker_one_hot d s r : declared "circuit_breaker_state" r = Some ["destination_id"; "state"] ->
  exists r', setCircuitBreakerState d s r = (r', Ok tt) /\ forall x, x ∈ states ->
    gauge_of "circuit_breaker_state" [("destination_id", d); ("state", x)] r' = Some (ofZ (if str_eqb x s then 1 else 0)) /\
    (s ∈ ["CLOSED"; "OPEN"; "HALF_OPEN"] -> str_eqb x s = false).
Proof.
  intros Hd. destruct (set_states_ok d s states r Hd) as (r' & E & Hg); [apply (bool_decide_unpack _); vm_compute; done|].
  exists r'. split; [exact E|]. intros x Hx. rewrite Hg, decide_True by done. split; [done|]. intros Hs.
  unfold states in Hx. apply str_eqb_neq. set_solver.
Qed.
End metrics.

Definition none : memory := Memory ∅ ∅ ∅ ∅.
Lemma every_count_counts_witness :
  exists r', increment (DeliveryFailed (Some "WEBHOOK") (Some "500")) 2 (register_all counters none) = (r', Ok tt).
Proof.
  destruct (every_count_counts (DeliveryFailed (Some "WEBHOOK") (Some "500")) 2 none (register_all counters none)) as (n & l & r' & _ & H & _).
  - intros n ls _. apply lookup_empty.
  - done.
  - lia.
  - by exists r'.
Defined.
Lemma breaker_one_hot_witness :
  exists r', setCircuitBreakerState "d1" "open" (register_all gauge_metrics none) = (r', Ok tt).
Proof. destruct (breaker_one_hot "d1" "open" (register_all gauge_metrics none)) as (r' & H & _); [vm_compute; done|by exists r']. Defined.
End Exported.
