(* ===== verification/Api.v ===== *)
(** * The HTTP interface

    [api/]: the envelopes of answers and errors ([Envelopes],
    [ErrorSerializer]), the request filters ([Filters]), the handlers of results,
    deliveries, destinations, lineages and health ([Handlers]), the routers with
    what guards each route ([Routes]), and the statistics of the dashboard
    ([Dashboard]).  Services are records of optional functions, as the handlers
    test for them, and as wired the records that the methods of the services the
    program passes leave; the instants printed in answers are arguments. *)
From Stdlib Require Import Ascii QArith Qround Qpower Qabs Lqa.
From stdpp Require Import base tactics numbers list strings gmap pretty.
From S2P Require Import Prelude JsNum JsValue Errors Text Connectors RateLimit TaskResult Access InputChecks.

(** What a handler passes on: an error of the program, one that names a field of
    the request, a missing resource, a refused rate, or a body that is too large. *)
Inductive thrown : Type := App (e : exn) | OnField (field : string) (e : exn) | Missing (message : string) | Limited (message : string) (retryAfter : Z) | TooLarge (message : string).

(** ** Errors *)

Module ErrorSerializer.

(** shared/errors/not-found-error.ts:8-17 NotFoundError *)
Definition not_found_error (message : string) : Errors.info := Errors.Info "Error" "NOT_FOUND" 404 message.
(** security/errors/rate-limit-error.ts:12-26 constructor
    The class of security errors chooses the code. *)
Definition rate_limit_error (message : string) : Errors.info := Errors.security_error "RateLimitError" message 429.
(** api/middleware/body-parser.middleware.ts:9-15 PayloadTooLargeError *)
Definition payload_too_large (message : string) : Errors.info := Errors.Info "PayloadTooLargeError" "VALIDATION_FAILED" 422 message.
(** What [instanceof BaseError] finds, when it does. *)
Definition base_of (e : exn) : option Errors.info :=
  match e with
  | ValidationError m => Some (Errors.validation_error m None)
  | InvalidDeliveryStateError c a => Some (Errors.invalid_delivery_state_error c a)
  | MaxRetriesExceededError d n mx => Some (Errors.max_retries_exceeded_error d mx n)
  | DeliveryNotFoundError d => Some (Errors.delivery_not_found_error d)
  | DestinationNotFoundError d => Some (Errors.destination_not_found_error d)
  | CircuitOpenError d => Some (Errors.circuit_open_error d)
  | BulkheadFullError n => Some (Errors.bulkhead_full_error n)
  | TimeoutError op ms => Some (Errors.timeout_error op ms)
  | InfrastructureError m c => Some (Errors.infrastructure_error m c)
  | AuthenticationError m _ => Some (Errors.authentication_error m)
  | AuthorizationError m _ => Some (Errors.authorization_error m)
  | InvalidSignatureError r => Some (Errors.invalid_signature_error r).1
  | OwnError n c s m => Some (Errors.Info n c s m)
  | PoolExhaustedError _ | PlainError _ | Foreign _ => None
  end.
Definition base_error (t : thrown) : option Errors.info :=
  match t with
  | App e | OnField _ e => base_of e
  | Missing m => Some (not_found_error m)
  | Limited m _ => Some (rate_limit_error m)
  | TooLarge m => Some (payload_too_large m)
  end.
Definition value_of (t : thrown) : jsval :=
  match base_error t, t with Some i, _ => Errors.info_js i | None, (App e | OnField _ e) => Errors.exn_js e | None, _ => JUndefined end.

(** api/serializers/error-serializer.ts:79-92 getErrorName *)
Definition getErrorName (statusCode : jsval) : string :=
  let at_ (z : Z) := js_strict_eq statusCode (JNum (ofZ z)) in
  if at_ 400 then "Bad Request" else if at_ 401 then "Unauthorized" else if at_ 403 then "Forbidden" else if at_ 404 then "Not Found"
  else if at_ 409 then "Conflict" else if at_ 413 then "Payload Too Large" else if at_ 422 then "Unprocessable Entity"
  else if at_ 429 then "Too Many Requests" else if at_ 503 then "Service Unavailable" else "Internal Server Error".

(** The parts of an answer to an error. *)
Record answer : Type := Answer { statusCode : jsval; code : jsval; message : jsval; details : jsval }.
Definition unexpected : string := "An unexpected internal server error occurred.".
Definition status_is (err : jsval) (z : Z) : bool := js_strict_eq (js_get "statusCode" err) (JNum (ofZ z)).
Definition name_is (err : jsval) (n : string) : bool := js_strict_eq (js_get "name" err) (JString n).
Definition said (err : jsval) (d : string) : jsval := js_or (js_get "message" err) (JString d).
(** api/serializers/error-serializer.ts:33-64 serialize
    An object that is no error of the program's own classes. *)
Definition of_object (err : jsval) : answer :=
  if name_is err "ValidationError" || js_strict_eq (js_get "code" err) (JString "VALIDATION_FAILED") || status_is err 422
  then Answer (JNum 422) (JString "VALIDATION_FAILED") (said err "Validation failed for request parameters.") (js_or (js_get "details" err) (js_get "errors" err))
  else if name_is err "NotFoundError" || status_is err 404
  then Answer (JNum 404) (JString "NOT_FOUND") (said err "Requested resource was not found.") JUndefined
  else if name_is err "ConflictError" || status_is err 409
  then Answer (JNum 409) (JString "RESULT_ALREADY_EXISTS") (said err "Resource conflict occurred.") JUndefined
  else if name_is err "AuthenticationError" || status_is err 401
  then Answer (JNum 401) (JString "UNAUTHENTICATED") (said err "Authentication required.") JUndefined
  else if name_is err "AuthorizationError" || status_is err 403
  then Answer (JNum 403) (JString "UNAUTHORIZED") (said err "Access denied.") JUndefined
  else if name_is err "RateLimitError" || status_is err 429
  then Answer (JNum 429) (JString "RATE_LIMITED") (said err "Rate limit exceeded.") (JObject 0 [("retryAfterSeconds", js_get "retryAfterSeconds" err)])
  else Answer (js_or (js_get "statusCode" err) (js_or (js_get "status" err) (JNum 500))) (JString "UNKNOWN_ERROR") (said err unexpected) JUndefined.
(** api/serializers/error-serializer.ts:22-77 serialize
    Of the errors of the program only those that name a field carry details. *)
Definition serialize (err : thrown) : answer :=
  match base_error err with
  | Some i => Answer (if Errors.statusCode i =? 0 then JNum 500 else JNum (Errors.statusCode i)) (JString (str_or (Errors.code i) "UNKNOWN_ERROR"))
                (JString (Errors.message i)) (match err with OnField f _ => JObject 0 [("field", JString f)] | _ => JUndefined end)
  | None => if is_object (value_of err) then of_object (value_of err) else Answer (JNum 500) (JString "UNKNOWN_ERROR") (JString unexpected) JUndefined
  end.
(** api/serializers/error-serializer.ts:66-74 serialize *)
Definition payload (timestamp traceId : string) (a : answer) : jsval :=
  JObject 0 ([("error", JString (getErrorName (statusCode a))); ("code", code a); ("message", message a); ("statusCode", statusCode a);
              ("timestamp", JString timestamp)] ++
             (if str_truthy traceId then [("traceId", JString traceId)] else []) ++
             (if js_truthy (details a) then [("details", details a)] else [])).

(** An error of a class derived from [BaseError] is answered with its own status
    (500 for none), code and message, and the field it names; a plain [Error],
    which has neither status nor code, with 500 and its own message, which is
    whatever the failing call said. *)
Theorem errors_answered err :
  match base_error err with
  | Some i =>
      serialize err = Answer (JNum (if Errors.statusCode i =? 0 then 500 else ofZ (Errors.statusCode i)))
        (JString (str_or (Errors.code i) "UNKNOWN_ERROR")) (JString (Errors.message i))
        (match err with OnField f _ => JObject 0 [("field", JString f)] | _ => JUndefined end)
  | None => forall m, err = App (PlainError m) ->
      serialize err = Answer (JNum 500) (JString "UNKNOWN_ERROR") (JString (str_or m unexpected)) JUndefined
  end.
Proof.
  destruct (base_error err) as [i|] eqn:Eb.
  - unfold serialize. rewrite Eb. by destruct (Errors.statusCode i =? 0).
  - intros m ->. destruct m as [|c m]; reflexivity.
Qed.
(** A refused rate is answered with the code of a missing authentication, and
    without the seconds to wait. *)
Example rate_refused m n :
  serialize (Limited m n) = Answer (JNum 429) (JString "UNAUTHENTICATED") (JString m) JUndefined.
Proof. reflexivity. Qed.
End ErrorSerializer.

(** ** Envelopes *)

Module Envelopes.

(** api/serializers/response-serializer.ts:44-50 success *)
Definition success (timestamp : string) (data : jsval) (traceId : string) : jsval :=
  JObject 0 ([("data", data); ("timestamp", JString timestamp)] ++ (if str_truthy traceId then [("traceId", JString traceId)] else [])).
(** api/serializers/response-serializer.ts:81-87 created *)
Definition created : string -> jsval -> string -> jsval := success.
(** api/serializers/response-serializer.ts:92-102 accepted *)
Definition accepted (timestamp message traceId : string) : jsval :=
  JObject 0 ([("message", JString message); ("status", JString "ACCEPTED"); ("timestamp", JString timestamp)] ++
             (if str_truthy traceId then [("traceId", JString traceId)] else [])).
(** [Math.ceil(a / b)] of integers. *)
Definition ceil_div (a b : Z) : Z := - ((- a) / b).
(** api/serializers/response-serializer.ts:62-62 totalPages *)
Definition totalPages (total limit : Z) : Z :=
  let n := ceil_div total (if limit =? 0 then 1 else limit) in if n =? 0 then 1 else n.
(** api/serializers/response-serializer.ts:13-25 PaginatedResponseEnvelope *)
Record pagination : Type := Pagination { page : Z; limit : Z; total : Z; total_pages : Z; hasNextPage : bool; hasPrevPage : bool }.
(** api/serializers/response-serializer.ts:55-76 paginated *)
Definition paginated (items : list jsval) (page limit total : Z) : list jsval * pagination :=
  let pages := totalPages total limit in (items, Pagination page limit total pages (page <? pages) (1 <? page)).
(** api/serializers/delivery-serializer.ts:36-52 serializeDeliveryList
    What it says of further pages. *)
Definition hasMore (page limit total : Z) : bool := page * limit <? total.
(** api/serializers/delivery-serializer.ts:10-31 serializeDelivery *)
Definition serializeDelivery (delivery : jsval) (attempts : option (list jsval)) : jsval :=
  let or_undefined v := js_or v JUndefined in
  let attempt a := JObject 0 [("id", js_get "id" a); ("responseStatus", js_nullish_or (js_get "responseStatus" a) JUndefined);
    ("responseTimeMs", js_nullish_or (js_get "responseTimeMs" a) JUndefined); ("errorMessage", or_undefined (js_get "errorMessage" a));
    ("attemptedAt", js_or (js_get "attemptedAt" a) (js_get "createdAt" a))] in
  let kept := match attempts with Some l => Some l | None => match js_get "attempts" delivery with JArray _ l => Some l | _ => None end end in
  JObject 0 [("id", js_get "id" delivery); ("taskResultId", js_get "taskResultId" delivery); ("destinationId", js_get "destinationId" delivery);
    ("status", js_get "status" delivery); ("retryCount", js_get "retryCount" delivery); ("nextRetryAt", or_undefined (js_get "nextRetryAt" delivery));
    ("createdAt", js_get "createdAt" delivery); ("updatedAt", js_get "updatedAt" delivery);
    ("attempts", match kept with Some l => JArray 0 (map attempt l) | None => JUndefined end)].

Lemma ceil_bounds a b : 0 < b -> b * (ceil_div a b - 1) < a <= b * ceil_div a b.
Proof. intros Hb. unfold ceil_div. pose proof (Z_div_mod_eq_full (- a) b). pose proof (Z.mod_pos_bound (- a) b Hb). nia. Qed.
(** The pages hold all entries and none is empty but the only page of an empty
    list; and the two serializers agree on whether there is a next page. *)
Theorem pages_agree items page limit total :
  0 < limit -> 0 <= total -> 1 <= page ->
  let p := (paginated items page limit total).2 in
  (1 <= total_pages p /\ total <= limit * total_pages p /\ (1 < total_pages p -> limit * (total_pages p - 1) < total)) /\
  hasNextPage p = hasMore page limit total.
Proof.
  intros Hl Ht Hp. cbn. unfold totalPages, hasMore. destruct (Z.eqb_spec limit 0); [lia|]. cbv zeta.
  pose proof (ceil_bounds total limit Hl) as Hc. destruct (Z.eqb_spec (ceil_div total limit) 0) as [E|E].
  - rewrite E in Hc. assert (total = 0) as -> by lia. split; [lia|]. transitivity false; [apply Z.ltb_ge; lia|symmetry; apply Z.ltb_ge; nia].
  - assert (1 <= ceil_div total limit) by nia. split; [split_and!; [lia|lia|intros _; lia]|].
    destruct (Z.ltb_spec page (ceil_div total limit)); symmetry; [apply Z.ltb_lt|apply Z.ltb_ge]; nia.
Qed.
Lemma pages_agree_witness : hasNextPage (paginated [] 2 20 41).2 = true /\ hasMore 2 20 41 = true.
Proof. split; [reflexivity|]. by rewrite <- (proj2 (pages_agree [] 2 20 41 ltac:(lia) ltac:(lia) ltac:(lia))). Defined.

(** *** Lineages *)

(** api/serializers/result-serializer.ts:55-57 completedCount *)
Record summary : Type := Summary { totalAgents : nat; totalDestinations : nat; completedCount : nat; failedCount : nat; pendingCount : Z }.
Definition status_count (s : string) (deliveries : list jsval) : nat :=
  length (filter (fun d => js_strict_eq (js_get "status" d) (JString s) = true) deliveries).
(** api/serializers/result-serializer.ts:24-71 serializeLineageResponse
    The address and the counts; the mapped rows are left out. *)
Definition lineage (results deliveries : list jsval) : jsval * summary :=
  let completed := status_count "COMPLETED" deliveries in
  let failed := status_count "FAILED_DLQ" deliveries in
  (match results with r :: _ => js_get "emailId" r | [] => JString "unknown" end,
   Summary (length results) (length deliveries) completed failed (Z.of_nat (length deliveries) - Z.of_nat completed - Z.of_nat failed)).
(** The counts are of disjoint deliveries: none is negative, and together they
    are all. *)
Lemma lineage_counts results deliveries :
  let s := (lineage results deliveries).2 in
  0 <= pendingCount s /\ Z.of_nat (completedCount s) + Z.of_nat (failedCount s) + pendingCount s = Z.of_nat (totalDestinations s).
Proof.
  cbn. split; [|lia]. unfold status_count. induction deliveries as [|d l IH]; [done|]. rewrite !filter_cons. cbn [length].
  destruct (decide (js_strict_eq (js_get "status" d) "COMPLETED" = true)) as [H1|]; destruct (decide (js_strict_eq (js_get "status" d) "FAILED_DLQ" = true)) as [H2|];
    cbn [length]; [|lia..]. destruct (js_get "status" d); try done. apply str_eqb_eq in H1, H2. congruence.
Qed.
End Envelopes.

(** ** Handlers *)

Module Handlers.
Import Envelopes.

(** What a request gives a handler. *)
Record request : Type := Request { param : string -> jsval; body : jsval; query : jsval; correlation : option string; actor : option string; ip : jsval; agent : jsval }.
(** What it is answered with, or the error passed on. *)
Inductive reply : Type := Respond (status : Z) (location : option string) (body : option jsval) | Listed (items : list jsval) (p : pagination) | Next (t : thrown).
(** What a service says of a list. *)
Inductive listing : Type := Items (l : list jsval) | Page (items data : option (list jsval)) (total : option Z).

Section handlers.
Context {W : Type} (timestamp : string).
Abbreviation M := (meth W thrown).
Definition correlationId (req : request) : string := str_or (default "" (correlation req)) "none".
(** The [catch] of every handler. *)
Definition handled (m : M reply) : W -> W * reply := fun w => match m w with (w', Ok r) => (w', r) | (w', Throw t) => (w', Next t) end.
Definition checked {A} (f : string) (r : res exn A) : M A := match r with Ok a => mret a | Throw e => throw (OnField f e) end.
Definition in_program {A} (r : res exn A) : M A := match r with Ok a => mret a | Throw e => throw (App e) end.
Definition id_of (req : request) (name : string) : M string := checked name (DeliveryValidator.param_validateUUID (param req name) name).
Definition ok_with (status : Z) (req : request) (data : jsval) : M reply := mret (Respond status None (Some (success timestamp data (correlationId req)))).
Definition accepted_with (req : request) (location : option string) (message : string) : M reply :=
  mret (Respond 202 location (Some (accepted timestamp message (correlationId req)))).
Definition found_or (message : string) (v : jsval) : M jsval := if js_truthy v then mret v else throw (Missing message).
Definition quoted_id (what id rest : string) : string := what +:+ quoted id +:+ rest.

(** api/controllers/delivery.controller.ts:68-69 items
    The entries of a list and their number. *)
Definition entries (l : listing) : list jsval * Z :=
  match l with
  | Items l => (l, Z.of_nat (length l))
  | Page items data total => let l := match items with Some l => l | None => default [] data end in (l, default (Z.of_nat (length l)) total)
  end.
Definition list_reply (req : request) (l : listing) : M reply :=
  let '(page, limit) := SchemaValidator.paginationParams (query req) in
  let '(items, total) := entries l in
  let '(items, p) := paginated items page limit total in mret (Listed items p).
Definition pages_of (req : request) : Z * Z := SchemaValidator.paginationParams (query req).

(** *** Results *)

(** What the handler looks for on the services it is given: the schema of a
    request, the optional validation, the ingestion, and the look-ups. *)
Record result_deps : Type := ResultDeps {
  parse_ingest : jsval -> res exn jsval; validate : option (jsval -> M unit); ingest : jsval -> jsval -> M jsval;
  repository : option (option (string -> M jsval) * option (string -> M jsval));   (** [findById], [getById] *)
  service_getResult : option (string -> M jsval);
  toResponse : jsval -> jsval;   (** of a record that has the entity's methods *)
}.
(** api/controllers/result.controller.ts:44-48 auditCtx *)
Definition auditCtx (req : request) : jsval :=
  JObject 0 [("actorId", JString (str_or (default "" (actor req)) "system")); ("ipAddress", ip req); ("userAgent", agent req)].
(** api/controllers/result.controller.ts:28-59 ingestResult *)
Definition ingestResult (d : result_deps) (req : request) : W -> W * reply := handled (
  validatedBody ← in_program (parse_ingest d (body req));
  match validate d with Some f => f validatedBody | None => mret tt end;;
  responseData ← ingest d validatedBody (auditCtx req);
  let id := js_String (js_get "resultId" responseData) in
  accepted_with req (Some ("/api/v1/results/" +:+ id)) ("Task result successfully accepted and queued as " +:+ id)).
(** api/controllers/result.controller.ts:72-86 getResult
    An error of [getById] counts as no record. *)
Definition look_up (d : result_deps) (id : string) : M jsval :=
  match repository d with
  | Some (Some findById, _) => findById id
  | Some (None, Some getById) => try_catch (getById id) (fun _ => mret JNull)
  | Some (None, None) => mret JNull
  | None => match service_getResult d with Some f => f id | None => mret JNull end
  end.
(** api/controllers/result.controller.ts:64-102 getResult *)
Definition getResult (d : result_deps) (req : request) : W -> W * reply := handled (
  resultId ← id_of req "resultId";
  v ← look_up d resultId;
  resultRecord ← found_or (quoted_id "Task result record with ID " resultId " was not found.") v;
  ok_with 200 req (toResponse d resultRecord)).

(** *** Deliveries *)

Record delivery_deps : Type := DeliveryDeps {
  getDelivery_ : option (string -> M jsval); listDeliveries_ : option (Z * Z -> M listing); retry : option (string -> M unit);
  findById : option (string -> M jsval); findPaginated : option (Z * Z -> M listing); scheduleRetry : option (jsval -> M unit);
}.
(** api/controllers/delivery.controller.ts:28-50 getDelivery *)
Definition getDelivery (d : delivery_deps) (req : request) : W -> W * reply := handled (
  deliveryId ← id_of req "deliveryId";
  v ← match getDelivery_ d, findById d with Some f, _ => f deliveryId | None, Some f => f deliveryId | None, None => mret JNull end;
  delivery ← found_or (quoted_id "Delivery record with ID " deliveryId " was not found.") v;
  ok_with 200 req delivery).
(** api/controllers/delivery.controller.ts:55-75 listDeliveries *)
Definition listDeliveries (d : delivery_deps) (req : request) : W -> W * reply := handled (
  l ← match listDeliveries_ d, findPaginated d with
      | Some f, _ => f (pages_of req) | None, Some f => f (pages_of req) | None, None => mret (Page (Some []) None (Some 0)) end;
  list_reply req l).
(** [{ deliveryId, ...req.body }] *)
Definition with_id (k : string) (id : jsval) (v : jsval) : jsval := JObject 0 (foldl (fun m e => jmap_set e.1 e.2 m) [(k, id)] (match v with JObject _ l => l | _ => [] end)).
(** api/controllers/delivery.controller.ts:80-96 retryDelivery *)
Definition retryDelivery (d : delivery_deps) (req : request) : W -> W * reply := handled (
  deliveryId ← id_of req "deliveryId";
  match scheduleRetry d, retry d with
  | Some f, _ => f (with_id "deliveryId" (JString deliveryId) (body req)) | None, Some f => f deliveryId | None, None => mret tt end;;
  accepted_with req None (quoted_id "Delivery retry successfully scheduled for " deliveryId ".")).

(** *** Destinations *)

Record destination_deps : Type := DestinationDeps {
  parse_create : jsval -> res exn jsval; parse_update : jsval -> res exn jsval; now_id : string;   (** [dest-] and the clock *)
  register : option (jsval -> M jsval); registerDestination : option (jsval -> M jsval); repo_create : option (jsval -> M jsval);
  find_list : option (Z * Z -> option string -> M listing); service_list : option (Z * Z -> M listing); findAll : option (M (list jsval));
  repo_findById : option (string -> M jsval); find_get : option (string -> M jsval);
  service_update : option (string -> jsval -> M jsval); repo_update : option (string -> jsval -> M jsval);
  service_delete : option (string -> M unit); repo_delete : option (string -> M unit);
}.
Definition enabled_with_id (id : string) (v : jsval) : jsval :=
  match with_id "id" (JString id) v with JObject l fields => JObject l (jmap_set "enabled" (JBool true) fields) | v => v end.
(** api/controllers/destination.controller.ts:28-50 createDestination *)
Definition createDestination (d : destination_deps) (req : request) : W -> W * reply := handled (
  validatedBody ← in_program (parse_create d (body req));
  v ← match register d, registerDestination d, repo_create d with
      | Some f, _, _ => f validatedBody | None, Some f, _ => f validatedBody | None, None, Some f => f validatedBody
      | None, None, None => mret (enabled_with_id (now_id d) validatedBody) end;
  mret (Respond 201 (Some ("/api/v1/destinations/" +:+ js_String (js_or (js_get "id" v) (js_get "destinationId" v))))
          (Some (created timestamp v (correlationId req))))).
(** api/controllers/destination.controller.ts:55-79 listDestinations *)
Definition listDestinations (d : destination_deps) (req : request) : W -> W * reply := handled (
  let typeFilter := if js_truthy (js_get "type" (query req)) then Some (js_String (js_get "type" (query req))) else None in
  l ← match find_list d, service_list d, findAll d with
      | Some f, _, _ => f (pages_of req) typeFilter | None, Some f, _ => f (pages_of req)
      | None, None, Some m => l ← m; mret (Page (Some l) None (Some (Z.of_nat (length l))))
      | None, None, None => mret (Page (Some []) None (Some 0)) end;
  list_reply req l).
(** api/controllers/destination.controller.ts:84-106 getDestination *)
Definition getDestination (d : destination_deps) (req : request) : W -> W * reply := handled (
  destinationId ← id_of req "destinationId";
  v ← match repo_findById d, find_get d with Some f, _ => f destinationId | None, Some f => f destinationId | None, None => mret JNull end;
  destination ← found_or (quoted_id "Destination profile with ID " destinationId " was not found.") v;
  ok_with 200 req destination).
(** api/controllers/destination.controller.ts:111-131 updateDestination *)
Definition updateDestination (d : destination_deps) (req : request) : W -> W * reply := handled (
  destinationId ← id_of req "destinationId";
  validatedBody ← in_program (parse_update d (body req));
  updated ← match service_update d, repo_update d with
            | Some f, _ => f destinationId validatedBody | None, Some f => f destinationId validatedBody
            | None, None => mret (with_id "id" (JString destinationId) validatedBody) end;
  ok_with 200 req updated).
(** api/controllers/destination.controller.ts:136-150 deleteDestination *)
Definition deleteDestination (d : destination_deps) (req : request) : W -> W * reply := handled (
  destinationId ← id_of req "destinationId";
  match service_delete d, repo_delete d with Some f, _ => f destinationId | None, Some f => f destinationId | None, None => mret tt end;;
  mret (Respond 204 None None)).

(** *** Lineages and health *)

(** api/controllers/lineage.controller.ts:24-56 getLineage *)
Definition getLineage (service : option (string -> M jsval)) (byEmail : option (string -> M (list jsval))) (req : request) : W -> W * reply := handled (
  emailId ← checked "email" (DeliveryValidator.param_validateEmail (param req "emailId"));
  v ← match service, byEmail with
      | Some f, _ => f emailId
      | None, Some f =>
          records ← f emailId;
          mret (match records : list jsval with
                | [] => JNull
                | l => JObject 0 [("emailId", JString emailId); ("totalRecords", JNum (Z.of_nat (length l))); ("records", JArray 0 l);
                                  ("traceId", JString (correlationId req))] end)
      | None, None => mret JNull end;
  lineage ← found_or (quoted_id "No classification lineage records found matching email " emailId ".") v;
  ok_with 200 req lineage).
(** The outcome of a probe: up, or down with what was said. *)
Inductive probe : Type := Up | Down (message : string).
Definition said (t : thrown) : string := js_String (js_get "message" (ErrorSerializer.value_of t)).
(** api/controllers/health.controller.ts:29-39 checkDb *)
Definition checkDb (ping : option (M bool)) : M probe :=
  try_catch (match ping with Some m => isHealthy ← m; mret (if isHealthy : bool then Up else Down "Database ping returned unready") | None => mret Up end)
    (fun t => mret (Down (said t))).
(** api/controllers/health.controller.ts:41-51 checkRedis *)
Definition checkRedis (ping : option (M jsval)) : M probe :=
  try_catch (match ping with
             | Some m => res ← m; mret (if js_strict_eq res (JString "PONG") || js_strict_eq res (JBool true) then Up else Down "Redis ping failed")
             | None => mret Up end)
    (fun t => mret (Down (said t))).
Definition is_up (p : probe) : bool := match p with Up => true | Down _ => false end.
Definition checks (db rd : probe) : jsval :=
  let one p := JObject 0 (match p with Up => [("status", JString "up")] | Down m => [("status", JString "down"); ("message", JString m)] end) in
  JObject 0 [("database", one db); ("redis", one rd); ("queue", one Up)].
(** api/controllers/health.controller.ts:56-82 getHealth *)
Definition getHealth (db : option (M bool)) (rd : option (M jsval)) (req : request) : W -> W * reply := handled (
  dbCheck ← checkDb db; redisCheck ← checkRedis rd;
  ok_with 200 req (JObject 0 [("status", JString (if is_up dbCheck && is_up redisCheck then "healthy" else "unhealthy")); ("timestamp", JString timestamp);
    ("checks", checks dbCheck redisCheck)])).
(** api/controllers/health.controller.ts:87-117 getHealthDetails
    Without the figures of the process. *)
Definition getHealthDetails (db : option (M bool)) (rd : option (M jsval)) (req : request) : W -> W * reply := handled (
  dbCheck ← checkDb db; redisCheck ← checkRedis rd;
  let isHealthy := is_up dbCheck && is_up redisCheck in
  ok_with (if isHealthy then 200 else 503) req (JObject 0 [("status", JString (if isHealthy then "healthy" else "unhealthy"));
    ("timestamp", JString timestamp); ("checks", checks dbCheck redisCheck)])).

(** *** The handlers as the program builds them *)

(** What a controller is given for a service or a repository: nothing, or an
    object with functions of these names; what each of them would do is
    arbitrary. *)
Abbreviation object := (option (list string)).
Record behaviour : Type := Behaviour {
  b_read : string -> string -> M jsval; b_pages : string -> Z * Z -> M listing; b_typed : string -> Z * Z -> option string -> M listing;
  b_all : string -> M (list jsval); b_act : string -> string -> M unit; b_take : string -> jsval -> M jsval;
  b_change : string -> string -> jsval -> M jsval; b_plan : string -> jsval -> M unit; b_records : string -> string -> M (list jsval);
  b_healthy : string -> M bool; b_pong : string -> M jsval;
}.
(** [o && typeof o.name === 'function'] *)
Definition looked_for {A} (o : object) (name : string) (f : string -> A) : option A :=
  match o with Some names => if bool_decide (name ∈ names) then Some (f name) else None | None => None end.
(** api/controllers/delivery.controller.ts:15-23 constructor
    With the tests of its handlers. *)
Definition delivery_controller (deliveryService scheduleRetryService deliveryRepository : object) (b : behaviour) : delivery_deps :=
  DeliveryDeps (looked_for deliveryService "getDelivery" (b_read b)) (looked_for deliveryService "listDeliveries" (b_pages b))
    (looked_for deliveryService "retry" (b_act b)) (looked_for deliveryRepository "findById" (b_read b))
    (looked_for deliveryRepository "findPaginated" (b_pages b)) (looked_for scheduleRetryService "scheduleRetry" (b_plan b)).
(** api/controllers/destination.controller.ts:15-23 constructor
    With the tests of its handlers. *)
Definition destination_controller (parse_create parse_update : jsval -> res exn jsval) (now_id : string)
    (destinationService findDestinationsService destinationRepository : object) (b : behaviour) : destination_deps :=
  DestinationDeps parse_create parse_update now_id
    (looked_for destinationService "register" (b_take b)) (looked_for destinationService "registerDestination" (b_take b))
    (looked_for destinationRepository "create" (b_take b))
    (looked_for findDestinationsService "listDestinations" (b_typed b)) (looked_for destinationService "listDestinations" (b_pages b))
    (looked_for destinationRepository "findAll" (b_all b)) (looked_for destinationRepository "findById" (b_read b))
    (looked_for findDestinationsService "getDestination" (b_read b))
    (looked_for destinationService "update" (b_change b)) (looked_for destinationRepository "update" (b_change b))
    (looked_for destinationService "delete" (b_act b)) (looked_for destinationRepository "delete" (b_act b)).

(** application/services/process-delivery.service.ts:32-90 ProcessDeliveryService
    The names of its methods; likewise below. *)
Definition ProcessDeliveryService : list string := ["loadDelivery"; "loadDestination"; "processDelivery"].
(** application/services/schedule-retry.service.ts:6-31 ScheduleRetryService *)
Definition ScheduleRetryService : list string := ["loadDelivery"; "scheduleRetry"].
(** application/services/register-destination.service.ts:19-46 RegisterDestinationService *)
Definition RegisterDestinationService : list string := ["validateEndpoint"; "register"].
(** application/services/find-destinations.service.ts:12-94 FindDestinationsService *)
Definition FindDestinationsService : list string := ["findAll"; "findByType"; "findEnabled"; "findById"; "findMatching"].
(** application/application.module.ts:126-138 initializeApplicationModule
    The object of services has the services, and none of their methods. *)
Definition application : list string := [].

(** api/app-factory.ts:94-94 createApp *)
Definition wired_deliveries (b : behaviour) : delivery_deps :=
  delivery_controller (Some ProcessDeliveryService) (Some ScheduleRetryService) None b.
(** api/app-factory.ts:95-95 createApp *)
Definition wired_destinations (parse_create parse_update : jsval -> res exn jsval) (now_id : string) (b : behaviour) : destination_deps :=
  destination_controller parse_create parse_update now_id (Some RegisterDestinationService) (Some FindDestinationsService) None b.
(** api/app-factory.ts:96-96 createApp *)
Definition wired_lineage (b : behaviour) (req : request) : W -> W * reply :=
  getLineage (looked_for (Some application) "getLineage" (b_read b)) (looked_for None "findByEmailId" (b_records b)) req.
(** api/app-factory.ts:97-97 createApp *)
Definition wired_health (b : behaviour) (req : request) : W -> W * reply :=
  getHealth (looked_for (Some application) "ping" (b_healthy b)) (looked_for None "ping" (b_pong b)) req.

Lemma id_ok req name id (w : W) : DeliveryValidator.param_validateUUID (param req name) name = Ok id -> id_of req name w = (w, Ok id).
Proof. unfold id_of. by intros ->. Qed.
(** Whatever is stored, and whatever the services do, the handlers the program
    builds find no delivery, no destination and no lineage, list nothing, report
    an update and a deletion as done without doing them, and call every
    dependency up: none of the services has a method of the names looked for. *)
Theorem wired_resources_inert b pc pu now_id req id email updated (w : W) :
  DeliveryValidator.param_validateUUID (param req "deliveryId") "deliveryId" = Ok id ->
  DeliveryValidator.param_validateUUID (param req "destinationId") "destinationId" = Ok id ->
  DeliveryValidator.param_validateEmail (param req "emailId") = Ok email -> pu (body req) = Ok updated ->
  let dl := wired_deliveries b in let ds := wired_destinations pc pu now_id b in
  getDelivery dl req w = (w, Next (Missing (quoted_id "Delivery record with ID " id " was not found."))) /\
  getDestination ds req w = (w, Next (Missing (quoted_id "Destination profile with ID " id " was not found."))) /\
  (exists p q, listDeliveries dl req w = (w, Listed [] p) /\ listDestinations ds req w = (w, Listed [] q) /\ total p = 0 /\ total q = 0) /\
  updateDestination ds req w = (w, Respond 200 None (Some (success timestamp (with_id "id" (JString id) updated) (correlationId req)))) /\
  deleteDestination ds req w = (w, Respond 204 None None) /\
  wired_lineage b req w = (w, Next (Missing (quoted_id "No classification lineage records found matching email " email "."))) /\
  exists v, wired_health b req w = (w, Respond 200 None (Some (success timestamp v (correlationId req)))) /\
    js_get "status" v = JString "healthy" /\ js_get "checks" v = checks Up Up.
Proof.
  intros H1 H2 H3 H4. cbv zeta.
  unfold getDelivery, getDestination, updateDestination, deleteDestination, listDeliveries, listDestinations, wired_lineage, getLineage, handled.
  rewrite !(bind_ok _ _ _ _ _ (id_ok _ _ _ w H1)), !(bind_ok _ _ _ _ _ (id_ok _ _ _ w H2)), H3. split_and!; [done|done| | |done|done|].
  - unfold list_reply. cbn. destruct (SchemaValidator.paginationParams (query req)) as [page limit]. cbn. by eexists _, _.
  - unfold in_program. cbn [parse_update wired_destinations destination_controller]. rewrite H4. reflexivity.
  - by eexists.
Qed.
End handlers.
(** Services whose every method counts a call. *)
Definition counting : behaviour (W := nat) :=
  Behaviour (fun _ _ w => (S w, Ok JNull)) (fun _ _ w => (S w, Ok (Items []))) (fun _ _ _ w => (S w, Ok (Items []))) (fun _ w => (S w, Ok []))
    (fun _ _ w => (S w, Ok tt)) (fun _ _ w => (S w, Ok JNull)) (fun _ _ _ w => (S w, Ok JNull)) (fun _ _ w => (S w, Ok tt))
    (fun _ _ w => (S w, Ok [])) (fun _ w => (S w, Ok false)) (fun _ w => (S w, Ok JNull)).
Lemma wired_resources_inert_witness :
  let req := Request (fun k => if str_eqb k "emailId" then JString "ann@example.org" else JString "dest-1") (JObject 0 [("enabled", JBool false)]) JUndefined None None JNull JNull in
  deleteDestination (wired_destinations Ok Ok "dest-0" counting) req 7%nat = (7%nat, Respond 204 None None).
Proof.
  cbv zeta.
  destruct (wired_resources_inert (W := nat) "" counting Ok Ok "dest-0"
    (Request (fun k => if str_eqb k "emailId" then JString "ann@example.org" else JString "dest-1") (JObject 0 [("enabled", JBool false)]) JUndefined None None JNull JNull)
    "dest-1" "ann@example.org" (JObject 0 [("enabled", JBool false)]) 7%nat eq_refl eq_refl eq_refl eq_refl) as (_ & _ & _ & _ & H & _). exact H.
Defined.
(** A record that is looked up with an error is reported as missing. *)
Example failure_is_missing :
  let d := ResultDeps Ok None (fun _ _ w => (w, Ok JNull)) (Some (None, Some (fun _ w => (w, Throw (App (InfrastructureError "timeout" "DB_CONNECTION_FAILED")))))) None (fun v => v) in
  (getResult (W := unit) "" d (Request (fun _ => JString "res-1") JNull JNull None None JNull JNull) tt).2 =
    Next (Missing (quoted_id "Task result record with ID " "res-1" " was not found.")).
Proof. reflexivity. Qed.
End Handlers.

(** ** What guards a route *)

Module Routes.

(** A filter in front of a handler: the caller is authenticated, has a role, is
    under a rate, or is an administrator of the portal. *)
Inductive guard : Type := Auth | Role (r : string) | Rate (limit windowMs : Z) | AdminPortal.
Inductive method : Type := GET | POST | PATCH | DELETE.
#[export] Instance method_eq : EqDecision method.
Proof. solve_decision. Defined.
#[export] Instance guard_eq : EqDecision guard.
Proof. solve_decision. Defined.
Record route : Type := Route { verb : method; path : string; guards : list guard }.

Section routers.
(** Whether a guard and a limiter are given. *)
Variables authGuard rateLimiter : bool.
Definition given_ (b : bool) (l : list guard) : list guard := if b then l else [].
Definition rate (n : Z) : list guard := given_ rateLimiter [Rate n 60000].
(** api/routes/result.routes.ts:17-36 createResultsRouter *)
Definition createResultsRouter : list route :=
  [Route POST "/" (given_ authGuard [Auth] ++ rate 100); Route GET "/:resultId" (given_ authGuard [Auth] ++ rate 300)].
(** api/routes/delivery.routes.ts:18-43 createDeliveriesRouter *)
Definition createDeliveriesRouter : list route :=
  [Route GET "/" (rate 300); Route GET "/:deliveryId" (given_ authGuard [Auth] ++ rate 300);
   Route POST "/:deliveryId/retry" (given_ authGuard [Auth; Role "ADMIN"] ++ rate 30)].
(** api/routes/destination.routes.ts:18-62 createDestinationsRouter *)
Definition createDestinationsRouter : list route :=
  [Route GET "/" (given_ authGuard [Auth] ++ rate 300); Route POST "/" (given_ authGuard [Auth; Role "ADMIN"] ++ rate 50);
   Route GET "/:destinationId" (given_ authGuard [Auth] ++ rate 300); Route PATCH "/:destinationId" (given_ authGuard [Auth; Role "ADMIN"] ++ rate 50);
   Route DELETE "/:destinationId" (given_ authGuard [Auth; Role "ADMIN"] ++ rate 30)].
(** api/routes/lineage.routes.ts:16-27 createLineageRouter *)
Definition createLineageRouter : list route := [Route GET "/:emailId" (rate 300)].
(** api/routes/health.routes.ts:15-31 createHealthRouter *)
Definition createHealthRouter : list route := [Route GET "/" []; Route GET "/details" (given_ authGuard [Auth; Role "ADMIN"])].
(** api/routes/metrics.routes.ts:11-19 createMetricsRouter *)
Definition createMetricsRouter : list route := [Route GET "/" []].
(** api/routes/admin/index.ts:20-67 createAdminRouter *)
Definition createAdminRouter : list route :=
  map (fun x : method * string => Route x.1 x.2 [AdminPortal])
    [(GET, "/dashboard"); (POST, "/queue/pause"); (POST, "/queue/resume"); (POST, "/queue/clear"); (GET, "/deliveries/dlq"); (POST, "/deliveries/retry");
     (GET, "/destinations/:id/stats"); (POST, "/destinations/:id/test"); (GET, "/configuration"); (PATCH, "/configuration"); (GET, "/users"); (POST, "/users");
     (GET, "/roles"); (POST, "/roles"); (GET, "/audit-logs"); (GET, "/incidents"); (PATCH, "/incidents/:id/acknowledge"); (GET, "/alerts");
     (PATCH, "/alerts/:id/acknowledge"); (GET, "/backups"); (POST, "/backups"); (GET, "/metrics")].
Definition mount (prefix : string) (l : list route) : list route := map (fun r => Route (verb r) (prefix +:+ path r) (guards r)) l.
Definition v1 : list route :=
  mount "/results" createResultsRouter ++ mount "/deliveries" createDeliveriesRouter ++ mount "/destinations" createDestinationsRouter ++
  mount "/lineage" createLineageRouter ++ mount "/health" createHealthRouter ++ mount "/metrics" createMetricsRouter ++ mount "/admin" createAdminRouter.
(** api/routes/api.routes.ts:34-91 createApiRouter *)
Definition createApiRouter : list route :=
  mount "/api/v1" v1 ++ mount "/v1" v1 ++ mount "/health" createHealthRouter ++ mount "/metrics" createMetricsRouter ++ mount "/admin" createAdminRouter.
End routers.

(** What the filters make of a request: the handler is reached, an error is
    passed on, or they answer themselves. *)
Inductive verdict : Type := Reaches (auth : option AuthContext.t) | Refused (t : thrown) | Answered (status : Z).
Section request.
(** The credentials of the request, as the guard finds them, and whether it is
    under a limit. *)
Variables (authenticate : res exn AuthContext.t) (under : Z -> Z -> res thrown unit).
(** api/middleware/admin-auth.middleware.ts:7-22 adminAuthMiddleware
    The contexts the guard makes have no method [isAdmin]. *)
Definition admin_portal (auth : option AuthContext.t) : verdict :=
  match auth with None => Answered 401 | Some _ => Refused (App (Connectors.type_error "actor.isAdmin is not a function")) end.
Fixpoint filtered (gs : list guard) (auth : option AuthContext.t) : verdict :=
  match gs with
  | [] => Reaches auth
  | Auth :: gs => match authenticate with Ok c => filtered gs (Some c) | Throw e => Refused (App e) end
  | Role r :: gs => match AuthContext.requireRole r auth with Ok _ => filtered gs auth | Throw e => Refused (App e) end
  | Rate n ms :: gs => match under n ms with Ok _ => filtered gs auth | Throw t => Refused t end
  | AdminPortal :: gs => match admin_portal auth with Reaches a => filtered gs a | v => v end
  end.
End request.

Definition writes (r : route) : bool := match verb r with GET => false | _ => true end.
(** Whether the path is one of the administration portal's. *)
Definition in_portal (r : route) : bool := bool_decide (AdminPortal ∈ guards r).
Definition is_ingest (r : route) : bool := bool_decide (path r ∈ ["/api/v1/results/"; "/v1/results/"]).

(** The shape of the filters of every route, as a boolean. *)
Definition shaped (r : route) : bool :=
  if in_portal r then bool_decide (guards r = [AdminPortal])
  else if writes r then (if is_ingest r then bool_decide (take 1 (guards r) = [Auth]) else bool_decide (take 2 (guards r) = [Auth; Role "ADMIN"]))
  else true.
Lemma shapes rl : forallb shaped (createApiRouter true rl) = true.
Proof. destruct rl; vm_compute; reflexivity. Qed.
(** C31: With a guard, a request whose credentials the guard refuses changes nothing:
    every route that is not read-only is refused with the guard's error, and
    those other than ingestion also refuse who is no ADMIN.  The portal answers
    nobody, whoever asks. *)
Theorem routes_guarded rl r (authenticate : res exn AuthContext.t) under :
  r ∈ createApiRouter true rl ->
  (in_portal r = true -> filtered authenticate under (guards r) None = Answered 401) /\
  (in_portal r = false -> writes r = true ->
     (forall e, authenticate = Throw e -> filtered authenticate under (guards r) None = Refused (App e)) /\
     (forall c, authenticate = Ok c -> is_ingest r = false -> AuthContext.hasRole "ADMIN" c = false ->
        exists e, filtered authenticate under (guards r) None = Refused (App e))).
Proof.
  intros Hr. pose proof (shapes rl) as Hs. rewrite forallb_forall in Hs. specialize (Hs r (proj1 (list_elem_of_In _ _) Hr)). unfold shaped in Hs.
  split; [intros Hp|intros Hp Hw]; rewrite Hp in Hs.
  - apply bool_decide_eq_true in Hs. by rewrite Hs.
  - rewrite Hw in Hs. split.
    + intros e ->. destruct (is_ingest r); apply bool_decide_eq_true in Hs; destruct (guards r) as [|g gs]; try done; cbn in Hs; by injection Hs as ->.
    + intros c -> Hi Ha. rewrite Hi in Hs. apply bool_decide_eq_true in Hs. destruct (guards r) as [|g [|g' gs]]; try done. injection Hs as -> ->.
      cbn. rewrite Ha. destruct (negb (AuthContext.authenticated c) && str_eqb (AuthContext.getPrincipalId c) "anonymous"); by eexists.
Qed.
Lemma routes_guarded_witness :
  filtered (Throw (AuthenticationError "Authorization header or API key is missing" "missing_token")) (fun _ _ => Ok tt)
    [Auth; Role "ADMIN"; Rate 30 60000] None = Refused (App (AuthenticationError "Authorization header or API key is missing" "missing_token")).
Proof.
  refine (proj1 (proj2 (routes_guarded true (Route DELETE "/api/v1/destinations/:destinationId" [Auth; Role "ADMIN"; Rate 30 60000]) _ (fun _ _ => Ok tt) _) eq_refl eq_refl) _ eq_refl).
  apply (list_elem_of_lookup_2 _ 9). reflexivity.
Defined.

(** api/index.ts:15-19 initializeApiModule
    What [createApp] is given holds the security module under its own name, and
    no [authGuard] or [rateLimiter]. *)
Definition wired_routes : list route := createApiRouter false false.
(** So the application the program starts lets everyone do everything, except in
    the portal, which is shut. *)
Lemma wired_open r (authenticate : res exn AuthContext.t) under :
  r ∈ wired_routes -> filtered authenticate under (guards r) None = if in_portal r then Answered 401 else Reaches None.
Proof.
  intros Hr. assert (forallb (fun r => bool_decide (guards r = if in_portal r then [AdminPortal] else [])) wired_routes = true) as Hs by (vm_compute; reflexivity).
  rewrite forallb_forall in Hs. specialize (Hs r (proj1 (list_elem_of_In _ _) Hr)). apply bool_decide_eq_true in Hs. rewrite Hs. by destruct (in_portal r).
Qed.
End Routes.

(** ** Other filters *)

Module Filters.
(** api/middleware/correlation-id.middleware.ts:12-40 correlationIdMiddleware
    The identifier of the request, also set as a header of the answer. *)
Definition correlationIdMiddleware (header : string -> option string) (randomUUID : string) : string :=
  match header "X-Correlation-ID" with
  | Some (String _ _ as id) => id
  | _ => match header "X-Request-ID" with Some (String _ _ as id) => id | _ => "req-" +:+ randomUUID end
  end.
(** api/middleware/body-parser.middleware.ts:24-30 bodyParserMiddleware *)
Definition body_error (limit : string) (err : jsval) : thrown :=
  if js_truthy err && (js_strict_eq (js_get "type" err) (JString "entity.too.large") || js_strict_eq (js_get "status" err) (JNum 413))
  then TooLarge ("Request payload size exceeds maximum allowed limit (" +:+ limit +:+ ").") else App (Foreign err).
(** api/middleware/error-handler.middleware.ts:9-49 errorHandlerMiddleware
    The status of the answer and its body. *)
Definition errorHandlerMiddleware (timestamp : string) (correlation : option string) (err : thrown) : jsval * jsval :=
  let correlationId := str_or (default "" correlation) "none" in
  let a := ErrorSerializer.serialize err in (ErrorSerializer.statusCode a, ErrorSerializer.payload timestamp correlationId a).

Section rate.
Context {R : Type} (ops : option (SlidingWindow.redis_ops R)).
(** api/middleware/rate-limit.middleware.ts:12-13 rateLimitMiddleware
    [path] is the path below the router the filter is mounted in. *)
Definition rateLimitKey (path : string) (auth : option AuthContext.t) (ip : option string) : string :=
  path +:+ ":" +:+ str_or (match auth with Some c => AuthContext.getPrincipalId c | None => "" end) (str_or (default "" ip) "anonymous").
(** api/middleware/rate-limit.middleware.ts:32-40 rateLimitMiddleware *)
Definition limited (key : string) (r : SlidingWindow.check_result) : thrown :=
  Limited ("Rate limit exceeded for key " +:+ quoted key +:+ ". Try again in " +:+ pretty (SlidingWindow.retryAfterSeconds r) +:+ " seconds.")
    (SlidingWindow.retryAfterSeconds r).
(** api/middleware/rate-limit.middleware.ts:9-48 rateLimitMiddleware
    The headers set, and what [next] is called with. *)
Definition rateLimitMiddleware (now : Z) (reqId key : string) (limit windowMs : Z) (s : SlidingWindow.t R) : SlidingWindow.t R * (list (string * string) * option thrown) :=
  match SlidingWindow.checkLimit ops now reqId key limit windowMs s with
  | (s', Ok r) => (s', (SlidingWindow.getHeaders r, if SlidingWindow.allowed r then None else Some (limited key r)))
  | (s', Throw e) => (s', ([], Some (App e)))
  end.
(** A request goes on exactly when the limiter allows it; a refused one tells
    when to try again, in a header and in the error. *)
Lemma refused_with_header now reqId key limit windowMs s :
  let '(_, (headers, r)) := rateLimitMiddleware now reqId key limit windowMs s in
  forall t, r = Some t -> headers <> [] ->
    exists c, t = limited key c /\ ("Retry-After", pretty (SlidingWindow.retryAfterSeconds c)) ∈ headers.
Proof.
  unfold rateLimitMiddleware. destruct (SlidingWindow.checkLimit _ _ _ _ _ _ _) as [s' [c|e]]; [|by intros ? [= <-]].
  destruct (SlidingWindow.allowed c) eqn:Ea; [done|]. intros t [= <-] _. exists c. split; [done|]. unfold SlidingWindow.getHeaders. rewrite Ea.
  apply elem_of_app. right. by left.
Qed.
(** The routers are mounted below their resource, so the key of a caller is one
    for the collections of results, deliveries and destinations. *)
Example collections_share_a_key auth ip : rateLimitKey "/" auth ip = "/:" +:+ str_or (match auth with Some c => AuthContext.getPrincipalId c | None => "" end) (str_or (default "" ip) "anonymous").
Proof. reflexivity. Qed.
End rate.
End Filters.

(** ** The dashboard *)

Module Dashboard.

(** [n / total * 100] *)
Definition percent (n total : nat) : Q := (inject_Z (Z.of_nat n) / inject_Z (Z.of_nat total) * 100)%Q.
Record queue_stats : Type := QueueStats { main : nat; delayed : nat; dlq : nat; throughput : nat; successRate : Q; activeWorkers : nat }.
(** The counts of the queue's jobs in each state. *)
Record job_counts : Type := Jobs { waiting : nat; active : nat; delayed_jobs : nat; completed : nat; failed : nat }.
(** api/controllers/dashboard.controller.ts:39-78 queueStats *)
Definition queueStats (c : option (job_counts * list string)) : queue_stats :=
  match c with
  | None => QueueStats 0 0 0 0 100%Q 0
  | Some (c, registered) =>
      let totalOutcomes := (completed c + failed c)%nat in
      QueueStats (waiting c + active c) (delayed_jobs c) (failed c) (completed c)
        (if (0 <? totalOutcomes)%nat then percent (completed c) totalOutcomes else 100%Q) (length registered)
  end.
(** A delivery, as the statistics look at it: the type of its destination and its
    status. *)
Record row : Type := Row { destinationType : string; status : string }.
Record counters : Type := Counters { n_total : nat; n_completed : nat; n_failed : nat }.
Definition tick (d : row) (c : counters) : counters :=
  Counters (S (n_total c)) (if str_eqb (status d) "COMPLETED" then S (n_completed c) else n_completed c)
    (if str_eqb (status d) "FAILED_DLQ" then S (n_failed c) else n_failed c).
(** api/controllers/dashboard.controller.ts:117-126 deliveryStats *)
Definition typeMap (l : list row) : list (string * counters) :=
  foldl (fun m d => jmap_set (destinationType d) (tick d (default (Counters 0 0 0) (jmap_get (destinationType d) m))) m) [] l.
(** api/controllers/dashboard.controller.ts:128-135 deliveryStats *)
Definition byDestinationType (m : list (string * counters)) : list (string * (Q * Q * nat)) :=
  map (fun e => let c := e.2 in
    (e.1, (if (0 <? n_total c)%nat then percent (n_completed c) (n_total c) else 100%Q, if (0 <? n_total c)%nat then percent (n_failed c) (n_total c) else 0%Q, n_total c))) m.
Definition with_status (s : string) (l : list row) : nat := length (filter (fun d => status d = s) l).
(** api/controllers/dashboard.controller.ts:83-149 deliveryStats
    The rates over the deliveries that are not deleted, and by type; the two
    averages are the database's. *)
Definition deliveryStats (l : list row) : Q * Q * list (string * (Q * Q * nat)) :=
  let total := length l in
  (if (0 <? total)%nat then percent (with_status "COMPLETED" l) total else 100%Q, if (0 <? total)%nat then percent (with_status "FAILED_DLQ" l) total else 0%Q,
   byDestinationType (typeMap l)).

Definition of_type (t : string) (l : list row) : list row := filter (fun d => destinationType d = t) l.
Lemma typeMap_app l d : typeMap (l ++ [d]) = jmap_set (destinationType d) (tick d (default (Counters 0 0 0) (jmap_get (destinationType d) (typeMap l)))) (typeMap l).
Proof. unfold typeMap. by rewrite foldl_app. Qed.
(** The counters of a type are those of its deliveries, and a type is listed when
    it has one. *)
Lemma typeMap_get l t :
  jmap_get t (typeMap l) = match of_type t l with [] => None | r => Some (Counters (length r) (with_status "COMPLETED" r) (with_status "FAILED_DLQ" r)) end.
Proof.
  induction l as [|d l IH] using rev_ind; [done|]. rewrite typeMap_app. unfold of_type in *. rewrite filter_app, filter_cons, filter_nil.
  destruct (decide (destinationType d = t)) as [<-|Hne].
  - rewrite jmap_get_set_eq, IH. set (r := filter (fun x => destinationType x = destinationType d) l).
    assert (forall s, with_status s (r ++ [d]) = (with_status s r + if str_eqb (status d) s then 1 else 0)%nat) as Hw.
    { intros s. unfold with_status. rewrite filter_app, length_app, filter_cons, filter_nil. unfold str_eqb. by case_bool_decide; [rewrite decide_True|rewrite decide_False]. }
    transitivity (Some (Counters (length (r ++ [d])) (with_status "COMPLETED" (r ++ [d])) (with_status "FAILED_DLQ" (r ++ [d])))); [|by destruct r].
    f_equal. rewrite !Hw, length_app. destruct r as [|x r]; cbn [default tick n_total n_completed n_failed length];
      unfold tick; cbn [n_total n_completed n_failed]; f_equal; try (destruct (str_eqb _ _); cbn; lia); cbn; lia.
  - rewrite jmap_get_set_ne by done. by rewrite IH, app_nil_r.
Qed.
Lemma percent_bounds n total : (n <= total)%nat -> (0 < total)%nat -> (0 <= percent n total <= 100)%Q.
Proof.
  intros Hn Ht. unfold percent. assert (0 < inject_Z (Z.of_nat total))%Q as Hp by (change 0%Q with (inject_Z 0); rewrite <- Zlt_Qlt; lia).
  assert (0 <= inject_Z (Z.of_nat n) <= inject_Z (Z.of_nat total))%Q as [H0 H1] by (change 0%Q with (inject_Z 0); rewrite <- !Zle_Qle; lia).
  assert (0 <= inject_Z (Z.of_nat n) / inject_Z (Z.of_nat total) <= 1)%Q; [|lra]. split; [apply Qle_shift_div_l; [done|lra]|apply Qle_shift_div_r; [done|lra]].
Qed.
Fixpoint sum_total (m : list (string * counters)) : nat := match m with [] => 0%nat | (_, c) :: m => (n_total c + sum_total m)%nat end.
Lemma sum_set k c m :
  (sum_total (jmap_set k c m) + default 0 (n_total <$> jmap_get k m) = sum_total m + n_total c)%nat.
Proof.
  induction m as [|[k' c'] m IH]; [cbn; lia|]. cbn [jmap_set jmap_get]. destruct (decide (k = k')); cbn [sum_total fmap option_fmap option_map default]; [cbn; lia|lia].
Qed.
Lemma sum_typeMap l : sum_total (typeMap l) = length l.
Proof.
  induction l as [|d l IH] using rev_ind; [done|]. rewrite typeMap_app, length_app. cbn [length].
  pose proof (sum_set (destinationType d) (tick d (default (Counters 0 0 0) (jmap_get (destinationType d) (typeMap l)))) (typeMap l)) as Hs.
  destruct (jmap_get (destinationType d) (typeMap l)) as [c|]; cbn in Hs |- *; lia.
Qed.
Definition within (c : counters) : Prop := (n_completed c <= n_total c)%nat /\ (n_failed c <= n_total c)%nat.
Lemma typeMap_within l : Forall (fun e : string * counters => within e.2) (typeMap l).
Proof.
  induction l as [|d l IH] using rev_ind; [constructor|]. rewrite typeMap_app. apply (jmap_set_Forall within); [|done].
  assert (within (default (Counters 0 0 0) (jmap_get (destinationType d) (typeMap l)))) as [H1 H2].
  { destruct (jmap_get _ _) as [c|] eqn:E; [|split; cbn; lia]. apply jmap_get_In in E. rewrite Forall_forall in IH. exact (IH _ E). }
  split; cbn; case_match; lia.
Qed.
Lemma rates_get m t :
  jmap_get t (byDestinationType m) = (fun c => (if (0 <? n_total c)%nat then percent (n_completed c) (n_total c) else 100%Q,
    if (0 <? n_total c)%nat then percent (n_failed c) (n_total c) else 0%Q, n_total c)) <$> jmap_get t m.
Proof. induction m as [|[k c] m IH]; [done|]. cbn. by destruct (decide (t = k)). Qed.
(** Whatever the deliveries are, each is counted under the type of its
    destination and nowhere else, and every rate lies between 0 and 100. *)
Theorem deliveries_counted l :
  let '(success, failure, types) := deliveryStats l in
  ((0 <= success <= 100)%Q /\ (0 <= failure <= 100)%Q) /\
  sum_list (map (fun e => e.2.2) types) = length l /\
  (forall t s f n, (t, (s, f, n)) ∈ types -> (0 <= s <= 100)%Q /\ (0 <= f <= 100)%Q) /\
  forall t, jmap_get t types = match of_type t l with [] => None
    | r => Some (percent (with_status "COMPLETED" r) (length r), percent (with_status "FAILED_DLQ" r) (length r), length r) end.
Proof.
  unfold deliveryStats. cbv zeta. split; [split|split; [|split]].
  - destruct l as [|d l]; [cbn; lra|]. apply percent_bounds; [apply length_filter|cbn; lia].
  - destruct l as [|d l]; [cbn; lra|]. apply percent_bounds; [apply length_filter|cbn; lia].
  - rewrite <- (sum_typeMap l). unfold byDestinationType. induction (typeMap l) as [|[k c] m IH]; [done|]. cbn in *. by rewrite IH.
  - intros t s f n ([k c] & [= -> -> -> ->] & Hin)%list_elem_of_fmap. cbn [snd]. pose proof (typeMap_within l) as Hw.
    rewrite Forall_forall in Hw. destruct (Hw _ Hin) as [H1 H2]. destruct (Nat.ltb_spec 0 (n_total c)); [|lra]. split; by apply percent_bounds.
  - intros t. rewrite rates_get, typeMap_get. by destruct (of_type t l).
Qed.
End Dashboard.
