(* ===== verification/Portal.v ===== *)
(** * The administration portal

    [api/admin/]: the paging of its lists ([Paging]), the services over the parts
    they are given ([Retries], [Queues], [Deliveries], [Accounts], [Settings]),
    the controllers over the services ([Controllers]) and the router with its
    filter ([Router]); [api/controllers/admin/], the controllers the program
    mounts ([Console]); [admin/services/] ([Analysis]).  Identifiers, times and
    the use of memory are arguments. *)
From Stdlib Require Import Ascii QArith Qround Qpower Qabs Lqa.
From stdpp Require Import base tactics numbers list strings gmap sorting pretty.
From S2P Require Import Prelude JsNum JsValue Errors DomainTypes Text Connectors IsoDate Repositories TaskResult UseCases.

Abbreviation obj := (list (string * jsval)).
Definition record (fs : obj) : jsval := JObject 0 fs.
Definition int (n : Z) : jsval := JNum (ofZ n).

(** [String(v)] read as a number, for any value. *)
Definition number_of (v : jsval) : num :=
  match v with JUndefined => NaN | JArray _ _ => parse_number (js_String v) | _ => js_Number v end.
(** [a + b]. *)
Definition js_plus (a b : jsval) : jsval :=
  match a, b with JNum x, JNum y => JNum (num_add x y) | _, _ => JString (js_String a +:+ js_String b) end.
Definition or_zero (v : jsval) : jsval := js_or v (int 0).
(** Reading the message of what was thrown: nothing has none, and throws. *)
Definition message_of (e : exn) : res exn jsval :=
  match e with
  | Foreign v => if is_nullish v then Throw (PlainError "Cannot read properties of undefined (reading 'message')") else Ok (js_get "message" v)
  | _ => Ok (js_get "message" (Errors.exn_js e))
  end.

(** ** Pages and sorting *)

Module Paging.

(** api/admin/validators/pagination-validator.ts:5-8 validatePage *)
Definition validatePage (page : jsval) : num :=
  let n := number_of page in
  if negb (js_truthy page) || is_nan n || num_ltb n (ofZ 1) then ofZ 1 else num_floor n.
(** api/admin/validators/pagination-validator.ts:10-13 validateLimit *)
Definition validateLimit (limit : jsval) : num :=
  let n := number_of limit in
  if negb (js_truthy limit) || is_nan n || num_ltb n (ofZ 1) then ofZ 50 else num_min (num_floor n) (ofZ 100).
Inductive order : Type := Asc | Desc.
(** api/admin/validators/pagination-validator.ts:15-22 validateSort *)
Definition validateSort (sort : option string) : string * order :=
  match sort with
  | Some s =>
      if str_truthy s then
        let parts := split_on ":" s in
        (str_or (default "" (head parts)) "createdAt",
         match parts !! 1%nat with Some o => if str_eqb (to_lower o) "asc" then Asc else Desc | None => Desc end)
      else ("createdAt", Desc)
  | None => ("createdAt", Desc)
  end.

Lemma floor_ge_1 n : num_ltb n (ofZ 1) = false -> is_nan n = false ->
  num_floor n = Inf false \/ exists z, num_floor n = ofZ z /\ 1 <= z.
Proof.
  destruct n as [|s|q]; [done|destruct s; [done|by left]|]. intros Hq _. right. exists (Qfloor q). split; [done|].
  cbn in Hq. unfold Qlt_bool in Hq. apply negb_false_iff, Qle_bool_iff in Hq.
  change 1 with (Qfloor (inject_Z 1)). by apply Qfloor_resp_le.
Qed.
(** Whatever a request gives, the page is a whole number from 1 on (or all of
    them) and the limit a whole number from 1 to 100. *)
Theorem portal_page_bounds page limit :
  (validatePage page = Inf false \/ exists z, validatePage page = ofZ z /\ 1 <= z) /\
  (exists z, validateLimit limit = ofZ z /\ 1 <= z <= 100).
Proof.
  split.
  - unfold validatePage. destruct (negb (js_truthy page)); [right; by exists 1|].
    destruct (is_nan (number_of page)) eqn:En; [right; by exists 1|].
    destruct (num_ltb (number_of page) (ofZ 1)) eqn:El; [right; by exists 1|]. by apply floor_ge_1.
  - unfold validateLimit. destruct (negb (js_truthy limit)); [exists 50; split; [done|lia]|].
    destruct (is_nan (number_of limit)) eqn:En; [exists 50; split; [done|lia]|].
    destruct (num_ltb (number_of limit) (ofZ 1)) eqn:El; [exists 50; split; [done|lia]|].
    destruct (floor_ge_1 _ El En) as [->|(z & -> & Hz)]; [exists 100; split; [done|lia]|].
    exists (Z.min z 100). split; [|lia]. unfold num_min, ofZ. rewrite num_leb_Fin. destruct (Qle_bool _ _) eqn:E.
    + apply Qle_bool_iff in E. rewrite <- Zle_Qle in E. by rewrite Z.min_l.
    + apply not_true_iff_false in E. rewrite Qle_bool_iff, <- Zle_Qle in E. by rewrite Z.min_r by lia.
Qed.
Example odd_pages :
  (map validatePage [JString "3"; JString "0"; JString "x"; JString ""; JNull; JNum (Fin (7 # 2))], map validateLimit [JString "250"; JUndefined; JBool true]) =
  (map ofZ [3; 1; 1; 1; 1; 3], map ofZ [100; 50; 1]).
Proof. vm_compute. reflexivity. Qed.
End Paging.

(** ** Retries and dead letters *)

Module Retries.

Section service.
(** The service that schedules a retry, when it is given with its method. *)
Context {W : Type} (scheduleRetry : option (jsval -> meth W exn unit)).
Abbreviation M := (meth W exn).

(** api/admin/services/retry-manager.service.ts:14-22 retryDelivery
    The time answered is now. *)
Definition retryDelivery (now : Z) (deliveryId : jsval) : M (jsval * Z) :=
  match scheduleRetry with Some f => f deliveryId | None => mret tt end;;
  mret (deliveryId, now).
(** What became of one of a batch: its error, if any. *)
Record detail : Type := Detail { d_id : jsval; d_error : option jsval }.
Record batch : Type := Batch { successCount : Z; failureCount : Z; details : list detail }.
(** api/admin/services/retry-manager.service.ts:29-38 for *)
Fixpoint retry_each (now : Z) (ids : list jsval) (b : batch) : M batch :=
  match ids with
  | [] => mret b
  | id :: ids =>
      e ← try_catch (retryDelivery now id;; mret None) (fun e => m ← lift_res (message_of e); mret (Some m));
      retry_each now ids
        (match e with
         | None => Batch (successCount b + 1) (failureCount b) (details b ++ [Detail id None])
         | Some m => Batch (successCount b) (failureCount b + 1) (details b ++ [Detail id (Some m)])
         end)
  end.
(** api/admin/services/retry-manager.service.ts:24-41 retryBatch *)
Definition retryBatch (now : Z) (deliveryIds : list jsval) : M batch := retry_each now deliveryIds (Batch 0 0 []).

(** api/admin/services/dlq-manager.service.ts:25-30 recoverDLQItem
    Through the retry service, when it is given. *)
Definition recoverDLQItem (retry : option (jsval -> M (jsval * Z))) (id : jsval) : M (jsval * string) :=
  match retry with Some f => f id;; mret tt | None => mret tt end;;
  mret (id, "RECOVERING").

(** *** Theorems *)

Lemma retry_each_spec now ids b w :
  (forall id w' w'' e, default (fun _ => mret tt) scheduleRetry id w' = (w'', Throw e) -> is_ok (message_of e) = true) ->
  exists w' r, retry_each now ids b w = (w', Ok r) /\
    map d_id (details r) = map d_id (details b) ++ ids /\
    (scheduleRetry = None -> w' = w /\ failureCount r = failureCount b) /\
    successCount r + failureCount r = successCount b + failureCount b + Z.of_nat (length ids).
Proof.
  intros Hm. revert b w. induction ids as [|id ids IH]; intros b w.
  { exists w, b. split; [done|]. rewrite app_nil_r. split; [done|]. split; [done|simpl; lia]. }
  cbn [retry_each]. unfold retryDelivery, try_catch, mbind, meth_bind, mret, meth_ret, lift_res. pose proof (Hm id w) as Hw.
  assert (forall w0, (match scheduleRetry with Some f => f id | None => fun s => (s, Ok tt) end) w0 = default (fun _ => mret tt) scheduleRetry id w0) as Hd
    by (by destruct scheduleRetry).
  rewrite Hd. destruct (default _ scheduleRetry id w) as [w1 [u|e]] eqn:E.
  - destruct (IH (Batch (successCount b + 1) (failureCount b) (details b ++ [Detail id None])) w1) as (w' & r & Hr & Hi & Hn & Hs).
    exists w', r. split; [exact Hr|]. rewrite Hi, Hs. simpl. rewrite map_app, <- app_assoc. split; [done|]. split; [|lia].
    intros En. destruct (Hn En) as [-> ->]. rewrite En in E. by injection E as <-.
  - specialize (Hw w1 e eq_refl). destruct (message_of e) as [m|]; [|done].
    destruct (IH (Batch (successCount b) (failureCount b + 1) (details b ++ [Detail id (Some m)])) w1) as (w' & r & Hr & Hi & _ & Hs).
    exists w', r. split; [exact Hr|]. rewrite Hi, Hs. simpl. rewrite map_app, <- app_assoc. split; [done|]. split; [|lia].
    intros En. by rewrite En in E.
Qed.

(** A batch answers for every delivery it was given, once and in order, as
    scheduled or with its error; a failure stops none of the others.  Without a
    service all are answered as scheduled, and nothing is done. *)
Theorem batch_accounts now ids w :
  (forall id w' w'' e, default (fun _ => mret tt) scheduleRetry id w' = (w'', Throw e) -> is_ok (message_of e) = true) ->
  exists w' r, retryBatch now ids w = (w', Ok r) /\ map d_id (details r) = ids /\
    successCount r + failureCount r = Z.of_nat (length ids) /\
    (scheduleRetry = None -> w' = w /\ failureCount r = 0).
Proof.
  intros Hm. destruct (retry_each_spec now ids (Batch 0 0 []) w Hm) as (w' & r & Hr & Hi & Hn & Hs). by exists w', r.
Qed.
End service.

Lemma batch_accounts_witness :
  let f := fun (id : jsval) (w : nat) => if js_strict_eq id (JString "b") then (w, Throw (PlainError "busy")) else (S w, Ok tt) in
  exists r, retryBatch (Some f) 9 [JString "a"; JString "b"; JString "c"] 0%nat = (2%nat, Ok r) /\ successCount r + failureCount r = 3.
Proof.
  destruct (batch_accounts (Some (fun (id : jsval) (w : nat) => if js_strict_eq id (JString "b") then (w, Throw (PlainError "busy")) else (S w, Ok tt)))
              9 [JString "a"; JString "b"; JString "c"] 0%nat) as (w' & r & Hr & _ & Hs & _).
  - intros id w w' e. simpl. destruct (js_strict_eq id (JString "b")); [|done]. by intros [= _ <-].
  - exists r. split; [|exact Hs]. vm_compute in Hr |- *. congruence.
Defined.
End Retries.

(** ** Queues and deliveries *)

Module Deliveries.
Import Paging.

Section services.
Context {W : Type}.
Abbreviation M := (meth W exn).
(** A list answered by a repository: an array, or an object with the data. *)
Record page_of : Type := PageOf { data : jsval; total : jsval; page : num; limit : num }.
Definition length_of (v : jsval) : jsval := match v with JArray _ l => int (Z.of_nat (length l)) | _ => js_get "length" v end.

(** api/admin/services/delivery-explorer.service.ts:17-35 listDeliveries
    Of the filters only the status is passed on. *)
Definition listDeliveries (findMany : option (obj -> num -> num -> M jsval)) (filters : jsval) : M page_of :=
  let page := validatePage (js_get "page" filters) in
  let limit := validateLimit (js_get "limit" filters) in
  match findMany with
  | Some f =>
      let status := js_get "status" filters in
      res ← f (if js_truthy status then [("status", status)] else []) page limit;
      let n := length_of res in
      mret (PageOf (js_or (js_get "data" res) res) (js_or (js_get "total" res) (if js_truthy n then n else int 0)) page limit)
  | None => mret (PageOf (JArray 0 []) (int 0) page limit)
  end.
(** api/admin/services/delivery-explorer.service.ts:36-38 searchDeliveries *)
Definition searchDeliveries (findMany : option (obj -> num -> num -> M jsval)) (filters : jsval) : M page_of := listDeliveries findMany filters.
(** api/admin/services/delivery-explorer.service.ts:40-45 getDeliveryDetail *)
Definition getDeliveryDetail (findById : option (string -> M jsval)) (id : string) : M jsval :=
  match findById with Some f => f id | None => mret JNull end.
(** api/admin/services/dlq-manager.service.ts:17-23 listDLQItems
    The filters are not looked at. *)
Definition listDLQItems (findMany : option (obj -> M jsval)) (filters : jsval) : M (jsval * jsval) :=
  match findMany with
  | Some f => res ← f [("status", JString "FAILED_DLQ")]; mret (js_or (js_get "data" res) res, or_zero (js_get "total" res))
  | None => mret (JArray 0 [], int 0)
  end.
(** api/admin/services/audit-service.ts:13-20 listAuditLogs *)
Definition listAuditLogs (findMany getLogs : option (jsval -> M jsval)) (filters : jsval) : M (jsval * jsval) :=
  match findMany, getLogs with
  | Some f, _ | None, Some f => res ← f filters; mret (js_or (js_get "data" res) res, or_zero (js_get "total" res))
  | None, None => mret (JArray 0 [], int 0)
  end.

(** api/admin/services/dashboard.service.ts:31-41 getQueueStatistics
    A failure of the queue manager counts as no counts. *)
Definition getQueueStatistics (getQueueStats : option (M jsval)) : M jsval :=
  counts ← match getQueueStats with Some f => try_catch f (fun _ => mret (record [])) | None => mret (record []) end;
  let c k := or_zero (js_get k counts) in
  mret (record [("totalJobs", js_plus (js_plus (c "main") (c "delayed")) (c "dlq")); ("pending", c "main"); ("processing", c "processing");
                ("delayed", c "delayed"); ("dlq", c "dlq"); ("throughput", JNum (Fin (154 # 10)))]).

(** api/admin/types/admin.types.ts:10-16 DeliveryStats *)
Record delivery_stats : Type := DeliveryStats { s_total : Z; completed : Z; failed : Z; retrying : Z; pendingRetry : Z }.
(** What was counted before the first failure. *)
Fixpoint counted (f : string -> M Z) (statuses : list string) : M (list Z) :=
  match statuses with
  | [] => mret []
  | s :: l => r ← try_catch (n ← f s; mret (Some n)) (fun _ => mret None);
              match r with Some n => rest ← counted f l; mret (n :: rest) | None => mret [] end
  end.
(** api/admin/services/dashboard.service.ts:43-65 getDeliveryStatistics *)
Definition getDeliveryStatistics (count : option (string -> M Z)) : M delivery_stats :=
  l ← match count with Some f => counted f ["COMPLETED"; "FAILED_DLQ"; "FAILED_RETRY"] | None => mret [] end;
  let n (i : nat) := default 0 (l !! i) in
  mret (DeliveryStats (n 0%nat + n 1%nat + n 2%nat) (n 0%nat) (n 1%nat) (n 2%nat) (n 2%nat)).
(** api/admin/services/dashboard.service.ts:67-77 getSystemHealthStatus
    Always this. *)
Definition getSystemHealthStatus : jsval :=
  record [("status", JString "HEALTHY"); ("score", int 100);
          ("components", record [("database", JBool true); ("redis", JBool true); ("queue", JBool true)])].
Definition stats_js (s : delivery_stats) : jsval :=
  record [("total", int (s_total s)); ("completed", int (completed s)); ("failed", int (failed s)); ("retrying", int (retrying s));
          ("pendingRetry", int (pendingRetry s))].
(** api/admin/services/dashboard.service.ts:17-29 getDashboardData *)
Definition getDashboardData (now : Z) (getQueueStats : option (M jsval)) (count : option (string -> M Z)) : M jsval :=
  queueStats ← getQueueStatistics getQueueStats;
  deliveryStats ← getDeliveryStatistics count;
  mret (record [("queueStats", queueStats); ("deliveryStats", stats_js deliveryStats); ("systemHealth", getSystemHealthStatus);
                ("recentErrors", JArray 0 []); ("timestamp", JString (IsoDate.iso_string now))]).
End services.

(** *** Over the table and the queue manager of the program *)

(** The table's count: the client refuses what is no status. *)
Definition table_count (s : string) : meth (list Status.t) exn Z := fun t =>
  match head (filter (fun x => Status.getValue x = s) [Status.PENDING; Status.PROCESSING; Status.COMPLETED; Status.SCHEDULED_RETRY; Status.FAILED_DLQ]) with
  | Some x => (t, Ok (Z.of_nat (length (filter (fun y => y = x) t))))
  | None => (t, Throw (PlainError "Invalid value for argument `status`. Expected DeliveryStatus."))
  end.
Definition number_in (x : Status.t) (t : list Status.t) : Z := Z.of_nat (length (filter (fun y => y = x) t)).

(** Over the table the dashboard counts the completed and the dead-lettered
    deliveries, none that waits for a retry (the status it asks for does not
    exist), and its total leaves out every other delivery. *)
Theorem dashboard_counts t :
  exists s, getDeliveryStatistics (Some table_count) t = (t, Ok s) /\
    completed s = number_in Status.COMPLETED t /\ failed s = number_in Status.FAILED_DLQ t /\ retrying s = 0 /\ pendingRetry s = 0 /\
    s_total s = Z.of_nat (length t) - number_in Status.PENDING t - number_in Status.PROCESSING t - number_in Status.SCHEDULED_RETRY t.
Proof.
  assert (counted table_count ["COMPLETED"; "FAILED_DLQ"; "FAILED_RETRY"] t =
    (t, Ok [number_in Status.COMPLETED t; number_in Status.FAILED_DLQ t])) as E by reflexivity.
  unfold getDeliveryStatistics. rewrite (bind_ok _ _ _ _ _ E). eexists. split; [reflexivity|]. simpl. repeat split; try done. clear E. unfold number_in.
  induction t as [|x t IH]; [done|]. rewrite !filter_cons. destruct x; repeat case_decide; try done; simpl in *; lia.
Qed.
(** The queue manager's counts are objects, one per queue: the total is then a
    text. *)
Example totals_are_text :
  let counts := record [("main", record [("waiting", int 2)]); ("delayed", record []); ("dlq", record [])] in
  exists r, (getQueueStatistics (W := unit) (Some (fun w => (w, Ok counts))) tt).2 = Ok r /\
    js_get "totalJobs" r = JString "[object Object][object Object][object Object]".
Proof. eexists. split; reflexivity. Qed.
End Deliveries.

(** ** Keys, roles and users *)

Module Accounts.

(** api/admin/types/admin.types.ts:66-74 ApiKeyInfo *)
Record ApiKeyInfo : Type := ApiKey {
  k_id : string; k_name : jsval; k_tier : jsval; k_rateLimit : Z; k_quotaLimit : jsval; k_enabled : bool; k_createdAt : Z;
}.
Abbreviation keys := (list (string * ApiKeyInfo)).
(** api/admin/services/api-key-service.ts:10-12 listApiKeys *)
Definition listApiKeys (m : keys) : list ApiKeyInfo := map snd m.
(** [s.replace(/-/g, '')]. *)
Fixpoint no_dashes (s : string) : string :=
  match s with EmptyString => "" | String c s => if Ascii.eqb c "-" then no_dashes s else String c (no_dashes s) end.
(** api/admin/services/api-key-service.ts:14-30 createApiKey
    [uuid1] names the key and [uuid2] makes it; only the name is kept. *)
Definition createApiKey (now : Z) (uuid1 uuid2 : string) (name tier quotaOverride : jsval) (m : keys) : keys * (string * string) :=
  (jmap_set uuid1 (ApiKey uuid1 name tier (if js_strict_eq tier (JString "ENTERPRISE") then 1000 else 100) (js_or quotaOverride (int 10000)) true now) m,
   (uuid1, "qf_live_" +:+ no_dashes uuid2)).
(** api/admin/services/api-key-service.ts:32-37 revokeApiKey *)
Definition revokeApiKey (keyId : string) (m : keys) : keys :=
  match jmap_get keyId m with
  | Some k => jmap_set keyId (ApiKey (k_id k) (k_name k) (k_tier k) (k_rateLimit k) (k_quotaLimit k) false (k_createdAt k)) m
  | None => m
  end.

(** api/admin/types/admin.types.ts:76-87 Role *)
Record Role : Type := Role_ { r_id : string; r_name : jsval; r_permissions : jsval }.
Record User : Type := User_ { u_id : string; u_email : jsval; u_name : jsval; u_roles : list Role }.
Record state : Type := State { roles : list (string * Role); users : list (string * User) }.
(** api/admin/services/role-service.ts:11-15 constructor *)
Definition new : state := State [("role-admin", Role_ "role-admin" (JString "Admin") (JArray 0 [JString "*"]))] [].
(** api/admin/services/role-service.ts:17-19 listRoles *)
Definition listRoles (s : state) : list Role := map snd (roles s).
(** api/admin/services/role-service.ts:21-25 createRole *)
Definition createRole (uuid : string) (name permissions : jsval) (s : state) : state * Role :=
  let role := Role_ uuid name permissions in (State (jmap_set uuid role (roles s)) (users s), role).
(** api/admin/services/role-service.ts:27-29 listUsers *)
Definition listUsers (s : state) : list User := map snd (users s).
(** [this.roles.get(id)]. *)
Definition role_of (s : state) (id : jsval) : option Role := match id with JString id => jmap_get id (roles s) | _ => None end.
(** api/admin/services/role-service.ts:31-36 createUser
    An unknown role is left out. *)
Definition createUser (uuid : string) (email name : jsval) (roleIds : list jsval) (s : state) : state * User :=
  let user := User_ uuid email name (omap (role_of s) roleIds) in (State (roles s) (jmap_set uuid user (users s)), user).

(** *** Theorems *)

Inductive key_call : Type := KCreate (now : Z) (uuid1 uuid2 : string) (name tier quota : jsval) | KRevoke (keyId : string).
Definition on_keys (c : key_call) (m : keys) : keys :=
  match c with KCreate now u1 u2 n ti q => (createApiKey now u1 u2 n ti q m).1 | KRevoke k => revokeApiKey k m end.
(** Keys under their identifiers, each with a rate and a quota. *)
Definition key_ok (x : string * ApiKeyInfo) : Prop := k_id x.2 = x.1 /\ (k_rateLimit x.2 = 1000 \/ k_rateLimit x.2 = 100) /\ js_truthy (k_quotaLimit x.2) = true.

Lemma jmap_set_twice {A} (k : string) (v : A) m : jmap_set k v (jmap_set k v m) = jmap_set k v m.
Proof.
  induction m as [|[k' v'] m IH]; simpl; [by rewrite decide_True|].
  destruct (decide (k = k')); simpl; [by rewrite decide_True|]. rewrite decide_False by done. by rewrite IH.
Qed.
Lemma keys_set k v m : key_ok (k, v) -> Forall key_ok m -> Forall key_ok (jmap_set k v m).
Proof.
  intros Hv. induction 1 as [|[k' v'] m Hx Hm IH]; simpl; [by apply Forall_singleton|]. destruct (decide (k = k')); by constructor.
Qed.
Lemma on_keys_ok c m : NoDup (map fst m) /\ Forall key_ok m -> NoDup (map fst (on_keys c m)) /\ Forall key_ok (on_keys c m).
Proof.
  intros [Hn Hf]. destruct c as [now u1 u2 n ti q|k]; cbn [on_keys]; unfold createApiKey, revokeApiKey; cbn [fst].
  - split; [by apply jmap_set_NoDup|]. apply keys_set; [|done]. split; [done|]. simpl.
    split; [destruct (js_strict_eq ti "ENTERPRISE"); auto|]. unfold js_or. by destruct (js_truthy q) eqn:E.
  - destruct (jmap_get k m) as [v|] eqn:E; [|done]. split; [by apply jmap_set_NoDup|]. apply keys_set; [|done].
    rewrite Forall_forall in Hf. exact (Hf _ (jmap_get_In _ _ _ E)).
Qed.
(** Over any calls the keys are listed once each under their own identifiers,
    with a rate and a quota; a revoked key stays, disabled, until its identifier
    is drawn again, and revoking it again or an unknown one changes nothing. *)
Theorem keys_kept l k v :
  let m := fold_left (fun m c => on_keys c m) l [] in
  NoDup (map fst m) /\ Forall key_ok m /\
  (jmap_get k m = Some v -> exists v', jmap_get k (revokeApiKey k m) = Some v' /\ k_enabled v' = false /\ k_tier v' = k_tier v /\
     revokeApiKey k (revokeApiKey k m) = revokeApiKey k m) /\
  (jmap_get k m = None -> revokeApiKey k m = m).
Proof.
  cbv zeta. assert (forall m, NoDup (map fst m) /\ Forall key_ok m -> let m' := fold_left (fun m c => on_keys c m) l m in NoDup (map fst m') /\ Forall key_ok m') as Hl.
  { induction l as [|c l IH]; intros m Hm; [done|]. simpl. by apply IH, on_keys_ok. }
  destruct (Hl [] (conj (NoDup_nil_2) (Forall_nil_2 _))) as [H1 H2]. set (m := fold_left _ l []) in *. split; [done|]. split; [done|]. split.
  - intros Hv. unfold revokeApiKey at 1 3. rewrite Hv, jmap_get_set_eq. eexists. split; [done|]. split; [done|]. split; [done|].
    unfold revokeApiKey. rewrite Hv, jmap_get_set_eq. apply jmap_set_twice.
  - intros Hn. unfold revokeApiKey. by rewrite Hn.
Qed.
Lemma keys_kept_witness :
  let m := fold_left (fun m c => on_keys c m) [KCreate 1 "k-1" "a-b" (JString "ci") (JString "FREE") JUndefined] [] in
  exists v', jmap_get "k-1" (revokeApiKey "k-1" m) = Some v' /\ k_enabled v' = false.
Proof.
  destruct (proj1 (proj2 (proj2 (keys_kept [KCreate 1 "k-1" "a-b" (JString "ci") (JString "FREE") JUndefined] "k-1" (ApiKey "k-1" (JString "ci") (JString "FREE") 100 (int 10000) true 1)))) eq_refl) as (v' & H1 & H2 & _).
  exists v'. exact (conj H1 H2).
Defined.

(** A user has exactly the roles that exist, in the order given: with none that
    does the user is made all the same. *)
Lemma user_roles uuid email name ids s r :
  r ∈ u_roles (createUser uuid email name ids s).2 <-> exists id, id ∈ ids /\ role_of s id = Some r.
Proof. apply list_elem_of_omap. Qed.
End Accounts.

(** ** Settings, exports and what is only reported *)

Module Settings.

(** api/admin/services/configuration.service.ts:5-9 featureFlags *)
Definition featureFlags : list (string * bool) :=
  [("enableAdvancedCircuitBreaker", true); ("enableRealtimeAnalytics", true); ("enableAuditExportParquet", false)].
(** api/admin/services/configuration.service.ts:13-15 getFullConfiguration *)
Definition getFullConfiguration (config : jsval) : jsval := js_or config (record []).
(** api/admin/services/configuration.service.ts:17-19 getFeatureFlags *)
Definition getFeatureFlags (flags : list (string * bool)) : list (string * bool) := flags.
(** api/admin/services/configuration.service.ts:21-24 toggleFeatureFlag
    A name that is not there is added. *)
Definition toggleFeatureFlag (flag : string) (enabled : bool) (flags : list (string * bool)) : list (string * bool) := jmap_set flag enabled flags.

(** api/admin/types/admin.types.ts:104-110 ExportJob *)
Record ExportJob : Type := Export { x_exportId : string; x_status : string; x_format : string; x_downloadUrl : string; x_createdAt : Z }.
(** api/admin/services/export.service.ts:10-21 createExportJob
    Completed as soon as it is made; what is exported is not looked at. *)
Definition createExportJob (now : Z) (uuid entityType format : string) (m : list (string * ExportJob)) : list (string * ExportJob) * ExportJob :=
  let job := Export uuid "COMPLETED" format ("/admin/exports/" +:+ uuid +:+ "/download") now in (jmap_set uuid job m, job).
(** api/admin/services/export.service.ts:23-25 getExportStatus *)
Definition getExportStatus (exportId : string) (m : list (string * ExportJob)) : option ExportJob := jmap_get exportId m.

(** Answers that do not depend on the program's state. *)
Definition daemon (now : string) (id name : string) : jsval :=
  record [("id", JString id); ("name", JString name); ("status", JString "RUNNING"); ("isLeader", JBool true); ("lastRunAt", JString now)].
(** api/admin/services/daemon-manager.service.ts:13-19 getDaemonList *)
Definition getDaemonList (now : string) : jsval :=
  JArray 0 [daemon now "daemon-recovery" "RecoveryDaemon"; daemon now "daemon-health" "HealthDaemon"; daemon now "daemon-metrics" "MetricsDaemon"].
(** api/admin/services/worker-manager.service.ts:9-19 getWorkerList *)
Definition getWorkerList : jsval :=
  JArray 0 [record [("id", JString "worker-node-1"); ("status", JString "ACTIVE"); ("activeJobs", int 3); ("concurrency", int 10); ("uptimeSeconds", int 3600)]].
(** api/admin/services/analytics.service.ts:5-12 getAnalyticsOverview *)
Definition getAnalyticsOverview (timeRange : string) : jsval :=
  record [("timeRange", JString timeRange); ("totalDeliveries", int 45000); ("successRatePercent", JNum (Fin (9998 # 100))); ("avgProcessingTimeMs", int 38)].
(** [Math.round(bytes / (1024 * 1024))]. *)
Definition megabytes (bytes : Z) : jsval := JNum (num_round (num_div (ofZ bytes) (ofZ 1048576))).
(** api/admin/services/diagnostic-service.ts:7-15 getResourceUsage *)
Definition getResourceUsage (rss heapUsed : Z) : jsval :=
  record [("cpuUsagePercent", JNum (Fin (25 # 10))); ("memoryUsageMb", megabytes rss); ("totalMemoryMb", int 8192); ("heapUsedMb", megabytes heapUsed)].
(** api/admin/services/diagnostic-service.ts:17-25 getPerformanceMetrics *)
Definition getPerformanceMetrics : jsval :=
  record [("avgLatencyMs", int 42); ("p95LatencyMs", int 110); ("p99LatencyMs", int 250); ("throughputRps", int 120); ("errorRatePercent", JNum (Fin (1 # 100)))].
(** api/admin/services/audit-service.ts:22-30 generateComplianceReport *)
Definition generateComplianceReport (startDate endDate : string) : jsval :=
  record [("startDate", JString startDate); ("endDate", JString endDate); ("totalEvents", int 120); ("securityEventsCount", int 0); ("events", JArray 0 [])].
(** api/admin/services/dlq-manager.service.ts:32-43 analyzeDLQPatterns *)
Definition analyzeDLQPatterns (today : string) : jsval :=
  let top e n := record [("error", JString e); ("count", int n)] in
  record [("errorPatterns", record [("HTTP_500", int 12); ("TIMEOUT", int 4)]);
          ("topErrors", JArray 0 [top "Internal Server Error (500)" 12; top "ETIMEDOUT Gateway Timeout" 4]);
          ("timeline", JArray 0 [record [("date", JString today); ("count", int 16)]])].

(** A flag that was set is as it was set, and the others as they were. *)
Lemma flag_set f b g flags :
  jmap_get g (getFeatureFlags (toggleFeatureFlag f b flags)) = if decide (g = f) then Some b else jmap_get g flags.
Proof. unfold getFeatureFlags, toggleFeatureFlag. case_decide as Hg; [subst; apply jmap_get_set_eq|by apply jmap_get_set_ne]. Qed.
End Settings.

(** ** Controllers *)

Module Controllers.
Import Paging Retries Deliveries Accounts Settings.

(** What a request gives, and what it is answered with. *)
Record request : Type := Request { param : string -> string; body : jsval; query : jsval }.
Inductive reply : Type := Respond (status : Z) (body : jsval) | Next (e : exn).
Definition ok (data : jsval) : reply := Respond 200 (record [("success", JBool true); ("data", data)]).
Definition said (message : string) : reply := Respond 200 (record [("success", JBool true); ("message", JString message)]).
Definition not_found (error : string) : reply := Respond 404 (record [("success", JBool false); ("error", JString error)]).
(** [const { k } = v], on a body that may be missing. *)
Definition field (k : string) (v : jsval) : res exn jsval :=
  if is_nullish v then Throw (PlainError ("Cannot destructure property '" +:+ k +:+ "' of 'req.body' as it is undefined.")) else Ok (js_get k v).

Section handlers.
Context {W : Type}.
Abbreviation M := (meth W exn).
Definition run {A} (f : W -> W * A) : M A := fun w => let '(w', a) := f w in (w', Ok a).
Definition handled (m : M reply) : W -> W * reply := fun w => match m w with (w', Ok r) => (w', r) | (w', Throw e) => (w', Next e) end.

(** [Math.ceil(total / limit) || 1]. *)
Definition total_pages (total : jsval) (limit : num) : num := num_or (num_ceil (num_div (number_of total) limit)) (ofZ 1).
(** api/admin/controllers/delivery-explorer.controller.ts:10-26 listDeliveries *)
Definition listDeliveries (f : option (obj -> num -> num -> M jsval)) (req : request) : W -> W * reply := handled (
  result ← Deliveries.listDeliveries f (query req);
  mret (Respond 200 (record [("success", JBool true); ("data", data result);
    ("pagination", record [("page", JNum (page result)); ("limit", JNum (limit result)); ("total", total result);
                           ("totalPages", JNum (total_pages (total result) (limit result)))])]))).
(** api/admin/controllers/delivery-explorer.controller.ts:28-39 getDelivery *)
Definition getDelivery (f : option (string -> M jsval)) (req : request) : W -> W * reply := handled (
  delivery ← getDeliveryDetail f (param req "id");
  mret (if js_truthy delivery then ok delivery else not_found "Delivery not found")).
(** api/admin/controllers/dlq-manager.controller.ts:10-17 listDLQItems *)
Definition listDLQItems (f : option (obj -> M jsval)) (req : request) : W -> W * reply := handled (
  r ← Deliveries.listDLQItems f (query req);
  mret (Respond 200 (record [("success", JBool true); ("data", r.1); ("total", r.2)]))).
(** api/admin/controllers/dlq-manager.controller.ts:19-26 recoverDLQItem *)
Definition recoverDLQItem (retry : option (jsval -> M (jsval * Z))) (req : request) : W -> W * reply := handled (
  r ← Retries.recoverDLQItem retry (JString (param req "id"));
  mret (ok (record [("deliveryId", r.1); ("status", JString r.2)]))).
(** api/admin/controllers/dlq-manager.controller.ts:28-35 analyzeDLQ *)
Definition analyzeDLQ (today : string) (req : request) : W -> W * reply := handled (mret (ok (analyzeDLQPatterns today))).

Definition date_js (t : Z) : jsval := JString (IsoDate.iso_string t).
(** api/admin/controllers/retry-manager.controller.ts:10-17 retryDelivery *)
Definition retryDelivery (now : Z) (f : option (jsval -> M unit)) (req : request) : W -> W * reply := handled (
  r ← Retries.retryDelivery f now (JString (param req "id"));
  mret (ok (record [("deliveryId", r.1); ("nextRetryAt", date_js r.2)]))).
(** [for (const id of v)]. *)
Definition iterated (v : jsval) : res exn (list jsval) :=
  match v with
  | JArray _ l => Ok l
  | JString s => Ok (map (fun c => JString (String c EmptyString)) (String.list_ascii_of_string s))
  | _ => Throw (PlainError "deliveryIds is not iterable")
  end.
Definition detail_js (d : detail) : jsval :=
  record (("id", d_id d) :: match d_error d with None => [("success", JBool true)] | Some m => [("success", JBool false); ("error", m)] end).
(** api/admin/controllers/retry-manager.controller.ts:19-27 retryBatch
    The identifiers are not checked. *)
Definition retryBatch (now : Z) (f : option (jsval -> M unit)) (req : request) : W -> W * reply := handled (
  deliveryIds ← lift_res (field "deliveryIds" (body req));
  ids ← lift_res (iterated (js_or deliveryIds (JArray 0 [])));
  r ← Retries.retryBatch f now ids;
  mret (ok (record [("successCount", int (successCount r)); ("failureCount", int (failureCount r)); ("details", JArray 0 (map detail_js (details r)))]))).
(** api/admin/controllers/audit-explorer.controller.ts:10-17 listAuditLogs *)
Definition listAuditLogs (findMany getLogs : option (jsval -> M jsval)) (req : request) : W -> W * reply := handled (
  r ← Deliveries.listAuditLogs findMany getLogs (query req);
  mret (Respond 200 (record [("success", JBool true); ("data", r.1); ("total", r.2)]))).
Definition text_or (v : jsval) (d : string) : string := if js_truthy v then js_String v else d.
(** api/admin/controllers/audit-explorer.controller.ts:19-30 generateComplianceReport *)
Definition generateComplianceReport (now : string) (req : request) : W -> W * reply := handled (
  mret (ok (Settings.generateComplianceReport (text_or (js_get "startDate" (query req)) now) (text_or (js_get "endDate" (query req)) now)))).
(** api/admin/controllers/admin-dashboard.controller.ts:10-17 getDashboard *)
Definition getDashboard (now : Z) (q : option (M jsval)) (c : option (string -> M Z)) (req : request) : W -> W * reply := handled (
  data ← getDashboardData now q c; mret (ok data)).
(** api/admin/controllers/admin-dashboard.controller.ts:19-26 getQueueStats *)
Definition getQueueStats (q : option (M jsval)) (req : request) : W -> W * reply := handled (data ← getQueueStatistics q; mret (ok data)).
End handlers.

(** The controllers over the services that keep their own state. *)
Section stateful.
Definition key_js (k : ApiKeyInfo) : jsval :=
  record [("id", JString (k_id k)); ("name", k_name k); ("tier", k_tier k); ("rateLimit", int (k_rateLimit k));
          ("quotaLimit", k_quotaLimit k); ("enabled", JBool (k_enabled k)); ("createdAt", date_js (k_createdAt k))].
(** api/admin/controllers/api-key-manager.controller.ts:10-17 listApiKeys *)
Definition listApiKeys (req : request) : keys -> keys * reply := handled (m ← get_this; mret (ok (JArray 0 (map key_js (Accounts.listApiKeys m))))).
(** api/admin/controllers/api-key-manager.controller.ts:19-27 createApiKey
    The fields of the body are not checked. *)
Definition createApiKey (now : Z) (uuid1 uuid2 : string) (req : request) : keys -> keys * reply := handled (
  name ← lift_res (field "name" (body req));
  r ← run (Accounts.createApiKey now uuid1 uuid2 name (js_get "tier" (body req)) (js_get "quotaOverride" (body req)));
  mret (Respond 201 (record [("success", JBool true); ("data", record [("keyId", JString r.1); ("key", JString r.2)])]))).
(** api/admin/controllers/api-key-manager.controller.ts:29-36 revokeApiKey
    An unknown key is answered the same. *)
Definition revokeApiKey (req : request) : keys -> keys * reply := handled (
  modify (Accounts.revokeApiKey (param req "keyId"));; mret (said ("API Key " +:+ param req "keyId" +:+ " revoked"))).
Definition role_js (r : Role) : jsval :=
  record [("id", JString (r_id r)); ("name", r_name r); ("permissions", r_permissions r)].
Definition user_js (u : User) : jsval :=
  record [("id", JString (u_id u)); ("email", u_email u); ("name", u_name u); ("roles", JArray 0 (map role_js (u_roles u)))].
(** api/admin/controllers/role-manager.controller.ts:10-17 listRoles *)
Definition listRoles (req : request) : Accounts.state -> Accounts.state * reply := handled (s ← get_this; mret (ok (JArray 0 (map role_js (Accounts.listRoles s))))).
Definition created (data : jsval) : reply := Respond 201 (record [("success", JBool true); ("data", data)]).
(** api/admin/controllers/role-manager.controller.ts:19-27 createRole *)
Definition createRole (uuid : string) (req : request) : Accounts.state -> Accounts.state * reply := handled (
  name ← lift_res (field "name" (body req));
  r ← run (Accounts.createRole uuid name (js_or (js_get "permissions" (body req)) (JArray 0 [])));
  mret (created (role_js r))).
(** api/admin/controllers/role-manager.controller.ts:29-36 listUsers *)
Definition listUsers (req : request) : Accounts.state -> Accounts.state * reply := handled (s ← get_this; mret (ok (JArray 0 (map user_js (Accounts.listUsers s))))).
(** api/admin/controllers/role-manager.controller.ts:38-46 createUser
    Only an array can be mapped. *)
Definition createUser (uuid : string) (req : request) : Accounts.state -> Accounts.state * reply := handled (
  email ← lift_res (field "email" (body req));
  ids ← lift_res (match js_or (js_get "roleIds" (body req)) (JArray 0 []) with
                  | JArray _ l => Ok l | _ => Throw (PlainError "roleIds.map is not a function") end);
  u ← run (Accounts.createUser uuid email (js_get "name" (body req)) ids);
  mret (created (user_js u))).
Abbreviation flags := (list (string * bool)).
(** api/admin/controllers/configuration-manager.controller.ts:10-17 getConfiguration *)
Definition getConfiguration (config : jsval) (req : request) : flags -> flags * reply := handled (mret (ok (getFullConfiguration config))).
(** api/admin/controllers/configuration-manager.controller.ts:19-26 getFeatureFlags *)
Definition getFeatureFlags (req : request) : flags -> flags * reply := handled (
  f ← get_this; mret (ok (record (map (fun x => (x.1, JBool x.2)) (Settings.getFeatureFlags f))))).
(** api/admin/controllers/configuration-manager.controller.ts:28-36 toggleFeatureFlag *)
Definition toggleFeatureFlag (req : request) : flags -> flags * reply := handled (
  flag ← lift_res (field "flag" (body req));
  let enabled := js_get "enabled" (body req) in
  modify (Settings.toggleFeatureFlag (js_String flag) (js_truthy enabled));;
  mret (said ("Feature flag " +:+ js_String flag +:+ " set to " +:+ js_String enabled))).
Abbreviation exports := (list (string * ExportJob)).
Definition export_js (x : ExportJob) : jsval :=
  record [("exportId", JString (x_exportId x)); ("status", JString (x_status x)); ("format", JString (x_format x));
          ("downloadUrl", JString (x_downloadUrl x)); ("createdAt", date_js (x_createdAt x))].
(** api/admin/controllers/exports.controller.ts:10-18 exportDeliveries *)
Definition exportDeliveries (now : Z) (uuid : string) (req : request) : exports -> exports * reply := handled (
  format ← lift_res (field "format" (body req));
  x ← run (createExportJob now uuid "DELIVERIES" (text_or format "JSON"));
  mret (Respond 202 (record [("success", JBool true); ("data", export_js x)]))).
(** api/admin/controllers/exports.controller.ts:20-31 getExportStatus *)
Definition getExportStatus (req : request) : exports -> exports * reply := handled (
  m ← get_this;
  mret (match Settings.getExportStatus (param req "exportId") m with Some x => ok (export_js x) | None => not_found "Export job not found" end)).
End stateful.

(** The controllers whose answers depend on nothing. *)
(** api/admin/controllers/daemon-manager.controller.ts:10-17 listDaemons *)
Definition listDaemons (now : string) (req : request) : reply := ok (getDaemonList now).
(** api/admin/controllers/daemon-manager.controller.ts:19-26 triggerDaemon *)
Definition triggerDaemon (req : request) : reply := said ("Daemon " +:+ param req "daemonId" +:+ " triggered").
(** api/admin/controllers/worker-manager.controller.ts:10-17 listWorkers *)
Definition listWorkers (req : request) : reply := ok getWorkerList.
(** api/admin/controllers/worker-manager.controller.ts:19-26 pauseWorker *)
Definition pauseWorker (req : request) : reply := said ("Worker " +:+ param req "workerId" +:+ " paused").
(** api/admin/controllers/worker-manager.controller.ts:28-35 resumeWorker *)
Definition resumeWorker (req : request) : reply := said ("Worker " +:+ param req "workerId" +:+ " resumed").
(** api/admin/controllers/system-diagnostics.controller.ts:10-17 getResourceUsage *)
Definition getResourceUsage (rss heapUsed : Z) (req : request) : reply := ok (Settings.getResourceUsage rss heapUsed).
(** api/admin/controllers/system-diagnostics.controller.ts:19-26 getPerformanceMetrics *)
Definition getPerformanceMetrics (req : request) : reply := ok Settings.getPerformanceMetrics.
(** api/admin/controllers/analytics.controller.ts:10-18 getOverview *)
Definition getOverview (req : request) : reply := ok (getAnalyticsOverview (text_or (js_get "timeRange" (query req)) "24h")).

(** *** Theorems *)

Lemma pages_hold n k : 0 < n -> 1 <= k -> exists p, total_pages (int n) (ofZ k) = ofZ p /\ k * (p - 1) < n <= k * p.
Proof.
  intros Hn Hk. unfold total_pages, number_of, js_Number, int, num_div, ofZ.
  destruct (Qeq_bool (inject_Z k) 0) eqn:E; [apply Qeq_bool_iff in E; change 0%Q with (inject_Z 0) in E; rewrite inject_Z_injective in E; lia|].
  cbn [num_ceil]. set (q := (inject_Z n / inject_Z k)%Q). set (p := Qceiling q).
  assert (0 < inject_Z k)%Q as HkQ by (change 0%Q with (inject_Z 0); rewrite <- Zlt_Qlt; lia).
  assert (q * inject_Z k == inject_Z n)%Q as Hq by (unfold q; field; lra).
  assert (n <= k * p) as Hle.
  { rewrite Zle_Qle, inject_Z_mult, Qmult_comm, <- Hq. apply Qmult_le_compat_r; [apply Qle_ceiling|lra]. }
  assert (k * (p - 1) < n) as Hlt.
  { rewrite Zlt_Qlt, inject_Z_mult, Qmult_comm, <- Hq. apply Qmult_lt_r; [done|]. apply Qceiling_lt. }
  exists p. split; [|lia]. unfold num_or, num_truthy, ofZ. destruct (Qeq_bool (inject_Z p) 0) eqn:Ep; [|done].
  apply Qeq_bool_iff in Ep. change 0%Q with (inject_Z 0) in Ep. rewrite inject_Z_injective in Ep. nia.
Qed.

(** A list is answered with whole page and limit, and, when the total is a
    number of entries, with the number of pages that hold them: each full but
    the last, and one for no entries. *)
Theorem listing_pages {W} (f : obj -> num -> num -> meth W exn jsval) req w w' (n : Z) l :
  f (if js_truthy (js_get "status" (query req)) then [("status", js_get "status" (query req))] else [])
    (validatePage (js_get "page" (query req))) (validateLimit (js_get "limit" (query req))) w =
    (w', Ok (record [("data", JArray 1 l); ("total", int n)])) -> 0 < n ->
  exists b k p, listDeliveries (Some f) req w = (w', Respond 200 b) /\ js_get "data" b = JArray 1 l /\
    validateLimit (js_get "limit" (query req)) = ofZ k /\ 1 <= k <= 100 /\
    js_get "totalPages" (js_get "pagination" b) = int p /\ k * (p - 1) < n <= k * p.
Proof.
  intros Hf Hn. destruct (portal_page_bounds (js_get "page" (query req)) (js_get "limit" (query req))) as [_ (k & Hk & Hb)].

  unfold listDeliveries, Deliveries.listDeliveries, handled, mbind, meth_bind. rewrite Hf, Hk. cbn [fst snd].
  unfold mret, meth_ret. destruct (pages_hold n k Hn (proj1 Hb)) as (p & Hp & Hpn).
  eexists _, k, p. split; [reflexivity|]. split; [reflexivity|]. split; [done|]. split; [done|]. split; [|done].
  assert (js_truthy (int n) = true) as Ht.
  { cbn. apply negb_true_iff, not_true_iff_false. rewrite Qeq_bool_iff. change 0%Q with (inject_Z 0). rewrite inject_Z_injective. lia. }
  assert (js_or (js_get "total" (record [("data", JArray 1 l); ("total", int n)])) (if js_truthy (length_of (record [("data", JArray 1 l); ("total", int n)])) then length_of (record [("data", JArray 1 l); ("total", int n)]) else int 0) = int n) as ->
    by (unfold js_or; by change (js_get "total" _) with (int n); rewrite Ht).
  change (JNum (total_pages (int n) (ofZ k)) = int p). by rewrite Hp.
Qed.
Lemma listing_pages_witness :
  let f := fun (_ : obj) (_ _ : num) (w : nat) => (S w, Ok (record [("data", JArray 1 []); ("total", int 41)])) in
  exists b k p, listDeliveries (Some f) (Request (fun _ => "") JUndefined (record [("limit", JString "20")])) 0%nat = (1%nat, Respond 200 b) /\
    js_get "totalPages" (js_get "pagination" b) = int p /\ k * (p - 1) < 41 <= k * p.
Proof.
  destruct (listing_pages (fun (_ : obj) (_ _ : num) (w : nat) => (S w, Ok (record [("data", JArray 1 []); ("total", int 41)])))
              (Request (fun _ => "") JUndefined (record [("limit", JString "20")])) 0%nat 1%nat 41 [] eq_refl ltac:(lia)) as (b & k & p & H1 & _ & _ & _ & H2 & H3).
  exists b, k, p. exact (conj H1 (conj H2 H3)).
Defined.
End Controllers.

(** ** The router *)

Module Router.

Inductive method : Type := GET | POST | DELETE.
#[export] Instance method_eq : EqDecision method.
Proof. solve_decision. Defined.
(** Which handler a route reaches: a controller and its method. *)
Record route : Type := Route { verb : method; path : string; controller : string; handler : string }.
(** api/admin/routes/admin.routes.ts:36-100 createAdminRouter
    In the order they are tried. *)
Definition createAdminRouter : list route :=
  [Route GET "/dashboard" "dashboard" "getDashboard"; Route GET "/dashboard/queue-stats" "dashboard" "getQueueStats";
   Route GET "/deliveries" "deliveryExplorer" "listDeliveries"; Route GET "/deliveries/:id" "deliveryExplorer" "getDelivery";
   Route POST "/deliveries/:id/retry" "retryManager" "retryDelivery"; Route POST "/deliveries/retry-batch" "retryManager" "retryBatch";
   Route GET "/dlq" "dlqManager" "listDLQItems"; Route POST "/dlq/:id/recover" "dlqManager" "recoverDLQItem"; Route GET "/dlq/analysis" "dlqManager" "analyzeDLQ";
   Route GET "/workers" "workerManager" "listWorkers"; Route POST "/workers/:workerId/pause" "workerManager" "pauseWorker";
   Route POST "/workers/:workerId/resume" "workerManager" "resumeWorker"; Route GET "/daemons" "daemonManager" "listDaemons";
   Route POST "/daemons/:daemonId/trigger" "daemonManager" "triggerDaemon"; Route GET "/config" "configurationManager" "getConfiguration";
   Route GET "/feature-flags" "configurationManager" "getFeatureFlags"; Route POST "/feature-flags/toggle" "configurationManager" "toggleFeatureFlag";
   Route GET "/audit-logs" "auditExplorer" "listAuditLogs"; Route GET "/audit-logs/compliance-report" "auditExplorer" "generateComplianceReport";
   Route GET "/api-keys" "apiKeyManager" "listApiKeys"; Route POST "/api-keys" "apiKeyManager" "createApiKey";
   Route DELETE "/api-keys/:keyId" "apiKeyManager" "revokeApiKey"; Route GET "/roles" "roleManager" "listRoles"; Route POST "/roles" "roleManager" "createRole";
   Route GET "/users" "roleManager" "listUsers"; Route POST "/users" "roleManager" "createUser";
   Route GET "/diagnostics/resources" "systemDiagnostics" "getResourceUsage"; Route GET "/diagnostics/performance" "systemDiagnostics" "getPerformanceMetrics";
   Route GET "/analytics/overview" "analytics" "getOverview"; Route POST "/exports/deliveries" "exports" "exportDeliveries";
   Route GET "/exports/status/:exportId" "exports" "getExportStatus"].

(** The segments of a path, a parameter matching any one that is not empty. *)
Fixpoint segments_match (p s : list string) : bool :=
  match p, s with
  | [], [] => true
  | x :: p, y :: s => (if starts_with ":" x then str_truthy y else str_eqb x y) && segments_match p s
  | _, _ => false
  end.
(** Express's choice: the first route with the method and a path that matches. *)
Definition routed (l : list route) (m : method) (url : string) : option route :=
  head (filter (fun r => bool_decide (verb r = m) && segments_match (split_on "/" (path r)) (split_on "/" url) = true) l).

(** api/admin/routes/admin-middleware.ts:6-13 adminAuthMiddleware
    Any text in either header passes. *)
Definition adminAuthMiddleware (adminKey authorization : option string) : option (Z * string) :=
  if str_truthy (str_or (default "" adminKey) (default "" authorization)) then None
  else Some (401, "Unauthorized: Admin authentication token required").
(** What a request comes to: an answer of the filter, a route, or nothing. *)
Inductive outcome : Type := Answered (status : Z) (error : string) | Reaches (r : route) | Passed.
Definition dispatch (adminKey authorization : option string) (m : method) (url : string) : outcome :=
  match adminAuthMiddleware adminKey authorization with
  | Some (s, e) => Answered s e
  | None => match routed createAdminRouter m url with Some r => Reaches r | None => Passed end
  end.

(** *** Theorems *)

(** Who sends no header reaches no route; any text in one reaches each. *)
Theorem any_header_enters m url r token :
  dispatch None None m url = Answered 401 "Unauthorized: Admin authentication token required" /\
  (token <> "" -> routed createAdminRouter m url = Some r ->
     dispatch None (Some token) m url = Reaches r /\ dispatch (Some token) None m url = Reaches r).
Proof.
  split; [done|]. intros Ht Hr. assert (str_truthy token = true) as E by (unfold str_truthy; by rewrite (proj2 (str_eqb_neq _ _))).
  unfold dispatch, adminAuthMiddleware, str_or. simpl. rewrite E, Hr. by rewrite E.
Qed.
Lemma any_header_enters_witness :
  dispatch None (Some "x") POST "/api-keys" = Reaches (Route POST "/api-keys" "apiKeyManager" "createApiKey").
Proof. exact (proj1 (proj2 (any_header_enters POST "/api-keys" (Route POST "/api-keys" "apiKeyManager" "createApiKey") "x") ltac:(discriminate) eq_refl)). Defined.

(** No route hides another: a path made of a route's own, its parameters
    filled with a name no route has, reaches that route. *)
Definition filled (p : string) : string := String.concat "/" (map (fun x => if starts_with ":" x then "some-name" else x) (split_on "/" p)).
Lemma routes_reachable : forallb (fun r => match routed createAdminRouter (verb r) (filled (path r)) with
    | Some r' => str_eqb (path r') (path r) && str_eqb (handler r') (handler r) | None => false end) createAdminRouter = true.
Proof. vm_compute. reflexivity. Qed.
End Router.

(** ** The console the program mounts

    [api/controllers/admin/]: no handler reaches any other part of the program;
    what it answers depends on the request only. *)

Module Console.
Import Controllers.

Section handlers.
Context (now : Z) (iso : string).
Definition of_body (k : string) (req : request) (f : jsval -> reply) : reply :=
  match field k (body req) with Ok v => f v | Throw e => Next e end.
(** api/controllers/admin/queue.controller.ts:18-26 pauseQueue *)
Definition pauseQueue (req : request) : reply :=
  of_body "name" req (fun name => Respond 200 (record [("status", JString "paused"); ("queueName", name)])).
(** api/controllers/admin/queue.controller.ts:31-39 resumeQueue *)
Definition resumeQueue (req : request) : reply :=
  of_body "name" req (fun name => Respond 200 (record [("status", JString "resumed"); ("queueName", name)])).
(** api/controllers/admin/queue.controller.ts:44-56 clearQueue *)
Definition clearQueue (req : request) : reply :=
  of_body "name" req (fun name =>
    if negb (js_truthy (js_get "confirm" (body req))) then Respond 400 (record [("error", JString "Safety confirmation parameters missing.")])
    else Respond 200 (record [("status", JString "cleared"); ("queueName", name); ("purgedCount", int 15)])).
(** api/controllers/admin/destination.controller.ts:18-31 getDestinationStats *)
Definition getDestinationStats (req : request) : reply :=
  Respond 200 (record [("destinationId", JString (param req "id")); ("throughput", int 120); ("errorsCount", int 0); ("circuitBreakerState", JString "CLOSED")]).
(** api/controllers/admin/destination.controller.ts:36-44 testDestination *)
Definition testDestination (req : request) : reply := Respond 200 (record [("status", JString "success"); ("latencyMs", int 45)]).
(** api/controllers/admin/delivery.controller.ts:18-26 retryDLQDelivery *)
Definition retryDLQDelivery (req : request) : reply :=
  of_body "deliveryId" req (fun id => Respond 200 (record [("status", JString "queued"); ("deliveryId", id)])).
(** api/controllers/admin/delivery.controller.ts:31-41 getDLQDeliveries *)
Definition getDLQDeliveries (req : request) : reply := Respond 200 (record [("data", JArray 0 []); ("total", int 0); ("page", int 1)]).
(** api/controllers/admin/users.controller.ts:18-27 listUsers *)
Definition listUsers (req : request) : reply :=
  Respond 200 (record [("data", JArray 0 [record [("id", JString "usr-1"); ("email", JString "admin@oneinbox.ai"); ("roles", JArray 0 [JString "admin"]); ("active", JBool true)]]);
                       ("total", int 1)]).
(** api/controllers/admin/users.controller.ts:32-40 createUser *)
Definition createUser (req : request) : reply :=
  of_body "email" req (fun email => Respond 201 (record [("id", JString "usr-2"); ("email", email); ("roles", js_get "roles" (body req)); ("active", JBool true)])).
(** api/controllers/admin/configuration.controller.ts:18-28 getConfiguration *)
Definition getConfiguration (nodeEnv : string) (req : request) : reply :=
  Respond 200 (record [("environment", JString (str_or nodeEnv "production")); ("retentionDays", int 30); ("version", JString "1.0.0")]).
(** api/controllers/admin/configuration.controller.ts:33-40 updateConfiguration *)
Definition updateConfiguration (req : request) : reply := Respond 200 (record [("status", JString "updated"); ("details", body req)]).
(** api/controllers/admin/alert.controller.ts:18-24 listAlerts *)
Definition listAlerts (req : request) : reply := Respond 200 (JArray 0 []).
(** api/controllers/admin/alert.controller.ts:29-37 acknowledgeAlert *)
Definition acknowledgeAlert (req : request) : reply := Respond 200 (record [("alertId", JString (param req "id")); ("status", JString "acknowledged")]).
(** api/controllers/admin/incident.controller.ts:18-24 listIncidents *)
Definition listIncidents (req : request) : reply := Respond 200 (JArray 0 []).
(** api/controllers/admin/incident.controller.ts:29-37 acknowledgeIncident *)
Definition acknowledgeIncident (req : request) : reply := Respond 200 (record [("incidentId", JString (param req "id")); ("status", JString "acknowledged")]).
(** api/controllers/admin/backup.controller.ts:18-28 createBackup *)
Definition createBackup (req : request) : reply := Respond 202 (record [("backupId", JString ("bkp-" +:+ pretty now)); ("status", JString "in-progress")]).
(** api/controllers/admin/backup.controller.ts:33-39 listBackups *)
Definition listBackups (req : request) : reply := Respond 200 (JArray 0 []).
(** api/controllers/admin/roles.controller.ts:18-27 listRoles *)
Definition listRoles (req : request) : reply :=
  let role id name ps := record [("id", JString id); ("name", JString name); ("permissions", JArray 0 (map JString ps))] in
  Respond 200 (JArray 0 [role "role-1" "admin" ["*"]; role "role-2" "operator" ["queue:pause"; "queue:resume"]]).
(** api/controllers/admin/roles.controller.ts:32-40 createRole *)
Definition createRole (req : request) : reply :=
  of_body "name" req (fun name => Respond 201 (record [("id", JString ("role-" +:+ pretty now)); ("name", name); ("permissions", js_get "permissions" (body req))])).
(** api/controllers/admin/audit.controller.ts:18-27 getAuditLogs *)
Definition getAuditLogs (req : request) : reply :=
  Respond 200 (JArray 0 [record [("id", JString "evt-1"); ("action", JString "queue:pause"); ("actorId", JString "admin"); ("timestamp", JString iso)]]).
End handlers.

(** A queue is reported as cleared exactly when the request confirms it. *)
Lemma cleared_when_confirmed req :
  is_nullish (body req) = false ->
  (exists b, clearQueue req = Respond 200 b) <-> js_truthy (js_get "confirm" (body req)) = true.
Proof.
  intros Hb. unfold clearQueue, of_body, field. rewrite Hb. destruct (js_truthy (js_get "confirm" (body req))); simpl;
    (split; [intros [b E]; congruence|intros; try congruence; by eexists]).
Qed.
End Console.

(** ** Analysis *)

Module Analysis.

Fixpoint grow (months : nat) (rate : Q) (projected : Q) : Q :=
  match months with O => projected | S m => grow m rate (projected + projected * (rate / 100)) end.
(** admin/services/capacity-planner.ts:8-14 projectGrowth
    Over exact numbers. *)
Definition projectGrowth (currentBytes monthlyRatePercent : Q) (monthsCount : nat) : Q := grow monthsCount monthlyRatePercent currentBytes.

Record profile : Type := Profile { p50 : Z; p95 : Z; recommendations : list string }.
(** [Math.ceil(n * k / 100) - 1]: the products by 0.5 and 0.95 are rounded, but
    not to another integer part as long as a list has fewer than 2^40 entries. *)
Definition rank (k n : Z) : nat := Z.to_nat ((n * k + 99) / 100 - 1).
(** admin/services/performance-analyzer.ts:8-23 analyze *)
Definition analyze (latenciesMs : list Z) : profile :=
  match latenciesMs with
  | [] => Profile 0 0 []
  | _ =>
      let sorted := sort_by (fun x => x) latenciesMs in
      let n := Z.of_nat (length sorted) in
      let p95Val := default 0 (sorted !! rank 95 n) in
      Profile (default 0 (sorted !! rank 50 n)) p95Val
        (if 3500 <? p95Val then ["Ingestion latency P95 exceeds SLO. Scale up worker nodes allocations."] else [])
  end.
(** admin/services/dashboard-builder.ts:10-17 buildOverview *)
Definition buildOverview : jsval :=
  record [("systemStatus", JString "HEALTHY"); ("uptimePercent", JNum (Fin (9998 # 100))); ("activeIncidents", int 0); ("totalJobsProcessed", int 14520)].
(** admin/services/dashboard-builder.ts:22-30 buildQueueStats *)
Definition buildQueueStats : list (string * Z) := [("waiting", 12); ("active", 4); ("completed", 14500); ("failed", 4); ("delayed", 0)].
(** admin/services/health-analyzer.ts:8-16 analyze *)
Definition health : jsval := record [("healthy", JBool true); ("details", record [("db", JString "connected"); ("redis", JString "connected")])].
(** admin/serializers/dashboard-serializer.ts:10-17 serializeOverview *)
Definition serializeOverview (status : string) (uptime : Q) (incidents jobs : Z) : jsval :=
  record [("status", JString (to_lower status)); ("uptime", JString (Validation.toFixed2 uptime +:+ "%")); ("incidentsCount", int incidents); ("jobsCount", int jobs)].
(** admin/serializers/dashboard-serializer.ts:22-31 serializeQueueStats *)
Definition serializeQueueStats (waiting active completed failed delayed : Z) : list (string * Z) :=
  [("waiting", waiting); ("active", active); ("completed", completed); ("failed", failed); ("delayed", delayed);
   ("totalCount", waiting + active + completed + failed + delayed)].

(** *** Theorems *)

Lemma grow_spec m r p : (grow m r p == p * Qpower (1 + r / 100) (Z.of_nat m))%Q.
Proof.
  revert p. induction m as [|m IH]; intros p; [change (Z.of_nat 0) with 0%Z; unfold Qpower; cbn [grow]; ring|].
  cbn [grow]. rewrite IH, Nat2Z.inj_succ. assert (p + p * (r / 100) == p * (1 + r / 100))%Q as -> by ring.
  destruct (Qeq_dec (1 + r / 100) 0) as [E|E].
  - rewrite E. rewrite (Qpower_0 (Z.succ _)) by lia. ring.
  - unfold Z.succ. rewrite Qpower_plus by done. rewrite Qpower_1_r. ring.
Qed.

Lemma rank_lt k n : 0 < n -> 0 < k <= 100 -> (rank k n < Z.to_nat n)%nat.
Proof.
  intros Hn Hk. unfold rank. assert ((n * k + 99) / 100 < n + 1) by (apply Z.div_lt_upper_bound; nia).
  assert (1 <= (n * k + 99) / 100) by (apply Z.div_le_lower_bound; nia).
  generalize dependent ((n * k + 99) / 100). intros x Hx1 Hx2. lia.
Qed.
Lemma sorted_le (l : list Z) i j a b :
  StronglySorted (by_key (fun x => x)) l -> l !! i = Some a -> l !! j = Some b -> (i < j)%nat -> a <= b.
Proof.
  intros Hs. revert i j. induction Hs as [|x l Hl IH Hx]; intros i j; [done|]. rewrite Forall_forall in Hx.
  destruct i as [|i], j as [|j]; simpl; try lia.
  - intros [= <-] Hb _. apply Hx. by eapply list_elem_of_lookup_2.
  - intros Ha Hb Hij. apply (IH i j); [done|done|lia].
Qed.
(** The percentiles are among the latencies, the 95th is at least the 50th, and
    more workers are recommended exactly when it is over the objective. *)
Theorem profile_sound l : l <> [] ->
  let p := analyze l in
  p50 p ∈ l /\ p95 p ∈ l /\ p50 p <= p95 p /\ (recommendations p <> [] <-> 3500 < p95 p).
Proof.
  intros Hl. destruct (sort_by_spec (fun x : Z => x) l) as (Hs & Hp & _). cbv zeta. unfold analyze.
  destruct l as [|x l]; [done|]. set (so := sort_by (fun x => x) (x :: l)) in *.
  assert (0 < Z.of_nat (length so)) as Hn by (rewrite Hp; simpl; lia).
  destruct (lookup_lt_is_Some_2 so (rank 50 (Z.of_nat (length so)))) as [a Ha]; [pose proof (rank_lt 50 _ Hn); lia|].
  destruct (lookup_lt_is_Some_2 so (rank 95 (Z.of_nat (length so)))) as [b Hb]; [pose proof (rank_lt 95 _ Hn); lia|].
  rewrite Ha, Hb. cbn [p50 p95 recommendations default from_option id]. split; [rewrite <- Hp; by eapply list_elem_of_lookup_2|].
  split; [rewrite <- Hp; by eapply list_elem_of_lookup_2|]. split.
  - assert (rank 50 (Z.of_nat (length so)) <= rank 95 (Z.of_nat (length so)))%nat as Hr.
    { unfold rank. assert ((Z.of_nat (length so) * 50 + 99) / 100 <= (Z.of_nat (length so) * 95 + 99) / 100) by (apply Z.div_le_mono; lia). lia. }
    apply Nat.le_lteq in Hr as [Hr|Hr]; [|rewrite Hr in Ha; rewrite Ha in Hb; injection Hb as ->; lia].
    by eapply sorted_le.
  - destruct (Z.ltb_spec 3500 b); split; (done || lia).
Qed.
Lemma profile_sound_witness : p50 (analyze [4000; 10; 20]) ∈ [4000; 10; 20] /\ recommendations (analyze [4000; 10; 20]) <> [].
Proof.
  destruct (profile_sound [4000; 10; 20] ltac:(discriminate)) as (H1 & _ & _ & H2). split; [exact H1|]. apply H2. vm_compute. reflexivity.
Defined.
End Analysis.
