(* ===== verification/Analytics.v ===== *)
(** * Analytics

    [analytics/]: the checks of ad-hoc queries and the builder ([Queries]), the
    formats of exports with the service, the stream and the schedule that use
    them ([Exports]), cached results ([Results]), insights, metrics, reports and
    dashboards ([Reports]), the controllers with their routes ([Endpoints]).
    Times are arguments. *)
From Stdlib Require Import Ascii QArith.
From stdpp Require Import base tactics numbers list strings gmap pretty.
From S2P Require Import Prelude JsNum JsValue Text IsoDate Connectors JsonText Redis Quotas Cache Portal.

(** ** Queries *)

Module Queries.

Definition destructiveKeywords : list string := ["drop"; "delete"; "update"; "insert"; "alter"; "truncate"; "grant"; "revoke"].
(** analytics/query/query-validator.ts:8-29 validate
    Nothing, or the reason of the refusal. *)
Definition validate (sql : string) : option string :=
  let sanitized := trim (to_lower sql) in
  match List.find (fun word => includes word sanitized) destructiveKeywords with
  | Some word => Some ("SQL contains unauthorized query keywords: " +:+ word)
  | None => if negb (starts_with "select" sanitized) then Some "SQL must start with SELECT read operations." else None
  end.

Definition row (count latency : num) : jsval := JObject 0 [("totalCount", JNum count); ("averageLatency", JNum latency)].
(** analytics/query/adhoc-query.ts:19-31 run
    The query itself is not executed. *)
Definition run (sql : string) : res exn (list jsval) :=
  match validate sql with
  | Some reason => Throw (PlainError (str_or reason "Invalid query"))
  | None => Ok [row (ofZ 14500) (Fin (452 # 10))]
  end.

(** analytics/query/analytics-query-builder.ts:1-6 QueryConfig *)
Record QueryConfig : Type := Config { tableName : string; selectFields : list string; filterCondition : option string; orderByField : option string }.
(** analytics/query/analytics-query-builder.ts:14-19 constructor *)
Definition new (table : string) : QueryConfig := Config table ["*"] None None.
(** The calls that change the configuration. *)
Inductive call : Type := Select (fields : list string) | FilterBy (condition : string) | OrderBy (field : string).
(** analytics/query/analytics-query-builder.ts:21-34 select *)
Definition on_builder (c : call) (s : QueryConfig) : QueryConfig :=
  match c with
  | Select fields => Config (tableName s) fields (filterCondition s) (orderByField s)
  | FilterBy condition => Config (tableName s) (selectFields s) (Some condition) (orderByField s)
  | OrderBy field => Config (tableName s) (selectFields s) (filterCondition s) (Some field)
  end.
(** analytics/query/analytics-query-builder.ts:36-38 build
    The builder's own object: what has been built changes with later calls. *)
Definition build (s : QueryConfig) : QueryConfig := s.

(** *** Theorems *)

Lemma str_map_app f a b : str_map f (a +:+ b) = str_map f a +:+ str_map f b.
Proof. induction a as [|c a IH]; [done|]. change (String (f c) (str_map f (a +:+ b)) = String (f c) (str_map f a +:+ str_map f b)). by rewrite IH. Qed.
Lemma includes_app a w b : includes w (a +:+ w +:+ b) = true.
Proof.
  induction a as [|c a IH].
  - change ("" +:+ w +:+ b) with (w +:+ b). destruct w as [|d w]; [by destruct b|].
    unfold includes. change (String d w +:+ b) with (String d (w +:+ b)). fold includes. apply orb_true_iff. left.
    exact (starts_with_app (String d w) b).
  - change (String c a +:+ w +:+ b) with (String c (a +:+ w +:+ b)). cbn [includes]. by rewrite IH, orb_true_r.
Qed.
(** Trimming takes nothing of a word. *)
Lemma trim_around a w b : w <> "" -> str_forall (fun c => negb (is_space c)) w = true -> exists a' b', trim (a +:+ w +:+ b) = a' +:+ w +:+ b'.
Proof.
  intros Hne Hw. assert (exists a', trim_start (a +:+ w +:+ b) = a' +:+ w +:+ b) as [a' Ha].
  { induction a as [|c a [a' IH]].
    - exists "". change ("" +:+ w +:+ b) with (w +:+ b). destruct w as [|c w]; [done|]. simpl in Hw. apply andb_true_iff in Hw as [Hc _]. apply negb_true_iff in Hc.
      change (String c w +:+ b) with (String c (w +:+ b)). simpl. by rewrite Hc.
    - change (String c a +:+ w +:+ b) with (String c (a +:+ w +:+ b)). simpl. destruct (is_space c); [by exists a'|by exists (String c a)]. }
  exists a', (trim_end b). unfold trim. rewrite Ha. clear Ha a.
  assert (trim_end (w +:+ b) = w +:+ trim_end b) as Hwb.
  { clear Hne. induction w as [|c w IH]; [done|]. simpl in Hw. apply andb_true_iff in Hw as [Hc Hw]. apply negb_true_iff in Hc.
    change (String c w +:+ b) with (String c (w +:+ b)). cbn [trim_end]. rewrite Hc, IH by done. done. }
  induction a' as [|c a IH]; [done|]. change (String c a +:+ w +:+ b) with (String c (a +:+ w +:+ b)). cbn [trim_end]. rewrite IH.
  assert (str_eqb (a +:+ w +:+ trim_end b) "" = false) as ->; [|by rewrite andb_false_r].
  apply str_eqb_neq. destruct a as [|d a]; [|done]. by destruct w.
Qed.
Lemma validate_None sql : validate sql = None <->
  starts_with "select" (trim (to_lower sql)) = true /\ Forall (fun w => includes w (trim (to_lower sql)) = false) destructiveKeywords.
Proof.
  unfold validate. destruct (List.find _ _) as [w|] eqn:E.
  - apply List.find_some in E as [Hin Hw]. split; [done|]. intros [_ H]. rewrite Forall_forall in H. rewrite (H w) in Hw; [done|by apply list_elem_of_In].
  - pose proof (List.find_none _ _ E) as Hn. assert (Forall (fun w => includes w (trim (to_lower sql)) = false) destructiveKeywords) as HF.
    { apply Forall_forall. intros w Hw. apply Hn. by apply list_elem_of_In. }
    destruct (starts_with "select" _); simpl; split; (done || by intros [? _]).
Qed.
Lemma lower_keyword_spaces w : w ∈ destructiveKeywords -> w <> "" /\ str_forall (fun c => negb (is_space c)) w = true.
Proof. intros Hw. split; [intros ->|]; unfold destructiveKeywords in Hw; repeat (apply elem_of_cons in Hw as [E|Hw]; [by subst|]); by apply not_elem_of_nil in Hw. Qed.

(** The check looks at letters, not at statements: whatever stands before and
    after, one of the words in any case, alone or inside a name, is refused,
    and whatever passes is answered with the same row; a text without these
    letters passes after [select], whatever it does. *)
Theorem letters_decide a word b s :
  (to_lower word ∈ destructiveKeywords -> exists reason, validate (a +:+ word +:+ b) = Some reason /\ run (a +:+ word +:+ b) = Throw (PlainError reason)) /\
  (starts_with "select" (trim (to_lower s)) = true -> Forall (fun w => includes w (trim (to_lower s)) = false) destructiveKeywords ->
     run s = run "select 1").
Proof.
  split.
  - intros Hw. destruct (validate (a +:+ word +:+ b)) as [reason|] eqn:E.
    + exists reason. split; [done|]. unfold run. rewrite E. f_equal. f_equal. unfold str_or.
      enough (str_truthy reason = true) as -> by done. unfold validate in E. destruct (List.find _ _) as [w|]; [by injection E as <-|].
      destruct (negb _); [by injection E as <-|done].
    + apply validate_None in E as [_ E]. rewrite Forall_forall in E. destruct (lower_keyword_spaces _ Hw) as [H1 H2].
      unfold to_lower in *. rewrite !str_map_app in E. destruct (trim_around (str_map ascii_lower a) _ (str_map ascii_lower b) H1 H2) as (a' & b' & Ht).
      specialize (E _ Hw). cbv beta in E. by rewrite Ht, includes_app in E.
  - intros Hs Hf. unfold run. by rewrite (proj2 (validate_None s) (conj Hs Hf)).
Qed.
(** A column is refused, a table is made. *)
Lemma letters_decide_witness :
  validate "SELECT updatedAt FROM deliveries" <> None /\ run "select 1; create table copies (id int)" = run "select 1".
Proof.
  split.
  - destruct (proj1 (letters_decide "SELECT " "update" "dAt FROM deliveries" "") ltac:(vm_compute; do 2 right; left)) as (r & H & _).
    intros E. change (validate "SELECT updatedAt FROM deliveries" = Some r) in H. congruence.
  - refine (proj2 (letters_decide "" "" "" "select 1; create table copies (id int)") _ _); vm_compute; [reflexivity|repeat constructor].
Defined.

(** What is built is what each kind of call said last. *)
Definition last_of {A} (f : call -> option A) (d : A) (cs : list call) : A := fold_left (fun a c => default a (f c)) cs d.
Lemma built_last table cs : build (fold_left (fun s c => on_builder c s) cs (new table)) =
  Config table (last_of (fun c => match c with Select fs => Some fs | _ => None end) ["*"] cs)
    (last_of (fun c => match c with FilterBy x => Some (Some x) | _ => None end) None cs)
    (last_of (fun c => match c with OrderBy x => Some (Some x) | _ => None end) None cs).
Proof.
  unfold build, new, last_of. generalize ["*"]. generalize (@None string) at 1 3. generalize (@None string).
  induction cs as [|c cs IH]; intros o f fs; [done|]. destruct c; apply IH.
Qed.
End Queries.

(** ** Exports *)

Module Exports.

Definition newline : ascii := JsonText.chr 10.
Definition quote : ascii := JsonText.chr 34.
(** [JSON.stringify(v, null, 2)], [ind] being what a line starts with. *)
Definition block (open close ind : string) (items : list string) : string :=
  match items with
  | [] => open +:+ close
  | _ => let sep := String newline (ind +:+ "  ") in
         open +:+ sep +:+ String.concat ("," +:+ sep) items +:+ String newline ind +:+ close
  end.
Fixpoint indented (ind : string) (v : jsval) : option string :=
  match v with
  | JObject _ fs =>
      Some (block "{" "}" ind
        ((fix go (fs : list (string * jsval)) : list string :=
            match fs with
            | [] => []
            | (k, x) :: fs => match indented (ind +:+ "  ") x with Some s => (quoted (Json.escape k) +:+ ": " +:+ s) :: go fs | None => go fs end
            end) fs))
  | JArray _ items => Some (block "[" "]" ind (map (fun x => default "null" (indented (ind +:+ "  ") x)) items))
  | _ => Json.stringify v
  end.

(** Rows are objects, as those of all callers. *)
Abbreviation row := (list (string * jsval)).
Definition cell (val : jsval) : string := match val with JString s => quoted s | _ => js_String val end.
Definition line (headers : list string) (r : row) : string := String.concat "," (map (fun h => cell (default JUndefined (assoc h r))) headers).
(** analytics/export/export-formats.ts:12-15 format *)
Definition format_json (rows : list row) : string := default "" (indented "" (JArray 0 (map (JObject 0) rows))).
(** analytics/export/export-formats.ts:22-37 format
    The columns are those of the first row. *)
Definition format_csv (rows : list row) : string :=
  match rows with
  | [] => ""
  | r :: _ => let headers := map fst r in String.concat (String newline "") (String.concat "," headers :: map (line headers) rows)
  end.

Inductive format : Type := Csv | Js.
Definition format_name (f : format) : string := match f with Csv => "csv" | Js => "json" end.
Definition formatter (f : format) : list row -> string := match f with Csv => format_csv | Js => format_json end.
(** analytics/types.ts:7-11 ExportResult *)
Record ExportResult : Type := Exported { rowCount : Z; buffer : string }.
(** analytics/export/export-service.ts:18-34 exportDeliveries
    Two rows that are no deliveries. *)
Definition exportDeliveries (now : Z) (status : jsval) (f : format) : ExportResult :=
  let mockRow id := [("id", JString id); ("status", js_or status (JString "SUCCESS")); ("timestamp", JString (IsoDate.iso_string now))] in
  let mockRows := [mockRow "del-1"; mockRow "del-2"] in
  Exported (Z.of_nat (length mockRows)) (formatter f mockRows).
(** analytics/export/export-scheduler.ts:4-8 ExportSchedule *)
Record ExportSchedule : Type := Schedule { es_id : string; es_format : format; es_cron : jsval }.
(** analytics/export/export-scheduler.ts:26-34 scheduleRecurringExport
    Nothing is scheduled. *)
Definition scheduleRecurringExport (now : Z) (f : format) (cron : jsval) : ExportSchedule := Schedule ("sched-" +:+ pretty now) f cron.

(** analytics/export/export-streaming.ts:12-16 streamDeliveries
    The rows the stream starts with. *)
Definition streamDeliveries (status : jsval) : list row :=
  let mockRow id := [("id", JString id); ("status", js_or status (JString "SUCCESS"))] in [mockRow "del-1"; mockRow "del-2"].
(** analytics/export/export-streaming.ts:19-27 read
    One row a time, formatted by itself; nothing at the end. *)
Definition read (f : list row -> string) (rows : list row) : list row * option string :=
  match rows with [] => ([], None) | r :: rows => (rows, Some (f [r])) end.
(** The consumer reads until the end. *)
Fixpoint drain (f : list row -> string) (fuel : nat) (rows : list row) : option (list string) :=
  match fuel with
  | O => None
  | S fuel => match read f rows with (_, None) => Some [] | (rest, Some chunk) => cons chunk <$> drain f fuel rest end
  end.

(** *** Reading the table back *)

(** A reader of lines with quoted cells. *)
Fixpoint cells (inside : bool) (s : string) : list string :=
  match s with
  | EmptyString => [EmptyString]
  | String c s =>
      if Ascii.eqb c quote then cells (negb inside) s
      else if Ascii.eqb c "," && negb inside then EmptyString :: cells false s
      else match cells inside s with [] => [String c EmptyString] | w :: ws => String c w :: ws end
  end.
Definition read_csv (s : string) : list (list string) := map (cells false) (split_on newline s).

(** What can be read back: texts without quotes and line ends, and other values
    whose text has no comma either. *)
Definition bare (s : string) : bool := str_forall (fun c => negb (Ascii.eqb c quote || Ascii.eqb c newline || Ascii.eqb c ",")) s.
Definition no_quote (s : string) : bool := str_forall (fun c => negb (Ascii.eqb c quote || Ascii.eqb c newline)) s.
Definition tame (v : jsval) : bool := match v with JString s => no_quote s | _ => bare (js_String v) end.
Definition with_first (s : string) (l : list string) : list string := match l with [] => [s] | w :: ws => (s +:+ w) :: ws end.

Lemma cells_bare s rest : bare s = true -> cells false (s +:+ rest) = with_first s (cells false rest).
Proof.
  induction s as [|c s IH]; intros Hs.
  - change ("" +:+ rest) with rest. destruct (cells false rest) eqn:E; [|done]. exfalso. clear -E. revert E. generalize false as b.
    induction rest as [|c r IH]; intros b; [done|]. simpl. destruct (Ascii.eqb c quote); [apply IH|]. destruct (_ && _); [done|]. by destruct (cells b r).
  - unfold bare in *. simpl in Hs. apply andb_true_iff in Hs as [Hc Hs]. apply negb_true_iff, orb_false_iff in Hc as [[Hq Hn]%orb_false_iff Hk].
    change (String c s +:+ rest) with (String c (s +:+ rest)). cbn [cells]. rewrite Hq, Hk, IH by done. cbn [andb]. by destruct (cells false rest).
Qed.
Lemma cells_inside s rest : no_quote s = true -> cells true (s +:+ String quote rest) = with_first s (cells false rest).
Proof.
  induction s as [|c s IH]; intros Hs.
  - change ("" +:+ String quote rest) with (String quote rest). change (cells true (String quote rest)) with (cells false rest).
    pose proof (cells_bare "" rest eq_refl) as H. exact H.
  - unfold no_quote in *. simpl in Hs. apply andb_true_iff in Hs as [Hc Hs]. apply negb_true_iff, orb_false_iff in Hc as [Hq _].
    change (String c s +:+ String quote rest) with (String c (s +:+ String quote rest)). cbn [cells]. rewrite Hq, IH by done. rewrite andb_false_r. by destruct (cells false rest).
Qed.
Lemma cells_cell v rest : tame v = true -> cells false (cell v +:+ rest) = with_first (js_String v) (cells false rest).
Proof.
  destruct v; try apply cells_bare. simpl. intros Hs. unfold cell, quoted.
  change ((String quote (s +:+ String quote "")) +:+ rest) with (String quote ((s +:+ String quote "") +:+ rest)). rewrite <- str_app_assoc.
  change (cells false (String quote (s +:+ String quote "" +:+ rest))) with (cells true (s +:+ String quote rest)). by apply cells_inside.
Qed.
Lemma cells_comma rest : cells false ("," +:+ rest) = "" :: cells false rest.
Proof. reflexivity. Qed.
(** One line of cells, whichever way each is written. *)
Lemma cells_line {A} (write shown : A -> string) l :
  (forall x rest, x ∈ l -> cells false (write x +:+ rest) = with_first (shown x) (cells false rest)) -> l <> [] ->
  cells false (String.concat "," (map write l)) = map shown l.
Proof.
  intros Hw Hne. induction l as [|x l IH]; [done|]. destruct l as [|y l].
  - change (String.concat "," (map write [x])) with (write x). pose proof (Hw x "" ltac:(by left)) as H. rewrite str_app_nil_r in H. rewrite H. simpl. by rewrite str_app_nil_r.
  - change (String.concat "," (map write (x :: y :: l))) with (write x +:+ "," +:+ String.concat "," (map write (y :: l))).
    rewrite Hw by (by left). rewrite cells_comma, IH; [|intros z r Hz; apply Hw; by right|done]. cbn [with_first map]. by rewrite str_app_nil_r.
Qed.
Lemma split_lines l : Forall (fun s => avoids newline s = true) l -> l <> [] -> split_on newline (String.concat (String newline "") l) = l.
Proof.
  intros Hl Hne. induction Hl as [|s l Hs Hl IH]; [done|]. destruct l as [|t l].
  - by apply split_on_avoids.
  - change (String.concat (String newline "") (s :: t :: l)) with (s +:+ String newline (String.concat (String newline "") (t :: l))).
    by rewrite split_on_app, IH.
Qed.
Lemma bare_lines s : bare s = true -> avoids newline s = true.
Proof. apply str_forall_impl. intros c Hc. apply negb_true_iff, orb_false_iff in Hc as [[_ Hc]%orb_false_iff _]. apply negb_true_iff. by rewrite Ascii.eqb_sym. Qed.
Lemma cell_lines v : tame v = true -> avoids newline (cell v) = true.
Proof.
  destruct v; try apply bare_lines. simpl. intros Hs. unfold cell, quoted.
  enough (avoids newline (s +:+ String quote "") = true) as H by exact H. unfold avoids. rewrite (str_forall_app _ s).
  apply andb_true_iff. split; [|done]. eapply str_forall_impl; [|exact Hs]. intros c Hc. apply negb_true_iff, orb_false_iff in Hc as [_ Hc]. apply negb_true_iff. by rewrite Ascii.eqb_sym.
Qed.
Lemma concat_forall p sep l : str_forall p sep = true -> Forall (fun s => str_forall p s = true) l -> str_forall p (String.concat sep l) = true.
Proof.
  intros Hsep. induction 1 as [|s l Hs Hl IH]; [done|]. destruct l as [|t l]; [done|].
  change (String.concat sep (s :: t :: l)) with (s +:+ sep +:+ String.concat sep (t :: l)). rewrite (str_forall_app p s), (str_forall_app p sep). by rewrite Hs, Hsep, IH.
Qed.

(** The value of a row under a header. *)
Definition under (r : row) (h : string) : jsval := default JUndefined (assoc h r).
(** A table of tame cells is read back as the headers of its first row and, for
    each row, the texts of its values under them: a missing value reads
    [undefined], a column the first row lacks is lost. *)
Theorem csv_roundtrip r rows :
  r <> [] -> Forall (fun h => bare h = true) (map fst r) ->
  Forall (fun x => Forall (fun h => tame (under x h) = true) (map fst r)) (r :: rows) ->
  read_csv (format_csv (r :: rows)) = map fst r :: map (fun x => map (fun h => js_String (under x h)) (map fst r)) (r :: rows).
Proof.
  intros Hne Hh Hr. unfold read_csv, format_csv. set (hs := map fst r) in *. assert (hs <> []) as Hhs by (by destruct r).
  rewrite split_lines; [|constructor|done].
  - cbn [map]. f_equal.
    + rewrite <- (map_id hs) at 1. rewrite (cells_line (fun h => h) (fun h => h)); [apply map_id| |done].
      intros x rest Hx. apply cells_bare. rewrite Forall_forall in Hh. by apply Hh.
    + change (map (cells false) (map (line hs) (r :: rows)) = map (fun x => map (fun h => js_String (under x h)) hs) (r :: rows)). rewrite map_map.
      apply map_ext_in. intros x Hx%list_elem_of_In. rewrite Forall_forall in Hr. specialize (Hr x Hx). rewrite Forall_forall in Hr.
      apply (cells_line (fun h => cell (under x h)) (fun h => js_String (under x h))); [|done]. intros h rest Hin. by apply cells_cell, Hr.
  - apply concat_forall; [done|]. eapply Forall_impl; [exact Hh|]. intros h. apply bare_lines.
  - apply Forall_map. eapply Forall_impl; [exact Hr|]. intros x Hx. apply concat_forall; [done|]. apply Forall_map.
    eapply Forall_impl; [exact Hx|]. intros h. apply cell_lines.
Qed.
Lemma csv_roundtrip_witness :
  read_csv (format_csv [[("id", JString "a,b"); ("n", JNum (ofZ 3))]; [("n", JBool true); ("more", JNull)]]) = [["id"; "n"]; ["a,b"; "3"]; ["undefined"; "true"]].
Proof.
  exact (csv_roundtrip [("id", JString "a,b"); ("n", JNum (ofZ 3))] [[("n", JBool true); ("more", JNull)]] ltac:(discriminate)
           ltac:(repeat constructor) ltac:(repeat constructor)).
Defined.
(** A quote inside a text breaks its row. *)
Example quotes_unescaped :
  read_csv (format_csv [[("id", JString ("a" +:+ String quote "" +:+ ",b")); ("n", JNum (ofZ 3))]]) <> [["id"; "n"]; ["a" +:+ String quote "" +:+ ",b"; "3"]].
Proof. vm_compute. congruence. Qed.

Example json_export :
  JsonText.parse (buffer (exportDeliveries 0 JUndefined Js)) =
  Some (JArray 0 (map (fun id => JObject 0 [("id", JString id); ("status", JString "SUCCESS"); ("timestamp", JString "1970-01-01T00:00:00.000Z")]) ["del-1"; "del-2"])).
Proof. vm_compute. reflexivity. Qed.
(** The export asks for a status: every row of it has that one. *)
Lemma exported_status now status f : js_truthy status = true -> rowCount (exportDeliveries now status f) = 2 /\
  buffer (exportDeliveries now status f) = formatter f (map (fun id => [("id", JString id); ("status", status); ("timestamp", JString (IsoDate.iso_string now))]) ["del-1"; "del-2"]).
Proof. intros Hs. unfold exportDeliveries, js_or. by rewrite Hs. Qed.

(** The stream ends after one chunk a row, each the row formatted by itself. *)
Theorem streamed f rows fuel : (length rows < fuel)%nat -> drain f fuel rows = Some (map (fun r => f [r]) rows).
Proof.
  revert rows. induction fuel as [|fuel IH]; intros rows Hf; [lia|]. destruct rows as [|r rows]; [done|]. cbn [drain read].
  rewrite IH by (simpl in Hf; lia). reflexivity.
Qed.
Lemma streamed_witness : drain format_csv 3 (streamDeliveries (JString "X")) = Some (map (fun r => format_csv [r]) (streamDeliveries (JString "X"))).
Proof. exact (streamed format_csv (streamDeliveries (JString "X")) 3 ltac:(simpl; lia)). Defined.
(** So the chunks put together are neither the table nor a text of JSON. *)
Example stream_is_no_table :
  read_csv (String.concat "" (default [] (drain format_csv 3 (streamDeliveries JUndefined)))) = [["id"; "status"]; ["del-1"; "SUCCESSid"; "status"]; ["del-2"; "SUCCESS"]] /\
  JsonText.parse (String.concat "" (default [] (drain format_json 3 (streamDeliveries JUndefined)))) = None.
Proof. split; vm_compute; reflexivity. Qed.
End Exports.

(** ** Cached results *)

Module Results.
Import KeySpace.

Section cache.
Context {R : Type} `{KeySpace R}.
Abbreviation M := (meth R exn).

(** analytics/cache/analytics-cache.ts:19-19 cacheKey *)
Definition cacheKey (key : string) : string := "analytics:cache:" +:+ key.
(** analytics/cache/analytics-cache.ts:18-22 cacheResult
    The client writes [undefined] as an empty text. *)
Definition cacheResult (now : Z) (key : string) (value : jsval) (ttlSeconds : Z) : M unit :=
  LegacyLimiter.setex now (cacheKey key) ttlSeconds (default "" (Json.stringify value)).
(** analytics/cache/analytics-cache.ts:27-32 getCachedResult *)
Definition getCachedResult (now : Z) (key : string) : M jsval :=
  raw ← gets (fun r => fst <$> entry now (cacheKey key) r);
  match raw with
  | None => mret JNull
  | Some raw => if negb (str_truthy raw) then mret JNull
                else match JsonText.parse raw with Some v => mret v | None => fail IdempotencyCache.syntax_error end
  end.
End cache.

(** A value that JSON can hold is answered as it was until its time is over,
    and [null] after; a cached [undefined] reads as [null]; the results under
    other keys are not touched. *)
Theorem result_cached {R} `{KeySpace R} now t key v ttl (r : R) :
  JsonText.plain v = true \/ v = JUndefined -> 0 < ttl -> now <= t ->
  let '(r', o) := cacheResult now key v ttl r in
  o = Ok tt /\
  getCachedResult t key r' = (r', Ok (if (t <? now + ttl * 1000) then js_nullish_or v JNull else JNull)) /\
  forall key', key' <> key -> (getCachedResult t key' r').2 = (getCachedResult t key' r).2.
Proof.
  intros Hv Httl Ht. unfold cacheResult, LegacyLimiter.setex. rewrite (proj2 (Z.leb_gt ttl 0)) by lia. unfold modify. split; [done|]. split.
  - unfold getCachedResult, gets, mbind, meth_bind. rewrite entry_set_eq by done.
    assert (forall s, fst <$> alive t (Some (s, Z.add now <$> Some (ttl * 1000))) = if t <? now + ttl * 1000 then Some s else None) as ->.
    { intros s. cbn [alive fmap option_fmap option_map]. by destruct (t <? now + ttl * 1000). }
    destruct (t <? now + ttl * 1000); [|done]. destruct Hv as [Hv| ->]; [|done]. destruct (JsonText.parse_stringify v Hv) as (s & -> & Hs). cbn [default from_option id].
    assert (str_truthy s = true) as -> by (destruct s; [change (JsonText.parse "") with (@None jsval) in Hs; discriminate Hs|done]).
    cbn [negb]. rewrite Hs. by destruct v.
  - intros key' Hk. unfold getCachedResult, gets, mbind, meth_bind. rewrite entry_set_ne; [by repeat case_match|].
    unfold cacheKey. intros E. apply Hk. by simplify_eq.
Qed.
Lemma result_cached_witness :
  let v := JObject 0 [("total", JNum (ofZ 3))] in
  (getCachedResult 299999 "kpi" (cacheResult 0 "kpi" v 300 (∅ : gmap string entry_t)).1).2 = Ok v /\
  (getCachedResult 300000 "kpi" (cacheResult 0 "kpi" v 300 (∅ : gmap string entry_t)).1).2 = Ok JNull.
Proof.
  cbv zeta. split.
  - pose proof (result_cached 0 299999 "kpi" (JObject 0 [("total", JNum (ofZ 3))]) 300 (∅ : gmap string entry_t) (or_introl eq_refl) ltac:(lia) ltac:(lia)) as H.
    destruct (cacheResult 0 "kpi" (JObject 0 [("total", JNum (ofZ 3))]) 300 ∅) as [r' o]. destruct H as (_ & H & _). cbn [fst]. by rewrite H.
  - pose proof (result_cached 0 300000 "kpi" (JObject 0 [("total", JNum (ofZ 3))]) 300 (∅ : gmap string entry_t) (or_introl eq_refl) ltac:(lia) ltac:(lia)) as H.
    destruct (cacheResult 0 "kpi" (JObject 0 [("total", JNum (ofZ 3))]) 300 ∅) as [r' o]. destruct H as (_ & H & _). cbn [fst]. by rewrite H.
Defined.
End Results.

(** ** Insights, metrics, reports, dashboards *)

Module Reports.

(** analytics/types.ts:13-18 Insight *)
Record Insight : Type := Insight_ { i_id : string; i_type : string; i_summary : string; i_detectedAt : Z }.
(** analytics/types.ts:26-30 BusinessMetrics *)
Record BusinessMetrics : Type := Business { totalProcessed : Z; successRate : Q; costEstimate : Q }.
(** analytics/types.ts:32-36 CustomMetric *)
Record CustomMetric : Type := Custom { m_name : string; m_value : num; m_timestamp : Z }.
(** analytics/types.ts:38-44 Report *)
Record Report : Type := Report_ { r_id : string; r_type : string; r_generatedAt : Z; r_metrics : BusinessMetrics; r_insights : list Insight }.

(** analytics/insights/insight-generator.ts:10-19 generateInsights
    The same text whatever was measured. *)
Definition generateInsights (now : Z) : list Insight :=
  [Insight_ ("ins-" +:+ pretty now) "latency" "P95 latency improved by 12% over the last 24 hours." now].
(** analytics/insights/insight-generator.ts:24-32 analyzeTrends *)
Definition analyzeTrends : list (string * string * Q) := [("ingestion_latency", "down", 125 # 10)].
(** analytics/metrics/business-metrics.ts:10-16 calculateMetrics *)
Definition calculateMetrics : BusinessMetrics := Business 14500 (9995 # 100) (1812 # 100).

Abbreviation insights := (list (string * Insight)).
(** analytics/insights/insight-storage.ts:18-21 saveInsight *)
Definition saveInsight (x : Insight) (m : insights) : insights := jmap_set (i_id x) x m.
(** analytics/insights/insight-storage.ts:26-28 getInsights *)
Definition getInsights (m : insights) : list Insight := map snd m.

Abbreviation metrics := (list (string * CustomMetric)).
(** analytics/metrics/custom-metrics.ts:12-18 defineMetric *)
Definition defineMetric (now : Z) (name : string) (val : num) (m : metrics) : metrics := jmap_set name (Custom name val now) m.
(** analytics/metrics/custom-metrics.ts:23-25 queryMetric *)
Definition queryMetric (name : string) (m : metrics) : option CustomMetric := jmap_get name m.

(** analytics/reporting/report-generator.ts:20-31 generateReport *)
Definition generateReport (now : Z) (type : string) : Report := Report_ ("rep-" +:+ pretty now) type now calculateMetrics (generateInsights now).
(** analytics/reporting/report-scheduler.ts:20-24 scheduleReportTask
    No task is scheduled. *)
Definition scheduleReportTask (now : Z) (type : string) (cron : jsval) : string := "task-rep-" +:+ pretty now.

(** analytics/dashboards/dashboard-builder.ts:1-5 DashboardPanel *)
Record DashboardPanel : Type := Panel { p_id : string; p_title : string; p_type : string }.
(** analytics/dashboards/dashboard-builder.ts:7-11 Dashboard *)
Record Dashboard : Type := Dashboard_ { d_id : string; d_title : string; d_panels : list DashboardPanel }.
(** analytics/dashboards/dashboard-builder.ts:20-26 buildDashboard *)
Definition buildDashboard (now : Z) (title : string) (panels : list DashboardPanel) : Dashboard := Dashboard_ ("dash-" +:+ pretty now) title panels.
(** analytics/dashboards/dashboard-definitions.ts:1-15 PredefinedDashboards *)
Definition PredefinedDashboards : list (string * (string * list DashboardPanel)) :=
  [("executive", ("Executive KPI Overview", [Panel "1" "Total Volume" "counter"; Panel "2" "Success Rate Percentage" "gauge"]));
   ("operational", ("Queue Depth & Workloads", [Panel "3" "Active Queue Size" "sparkline"]))].
Example panels_distinct : NoDup (map p_id (concat (map (fun d => d.2.2) PredefinedDashboards))).
Proof. apply (bool_decide_eq_true_1 _). vm_compute. reflexivity. Qed.

(** A metric reads as it was defined last. *)
Lemma metric_last l m name : queryMetric name (fold_left (fun m '(now, n, v) => defineMetric now n v m) l m) =
  match last (base.filter (fun x => x.1.2 = name) l) with Some (now, n, v) => Some (Custom n v now) | None => queryMetric name m end.
Proof.
  revert m. induction l as [|[[now n] v] l IH]; intros m; [done|]. cbn [fold_left]. rewrite IH, filter_cons. cbn [fst snd].
  unfold queryMetric, defineMetric. case_decide as Hn.
  - subst. rewrite last_cons. destruct (last _) as [[[? ?] ?]|]; [done|]. apply jmap_get_set_eq.
  - destruct (last _) as [[[? ?] ?]|]; [done|]. by apply jmap_get_set_ne.
Qed.
End Reports.

(** ** The controllers and their routes *)

Module Endpoints.
Import Exports Reports Controllers.
#[local] Existing Instance Router.method_eq.

(** An answer of JSON, a file, or an error for the next handler. *)
Inductive answer : Type :=
| Sent (status : Z) (body : jsval)
| File (contentDisposition contentType body : string)
| Failed (e : exn).
Definition caught (r : res exn answer) : answer := match r with Ok a => a | Throw e => Failed e end.
Definition fmt_of (v : jsval) : format := match v with JString s => if str_eqb s "csv" then Csv else Js | _ => Js end.
Definition when_text (s : string) (v : jsval) (d : string) : string := match v with JString t => if str_eqb t s then s else d | _ => d end.

(** analytics/export/export-controller.ts:21-33 exportDeliveries *)
Definition exportDeliveries (now : Z) (req : request) : answer := caught (
  status ← field "status" (body req);
  let fmt := fmt_of (js_get "format" (body req)) in
  let result := Exports.exportDeliveries now status fmt in
  Ok (File ("attachment; filename=deliveries-export." +:+ format_name fmt) (match fmt with Csv => "text/csv" | Js => "application/json" end) (buffer result))).
(** analytics/export/export-controller.ts:38-48 scheduleRecurringExport *)
Definition scheduleRecurringExport (now : Z) (req : request) : answer := caught (
  format ← field "format" (body req);
  let schedule := Exports.scheduleRecurringExport now (fmt_of format) (js_or (js_get "cron" (body req)) (JString "0 0 * * *")) in
  Ok (Sent 202 (record [("id", JString (es_id schedule)); ("format", JString (format_name (es_format schedule))); ("cronExpression", es_cron schedule)]))).
Definition insight_js (x : Insight) : jsval :=
  record [("id", JString (i_id x)); ("type", JString (i_type x)); ("summary", JString (i_summary x)); ("detectedAt", JString (IsoDate.iso_string (i_detectedAt x)))].
(** analytics/insights/insights-controller.ts:21-36 getInsights *)
Definition getInsights (now : Z) (m : insights) : insights * answer :=
  let stored := Reports.getInsights m in
  match stored with
  | [] => let fresh := generateInsights now in
          (fold_left (fun m x => saveInsight x m) fresh m, Sent 200 (JArray 0 (map insight_js fresh)))
  | _ => (m, Sent 200 (JArray 0 (map insight_js stored)))
  end.
Definition metrics_js (m : BusinessMetrics) : jsval :=
  record [("totalProcessed", int (totalProcessed m)); ("successRate", JNum (Fin (successRate m))); ("costEstimate", JNum (Fin (costEstimate m)))].
(** analytics/metrics/metrics-controller.ts:18-25 getBusinessMetrics *)
Definition getBusinessMetrics (req : request) : answer := Sent 200 (metrics_js calculateMetrics).
(** analytics/reporting/reporting-controller.ts:21-29 generateReport *)
Definition generateReport (now : Z) (req : request) : answer := caught (
  type ← field "type" (body req);
  let report := Reports.generateReport now (when_text "weekly" type "daily") in
  Ok (Sent 200 (record [("id", JString (r_id report)); ("type", JString (r_type report)); ("generatedAt", JString (IsoDate.iso_string (r_generatedAt report)));
    ("metrics", metrics_js (r_metrics report)); ("insights", JArray 0 (map insight_js (r_insights report)))]))).
(** analytics/reporting/reporting-controller.ts:34-45 scheduleReport *)
Definition scheduleReport (now : Z) (req : request) : answer := caught (
  type ← field "type" (body req);
  let taskId := scheduleReportTask now (when_text "weekly" type "daily") (js_or (js_get "cron" (body req)) (JString "0 8 * * *")) in
  Ok (Sent 202 (record [("status", JString "scheduled"); ("taskId", JString taskId)]))).

(** analytics/routes/analytics.routes.ts:16-41 createAnalyticsRouter
    The handlers by method and path; the state is what the insights keep. *)
Definition createAnalyticsRouter (now : Z) : list (Router.method * string * (request -> insights -> insights * answer)) :=
  let stateless h := fun req m => (m, h req) in
  [(Router.POST, "/export/deliveries", stateless (exportDeliveries now));
   (Router.POST, "/export/schedule", stateless (scheduleRecurringExport now));
   (Router.GET, "/insights", fun _ => getInsights now);
   (Router.GET, "/metrics", stateless getBusinessMetrics);
   (Router.POST, "/reports/generate", stateless (generateReport now));
   (Router.POST, "/reports/schedule", stateless (scheduleReport now))].
(** A request at an instant; Express answers what no route takes. *)
Definition served (now : Z) (verb : Router.method) (url : string) (req : request) (m : insights) : option (insights * answer) :=
  (fun h => h req m) <$> head (map snd (base.filter (fun r => r.1 = (verb, url)) (createAnalyticsRouter now))).
(** A run of requests, with their answers. *)
Fixpoint serve (l : list (Z * Router.method * string * request)) (m : insights) : insights * list (option answer) :=
  match l with
  | [] => (m, [])
  | (now, verb, url, req) :: l =>
      match served now verb url req m with
      | Some (m, a) => let '(m, r) := serve l m in (m, Some a :: r)
      | None => let '(m, r) := serve l m in (m, None :: r)
      end
  end.

(** *** Theorems *)

Definition asks_insights (r : Z * Router.method * string * request) : Prop := r.1.1.2 = Router.GET /\ r.1.2 = "/insights".
#[local] Instance asks_dec r : Decision (asks_insights r).
Proof. unfold asks_insights. apply _. Defined.

Lemma served_insights now req m : served now Router.GET "/insights" req m = Some (getInsights now m).
Proof. reflexivity. Qed.
Lemma served_state now verb url req m m' a : served now verb url req m = Some (m', a) -> asks_insights (now, verb, url, req) \/ m' = m.
Proof.
  unfold served, createAnalyticsRouter.
  repeat (rewrite filter_cons; destruct (decide _) as [E|_]; [cbn in E; injection E as <- <-; intros Hs; first [left; split; reflexivity | right; cbn in Hs; by injection Hs as <- _]|]). done.
Qed.
Lemma kept_insights l x : snd x = Insight_ (fst x) (i_type (snd x)) (i_summary (snd x)) (i_detectedAt (snd x)) ->
  (serve l [x]).1 = [x] /\
  forall i r a, l !! i = Some r -> asks_insights r -> (serve l [x]).2 !! i = Some a -> a = Some (Sent 200 (JArray 0 [insight_js x.2])).
Proof.
  intros Hx. induction l as [|[[[now verb] url] req] l [IH1 IH2]]; [split; [done|]; intros [|?] ? ?; by rewrite ?lookup_nil|].
  cbn [serve]. destruct (served now verb url req [x]) as [[m' a']|] eqn:E.
  - assert (m' = [x] /\ (asks_insights (now, verb, url, req) -> a' = Sent 200 (JArray 0 [insight_js x.2]))) as [-> Ha].
    { destruct (decide (asks_insights (now, verb, url, req))) as [[H1 H2]|Hn].
      - cbn in H1, H2. subst. rewrite served_insights in E. by injection E as <- <-.
      - destruct (served_state _ _ _ _ _ _ _ E) as [?| ->]; [done|]. by split. }
    destruct (serve l [x]) as [m2 as_]. cbn [fst snd] in *. split; [done|]. intros [|i] r a; cbn.
    + intros [= <-] Hr [= <-]. by rewrite Ha.
    + apply IH2.
  - destruct (serve l [x]) as [m2 as_]. cbn [fst snd] in *. split; [done|]. intros [|i] r a; cbn; [|apply IH2].
    intros [= <-] [H1 H2] _. cbn in H1, H2. subst. by rewrite served_insights in E.
Qed.

(** Whatever is asked for in between and however long it takes, every request
    for insights is answered with those of the first one: nothing renews
    them. *)
Theorem insights_never_renewed now req l :
  (served now Router.GET "/insights" req []) = Some (map (fun x => (i_id x, x)) (generateInsights now), Sent 200 (JArray 0 (map insight_js (generateInsights now)))) /\
  forall i r a, l !! i = Some r -> asks_insights r ->
    (serve l (map (fun x => (i_id x, x)) (generateInsights now))).2 !! i = Some a ->
    a = Some (Sent 200 (JArray 0 (map insight_js (generateInsights now)))).
Proof. split; [reflexivity|]. cbn [generateInsights map]. apply (kept_insights l). reflexivity. Qed.
Lemma insights_never_renewed_witness :
  let req := Request (fun _ => "") JUndefined JUndefined in
  let year := 31536000000 in
  (serve [(0, Router.GET, "/insights", req); (1, Router.GET, "/metrics", req); (year, Router.GET, "/insights", req)] []).2 !! 2%nat =
  Some (Some (Sent 200 (JArray 0 (map insight_js (generateInsights 0))))).
Proof.
  cbv zeta. destruct (insights_never_renewed 0 (Request (fun _ => "") JUndefined JUndefined)
    [(1, Router.GET, "/metrics", Request (fun _ => "") JUndefined JUndefined); (31536000000, Router.GET, "/insights", Request (fun _ => "") JUndefined JUndefined)]) as [H1 H2].
  specialize (H2 1%nat _ (Some (Sent 200 (JArray 0 (map insight_js (generateInsights 0))))) eq_refl (conj eq_refl eq_refl) eq_refl).
  vm_compute. reflexivity.
Defined.

(** A request without a body fails on the four routes that read one. *)
Example bodies_needed :
  let req := Request (fun _ => "") JUndefined JUndefined in
  map (fun r => match (r.2 req []).2 with Failed _ => true | _ => false end) (createAnalyticsRouter 0) = [true; true; false; false; true; true].
Proof. reflexivity. Qed.
End Endpoints.
