(* ===== verification/Pools.v ===== *)
(** * Connections and their monitors

    [infrastructure/redis/connection-pool.ts] and [client.ts]: the state of the
    one connection ([RedisPool]) and what is read from the server's report
    ([Info], [RedisMonitor]); [infrastructure/database/connection-pool.ts]: the
    numbers of the database's pool, which arrive later than they are asked for
    ([DatabasePool]).  The clients are parameters. *)
From Stdlib Require Import Ascii QArith Qround Qpower.
From stdpp Require Import base tactics numbers list strings gmap pretty.
From S2P Require Import Prelude JsNum JsValue Text JsonText UseCases.

(** ** The connection *)

Module RedisPool.

(** infrastructure/redis/connection-pool.ts:6-11 ConnectionStatus *)
Inductive ConnectionStatus : Type := CONNECTED | DISCONNECTED | RECONNECTING | CONNECTING.
(** infrastructure/redis/connection-pool.ts:13-17 PoolStats *)
Record PoolStats : Type := Stats { connected : bool; reconnecting : bool; queued : Z }.

Section pool.
(** The client: its status, and the length of its queue of commands, if it has one. *)
Context {C : Type} (status : C -> string) (offlineQueue : C -> option Z).
Context (connect quit disconnect : meth C exn unit).
Abbreviation M := (meth C exn).

(** infrastructure/redis/connection-pool.ts:56-64 getStats *)
Definition getStats (c : C) : PoolStats :=
  Stats (str_eqb (status c) "ready") (str_eqb (status c) "reconnecting") (default 0 (offlineQueue c)).
(** infrastructure/redis/connection-pool.ts:69-71 isHealthy *)
Definition isHealthy (c : C) : bool := str_eqb (status c) "ready".
(** infrastructure/redis/connection-pool.ts:76-82 getConnectionStatus *)
Definition getConnectionStatus (c : C) : ConnectionStatus :=
  if str_eqb (status c) "ready" then CONNECTED
  else if str_eqb (status c) "reconnecting" then RECONNECTING
  else if str_eqb (status c) "connect" then CONNECTING else DISCONNECTED.
(** infrastructure/redis/connection-pool.ts:87-94 reconnect *)
Definition reconnect : M unit := try_catch connect (fun _ => mret tt).
(** infrastructure/redis/connection-pool.ts:99-106 drain *)
Definition drain : M unit := try_catch quit (fun _ => disconnect).
(** infrastructure/redis/connection-pool.ts:210-217 checkHealth
    Of the class kept for older tests. *)
Definition checkHealth (ping : M string) : M bool := try_catch (v ← ping; mret (str_eqb v "PONG")) (fun _ => mret false).
(** infrastructure/redis/client.ts:18-26 getConnectionStatus
    [getRedisClient] throws without a client. *)
Definition connection_status (client : res exn C) (isRedisClientConnected : bool) : bool :=
  match client with Ok c => str_eqb (status c) "ready" && isRedisClientConnected | Throw _ => false end.

(** The three ways to ask agree, and a new connection never fails the caller; a
    drained one is closed one way or the other. *)
Theorem status_agrees c :
  (isHealthy c = true <-> getConnectionStatus c = CONNECTED) /\ connected (getStats c) = isHealthy c /\
  (reconnecting (getStats c) = true <-> getConnectionStatus c = RECONNECTING) /\
  (reconnect c).2 = Ok tt /\
  drain c = match quit c with (c', Ok u) => (c', Ok u) | (c', Throw _) => disconnect c' end.
Proof.
  unfold isHealthy, getConnectionStatus, getStats, reconnect, drain, try_catch. simpl.
  split; [|split; [done|split; [|split; [by destruct (connect c) as [? [[]|]]|done]]]].
  - destruct (str_eqb (status c) "ready"); [done|]. destruct (str_eqb _ "reconnecting"); [done|]. by destruct (str_eqb _ "connect").
  - destruct (str_eqb (status c) "ready") eqn:E; [apply str_eqb_eq in E as ->; done|].
    destruct (str_eqb (status c) "reconnecting"); [done|]. by destruct (str_eqb _ "connect").
Qed.
(** A client that is connecting is in the state [connecting], which no test asks for. *)
Lemma connecting_shown c : status c = "connecting" -> getConnectionStatus c = DISCONNECTED.
Proof. unfold getConnectionStatus. by intros ->. Qed.
End pool.
End RedisPool.

(** ** Reading a report *)

Module Info.

Definition line_char (c : ascii) : bool := negb (Ascii.eqb c (JsonText.chr 13) || Ascii.eqb c (JsonText.chr 10)).
Fixpoint take_while (p : ascii -> bool) (s : string) : string :=
  match s with String c s => if p c then String c (take_while p s) else EmptyString | EmptyString => EmptyString end.
(** [s.match(/name:([p]+)/)?.[1]]: after the first place where the name is
    followed by at least one character of the class. *)
Fixpoint captured (p : ascii -> bool) (name s : string) : option string :=
  let here := if starts_with name s then take_while p (JsonText.after (String.length name) s) else EmptyString in
  if str_truthy here then Some here
  else match s with EmptyString => None | String _ s => captured p name s end.
(** [parseFloat]. *)
Definition parse_float (s : string) : num :=
  let '(neg, s) := match trim_start s with String "-" s => (true, s) | String "+" s => (false, s) | s => (false, s) end in
  if starts_with "Infinity" s then Inf neg
  else
    let '(int, r) := JsonText.span s in
    let '(frac, r) := match r with String "." r => JsonText.span r | _ => (EmptyString, r) end in
    if negb (str_truthy int || str_truthy frac) then NaN
    else
      let e := match JsonText.exponent r with Some (e, _) => e | None => 0 end in
      let n := read_digits (int +:+ frac) 0 in
      let m := if neg : bool then - n else n in
      let e := e - Z.of_nat (String.length frac) in
      if e =? 0 then ofZ m else Fin (inject_Z m * Qpower 10 e).
Definition int_num (n : option Z) : num := match n with Some n => ofZ n | None => NaN end.
(** [s.split('\r\n')]. *)
Fixpoint split_lines (s : string) : list string :=
  match s with
  | EmptyString => [EmptyString]
  | String c s' =>
      let other := match split_lines s' with [] => [String c EmptyString] | w :: ws => String c w :: ws end in
      match s' with
      | String d r => if Ascii.eqb c (JsonText.chr 13) && Ascii.eqb d (JsonText.chr 10) then EmptyString :: split_lines r else other
      | EmptyString => other
      end
  end.
Definition crlf : string := String (JsonText.chr 13) (String (JsonText.chr 10) EmptyString).

Example captured_ex :
  captured line_char "role:" ("# Replication" +:+ crlf +:+ "role:" +:+ crlf +:+ "old_role:slave" +:+ crlf) = Some "slave" /\
  captured is_digit "connected_slaves:" "connected_slaves:12,x" = Some "12" /\
  map parse_float ["1.25"; "-3e2x"; ".5"; "x"; "7"] = [Fin (125 # 100); Fin (- 300 # 1); Fin (5 # 10); NaN; ofZ 7].
Proof. repeat split; vm_compute; reflexivity. Qed.

Lemma split_lines_nonempty s : split_lines s <> [].
Proof. destruct s as [|c [|d s]]; simpl; [done|done|]. destruct (_ && _); [done|]. destruct (match s with EmptyString => _ | _ => _ end); done. Qed.
Lemma split_lines_app a s : avoids (JsonText.chr 13) a = true -> split_lines (a +:+ crlf +:+ s) = a :: split_lines s.
Proof.
  induction a as [|c a IH]; intros Ha; [reflexivity|]. unfold avoids in *. cbn [str_forall] in Ha. apply andb_true_iff in Ha as [Hc Ha].
  change (String c a +:+ crlf +:+ s) with (String c (a +:+ crlf +:+ s)). specialize (IH Ha).
  apply negb_true_iff in Hc. rewrite Ascii.eqb_sym in Hc. cbn [split_lines]. rewrite IH, Hc. by destruct (a +:+ crlf +:+ s).
Qed.
End Info.

(** ** What the server reports *)

Module RedisMonitor.
Import Info.

(** infrastructure/redis/connection-pool.ts:19-23 MemoryStats *)
Record MemoryStats : Type := Memory { usedMemory : string; peakMemory : string; fragmentationRatio : num }.
(** infrastructure/redis/connection-pool.ts:30-33 CommandStats *)
Record CommandStats : Type := Commands { calls : list (string * num); usec : list (string * num) }.

Section monitor.
(** The client's commands. *)
Context {C : Type} (info : string -> meth C exn string) (dbsize : meth C exn Z) (keys : string -> meth C exn (list string)).
Abbreviation M := (meth C exn).

(** infrastructure/redis/connection-pool.ts:125-136 getMemoryUsage *)
Definition getMemoryUsage : M MemoryStats :=
  info ← info "memory";
  mret (Memory (default "0B" (captured line_char "used_memory_human:" info)) (default "0B" (captured line_char "used_memory_peak_human:" info))
          (parse_float (default "0.0" (captured line_char "mem_fragmentation_ratio:" info)))).
(** infrastructure/redis/connection-pool.ts:141-147 getKeyCount *)
Definition getKeyCount : M Z := try_catch dbsize (fun _ => mret 0).
(** infrastructure/redis/connection-pool.ts:152-159 getKeyStats *)
Definition getKeyStats (pattern : string) : M (Z * list (string * Z)) :=
  keys ← keys pattern; mret (Z.of_nat (length keys), [(pattern, Z.of_nat (length keys))]).

(** [fields.find((f) => f.startsWith(name))?.split('=')[1] || '0']. *)
Definition field (name : string) (fields : list string) : string :=
  match List.find (starts_with name) fields with
  | Some f => str_or (default "" (split_on "=" f !! 1%nat)) "0"
  | None => "0"
  end.
(** infrastructure/redis/connection-pool.ts:170-181 forEach
    A line of a command without a colon throws. *)
Fixpoint command_lines (lines : list string) (s : CommandStats) : res exn CommandStats :=
  match lines with
  | [] => Ok s
  | line :: lines =>
      if starts_with "cmdstat_" line then
        match split_on ":" line with
        | name :: rest :: _ =>
            let cmdName := JsonText.after 8 name in
            let fields := split_on "," rest in
            command_lines lines (Commands (jmap_set cmdName (int_num (parse_int (field "calls=" fields))) (calls s))
                                          (jmap_set cmdName (parse_float (field "usec=" fields)) (usec s)))
        | _ => Throw (PlainError "Cannot read properties of undefined (reading 'split')")
        end
      else command_lines lines s
  end.
(** infrastructure/redis/connection-pool.ts:164-184 getCommandStats *)
Definition getCommandStats : M CommandStats :=
  info ← info "commandstats"; lift_res (command_lines (split_lines info) (Commands [] [])).
(** infrastructure/redis/connection-pool.ts:189-195 getReplicationStatus *)
Definition getReplicationStatus : M (string * num) :=
  info ← info "replication";
  mret (default "master" (captured line_char "role:" info), int_num (parse_int (default "0" (captured is_digit "connected_slaves:" info)))).
(** infrastructure/redis/client.ts:31-58 getStats
    What could not be read stays as it was. *)
Definition getStats (all : M string) : M (num * string * num) :=
  try_catch (
    infoStr ← all;
    let count name := match captured is_digit name infoStr with Some d => int_num (parse_int d) | None => ofZ 0 end in
    mret (count "connected_clients:", default "0" (captured line_char "used_memory_human:" infoStr), count "instantaneous_ops_per_sec:"))
  (fun _ => mret (ofZ 0, "0", ofZ 0)).
End monitor.

(** *** Theorems *)

(** A command's line, as the server prints it: its calls, its time, and more. *)
Record usage : Type := Usage { u_name : string; u_calls : N; u_usec : N; u_more : string }.
Definition printed (u : usage) : string :=
  "cmdstat_" +:+ u_name u +:+ ":calls=" +:+ pretty (u_calls u) +:+ ",usec=" +:+ pretty (u_usec u) +:+ "," +:+ u_more u.
Definition report (l : list usage) : string := "# Commandstats" +:+ crlf +:+ String.concat "" (map (fun u => printed u +:+ crlf) l).
Definition wf (u : usage) : Prop :=
  avoids ":" (u_name u) = true /\ avoids (JsonText.chr 13) (u_name u) = true /\ avoids ":" (u_more u) = true /\ avoids (JsonText.chr 13) (u_more u) = true.

Lemma parse_int_N (n : N) : parse_int (pretty n) = Some (Z.of_N n).
Proof. pose proof (parse_int_pretty (Z.of_N n) ltac:(lia)) as H. by destruct n. Qed.
Lemma digits_avoid c (n : N) : is_digit c = false -> avoids c (pretty n) = true.
Proof.
  intros Hc. unfold avoids. eapply str_forall_impl; [|apply pretty_N_digits]. intros d Hd. destruct (Ascii.eqb_spec c d); [congruence|done].
Qed.
Lemma parse_float_N (n : N) : parse_float (pretty n) = ofZ (Z.of_N n).
Proof.
  unfold parse_float. pose proof (pretty_N_nonempty n) as Hn. pose proof (pretty_N_digits n) as Hd. pose proof (read_pretty_N n) as Hr.
  destruct (pretty n) as [|c s] eqn:E; [done|]. cbn [starts_with_digit] in Hn.
  assert (trim_start (String c s) = String c s) as -> by (simpl; by destruct c as [[] [] [] [] [] [] [] []]).
  assert ((match String c s with String "-" s => (true, s) | String "+" s => (false, s) | s => (false, s) end) = (false, String c s)) as ->
    by (by destruct c as [[] [] [] [] [] [] [] []]).
  assert (starts_with "Infinity" (String c s) = false) as -> by (by destruct c as [[] [] [] [] [] [] [] []]).
  pose proof (JsonText.span_app (String c s) "" Hd I) as Hs. rewrite str_app_nil_r in Hs. rewrite Hs. cbn [str_truthy orb negb].
  change (str_truthy (String c s)) with true. cbn [orb negb JsonText.exponent String.length]. rewrite str_app_nil_r. simpl Z.of_nat.
  change (0 - 0 =? 0) with true. cbn iota. by rewrite Hr.
Qed.

Lemma printed_line u : wf u -> avoids (JsonText.chr 13) (printed u) = true /\ starts_with "cmdstat_" (printed u) = true /\
  split_on ":" (printed u) = ["cmdstat_" +:+ u_name u; "calls=" +:+ pretty (u_calls u) +:+ ",usec=" +:+ pretty (u_usec u) +:+ "," +:+ u_more u].
Proof.
  intros (H1 & H2 & H3 & H4). unfold printed. split; [|split].
  - unfold avoids in *. rewrite !str_forall_app. pose proof (digits_avoid (JsonText.chr 13) (u_calls u) eq_refl) as D1.
    pose proof (digits_avoid (JsonText.chr 13) (u_usec u) eq_refl) as D2. unfold avoids in *. by rewrite H2, D1, D2, H4.
  - reflexivity.
  - set (rest := "calls=" +:+ _).
    change ("cmdstat_" +:+ u_name u +:+ ":calls=" +:+ pretty (u_calls u) +:+ ",usec=" +:+ pretty (u_usec u) +:+ "," +:+ u_more u)
      with ("cmdstat_" +:+ u_name u +:+ String ":" rest).
    rewrite str_app_assoc, split_on_app, split_on_avoids; [done| |].
    + unfold rest. unfold avoids in *. rewrite !str_forall_app. pose proof (digits_avoid ":" (u_calls u) eq_refl) as D1.
      pose proof (digits_avoid ":" (u_usec u) eq_refl) as D2. unfold avoids in *. by rewrite D1, D2, H3.
    + unfold avoids in *. by rewrite str_forall_app, H1.
Qed.
Lemma fields_read u : field "calls=" (split_on "," ("calls=" +:+ pretty (u_calls u) +:+ ",usec=" +:+ pretty (u_usec u) +:+ "," +:+ u_more u)) = pretty (u_calls u) /\
  field "usec=" (split_on "," ("calls=" +:+ pretty (u_calls u) +:+ ",usec=" +:+ pretty (u_usec u) +:+ "," +:+ u_more u)) = pretty (u_usec u).
Proof.
  assert (forall (n : N), str_or (pretty n) "0" = pretty n) as Hor.
  { intros n. unfold str_or. pose proof (pretty_N_nonempty n). by destruct (pretty n). }
  assert (forall p (n : N), avoids "=" p = true -> split_on "=" (p +:+ String "=" (pretty n)) = [p; pretty n]) as Hs.
  { intros p n Hp. by rewrite split_on_app, split_on_avoids by (done || by apply digits_avoid). }
  set (c := pretty (u_calls u)). set (s := pretty (u_usec u)).
  change ("calls=" +:+ c +:+ ",usec=" +:+ s +:+ "," +:+ u_more u) with ("calls=" +:+ c +:+ String "," ("usec=" +:+ s +:+ String "," (u_more u))).
  rewrite (str_app_assoc "calls="), split_on_app by (unfold avoids; rewrite str_forall_app; by apply digits_avoid).
  rewrite (str_app_assoc "usec="), split_on_app by (unfold avoids; rewrite str_forall_app; by apply digits_avoid).
  split; unfold field.
  - change (List.find (starts_with "calls=") (("calls=" +:+ c) :: ?l)) with (Some ("calls=" +:+ c)). cbv iota beta.
    change ("calls=" +:+ c) with ("calls" +:+ String "=" c). unfold c. rewrite Hs by done. apply Hor.
  - change (List.find (starts_with "usec=") (("calls=" +:+ c) :: ("usec=" +:+ s) :: ?l)) with (Some ("usec=" +:+ s)). cbv iota beta.
    change ("usec=" +:+ s) with ("usec" +:+ String "=" s). unfold s. rewrite Hs by done. apply Hor.
Qed.
Lemma report_lines l : Forall wf l -> split_lines (report l) = "# Commandstats" :: map printed l ++ [""].
Proof.
  intros Hl. unfold report. rewrite split_lines_app by done. f_equal. induction Hl as [|u l Hu Hl IH]; [done|]. cbn [map].
  assert (forall s (ss : list string), String.concat "" (s :: ss) = s +:+ String.concat "" ss) as -> by (intros s [|t ss]; [simpl; by rewrite str_app_nil_r|done]).
  rewrite <- (str_app_assoc (printed u) crlf), (split_lines_app (printed u)) by exact (proj1 (printed_line u Hu)). by rewrite IH.
Qed.
Lemma commands_read l c u : Forall wf l -> NoDup (map fst c ++ map u_name l) -> map fst u = map fst c ->
  command_lines (map printed l ++ [""]) (Commands c u) =
  Ok (Commands (c ++ map (fun x => (u_name x, ofZ (Z.of_N (u_calls x)))) l) (u ++ map (fun x => (u_name x, ofZ (Z.of_N (u_usec x)))) l)).
Proof.
  intros Hl. revert c u. induction Hl as [|x l Hx Hl IH]; intros c u Hnd Hu; [by rewrite !app_nil_r|].
  destruct (printed_line x Hx) as (_ & Hs & Hsp). destruct (fields_read x) as [F1 F2]. cbn [map app command_lines]. rewrite Hs, Hsp.
  change (JsonText.after 8 ("cmdstat_" +:+ u_name x)) with (u_name x). cbn zeta. cbn [calls usec]. rewrite F1, F2, parse_int_N, parse_float_N. cbn [int_num].
  cbn [map] in Hnd. assert (u_name x ∉ map fst c) as Hc by (intros Hin; apply NoDup_app in Hnd as (_ & Hnd & _); apply (Hnd _ Hin); by left).
  rewrite !JsonText.jmap_set_last by (done || by rewrite Hu). rewrite IH.
  - by rewrite <- !app_assoc.
  - rewrite map_app, <- app_assoc. exact Hnd.
  - by rewrite !map_app, Hu.
Qed.

(** What the server prints of its commands is read back: every command with its
    calls and its time, in order. *)
Theorem commands_roundtrip {C} (info : string -> meth C exn string) c c' l :
  info "commandstats" c = (c', Ok (report l)) -> Forall wf l -> NoDup (map u_name l) ->
  getCommandStats info c = (c', Ok (Commands (map (fun x => (u_name x, ofZ (Z.of_N (u_calls x)))) l) (map (fun x => (u_name x, ofZ (Z.of_N (u_usec x)))) l))).
Proof.
  intros Hi Hl Hn. unfold getCommandStats. rewrite (bind_ok _ _ _ _ _ Hi). unfold lift_res. rewrite report_lines by done.
  change (command_lines ("# Commandstats" :: ?r) ?s) with (command_lines r s). by rewrite commands_read.
Qed.
Lemma commands_roundtrip_witness :
  let l := [Usage "get" 12 340 "usec_per_call=28.33"; Usage "client|list" 1 7 "failed_calls=0"] in
  getCommandStats (fun _ (n : nat) => (S n, Ok (report l))) 0%nat = (1%nat, Ok (Commands [("get", ofZ 12); ("client|list", ofZ 1)] [("get", ofZ 340); ("client|list", ofZ 7)])).
Proof.
  cbv zeta. set (l := [Usage "get" 12 340 "usec_per_call=28.33"; Usage "client|list" 1 7 "failed_calls=0"]).
  assert (Forall wf l) as Hl by (apply Forall_cons_2; [by split_and!|]; apply Forall_cons_2; [by split_and!|apply Forall_nil_2]).
  assert (NoDup (map u_name l)) as Hn by (apply (bool_decide_eq_true_1 _); vm_compute; reflexivity).
  rewrite (commands_roundtrip (fun _ (n : nat) => (S n, Ok (report l))) 0%nat 1%nat l eq_refl Hl Hn). reflexivity.
Defined.
End RedisMonitor.

(** ** The pool of the database *)

Module DatabasePool.

(** infrastructure/database/connection-pool.ts:6-13 PoolStats *)
Record PoolStats : Type := Stats { active : num; idle : num; waiting : num; activeConnections : num; idleConnections : num; totalConnections : num }.
Definition no_stats : PoolStats := Stats 0 0 0 0 0 0.
(** What the client's metrics are: absent, failing when they are asked for, or
    answering later. *)
Inductive metrics : Type := Absent | Throwing | Answering.
#[export] Instance metrics_eq : EqDecision metrics.
Proof. solve_decision. Defined.
(** infrastructure/database/connection-pool.ts:18-30 ConnectionPoolManager
    With the number of requests for metrics that were not answered yet. *)
Record manager : Type := Manager { monitored : bool; stats : PoolStats; asked : nat }.
(** infrastructure/database/connection-pool.ts:32-51 constructor
    The interval is the timer's. *)
Definition new : manager := Manager true no_stats 0.

(** [Number(gauges?.find(g => g.key === key)?.value || 0)]. *)
Definition gauge (key : string) (json : jsval) : num :=
  let gauges := match js_get "gauges" json with JArray _ l => l | _ => [] end in
  let found := match List.find (fun g => js_strict_eq (js_get "key" g) (JString key)) gauges with Some g => js_get "value" g | None => JUndefined end in
  js_Number (js_or found (JNum 0)).
(** infrastructure/database/connection-pool.ts:78-92 then
    An answer that arrives. *)
Definition arrived (json : jsval) (s : manager) : manager :=
  let a := gauge "prisma_client_database_connections_active" json in
  let i := gauge "prisma_client_database_connections_idle" json in
  Manager (monitored s)
    (Stats a i (gauge "prisma_client_queries_waiting" json) a i (gauge "prisma_client_database_connections_open" json)) (pred (asked s)).
(** A refused request: nothing changes. *)
Definition refused (s : manager) : manager := Manager (monitored s) (stats s) (pred (asked s)).
(** infrastructure/database/connection-pool.ts:74-107 updateStatsSync *)
Definition updateStatsSync (m : metrics) (s : manager) : manager :=
  match m with
  | Answering => Manager (monitored s) (stats s) (S (asked s))
  | Absent | Throwing => Manager (monitored s) no_stats (asked s)
  end.
(** infrastructure/database/connection-pool.ts:56-61 monitorPool *)
Definition monitorPool : metrics -> manager -> manager := updateStatsSync.
(** infrastructure/database/connection-pool.ts:66-69 getStats *)
Definition getStats (m : metrics) (s : manager) : manager * PoolStats := let s := updateStatsSync m s in (s, stats s).
(** infrastructure/database/connection-pool.ts:112-117 stopMonitoring *)
Definition stopMonitoring (s : manager) : manager := Manager false (stats s) (asked s).

(** What happens to a manager: a call, a tick of the timer, an answer. *)
Inductive event : Type := Asked | Ticked | Arrived (json : jsval) | Refused | Stopped.
(** Answers come only to requests, ticks only while the timer runs. *)
Inductive step (m : metrics) : manager -> event -> manager -> Prop :=
| step_asked s : step m s Asked (getStats m s).1
| step_ticked s : monitored s = true -> step m s Ticked (monitorPool m s)
| step_arrived s json : asked s <> O -> step m s (Arrived json) (arrived json s)
| step_refused s : asked s <> O -> step m s Refused (refused s)
| step_stopped s : step m s Stopped (stopMonitoring s).
Inductive run (m : metrics) : manager -> list event -> manager -> Prop :=
| run_nil s : run m s [] s
| run_snoc s l s' e s'' : run m s l s' -> step m s' e s'' -> run m s (l ++ [e]) s''.

Definition answer_of (e : event) : option jsval := match e with Arrived json => Some json | _ => None end.
Definition requests (e : event) : nat := match e with Asked | Ticked => 1 | _ => 0 end.
Definition replies (e : event) : nat := match e with Arrived _ | Refused => 1 | _ => 0 end.

(** Whatever happens in between, the numbers shown are those of the answer that
    arrived last, none before the first: the answer to a call is never that of
    the call's own request; without metrics they are all zero, and no answer
    arrives; and no more answers come than were asked for. *)
Theorem stats_of_last_answer m l s :
  run m new l s ->
  (getStats m s).2 = match last (omap answer_of l) with Some json => stats (arrived json new) | None => no_stats end /\
  (m <> Answering -> omap answer_of l = []) /\
  (sum_list_with replies l + asked s = if decide (m = Answering) then sum_list_with requests l else 0)%nat.
Proof.
  assert (forall s, (getStats m s).2 = match m with Answering => stats s | _ => no_stats end) as Hg by (by destruct m).
  intros Hr. rewrite Hg. remember new as s0 eqn:E0. induction Hr as [|s0 l s e s' Hr IH Hs]; subst.
  { split; [by destruct m|]. split; [done|]. simpl. by destruct (decide _). }
  specialize (IH eq_refl) as (I1 & I2 & I3). rewrite omap_app, !sum_list_with_app. destruct Hs as [s|s Hm|s json Ha|s Ha|s]; cbn [omap list_omap answer_of sum_list_with requests replies].
  all: rewrite ?app_nil_r, ?Nat.add_0_r.
  - unfold getStats, updateStatsSync. destruct m; simpl in *; (split; [exact I1|]); (split; [exact I2|]); lia.
  - unfold monitorPool, updateStatsSync. destruct m; simpl in *; (split; [exact I1|]); (split; [exact I2|]); lia.
  - destruct m; simpl in I3; [lia|lia|]. rewrite last_snoc. split; [done|]. split; [done|]. simpl. lia.
  - split; [by destruct m|]. split; [exact I2|]. destruct m; simpl in *; lia.
  - split; [by destruct m|]. split; [exact I2|]. destruct m; simpl in *; lia.
Qed.
Lemma stats_of_last_answer_witness :
  let json := JObject 0 [("gauges", JArray 0 [JObject 0 [("key", JString "prisma_client_queries_waiting"); ("value", JNum (ofZ 4))]])] in
  (getStats Answering (arrived json (getStats Answering new).1)).2 = Stats 0 0 4 0 0 0.
Proof.
  cbv zeta. set (json := JObject 0 [("gauges", JArray 0 [JObject 0 [("key", JString "prisma_client_queries_waiting"); ("value", JNum (ofZ 4))]])]).
  assert (run Answering new ([] ++ [Asked] ++ [Arrived json]) (arrived json (getStats Answering new).1)) as Hr.
  { change ([] ++ [Asked] ++ [Arrived json]) with (([] ++ [Asked]) ++ [Arrived json]). econstructor; [econstructor; [constructor|constructor]|]. constructor. discriminate. }
  rewrite (proj1 (stats_of_last_answer _ _ _ Hr)). reflexivity.
Defined.
End DatabasePool.
