(* ===== verification/Bootstrap.v ===== *)
(** * Start and stop of the process

    [bootstrap/]: the container of dependencies with its singletons
    ([Container]), the ordered initialisations ([Orchestrator],
    [DependencyContainer]), the checks before traffic ([StartupValidator]), the
    seeding of a new database ([Seeding]), the first connection to Redis
    ([RedisSetup]), and the two ways to stop, the first with its timer
    ([Shutdown], [GracefulShutdown]). *)
From Stdlib Require Import Ascii QArith Qround Qpower Qabs Lqa.
From stdpp Require Import base tactics numbers list strings gmap pretty relations.
From S2P Require Import Prelude JsNum JsValue Errors DomainTypes Connectors Text.

Definition message_of (e : exn) : string := js_String (js_get "message" (Errors.exn_js e)).

(** ** The container *)

Module Container.

Section container.
(** The values made (none stands for [undefined]), and what factories work on. *)
Context {V W : Type}.

(** A synchronous factory makes a value; an asynchronous one starts a promise. *)
Inductive maker : Type := Sync (f : meth W exn (option V)) | Async (f : meth W exn unit).
(** bootstrap/container.ts:1-7 ServiceRegistration
    The promise is named by its number. *)
Record registration : Type := Registration {
  factory : maker; singleton : bool; instance : option V; promise : option nat;
}.
Definition isAsync (r : registration) : bool := match factory r with Async _ => true | Sync _ => false end.
(** A promise: whose registration takes its value, the value it will be settled
    with if it is known, and how it was settled. *)
Record promised : Type := Promised { owner : option nat; due : option (option V); settled : option (res exn (option V)) }.
(** bootstrap/container.ts:12-14 Container
    Registrations are objects: a key leads to one by its number.  With the
    promises made so far, and which registrations' factories started one. *)
Record world : Type := World {
  services : list (string * nat); regs : list registration; promises : list promised; started : list nat; outside : W;
}.
Definition empty (o : W) : world := World [] [] [] [] o.
Abbreviation M := (meth world exn).

Definition add (key : string) (r : registration) (w : world) : world :=
  World (jmap_set key (length (regs w)) (services w)) (regs w ++ [r]) (promises w) (started w) (outside w).
(** bootstrap/container.ts:29-35 register *)
Definition register (key : string) (f : meth W exn (option V)) (singleton : bool) : world -> world := add key (Registration (Sync f) singleton None None).
(** bootstrap/container.ts:40-46 registerAsync *)
Definition registerAsync (key : string) (f : meth W exn unit) (singleton : bool) : world -> world := add key (Registration (Async f) singleton None None).
(** bootstrap/container.ts:101-103 has *)
Definition has (key : string) (w : world) : bool := match jmap_get key (services w) with Some _ => true | None => false end.
Definition look_up (key : string) (w : world) : option (nat * registration) :=
  i ← jmap_get key (services w); r ← regs w !! i; Some (i, r).
Definition not_registered (key : string) : exn := PlainError ("Dependency " +:+ quoted key +:+ " is not registered in the DI Container").
Definition update (i : nat) (f : registration -> registration) (w : world) : world :=
  World (services w) (alter f i (regs w)) (promises w) (started w) (outside w).
Definition set_instance (v : option V) (r : registration) : registration := Registration (factory r) (singleton r) v (promise r).
Definition set_promise (n : nat) (r : registration) : registration := Registration (factory r) (singleton r) (instance r) (Some n).
Definition on_outside {A} (m : meth W exn A) : M A := fun w =>
  let '(o, r) := m (outside w) in (World (services w) (regs w) (promises w) (started w) o, r).

(** bootstrap/container.ts:51-69 get *)
Definition get (key : string) : M (option V) := fun w =>
  match look_up key w with
  | None => (w, Throw (not_registered key))
  | Some (i, r) =>
      match factory r with
      | Async _ => (w, Throw (PlainError ("Dependency " +:+ quoted key +:+ " is asynchronous. Use getAsync() instead.")))
      | Sync f =>
          if singleton r then
            match instance r with
            | Some v => (w, Ok (Some v))
            | None => match on_outside f w with (w, Ok v) => (update i (set_instance v) w, Ok v) | (w, Throw e) => (w, Throw e) end
            end
          else on_outside f w
      end
  end.
(** What a call is answered with: a value at once, or a promise. *)
Inductive answer : Type := Now (v : option V) | Later (n : nat).
Definition new_promise (p : promised) (w : world) : world := World (services w) (regs w) (promises w ++ [p]) (started w) (outside w).
Definition start (i : nat) (w : world) : world := World (services w) (regs w) (promises w) (started w ++ [i]) (outside w).
(** bootstrap/container.ts:86-86 getAsync
    [Promise.resolve(reg.factory())], for the registration that takes the value.
    A factory acts on what is outside the container only: one that asks the
    container, before it has answered, for the very singleton it makes would be
    started again, as the promise is noted only after it returns. *)
Definition promise_of (i : nat) (takes : option nat) (f : maker) : M nat := fun w =>
  match f with
  | Sync f => match on_outside f w with
              | (w, Ok v) => (new_promise (Promised takes (Some v) None) w, Ok (length (promises w)))
              | (w, Throw e) => (w, Throw e)
              end
  | Async f => match on_outside f w with
               | (w, Ok _) => (start i (new_promise (Promised takes None None) w), Ok (length (promises w)))
               | (w, Throw e) => (w, Throw e)
               end
  end.
(** bootstrap/container.ts:74-96 getAsync *)
Definition getAsync (key : string) : M answer := fun w =>
  match look_up key w with
  | None => (w, Throw (not_registered key))
  | Some (i, r) =>
      if singleton r then
        match instance r, promise r with
        | Some v, _ => (w, Ok (Now (Some v)))
        | None, Some n => (w, Ok (Later n))
        | None, None =>
            match promise_of i (Some i) (factory r) w with
            | (w, Ok n) => (update i (set_promise n) w, Ok (Later n))
            | (w, Throw e) => (w, Throw e)
            end
        end
      else
        match promise_of i None (factory r) w with (w, Ok n) => (w, Ok (Later n)) | (w, Throw e) => (w, Throw e) end
  end.
(** bootstrap/container.ts:86-89 getAsync
    A started promise is settled; the registration takes the value it gives, also
    when its key has been registered again. *)
Definition settle (n : nat) (r : res exn (option V)) (w : world) : world :=
  match promises w !! n with
  | Some (Promised takes d None) =>
      let r := match d with Some v => Ok v | None => r end in
      let w := World (services w) (regs w) (<[n := Promised takes d (Some r)]> (promises w)) (started w) (outside w) in
      match takes, r with Some i, Ok v => update i (set_instance v) w | _, _ => w end
  | _ => w
  end.
(** bootstrap/container.ts:108-114 getAll *)
Definition getAll (w : world) : list (string * option (V + maker)) :=
  map (fun '(k, i) => (k, (fun r => match instance r with Some v => inl v | None => inr (factory r) end) <$> regs w !! i)) (services w).
(** bootstrap/container.ts:119-121 clear *)
Definition clear (w : world) : world := World [] (regs w) (promises w) (started w) (outside w).

(** *** Singletons *)

Inductive step : world -> world -> Prop :=
| registers k f b w : step w (register k f b w)
| registers_async k f b w : step w (registerAsync k f b w)
| gets_ k w : step w (get k w).1
| gets_async k w : step w (getAsync k w).1
| settles n r w : step w (settle n r w)
| clears w : step w (clear w).

Definition times (i : nat) (w : world) : nat := length (filter (fun j => j = i) (started w)).
(** What an asynchronous singleton holds: nothing until its factory was started;
    then, for good, one promise, and the value it gave. *)
Definition holds (w : world) (i : nat) (r : registration) : Prop :=
  match promise r with
  | None => instance r = None /\ times i w = 0%nat
  | Some n => times i w = 1%nat /\ exists p, promises w !! n = Some p /\ owner p = Some i /\ due p = None /\
                instance r = match settled p with Some (Ok v) => v | _ => None end
  end.
Record ok (w : world) : Prop := Consistent {
  ok_holds i r : regs w !! i = Some r -> singleton r = true -> isAsync r = true -> holds w i r;
  ok_owner n p i : promises w !! n = Some p -> owner p = Some i -> exists r, regs w !! i = Some r /\ promise r = Some n;
  ok_started i : i ∈ started w -> (i < length (regs w))%nat;
}.

Lemma empty_ok o : ok (empty o).
Proof.
  split; cbn [empty regs promises started]; [by intros i r H|by intros n p i H|by intros i Hi%not_elem_of_nil].
Qed.
Lemma times_0 i w : ok w -> (length (regs w) <= i)%nat -> times i w = 0%nat.
Proof.
  intros Hw Hi. unfold times. destruct (filter _ (started w)) as [|x l] eqn:E; [done|].
  assert (x ∈ filter (fun j => j = i) (started w)) as Hx by (rewrite E; by left). apply list_elem_of_filter in Hx as [-> Hx].
  apply (ok_started w Hw) in Hx. lia.
Qed.
Lemma add_ok k r w : ok w -> instance r = None -> promise r = None -> ok (add k r w).
Proof.
  intros Hw Hi Hp. split; cbn [add regs promises started].
  - intros i r' Hr Hs Ha. apply lookup_app_Some in Hr as [Hr|[Hlen Hr]].
    + exact (ok_holds w Hw i r' Hr Hs Ha).
    + destruct (i - length (regs w))%nat as [|[]] eqn:Ei; simplify_eq/=. unfold holds. rewrite Hp. split; [done|]. exact (times_0 i w Hw Hlen).
  - intros n p i Hn Ho. destruct (ok_owner w Hw n p i Hn Ho) as (r' & Hr & Hn'). exists r'. split; [|done]. by apply lookup_app_l_Some.
  - intros i Hin. rewrite length_app. apply (ok_started w Hw) in Hin. lia.
Qed.
Lemma outside_ok {A} (m : meth W exn A) w : ok w -> ok (on_outside m w).1.
Proof. intros [H1 H2 H3]. unfold on_outside. destruct (m (outside w)) as [o r]. by split. Qed.
Lemma outside_same {A} (m : meth W exn A) w :
  regs (on_outside m w).1 = regs w /\ promises (on_outside m w).1 = promises w /\ started (on_outside m w).1 = started w.
Proof. unfold on_outside. by destruct (m (outside w)). Qed.
Lemma times_start i j w : times j (start i w) = (times j w + if decide (i = j) then 1 else 0)%nat.
Proof. unfold times, start. cbn [started]. rewrite filter_app, length_app. f_equal. rewrite filter_cons, filter_nil. by case_decide. Qed.
Lemma alter_lookup (f : registration -> registration) i j w r :
  alter f i (regs w) !! j = Some r -> exists r0, regs w !! j = Some r0 /\ r = if decide (i = j) then f r0 else r0.
Proof.
  destruct (decide (i = j)) as [->|Hne].
  - rewrite list_lookup_alter_eq. destruct (regs w !! j) as [r0|]; [|done]. intros [= <-]. by exists r0.
  - rewrite list_lookup_alter_ne by done. intros H. by exists r.
Qed.
Lemma lookup_alter' (f : registration -> registration) i j w r0 :
  regs w !! j = Some r0 -> alter f i (regs w) !! j = Some (if decide (i = j) then f r0 else r0).
Proof. intros H. destruct (decide (i = j)) as [->|Hne]; [by rewrite list_lookup_alter_eq, H|by rewrite list_lookup_alter_ne]. Qed.

(** A synchronous registration takes a value. *)
Lemma sync_value_ok i v w r : ok w -> regs w !! i = Some r -> isAsync r = false -> ok (update i (set_instance v) w).
Proof.
  intros Hw Hr Ha. split; cbn [update regs promises started].
  - intros j r' Hj Hs Ha'. apply alter_lookup in Hj as (r0 & Hj & ->). case_decide as E; [|by apply (ok_holds w Hw j r0)].
    subst j. rewrite Hr in Hj. injection Hj as ->. unfold isAsync in *. simpl in Ha'. congruence.
  - intros n p j Hn Ho. destruct (ok_owner w Hw n p j Hn Ho) as (r0 & Hj & Hp). exists (if decide (i = j) then set_instance v r0 else r0).
    split; [by apply lookup_alter'|by case_decide].
  - intros j Hj. rewrite length_alter. by apply (ok_started w Hw).
Qed.
Lemma promises_app w p n q : (promises w ++ [p]) !! n = Some q -> promises w !! n = Some q \/ n = length (promises w) /\ q = p.
Proof.
  intros [H|[Hl H]]%lookup_app_Some; [by left|right]. destruct (n - length (promises w))%nat as [|[]] eqn:E; simplify_eq/=. split; [lia|done].
Qed.
Lemma ownerless_ok d w : ok w -> ok (new_promise (Promised None d None) w).
Proof.
  intros Hw. split; cbn [new_promise regs promises started].
  - intros i r Hr Hs Ha. pose proof (ok_holds w Hw i r Hr Hs Ha) as Hh. unfold holds in *. destruct (promise r) as [n|]; [|done].
    destruct Hh as (Ht & p & Hp & Hrest). split; [done|]. exists p. split; [by apply lookup_app_l_Some|done].
  - intros n p i [Hn|[-> ->]]%promises_app Ho; [|done]. by apply (ok_owner w Hw n p).
  - apply (ok_started w Hw).
Qed.
Lemma start_plain_ok i w r : ok w -> regs w !! i = Some r -> singleton r = false -> ok (start i w).
Proof.
  intros Hw Hr Hs. split; cbn [start regs promises].
  - intros j r' Hj Hs' Ha. pose proof (ok_holds w Hw j r' Hj Hs' Ha) as Hh. unfold holds in *. rewrite times_start.
    rewrite decide_False by congruence. by rewrite Nat.add_0_r.
  - apply (ok_owner w Hw).
  - intros j [Hj| ->%list_elem_of_singleton]%elem_of_app; [by apply (ok_started w Hw)|]. by eapply lookup_lt_Some.
Qed.
(** A singleton's registration takes a new promise. *)
Lemma promise_ok i d w r :
  ok w -> regs w !! i = Some r -> singleton r = true -> promise r = None ->
  (isAsync r = true -> d = None /\ instance r = None /\ times i w = 0%nat) ->
  let w' := update i (set_promise (length (promises w))) (new_promise (Promised (Some i) d None) w) in
  ok (if isAsync r then start i w' else w').
Proof.
  intros Hw Hr Hs Hp Hd. cbv zeta. set (n := length (promises w)).
  assert (forall j, times j (if isAsync r then start i (update i (set_promise n) (new_promise (Promised (Some i) d None) w)) else update i (set_promise n) (new_promise (Promised (Some i) d None) w))
            = (times j w + if isAsync r then (if decide (i = j) then 1 else 0) else 0)%nat) as Ht.
  { intros j. destruct (isAsync r); [by rewrite times_start|by rewrite Nat.add_0_r]. }
  assert (forall x : world, regs (if isAsync r then start i x else x) = regs x /\ promises (if isAsync r then start i x else x) = promises x) as Hx by (intros x; by destruct (isAsync r)).
  destruct (Hx (update i (set_promise n) (new_promise (Promised (Some i) d None) w))) as [Hx1 Hx2].
  split; rewrite ?Hx1, ?Hx2; cbn [update new_promise regs promises].
  - intros j r' Hj Hs' Ha'. apply alter_lookup in Hj as (r0 & Hj & ->). cbn [new_promise regs] in Hj. unfold holds. rewrite Ht, Hx2. cbn [update new_promise promises].
    case_decide as E.
    + subst j. rewrite Hr in Hj. injection Hj as <-. cbn [set_promise promise]. assert (isAsync r = true) as Ha by exact Ha'. rewrite Ha.
      destruct (Hd Ha) as (-> & Hi & H0). rewrite H0. split; [done|]. exists (Promised (Some i) None None).
      split_and!; [by rewrite lookup_app_r, Nat.sub_diag by done|done|done|exact Hi].
    + replace (times j w + _)%nat with (times j w) by (destruct (isAsync r); lia). pose proof (ok_holds w Hw j r0 Hj Hs' Ha') as Hh.
      unfold holds in Hh. destruct (promise r0) as [m|]; [|done]. destruct Hh as (H1 & p & H2 & H3). split; [done|]. exists p. split; [by apply lookup_app_l_Some|done].
  - intros m p j [Hm|[-> ->]]%promises_app Ho.
    + destruct (ok_owner w Hw m p j Hm Ho) as (r0 & Hj & Hm'). exists (if decide (i = j) then set_promise n r0 else r0). split; [by apply lookup_alter'|].
      case_decide as E; [|done]. subst j. rewrite Hr in Hj. injection Hj as <-. congruence.
    + injection Ho as <-. exists (set_promise n r). split; [|done]. rewrite (lookup_alter' (set_promise n) i i w r Hr). by rewrite decide_True.
  - intros j Hj. rewrite length_alter. destruct (isAsync r); cbn [start update new_promise started] in Hj.
    + apply elem_of_app in Hj as [Hj| ->%list_elem_of_singleton]; [by apply (ok_started w Hw)|by eapply lookup_lt_Some].
    + by apply (ok_started w Hw).
Qed.
(** *** Settled promises *)

Definition mark (n : nat) (p : promised) (w : world) : world := World (services w) (regs w) (<[n := p]> (promises w)) (started w) (outside w).
(** What a registration whose promise was settled holds. *)
Definition takes_value (r' : res exn (option V)) (x : registration) : registration := set_instance (match r' with Ok v => v | Throw _ => instance x end) x.
Lemma marked_promise w n p q m x :
  promises w !! n = Some q -> promises (mark n p w) !! m = Some x -> (m = n /\ x = p) \/ (m <> n /\ promises w !! m = Some x).
Proof.
  intros Hn. cbn [mark promises]. destruct (decide (m = n)) as [->|Hne].
  - rewrite list_lookup_insert_eq by (by eapply lookup_lt_Some). intros [= <-]. by left.
  - rewrite list_lookup_insert_ne by done. by right.
Qed.
Lemma holds_marked w n p q j r :
  promises w !! n = Some q -> owner q <> Some j -> holds w j r -> holds (mark n p w) j r.
Proof.
  intros Hn Ho Hh. unfold holds in *. destruct (promise r) as [m|]; [|done]. destruct Hh as (H1 & x & H2 & H3 & H4). split; [done|].
  exists x. split; [|done]. cbn [mark promises]. rewrite list_lookup_insert_ne; [done|]. intros <-. congruence.
Qed.
Lemma unowned_ok w n d r' : ok w -> promises w !! n = Some (Promised None d None) -> ok (mark n (Promised None d (Some r')) w).
Proof.
  intros Hw Hn. split; cbn [mark regs started].
  - intros j r Hj Hs Ha. eapply holds_marked; [exact Hn|done|by apply (ok_holds w Hw)].
  - intros m x j Hm Ho. destruct (marked_promise _ _ _ _ _ _ Hn Hm) as [[_ ->]|[_ Hm']]; [done|]. by apply (ok_owner w Hw m x).
  - apply (ok_started w Hw).
Qed.
Lemma owned_ok w n i d r' :
  ok w -> promises w !! n = Some (Promised (Some i) d None) -> ok (update i (takes_value r') (mark n (Promised (Some i) d (Some r')) w)).
Proof.
  intros Hw Hn. destruct (ok_owner w Hw n _ i Hn eq_refl) as (ri & Hri & Hni). split; cbn [update mark regs started].
  - intros j r Hj Hs Ha. apply (alter_lookup _ i j w r) in Hj as (r0 & Hj & ->). case_decide as E.
    + subst j. rewrite Hri in Hj. injection Hj as <-. pose proof (ok_holds w Hw i ri Hri Hs Ha) as Hh. unfold holds in *.
      cbn [takes_value set_instance promise instance]. rewrite Hni in *. destruct Hh as (H1 & p & H2 & H3 & H4 & H5). rewrite Hn in H2. injection H2 as <-.
      split; [exact H1|]. exists (Promised (Some i) d (Some r')). cbn [update mark promises].
      rewrite list_lookup_insert_eq by (by eapply lookup_lt_Some). split_and!; [done|done|done|]. cbn [settled]. by destruct r'.
    + assert (holds (mark n (Promised (Some i) d (Some r')) w) j r0) as Hm; [|exact Hm].
      eapply holds_marked; [exact Hn|simpl; congruence|by apply (ok_holds w Hw)].
  - intros m x j Hm Ho. destruct (marked_promise _ _ _ _ _ _ Hn Hm) as [[-> ->]|[_ Hm']].
    + injection Ho as <-. exists (takes_value r' ri). split; [|done]. rewrite (lookup_alter' _ i i w ri Hri). by rewrite decide_True.
    + destruct (ok_owner w Hw m x j Hm' Ho) as (r0 & Hj & Hp). exists (if decide (i = j) then takes_value r' r0 else r0).
      split; [by apply lookup_alter'|by case_decide].
  - intros j Hj. rewrite length_alter. by apply (ok_started w Hw).
Qed.
Lemma settle_eq n r w :
  settle n r w =
    match promises w !! n with
    | Some (Promised (Some i) d None) =>
        let r' := match d with Some v => Ok v | None => r end in update i (takes_value r') (mark n (Promised (Some i) d (Some r')) w)
    | Some (Promised None d None) => let r' := match d with Some v => Ok v | None => r end in mark n (Promised None d (Some r')) w
    | _ => w
    end.
Proof.
  unfold settle. destruct (promises w !! n) as [[[i|] d [x|]]|]; try done. cbv zeta. destruct (match d with Some v => Ok v | None => r end) as [v|e]; [done|].
  unfold update, mark. cbn [regs services promises started outside]. rewrite list_alter_id; [done|by intros []].
Qed.
Lemma settling_ok n r w : ok w -> ok (settle n r w).
Proof.
  intros Hw. rewrite settle_eq. destruct (promises w !! n) as [[[i|] d [x|]]|] eqn:En; try done; [by apply owned_ok|by apply unowned_ok].
Qed.

(** *** Every call *)

Lemma look_up_reg k w i r : look_up k w = Some (i, r) -> regs w !! i = Some r.
Proof. unfold look_up. destruct (jmap_get k (services w)) as [j|]; [|done]. simpl. destruct (regs w !! j) eqn:E; [|done]. by intros [= -> ->]. Qed.
Lemma get_ok k w : ok w -> ok (get k w).1.
Proof.
  intros Hw. unfold get. destruct (look_up k w) as [[i r]|] eqn:El; [|done]. apply look_up_reg in El.
  destruct (factory r) as [f|f] eqn:Ef; [|done]. pose proof (outside_ok f w Hw) as Ho. destruct (outside_same f w) as (Hr & _ & _).
  destruct (singleton r); [|done]. destruct (instance r); [done|]. destruct (on_outside f w) as [w' [v|e]]; [|done].
  cbn [fst] in *. apply (sync_value_ok i v w' r); [done|by rewrite Hr|]. unfold isAsync. by rewrite Ef.
Qed.
Lemma get_async_ok k w : ok w -> ok (getAsync k w).1.
Proof.
  intros Hw. unfold getAsync. destruct (look_up k w) as [[i r]|] eqn:El; [|done]. apply look_up_reg in El.
  unfold promise_of. destruct (singleton r) eqn:Es.
  - destruct (instance r) eqn:Ei; [done|]. destruct (promise r) eqn:Ep; [done|].
    destruct (factory r) as [f|f] eqn:Ef; pose proof (outside_ok f w Hw) as Ho; destruct (outside_same f w) as (Hr & Hp & Hs);
      destruct (on_outside f w) as [w' [v|e]]; try done; cbn [fst] in *; rewrite <- Hr in El.
    + pose proof (promise_ok i (Some v) w' r Ho El Es Ep) as H. unfold isAsync in H. rewrite Ef in H. by apply H.
    + pose proof (promise_ok i None w' r Ho El Es Ep) as H. unfold isAsync in H. rewrite Ef in H. apply H. intros _. split; [done|]. split; [done|].
      pose proof (ok_holds w' Ho i r El Es) as Hh. unfold isAsync, holds in Hh. rewrite Ef, Ep in Hh. by apply Hh.
  - destruct (factory r) as [f|f] eqn:Ef; pose proof (outside_ok f w Hw) as Ho; destruct (outside_same f w) as (Hr & Hp & Hs);
      destruct (on_outside f w) as [w' [v|e]]; try done; cbn [fst] in *; rewrite <- Hr in El.
    + by apply ownerless_ok.
    + apply (start_plain_ok i _ r); [by apply ownerless_ok|done|done].
Qed.
Lemma step_ok w w' : step w w' -> ok w -> ok w'.
Proof.
  intros Hs Hw. destruct Hs as [k f b w|k f b w|k w|k w|n r w|w]; [by apply add_ok|by apply add_ok|by apply get_ok|by apply get_async_ok|by apply settling_ok|].
  destruct Hw as [H1 H2 H3]. by split.
Qed.

(** *** What stays *)

Record keeps (r r' : registration) : Prop := Keeps {
  k_factory : factory r' = factory r; k_singleton : singleton r' = singleton r; k_promise n : promise r = Some n -> promise r' = Some n;
}.
(** Registrations keep their promises, and promises how they were settled. *)
Record later (w w' : world) : Prop := Later_ {
  l_regs i r : regs w !! i = Some r -> exists r', regs w' !! i = Some r' /\ keeps r r';
  l_settled n p x : promises w !! n = Some p -> settled p = Some x -> exists p', promises w' !! n = Some p' /\ settled p' = Some x;
}.
#[export] Instance keeps_preorder : PreOrder keeps.
Proof. split; [by intros r; split|]. intros a b c [H1 H2 H3] [H4 H5 H6]. split; [congruence|congruence|auto]. Qed.
#[export] Instance later_preorder : PreOrder later.
Proof.
  split; [intros w; split; [intros i r H; by exists r|intros n p x H1 H2; by exists p]|]. intros a b c [H1 H2] [H3 H4]. split.
  - intros i r Hr. destruct (H1 i r Hr) as (r1 & Hr1 & K1). destruct (H3 i r1 Hr1) as (r2 & Hr2 & K2). exists r2. split; [done|by transitivity r1].
  - intros n p x Hp Hx. destruct (H2 n p x Hp Hx) as (p1 & Hp1 & Hx1). by destruct (H4 n p1 x Hp1 Hx1) as (p2 & Hp2 & Hx2); exists p2.
Qed.
(** Registrations are only altered in ways they keep, and promises only added. *)
Lemma later_alter w w' i f l :
  regs w' = alter f i (regs w) -> promises w' = promises w ++ l -> (forall r, regs w !! i = Some r -> keeps r (f r)) -> later w w'.
Proof.
  intros Hr Hp Hf. split.
  - intros j r Hj. rewrite Hr. exists (if decide (i = j) then f r else r). split; [by apply lookup_alter'|]. case_decide as E; [subst j; by apply Hf|done].
  - intros n p x Hn Hx. exists p. split; [|done]. rewrite Hp. by apply lookup_app_l_Some.
Qed.
Lemma later_added w w' l l' : regs w' = regs w ++ l -> promises w' = promises w ++ l' -> later w w'.
Proof.
  intros Hr Hp. split; [intros j r Hj; exists r|intros n p x Hn Hx; exists p]; (split; [|done]); rewrite ?Hr, ?Hp; by apply lookup_app_l_Some.
Qed.
Lemma outside_later {A} (m : meth W exn A) w : later w (on_outside m w).1.
Proof. destruct (outside_same m w) as (Hr & Hp & _). apply (later_added _ _ [] []); by rewrite app_nil_r. Qed.
Lemma settle_later n r w : later w (settle n r w).
Proof.
  rewrite settle_eq. destruct (promises w !! n) as [[[i|] d [x|]]|] eqn:En; try done; cbv zeta; split.
  - intros j r0 Hj. exists (if decide (i = j) then takes_value (match d with Some v => Ok v | None => r end) r0 else r0).
    split; [by apply (lookup_alter' _ i j w)|by case_decide].
  - intros m p x Hm Hx. exists p. split; [|done]. cbn [update mark promises]. rewrite list_lookup_insert_ne; [done|]. intros <-. rewrite En in Hm. by injection Hm as <-.
  - intros j r0 Hj. by exists r0.
  - intros m p x Hm Hx. exists p. split; [|done]. cbn [mark promises]. rewrite list_lookup_insert_ne; [done|]. intros <-. rewrite En in Hm. by injection Hm as <-.
Qed.
Lemma get_later k w : later w (get k w).1.
Proof.
  unfold get. destruct (look_up k w) as [[i r]|] eqn:El; [|done]. destruct (factory r) as [f|f]; [|done]. pose proof (outside_later f w) as Ho.
  destruct (singleton r); [|done]. destruct (instance r); [done|]. destruct (on_outside f w) as [w' [v|e]]; cbn [fst] in *; [|done].
  transitivity w'; [done|]. apply (later_alter _ _ i (set_instance v) []); [done|by rewrite app_nil_r|by intros].
Qed.
Lemma get_async_later k w : later w (getAsync k w).1.
Proof.
  unfold getAsync. destruct (look_up k w) as [[i r]|] eqn:El; [|done]. apply look_up_reg in El. unfold promise_of.
  destruct (singleton r); [destruct (instance r); [done|]; destruct (promise r) eqn:Ep; [done|]|];
    (destruct (factory r) as [f|f]; pose proof (outside_later f w) as Ho; destruct (outside_same f w) as (Hr & _ & _));
     (destruct (on_outside f w) as [w' [v|e]]; cbn [fst] in *; [transitivity w'; [done|]|done]).
  - eapply (later_alter _ _ i (set_promise _)); [done|done|]. intros r0 H0. rewrite Hr, El in H0. injection H0 as <-. split; [done|done|]. intros n Hn. congruence.
  - eapply (later_alter _ _ i (set_promise _)); [done|done|]. intros r0 H0. rewrite Hr, El in H0. injection H0 as <-. split; [done|done|]. intros n Hn. congruence.
  - eapply (later_added _ _ []); [by rewrite app_nil_r|done].
  - eapply (later_added _ _ []); [by rewrite app_nil_r|done].
Qed.
Lemma step_later w w' : step w w' -> later w w'.
Proof.
  intros Hs. destruct Hs as [k f b w|k f b w|k w|k w|n r w|w]; [| |apply get_later|apply get_async_later|apply settle_later|by apply (later_added _ _ [] []); rewrite app_nil_r].
  - apply (later_added _ _ [Registration (Sync f) b None None] []); [done|by rewrite app_nil_r].
  - apply (later_added _ _ [Registration (Async f) b None None] []); [done|by rewrite app_nil_r].
Qed.
Lemma steps_ok w w' : rtc step w w' -> ok w -> ok w' /\ later w w'.
Proof.
  induction 1 as [|a b c Hs _ IH]; intros Ha; [done|]. destruct (IH (step_ok _ _ Hs Ha)) as [H1 H2]. split; [done|]. transitivity b; [by apply step_later|done].
Qed.

(** C35: With factories that act on what is outside the container only, whatever
    is registered, asked for, settled and cleared in whatever order, the
    factory of an asynchronous singleton is started at most once, and what its
    promise came to is final: a value is what every later call gets, at once; a
    rejection is also, so that the dependency cannot be had again unless its key
    is registered anew. *)
Theorem singletons_started_once o w w' k i r r' n x :
  rtc step (empty o) w -> rtc step w w' ->
  regs w !! i = Some r -> singleton r = true -> isAsync r = true -> promise r = Some n ->
  (settled <$> promises w !! n) = Some (Some x) -> look_up k w' = Some (i, r') ->
  times i w' = 1%nat /\
  getAsync k w' = (w', Ok (match x with Ok (Some v) => Now (Some v) | _ => Later n end)).
Proof.
  intros H0 H1 Hr Hs Ha Hn Hx Hk. destruct (steps_ok _ _ H0 (empty_ok o)) as [Hw _]. destruct (steps_ok _ _ H1 Hw) as [Hw' [Lr Ls]].
  destruct (promises w !! n) as [p|] eqn:Ep; [|done]. simpl in Hx. injection Hx as Hx.
  destruct (Lr i r Hr) as (r1 & Hr1 & [K1 K2 K3]). pose proof (look_up_reg _ _ _ _ Hk) as Hr'. rewrite Hr1 in Hr'. injection Hr' as ->.
  destruct (Ls n p x Ep Hx) as (p' & Hp' & Hx').
  pose proof (ok_holds w' Hw' i r' Hr1 ltac:(congruence) ltac:(unfold isAsync in *; by rewrite K1)) as Hh. unfold holds in Hh.
  rewrite (K3 n Hn) in Hh. destruct Hh as (Ht & q & Hq & _ & _ & Hi). rewrite Hp' in Hq. injection Hq as <-. rewrite Hx' in Hi. split; [done|].
  unfold getAsync. rewrite Hk, K2, Hs, Hi, (K3 n Hn). by destruct x as [[v|]|e].
Qed.
End container.
Arguments world : clear implicits.
Arguments registration : clear implicits.
Arguments promised : clear implicits.
Arguments maker : clear implicits.
Arguments answer : clear implicits.
Lemma singletons_started_once_witness :
  let start : meth nat exn unit := fun n => (S n, Ok tt) in
  let w := settle 0 (Throw (PlainError "connection refused")) (getAsync "db" (registerAsync (V := nat) "db" start true (empty 0%nat))).1 in
  getAsync "db" w = (w, Ok (Later 0)).
Proof.
  cbv zeta. set (start := fun n => (S n, Ok tt)). set (w1 := registerAsync "db" start true (empty 0%nat)). set (w2 := (getAsync "db" w1).1).
  set (w := settle 0 (Throw (PlainError "connection refused")) w2).
  assert (rtc step (empty 0%nat) w) as Hw.
  { apply (rtc_l _ _ w1); [apply registers_async|]. apply (rtc_l _ _ w2); [apply gets_async|]. apply (rtc_l _ _ w); [apply settles|apply rtc_refl]. }
  exact (proj2 (singletons_started_once 0%nat w w "db" 0 (Registration (Async start) true None (Some 0%nat)) (Registration (Async start) true None (Some 0%nat))
    0 (Throw (PlainError "connection refused")) Hw (rtc_refl _ _) eq_refl eq_refl eq_refl eq_refl eq_refl eq_refl)).
Defined.
End Container.

(** ** Ordered initialisation *)

Module Orchestrator.

(** bootstrap/initializers/initialization-orchestrator.ts:26-37 initialize *)
Definition step_names : list string :=
  ["1. Configuration"; "2. Observability (Tracing, Metrics, Logging)"; "3. Infrastructure (Database, Redis, BullMQ Queue)";
   "4. Domain Models & Schemas"; "5. Application Services"; "6. Security (JWT, API Keys, Rate Limiting)";
   "7. Resilience (Circuit Breaker, Bulkhead, Retry)"; "8. API (Controllers, Middlewares, Express App)";
   "9. Worker Layer (Job Processors, Connectors)"; "10. Daemon Layer (Recovery, Health, Metrics)"].
Section orchestrator.
Context {W : Type} (initializer : string -> meth W exn unit) (has_logger : W -> bool).
Abbreviation M := (meth W exn).
Definition failed_at (name : string) (e : exn) : exn := PlainError ("Initialization failed at step " +:+ quoted name +:+ ": " +:+ message_of e).
(** bootstrap/initializers/initialization-orchestrator.ts:39-52 initialize *)
Fixpoint run_steps (names : list string) : M unit :=
  match names with
  | [] => mret tt
  | name :: names => try_catch (initializer name) (fun err => fail (failed_at name err));; run_steps names
  end.
(** bootstrap/initializers/initialization-orchestrator.ts:25-56 initialize *)
Definition initialize : M unit :=
  run_steps step_names;;
  w ← get_this;
  if has_logger w then mret tt else fail (Container.not_registered "logger").

(** The world after the first steps, if none of them threw. *)
Fixpoint after (names : list string) (w : W) : option W :=
  match names with
  | [] => Some w
  | name :: names => match initializer name w with (w, Ok _) => after names w | (_, Throw _) => None end
  end.
Lemma run_steps_spec names w :
  match run_steps names w with
  | (w', Ok _) => after names w = Some w'
  | (w', Throw e) => exists before name rest e0 wb, names = before ++ name :: rest /\ after before w = Some wb /\
      initializer name wb = (w', Throw e0) /\ e = failed_at name e0
  end.
Proof.
  revert w. induction names as [|name names IH]; intros w; [done|]. cbn [run_steps after]. unfold try_catch. unfold mbind at 1, meth_bind at 1.
  destruct (initializer name w) as [w1 [[]|e0]] eqn:Ei.
  - specialize (IH w1). destruct (run_steps names w1) as [w' [[]|e]]; [done|]. destruct IH as (before & n & rest & e1 & wb & -> & H1 & H2 & H3).
    exists (name :: before), n, rest, e1, wb. split_and!; [done| |done|done]. cbn [after]. by rewrite Ei.
  - cbn. exists [], name, names, e0, w. done.
Qed.
(** Initialising does all ten steps in their order, or stops at the first that
    throws, with an error that names it, and does none after it. *)
Lemma initialized_in_order w :
  match initialize w with
  | (w', Ok _) => after step_names w = Some w' /\ has_logger w' = true
  | (w', Throw e) =>
      (after step_names w = Some w' /\ has_logger w' = false) \/
      exists before name rest e0 wb, step_names = before ++ name :: rest /\ after before w = Some wb /\
        initializer name wb = (w', Throw e0) /\ e = failed_at name e0
  end.
Proof.
  unfold initialize. unfold mbind at 1, meth_bind at 1. pose proof (run_steps_spec step_names w) as Hs.
  destruct (run_steps step_names w) as [w1 [[]|e]]; [|by right]. unfold get_this. unfold mbind, meth_bind. destruct (has_logger w1) eqn:El; [done|]. by left.
Qed.
End orchestrator.
End Orchestrator.

(** ** The container of the parts *)

Module DependencyContainer.

(** bootstrap/dependencies.ts:35-46 DependencyContainer *)
Inductive part : Type := Prisma | Redis | RepositoriesP | Queue | Observability | Security | Resilience | Services | Worker | Daemon | Api.
#[export] Instance part_eq : EqDecision part.
Proof. solve_decision. Defined.
Section parts.
(** The handle of a part; the worker and the daemons may be null. *)
Context {H W : Type} (setup : part -> meth W exn (option H)) (stop : part -> H -> meth W exn unit) (disconnectDatabase : meth W exn unit).
(** bootstrap/dependencies.ts:31-53 DependencyContainer
    The fields that were assigned, and what is outside. *)
Record container : Type := Mk { fields : list (part * option H); initialized : bool; world : W }.
Definition create (w : W) : container := Mk [] false w.
Abbreviation M := (meth container exn).
Definition outside {A} (m : meth W exn A) : M A := fun c => let '(w, r) := m (world c) in (Mk (fields c) (initialized c) w, r).
Definition assign (p : part) (h : option H) : M unit := modify (fun c => Mk (jmap_set p h (fields c)) (initialized c) (world c)).
Definition handle_of (p : part) (c : container) : option H := match jmap_get p (fields c) with Some h => h | None => None end.
Definition order : list part := [Prisma; Redis; RepositoriesP; Queue; Observability; Security; Resilience; Services; Worker; Daemon; Api].
Fixpoint setups (ps : list part) : M unit :=
  match ps with [] => mret tt | p :: ps => h ← outside (setup p); assign p h;; setups ps end.
Definition set_initialized (b : bool) : M unit := modify (fun c => Mk (fields c) b (world c)).
(** bootstrap/dependencies.ts:58-123 initialize *)
Definition initialize : M unit :=
  c ← get_this;
  if initialized c then mret tt else setups order;; set_initialized true.
(** One part is stopped, if there is one; its errors are only logged. *)
Definition stop_part (p : part) : M unit :=
  c ← get_this;
  match handle_of p c with Some h => try_catch (outside (stop p h)) (fun _ => mret tt) | None => mret tt end.
(** bootstrap/dependencies.ts:128-186 shutdown
    Of the observability the tracer is shut down. *)
Definition shutdown : M unit :=
  c ← get_this;
  if negb (initialized c) then mret tt
  else
    stop_part Worker;; stop_part Daemon;; stop_part Observability;; stop_part Redis;;
    try_catch (outside disconnectDatabase) (fun _ => mret tt);;
    set_initialized false.

Definition stopped (p : part) (c : container) (w : W) : W := match handle_of p c with Some h => (stop p h w).1 | None => w end.
Lemma stop_part_eq p c : stop_part p c = (Mk (fields c) (initialized c) (stopped p c (world c)), Ok tt).
Proof.
  unfold stop_part, stopped, get_this, mbind, meth_bind, try_catch, outside. destruct (handle_of p c) as [h|]; [|by destruct c].
  by destruct (stop p h (world c)) as [w [[]|e]].
Qed.
(** A container in use is shut down whatever its parts answer: the worker, the
    daemons, the tracer, Redis and the database in this order, each once. *)
Lemma shutdown_attempts_all c :
  initialized c = true ->
  shutdown c = (Mk (fields c) false (disconnectDatabase (stopped Redis c (stopped Observability c (stopped Daemon c (stopped Worker c (world c)))))).1, Ok tt).
Proof.
  intros Hi. unfold shutdown, get_this. unfold mbind at 1, meth_bind at 1. rewrite Hi. cbn [negb]. unfold mbind, meth_bind.
  rewrite !stop_part_eq. cbn [fields initialized world]. unfold stopped, handle_of. cbn [fields]. unfold try_catch, outside. cbn [world fields initialized].
  by destruct (disconnectDatabase _) as [w [[]|e]].
Qed.

Definition reached (ps : list part) (c : container) : Prop := forall p, p ∈ ps -> jmap_get p (fields c) <> None.
Lemma setups_failed ps c c' e :
  setups ps c = (c', Throw e) ->
  initialized c' = initialized c /\ exists before p rest, ps = before ++ p :: rest /\ reached before c' /\
    (forall q, jmap_get q (fields c) <> None -> jmap_get q (fields c') <> None).
Proof.
  revert c. induction ps as [|p ps IH]; intros c; [done|]. cbn [setups]. unfold mbind at 1, meth_bind at 1. unfold outside at 1.
  destruct (setup p (world c)) as [w [h|e0]].
  - unfold assign, modify. unfold mbind, meth_bind. intros Hs. apply IH in Hs as [Hi (before & q & rest & -> & Hr & Hk)]. cbn [fields initialized world] in *.
    split; [done|]. exists (p :: before), q, rest. split; [done|]. split.
    + intros x [->|Hx]%elem_of_cons; [|by apply Hr]. apply Hk. by rewrite jmap_get_set_eq.
    + intros x Hx. apply Hk. destruct (decide (x = p)) as [->|Hne]; [by rewrite jmap_get_set_eq|by rewrite jmap_get_set_ne].
  - intros [= <- <-]. split; [done|]. exists [], p, ps. split; [done|]. split; [by intros x ?%not_elem_of_nil|done].
Qed.
(** When one part cannot be set up, those before it stay as they are, and
    shutting down closes none of them. *)
Theorem failed_start_leaks w c e :
  initialize (create w) = (c, Throw e) ->
  (exists before p rest, order = before ++ p :: rest /\ reached before c) /\ shutdown c = (c, Ok tt).
Proof.
  unfold initialize, get_this. unfold mbind at 1, meth_bind at 1. cbn [create initialized]. unfold mbind at 1, meth_bind at 1.
  destruct (setups order (create w)) as [c1 [[]|e1]] eqn:Es; [done|]. intros [= -> ->]. apply setups_failed in Es as [Hi (before & p & rest & H1 & H2 & _)].
  split; [by exists before, p, rest|]. unfold shutdown, get_this, mbind, meth_bind. by rewrite Hi.
Qed.
End parts.
Arguments container : clear implicits.
Lemma failed_start_leaks_witness :
  let setup p : meth (list part) exn (option nat) := fun w => match p with Queue => (w, Throw (PlainError "ECONNREFUSED")) | _ => (w ++ [p], Ok (Some 0%nat)) end in
  let stop (p : part) (h : nat) : meth (list part) exn unit := fun w => (filter (fun q => q <> p) w, Ok tt) in
  let c := (initialize setup (create [])).1 in
  world c = [Prisma; Redis; RepositoriesP] /\ shutdown stop (fun w => ([], Ok tt)) c = (c, Ok tt).
Proof.
  cbv zeta. split; [reflexivity|].
  exact (proj2 (failed_start_leaks (fun p w => match p with Queue => (w, Throw (PlainError "ECONNREFUSED")) | _ => (w ++ [p], Ok (Some 0%nat)) end)
    (fun p h w => (filter (fun q => q <> p) w, Ok tt)) (fun w => ([], Ok tt)) [] _ (PlainError "ECONNREFUSED") eq_refl)).
Defined.
End DependencyContainer.

(** ** The checks before traffic *)

(** What the start of the process asks of the database's client, Redis, the
    file system and the network. *)
Class Probes (W : Type) : Type := {
  getPrisma : meth W exn unit;
  select_1 : meth W exn unit;
  count_all : string -> meth W exn unit;
  getRedis : meth W exn unit;
  ping : meth W exn string;
  existsSync : string -> meth W exn bool;
  mkdirSync : string -> meth W exn unit;
  writeFileSync : string -> string -> meth W exn unit;
  unlinkSync : string -> meth W exn unit;
  listen : Z -> meth W exn bool;
}.

Module StartupValidator.
Section validator.
Context {W : Type} `{!Probes W}.
Abbreviation M := (meth W exn).
(** What the checks read of the configuration and the environment. *)
Record settings : Type := Settings { environment : option string; port : option Z; jwtSecret : option string;
  START_WORKER : option string; START_DAEMON : option string }.
(** bootstrap/startup-validation.ts:28-29 validate *)
Record outcome : Type := Outcome { errors : list string; warnings : list string }.
Definition or_text (v : option string) (default : string) : string := match v with Some (String _ _ as s) => s | _ => default end.

(** bootstrap/startup-validation.ts:32-35 validate *)
Definition check_environment (s : settings) (o : outcome) : outcome :=
  let env := or_text (environment s) "development" in
  if negb (bool_decide (env ∈ ["development"; "test"; "production"])) then
    Outcome (errors o) (warnings o ++ ["Non-standard environment configuration detected: " +:+ quoted env +:+ ". Expected dev, test, or prod."])
  else o.
(** bootstrap/startup-validation.ts:38-40 validate *)
Definition secret_problem (s : settings) : list string :=
  match jwtSecret s with
  | Some k => if (js_length k <? 32)%nat then ["JWT Secret key is unconfigured or too short (minimum 32 characters required)."] else []
  | None => ["JWT Secret key is unconfigured or too short (minimum 32 characters required)."]
  end.
(** bootstrap/startup-validation.ts:43-53 validate *)
Definition database_problem : M (list string) :=
  try_catch (getPrisma;; select_1;; count_all "destination";; count_all "aiTaskResult";; count_all "taskResultDelivery";; mret [])
    (fun e => mret ["Database validation failed: " +:+ message_of e]).
(** bootstrap/startup-validation.ts:56-64 validate *)
Definition redis_problem : M (list string) :=
  try_catch (getRedis;; pong ← ping;
             mret (if bool_decide (pong <> "PONG") then ["Unexpected Redis ping response: " +:+ quoted pong +:+ ". Expected " +:+ quoted "PONG" +:+ "."] else []))
    (fun e => mret ["Redis connectivity diagnostics failed: " +:+ message_of e]).
(** bootstrap/startup-validation.ts:67-77 validate
    Names are relative to the working directory. *)
Definition files_warning : M (list string) :=
  try_catch (there ← existsSync "tmp"; (if there : bool then mret tt else mkdirSync "tmp" : M unit);;
             writeFileSync "tmp/.startup-write-test" "ok";; unlinkSync "tmp/.startup-write-test";; mret [])
    (fun e => mret ["File system write privileges check failed for local directories: " +:+ message_of e]).
(** bootstrap/startup-validation.ts:80-84 validate
    [checkPortAvailability] answers whether a server began to listen; a port
    that is no port makes [listen] throw. *)
Definition port_problem (s : settings) : M (list string) :=
  let port := match port s with Some p => if p =? 0 then 3000 else p | None => 3000 end in
  isPortAvailable ← listen port;
  mret (if isPortAvailable : bool then [] else ["TCP Port " +:+ pretty port +:+ " is already bound by another process or is inaccessible."]).
(** bootstrap/startup-validation.ts:87-91 validate *)
Definition nothing_started (s : settings) : list string :=
  if bool_decide (START_WORKER s = Some "false") && bool_decide (START_DAEMON s = Some "false")
  then ["Both worker and daemon processes are disabled. The application will run as API-only."] else [].
Definition bullet : string := String "010" "- ".
(** bootstrap/startup-validation.ts:97-97 validate *)
Definition startup_failed (errors : list string) : exn :=
  PlainError ("Startup validations failed:" +:+ bullet +:+ String.concat bullet errors).
(** bootstrap/startup-validation.ts:25-111 validate *)
Definition validate (s : settings) : M outcome :=
  let o := check_environment s (Outcome [] []) in
  let secret := secret_problem s in
  db ← database_problem; rd ← redis_problem; fs ← files_warning; pt ← port_problem s;
  let o := Outcome (secret ++ db ++ rd ++ pt) (warnings o ++ fs ++ nothing_started s) in
  match errors o with
  | [] => mret o
  | _ => throw (startup_failed (errors o))
  end.

Definition port_of (s : settings) : Z := match port s with Some p => if p =? 0 then 3000 else p | None => 3000 end.
(** The process may take traffic: its secret is long enough and every probe, of
    the database, of Redis and of the port, answered well in this order,
    whatever the file system answered. *)
Record ready (s : settings) (w w' : W) : Prop := Ready {
  r_secret : exists k, jwtSecret s = Some k /\ (32 <= js_length k)%nat;
  r_probes : exists w1 w2 w3 w4 ws,
    (getPrisma;; select_1;; count_all "destination";; count_all "aiTaskResult";; count_all "taskResultDelivery") w = (w1, Ok tt) /\
    getRedis w1 = (w2, Ok tt) /\ ping w2 = (w3, Ok "PONG") /\ files_warning w3 = (w4, Ok ws) /\ listen (port_of s) w4 = (w', Ok true)
}.

Lemma secret_problem_nil s : secret_problem s = [] <-> exists k, jwtSecret s = Some k /\ (32 <= js_length k)%nat.
Proof.
  unfold secret_problem. destruct (jwtSecret s) as [k|]; [|split; [done|by intros (? & ? & _)]].
  destruct (Nat.ltb_spec (js_length k) 32); split; [done|intros (k' & [= <-] & ?); lia|by exists k|done].
Qed.
Lemma database_problem_nil w w' :
  database_problem w = (w', Ok []) <->
  (getPrisma;; select_1;; count_all "destination";; count_all "aiTaskResult";; count_all "taskResultDelivery") w = (w', Ok tt).
Proof.
  unfold database_problem, try_catch, mbind, meth_bind, mret, meth_ret.
  destruct (getPrisma w) as [w1 [[]|e]]; [|done]. destruct (select_1 w1) as [w2 [[]|e]]; [|done].
  destruct (count_all "destination" w2) as [w3 [[]|e]]; [|done]. destruct (count_all "aiTaskResult" w3) as [w4 [[]|e]]; [|done].
  destruct (count_all "taskResultDelivery" w4) as [w5 [[]|e]]; [|done]. by split; intros [= ->].
Qed.
Lemma redis_problem_nil w w' :
  redis_problem w = (w', Ok []) <-> exists w0, getRedis w = (w0, Ok tt) /\ ping w0 = (w', Ok "PONG").
Proof.
  unfold redis_problem, try_catch, mbind, meth_bind, mret, meth_ret.
  destruct (getRedis w) as [w1 [[]|e]]; [|split; [done|by intros (? & ? & _)]].
  destruct (ping w1) as [w2 [pong|e]] eqn:Ep; [|split; [done|intros (? & [= <-] & ?); congruence]].
  destruct (bool_decide_reflect (pong <> "PONG")) as [Hp|Hp%dec_stable].
  - split; [done|]. intros (? & [= <-] & ?). congruence.
  - subst pong. split; [intros [= <-]; by exists w1|]. intros (? & [= <-] & ?). congruence.
Qed.
Lemma caught_answers (m : M (list string)) (g : exn -> list string) w x :
  x = try_catch m (fun e => mret (g e)) w -> exists w' l, x = (w', Ok l).
Proof. intros ->. unfold try_catch. destruct (m w) as [w' [l|e]]; [by exists w', l|by exists w', (g e)]. Qed.
Lemma probes_answer w : exists w1 d w2 r w3 f,
  database_problem w = (w1, Ok d) /\ redis_problem w1 = (w2, Ok r) /\ files_warning w2 = (w3, Ok f).
Proof.
  destruct (caught_answers _ _ _ _ (eq_refl (database_problem w))) as (w1 & d & H1).
  destruct (caught_answers _ _ _ _ (eq_refl (redis_problem w1))) as (w2 & r & H2).
  destruct (caught_answers _ _ _ _ (eq_refl (files_warning w2))) as (w3 & f & H3).
  by exists w1, d, w2, r, w3, f.
Qed.
(** The checks let the process go on exactly when its secret has 32 characters and
    the database, its three tables, Redis and the port, 3000 for none or zero,
    answered well one after the other; the file system only warns. *)
Theorem started_iff_ready s w w' : (exists o, validate s w = (w', Ok o)) <-> ready s w w'.
Proof.
  destruct (probes_answer w) as (w1 & d & w2 & r & w3 & f & H1 & H2 & H3). unfold validate.
  rewrite (bind_ok _ _ _ _ _ H1), (bind_ok _ _ _ _ _ H2), (bind_ok _ _ _ _ _ H3). unfold port_problem. fold (port_of s). cbv zeta. split.
  - intros [o Ho]. unfold mbind, meth_bind in Ho. destruct (listen (port_of s) w3) as [w4 [[]|e]] eqn:El; [| |done].
    + cbn in Ho. destruct (secret_problem s ++ d ++ r ++ []) eqn:E; [|done]. apply app_nil in E as [Hs E]. apply app_nil in E as [-> E].
      apply app_nil in E as [-> _]. injection Ho as -> _. split; [by apply secret_problem_nil|].
      apply database_problem_nil in H1. apply redis_problem_nil in H2 as (w0 & Ha & Hb). by exists w1, w0, w2, w3, f.
    + cbn in Ho. destruct (secret_problem s ++ d ++ r ++ _) eqn:E; [|done]. apply app_nil in E as [_ E]. apply app_nil in E as [_ E].
      by apply app_nil in E as [_ E].
  - intros [Hs (v1 & v2 & v3 & v4 & ws & Ha & Hb & Hc & Hd & He)]. apply secret_problem_nil in Hs as ->.
    apply database_problem_nil in Ha. rewrite Ha in H1. injection H1 as <- <-.
    assert (redis_problem v1 = (v3, Ok [])) as Hr by (apply redis_problem_nil; by exists v2). rewrite Hr in H2. injection H2 as <- <-.
    rewrite Hd in H3. injection H3 as <- <-. unfold mbind, meth_bind. rewrite He. eexists. reflexivity.
Qed.
End validator.
End StartupValidator.

(** ** The first rows of a new database *)

(** What seeding relies on of the database's client: a count answers about the
    rows that are not deleted (of destinations, the type of each), a creation
    that returns has added its row; both may fail. *)
Class SeedClient (W : Type) : Type := {
  destination_types : W -> list string;
  results : W -> nat;
  destination_count : option string -> meth W exn Z;
  destination_create : string -> string -> list string -> meth W exn unit;
  result_count : meth W exn Z;
  result_create : string -> string -> string -> meth W exn unit;
  destination_count_ok t w w' n : destination_count t w = (w', Ok n) ->
    destination_types w' = destination_types w /\ results w' = results w /\
    n = Z.of_nat (length (filter (fun x => t = None \/ t = Some x) (destination_types w)));
  destination_create_ok u t fs w w' : destination_create u t fs w = (w', Ok tt) ->
    destination_types w' = destination_types w ++ [t] /\ results w' = results w;
  result_count_ok w w' n : result_count w = (w', Ok n) ->
    destination_types w' = destination_types w /\ results w' = results w /\ n = Z.of_nat (results w);
  result_create_ok a b c w w' : result_create a b c w = (w', Ok tt) ->
    destination_types w' = destination_types w /\ results w' = S (results w);
}.

Module Seeding.
Section seeding.
Context {W : Type} `{!SeedClient W}.
Abbreviation M := (meth W exn).
(** bootstrap/seeding.ts:15-29 seedDatabase *)
Definition seed_webhook : M unit :=
  destCount ← destination_count None;
  if destCount =? 0 then destination_create "https://httpbin.org/post" "WEBHOOK" ["classification.billing"; "classification.support"] else mret tt.
(** bootstrap/seeding.ts:32-46 seedDatabase *)
Definition seed_archive : M unit :=
  dbDestCount ← destination_count (Some "DATABASE");
  if dbDestCount =? 0 then destination_create "postgresql://localhost:5432/archive" "DATABASE" ["classification.retention"] else mret tt.
(** bootstrap/seeding.ts:49-62 seedDatabase
    The payload and the score of the sample are left out. *)
Definition seed_result : M unit :=
  resultCount ← result_count;
  if resultCount =? 0 then result_create "billing@oneinbox.com" "billing-classifier-v1" "1.0.0" else mret tt.
(** bootstrap/seeding.ts:10-69 seedDatabase *)
Definition seedDatabase : M unit := seed_webhook;; seed_archive;; seed_result.

(** What a seeding makes of a database, as a function of its rows. *)
Definition seeded (l : list string) : list string :=
  let l := match l with [] => ["WEBHOOK"] | _ => l end in
  if bool_decide ("DATABASE" ∈ l) then l else l ++ ["DATABASE"].

Lemma seeded_stable l : seeded (seeded l) = seeded l.
Proof.
  assert (forall l, "DATABASE" ∈ l -> seeded l = l) as Hin.
  { intros [|x l'] H; [by apply not_elem_of_nil in H|]. unfold seeded. cbv zeta. by rewrite bool_decide_eq_true_2. }
  apply Hin. unfold seeded. cbv zeta. case_bool_decide as H; [done|]. apply elem_of_app. right. by left.
Qed.
Lemma none_counted (l : list string) (t : string) (o : option string) :
  o = Some t -> (Z.of_nat (length (filter (fun x => o = None \/ o = Some x) l)) =? 0) = bool_decide (t ∉ l).
Proof.
  intros ->.
  destruct (Z.eqb_spec (Z.of_nat (length (filter (fun x => Some t = None \/ Some t = Some x) l))) 0) as [H|H]; symmetry.
  - apply bool_decide_eq_true. intros Ht. assert (t ∈ filter (fun x => Some t = None \/ Some t = Some x) l) as Hf.
    { apply list_elem_of_filter. split; [by right|done]. }
    destruct (filter _ l); [by apply not_elem_of_nil in Hf|done].
  - apply bool_decide_eq_false. intros Ht. destruct (filter _ l) as [|y l'] eqn:E; [done|].
    assert (y ∈ filter (fun x => Some t = None \/ Some t = Some x) l) as Hf by (rewrite E; by left).
    apply list_elem_of_filter in Hf as [[?|[= ->]] Hf]; [done|]. by apply Ht.
Qed.
Lemma all_counted (t : option string) (l : list string) : t = None -> filter (fun x => t = None \/ t = Some x) l = l.
Proof. intros Ht. induction l as [|x l IH]; [done|]. rewrite filter_cons_True; [by rewrite IH|by left]. Qed.
Lemma seed_webhook_ok w w' : seed_webhook w = (w', Ok tt) ->
  destination_types w' = match destination_types w with [] => ["WEBHOOK"] | l => l end /\ results w' = results w.
Proof.
  unfold seed_webhook, mbind, meth_bind. destruct (destination_count None w) as [w1 [n|]] eqn:Ec; [|done].
  apply destination_count_ok in Ec as (Ht & Hr & ->). rewrite <- Ht, <- Hr.
  rewrite all_counted by done.
  destruct (destination_types w1) as [|x l] eqn:E; cbn.
  - intros [Hd Hs]%destination_create_ok. by rewrite Hd, E.
  - intros [= <-]. by rewrite E.
Qed.
Lemma seed_archive_ok w w' : seed_archive w = (w', Ok tt) ->
  destination_types w' = (if bool_decide ("DATABASE" ∈ destination_types w) then destination_types w else destination_types w ++ ["DATABASE"]) /\
  results w' = results w.
Proof.
  unfold seed_archive, mbind, meth_bind. destruct (destination_count (Some "DATABASE") w) as [w1 [n|]] eqn:Ec; [|done].
  apply destination_count_ok in Ec as (Ht & Hr & ->). rewrite (none_counted _ "DATABASE") by done. rewrite <- Ht, <- Hr. rewrite bool_decide_not.
  destruct (bool_decide ("DATABASE" ∈ destination_types w1)); cbn; [by intros [= <-]|]. by intros ?%destination_create_ok.
Qed.
Lemma seed_result_ok w w' : seed_result w = (w', Ok tt) ->
  destination_types w' = destination_types w /\ results w' = Nat.max 1 (results w).
Proof.
  unfold seed_result, mbind, meth_bind. destruct (result_count w) as [w1 [n|]] eqn:Ec; [|done].
  apply result_count_ok in Ec as (Ht & Hr & ->). rewrite <- Ht, <- Hr. destruct (Z.eqb_spec (Z.of_nat (results w1)) 0).
  - intros [Hd Hs]%result_create_ok. split; [done|]. rewrite Hs. lia.
  - intros [= <-]. split; [done|lia].
Qed.
Lemma seed_spec w w' : seedDatabase w = (w', Ok tt) ->
  destination_types w' = seeded (destination_types w) /\ results w' = Nat.max 1 (results w).
Proof.
  unfold seedDatabase, mbind, meth_bind. destruct (seed_webhook w) as [w1 [[]|]] eqn:E1; [|done]. apply seed_webhook_ok in E1 as [H1 H1'].
  destruct (seed_archive w1) as [w2 [[]|]] eqn:E2; [|done]. apply seed_archive_ok in E2 as [H2 H2']. intros [H3 H3']%seed_result_ok.
  unfold seeded. cbv zeta. rewrite H3, H3', H2, H2', H1, H1'. by destruct (destination_types w).
Qed.
(** Starting again on a seeded database adds no row. *)
Theorem seeded_once w w1 w1' w2 :
  seedDatabase w = (w1, Ok tt) ->
  destination_types w1' = destination_types w1 -> results w1' = results w1 ->
  seedDatabase w1' = (w2, Ok tt) ->
  (destination_types w1 = seeded (destination_types w) /\ "DATABASE" ∈ destination_types w1 /\ (1 <= results w1)%nat) /\
  destination_types w2 = destination_types w1 /\ results w2 = results w1.
Proof.
  intros [H1 H1']%seed_spec Ht Hr [H2 H2']%seed_spec. rewrite Ht, H1, seeded_stable in H2. rewrite Hr, H1' in H2'. rewrite H1, H1', H2, H2'.
  split_and!; [done| |lia|done|lia]. unfold seeded. cbv zeta. case_bool_decide; [done|]. apply elem_of_app. right. by left.
Qed.
End seeding.
(** A database of rows in memory. *)
Record toy : Type := Toy { t_types : list string; t_results : nat }.
Program Instance toy_client : SeedClient toy := {
  destination_types := t_types;
  Bootstrap.results := t_results;
  destination_count t := fun w => (w, Ok (Z.of_nat (length (filter (fun x => t = None \/ t = Some x) (t_types w)))));
  destination_create _ t _ := fun w => (Toy (t_types w ++ [t]) (t_results w), Ok tt);
  result_count := fun w => (w, Ok (Z.of_nat (t_results w)));
  result_create _ _ _ := fun w => (Toy (t_types w) (S (t_results w)), Ok tt);
}.
Solve All Obligations with (intros; cbn in *; simplify_eq; done).
Lemma seeded_once_witness :
  let w := (seedDatabase (Toy [] 0)).1 in t_types w = ["WEBHOOK"; "DATABASE"] /\ seedDatabase w = (w, Ok tt).
Proof.
  cbv zeta. assert (seedDatabase (Toy [] 0) = (Toy ["WEBHOOK"; "DATABASE"] 1, Ok tt)) as H1 by by vm_compute.
  assert (seedDatabase (Toy ["WEBHOOK"; "DATABASE"] 1) = (Toy ["WEBHOOK"; "DATABASE"] 1, Ok tt)) as H2 by by vm_compute.
  destruct (seeded_once _ _ _ _ H1 eq_refl eq_refl H2) as [[H _] _]. split; [by rewrite H1|by rewrite H1].
Defined.
End Seeding.

(** ** Stopping: the process's signals *)

Module Shutdown.

Inductive signal : Type := SIGTERM | SIGINT.
#[export] Instance signal_eq : EqDecision signal.
Proof. solve_decision. Defined.
(** How the process ended: its exit code, or by a signal nobody listens to. *)
Inductive ending : Type := Code (n : Z) | Killed (s : signal).
(** Where [gracefulShutdown] is: waiting for the server's connections (and
    whether a second call was told that the server is closed already), or for
    the container. *)
Inductive phase : Type := Running | Draining (second : bool) | Stopping | Exited (e : ending).
(** The listeners that are left, the phase, and how many timers are set. *)
Record process : Type := Process { armed : list signal; at_ : phase; timers : nat }.
(** main.ts:37-43 main
    Each signal has a listener that fires once. *)
Definition started : process := Process [SIGTERM; SIGINT] Running 0.
(** What can happen to the process: a signal, the server's last connection
    closing, the container's answer, and [timeoutMs] passing after a signal,
    when the timer set at that signal fires if it is still set. *)
Inductive event : Type := Signal (s : signal) | Closed | Stopped (r : res exn unit) | Timeout.

(** bootstrap/shutdown.ts:32-41 gracefulShutdown
    [server.close] of a server that is closing calls back with an error when it
    has closed, of one that has closed at once; either way the second call
    exits. *)
Definition close_server (p : phase) : phase :=
  match p with Running => Draining false | Draining _ => Draining true | Stopping => Exited (Code 1) | Exited e => Exited e end.
(** bootstrap/shutdown.ts:22-25 gracefulShutdown
    Each call sets a timer before it does anything else. *)
Definition arm_timer (p : process) : process := Process (armed p) (at_ p) (S (timers p)).
(** bootstrap/shutdown.ts:51-58 gracefulShutdown
    The end of a call: its timer is cleared, and the process exits. *)
Definition finish (success : bool) (p : process) : process :=
  Process (armed p) (Exited (Code (if success then 0 else 1))) (pred (timers p)).
(** main.ts:39-42 main *)
Definition on_signal (s : signal) (p : process) : process :=
  if decide (s ∈ armed p)
  then
    let p := arm_timer (Process (filter (fun s' => s' <> s) (armed p)) (at_ p) (timers p)) in
    match close_server (at_ p) with
    | Exited _ => finish false p
    | ph => Process (armed p) ph (timers p)
    end
  else Process (armed p) (Exited (Killed s)) (timers p).
(** bootstrap/shutdown.ts:38-44 gracefulShutdown *)
Definition on_closed (p : process) : process :=
  match at_ p with
  | Draining false => Process (armed p) Stopping (timers p)
  | Draining true => finish false p
  | _ => p
  end.
(** bootstrap/shutdown.ts:44-58 gracefulShutdown *)
Definition on_stopped (r : res exn unit) (p : process) : process :=
  match at_ p with
  | Stopping => let success := is_ok r in finish success p
  | _ => p
  end.
(** bootstrap/shutdown.ts:22-25 gracefulShutdown
    A timer fires only if it was set and not cleared. *)
Definition on_timeout (p : process) : process :=
  match timers p with S n => Process (armed p) (Exited (Code 1)) n | O => p end.
(** bootstrap/shutdown.ts:13-59 gracefulShutdown *)
Definition handle (e : event) (p : process) : process :=
  match at_ p with
  | Exited _ => p
  | _ =>
      match e with
      | Signal s => on_signal s p
      | Closed => on_closed p
      | Stopped r => on_stopped r p
      | Timeout => on_timeout p
      end
  end.
Definition run (l : list event) (p : process) : process := foldl (fun p e => handle e p) p l.

Lemma events_app l1 l2 p : run (l1 ++ l2) p = run l2 (run l1 p).
Proof. apply foldl_app. Qed.
Lemma exited_stays l p e : at_ p = Exited e -> run l p = p.
Proof. intros He. induction l as [|x l IH]; [done|]. cbn. unfold handle at 2. by rewrite He. Qed.

(** While a call waits its timer is set. *)
Definition guarded (p : process) : Prop :=
  match at_ p with Draining _ | Stopping => timers p <> 0%nat | Running | Exited _ => True end.
Lemma guarded_step p e : guarded p -> guarded (handle e p).
Proof.
  destruct p as [ar [|[]| |] [|n]], e as [s| |[[]|]|]; unfold handle, on_signal, guarded; cbn; try case_decide; done.
Qed.
Lemma guarded_run l p : guarded p -> guarded (run l p).
Proof. revert p. induction l as [|e l IH]; intros p Hp; [done|]. by apply IH, guarded_step. Qed.

Lemma not_running l p : at_ p <> Running -> at_ (run l p) <> Running.
Proof.
  revert p. induction l as [|e l IH]; intros p Hp; [done|]. apply IH. unfold handle, on_signal.
  destruct p as [ar [|[]| |] [|n]], e as [s| |[[]|]|]; cbn in *; try case_decide; done.
Qed.
(** C37: In the process of src/main.ts ([gracefulShutdown] of bootstrap/shutdown.ts,
    not the one package.json starts): from the first signal on, as long as the
    process has not ended a timer is set, whatever else happens, other signals,
    the server's and the container's answers included; so when the time-out has
    passed the process has ended. *)
Theorem ends_in_time a s b :
  let p := run (a ++ Signal s :: b) started in
  (timers p <> 0%nat \/ exists e, at_ p = Exited e) /\
  forall c, exists e, at_ (run (a ++ Signal s :: b ++ Timeout :: c) started) = Exited e.
Proof.
  cbv zeta. assert (guarded (run (a ++ Signal s :: b) started)) as Hg by by apply guarded_run.
  assert (at_ (run (a ++ Signal s :: b) started) <> Running) as Hn.
  { rewrite events_app. cbn [run foldl]. apply not_running. unfold handle, on_signal.
    destruct (run a started) as [ar [|[]| |] [|n]]; cbn; try case_decide; done. }
  assert (forall c, run (a ++ Signal s :: b ++ Timeout :: c) started = run (Timeout :: c) (run (a ++ Signal s :: b) started)) as Hr.
  { intros c. rewrite <- events_app, <- app_assoc. done. }
  revert Hg Hn. set (p := run (a ++ Signal s :: b) started) in *. intros Hg Hn. split.
  - destruct (at_ p) eqn:E; [done| | |right; by eexists]; left; revert Hg; unfold guarded; by rewrite E.
  - intros c. rewrite Hr. change (run (Timeout :: c) p) with (run c (handle Timeout p)).
    assert (exists e, at_ (handle Timeout p) = Exited e) as [e He].
    { clear Hr. unfold handle, guarded, on_timeout in *. destruct p as [ar [|[]| |] [|n]]; cbn in *; eauto; done. }
    exists e. by rewrite (exited_stays c _ e).
Qed.
(** A second signal of the other kind, while the container is being shut down,
    ends the process at once with the code 1. *)
Example second_signal : at_ (run [Signal SIGINT; Closed; Signal SIGTERM; Stopped (Ok tt)] started) = Exited (Code 1).
Proof. reflexivity. Qed.
End Shutdown.

Module GracefulShutdown.

(** The parts asked to stop, in the order they are asked. *)
Inductive part : Type := Server | Daemons | Workers | Queues | RedisCache | Database.
#[export] Instance part_eq : EqDecision part.
Proof. solve_decision. Defined.
(** What a part does when it is asked: it has no method to ask, it answers, its
    promise is rejected, the call throws (or answers no promise to [catch]), or
    it never answers. *)
Inductive behaviour : Type := Absent | Answers | Rejects | Throws (e : exn) | Hangs.
(** How far a call got: to the end, to an error it logs, or to where it waits
    until the timer of thirty seconds ends the process. *)
Inductive progress : Type := Done | Failed (e : exn) | Waits (p : part).
Record state : Type := State { isShuttingDown : bool; asked : list part }.

Section shutdown.
Variable does : part -> behaviour.
Definition order : list part := [Server; Daemons; Workers; Queues; RedisCache; Database].
(** bootstrap/server/graceful-shutdown.ts:34-72 shutdown
    The server's callback takes no error, and the other promises are caught. *)
Fixpoint steps (l : list part) : meth state exn progress :=
  match l with
  | [] => mret Done
  | p :: l =>
      match does p with
      | Absent => steps l
      | Answers | Rejects => modify (fun s => State (isShuttingDown s) (asked s ++ [p]));; steps l
      | Throws e => modify (fun s => State (isShuttingDown s) (asked s ++ [p]));; mret (Failed e)
      | Hangs => modify (fun s => State (isShuttingDown s) (asked s ++ [p]));; mret (Waits p)
      end
  end.
(** bootstrap/server/graceful-shutdown.ts:21-80 shutdown *)
Definition shutdown : meth state exn progress :=
  s ← get_this;
  if isShuttingDown s then mret Done
  else modify (fun s => State true (asked s));; steps order.
(** bootstrap/server/graceful-shutdown.ts:27-30 shutdown
    Whether the process is ended after thirty seconds: the timer is cleared by a
    call that ends, well or not. *)
Definition forced (p : progress) : bool := match p with Waits _ => true | _ => false end.
(** bootstrap/server/signal-handler.ts:38-45 handleSignal
    Each of the three signals, as often as it comes. *)
Definition handleSignal : meth state exn progress := shutdown.
Fixpoint signalled (n : nat) : meth state exn unit := match n with O => mret tt | S n => handleSignal;; signalled n end.

(** The parts that are asked before one that stops the rest, and that one. *)
Fixpoint to_ask (l : list part) : list part :=
  match l with
  | [] => []
  | p :: l => match does p with Absent => to_ask l | Answers | Rejects => p :: to_ask l | Throws _ | Hangs => [p] end
  end.
Lemma steps_asked l s : exists r, steps l s = (State (isShuttingDown s) (asked s ++ to_ask l), Ok r).
Proof.
  revert s. induction l as [|p l IH]; intros [b a]; cbn [steps to_ask].
  - exists Done. cbn. by rewrite app_nil_r.
  - destruct (does p); [apply IH| | |by eexists|by eexists];
      (destruct (IH (State b (a ++ [p]))) as [r Hr]; exists r; cbn [isShuttingDown asked] in *;
       rewrite <- app_assoc in Hr; exact Hr).
Qed.
(** Whatever number of signals come, each part is asked to stop at most once, in
    the order server, daemons, workers, queues, Redis, database. *)
Theorem asked_once n :
  (signalled (S n) (State false [])).1 = State true (to_ask order) /\ NoDup (to_ask order) /\ to_ask order `sublist_of` order.
Proof.
  assert (forall l, to_ask l `sublist_of` l) as Hsub.
  { induction l as [|p l IH]; cbn; [done|]. destruct (does p); try (by constructor); apply sublist_skip, sublist_nil_l. }
  split; [|split; [eapply sublist_NoDup; [|apply Hsub]; unfold order; repeat constructor; set_solver|apply Hsub]].
  cbn [signalled]. unfold handleSignal, shutdown at 1, get_this, modify, mbind, meth_bind. cbn [isShuttingDown asked].
  destruct (steps_asked order (State true [])) as [r ->]. cbn [isShuttingDown asked]. rewrite app_nil_l.
  induction n as [|n IH]; [done|]. exact IH.
Qed.
End shutdown.

(** bootstrap/main.ts:20-26 main
    As the process is put together only the server has a method to ask: neither
    the worker's module, nor the daemons', nor the clients the container holds
    have one of that name. *)
Definition as_wired (p : part) : behaviour := match p with Server => Answers | _ => Absent end.
(** So a signal closes the server and nothing else, and takes the timer with it. *)
Example only_the_server : shutdown as_wired (State false []) = (State true [Server], Ok Done) /\ forced Done = false.
Proof. split; reflexivity. Qed.
End GracefulShutdown.

(** ** The first connection to Redis *)

(** What the set-up asks of the client. *)
Class RedisProbe (W : Type) : Type := {
  redis_ping : meth W exn string;
  config_set : string -> string -> meth W exn unit;
  setex : string -> Z -> string -> meth W exn unit;
  redis_get : string -> meth W exn (option string);
  redis_del : string -> meth W exn unit;
}.

Module RedisSetup.
(** bootstrap/redis-setup.ts:28-31 retryStrategy *)
Definition retryStrategy (times : Z) : Z := Z.min (times * 100) 3000.
Section setup.
Context {W : Type} `{!RedisProbe W}.
Abbreviation M := (meth W exn).
(** bootstrap/redis-setup.ts:40-49 setupRedis *)
Definition persistence : M unit :=
  try_catch (config_set "appendonly" "yes";; config_set "save" "900 1 300 10 60 10000") (fun _ => mret tt).
Definition testKey : string := "queueforge:startup:rw:test".
(** bootstrap/redis-setup.ts:34-58 setupRedis *)
Definition verify : M unit :=
  pong ← redis_ping;
  persistence;;
  setex testKey 10 "passed";;
  val ← redis_get testKey;
  redis_del testKey;;
  if decide (val = Some "passed") then mret tt else fail (PlainError "Read/Write verification check mismatch").
(** bootstrap/redis-setup.ts:14-70 setupRedis *)
Definition setupRedis : M unit :=
  try_catch verify (fun err => fail (InfrastructureError ("Redis client startup failed: " +:+ message_of err) "DB_CONNECTION_FAILED")).

(** A client is handed out only after it read back what it wrote; every other
    outcome is one kind of error. *)
Lemma handed_out_working w :
  match setupRedis w with
  | (w', Ok _) => exists w1 pong w2 w3 w4, redis_ping w = (w1, Ok pong) /\ persistence w1 = (w2, Ok tt) /\
      setex testKey 10 "passed" w2 = (w3, Ok tt) /\ redis_get testKey w3 = (w4, Ok (Some "passed")) /\ redis_del testKey w4 = (w', Ok tt)
  | (w', Throw e) => exists m, e = InfrastructureError ("Redis client startup failed: " +:+ m) "DB_CONNECTION_FAILED"
  end.
Proof.
  unfold setupRedis, try_catch. destruct (verify w) as [w5 [[]|e]] eqn:Ev; [|by eexists]. unfold verify in Ev.
  unfold mbind at 1, meth_bind at 1 in Ev. destruct (redis_ping w) as [w1 [pong|]] eqn:E1; [|done].
  unfold mbind at 1, meth_bind at 1 in Ev. destruct (persistence w1) as [w2 [[]|]] eqn:E2; [|done].
  unfold mbind, meth_bind in Ev. destruct (setex testKey 10 "passed" w2) as [w3 [[]|]] eqn:E3; [|done].
  destruct (redis_get testKey w3) as [w4 [val|]] eqn:E4; [|done]. destruct (redis_del testKey w4) as [w6 [[]|]] eqn:E5; [|done].
  case_decide as Hv; [|done]. subst val. injection Ev as ->. by exists w1, pong, w2, w3, w4.
Qed.
End setup.
Lemma retry_pause times : 1 <= times -> 100 <= retryStrategy times <= 3000 /\ retryStrategy times <= retryStrategy (times + 1).
Proof. unfold retryStrategy. lia. Qed.
End RedisSetup.
